(* ===== verification/_CoqProject ===== *)
-Q . S2P
Prelude.v
GoFloat.v
Sdk.v
GoBytes.v
TxStore.v
Fee.v
Config.v
TxmState.v
Logic.v
Demo.v
Broadcast.v
Pipeline.v
PipelineProofs.v
Confirm.v
ConfirmProofs.v
Enqueue.v
EnqueueProofs.v
Manager.v
Xdr.v
DemoCodec.v
Scval.v
ScvalProofs.v
TypeConverters.v
TypeConvertersProofs.v
EventPages.v
Invoker.v
StellarService.v
EventFields.v
Transmitter.v
AttemptPoller.v
DemoCache.v
AttemptPollerProofs.v
DestinationReader.v
SourceReader.v
SourceReaderProofs.v
Interaction.v
Deployer.v
DeployerSubmit.v
DeployerCalls.v
DeployerLogic.v
Discipline.v
SubmitProofs.v
SubmitTermination.v
DemoNode.v
TtlProofs.v
RelayerConfig.v
Chain.v
ChainProofs.v
DemoChain.v
Lanes.v
LaneSequence.v
LaneLedger.v
LaneConverge.v
LaneVerifiers.v
LaneProofs.v
LaneOrder.v
DemoLanes.v
GovRefs.v
Ownership.v
Bindgen.v
BindgenSem.v
Interfaces.v
BindingsRamps.v
BindingsPools.v
BindingsVerifiers.v
BindingsGovernance.v
RmnRemote.v
RmnLogic.v
BindgenProofs.v
Curse.v
Withdraw.v
CurseProofs.v
ActivateProofs.v
McmsVerify.v
StellarCodec.v
Stack.v
McmsDeploy.v
Bindings.v
McmsDeployProofs.v
DemoGovernance.v
