(* ===== verification/Prelude.v ===== *)
(** * Verification of the Stellar relayer and deployer

    The development verifies the core of the Go program of this repository: the
    transaction manager (relayer/txm, with relayer/config/txm.go), the contract
    invoker and the service built on it, the conversions between Go values, Soroban
    values and the domain's types (bindings/scval, bindings/invoke_payload.go,
    relayer/type_converters.go), the CCIP side: the source and destination readers
    and the contract transmitter (ccv), the deployer (deployment/deployer.go,
    deployment/ttl.go), the configuration of a chain and the construction of its
    service (relayer/config, relayer/chain), the configuration of the chain's
    lanes (deployment/sequences/configure_stellar_lanes.go), the governance of
    its contracts (deployment/mcmsutil, deployment/ownership, the curse, activation,
    ownership, stack deployment and verification sequences, the curse adapter and
    the withdrawal of fee tokens),
    and the contract bindings: their generator (bindings/generator) and the 27
    packages it made (bindings/contracts).

    ** How the program works

    A caller hands a [TxRequest] to [Enqueue]; the manager registers a [StellarTx]
    under its id and puts a pointer to it in a bounded broadcast channel.  The
    broadcast loop takes it out, gives it the next sequence number of its account,
    and builds, simulates, assembles, signs and submits an envelope, retrying on
    rejections; on acceptance the account's [TxStore] records the envelope as in
    flight.  The confirm loop polls the node for each in-flight envelope and makes
    the transaction Finalized, Failed, or queues it again when its envelope can no
    longer be included; the prune loop forgets old terminal transactions.
    [EnqueueAndWait] blocks until the transaction's [Done] channel is closed.  The
    [InvokerAdapter] turns a contract call into such a request and decodes the
    return value.  The relayer's service converts arguments, events and results
    between the domain's types and the SDK's XDR types.

    On the CCIP side the source reader pages through the OnRamp's events and decodes
    the messages sent; the contract transmitter executes a message, with its
    verifiers' signatures in EIP-2098 form, through an invoker; the attempt poller
    watches the OffRamp's events, fetches the executing transactions and caches the
    attempts it decodes from their calls, retrying failed fetches.

    The deployer is the other way to the chain, for deployments and tools: one call
    at a time, it reads its account's sequence, simulates, restores archived
    entries when the simulation asks for it, declares the simulated resources,
    signs, sends, and polls until the envelope's validity ends; three rounds at
    most.  Its methods are programs that make requests to an environment.

    A node starts the relayer with the TOML text of a chain: it is decoded, merged
    onto the defaults of docs.toml, validated, and made into a chain service with
    its pool of nodes, its manager and its balance monitor.

    A lane configuration makes a chain's contracts (router, onramp, offramp,
    executors, fee quoter, committee verifiers) serve a set of remote chains: it
    reads what they keep, plans what differs, and writes that, the router last.

    The contracts of a chain are owned by its deployer and then by the timelock of
    a governance stack: a timelock and three multisigs of one qualifier.  The RMN
    Remote, which curses subjects, is activated: admins are granted, old curses
    migrated, its ownership transferred.  A governance sequence runs a call directly
    when its deployer may, and else makes a proposal of it for the timelock that
    may; the curse adapter reads the owner and the admins before it routes.

    All of these call contracts through generated packages.  The generator parses a
    contract's interface (Rust), maps its types to Go's and emits two files: types.go
    with the structures, enums, error codes and event structures and their
    conversions to and from Soroban values, and client.go with a method per function
    and, per event, its parser and a wait for it.

    ** Files

    Foundations.
    - Prelude.v: errors and results, panics ([outcome]), machine integers, strings,
      tactics.  GoFloat.v: float64 arithmetic.  GoBytes.v: big-endian integers and
      hexadecimal.
    - Sdk.v: the data of the Stellar SDK and RPC, and the third-party code as
      parameters: [Sdk] (pure functions of txnbuild, xdr, strkey) and [Env] (RPC
      client, keystore, clock, timers), functions on an environment state [W].
    - Xdr.v: [xdr.ScVal] and its parts, and the codec ([Codec]) with the documented
      laws the program relies on ([CodecLaws]).

    Transaction manager.
    - TxStore.v: txstore.go.  Sequence numbers of an account; the abstract
      allocator it refines; the broadcaster and confirmer as a transition system.
    - Fee.v: fee.go, fee_tracker.go.  Config.v: config/txm.go.
    - TxmState.v: tx.go and the state, status helpers and queries of txm.go, as a
      state monad [M] over a heap of shared [StellarTx] objects.
    - Logic.v: the program logic of [M] ([steps], [triple], [rets]), and the effect
      and frame of the status helpers.
    - Enqueue.v, EnqueueProofs.v: [Enqueue], [EnqueueAndWait], the payload digest,
      backpressure.
    - Broadcast.v, Pipeline.v, PipelineProofs.v: broadcast.go,
      failed_result.go, restore.go and [simulateAssembleSignAndSend].
    - Confirm.v, ConfirmProofs.v: [checkUnconfirmed], [maybeRetry], pruning.
    - Manager.v: the goroutines interleaved, with the invariant of the whole manager.

    Invoker and conversions.
    - Scval.v, ScvalProofs.v: scval.go.
    - TypeConverters.v, TypeConvertersProofs.v: type_converters.go.
    - Invoker.v: invoker_adapter.go and invoke_payload.go, over the interface
      [InvokerTxManager] that the manager of Enqueue.v implements.
    - StellarService.v: stellar_service.go, over the same interface.

    CCIP readers and transmitter (ccv).
    - EventPages.v: the two loops that page through events
      (destination_reader/events.go, [fetchAllEvents] of source_reader.go).
    - EventFields.v: structures decoded from a contract's map, field by field.
    - Transmitter.v: contract_transmitter.go, the OffRamp's execute call and its
      decoding.
    - AttemptPoller.v, AttemptPollerProofs.v:
      execution_attempt_poller.go and execution_state_changed_event.go.
    - DestinationReader.v: destination_reader.go and the views it calls.
    - SourceReader.v, SourceReaderProofs.v: source_reader.go.

    Deployer (deployment).
    - Interaction.v: programs as trees of requests, their traces, [wp] over every
      answer, [swp] over those that a state allows, [run] on a handler, and the
      monad of the programs that may fail ([fprog]).
    - Deployer.v: the data and pure parts of deployer.go.  DeployerSubmit.v:
      submission, from [getSourceAccount] to [buildAndSubmitTransaction].
      DeployerCalls.v: the exported operations, and ttl.go.
    - DeployerLogic.v: the program logic ([hoare]), resources, fees and results.
      Discipline.v: what a trace of submissions satisfies, method by method.
      SubmitProofs.v: the calls.  SubmitTermination.v: they end.
      TtlProofs.v: extensions and their preview.

    Configuration and construction of a chain (relayer).
    - RelayerConfig.v: config/config.go and config/toml.go; the merges as an algebra
      ([Overlay]), and decoding.
    - Chain.v: chain/*.go, the [NewRelayer] factory of cmd/chainlink-stellar/main.go
      and monitor/balance.go's constructor.  ChainProofs.v: construction, node
      statuses, the capped transport.

    Lane configuration (deployment/sequences, deployment/operations).
    - Lanes.v: the binding structures, the requests and the pure parts of
      configure_stellar_lanes.go.  LaneSequence.v: the sequence as a program of
      Interaction.v, phase by phase, and the operations it executes.
    - LaneLedger.v: what the contracts keep ([View]), how they answer and what a
      write does ([ledger_step]), the instance [vwp] of [swp] on them and
      the refinement of a reading program by a function ([reader]); the plan as a
      function of the view, which the reading phases refine.
    - LaneConverge.v: the plan selector by selector, tables after a write;
      a part written once is settled.  LaneVerifiers.v: quorums and finality.
      LaneProofs.v: a whole run, and its theorems.
      LaneOrder.v: the order of its requests on every answer.

    Governance (deployment).
    - GovRefs.v: the datastore's references, roles, salts and lookups (mcmsutil),
      payloads, addresses; its theorems on the lookups and the salts.
    - Ownership.v: the client methods over the two calls of the invoker, and
      deployment/ownership.  RmnRemote.v: the contracts that answer them (Rust,
      contracts/rmn_remote and contracts/common/authorization), and the execution of
      a proposal.  RmnLogic.v: names of addresses, and what each call does.
    - Curse.v: curse.go, adapters/stellar_curse_adapter.go, transfer_ownership.go
      and activate_rmn.go.  CurseProofs.v, ActivateProofs.v: what they do.
    - Withdraw.v: withdraw_fee_tokens.go, and what a withdrawal does.
    - McmsVerify.v: mcms_verify.go and the authority it decides
      ([well_governed]).
    - Stack.v: the contracts of a stack (Rust, contracts/mcms, contracts/timelock) on
      a chain where contracts are deployed.  McmsDeploy.v: sequences/mcms.go, the
      reader of the verifier and mcmsutil/config.go.  McmsDeployProofs.v: what the
      reader reads ([snapshot]), and a deployment.
    - StellarCodec.v: strkeys and XDR as a concrete [Codec], with its round trips.

    Contract bindings (bindings).
    - Bindgen.v: bindings/generator.  The parsed contract, the type mapping and what
      is emitted for each type, structure, enum, error, event and method, as abstract
      syntax: a conversion is the name of the function of bindings/scval that it
      calls, or the loop or switch around one ([enc], [dec]).  [main] is main.go from
      the parsed contract to the two files.
    - BindgenSem.v: what the emitted code does: [named_to] and [named_from] are
      [ToScVal] and [FromScVal] of the declared types, [run_method] a method of a
      client, [run_parse] and [run_wait] the helpers of an event.  Code that does not
      compile has no meaning.
    - Interfaces.v: the interface of each of the 27 contracts, read from the Rust
      sources.  BindingsRamps.v, BindingsPools.v, BindingsVerifiers.v,
      BindingsGovernance.v: the 27 packages, a definition for each declaration and
      each function of types.go and client.go, in the abstract syntax of Bindgen.v.
    - BindgenProofs.v: the round trip of every type the generator can handle
      ([named_roundtrip]), the event parsers ([event_parses]) and the wait.
    - Bindings.v: the packages are the generator's, and the theorems on them.

    Demo.v, DemoCodec.v, DemoCache.v, DemoNode.v, DemoChain.v, DemoLanes.v and
    DemoGovernance.v are concrete instances of the parameters, on which the
    witnesses of the theorems run.

    ** What the theorems show

    - No transaction is lost ([no_transaction_forgotten]): in every reachable state
      of the interleaved manager a registered transaction is terminal, queued, in
      flight, or one of the drops and shutdown cancellations recorded; it is never
      in two places ([single_flight]); a woken waiter sees a terminal result
      ([waiter_sees_terminal]); a confirm pass never acts on a stale record
      ([snapshot_never_stale]).
    - The broadcast pipeline terminates for every behaviour of its environment
      ([pipeline_terminates]) and its effect is known on every return
      ([pipeline_outcome]).
    - The confirm pass does what it should on every answer of the node
      ([check_one_spec]) and makes a sequence number available again only when its
      envelope can no longer be included ([recycled_only_when_dead],
      [expiry_tests_sound]).
    - The sequence store refines an allocator ([store_refines_allocator]), leaves no
      gap ([no_sequence_gap]) and hands out the least available number.
    - Enqueueing is idempotent, binds an id to one payload, and on a full channel
      evicts exactly the oldest transaction.
    - Fees stay within their caps and never wrap, except where
      [InclusionFee_overflow] shows they do.
    - The conversions round-trip: arguments ([fromDomain_toDomain]), chain values
      ([chain_value_spec]), 128- and 256-bit integers, structures, addresses, wire
      envelopes, vectors, invoke payloads; event requests and responses are
      translated faithfully or refused for a stated reason.
    - An invocation returns a value only for a finalized transaction
      ([InvokeContract_spec]); the service reports a submission as what it became
      ([SubmitTransaction_spec]) and a simulation as the node's
      ([SimulateTransaction_spec]).
    - Paging through events loses none, up to the end ledger
      ([GetEventsInRange_complete], [fetchAllEvents_complete]), and a fetch of
      messages is complete or an error ([FetchMessageSentEvents_spec]).
    - Signatures become EIP-2098 ones and the report executed is the report read
      back ([ConvertVerifierBlobToEIP2098_spec],
      [ConvertAndWriteMessageToChain_spec]).
    - Cached attempts are authentic under every interleaving of the poller's
      goroutines ([attempts_authentic]); a poll accounts for every event of its
      window ([pollForEvents_spec]); retries end ([retries_end]).
    - Events, receipts, headers and CCV lists are what the chain says, and decoding
      an event or a list of CCVs never panics on a value the XDR decoder produces.

    - Every call of the deployer, whatever the node answers, signs only envelopes
      of its account with the sequence last read, a fee within the cap and a
      validity from the clock, and sends one only when nothing is under way
      ([submission_discipline]); a value returned is the one of a transaction
      confirmed for the call asked ([InvokeContract_confirmed]).  What the retry
      takes for a proof that nothing was executed is not always one
      ([timed_out_retry_executes_twice]).  Declared resources are the ideal ones
      ([declared_data_spec]); an extension reaches its target or is not needed
      ([ExtendTTLTo_spec]), and its preview is its beginning ([preview_is_prefix]).

    - A configuration text is accepted exactly when it is acceptable, and every
      setting the code dereferences is then set ([NewDecodedTOMLConfig_spec]);
      layers of configuration merge in any grouping ([TOMLConfig_SetFrom_assoc]);
      the factory never panics and builds the chain of its text ([NewRelayer_spec]);
      pages of node statuses are slices ([listNodeStatuses_spec]) and the capped
      transport never truncates ([RoundTrip_spec]).

    - A lane configuration that returns leaves every lane wired as its input says
      ([configure_wires]), a second run of it only reads ([configure_idempotent]),
      and on every answer of the contracts its writes come in the documented order,
      the router last, stopping at the first failure ([configure_order]).  The
      hypotheses are that the committee verifiers of the input are distinct and
      that our offramp is the router's last one where it is listed; DemoLanes.v
      shows what happens otherwise ([offramp_not_last]).

    - An RMN Remote goes from its deployer to governance without a loss: an
      activation that stops anywhere leaves the deployer in charge and every admin
      and curse kept, and after the accepted transfer the timelock owns it, both
      stacks may curse, and activating again does nothing ([handover]).
    - A curse of the adapter lands on the contract or sends nothing, however stale
      the adapter was ([adapter_curse_lands]); an uncurse is the owner's
      ([adapter_uncurse_by_owner]).
    - A withdrawal of fee tokens asks nothing of the contracts unless its input is
      good, and calls or proposes for each contract swept, in order
      ([withdrawal_spec]).
    - The verifier returns exactly on the stacks that have the authority it
      describes, reads permitting ([verify_decides]); the contracts of distinct
      stacks have distinct salts ([salts_separate]), and the two lookups of a
      timelock agree ([timelock_lookups_agree]).
    - A stack deployed is one the verifier accepts: fresh contracts with exactly the
      authority, configurations and delay asked, found again by a second run, or a
      failure that leaves what was there as it was ([deployment_governs]).

    - The checked-in bindings are what the generator makes of the contracts'
      interfaces ([bindings_generated]); every value of a type they declare survives
      its encoding ([bindings_roundtrip]); an event is parsed to the values it
      carries ([bindings_parse]); a wait returns the first event that parses and
      passes ([WaitFor_spec]); and the client methods that the governance part writes
      out by hand are the generated ones ([client_methods]).

    ** Bounds and fuel

    Only the submission loop, the draining of the channel, the polling of a restore,
    the paging of events and the deployer's confirmation poll are not structural.  The first gets
    [MaxSubmitRetryAttempts + 2] units and [pipeline_terminates] proves that it
    never runs out; the second the length of the channel; the third the number of
    ticks before its deadline; the fourth is enough with one unit per event and two
    more; the last with one more unit than the ticks its timers leave, and
    [calls_end] proves that some fuel is enough for every call and that more of it
    changes nothing.  A generated conversion takes the depth to which declared types
    are nested in its value, which a value of a type bounds ([fits_named]); a wait for
    an event takes the number of its ticks, and what it did in all of them is part of
    [WaitFor_spec].  Integers have Go's widths, with wrap-around written out where the code
    can reach it; a float that does not fit an int64 converts as a parameter says.

    ** What is not modelled

    Logging and metric exporters (metric calls are events of the state); the start
    and stop of the service beyond the [stopped] flag; a broadcast channel of
    capacity zero (the theorems on queues assume a positive one); preemption inside
    a method that holds no lock other than the points named in Enqueue.v (a step of
    Manager.v is a whole method call, while the program's goroutines may interleave
    at each RPC call); [Simulate] for a request with a nil operation, which panics
    inside the SDK.  Formatted arguments of error messages that no caller inspects
    are not rendered, nor contexts and request formats of the service.  The tickers
    of the poller's loops: its methods run any number of times, with the other
    goroutines acting at every RPC and before every access to the caches.  For the
    deployer, the choice of a signer and the logger: a signer is what answers
    [SignTransaction].  For the
    chain service, its start, stop and health, which are delegation to the
    framework, and the balance fetch.  For the lane configuration, the framework's
    record of operations already executed: each operation runs, as it does in a
    fresh bundle.  The same for the governance sequences; what upstream's batches
    keep of a write is a law ([BatchLaws]); of the contracts, the entry points that
    the sequences call, without events, fees and the lifetime of entries; a
    proposal of a timelock is executed by [exec_txs], without its signatures and its
    delay.  Of the generator, the regular expressions that find the items of the
    interface's text and the layout of the emitted text: the interfaces and the
    packages are written here as data, item by item.  Of the bindings, the files
    written by hand (extra_types.go of the onramp and the timelock, signer.go).
    The rest of the repository (the accessors that build the readers, the other
    changesets, sequences and address books, contracts) is listed in the manifest
    with the reason. *)

From Stdlib Require Export ZArith Lia.
From stdpp Require Export base tactics option list gmap strings sorting.
From stdpp Require Export numbers.

(** ** Notation scope of the development *)

Declare Scope go_scope.
Delimit Scope go_scope with go.
#[global] Open Scope Z_scope.

(** ** Errors and fallible results

    A Go [error] keeps its text (some callers match on it) and the sentinels
    that are compared by identity.  Formatted arguments of [fmt.Errorf] that no
    caller inspects are not rendered. *)

Inductive error :=
| ErrorString (msg : string)
| ErrTxmStopped
| ErrIdempotencyKeyPayloadMismatch
| ErrCtx
| Wrapf (pre : string) (e : error)
| WrapSuffix (e : error) (post : string)
| Join (e1 e2 : error).

Definition newline : string := String (Ascii.ascii_of_nat 10) "".

(** [err.Error()]. *)
Fixpoint Error (e : error) : string :=
  match e with
  | ErrorString m => m
  | ErrTxmStopped => "txm stopped"
  | ErrIdempotencyKeyPayloadMismatch =>
      "idempotency key already used with a different payload"
  | ErrCtx => "context canceled"
  | Wrapf pre e' => pre +:+ Error e'
  | WrapSuffix e' post => Error e' +:+ post
  | Join e1 e2 => Error e1 +:+ newline +:+ Error e2
  end.

(** [errors.Is(err, ErrIdempotencyKeyPayloadMismatch)]. *)
Fixpoint is_payload_mismatch (e : error) : bool :=
  match e with
  | ErrIdempotencyKeyPayloadMismatch => true
  | Wrapf _ e' | WrapSuffix e' _ => is_payload_mismatch e'
  | Join e1 e2 => is_payload_mismatch e1 || is_payload_mismatch e2
  | _ => false
  end.

(** A pair [(value, error)] of which exactly one half is meaningful. *)
Inductive res (A : Type) :=
| Ok (a : A)
| Err (e : error).
Arguments Ok {A} a.
Arguments Err {A} e.

#[export] Instance res_ret : MRet res := fun A a => Ok a.
#[export] Instance res_bind : MBind res := fun A B f m =>
  match m with Ok a => f a | Err e => Err e end.
#[export] Instance res_fmap : FMap res := fun A B f m =>
  match m with Ok a => Ok (f a) | Err e => Err e end.

Definition is_ok {A} (r : res A) : bool :=
  match r with Ok _ => true | Err _ => false end.

(** [if err != nil { return fmt.Errorf(pre + ": %w", err) }]. *)
Definition wrap_err {A} (pre : string) (r : res A) : res A :=
  match r with Ok a => Ok a | Err e => Err (Wrapf pre e) end.

Definition res_of_option {A} (e : error) (o : option A) : res A :=
  match o with Some a => Ok a | None => Err e end.

(** A loop over a slice that stops at the first error and keeps the index in
    the error's context. *)
Fixpoint mapM_res {A B} (f : nat -> A -> res B) (i : nat) (l : list A) : res (list B) :=
  match l with
  | [] => Ok []
  | a :: l' =>
      match f i a with
      | Err e => Err e
      | Ok b => match mapM_res f (S i) l' with
                | Err e => Err e
                | Ok bs => Ok (b :: bs)
                end
      end
  end.

(** ** Code that can panic

    The result of a call that returns [(value, error)] or panics (a nil pointer
    dereferenced, an explicit [panic]). *)

Inductive outcome (A : Type) :=
| Returns (a : A)
| Errs (e : error)
| Panics.
Arguments Returns {A} a.
Arguments Errs {A} e.
Arguments Panics {A}.

#[export] Instance outcome_ret : MRet outcome := fun A a => Returns a.
#[export] Instance outcome_bind : MBind outcome := fun A B f m =>
  match m with Returns a => f a | Errs e => Errs e | Panics => Panics end.
#[export] Instance outcome_fmap : FMap outcome := fun A B f m =>
  match m with Returns a => Returns (f a) | Errs e => Errs e | Panics => Panics end.

Definition out_of_res {A} (r : res A) : outcome A :=
  match r with Ok a => Returns a | Err e => Errs e end.

(** A dereferenced pointer. *)
Definition deref {A} (o : option A) : outcome A :=
  match o with Some a => Returns a | None => Panics end.

Definition wrap_out {A} (pre : string) (r : outcome A) : outcome A :=
  match r with Errs e => Errs (Wrapf pre e) | _ => r end.

Definition is_done {A} (r : outcome A) : bool :=
  match r with Returns _ => true | _ => false end.

Section MapOut.
Context {A B : Type} (f : A -> outcome B).

(** A loop over a slice that stops at the first error or panic. *)
Fixpoint mapM_out (l : list A) : outcome (list B) :=
  match l with
  | [] => Returns []
  | a :: l' =>
      match f a with
      | Returns b => match mapM_out l' with
                  | Returns bs => Returns (b :: bs)
                  | Errs e => Errs e
                  | Panics => Panics
                  end
      | Errs e => Errs e
      | Panics => Panics
      end
  end.

End MapOut.

(** ** Machine integers: Go's wrap-around arithmetic *)

Definition two32 : Z := 4294967296.
Definition two63 : Z := 9223372036854775808.
Definition two64 : Z := 18446744073709551616.
Definition MaxInt64 : Z := two63 - 1.
Definition MaxUint32 : Z := two32 - 1.
Definition MaxUint64 : Z := two64 - 1.

Definition u32 (x : Z) : Z := x mod two32.
Definition u64 (x : Z) : Z := x mod two64.
Definition i64 (x : Z) : Z := (x + two63) mod two64 - two63.

Definition is_u32 (x : Z) : Prop := 0 <= x < two32.
Definition is_u64 (x : Z) : Prop := 0 <= x < two64.
Definition is_i64 (x : Z) : Prop := - two63 <= x < two63.

(** [time.Duration] arithmetic: [Time.Sub] saturates. *)
Definition time_sub (a b : Z) : Z := Z.max (- two63) (Z.min MaxInt64 (a - b)).

(** ** Strings *)

(** [strings.ToLower] on ASCII text. *)
Definition ascii_lower (c : Ascii.ascii) : Ascii.ascii :=
  let n := Ascii.nat_of_ascii c in
  if (Nat.leb 65 n && Nat.leb n 90)%bool then Ascii.ascii_of_nat (n + 32) else c.

Fixpoint string_map (f : Ascii.ascii -> Ascii.ascii) (s : string) : string :=
  match s with
  | EmptyString => EmptyString
  | String c s' => String (f c) (string_map f s')
  end.

Definition ToLower : string -> string := string_map ascii_lower.

(** [strings.Contains s sub]. *)
Fixpoint Contains (s sub : string) : bool :=
  String.prefix sub s ||
  match s with
  | EmptyString => false
  | String _ s' => Contains s' sub
  end.

(** ** Automation *)

Create HintDb goint.
Create Rewrite HintDb goint_rw.

Ltac unfold_goint :=
  unfold u32, u64, i64, is_u32, is_u64, is_i64, time_sub, MaxInt64, MaxUint32,
    MaxUint64, two32, two63, two64 in *.

(** Arithmetic on machine integers: unfold the widths and reason modulo them. *)
Ltac goint := unfold_goint; Z.div_mod_to_equations; lia.

(** Split every [match] and [if] of the goal or of a hypothesis. *)
Ltac split_match :=
  repeat match goal with
         | |- context [match ?x with _ => _ end] => destruct x eqn:?; simplify_eq/=
         end.
Ltac split_match_in H :=
  repeat match type of H with
         | context [match ?x with _ => _ end] => destruct x eqn:?; simplify_eq/=
         end.

(** Boolean integer comparisons as propositions. *)
Ltac zbool :=
  repeat match goal with
         | H : (_ <? _) = true |- _ => apply Z.ltb_lt in H
         | H : (_ <? _) = false |- _ => apply Z.ltb_ge in H
         | H : (_ <=? _) = true |- _ => apply Z.leb_le in H
         | H : (_ <=? _) = false |- _ => apply Z.leb_gt in H
         | H : (_ >? _) = true |- _ => rewrite Z.gtb_ltb in H
         | H : (_ >? _) = false |- _ => rewrite Z.gtb_ltb in H
         | H : (_ >=? _) = true |- _ => rewrite Z.geb_leb in H
         | H : (_ >=? _) = false |- _ => rewrite Z.geb_leb in H
         | H : (_ =? _) = true |- _ => apply Z.eqb_eq in H
         | H : (_ =? _) = false |- _ => apply Z.eqb_neq in H
         | H : (_ && _)%bool = true |- _ => apply andb_true_iff in H as [? ?]
         | H : (_ || _)%bool = false |- _ => apply orb_false_iff in H as [? ?]
         | H : negb _ = true |- _ => apply negb_true_iff in H
         | H : negb _ = false |- _ => apply negb_false_iff in H
         end.

(** ** Generic lemmas *)

Lemma u32_id x : is_u32 x -> u32 x = x.
Proof. intros; unfold u32; apply Z.mod_small; assumption. Qed.

Lemma u64_id x : is_u64 x -> u64 x = x.
Proof. intros; unfold u64; apply Z.mod_small; assumption. Qed.

Lemma i64_id x : is_i64 x -> i64 x = x.
Proof. intros; goint. Qed.

Lemma u32_range x : is_u32 (u32 x).
Proof. apply Z.mod_pos_bound; reflexivity. Qed.

Lemma u64_range x : is_u64 (u64 x).
Proof. apply Z.mod_pos_bound; reflexivity. Qed.

Lemma i64_range x : is_i64 (i64 x).
Proof. goint. Qed.

Lemma i64_u64 x : i64 (u64 x) = i64 x.
Proof. goint. Qed.

Lemma u64_i64 x : u64 (i64 x) = u64 x.
Proof. goint. Qed.

#[export] Hint Resolve u32_range u64_range i64_range : goint.
#[export] Hint Rewrite i64_u64 u64_i64 : goint_rw.
#[export] Hint Rewrite u32_id u64_id i64_id using (assumption || goint) : goint_rw.

Lemma mapM_res_ok {A B} (f : nat -> A -> res B) i l bs :
  mapM_res f i l = Ok bs ->
  length bs = length l /\
  forall k b, bs !! k = Some b -> exists a, l !! k = Some a /\ f (i + k)%nat a = Ok b.
Proof.
  revert i bs; induction l as [|a l IH]; intros i bs H; simpl in H; simplify_eq/=.
  - split; [done|]. intros k b. by rewrite lookup_nil.
  - destruct (f i a) as [b|] eqn:Hf; [|done].
    destruct (mapM_res f (S i) l) as [bs'|] eqn:Hm; simplify_eq/=.
    destruct (IH _ _ Hm) as [Hl Hk]. split; [simpl; lia|].
    intros [|k] b' Hb; simplify_eq/=.
    + exists a. by rewrite Nat.add_0_r.
    + destruct (Hk _ _ Hb) as (a' & ? & ?). exists a'. split; [done|].
      by replace (i + S k)%nat with (S i + k)%nat by lia.
Qed.

Lemma mapM_out_Forall2 {A B} (f : A -> outcome B) l bs :
  mapM_out f l = Returns bs <-> Forall2 (fun a b => f a = Returns b) l bs.
Proof.
  split.
  - revert bs; induction l as [|a l IH]; intros bs E; simpl in E; simplify_eq/=; [constructor|].
    destruct (f a) eqn:?; try done. destruct (mapM_out f l); try done. simplify_eq.
    constructor; [done|]. by apply IH.
  - induction 1 as [|a b l bs E _ IH]; simpl; [done|]. by rewrite E, IH.
Qed.

(** A conversion undone element by element is undone on the whole list. *)
Lemma mapM_out_inv {A B C} (f : A -> outcome B) (g : B -> outcome C) (h : A -> C) l bs :
  Forall (fun a => forall b, f a = Returns b -> g b = Returns (h a)) l ->
  mapM_out f l = Returns bs -> mapM_out g bs = Returns (h <$> l).
Proof.
  rewrite !mapM_out_Forall2. intros Hfg H. induction H as [|a b l bs E _ IH]; [constructor|].
  inversion Hfg; subst. constructor; [eauto|]. by apply IH.
Qed.

Lemma mapM_out_is_done {A B} (f : A -> outcome B) l :
  is_done (mapM_out f l) = forallb (fun a => is_done (f a)) l.
Proof.
  induction l as [|a l IH]; simpl; [done|]. rewrite <- IH.
  destruct (f a); simpl; [|done..]. by destruct (mapM_out f l).
Qed.
