(* ===== verification/GoFloat.v ===== *)
(** * IEEE 754 binary64 arithmetic as the fee strategy uses it

    Go's [float64] on the Standard Library's [SpecFloat] (53-bit precision,
    round to nearest even).  [math.Ceil] and [math.Pow] follow the portable
    algorithms of Go's standard library; [math.Pow] is modelled for the exponents
    the code passes, which are [float64(attempt)] of a [uint64].

    The conversion of a float that does not fit an [int64] is implementation
    defined in Go, so its value is an argument ([f64_oob]); [amd64_conv] is the
    x86-64 instruction's answer, [arm64_conv] the saturating one. *)

From Stdlib Require Import Floats.SpecFloat.
From S2P Require Import Prelude.

Abbreviation f64 := spec_float.

Definition f64_of_int (z : Z) : f64 := binary_normalize 53 1024 z 0 false.
Definition f64_mul : f64 -> f64 -> f64 := SFmul 53 1024.
Definition f64_add : f64 -> f64 -> f64 := SFadd 53 1024.

(** The decimal literals the configuration uses: [num / den]. *)
Definition f64_ratio (num den : Z) : f64 :=
  SFdiv 53 1024 (f64_of_int num) (f64_of_int den).

(** [math.Ceil]. *)
Definition f64_ceil (x : f64) : f64 :=
  match x with
  | S754_finite s m e =>
      if 0 <=? e then x
      else
        let d := 2 ^ (- e) in
        let z := if s then - (Z.pos m / d) else - ((- Z.pos m) / d) in
        binary_normalize 53 1024 z 0 s
  | _ => x
  end.

(** The integer part of a finite float, rounded toward zero. *)
Definition f64_trunc (x : f64) : option Z :=
  match x with
  | S754_zero _ => Some 0
  | S754_finite s m e =>
      let a := if 0 <=? e then Z.pos m * 2 ^ e else Z.pos m / 2 ^ (- e) in
      Some (if s then - a else a)
  | _ => None
  end.

(** The implementation-defined part of [int64(f)]. *)
Class FloatConv := f64_oob : f64 -> Z.

Definition f64_to_i64 `{FloatConv} (x : f64) : Z :=
  match f64_trunc x with
  | Some z => if ((- two63 <=? z) && (z <? two63))%bool then z else i64 (f64_oob x)
  | None => i64 (f64_oob x)
  end.

Definition amd64_conv : FloatConv := fun _ => - two63.
Definition arm64_conv : FloatConv := fun x =>
  match x with
  | S754_nan => 0
  | S754_infinity s | S754_zero s | S754_finite s _ _ => if s then - two63 else MaxInt64
  end.

(** The loop [for i := int64(yi); i != 0; i >>= 1] of [math.Pow]: [i] has at
    most 63 bits, so fuel 64 runs it to completion. *)
Fixpoint pow_loop (fuel : nat) (i : Z) (x1 : f64) (xe : Z) (a1 : f64) (ae : Z) : f64 * Z :=
  match fuel with
  | O => (a1, ae)
  | S fuel' =>
      if i =? 0 then (a1, ae)
      else if ((xe <? -4096) || (4096 <? xe))%bool then (a1, ae + xe)
      else
        let '(a1, ae) := if Z.odd i then (f64_mul a1 x1, ae + xe) else (a1, ae) in
        let x1 := f64_mul x1 x1 in
        let xe := Z.shiftl xe 1 in
        let '(x1, xe) := if SFltb x1 (f64_ratio 1 2) then (f64_add x1 x1, xe - 1) else (x1, xe) in
        pow_loop fuel' (Z.shiftr i 1) x1 xe a1 ae
  end.

Definition f64_one : f64 := f64_of_int 1.

(** [math.Pow(x, float64(n))] for a [uint64] [n]. *)
Definition f64_pow (x : f64) (n : Z) : f64 :=
  let y := f64_of_int n in
  let yi := match f64_trunc y with Some z => z | None => 0 end in
  let odd := ((yi <? 2 ^ 53) && Z.odd yi)%bool in
  if ((yi =? 0) || SFeqb x f64_one)%bool then f64_one
  else if yi =? 1 then x
  else match x with
  | S754_nan => S754_nan
  | S754_zero s => S754_zero (s && odd)
  | S754_infinity s => S754_infinity (s && odd)
  | S754_finite s _ _ =>
      if two63 <=? yi then
        if SFeqb x (SFopp f64_one) then f64_one
        else if SFltb (SFabs x) f64_one then S754_zero false else S754_infinity false
      else
        let '(x1, xe) := SFfrexp 53 1024 x in
        let '(a1, ae) := pow_loop 64 yi x1 xe f64_one 0 in
        SFldexp 53 1024 a1 ae
  end.

Lemma f64_to_i64_range `{FloatConv} x : is_i64 (f64_to_i64 x).
Proof.
  unfold f64_to_i64. destruct (f64_trunc x) as [z|]; [|apply i64_range].
  destruct (_ && _)%bool eqn:E; [|apply i64_range]. zbool. split; lia.
Qed.

#[export] Hint Resolve f64_to_i64_range : goint.
