(* ===== verification/Sdk.v ===== *)
(** * What the transaction manager calls and does not define

    The Stellar SDK's data (RPC responses, decoded XDR results) as Rocq data, and
    the third-party code as parameters: [Sdk] holds the pure functions of
    txnbuild, xdr and strkey, [Env] the calls that reach the outside world (the
    RPC client, the keystore, the clock and timers), each a function on an
    environment state [W].  No definition is made up for them; the theorems
    quantify over every instance, and the witnesses use the scripted one of
    Demo.v. *)

From S2P Require Import Prelude.

Abbreviation bytes := (list Z).

(** ** RPC responses (the fields the code reads) *)

Record GetLatestLedgerResponse := mkLatestLedger {
  ll_Sequence : Z;
  ll_LedgerCloseTime : Z
}.

Record RestorePreamble := mkRestorePreamble {
  rp_TransactionDataXDR : string;
  rp_MinResourceFee : Z
}.

Record SimulateHostFunctionResult := mkSimHostResult {
  AuthXDR : option (list string);
  ReturnValueXDR : option string
}.

Record SimulateTransactionResponse := mkSimResponse {
  sim_Error : string;
  sim_RestorePreamble : option RestorePreamble;
  sim_TransactionDataXDR : string;
  sim_MinResourceFee : Z;
  sim_Results : list SimulateHostFunctionResult
}.

(** [stellarcore.TXStatus*]. *)
Inductive TXStatus :=
| TXStatusPending
| TXStatusDuplicate
| TXStatusTryAgainLater
| TXStatusError
| TXStatusOther (s : string).

Record SendTransactionResponse := mkSendResponse {
  send_Status : TXStatus;
  send_Hash : string;
  send_ErrorResultXDR : string
}.

(** [protocolrpc.TransactionStatus*]. *)
Inductive RpcTxStatus :=
| TransactionStatusSuccess
| TransactionStatusFailed
| TransactionStatusNotFound
| TransactionStatusOther (s : string).

Record GetTransactionResponse := mkGetTransactionResponse {
  gt_Status : RpcTxStatus;
  gt_ResultXDR : string;
  gt_ResultMetaXDR : string;
  gt_LedgerCloseTime : Z;
  gt_LatestLedger : Z;
  gt_LatestLedgerCloseTime : Z
}.

(** [resp.SorobanInclusionFee]'s percentiles. *)
Record FeeStats := mkFeeStats { fs_p50 : Z; fs_p90 : Z; fs_p99 : Z }.

(** ** Decoded transaction results *)

Inductive TransactionResultCode :=
| TxBadSeq
| TxInsufficientFee
| TxInternalError
| TxTooLate
| TxResultOther (c : Z).

Inductive InvokeHostFunctionResultCode :=
| ResourceLimitExceeded
| EntryArchived
| InsufficientRefundableFee
| InvokeOther (c : Z).

Inductive OperationResultCode :=
| OpInner
| OpExceededWorkLimit
| OpOther (c : Z).

(** [OperationResultTr]: its type and, for an InvokeHostFunction, its result. *)
Record OperationResultTr := mkOpTr {
  tr_Type : Z;
  tr_InvokeHostFunctionResult : option InvokeHostFunctionResultCode
}.

Record OperationResult := mkOpResult {
  op_Code : OperationResultCode;
  op_Tr : option OperationResultTr
}.

Record TransactionResult := mkTransactionResult {
  tr_FeeCharged : Z;
  tr_Code : TransactionResultCode;
  tr_Results : option (list OperationResult)
}.

(** ** Transaction building *)

Record TimeBounds := mkTimeBounds { tb_MinTime : Z; tb_MaxTime : Z }.

(** The pure functions of the SDK. *)
Class Sdk := {
  Operation : Type;
  XdrOperation : Type;
  Envelope : Type;
  SorobanData : Type;
  AuthEntry : Type;
  LedgerEntryData : Type;

  BuildXDR : Operation -> res XdrOperation;
  MarshalBinary : XdrOperation -> res bytes;
  is_InvokeHostFunction : Operation -> bool;
  with_Ext : SorobanData -> Operation -> Operation;
  with_Auth : list AuthEntry -> Operation -> Operation;
  RestoreFootprint : string -> SorobanData -> Operation;

  unmarshal_SorobanData : string -> res SorobanData;
  with_ResourceFee : Z -> SorobanData -> SorobanData;
  unmarshal_Auth : string -> res AuthEntry;
  unmarshal_TransactionResult : string -> res TransactionResult;
  unmarshal_LedgerEntryData : string -> res LedgerEntryData;
  entry_SeqNum : LedgerEntryData -> option Z;

  (** account, its sequence, whether to increment it, operations, base fee,
      time bounds, ledger bound *)
  NewTransaction : string -> Z -> bool -> list Operation -> Z -> TimeBounds -> option Z -> res Envelope;
  NewTimeout : Z -> Z -> TimeBounds;
  tx_Timebounds : Envelope -> TimeBounds;
  tx_SourceAccount : Envelope -> string * Z;
  tx_Base64 : Envelope -> res string;
  tx_Hash : string -> Envelope -> res bytes;
  tx_HashHex : string -> Envelope -> res string;
  AddSignatureDecorated : bytes -> bytes -> Envelope -> res Envelope;

  AddressToAccountId : string -> res bytes;
  account_key_XDR : bytes -> res string;
  sha256 : bytes -> bytes;
  string_bytes : string -> bytes;

  TransactionResultCode_String : TransactionResultCode -> string;
  OperationResultCode_String : OperationResultCode -> string;
  InvokeResultCode_String : InvokeHostFunctionResultCode -> string;
  OperationType_String : Z -> string
}.

(** [txnbuild.MinBaseFee]. *)
Definition MinBaseFee : Z := 100.

(** The outside world. [sleep] answers whether the timer fired ([true]) or the
    context was done first; [tick] the same for a poll ticker. *)
Class Env (W : Type) := {
  Client : Type;
  getClient : W -> res Client * W;
  rpc_GetLatestLedger : Client -> W -> res GetLatestLedgerResponse * W;
  rpc_Simulate : Client -> string -> W -> res SimulateTransactionResponse * W;
  rpc_Send : Client -> string -> W -> res SendTransactionResponse * W;
  rpc_GetTransaction : Client -> string -> W -> res GetTransactionResponse * W;
  rpc_GetLedgerEntries : Client -> list string -> W -> res (list string) * W;
  rpc_GetFeeStats : Client -> W -> res FeeStats * W;
  ks_Accounts : W -> res (list string) * W;
  ks_Sign : string -> bytes -> W -> res bytes * W;
  env_now : W -> Z * W;
  env_sleep : Z -> W -> bool * W;
  env_tick : Z -> W -> bool * W;
  ctx_done : W -> bool;
  env_uuid : W -> string * W
}.
