(* ===== verification/GoBytes.v ===== *)
(** * Byte strings: big-endian integers and hexadecimal

    The parts of encoding/binary, encoding/hex, math/big and strings that the
    program uses on byte slices. *)

From S2P Require Import Prelude Sdk.

Definition is_byte (b : Z) : Prop := 0 <= b < 256.

(** [binary.BigEndian.PutUint64] and [PutUint32]. *)
Fixpoint put_be (n : nat) (v : Z) : bytes :=
  match n with
  | O => []
  | S n' => put_be n' (Z.shiftr v 8) ++ [Z.land v 255]
  end.

(** [binary.BigEndian.Uint64] and [big.Int.SetBytes]. *)
Definition get_be (l : bytes) : Z := fold_left (fun acc b => Z.lor (Z.shiftl acc 8) b) l 0.

(** ** encoding/hex *)

Definition hexDigit (n : Z) : Ascii.ascii :=
  Ascii.ascii_of_N (Z.to_N (if n <? 10 then 48 + n else 87 + n)).

Definition fromHexChar (c : Ascii.ascii) : option Z :=
  let n := Z.of_N (Ascii.N_of_ascii c) in
  if (48 <=? n) && (n <=? 57) then Some (n - 48)
  else if (97 <=? n) && (n <=? 102) then Some (n - 87)
  else if (65 <=? n) && (n <=? 70) then Some (n - 55)
  else None.

(** [fmt.Sprintf("%x", b)]. *)
Fixpoint hex_EncodeToString (l : bytes) : string :=
  match l with
  | [] => ""
  | b :: l' => String (hexDigit (Z.shiftr b 4)) (String (hexDigit (Z.land b 15)) (hex_EncodeToString l'))
  end.

Fixpoint hex_DecodeString (s : string) : res bytes :=
  match s with
  | EmptyString => Ok []
  | String a EmptyString =>
      match fromHexChar a with
      | None => Err (ErrorString "encoding/hex: invalid byte")
      | Some _ => Err (ErrorString "encoding/hex: odd length hex string")
      end
  | String a (String b s') =>
      match fromHexChar a, fromHexChar b with
      | Some x, Some y =>
          match hex_DecodeString s' with
          | Ok l => Ok (Z.lor (Z.shiftl x 4) y :: l)
          | Err e => Err e
          end
      | _, _ => Err (ErrorString "encoding/hex: invalid byte")
      end
  end.

(** [strings.TrimPrefix]. *)
Fixpoint drop_string (n : nat) (s : string) : string :=
  match n, s with
  | S n', String _ s' => drop_string n' s'
  | _, _ => s
  end.

Definition TrimPrefix (s pre : string) : string :=
  if String.prefix pre s then drop_string (String.length pre) s else s.

(** ** Lemmas *)

Lemma prefix_app p X : String.prefix p (p +:+ X) = true.
Proof.
  induction p as [|c p IH]; [by destruct X|]. change (String c p +:+ X) with (String c (p +:+ X)).
  cbn [String.prefix]. by destruct (Ascii.ascii_dec c c).
Qed.

Lemma drop_string_app p X : drop_string (String.length p) (p +:+ X) = X.
Proof. induction p as [|c p IH]; [by destruct X|]. exact IH. Qed.

Lemma TrimPrefix_app p X : TrimPrefix (p +:+ X) p = X.
Proof. unfold TrimPrefix. by rewrite prefix_app, drop_string_app. Qed.

Lemma put_be_length n v : length (put_be n v) = n.
Proof. revert v; induction n; intros v; simpl; [done|]. rewrite length_app, IHn. simpl. lia. Qed.

Lemma put_be_inj n v w :
  0 <= v < 256 ^ Z.of_nat n -> 0 <= w < 256 ^ Z.of_nat n -> put_be n v = put_be n w -> v = w.
Proof.
  revert v w; induction n as [|n IH]; intros v w Hv Hw; [simpl in *; lia|].
  rewrite Nat2Z.inj_succ, Z.pow_succ_r in Hv, Hw by lia. simpl.
  intros [E1 E2]%app_inj_tail.
  change 255 with (Z.ones 8) in E2. rewrite !Z.land_ones in E2 by lia.
  rewrite !Z.shiftr_div_pow2 in E1 by lia. change (2 ^ 8) with 256 in *.
  apply IH in E1; [|split; [apply Z.div_pos|apply Z.div_lt_upper_bound]; lia..].
  rewrite (Z.div_mod v 256), (Z.div_mod w 256) by lia. congruence.
Qed.


Lemma lor_shift_add a b n : 0 <= n -> 0 <= b < 2 ^ n -> Z.lor (Z.shiftl a n) b = a * 2 ^ n + b.
Proof.
  intros Hn Hb. rewrite <- Z.shiftl_mul_pow2 by lia. symmetry. apply Z.add_nocarry_lor.
  apply Z.bits_inj'. intros k Hk. rewrite Z.land_spec, Z.bits_0.
  destruct (decide (k < n)).
  - rewrite Z.shiftl_spec_low by lia. done.
  - rewrite <- (Z.mod_small b (2 ^ n)) by done.
    rewrite (Z.mod_pow2_bits_high b n k) by lia. by rewrite andb_false_r.
Qed.

Lemma get_be_snoc l b : is_byte b -> get_be (l ++ [b]) = get_be l * 256 + b.
Proof.
  intros. unfold get_be. rewrite fold_left_app. simpl. by rewrite lor_shift_add.
Qed.

Lemma get_be_range l : Forall is_byte l -> 0 <= get_be l < 256 ^ Z.of_nat (length l).
Proof.
  induction l as [|b l IH] using rev_ind; intros H; [done|].
  apply Forall_app in H as [H Hb%Forall_inv].
  rewrite get_be_snoc, length_app by done. specialize (IH H). simpl.
  rewrite Nat.add_1_r, Nat2Z.inj_succ, Z.pow_succ_r by lia. unfold is_byte in Hb. lia.
Qed.

Lemma put_be_snoc n v : put_be (S n) v = put_be n (v / 256) ++ [v mod 256].
Proof.
  simpl. rewrite Z.shiftr_div_pow2 by lia. change 255 with (Z.ones 8).
  by rewrite Z.land_ones.
Qed.

Lemma put_be_bytes n v : Forall is_byte (put_be n v).
Proof.
  revert v; induction n as [|n IH]; intros v; [constructor|].
  rewrite put_be_snoc. apply Forall_app. split; [done|]. apply Forall_singleton.
  by apply Z.mod_pos_bound.
Qed.

Lemma put_get_be l : Forall is_byte l -> put_be (length l) (get_be l) = l.
Proof.
  induction l as [|b l IH] using rev_ind; intros H; [done|].
  apply Forall_app in H as [H Hb%Forall_inv].
  rewrite length_app, Nat.add_1_r, put_be_snoc, get_be_snoc by done. unfold is_byte in Hb.
  rewrite Z.div_add_l, Z.div_small, Z.add_0_r by lia. rewrite IH by done.
  f_equal. f_equal. rewrite Z.add_comm, Z.mod_add, Z.mod_small by lia. done.
Qed.

Lemma get_put_be n v : 0 <= v < 256 ^ Z.of_nat n -> get_be (put_be n v) = v.
Proof.
  intros Hv. apply (put_be_inj n); [|done|].
  - pose proof (get_be_range (put_be n v) (put_be_bytes n v)) as R.
    by rewrite put_be_length in R.
  - rewrite <- (put_be_length n v) at 1. apply put_get_be, put_be_bytes.
Qed.

Lemma get_be_app l1 l2 :
  Forall is_byte l2 -> get_be (l1 ++ l2) = get_be l1 * 256 ^ Z.of_nat (length l2) + get_be l2.
Proof.
  induction l2 as [|b l IH] using rev_ind; intros H.
  - rewrite app_nil_r. change (get_be []) with 0. simpl. lia.
  - apply Forall_app in H as [H Hb%Forall_inv].
    rewrite app_assoc, !get_be_snoc, IH, length_app by done. simpl.
    rewrite Nat.add_1_r, Nat2Z.inj_succ, Z.pow_succ_r by lia. lia.
Qed.

(** ** Hexadecimal *)

Lemma fromHexChar_hexDigit n : 0 <= n < 16 -> fromHexChar (hexDigit n) = Some n.
Proof.
  intros Hn. assert (F : Forall (fun n => fromHexChar (hexDigit n) = Some n) (seqZ 0 16)).
  { refine (bool_decide_unpack _ _). by vm_compute. }
  rewrite Forall_forall in F. apply F, list_elem_of_In, elem_of_seqZ. lia.
Qed.

Lemma hex_roundtrip l : Forall is_byte l -> hex_DecodeString (hex_EncodeToString l) = Ok l.
Proof.
  induction 1 as [|b l Hb _ IH]; [done|]. unfold is_byte in Hb.
  cbn [hex_EncodeToString hex_DecodeString].
  change 15 with (Z.ones 4). rewrite Z.land_ones, Z.shiftr_div_pow2 by lia.
  change (2 ^ 4) with 16.
  rewrite !fromHexChar_hexDigit, IH by (Z.div_mod_to_equations; lia).
  rewrite lor_shift_add by (change (2 ^ 4) with 16; Z.div_mod_to_equations; lia).
  change (2 ^ 4) with 16. do 2 f_equal. Z.div_mod_to_equations; lia.
Qed.

#[export] Hint Resolve put_be_bytes : goint.
