(* ===== verification/TxStore.v ===== *)
(** * Sequence numbers and in-flight transactions of one account

    Models relayer/txm/txstore.go: the [TxStore] of one Stellar account (next
    sequence, unconfirmed transactions, recycled sequences, last on-chain view)
    and the [AccountStore] that holds one per address.  Every method body runs
    under the store's lock, so each is one atomic step.

    The proved contract: the store is an allocator that always hands out the
    least available sequence ([abs_available]); under any interleaving of the
    broadcaster's allocate / add / release / resync calls with the confirmer's
    calls ([step]), no sequence is tracked twice, a freshly handed-out sequence
    is never in flight, adding it never fails, and no sequence is lost, which is
    the gap-plugging claim of the source's comments. *)

From S2P Require Import Prelude.

(** ** Data *)

(** A pointer to a [StellarTx]. *)
Abbreviation txref := positive.

Record UnconfirmedTx := mkUnconfirmedTx {
  Sequence : Z;
  Hash : string;
  MaxLedger : Z;
  MaxTime : Z;
  Tx : txref
}.

Record TxStore := mkTxStore {
  nextSequence : Z;
  unconfirmedSequences : gmap Z UnconfirmedTx;
  failedSequences : gset Z;
  lastOnchainSequence : Z
}.

#[export] Instance UnconfirmedTx_eq_dec : EqDecision UnconfirmedTx.
Proof. solve_decision. Defined.

(** ** Operations *)

Definition NewTxStore (initialSequence : Z) : TxStore :=
  mkTxStore initialSequence ∅ ∅ initialSequence.

(** The loop that collects the failed sequences now behind the chain, and the
    loop that deletes them. *)
Definition badFailedSeqs (failed : gset Z) (nextExpectedSequence : Z) : list Z :=
  List.filter (fun failedSeq => negb (failedSeq >=? nextExpectedSequence)) (elements failed).

Definition deleteAll (failed : gset Z) (l : list Z) : gset Z :=
  fold_left (fun acc failedSeq => acc ∖ {[failedSeq]}) l failed.

Definition ResyncNonce (nextExpectedSequence : Z) (s : TxStore) : TxStore :=
  let failed := deleteAll (failedSequences s)
                  (badFailedSeqs (failedSequences s) nextExpectedSequence) in
  let next := if nextSequence s <? nextExpectedSequence
              then nextExpectedSequence else nextSequence s in
  mkTxStore next (unconfirmedSequences s) failed nextExpectedSequence.

Definition GetLastResyncedNonce (s : TxStore) : Z := lastOnchainSequence s.

Definition GetNextSequence (s : TxStore) : Z :=
  set_fold (fun seq next => Z.min next seq) (nextSequence s) (failedSequences s).

Definition AddUnconfirmed (seq : Z) (hash : string) (maxLedger maxTime : Z) (tx : txref)
    (s : TxStore) : res TxStore :=
  let record := mkUnconfirmedTx seq hash maxLedger maxTime tx in
  match unconfirmedSequences s !! seq with
  | Some _ => Err (ErrorString "sequence used")
  | None =>
      if decide (seq ∈ failedSequences s) then
        Ok (mkTxStore
              (if seq >=? nextSequence s then i64 (seq + 1) else nextSequence s)
              (<[seq := record]> (unconfirmedSequences s))
              (failedSequences s ∖ {[seq]})
              (lastOnchainSequence s))
      else if seq <? nextSequence s then
        Err (ErrorString "tried to add an unconfirmed tx at an old sequence")
      else if seq >? nextSequence s then
        Err (ErrorString "tried to add an unconfirmed tx at a future sequence")
      else
        Ok (mkTxStore
              (i64 (nextSequence s + 1))
              (<[seq := record]> (unconfirmedSequences s))
              (failedSequences s)
              (lastOnchainSequence s))
  end.

Definition Confirm (seq : Z) (hash : string) (failed : bool) (s : TxStore) : res TxStore :=
  match unconfirmedSequences s !! seq with
  | None => Err (ErrorString "no such unconfirmed sequence")
  | Some unconfirmed =>
      if String.eqb (Hash unconfirmed) hash then
        Ok (mkTxStore (nextSequence s)
              (delete seq (unconfirmedSequences s))
              (if (failed && (seq >=? lastOnchainSequence s))%bool
               then {[seq]} ∪ failedSequences s else failedSequences s)
              (lastOnchainSequence s))
      else Err (ErrorString "unexpected tx hash")
  end.

Definition Release (seq : Z) (s : TxStore) : TxStore :=
  mkTxStore (nextSequence s)
    (delete seq (unconfirmedSequences s))
    (if seq >=? lastOnchainSequence s
     then {[seq]} ∪ failedSequences s else failedSequences s)
    (lastOnchainSequence s).

(** [sort.Slice(result, ...Sequence < ...Sequence)] over the map's values. *)
Definition seq_le (a b : UnconfirmedTx) : Prop := Sequence a <= Sequence b.
#[export] Instance seq_le_dec : RelDecision seq_le.
Proof. intros a b; unfold seq_le; apply _. Defined.

Definition GetUnconfirmed (s : TxStore) : list UnconfirmedTx :=
  merge_sort seq_le (map_to_list (unconfirmedSequences s)).*2.

Definition InflightCount (s : TxStore) : nat := size (unconfirmedSequences s).

(** *** One store per account address *)

Definition AccountStore : Type := gmap string TxStore.

Definition NewAccountStore : AccountStore := ∅.

Definition CreateTxStore (accountAddress : string) (initialSequence : Z)
    (c : AccountStore) : res AccountStore :=
  match (c : gmap string TxStore) !! accountAddress with
  | Some _ => Err (ErrorString "TxStore already exists")
  | None => Ok (<[accountAddress := NewTxStore initialSequence]> (c : gmap string TxStore))
  end.

Definition GetTxStore (accountAddress : string) (c : AccountStore) : option TxStore :=
  (c : gmap string TxStore) !! accountAddress.

Definition GetTotalInflightCount (c : AccountStore) : nat :=
  map_fold (fun _ store count => (count + InflightCount store)%nat) 0%nat
    (c : gmap string TxStore).

Definition GetAllUnconfirmed (c : AccountStore) : gmap string (list UnconfirmedTx) :=
  GetUnconfirmed <$> (c : gmap string TxStore).

(** ** Abstract specification: an allocator of sequence numbers *)

(** The numbers the store may still hand out. *)
Definition abs_available (s : TxStore) (n : Z) : Prop :=
  n ∈ failedSequences s \/ nextSequence s <= n.

(** The numbers held by transactions whose fate is not known. *)
Definition abs_inflight (s : TxStore) (n : Z) : Prop :=
  is_Some (unconfirmedSequences s !! n).

(** Well-formed stores. *)
Record wf (s : TxStore) : Prop := {
  wf_key : forall k u, unconfirmedSequences s !! k = Some u -> Sequence u = k;
  wf_lt : forall k u, unconfirmedSequences s !! k = Some u -> k < nextSequence s;
  wf_disj : forall k, k ∈ failedSequences s -> unconfirmedSequences s !! k = None;
  wf_failed : forall k, k ∈ failedSequences s -> k <= nextSequence s
}.

(** ** The broadcaster and the confirmer as a transition system

    [held] is the broadcaster's local [seq] (one goroutine per process runs the
    broadcast loop); [Stale] after a resync, until it asks for a new number.
    [landed] and [floor] are ghosts: the sequences confirmed on chain, and the
    largest on-chain view ever observed. *)
Inductive holding :=
| NoSeq
| Fresh (seq : Z)
| Stale (seq : Z).

Definition stale (h : holding) : holding :=
  match h with Fresh seq => Stale seq | _ => h end.

Record sys := mkSys {
  store : TxStore;
  held : holding;
  landed : gset Z;
  floor : Z
}.

Inductive step : sys -> sys -> Prop :=
| step_alloc st h l f :
    nextSequence st < MaxInt64 ->
    step (mkSys st h l f) (mkSys st (Fresh (GetNextSequence st)) l f)
| step_add st st' seq hash ml mt tx l f :
    AddUnconfirmed seq hash ml mt tx st = Ok st' ->
    step (mkSys st (Fresh seq) l f) (mkSys st' NoSeq l f)
| step_release_fresh st seq l f :
    step (mkSys st (Fresh seq) l f) (mkSys (Release seq st) NoSeq l f)
| step_release_stale st seq l f :
    step (mkSys st (Stale seq) l f) (mkSys (Release seq st) NoSeq l f)
| step_resync st h l f n :
    n <= MaxInt64 ->
    step (mkSys st h l f) (mkSys (ResyncNonce n st) (stale h) l (Z.max f n))
| step_confirm_ok st st' h l f seq hash :
    Confirm seq hash false st = Ok st' ->
    step (mkSys st h l f) (mkSys st' h ({[seq]} ∪ l) f)
| step_confirm_failed st st' h l f seq hash :
    Confirm seq hash true st = Ok st' ->
    step (mkSys st h l f) (mkSys st' h l f).

Definition init (n : Z) : sys := mkSys (NewTxStore n) NoSeq ∅ n.

Definition reachable (n : Z) : sys -> Prop := rtc step (init n).

Definition held_ok (s : TxStore) (h : holding) : Prop :=
  match h with
  | NoSeq => True
  | Fresh q => abs_available s q /\ q <= nextSequence s < MaxInt64 /\ ~ abs_inflight s q
  | Stale q => q <= nextSequence s /\ ~ abs_inflight s q
  end.

Record inv (y : sys) : Prop := {
  inv_wf : wf (store y);
  inv_range : - two63 <= nextSequence (store y) <= MaxInt64;
  inv_held : held_ok (store y) (held y);
  inv_floor : lastOnchainSequence (store y) <= floor y;
  inv_nogap : forall n, floor y <= n < nextSequence (store y) ->
    n ∈ failedSequences (store y) \/ abs_inflight (store y) n \/ n ∈ landed y
}.

(** ** Lemmas on single operations *)

Create HintDb txstore.

Lemma elem_of_deleteAll x l X : x ∈ deleteAll X l <-> x ∈ X /\ x ∉ l.
Proof.
  revert X; induction l as [|y l IH]; intros X; simpl.
  - set_solver.
  - unfold deleteAll in *; simpl. rewrite IH. set_solver.
Qed.

Lemma elem_of_badFailedSeqs x X n : x ∈ badFailedSeqs X n <-> x ∈ X /\ x < n.
Proof.
  unfold badFailedSeqs.
  rewrite list_elem_of_In, filter_In, <- list_elem_of_In, elem_of_elements.
  rewrite negb_true_iff, Z.geb_leb, Z.leb_gt. done.
Qed.

Lemma ResyncNonce_failed n s x :
  x ∈ failedSequences (ResyncNonce n s) <-> x ∈ failedSequences s /\ n <= x.
Proof.
  simpl. rewrite elem_of_deleteAll, elem_of_badFailedSeqs.
  split; [intros [? H]|intros []; split; [done|]]; [split; [done|]|lia].
  destruct (Z.le_gt_cases n x); [done|]. exfalso; tauto.
Qed.

Lemma ResyncNonce_next n s : nextSequence (ResyncNonce n s) = Z.max (nextSequence s) n.
Proof. simpl. destruct (nextSequence s <? n) eqn:E; zbool; lia. Qed.

Lemma GetNextSequence_le_next s : GetNextSequence s <= nextSequence s.
Proof.
  unfold GetNextSequence.
  apply (set_fold_ind_L (fun b _ => b <= nextSequence s)); [lia|]. intros; lia.
Qed.

Lemma GetNextSequence_cases s :
  GetNextSequence s = nextSequence s \/ GetNextSequence s ∈ failedSequences s.
Proof.
  unfold GetNextSequence.
  apply (set_fold_ind_L (fun b X => b = nextSequence s \/ b ∈ X)); [by left|].
  intros x X r _ Hr. destruct (Z.min_spec r x) as [[_ ->]|[_ ->]]; set_solver.
Qed.

Lemma GetNextSequence_min s x : x ∈ failedSequences s -> GetNextSequence s <= x.
Proof.
  revert x. unfold GetNextSequence.
  apply (set_fold_ind_L (fun b X => forall x, x ∈ X -> b <= x)); [set_solver|].
  intros x X r _ Hr y [->%elem_of_singleton|Hy]%elem_of_union; [lia|].
  specialize (Hr _ Hy). lia.
Qed.

#[export] Hint Resolve GetNextSequence_le_next GetNextSequence_min : txstore.

Lemma GetNextSequence_not_inflight s : wf s -> ~ abs_inflight s (GetNextSequence s).
Proof.
  intros Hwf [u Hu]. destruct (GetNextSequence_cases s) as [E|E].
  - apply (wf_lt _ Hwf) in Hu. lia.
  - apply (wf_disj _ Hwf) in E. congruence.
Qed.

(** What a successful [AddUnconfirmed] does, in terms of the allocator. *)
Lemma AddUnconfirmed_inv seq hash ml mt tx s s' :
  AddUnconfirmed seq hash ml mt tx s = Ok s' ->
  unconfirmedSequences s !! seq = None /\
  unconfirmedSequences s' = <[seq := mkUnconfirmedTx seq hash ml mt tx]> (unconfirmedSequences s) /\
  failedSequences s' = failedSequences s ∖ {[seq]} /\
  lastOnchainSequence s' = lastOnchainSequence s /\
  (seq ∈ failedSequences s \/ seq = nextSequence s) /\
  nextSequence s' = (if decide (nextSequence s <= seq) then i64 (seq + 1) else nextSequence s).
Proof.
  unfold AddUnconfirmed. intros H. destruct (unconfirmedSequences s !! seq) eqn:Hu; [done|].
  destruct (decide (seq ∈ failedSequences s)) as [Hf|Hf]; [|destruct (seq <? _) eqn:E1; [done|];
    destruct (seq >? _) eqn:E2; [done|]]; injection H as <-; simpl; zbool.
  - split_and!; try done; [by left|]. destruct (seq >=? _) eqn:E, (decide _); zbool; done || lia.
  - assert (seq = nextSequence s) as -> by lia. split_and!; try done; [set_solver|by right|].
    rewrite decide_True by lia. done.
Qed.

(** Adding an available number always succeeds. *)
Lemma AddUnconfirmed_ok seq hash ml mt tx s :
  abs_available s seq -> seq <= nextSequence s -> ~ abs_inflight s seq ->
  is_ok (AddUnconfirmed seq hash ml mt tx s) = true.
Proof.
  intros Ha Hle Hn. unfold AddUnconfirmed.
  destruct (unconfirmedSequences s !! seq) eqn:Hu; [exfalso; apply Hn; eexists; eauto|].
  destruct (decide _) as [|Hf]; [done|]. destruct Ha as [|Ha]; [done|].
  destruct (seq <? _) eqn:E1; zbool; [lia|]. destruct (seq >? _) eqn:E2; zbool; [lia|done].
Qed.

Lemma Confirm_inv seq hash failed s s' :
  Confirm seq hash failed s = Ok s' ->
  exists u, unconfirmedSequences s !! seq = Some u /\ Hash u = hash /\
    s' = mkTxStore (nextSequence s) (delete seq (unconfirmedSequences s))
           (if (failed && (seq >=? lastOnchainSequence s))%bool
            then {[seq]} ∪ failedSequences s else failedSequences s)
           (lastOnchainSequence s).
Proof.
  unfold Confirm. destruct (_ !! seq) as [u|] eqn:Hu; [|done].
  destruct (String.eqb (Hash u) hash) eqn:E; [|done].
  apply String.eqb_eq in E. intros [= <-]. eauto.
Qed.

(** ** Preservation of well-formedness *)

Lemma NewTxStore_wf n : wf (NewTxStore n).
Proof. split; simpl; intros *; rewrite ?lookup_empty; set_solver. Qed.

Lemma ResyncNonce_wf n s : wf s -> wf (ResyncNonce n s).
Proof.
  intros [H1 H2 H3 H4]. split.
  - exact H1.
  - intros k u Hu. rewrite ResyncNonce_next. specialize (H2 _ _ Hu). lia.
  - intros k [Hk _]%ResyncNonce_failed. apply (H3 _ Hk).
  - intros k [Hk _]%ResyncNonce_failed. rewrite ResyncNonce_next. specialize (H4 _ Hk). lia.
Qed.

(** Provided the allocation did not wrap around. *)
Lemma AddUnconfirmed_wf_nowrap seq hash ml mt tx s s' :
  wf s -> AddUnconfirmed seq hash ml mt tx s = Ok s' -> seq < nextSequence s' -> wf s'.
Proof.
  intros [H1 H2 H3 H4] (Hn & Hu & Hf & _ & Hc & Hx)%AddUnconfirmed_inv Hs.
  assert (nextSequence s <= nextSequence s').
  { rewrite Hx in *. destruct (decide _); [|lia]. destruct Hc as [Hc|]; [specialize (H4 _ Hc)|]; lia. }
  split; rewrite ?Hu, ?Hf.
  - intros k u. rewrite lookup_insert_Some. intros [[<- <-]|[_ ?]]; simpl; eauto.
  - intros k u. rewrite lookup_insert_Some. intros [[<- <-]|[_ Hk]]; [lia|].
    specialize (H2 _ _ Hk). lia.
  - intros k [Hk Hne]%elem_of_difference. rewrite lookup_insert_ne by set_solver. eauto.
  - intros k [Hk _]%elem_of_difference. specialize (H4 _ Hk). lia.
Qed.

Lemma AddUnconfirmed_wf seq hash ml mt tx s s' :
  wf s -> seq < MaxInt64 -> - two63 <= nextSequence s ->
  AddUnconfirmed seq hash ml mt tx s = Ok s' -> wf s'.
Proof.
  intros Hwf Hlt Hge Ha. apply (AddUnconfirmed_wf_nowrap _ _ _ _ _ _ _ Hwf Ha).
  apply AddUnconfirmed_inv in Ha as (_ & _ & _ & _ & Hc & ->).
  destruct (decide _); [rewrite i64_id by goint|]; lia.
Qed.

Lemma delete_add_wf (b : bool) seq s :
  wf s -> seq <= nextSequence s ->
  wf (mkTxStore (nextSequence s) (delete seq (unconfirmedSequences s))
        (if b then {[seq]} ∪ failedSequences s else failedSequences s)
        (lastOnchainSequence s)).
Proof.
  intros [H1 H2 H3 H4] Hle. split; simpl.
  - intros k u [_ ?]%lookup_delete_Some; eauto.
  - intros k u [_ ?]%lookup_delete_Some; eauto.
  - intros k Hk. apply lookup_delete_None.
    destruct (decide (seq = k)); [by left|right]. apply H3. destruct b; set_solver.
  - intros k Hk. destruct (decide (k = seq)) as [->|]; [done|]. apply H4. destruct b; set_solver.
Qed.

Lemma Release_wf seq s : wf s -> seq <= nextSequence s -> wf (Release seq s).
Proof. intros. by apply (delete_add_wf (seq >=? lastOnchainSequence s)). Qed.

Lemma Confirm_wf seq hash failed s s' :
  wf s -> Confirm seq hash failed s = Ok s' -> wf s'.
Proof.
  intros Hwf (u & Hu & _ & ->)%Confirm_inv. apply delete_add_wf; [done|].
  apply (wf_lt _ Hwf) in Hu. lia.
Qed.

#[export] Hint Resolve NewTxStore_wf ResyncNonce_wf Release_wf Confirm_wf : txstore.

(** ** The invariant of the interleaved system *)

Lemma held_ok_confirm seq hash failed s s' h :
  Confirm seq hash failed s = Ok s' -> held_ok s h -> held_ok s' h.
Proof.
  intros (u & Hu & _ & ->)%Confirm_inv. unfold held_ok, abs_available, abs_inflight.
  assert (forall q, ~ is_Some (unconfirmedSequences s !! q) ->
    ~ is_Some (delete seq (unconfirmedSequences s) !! q)) as Hd.
  { intros q Hq [v Hv]. apply lookup_delete_Some in Hv as [_ Hv]. apply Hq; eauto. }
  destruct h as [|q|q]; simpl; [done| |].
  - intros ([Hq|Hq] & ? & ?); split_and!; eauto; try lia; left; destruct (_ && _)%bool; set_solver.
  - intros []; split; eauto.
Qed.

Lemma covered_insert (b : bool) f next seq s (l : gset Z) n :
  (f <= n < next ->
   n ∈ failedSequences s \/ abs_inflight s n \/ n ∈ l) ->
  f <= n < next -> (n = seq -> b = true) ->
  n ∈ (if b then {[seq]} ∪ failedSequences s else failedSequences s) \/
  is_Some (delete seq (unconfirmedSequences s) !! n) \/ n ∈ l.
Proof.
  intros H Hn Hb. destruct (decide (n = seq)) as [->|Hne].
  - left. rewrite (Hb eq_refl). set_solver.
  - destruct (H Hn) as [?|[[u Hu]|?]]; [|right;left|by right;right].
    + left. destruct b; set_solver.
    + exists u. by rewrite lookup_delete_ne.
Qed.

Lemma inv_init n : is_i64 n -> inv (init n).
Proof.
  intros Hn. split; simpl; eauto with txstore; try goint.
Qed.

Lemma inv_alloc st h l f :
  nextSequence st < MaxInt64 -> inv (mkSys st h l f) ->
  inv (mkSys st (Fresh (GetNextSequence st)) l f).
Proof.
  intros Hlt [Hwf Hr _ Hf Hg]. split; simpl in *; try done. split_and!; try done.
  - destruct (GetNextSequence_cases st) as [->|]; [right; lia|by left].
  - apply GetNextSequence_le_next.
  - by apply GetNextSequence_not_inflight.
Qed.

Lemma inv_add st st' seq hash ml mt tx l f :
  AddUnconfirmed seq hash ml mt tx st = Ok st' ->
  inv (mkSys st (Fresh seq) l f) -> inv (mkSys st' NoSeq l f).
Proof.
  intros Ha [Hwf Hr (Hav & [Hle Hlt] & Hn) Hf Hg]; simpl in *.
  pose proof (AddUnconfirmed_wf seq hash ml mt tx st st' Hwf ltac:(lia) ltac:(lia) Ha) as Hwf'.
  apply AddUnconfirmed_inv in Ha as (_ & Hu & Hfa & Ho & _ & Hx).
  assert (nextSequence st' = Z.max (nextSequence st) (seq + 1)) as Hmax.
  { rewrite Hx. destruct (decide _); [rewrite i64_id by goint|]; lia. }
  split; simpl; try done; [lia|lia|].
  intros n Hn'. rewrite Hfa. unfold abs_inflight. rewrite Hu.
  destruct (decide (n = seq)) as [->|Hne]; [right; left; rewrite lookup_insert_eq; eauto|].
  rewrite lookup_insert_ne by done.
  destruct (Hg n ltac:(lia)) as [?|[?|?]]; [left; set_solver|by right;left|by right;right].
Qed.

Lemma inv_release st seq h l f :
  inv (mkSys st h l f) -> held_ok st (Stale seq) ->
  inv (mkSys (Release seq st) NoSeq l f).
Proof.
  intros [Hwf Hr _ Hf Hg] [Hle Hn]; simpl in *.
  split; simpl; try done; [by apply Release_wf|].
  intros n Hn'. apply (covered_insert _ f (nextSequence st)); auto.
  intros ->. apply Z.geb_le. lia.
Qed.

Lemma inv_resync st h l f n :
  n <= MaxInt64 -> inv (mkSys st h l f) ->
  inv (mkSys (ResyncNonce n st) (stale h) l (Z.max f n)).
Proof.
  intros Hn [Hwf Hr Hh Hf Hg]. simpl in *. split.
  - by apply ResyncNonce_wf.
  - simpl store. rewrite ResyncNonce_next. lia.
  - simpl held; simpl store. destruct h; simpl in *; try done;
      [destruct Hh as (_ & ? & ?)|destruct Hh as (? & ?)];
      (split; [|done]); (destruct (_ <? _) eqn:E; zbool; lia).
  - simpl. lia.
  - simpl store; simpl floor; simpl landed. intros m Hm. rewrite ResyncNonce_next in Hm.
    destruct (Hg m ltac:(lia)) as [?|[?|?]]; [left|by right;left|by right;right].
    apply ResyncNonce_failed. split; [done|lia].
Qed.

Lemma inv_confirm st st' h l l' f seq hash (failed : bool) :
  Confirm seq hash failed st = Ok st' ->
  l ⊆ l' -> (failed = false -> seq ∈ l') ->
  inv (mkSys st h l f) -> inv (mkSys st' h l' f).
Proof.
  intros Hc Hl Hs [Hwf Hr Hh Hf Hg]. simpl in *.
  pose proof (Confirm_wf _ _ _ _ _ Hwf Hc) as Hwf'.
  pose proof (held_ok_confirm _ _ _ _ _ _ Hc Hh) as Hh'.
  apply Confirm_inv in Hc as (u & Hu & _ & ->). split; simpl in *; try done.
  intros n Hn. destruct (decide (n = seq /\ failed = false)) as [[-> E]|Hne].
  { right; right; auto. }
  destruct (covered_insert (failed && (seq >=? lastOnchainSequence st))%bool f
    (nextSequence st) seq st l n (Hg n) Hn) as [?|[?|?]]; auto.
  intros ->. destruct failed; [simpl; apply Z.geb_le; lia|tauto].
Qed.

Lemma inv_step y y' : step y y' -> inv y -> inv y'.
Proof.
  intros Hs Hi. destruct Hs; subst.
  - by apply (inv_alloc _ h).
  - eapply inv_add; eassumption.
  - eapply inv_release; [eassumption|]. destruct Hi as [_ _ (_ & [] & ?) _ _]; simpl in *. split; [lia|done].
  - eapply inv_release; [eassumption|]. by destruct Hi.
  - by apply inv_resync.
  - apply (inv_confirm st st' h l ({[seq]} ∪ l) f seq hash false); set_solver.
  - apply (inv_confirm st st' h l l f seq hash true); set_solver.
Qed.

Lemma inv_steps y y' : rtc step y y' -> inv y -> inv y'.
Proof. induction 1; eauto using inv_step. Qed.

Lemma reachable_inv n y : is_i64 n -> reachable n y -> inv y.
Proof. intros Hn Hr. eapply inv_steps; [exact Hr|]. by apply inv_init. Qed.

(** ** Each operation as an operation of the abstract allocator *)

Lemma abs_inflight_delete n seq m :
  is_Some (delete seq m !! n) <-> is_Some ((m : gmap Z UnconfirmedTx) !! n) /\ n <> seq.
Proof.
  split.
  - intros [u [? ?]%lookup_delete_Some]. split; eauto.
  - intros [[u ?] ?]. exists u. by rewrite lookup_delete_ne.
Qed.

Lemma pool_add (b : bool) n seq (X : gset Z) :
  n ∈ (if b then {[seq]} ∪ X else X) <-> n ∈ X \/ b = true /\ n = seq.
Proof. destruct b; set_solver. Qed.

Lemma add_refines s hash ml mt tx :
  wf s -> - two63 <= nextSequence s < MaxInt64 ->
  exists s', AddUnconfirmed (GetNextSequence s) hash ml mt tx s = Ok s' /\
    (forall n, abs_available s' n <-> abs_available s n /\ n <> GetNextSequence s) /\
    (forall n, abs_inflight s' n <-> abs_inflight s n \/ n = GetNextSequence s).
Proof.
  intros Hwf Hr. set (g := GetNextSequence s).
  assert (is_ok (AddUnconfirmed g hash ml mt tx s) = true) as Hok.
  { apply AddUnconfirmed_ok; [|apply GetNextSequence_le_next|by apply GetNextSequence_not_inflight].
    destruct (GetNextSequence_cases s) as [E|]; [right; unfold g; lia|by left]. }
  destruct (AddUnconfirmed _ _ _ _ _ _) as [s'|] eqn:E; [|done]. exists s'. split; [done|].
  apply AddUnconfirmed_inv in E as (Hn & Hu & Hf & _ & Hc & Hx).
  assert (nextSequence s' = if decide (nextSequence s <= g) then g + 1 else nextSequence s) as Hx'.
  { rewrite Hx. destruct (decide _); [|done]. apply i64_id.
    pose proof (GetNextSequence_le_next s). unfold is_i64. unfold MaxInt64 in *. lia. }
  unfold abs_available, abs_inflight. rewrite Hf, Hu, Hx'. split; intros n.
  - assert (forall k, k ∈ failedSequences s -> g <= k) as Hmin by (intros; by apply GetNextSequence_min).
    pose proof (GetNextSequence_le_next s) as Hle. fold g in Hle.
    destruct (decide (nextSequence s <= g)).
    + split; [intros [?|?]|intros [[?|?] ?]];
        [split; [left|]; set_solver|split; [right; lia|lia]|left; set_solver|right; lia].
    + split; [intros [?|?]|intros [[?|?] ?]];
        [split; [left|]; set_solver|split; [right; lia|lia]|left; set_solver|right; lia].
  - destruct (decide (n = g)) as [->|?].
    + rewrite lookup_insert_eq. split; [by right|eauto].
    + rewrite lookup_insert_ne by done. split; [by left|by intros [?|?]].
Qed.

Lemma release_refines s seq n :
  (abs_available (Release seq s) n <->
     abs_available s n \/ n = seq /\ lastOnchainSequence s <= seq) /\
  (abs_inflight (Release seq s) n <-> abs_inflight s n /\ n <> seq).
Proof.
  unfold abs_available, abs_inflight. simpl. split; [|apply abs_inflight_delete].
  rewrite pool_add, Z.geb_le. tauto.
Qed.

Lemma confirm_refines s seq h failed s' n :
  Confirm seq h failed s = Ok s' ->
  (abs_available s' n <->
     abs_available s n \/ failed = true /\ n = seq /\ lastOnchainSequence s <= seq) /\
  (abs_inflight s' n <-> abs_inflight s n /\ n <> seq).
Proof.
  intros (u & _ & _ & ->)%Confirm_inv. unfold abs_available, abs_inflight. simpl.
  split; [|apply abs_inflight_delete]. rewrite pool_add, andb_true_iff, Z.geb_le. tauto.
Qed.

Lemma resync_refines s m n :
  abs_available (ResyncNonce m s) n <-> abs_available s n /\ m <= n.
Proof.
  unfold abs_available. rewrite ResyncNonce_failed, ResyncNonce_next. split.
  - intros [[? ?]|?]; (split; [auto; right; lia|lia]).
  - intros [[?|?] ?]; [by left|right; lia].
Qed.

(** ** Theorems *)

(** The number handed out is available, is not held by any in-flight
    transaction, and every smaller available number does not exist: the store
    plugs the lowest gap first. *)
Theorem GetNextSequence_least s :
  wf s ->
  abs_available s (GetNextSequence s) /\
  ~ abs_inflight s (GetNextSequence s) /\
  forall n, abs_available s n -> GetNextSequence s <= n.
Proof.
  intros Hwf. split_and!.
  - destruct (GetNextSequence_cases s) as [->|]; [right; lia|by left].
  - by apply GetNextSequence_not_inflight.
  - intros n [Hn|Hn]; [by apply GetNextSequence_min|].
    pose proof (GetNextSequence_le_next s). lia.
Qed.

(** The store refines an allocator: allocate-and-add takes exactly the least
    available number and makes it in-flight; confirm and release return a number
    to the pool exactly when it is not behind the last on-chain view; a resync
    drops exactly the numbers behind the chain.  Property C6. *)
Theorem store_refines_allocator s hash ml mt tx :
  wf s -> - two63 <= nextSequence s < MaxInt64 ->
  let g := GetNextSequence s in
  (exists s', AddUnconfirmed g hash ml mt tx s = Ok s' /\
     (forall n, abs_available s' n <-> abs_available s n /\ n <> g) /\
     (forall n, abs_inflight s' n <-> abs_inflight s n \/ n = g)) /\
  (forall seq n,
     (abs_available (Release seq s) n <->
        abs_available s n \/ n = seq /\ lastOnchainSequence s <= seq) /\
     (abs_inflight (Release seq s) n <-> abs_inflight s n /\ n <> seq)) /\
  (forall seq h failed s' n, Confirm seq h failed s = Ok s' ->
     (abs_available s' n <->
        abs_available s n \/ failed = true /\ n = seq /\ lastOnchainSequence s <= seq) /\
     (abs_inflight s' n <-> abs_inflight s n /\ n <> seq)) /\
  (forall m n, abs_available (ResyncNonce m s) n <-> abs_available s n /\ m <= n).
Proof.
  intros Hwf Hr g. split_and!.
  - by apply add_refines.
  - intros. apply release_refines.
  - intros * H. eapply confirm_refines; exact H.
  - intros. apply resync_refines.
Qed.

(** Under every interleaving of the broadcaster with the confirmer, the number
    the broadcaster holds for its next envelope is never in flight for another
    transaction, and recording the envelope under it cannot be refused, so the
    [store_add] failure is unreachable. *)
Theorem fresh_sequence_add_succeeds n st q l f hash ml mt tx :
  is_i64 n -> reachable n (mkSys st (Fresh q) l f) ->
  ~ abs_inflight st q /\ is_ok (AddUnconfirmed q hash ml mt tx st) = true.
Proof.
  intros Hn Hr. apply reachable_inv in Hr as [_ _ (Ha & [Hle _] & Hi) _ _]; [|done].
  split; [done|]. by apply AddUnconfirmed_ok.
Qed.

(** No sequence is lost: every number between the highest on-chain view and the
    next number to hand out is in flight or landed, so a handed-out sequence
    leaves no unplugged gap below it.  Property C7. *)
Theorem no_sequence_gap n y k :
  is_i64 n -> reachable n y ->
  floor y <= k < GetNextSequence (store y) ->
  abs_inflight (store y) k \/ k ∈ landed y.
Proof.
  intros Hn Hr Hk. apply reachable_inv in Hr as [Hwf _ _ _ Hg]; [|done].
  pose proof (GetNextSequence_le_next (store y)).
  destruct (Hg k ltac:(lia)) as [Hf|]; [|done].
  apply GetNextSequence_min in Hf. lia.
Qed.

(** *** Snapshots *)

#[export] Instance seq_le_total : Total seq_le.
Proof. intros a b; unfold seq_le; lia. Qed.
#[export] Instance seq_le_trans : Transitive seq_le.
Proof. intros a b c; unfold seq_le; lia. Qed.

Lemma elem_of_values (m : gmap Z UnconfirmedTx) u :
  u ∈ (map_to_list m).*2 <-> exists k, m !! k = Some u.
Proof.
  rewrite list_elem_of_fmap. split.
  - intros ([k u'] & -> & H%elem_of_map_to_list). eauto.
  - intros [k H%elem_of_map_to_list]. exists (k, u). eauto.
Qed.

Lemma values_keys (m : gmap Z UnconfirmedTx) :
  (forall k u, m !! k = Some u -> Sequence u = k) ->
  Sequence <$> (map_to_list m).*2 = (map_to_list m).*1.
Proof.
  intros H. rewrite <- list_fmap_compose. apply list_fmap_ext.
  intros i [k u] Hi. simpl. apply H, elem_of_map_to_list, list_elem_of_lookup. eauto.
Qed.

Lemma StronglySorted_strict l :
  NoDup (Sequence <$> l) -> StronglySorted seq_le l ->
  StronglySorted (fun a b => Sequence a < Sequence b) l.
Proof.
  intros Hnd Hs. induction Hs as [|a l Hs IH Hf]; [constructor|].
  inversion Hnd as [|? ? Hna Hnd']; subst. constructor; [auto|].
  rewrite Forall_forall in Hf |- *. intros b Hb. specialize (Hf b Hb). unfold seq_le in Hf.
  assert (Sequence a <> Sequence b); [|lia].
  intros E. apply Hna, list_elem_of_fmap. exists b. split; [done|by apply list_elem_of_In].
Qed.

Lemma elem_of_GetUnconfirmed s u :
  wf s -> u ∈ GetUnconfirmed s <-> unconfirmedSequences s !! Sequence u = Some u.
Proof.
  intros Hwf. unfold GetUnconfirmed.
  rewrite (merge_sort_Permutation seq_le (map_to_list (unconfirmedSequences s)).*2), elem_of_values.
  split; [|by eexists]. intros [k Hk]. by rewrite (wf_key _ Hwf _ _ Hk).
Qed.

Lemma NoDup_GetUnconfirmed s : wf s -> NoDup (Sequence <$> GetUnconfirmed s).
Proof.
  intros Hwf. unfold GetUnconfirmed.
  rewrite (merge_sort_Permutation seq_le (map_to_list (unconfirmedSequences s)).*2).
  rewrite values_keys by apply (wf_key _ Hwf). apply NoDup_fst_map_to_list.
Qed.

(** [GetUnconfirmed] returns every in-flight transaction exactly once, in
    strictly increasing sequence order. *)
Theorem GetUnconfirmed_spec s :
  wf s ->
  (forall u, u ∈ GetUnconfirmed s <-> unconfirmedSequences s !! Sequence u = Some u) /\
  StronglySorted (fun a b => Sequence a < Sequence b) (GetUnconfirmed s) /\
  length (GetUnconfirmed s) = InflightCount s.
Proof.
  intros Hwf. split_and!.
  - intros u. by apply elem_of_GetUnconfirmed.
  - apply StronglySorted_strict; [by apply NoDup_GetUnconfirmed|].
    apply (StronglySorted_merge_sort seq_le).
  - unfold GetUnconfirmed. rewrite merge_sort_Permutation, length_fmap. apply length_map_to_list.
Qed.

(** *** The account store *)

(** [CreateTxStore] fails exactly when the address has a store, and otherwise
    adds an empty store for it and leaves every other account and the in-flight
    total alone. *)
Theorem CreateTxStore_spec a n c :
  match CreateTxStore a n c with
  | Err _ => is_Some (GetTxStore a c)
  | Ok c' =>
      GetTxStore a c = None /\
      (forall b, GetTxStore b c' = if decide (b = a) then Some (NewTxStore n) else GetTxStore b c) /\
      GetTotalInflightCount c' = GetTotalInflightCount c
  end.
Proof.
  unfold CreateTxStore, GetTxStore, GetTotalInflightCount.
  destruct ((c : gmap string TxStore) !! a) eqn:E; [eauto|]. split_and!; [done| |].
  - intros b. rewrite lookup_insert. repeat case_decide; congruence.
  - rewrite map_fold_insert_L; [simpl; unfold InflightCount; simpl; rewrite map_size_empty; lia| |done].
    intros. lia.
Qed.

(** ** Witnesses *)

Definition demo_store : TxStore :=
  mkTxStore 12 (<[10 := mkUnconfirmedTx 10 "h10" 5 7 1%positive]> ∅) {[11]} 10.

Lemma demo_store_wf : wf demo_store.
Proof.
  split; simpl; intros *.
  1, 2: rewrite lookup_insert_Some; intros [[<- <-]|[_ ?%lookup_empty_Some]]; done || (simpl; lia).
  - intros ->%elem_of_singleton. done.
  - intros ->%elem_of_singleton. lia.
Qed.

Lemma GetNextSequence_least_witness :
  GetNextSequence demo_store = 11 /\
  abs_available demo_store 11 /\ ~ abs_inflight demo_store 11 /\
  forall n, abs_available demo_store n -> 11 <= n.
Proof. split; [vm_compute; reflexivity|]. exact (GetNextSequence_least demo_store demo_store_wf). Defined.

Lemma store_refines_allocator_witness :
  exists s', AddUnconfirmed 11 "h11" 9 9 2%positive demo_store = Ok s' /\ GetNextSequence s' = 12.
Proof.
  destruct (store_refines_allocator demo_store "h11" 9 9 2%positive demo_store_wf) as ((s' & H & _) & _).
  - unfold demo_store; simpl; split; [|reflexivity]. unfold two63; lia.
  - exists s'. split; [exact H|]. vm_compute in H. injection H as <-. vm_compute. reflexivity.
Defined.

Lemma demo_reachable : reachable 10 (mkSys (NewTxStore 10) (Fresh 10) ∅ 10).
Proof. apply rtc_once. apply (step_alloc (NewTxStore 10) NoSeq ∅ 10). reflexivity. Qed.

Lemma fresh_sequence_add_succeeds_witness :
  ~ abs_inflight (NewTxStore 10) 10 /\
  is_ok (AddUnconfirmed 10 "h" 9 9 1%positive (NewTxStore 10)) = true.
Proof.
  apply (fresh_sequence_add_succeeds 10 (NewTxStore 10) 10 ∅ 10); [|exact demo_reachable].
  unfold is_i64, two63; lia.
Defined.

Lemma no_sequence_gap_witness :
  exists y, reachable 10 y /\ (abs_inflight (store y) 10 \/ 10 ∈ landed y).
Proof.
  destruct (AddUnconfirmed 10 "h" 9 9 1%positive (NewTxStore 10)) as [st|] eqn:E;
    [|vm_compute in E; discriminate E].
  exists (mkSys st NoSeq ∅ 10).
  assert (reachable 10 (mkSys st NoSeq ∅ 10)) as Hr.
  { eapply rtc_r; [exact demo_reachable|]. eapply step_add. exact E. }
  split; [exact Hr|]. apply (no_sequence_gap 10 _ 10); [unfold is_i64, two63; lia|exact Hr|].
  vm_compute in E. injection E as <-. split; [reflexivity|]. vm_compute. reflexivity.
Defined.

Lemma GetUnconfirmed_spec_witness :
  length (GetUnconfirmed demo_store) = 1%nat /\
  StronglySorted (fun a b => Sequence a < Sequence b) (GetUnconfirmed demo_store).
Proof.
  split; [vm_compute; reflexivity|]. exact (proj1 (proj2 (GetUnconfirmed_spec demo_store demo_store_wf))).
Defined.
