(* ===== verification/Fee.v ===== *)
(** * Transaction fees

    Models relayer/txm/fee.go (the [FeeStrategy]: resource fee, geometric
    inclusion fee, seed and bump) and relayer/txm/fee_tracker.go (percentile
    parsing, the cached [GetFeeStats] samples).  Integers are [int64]/[uint64]
    with Go's wrap-around; the [BumpMultiplier] is a [float64] of GoFloat.v. *)

From S2P Require Import Prelude GoFloat Sdk.

(** ** FeeStrategy (fee.go) *)

Record FeeStrategy := mkFeeStrategy {
  BaseInclusionFee : Z;
  MaxInclusionFee : Z;
  BumpMultiplier : f64;
  ResourceFeeBuffer : Z;
  MaxResourceFee : Z
}.

Section FeeStrategy.
Context `{FloatConv}.
Variable f : FeeStrategy.

Definition ResourceFee (minResourceFee buffer perRequestMaxResourceFee : Z) : res Z :=
  if minResourceFee <=? 0 then
    Err (ErrorString "rpc reported non-positive MinResourceFee")
  else if buffer <? 0 then
    Err (ErrorString "negative resource fee buffer")
  else if minResourceFee >? i64 (MaxInt64 - buffer) then
    Err (ErrorString "resource fee overflow")
  else
    let fee := i64 (minResourceFee + buffer) in
    let capFee :=
      if perRequestMaxResourceFee >? 0
      then i64 (Z.min perRequestMaxResourceFee MaxInt64)
      else MaxResourceFee f in
    if ((capFee >? 0) && (fee >? capFee))%bool then
      Err (ErrorString "resource fee exceeds cap")
    else Ok fee.

Definition InclusionFee (attempt : Z) : Z :=
  if attempt =? 0 then BaseInclusionFee f
  else
    let fee := f64_mul (f64_of_int (BaseInclusionFee f)) (f64_pow (BumpMultiplier f) attempt) in
    let result := f64_to_i64 (f64_ceil fee) in
    if result >? MaxInclusionFee f then MaxInclusionFee f else result.

Definition Calculate (minResourceFee attempt : Z) : Z :=
  let inclusionFee := InclusionFee attempt in
  let resourceFee := i64 (minResourceFee + ResourceFeeBuffer f) in
  i64 (inclusionFee + resourceFee).

(** Results [(fee, clampedToMax)]. *)
Definition SeedInclusionFee (attempt networkPercentile : Z) : Z * bool :=
  let fee := InclusionFee attempt in
  let networkFee := i64 networkPercentile in
  let fee := if networkFee >? fee then networkFee else fee in
  if fee >? MaxInclusionFee f then (MaxInclusionFee f, true) else (fee, false).

Definition BumpInclusionFee (currentInclusionFee networkPercentile : Z) : Z * bool :=
  let bumped := f64_to_i64 (f64_ceil
    (f64_mul (f64_of_int currentInclusionFee) (BumpMultiplier f))) in
  let networkFee := i64 networkPercentile in
  let bumped := if networkFee >? bumped then networkFee else bumped in
  if bumped >? MaxInclusionFee f then (MaxInclusionFee f, true) else (bumped, false).

End FeeStrategy.

(** ** Fee percentiles (fee_tracker.go) *)

Inductive feePercentile := feeP50 | feeP90 | feeP99.

#[export] Instance feePercentile_eq_dec : EqDecision feePercentile.
Proof. solve_decision. Defined.

Record feeSample := mkFeeSample { at_ : Z; p50 : Z; p90 : Z; p99 : Z }.

Definition defaultFirstSendFeePercentile : feePercentile := feeP90.
Definition defaultRebroadcastFeePercentile : feePercentile := feeP99.

Definition percentile (s : feeSample) (p : feePercentile) : Z :=
  match p with feeP50 => p50 s | feeP90 => p90 s | feeP99 => p99 s end.

Definition feePercentile_String (p : feePercentile) : string :=
  match p with feeP50 => "P50" | feeP90 => "P90" | feeP99 => "P99" end.

Definition ascii_upper (c : Ascii.ascii) : Ascii.ascii :=
  let n := Ascii.nat_of_ascii c in
  if (Nat.leb 97 n && Nat.leb n 122)%bool then Ascii.ascii_of_nat (n - 32) else c.

Definition ascii_space (c : Ascii.ascii) : bool :=
  let n := Ascii.nat_of_ascii c in (Nat.eqb n 32 || (Nat.leb 9 n && Nat.leb n 13))%bool.

Fixpoint trim_left (s : string) : string :=
  match s with
  | String c s' => if ascii_space c then trim_left s' else s
  | EmptyString => EmptyString
  end.

Fixpoint string_rev_app (s acc : string) : string :=
  match s with EmptyString => acc | String c s' => string_rev_app s' (String c acc) end.

(** [strings.TrimSpace] and [strings.ToUpper] on ASCII text. *)
Definition TrimSpace (s : string) : string :=
  string_rev_app (trim_left (string_rev_app (trim_left s) "")) "".
Definition ToUpper : string -> string := string_map ascii_upper.

Definition parseFeePercentile (s : string) : res feePercentile :=
  let u := ToUpper (TrimSpace s) in
  if String.eqb u "P50" then Ok feeP50
  else if String.eqb u "P90" then Ok feeP90
  else if String.eqb u "P99" then Ok feeP99
  else Err (ErrorString "unknown fee percentile").

Definition feePercentileOrDefault (value : string) (def : feePercentile) : feePercentile :=
  match parseFeePercentile value with Err _ => def | Ok p => p end.

(** ** The fee tracker (fee_tracker.go) *)

Record feeTracker := mkFeeTracker {
  pollInterval : Z;
  lookback : Z;
  samples : list feeSample   (* oldest first *)
}.

Definition newFeeTracker (pollInterval lookback : Z) : feeTracker :=
  mkFeeTracker pollInterval lookback [].

(** The loop of [prune]: [keepFrom] walks down while the sample before it is
    within the lookback. *)
Fixpoint prune_from (now lb : Z) (l : list feeSample) (keepFrom : nat) : nat :=
  match keepFrom with
  | O => O
  | S k =>
      match l !! k with
      | Some s => if time_sub now (at_ s) <=? lb then prune_from now lb l k else keepFrom
      | None => keepFrom
      end
  end.

(** Slicing an empty list from [-1] panics, hence the option. *)
Definition prune (now : Z) (t : feeTracker) : option feeTracker :=
  match samples t with
  | [] => None
  | l => Some (mkFeeTracker (pollInterval t) (lookback t)
                 (drop (prune_from now (lookback t) l (length l - 1)) l))
  end.

(** [t.samples[len(t.samples)-1]]. *)
Definition last_sample (l : list feeSample) : option feeSample := l !! (length l - 1)%nat.

(** The refresh condition of [sorobanInclusionFees]. *)
Definition needs_fetch (now : Z) (t : feeTracker) : bool :=
  match last_sample (samples t) with
  | None => true
  | Some s => (pollInterval t <=? 0) || (pollInterval t <=? time_sub now (at_ s))
  end.

Definition peak_step (peak s : feeSample) : feeSample :=
  mkFeeSample (at_ peak) (Z.max (p50 peak) (p50 s)) (Z.max (p90 peak) (p90 s))
    (Z.max (p99 peak) (p99 s)).

Definition zero_sample : feeSample := mkFeeSample 0 0 0 0.

(** [sorobanInclusionFees], in two halves around the [GetFeeStats] call: whether
    the client is asked is [needs_fetch], and the rest runs on its answer
    ([None] when it was not asked).  The outer option is a run-time panic. *)
Definition sorobanInclusionFees_k (now : Z) (fetched : option (res FeeStats)) (t : feeTracker)
    : option (res (feeSample * feeSample) * feeTracker) :=
  match fetched, samples t with
  | Some (Err fetchErr), [] => Some (Err fetchErr, t)
  | _, _ =>
      let t := match fetched with
               | Some (Ok r) => mkFeeTracker (pollInterval t) (lookback t)
                   (samples t ++ [mkFeeSample now (fs_p50 r) (fs_p90 r) (fs_p99 r)])
               | _ => t
               end in
      match prune now t with
      | None => None
      | Some t =>
          match last_sample (samples t) with
          | None => None
          | Some latest => Some (Ok (fold_left peak_step (samples t) zero_sample, latest), t)
          end
      end
  end.

(** ** Lemmas *)

Lemma clamp_spec x m : (if x >? m then (m, true) else (x, false)) = (Z.min x m, x >? m).
Proof. destruct (x >? m) eqn:E; zbool; f_equal; lia. Qed.

Lemma max_spec_gtb x y : (if x >? y then x else y) = Z.max x y.
Proof. destruct (x >? y) eqn:E; zbool; lia. Qed.

Lemma InclusionFee_le_max `{FloatConv} f a : a <> 0 -> InclusionFee f a <= MaxInclusionFee f.
Proof.
  intros Ha. unfold InclusionFee. destruct (a =? 0) eqn:E; [zbool; done|].
  destruct (_ >? _) eqn:E'; zbool; lia.
Qed.

(** ** Theorems on the fee strategy *)

(** Property C17: the resource fee is granted exactly when the RPC's minimum is positive, the
    buffer is not negative, the sum does not overflow [int64] and stays within
    the effective cap (the per-request cap when set, else the configured one, 0
    meaning none); it is then exactly minimum plus buffer. *)
Theorem ResourceFee_spec f m b p :
  is_i64 m -> is_i64 b -> is_i64 (MaxResourceFee f) -> is_u64 p ->
  let cap := if 0 <? p then Z.min p MaxInt64 else MaxResourceFee f in
  forall fee, ResourceFee f m b p = Ok fee <->
    0 < m /\ 0 <= b /\ m + b <= MaxInt64 /\ (0 < cap -> m + b <= cap) /\ fee = m + b.
Proof.
  intros Hm Hb Hc Hp cap fee. unfold ResourceFee.
  destruct (m <=? 0) eqn:E1; zbool; [split; [done|lia]|].
  destruct (b <? 0) eqn:E2; zbool; [split; [done|lia]|].
  rewrite (i64_id (MaxInt64 - b)) by goint.
  destruct (m >? MaxInt64 - b) eqn:E3; zbool; [split; [done|lia]|].
  rewrite (i64_id (m + b)) by goint.
  assert ((if p >? 0 then i64 (Z.min p MaxInt64) else MaxResourceFee f) = cap) as ->.
  { unfold cap. rewrite Z.gtb_ltb. destruct (0 <? p) eqn:E; [|done]. zbool. apply i64_id. goint. }
  destruct ((cap >? 0) && (m + b >? cap))%bool eqn:E4.
  - zbool. split; [done|]. lia.
  - apply andb_false_iff in E4. rewrite !Z.gtb_ltb, !Z.ltb_ge in E4.
    split; [intros [= <-]|intros (_ & _ & _ & _ & ->)]; [|done]. lia.
Qed.

(** Seeding and bumping return the configured maximum at most, flag exactly the
    clamped results, and otherwise bid at least the network percentile. *)
Theorem seed_and_bump_spec `{FloatConv} f a cur n :
  is_i64 n ->
  SeedInclusionFee f a n =
    (Z.min (Z.max (InclusionFee f a) n) (MaxInclusionFee f),
     Z.max (InclusionFee f a) n >? MaxInclusionFee f) /\
  (fst (BumpInclusionFee f cur n) <= MaxInclusionFee f) /\
  (Z.min n (MaxInclusionFee f) <= fst (BumpInclusionFee f cur n)) /\
  (snd (BumpInclusionFee f cur n) = true <->
     fst (BumpInclusionFee f cur n) = MaxInclusionFee f /\
     MaxInclusionFee f < Z.max n (f64_to_i64 (f64_ceil
       (f64_mul (f64_of_int cur) (BumpMultiplier f))))).
Proof.
  intros Hn. unfold SeedInclusionFee, BumpInclusionFee.
  rewrite (i64_id n) by done. rewrite !max_spec_gtb, !clamp_spec. simpl.
  rewrite (Z.max_comm n (InclusionFee f a)), !(Z.max_comm n (f64_to_i64 _)).
  set (b := f64_to_i64 _). split_and!; [done|lia|lia|].
  rewrite Z.gtb_ltb, Z.ltb_lt. lia.
Qed.

(** A network percentile above [int64] wraps to a negative number and is then
    ignored: the bid falls back to the geometric baseline, still capped. *)
Theorem seed_ignores_wrapped_percentile `{FloatConv} f a n :
  MaxInt64 < n < two64 -> 0 <= InclusionFee f a ->
  SeedInclusionFee f a n =
    (Z.min (InclusionFee f a) (MaxInclusionFee f), InclusionFee f a >? MaxInclusionFee f).
Proof.
  intros Hn Hi. unfold SeedInclusionFee.
  assert (i64 n < 0) by goint.
  destruct (i64 n >? InclusionFee f a) eqn:E; zbool; [lia|]. apply clamp_spec.
Qed.

(** The defaults of docs.toml. *)
Definition default_strategy : FeeStrategy :=
  mkFeeStrategy 100 200000000 (f64_ratio 3 2) 15000 2000000000.

(** With the default fee settings (base 100, cap 200000000, multiplier 1.5) the
    geometric fee leaves [int64] at attempt 97; on amd64 the conversion then
    yields the smallest [int64], which passes the cap check, so the result is
    negative instead of the cap, and a seed without network data is 0, below the
    base fee. *)
Theorem InclusionFee_overflow :
  @InclusionFee amd64_conv default_strategy 96 = MaxInclusionFee default_strategy /\
  @InclusionFee amd64_conv default_strategy 97 = - two63 /\
  @SeedInclusionFee amd64_conv default_strategy 97 0 = (0, false) /\
  @InclusionFee arm64_conv default_strategy 97 = MaxInclusionFee default_strategy.
Proof. vm_compute. split_and!; reflexivity. Qed.

(** ** Lemmas on the fee tracker *)

Lemma prune_from_spec now lb l k :
  (k < length l)%nat ->
  let r := prune_from now lb l k in
  (r <= k)%nat /\
  (forall i s, (r <= i < k)%nat -> l !! i = Some s -> time_sub now (at_ s) <= lb) /\
  (forall s, (0 < r)%nat -> l !! (r - 1)%nat = Some s -> lb < time_sub now (at_ s)).
Proof.
  intros Hk. induction k as [|k IH]; cbn zeta in *; simpl; [split_and!; lia|].
  destruct (lookup_lt_is_Some_2 l k ltac:(lia)) as [s Hs]. rewrite Hs.
  destruct (time_sub now (at_ s) <=? lb) eqn:E; zbool.
  - destruct (IH ltac:(lia)) as (H1 & H2 & H3). split_and!; [lia| |done].
    intros i s' Hi Hs'. destruct (decide (i = k)) as [->|]; [congruence|].
    apply (H2 i); [lia|done].
  - split_and!; [lia|lia|]. intros s' _ Hs'. simpl in Hs'. rewrite Nat.sub_0_r in Hs'. congruence.
Qed.

Lemma last_sample_Some l : l <> [] -> exists s, last_sample l = Some s.
Proof.
  intros Hl. apply lookup_lt_is_Some_2. destruct l; [done|simpl; lia].
Qed.

Lemma last_sample_drop k l : (k <= length l - 1)%nat -> last_sample (drop k l) = last_sample l.
Proof.
  intros Hk. unfold last_sample. rewrite lookup_drop, length_drop. f_equal. lia.
Qed.

Lemma peak_fold_spec l a p :
  (percentile a p <= percentile (fold_left peak_step l a) p) /\
  (forall s, s ∈ l -> percentile s p <= percentile (fold_left peak_step l a) p) /\
  (percentile (fold_left peak_step l a) p = percentile a p \/
   exists s, s ∈ l /\ percentile s p = percentile (fold_left peak_step l a) p).
Proof.
  revert a; induction l as [|x l IH]; intros a; simpl.
  - split_and!; [lia|set_solver|by left].
  - destruct (IH (peak_step a x)) as (H1 & H2 & H3).
    assert (percentile (peak_step a x) p = Z.max (percentile a p) (percentile x p)) as E by (by destruct p).
    split_and!; [lia| |].
    + intros s [->|Hs]%elem_of_cons; [lia|auto].
    + destruct H3 as [H3|(s & Hs & H3)]; [|right; exists s; split; [set_solver|done]].
      destruct (Z.max_spec (percentile a p) (percentile x p)) as [[_ Em]|[_ Em]];
        [right; exists x; split; [set_solver|lia]|left; lia].
Qed.

(** The samples the tracker holds after the client's answer, before pruning. *)
Definition samples_after (now : Z) (fetched : option (res FeeStats)) (t : feeTracker)
    : list feeSample :=
  match fetched with
  | Some (Ok r) => samples t ++ [mkFeeSample now (fs_p50 r) (fs_p90 r) (fs_p99 r)]
  | _ => samples t
  end.

(** What every successful answer of the tracker satisfies. *)
Record tracker_answer (now lb : Z) (before kept : list feeSample) (peak latest : feeSample)
    : Prop := {
  ta_suffix : exists dropped, before = dropped ++ kept /\
    (forall s, last_sample dropped = Some s -> lb < time_sub now (at_ s));
  ta_latest : last_sample kept = Some latest /\ last_sample before = Some latest;
  ta_recent : forall i s, (S i < length kept)%nat -> kept !! i = Some s ->
    time_sub now (at_ s) <= lb;
  ta_peak_ub : forall p s, s ∈ kept -> percentile s p <= percentile peak p;
  ta_peak_hit : forall p, percentile peak p = 0 \/
    exists s, s ∈ kept /\ percentile s p = percentile peak p
}.

Lemma prune_ok now t :
  samples t <> [] ->
  exists t', prune now t = Some t' /\
    forall peak latest, peak = fold_left peak_step (samples t') zero_sample ->
    last_sample (samples t') = Some latest ->
    tracker_answer now (lookback t) (samples t) (samples t') peak latest.
Proof.
  intros Hne. unfold prune. destruct (samples t) as [|a l0] eqn:El; [done|].
  eexists; split; [done|]. set (l := a :: l0). simpl samples.
  pose proof (prune_from_spec now (lookback t) l (length l - 1) ltac:(subst l; simpl; lia)) as (H1 & H2 & H3).
  set (r := prune_from _ _ _ _) in *. intros peak latest -> Hlast. split.
  - exists (take r l). split; [symmetry; apply take_drop|]. intros s Hs. unfold last_sample in Hs.
    rewrite length_take, Nat.min_l in Hs by lia.
    apply lookup_take_Some in Hs as [Hs Hlt]. apply H3; [lia|done].
  - split; [done|]. by rewrite <- (last_sample_drop r).
  - intros i s Hi Hs. rewrite length_drop in Hi. rewrite lookup_drop in Hs.
    apply (H2 (r + i)%nat); [lia|done].
  - intros p s Hs. by apply peak_fold_spec.
  - intros p. destruct (peak_fold_spec (drop r l) zero_sample p) as (_ & _ & [E|E]); [left|by right].
    rewrite E. by destruct p.
Qed.

(** ** Theorems on the fee tracker *)

(** When the client is asked exactly as the refresh condition says, the tracker
    never indexes out of range; it fails only when it has never had a sample and
    the fetch failed, passing that error on; otherwise it answers with the latest
    sample and the per-percentile maximum of the samples kept, which are the
    latest one and the unbroken run before it inside the lookback window. *)
Theorem sorobanInclusionFees_spec now fetched t :
  (needs_fetch now t = true <-> fetched <> None) ->
  exists r t', sorobanInclusionFees_k now fetched t = Some (r, t') /\
  match r with
  | Err e => samples t = [] /\ fetched = Some (Err e) /\ t' = t
  | Ok (peak, latest) =>
      tracker_answer now (lookback t) (samples_after now fetched t) (samples t') peak latest
  end.
Proof.
  intros Hf. unfold sorobanInclusionFees_k.
  assert (samples t = [] -> fetched <> None) as Hne.
  { intros E. apply Hf. unfold needs_fetch. by rewrite E. }
  assert ((exists e, samples t = [] /\ fetched = Some (Err e)) \/
          ~ (samples t = [] /\ exists e, fetched = Some (Err e))) as [(e & E & ->)|Hno].
  { destruct (samples t), fetched as [[]|]; naive_solver. }
  { rewrite E. by eexists _, _. }
  set (t1 := match fetched with Some (Ok r) => _ | _ => t end).
  assert (samples t1 = samples_after now fetched t /\ lookback t1 = lookback t) as [E1 El].
  { by destruct fetched as [[|]|]. }
  assert (samples t1 <> []) as Hs.
  { rewrite E1. destruct fetched as [[r|e]|]; simpl; [by destruct (samples t)| |]; intros E.
    - apply Hno. eauto.
    - by apply Hne. }
  destruct (prune_ok now t1 Hs) as (t' & Hp & Hans).
  assert (samples t' <> []) as Hs'.
  { unfold prune in Hp. destruct (samples t1) as [|a l] eqn:E; [done|]. injection Hp as <-. simpl samples.
    intros Ed. apply (f_equal length) in Ed. rewrite length_drop in Ed.
    pose proof (prune_from_spec now (lookback t1) (a :: l) (length (a :: l) - 1) ltac:(simpl; lia)) as [Hr _].
    simpl in *. lia. }
  destruct (last_sample_Some _ Hs') as [latest Hlast].
  exists (Ok (fold_left peak_step (samples t') zero_sample, latest)), t'. split.
  - transitivity (match prune now t1 with
      | None => None
      | Some t => match last_sample (samples t) with
                  | None => None
                  | Some latest => Some (Ok (fold_left peak_step (samples t) zero_sample, latest), t)
                  end
      end); [|by rewrite Hp, Hlast].
    destruct fetched as [[r|e]|]; [reflexivity| |reflexivity].
    subst t1. destruct (samples t) eqn:E; [exfalso; apply Hno; eauto|reflexivity].
  - rewrite <- E1, <- El. by apply Hans.
Qed.

(** Parsing is case-insensitive, ignores surrounding blanks, inverts the printer
    and never yields anything but its three names; anything else falls back. *)
Theorem feePercentile_roundtrip p def :
  parseFeePercentile (feePercentile_String p) = Ok p /\
  parseFeePercentile (" " +:+ ToLower (feePercentile_String p) +:+ " ") = Ok p /\
  (forall s, feePercentileOrDefault s def =
     match parseFeePercentile s with Ok q => q | Err _ => def end) /\
  (forall s q, parseFeePercentile s = Ok q -> ToUpper (TrimSpace s) = feePercentile_String q).
Proof.
  split_and!; [by destruct p|by destruct p| |].
  - intros s. unfold feePercentileOrDefault. by destruct (parseFeePercentile s).
  - intros s q. unfold parseFeePercentile.
    destruct (String.eqb _ "P50") eqn:E1; [apply String.eqb_eq in E1; by intros [= <-]|].
    destruct (String.eqb _ "P90") eqn:E2; [apply String.eqb_eq in E2; by intros [= <-]|].
    destruct (String.eqb _ "P99") eqn:E3; [apply String.eqb_eq in E3; by intros [= <-]|done].
Qed.

(** ** Witnesses *)

Lemma ResourceFee_spec_witness :
  ResourceFee default_strategy 50000 15000 0 = Ok 65000 /\
  0 < 50000 /\ 50000 + 15000 <= MaxInt64.
Proof.
  split; [|unfold MaxInt64, two63; lia].
  apply (ResourceFee_spec default_strategy 50000 15000 0);
    try (unfold is_i64, is_u64, two63, two64; simpl; lia).
  unfold MaxInt64, two63. simpl. lia.
Defined.

Lemma seed_and_bump_spec_witness :
  @SeedInclusionFee amd64_conv default_strategy 0 5000 = (5000, false) /\
  5000 <= fst (@BumpInclusionFee amd64_conv default_strategy 100 5000).
Proof.
  assert (is_i64 5000) as Hi by (unfold is_i64, two63; lia).
  pose proof (@seed_and_bump_spec amd64_conv default_strategy 0 100 5000 Hi) as (E & _ & L & _).
  split; [rewrite E; vm_compute; reflexivity|exact L].
Defined.

Lemma seed_ignores_wrapped_percentile_witness :
  @SeedInclusionFee amd64_conv default_strategy 0 MaxUint64 = (100, false).
Proof.
  rewrite (@seed_ignores_wrapped_percentile amd64_conv default_strategy 0 MaxUint64);
    [vm_compute; reflexivity|unfold MaxUint64, MaxInt64, two63, two64; lia|vm_compute; discriminate].
Defined.

Definition demo_tracker : feeTracker :=
  mkFeeTracker 5 10 [mkFeeSample 1 9 9 9; mkFeeSample 20 1 2 3; mkFeeSample 24 4 1 1].

Lemma sorobanInclusionFees_spec_witness :
  exists t', sorobanInclusionFees_k 30 (Some (Ok (mkFeeStats 2 2 2))) demo_tracker =
    Some (Ok (mkFeeSample 0 4 2 3, mkFeeSample 30 2 2 2), t') /\ length (samples t') = 3%nat.
Proof.
  destruct (sorobanInclusionFees_spec 30 (Some (Ok (mkFeeStats 2 2 2))) demo_tracker)
    as (r & t' & E & _); [vm_compute; split; discriminate || reflexivity|].
  vm_compute in E. injection E as <- <-. eexists. split; vm_compute; reflexivity.
Defined.
