(* ===== verification/Config.v ===== *)
(** * Configuration of the transaction manager

    Models relayer/config/txm.go: [TxManagerConfig] as deserialized (a pointer
    is an option), [Resolve] and [mergeSimulationHintLists].  [Config] is the
    configuration after [Resolve], when every pointer is non-nil; durations are
    nanoseconds. *)

From S2P Require Import Prelude GoFloat.

Record TxManagerConfig := mkTxManagerConfig {
  o_BroadcastChanSize : option nat;
  o_ConfirmPollInterval : option Z;
  o_BaseInclusionFee : option Z;
  o_MaxInclusionFee : option Z;
  o_FeeBumpMultiplier : option f64;
  o_ResourceFeeBuffer : option Z;
  o_RestoreFeeBuffer : option Z;
  o_MaxResourceFee : option Z;
  o_FeeStatsPollInterval : option Z;
  o_FeeStatsLookback : option Z;
  o_FirstSendFeePercentile : option string;
  o_RebroadcastFeePercentile : option string;
  o_MaxSimulateAttempts : option nat;
  o_MaxSubmitRetryAttempts : option nat;
  o_SubmitRetryDelay : option Z;
  o_TxTimeoutSecs : option Z;
  o_LedgerBoundsOffset : option Z;
  o_MaxTxRetryAttempts : option Z;
  o_MaxGetClientRetryAttempts : option Z;
  o_MaxRestoreAttempts : option nat;
  o_SimulationTerminalHints : list string;
  o_SimulationRetryableHints : list string;
  o_PruneInterval : option Z;
  o_PruneTxExpiration : option Z
}.

Record Config := mkConfig {
  BroadcastChanSize : nat;
  ConfirmPollInterval : Z;
  cfg_BaseInclusionFee : Z;
  cfg_MaxInclusionFee : Z;
  cfg_FeeBumpMultiplier : f64;
  cfg_ResourceFeeBuffer : Z;
  cfg_RestoreFeeBuffer : Z;
  cfg_MaxResourceFee : Z;
  FeeStatsPollInterval : Z;
  FeeStatsLookback : Z;
  FirstSendFeePercentile : string;
  RebroadcastFeePercentile : string;
  MaxSimulateAttempts : nat;
  MaxSubmitRetryAttempts : nat;
  SubmitRetryDelay : Z;
  TxTimeoutSecs : Z;
  cfg_LedgerBoundsOffset : Z;
  MaxTxRetryAttempts : Z;
  MaxGetClientRetryAttempts : Z;
  MaxRestoreAttempts : nat;
  SimulationTerminalHints : list string;
  SimulationRetryableHints : list string;
  PruneInterval : Z;
  PruneTxExpiration : Z
}.

Definition builtinSimulationTerminalHints : list string :=
  ["error(contract"; "contract error"; "trapped"; "trap"; "malformed"; "bad auth";
   "invalid"; "unknown function"; "no such contract"]%string.

Definition builtinSimulationRetryableHints : list string :=
  ["timeout"; "temporarily unavailable"; "try_again_later"; "too many requests";
   "rate limit"; "connection refused"; "connection reset"; "eof"; "bad_seq";
   "tx_bad_seq"; "sequence"; "stale"; "ledger"]%string.

(** One [for _, h := range] loop of the merge: [seen] and [out] grow together. *)
Fixpoint merge_loop (l : list string) (seen : gset string) (out : list string)
    : gset string * list string :=
  match l with
  | [] => (seen, out)
  | h :: l' =>
      if decide (h ∈ seen) then merge_loop l' seen out
      else merge_loop l' ({[h]} ∪ seen) (out ++ [h])
  end.

Definition mergeSimulationHintLists (builtin extra : list string) : list string :=
  match extra with
  | [] => builtin
  | _ =>
      let '(seen, out) := merge_loop builtin ∅ [] in
      snd (merge_loop extra seen out)
  end.

(** [Resolve] against the resolved defaults of docs.toml. *)
Definition Resolve (d : Config) (c : TxManagerConfig) : Config := {|
  BroadcastChanSize := default (BroadcastChanSize d) (o_BroadcastChanSize c);
  ConfirmPollInterval := default (ConfirmPollInterval d) (o_ConfirmPollInterval c);
  cfg_BaseInclusionFee := default (cfg_BaseInclusionFee d) (o_BaseInclusionFee c);
  cfg_MaxInclusionFee := default (cfg_MaxInclusionFee d) (o_MaxInclusionFee c);
  cfg_FeeBumpMultiplier := default (cfg_FeeBumpMultiplier d) (o_FeeBumpMultiplier c);
  cfg_ResourceFeeBuffer := default (cfg_ResourceFeeBuffer d) (o_ResourceFeeBuffer c);
  cfg_RestoreFeeBuffer := default (cfg_RestoreFeeBuffer d) (o_RestoreFeeBuffer c);
  cfg_MaxResourceFee := default (cfg_MaxResourceFee d) (o_MaxResourceFee c);
  FeeStatsPollInterval := default (FeeStatsPollInterval d) (o_FeeStatsPollInterval c);
  FeeStatsLookback := default (FeeStatsLookback d) (o_FeeStatsLookback c);
  FirstSendFeePercentile := default (FirstSendFeePercentile d) (o_FirstSendFeePercentile c);
  RebroadcastFeePercentile := default (RebroadcastFeePercentile d) (o_RebroadcastFeePercentile c);
  MaxSimulateAttempts := default (MaxSimulateAttempts d) (o_MaxSimulateAttempts c);
  MaxSubmitRetryAttempts := default (MaxSubmitRetryAttempts d) (o_MaxSubmitRetryAttempts c);
  SubmitRetryDelay := default (SubmitRetryDelay d) (o_SubmitRetryDelay c);
  TxTimeoutSecs := default (TxTimeoutSecs d) (o_TxTimeoutSecs c);
  cfg_LedgerBoundsOffset := default (cfg_LedgerBoundsOffset d) (o_LedgerBoundsOffset c);
  MaxTxRetryAttempts := default (MaxTxRetryAttempts d) (o_MaxTxRetryAttempts c);
  MaxGetClientRetryAttempts := default (MaxGetClientRetryAttempts d) (o_MaxGetClientRetryAttempts c);
  MaxRestoreAttempts := default (MaxRestoreAttempts d) (o_MaxRestoreAttempts c);
  SimulationTerminalHints :=
    mergeSimulationHintLists builtinSimulationTerminalHints (o_SimulationTerminalHints c);
  SimulationRetryableHints :=
    mergeSimulationHintLists builtinSimulationRetryableHints (o_SimulationRetryableHints c);
  PruneInterval := default (PruneInterval d) (o_PruneInterval c);
  PruneTxExpiration := default (PruneTxExpiration d) (o_PruneTxExpiration c)
|}.

(** A resolved configuration written back as one with every field set. *)
Definition to_manager_config (c : Config) : TxManagerConfig := mkTxManagerConfig
  (Some (BroadcastChanSize c)) (Some (ConfirmPollInterval c)) (Some (cfg_BaseInclusionFee c))
  (Some (cfg_MaxInclusionFee c)) (Some (cfg_FeeBumpMultiplier c)) (Some (cfg_ResourceFeeBuffer c))
  (Some (cfg_RestoreFeeBuffer c)) (Some (cfg_MaxResourceFee c)) (Some (FeeStatsPollInterval c))
  (Some (FeeStatsLookback c)) (Some (FirstSendFeePercentile c)) (Some (RebroadcastFeePercentile c))
  (Some (MaxSimulateAttempts c)) (Some (MaxSubmitRetryAttempts c)) (Some (SubmitRetryDelay c))
  (Some (TxTimeoutSecs c)) (Some (cfg_LedgerBoundsOffset c)) (Some (MaxTxRetryAttempts c))
  (Some (MaxGetClientRetryAttempts c)) (Some (MaxRestoreAttempts c))
  (SimulationTerminalHints c) (SimulationRetryableHints c)
  (Some (PruneInterval c)) (Some (PruneTxExpiration c)).

(** The defaults of docs.toml. *)
Definition docs_defaults : Config := mkConfig
  100 3000000000 100 200000000 (f64_ratio 3 2) 15000 10000 2000000000
  5000000000 120000000000 "P90" "P99" 3 10 3000000000 300 50 5 10 3
  builtinSimulationTerminalHints builtinSimulationRetryableHints
  600000000000 7200000000000.

(** ** Lemmas *)

Lemma merge_loop_spec l seen out :
  (forall h, h ∈ seen <-> h ∈ out) -> NoDup out ->
  let '(seen', out') := merge_loop l seen out in
  (forall h, h ∈ seen' <-> h ∈ out') /\ NoDup out' /\
  (exists tl, out' = out ++ tl /\ (forall h, h ∈ tl <-> h ∈ l /\ h ∉ out) /\ sublist tl l).
Proof.
  revert seen out; induction l as [|h l IH]; intros seen out Hs Hnd; simpl.
  - split_and!; try done. exists []. rewrite app_nil_r. split_and!; [done|set_solver|constructor].
  - case_decide as Hin.
    + specialize (IH seen out Hs Hnd). destruct (merge_loop l seen out) as [seen' out'].
      destruct IH as (H1 & H2 & tl & -> & Htl & Hsub). split_and!; try done.
      exists tl. split_and!; [done| |by constructor].
      intros x. rewrite Htl, elem_of_cons. apply Hs in Hin. naive_solver.
    + assert (h ∉ out) as Hno by (rewrite <- Hs; done).
      specialize (IH ({[h]} ∪ seen) (out ++ [h])). destruct (merge_loop l _ _) as [seen' out'].
      destruct IH as (H1 & H2 & tl & -> & Htl & Hsub); [set_solver| |].
      { apply list.NoDup_app. split_and!; [done|set_solver|apply NoDup_singleton]. }
      split_and!; try done. exists (h :: tl). rewrite <- app_assoc. split_and!; [done| |by constructor].
      intros x. rewrite !elem_of_cons, Htl, elem_of_app, list_elem_of_singleton.
      destruct (decide (x = h)) as [->|]; naive_solver.
Qed.

Lemma merge_loop_fresh l seen out :
  NoDup l -> (forall h, h ∈ l -> h ∉ seen) ->
  merge_loop l seen out = (seen ∪ list_to_set l, out ++ l).
Proof.
  revert seen out; induction l as [|h l IH]; intros seen out Hnd Hs; simpl.
  - by rewrite app_nil_r, union_empty_r_L.
  - apply list.NoDup_cons in Hnd as [Hn Hnd]. rewrite decide_False by set_solver.
    rewrite IH by set_solver. rewrite <- app_assoc. f_equal. set_solver.
Qed.

Lemma merge_loop_seen b l seen out :
  (forall h, h ∈ b -> h ∈ seen) -> merge_loop (b ++ l) seen out = merge_loop l seen out.
Proof.
  induction b as [|h b IH]; intros Hs; simpl; [done|].
  rewrite decide_True by set_solver. apply IH. set_solver.
Qed.

Lemma merge_nodup_id (l : list string) :
  NoDup l -> merge_loop l ∅ [] = (list_to_set l, l).
Proof. intros. rewrite merge_loop_fresh by set_solver. by rewrite union_empty_l_L. Qed.

(** ** Theorems *)

(** Merging user hints keeps every built-in hint in front, adds each new user
    hint once, in order, and nothing else; merging again changes nothing. *)
Theorem mergeSimulationHintLists_spec builtin extra :
  NoDup builtin ->
  let out := mergeSimulationHintLists builtin extra in
  (exists tl, out = builtin ++ tl /\ sublist tl extra) /\
  NoDup out /\
  (forall h, h ∈ out <-> h ∈ builtin \/ h ∈ extra) /\
  mergeSimulationHintLists builtin out = out.
Proof.
  intros Hnd out.
  assert ((exists tl, out = builtin ++ tl /\ sublist tl extra /\
           (forall h, h ∈ tl <-> h ∈ extra /\ h ∉ builtin)) /\ NoDup out) as [(tl & E & Hsub & Htl) Hno].
  { unfold out, mergeSimulationHintLists. destruct extra as [|x extra0] eqn:Ex.
    - split; [|done]. exists []. rewrite app_nil_r. split_and!; [done|constructor|set_solver].
    - rewrite <- Ex. rewrite merge_nodup_id by done.
      pose proof (merge_loop_spec extra (list_to_set builtin) builtin
        ltac:(intros; apply elem_of_list_to_set) Hnd) as Hm.
      destruct (merge_loop extra _ _) as [seen' out']. destruct Hm as (_ & ? & tl & -> & ? & ?).
      split; [|done]. by exists tl. }
  split_and!.
  - by exists tl.
  - done.
  - intros h. rewrite E, elem_of_app, Htl. destruct (decide (h ∈ builtin)); tauto.
  - unfold mergeSimulationHintLists at 1. destruct out as [|o out0] eqn:Eo.
    { symmetry in E. by apply app_eq_nil in E as [-> _]. }
    rewrite E, merge_nodup_id by done. rewrite E in Hno.
    apply list.NoDup_app in Hno as (_ & Hd & Hl).
    rewrite merge_loop_seen by (intros; by apply elem_of_list_to_set).
    rewrite merge_loop_fresh; [done|done|].
    intros h Hh. rewrite elem_of_list_to_set. intros Hb. by apply (Hd h).
Qed.

Lemma builtin_hints_NoDup :
  NoDup builtinSimulationTerminalHints /\ NoDup builtinSimulationRetryableHints.
Proof. split; apply (bool_decide_unpack _); vm_compute; exact I. Qed.

(** [Resolve] takes each value the user set, fills the others from the defaults,
    and is idempotent, so the second call made by [New] is a no-op. *)
Theorem Resolve_idempotent d c :
  Resolve d (to_manager_config (Resolve d c)) = Resolve d c.
Proof.
  unfold Resolve at 1 3. simpl.
  destruct builtin_hints_NoDup as [Ht Hr].
  f_equal; by apply mergeSimulationHintLists_spec.
Qed.

Lemma mergeSimulationHintLists_spec_witness :
  mergeSimulationHintLists builtinSimulationTerminalHints ["trap"; "x"; "x"]%string =
    builtinSimulationTerminalHints ++ ["x"%string] /\
  NoDup (mergeSimulationHintLists builtinSimulationTerminalHints ["trap"; "x"; "x"]%string).
Proof.
  split; [vm_compute; reflexivity|].
  apply (mergeSimulationHintLists_spec builtinSimulationTerminalHints ["trap"; "x"; "x"]%string).
  exact (proj1 builtin_hints_NoDup).
Defined.
