(* ===== verification/TxmState.v ===== *)
(** * State of the transaction manager and its effects

    Models relayer/txm/tx.go and the state, the status helpers and the query
    methods of relayer/txm/txm.go.  [StellarTx] and operation objects are shared
    by pointer between the id map, the broadcast channel and the account stores,
    so they live in heaps and are passed by reference ([txref], [opref]).

    A method is a value of the state monad [M] over the environment and the
    manager's state.  Logging has no state and is not modelled; metrics are an
    event list.  The [triple] rules at the end are the program logic in which the
    other files prove their properties. *)

From S2P Require Import Prelude GoFloat Sdk TxStore Fee Config.

(** ** Constants (tx.go) *)

Abbreviation opref := positive.

Definition ErrorReason : Type := string.
Definition ErrorReasonSequenceNumber : ErrorReason := "sequence_number".
Definition ErrorReasonStoreCreate : ErrorReason := "store_create".
Definition ErrorReasonSimulation : ErrorReason := "simulation".
Definition ErrorReasonAssembly : ErrorReason := "assembly".
Definition ErrorReasonSigning : ErrorReason := "signing".
Definition ErrorReasonNoHash : ErrorReason := "no_hash".
Definition ErrorReasonStoreAdd : ErrorReason := "store_add".
Definition ErrorReasonUnknownSubmit : ErrorReason := "unknown_submit".
Definition ErrorReasonMaxRetries : ErrorReason := "max_retries".
Definition ErrorReasonRevert : ErrorReason := "revert".
Definition ErrorReasonRevertDecode : ErrorReason := "revert_decode_error".
Definition ErrorReasonTimedOut : ErrorReason := "timed_out".
Definition ErrorReasonStatusUnknown : ErrorReason := "status_unknown".
Definition ErrorReasonBadSeq : ErrorReason := "bad_seq".
Definition ErrorReasonRestoreFailed : ErrorReason := "restore_failed".
Definition ErrorReasonTryAgainLater : ErrorReason := "try_again_later".
Definition ErrorReasonClientUnavailable : ErrorReason := "client_unavailable".
Definition ErrorReasonInsufficientFee : ErrorReason := "insufficient_fee".
Definition ErrorReasonInternalError : ErrorReason := "internal_error".
Definition ErrorReasonTooLate : ErrorReason := "too_late".
Definition ErrorReasonNilTx : ErrorReason := "nil_tx".
Definition ErrorReasonNilTxStore : ErrorReason := "nil_tx_store".
Definition ErrorReasonSubmitErrorUndecoded : ErrorReason := "submit_error_undecoded".

Inductive DropReason :=
| DropReasonChannelFullOldestEvicted
| DropReasonChannelFullNewRejected.

(** [string(reason)]. *)
Definition DropReason_string (r : DropReason) : string :=
  match r with
  | DropReasonChannelFullOldestEvicted => "channel_full_oldest_evicted"
  | DropReasonChannelFullNewRejected => "channel_full_new_rejected"
  end.

Inductive RetryReason := RetryReasonResourceExhaustion | RetryReasonTimedOut.
Inductive RetryBudget := RetryBudgetLifecycle | RetryBudgetInfra.
Inductive RestoreOutcome := RestoreOutcomeInitiated | RestoreOutcomeSuccess | RestoreOutcomeFailed.

(** The [TxmMetrics] interface: one constructor per method. *)
Inductive Metric :=
| IncrementBroadcastedTxs
| IncrementSuccessTxs
| SetPendingTxs (n : Z)
| IncrementErrorTxs (r : ErrorReason)
| IncrementRetryTxs (r : RetryReason)
| IncrementDroppedTxs (r : DropReason)
| IncrementMaxAttemptsReached (b : RetryBudget)
| IncrementSubmitRejected (r : ErrorReason)
| IncrementRestore (o : RestoreOutcome)
| ObserveSimulationDuration (ms : Z)
| ObserveInclusionFee (stroops : Z)
| ObserveResourceFee (stroops : Z)
| RecordTimeUntilTxConfirmed (ns : Z).

(** [commontypes.TransactionStatus]. *)
Inductive TransactionStatus := Unknown | Pending | Unconfirmed | Finalized | Failed | Fatal.
#[export] Instance TransactionStatus_eq_dec : EqDecision TransactionStatus.
Proof. solve_decision. Defined.

(** ** Data *)

(** A [StellarTx] (tx.go). [Done] says whether its channel is closed. *)
Record StellarTx := mkStellarTx {
  ID : string;
  Metadata : option string;
  Timestamp : Z;
  FromAddress : string;
  Operations : list opref;
  LedgerBoundsOffset : Z;
  tx_MaxResourceFee : Z;
  Fingerprint : bytes;
  Attempt : Z;
  InfraAttempts : Z;
  Status : TransactionStatus;
  TerminalTime : option Z;
  BroadcastAt : option Z;
  TxHash : string;
  Fee : option Z;
  LedgerCloseTime : Z;
  ResultXDR : string;
  ResultCode : string;
  ResultMetaXDR : string;
  tx_MaxLedger : Z;
  MinResourceFee : Z;
  Done : bool
}.


Definition set_Attempt (v : Z) (t : StellarTx) : StellarTx :=
  mkStellarTx (ID t) (Metadata t) (Timestamp t) (FromAddress t) (Operations t) (LedgerBoundsOffset t) (tx_MaxResourceFee t) (Fingerprint t) v (InfraAttempts t) (Status t) (TerminalTime t) (BroadcastAt t) (TxHash t) (Fee t) (LedgerCloseTime t) (ResultXDR t) (ResultCode t) (ResultMetaXDR t) (tx_MaxLedger t) (MinResourceFee t) (Done t).
Definition set_InfraAttempts (v : Z) (t : StellarTx) : StellarTx :=
  mkStellarTx (ID t) (Metadata t) (Timestamp t) (FromAddress t) (Operations t) (LedgerBoundsOffset t) (tx_MaxResourceFee t) (Fingerprint t) (Attempt t) v (Status t) (TerminalTime t) (BroadcastAt t) (TxHash t) (Fee t) (LedgerCloseTime t) (ResultXDR t) (ResultCode t) (ResultMetaXDR t) (tx_MaxLedger t) (MinResourceFee t) (Done t).
Definition set_Status (v : TransactionStatus) (t : StellarTx) : StellarTx :=
  mkStellarTx (ID t) (Metadata t) (Timestamp t) (FromAddress t) (Operations t) (LedgerBoundsOffset t) (tx_MaxResourceFee t) (Fingerprint t) (Attempt t) (InfraAttempts t) v (TerminalTime t) (BroadcastAt t) (TxHash t) (Fee t) (LedgerCloseTime t) (ResultXDR t) (ResultCode t) (ResultMetaXDR t) (tx_MaxLedger t) (MinResourceFee t) (Done t).
Definition set_TerminalTime (v : option Z) (t : StellarTx) : StellarTx :=
  mkStellarTx (ID t) (Metadata t) (Timestamp t) (FromAddress t) (Operations t) (LedgerBoundsOffset t) (tx_MaxResourceFee t) (Fingerprint t) (Attempt t) (InfraAttempts t) (Status t) v (BroadcastAt t) (TxHash t) (Fee t) (LedgerCloseTime t) (ResultXDR t) (ResultCode t) (ResultMetaXDR t) (tx_MaxLedger t) (MinResourceFee t) (Done t).
Definition set_BroadcastAt (v : option Z) (t : StellarTx) : StellarTx :=
  mkStellarTx (ID t) (Metadata t) (Timestamp t) (FromAddress t) (Operations t) (LedgerBoundsOffset t) (tx_MaxResourceFee t) (Fingerprint t) (Attempt t) (InfraAttempts t) (Status t) (TerminalTime t) v (TxHash t) (Fee t) (LedgerCloseTime t) (ResultXDR t) (ResultCode t) (ResultMetaXDR t) (tx_MaxLedger t) (MinResourceFee t) (Done t).
Definition set_TxHash (v : string) (t : StellarTx) : StellarTx :=
  mkStellarTx (ID t) (Metadata t) (Timestamp t) (FromAddress t) (Operations t) (LedgerBoundsOffset t) (tx_MaxResourceFee t) (Fingerprint t) (Attempt t) (InfraAttempts t) (Status t) (TerminalTime t) (BroadcastAt t) v (Fee t) (LedgerCloseTime t) (ResultXDR t) (ResultCode t) (ResultMetaXDR t) (tx_MaxLedger t) (MinResourceFee t) (Done t).
Definition set_Fee (v : option Z) (t : StellarTx) : StellarTx :=
  mkStellarTx (ID t) (Metadata t) (Timestamp t) (FromAddress t) (Operations t) (LedgerBoundsOffset t) (tx_MaxResourceFee t) (Fingerprint t) (Attempt t) (InfraAttempts t) (Status t) (TerminalTime t) (BroadcastAt t) (TxHash t) v (LedgerCloseTime t) (ResultXDR t) (ResultCode t) (ResultMetaXDR t) (tx_MaxLedger t) (MinResourceFee t) (Done t).
Definition set_LedgerCloseTime (v : Z) (t : StellarTx) : StellarTx :=
  mkStellarTx (ID t) (Metadata t) (Timestamp t) (FromAddress t) (Operations t) (LedgerBoundsOffset t) (tx_MaxResourceFee t) (Fingerprint t) (Attempt t) (InfraAttempts t) (Status t) (TerminalTime t) (BroadcastAt t) (TxHash t) (Fee t) v (ResultXDR t) (ResultCode t) (ResultMetaXDR t) (tx_MaxLedger t) (MinResourceFee t) (Done t).
Definition set_ResultXDR (v : string) (t : StellarTx) : StellarTx :=
  mkStellarTx (ID t) (Metadata t) (Timestamp t) (FromAddress t) (Operations t) (LedgerBoundsOffset t) (tx_MaxResourceFee t) (Fingerprint t) (Attempt t) (InfraAttempts t) (Status t) (TerminalTime t) (BroadcastAt t) (TxHash t) (Fee t) (LedgerCloseTime t) v (ResultCode t) (ResultMetaXDR t) (tx_MaxLedger t) (MinResourceFee t) (Done t).
Definition set_ResultCode (v : string) (t : StellarTx) : StellarTx :=
  mkStellarTx (ID t) (Metadata t) (Timestamp t) (FromAddress t) (Operations t) (LedgerBoundsOffset t) (tx_MaxResourceFee t) (Fingerprint t) (Attempt t) (InfraAttempts t) (Status t) (TerminalTime t) (BroadcastAt t) (TxHash t) (Fee t) (LedgerCloseTime t) (ResultXDR t) v (ResultMetaXDR t) (tx_MaxLedger t) (MinResourceFee t) (Done t).
Definition set_ResultMetaXDR (v : string) (t : StellarTx) : StellarTx :=
  mkStellarTx (ID t) (Metadata t) (Timestamp t) (FromAddress t) (Operations t) (LedgerBoundsOffset t) (tx_MaxResourceFee t) (Fingerprint t) (Attempt t) (InfraAttempts t) (Status t) (TerminalTime t) (BroadcastAt t) (TxHash t) (Fee t) (LedgerCloseTime t) (ResultXDR t) (ResultCode t) v (tx_MaxLedger t) (MinResourceFee t) (Done t).
Definition set_tx_MaxLedger (v : Z) (t : StellarTx) : StellarTx :=
  mkStellarTx (ID t) (Metadata t) (Timestamp t) (FromAddress t) (Operations t) (LedgerBoundsOffset t) (tx_MaxResourceFee t) (Fingerprint t) (Attempt t) (InfraAttempts t) (Status t) (TerminalTime t) (BroadcastAt t) (TxHash t) (Fee t) (LedgerCloseTime t) (ResultXDR t) (ResultCode t) (ResultMetaXDR t) v (MinResourceFee t) (Done t).
Definition set_MinResourceFee (v : Z) (t : StellarTx) : StellarTx :=
  mkStellarTx (ID t) (Metadata t) (Timestamp t) (FromAddress t) (Operations t) (LedgerBoundsOffset t) (tx_MaxResourceFee t) (Fingerprint t) (Attempt t) (InfraAttempts t) (Status t) (TerminalTime t) (BroadcastAt t) (TxHash t) (Fee t) (LedgerCloseTime t) (ResultXDR t) (ResultCode t) (ResultMetaXDR t) (tx_MaxLedger t) v (Done t).
Definition set_Done (v : bool) (t : StellarTx) : StellarTx :=
  mkStellarTx (ID t) (Metadata t) (Timestamp t) (FromAddress t) (Operations t) (LedgerBoundsOffset t) (tx_MaxResourceFee t) (Fingerprint t) (Attempt t) (InfraAttempts t) (Status t) (TerminalTime t) (BroadcastAt t) (TxHash t) (Fee t) (LedgerCloseTime t) (ResultXDR t) (ResultCode t) (ResultMetaXDR t) (tx_MaxLedger t) (MinResourceFee t) v.



(** The zero [StellarTx]. *)
Definition zero_tx : StellarTx :=
  mkStellarTx "" None 0 "" [] 0 0 [] 0 0 Unknown None None "" None 0 "" "" "" 0 0 false.

(** The [TxResult] returned to callers. *)
Record TxResult := mkTxResult {
  r_ID : string;
  r_Hash : string;
  r_Status : TransactionStatus;
  r_Fee : option Z;
  r_LedgerCloseTime : Z;
  r_ResultXDR : string;
  r_ResultMetaXDR : string;
  r_Error : option error
}.

(** The fields of [StellarTxm] that never change after [New]. *)
Record StellarTxm := mkStellarTxm {
  config : Config;
  feeStrat : FeeStrategy;
  firstSendPercentile : feePercentile;
  rebroadcastPercentile : feePercentile;
  networkPassphrase : string
}.

Section State.
Context `{Sdk}.

(** The shared state of the manager: the heap of [StellarTx] and operation
    objects, the id map, the broadcast channel (oldest first), the account
    store, the fee tracker, the recorded metrics (latest first) and whether
    [Close] has begun. *)
Record Txm := mkTxm {
  txs : gmap txref StellarTx;
  ops : gmap opref Operation;
  transactions : gmap string txref;
  broadcastChan : list txref;
  accountStore : AccountStore;
  tracker : feeTracker;
  metrics : list Metric;
  stopped : bool
}.


Definition set_txs (v : gmap txref StellarTx) (t : Txm) : Txm :=
  mkTxm v (ops t) (transactions t) (broadcastChan t) (accountStore t) (tracker t) (metrics t) (stopped t).
Definition set_ops (v : gmap opref Operation) (t : Txm) : Txm :=
  mkTxm (txs t) v (transactions t) (broadcastChan t) (accountStore t) (tracker t) (metrics t) (stopped t).
Definition set_transactions (v : gmap string txref) (t : Txm) : Txm :=
  mkTxm (txs t) (ops t) v (broadcastChan t) (accountStore t) (tracker t) (metrics t) (stopped t).
Definition set_broadcastChan (v : list txref) (t : Txm) : Txm :=
  mkTxm (txs t) (ops t) (transactions t) v (accountStore t) (tracker t) (metrics t) (stopped t).
Definition set_accountStore (v : AccountStore) (t : Txm) : Txm :=
  mkTxm (txs t) (ops t) (transactions t) (broadcastChan t) v (tracker t) (metrics t) (stopped t).
Definition set_tracker (v : feeTracker) (t : Txm) : Txm :=
  mkTxm (txs t) (ops t) (transactions t) (broadcastChan t) (accountStore t) v (metrics t) (stopped t).
Definition set_metrics (v : list Metric) (t : Txm) : Txm :=
  mkTxm (txs t) (ops t) (transactions t) (broadcastChan t) (accountStore t) (tracker t) v (stopped t).
Definition set_stopped (v : bool) (t : Txm) : Txm :=
  mkTxm (txs t) (ops t) (transactions t) (broadcastChan t) (accountStore t) (tracker t) (metrics t) v.



Definition empty_txm (cfg : Config) : Txm :=
  mkTxm ∅ ∅ ∅ [] NewAccountStore
    (newFeeTracker (FeeStatsPollInterval cfg) (FeeStatsLookback cfg)) [] false.

(** [NewFeeStrategyFromConfig] (fee.go). *)
Definition NewFeeStrategyFromConfig (cfg : Config) : FeeStrategy :=
  mkFeeStrategy (cfg_BaseInclusionFee cfg) (cfg_MaxInclusionFee cfg) (cfg_FeeBumpMultiplier cfg)
    (cfg_ResourceFeeBuffer cfg) (cfg_MaxResourceFee cfg).

(** [New]: [passphrase] is chain_selectors' answer for the chain id. *)
Definition New (d : Config) (cfg : TxManagerConfig) (passphrase : res string)
    : res (StellarTxm * Txm) :=
  let cfg := Resolve d cfg in
  match passphrase with
  | Err e => Err (Wrapf "resolve network passphrase: " e)
  | Ok p => Ok (mkStellarTxm cfg (NewFeeStrategyFromConfig cfg)
                  (feePercentileOrDefault (FirstSendFeePercentile cfg) defaultFirstSendFeePercentile)
                  (feePercentileOrDefault (RebroadcastFeePercentile cfg) defaultRebroadcastFeePercentile)
                  p,
                empty_txm cfg)
  end.

End State.

(** ** The monad *)

Definition M `{Sdk} (W A : Type) : Type := W * Txm -> A * (W * Txm).

#[export] Instance M_ret `{Sdk} {W} : MRet (M W) := fun A a s => (a, s).
#[export] Instance M_bind `{Sdk} {W} : MBind (M W) := fun A B f m s =>
  let '(a, s') := m s in f a s'.

Section Effects.
Context `{Sdk} {W : Type} `{Env W}.

(** A call that leaves the manager. *)
Definition io {A} (f : W -> A * W) : M W A := fun '(w, t) =>
  let '(a, w') := f w in (a, (w', t)).
Definition gets {A} (f : Txm -> A) : M W A := fun '(w, t) => (f t, (w, t)).
Definition modify (f : Txm -> Txm) : M W unit := fun '(w, t) => (tt, (w, f t)).
Definition now : M W Z := io env_now.
Definition is_ctx_done : M W bool := fun '(w, t) => (ctx_done w, (w, t)).
Definition metric (m : Metric) : M W unit := modify (fun t => set_metrics (m :: metrics t) t).

(** *** Pointers *)

Definition read_tx (r : txref) (t : Txm) : StellarTx := default zero_tx (txs t !! r).
Definition write_tx (r : txref) (f : StellarTx -> StellarTx) (t : Txm) : Txm :=
  set_txs (alter f r (txs t)) t.
Definition the_tx (r : txref) : M W StellarTx := gets (read_tx r).
Definition update (r : txref) (f : StellarTx -> StellarTx) : M W unit := modify (write_tx r f).
Definition new_tx (x : StellarTx) : M W txref := fun '(w, t) =>
  let r := fresh (dom (txs t)) in (r, (w, set_txs (<[r := x]> (txs t)) t)).
Definition read_ops (l : list opref) (t : Txm) : list Operation := omap (fun r => ops t !! r) l.
Definition new_op (o : Operation) : M W opref := fun '(w, t) =>
  let r := fresh (dom (ops t)) in (r, (w, set_ops (<[r := o]> (ops t)) t)).

(** *** Account stores, reached through their address: a store is never replaced
    once created, so the address stands for the [*TxStore] pointer *)

Definition get_store (addr : string) (t : Txm) : option TxStore := GetTxStore addr (accountStore t).
Definition put_store (addr : string) (s : TxStore) (t : Txm) : Txm :=
  set_accountStore (<[addr := s]> (accountStore t : gmap string TxStore)) t.
Definition update_store (addr : string) (f : TxStore -> TxStore) : M W unit :=
  modify (fun t => match get_store addr t with
                   | Some s => put_store addr (f s) t
                   | None => t
                   end).
(** A store operation that may fail. *)
Definition try_store (addr : string) (f : TxStore -> res TxStore) : M W (res unit) := fun '(w, t) =>
  match get_store addr t with
  | None => (Err (ErrorString "nil TxStore"), (w, t))
  | Some s => match f s with
              | Err e => (Err e, (w, t))
              | Ok s' => (Ok tt, (w, put_store addr s' t))
              end
  end.
Definition store_next (addr : string) : M W Z :=
  gets (fun t => match get_store addr t with Some s => GetNextSequence s | None => 0 end).

(** *** The broadcast channel *)

Variable s : StellarTxm.

(** [select { case ch <- tx: true; default: false }]. *)
Definition chan_send (r : txref) : M W bool := fun '(w, t) =>
  if Nat.ltb (length (broadcastChan t)) (BroadcastChanSize (config s))
  then (true, (w, set_broadcastChan (broadcastChan t ++ [r]) t))
  else (false, (w, t)).

(** [select { case x := <-ch: x; default: nil }]. *)
Definition chan_recv : M W (option txref) := fun '(w, t) =>
  match broadcastChan t with
  | [] => (None, (w, t))
  | r :: rest => (Some r, (w, set_broadcastChan rest t))
  end.

(** ** Status helpers (txm.go) *)

Definition isTerminalStatus (status : TransactionStatus) : bool :=
  match status with Finalized | Failed => true | _ => false end.

(** [doneOnce.Do(close(tx.Done))]. *)
Definition closeDone (r : txref) : M W unit := update r (set_Done true).

Definition evict (r : txref) (t : Txm) : Txm :=
  let id := ID (read_tx r t) in
  match transactions t !! id with
  | Some cur => if decide (cur = r) then set_transactions (delete id (transactions t)) t else t
  | None => t
  end.

Definition maybeEvictTerminalTx (r : txref) : M W unit :=
  if PruneInterval (config s) >? 0 then mret tt else modify (evict r).

Definition updateTransactionStatus (r : txref) (status : TransactionStatus) : M W unit :=
  let terminal := isTerminalStatus status in
  update r (set_Status status) ;;
  x ← the_tx r;
  (if (terminal && bool_decide (TerminalTime x = None))%bool
   then n ← now; update r (set_TerminalTime (Some n))
   else mret tt) ;;
  if terminal then maybeEvictTerminalTx r ;; closeDone r else mret tt.

Definition markTxFailed (r : txref) (metricReason : ErrorReason) : M W unit :=
  updateTransactionStatus r Failed ;;
  metric (IncrementErrorTxs metricReason).

Definition releaseSeqAndFailTx (addr : string) (seq : Z) (r : txref) (metricReason : ErrorReason)
    : M W unit :=
  update_store addr (Release seq) ;;
  updateTransactionStatus r Failed ;;
  metric (IncrementErrorTxs metricReason).

Definition markBroadcastAt (r : txref) : M W unit :=
  n ← now; update r (set_BroadcastAt (Some n)).

Definition recordTimeUntilConfirmed (r : txref) : M W unit :=
  x ← the_tx r;
  match BroadcastAt x with
  | None => mret tt
  | Some b => n ← now; metric (RecordTimeUntilTxConfirmed (time_sub n b))
  end.

Definition updateTransactionHash (r : txref) (hash : string) : M W unit := update r (set_TxHash hash).
Definition updateTransactionFee (r : txref) (fee : Z) : M W unit := update r (set_Fee (Some fee)).
Definition updateTransactionLedgerCloseTime (r : txref) (ledgerCloseTime : Z) : M W unit :=
  if ledgerCloseTime <=? 0 then mret tt else update r (set_LedgerCloseTime ledgerCloseTime).
Definition updateTransactionResultXDR (r : txref) (x : string) : M W unit := update r (set_ResultXDR x).
Definition updateTransactionResultCode (r : txref) (c : string) : M W unit := update r (set_ResultCode c).
Definition updateTransactionResultMeta (r : txref) (x : string) : M W unit := update r (set_ResultMetaXDR x).

(** [atomic.Uint64.Add(1)] wraps. *)
Definition incrementTransactionAttempt (r : txref) : M W unit :=
  update r (fun x => set_Attempt (u64 (Attempt x + 1)) x).
Definition getTransactionAttempt (r : txref) : M W Z := x ← the_tx r; mret (Attempt x).
Definition incrementInfraAttempts (r : txref) : M W unit :=
  update r (fun x => set_InfraAttempts (u64 (InfraAttempts x + 1)) x).
Definition getInfraAttempts (r : txref) : M W Z := x ← the_tx r; mret (InfraAttempts x).

(** ** Queries (txm.go) *)

Definition txResult (x : StellarTx) : TxResult :=
  mkTxResult (ID x) (TxHash x) (Status x) (Fee x) (LedgerCloseTime x) (ResultXDR x) (ResultMetaXDR x)
    (if String.eqb (ResultCode x) "" then None
     else Some (Wrapf "transaction result: " (ErrorString (ResultCode x)))).

Definition lookup_id (transactionID : string) (t : Txm) : res StellarTx :=
  if String.eqb transactionID "" then Err (ErrorString "empty transaction ID")
  else match transactions t !! transactionID with
       | None => Err (ErrorString "no such transaction")
       | Some r => Ok (read_tx r t)
       end.

Definition GetStatus (transactionID : string) (t : Txm) : TransactionStatus * option error :=
  match lookup_id transactionID t with
  | Err e => (Unknown, Some e)
  | Ok x => (Status x, None)
  end.

Definition GetTransactionResult (transactionID : string) (t : Txm) : res TxResult :=
  match lookup_id transactionID t with
  | Err e => Err e
  | Ok x => Ok (txResult x)
  end.

Definition GetTransactionFee (transactionID : string) (t : Txm) : res Z :=
  match lookup_id transactionID t with
  | Err e => Err e
  | Ok x =>
      if decide (Status x = Finalized) then
        match Fee x with
        | None => Err (ErrorString "transaction fee not available")
        | Some fee => Ok fee
        end
      else Err (ErrorString "transaction not finalized")
  end.

Definition TxmInflightCount (t : Txm) : nat * nat :=
  (length (broadcastChan t), GetTotalInflightCount (accountStore t)).

End Effects.
