(* ===== verification/Logic.v ===== *)
(** * A small program logic for the manager's monad

    [steps R m]: every run of [m] relates its initial and final manager states
    by the preorder [R].  [triple P m Q]: from a state satisfying [P], [m] ends
    in a result and state satisfying [Q].  Both quantify over the environment's
    answers.  [steps_tac] and [rets_tac] walk through the code of a method.

    Then the life of a [StellarTx]: what the status helpers of relayer/txm/txm.go
    do to the shared state, and the frame of each: which fields, records and queues
    they leave alone. *)

From S2P Require Import Prelude GoFloat Sdk TxStore Fee Config TxmState.

Section Logic.
Context `{Sdk} {W : Type} `{Env W}.

Definition steps {A} (R : relation Txm) (m : M W A) : Prop :=
  forall w t, R t (snd (snd (m (w, t)))).

Definition triple {A} (P : Txm -> Prop) (m : M W A) (Q : A -> Txm -> Prop) : Prop :=
  forall w t, P t -> Q (fst (m (w, t))) (snd (snd (m (w, t)))).

Definition rets {A} (P : A -> Prop) (m : M W A) : Prop :=
  forall w t, P (fst (m (w, t))).

(** ** Rules for [steps] *)

Lemma bind_run {A B} (m : M W A) (f : A -> M W B) w t :
  mbind f m (w, t) = f (fst (m (w, t))) (snd (m (w, t))).
Proof. unfold mbind, M_bind. by destruct (m (w, t)). Qed.

Lemma steps_bind {A B} R `{!Transitive R} (m : M W A) (f : A -> M W B) :
  steps R m -> (forall a, steps R (f a)) -> steps R (mbind f m).
Proof.
  intros Hm Hf w t. rewrite bind_run. specialize (Hm w t).
  destruct (m (w, t)) as [a [w' t']]. simpl in *. etrans; [exact Hm|apply Hf].
Qed.

Lemma steps_ret {A} R `{!Reflexive R} (a : A) : steps R (mret a).
Proof. intros w t. reflexivity. Qed.

Lemma steps_io {A} R `{!Reflexive R} (f : W -> A * W) : steps R (io f).
Proof. intros w t. simpl. destruct (f w). reflexivity. Qed.

Lemma steps_gets {A} R `{!Reflexive R} (f : Txm -> A) : steps R (gets f).
Proof. intros w t. reflexivity. Qed.

Lemma steps_ctx R `{!Reflexive R} : steps R is_ctx_done.
Proof. intros w t. reflexivity. Qed.

Lemma steps_modify (R : relation Txm) f : (forall t, R t (f t)) -> steps R (modify f).
Proof. intros Hf w t. apply Hf. Qed.

(** ** Rules for [triple] and [rets] *)

Lemma triple_ret {A} (P : Txm -> Prop) (a : A) (Q : A -> Txm -> Prop) :
  (forall t, P t -> Q a t) -> triple P (mret a) Q.
Proof. intros HQ w t HP. apply HQ, HP. Qed.

Lemma triple_bind {A B} P (m : M W A) (f : A -> M W B) R Q :
  triple P m R -> (forall a, triple (R a) (f a) Q) -> triple P (mbind f m) Q.
Proof.
  intros Hm Hf w t HP. rewrite bind_run. specialize (Hm w t HP).
  destruct (m (w, t)) as [a [w' t']]. simpl in *. apply (Hf a w' t' Hm).
Qed.

Lemma triple_weaken {A} (P P' : Txm -> Prop) (m : M W A) (Q Q' : A -> Txm -> Prop) :
  (forall t, P t -> P' t) -> (forall a t, Q' a t -> Q a t) -> triple P' m Q' -> triple P m Q.
Proof. intros HP HQ Hm w t Hp. apply HQ, Hm, HP, Hp. Qed.

Lemma triple_pre {A} (P P' : Txm -> Prop) (m : M W A) (Q : A -> Txm -> Prop) :
  (forall t, P t -> P' t) -> triple P' m Q -> triple P m Q.
Proof. intros HP Hm w t Hp. apply Hm, HP, Hp. Qed.

(** A fact of the precondition that does not depend on the state. *)
Lemma triple_fact {A} (P : Txm -> Prop) (F : Prop) (m : M W A) (Q : A -> Txm -> Prop) :
  (F -> triple P m Q) -> triple (fun t => P t /\ F) m Q.
Proof. intros Hm w t [HP HF]. exact (Hm HF w t HP). Qed.

Lemma triple_gets {A} P (f : Txm -> A) (Q : A -> Txm -> Prop) :
  (forall t, P t -> Q (f t) t) -> triple P (gets f) Q.
Proof. intros HQ w t HP. apply HQ, HP. Qed.

Lemma triple_modify P f (Q : unit -> Txm -> Prop) :
  (forall t, P t -> Q tt (f t)) -> triple P (modify f) Q.
Proof. intros HQ w t HP. apply HQ, HP. Qed.

Lemma triple_io {A} P (f : W -> A * W) (Q : A -> Txm -> Prop) :
  (forall a t, P t -> Q a t) -> triple P (io f) Q.
Proof. intros HQ w t HP. simpl. destruct (f w). apply HQ, HP. Qed.

(** A [steps] fact as a triple that remembers the precondition's state. *)
Lemma triple_steps {A} R (m : M W A) (P : Txm -> Prop) (Q : Txm -> Prop) :
  steps R m -> (forall t t', P t -> R t t' -> Q t') -> triple P m (fun _ => Q).
Proof. intros Hm HQ w t HP. eapply HQ; [exact HP|apply Hm]. Qed.

Lemma rets_ret {A} (P : A -> Prop) (a : A) : P a -> rets P (mret a).
Proof. intros HP w t. exact HP. Qed.

Lemma rets_bind {A B} (Q : A -> Prop) (P : B -> Prop) (m : M W A) (f : A -> M W B) :
  rets Q m -> (forall a, Q a -> rets P (f a)) -> rets P (mbind f m).
Proof.
  intros Hm Hf w t. rewrite bind_run. specialize (Hm w t).
  destruct (m (w, t)) as [a [w' t']]. apply (Hf a Hm).
Qed.

Lemma rets_bind_any {A B} (P : B -> Prop) (m : M W A) (f : A -> M W B) :
  (forall a, rets P (f a)) -> rets P (mbind f m).
Proof. intros Hf. apply (rets_bind (fun _ => True)); [done|auto]. Qed.

Lemma rets_triple {A} (P : A -> Prop) (m : M W A) (Q : Txm -> Prop) R :
  rets P m -> triple Q m R -> triple Q m (fun a t => P a /\ R a t).
Proof. intros Hp Ht w t HQ. split; [apply Hp|apply Ht, HQ]. Qed.

End Logic.

(** Walk through a method, splitting its matches; [leaf] closes the state
    updates that are left. *)
Ltac steps_tac leaf :=
  repeat first
    [ progress intros
    | leaf
    | apply steps_bind; [apply _| |intros ?]
    | apply steps_ret; apply _
    | apply steps_io; apply _
    | apply steps_gets; apply _
    | apply steps_ctx; apply _
    | match goal with
      | |- steps _ (match ?x with _ => _ end) => destruct x
      | |- steps _ (if ?x then _ else _) => destruct x
      end ].

(** Walk through a method for its result alone. *)
Ltac rets_tac leaf :=
  repeat first
    [ progress intros
    | apply rets_bind_any; intros ?
    | apply rets_ret; leaf
    | match goal with
      | |- rets _ (match ?x with _ => _ end) => destruct x eqn:?
      | |- rets _ (if ?x then _ else _) => destruct x eqn:?
      end ].

(** ** The preparation relation: what the broadcaster may change before it
    settles a transaction *)

Section Prep.
Context `{Sdk} {W : Type} `{Env W}.

(** A [StellarTx] without the fields the broadcaster owns. *)
Definition core (x : StellarTx) : StellarTx :=
  set_Fee None (set_tx_MaxLedger 0 (set_MinResourceFee 0 (set_InfraAttempts 0 x))).

(** The fields tx.go declares immutable after enqueue. *)
Definition ident (x : StellarTx) :=
  (ID x, Metadata x, Timestamp x, FromAddress x, Operations x, LedgerBoundsOffset x,
   tx_MaxResourceFee x, Fingerprint x).

Lemma ident_ID x y : ident x = ident y -> ID x = ID y.
Proof. unfold ident. congruence. Qed.

Lemma ident_FromAddress x y : ident x = ident y -> FromAddress x = FromAddress y.
Proof. unfold ident. congruence. Qed.

(** The in-flight records of an account. *)
Definition inflight_map (a : string) (t : Txm) : gmap Z UnconfirmedTx :=
  match get_store a t with Some st => unconfirmedSequences st | None => ∅ end.

Definition stores_wf (t : Txm) : Prop := forall a st, get_store a t = Some st -> wf st.

(** Stores keep their in-flight map and their well-formedness; a new store is
    empty and well-formed. *)
Definition store_prep (o o' : option TxStore) : Prop :=
  match o, o' with
  | Some st, Some st' =>
      unconfirmedSequences st' = unconfirmedSequences st /\
      nextSequence st <= nextSequence st' /\ (wf st -> wf st')
  | None, Some st' => unconfirmedSequences st' = ∅ /\ wf st'
  | None, None => True
  | Some _, None => False
  end.

Record prep (r : txref) (t t' : Txm) : Prop := mkPrep {
  pr_chan : broadcastChan t' = broadcastChan t;
  pr_ids : transactions t' = transactions t;
  pr_stopped : stopped t' = stopped t;
  pr_others : forall q, q <> r -> txs t' !! q = txs t !! q;
  pr_self : core (read_tx r t') = core (read_tx r t);
  pr_dom : is_Some (txs t !! r) -> is_Some (txs t' !! r);
  pr_stores : forall a, store_prep (get_store a t) (get_store a t')
}.

#[export] Instance store_prep_refl : Reflexive store_prep.
Proof. intros [st|]; simpl; auto using Z.le_refl. Qed.

#[export] Instance store_prep_trans : Transitive store_prep.
Proof.
  intros [x|] [y|] [z|]; simpl; try done; try tauto.
  - intros (-> & ? & ?) (-> & ? & ?). split_and!; auto; lia.
  - intros [E ?] (-> & ? & ?). auto.
Qed.

#[export] Instance prep_refl r : Reflexive (prep r).
Proof. intros t. split; try done. Qed.

#[export] Instance prep_trans r : Transitive (prep r).
Proof.
  intros t1 t2 t3 [A1 A2 A3 A4 A5 A6 A7] [B1 B2 B3 B4 B5 B6 B7]. split; try congruence.
  - intros q Hq. rewrite B4, A4 by done. done.
  - auto.
  - intros a. etrans; eauto.
Qed.

Lemma write_tx_other r q f t : q <> r -> txs (write_tx r f t) !! q = txs t !! q.
Proof. intros. simpl. by rewrite lookup_alter_ne. Qed.

Lemma write_tx_some r f t : is_Some (txs t !! r) -> is_Some (txs (write_tx r f t) !! r).
Proof. intros [x Hx]. simpl. rewrite lookup_alter_eq, Hx. simpl. eauto. Qed.

Lemma read_write_tx r f t :
  is_Some (txs t !! r) -> read_tx r (write_tx r f t) = f (read_tx r t).
Proof. intros [x Hx]. unfold read_tx. simpl. by rewrite lookup_alter_eq, Hx. Qed.

Lemma read_write_tx_field {A} (g : StellarTx -> A) r f t :
  (forall x, g (f x) = g x) -> g (read_tx r (write_tx r f t)) = g (read_tx r t).
Proof.
  intros Hf. unfold read_tx. simpl. rewrite lookup_alter_eq.
  destruct (txs t !! r); simpl; auto.
Qed.

Lemma prep_update r f t : (forall x, core (f x) = core x) -> prep r t (write_tx r f t).
Proof.
  intros Hf. split; try done.
  - intros. by apply write_tx_other.
  - by apply read_write_tx_field.
  - apply write_tx_some.
Qed.

Lemma get_put_store a b st t :
  get_store a (put_store b st t) = if decide (a = b) then Some st else get_store a t.
Proof.
  unfold get_store, put_store, GetTxStore. simpl. rewrite lookup_insert.
  repeat case_decide; congruence.
Qed.

(** A store update that keeps the in-flight map and well-formedness. *)
Lemma prep_update_store r a (f : TxStore -> TxStore) t :
  (forall st, unconfirmedSequences (f st) = unconfirmedSequences st) ->
  (forall st, nextSequence st <= nextSequence (f st)) ->
  (forall st, wf st -> wf (f st)) ->
  prep r t (match get_store a t with Some st => put_store a (f st) t | None => t end).
Proof.
  intros Hu Hn Hw. destruct (get_store a t) as [st|] eqn:E; [|reflexivity].
  split; try done. intros b. rewrite get_put_store. case_decide as Eb; [|reflexivity].
  subst b. rewrite E. simpl. auto.
Qed.

Lemma prep_meta r t f :
  (forall t, txs (f t) = txs t /\ transactions (f t) = transactions t /\
     broadcastChan (f t) = broadcastChan t /\ accountStore (f t) = accountStore t /\
     stopped (f t) = stopped t) ->
  prep r t (f t).
Proof.
  intros Hf. destruct (Hf t) as (E1 & E2 & E3 & E4 & E5). split; try congruence.
  - unfold read_tx. by rewrite E1.
  - intros a. unfold get_store. by rewrite E4.
Qed.

Lemma steps_update r f : (forall x, core (f x) = core x) -> steps (W:=W) (prep r) (update r f).
Proof. intros. apply steps_modify. intros. by apply prep_update. Qed.

Lemma steps_metric r m : steps (W:=W) (prep r) (metric m).
Proof. apply steps_modify. intros. apply prep_meta. intros; simpl; auto. Qed.

Lemma steps_new_op r o : steps (W:=W) (prep r) (new_op o).
Proof. intros w t. simpl. apply (prep_meta r t). intros; simpl; auto. Qed.

End Prep.

Ltac prep_leaf :=
  first [ apply steps_metric
        | apply steps_new_op
        | apply steps_update; reflexivity
        | apply steps_modify; intros ?; apply prep_meta; intros; simpl; auto ].

Section Lifecycle.
Context `{Sdk} {W : Type} `{Env W}.
Variable s : StellarTxm.

(** The parts of the manager a status update does not touch. *)
Record same_rest (r : txref) (t t' : Txm) : Prop := mkSameRest {
  sr_chan : broadcastChan t' = broadcastChan t;
  sr_stores : accountStore t' = accountStore t;
  sr_stopped : stopped t' = stopped t;
  sr_ops : ops t' = ops t;
  sr_tracker : tracker t' = tracker t;
  sr_others : forall q, q <> r -> txs t' !! q = txs t !! q;
  sr_dom : is_Some (txs t !! r) -> is_Some (txs t' !! r)
}.

#[export] Instance same_rest_refl r : Reflexive (same_rest r).
Proof. intros t. by split. Qed.

#[export] Instance same_rest_trans r : Transitive (same_rest r).
Proof.
  intros t1 t2 t3 [A1 A2 A3 A4 A5 A6 A7] [B1 B2 B3 B4 B5 B6 B7]. split; try congruence; auto.
  intros q Hq. rewrite B6, A6 by done. done.
Qed.

Lemma same_rest_write r f t : same_rest r t (write_tx r f t).
Proof. split; try done; [intros; by apply write_tx_other|apply write_tx_some]. Qed.

Lemma same_rest_evict r t : same_rest r t (evict r t).
Proof. unfold evict. destruct (transactions t !! _); [case_decide|]; by split. Qed.

Lemma same_rest_metrics r m t : same_rest r t (set_metrics m t).
Proof. by split. Qed.

Lemma read_tx_evict q r t : read_tx q (evict r t) = read_tx q t.
Proof. unfold read_tx, evict. destruct (transactions t !! _); [case_decide|]; done. Qed.

(** The object after the update: everything but status, terminal time and the
    closed channel is kept. *)
Definition terminated (status : TransactionStatus) (n : Z) (x : StellarTx) : StellarTx :=
  let x := set_Status status x in
  if isTerminalStatus status
  then set_Done true (match TerminalTime x with None => set_TerminalTime (Some n) x | Some _ => x end)
  else x.

(** One equation for the whole helper: the final state reads as the abstract
    update, the rest of the manager is framed. *)
Lemma updateTransactionStatus_run r status w t :
  is_Some (txs t !! r) ->
  let t' := snd (snd (updateTransactionStatus (W:=W) s r status (w, t))) in
  same_rest r t t' /\
  (exists n, read_tx r t' = terminated status n (read_tx r t)) /\
  transactions t' =
    (if (isTerminalStatus status && (PruneInterval (config s) <=? 0))%bool
     then transactions (evict r t) else transactions t).
Proof.
  intros Hr. unfold updateTransactionStatus, now, the_tx, update, maybeEvictTerminalTx, closeDone.
  rewrite !bind_run. cbn -[read_tx write_tx]. rewrite Z.gtb_ltb, Z.leb_antisym.
  set (t1 := write_tx r (set_Status status) t).
  assert (H1 : is_Some (txs t1 !! r)) by (by apply write_tx_some).
  assert (S1 : same_rest r t t1) by apply same_rest_write.
  assert (E1 : read_tx r t1 = set_Status status (read_tx r t)) by (by apply read_write_tx).
  unfold terminated. destruct (isTerminalStatus status); cbn -[read_tx write_tx];
    [|split_and!; [done|exists 0; done|done]].
  rewrite bind_run. cbn -[read_tx write_tx]. rewrite E1. cbn -[read_tx write_tx].
  rewrite bind_run. set (m := if bool_decide _ then _ else _).
  assert (exists n w' t2, m (w, t1) = (tt, (w', t2)) /\ same_rest r t1 t2 /\
    transactions t2 = transactions t /\
    read_tx r t2 = match TerminalTime (read_tx r t) with
        | None => set_TerminalTime (Some n) (read_tx r t1) | Some _ => read_tx r t1 end)
    as (n & w' & t2 & Em & S2 & T2 & E2).
  { subst m. destruct (TerminalTime (read_tx r t)); cbn -[read_tx write_tx].
    - by exists 0, w, t1.
    - rewrite bind_run. cbn. destruct (env_now w) as [n w']. exists n, w', (write_tx r (set_TerminalTime (Some n)) t1).
      split_and!; [done|apply same_rest_write|done|by apply read_write_tx]. }
  rewrite Em. cbn [fst snd]. rewrite bind_run. cbn -[read_tx write_tx]. clearbody t1. clear m Em.
  assert (H2 : is_Some (txs t2 !! r)) by (by apply (sr_dom _ _ _ S2)).
  assert (Ev : transactions (evict r t2) = transactions (evict r t)).
  { unfold evict. rewrite T2, E2, E1. by destruct (TerminalTime (read_tx r t)), (transactions t !! _); try case_decide. }
  destruct (0 <? PruneInterval (config s)); cbn -[read_tx write_tx evict].
  - split_and!; [|exists n|done].
    + etrans; [exact S1|]. etrans; [exact S2|]. apply same_rest_write.
    + rewrite read_write_tx by done. by rewrite E2, E1.
  - split_and!; [|exists n|done].
    + etrans; [exact S1|]. etrans; [exact S2|]. etrans; [apply same_rest_evict|]. apply same_rest_write.
    + rewrite read_write_tx by (apply (sr_dom _ _ _ (same_rest_evict r t2)), H2).
      by rewrite read_tx_evict, E2, E1.
Qed.

(** What a terminal status makes of the manager's state. *)
Record terminal_from (status : TransactionStatus) (r : txref) (t t' : Txm) : Prop := mkTerminalFrom {
  ff_rest : same_rest r t t';
  ff_self : exists n, read_tx r t' = terminated status n (read_tx r t);
  ff_ids : transactions t' =
    (if PruneInterval (config s) <=? 0 then transactions (evict r t) else transactions t)
}.

Lemma triple_terminal status r (P : Txm -> Prop) :
  isTerminalStatus status = true ->
  (forall t, P t -> is_Some (txs t !! r)) ->
  triple (W:=W) P (updateTransactionStatus s r status)
    (fun _ t' => exists t, P t /\ terminal_from status r t t').
Proof.
  intros Hst Hr w t HP.
  destruct (updateTransactionStatus_run r status w t (Hr t HP)) as (S1 & E1 & T1).
  rewrite Hst in T1. exists t. by split.
Qed.

Lemma terminal_from_metrics status r m t t' :
  terminal_from status r t t' -> terminal_from status r t (set_metrics m t').
Proof. intros [S1 E1 T1]. split; [|done..]. etrans; [exact S1|apply same_rest_metrics]. Qed.

Lemma triple_markTxFailed r reason (P : Txm -> Prop) :
  (forall t, P t -> is_Some (txs t !! r)) ->
  triple (W:=W) P (markTxFailed s r reason)
    (fun _ t' => exists t, P t /\ terminal_from Failed r t t').
Proof.
  intros Hr. unfold markTxFailed. eapply triple_bind; [by apply triple_terminal|]. intros [].
  apply triple_modify. intros t' (t & HP & Hf). exists t. split; [done|].
  by apply terminal_from_metrics.
Qed.

Lemma triple_releaseSeqAndFailTx addr seq r reason (P : Txm -> Prop) :
  (forall t, P t -> is_Some (txs t !! r)) ->
  triple (W:=W) P (releaseSeqAndFailTx s addr seq r reason) (fun _ t' => exists t, P t /\
    terminal_from Failed r (match get_store addr t with
                   | Some st => put_store addr (Release seq st) t | None => t end) t').
Proof.
  intros Hr. unfold releaseSeqAndFailTx, update_store.
  apply (triple_bind _ _ _ (fun _ t' => exists t, P t /\ t' =
    match get_store addr t with Some st => put_store addr (Release seq st) t | None => t end)).
  { apply triple_modify. eauto. }
  intros []. eapply triple_weaken; [| |apply (triple_markTxFailed r reason (fun t' => exists t, P t /\ t' =
    match get_store addr t with Some st => put_store addr (Release seq st) t | None => t end))].
  - done.
  - intros _ t' (t1 & (t & HP & ->) & Hf). eauto.
  - intros t1 (t & HP & ->). specialize (Hr t HP). by destruct (get_store addr t).
Qed.

(** ** Bookkeeping: updates of the fields that only record results *)

(** The fields the life cycle depends on. *)
Definition life (x : StellarTx) := (ident x, Done x, Status x, TerminalTime x, Attempt x).

Lemma life_ident x y : life x = life y -> ident x = ident y.
Proof. unfold life, ident. congruence. Qed.

Record touched (r : txref) (t t' : Txm) : Prop := mkTouched {
  to_rest : same_rest r t t';
  to_ids : transactions t' = transactions t;
  to_life : life (read_tx r t') = life (read_tx r t)
}.

#[export] Instance touched_refl r : Reflexive (touched r).
Proof. intros t. by split. Qed.

#[export] Instance touched_trans r : Transitive (touched r).
Proof. intros t1 t2 t3 [A1 A2 A3] [B1 B2 B3]. split; [by etrans|congruence..]. Qed.

Lemma steps_touch_update r f :
  (forall x, life (f x) = life x) -> steps (W:=W) (touched r) (update r f).
Proof.
  intros Hf. apply steps_modify. intros t. split; [apply same_rest_write|done|].
  by apply read_write_tx_field.
Qed.

Lemma steps_touch_metric r m : steps (W:=W) (touched r) (metric m).
Proof. apply steps_modify. intros t. split; [apply same_rest_metrics|done..]. Qed.

Lemma ident_terminated status n x : ident (terminated status n x) = ident x.
Proof.
  unfold terminated. destruct (isTerminalStatus status); [|done]. simpl. by destruct (TerminalTime x).
Qed.

End Lifecycle.

Ltac touch_leaf :=
  first [ apply steps_touch_metric | apply steps_touch_update; reflexivity ].
