(* ===== verification/Demo.v ===== *)
(** * A concrete SDK and a scripted environment

    Instances of [Sdk] and [Env] on which the witnesses run: envelopes are
    records, marshalling succeeds on every string but ["bad"], and the outside
    world answers each call from a script. *)

From stdpp Require Import pretty.
From S2P Require Import Prelude GoFloat Sdk TxStore Fee Config TxmState.

Record demo_env := mkDemoEnv {
  de_account : string;
  de_seq : Z;
  de_ops : list string;
  de_fee : Z;
  de_tb : TimeBounds;
  de_ledger : option Z;
  de_signed : bool
}.

Definition demo_parse (x : string) : res string :=
  if String.eqb x "bad" then Err (ErrorString "bad xdr") else Ok x.

(** Result XDR strings the scripts use. *)
Definition demo_result (x : string) : res TransactionResult :=
  if String.eqb x "bad_seq" then Ok (mkTransactionResult 100 TxBadSeq None)
  else if String.eqb x "fee" then Ok (mkTransactionResult 100 TxInsufficientFee None)
  else if String.eqb x "late" then Ok (mkTransactionResult 100 TxTooLate None)
  else if String.eqb x "exceeded" then
    Ok (mkTransactionResult 100 (TxResultOther (-1))
          (Some [mkOpResult OpInner (Some (mkOpTr 24 (Some ResourceLimitExceeded)))]))
  else if String.eqb x "trapped" then
    Ok (mkTransactionResult 100 (TxResultOther (-1))
          (Some [mkOpResult OpInner (Some (mkOpTr 24 (Some (InvokeOther (-2)))))]))
  else if String.eqb x "ok" then Ok (mkTransactionResult 250 (TxResultOther 0) None)
  else Err (ErrorString "bad result xdr").

#[export] Instance demo_sdk : Sdk := {|
  Operation := string;
  XdrOperation := string;
  Envelope := demo_env;
  SorobanData := string * Z;
  AuthEntry := string;
  LedgerEntryData := Z;
  BuildXDR := demo_parse;
  MarshalBinary x := Ok (map (fun c => Z.of_nat (Ascii.nat_of_ascii c)) (String.list_ascii_of_string x));
  is_InvokeHostFunction _ := true;
  with_Ext d o := (o +:+ "+data")%string;
  with_Auth l o := (o +:+ "+auth")%string;
  RestoreFootprint a d := "restore"%string;
  unmarshal_SorobanData x := d ← demo_parse x; Ok (d, 0);
  with_ResourceFee f d := (fst d, f);
  unmarshal_Auth := demo_parse;
  unmarshal_TransactionResult := demo_result;
  unmarshal_LedgerEntryData x :=
    if String.eqb x "seq41" then Ok 41 else if String.eqb x "seq45" then Ok 45
    else Err (ErrorString "bad entry");
  entry_SeqNum n := Some n;
  NewTransaction a q inc ops fee tb ml :=
    Ok (mkDemoEnv a (if inc then q + 1 else q) ops fee tb ml false);
  NewTimeout n secs := mkTimeBounds 0 (n + secs);
  tx_Timebounds := de_tb;
  tx_SourceAccount e := (de_account e, de_seq e);
  tx_Base64 e := Ok "xdr"%string;
  tx_Hash p e := Ok [de_seq e];
  tx_HashHex p e := Ok ("h" +:+ pretty (de_seq e))%string;
  AddSignatureDecorated h sg e :=
    Ok (mkDemoEnv (de_account e) (de_seq e) (de_ops e) (de_fee e) (de_tb e) (de_ledger e) true);
  AddressToAccountId a := if String.eqb a "" then Err (ErrorString "bad address") else Ok (repeat 7 32);
  account_key_XDR _ := Ok "key"%string;
  sha256 b := [fold_left (fun acc x => (acc * 31 + x) mod two32) b 17];
  string_bytes x := map (fun c => Z.of_nat (Ascii.nat_of_ascii c)) (String.list_ascii_of_string x);
  TransactionResultCode_String c :=
    match c with TxBadSeq => "txBAD_SEQ" | TxInsufficientFee => "txINSUFFICIENT_FEE"
    | TxInternalError => "txINTERNAL_ERROR" | TxTooLate => "txTOO_LATE" | TxResultOther _ => "txFAILED" end;
  OperationResultCode_String c :=
    match c with OpInner => "opINNER" | OpExceededWorkLimit => "opEXCEEDED_WORK_LIMIT"
    | OpOther _ => "opBAD_AUTH" end;
  InvokeResultCode_String c :=
    match c with ResourceLimitExceeded => "RESOURCE_LIMIT_EXCEEDED" | EntryArchived => "ENTRY_ARCHIVED"
    | InsufficientRefundableFee => "INSUFFICIENT_REFUNDABLE_FEE" | InvokeOther _ => "TRAPPED" end;
  OperationType_String _ := "OperationType"%string
|}.

(** The script: one queue of answers per call, each with a default when it is
    exhausted. *)
Record world := mkWorld {
  w_now : Z;
  w_clients : list bool;                          (* default: available *)
  w_ledger : Z;
  w_sims : list (res SimulateTransactionResponse);  (* default: success *)
  w_sends : list (res SendTransactionResponse);     (* default: pending *)
  w_gets : list (res GetTransactionResponse);       (* default: not found *)
  w_entries : list (res (list string));             (* default: ["seq41"] *)
  w_accounts : res (list string);
  w_done : bool                                     (* the context *)
}.

Definition demo_sim : SimulateTransactionResponse := mkSimResponse "" None "data" 1000 [].
Definition demo_send : SendTransactionResponse := mkSendResponse TXStatusPending "" "".
Definition demo_notfound (w : world) : GetTransactionResponse :=
  mkGetTransactionResponse TransactionStatusNotFound "" "" 0 (w_ledger w) (w_now w / 1000000000).

Definition pop {A} (d : A) (l : list A) : A * list A :=
  match l with [] => (d, []) | a :: l' => (a, l') end.

#[export] Instance demo_world : Env world := {|
  Client := unit;
  getClient w := let '(b, l) := pop true (w_clients w) in
    (if (b : bool) then Ok tt else Err (ErrorString "no client"),
     mkWorld (w_now w) l (w_ledger w) (w_sims w) (w_sends w) (w_gets w) (w_entries w) (w_accounts w) (w_done w));
  rpc_GetLatestLedger _ w := (Ok (mkLatestLedger (w_ledger w) (w_now w / 1000000000)), w);
  rpc_Simulate _ _ w := let '(a, l) := pop (Ok demo_sim) (w_sims w) in
    (a, mkWorld (w_now w) (w_clients w) (w_ledger w) l (w_sends w) (w_gets w) (w_entries w) (w_accounts w) (w_done w));
  rpc_Send _ _ w := let '(a, l) := pop (Ok demo_send) (w_sends w) in
    (a, mkWorld (w_now w) (w_clients w) (w_ledger w) (w_sims w) l (w_gets w) (w_entries w) (w_accounts w) (w_done w));
  rpc_GetTransaction _ _ w := let '(a, l) := pop (Ok (demo_notfound w)) (w_gets w) in
    (a, mkWorld (w_now w) (w_clients w) (w_ledger w) (w_sims w) (w_sends w) l (w_entries w) (w_accounts w) (w_done w));
  rpc_GetLedgerEntries _ _ w := let '(a, l) := pop (Ok ["seq41"%string]) (w_entries w) in
    (a, mkWorld (w_now w) (w_clients w) (w_ledger w) (w_sims w) (w_sends w) (w_gets w) l (w_accounts w) (w_done w));
  rpc_GetFeeStats _ w := (Ok (mkFeeStats 100 200 300), w);
  ks_Accounts w := (w_accounts w, w);
  ks_Sign _ h w := (Ok h, w);
  env_now w := (w_now w, mkWorld (w_now w + 1000) (w_clients w) (w_ledger w) (w_sims w) (w_sends w)
                          (w_gets w) (w_entries w) (w_accounts w) (w_done w));
  env_sleep d w := (negb (w_done w), mkWorld (w_now w + d) (w_clients w) (w_ledger w) (w_sims w)
                      (w_sends w) (w_gets w) (w_entries w) (w_accounts w) (w_done w));
  env_tick d w := (negb (w_done w), mkWorld (w_now w + d) (w_clients w) (w_ledger w) (w_sims w)
                      (w_sends w) (w_gets w) (w_entries w) (w_accounts w) (w_done w));
  ctx_done := w_done;
  env_uuid w := ("uuid"%string, w)
|}.

#[export] Instance demo_float : FloatConv := amd64_conv.

Definition quiet : world := mkWorld 1000000000000 [] 5000 [] [] [] [] (Ok ["GALICE"%string]) false.
Definition with_sends (l : list (res SendTransactionResponse)) (w : world) : world :=
  mkWorld (w_now w) (w_clients w) (w_ledger w) (w_sims w) l (w_gets w) (w_entries w) (w_accounts w) (w_done w).
Definition with_gets (l : list (res GetTransactionResponse)) (w : world) : world :=
  mkWorld (w_now w) (w_clients w) (w_ledger w) (w_sims w) (w_sends w) l (w_entries w) (w_accounts w) (w_done w).
Definition with_clients (l : list bool) (w : world) : world :=
  mkWorld (w_now w) l (w_ledger w) (w_sims w) (w_sends w) (w_gets w) (w_entries w) (w_accounts w) (w_done w).

(** A manager on the defaults of docs.toml with a broadcast channel of two. *)
Definition demo_config : Config :=
  Resolve docs_defaults {|
    o_BroadcastChanSize := Some 2%nat; o_ConfirmPollInterval := None; o_BaseInclusionFee := None;
    o_MaxInclusionFee := None; o_FeeBumpMultiplier := None; o_ResourceFeeBuffer := None;
    o_RestoreFeeBuffer := None; o_MaxResourceFee := None; o_FeeStatsPollInterval := None;
    o_FeeStatsLookback := None; o_FirstSendFeePercentile := None; o_RebroadcastFeePercentile := None;
    o_MaxSimulateAttempts := None; o_MaxSubmitRetryAttempts := None; o_SubmitRetryDelay := None;
    o_TxTimeoutSecs := None; o_LedgerBoundsOffset := None; o_MaxTxRetryAttempts := None;
    o_MaxGetClientRetryAttempts := None; o_MaxRestoreAttempts := None;
    o_SimulationTerminalHints := []; o_SimulationRetryableHints := [];
    o_PruneInterval := None; o_PruneTxExpiration := None |}.

Definition demo_txm_static : StellarTxm :=
  mkStellarTxm demo_config (NewFeeStrategyFromConfig demo_config) feeP90 feeP99 "Test SDF Network".

Definition demo_tx (id : string) : StellarTx :=
  mkStellarTx id None 10 "GALICE" [1%positive] 0 0 [1] 0 0 Pending None None "" None 0 "" "" "" 0 0 false.

(** One queued transaction. *)
Definition demo_state : Txm :=
  mkTxm {[1%positive := demo_tx "a"]} {[1%positive := "invoke"%string]} {["a"%string := 1%positive]} []
    NewAccountStore (newFeeTracker 5000000000 120000000000) [] false.

(** The account [GALICE] with the transaction ["a"] in flight under 42. *)
Definition demo_utx : UnconfirmedTx := mkUnconfirmedTx 42 "h42" 4990 1300 1%positive.
Definition demo_txstore : TxStore := mkTxStore 43 {[42 := demo_utx]} ∅ 42.
Definition demo_inflight : Txm :=
  set_accountStore {["GALICE"%string := demo_txstore]}
    (write_tx 1%positive (set_Status Unconfirmed) demo_state).

Lemma demo_txstore_wf : wf demo_txstore.
Proof.
  split; simpl.
  - intros k u. rewrite lookup_singleton_Some. by intros [<- <-].
  - intros k u. rewrite lookup_singleton_Some. intros [<- _]. done.
  - set_solver.
  - set_solver.
Qed.

Lemma demo_inflight_store a st :
  get_store a demo_inflight = Some st -> a = "GALICE"%string /\ st = demo_txstore.
Proof. unfold get_store, GetTxStore. simpl. rewrite lookup_singleton_Some. naive_solver. Qed.

Definition demo_client : Client (W:=world) := tt.
