(* ===== verification/Broadcast.v ===== *)
(** * Building, simulating, assembling, signing and submitting an envelope

    Models relayer/txm/broadcast.go and relayer/txm/failed_result.go (result
    classification), and [prepareAndSimulateWithRetry] of relayer/txm/txm.go.
    A [txnbuild.Transaction] keeps pointers to its operations and the envelope
    built from them: [assembleTransaction] writes the simulated footprint and
    authorization into the shared operation object before it rebuilds.

    Then [getSequenceNumber] and [resyncSequence] of relayer/txm/txm.go and
    relayer/txm/restore.go ([handleRestore], [pollRestoreTransaction]).
    [pollRestoreTransaction] loops until a final status or the [TxTimeoutSecs]
    deadline: a ticker of period [ConfirmPollInterval] fires at most
    [poll_budget] times before that deadline, which bounds the model's loop. *)

From S2P Require Import Prelude Sdk TxStore Fee Config TxmState.

(** ** Classification of results *)

Record failedTxClassification := mkFailedTx { resultCode : ErrorReason; retryable : bool }.

Definition isRetryableInvokeHostFunctionResult (code : InvokeHostFunctionResultCode) : bool :=
  match code with
  | ResourceLimitExceeded | EntryArchived | InsufficientRefundableFee => true
  | InvokeOther _ => false
  end.

Section Classify.
Context `{Sdk}.

Definition classifyFailedTransactionResult (resultXDR : string) : failedTxClassification :=
  if String.eqb resultXDR "" then mkFailedTx ErrorReasonRevert false
  else match unmarshal_TransactionResult resultXDR with
  | Err _ => mkFailedTx ErrorReasonRevertDecode false
  | Ok txResult =>
      let code := TransactionResultCode_String (tr_Code txResult) in
      match tr_Results txResult with
      | None | Some [] => mkFailedTx code false
      | Some (opResult :: _) =>
          match op_Code opResult with
          | OpInner =>
              match op_Tr opResult with
              | None => mkFailedTx (OperationResultCode_String (op_Code opResult)) false
              | Some tr =>
                  match tr_InvokeHostFunctionResult tr with
                  | Some invokeResult =>
                      mkFailedTx (InvokeResultCode_String invokeResult)
                        (isRetryableInvokeHostFunctionResult invokeResult)
                  | None => mkFailedTx (OperationType_String (tr_Type tr)) false
                  end
              end
          | c => mkFailedTx (OperationResultCode_String c)
                   (match c with OpExceededWorkLimit => true | _ => false end)
          end
      end
  end.

(** [(code, ok)] with [ok = false] as [None]. *)
Definition parseSubmitErrorResult (errorResultXDR : string) : option TransactionResultCode :=
  if String.eqb errorResultXDR "" then None
  else match unmarshal_TransactionResult errorResultXDR with
       | Err _ => None
       | Ok txResult => Some (tr_Code txResult)
       end.

(** [(fatal, reason)]. *)
Definition classifySubmitErrorCode (code : TransactionResultCode) : bool * ErrorReason :=
  match code with
  | TxBadSeq => (false, ErrorReasonBadSeq)
  | TxInsufficientFee => (false, ErrorReasonInsufficientFee)
  | TxInternalError => (false, ErrorReasonInternalError)
  | TxTooLate => (false, ErrorReasonTooLate)
  | TxResultOther _ => (true, TransactionResultCode_String code)
  end.

End Classify.

(** A [txnbuild.Transaction]. *)
Record Transaction `{Sdk} := mkTransaction {
  t_ops : list opref;
  t_env : Envelope
}.
Arguments mkTransaction {_}.

Section Broadcast.
Context `{Sdk} {W : Type} `{Env W}.
Variable s : StellarTxm.

(** Unix seconds of a clock reading. *)
Definition unix (ns : Z) : Z := ns / 1000000000.

Definition buildPreliminaryTx (tx : option StellarTx) (nextSubmitSeq maxLedger : Z)
    : M W (res Transaction) :=
  match tx with
  | None => mret (Err (ErrorString "buildPreliminaryTx: tx is nil"))
  | Some x =>
      let currentSequence := Z.max 0 (i64 (nextSubmitSeq - 1)) in
      n ← now;
      operations ← gets (read_ops (Operations x));
      mret (mkTransaction (Operations x) <$>
        NewTransaction (FromAddress x) currentSequence true operations MinBaseFee
          (NewTimeout (unix n) (TxTimeoutSecs (config s))) (Some maxLedger))
  end.

Definition simulateTransaction (client : option Client) (tx : option Transaction)
    : M W (res SimulateTransactionResponse) :=
  match client, tx with
  | None, _ => mret (Err (ErrorString "client is nil"))
  | _, None => mret (Err (ErrorString "transaction is nil"))
  | Some c, Some x =>
      match tx_Base64 (t_env x) with
      | Err e => mret (Err (Wrapf "failed to base64 encode preliminary tx: " e))
      | Ok txXDR =>
          start ← now;
          r ← io (rpc_Simulate c txXDR);
          stop ← now;
          metric (ObserveSimulationDuration (time_sub stop start / 1000000)) ;;
          mret match r with
               | Err e => Err (Wrapf "rpc simulate transaction failed: " e)
               | Ok simResult =>
                   if String.eqb (sim_Error simResult) "" then Ok simResult
                   else Err (Wrapf "simulation error: " (ErrorString (sim_Error simResult)))
               end
      end
  end.

Definition isRetryableSimulationError (ctxErr : bool) (err : option error) : bool :=
  match err with
  | None => false
  | Some e =>
      if ctxErr then false
      else
        let msg := ToLower (Error e) in
        if existsb (Contains msg) (SimulationTerminalHints (config s)) then false
        else existsb (Contains msg) (SimulationRetryableHints (config s))
  end.

(** [sorobanData.ResourceFee] and the operation's [Ext] and [Auth], written
    through the operation pointer. *)
Definition write_op (r : opref) (f : Operation -> Operation) : M W unit :=
  modify (fun t => set_ops (alter f r (ops t)) t).

Definition op_is_invoke (r : opref) (t : Txm) : bool :=
  match ops t !! r with Some o => is_InvokeHostFunction o | None => false end.

Definition assemble_auth (r : opref) (sim : SimulateTransactionResponse) : M W (res unit) :=
  match sim_Results sim with
  | {| AuthXDR := Some (a :: l) |} :: _ =>
      match mapM_res (fun _ authXDR => unmarshal_Auth authXDR) 0 (a :: l) with
      | Err e => mret (Err (Wrapf "failed to decode auth: " e))
      | Ok auth => write_op r (with_Auth auth) ;; mret (Ok tt)
      end
  | _ => mret (Ok tt)
  end.

(** The resource fee and the operation update: the part of [assembleTransaction]
    guarded by [sim.TransactionDataXDR != ""]. *)
Definition assemble_data (first : opref) (sim : SimulateTransactionResponse) (cap : Z)
    : M W (res Z) :=
  if String.eqb (sim_TransactionDataXDR sim) "" then mret (Ok 0)
  else match unmarshal_SorobanData (sim_TransactionDataXDR sim) with
  | Err e => mret (Err (Wrapf "failed to decode soroban data: " e))
  | Ok sorobanData =>
      match ResourceFee (feeStrat s) (sim_MinResourceFee sim) (ResourceFeeBuffer (feeStrat s)) cap with
      | Err e => mret (Err e)
      | Ok resourceFee =>
          isInvoke ← gets (op_is_invoke first);
          if (isInvoke : bool) then
            write_op first (with_Ext (with_ResourceFee resourceFee sorobanData)) ;;
            r ← assemble_auth first sim;
            mret (match r with Err e => Err e | Ok _ => Ok resourceFee end)
          else mret (Ok resourceFee)
      end
  end.

Definition assembleTransaction (tx : option Transaction) (sim : SimulateTransactionResponse)
    (inclusionFee maxLedger perRequestMaxResourceFee : Z) : M W (res (Transaction * Z)) :=
  match tx with
  | None => mret (Err (ErrorString "assembleTransaction: tx is nil"))
  | Some x =>
      match t_ops x with
      | [] => mret (Err (ErrorString "transaction has no operations"))
      | first :: _ =>
          d ← assemble_data first sim perRequestMaxResourceFee;
          match d with
          | Err e => mret (Err e)
          | Ok resourceFee =>
              operations ← gets (read_ops (t_ops x));
              let '(account, sequence) := tx_SourceAccount (t_env x) in
              mret match NewTransaction account sequence false operations inclusionFee
                           (tx_Timebounds (t_env x)) (Some maxLedger) with
                   | Err e => Err (Wrapf "failed to rebuild transaction with fee: " e)
                   | Ok env => Ok (mkTransaction (t_ops x) env, i64 (inclusionFee + resourceFee))
                   end
          end
      end
  end.

Definition signTransaction (tx : option Transaction) (fromAddress : string)
    : M W (res Transaction) :=
  match tx with
  | None => mret (Err (ErrorString "signTransaction: tx is nil"))
  | Some x =>
      match tx_Hash (networkPassphrase s) (t_env x) with
      | Err e => mret (Err (Wrapf "failed to hash transaction: " e))
      | Ok hash =>
          sg ← io (ks_Sign fromAddress hash);
          mret match sg with
          | Err e => Err (Wrapf "failed to sign transaction: " e)
          | Ok signature =>
              match AddressToAccountId fromAddress with
              | Err e => Err (Wrapf "failed to parse fromAddress for hint: " e)
              | Ok addr =>
                  match AddSignatureDecorated (take 4 (drop 28 addr)) signature (t_env x) with
                  | Err e => Err (Wrapf "failed to add signature: " e)
                  | Ok env => Ok (mkTransaction (t_ops x) env)
                  end
              end
          end
      end
  end.

(** [(accepted, fatalErr, retryReason)]; the store is named by its address. *)
Definition handleSendResult (tx : option txref) (submitResult : SendTransactionResponse) (seq : Z)
    (txStore : option string) (maxLedger maxTime : Z) (localHash : string)
    : M W (bool * bool * ErrorReason) :=
  match tx, txStore with
  | None, _ => mret (false, true, ErrorReasonNilTx)
  | _, None => mret (false, true, ErrorReasonNilTxStore)
  | Some r, Some addr =>
      match send_Status submitResult with
      | TXStatusPending | TXStatusDuplicate =>
          if String.eqb localHash "" then mret (false, true, ErrorReasonNoHash)
          else
            a ← try_store addr (AddUnconfirmed seq localHash maxLedger maxTime r);
            match a with
            | Err _ => mret (false, true, ErrorReasonStoreAdd)
            | Ok _ =>
                updateTransactionHash r localHash ;;
                updateTransactionResultXDR r "" ;;
                updateTransactionResultMeta r "" ;;
                updateTransactionResultCode r "" ;;
                mret (true, false, ""%string)
            end
      | TXStatusTryAgainLater => mret (false, false, ErrorReasonTryAgainLater)
      | TXStatusError =>
          match parseSubmitErrorResult (send_ErrorResultXDR submitResult) with
          | None => mret (false, true, ErrorReasonSubmitErrorUndecoded)
          | Some typedCode =>
              let '(fatal, reason) := classifySubmitErrorCode typedCode in
              mret (false, fatal, reason)
          end
      | TXStatusOther _ => mret (false, true, ErrorReasonUnknownSubmit)
      end
  end.

(** ** Simulation with retries *)

Definition sleepBeforeSimulationRetry : M W bool := io (env_sleep (SubmitRetryDelay (config s))).

(** [attempt+1 < maxAttempts] is [rem > 0], [rem] being the iterations left
    after this one. *)
Definition shouldRetrySimulation (ctxErr : bool) (err : error) (rem : nat) : bool :=
  (Nat.ltb 0 rem && isRetryableSimulationError ctxErr (Some err))%bool.

Definition ledger_offset (x : StellarTx) : Z :=
  if LedgerBoundsOffset x >? 0 then LedgerBoundsOffset x else cfg_LedgerBoundsOffset (config s).

Definition bounded_maxLedger (x : StellarTx) (latest headFloor : Z) : Z :=
  u32 (Z.max latest headFloor + ledger_offset x).

Abbreviation prepared := (Transaction * SimulateTransactionResponse * Z)%type.

(** The loop body runs [fuel] more times at most; [fuel] is [maxAttempts]. *)
Fixpoint simulate_loop (fuel : nat) (client : Client) (r : txref) (seq headFloor : Z)
    (lastErr : error) : M W (res prepared) :=
  match fuel with
  | O => mret (Err (Wrapf "simulation attempts exhausted: " lastErr))
  | S rem =>
      ll ← io (rpc_GetLatestLedger client);
      match ll with
      | Err err =>
          let lastErr := Wrapf "failed to get latest ledger: " err in
          if Nat.eqb rem 0 then mret (Err lastErr)
          else
            ok ← sleepBeforeSimulationRetry;
            if (ok : bool) then simulate_loop rem client r seq headFloor lastErr
            else mret (Err ErrCtx)
      | Ok latestLedger =>
          x ← the_tx r;
          let ml := bounded_maxLedger x (ll_Sequence latestLedger) headFloor in
          update r (set_tx_MaxLedger ml) ;;
          x ← the_tx r;
          p ← buildPreliminaryTx (Some x) seq (tx_MaxLedger x);
          match p with
          | Err e => mret (Err (Wrapf "failed to build preliminary tx: " e))
          | Ok prelimTx =>
              sim ← simulateTransaction (Some client) (Some prelimTx);
              match sim with
              | Ok simResult => mret (Ok (prelimTx, simResult, tx_MaxLedger x))
              | Err err =>
                  dead ← is_ctx_done;
                  if shouldRetrySimulation dead err rem then
                    ok ← sleepBeforeSimulationRetry;
                    if (ok : bool) then simulate_loop rem client r seq headFloor err
                    else mret (Err ErrCtx)
                  else mret (Err err)
              end
          end
      end
  end.

Definition prepareAndSimulateWithRetry (client : Client) (r : txref) (seq headFloor : Z)
    : M W (res prepared) :=
  let maxAttempts := MaxSimulateAttempts (config s) in
  let maxAttempts := if Nat.eqb maxAttempts 0 then 1%nat else maxAttempts in
  simulate_loop maxAttempts client r seq headFloor (ErrorString "%!w(<nil>)").

End Broadcast.

Section Restore.
Context `{Sdk} {W : Type} `{Env W}.
Variable s : StellarTxm.

Definition getSequenceNumber (client : Client) (address : string) : M W (res Z) :=
  if String.eqb address "" then
    mret (Err (ErrorString "address is required for sequence number lookup"))
  else match AddressToAccountId address with
  | Err e => mret (Err (Wrapf "invalid stellar account address: " e))
  | Ok accountID =>
      match account_key_XDR accountID with
      | Err e => mret (Err (Wrapf "failed to marshal account key: " e))
      | Ok keyXDR =>
          resp ← io (rpc_GetLedgerEntries client [keyXDR]);
          mret match resp with
          | Err e => Err (Wrapf "failed to get ledger entries: " e)
          | Ok [] => Err (ErrorString "account not found on-chain")
          | Ok (entryXDR :: _) =>
              if String.eqb entryXDR "" then Err (ErrorString "empty entry data for account")
              else match unmarshal_LedgerEntryData entryXDR with
              | Err e => Err (Wrapf "failed to unmarshal account entry: " e)
              | Ok entry =>
                  match entry_SeqNum entry with
                  | None => Err (ErrorString "ledger entry is not an account entry")
                  | Some seqNum => Ok seqNum
                  end
              end
          end
      end
  end.

Definition resyncSequence (client : Client) (r : txref) : M W (res unit) :=
  x ← the_tx r;
  sq ← getSequenceNumber client (FromAddress x);
  match sq with
  | Err e => mret (Err (Wrapf "failed to resync sequence: " e))
  | Ok seqNum =>
      st ← gets (get_store (FromAddress x));
      match st with
      | None => mret (Err (ErrorString "no tx store for address"))
      | Some _ =>
          update_store (FromAddress x) (ResyncNonce (i64 (seqNum + 1))) ;;
          mret (Ok tt)
      end
  end.

Definition sleepBeforeRestoreRetry : M W bool := io (env_sleep (SubmitRetryDelay (config s))).

Definition poll_budget : nat :=
  S (Z.to_nat (TxTimeoutSecs (config s) * 1000000000 / ConfirmPollInterval (config s))).

Fixpoint poll_loop (fuel : nat) (client : Client) (hash : string)
    : M W (res GetTransactionResponse) :=
  match fuel with
  | O => mret (Err (Wrapf "poll timed out: " ErrCtx))
  | S fuel' =>
      ticked ← io (env_tick (ConfirmPollInterval (config s)));
      if (ticked : bool) then
        resp ← io (rpc_GetTransaction client hash);
        match resp with
        | Err _ => poll_loop fuel' client hash
        | Ok r =>
            match gt_Status r with
            | TransactionStatusSuccess | TransactionStatusFailed => mret (Ok r)
            | _ => poll_loop fuel' client hash
            end
        end
      else mret (Err (Wrapf "poll timed out: " ErrCtx))
  end.

Definition pollRestoreTransaction (client : Client) (hash : string)
    : M W (res GetTransactionResponse) := poll_loop poll_budget client hash.

(** Build, sign, hash and encode the restore envelope:
    [(local hash, base64 envelope)]. *)
Definition build_restore (r : txref) (preamble : RestorePreamble) (seq inclusionFee : Z)
    : M W (res (string * string)) :=
  x ← the_tx r;
  match unmarshal_SorobanData (rp_TransactionDataXDR preamble) with
  | Err e => mret (Err (Wrapf "failed to decode restore preamble soroban data: " e))
  | Ok sorobanData =>
      match ResourceFee (feeStrat s) (rp_MinResourceFee preamble)
              (cfg_RestoreFeeBuffer (config s)) (tx_MaxResourceFee x) with
      | Err e => mret (Err (Wrapf "restore preamble fee rejected: " e))
      | Ok resourceFee =>
          metric (ObserveInclusionFee inclusionFee) ;;
          metric (ObserveResourceFee resourceFee) ;;
          let restoreOp := RestoreFootprint (FromAddress x) (with_ResourceFee resourceFee sorobanData) in
          o ← new_op restoreOp;
          let currentSequence := Z.max 0 (i64 (seq - 1)) in
          n ← now;
          match NewTransaction (FromAddress x) currentSequence true [restoreOp] inclusionFee
                  (NewTimeout (unix n) (TxTimeoutSecs (config s))) None with
          | Err e => mret (Err (Wrapf "failed to build restore transaction: " e))
          | Ok env =>
              sg ← signTransaction s (Some (mkTransaction [o] env)) (FromAddress x);
              mret match sg with
              | Err e => Err (Wrapf "failed to sign restore transaction: " e)
              | Ok signedTx =>
                  match tx_HashHex (networkPassphrase s) (t_env signedTx) with
                  | Err e => Err (Wrapf "failed to hash restore transaction: " e)
                  | Ok localHash =>
                      match tx_Base64 (t_env signedTx) with
                      | Err e => Err (Wrapf "failed to encode signed restore transaction: " e)
                      | Ok signedXDR => Ok (localHash, signedXDR)
                      end
                  end
              end
          end
      end
  end.

Definition restore_failed (e : error) : M W (res unit) :=
  metric (IncrementRestore RestoreOutcomeFailed) ;; mret (Err e).

(** The submission loop; [fuel] is [MaxRestoreAttempts]. *)
Fixpoint restore_loop (fuel : nat) (client : Client) (r : txref) (localHash signedXDR : string)
    (lastErr : option error) : M W (res unit) :=
  match fuel with
  | O =>
      restore_failed match lastErr with
                     | Some e => Wrapf "restore attempts exhausted: " e
                     | None => ErrorString "restore attempts exhausted"
                     end
  | S fuel' =>
      let retry err :=
        ok ← sleepBeforeRestoreRetry;
        if (ok : bool) then restore_loop fuel' client r localHash signedXDR (Some err)
        else mret (Err ErrCtx) in
      sub ← io (rpc_Send client signedXDR);
      match sub with
      | Err e => retry (Wrapf "failed to submit restore transaction: " e)
      | Ok submitResult =>
          match send_Status submitResult with
          | TXStatusPending | TXStatusDuplicate =>
              resp ← pollRestoreTransaction client localHash;
              match resp with
              | Err e => retry (Wrapf "restore transaction polling failed: " e)
              | Ok resp =>
                  match gt_Status resp with
                  | TransactionStatusSuccess =>
                      metric (IncrementRestore RestoreOutcomeSuccess) ;;
                      rs ← resyncSequence client r;
                      mret (wrap_err "failed to resync sequence after restore: " rs)
                  | _ => restore_failed (ErrorString "restore transaction failed on-chain")
                  end
              end
          | TXStatusTryAgainLater =>
              retry (ErrorString "restore transaction rejected with TRY_AGAIN_LATER")
          | TXStatusError => restore_failed (ErrorString "restore transaction rejected")
          | TXStatusOther _ => restore_failed (ErrorString "unexpected restore transaction status")
          end
      end
  end.

Definition handleRestore (client : Client) (r : txref) (preamble : RestorePreamble)
    (seq inclusionFee : Z) : M W (res unit) :=
  b ← build_restore r preamble seq inclusionFee;
  match b with
  | Err e => mret (Err e)
  | Ok (localHash, signedXDR) =>
      metric (IncrementRestore RestoreOutcomeInitiated) ;;
      restore_loop (MaxRestoreAttempts (config s)) client r localHash signedXDR None
  end.

End Restore.
