(* ===== verification/Pipeline.v ===== *)
(** * The broadcast pipeline

    Models [simulateAssembleSignAndSend], [retryGetClientOrFail] and the body of
    [broadcastLoop] of relayer/txm/txm.go.

    The submission loop of the source has one [continue] that does not count as
    an attempt (after a restore, allowed once), so it runs at most
    [MaxSubmitRetryAttempts + 1] bodies; [pipeline_fuel] covers them and the
    final loop test.  The Go functions return nothing: the [Outcome] returned
    here records which return statement was reached. *)

From S2P Require Import Prelude GoFloat Sdk TxStore Fee Config TxmState Broadcast.

Inductive Outcome :=
| OBroadcast (seq : Z) (hash : string)   (* accepted and tracked *)
| OFailed (reason : ErrorReason)         (* terminal failure *)
| ORequeued                              (* back in the broadcast channel *)
| ODropped                               (* channel full after a getClient failure *)
| OCancelled                             (* context done: shutdown *)
| OOutOfFuel.                            (* never: see [pipeline_terminates] *)

(** The local variables of the submission loop. *)
Record Loop := mkLoop {
  l_seq : Z;
  l_restoreHandled : bool;
  l_immediateTooLateRetries : nat;
  l_headFloor : Z;
  l_inclusionFee : Z;
  l_submitAttempt : nat
}.

(** How one loop body ends. *)
Inductive Flow :=
| Continue (l : Loop)
| Break (seq : Z)
| Return (o : Outcome).

Definition maxImmediateTooLateRetries : nat := 2.

Section Pipeline.
Context `{Sdk} {W : Type} `{Env W} `{FloatConv}.
Variable s : StellarTxm.

(** [feeTracker.sorobanInclusionFees(ctx, client)]; the tracker's panic case is
    unreachable ([sorobanInclusionFees_spec]). *)
Definition sorobanInclusionFees (client : Client) : M W (res (feeSample * feeSample)) :=
  n ← now;
  t ← gets tracker;
  fetched ← (if needs_fetch n t
             then r ← io (rpc_GetFeeStats client); mret (Some r)
             else mret None);
  match sorobanInclusionFees_k n fetched t with
  | None => mret (Err (ErrorString "panic: index out of range"))
  | Some (r, t') => modify (set_tracker t') ;; mret r
  end.

Definition retryGetClientOrFail (r : txref) : M W Outcome :=
  incrementInfraAttempts r ;;
  attempts ← getInfraAttempts r;
  if attempts <? MaxGetClientRetryAttempts (config s) then
    ok ← io (env_sleep (SubmitRetryDelay (config s)));
    if (ok : bool) then
      sent ← chan_send s r;
      if (sent : bool) then mret ORequeued
      else metric (IncrementDroppedTxs DropReasonChannelFullNewRejected) ;; mret ODropped
    else mret OCancelled
  else
    metric (IncrementMaxAttemptsReached RetryBudgetInfra) ;;
    markTxFailed s r ErrorReasonClientUnavailable ;;
    mret (OFailed ErrorReasonClientUnavailable).

(** The account's store, created from the on-chain sequence when missing; [false]
    when the transaction was failed instead. *)
Definition ensure_store (client : Client) (r : txref) : M W (option Outcome) :=
  x ← the_tx r;
  st ← gets (get_store (FromAddress x));
  match st with
  | Some _ => mret None
  | None =>
      sq ← getSequenceNumber client (FromAddress x);
      match sq with
      | Err _ =>
          markTxFailed s r ErrorReasonSequenceNumber ;;
          mret (Some (OFailed ErrorReasonSequenceNumber))
      | Ok seqNum =>
          c ← gets (fun t => CreateTxStore (FromAddress x) (i64 (seqNum + 1)) (accountStore t));
          match c with
          | Err _ =>
              markTxFailed s r ErrorReasonStoreCreate ;;
              mret (Some (OFailed ErrorReasonStoreCreate))
          | Ok c' => modify (set_accountStore c') ;; mret None
          end
      end
  end.

(** The seed of the inclusion fee for this broadcast. *)
Definition seed_fee (client : Client) (currentAttempt : Z) : M W Z :=
  let p := if currentAttempt >? 0 then rebroadcastPercentile s else firstSendPercentile s in
  fees ← sorobanInclusionFees client;
  let networkFee := match fees with Ok (peak, _) => percentile peak p | Err _ => 0 end in
  mret (fst (SeedInclusionFee (feeStrat s) currentAttempt networkFee)).

(** [releaseSeqAndFailTx] followed by [return]. *)
Definition fail_and_return (addr : string) (seq : Z) (r : txref) (reason : ErrorReason)
    : M W Flow :=
  releaseSeqAndFailTx s addr seq r reason ;; mret (Return (OFailed reason)).

(** [select { case <-time.After(delay): case <-ctx.Done(): Release; return }]
    and then [continue]. *)
Definition backoff (addr : string) (seq : Z) (l : Loop) : M W Flow :=
  ok ← io (env_sleep (SubmitRetryDelay (config s)));
  if (ok : bool) then mret (Continue l)
  else update_store addr (Release seq) ;; mret (Return OCancelled).

(** [submitAttempt++; if submitAttempt >= max { break }], then [k]. *)
Definition count_attempt (l : Loop) (k : Loop -> M W Flow) : M W Flow :=
  let l := mkLoop (l_seq l) (l_restoreHandled l) (l_immediateTooLateRetries l) (l_headFloor l)
             (l_inclusionFee l) (S (l_submitAttempt l)) in
  if Nat.leb (MaxSubmitRetryAttempts (config s)) (l_submitAttempt l)
  then mret (Break (l_seq l)) else k l.

(** Assemble, sign, hash and encode; the error carries the failure's reason. *)
Definition assemble_and_sign (addr : string) (r : txref) (prelimTx : Transaction)
    (simResult : SimulateTransactionResponse) (inclusionFee maxLedger : Z)
    : M W (ErrorReason + Z * string * string) :=
  x ← the_tx r;
  a ← assembleTransaction s (Some prelimTx) simResult inclusionFee maxLedger (tx_MaxResourceFee x);
  match a with
  | Err _ => mret (inl ErrorReasonAssembly)
  | Ok (assembledTx, totalFee) =>
      let resourceFee := i64 (totalFee - inclusionFee) in
      let resourceFee := if resourceFee <? 0 then 0 else resourceFee in
      metric (ObserveInclusionFee inclusionFee) ;;
      metric (ObserveResourceFee resourceFee) ;;
      updateTransactionFee r totalFee ;;
      let maxTime := tb_MaxTime (tx_Timebounds (t_env assembledTx)) in
      sg ← signTransaction s (Some assembledTx) addr;
      mret match sg with
      | Err _ => inl ErrorReasonSigning
      | Ok signedTx =>
          match tx_HashHex (networkPassphrase s) (t_env signedTx) with
          | Err _ => inl ErrorReasonSigning
          | Ok localHash =>
              match tx_Base64 (t_env signedTx) with
              | Err _ => inl ErrorReasonAssembly
              | Ok signedXDR => inr (maxTime, localHash, signedXDR)
              end
          end
      end
  end.

(** The reaction to a rejection that is not fatal. *)
Definition handle_reject (client : Client) (addr : string) (r : txref) (maxLedger : Z)
    (retryReason : ErrorReason) (l : Loop) : M W Flow :=
  if String.eqb retryReason ErrorReasonBadSeq then
    _rs ← resyncSequence client r;
    seq ← store_next addr;
    let prevSeq := l_seq l in
    let l := mkLoop seq (l_restoreHandled l) (l_immediateTooLateRetries l) (l_headFloor l)
               (l_inclusionFee l) (l_submitAttempt l) in
    count_attempt l (fun l =>
      if seq =? prevSeq then backoff addr seq l else mret (Continue l))
  else if String.eqb retryReason ErrorReasonInsufficientFee then
    fees ← sorobanInclusionFees client;
    let bumpNetworkFee :=
      match fees with Ok (peak, _) => percentile peak (rebroadcastPercentile s) | Err _ => 0 end in
    let bumped := fst (BumpInclusionFee (feeStrat s) (l_inclusionFee l) bumpNetworkFee) in
    let l := mkLoop (l_seq l) (l_restoreHandled l) (l_immediateTooLateRetries l) (l_headFloor l)
               bumped (l_submitAttempt l) in
    count_attempt l (backoff addr (l_seq l))
  else
    let tooLate := String.eqb retryReason ErrorReasonTooLate in
    let headFloor := if tooLate then Z.max (l_headFloor l) (u32 (maxLedger - 1)) else l_headFloor l in
    if (tooLate && Nat.ltb (l_immediateTooLateRetries l) maxImmediateTooLateRetries)%bool then
      mret (Continue (mkLoop (l_seq l) (l_restoreHandled l) (S (l_immediateTooLateRetries l))
                        headFloor (l_inclusionFee l) (S (l_submitAttempt l))))
    else
      count_attempt (mkLoop (l_seq l) (l_restoreHandled l) (l_immediateTooLateRetries l)
                       headFloor (l_inclusionFee l) (l_submitAttempt l))
        (backoff addr (l_seq l)).

(** From [client.SendTransaction] to the end of the loop body. *)
Definition submit (client : Client) (addr : string) (r : txref)
    (maxLedger maxTime : Z) (localHash signedXDR : string) (l : Loop) : M W Flow :=
  sub ← io (rpc_Send client signedXDR);
  match sub with
  | Err _ => count_attempt l (backoff addr (l_seq l))
  | Ok submitResult =>
      res ← handleSendResult (Some r) submitResult (l_seq l) (Some addr) maxLedger maxTime localHash;
      let '(accepted, fatalErr, retryReason) := res in
      if (accepted : bool) then
        markBroadcastAt r ;;
        metric IncrementBroadcastedTxs ;;
        updateTransactionStatus s r Unconfirmed ;;
        mret (Return (OBroadcast (l_seq l) localHash))
      else
        metric (IncrementSubmitRejected retryReason) ;;
        if (fatalErr : bool) then
          if String.eqb retryReason ErrorReasonStoreAdd then
            markTxFailed s r retryReason ;; mret (Return (OFailed retryReason))
          else fail_and_return addr (l_seq l) r retryReason
        else handle_reject client addr r maxLedger retryReason l
  end.

(** One body of the submission loop. *)
Definition submit_body (client : Client) (addr : string) (r : txref) (l : Loop) : M W Flow :=
  p ← prepareAndSimulateWithRetry s client r (l_seq l) (l_headFloor l);
  match p with
  | Err _ => fail_and_return addr (l_seq l) r ErrorReasonSimulation
  | Ok (prelimTx, simResult, maxLedger) =>
      match sim_RestorePreamble simResult with
      | Some preamble =>
          if l_restoreHandled l then fail_and_return addr (l_seq l) r ErrorReasonRestoreFailed
          else
            h ← handleRestore s client r preamble (l_seq l) (l_inclusionFee l);
            match h with
            | Err _ => fail_and_return addr (l_seq l) r ErrorReasonRestoreFailed
            | Ok _ =>
                seq ← store_next addr;
                mret (Continue (mkLoop seq true (l_immediateTooLateRetries l) (l_headFloor l)
                                  (l_inclusionFee l) (l_submitAttempt l)))
            end
      | None =>
          update r (set_MinResourceFee (sim_MinResourceFee simResult)) ;;
          a ← assemble_and_sign addr r prelimTx simResult (l_inclusionFee l) maxLedger;
          match a with
          | inl reason => fail_and_return addr (l_seq l) r reason
          | inr (maxTime, localHash, signedXDR) =>
              submit client addr r maxLedger maxTime localHash signedXDR l
          end
      end
  end.

(** The loop and the code after it. *)
Fixpoint submit_loop (fuel : nat) (client : Client) (addr : string) (r : txref) (l : Loop)
    : M W Outcome :=
  match fuel with
  | O => mret OOutOfFuel
  | S fuel' =>
      f ← (if Nat.ltb (l_submitAttempt l) (MaxSubmitRetryAttempts (config s))
           then submit_body client addr r l else mret (Break (l_seq l)));
      match f with
      | Continue l' => submit_loop fuel' client addr r l'
      | Return o => mret o
      | Break seq =>
          releaseSeqAndFailTx s addr seq r ErrorReasonMaxRetries ;;
          mret (OFailed ErrorReasonMaxRetries)
      end
  end.

Definition pipeline_fuel : nat := S (S (MaxSubmitRetryAttempts (config s))).

Definition simulateAssembleSignAndSend (r : txref) : M W Outcome :=
  c ← io getClient;
  match c with
  | Err _ => retryGetClientOrFail r
  | Ok client =>
      e ← ensure_store client r;
      match e with
      | Some o => mret o
      | None =>
          currentAttempt ← getTransactionAttempt r;
          (if currentAttempt >? 0 then _rs ← resyncSequence client r; mret tt else mret tt) ;;
          inclusionFee ← seed_fee client currentAttempt;
          x ← the_tx r;
          seq ← store_next (FromAddress x);
          submit_loop pipeline_fuel client (FromAddress x) r
            (mkLoop seq false 0 0 inclusionFee 0)
      end
  end.

(** ** The broadcast loop *)

(** Receive until the channel is empty. *)
Fixpoint drain (fuel : nat) : M W (list txref) :=
  match fuel with
  | O => mret []
  | S fuel' =>
      r ← chan_recv;
      match r with
      | None => mret []
      | Some nextTx => rest ← drain fuel'; mret (nextTx :: rest)
      end
  end.

Definition ts_le (a b : txref * Z) : Prop := snd a <= snd b.
#[export] Instance ts_le_dec : RelDecision ts_le.
Proof. intros a b; unfold ts_le; apply _. Defined.

(** [sort.Slice] by [Timestamp] (the order of equal timestamps is unspecified in
    Go; the merge sort is one of the allowed results). *)
Definition sort_by_timestamp (t : Txm) (l : list txref) : list txref :=
  (merge_sort ts_le ((fun r => (r, Timestamp (read_tx r t))) <$> l)).*1.

Fixpoint broadcast_all (l : list txref) : M W (list Outcome) :=
  match l with
  | [] => mret []
  | r :: l' =>
      o ← simulateAssembleSignAndSend r;
      os ← broadcast_all l';
      mret (o :: os)
  end.

(** One round of [broadcastLoop] once the channel has a transaction. *)
Definition broadcast_round : M W (list Outcome) :=
  first ← chan_recv;
  match first with
  | None => mret []
  | Some initialTx =>
      n ← gets (fun t => length (broadcastChan t));
      rest ← drain n;
      sorted ← gets (fun t => sort_by_timestamp t (initialTx :: rest));
      broadcast_all sorted
  end.

End Pipeline.
