(* ===== verification/PipelineProofs.v ===== *)
(** * Correctness of the broadcast pipeline

    Termination of the submission loop, the outcome of a broadcast on every
    branch, and the safety of the in-flight records.  Everything the pipeline
    does before it settles the transaction is a [prep] step (Logic.v). *)

From S2P Require Import Prelude GoFloat Sdk TxStore Fee Config TxmState Logic Broadcast Pipeline Demo.

Section Proofs.
Context `{Sdk} {W : Type} `{Env W} `{FloatConv}.
Variable s : StellarTxm.

(** ** Termination *)

(** The bodies the loop may still run: one per attempt left, one for a restore. *)
Definition loop_measure (l : Loop) : nat :=
  (MaxSubmitRetryAttempts (config s) - l_submitAttempt l +
   if l_restoreHandled l then 0 else 1)%nat.

Definition decreases (l : Loop) (f : Flow) : Prop :=
  match f with
  | Continue l' => (loop_measure l' < loop_measure l)%nat
  | Break _ => True
  | Return o => o <> OOutOfFuel
  end.

Lemma rets_fail_and_return l addr seq r reason :
  rets (W:=W) (decreases l) (fail_and_return s addr seq r reason).
Proof. unfold fail_and_return. rets_tac done. Qed.

Lemma rets_backoff l addr seq l' :
  (loop_measure l' < loop_measure l)%nat -> rets (W:=W) (decreases l) (backoff s addr seq l').
Proof. intros. unfold backoff. rets_tac ltac:(simpl; auto; try discriminate). Qed.

Lemma rets_count_attempt l l0 k :
  (l_submitAttempt l0 = l_submitAttempt l)%nat -> l_restoreHandled l0 = l_restoreHandled l ->
  (l_submitAttempt l < MaxSubmitRetryAttempts (config s))%nat ->
  (forall l', (loop_measure l' < loop_measure l)%nat -> rets (W:=W) (decreases l) (k l')) ->
  rets (decreases l) (count_attempt s l0 k).
Proof.
  intros E1 E2 Hlt Hk. unfold count_attempt. destruct (Nat.leb _ _) eqn:E; [by apply rets_ret|].
  apply Hk. unfold loop_measure. simpl. apply Nat.leb_gt in E. simpl in E. rewrite E1, E2.
  destruct (l_restoreHandled l); lia.
Qed.

Lemma rets_handle_reject l client addr r ml reason :
  (l_submitAttempt l < MaxSubmitRetryAttempts (config s))%nat ->
  rets (W:=W) (decreases l) (handle_reject s client addr r ml reason l).
Proof.
  intros Hlt. unfold handle_reject. destruct (String.eqb reason ErrorReasonBadSeq).
  { do 2 (apply rets_bind_any; intros ?). apply rets_count_attempt; try done.
    intros. destruct (_ =? _); [by apply rets_backoff|by apply rets_ret]. }
  destruct (String.eqb reason ErrorReasonInsufficientFee).
  { apply rets_bind_any; intros ?. apply rets_count_attempt; try done. intros. by apply rets_backoff. }
  destruct (_ && _)%bool.
  - apply rets_ret. unfold decreases, loop_measure. simpl. destruct (l_restoreHandled l); lia.
  - apply rets_count_attempt; try done. intros. by apply rets_backoff.
Qed.

Lemma rets_submit_body l client addr r :
  (l_submitAttempt l < MaxSubmitRetryAttempts (config s))%nat ->
  rets (W:=W) (decreases l) (submit_body s client addr r l).
Proof.
  intros Hlt. unfold submit_body. apply rets_bind_any. intros [[[prelim sim] ml]|];
    [|apply rets_fail_and_return].
  destruct (sim_RestorePreamble sim).
  - destruct (l_restoreHandled l) eqn:E; [apply rets_fail_and_return|].
    apply rets_bind_any. intros [?|]; [|apply rets_fail_and_return].
    apply rets_bind_any. intros seq. apply rets_ret. unfold decreases, loop_measure. simpl.
    rewrite E. lia.
  - do 2 (apply rets_bind_any; intros ?). destruct a0 as [reason|[[mt h] x]]; [apply rets_fail_and_return|].
    unfold submit. apply rets_bind_any. intros [sr|].
    + apply rets_bind_any. intros [[acc fatal] reason]. destruct acc; [rets_tac done|].
      apply rets_bind_any; intros ?. destruct fatal; [|by apply rets_handle_reject].
      destruct (String.eqb _ _); [rets_tac done|apply rets_fail_and_return].
    + apply rets_count_attempt; try done. intros. by apply rets_backoff.
Qed.

Lemma rets_submit_loop fuel l client addr r :
  (loop_measure l < fuel)%nat ->
  rets (W:=W) (fun o => o <> OOutOfFuel) (submit_loop s fuel client addr r l).
Proof.
  revert l; induction fuel as [|fuel IH]; intros l Hf; [lia|]. simpl.
  apply (rets_bind (decreases l)).
  - destruct (Nat.ltb _ _) eqn:E; [|by apply rets_ret].
    apply Nat.ltb_lt in E. by apply rets_submit_body.
  - intros [l'|seq|o]; simpl; intros Hd; [apply IH; lia| |by apply rets_ret].
    rets_tac done.
Qed.

(** ** Everything before the settlement is preparation *)

Lemma steps_build_prelim r x a b : steps (W:=W) (prep r) (buildPreliminaryTx s x a b).
Proof. unfold buildPreliminaryTx, now. steps_tac prep_leaf. Qed.

Lemma steps_simulate r c x : steps (W:=W) (prep r) (simulateTransaction c x).
Proof. unfold simulateTransaction, now. steps_tac prep_leaf. Qed.

Lemma steps_sign r x a : steps (W:=W) (prep r) (signTransaction s x a).
Proof. unfold signTransaction. steps_tac prep_leaf. Qed.

Lemma steps_assemble r x sim f ml cap :
  steps (W:=W) (prep r) (assembleTransaction s x sim f ml cap).
Proof.
  unfold assembleTransaction, assemble_data, assemble_auth, write_op. steps_tac prep_leaf.
Qed.

Lemma steps_simulate_loop r fuel c seq hf e :
  steps (W:=W) (prep r) (simulate_loop s fuel c r seq hf e).
Proof.
  revert e; induction fuel as [|fuel IH]; intros e; simpl;
    unfold sleepBeforeSimulationRetry, the_tx;
    steps_tac ltac:(first [apply IH|apply steps_build_prelim|apply steps_simulate|prep_leaf]).
Qed.

Lemma steps_resync c r : steps (W:=W) (prep r) (resyncSequence c r).
Proof.
  unfold resyncSequence, getSequenceNumber, the_tx, update_store.
  steps_tac ltac:(first [prep_leaf
    | apply steps_modify; intros ?; apply prep_update_store;
        [done|intros; rewrite ResyncNonce_next; lia|apply ResyncNonce_wf]]).
Qed.

Lemma steps_poll r fuel c h : steps (W:=W) (prep r) (poll_loop s fuel c h).
Proof.
  induction fuel as [|fuel IH]; simpl; steps_tac ltac:(first [apply IH|prep_leaf]).
Qed.

Lemma steps_restore_loop r fuel c h x e : steps (W:=W) (prep r) (restore_loop s fuel c r h x e).
Proof.
  revert e; induction fuel as [|fuel IH]; intros e; simpl;
    unfold restore_failed, sleepBeforeRestoreRetry, pollRestoreTransaction;
    steps_tac ltac:(first [apply IH|apply steps_poll|apply steps_resync|prep_leaf]).
Qed.

Lemma steps_restore c r p seq f : steps (W:=W) (prep r) (handleRestore s c r p seq f).
Proof.
  unfold handleRestore, build_restore, now, the_tx.
  steps_tac ltac:(first [apply steps_sign|apply steps_restore_loop|prep_leaf]).
Qed.

Lemma steps_fees r c : steps (W:=W) (prep r) (sorobanInclusionFees c).
Proof. unfold sorobanInclusionFees, now. steps_tac prep_leaf. Qed.

Lemma steps_assemble_and_sign r a p sim f ml :
  steps (W:=W) (prep r) (assemble_and_sign s a r p sim f ml).
Proof.
  unfold assemble_and_sign, the_tx, updateTransactionFee.
  steps_tac ltac:(first [apply steps_assemble|apply steps_sign|prep_leaf]).
Qed.

Lemma steps_resync_if r c (b : bool) :
  steps (W:=W) (prep r) (if b then _rs ← resyncSequence c r; mret tt else mret tt).
Proof. steps_tac ltac:(first [apply steps_resync|prep_leaf]). Qed.

Lemma steps_seed_fee r c n : steps (W:=W) (prep r) (seed_fee s c n).
Proof. unfold seed_fee. steps_tac ltac:(first [apply steps_fees|prep_leaf]). Qed.

(** ** The outcome of a broadcast *)

Definition try_run (a : string) (f : TxStore -> res TxStore) (t : Txm) : option Txm :=
  match get_store a t with
  | Some st => match f st with Ok st' => Some (put_store a st' t) | Err _ => None end
  | None => None
  end.

Variable r : txref.
Variable t0 : Txm.
Hypothesis Hr : is_Some (txs t0 !! r).
Hypothesis Hwf : stores_wf t0.

Definition from : string := FromAddress (read_tx r t0).

(** The loop invariant: only preparation so far, and the number held is not in
    flight. *)
Record ready (seq : Z) (t : Txm) : Prop := mkReady {
  rd_prep : prep r t0 t;
  rd_store : exists st, get_store from t = Some st /\ ~ abs_inflight st seq /\
               seq <= nextSequence st
}.

(** Which part of the manager's state each outcome may have changed. *)
Record framed (t : Txm) : Prop := mkFramed {
  fr_some : is_Some (txs t !! r);
  fr_others : forall q, q <> r -> txs t !! q = txs t0 !! q;
  fr_stopped : stopped t = stopped t0;
  fr_wf : stores_wf t;
  fr_inflight : forall a, a <> from -> inflight_map a t = inflight_map a t0
}.

(** What survives an accepted submission: the immutable fields, [Done] and the
    terminal time. *)
Definition keep (x : StellarTx) := (ident x, Done x, TerminalTime x).

(** The transaction has made no progress: status, result and completion signal are
    those it had. *)
Definition unsettled (t : Txm) : Prop :=
  framed t /\ inflight_map from t = inflight_map from t0 /\ transactions t = transactions t0 /\
  core (read_tx r t) = core (read_tx r t0).

Definition post (o : Outcome) (t : Txm) : Prop :=
  match o with
  | OBroadcast seq hash =>
      is_Some (txs t !! r) /\ (forall q, q <> r -> txs t !! q = txs t0 !! q) /\
      broadcastChan t = broadcastChan t0 /\ transactions t = transactions t0 /\
      Status (read_tx r t) = Unconfirmed /\ TxHash (read_tx r t) = hash /\ hash <> ""%string /\
      BroadcastAt (read_tx r t) <> None /\ keep (read_tx r t) = keep (read_tx r t0) /\
      stopped t = stopped t0 /\
      ((forall st, get_store from t = Some st -> seq < nextSequence st) -> stores_wf t) /\
      (forall a, a <> from -> inflight_map a t = inflight_map a t0) /\
      inflight_map from t0 !! seq = None /\
      exists ml mt,
        inflight_map from t = <[seq := mkUnconfirmedTx seq hash ml mt r]> (inflight_map from t0)
  | OFailed _ =>
      framed t /\ inflight_map from t = inflight_map from t0 /\
      broadcastChan t = broadcastChan t0 /\ ident (read_tx r t) = ident (read_tx r t0) /\
      transactions t = (if PruneInterval (config s) <=? 0
                        then transactions (evict r t0) else transactions t0) /\
      Status (read_tx r t) = Failed /\ Done (read_tx r t) = true /\
      TerminalTime (read_tx r t) <> None
  | ORequeued =>
      unsettled t /\ broadcastChan t = broadcastChan t0 ++ [r] /\
      (length (broadcastChan t) <= BroadcastChanSize (config s))%nat
  | ODropped =>
      unsettled t /\ broadcastChan t = broadcastChan t0 /\
      (BroadcastChanSize (config s) <= length (broadcastChan t))%nat
  | OCancelled => unsettled t /\ broadcastChan t = broadcastChan t0
  | OOutOfFuel => False
  end.

Lemma store_prep_inflight a t :
  store_prep (get_store a t0) (get_store a t) -> inflight_map a t = inflight_map a t0.
Proof. unfold inflight_map. destruct (get_store a t0), (get_store a t); naive_solver. Qed.

Lemma store_prep_some o o' : store_prep o o' -> is_Some o -> is_Some o'.
Proof. destruct o, o'; simpl; try done; intros _ [? ?]; eauto; done. Qed.

Lemma store_prep_wf a t st :
  store_prep (get_store a t0) (get_store a t) -> get_store a t = Some st -> wf st.
Proof.
  intros Hs E. rewrite E in Hs. destruct (get_store a t0) eqn:E0; simpl in Hs; [|tauto].
  destruct Hs as (_ & _ & Hs). apply Hs. by apply (Hwf a).
Qed.

Lemma prep_framed t : prep r t0 t -> framed t.
Proof.
  intros [A1 A2 A3 A4 A5 A6 A7]. split; try done.
  - by apply A6.
  - intros a st. apply store_prep_wf, A7.
  - intros a _. apply store_prep_inflight, A7.
Qed.

Lemma prep_inflight a t : prep r t0 t -> inflight_map a t = inflight_map a t0.
Proof. intros Hp. apply store_prep_inflight, Hp. Qed.

Lemma prep_unsettled t : prep r t0 t -> unsettled t.
Proof. intros Hp. split_and!; [by apply prep_framed|by apply prep_inflight|apply Hp..]. Qed.

Lemma prep_from t : prep r t0 t -> FromAddress (read_tx r t) = from.
Proof. intros Hp. exact (f_equal FromAddress (pr_self _ _ _ Hp)). Qed.

Lemma prep_steps {A} (m : M W A) :
  steps (prep r) m -> triple (prep r t0) m (fun _ => prep r t0).
Proof. intros Hm w t Hp. etrans; [exact Hp|apply Hm]. Qed.

(** The account's store exists. *)
Definition opened (t : Txm) : Prop := prep r t0 t /\ is_Some (get_store from t).

Lemma opened_steps {A} (m : M W A) :
  steps (prep r) m -> triple opened m (fun _ => opened).
Proof.
  intros Hm w t [Hp Hst]. specialize (Hm w t). split; [etrans; eauto|].
  exact (store_prep_some _ _ (pr_stores _ _ _ Hm from) Hst).
Qed.

Lemma ready_steps {A} seq (m : M W A) :
  steps (prep r) m -> triple (ready seq) m (fun _ => ready seq).
Proof.
  intros Hm w t [Hp (st & Hst & Hf & Hle)]. specialize (Hm w t). split; [etrans; eauto|].
  pose proof (pr_stores _ _ _ Hm from) as Hs. rewrite Hst in Hs.
  destruct (get_store from (snd (snd (m (w, t))))) as [st'|] eqn:E'; [|done]. destruct Hs as (E & Hn & _).
  exists st'. unfold abs_inflight. rewrite E. split_and!; [done..|lia].
Qed.

Lemma ready_opened seq t : ready seq t -> opened t.
Proof. intros [Hp (st & Hst & _)]. split; eauto. Qed.

Lemma opened_next : triple (W:=W) opened (store_next from) ready.
Proof.
  unfold store_next. apply triple_gets. intros t [Hp [st Hst]]. rewrite Hst.
  split; [done|]. exists st. split_and!; [done| |apply GetNextSequence_le_next].
  apply GetNextSequence_not_inflight, (store_prep_wf from t); [apply Hp|done].
Qed.

Lemma ready_release seq t :
  ready seq t ->
  prep r t0 (match get_store from t with
             | Some st => put_store from (Release seq st) t | None => t end).
Proof.
  intros [Hp (st & Hst & Hf & Hle)]. rewrite Hst.
  assert (Hw : wf st) by (apply (store_prep_wf from t); [apply Hp|done]).
  etrans; [exact Hp|]. split; try done. intros a. rewrite get_put_store.
  case_decide; [subst a; rewrite Hst|reflexivity]. simpl. split_and!.
  - apply delete_id. apply eq_None_not_Some. exact Hf.
  - lia.
  - intros _. by apply Release_wf.
Qed.

Lemma prep_some t : prep r t0 t -> is_Some (txs t !! r).
Proof. intros Hp. by apply (pr_dom _ _ _ Hp). Qed.

Lemma prep_ident t : prep r t0 t -> ident (read_tx r t) = ident (read_tx r t0).
Proof. intros Hp. exact (f_equal ident (pr_self _ _ _ Hp)). Qed.

Lemma prep_keep t : prep r t0 t -> keep (read_tx r t) = keep (read_tx r t0).
Proof. intros Hp. exact (f_equal keep (pr_self _ _ _ Hp)). Qed.

Lemma prep_evict t : prep r t0 t -> transactions (evict r t) = transactions (evict r t0).
Proof.
  intros Hp. unfold evict. rewrite (f_equal ID (pr_self _ _ _ Hp) : ID (read_tx r t) = _).
  change (ID (core (read_tx r t0))) with (ID (read_tx r t0)).
  rewrite (pr_ids _ _ _ Hp). destruct (transactions t0 !! _) as [cur|]; [|apply Hp].
  destruct (decide (cur = r)); [done|apply Hp].
Qed.

Lemma failed_post reason t t' : prep r t0 t -> terminal_from s Failed r t t' -> post (OFailed reason) t'.
Proof.
  intros Hp [[S1 S2 S3 S4 S5 S6 S7] [n En] Hids].
  destruct (prep_framed t Hp) as [F0 F1 F2 F3 F4].
  assert (Es : forall a, get_store a t' = get_store a t) by (intros; unfold get_store; by rewrite S2).
  split_and!.
  - split.
    + by apply S7.
    + intros q Hq. by rewrite S6, F1.
    + congruence.
    + intros a st. rewrite Es. apply F3.
    + intros a Ha. unfold inflight_map at 1. rewrite Es. by apply F4.
  - unfold inflight_map at 1. rewrite Es. by apply prep_inflight.
  - rewrite S1. apply Hp.
  - rewrite En, ident_terminated. by apply prep_ident.
  - rewrite Hids. destruct (_ <=? 0); [by apply prep_evict|apply Hp].
  - rewrite En. unfold terminated. simpl. by destruct (TerminalTime _).
  - by rewrite En.
  - rewrite En. unfold terminated. simpl. by destruct (TerminalTime (read_tx r t)) eqn:E; simpl; rewrite ?E.
Qed.

Definition flow_post (f : Flow) (t : Txm) : Prop :=
  match f with
  | Continue l => ready (l_seq l) t
  | Break seq => ready seq t
  | Return o => post o t
  end.

Lemma triple_mark_failed reason :
  triple (W:=W) (prep r t0) (markTxFailed s r reason) (fun _ => post (OFailed reason)).
Proof.
  eapply triple_weaken; [| |apply (triple_markTxFailed s r reason _ prep_some)]; [done|].
  intros _ t' (t & Hp & Hf). by apply (failed_post reason t).
Qed.

Lemma triple_fail seq reason :
  triple (W:=W) (ready seq) (fail_and_return s from seq r reason) flow_post.
Proof.
  unfold fail_and_return.
  apply (triple_bind _ _ _ (fun _ => post (OFailed reason))); [|intros []; by apply triple_ret].
  eapply triple_weaken; [| |apply (triple_releaseSeqAndFailTx s from seq r reason (ready seq))]; [done| |].
  - intros _ t' (t & Hp & Hf). eapply failed_post; [|exact Hf]. by apply ready_release.
  - intros t Hp. apply prep_some, Hp.
Qed.

Lemma triple_backoff seq l :
  l_seq l = seq -> triple (W:=W) (ready seq) (backoff s from seq l) flow_post.
Proof.
  intros El. unfold backoff. apply (triple_bind _ _ _ (fun _ => ready seq)); [by apply triple_io|].
  intros [].
  - apply triple_ret. intros t Hp. simpl. by rewrite El.
  - apply (triple_bind _ _ _ (fun _ => prep r t0)).
    + apply triple_modify. apply ready_release.
    + intros _. apply triple_ret. intros t Hp. simpl. split; [by apply prep_unsettled|apply Hp].
Qed.

Lemma triple_count_attempt l k :
  (forall l', l_seq l' = l_seq l -> triple (W:=W) (ready (l_seq l)) (k l') flow_post) ->
  triple (ready (l_seq l)) (count_attempt s l k) flow_post.
Proof.
  intros Hk. unfold count_attempt. destruct (Nat.leb _ _); [by apply triple_ret|]. by apply Hk.
Qed.

Lemma triple_handle_reject client ml reason l :
  triple (W:=W) (ready (l_seq l)) (handle_reject s client from r ml reason l) flow_post.
Proof.
  unfold handle_reject. destruct (String.eqb reason ErrorReasonBadSeq).
  { apply (triple_bind _ _ _ (fun _ => opened)).
    { eapply triple_pre; [exact (ready_opened _)|apply opened_steps, steps_resync]. }
    intros _. apply (triple_bind _ _ _ ready); [apply opened_next|]. intros seq.
    apply (triple_count_attempt (mkLoop seq _ _ _ _ _)). simpl. intros l' El.
    destruct (_ =? _); [by apply triple_backoff|]. apply triple_ret. simpl. by rewrite El. }
  destruct (String.eqb reason ErrorReasonInsufficientFee).
  { apply (triple_bind _ _ _ (fun _ => ready (l_seq l))); [apply ready_steps, steps_fees|].
    intros fees. apply (triple_count_attempt (mkLoop (l_seq l) _ _ _ _ _)). simpl.
    intros l' El. by apply triple_backoff. }
  destruct (_ && _)%bool; [by apply triple_ret|].
  apply (triple_count_attempt (mkLoop (l_seq l) _ _ _ _ _)). simpl.
  intros l' El. by apply triple_backoff.
Qed.

(** The state once the store has accepted the record of an accepted submission. *)
Record tracked (seq : Z) (hash : string) (t : Txm) : Prop := mkTracked {
  tk_others : forall q, q <> r -> txs t !! q = txs t0 !! q;
  tk_self : is_Some (txs t !! r);
  tk_keep : keep (read_tx r t) = keep (read_tx r t0);
  tk_chan : broadcastChan t = broadcastChan t0;
  tk_stopped : stopped t = stopped t0;
  tk_wf : (forall st, get_store from t = Some st -> seq < nextSequence st) -> stores_wf t;
  tk_ids : transactions t = transactions t0;
  tk_maps : forall a, a <> from -> inflight_map a t = inflight_map a t0;
  tk_free : inflight_map from t0 !! seq = None;
  tk_record : exists ml mt,
    inflight_map from t = <[seq := mkUnconfirmedTx seq hash ml mt r]> (inflight_map from t0)
}.

Lemma ready_tracked seq hash ml mt t st st' :
  ready seq t -> get_store from t = Some st -> AddUnconfirmed seq hash ml mt r st = Ok st' ->
  tracked seq hash (put_store from st' t).
Proof.
  intros [Hp (st1 & Hst & Hf & _)] E Ha. rewrite E in Hst. injection Hst as <-.
  assert (Hnw : seq < nextSequence st' -> wf st').
  { apply (AddUnconfirmed_wf_nowrap seq hash ml mt r st); [|done].
    apply (store_prep_wf from t); [apply Hp|done]. }
  apply AddUnconfirmed_inv in Ha as (_ & Ha & _).
  assert (Em : unconfirmedSequences st = inflight_map from t0).
  { rewrite <- (prep_inflight from t Hp). unfold inflight_map. by rewrite E. }
  split.
  - apply Hp.
  - exact (prep_some t Hp).
  - exact (prep_keep t Hp).
  - apply Hp.
  - apply Hp.
  - intros Hn a st1. rewrite get_put_store. case_decide; intros Hst1.
    + injection Hst1 as <-. apply Hnw, Hn. rewrite get_put_store. by rewrite decide_True.
    + apply (store_prep_wf a t); [apply Hp|done].
  - apply Hp.
  - intros a Hne. unfold inflight_map at 1. rewrite get_put_store, decide_False by done.
    by apply (prep_inflight a t).
  - apply eq_None_not_Some. unfold abs_inflight in Hf. by rewrite <- Em.
  - exists ml, mt. unfold inflight_map at 1. rewrite get_put_store, decide_True by done.
    by rewrite Ha, Em.
Qed.

Lemma tracked_update seq hash f t :
  (forall x, keep (f x) = keep x) -> tracked seq hash t -> tracked seq hash (write_tx r f t).
Proof.
  intros Hf [A1 A2 A3 A4 A5 A6 A7 A8 A9]. split; try done.
  - intros q Hq. rewrite write_tx_other by done. by apply A1.
  - by apply write_tx_some.
  - rewrite (read_write_tx_field keep) by done. done.
Qed.

Lemma triple_tracked_update seq hash f (P : StellarTx -> Prop) (Q : StellarTx -> Prop) :
  (forall x, P x -> Q (f x)) -> (forall x, keep (f x) = keep x) ->
  triple (W:=W) (fun t => tracked seq hash t /\ P (read_tx r t)) (update r f)
    (fun _ t => tracked seq hash t /\ Q (read_tx r t)).
Proof.
  intros Hf Hk. apply triple_modify. intros t [Ht HP]. split; [by apply tracked_update|].
  rewrite read_write_tx by apply Ht. auto.
Qed.

(** Accepting a submission is the only step that adds an in-flight record. *)
Lemma triple_handleSendResult seq sr ml mt hash :
  triple (W:=W) (ready seq) (handleSendResult (Some r) sr seq (Some from) ml mt hash)
    (fun res t => match res with
     | (true, _, _) => hash <> ""%string /\ tracked seq hash t /\ TxHash (read_tx r t) = hash
     | (false, _, _) => ready seq t
     end).
Proof.
  unfold handleSendResult.
  assert (Hacc : triple (W:=W) (ready seq)
    (if String.eqb hash "" then mret (false, true, ErrorReasonNoHash)
     else a ← try_store from (AddUnconfirmed seq hash ml mt r);
       match a with
       | Err _ => mret (false, true, ErrorReasonStoreAdd)
       | Ok _ => updateTransactionHash r hash ;; updateTransactionResultXDR r "" ;;
                 updateTransactionResultMeta r "" ;; updateTransactionResultCode r "" ;;
                 mret (true, false, ""%string)
       end)
    (fun res t => match res with
     | (true, _, _) => hash <> ""%string /\ tracked seq hash t /\ TxHash (read_tx r t) = hash
     | (false, _, _) => ready seq t
     end)).
  { destruct (String.eqb_spec hash ""); [by apply triple_ret|].
    apply (triple_bind _ _ _ (fun a t => match a with Err _ => ready seq t | Ok _ => tracked seq hash t end)).
    { intros w t Hrd. pose proof Hrd as [_ (st & Hst & _)]. unfold try_store. simpl. rewrite Hst.
      destruct (AddUnconfirmed _ _ _ _ _ st) eqn:Ha; [|done]. simpl.
      by apply (ready_tracked seq hash ml mt t st). }
    intros [[]|e]; [|by apply triple_ret].
    apply (triple_bind _ _ _ (fun _ t => tracked seq hash t /\ TxHash (read_tx r t) = hash)).
    { apply (triple_weaken _ _ _ _ _ (fun t Ht => conj Ht I) (fun _ _ Ht => Ht)).
      by apply (triple_tracked_update seq hash _ (fun _ => True) (fun x => TxHash x = hash)). }
    intros []. do 3 (eapply triple_bind;
      [by apply (triple_tracked_update seq hash _ (fun x => TxHash x = hash) (fun x => TxHash x = hash))
      |intros []]).
    apply triple_ret. tauto. }
  destruct (send_Status sr); try exact Hacc; try by apply triple_ret.
  destruct (parseSubmitErrorResult _) as [c|]; [|by apply triple_ret].
  destruct (classifySubmitErrorCode c). by apply triple_ret.
Qed.

(** [updateTransactionStatus] to a non-terminal status is one write. *)
Lemma triple_set_unconfirmed (P Q : Txm -> Prop) :
  (forall t, P t -> Q (write_tx r (set_Status Unconfirmed) t)) ->
  triple (W:=W) P (updateTransactionStatus s r Unconfirmed) (fun _ => Q).
Proof.
  intros HQ. unfold updateTransactionStatus. simpl.
  apply (triple_bind _ _ _ (fun _ => Q)); [by apply triple_modify|intros []].
  apply (triple_bind _ _ _ (fun _ => Q)); [by apply triple_gets|intros x].
  apply (triple_bind _ _ _ (fun _ => Q)); [by apply triple_ret|intros []]. by apply triple_ret.
Qed.

Lemma triple_accepted seq hash :
  hash <> ""%string ->
  triple (W:=W) (fun t => tracked seq hash t /\ TxHash (read_tx r t) = hash)
    (markBroadcastAt r ;; metric IncrementBroadcastedTxs ;; updateTransactionStatus s r Unconfirmed ;;
     mret (Return (OBroadcast seq hash))) flow_post.
Proof.
  intros Hne. set (K x := TxHash x = hash /\ BroadcastAt x <> None).
  apply (triple_bind _ _ _ (fun _ t => tracked seq hash t /\ K (read_tx r t))).
  { unfold markBroadcastAt, now.
    apply (triple_bind _ _ _ (fun _ t => tracked seq hash t /\ TxHash (read_tx r t) = hash));
      [by apply triple_io|intros n].
    apply (triple_tracked_update seq hash _ (fun x => TxHash x = hash) K); done. }
  intros []. apply (triple_bind _ _ _ (fun _ t => tracked seq hash t /\ K (read_tx r t))).
  { apply triple_modify. intros t [[A1 A2 A3 A4 A5 A6 A7 A8 A9 A10] HK]. by split. }
  intros []. apply (triple_bind _ _ _ (fun _ => post (OBroadcast seq hash))).
  2: { intros []. by apply triple_ret. }
  apply triple_set_unconfirmed. intros t [Ht [HK1 HK2]].
  pose proof (tracked_update seq hash (set_Status Unconfirmed) t ltac:(done) Ht)
    as [A1 A2 A3 A4 A5 A6 A7 A8 A9 A10].
  assert (E : read_tx r (write_tx r (set_Status Unconfirmed) t) = set_Status Unconfirmed (read_tx r t))
    by (apply read_write_tx, Ht).
  rewrite E in A3. simpl. rewrite E. split_and!; try done.
Qed.

Lemma triple_submit client ml mt hash xdr l :
  triple (W:=W) (ready (l_seq l)) (submit s client from r ml mt hash xdr l) flow_post.
Proof.
  unfold submit. eapply triple_bind; [apply triple_io; intros ? ? HP; exact HP|]. intros [sr|e].
  2: { apply triple_count_attempt. intros l' El. by apply triple_backoff. }
  eapply triple_bind; [apply triple_handleSendResult|]. intros [[[|] fatal] reason].
  - intros w t (Hne & Ht & Hh). by apply triple_accepted.
  - apply (triple_bind _ _ _ (fun _ => ready (l_seq l))); [apply ready_steps, steps_metric|].
    intros []. destruct fatal; [|by apply triple_handle_reject].
    destruct (String.eqb _ _); [|apply triple_fail].
    apply (triple_bind _ _ _ (fun _ => post (OFailed reason))).
    + eapply triple_pre; [|apply triple_mark_failed]. intros t Ht. apply Ht.
    + intros []. by apply triple_ret.
Qed.

Lemma triple_submit_body client l :
  triple (W:=W) (ready (l_seq l)) (submit_body s client from r l) flow_post.
Proof.
  unfold submit_body, prepareAndSimulateWithRetry.
  apply (triple_bind _ _ _ (fun _ => ready (l_seq l)));
    [apply ready_steps, steps_simulate_loop|].
  intros [[[prelim sim] ml]|e]; [|apply triple_fail].
  destruct (sim_RestorePreamble sim) as [preamble|].
  - destruct (l_restoreHandled l); [apply triple_fail|].
    apply (triple_bind _ _ _ (fun _ => ready (l_seq l))); [apply ready_steps, steps_restore|].
    intros [u|e]; [|apply triple_fail].
    apply (triple_bind _ _ _ ready); [|intros seq; by apply triple_ret].
    eapply triple_pre; [exact (ready_opened _)|apply opened_next].
  - apply (triple_bind _ _ _ (fun _ => ready (l_seq l))); [by apply ready_steps, steps_update|].
    intros []. apply (triple_bind _ _ _ (fun _ => ready (l_seq l)));
      [apply ready_steps, steps_assemble_and_sign|].
    intros [reason|[[mt hash] xdr]]; [apply triple_fail|apply triple_submit].
Qed.

Lemma triple_submit_loop fuel client l :
  (loop_measure l < fuel)%nat ->
  triple (W:=W) (ready (l_seq l)) (submit_loop s fuel client from r l) post.
Proof.
  revert l; induction fuel as [|fuel IH]; intros l Hf; [lia|]. simpl.
  apply (triple_bind _ _ _ (fun f t => decreases l f /\ flow_post f t)).
  - destruct (Nat.ltb _ _) eqn:E; [|by apply triple_ret].
    apply Nat.ltb_lt in E. apply rets_triple; [by apply rets_submit_body|apply triple_submit_body].
  - intros [l'|seq|o]; simpl.
    + intros w t [Hd Hrd]. apply IH; [simpl in Hd; lia|done].
    + apply (triple_bind _ _ _ (fun _ => post (OFailed ErrorReasonMaxRetries)));
        [|intros []; by apply triple_ret].
      eapply triple_weaken; [| |apply (triple_releaseSeqAndFailTx s from seq r _ (ready seq))].
      * intros t [_ Ht]. exact Ht.
      * intros _ t' (t & Hp & Hff). eapply failed_post; [|exact Hff]. by apply ready_release.
      * intros t Hp. apply prep_some, Hp.
    + apply triple_ret. tauto.
Qed.

Lemma triple_retryGetClientOrFail :
  triple (W:=W) (prep r t0) (retryGetClientOrFail s r) post.
Proof.
  unfold retryGetClientOrFail, incrementInfraAttempts, getInfraAttempts, the_tx.
  apply (triple_bind _ _ _ (fun _ => prep r t0)); [by apply prep_steps, steps_update|intros []].
  apply (triple_bind _ _ _ (fun _ => prep r t0)); [apply prep_steps; steps_tac prep_leaf|intros n].
  destruct (n <? _).
  - apply (triple_bind _ _ _ (fun _ => prep r t0)); [by apply triple_io|intros []].
    2: { apply triple_ret. intros t Hp. split; [by apply prep_unsettled|apply Hp]. }
    apply (triple_bind _ _ _ (fun (b : bool) t => if b then post ORequeued t else post ODropped t)).
    { intros w t Hp. unfold chan_send. destruct (Nat.ltb _ _) eqn:E; simpl.
      - apply Nat.ltb_lt in E. rewrite length_app, (pr_chan _ _ _ Hp) in *. simpl.
        destruct (prep_unsettled t Hp) as ([F0 F1 F2 F3 F4] & U). split_and!; [by split|apply U..|done|lia].
      - apply Nat.ltb_ge in E. split_and!; [by apply prep_unsettled..|apply Hp|lia]. }
    intros []; [by apply triple_ret|].
    apply (triple_bind _ _ _ (fun _ => post ODropped)); [|intros []; by apply triple_ret].
    apply triple_modify. by intros t (([F0 F1 F2 F3 F4] & U) & V).
  - apply (triple_bind _ _ _ (fun _ => prep r t0)); [apply prep_steps, steps_metric|intros []].
    apply (triple_bind _ _ _ (fun _ => post (OFailed ErrorReasonClientUnavailable)));
      [apply triple_mark_failed|intros []; by apply triple_ret].
Qed.

Lemma triple_ensure_store client :
  triple (W:=W) (prep r t0) (ensure_store s client r)
    (fun e t => match e with None => opened t | Some o => post o t end).
Proof.
  unfold ensure_store, the_tx.
  apply (triple_bind _ _ _ (fun x t => prep r t0 t /\ FromAddress x = from)).
  { apply triple_gets. intros t Hp. split; [done|by apply prep_from]. }
  intros x. apply triple_fact. intros Ex. rewrite Ex. clear Ex.
  apply (triple_bind _ _ _ (fun st t => prep r t0 t /\ st = get_store from t)).
  { by apply triple_gets. }
  intros [st|].
  { apply triple_ret. intros t [Hp E]. split; eauto. }
  assert (Hfail : forall reason, triple (W:=W) (prep r t0)
    (markTxFailed s r reason ;; mret (Some (OFailed reason)))
    (fun e t => match e with None => opened t | Some o => post o t end)).
  { intros reason. apply (triple_bind _ _ _ (fun _ => post (OFailed reason)));
      [apply triple_mark_failed|intros []; by apply triple_ret]. }
  eapply triple_pre; [intros t [Hp _]; exact Hp|].
  apply (triple_bind _ _ _ (fun _ => prep r t0)).
  { apply prep_steps. unfold getSequenceNumber. steps_tac prep_leaf. }
  intros [seqNum|e]; [|apply Hfail].
  apply (triple_bind _ _ _ (fun c t => prep r t0 t /\
    c = CreateTxStore from (i64 (seqNum + 1)) (accountStore t))); [by apply triple_gets|].
  intros [c|e]; [|eapply triple_pre; [intros t [Hp _]; exact Hp|apply Hfail]].
  apply (triple_bind _ _ _ (fun _ => opened)); [|intros []; by apply triple_ret].
  apply triple_modify. intros t [Hp Ec]. unfold CreateTxStore in Ec.
  destruct (_ !! from) as [?|] eqn:E; [done|]. injection Ec as ->.
  split.
  - etrans; [exact Hp|]. split; try done. intros a. unfold get_store, GetTxStore. simpl.
    rewrite lookup_insert. case_decide; [|reflexivity]. subst a. rewrite E. simpl.
    split; [done|apply NewTxStore_wf].
  - unfold get_store, GetTxStore. simpl. rewrite lookup_insert_eq. eauto.
Qed.

Lemma triple_pipeline :
  triple (W:=W) (prep r t0) (simulateAssembleSignAndSend s r) post.
Proof.
  unfold simulateAssembleSignAndSend.
  apply (triple_bind _ _ _ (fun _ => prep r t0)); [by apply triple_io|].
  intros [client|e]; [|apply triple_retryGetClientOrFail].
  eapply triple_bind; [apply triple_ensure_store|]. intros [o|]; [by apply triple_ret|].
  apply (triple_bind _ _ _ (fun _ => opened)).
  { apply opened_steps. unfold getTransactionAttempt, the_tx. steps_tac prep_leaf. }
  intros att. apply (triple_bind _ _ _ (fun _ => opened)); [apply opened_steps, steps_resync_if|].
  intros []. apply (triple_bind _ _ _ (fun _ => opened)); [apply opened_steps, steps_seed_fee|].
  intros fee. apply (triple_bind _ _ _ (fun x t => opened t /\ FromAddress x = from)).
  { apply triple_gets. intros t Ho. split; [done|]. apply prep_from, Ho. }
  intros x. apply triple_fact. intros Ex. rewrite Ex.
  apply (triple_bind _ _ _ ready); [apply opened_next|]. intros seq.
  apply (triple_submit_loop _ client (mkLoop seq false 0 0 fee 0)).
  unfold loop_measure, pipeline_fuel. simpl. lia.
Qed.

End Proofs.

Section Theorems.
Context `{Sdk} {W : Type} `{Env W} `{FloatConv}.
Variable s : StellarTxm.

Lemma rets_ensure_store client r :
  rets (W:=W) (fun e => e <> Some OOutOfFuel) (ensure_store s client r).
Proof. unfold ensure_store. rets_tac ltac:(simpl; try done; discriminate). Qed.

(** Property C8: the broadcast of a transaction terminates.  Whatever the
    RPC node, the keystore and the clock answer, the submission loop (which has a
    [continue] that does not count as an attempt) ends before the fuel does, so
    the outcome is one of the code's own return statements. *)
Theorem pipeline_terminates r w t :
  fst (simulateAssembleSignAndSend s r (w, t)) <> OOutOfFuel.
Proof.
  revert w t. change (rets (W:=W) (fun o => o <> OOutOfFuel) (simulateAssembleSignAndSend s r)).
  unfold simulateAssembleSignAndSend. apply rets_bind_any. intros [client|e].
  - apply (rets_bind _ _ _ _ (rets_ensure_store client r)).
    intros [o|]; intros Ho; [apply rets_ret; congruence|].
    do 5 (apply rets_bind_any; intros ?). apply rets_submit_loop.
    unfold loop_measure, pipeline_fuel. simpl. lia.
  - unfold retryGetClientOrFail. rets_tac ltac:(discriminate).
Qed.

(** Property C3: the outcome of a broadcast on every branch.  From a manager whose
    stores are well formed: an accepted submission adds exactly one in-flight
    record, under a sequence number that was free, carrying the hash it stored on
    the transaction, and leaves every other record, transaction and queue entry
    alone; every failure closes [Done] with status [Failed] and a terminal time
    and leaves the in-flight records of every account as they were; a requeue
    appends the transaction within the channel's capacity; a drop on a full
    channel and a cancellation leave the transaction as it was. *)
Theorem pipeline_outcome r w t :
  is_Some (txs t !! r) -> stores_wf t ->
  post s r t (fst (simulateAssembleSignAndSend s r (w, t)))
    (snd (snd (simulateAssembleSignAndSend s r (w, t)))).
Proof. intros Hr Hwf. apply (triple_pipeline s r t Hr Hwf w t). reflexivity. Qed.

(** A transaction can be stranded.  When no client is available, the retry
    budget is not spent and the broadcast channel is full, the transaction is
    dropped: it is in no queue, its status is still what it was, [Done] is not
    closed and its entry stays in the id map, although a drop on the enqueue path
    fails the transaction or removes it. *)
Theorem client_loss_strands_tx r w t :
  u64 (InfraAttempts (read_tx r t) + 1) < MaxGetClientRetryAttempts (config s) ->
  fst (env_sleep (SubmitRetryDelay (config s)) w) = true ->
  (BroadcastChanSize (config s) <= length (broadcastChan t))%nat ->
  is_Some (txs t !! r) ->
  let '(o, (_, t')) := retryGetClientOrFail s r (w, t) in
  o = ODropped /\ broadcastChan t' = broadcastChan t /\ transactions t' = transactions t /\
  Status (read_tx r t') = Status (read_tx r t) /\ Done (read_tx r t') = Done (read_tx r t).
Proof.
  intros Hb Hs Hc Hr. unfold retryGetClientOrFail, incrementInfraAttempts, getInfraAttempts, the_tx, update.
  rewrite bind_run. cbn -[read_tx write_tx]. rewrite !bind_run. cbn -[read_tx write_tx].
  rewrite read_write_tx by done. cbn -[read_tx write_tx].
  rewrite (proj2 (Z.ltb_lt _ _) Hb). rewrite bind_run. cbn -[read_tx write_tx].
  destruct (env_sleep _ w) as [b w']. simpl in Hs. subst b. cbn [fst snd].
  set (t1 := write_tx r _ t). rewrite bind_run.
  assert (E : chan_send s r (w', t1) = (false, (w', t1))).
  { unfold chan_send. change (broadcastChan t1) with (broadcastChan t).
    by rewrite (proj2 (Nat.ltb_ge _ _) Hc). }
  rewrite E. cbn [fst snd]. rewrite bind_run. cbn -[read_tx t1]. split_and!; try done.
  - by apply (read_write_tx_field Status).
  - by apply (read_write_tx_field Done).
Qed.

End Theorems.

(** ** Witnesses *)

Lemma demo_state_ok : is_Some (txs demo_state !! 1%positive) /\ stores_wf demo_state.
Proof.
  split; [by eexists|]. intros a st Hst. discriminate Hst.
Qed.

Lemma pipeline_outcome_witness :
  fst (simulateAssembleSignAndSend demo_txm_static 1%positive (quiet, demo_state)) =
    OBroadcast 42 "h42" /\
  post demo_txm_static 1%positive demo_state
    (fst (simulateAssembleSignAndSend demo_txm_static 1%positive (quiet, demo_state)))
    (snd (snd (simulateAssembleSignAndSend demo_txm_static 1%positive (quiet, demo_state)))).
Proof.
  split; [by vm_compute|].
  apply (pipeline_outcome demo_txm_static 1%positive quiet demo_state); apply demo_state_ok.
Defined.

(** Channel of two, filled by two other transactions. *)
Definition demo_full : Txm := set_broadcastChan [2%positive; 3%positive] demo_state.

Lemma client_loss_strands_tx_witness :
  let '(o, (_, t')) := retryGetClientOrFail demo_txm_static 1%positive (quiet, demo_full) in
  o = ODropped /\ broadcastChan t' = broadcastChan demo_full /\
  transactions t' = transactions demo_full /\
  Status (read_tx 1%positive t') = Status (read_tx 1%positive demo_full) /\
  Done (read_tx 1%positive t') = Done (read_tx 1%positive demo_full).
Proof.
  apply (client_loss_strands_tx demo_txm_static 1%positive quiet demo_full);
    [by vm_compute|by vm_compute|by apply Nat.leb_le|by eexists].
Defined.
