(* ===== verification/Confirm.v ===== *)
(** * Confirmation, retries and pruning

    Models the confirm and prune parts of relayer/txm/txm.go: [checkUnconfirmed],
    [maybeRetry], [cannotBeIncluded], [timeBoundLongPassed], [pruneTerminal] and
    the bodies of [confirmLoop] and [pruneLoop].  The cases of the switch of
    [checkUnconfirmed] are definitions of their own ([on_success], [on_failed],
    [on_unknown], [on_not_found]); each returns what it adds to [totalPending]. *)

From S2P Require Import Prelude GoFloat Sdk TxStore Fee Config TxmState Broadcast.

(** No ledger after [latestLedger] can include the envelope. *)
Definition cannotBeIncluded (latestLedger latestCloseTime : Z) (utx : UnconfirmedTx) : bool :=
  if latestLedger =? 0 then false
  else
    let ledgerExpired := ((MaxLedger utx >? 0) && (latestLedger >=? MaxLedger utx))%bool in
    let timeExpired := ((MaxTime utx >? 0) && (latestCloseTime >? MaxTime utx))%bool in
    (ledgerExpired || timeExpired)%bool.

(** [time.Minute], in seconds. *)
Definition statusUnknownMargin : Z := 60.

Definition timeBoundLongPassed (utx : UnconfirmedTx) (now : Z) : bool :=
  ((MaxTime utx >? 0) && (unix now >? i64 (MaxTime utx + statusUnknownMargin)))%bool.

Section Confirm.
Context `{Sdk} {W : Type} `{Env W}.
Variable s : StellarTxm.

Definition maybeRetry (utx : UnconfirmedTx) (reason : RetryReason) : M W bool :=
  currentAttempt ← getTransactionAttempt (Tx utx);
  if currentAttempt >=? MaxTxRetryAttempts (config s) then mret false
  else
    sent ← chan_send s (Tx utx);
    if (sent : bool) then metric (IncrementRetryTxs reason) ;; mret true
    else metric (IncrementDroppedTxs DropReasonChannelFullNewRejected) ;; mret false.

Definition on_success (addr : string) (utx : UnconfirmedTx) (resp : GetTransactionResponse) : M W Z :=
  c ← try_store addr (Confirm (Sequence utx) (Hash utx) false);
  match c with
  | Err _ => mret 0
  | Ok _ =>
      updateTransactionResultXDR (Tx utx) (gt_ResultXDR resp) ;;
      updateTransactionResultCode (Tx utx) "" ;;
      (if String.eqb (gt_ResultXDR resp) "" then mret tt
       else match unmarshal_TransactionResult (gt_ResultXDR resp) with
            | Err _ => mret tt
            | Ok txResult => updateTransactionFee (Tx utx) (tr_FeeCharged txResult)
            end) ;;
      (if String.eqb (gt_ResultMetaXDR resp) "" then mret tt
       else updateTransactionResultMeta (Tx utx) (gt_ResultMetaXDR resp)) ;;
      updateTransactionLedgerCloseTime (Tx utx) (gt_LedgerCloseTime resp) ;;
      metric IncrementSuccessTxs ;;
      recordTimeUntilConfirmed (Tx utx) ;;
      updateTransactionStatus s (Tx utx) Finalized ;;
      mret 0
  end.

(** The code shared by the two retry points: count the attempt, retry or fail. *)
Definition retry_or_fail (utx : UnconfirmedTx) (reason : RetryReason) (code : ErrorReason) : M W Z :=
  incrementTransactionAttempt (Tx utx) ;;
  retried ← maybeRetry utx reason;
  if (retried : bool) then mret 0
  else
    metric (IncrementMaxAttemptsReached RetryBudgetLifecycle) ;;
    metric (IncrementErrorTxs code) ;;
    updateTransactionStatus s (Tx utx) Failed ;;
    mret 0.

Definition on_failed (addr : string) (utx : UnconfirmedTx) (resp : GetTransactionResponse) : M W Z :=
  c ← try_store addr (Confirm (Sequence utx) (Hash utx) false);
  match c with
  | Err _ => mret 0
  | Ok _ =>
      updateTransactionResultXDR (Tx utx) (gt_ResultXDR resp) ;;
      let classification := classifyFailedTransactionResult (gt_ResultXDR resp) in
      updateTransactionResultCode (Tx utx) (resultCode classification) ;;
      updateTransactionLedgerCloseTime (Tx utx) (gt_LedgerCloseTime resp) ;;
      if retryable classification then
        retry_or_fail utx RetryReasonResourceExhaustion (resultCode classification)
      else
        metric (IncrementErrorTxs (resultCode classification)) ;;
        updateTransactionStatus s (Tx utx) Failed ;;
        mret 0
  end.

(** [GetTransaction] returned an error. *)
Definition on_unknown (addr : string) (utx : UnconfirmedTx) : M W Z :=
  n ← now;
  if timeBoundLongPassed utx n then
    _c ← try_store addr (Confirm (Sequence utx) (Hash utx) true);
    updateTransactionResultCode (Tx utx) ErrorReasonStatusUnknown ;;
    metric (IncrementErrorTxs ErrorReasonStatusUnknown) ;;
    updateTransactionStatus s (Tx utx) Failed ;;
    mret 0
  else mret 1.

(** The record has expired or is still pending at this ledger. *)
Definition on_ledger (addr : string) (utx : UnconfirmedTx) (latestLedger latestCloseTime : Z) : M W Z :=
  if cannotBeIncluded latestLedger latestCloseTime utx then
    c ← try_store addr (Confirm (Sequence utx) (Hash utx) true);
    match c with
    | Err _ =>
        metric (IncrementErrorTxs ErrorReasonTimedOut) ;;
        updateTransactionStatus s (Tx utx) Failed ;;
        mret 0
    | Ok _ => retry_or_fail utx RetryReasonTimedOut ErrorReasonTimedOut
    end
  else mret 1.

(** Any status that is neither SUCCESS nor FAILED. *)
Definition on_not_found (client : Client) (addr : string) (utx : UnconfirmedTx)
    (resp : GetTransactionResponse) : M W Z :=
  if gt_LatestLedger resp =? 0 then
    l ← io (rpc_GetLatestLedger client);
    match l with
    | Err _ => mret 1
    | Ok ledger => on_ledger addr utx (ll_Sequence ledger) (ll_LedgerCloseTime ledger)
    end
  else on_ledger addr utx (gt_LatestLedger resp) (gt_LatestLedgerCloseTime resp).

(** One iteration of the inner loop. *)
Definition check_one (client : Client) (addr : string) (utx : UnconfirmedTx) : M W Z :=
  r ← io (rpc_GetTransaction client (Hash utx));
  match r with
  | Err _ => on_unknown addr utx
  | Ok resp =>
      match gt_Status resp with
      | TransactionStatusSuccess => on_success addr utx resp
      | TransactionStatusFailed => on_failed addr utx resp
      | _ => on_not_found client addr utx resp
      end
  end.

Fixpoint check_account (client : Client) (addr : string) (l : list UnconfirmedTx) : M W Z :=
  match l with
  | [] => mret 0
  | utx :: l' =>
      p ← check_one client addr utx;
      q ← check_account client addr l';
      mret (p + q)
  end.

(** Go ranges over the map in an unspecified order: the order is an argument. *)
Fixpoint check_accounts (client : Client) (l : list (string * list UnconfirmedTx)) : M W Z :=
  match l with
  | [] => mret 0
  | (addr, unconfirmedTxs) :: l' =>
      p ← check_account client addr unconfirmedTxs;
      q ← check_accounts client l';
      mret (p + q)
  end.

Definition checkUnconfirmed (order : list (string * list UnconfirmedTx) ->
    list (string * list UnconfirmedTx)) : M W unit :=
  c ← io getClient;
  match c with
  | Err _ => mret tt
  | Ok client =>
      allUnconfirmed ← gets (fun t => GetAllUnconfirmed (accountStore t));
      totalPending ← check_accounts client (order (map_to_list allUnconfirmed));
      metric (SetPendingTxs totalPending)
  end.

(** ** Pruning *)

(** The loop over the id map, in the order Go happens to range over it; the
    clock is read again for every terminal entry. *)
Fixpoint prune_loop (l : list (string * txref)) : M W unit :=
  match l with
  | [] => mret tt
  | (id, tx) :: l' =>
      x ← the_tx tx;
      match isTerminalStatus (Status x), TerminalTime x with
      | true, Some terminalTime =>
          n ← now;
          if time_sub n terminalTime <? PruneTxExpiration (config s) then prune_loop l'
          else
            modify (fun t => set_transactions (delete id (transactions t)) t) ;;
            prune_loop l'
      | _, _ => prune_loop l'
      end
  end.

Definition pruneTerminal (order : list (string * txref) -> list (string * txref)) : M W unit :=
  entries ← gets (fun t => order (map_to_list (transactions t)));
  prune_loop entries.

(** The confirm ticker: [checkUnconfirmed], then wait for what is left of the
    poll interval ([jitter] is timeutil's). *)
Definition next_tick (jitter : Z -> Z) (start stop : Z) : Z :=
  let remaining := i64 (ConfirmPollInterval (config s) - time_sub stop start) in
  if remaining >? 0 then jitter remaining else 0.

Definition confirm_tick (order : list (string * list UnconfirmedTx) ->
    list (string * list UnconfirmedTx)) (jitter : Z -> Z) : M W Z :=
  start ← now;
  checkUnconfirmed order ;;
  stop ← now;
  mret (next_tick jitter start stop).

End Confirm.
