(* ===== verification/ConfirmProofs.v ===== *)
(** * Correctness of the confirmation loop

    What one iteration of [checkUnconfirmed] does with an in-flight record on
    every answer of the RPC node, when a sequence number may be used again, and
    what pruning removes. *)

From S2P Require Import Prelude GoFloat Sdk TxStore Fee Config TxmState Logic Broadcast Confirm Demo.

Section Check.
Context `{Sdk} {W : Type} `{Env W}.
Variable s : StellarTxm.

(** An in-flight record of the account [addr]. *)
Variable addr : string.
Variable utx : UnconfirmedTx.
Variable t0 : Txm.

Definition recorded : Prop := exists st, get_store addr t0 = Some st /\
  unconfirmedSequences st !! Sequence utx = Some utx.

Hypothesis Hr : is_Some (txs t0 !! Tx utx).
Hypothesis Hwf : stores_wf t0.
Hypothesis Hrec : recorded.

(** The record has left the store; [recycled] says whether its number may be
    allocated again. *)
Record gone (recycled : bool) (t : Txm) : Prop := mkGone {
  gn_store : exists st st', get_store addr t0 = Some st /\ get_store addr t = Some st' /\
    unconfirmedSequences st' = delete (Sequence utx) (unconfirmedSequences st) /\
    nextSequence st' = nextSequence st /\
    (forall n, n ∈ failedSequences st' <->
       n ∈ failedSequences st \/
       recycled = true /\ n = Sequence utx /\ lastOnchainSequence st <= Sequence utx);
  gn_stores : forall a, a <> addr -> get_store a t = get_store a t0;
  gn_wf : stores_wf t;
  gn_others : forall q, q <> Tx utx -> txs t !! q = txs t0 !! q;
  gn_some : is_Some (txs t !! Tx utx);
  gn_ident : ident (read_tx (Tx utx) t) = ident (read_tx (Tx utx) t0);
  gn_stopped : stopped t = stopped t0
}.

(** Neither queued again nor settled yet. *)
Record released (recycled : bool) (t : Txm) : Prop := mkReleased {
  cf_gone : gone recycled t;
  cf_chan : broadcastChan t = broadcastChan t0;
  cf_ids : transactions t = transactions t0
}.

(** Nothing but bookkeeping since the record left the store. *)
Record confirmed (recycled : bool) (t : Txm) : Prop := mkConfirmed {
  cf_released : released recycled t;
  cf_life : life (read_tx (Tx utx) t) = life (read_tx (Tx utx) t0)
}.

(** The transaction is settled with a terminal status. *)
Record final (status : TransactionStatus) (t : Txm) : Prop := mkFinal {
  fn_status : Status (read_tx (Tx utx) t) = status;
  fn_done : Done (read_tx (Tx utx) t) = true;
  fn_time : TerminalTime (read_tx (Tx utx) t) <> None;
  fn_chan : broadcastChan t = broadcastChan t0;
  fn_ids : transactions t = (if PruneInterval (config s) <=? 0
                             then transactions (evict (Tx utx) t0) else transactions t0)
}.

(** The transaction is queued for another broadcast, within the retry budget. *)
Record requeued (t : Txm) : Prop := mkRequeued {
  rq_chan : broadcastChan t = broadcastChan t0 ++ [Tx utx];
  rq_cap : (length (broadcastChan t) <= BroadcastChanSize (config s))%nat;
  rq_ids : transactions t = transactions t0;
  rq_attempt : Attempt (read_tx (Tx utx) t) = u64 (Attempt (read_tx (Tx utx) t0) + 1);
  rq_budget : Attempt (read_tx (Tx utx) t) < MaxTxRetryAttempts (config s);
  rq_status : Status (read_tx (Tx utx) t) = Status (read_tx (Tx utx) t0);
  rq_done : Done (read_tx (Tx utx) t) = Done (read_tx (Tx utx) t0);
  rq_time : TerminalTime (read_tx (Tx utx) t) = TerminalTime (read_tx (Tx utx) t0)
}.

Lemma confirm_succeeds recycled :
  exists st st', get_store addr t0 = Some st /\
    Confirm (Sequence utx) (Hash utx) recycled st = Ok st' /\
    confirmed recycled (put_store addr st' t0).
Proof.
  destruct Hrec as (st & Hst & Hu). unfold Confirm.
  set (st' := mkTxStore (nextSequence st) (delete (Sequence utx) (unconfirmedSequences st))
     (if (recycled && (Sequence utx >=? lastOnchainSequence st))%bool
      then {[Sequence utx]} ∪ failedSequences st else failedSequences st) (lastOnchainSequence st)).
  exists st, st'. split; [done|]. rewrite Hu, String.eqb_refl. split; [done|].
  assert (Hc : Confirm (Sequence utx) (Hash utx) recycled st = Ok st')
    by (unfold Confirm; by rewrite Hu, String.eqb_refl).
  assert (Hw : wf st') by (by apply (Confirm_wf _ _ _ _ _ (Hwf addr st Hst) Hc)).
  split; [|done]. split; try done. split; try done.
  - exists st, st'. rewrite get_put_store, decide_True by done. split_and!; try done. intros n.
    unfold st'. simpl. rewrite pool_add. rewrite andb_true_iff, Z.geb_le. tauto.
  - intros a Ha. by rewrite get_put_store, decide_False.
  - intros a st1. rewrite get_put_store. case_decide; [by intros [= <-]|by apply Hwf].
Qed.

Lemma confirmed_touched recycled t t' :
  confirmed recycled t -> touched (Tx utx) t t' -> confirmed recycled t'.
Proof.
  intros [[[G1 G2 G3 G4 G5 G6 G7] C1 C2] C3] [[S1 S2 S3 S4 S5 S6 S7] T2 T3].
  assert (Es : forall a, get_store a t' = get_store a t) by (intros; unfold get_store; by rewrite S2).
  split; [|congruence]. split; try congruence. split.
  - destruct G1 as (st & st' & ?). exists st, st'. by rewrite Es.
  - intros a Ha. by rewrite Es, G2.
  - intros a st. rewrite Es. apply G3.
  - intros q Hq. by rewrite S6, G4.
  - auto.
  - rewrite <- G6. by apply life_ident.
  - congruence.
Qed.

Lemma confirmed_steps {A} recycled (m : M W A) :
  steps (touched (Tx utx)) m -> triple (confirmed recycled) m (fun _ => confirmed recycled).
Proof. intros Hm w t Hc. by apply (confirmed_touched recycled t). Qed.

(** A [try_store] of [Confirm] on the record succeeds. *)
Lemma triple_confirm recycled :
  triple (W:=W) (fun t => t = t0) (try_store addr (Confirm (Sequence utx) (Hash utx) recycled))
    (fun c t => confirmed recycled t /\ c = Ok tt).
Proof.
  intros w t ->. destruct (confirm_succeeds recycled) as (st & st' & Hst & Hc & Hcf).
  unfold try_store. simpl. rewrite Hst. by rewrite Hc.
Qed.

Lemma triple_final recycled status :
  isTerminalStatus status = true ->
  triple (W:=W) (released recycled) (updateTransactionStatus s (Tx utx) status)
    (fun _ t => gone recycled t /\ final status t).
Proof.
  intros Hs. eapply triple_weaken; [| |apply (triple_terminal s status (Tx utx) (released recycled) Hs)];
    [done| |by intros t [[? ? ? ? ? ? ?] ? ?]].
  intros _ t' (t & [[G1 G2 G3 G4 G5 G6 G7] C1 C2] & [[S1 S2 S3 S4 S5 S6 S7] [n En] Hids]).
  assert (Es : forall a, get_store a t' = get_store a t) by (intros; unfold get_store; by rewrite S2).
  assert (Ei : ID (read_tx (Tx utx) t) = ID (read_tx (Tx utx) t0)) by (by apply ident_ID).
  split; split.
  - destruct G1 as (st & st' & ?). exists st, st'. by rewrite Es.
  - intros a Ha. by rewrite Es, G2.
  - intros a st. rewrite Es. apply G3.
  - intros q Hq. by rewrite S6, G4.
  - auto.
  - by rewrite En, ident_terminated.
  - congruence.
  - rewrite En. unfold terminated. rewrite Hs. simpl. by destruct (TerminalTime _).
  - rewrite En. unfold terminated. by rewrite Hs.
  - rewrite En. unfold terminated. rewrite Hs. simpl.
    by destruct (TerminalTime (read_tx (Tx utx) t)) eqn:E; simpl; rewrite ?E.
  - congruence.
  - rewrite Hids. destruct (_ <=? 0); [|done]. unfold evict. rewrite Ei, C2.
    destruct (transactions t0 !! _) as [cur|]; [|done]. destruct (decide (cur = Tx utx)); [done|].
    done.
Qed.

(** Bookkeeping that keeps a property of the transaction. *)
Definition keeping (K : StellarTx -> Prop) (t t' : Txm) : Prop :=
  touched (Tx utx) t t' /\ (K (read_tx (Tx utx) t) -> K (read_tx (Tx utx) t')).

#[local] Instance keeping_refl K : Reflexive (keeping K).
Proof. by split. Qed.

#[local] Instance keeping_trans K : Transitive (keeping K).
Proof. intros t1 t2 t3 [A1 A2] [B1 B2]. split; [by etrans|auto]. Qed.

Definition confirmed_with (recycled : bool) (K : StellarTx -> Prop) (t : Txm) : Prop :=
  confirmed recycled t /\ K (read_tx (Tx utx) t).

Lemma triple_keeping {A} recycled K (m : M W A) :
  steps (keeping K) m -> triple (confirmed_with recycled K) m (fun _ => confirmed_with recycled K).
Proof.
  intros Hm w t [Hc HK]. destruct (Hm w t) as [Ht Hk].
  split; [by apply (confirmed_touched recycled t)|auto].
Qed.

Lemma steps_keeping_update K f :
  (forall x, life (f x) = life x) -> (forall x, K x -> K (f x)) ->
  steps (W:=W) (keeping K) (update (Tx utx) f).
Proof.
  intros Hl HK. apply steps_modify. intros t. split.
  - split; [apply same_rest_write|done|by apply read_write_tx_field].
  - unfold read_tx. simpl. rewrite lookup_alter_eq. destruct (txs t !! Tx utx); simpl; auto.
Qed.

Lemma steps_keeping_metric K m : steps (W:=W) (keeping K) (metric m).
Proof. apply steps_modify. intros t. split; [split; [apply same_rest_metrics|done..]|done]. Qed.

(** An update that establishes a property. *)
Lemma triple_establish recycled (K K' : StellarTx -> Prop) f :
  (forall x, life (f x) = life x) -> (forall x, K x -> K' (f x)) ->
  triple (W:=W) (confirmed_with recycled K) (update (Tx utx) f)
    (fun _ => confirmed_with recycled K').
Proof.
  intros Hl HK. apply triple_modify. intros t [Hc Hk]. split.
  - eapply confirmed_touched; [exact Hc|]. split; [apply same_rest_write|done|].
    by apply read_write_tx_field.
  - rewrite read_write_tx by apply Hc. auto.
Qed.

Lemma triple_final_with recycled status K :
  isTerminalStatus status = true ->
  (forall n x, K x -> K (terminated status n x)) ->
  triple (W:=W) (confirmed_with recycled K) (updateTransactionStatus s (Tx utx) status)
    (fun _ t => gone recycled t /\ final status t /\ K (read_tx (Tx utx) t)).
Proof.
  intros Hs HK w t [Hc Hk].
  destruct (triple_final recycled status Hs w t (cf_released _ _ Hc)) as [Hg Hf]. split_and!; [done..|].
  destruct (updateTransactionStatus_run s (Tx utx) status w t (gn_some _ _ (cf_gone _ _ (cf_released _ _ Hc))))
    as (_ & [n ->] & _). auto.
Qed.

(** The retry decision: the budget counts this attempt, the channel has room. *)
Definition can_retry : bool :=
  (negb (u64 (Attempt (read_tx (Tx utx) t0) + 1) >=? MaxTxRetryAttempts (config s)) &&
   Nat.ltb (length (broadcastChan t0)) (BroadcastChanSize (config s)))%bool.

Definition retried_or_failed (recycled : bool) (t : Txm) : Prop :=
  gone recycled t /\ if can_retry then requeued t else final Failed t.

(** The attempt has been counted. *)
Record counted (recycled : bool) (t : Txm) : Prop := mkCounted {
  ct_released : released recycled t;
  ct_attempt : Attempt (read_tx (Tx utx) t) = u64 (Attempt (read_tx (Tx utx) t0) + 1);
  ct_status : Status (read_tx (Tx utx) t) = Status (read_tx (Tx utx) t0);
  ct_done : Done (read_tx (Tx utx) t) = Done (read_tx (Tx utx) t0);
  ct_time : TerminalTime (read_tx (Tx utx) t) = TerminalTime (read_tx (Tx utx) t0)
}.

Lemma triple_count recycled :
  triple (W:=W) (confirmed recycled) (incrementTransactionAttempt (Tx utx)) (fun _ => counted recycled).
Proof.
  apply triple_modify. intros t [[[G1 G2 G3 G4 G5 G6 G7] C1 C2] C3].
  set (f := fun x => set_Attempt _ x).
  assert (E : read_tx (Tx utx) (write_tx (Tx utx) f t) = f (read_tx (Tx utx) t)) by (by apply read_write_tx).
  assert (L : life (read_tx (Tx utx) t) = life (read_tx (Tx utx) t0)) by done.
  unfold life in L. injection L as _ _ _ _ _ _ _ _ L1 L2 L3 L4.
  split; rewrite ?E; simpl; rewrite ?L4; try done. split; try done. split; try done.
  - intros q Hq. rewrite write_tx_other by done. by apply G4.
  - by apply write_tx_some.
  - by rewrite E.
Qed.

Lemma triple_maybeRetry recycled reason :
  triple (W:=W) (counted recycled) (maybeRetry s utx reason)
    (fun b t => b = can_retry /\ gone recycled t /\
       if b then requeued t else released recycled t).
Proof.
  unfold maybeRetry, getTransactionAttempt, the_tx.
  intros w t [[G C1 C2] T1 T2 T3 T4]. rewrite !bind_run. cbn -[read_tx].
  unfold can_retry. rewrite <- T1.
  destruct (_ >=? _) eqn:E1; simpl; [done|].
  rewrite bind_run. unfold chan_send. rewrite C1.
  destruct (Nat.ltb _ _) eqn:E2; cbn -[read_tx].
  - apply Nat.ltb_lt in E2. zbool. split_and!; [done|by destruct G|].
    split; try done. simpl. rewrite length_app. simpl. lia.
  - split_and!; [done|by destruct G|]. split; try done. by destruct G.
Qed.

Lemma triple_retry_or_fail recycled reason code :
  triple (W:=W) (confirmed recycled) (retry_or_fail s utx reason code)
    (fun p t => p = 0 /\ retried_or_failed recycled t).
Proof.
  unfold retry_or_fail, retried_or_failed.
  eapply triple_bind; [apply triple_count|]. intros [].
  eapply triple_bind; [apply triple_maybeRetry|]. intros [].
  { apply triple_ret. intros t (<- & Hg & Hq). done. }
  apply (triple_bind _ _ _ (fun _ t => false = can_retry /\ released recycled t)).
  { apply triple_modify. by intros t (E & _ & [[G1 G2 G3 G4 G5 G6 G7] C1 C2]). }
  intros []. apply (triple_bind _ _ _ (fun _ t => released recycled t /\ false = can_retry)).
  { apply triple_modify. by intros t (E & [[G1 G2 G3 G4 G5 G6 G7] C1 C2]). }
  intros []. apply triple_fact. intros <-.
  eapply triple_bind; [by apply triple_final|]. intros []. by apply triple_ret.
Qed.

(** ** The answers of the RPC node *)

(** What a SUCCESS answer writes on the transaction. *)
Definition success_written (resp : GetTransactionResponse) (x : StellarTx) : Prop :=
  ResultXDR x = gt_ResultXDR resp /\ ResultCode x = ""%string /\
  (forall tr, gt_ResultXDR resp <> ""%string ->
     unmarshal_TransactionResult (gt_ResultXDR resp) = Ok tr -> Fee x = Some (tr_FeeCharged tr)).

Lemma success_written_terminated resp status n x :
  success_written resp x -> success_written resp (terminated status n x).
Proof.
  unfold terminated. destruct (isTerminalStatus status); [|done].
  simpl. by destruct (TerminalTime x).
Qed.

Lemma triple_on_success resp :
  triple (W:=W) (fun t => t = t0) (on_success s addr utx resp)
    (fun p t => p = 0 /\ gone false t /\ final Finalized t /\
                success_written resp (read_tx (Tx utx) t)).
Proof.
  unfold on_success. eapply triple_bind; [apply triple_confirm|].
  intros c. apply triple_fact. intros ->.
  set (K1 x := ResultXDR x = gt_ResultXDR resp).
  set (K2 x := K1 x /\ ResultCode x = ""%string).
  apply (triple_bind _ _ _ (fun _ => confirmed_with false K1)).
  { eapply triple_pre; [intros t Ht; exact (conj Ht I : confirmed_with false (fun _ => True) t)|].
    by apply triple_establish. }
  intros []. apply (triple_bind _ _ _ (fun _ => confirmed_with false K2)).
  { by apply triple_establish. }
  intros []. apply (triple_bind _ _ _ (fun _ => confirmed_with false (success_written resp))).
  { destruct (String.eqb_spec (gt_ResultXDR resp) "") as [E|E].
    - apply triple_ret. intros t [Hc [Hk1 Hk2]]. split; [done|]. by split_and!.
    - destruct (unmarshal_TransactionResult (gt_ResultXDR resp)) as [tr|e] eqn:Eu.
      + apply triple_establish; [done|]. intros x [Hk1 Hk2]. split_and!; [done..|].
        simpl. intros tr' _ Htr. congruence.
      + apply triple_ret. intros t [Hc [Hk1 Hk2]]. split; [done|]. split_and!; [done..|].
        intros tr' _ Htr. congruence. }
  intros []. apply (triple_bind _ _ _ (fun _ => confirmed_with false (success_written resp))).
  { apply triple_keeping. destruct (String.eqb _ _); [apply steps_ret, _|].
    by apply steps_keeping_update. }
  intros []. apply (triple_bind _ _ _ (fun _ => confirmed_with false (success_written resp))).
  { apply triple_keeping. unfold updateTransactionLedgerCloseTime. destruct (_ <=? 0); [apply steps_ret, _|].
    by apply steps_keeping_update. }
  intros []. apply (triple_bind _ _ _ (fun _ => confirmed_with false (success_written resp))).
  { apply triple_keeping, steps_keeping_metric. }
  intros []. apply (triple_bind _ _ _ (fun _ => confirmed_with false (success_written resp))).
  { apply triple_keeping. unfold recordTimeUntilConfirmed, the_tx, now.
    steps_tac ltac:(apply steps_keeping_metric). }
  intros []. eapply triple_bind; [apply (triple_final_with _ Finalized); [done|]|].
  { intros n x. apply success_written_terminated. }
  intros []. by apply triple_ret.
Qed.

Lemma steps_touched_close_time v :
  steps (W:=W) (touched (Tx utx)) (updateTransactionLedgerCloseTime (Tx utx) v).
Proof. unfold updateTransactionLedgerCloseTime. steps_tac touch_leaf. Qed.

Lemma triple_on_failed resp :
  triple (W:=W) (fun t => t = t0) (on_failed s addr utx resp)
    (fun p t => p = 0 /\
       if retryable (classifyFailedTransactionResult (gt_ResultXDR resp))
       then retried_or_failed false t else gone false t /\ final Failed t).
Proof.
  unfold on_failed. eapply triple_bind; [apply triple_confirm|].
  intros c. apply triple_fact. intros ->.
  do 3 (apply (triple_bind _ _ _ (fun _ => confirmed false));
    [apply confirmed_steps; first [apply steps_touched_close_time|touch_leaf]|intros []]).
  destruct (retryable _); [apply triple_retry_or_fail|].
  apply (triple_bind _ _ _ (fun _ => confirmed false)); [apply confirmed_steps; touch_leaf|intros []].
  eapply triple_bind; [eapply triple_pre; [apply cf_released|by apply triple_final]|].
  intros []. by apply triple_ret.
Qed.

Lemma triple_on_unknown (n : Z) :
  triple (W:=W) (fun t => t = t0)
    (_c ← try_store addr (Confirm (Sequence utx) (Hash utx) true);
     updateTransactionResultCode (Tx utx) ErrorReasonStatusUnknown ;;
     metric (IncrementErrorTxs ErrorReasonStatusUnknown) ;;
     updateTransactionStatus s (Tx utx) Failed ;; mret n)
    (fun p t => p = n /\ gone true t /\ final Failed t).
Proof.
  eapply triple_bind; [apply triple_confirm|]. intros c. apply triple_fact. intros _.
  do 2 (apply (triple_bind _ _ _ (fun _ => confirmed true));
    [apply confirmed_steps; touch_leaf|intros []]).
  eapply triple_bind; [eapply triple_pre; [apply cf_released|by apply triple_final]|].
  intros []. by apply triple_ret.
Qed.

Definition ledger_outcome (latestLedger latestCloseTime p : Z) (t : Txm) : Prop :=
  if cannotBeIncluded latestLedger latestCloseTime utx
  then p = 0 /\ retried_or_failed true t else p = 1 /\ t = t0.

Lemma triple_on_ledger l c :
  triple (W:=W) (fun t => t = t0) (on_ledger s addr utx l c) (ledger_outcome l c).
Proof.
  unfold on_ledger, ledger_outcome. destruct (cannotBeIncluded l c utx); [|by apply triple_ret].
  eapply triple_bind; [apply triple_confirm|]. intros r. apply triple_fact. intros ->.
  apply triple_retry_or_fail.
Qed.

(** What one iteration does, by the answer of the node; [w1] is the world after
    [GetTransaction]. *)
Definition answer_outcome (client : Client) (a : res GetTransactionResponse) (w1 : W)
    (p : Z) (t : Txm) : Prop :=
  match a with
  | Err _ =>
      if timeBoundLongPassed utx (fst (env_now w1))
      then p = 0 /\ gone true t /\ final Failed t else p = 1 /\ t = t0
  | Ok resp =>
      match gt_Status resp with
      | TransactionStatusSuccess =>
          p = 0 /\ gone false t /\ final Finalized t /\ success_written resp (read_tx (Tx utx) t)
      | TransactionStatusFailed =>
          p = 0 /\
          if retryable (classifyFailedTransactionResult (gt_ResultXDR resp))
          then retried_or_failed false t else gone false t /\ final Failed t
      | _ =>
          if gt_LatestLedger resp =? 0 then
            match fst (rpc_GetLatestLedger client w1) with
            | Err _ => p = 1 /\ t = t0
            | Ok ledger => ledger_outcome (ll_Sequence ledger) (ll_LedgerCloseTime ledger) p t
            end
          else ledger_outcome (gt_LatestLedger resp) (gt_LatestLedgerCloseTime resp) p t
      end
  end.

Lemma on_not_found_outcome client resp w :
  let out := on_not_found s client addr utx resp (w, t0) in
  (if gt_LatestLedger resp =? 0 then
     match fst (rpc_GetLatestLedger client w) with
     | Err _ => fst out = 1 /\ snd (snd out) = t0
     | Ok ledger => ledger_outcome (ll_Sequence ledger) (ll_LedgerCloseTime ledger) (fst out) (snd (snd out))
     end
   else ledger_outcome (gt_LatestLedger resp) (gt_LatestLedgerCloseTime resp) (fst out) (snd (snd out))).
Proof.
  unfold on_not_found. destruct (_ =? 0); simpl; [|by apply triple_on_ledger].
  rewrite !bind_run. simpl. destruct (rpc_GetLatestLedger client w) as [[ledger|e] w2]; simpl; [|done].
  by apply triple_on_ledger.
Qed.

Lemma check_one_answer client w :
  let out := check_one s client addr utx (w, t0) in
  let '(a, w1) := rpc_GetTransaction client (Hash utx) w in
  answer_outcome client a w1 (fst out) (snd (snd out)).
Proof.
  unfold check_one. simpl. rewrite !bind_run. simpl.
  destruct (rpc_GetTransaction client (Hash utx) w) as [[resp|e] w1]; simpl.
  - destruct (gt_Status resp); simpl; [by apply triple_on_success|by apply triple_on_failed| |];
      apply on_not_found_outcome.
  - unfold on_unknown, now. rewrite !bind_run. simpl. destruct (env_now w1) as [n w2]. simpl.
    destruct (timeBoundLongPassed utx n); [by apply triple_on_unknown|done].
Qed.

(** Whatever the answer: nothing happened, or the record is gone and its
    transaction is settled or queued. *)
Lemma check_one_summary client w :
  let t := snd (snd (check_one s client addr utx (w, t0))) in
  t = t0 \/ exists b, gone b t /\
    ((exists status, isTerminalStatus status = true /\ final status t) \/ requeued t).
Proof.
  pose proof (check_one_answer client w) as Hans. simpl in Hans.
  assert (Hrf : forall b t, retried_or_failed b t -> exists b, gone b t /\
    ((exists status, isTerminalStatus status = true /\ final status t) \/ requeued t)).
  { intros b t [Hg Hq]. exists b. split; [done|]. destruct can_retry; [by right|left; by exists Failed]. }
  assert (Hlo : forall l c p t, ledger_outcome l c p t -> t = t0 \/ exists b, gone b t /\
    ((exists status, isTerminalStatus status = true /\ final status t) \/ requeued t)).
  { intros l c p t. unfold ledger_outcome. destruct (cannotBeIncluded _ _ _); [|naive_solver].
    intros [_ Hq]. right. eauto. }
  assert (Hf : forall b status t, isTerminalStatus status = true -> gone b t -> final status t ->
    exists b, gone b t /\
    ((exists status, isTerminalStatus status = true /\ final status t) \/ requeued t)) by eauto 8.
  destruct (rpc_GetTransaction client (Hash utx) w) as [[resp|e] w1]; simpl in Hans.
  - destruct (gt_Status resp).
    + right. destruct Hans as (_ & Hg & Hfi & _). by apply (Hf false Finalized).
    + right. destruct Hans as (_ & Hq). destruct (retryable _); [by eapply Hrf|].
      destruct Hq. by apply (Hf false Failed).
    + destruct (_ =? 0); [|by eapply Hlo]. destruct (fst (rpc_GetLatestLedger client w1)); [by eapply Hlo|].
      left; apply Hans.
    + destruct (_ =? 0); [|by eapply Hlo]. destruct (fst (rpc_GetLatestLedger client w1)); [by eapply Hlo|].
      left; apply Hans.
  - destruct (timeBoundLongPassed _ _); [|left; apply Hans]. right. destruct Hans as (_ & Hg & Hfi).
    by apply (Hf true Failed).
Qed.

End Check.

(** ** Pruning *)

Section Prune.
Context `{Sdk} {W : Type} `{Env W}.
Variable s : StellarTxm.

(** Whether an entry is past its retention at the time [n]. *)
Definition expired (n : Z) (x : StellarTx) : bool :=
  match TerminalTime x with
  | None => false
  | Some tm => (isTerminalStatus (Status x) && negb (time_sub n tm <? PruneTxExpiration (config s)))%bool
  end.

Lemma expired_mono n m x : n <= m -> expired n x = true -> expired m x = true.
Proof.
  unfold expired. destruct (TerminalTime x) as [tm|]; [|done]. intros Hle.
  rewrite !andb_true_iff, !negb_true_iff, !Z.ltb_ge. unfold time_sub. intros [-> ?]. split; [done|lia].
Qed.

(** The pass of [pruneTerminal] over [l], one entry. *)
Definition prune_effect (lo hi : Z) (l : list (string * txref)) (t t' : Txm) : Prop :=
  txs t' = txs t /\ broadcastChan t' = broadcastChan t /\ accountStore t' = accountStore t /\
  stopped t' = stopped t /\
  forall id,
    (transactions t' !! id = transactions t !! id \/ transactions t' !! id = None) /\
    (id ∉ l.*1 -> transactions t' !! id = transactions t !! id) /\
    (forall r, (id, r) ∈ l ->
       (expired lo (read_tx r t) = true -> transactions t' !! id = None) /\
       (expired hi (read_tx r t) = false -> transactions t' !! id = transactions t !! id)).

Lemma prune_loop_effect lo hi l w t :
  (forall w : W, lo <= fst (env_now w) <= hi) -> NoDup l.*1 ->
  prune_effect lo hi l t (snd (snd (prune_loop s l (w, t)))).
Proof.
  intros Hclock. revert w t. induction l as [|[id r] l IH]; intros w t Hnd.
  { split_and!; try done. intros i. split_and!; [by left|done|]. intros r Hin. by apply not_elem_of_nil in Hin. }
  simpl in Hnd. apply list.NoDup_cons in Hnd as [Hni Hnd]. simpl.
  assert (Hskip : forall w', expired lo (read_tx r t) = false ->
    prune_effect lo hi ((id, r) :: l) t (snd (snd (prune_loop s l (w', t))))).
  { intros w' Hx. destruct (IH w' t Hnd) as (E1 & E2 & E3 & E4 & E5). split_and!; try done.
    intros i. destruct (E5 i) as (F1 & F2 & F3). split_and!; [done|set_solver|].
    intros q [[= -> ->]|Hin]%elem_of_cons; [|by apply F3].
    split; [congruence|]. intros _. by apply F2. }
  unfold the_tx. rewrite bind_run. cbn -[read_tx prune_loop].
  destruct (isTerminalStatus (Status (read_tx r t))) eqn:Es;
    [|apply Hskip; unfold expired; rewrite Es; by destruct (TerminalTime _)].
  destruct (TerminalTime (read_tx r t)) as [tt0|] eqn:Et;
    [|apply Hskip; unfold expired; by rewrite Et].
  unfold now. rewrite bind_run. cbn -[read_tx prune_loop].
  pose proof (Hclock w) as Hn. destruct (env_now w) as [n w']. cbn -[read_tx prune_loop] in *.
  assert (Hexp : expired n (read_tx r t) = negb (time_sub n tt0 <? PruneTxExpiration (config s)))
    by (unfold expired; by rewrite Et, Es).
  destruct (time_sub n tt0 <? _) eqn:El.
  { apply Hskip. destruct (expired lo _) eqn:Elo; [|done].
    apply (expired_mono lo n) in Elo; [by rewrite Hexp in Elo|lia]. }
  rewrite bind_run. cbn -[read_tx prune_loop].
  set (t1 := set_transactions (delete id (transactions t)) t).
  destruct (IH w' t1 Hnd) as (E1 & E2 & E3 & E4 & E5). split_and!; try done.
  intros i. destruct (E5 i) as (F1 & F2 & F3).
  destruct (decide (i = id)) as [->|Hne].
  - rewrite F2 by done. simpl. rewrite lookup_delete_eq. split_and!; [by right|set_solver|].
    intros q [[= ->]|Hin]%elem_of_cons; [|exfalso; apply Hni, list_elem_of_fmap; by exists (id, q)].
    split; [done|]. intros Hhi. exfalso.
    assert (expired n (read_tx r t) = true) as Hn1 by (by rewrite Hexp).
    apply (expired_mono n hi) in Hn1; [congruence|lia].
  - assert (Ei : transactions t1 !! i = transactions t !! i) by (simpl; by rewrite lookup_delete_ne).
    rewrite Ei in *. split_and!; [done|set_solver|].
    intros q [[= -> ->]|Hin]%elem_of_cons; [done|]. by apply F3.
Qed.

(** Without any assumption on the clock: only terminal entries are removed. *)
Lemma prune_loop_keeps_live l w t :
  let t' := snd (snd (prune_loop s l (w, t))) in
  txs t' = txs t /\ broadcastChan t' = broadcastChan t /\ accountStore t' = accountStore t /\
  forall id, (transactions t' !! id = transactions t !! id \/
              (transactions t' !! id = None /\ exists r, (id, r) ∈ l /\
                 isTerminalStatus (Status (read_tx r t)) = true)).
Proof.
  revert w t. induction l as [|[id r] l IH]; intros w t; simpl; [by split_and!; [..|left]|].
  assert (Hskip : forall w', let t' := snd (snd (prune_loop s l (w', t))) in
    txs t' = txs t /\ broadcastChan t' = broadcastChan t /\ accountStore t' = accountStore t /\
    forall i, (transactions t' !! i = transactions t !! i \/
              (transactions t' !! i = None /\ exists q, (i, q) ∈ (id, r) :: l /\
                 isTerminalStatus (Status (read_tx q t)) = true))).
  { intros w'. destruct (IH w' t) as (E1 & E2 & E3 & E4). split_and!; [done..|]. intros i.
    destruct (E4 i) as [|(? & q & Hq & ?)]; [by left|right]. split; [done|]. exists q. by split; [right|]. }
  unfold the_tx. rewrite bind_run. cbn -[read_tx prune_loop].
  destruct (isTerminalStatus _) eqn:Es; [|apply Hskip].
  destruct (TerminalTime _) as [tm|]; [|apply Hskip].
  unfold now. rewrite bind_run. cbn -[read_tx prune_loop].
  destruct (env_now w) as [n w']. cbn -[read_tx prune_loop].
  destruct (_ <? _); [apply Hskip|]. rewrite bind_run. cbn -[read_tx prune_loop].
  set (t1 := set_transactions (delete id (transactions t)) t).
  destruct (IH w' t1) as (E1 & E2 & E3 & E4). split_and!; [done..|]. intros i.
  destruct (E4 i) as [E|(? & q & Hq & ?)].
  - rewrite E. simpl. destruct (decide (i = id)) as [->|Hne].
    + right. rewrite lookup_delete_eq. split; [done|]. exists r. by split; [left|].
    + left. by rewrite lookup_delete_ne.
  - right. split; [done|]. exists q. by split; [right|].
Qed.

Lemma pruneTerminal_keeps_live order w t :
  (forall l, order l ≡ₚ l) ->
  let t' := snd (snd (pruneTerminal s order (w, t))) in
  txs t' = txs t /\ broadcastChan t' = broadcastChan t /\ accountStore t' = accountStore t /\
  (forall id, transactions t' !! id = transactions t !! id \/ transactions t' !! id = None) /\
  (forall id r, transactions t !! id = Some r -> isTerminalStatus (Status (read_tx r t)) = false ->
     transactions t' !! id = Some r).
Proof.
  intros Hord. unfold pruneTerminal. rewrite bind_run. cbn -[prune_loop read_tx map_to_list].
  destruct (prune_loop_keeps_live (order (map_to_list (transactions t))) w t) as (E1 & E2 & E3 & E4).
  split_and!; [done..| |].
  - intros id. destruct (E4 id) as [|[]]; auto.
  - intros id r Hr Hs. destruct (E4 id) as [->|(_ & q & Hq & Ht)]; [done|].
    rewrite Hord, elem_of_map_to_list in Hq. congruence.
Qed.

End Prune.

(** ** Theorems *)

(** A ledger numbered [l] that closes at [c] may include the envelope: ledger
    bounds are exclusive, time bounds inclusive, and zero means unbounded. *)
Definition includable (utx : UnconfirmedTx) (l c : Z) : Prop :=
  (0 < MaxLedger utx -> l < MaxLedger utx) /\ (0 < MaxTime utx -> c <= MaxTime utx).

(** The expiry tests are sound.  Once [cannotBeIncluded] holds at a
    ledger, neither that ledger nor any later one may include the envelope; once
    [timeBoundLongPassed] holds, no ledger that closes within the margin before
    now, or later, may.  Below the bounds the tests do not fire. *)
Theorem expiry_tests_sound utx l c n l' c' :
  (cannotBeIncluded l c utx = true -> l <= l' -> c <= c' -> ~ includable utx l' c') /\
  (is_i64 (MaxTime utx + statusUnknownMargin) -> timeBoundLongPassed utx n = true ->
     unix n - statusUnknownMargin <= c' -> ~ includable utx l' c') /\
  (includable utx l c -> cannotBeIncluded l c utx = false) /\
  cannotBeIncluded 0 c utx = false.
Proof.
  unfold cannotBeIncluded, timeBoundLongPassed, includable, statusUnknownMargin. split_and!.
  - destruct (l =? 0) eqn:E; [done|]. rewrite orb_true_iff, !andb_true_iff, !Z.gtb_lt, Z.geb_le.
    zbool. lia.
  - intros Hr. rewrite i64_id by done. rewrite andb_true_iff, !Z.gtb_lt. lia.
  - intros [H1 H2]. destruct (l =? 0); [done|].
    rewrite orb_false_iff, !andb_false_iff, !Z.gtb_ltb, Z.geb_leb, !Z.ltb_ge, Z.leb_gt. lia.
  - done.
Qed.

(** Property C4: one iteration of [checkUnconfirmed], on every answer.  SUCCESS
    settles the transaction as [Finalized] with the node's result and charged
    fee; FAILED settles it as [Failed] unless the result is retryable; NOT_FOUND
    acts only at a ledger that rules the envelope out; an error acts only long
    after the time bound, and never retries.  A retry queues the transaction if
    the budget and the channel allow it and fails it otherwise.  Every other
    record, transaction and account is left alone, and an answer that decides
    nothing leaves the manager exactly as it was. *)
Theorem check_one_spec `{Sdk} {W} `{Env W} s client addr utx w t :
  is_Some (txs t !! Tx utx) -> stores_wf t -> recorded addr utx t ->
  let out := check_one s client addr utx (w, t) in
  let '(a, w1) := rpc_GetTransaction client (Hash utx) w in
  answer_outcome s addr utx t client a w1 (fst out) (snd (snd out)).
Proof. intros Hr Hwf Hrec. by apply check_one_answer. Qed.


(** Pruning.  With the clock between [lo] and [hi] during the pass,
    whatever the order the id map is visited in: an entry past its retention at
    [lo] is removed, an entry within it at [hi] or not terminal stays, nothing
    else is touched. *)
Theorem pruneTerminal_spec `{Sdk} {W} `{Env W} s order lo hi w t :
  (forall l, order l ≡ₚ l) -> (forall w : W, lo <= fst (env_now w) <= hi) ->
  let t' := snd (snd (pruneTerminal s order (w, t))) in
  txs t' = txs t /\ broadcastChan t' = broadcastChan t /\ accountStore t' = accountStore t /\
  forall id, match transactions t !! id with
    | None => transactions t' !! id = None
    | Some r =>
        (expired s lo (read_tx r t) = true -> transactions t' !! id = None) /\
        (expired s hi (read_tx r t) = false -> transactions t' !! id = Some r) /\
        (isTerminalStatus (Status (read_tx r t)) = false -> transactions t' !! id = Some r)
    end.
Proof.
  intros Hord Hclock. unfold pruneTerminal. rewrite bind_run. cbn -[prune_loop read_tx map_to_list].
  set (l := order (map_to_list (transactions t))).
  assert (Hl : l ≡ₚ map_to_list (transactions t)) by apply Hord.
  assert (Hnd : NoDup l.*1) by (rewrite Hl; apply NoDup_fst_map_to_list).
  destruct (prune_loop_effect s lo hi l w t Hclock Hnd) as (E1 & E2 & E3 & _ & E5).
  split_and!; [done..|]. intros id. destruct (E5 id) as (F1 & F2 & F3).
  destruct (transactions t !! id) as [r|] eqn:Er; [|naive_solver].
  assert (Hin : (id, r) ∈ l) by (rewrite Hl; by apply elem_of_map_to_list).
  destruct (F3 r Hin) as [G1 G2]. split_and!; [done..|]. intros Hs. apply G2.
  unfold expired. rewrite Hs. by destruct (TerminalTime _).
Qed.

(** ** Witnesses *)

Lemma demo_inflight_ok :
  is_Some (txs demo_inflight !! Tx demo_utx) /\ stores_wf demo_inflight /\
  recorded "GALICE" demo_utx demo_inflight.
Proof.
  split_and!.
  - by eexists.
  - intros a st [_ ->]%demo_inflight_store. apply demo_txstore_wf.
  - by exists demo_txstore.
Qed.

Lemma expiry_tests_sound_witness :
  cannotBeIncluded 5000 900 demo_utx = true /\ ~ includable demo_utx 5000 900 /\
  timeBoundLongPassed demo_utx 1361000000000 = true /\ ~ includable demo_utx 1 1301.
Proof.
  destruct (expiry_tests_sound demo_utx 5000 900 1361000000000 5000 900) as (H1 & _).
  destruct (expiry_tests_sound demo_utx 5000 900 1361000000000 1 1301) as (_ & H2 & _).
  split_and!; [done|apply H1; done|done|apply H2; [by vm_compute|done|by vm_compute]].
Defined.

(** NOT_FOUND at ledger 5000, past the bound 4990: the record goes, its number is
    available again and the transaction is queued for another broadcast. *)
Lemma check_one_spec_witness :
  let out := check_one demo_txm_static demo_client "GALICE" demo_utx (quiet, demo_inflight) in
  fst out = 0 /\ broadcastChan (snd (snd out)) = [1%positive] /\
  let '(a, w1) := rpc_GetTransaction demo_client (Hash demo_utx) quiet in
  answer_outcome demo_txm_static "GALICE" demo_utx demo_inflight demo_client a w1 (fst out) (snd (snd out)).
Proof.
  split_and!; [by vm_compute|by vm_compute|].
  apply (check_one_spec demo_txm_static demo_client "GALICE" demo_utx quiet demo_inflight); apply demo_inflight_ok.
Defined.


(** Two entries: one settled long ago, one still pending. *)
Definition demo_settled : Txm :=
  mkTxm {[1%positive := set_TerminalTime (Some 5) (set_Status Finalized (demo_tx "a"));
          2%positive := demo_tx "b"]} ∅
    {["a"%string := 1%positive; "b"%string := 2%positive]} [] NewAccountStore
    (newFeeTracker 1 1) [] false.

(** A world whose clock stands still. *)
#[local] Instance frozen_clock : Env unit := {|
  Client := unit;
  getClient w := (Ok tt, w);
  rpc_GetLatestLedger _ w := (Err ErrCtx, w);
  rpc_Simulate _ _ w := (Err ErrCtx, w);
  rpc_Send _ _ w := (Err ErrCtx, w);
  rpc_GetTransaction _ _ w := (Err ErrCtx, w);
  rpc_GetLedgerEntries _ _ w := (Err ErrCtx, w);
  rpc_GetFeeStats _ w := (Err ErrCtx, w);
  ks_Accounts w := (Err ErrCtx, w);
  ks_Sign _ _ w := (Err ErrCtx, w);
  env_now w := (8000000000000, w);
  env_sleep _ w := (true, w);
  env_tick _ w := (true, w);
  ctx_done _ := false;
  env_uuid w := ("uuid"%string, w)
|}.

Lemma pruneTerminal_spec_witness :
  let t' := snd (snd (pruneTerminal demo_txm_static reverse (tt, demo_settled))) in
  transactions t' !! "a"%string = None /\ transactions t' !! "b"%string = Some 2%positive.
Proof.
  destruct (pruneTerminal_spec demo_txm_static reverse 8000000000000 8000000000000 tt demo_settled)
    as (_ & _ & _ & Hp).
  - intros l. apply reverse_Permutation.
  - done.
  - split; [apply (Hp "a"%string); by vm_compute|].
    destruct (Hp "b"%string) as (_ & _ & Hb). apply Hb. by vm_compute.
Defined.
