(* ===== verification/Enqueue.v ===== *)
(** * Enqueueing

    Models [txFingerprint] and [TxRequest] (relayer/txm/tx.go) and [Enqueue],
    [EnqueueAndWait], [enqueueTransaction], [dropOldestForBackpressure],
    [defaultFromAddress] and [Simulate] of relayer/txm/txm.go.

    [Enqueue] runs on the caller's goroutine, concurrently with the manager's
    loops and with other callers.  [preempt] stands for what they do at the points
    where it holds no lock; [block] for what they do until one of the cases of the
    [select] of [EnqueueAndWait] is ready. *)

From S2P Require Import Prelude GoFloat Sdk GoBytes TxStore Fee Config TxmState Logic Broadcast.

(** Which case of the [select] of [EnqueueAndWait] fired. *)
Inductive wake := WakeDone | WakeCtx | WakeStop.

Class Sched `{Sdk} (W : Type) := {
  preempt : W * Txm -> W * Txm;
  block : txref -> W * Txm -> wake * (W * Txm)
}.

Record TxRequest := mkTxRequest {
  rq_ID : string;
  rq_FromAddress : string;
  rq_Operations : list (option opref);
  rq_LedgerBoundsOffset : Z;
  rq_Metadata : option string;
  rq_MaxResourceFee : Z
}.

Section Fingerprint.
Context `{Sdk}.

Fixpoint fingerprint_ops (l : list (option Operation)) (h : bytes) : res bytes :=
  match l with
  | [] => Ok h
  | None :: _ => Err (ErrorString "operation is nil")
  | Some op :: l' =>
      match BuildXDR op with
      | Err e => Err (Wrapf "operation: build xdr: " e)
      | Ok xdrOp =>
          match MarshalBinary xdrOp with
          | Err e => Err (Wrapf "operation: marshal xdr: " e)
          | Ok b => fingerprint_ops l' (h ++ put_be 8 (Z.of_nat (length b)) ++ b)
          end
      end
  end.

(** What is written to the hash. *)
Definition fingerprint_preimage (fromAddress : string) (l : list (option Operation))
    (ledgerBoundsOffset maxResourceFee : Z) : res bytes :=
  fingerprint_ops l
    (string_bytes fromAddress ++ put_be 4 ledgerBoundsOffset ++ put_be 8 maxResourceFee).

Definition txFingerprint (fromAddress : string) (l : list (option Operation))
    (ledgerBoundsOffset maxResourceFee : Z) : res bytes :=
  match fingerprint_preimage fromAddress l ledgerBoundsOffset maxResourceFee with
  | Err e => Err e
  | Ok h => Ok (sha256 h)
  end.

End Fingerprint.

Section Enqueue.
Context `{Sdk} {W : Type} `{Env W} `{!Sched W}.
Variable s : StellarTxm.

Definition yield : M W unit := fun st => (tt, preempt st).

Definition defaultFromAddress : M W (res string) :=
  r ← io ks_Accounts;
  mret match r with
       | Err e => Err (Wrapf "keystore.Accounts: " e)
       | Ok [] => Err (ErrorString "keystore has no accounts")
       | Ok (a :: _) => Ok a
       end.

Definition dropOldestForBackpressure (dropped : txref) : M W unit :=
  x ← the_tx dropped;
  cur ← gets (fun t => transactions t !! ID x);
  if decide (cur = Some dropped) then
    updateTransactionResultCode dropped (DropReason_string DropReasonChannelFullOldestEvicted) ;;
    updateTransactionStatus s dropped Failed ;;
    metric (IncrementDroppedTxs DropReasonChannelFullOldestEvicted)
  else mret tt.

(** The slow path: the channel was full. *)
Definition enqueue_slow (r : txref) (id : string) : M W (res string) :=
  droppedTx ← chan_recv;
  yield ;;
  match droppedTx with Some d => dropOldestForBackpressure d | None => mret tt end ;;
  yield ;;
  sent ← chan_send s r;
  if (sent : bool) then mret (Ok id)
  else
    yield ;;
    modify (fun t => set_transactions (delete id (transactions t)) t) ;;
    metric (IncrementDroppedTxs DropReasonChannelFullNewRejected) ;;
    mret (Err (ErrorString "broadcast channel full, tx dropped")).

Definition enqueueTransaction (r : txref) : M W (res string) :=
  x ← the_tx r;
  halt ← gets stopped;
  if (halt : bool) then mret (Err ErrTxmStopped)
  else
    yield ;;
    found ← gets (fun t => transactions t !! ID x);
    match found with
    | Some existing =>
        ex ← the_tx existing;
        if decide (Fingerprint ex = Fingerprint x) then closeDone r ;; mret (Ok (ID x))
        else mret (Err (WrapSuffix ErrIdempotencyKeyPayloadMismatch (": id " +:+ ID x)%string))
    | None =>
        modify (fun t => set_transactions (<[ID x := r]> (transactions t)) t) ;;
        yield ;;
        sent ← chan_send s r;
        if (sent : bool) then mret (Ok (ID x))
        else yield ;; enqueue_slow r (ID x)
    end.

(** The operations of a request, a nil interface value being [None]. *)
Definition request_ops (l : list (option opref)) (t : Txm) : list (option Operation) :=
  (fun o => match o with Some p => ops t !! p | None => None end) <$> l.

Definition Enqueue (req : TxRequest) : M W (res string) :=
  txID ← (if String.eqb (rq_ID req) "" then io env_uuid else mret (rq_ID req));
  if negb (Nat.eqb (length (rq_Operations req)) 1) then
    mret (Err (ErrorString "currently only single-operation transactions are supported"))
  else
    fa ← (if String.eqb (rq_FromAddress req) "" then defaultFromAddress
          else mret (Ok (rq_FromAddress req)));
    match fa with
    | Err e => mret (Err e)
    | Ok fromAddr =>
        match AddressToAccountId fromAddr with
        | Err e => mret (Err (Wrapf "invalid FromAddress: " e))
        | Ok _ =>
            operations ← gets (request_ops (rq_Operations req));
            match txFingerprint fromAddr operations (rq_LedgerBoundsOffset req)
                    (rq_MaxResourceFee req) with
            | Err e => mret (Err (Wrapf "invalid operations: " e))
            | Ok fingerprint =>
                n ← now;
                r ← new_tx (mkStellarTx txID (rq_Metadata req) n fromAddr
                       (omap id (rq_Operations req)) (rq_LedgerBoundsOffset req)
                       (rq_MaxResourceFee req) fingerprint 0 0 Pending None None "" None 0
                       "" "" "" 0 0 false);
                enqueueTransaction r
            end
        end
    end.

(** The result of the [select] for the case that fired. *)
Definition wait_result (r : txref) (k : wake) (t : Txm) : res TxResult :=
  match k with
  | WakeDone => Ok (txResult (read_tx r t))
  | WakeCtx => Err (Wrapf "context cancelled while waiting for tx: " ErrCtx)
  | WakeStop => Err (ErrorString "txm stopped while waiting for tx")
  end.

Definition EnqueueAndWait (req : TxRequest) : M W (res TxResult) :=
  e ← Enqueue req;
  match e with
  | Err err => mret (Err err)
  | Ok txID =>
      yield ;;
      found ← gets (fun t => transactions t !! txID);
      match found with
      | None => mret (Err (ErrorString "transaction not found after enqueue"))
      | Some r =>
          k ← block r;
          gets (wait_result r k)
      end
  end.

(** [dummyTx] of [Simulate]: only its source and operations are set. *)
Definition dummyTx (fromAddr : string) (l : list opref) : StellarTx :=
  mkStellarTx "" None 0 fromAddr l 0 0 [] 0 0 Unknown None None "" None 0 "" "" "" 0 0 false.

(** A nil operation would panic inside the SDK: [Simulate] is modelled for
    requests without one. *)
Definition Simulate (req : TxRequest) : M W (res SimulateTransactionResponse) :=
  if Nat.eqb (length (rq_Operations req)) 0 then
    mret (Err (ErrorString "Simulate: at least one operation is required"))
  else
    fa ← (if String.eqb (rq_FromAddress req) "" then defaultFromAddress
          else mret (Ok (rq_FromAddress req)));
    match fa with
    | Err e => mret (Err (Wrapf "Simulate: " e))
    | Ok fromAddr =>
        c ← io getClient;
        match c with
        | Err e => mret (Err (Wrapf "Simulate: failed to get client: " e))
        | Ok client =>
            ll ← io (rpc_GetLatestLedger client);
            match ll with
            | Err e => mret (Err (Wrapf "Simulate: failed to get latest ledger: " e))
            | Ok latestLedger =>
                let maxLedger := u32 (ll_Sequence latestLedger + cfg_LedgerBoundsOffset (config s)) in
                p ← buildPreliminaryTx s (Some (dummyTx fromAddr (omap id (rq_Operations req)))) 0 maxLedger;
                match p with
                | Err e => mret (Err (Wrapf "Simulate: failed to build tx: " e))
                | Ok prelimTx => simulateTransaction (Some client) (Some prelimTx)
                end
            end
        end
    end.

End Enqueue.
