(* ===== verification/EnqueueProofs.v ===== *)
(** * Correctness of enqueueing

    The payload digest binds every field that changes the signed envelope; an id
    is bound to one payload; the backpressure rule of a full channel. *)

From S2P Require Import Prelude GoFloat Sdk GoBytes TxStore Fee Config TxmState Logic Broadcast Enqueue Demo.

(** ** The digest's preimage *)

Section Fingerprint.
Context `{Sdk}.

(** The XDR of each operation. *)
Fixpoint marshalled (l : list (option Operation)) : res (list bytes) :=
  match l with
  | [] => Ok []
  | None :: _ => Err (ErrorString "operation is nil")
  | Some op :: l' =>
      match BuildXDR op with
      | Err e => Err e
      | Ok x => match MarshalBinary x with
                | Err e => Err e
                | Ok b => bs ← marshalled l'; Ok (b :: bs)
                end
      end
  end.

Definition frame_op (b : bytes) : bytes := put_be 8 (Z.of_nat (length b)) ++ b.

Lemma fingerprint_ops_eq l h r :
  fingerprint_ops l h = Ok r ->
  exists bs, marshalled l = Ok bs /\ r = h ++ concat (frame_op <$> bs).
Proof.
  revert h; induction l as [|[op|] l IH]; intros h; simpl; [|split_match|done].
  - intros [= <-]. exists []. by rewrite app_nil_r.
  - intros (bs & -> & ->)%IH. exists (a0 :: bs). split; [done|]. simpl.
    unfold frame_op at 2. by rewrite <- !app_assoc.
  - done.
  - done.
Qed.

Lemma frame_nonempty b l : frame_op b ++ l <> [].
Proof.
  intros E. apply (f_equal length) in E. unfold frame_op in E.
  rewrite !length_app, put_be_length in E. simpl length in E. lia.
Qed.

Lemma frame_inj bs cs :
  Forall (fun b => Z.of_nat (length b) < two64) bs -> Forall (fun b => Z.of_nat (length b) < two64) cs ->
  concat (frame_op <$> bs) = concat (frame_op <$> cs) -> bs = cs.
Proof.
  intros Hb; revert cs; induction Hb as [|b bs Hb Hbs IH]; intros cs Hc; destruct Hc as [|c cs Hc Hcs].
  - done.
  - intros E. symmetry in E. by apply frame_nonempty in E.
  - intros E. by apply frame_nonempty in E.
  - rewrite !fmap_cons. cbn [concat]. unfold frame_op at 1 3. rewrite <- !app_assoc.
    intros [E1 E2]%app_inj_1; [|by rewrite !put_be_length].
    apply put_be_inj in E1; [|goint..]. apply Nat2Z.inj in E1.
    apply app_inj_1 in E2 as [-> E2]; [|done]. f_equal. by apply IH.
Qed.

(** The payload digest binds the whole payload.  Two requests whose
    digests are computed from the same bytes have the same source account, the
    same ledger-bounds override, the same fee cap and the same operations: the
    concatenation written to the hash is injective on addresses of equal length
    (every account strkey has 56 characters). *)
Theorem fingerprint_preimage_injective a1 a2 l1 l2 o1 o2 c1 c2 h bs1 bs2 :
  length (string_bytes a1) = length (string_bytes a2) ->
  is_u32 o1 -> is_u32 o2 -> is_u64 c1 -> is_u64 c2 ->
  marshalled l1 = Ok bs1 -> marshalled l2 = Ok bs2 ->
  Forall (fun b => Z.of_nat (length b) < two64) bs1 ->
  Forall (fun b => Z.of_nat (length b) < two64) bs2 ->
  fingerprint_preimage a1 l1 o1 c1 = Ok h -> fingerprint_preimage a2 l2 o2 c2 = Ok h ->
  string_bytes a1 = string_bytes a2 /\ o1 = o2 /\ c1 = c2 /\ bs1 = bs2.
Proof.
  intros Hlen Ho1 Ho2 Hc1 Hc2 E1 E2 Hb1 Hb2 H1 H2.
  apply fingerprint_ops_eq in H1 as (? & F1 & ->). apply fingerprint_ops_eq in H2 as (? & F2 & E).
  rewrite E1 in F1. rewrite E2 in F2. injection F1 as <-. injection F2 as <-.
  rewrite <- !app_assoc in E.
  apply app_inj_1 in E as [Ea E]; [|done].
  apply app_inj_1 in E as [Eo E]; [|by rewrite !put_be_length].
  apply app_inj_1 in E as [Ec E]; [|by rewrite !put_be_length].
  apply put_be_inj in Eo; [|goint..]. apply put_be_inj in Ec; [|goint..].
  apply frame_inj in E; done.
Qed.

End Fingerprint.

(** ** Enqueueing *)

Section EnqueueProofs.
Context `{Sdk} {W : Type} `{Env W} `{!Sched W}.
Variable s : StellarTxm.

(** The evicted transaction: failed, with the reason as its result code. *)
Definition evicted_tx (n : Z) (x : StellarTx) : StellarTx :=
  terminated Failed n (set_ResultCode (DropReason_string DropReasonChannelFullOldestEvicted) x).

(** What evicting the registered transaction [d] does. *)
Record evicted (d : txref) (t t' : Txm) : Prop := mkEvicted {
  ev_rest : same_rest d t t';
  ev_self : exists n, read_tx d t' = evicted_tx n (read_tx d t);
  ev_ids : transactions t' =
    (if PruneInterval (config s) <=? 0 then transactions (evict d t) else transactions t)
}.

Lemma drop_run d w t :
  is_Some (txs t !! d) -> transactions t !! ID (read_tx d t) = Some d ->
  evicted d t (snd (snd (dropOldestForBackpressure (W:=W) s d (w, t)))).
Proof.
  intros Hd Hid. unfold dropOldestForBackpressure, the_tx, updateTransactionResultCode, update.
  rewrite !bind_run. cbn -[read_tx write_tx]. rewrite bind_run. cbn -[read_tx write_tx].
  rewrite decide_True by done. rewrite bind_run. cbn -[read_tx write_tx].
  set (t1 := write_tx d _ t).
  assert (H1' : is_Some (txs t1 !! d)) by (by apply write_tx_some).
  assert (E1 : read_tx d t1 = set_ResultCode (DropReason_string DropReasonChannelFullOldestEvicted)
     (read_tx d t)) by (by apply read_write_tx).
  rewrite bind_run. destruct (updateTransactionStatus_run s d Failed w t1 H1') as (S1 & [n En] & T1).
  destruct (updateTransactionStatus s d Failed (w, t1)) as [[] [w' t']]. cbn -[read_tx write_tx] in *.
  split.
  - etrans; [apply same_rest_write|]. etrans; [exact S1|apply same_rest_metrics].
  - exists n. etrans; [exact En|]. by rewrite E1.
  - simpl. rewrite T1. simpl. destruct (_ <=? 0); [|done]. unfold evict. rewrite E1. simpl.
    destruct (transactions t !! _); [|done]. by destruct (decide _).
Qed.

Lemma enqueue_existing r w t existing :
  let x := read_tx r t in
  let '(w1, t1) := preempt (w, t) in
  stopped t = false -> transactions t1 !! ID x = Some existing ->
  enqueueTransaction s r (w, t) =
    if decide (Fingerprint (read_tx existing t1) = Fingerprint x)
    then (Ok (ID x), (w1, write_tx r (set_Done true) t1))
    else (Err (WrapSuffix ErrIdempotencyKeyPayloadMismatch (": id " +:+ ID x)%string), (w1, t1)).
Proof.
  simpl. destruct (preempt (w, t)) as [w1 t1] eqn:Ep. intros Hs Hex.
  unfold enqueueTransaction, the_tx, yield. rewrite !bind_run. cbn -[read_tx].
  rewrite bind_run. cbn -[read_tx]. rewrite Hs. rewrite !bind_run. cbn -[read_tx].
  rewrite Ep. cbn -[read_tx]. rewrite bind_run. cbn -[read_tx]. rewrite Hex.
  rewrite bind_run. cbn -[read_tx]. destruct (decide _); [|done]. unfold closeDone, update.
  rewrite bind_run. done.
Qed.

(** An id is bound to one payload.  Whatever other goroutines do
    while no lock is held, an enqueue that finds its id tracked never queues a
    second transaction: with the same payload it returns the id and only closes
    the new object's own [Done]; with another payload it fails with
    [ErrIdempotencyKeyPayloadMismatch] and changes nothing. *)
Theorem enqueue_idempotent r w t existing :
  let x := read_tx r t in
  let '(w1, t1) := preempt (w, t) in
  stopped t = false -> transactions t1 !! ID x = Some existing ->
  enqueueTransaction s r (w, t) =
    if decide (Fingerprint (read_tx existing t1) = Fingerprint x)
    then (Ok (ID x), (w1, write_tx r (set_Done true) t1))
    else (Err (WrapSuffix ErrIdempotencyKeyPayloadMismatch (": id " +:+ ID x)%string), (w1, t1)).
Proof. apply enqueue_existing. Qed.

(** No interference: the calls of the other goroutines happen before or after. *)
Hypothesis Hseq : forall st : W * Txm, preempt st = st.

(** The state after a new transaction was accepted: it is registered and last in
    the queue; on a full queue the oldest one made room and was failed. *)
Definition enqueued (r : txref) (t t' : Txm) : Prop :=
  let x := read_tx r t in
  let t1 := set_transactions (<[ID x := r]> (transactions t)) t in
  if Nat.ltb (length (broadcastChan t)) (BroadcastChanSize (config s))
  then t' = set_broadcastChan (broadcastChan t ++ [r]) t1
  else exists d rest t2, broadcastChan t = d :: rest /\
    evicted d (set_broadcastChan rest t1) t2 /\
    t' = set_broadcastChan (rest ++ [r]) t2.

Lemma enqueue_new r w t :
  stopped t = false -> transactions t !! ID (read_tx r t) = None ->
  (0 < BroadcastChanSize (config s))%nat ->
  (length (broadcastChan t) <= BroadcastChanSize (config s))%nat ->
  (forall d, d ∈ broadcastChan t -> is_Some (txs t !! d) /\
     transactions t !! ID (read_tx d t) = Some d) ->
  fst (enqueueTransaction s r (w, t)) = Ok (ID (read_tx r t)) /\
  enqueued r t (snd (snd (enqueueTransaction s r (w, t)))).
Proof.
  intros Hs Hid Hc0 Hc Hq. unfold enqueueTransaction, the_tx, yield.
  rewrite !bind_run. cbn -[read_tx].
  rewrite bind_run. cbn -[read_tx]. rewrite Hs. rewrite !bind_run. cbn -[read_tx].
  rewrite Hseq. cbn -[read_tx]. rewrite bind_run. cbn -[read_tx]. rewrite Hid.
  set (x := read_tx r t). rewrite bind_run. cbn -[read_tx].
  set (t1 := set_transactions (<[ID x := r]> (transactions t)) t).
  rewrite bind_run. cbn -[read_tx]. rewrite Hseq. cbn -[read_tx]. rewrite bind_run.
  unfold enqueued. fold x t1.
  assert (Esend : chan_send s r (w, t1) =
    if Nat.ltb (length (broadcastChan t)) (BroadcastChanSize (config s))
    then (true, (w, set_broadcastChan (broadcastChan t ++ [r]) t1)) else (false, (w, t1))) by done.
  rewrite !Esend. clear Esend.
  destruct (Nat.ltb _ _) eqn:El; cbn -[read_tx]; [done|]. apply Nat.ltb_ge in El.
  rewrite bind_run. cbn -[read_tx]. rewrite Hseq. unfold enqueue_slow, yield.
  cbn -[read_tx]. rewrite !bind_run. unfold chan_recv. cbn -[read_tx].
  destruct (broadcastChan t) as [|d rest] eqn:Ech; [simpl in El; lia|]. cbn -[read_tx].
  set (t2 := set_broadcastChan rest t1).
  rewrite bind_run. cbn -[read_tx]. rewrite Hseq. cbn -[read_tx]. rewrite bind_run.
  destruct (Hq d ltac:(set_solver)) as [Hd Hdid].
  assert (Hev : evicted d t2 (snd (snd (dropOldestForBackpressure s d (w, t2))))).
  { apply drop_run; [done|]. simpl. change (read_tx d t2) with (read_tx d t).
    rewrite lookup_insert_ne; [done|]. intros E. rewrite <- E in Hdid. unfold x in Hdid. congruence. }
  destruct (dropOldestForBackpressure s d (w, t2)) as [[] [w' t3]]. cbn -[read_tx] in *.
  rewrite bind_run. cbn -[read_tx]. rewrite Hseq. cbn -[read_tx]. rewrite bind_run.
  assert (Esend : chan_send s r (w', t3) = (true, (w', set_broadcastChan (rest ++ [r]) t3))).
  { unfold chan_send. rewrite (sr_chan _ _ _ (ev_rest _ _ _ Hev)). simpl broadcastChan.
    rewrite (proj2 (Nat.ltb_lt _ _)); [done|]. simpl in Hc. lia. }
  rewrite Esend. cbn -[read_tx].
  split; [done|]. by exists d, rest, t3.
Qed.


End EnqueueProofs.

(** ** Witnesses *)

Definition demo_ops : list (option (Operation (Sdk:=demo_sdk))) := [Some "invoke"%string].

Lemma fingerprint_preimage_injective_witness :
  exists h, fingerprint_preimage "GALICE" demo_ops 50 0 = Ok h /\
    string_bytes (Sdk:=demo_sdk) "GALICE" = string_bytes (Sdk:=demo_sdk) "GALICE" /\ 50 = 50 /\ 0 = 0.
Proof.
  eexists. split; [by vm_compute|].
  destruct (fingerprint_preimage_injective "GALICE" "GALICE" demo_ops demo_ops
    50 50 0 0 _ _ _ eq_refl ltac:(goint) ltac:(goint) ltac:(goint) ltac:(goint) eq_refl eq_refl
    ltac:(repeat constructor) ltac:(repeat constructor) eq_refl eq_refl) as (A & B & C & _).
  done.
Defined.

(** Callers that do not interleave; a waiter sees its transaction as it is. *)
#[local] Instance quiet_sched : Sched world := {|
  preempt st := st;
  block r st := ((if Done (read_tx r (snd st)) then WakeDone else WakeCtx), st)
|}.

Lemma enqueue_idempotent_witness :
  enqueueTransaction demo_txm_static 2%positive
    (quiet, set_txs {[1%positive := demo_tx "a"; 2%positive := demo_tx "a"]} demo_state) =
  (Ok "a"%string, (quiet, write_tx 2%positive (set_Done true)
     (set_txs {[1%positive := demo_tx "a"; 2%positive := demo_tx "a"]} demo_state))).
Proof.
  exact (eq_trans (enqueue_idempotent demo_txm_static 2%positive quiet
    (set_txs {[1%positive := demo_tx "a"; 2%positive := demo_tx "a"]} demo_state) 1%positive
    eq_refl eq_refl) eq_refl).
Defined.

(** A full queue of two. *)
Definition demo_busy : Txm :=
  mkTxm {[1%positive := demo_tx "a"; 2%positive := demo_tx "b"; 3%positive := demo_tx "c"]} ∅
    {["a"%string := 1%positive; "b"%string := 2%positive]} [1%positive; 2%positive]
    NewAccountStore (newFeeTracker 1 1) [] false.

