(* ===== verification/Manager.v ===== *)
(** * The whole manager as a transition system

    The goroutines of [StellarTxm] ([Start] in relayer/txm/txm.go) interleaved:
    callers of [Enqueue], the broadcast loop, the confirm loop and the prune loop.
    A step is one call of a method modelled in the other files; the broadcast
    loop's local batch and the confirm loop's snapshot are part of the state, so
    the loops interleave between the transactions of a batch and the records of a
    snapshot.  The invariant says where every transaction is. *)

From S2P Require Import Prelude GoFloat Sdk TxStore Fee Config TxmState Logic Broadcast Pipeline PipelineProofs Confirm ConfirmProofs Enqueue EnqueueProofs Demo.

Record mgr `{Sdk} := mkMgr {
  g_t : Txm;
  g_held : list txref;                    (* [broadcastTxs] of [broadcastLoop] *)
  g_poll : list (string * UnconfirmedTx);   (* what [checkUnconfirmed] has still to visit *)
  g_lost : list txref                     (* dropped or cancelled: see [OSC_lost] *)
}.
Arguments mkMgr {_}.

(** ** Where a transaction is *)

Section Places.
Context `{Sdk}.

Definition inflight (t : Txm) (a : string) (q : Z) (u : UnconfirmedTx) : Prop :=
  inflight_map a t !! q = Some u.

(** Every reference is in the list at most once, no in-flight record belongs to a
    listed transaction, and no transaction has two in-flight records. *)
Record once (L : list txref) (I : string -> Z -> UnconfirmedTx -> Prop) : Prop := mkOnce {
  on_nodup : NoDup L;
  on_excl : forall a q u, I a q u -> Tx u ∉ L;
  on_inj : forall a q u a' q' u', I a q u -> I a' q' u' -> Tx u = Tx u' -> a = a' /\ q = q'
}.

Definition owned (L : list txref) (I : string -> Z -> UnconfirmedTx -> Prop) (r : txref) : Prop :=
  r ∈ L \/ exists a q u, I a q u /\ Tx u = r.

Lemma once_perm L L' (I I' : string -> Z -> UnconfirmedTx -> Prop) :
  L ≡ₚ L' -> (forall a q u, I' a q u -> I a q u) -> once L I -> once L' I'.
Proof.
  intros HL HI [H1 H2 H3]. split.
  - by rewrite <- HL.
  - intros a q u Hu. rewrite <- HL. eauto.
  - intros a q u a' q' u' Hu Hu'. apply (H3 a q u a' q' u'); auto.
Qed.

Lemma once_remove r L I : once (r :: L) I -> once L I /\ ~ owned L I r.
Proof.
  intros [[Hr H1]%list.NoDup_cons H2 H3]. split.
  - split; [done| |done]. intros a q u Hu. specialize (H2 a q u Hu). set_solver.
  - intros [Hin|(a & q & u & Hu & <-)]; [done|]. specialize (H2 a q u Hu). set_solver.
Qed.

Lemma once_add r L I : ~ owned L I r -> once L I -> once (r :: L) I.
Proof.
  intros Hr [H1 H2 H3]. split; [|intros a q u Hu|done].
  - apply list.NoDup_cons. split; [|done]. intros Hin. apply Hr. by left.
  - rewrite not_elem_of_cons. split; [|eauto]. intros E. apply Hr. right. eauto 6.
Qed.

Lemma once_send r L I I' a q u :
  Tx u = r -> (forall b k v, I' b k v <-> I b k v \/ b = a /\ k = q /\ v = u) ->
  once (r :: L) I -> once L I'.
Proof.
  intros Hu HI [[Hr H1]%list.NoDup_cons H2 H3]. split; [done| |].
  - intros b k v [Hv|(-> & -> & ->)]%HI; [|congruence]. specialize (H2 b k v Hv). set_solver.
  - intros b k v b' k' v' [Hv|(-> & -> & ->)]%HI [Hv'|(-> & -> & ->)]%HI; [by apply H3| | |done].
    + intros E. specialize (H2 _ _ _ Hv). set_solver.
    + intros E. specialize (H2 _ _ _ Hv'). set_solver.
Qed.

Lemma once_land L I I' a q u :
  I a q u -> (forall b k v, I' b k v <-> I b k v /\ (b, k) <> (a, q)) ->
  once L I -> once L I' /\ ~ owned L I' (Tx u).
Proof.
  intros Hu HI [H1 H2 H3]. split.
  - split; [done| |].
    + intros b k v [Hv _]%HI. eauto.
    + intros b k v b' k' v' [Hv _]%HI [Hv' _]%HI. by apply H3.
  - intros [Hin|(b & k & v & [Hv Hne]%HI & E)]; [by apply (H2 a q u Hu)|].
    destruct (H3 b k v a q u Hv Hu E). congruence.
Qed.

Definition live (x : StellarTx) : Prop :=
  isTerminalStatus (Status x) = false /\ Done x = false /\ TerminalTime x = None.

Definition settled (x : StellarTx) : Prop :=
  isTerminalStatus (Status x) = true /\ Done x = true /\ TerminalTime x <> None.

(** The invariant, for the listed references [L] and the in-flight records. *)
Record minv (L : list txref) (t : Txm) : Prop := mkMinv {
  mi_wf : stores_wf t;
  mi_once : once L (inflight t);
  mi_owned : forall r, owned L (inflight t) r ->
    exists x, txs t !! r = Some x /\ live x /\ transactions t !! ID x = Some r;
  mi_ids : forall id r, transactions t !! id = Some r ->
    exists x, txs t !! r = Some x /\ ID x = id /\ (settled x \/ owned L (inflight t) r)
}.

(** One transaction moves to another place and stays live. *)
Lemma minv_move L L' t t' r x :
  minv L t -> transactions t !! ID x = Some r ->
  stores_wf t' -> once L' (inflight t') ->
  (forall q, q <> r -> txs t' !! q = txs t !! q) ->
  (forall q, q <> r -> owned L' (inflight t') q <-> owned L (inflight t) q) ->
  txs t' !! r = Some x -> live x -> owned L' (inflight t') r -> transactions t' = transactions t ->
  minv L' t'.
Proof.
  intros [H1 H2 H3 H4] Hid Hwf Hon Hoth How Hx Hl Hr Eids. split; [done..| |].
  - intros q Hq. destruct (decide (q = r)) as [->|Hne]; [exists x; by rewrite Eids|].
    rewrite Hoth, Eids by done. apply H3, How; done.
  - rewrite Eids. intros id q Hq. destruct (decide (q = r)) as [->|Hne].
    + destruct (H4 id r Hq) as (y & Hy & <- & _).
      exists x. split_and!; [done| |by right].
      destruct (H4 _ _ Hid) as (z & Hz & Ez & _). congruence.
    + destruct (H4 id q Hq) as (y & Hy & Ey & Hs). exists y. rewrite Hoth by done.
      split_and!; [done..|]. destruct Hs; [by left|right; by apply How].
Qed.

(** One transaction is settled: it is nowhere any more, and stays registered or
    not. *)
Lemma minv_settle L L' t t' r x :
  minv L t -> transactions t !! ID x = Some r ->
  stores_wf t' -> once L' (inflight t') ->
  (forall q, q <> r -> txs t' !! q = txs t !! q) ->
  (forall q, q <> r -> owned L' (inflight t') q <-> owned L (inflight t) q) ->
  txs t' !! r = Some x -> settled x -> ~ owned L' (inflight t') r ->
  (transactions t' = transactions t \/ transactions t' = delete (ID x) (transactions t)) ->
  minv L' t'.
Proof.
  intros [H1 H2 H3 H4] Hid Hwf Hon Hoth How Hx Hs Hr Eids.
  assert (Hsub : forall id q, transactions t' !! id = Some q -> transactions t !! id = Some q).
  { intros id q. destruct Eids as [->| ->]; [done|]. by intros [_ ?]%lookup_delete_Some. }
  split; [done..| |].
  - intros q Hq. destruct (decide (q = r)) as [->|Hne]; [done|].
    rewrite Hoth by done. destruct (H3 q) as (y & Hy & Hly & Hidy); [by apply How|].
    exists y. split_and!; [done..|]. destruct Eids as [->| ->]; [done|].
    rewrite lookup_delete_ne; [done|]. intros E. rewrite E in Hid. congruence.
  - intros id q Hq%Hsub. destruct (decide (q = r)) as [->|Hne].
    + destruct (H4 id r Hq) as (y & Hy & <- & _). exists x. split_and!; [done| |by left].
      destruct (H4 _ _ Hid) as (z & Hz & Ez & _). congruence.
    + destruct (H4 id q Hq) as (y & Hy & Ey & Hs'). exists y. rewrite Hoth by done.
      split_and!; [done..|]. destruct Hs'; [by left|right; by apply How].
Qed.

(** Nothing the invariant looks at has changed, or entries were pruned. *)
Lemma minv_same L L' t t' :
  minv L t -> L ≡ₚ L' -> accountStore t' = accountStore t ->
  txs t' = txs t -> transactions t' = transactions t -> minv L' t'.
Proof.
  intros [H1 H2 H3 H4] HL Es Ex Ei.
  assert (EI : forall a, get_store a t' = get_store a t) by (intros; unfold get_store; by rewrite Es).
  assert (Hin : forall a q u, inflight t' a q u <-> inflight t a q u)
    by (intros; unfold inflight, inflight_map; by rewrite EI).
  assert (How : forall r, owned L' (inflight t') r <-> owned L (inflight t) r).
  { intros r. unfold owned. rewrite HL. setoid_rewrite Hin. done. }
  split.
  - intros a st. rewrite EI. apply H1.
  - eapply once_perm; [exact HL| |exact H2]. intros. by apply Hin.
  - intros r Hr. rewrite Ex, Ei. apply H3, How, Hr.
  - intros id r. rewrite Ex, Ei. setoid_rewrite How. apply H4.
Qed.

End Places.

(** ** The steps *)

Section Manager.
Context `{Sdk} {W : Type} `{Env W} `{FloatConv} `{!Sched W}.
Variable s : StellarTxm.

Definition places (g : mgr) : list txref := broadcastChan (g_t g) ++ g_held g ++ g_lost g.

(** The snapshot a pass of [checkUnconfirmed] works through. *)
Definition snapshot (t : Txm) : list (string * UnconfirmedTx) :=
  concat (map (fun p : string * list UnconfirmedTx => map (pair (fst p)) (snd p))
            (map_to_list (GetAllUnconfirmed (accountStore t)))).

Definition strands (o : Outcome) : bool :=
  match o with ODropped | OCancelled => true | _ => false end.

(** No allocation wrapped around: every in-flight number is below the next one. *)
Definition unwrapped (t : Txm) : Prop :=
  forall a st k, get_store a t = Some st -> abs_inflight st k -> k < nextSequence st.

Inductive mstep : mgr -> mgr -> Prop :=
| step_operation t held poll lost o w w' t' p :
    new_op (W:=W) o (w, t) = (p, (w', t')) ->
    mstep (mkMgr t held poll lost) (mkMgr t' held poll lost)
| step_enqueue t held poll lost req w w' t' a :
    Enqueue s req (w, t) = (a, (w', t')) ->
    mstep (mkMgr t held poll lost) (mkMgr t' held poll lost)
| step_receive t held poll lost r w w' t' :
    chan_recv (W:=W) (w, t) = (Some r, (w', t')) ->
    mstep (mkMgr t held poll lost) (mkMgr t' (held ++ [r]) poll lost)
| step_sort t held held' poll lost :
    held ≡ₚ held' ->
    mstep (mkMgr t held poll lost) (mkMgr t held' poll lost)
| step_broadcast t r held poll lost w w' t' o :
    simulateAssembleSignAndSend s r (w, t) = (o, (w', t')) -> unwrapped t' ->
    mstep (mkMgr t (r :: held) poll lost)
          (mkMgr t' held poll (if strands o then r :: lost else lost))
| step_snapshot t held lost l :
    l ≡ₚ snapshot t ->
    mstep (mkMgr t held [] lost) (mkMgr t held l lost)
| step_check t held client a u poll lost w w' t' p :
    check_one s client a u (w, t) = (p, (w', t')) ->
    mstep (mkMgr t held ((a, u) :: poll) lost) (mkMgr t' held poll lost)
| step_prune t held poll lost order w w' t' :
    (forall l, order l ≡ₚ l) -> pruneTerminal s order (w, t) = (tt, (w', t')) ->
    mstep (mkMgr t held poll lost) (mkMgr t' held poll lost)
| step_close t held poll lost :
    mstep (mkMgr t held poll lost) (mkMgr (set_stopped true t) held poll lost).

Definition mgr_init : mgr := mkMgr (empty_txm (config s)) [] [] [].

Definition mreachable : mgr -> Prop := rtc mstep mgr_init.

(** The records still to visit are in flight, each once. *)
Definition poll_ok (poll : list (string * UnconfirmedTx)) (t : Txm) : Prop :=
  NoDup ((fun p => (fst p, Sequence (snd p))) <$> poll) /\
  forall a u, (a, u) ∈ poll -> inflight t a (Sequence u) u.

Record ginv (g : mgr) : Prop := mkGinv {
  gi_inv : minv (places g) (g_t g);
  gi_cap : (length (broadcastChan (g_t g)) <= BroadcastChanSize (config s))%nat;
  gi_poll : poll_ok (g_poll g) (g_t g)
}.

Lemma poll_ok_grow poll t t' :
  poll_ok poll t -> (forall a q u, inflight t a q u -> inflight t' a q u) -> poll_ok poll t'.
Proof. intros [A1 A2] Hin. split; [done|]. auto. Qed.

Lemma ginv_init : ginv mgr_init.
Proof.
  split; simpl; [split|lia|split; [apply NoDup_nil_2|set_solver]].
  - intros a st Hst. discriminate Hst.
  - split; [apply NoDup_nil_2|set_solver|]. intros a q u a' q' u' Hu. discriminate Hu.
  - intros r [Hr|(a & q & u & Hu & _)]; [set_solver|discriminate Hu].
  - intros id r Hr. discriminate Hr.
Qed.

Lemma live_core x y : core x = core y -> live y -> live x.
Proof.
  intros E. assert (Status x = Status y) by exact (f_equal Status E).
  assert (Done x = Done y) by exact (f_equal Done E).
  assert (TerminalTime x = TerminalTime y) by exact (f_equal TerminalTime E).
  unfold live. congruence.
Qed.

Lemma the_read r t x : txs t !! r = Some x -> read_tx r t = x.
Proof. intros E. unfold read_tx. by rewrite E. Qed.

(** *** Broadcasting *)

Section Broadcast.
Context (r : txref) (t t' : Txm) (L : list txref).
Hypothesis Hinv : minv (r :: L) t.

Let Hown : owned (r :: L) (inflight t) r.
Proof. left. by left. Qed.

Lemma head_live : exists x, txs t !! r = Some x /\ live x /\ transactions t !! ID x = Some r.
Proof. by apply (mi_owned _ _ Hinv). Qed.

Lemma owned_tail q : q <> r -> owned (r :: L) (inflight t) q <-> owned L (inflight t) q.
Proof. intros Hq. unfold owned. rewrite elem_of_cons. naive_solver. Qed.

(** The three outcomes that leave the transaction as it was. *)
Lemma minv_unsettled L' :
  L' ≡ₚ r :: L -> (forall a q u, inflight t' a q u <-> inflight t a q u) ->
  stores_wf t' -> (forall q, q <> r -> txs t' !! q = txs t !! q) -> is_Some (txs t' !! r) ->
  core (read_tx r t') = core (read_tx r t) -> transactions t' = transactions t ->
  minv L' t'.
Proof.
  intros HL HI Hwf Hoth [x' Hx'] Hcore Hids. destruct head_live as (x & Hx & Hl & Hid).
  rewrite (the_read _ _ _ Hx), (the_read _ _ _ Hx') in Hcore.
  assert (How : forall q, owned L' (inflight t') q <-> owned (r :: L) (inflight t) q).
  { intros q. unfold owned. setoid_rewrite HI. by rewrite HL. }
  apply (minv_move (r :: L) L' t t' r x'); try done.
  - by rewrite (f_equal ID Hcore : ID x' = ID x).
  - apply (once_perm (r :: L) L' (inflight t)); [done| |apply Hinv]. intros. by apply HI.
  - by apply (live_core x' x).
  - by apply How.
Qed.

Lemma minv_broadcast_failed :
  (forall a q u, inflight t' a q u <-> inflight t a q u) ->
  stores_wf t' -> (forall q, q <> r -> txs t' !! q = txs t !! q) -> is_Some (txs t' !! r) ->
  ident (read_tx r t') = ident (read_tx r t) -> settled (read_tx r t') ->
  transactions t' = transactions t \/ transactions t' = transactions (evict r t) ->
  minv L t'.
Proof.
  intros HI Hwf Hoth [x' Hx'] Hident Hset Hids. destruct head_live as (x & Hx & Hl & Hid).
  rewrite (the_read _ _ _ Hx), (the_read _ _ _ Hx') in *. apply ident_ID in Hident.
  destruct (once_remove r L _ (mi_once _ _ Hinv)) as [Hon Hnot].
  assert (How : forall q, owned L (inflight t') q <-> owned L (inflight t) q).
  { intros q. unfold owned. by setoid_rewrite HI. }
  apply (minv_settle (r :: L) L t t' r x'); try done.
  - by rewrite Hident.
  - apply (once_perm L L (inflight t)); [done| |done]. intros. by apply HI.
  - intros q Hq. rewrite How. by rewrite owned_tail.
  - by rewrite How.
  - destruct Hids as [->| ->]; [by left|right]. unfold evict.
    rewrite (the_read _ _ _ Hx), Hid, decide_True by done. simpl. by rewrite Hident.
Qed.

Lemma minv_broadcast_sent a q u :
  Tx u = r -> (forall b k v, inflight t' b k v <-> inflight t b k v \/ b = a /\ k = q /\ v = u) ->
  stores_wf t' -> (forall q, q <> r -> txs t' !! q = txs t !! q) -> is_Some (txs t' !! r) ->
  keep (read_tx r t') = keep (read_tx r t) -> Status (read_tx r t') = Unconfirmed ->
  transactions t' = transactions t ->
  minv L t'.
Proof.
  intros Hu HI Hwf Hoth [x' Hx'] Hkeep Hst Hids. destruct head_live as (x & Hx & Hl & Hid).
  rewrite (the_read _ _ _ Hx), (the_read _ _ _ Hx') in *. unfold keep in Hkeep.
  assert (ident x' = ident x) as Hident%ident_ID by congruence.
  apply (minv_move (r :: L) L t t' r x'); try done.
  - by rewrite Hident.
  - by apply (once_send r L (inflight t) (inflight t') a q u Hu HI), Hinv.
  - intros p Hp. rewrite owned_tail by done. unfold owned. setoid_rewrite HI. naive_solver.
  - unfold live in *. rewrite Hst. simpl. split; [done|]. destruct Hl as (_ & ? & ?). split; congruence.
  - right. exists a, q, u. rewrite HI. naive_solver.
Qed.

End Broadcast.

Lemma inflight_eq t t' :
  (forall a, inflight_map a t' = inflight_map a t) ->
  forall a q u, inflight t' a q u <-> inflight t a q u.
Proof. intros E a q u. unfold inflight. by rewrite E. Qed.

Lemma all_maps r t t' :
  (forall a, a <> from r t -> inflight_map a t' = inflight_map a t) ->
  inflight_map (from r t) t' = inflight_map (from r t) t ->
  forall a, inflight_map a t' = inflight_map a t.
Proof. intros H1' H2' a. destruct (decide (a = from r t)) as [->|]; auto. Qed.

(** A broadcast keeps the invariant, whatever its outcome. *)
Lemma minv_pipeline r t t' held lost o :
  minv (broadcastChan t ++ (r :: held) ++ lost) t ->
  (length (broadcastChan t) <= BroadcastChanSize (config s))%nat ->
  post s r t o t' -> unwrapped t' ->
  minv (broadcastChan t' ++ held ++ (if strands o then r :: lost else lost)) t' /\
  (length (broadcastChan t') <= BroadcastChanSize (config s))%nat /\
  (forall a q u, inflight t a q u -> inflight t' a q u).
Proof.
  intros Hinv Hcap Hpost Huw.
  set (L := broadcastChan t ++ held ++ lost).
  assert (HL : broadcastChan t ++ (r :: held) ++ lost ≡ₚ r :: L) by (unfold L; solve_Permutation).
  assert (Hinv' : minv (r :: L) t) by (by eapply minv_same).
  assert (Huns : forall L', unsettled r t t' -> L' ≡ₚ r :: L -> minv L' t' /\
    forall a q u, inflight t a q u -> inflight t' a q u).
  { intros L' ([F0 F1 F2 F3 F4] & Em & Eids & Ec) HL'.
    pose proof (inflight_eq t t' (all_maps r t t' F4 Em)) as HI.
    split; [by apply (minv_unsettled r t t' L Hinv')|]. intros a q u. by rewrite HI. }
  destruct o as [seq hash|reason| | | |]; simpl in Hpost |- *.
  - destruct Hpost as (Hsome & Hoth & Ech & Eids & Hst & Hh & _ & _ & Hkeep & _ & Hw & Hmaps & Hfree &
      ml & mt & Hrec).
    rewrite Ech. split_and!; [|done|].
    + set (u := mkUnconfirmedTx seq hash ml mt r).
      assert (HI : forall b k v, inflight t' b k v <->
         inflight t b k v \/ b = from r t /\ k = seq /\ v = u).
      { intros b k v. unfold inflight. destruct (decide (b = from r t)) as [->|Hne].
        - rewrite Hrec, lookup_insert_Some. split; [naive_solver|].
          intros [Hv|(_ & -> & ->)]; [|by left]. right. split; [congruence|done].
        - rewrite Hmaps by done. naive_solver. }
      apply (minv_broadcast_sent r t t' L Hinv' (from r t) seq u); try done.
      apply Hw. intros st Hst'. apply (Huw (from r t)); [done|]. unfold abs_inflight.
      exists u.
      assert (Hin : inflight t' (from r t) seq u) by (apply HI; by right).
      unfold inflight, inflight_map in Hin. by rewrite Hst' in Hin.
    + intros a q u Hu. unfold inflight in *. destruct (decide (a = from r t)) as [->|Hne].
      * rewrite Hrec, lookup_insert_ne; [done|]. congruence.
      * by rewrite Hmaps.
  - destruct Hpost as ([F0 F1 F2 F3 F4] & Em & Ech & Eid & Eids & Hst & Hd & Ht).
    pose proof (inflight_eq t t' (all_maps r t t' F4 Em)) as HI.
    rewrite Ech. split_and!; [|done|intros a q u; by rewrite HI].
    apply (minv_broadcast_failed r t t' L Hinv'); try done.
    + unfold settled. by rewrite Hst, Hd.
    + rewrite Eids. destruct (_ <=? 0); [by right|by left].
  - destruct Hpost as (Hu & Ech & Hc). destruct (Huns (broadcastChan t' ++ held ++ lost) Hu).
    + rewrite Ech. unfold L. solve_Permutation.
    + done.
  - destruct Hpost as (Hu & Ech & Hc). rewrite Ech.
    destruct (Huns (broadcastChan t ++ held ++ r :: lost) Hu); [unfold L; solve_Permutation|done].
  - destruct Hpost as (Hu & Ech). rewrite Ech.
    destruct (Huns (broadcastChan t ++ held ++ r :: lost) Hu); [unfold L; solve_Permutation|done].
  - done.
Qed.

(** *** Confirming *)

Lemma inflight_recorded t a u : inflight t a (Sequence u) u -> recorded a u t.
Proof.
  unfold inflight, inflight_map, recorded. destruct (get_store a t) as [st|]; [|done]. eauto.
Qed.

Lemma gone_inflight t t' a u b :
  gone a u t b t' -> forall c k v, inflight t' c k v <-> inflight t c k v /\ (c, k) <> (a, Sequence u).
Proof.
  intros [(st & st' & Est & Est' & Eu & _) Hoth _ _ _ _ _] c k v. unfold inflight, inflight_map.
  destruct (decide (c = a)) as [->|Hne].
  - rewrite Est, Est', Eu, lookup_delete_Some. naive_solver.
  - rewrite Hoth by done. naive_solver.
Qed.

Lemma minv_check t t' held lost a u client w :
  minv (broadcastChan t ++ held ++ lost) t ->
  (length (broadcastChan t) <= BroadcastChanSize (config s))%nat ->
  inflight t a (Sequence u) u ->
  t' = snd (snd (check_one s client a u (w, t))) ->
  minv (broadcastChan t' ++ held ++ lost) t' /\
  (length (broadcastChan t') <= BroadcastChanSize (config s))%nat /\
  (forall c k v, inflight t c k v -> (c, k) <> (a, Sequence u) -> inflight t' c k v).
Proof.
  intros Hinv Hcap Hu ->. set (L := broadcastChan t ++ held ++ lost) in *.
  destruct (mi_owned _ _ Hinv (Tx u)) as (x & Hx & Hl & Hid); [right; eauto 6|].
  pose proof (check_one_summary s a u t ltac:(eauto) (mi_wf _ _ Hinv) (inflight_recorded t a u Hu) client w)
    as Hsum. simpl in Hsum.
  destruct Hsum as [->|(b & Hg & Hcase)]; [by split_and!|].
  set (t' := snd (snd (check_one s client a u (w, t)))) in *.
  pose proof (gone_inflight t t' a u b Hg) as HI.
  destruct (once_land L (inflight t) (inflight t') a (Sequence u) u Hu HI (mi_once _ _ Hinv)) as [Hon Hnot].
  destruct Hg as [_ _ Hwf Hoth [x' Hx'] Hident _].
  rewrite (the_read _ _ _ Hx), (the_read _ _ _ Hx') in Hident. apply ident_ID in Hident.
  assert (How : forall q, q <> Tx u -> owned L (inflight t') q <-> owned L (inflight t) q).
  { intros q Hq. unfold owned. setoid_rewrite HI. split; [naive_solver|].
    intros [Hin|(c & k & v & Hv & <-)]; [by left|right]. exists c, k, v. split_and!; try done.
    intros [= -> ->]. apply Hq. unfold inflight in *. congruence. }
  destruct Hcase as [(status & Hs & [Fs Fd Ft Fc Fi])|[Rc Rl Ri _ _ Rs Rd Rt]].
  - rewrite (the_read _ _ _ Hx') in Fs, Fd, Ft. rewrite Fc. split_and!; [|done|naive_solver].
    apply (minv_settle L L t t' (Tx u) x'); try done; [by rewrite Hident|by rewrite <- Fs in Hs|].
    rewrite Fi. destruct (_ <=? 0); [right|by left]. unfold evict.
    rewrite (the_read _ _ _ Hx), Hid, decide_True by done. simpl. by rewrite Hident.
  - rewrite (the_read _ _ _ Hx), (the_read _ _ _ Hx') in Rs, Rd, Rt.
    split_and!; [|lia|naive_solver]. rewrite Rc.
    assert (HL : (broadcastChan t ++ [Tx u]) ++ held ++ lost ≡ₚ Tx u :: L) by (unfold L; solve_Permutation).
    apply (minv_move L _ t t' (Tx u) x'); try done.
    + by rewrite Hident.
    + eapply once_perm; [symmetry; exact HL| |by apply once_add]. done.
    + intros q Hq. rewrite <- How by done. unfold owned. rewrite HL, elem_of_cons. naive_solver.
    + unfold live in *. by rewrite Rs, Rd, Rt.
    + left. rewrite HL. by left.
Qed.

(** *** Enqueueing *)

(** An object nobody refers to. *)
Definition garbage (L : list txref) (r : txref) (t : Txm) : Prop :=
  ~ owned L (inflight t) r /\ forall id, transactions t !! id <> Some r.

Lemma fresh_garbage L t : minv L t -> garbage L (fresh (dom (txs t))) t.
Proof.
  intros Hinv. assert (Hn : txs t !! fresh (dom (txs t)) = None).
  { apply not_elem_of_dom, is_fresh. }
  split.
  - intros (x & Hx & _)%(mi_owned _ _ Hinv). congruence.
  - intros id (x & Hx & _)%(mi_ids _ _ Hinv). congruence.
Qed.

Lemma minv_garbage L r t t' :
  minv L t -> garbage L r t -> (forall q, q <> r -> txs t' !! q = txs t !! q) ->
  accountStore t' = accountStore t -> transactions t' = transactions t -> minv L t'.
Proof.
  intros [A1 A2 A3 A4] [Hg1 Hg2] Hoth Es Ei.
  assert (EI : forall a, get_store a t' = get_store a t) by (intros; unfold get_store; by rewrite Es).
  assert (HI : forall a q u, inflight t' a q u <-> inflight t a q u)
    by (intros; unfold inflight, inflight_map; by rewrite EI).
  assert (How : forall q, owned L (inflight t') q <-> owned L (inflight t) q).
  { intros q. unfold owned. by setoid_rewrite HI. }
  split.
  - intros a st. rewrite EI. apply A1.
  - eapply once_perm; [done| |exact A2]. intros. by apply HI.
  - intros q Hq%How. rewrite Hoth, Ei by congruence. by apply A3.
  - intros id q. rewrite Ei. intros Hq. assert (q <> r) by (intros ->; by apply (Hg2 id)).
    rewrite Hoth by done. setoid_rewrite How. by apply A4.
Qed.

Lemma minv_register L r t x :
  minv L t -> garbage L r t -> txs t !! r = Some x -> live x -> transactions t !! ID x = None ->
  minv (r :: L) (set_transactions (<[ID x := r]> (transactions t)) t).
Proof.
  intros [A1 A2 A3 A4] [Hg1 Hg2] Hx Hl Hid. split; [done|by apply once_add| |]; simpl.
  - intros q Hq. destruct (decide (q = r)) as [->|Hne].
    + exists x. split_and!; [done..|]. apply lookup_insert_eq.
    + destruct (A3 q) as (y & Hy & Hly & Hiy).
      { destruct Hq as [[->|Hin]%elem_of_cons|Hin]; [done|by left|by right]. }
      exists y. split_and!; [done..|]. rewrite lookup_insert_ne; [done|]. congruence.
  - intros id q. rewrite lookup_insert_Some. intros [[<- <-]|[Hne Hq]].
    + exists x. split_and!; [done..|]. right. left. by left.
    + destruct (A4 id q Hq) as (y & Hy & Ey & Hs). exists y. split_and!; [done..|].
      destruct Hs as [|[Hin|Hin]]; [by left|right; left; by right|right; by right].
Qed.

Lemma minv_enqueued r t t' x held lost :
  minv (broadcastChan t ++ held ++ lost) t -> garbage (broadcastChan t ++ held ++ lost) r t ->
  (length (broadcastChan t) <= BroadcastChanSize (config s))%nat ->
  txs t !! r = Some x -> live x -> transactions t !! ID x = None -> enqueued s r t t' ->
  minv (broadcastChan t' ++ held ++ lost) t' /\
  (length (broadcastChan t') <= BroadcastChanSize (config s))%nat /\
  accountStore t' = accountStore t.
Proof.
  intros Hinv Hg Hcap Hx Hl Hid. unfold enqueued. rewrite (the_read _ _ _ Hx).
  pose proof (minv_register _ r t x Hinv Hg Hx Hl Hid) as Hreg.
  set (t1 := set_transactions (<[ID x := r]> (transactions t)) t) in *.
  destruct (Nat.ltb _ _) eqn:El.
  - apply Nat.ltb_lt in El. intros ->. simpl. rewrite length_app. simpl. split_and!; [|lia|done].
    eapply minv_same; [exact Hreg| |done..]. solve_Permutation.
  - apply Nat.ltb_ge in El. intros (d & rest & t2 & Ech & [[S1 S2 S3 S4 S5 S6 S7] [n En] Hids] & ->).
    rewrite Ech in *. simpl. split_and!; [|rewrite length_app; simpl in *; lia|exact S2].
    assert (Hd : minv (d :: (rest ++ [r]) ++ held ++ lost) t1).
    { eapply minv_same; [exact Hreg| |done..]. solve_Permutation. }
    destruct (head_live d t1 _ Hd) as (y & Hy & Hly & Hidy).
    assert (Hsome : is_Some (txs t2 !! d)) by (apply S7; by exists y).
    assert (Hrd : read_tx d (set_broadcastChan rest t1) = y) by (by apply the_read).
    rewrite Hrd in En. destruct Hsome as [z Hz]. rewrite (the_read _ _ _ Hz) in En.
    apply (minv_broadcast_failed d t1 (set_broadcastChan (rest ++ [r]) t2) _ Hd).
    + intros a q u. unfold inflight, inflight_map, get_store. simpl. by rewrite S2.
    + intros a st. unfold get_store. simpl. rewrite S2. apply (mi_wf _ _ Hd).
    + done.
    + by exists z.
    + change (read_tx d (set_broadcastChan (rest ++ [r]) t2)) with (read_tx d t2).
      rewrite (the_read _ _ _ Hz), (the_read _ _ _ Hy), En. unfold evicted_tx.
      by rewrite ident_terminated.
    + change (read_tx d (set_broadcastChan (rest ++ [r]) t2)) with (read_tx d t2).
      rewrite (the_read _ _ _ Hz), En. unfold settled, evicted_tx, terminated. simpl.
      destruct Hly as (_ & _ & Hty). by rewrite Hty.
    + simpl. rewrite Hids. destruct (_ <=? 0); [right|by left]. unfold evict.
      rewrite Hrd, (the_read _ _ _ Hy). simpl. destruct (_ !! ID y); [|done].
      by destruct (decide _).
Qed.

Lemma Enqueue_cases req w t :
  snd (snd (Enqueue s req (w, t))) = t \/
  exists w1 x, live x /\ let r := fresh (dom (txs t)) in
    snd (snd (Enqueue s req (w, t))) =
    snd (snd (enqueueTransaction s r (w1, set_txs (<[r := x]> (txs t)) t))).
Proof.
  unfold Enqueue. rewrite bind_run.
  set (m1 := if String.eqb (rq_ID req) "" then _ else _).
  assert (E1 : snd (snd (m1 (w, t))) = t).
  { subst m1. destruct (String.eqb _ _); simpl; [by destruct (env_uuid w)|done]. }
  destruct (m1 (w, t)) as [id [w1 t1]]. simpl in E1. subst t1. cbn [fst snd].
  destruct (negb _); [by left|]. rewrite bind_run.
  set (m2 := if String.eqb (rq_FromAddress req) "" then _ else _).
  assert (E2 : snd (snd (m2 (w1, t))) = t).
  { subst m2. destruct (String.eqb (rq_FromAddress req) ""); [|reflexivity].
    unfold defaultFromAddress. rewrite bind_run. simpl. by destruct (ks_Accounts w1). }
  destruct (m2 (w1, t)) as [[fa|e] [w2 t2]]; simpl in E2; subst t2; cbn [fst snd]; [|by left].
  destruct (AddressToAccountId fa); [|by left]. rewrite bind_run. cbn.
  destruct (txFingerprint _ _ _ _) as [fp|]; [|by left].
  unfold now. rewrite bind_run. cbn. destruct (env_now w2) as [n w3]. cbn [fst snd].
  rewrite bind_run. unfold new_tx at 1. cbn [fst snd]. right.
  eexists w3, _. split; [|reflexivity]. done.
Qed.

(** *** Every step *)

Hypothesis Hseq : forall st : W * Txm, preempt st = st.
Hypothesis Hsize : (0 < BroadcastChanSize (config s))%nat.

Lemma minv_enqueueTransaction r w t x held lost :
  let L := broadcastChan t ++ held ++ lost in
  minv L t -> garbage L r t -> (length (broadcastChan t) <= BroadcastChanSize (config s))%nat ->
  txs t !! r = Some x -> live x ->
  let t' := snd (snd (enqueueTransaction s r (w, t))) in
  minv (broadcastChan t' ++ held ++ lost) t' /\
  (length (broadcastChan t') <= BroadcastChanSize (config s))%nat /\
  accountStore t' = accountStore t.
Proof.
  intros L Hinv Hg Hcap Hx Hl. simpl. destruct (stopped t) eqn:Hs.
  { unfold enqueueTransaction, the_tx. rewrite bind_run. cbn -[read_tx]. rewrite bind_run.
    cbn -[read_tx]. by rewrite Hs. }
  destruct (transactions t !! ID (read_tx r t)) as [existing|] eqn:Hid.
  - pose proof (enqueue_existing s r w t existing) as He. rewrite Hseq in He.
    rewrite (He Hs Hid). destruct (decide _); simpl; [|by split_and!].
    split_and!; [|done..]. apply (minv_garbage L r t); try done.
    intros q Hq. by apply write_tx_other.
  - assert (Hq : forall d, d ∈ broadcastChan t -> is_Some (txs t !! d) /\
       transactions t !! ID (read_tx d t) = Some d).
    { intros d Hd. destruct (mi_owned _ _ Hinv d) as (y & Hy & _ & Hiy).
      - left. unfold L. set_solver.
      - split; [by exists y|]. by rewrite (the_read _ _ _ Hy). }
    destruct (enqueue_new s Hseq r w t Hs Hid Hsize Hcap Hq) as [_ He].
    rewrite (the_read _ _ _ Hx) in Hid. by apply (minv_enqueued r t _ x).
Qed.

Lemma ginv_enqueue t held poll lost req w :
  ginv (mkMgr t held poll lost) -> ginv (mkMgr (snd (snd (Enqueue s req (w, t)))) held poll lost).
Proof.
  intros [Hinv Hcap Hpoll]. unfold places in *. simpl in *.
  destruct (Enqueue_cases req w t) as [->|(w1 & x & Hl & ->)]; [by split|].
  set (r := fresh (dom (txs t))). set (L := broadcastChan t ++ held ++ lost) in *.
  set (ta := set_txs (<[r := x]> (txs t)) t).
  assert (Hg : garbage L r t) by (by apply fresh_garbage).
  assert (Ha : minv L ta).
  { apply (minv_garbage L r t); try done. intros q Hq. simpl. by rewrite lookup_insert_ne. }
  destruct (minv_enqueueTransaction r w1 ta x held lost Ha Hg Hcap) as (A & B & C); [|done|].
  { simpl. apply lookup_insert_eq. }
  split; [exact A|exact B|]. eapply poll_ok_grow; [exact Hpoll|].
  intros a q u. unfold inflight, inflight_map, get_store. simpl. by rewrite C.
Qed.

Lemma NoDup_keyed (l : list (string * list UnconfirmedTx)) :
  NoDup l.*1 -> (forall a us, (a, us) ∈ l -> NoDup (Sequence <$> us)) ->
  NoDup ((fun p => (fst p, Sequence (snd p))) <$>
    concat (map (fun p : string * list UnconfirmedTx => map (pair (fst p)) (snd p)) l)).
Proof.
  induction l as [|[a us] l IH]; intros Hnd Hus; simpl; [apply NoDup_nil_2|].
  simpl in Hnd. apply list.NoDup_cons in Hnd as [Hni Hnd]. rewrite fmap_app.
  assert (Ef : (fun p => (fst p, Sequence (snd p))) <$> map (pair a) us = pair a <$> (Sequence <$> us)).
  { change (map (pair a) us) with (pair a <$> us). by rewrite <- !list_fmap_compose. }
  rewrite Ef. apply list.NoDup_app. split_and!.
  - apply NoDup_fmap_2; [by intros ? ? [=]|]. apply (Hus a). by left.
  - intros [b k] (k' & [= -> ->] & _)%list_elem_of_fmap Hin.
    apply list_elem_of_fmap in Hin as ([b u] & [= -> ->] & Hin).
    apply list_elem_of_In, in_concat in Hin as (x & Hx & Hin).
    apply in_map_iff in Hx as ([c vs] & <- & Hc). simpl in Hin.
    apply in_map_iff in Hin as (v & [= -> ->] & _). apply Hni, list_elem_of_fmap.
    exists (b, vs). split; [done|by apply list_elem_of_In].
  - apply IH; [done|]. intros b vs Hin. apply (Hus b). by right.
Qed.

Lemma all_unconfirmed t a us :
  (a, us) ∈ map_to_list (GetAllUnconfirmed (accountStore t)) <->
  exists st, get_store a t = Some st /\ us = GetUnconfirmed st.
Proof.
  rewrite elem_of_map_to_list. unfold GetAllUnconfirmed, get_store, GetTxStore.
  rewrite lookup_fmap, fmap_Some. done.
Qed.

Lemma snapshot_ok t l : stores_wf t -> l ≡ₚ snapshot t -> poll_ok l t.
Proof.
  intros Hwf Hl. split.
  - rewrite Hl. apply NoDup_keyed; [apply NoDup_fst_map_to_list|].
    intros a us (st & Hst & ->)%all_unconfirmed. by apply NoDup_GetUnconfirmed, (Hwf a).
  - intros a u. rewrite Hl. unfold snapshot. rewrite list_elem_of_In.
    intros (x & Hx & Hin)%in_concat. apply in_map_iff in Hx as ([b us] & <- & Hb). simpl in Hin.
    apply in_map_iff in Hin as (v & [= -> ->] & Hv).
    apply list_elem_of_In in Hb, Hv. apply all_unconfirmed in Hb as (st & Hst & ->).
    apply elem_of_GetUnconfirmed in Hv; [|by apply (Hwf a)].
    unfold inflight, inflight_map. by rewrite Hst.
Qed.

(** Only settled entries leave the id map. *)
Lemma minv_prune L t t' :
  minv L t -> txs t' = txs t -> accountStore t' = accountStore t ->
  (forall id, transactions t' !! id = transactions t !! id \/ transactions t' !! id = None) ->
  (forall id r, transactions t !! id = Some r -> isTerminalStatus (Status (read_tx r t)) = false ->
     transactions t' !! id = Some r) ->
  minv L t'.
Proof.
  intros [A1 A2 A3 A4] Ex Es Hsub Hkeep.
  assert (HI : forall a q u, inflight t' a q u <-> inflight t a q u)
    by (intros; unfold inflight, inflight_map, get_store; by rewrite Es).
  assert (How : forall q, owned L (inflight t') q <-> owned L (inflight t) q)
    by (intros; unfold owned; by setoid_rewrite HI).
  split.
  - intros a st. unfold get_store. rewrite Es. apply A1.
  - eapply once_perm; [done| |exact A2]. intros. by apply HI.
  - intros r Hr%How. destruct (A3 r Hr) as (x & Hx & Hl & Hid). exists x. rewrite Ex.
    split_and!; [done..|]. apply Hkeep; [done|]. rewrite (the_read _ _ _ Hx). apply Hl.
  - intros id r Hr. rewrite Ex. setoid_rewrite How. apply A4.
    destruct (Hsub id) as [E|E]; congruence.
Qed.

Lemma ginv_step g g' : mstep g g' -> ginv g -> ginv g'.
Proof.
  destruct 1 as [t held poll lost op w w' t' p E|t held poll lost req w w' t' a E|t held poll lost r w w' t' E|t held held' poll lost E
    |t r held poll lost w w' t' o E Huw|t held lost l E|t held client a u poll lost w w' t' p E
    |t held poll lost order w w' t' Ho E|t held poll lost].
  - intros [Hinv Hcap Hpoll]. injection E as <- <- <-. split; [|done|done]. by eapply minv_same.
  - pose proof (ginv_enqueue t held poll lost req w) as He. by rewrite E in He.
  - intros [Hinv Hcap Hpoll]. unfold places in *. simpl in *. unfold chan_recv in E.
    destruct (broadcastChan t) as [|r0 rest] eqn:Ech; [done|]. injection E as -> <- <-.
    split; [|simpl in *; lia|].
    + eapply minv_same; [exact Hinv| |done..]. simpl. solve_Permutation.
    + by eapply poll_ok_grow.
  - intros [Hinv Hcap Hpoll]. split; [|done..]. eapply minv_same; [exact Hinv| |done..].
    unfold places. simpl. by rewrite E.
  - intros [Hinv Hcap Hpoll]. unfold places in *. simpl in *.
    destruct (mi_owned _ _ Hinv r) as (x & Hx & _); [left; set_solver|].
    pose proof (triple_pipeline s r t ltac:(by exists x) (mi_wf _ _ Hinv) w t ltac:(reflexivity)) as Hp.
    rewrite E in Hp. simpl in Hp.
    destruct (minv_pipeline r t t' held lost o Hinv Hcap Hp Huw) as (A & B & C).
    split; [exact A|exact B|]. by eapply poll_ok_grow.
  - intros [Hinv Hcap Hpoll]. split; [done..|]. simpl. apply snapshot_ok; [apply Hinv|done].
  - intros [Hinv Hcap [Hnd Hin]]. unfold places in *. simpl in *.
    apply list.NoDup_cons in Hnd as [Hni Hnd].
    destruct (minv_check t t' held lost a u client w Hinv Hcap) as (A & B & C).
    + apply Hin. by left.
    + by rewrite E.
    + split; [exact A|exact B|]. split; [done|]. intros b v Hbv. apply C; [apply Hin; by right|].
      intros [= -> Eq]. apply Hni. apply list_elem_of_fmap. exists (a, v). by rewrite <- Eq.
  - intros [Hinv Hcap Hpoll]. unfold places in *. simpl in *.
    destruct (pruneTerminal_keeps_live s order w t Ho) as (E1 & E2 & E3 & E4 & E5).
    rewrite E in E1, E2, E3, E4, E5. simpl in E1, E2, E3, E4, E5. split; unfold places; simpl.
    + rewrite E2. by apply (minv_prune _ t).
    + by rewrite E2.
    + eapply poll_ok_grow; [exact Hpoll|]. intros a q u. unfold inflight, inflight_map, get_store.
      by rewrite E3.
  - intros [Hinv Hcap Hpoll]. split; [|done|done]. by eapply minv_same.
Qed.

Lemma reachable_ginv g : mreachable g -> ginv g.
Proof.
  intros Hr. assert (Hgen : forall x y, rtc mstep x y -> ginv x -> ginv y).
  { induction 1; eauto using ginv_step. }
  exact (Hgen _ _ Hr ginv_init).
Qed.




(** A pass of the confirm loop never works on a stale record.  While
    it goes through its snapshot, with broadcasts and enqueues in between, each
    record it has still to visit is in flight under the same hash, so that
    [Confirm] succeeds on it and its transaction is not failed by mistake. *)
Theorem snapshot_never_stale g a u b :
  mreachable g -> (a, u) ∈ g_poll g ->
  exists st st', get_store a (g_t g) = Some st /\
    Confirm (Sequence u) (Hash u) b st = Ok st' /\ live (read_tx (Tx u) (g_t g)).
Proof.
  intros [Hinv _ [_ Hpoll]]%reachable_ginv Hin.
  pose proof (Hpoll a u Hin) as Hu. destruct (inflight_recorded _ _ _ Hu) as (st & Hst & Hrec).
  destruct (mi_owned _ _ Hinv (Tx u)) as (x & Hx & Hl & _); [right; eauto 6|].
  rewrite (the_read _ _ _ Hx). unfold Confirm. exists st. rewrite Hrec, String.eqb_refl. eauto.
Qed.

End Manager.

(** ** Witnesses: a run of the manager *)

#[local] Instance quiet_sched : Sched world := {|
  preempt st := st;
  block r st := ((if Done (read_tx r (snd st)) then WakeDone else WakeCtx), st)
|}.

Lemma demo_seq (st : world * Txm) : preempt st = st.
Proof. done. Qed.

Definition demo_request : TxRequest := mkTxRequest "a" "GALICE" [Some 1%positive] 0 None 0.

Definition m0 : Txm := empty_txm demo_config.
Definition m1 : Txm := snd (snd (new_op (W:=world) (H:=demo_sdk) "invoke"%string (quiet, m0))).
Definition m2 : Txm := snd (snd (Enqueue demo_txm_static demo_request (quiet, m1))).
Definition m3 : Txm := snd (snd (chan_recv (quiet, m2))).
Definition m4 : Txm := snd (snd (simulateAssembleSignAndSend demo_txm_static 1%positive (quiet, m3))).

(** The world in which the node answers SUCCESS. *)
Definition landed_world : world :=
  with_gets [Ok (mkGetTransactionResponse TransactionStatusSuccess "ok" "" 1200 5003 1200)] quiet.
Definition m5_rec : UnconfirmedTx := mkUnconfirmedTx 42 "h42" 5050 1300 1%positive.
Definition m5 : Txm :=
  snd (snd (check_one demo_txm_static demo_client "GALICE" m5_rec (landed_world, m4))).

Lemma run_eq {A W T} (x : A * (W * T)) : x = (fst x, (fst (snd x), snd (snd x))).
Proof. by destruct x as [? [? ?]]. Qed.

Abbreviation demo_reachable := (mreachable (W:=world) demo_txm_static).

Lemma reachable_m2 : demo_reachable (mkMgr m2 [] [] []).
Proof.
  apply rtc_l with (mkMgr m1 [] [] []).
  { exact (step_operation _ m0 [] [] [] _ quiet _ _ _ (run_eq _)). }
  apply rtc_once. exact (step_enqueue _ m1 [] [] [] demo_request quiet _ _ _ (run_eq _)).
Qed.

Lemma m4_unwrapped : unwrapped m4.
Proof.
  assert (E : accountStore m4 = {["GALICE"%string := mkTxStore 43 {[42 := m5_rec]} ∅ 42]})
    by (by vm_compute).
  intros a st k. unfold get_store, GetTxStore. rewrite E, lookup_singleton_Some.
  intros [<- <-] [u Hu]. simpl in Hu. apply lookup_singleton_Some in Hu as [<- _]. done.
Qed.

Lemma reachable_m4 : demo_reachable (mkMgr m4 [] [] []).
Proof.
  unfold mreachable. etrans; [exact reachable_m2|].
  apply rtc_l with (mkMgr m3 [1%positive] [] []).
  { pose proof (run_eq (chan_recv (W:=world) (quiet, m2))) as E.
    assert (Er : fst (chan_recv (W:=world) (quiet, m2)) = Some 1%positive) by (by vm_compute).
    rewrite Er in E. exact (step_receive demo_txm_static m2 [] [] [] 1%positive quiet _ m3 E). }
  assert (Eo : fst (simulateAssembleSignAndSend demo_txm_static 1%positive (quiet, m3)) =
    OBroadcast 42 "h42") by (by vm_compute).
  pose proof (step_broadcast demo_txm_static m3 1%positive [] [] [] quiet _ _ _ (run_eq _) m4_unwrapped)
    as Hs.
  rewrite Eo in Hs. by apply rtc_once.
Qed.

Lemma reachable_poll : demo_reachable (mkMgr m4 [] [("GALICE"%string, m5_rec)] []).
Proof.
  eapply rtc_r; [exact reachable_m4|]. apply step_snapshot.
  replace (snapshot m4) with [("GALICE"%string, m5_rec)] by (by vm_compute). done.
Qed.

Lemma reachable_m5 : demo_reachable (mkMgr m5 [] [] []).
Proof. 
  eapply rtc_r; [exact reachable_poll|].
  exact (step_check _ m4 [] demo_client "GALICE" m5_rec [] [] landed_world _ _ _ (run_eq _)).
 Qed.




Lemma snapshot_never_stale_witness :
  exists st st', get_store "GALICE" m4 = Some st /\
    Confirm (Sequence m5_rec) (Hash m5_rec) false st = Ok st' /\ live (read_tx (Tx m5_rec) m4).
Proof.
  apply (snapshot_never_stale (W:=world) demo_txm_static demo_seq
    ltac:(apply Nat.ltb_lt; reflexivity) (mkMgr m4 [] [("GALICE"%string, m5_rec)] [])
    "GALICE" m5_rec false reachable_poll).
  by left.
Defined.
