(* ===== verification/Xdr.v ===== *)
(** * Soroban values

    [xdr.ScVal] and the types it is built from, as the SDK generates them from the
    XDR schema: the discriminant is the constructor and the payload the pointer of
    the arm it selects, [None] being the nil pointer.  A byte array of fixed length
    is a list of bytes.  [Codec] gathers the functions of the SDK's strkey and xdr packages that the
    program calls on them, as parameters. *)

From S2P Require Import Prelude Sdk GoBytes.

(** ** Data *)

(** [xdr.AccountId]: a [PublicKey] with its type (0 is Ed25519) and that arm. *)
Record AccountId := mkAccountId { pk_Type : Z; pk_Ed25519 : option bytes }.

Record ClaimableBalanceId := mkClaimableBalanceId { cb_Type : Z; cb_V0 : option bytes }.

Record MuxedEd25519Account := mkMuxedAccount { ma_Id : Z; ma_Ed25519 : bytes }.

Record MuxedContract := mkMuxedContract { mc_ContractId : bytes; mc_Id : Z }.

Inductive ScAddress :=
| ScAddressTypeAccount (AccountId : option AccountId)
| ScAddressTypeContract (ContractId : option bytes)
| ScAddressTypeMuxedAccount (MuxedAccount : option MuxedEd25519Account)
| ScAddressTypeClaimableBalance (ClaimableBalanceId : option ClaimableBalanceId)
| ScAddressTypeLiquidityPool (LiquidityPoolId : option bytes)
| ScAddressTypeMuxedContract (MuxedContract : option MuxedContract)
| ScAddressTypeUnknown (t : Z).

Inductive ScErrorType :=
| SceContract | SceWasmVm | SceContext | SceStorage | SceObject | SceCrypto
| SceEvents | SceBudget | SceValue | SceAuth | SceUnknown (t : Z).

Record ScError := mkScError {
  se_Type : ScErrorType;
  se_ContractCode : option Z;
  se_Code : option Z
}.

Inductive ContractExecutable :=
| ContractExecutableWasm (WasmHash : option bytes)
| ContractExecutableStellarAsset
| ContractExecutableUnknown (t : Z).

Record Int128Parts := mkInt128Parts { i128_Hi : Z; i128_Lo : Z }.
Record UInt128Parts := mkUInt128Parts { u128_Hi : Z; u128_Lo : Z }.
Record Int256Parts := mkInt256Parts { i256_HiHi : Z; i256_HiLo : Z; i256_LoHi : Z; i256_LoLo : Z }.
Record UInt256Parts := mkUInt256Parts { u256_HiHi : Z; u256_HiLo : Z; u256_LoHi : Z; u256_LoLo : Z }.

Record ScMapEntry (V : Type) := mkScMapEntry { Key : V; Val : V }.
Arguments mkScMapEntry {V} Key Val.
Arguments Key {V} s.
Arguments Val {V} s.

Record ScContractInstance (V : Type) := mkScContractInstance {
  Executable : ContractExecutable;
  Storage : option (list (ScMapEntry V))
}.
Arguments mkScContractInstance {V} Executable Storage.
Arguments Executable {V} s.
Arguments Storage {V} s.

#[local] Set Warnings "-register-all".

Inductive ScVal :=
| ScvBool (B : option bool)
| ScvVoid
| ScvError (Error : option ScError)
| ScvU32 (U32 : option Z)
| ScvI32 (I32 : option Z)
| ScvU64 (U64 : option Z)
| ScvI64 (I64 : option Z)
| ScvTimepoint (Timepoint : option Z)
| ScvDuration (Duration : option Z)
| ScvU128 (U128 : option UInt128Parts)
| ScvI128 (I128 : option Int128Parts)
| ScvU256 (U256 : option UInt256Parts)
| ScvI256 (I256 : option Int256Parts)
| ScvBytes (Bytes : option bytes)
| ScvString (Str : option string)
| ScvSymbol (Sym : option string)
| ScvVec (Vec : option (option (list ScVal)))
| ScvMap (Map : option (option (list (ScMapEntry ScVal))))
| ScvAddress (Address : option ScAddress)
| ScvContractInstance (Instance : option (ScContractInstance ScVal))
| ScvLedgerKeyContractInstance
| ScvLedgerKeyNonce (NonceKey : option Z)
| ScvUnknown (t : Z).

(** ** Third-party functions *)

Inductive VersionByte := VersionByteAccountID | VersionByteContract | VersionByteMuxedContract.

Class Codec := {
  strkey_Encode : VersionByte -> bytes -> res string;
  strkey_Decode : VersionByte -> string -> res bytes;
  xdr_AddressToAccountId : string -> res AccountId;
  ScAddress_UnmarshalBinary : bytes -> res ScAddress;
  ScVal_MarshalBinary : ScVal -> outcome bytes;
  ScVal_UnmarshalBinary : bytes -> res ScVal;
  ScVal_UnmarshalBase64 : string -> res ScVal
}.

(** A 32-byte key or hash. *)
Definition is_key (b : bytes) : Prop := length b = 32%nat /\ Forall is_byte b.

(** What the program relies on: the strkey of a 32-byte key starts with the letter
    of its kind, decodes to the key, and is an address of the SDK; the XDR layout
    of a contract address (RFC 4506 unions: the discriminants 18 and 1 as
    big-endian words, then the 32 bytes); the decoder inverts the encoder. *)
Class CodecLaws `{Codec} : Prop := {
  Encode_account b : is_key b ->
    exists s, strkey_Encode VersionByteAccountID b = Ok ("G" +:+ s) /\
      strkey_Decode VersionByteAccountID ("G" +:+ s) = Ok b /\
      xdr_AddressToAccountId ("G" +:+ s) = Ok (mkAccountId 0 (Some b));
  Encode_contract b : is_key b ->
    exists s, strkey_Encode VersionByteContract b = Ok ("C" +:+ s) /\
      strkey_Decode VersionByteContract ("C" +:+ s) = Ok b;
  Unmarshal_ScAddress b : is_key b ->
    ScAddress_UnmarshalBinary ([0; 0; 0; 1] ++ b) = Ok (ScAddressTypeContract (Some b));
  Marshal_contract_address b : is_key b ->
    ScVal_MarshalBinary (ScvAddress (Some (ScAddressTypeContract (Some b))))
    = Returns ([0; 0; 0; 18; 0; 0; 0; 1] ++ b);
  Unmarshal_Marshal v b : ScVal_MarshalBinary v = Returns b -> ScVal_UnmarshalBinary b = Ok v
}.

(** ** Accessors

    [GetX] of a generated union answers its arm when the discriminant selects it,
    dereferencing the arm's pointer; [MustX] panics instead of answering [false]. *)

Definition GetU32 (v : ScVal) : outcome (option Z) :=
  match v with ScvU32 p => Some <$> deref p | _ => Returns None end.
Definition GetU64 (v : ScVal) : outcome (option Z) :=
  match v with ScvU64 p => Some <$> deref p | _ => Returns None end.
Definition GetSym (v : ScVal) : outcome (option string) :=
  match v with ScvSymbol p => Some <$> deref p | _ => Returns None end.
Definition GetStr (v : ScVal) : outcome (option string) :=
  match v with ScvString p => Some <$> deref p | _ => Returns None end.
Definition GetBytes (v : ScVal) : outcome (option bytes) :=
  match v with ScvBytes p => Some <$> deref p | _ => Returns None end.
Definition GetU128 (v : ScVal) : outcome (option UInt128Parts) :=
  match v with ScvU128 p => Some <$> deref p | _ => Returns None end.
Definition GetI128 (v : ScVal) : outcome (option Int128Parts) :=
  match v with ScvI128 p => Some <$> deref p | _ => Returns None end.
Definition GetI256 (v : ScVal) : outcome (option Int256Parts) :=
  match v with ScvI256 p => Some <$> deref p | _ => Returns None end.
Definition GetVec (v : ScVal) : outcome (option (option (list ScVal))) :=
  match v with ScvVec p => Some <$> deref p | _ => Returns None end.
Definition GetAddress (v : ScVal) : outcome (option ScAddress) :=
  match v with ScvAddress p => Some <$> deref p | _ => Returns None end.
Definition GetEd25519 (a : AccountId) : outcome (option bytes) :=
  if pk_Type a =? 0 then Some <$> deref (pk_Ed25519 a) else Returns None.
Definition GetV0 (c : ClaimableBalanceId) : outcome (option bytes) :=
  if cb_Type c =? 0 then Some <$> deref (cb_V0 c) else Returns None.

(** [v, ok := val.GetX(); if !ok { return err }]. *)
Definition need {A} (g : outcome (option A)) (msg : string) : outcome A :=
  match g with
  | Returns (Some a) => Returns a
  | Returns None => Errs (ErrorString msg)
  | Errs e => Errs e
  | Panics => Panics
  end.

(** ** Induction on values *)

Definition flat (v : ScVal) : bool :=
  match v with
  | ScvVec (Some (Some _)) | ScvMap (Some (Some _)) | ScvContractInstance (Some _) => false
  | _ => true
  end.

Definition entry_all (P : ScVal -> Prop) (e : ScMapEntry ScVal) : Prop := P (Key e) /\ P (Val e).

Section ScVal_ind.
Variable P : ScVal -> Prop.

Definition storage_all (o : option (list (ScMapEntry ScVal))) : Prop :=
  match o with Some l => Forall (entry_all P) l | None => True end.

Hypothesis Hvec : forall l, Forall P l -> P (ScvVec (Some (Some l))).
Hypothesis Hmap : forall l, Forall (entry_all P) l -> P (ScvMap (Some (Some l))).
Hypothesis Hinst : forall ex o, storage_all o ->
  P (ScvContractInstance (Some (mkScContractInstance ex o))).
Hypothesis Hflat : forall v, flat v = true -> P v.

Fixpoint ScVal_all (v : ScVal) : P v.
Proof using Hvec Hmap Hinst Hflat.
  pose proof (Hflat v) as F. destruct v; try exact (F eq_refl).
  - destruct Vec as [[l|]|]; try exact (F eq_refl). apply Hvec. clear F.
    induction l as [|a l IH]; constructor; [apply ScVal_all|exact IH].
  - destruct Map as [[l|]|]; try exact (F eq_refl). apply Hmap. clear F.
    induction l as [|a l IH]; constructor; [|exact IH].
    destruct a; split; apply ScVal_all.
  - destruct Instance as [[ex [l|]]|]; try exact (F eq_refl); clear F; apply Hinst; [|exact I].
    simpl. induction l as [|a l IH]; constructor; [|exact IH].
    destruct a; split; apply ScVal_all.
Defined.

End ScVal_ind.
