(* ===== verification/DemoCodec.v ===== *)
(** * A concrete codec for the witnesses

    An instance of [Codec] that satisfies [CodecLaws]: strkeys are hexadecimal after
    the letter of their kind, and the values the witnesses marshal are a contract
    address, in the XDR layout, and a call of a function with one u32.  It is not
    the SDK's codec and no theorem depends on it. *)

From S2P Require Import Prelude Sdk GoBytes Xdr.

Definition demo_letter (v : VersionByte) : string :=
  match v with
  | VersionByteAccountID => "G"
  | VersionByteContract => "C"
  | VersionByteMuxedContract => "W"
  end.

Definition demo_Decode (v : VersionByte) (s : string) : res bytes :=
  if String.prefix (demo_letter v) s then hex_DecodeString (drop_string 1 s)
  else Err (ErrorString "invalid version byte").

Fixpoint string_codes (s : string) : bytes :=
  match s with
  | EmptyString => []
  | String c s' => Z.of_N (Ascii.N_of_ascii c) :: string_codes s'
  end.

Fixpoint codes_string (l : bytes) : string :=
  match l with
  | [] => ""
  | b :: l' => String (Ascii.ascii_of_N (Z.to_N b)) (codes_string l')
  end.

Lemma codes_string_codes s : codes_string (string_codes s) = s.
Proof. induction s as [|c s IH]; simpl; [done|]. by rewrite N2Z.id, Ascii.ascii_N_embedding, IH. Qed.

Definition demo_Marshal (v : ScVal) : outcome bytes :=
  match v with
  | ScvAddress None => Panics
  | ScvAddress (Some (ScAddressTypeContract (Some b))) => Returns ([0; 0; 0; 18; 0; 0; 0; 1] ++ b)
  | ScvVec (Some (Some [ScvSymbol (Some f); ScvU32 (Some n)])) => Returns (16 :: n :: string_codes f)
  | _ => Errs (ErrorString "not scripted")
  end.

Definition demo_Unmarshal (l : bytes) : res ScVal :=
  match l with
  | 0 :: 0 :: 0 :: 18 :: 0 :: 0 :: 0 :: 1 :: b => Ok (ScvAddress (Some (ScAddressTypeContract (Some b))))
  | 16 :: n :: f => Ok (ScvVec (Some (Some [ScvSymbol (Some (codes_string f)); ScvU32 (Some n)])))
  | _ => Err (ErrorString "not scripted")
  end.

#[export] Instance demo_codec : Codec := {|
  strkey_Encode v b := Ok (demo_letter v +:+ hex_EncodeToString b);
  strkey_Decode := demo_Decode;
  xdr_AddressToAccountId s :=
    match demo_Decode VersionByteAccountID s with
    | Ok b => Ok (mkAccountId 0 (Some b))
    | Err e => Err e
    end;
  ScAddress_UnmarshalBinary l :=
    match l with
    | 0 :: 0 :: 0 :: 1 :: b => Ok (ScAddressTypeContract (Some b))
    | _ => Err (ErrorString "not scripted")
    end;
  ScVal_MarshalBinary := demo_Marshal;
  ScVal_UnmarshalBinary := demo_Unmarshal;
  ScVal_UnmarshalBase64 s :=
    if String.eqb s "AAAAAQ==" then Ok ScvVoid
    else if String.eqb s "AAAAAwAAAAc=" then Ok (ScvU32 (Some 7))
    else Err (ErrorString "not scripted")
|}.

Lemma demo_Decode_Encode v b :
  Forall is_byte b -> demo_Decode v (demo_letter v +:+ hex_EncodeToString b) = Ok b.
Proof.
  intros Hb. unfold demo_Decode.
  replace (String.prefix _ _) with true by (by destruct v, (hex_EncodeToString b)).
  replace (drop_string 1 _) with (hex_EncodeToString b) by (by destruct v).
  by apply hex_roundtrip.
Qed.

#[export] Instance demo_codec_laws : CodecLaws.
Proof.
  split.
  - intros b [_ Hb]. exists (hex_EncodeToString b).
    pose proof (demo_Decode_Encode VersionByteAccountID b Hb) as E. cbn in E |- *. by rewrite E.
  - intros b [_ Hb]. exists (hex_EncodeToString b). split; [done|].
    apply (demo_Decode_Encode VersionByteContract b Hb).
  - done.
  - done.
  - intros v b H. cbn in *. unfold demo_Marshal in H. split_match_in H; try done;
      simplify_eq; simpl; by rewrite ?codes_string_codes.
Qed.

(** The key 0, 1, ..., 31. *)
Definition demo_key : bytes := seqZ 0 32.

Lemma demo_key_ok : is_key demo_key.
Proof. split; [done|]. refine (bool_decide_unpack _ _). by vm_compute. Qed.
