(* ===== verification/Scval.v ===== *)
(** * Conversions between Go values and Soroban values

    Models bindings/scval/scval.go.  A [[N]byte] is a list of bytes (of length [N]
    in every call); a [*big.Int] an [option Z]; the order in which a Go map is
    ranged over is an argument.  A constructor that cannot fail is a plain
    function; a function that returns an error or can panic gives an [outcome]. *)

From S2P Require Import Prelude Sdk GoBytes Xdr.

(** ** Scalars *)

Definition Uint64ToScVal (v : Z) : ScVal := ScvU64 (Some (u64 v)).
Definition Uint32ToScVal (v : Z) : ScVal := ScvU32 (Some (u32 v)).
Definition BoolToScVal (v : bool) : ScVal := ScvBool (Some v).
Definition BytesToScVal (b : bytes) : ScVal := ScvBytes (Some b).
Definition VoidScVal : ScVal := ScvVoid.
Definition VecToScVal (items : list ScVal) : ScVal := ScvVec (Some (Some items)).
Definition SymbolToScVal (sym : string) : ScVal := ScvSymbol (Some sym).
Definition SymbolToScValPtr (sym : string) : option ScVal := Some (ScvSymbol (Some sym)).
Definition StringToScVal (s : string) : ScVal := ScvString (Some s).

Definition Uint64FromScVal (val : ScVal) : outcome Z := need (GetU64 val) "not a u64 type".
Definition Uint32FromScVal (val : ScVal) : outcome Z := need (GetU32 val) "not a u32 type".
Definition SymbolFromScVal (val : ScVal) : outcome string := need (GetSym val) "not a symbol type".
Definition StringFromScVal (val : ScVal) : outcome string := need (GetStr val) "not a string type".
Definition BytesFromScVal (val : ScVal) : outcome bytes := need (GetBytes val) "not a bytes type".

(** [if val.Type == ScvVoid { return nil, nil }], then a pointer to the value. *)
Definition optional {A} (f : ScVal -> outcome A) (val : ScVal) : outcome (option A) :=
  match val with
  | ScvVoid => Returns None
  | _ => a ← f val; Returns (Some a)
  end.

Definition OptionalStringFromScVal : ScVal -> outcome (option string) := optional StringFromScVal.
Definition OptionalUint32FromScVal : ScVal -> outcome (option Z) := optional Uint32FromScVal.

(** ** Byte arrays of fixed length *)

Definition bytesNFromScVal (val : ScVal) (n : nat) : outcome bytes :=
  b ← need (GetBytes val) "not a bytes type";
  if Nat.eqb (length b) n then Returns b
  else Errs (ErrorString "expected a different number of bytes").

Definition Bytes2ToScVal (b : bytes) : ScVal := BytesToScVal b.
Definition Bytes4ToScVal (b : bytes) : ScVal := BytesToScVal b.
Definition Bytes10ToScVal (b : bytes) : ScVal := BytesToScVal b.
Definition Bytes16ToScVal (b : bytes) : ScVal := BytesToScVal b.
Definition Bytes20ToScVal (b : bytes) : ScVal := BytesToScVal b.
Definition Bytes32ToScVal (b : bytes) : ScVal := BytesToScVal b.
Definition Bytes64ToScVal (b : bytes) : ScVal := BytesToScVal b.

Definition Bytes2FromScVal (val : ScVal) : outcome bytes := bytesNFromScVal val 2.
Definition Bytes4FromScVal (val : ScVal) : outcome bytes := bytesNFromScVal val 4.
Definition Bytes10FromScVal (val : ScVal) : outcome bytes := bytesNFromScVal val 10.
Definition Bytes16FromScVal (val : ScVal) : outcome bytes := bytesNFromScVal val 16.
Definition Bytes20FromScVal (val : ScVal) : outcome bytes := bytesNFromScVal val 20.
Definition Bytes32FromScVal (val : ScVal) : outcome bytes := bytesNFromScVal val 32.
Definition Bytes64FromScVal (val : ScVal) : outcome bytes := bytesNFromScVal val 64.

(** ** 128- and 256-bit integers *)

Definition I128FromScVal (val : ScVal) : outcome Z :=
  i128 ← need (GetI128 val) "not an i128 type";
  Returns (Z.lor (Z.shiftl (i128_Hi i128) 64) (i128_Lo i128)).

Definition I128ToScVal (v : option Z) : outcome ScVal :=
  match v with
  | None => Panics
  | Some v =>
      let max := Z.shiftl 1 127 in
      let min := - (max - 1) in
      if (v <? min) || (v >? max) then Panics
      else
        let lo := Z.land v MaxUint64 in
        let hi := i64 (Z.shiftr v 64) in
        Returns (ScvI128 (Some (mkInt128Parts hi lo)))
  end.

Definition U128ToScVal (parts : UInt128Parts) : ScVal := ScvU128 (Some parts).

(** The method of the named type [U128]. *)
Definition U128_ToScVal (u : UInt128Parts) : res ScVal := Ok (U128ToScVal u).

Definition U128FromScVal (val : ScVal) : outcome UInt128Parts :=
  need (GetU128 val) "not a u128 type".

Definition maxI256 : Z := Z.shiftl 1 255 - 1.
Definition minI256 : Z := - Z.shiftl 1 255.
Definition twoPow256 : Z := Z.shiftl 1 256.

(** [buf[i:j]]. *)
Definition slice (i j : nat) (buf : bytes) : bytes := take (j - i) (drop i buf).

Definition I256ToScVal (v : option Z) : res ScVal :=
  let v := match v with Some x => x | None => 0 end in
  if (v >? maxI256) || (v <? minI256) then Err (ErrorString "value out of i256 range")
  else
    let tc := if v <? 0 then v + twoPow256 else v in
    let buf := put_be 32 tc in
    Ok (ScvI256 (Some (mkInt256Parts
      (i64 (get_be (slice 0 8 buf)))
      (get_be (slice 8 16 buf))
      (get_be (slice 16 24 buf))
      (get_be (slice 24 32 buf))))).

Definition I256FromScVal (val : ScVal) : outcome Z :=
  parts ← need (GetI256 val) "expected i256 ScVal";
  let buf := put_be 8 (u64 (i256_HiHi parts)) ++ put_be 8 (i256_HiLo parts) ++
             put_be 8 (i256_LoHi parts) ++ put_be 8 (i256_LoLo parts) in
  let v := get_be buf in
  Returns (if Z.land (nth 0 buf 0) 128 =? 0 then v else v - twoPow256).

Definition MustToScVal (r : res ScVal) : outcome ScVal :=
  match r with Ok val => Returns val | Err _ => Panics end.

(** ** Structures *)

(** [sort.Strings]. *)
Definition sort_Strings (l : list string) : list string := merge_sort String.le l.

Definition struct_entry (fields : gmap string ScVal) (k : string) : ScMapEntry ScVal :=
  mkScMapEntry (SymbolToScVal k)
    (match fields !! k with Some v => v | None => ScvBool None end).

(** [order] is the order in which [range fields] yields the keys.  The zero
    [xdr.ScVal] that Go gives for a missing key is never read: the keys are those
    of [fields]. *)
Definition BuildStructScVal (order : list string) (fields : gmap string ScVal) : res ScVal :=
  Ok (ScvMap (Some (Some (struct_entry fields <$> sort_Strings order)))).

(** ** Addresses *)

Section Addresses.
Context `{Codec}.

Definition BuildContractScAddress (contractIDBytes : bytes) : option ScAddress :=
  if negb (Nat.eqb (length contractIDBytes) 32) then None
  else match ScAddress_UnmarshalBinary ([0; 0; 0; 1] ++ contractIDBytes) with
       | Err _ => None
       | Ok addr => Some addr
       end.

(** [copy(pubKey[:], decoded)] into a zeroed [32]byte. *)
Definition copy32 (src : bytes) : bytes := take 32 (src ++ replicate 32 0).

Definition ParseAddress (addr : string) : option ScAddress :=
  if Nat.eqb (String.length addr) 0 then None
  else if String.prefix "C" addr then
    match strkey_Decode VersionByteContract addr with
    | Err _ => None
    | Ok decoded => BuildContractScAddress decoded
    end
  else if String.prefix "G" addr then
    match strkey_Decode VersionByteAccountID addr with
    | Err _ => None
    | Ok decoded => Some (ScAddressTypeAccount (Some (mkAccountId 0 (Some (copy32 decoded)))))
    end
  else None.

Definition AddressToScVal (addr : string) : ScVal := ScvAddress (ParseAddress addr).

Definition OptionalAddressToScVal (addr : option string) : ScVal :=
  match addr with None => VoidScVal | Some a => AddressToScVal a end.

Definition AddressFromScVal (val : ScVal) : outcome string :=
  addr ← need (GetAddress val) "not an address type";
  match addr with
  | ScAddressTypeAccount p =>
      accountID ← deref p;
      match pk_Ed25519 accountID with
      | None => Errs (ErrorString "account ID has no Ed25519 key")
      | Some pubKey => out_of_res (strkey_Encode VersionByteAccountID pubKey)
      end
  | ScAddressTypeContract p =>
      contractID ← deref p;
      out_of_res (strkey_Encode VersionByteContract contractID)
  | _ => Errs (ErrorString "unsupported address type")
  end.

Definition OptionalAddressFromScVal : ScVal -> outcome (option string) := optional AddressFromScVal.

Definition RawBytesFromAddressScVal (val : ScVal) : outcome bytes :=
  addr ← need (GetAddress val) "not an address";
  match addr with
  | ScAddressTypeAccount p =>
      accountID ← deref p;
      match pk_Ed25519 accountID with
      | None => Errs (ErrorString "account ID has no Ed25519 key")
      | Some pubKey => Returns (copy32 pubKey)
      end
  | ScAddressTypeContract p =>
      contractID ← deref p;
      Returns (copy32 contractID)
  | _ => Errs (ErrorString "unsupported address type")
  end.

Definition HexToContractStrkey (hexAddr : string) : res string :=
  match hex_DecodeString (TrimPrefix hexAddr "0x") with
  | Err e => Err (Wrapf "decode hex address: " e)
  | Ok raw => strkey_Encode VersionByteContract raw
  end.

Definition BytesToContractStrkey (raw : bytes) : res string :=
  if negb (Nat.eqb (length raw) 32) then Err (ErrorString "expected 32-byte contract ID")
  else strkey_Encode VersionByteContract raw.

Definition ContractAddressWireBytes (raw : bytes) : outcome bytes :=
  match BuildContractScAddress raw with
  | None => Errs (ErrorString "expected 32-byte contract ID")
  | Some scAddr => ScVal_MarshalBinary (ScvAddress (Some scAddr))
  end.

Definition ContractIDFromWireBytes (wire : bytes) : outcome bytes :=
  if negb (Nat.eqb (length wire) 40) then Errs (ErrorString "expected 40-byte address wire envelope")
  else match ScVal_UnmarshalBinary wire with
       | Err e => Errs (Wrapf "unmarshal address ScVal envelope: " e)
       | Ok val =>
           raw ← wrap_out "decode address ScVal: " (RawBytesFromAddressScVal val);
           if negb (Nat.eqb (length raw) 32)
           then Errs (ErrorString "expected 32-byte contract ID in envelope")
           else Returns raw
       end.

(** ** Vectors *)

Definition AddressSliceToScVal (items : list string) : ScVal := VecToScVal (AddressToScVal <$> items).

Definition AddressVecFromScVal (val : ScVal) : outcome (list bytes) :=
  vec ← need (GetVec val) "not a vec type";
  match vec with
  | None => Errs (ErrorString "not a vec type")
  | Some items =>
      mapM_out (fun item => wrap_out "failed to decode address at index: "
                              (RawBytesFromAddressScVal item)) items
  end.

End Addresses.

Definition I256SliceToScVal (items : list (option Z)) : res ScVal :=
  match mapM_res (fun _ => I256ToScVal) 0 items with
  | Err e => Err e
  | Ok scVals => Ok (VecToScVal scVals)
  end.

(** A generated binding's structure. *)
Class ToScValer (T : Type) := { ToScVal : T -> res ScVal }.
#[export] Instance U128_ToScValer : ToScValer UInt128Parts := {| ToScVal := U128_ToScVal |}.

Definition StructSliceToScVal {T} `{ToScValer T} (items : list T) : outcome ScVal :=
  scVals ← mapM_out (fun item => MustToScVal (ToScVal item)) items;
  Returns (VecToScVal scVals).

Definition BytesSliceToScVal (items : list bytes) : ScVal := VecToScVal (BytesToScVal <$> items).
Definition Bytes32SliceToScVal (items : list bytes) : ScVal := VecToScVal (Bytes32ToScVal <$> items).
Definition AddressBytes32SliceToScVal (items : list bytes) : ScVal := Bytes32SliceToScVal items.
Definition Bytes4SliceToScVal (items : list bytes) : ScVal := VecToScVal (Bytes4ToScVal <$> items).
Definition Bytes16SliceToScVal (items : list bytes) : ScVal := VecToScVal (Bytes16ToScVal <$> items).
Definition Uint64SliceToScVal (items : list Z) : ScVal := VecToScVal (Uint64ToScVal <$> items).
Definition Uint32SliceToScVal (items : list Z) : ScVal := VecToScVal (Uint32ToScVal <$> items).

Definition BytesVecFromScVal (val : ScVal) : outcome (list bytes) :=
  vec ← need (GetVec val) "not a vec";
  match vec with
  | None => Errs (ErrorString "not a vec")
  | Some items => mapM_out (fun item => need (GetBytes item) "vec item is not bytes") items
  end.
