(* ===== verification/ScvalProofs.v ===== *)
(** * Correctness of the value conversions

    The 128- and 256-bit integers round-trip within the range the encoder accepts
    and the one value at its edge does not; a structure has one canonical
    encoding; addresses, contract wire envelopes and byte vectors round-trip. *)

From S2P Require Import Prelude Sdk GoBytes Xdr DemoCodec Scval.

(** ** 128-bit integers *)

Lemma words_value hi lo :
  is_u64 lo -> Z.lor (Z.shiftl hi 64) lo = hi * two64 + lo.
Proof. intros. by rewrite lor_shift_add. Qed.

Lemma low_word v : Z.land v MaxUint64 = v mod two64.
Proof. change MaxUint64 with (Z.ones 64). by rewrite Z.land_ones. Qed.

Lemma I128ToScVal_eq v :
  - (2 ^ 127 - 1) <= v <= 2 ^ 127 ->
  I128ToScVal (Some v) = Returns (ScvI128 (Some (mkInt128Parts (i64 (v / two64)) (v mod two64)))).
Proof.
  intros Hv. unfold I128ToScVal. rewrite low_word, Z.shiftr_div_pow2 by lia.
  change (Z.shiftl 1 127) with (2 ^ 127).
  rewrite (proj2 (Z.ltb_ge _ _)), Z.gtb_ltb, (proj2 (Z.ltb_ge _ _)) by lia. done.
Qed.

(** 128-bit integers survive the conversion.  Every integer strictly
    between -2^127 and 2^127 is encoded without a panic into words of 64 bits that
    decode to it, and conversely the words of any decoded integer other than
    -2^127 are the ones its encoding writes: the encoding is unique. *)
Theorem I128_roundtrip v :
  - 2 ^ 127 < v < 2 ^ 127 ->
  exists p, I128ToScVal (Some v) = Returns (ScvI128 (Some p)) /\
    I128FromScVal (ScvI128 (Some p)) = Returns v /\
    is_i64 (i128_Hi p) /\ is_u64 (i128_Lo p) /\
    forall q, is_i64 (i128_Hi q) -> is_u64 (i128_Lo q) ->
      I128FromScVal (ScvI128 (Some q)) = Returns v -> q = p.
Proof.
  intros Hv. eexists. split; [apply I128ToScVal_eq; lia|]. cbn.
  assert (Hlo : is_u64 (v mod two64)) by goint.
  assert (Hhi : i64 (v / two64) = v / two64) by (apply i64_id; goint).
  rewrite words_value, Hhi by done. split; [f_equal; goint|]. split; [goint|]. split; [done|].
  intros [hi lo] H1 H2 [= E]. cbn in *. rewrite words_value in E by done. f_equal; goint.
Qed.

Lemma I128_roundtrip_witness :
  - 2 ^ 127 < -50000000000000000000 < 2 ^ 127 /\
  exists p, I128ToScVal (Some (-50000000000000000000)) = Returns (ScvI128 (Some p)) /\
    i128_Hi p = -3.
Proof.
  split; [lia|].
  destruct (I128_roundtrip (-50000000000000000000) ltac:(lia)) as (p & E & _).
  exists p. split; [exact E|]. vm_compute in E. by simplify_eq.
Defined.

(** The range check of [I128ToScVal] is off by one at both ends.
    2^127, which does not fit, is accepted and decodes to -2^127; and -2^127, the
    least i128, panics. *)
Theorem I128_range_off_by_one :
  (exists x, I128ToScVal (Some (2 ^ 127)) = Returns x /\ I128FromScVal x = Returns (- 2 ^ 127)) /\
  I128ToScVal (Some (- 2 ^ 127)) = Panics.
Proof. split; [eexists; split|]; vm_compute; reflexivity. Qed.

(** ** 256-bit integers *)

Lemma slices4 (a b c d : bytes) :
  length a = 8%nat -> length b = 8%nat -> length c = 8%nat -> length d = 8%nat ->
  slice 0 8 (a ++ b ++ c ++ d) = a /\ slice 8 16 (a ++ b ++ c ++ d) = b /\
  slice 16 24 (a ++ b ++ c ++ d) = c /\ slice 24 32 (a ++ b ++ c ++ d) = d.
Proof.
  intros Ha Hb Hc Hd.
  do 8 (destruct a as [|? a]; [discriminate|]; destruct b as [|? b]; [discriminate|];
        destruct c as [|? c]; [discriminate|]; destruct d as [|? d]; [discriminate|]).
  by destruct a, b, c, d.
Qed.

(** Thirty-two bytes are the four words read from them. *)
Lemma quarters buf :
  length buf = 32%nat ->
  slice 0 8 buf ++ slice 8 16 buf ++ slice 16 24 buf ++ slice 24 32 buf = buf.
Proof. intros. do 33 (destruct buf as [|? buf]; [done|]). done. Qed.

Lemma slice_bytes i j buf : Forall is_byte buf -> Forall is_byte (slice i j buf).
Proof. intros. by apply Forall_take, Forall_drop. Qed.

Lemma put_word buf i :
  Forall is_byte buf -> length buf = 32%nat -> (i + 8 <= 32)%nat ->
  put_be 8 (get_be (slice i (i + 8) buf)) = slice i (i + 8) buf.
Proof.
  intros Hb Hl Hi.
  assert (L : length (slice i (i + 8) buf) = 8%nat)
    by (unfold slice; rewrite length_take, length_drop; lia).
  rewrite <- L at 1. by apply put_get_be, slice_bytes.
Qed.

Lemma word_u64 buf i :
  Forall is_byte buf -> length buf = 32%nat -> (i + 8 <= 32)%nat -> is_u64 (get_be (slice i (i + 8) buf)).
Proof.
  intros Hb Hl Hi.
  assert (L : length (slice i (i + 8) buf) = 8%nat)
    by (unfold slice; rewrite length_take, length_drop; lia).
  pose proof (get_be_range (slice i (i + 8) buf) (slice_bytes _ _ _ Hb)) as R.
  rewrite L in R. exact R.
Qed.

(** The value of 32 bytes read as a two's-complement integer. *)
Definition signed256 (buf : bytes) : Z :=
  if Z.land (nth 0 buf 0) 128 =? 0 then get_be buf else get_be buf - twoPow256.

Definition parts256 (buf : bytes) : Int256Parts :=
  mkInt256Parts (i64 (get_be (slice 0 8 buf))) (get_be (slice 8 16 buf))
    (get_be (slice 16 24 buf)) (get_be (slice 24 32 buf)).

Lemma I256FromScVal_parts256 buf :
  Forall is_byte buf -> length buf = 32%nat ->
  I256FromScVal (ScvI256 (Some (parts256 buf))) = Returns (signed256 buf).
Proof.
  intros Hb Hl. unfold I256FromScVal, parts256. cbn [GetI256 deref need fmap outcome_fmap].
  cbn [mbind outcome_bind i256_HiHi i256_HiLo i256_LoHi i256_LoLo].
  pose proof (word_u64 buf 0 Hb Hl ltac:(lia)) as W.
  pose proof (fun i => put_word buf i Hb Hl) as P.
  pose proof (P 0%nat ltac:(lia)) as P0. pose proof (P 8%nat ltac:(lia)) as P1.
  pose proof (P 16%nat ltac:(lia)) as P2. pose proof (P 24%nat ltac:(lia)) as P3.
  cbn [Nat.add] in *. rewrite u64_i64, (u64_id _ W), P0, P1, P2, P3. by rewrite (quarters _ Hl).
Qed.

Lemma land128 b : is_byte b -> (Z.land b 128 =? 0) = (b <? 128).
Proof.
  intros Hb. assert (F : Forall (fun b => (Z.land b 128 =? 0) = (b <? 128)) (seqZ 0 256)).
  { refine (bool_decide_unpack _ _). by vm_compute. }
  rewrite Forall_forall in F. apply F, list_elem_of_In, elem_of_seqZ. exact Hb.
Qed.

Lemma signed256_put v :
  minI256 <= v <= maxI256 -> signed256 (put_be 32 (if v <? 0 then v + twoPow256 else v)) = v.
Proof.
  intros Hv. set (tc := if v <? 0 then v + twoPow256 else v).
  change maxI256 with (2 ^ 255 - 1) in Hv. change minI256 with (- 2 ^ 255) in Hv.
  assert (Htc : 0 <= tc < 256 ^ Z.of_nat 32).
  { unfold tc. change twoPow256 with (256 ^ Z.of_nat 32). destruct (v <? 0) eqn:E; zbool; lia. }
  unfold signed256. rewrite (get_put_be 32 tc Htc).
  pose proof (put_be_bytes 32 tc) as Hb. pose proof (put_be_length 32 tc) as Hl.
  pose proof (get_put_be 32 tc Htc) as Hg.
  destruct (put_be 32 tc) as [|b rest]; [done|]. simpl in Hl. inversion Hb as [|? ? Hb0 Hbr]; subst.
  cbn [nth]. rewrite land128 by done. change (b :: rest) with ([b] ++ rest) in Hg.
  rewrite get_be_app in Hg by done. change (get_be [b]) with b in Hg.
  pose proof (get_be_range rest Hbr) as Hr. replace (length rest) with 31%nat in * by lia.
  change (256 ^ Z.of_nat 31) with (2 ^ 248) in *. change (256 ^ Z.of_nat 32) with (2 ^ 256) in *.
  subst tc. change twoPow256 with (2 ^ 256) in *. unfold is_byte in Hb0.
  destruct (b <? 128) eqn:E1, (v <? 0) eqn:E2; zbool; lia.
Qed.

Definition wf_parts256 (p : Int256Parts) : Prop :=
  is_i64 (i256_HiHi p) /\ is_u64 (i256_HiLo p) /\ is_u64 (i256_LoHi p) /\ is_u64 (i256_LoLo p).

Lemma parts256_wf buf : Forall is_byte buf -> length buf = 32%nat -> wf_parts256 (parts256 buf).
Proof.
  intros Hb Hl. pose proof (fun i => word_u64 buf i Hb Hl) as W.
  pose proof (W 8%nat ltac:(lia)). pose proof (W 16%nat ltac:(lia)). pose proof (W 24%nat ltac:(lia)).
  unfold wf_parts256, parts256; cbn. auto using i64_range.
Qed.

Lemma I256ToScVal_eq v :
  minI256 <= v <= maxI256 ->
  I256ToScVal (Some v) = Ok (ScvI256 (Some (parts256 (put_be 32 (if v <? 0 then v + twoPow256 else v))))).
Proof.
  intros Hv. unfold I256ToScVal.
  by rewrite Z.gtb_ltb, (proj2 (Z.ltb_ge maxI256 v)), (proj2 (Z.ltb_ge v minI256)) by lia.
Qed.

(** The bytes of four words. *)
Definition buf256 (p : Int256Parts) : bytes :=
  put_be 8 (u64 (i256_HiHi p)) ++ put_be 8 (i256_HiLo p) ++
  put_be 8 (i256_LoHi p) ++ put_be 8 (i256_LoLo p).

Lemma parts256_buf256 p : wf_parts256 p -> parts256 (buf256 p) = p.
Proof.
  intros (H1 & H2 & H3 & H4). destruct p as [a b c d]. cbn in H1, H2, H3, H4. unfold parts256, buf256.
  cbn [i256_HiHi i256_HiLo i256_LoHi i256_LoLo].
  assert (W : forall w, is_u64 w -> get_be (put_be 8 w) = w) by (intros; by apply get_put_be).
  destruct (slices4 (put_be 8 (u64 a)) (put_be 8 b) (put_be 8 c) (put_be 8 d)) as (-> & -> & -> & ->);
    [apply put_be_length..|].
  rewrite !W by auto using u64_range. by rewrite i64_u64, i64_id.
Qed.

Lemma signed256_range buf :
  Forall is_byte buf -> length buf = 32%nat ->
  minI256 <= signed256 buf <= maxI256 /\
  get_be buf = (if signed256 buf <? 0 then signed256 buf + twoPow256 else signed256 buf).
Proof.
  intros Hb Hl. destruct buf as [|b rest]; [done|]. simpl in Hl.
  inversion Hb as [|? ? Hb0 Hbr]; subst. unfold signed256. cbn [nth]. rewrite land128 by done.
  change (b :: rest) with ([b] ++ rest). rewrite get_be_app by done. change (get_be [b]) with b.
  pose proof (get_be_range rest Hbr) as Hr. replace (length rest) with 31%nat in * by lia.
  change (256 ^ Z.of_nat 31) with (2 ^ 248) in *. change twoPow256 with (2 ^ 256).
  change maxI256 with (2 ^ 255 - 1). change minI256 with (- 2 ^ 255). unfold is_byte in Hb0.
  destruct (b <? 128) eqn:E1; zbool; (split; [lia|]); destruct (_ <? 0) eqn:E2; zbool; lia.
Qed.

(** 256-bit integers survive the conversion, over the exact range
    of an i256.  An integer of [-2^255, 2^255 - 1] is encoded into well-formed
    words that decode to it; any other is refused; and well-formed words decode
    to an integer of that range, whose encoding is these words. *)
Theorem I256_bijection :
  (forall v, minI256 <= v <= maxI256 ->
     exists p, I256ToScVal (Some v) = Ok (ScvI256 (Some p)) /\ wf_parts256 p /\
       I256FromScVal (ScvI256 (Some p)) = Returns v) /\
  (forall v, ~ (minI256 <= v <= maxI256) -> exists e, I256ToScVal (Some v) = Err e) /\
  (forall p, wf_parts256 p ->
     exists v, I256FromScVal (ScvI256 (Some p)) = Returns v /\ minI256 <= v <= maxI256 /\
       I256ToScVal (Some v) = Ok (ScvI256 (Some p))).
Proof.
  split; [|split].
  - intros v Hv. eexists. split; [by apply I256ToScVal_eq|].
    split; [apply parts256_wf; auto using put_be_bytes, put_be_length|].
    rewrite I256FromScVal_parts256 by auto using put_be_bytes, put_be_length.
    by rewrite signed256_put.
  - intros v Hv. unfold I256ToScVal. rewrite Z.gtb_ltb.
    destruct (maxI256 <? v) eqn:E1; [by eexists|]. destruct (v <? minI256) eqn:E2; [by eexists|].
    zbool. lia.
  - intros p Hp.
    assert (Hb : Forall is_byte (buf256 p)) by (unfold buf256; rewrite !Forall_app; auto using put_be_bytes).
    assert (Hl : length (buf256 p) = 32%nat) by (unfold buf256; by rewrite !length_app, !put_be_length).
    destruct (signed256_range _ Hb Hl) as [R E]. exists (signed256 (buf256 p)).
    rewrite <- (parts256_buf256 p Hp) at 1. rewrite I256FromScVal_parts256 by done.
    split; [done|]. split; [done|]. rewrite I256ToScVal_eq, <- E by done.
    rewrite <- Hl, put_get_be by done. by rewrite parts256_buf256.
Qed.

(** ** Structures *)

Lemma sort_Strings_perm l l' : l ≡ₚ l' -> sort_Strings l = sort_Strings l'.
Proof.
  intros H. apply (StronglySorted_unique String.le).
  - apply (StronglySorted_merge_sort _).
  - apply (StronglySorted_merge_sort _).
  - unfold sort_Strings. by rewrite !merge_sort_Permutation.
Qed.

(** The name of an entry's field. *)
Definition entry_name (e : ScMapEntry ScVal) : option string :=
  match Key e with ScvSymbol s => s | _ => None end.

Lemma entry_names fields (l : list string) : omap entry_name (struct_entry fields <$> l) = l.
Proof. induction l as [|k l IH]; [done|]. rewrite fmap_cons. cbn. by f_equal. Qed.

Lemma sorted_strict (l : list string) :
  StronglySorted String.le l -> NoDup l -> StronglySorted (fun s t => String.le s t /\ s <> t) l.
Proof.
  induction 1 as [|k l _ IH Hall]; [constructor|]. intros [Hin Hn]%list.NoDup_cons.
  constructor; [by apply IH|]. apply list.Forall_forall. intros x Hx.
  rewrite list.Forall_forall in Hall. split; [by apply Hall|]. by intros ->.
Qed.

(** A structure has one encoding.  Whatever order the map is ranged
    over, [BuildStructScVal] gives the same map value: its keys are symbols in
    strictly increasing byte order, as Soroban requires, and looking a field up in
    it gives what the field map holds, for every name. *)
Theorem BuildStructScVal_canonical (order order' : list string) (fields : gmap string ScVal) :
  order ≡ₚ (map_to_list fields).*1 -> order' ≡ₚ (map_to_list fields).*1 ->
  exists entries, BuildStructScVal order fields = Ok (ScvMap (Some (Some entries))) /\
    BuildStructScVal order' fields = Ok (ScvMap (Some (Some entries))) /\
    StronglySorted (fun s t => String.le s t /\ s <> t) (omap entry_name entries) /\
    length entries = size fields /\
    forall k v, fields !! k = Some v <->
      exists e, e ∈ entries /\ Key e = SymbolToScVal k /\ Val e = v.
Proof.
  intros Ho Ho'. set (keys := sort_Strings order).
  assert (Hk : keys ≡ₚ (map_to_list fields).*1)
    by (unfold keys, sort_Strings; by rewrite merge_sort_Permutation).
  exists (struct_entry fields <$> keys). split; [done|]. split.
  { unfold BuildStructScVal, keys. by rewrite (sort_Strings_perm order order') by (by rewrite Ho, Ho'). }
  split; [|split].
  - rewrite entry_names.
    assert (Hs : StronglySorted String.le keys) by apply (StronglySorted_merge_sort _).
    assert (Hn : NoDup keys) by (rewrite Hk; apply NoDup_fst_map_to_list).
    by apply sorted_strict.
  - rewrite length_fmap, Hk, length_fmap. by rewrite length_map_to_list.
  - intros k v. split.
    + intros Hv. exists (struct_entry fields k). split; [|by unfold struct_entry; rewrite Hv].
      apply list_elem_of_fmap_2. rewrite Hk. apply (list_elem_of_fmap_2 fst _ (k, v)).
      by apply elem_of_map_to_list.
    + intros (e & He & K & V). apply list_elem_of_fmap in He as (k' & -> & Hin).
      unfold struct_entry, SymbolToScVal in K, V. cbn in K, V. simplify_eq.
      rewrite Hk in Hin. apply list_elem_of_fmap in Hin as ([k'' w] & ? & Hin). simplify_eq/=.
      apply elem_of_map_to_list in Hin. by rewrite Hin.
Qed.

Lemma BuildStructScVal_canonical_witness :
  let fields : gmap string ScVal :=
    <["to" := ScvU32 (Some 2)]> (<["from" := ScvU32 (Some 1)]> ∅) in
  exists entries,
    BuildStructScVal ["to"; "from"] fields = Ok (ScvMap (Some (Some entries))) /\
    omap entry_name entries = ["from"; "to"].
Proof.
  intros fields.
  destruct (BuildStructScVal_canonical ["to"; "from"] ["from"; "to"] fields) as (entries & E & _).
  - vm_compute. apply Permutation_swap || reflexivity.
  - vm_compute. apply Permutation_swap || reflexivity.
  - exists entries. split; [exact E|]. vm_compute in E. by simplify_eq.
Defined.

(** ** Addresses *)

(** The value of an account key and of a contract ID. *)
Definition account_ScVal (raw : bytes) : ScVal :=
  ScvAddress (Some (ScAddressTypeAccount (Some (mkAccountId 0 (Some raw))))).
Definition contract_ScVal (raw : bytes) : ScVal :=
  ScvAddress (Some (ScAddressTypeContract (Some raw))).

Lemma copy32_key raw : length raw = 32%nat -> copy32 raw = raw.
Proof. intros H. unfold copy32. rewrite <- H at 1. apply take_app_length. Qed.

Section Codec.
Context `{CodecLaws}.

Lemma BuildContractScAddress_key raw :
  is_key raw -> BuildContractScAddress raw = Some (ScAddressTypeContract (Some raw)).
Proof.
  intros Hk. unfold BuildContractScAddress.
  by rewrite (proj2 (Nat.eqb_eq _ _) (proj1 Hk)), (Unmarshal_ScAddress raw Hk).
Qed.

Lemma BuildContractScAddress_length raw :
  length raw <> 32%nat -> BuildContractScAddress raw = None.
Proof. intros Hk. unfold BuildContractScAddress. by rewrite (proj2 (Nat.eqb_neq _ _) Hk). Qed.

Lemma contract_strkey raw :
  is_key raw -> exists s, strkey_Encode VersionByteContract raw = Ok s /\
    AddressToScVal s = contract_ScVal raw.
Proof.
  intros Hk. destruct (Encode_contract raw Hk) as (s & E & D). exists ("C" +:+ s). split; [done|].
  unfold AddressToScVal, ParseAddress. rewrite D. cbn.
  by rewrite BuildContractScAddress_key; destruct s.
Qed.

Lemma account_strkey raw :
  is_key raw -> exists s, strkey_Encode VersionByteAccountID raw = Ok s /\
    AddressToScVal s = account_ScVal raw.
Proof.
  intros Hk. destruct (Encode_account raw Hk) as (s & E & D & _). exists ("G" +:+ s). split; [done|].
  unfold AddressToScVal, ParseAddress. rewrite D. cbn.
  by rewrite copy32_key by apply Hk; destruct s.
Qed.

(** Addresses survive the conversion, and only valid ones do.  For a
    32-byte account key or contract ID, the string read from its value parses back
    to that value and the raw bytes read are the key.  A string that is not a
    valid strkey of either kind gives an address value whose reading panics. *)
Theorem address_roundtrip raw :
  is_key raw ->
  (forall v, v = account_ScVal raw \/ v = contract_ScVal raw ->
     RawBytesFromAddressScVal v = Returns raw /\
     exists s, AddressFromScVal v = Returns s /\ AddressToScVal s = v /\
       OptionalAddressFromScVal (OptionalAddressToScVal (Some s)) = Returns (Some s)) /\
  (forall addr, ParseAddress addr = None ->
     AddressFromScVal (AddressToScVal addr) = Panics /\
     RawBytesFromAddressScVal (AddressToScVal addr) = Panics).
Proof.
  intros Hk. split.
  - assert (Hc : forall s v, AddressFromScVal v = Returns s -> AddressToScVal s = v -> v <> ScvVoid ->
        OptionalAddressFromScVal (OptionalAddressToScVal (Some s)) = Returns (Some s)).
    { intros s v E1 E2 Hn. unfold OptionalAddressFromScVal, OptionalAddressToScVal, optional.
      rewrite E2. by destruct v; try (rewrite E1). }
    intros v [->| ->].
    + split; [cbn; by rewrite copy32_key by apply Hk|].
      destruct (account_strkey raw Hk) as (s & E & P).
      assert (A : AddressFromScVal (account_ScVal raw) = Returns s) by (cbn; by rewrite E).
      exists s. eauto.
    + split; [cbn; by rewrite copy32_key by apply Hk|].
      destruct (contract_strkey raw Hk) as (s & E & P).
      assert (A : AddressFromScVal (contract_ScVal raw) = Returns s) by (cbn; by rewrite E).
      exists s. eauto.
  - intros addr Hn. unfold AddressToScVal. by rewrite Hn.
Qed.

(** The wire form of a contract address.  A 32-byte contract ID is
    rendered as a 40-byte envelope, the one the XDR layout prescribes, from which
    it is read back; a key of another length has no wire form, and an envelope of
    another length is refused before it is decoded. *)
Theorem wire_roundtrip raw :
  (is_key raw ->
     exists w, ContractAddressWireBytes raw = Returns w /\ length w = 40%nat /\
       w = [0; 0; 0; 18; 0; 0; 0; 1] ++ raw /\ ContractIDFromWireBytes w = Returns raw) /\
  (length raw <> 32%nat -> exists e, ContractAddressWireBytes raw = Errs e) /\
  (forall w, length w <> 40%nat -> exists e, ContractIDFromWireBytes w = Errs e).
Proof.
  split; [|split].
  - intros Hk. exists ([0; 0; 0; 18; 0; 0; 0; 1] ++ raw). unfold ContractAddressWireBytes.
    rewrite BuildContractScAddress_key by done. pose proof (Marshal_contract_address raw Hk) as M.
    split; [done|]. assert (L : length ([0; 0; 0; 18; 0; 0; 0; 1] ++ raw) = 40%nat)
      by (rewrite length_app, (proj1 Hk); done).
    split; [done|]. split; [done|]. unfold ContractIDFromWireBytes.
    rewrite L, (Unmarshal_Marshal _ _ M). cbn. rewrite copy32_key, (proj1 Hk) by apply Hk. done.
  - intros Hl. unfold ContractAddressWireBytes. rewrite BuildContractScAddress_length by done. eauto.
  - intros w Hl. unfold ContractIDFromWireBytes. rewrite (proj2 (Nat.eqb_neq _ _) Hl). eauto.
Qed.

(** Vectors and fixed-size byte strings are read back exactly.  A
    vector built from byte slices, and one built from the strkeys of contract IDs,
    is decoded to the same list in the same order; a [BytesN] is read from exactly
    the byte values of its length. *)
Theorem vector_roundtrip (items : list bytes) (keys : list bytes) (addrs : list string) :
  Forall is_key keys ->
  Forall2 (fun k s => strkey_Encode VersionByteContract k = Ok s) keys addrs ->
  BytesVecFromScVal (BytesSliceToScVal items) = Returns items /\
  AddressVecFromScVal (AddressSliceToScVal addrs) = Returns keys /\
  forall n val b, bytesNFromScVal val n = Returns b <-> val = ScvBytes (Some b) /\ length b = n.
Proof.
  intros Hk Ha. split; [|split].
  - cbn. apply mapM_out_Forall2, Forall2_fmap_l. induction items; constructor; done.
  - cbn. apply mapM_out_Forall2. apply Forall2_fmap_l, Forall2_flip.
    induction Ha as [|k s ks ss E _ IH]; [constructor|].
    constructor; [|by apply IH, (Forall_inv_tail Hk)]. apply Forall_inv in Hk. unfold flip.
    destruct (contract_strkey k Hk) as (s' & E' & P). rewrite E in E'. injection E' as <-.
    unfold compose. rewrite P. cbn. by rewrite copy32_key by apply Hk.
  - intros n val b. unfold bytesNFromScVal. split.
    + destruct val as [| | | | | | | | | | | | |[x|]| | | | | | | | |]; try done. cbn.
      destruct (Nat.eqb (length x) n) eqn:E; [|done]. intros [= ->].
      split; [done|by apply Nat.eqb_eq].
    + intros [-> <-]. cbn. by rewrite Nat.eqb_refl.
Qed.

End Codec.

Lemma address_roundtrip_witness :
  exists s, AddressFromScVal (account_ScVal demo_key) = Returns s /\
    AddressToScVal s = account_ScVal demo_key.
Proof.
  destruct (address_roundtrip demo_key demo_key_ok) as [R _].
  destruct (R (account_ScVal demo_key) (or_introl eq_refl)) as (_ & s & A & B & _).
  exists s. split; [exact A|exact B].
Defined.

Lemma wire_roundtrip_witness :
  ContractAddressWireBytes demo_key = Returns ([0; 0; 0; 18; 0; 0; 0; 1] ++ demo_key) /\
  ContractIDFromWireBytes ([0; 0; 0; 18; 0; 0; 0; 1] ++ demo_key) = Returns demo_key.
Proof.
  destruct (wire_roundtrip demo_key) as [R _].
  destruct (R demo_key_ok) as (w & A & _ & -> & B). split; [exact A|exact B].
Defined.

Lemma vector_roundtrip_witness :
  AddressVecFromScVal (AddressSliceToScVal [("C" +:+ hex_EncodeToString demo_key)%string])
  = Returns [demo_key].
Proof.
  apply (vector_roundtrip [[1]; []] [demo_key] [("C" +:+ hex_EncodeToString demo_key)%string]).
  - constructor; [apply demo_key_ok|constructor].
  - constructor; [reflexivity|constructor].
Defined.
