(* ===== verification/TypeConverters.v ===== *)
(** * Conversions between the domain's Stellar types and the SDK's

    Models relayer/type_converters.go.  [Module stellartypes] is the shape of the
    domain types (chainlink-common) as the converters use them: the discriminant of
    a tagged struct is the constructor, the field it selects the payload, a pointer
    an [option]; fields of the other variants are never read or written.
    [Module protocol] is the same for the RPC's request and response types. *)

From S2P Require Import Prelude Sdk GoBytes Xdr DemoCodec Scval.

Module stellartypes.

Record MuxedEd25519Account := mkMuxed { ID : Z; Ed25519 : bytes }.

Inductive ScAddress :=
| AccountID (AccountID : bytes)
| ContractID (ContractID : bytes)
| MuxedAccount (MuxedAccount : option MuxedEd25519Account)
| ClaimableBalanceID (V0 : option bytes)
| LiquidityPoolID (LiquidityPoolID : bytes)
| AddressOther (t : Z).

Inductive ScErrorType :=
| ErrContract | ErrWasmVM | ErrContext | ErrStorage | ErrObject | ErrCrypto
| ErrEvents | ErrBudget | ErrValue | ErrAuth.

Record ScError := mkScError { Type_ : ScErrorType; ContractCode : option Z; Code : option Z }.

Inductive ContractExecutable :=
| WasmHash (WasmHash : bytes)
| StellarAsset (StellarAsset : bool).

#[local] Set Warnings "-register-all".

Inductive ScVal :=
| Bool (Bool : option bool)
| Void
| Error (Error : option ScError)
| U32 (U32 : option Z)
| I32 (I32 : option Z)
| U64 (U64 : option Z)
| I64 (I64 : option Z)
| Timepoint (Timepoint : option Z)
| Duration (Duration : option Z)
| U128 (U128 : option UInt128Parts)
| I128 (I128 : option Int128Parts)
| U256 (U256 : option UInt256Parts)
| I256 (I256 : option Int256Parts)
| Bytes (Bytes : bytes)
| String_ (String_ : option string)
| Symbol (Symbol : option string)
| Vec (Values : option (list (option ScVal)))
| Map (Entries : option (list (ScMapEntry (option ScVal))))
| Address (Address : option ScAddress)
| ContractInstance (Executable : ContractExecutable) (Storage : list (ScMapEntry (option ScVal)))
| LedgerKeyContractInstance
| NonceKey (Nonce : Z)
| ValOther (t : Z).

Inductive EventType := EventTypeSystem | EventTypeContract | EventTypeOther (t : Z).

Record TopicSegment := mkSegment { Wildcard : option string; Value : option ScVal }.

Record EventFilter := mkEventFilter {
  EventTypes : list EventType;
  ContractIDs : list string;
  Topics : list (list TopicSegment)
}.

Record Pagination_ := mkPagination { Cursor : string; Limit : Z }.

Record GetEventsRequest := mkGetEventsRequest {
  StartLedger : Z;
  EndLedger : Z;
  Filters : list EventFilter;
  Pagination : option Pagination_
}.

Record EventInfo := mkEventInfo {
  ev_EventType : EventType;
  ev_Ledger : Z;
  ev_LedgerClosedAt : string;
  ev_ContractID : string;
  ev_ID : string;
  ev_OperationIndex : Z;
  ev_TransactionIndex : Z;
  ev_TransactionHash : string;
  ev_Topics : list ScVal;
  ev_Value : ScVal
}.

Record GetEventsResponse := mkGetEventsResponse {
  r_Events : list EventInfo;
  r_Cursor : string;
  r_LatestLedger : Z;
  r_OldestLedger : Z;
  r_LatestLedgerCloseTime : Z;
  r_OldestLedgerCloseTime : Z
}.

(** The string constants of [SimulateAuthMode], those of the RPC's authMode. *)
Definition SimulateAuthModeEnforce : string := "enforce".
Definition SimulateAuthModeRecord : string := "record".
Definition SimulateAuthModeRecordAllowNonroot : string := "record_allow_nonroot".

End stellartypes.

Module protocol.

Definition EventTypeSystem : string := "system".
Definition EventTypeContract : string := "contract".
Definition WildCardExactOne : string := "*".
Definition WildCardZeroOrMore : string := "**".
Definition FormatBase64 : string := "base64".

(** The RPC's paging cursors: [cursor.Cmp(other)] and [cursor.Ledger]. *)
Class Cursors := {
  Cursor : Type;
  ParseCursor : string -> res Cursor;
  Cmp : Cursor -> Cursor -> Z;
  Cursor_Ledger : Cursor -> Z
}.

Record SegmentFilter := mkSegmentFilter { Wildcard : option string; ScVal_ : option ScVal }.

Record EventFilter := mkEventFilter {
  EventType : gset string;
  ContractIDs : list string;
  Topics : list (list SegmentFilter)
}.

Record PaginationOptions `{Cursors} := mkPaginationOptions { PCursor : option Cursor; Limit : Z }.

Record GetEventsRequest `{Cursors} := mkGetEventsRequest {
  StartLedger : Z;
  EndLedger : Z;
  Filters : list EventFilter;
  Pagination : option PaginationOptions;
  Format : string
}.

Record EventInfo := mkEventInfo {
  ev_EventType : string;
  ev_Ledger : Z;
  ev_LedgerClosedAt : string;
  ev_ContractID : string;
  ev_ID : string;
  ev_OpIndex : Z;
  ev_TxIndex : Z;
  ev_TransactionHash : string;
  ev_TopicXDR : list string;
  ev_ValueXDR : string
}.

Record GetEventsResponse := mkGetEventsResponse {
  r_Events : list EventInfo;
  r_Cursor : string;
  r_LatestLedger : Z;
  r_OldestLedger : Z;
  r_LatestLedgerCloseTime : Z;
  r_OldestLedgerCloseTime : Z
}.

End protocol.

Definition fail {A} (msg : string) : outcome A := Errs (ErrorString msg).

Definition errNilScValField (name : string) : error :=
  ErrorString ("scVal of declared type has nil " +:+ name +:+ " field").

(** [if field == nil { return errNilScValField(name) }], then the converted value. *)
Definition field {A B} (name : string) (f : option A -> B) (p : option A) : outcome B :=
  match p with
  | None => Errs (errNilScValField name)
  | Some a => Returns (f (Some a))
  end.

(** The same for a payload of the SDK's type. *)
Definition present {A B} (msg : string) (f : option A -> B) (p : option A) : outcome B :=
  match p with
  | None => fail msg
  | Some a => Returns (f (Some a))
  end.

Section Converters.
Context `{Codec}.
Import stellartypes.

(** ** Arguments: from the domain to the SDK *)

Definition convertAddressToDomain (a : stellartypes.ScAddress) : outcome Xdr.ScAddress :=
  match a with
  | AccountID b =>
      if negb (Nat.eqb (length b) 32) then fail "account id must be 32 bytes"
      else
        gAddr ← wrap_out "encode account id: " (out_of_res (strkey_Encode VersionByteAccountID b));
        accountID ← wrap_out "build account address: " (out_of_res (xdr_AddressToAccountId gAddr));
        Returns (ScAddressTypeAccount (Some accountID))
  | ContractID b =>
      if negb (Nat.eqb (length b) 32) then fail "contract id must be 32 bytes"
      else match BuildContractScAddress b with
           | None => fail "failed to build contract address"
           | Some addr => Returns addr
           end
  | _ => fail "unsupported ScAddress type as contract argument"
  end.

Fixpoint convertScValFromDomain (v : stellartypes.ScVal) : outcome Xdr.ScVal :=
  match v with
  | Bool p => field "Bool" ScvBool p
  | Void => Returns ScvVoid
  | U32 p => field "U32" ScvU32 p
  | I32 p => field "I32" ScvI32 p
  | U64 p => field "U64" ScvU64 p
  | I64 p => field "I64" ScvI64 p
  | Timepoint p => field "Timepoint" ScvTimepoint p
  | Duration p => field "Duration" ScvDuration p
  | U128 p => field "U128" ScvU128 p
  | I128 p => field "I128" ScvI128 p
  | U256 p => field "U256" ScvU256 p
  | I256 p => field "I256" ScvI256 p
  | Bytes b => Returns (ScvBytes (Some b))
  | String_ p => field "String" ScvString p
  | Symbol p => field "Symbol" ScvSymbol p
  | Vec None => Errs (errNilScValField "Vec")
  | Vec (Some values) =>
      items ← mapM_out (fun e =>
                match e with
                | None => fail "vec element is nil"
                | Some e => wrap_out "vec element: " (convertScValFromDomain e)
                end) values;
      Returns (ScvVec (Some (Some items)))
  | Map None => Errs (errNilScValField "Map")
  | Map (Some es) =>
      entries ← mapM_out (fun e =>
                  match e with
                  | mkScMapEntry (Some key) (Some val) =>
                      k ← wrap_out "map entry key: " (convertScValFromDomain key);
                      val ← wrap_out "map entry val: " (convertScValFromDomain val);
                      Returns (mkScMapEntry k val)
                  | _ => fail "map entry has nil key or val"
                  end) es;
      Returns (ScvMap (Some (Some entries)))
  | Address None => Errs (errNilScValField "Address")
  | Address (Some a) =>
      addr ← convertAddressToDomain a;
      Returns (ScvAddress (Some addr))
  | _ => fail "unsupported ScVal type as contract argument"
  end.

Definition convertScValsToDomain (vals : list stellartypes.ScVal) : outcome (list Xdr.ScVal) :=
  mapM_out (fun v => wrap_out "arg: " (convertScValFromDomain v)) vals.

(** ** Results: from the SDK to the domain *)

Definition muxedContractAddress (m : MuxedContract) : string :=
  let raw := mc_ContractId m ++ put_be 8 (mc_Id m) in
  match strkey_Encode VersionByteMuxedContract raw with
  | Err _ => hex_EncodeToString raw
  | Ok addr => addr
  end.

Definition convertScAddressToDomain (value : Xdr.ScAddress) : outcome stellartypes.ScAddress :=
  match value with
  | ScAddressTypeAccount None => fail "account id is nil"
  | ScAddressTypeAccount (Some a) =>
      ed25519 ← need (GetEd25519 a) "account id ed25519 arm is not set";
      Returns (AccountID ed25519)
  | ScAddressTypeContract None => fail "contract id is nil"
  | ScAddressTypeContract (Some hash) => Returns (ContractID hash)
  | ScAddressTypeMuxedAccount None => fail "muxed account is nil"
  | ScAddressTypeMuxedAccount (Some m) => Returns (MuxedAccount (Some (mkMuxed (ma_Id m) (ma_Ed25519 m))))
  | ScAddressTypeClaimableBalance None => fail "claimable balance id is nil"
  | ScAddressTypeClaimableBalance (Some c) =>
      v0 ← need (GetV0 c) "claimable balance v0 arm is not set";
      Returns (ClaimableBalanceID (Some v0))
  | ScAddressTypeLiquidityPool None => fail "liquidity pool id is nil"
  | ScAddressTypeLiquidityPool (Some hash) => Returns (LiquidityPoolID hash)
  | ScAddressTypeMuxedContract None => fail "muxed contract is nil"
  | ScAddressTypeMuxedContract (Some m) =>
      fail ("muxed contract address " +:+ muxedContractAddress m +:+
            " is not supported by the domain sc address type")
  | ScAddressTypeUnknown _ => fail "unsupported sc address type"
  end.

Definition convertContractExecutableToDomain (value : Xdr.ContractExecutable)
    : outcome stellartypes.ContractExecutable :=
  match value with
  | ContractExecutableWasm None => fail "wasm hash is nil"
  | ContractExecutableWasm (Some h) => Returns (WasmHash h)
  | ContractExecutableStellarAsset => Returns (StellarAsset true)
  | ContractExecutableUnknown _ => fail "unsupported contract executable type"
  end.

Definition convertScErrorTypeToDomain (value : Xdr.ScErrorType) : outcome stellartypes.ScErrorType :=
  match value with
  | SceContract => Returns ErrContract
  | SceWasmVm => Returns ErrWasmVM
  | SceContext => Returns ErrContext
  | SceStorage => Returns ErrStorage
  | SceObject => Returns ErrObject
  | SceCrypto => Returns ErrCrypto
  | SceEvents => Returns ErrEvents
  | SceBudget => Returns ErrBudget
  | SceValue => Returns ErrValue
  | SceAuth => Returns ErrAuth
  | SceUnknown _ => fail "unsupported sc error type"
  end.

Definition convertScErrorToDomain (value : Xdr.ScError) : outcome stellartypes.ScError :=
  errorType ← convertScErrorTypeToDomain (se_Type value);
  match se_Type value with
  | SceContract =>
      match se_ContractCode value with
      | None => fail "contract error code is nil"
      | Some code => Returns (mkScError errorType (Some code) None)
      end
  | _ =>
      match se_Code value with
      | None => fail "error code is nil"
      | Some code => Returns (mkScError errorType None (Some code))
      end
  end.

(** [convertScMapToDomain] and [convertScContractInstanceToDomain] over the
    conversion of the values they contain, which calls them. *)
Section Nested.
Variable convert : Xdr.ScVal -> outcome stellartypes.ScVal.

Definition convertScMapToDomain (m : list (ScMapEntry Xdr.ScVal))
    : outcome (list (ScMapEntry (option stellartypes.ScVal))) :=
  mapM_out (fun entry =>
    match entry with
    | mkScMapEntry key val =>
        key ← wrap_out "map.key: " (convert key);
        val ← wrap_out "map.val: " (convert val);
        Returns (mkScMapEntry (Some key) (Some val))
    end) m.

Definition convertScContractInstanceToDomain (value : Xdr.ScContractInstance Xdr.ScVal)
    : outcome stellartypes.ScVal :=
  match value with
  | mkScContractInstance ex storage =>
      executable ← wrap_out "executable: " (convertContractExecutableToDomain ex);
      match storage with
      | None => Returns (ContractInstance executable [])
      | Some m =>
          storage ← wrap_out "storage: " (convertScMapToDomain m);
          Returns (ContractInstance executable storage)
      end
  end.

End Nested.

Fixpoint convertScValToDomain (value : Xdr.ScVal) : outcome stellartypes.ScVal :=
  match value with
  | ScvBool p => present "bool value is nil" Bool p
  | ScvVoid => Returns Void
  | ScvError None => fail "error value is nil"
  | ScvError (Some e) =>
      converted ← convertScErrorToDomain e;
      Returns (Error (Some converted))
  | ScvU32 p => present "u32 value is nil" U32 p
  | ScvI32 p => present "i32 value is nil" I32 p
  | ScvU64 p => present "u64 value is nil" U64 p
  | ScvI64 p => present "i64 value is nil" I64 p
  | ScvTimepoint p => present "timepoint value is nil" Timepoint p
  | ScvDuration p => present "duration value is nil" Duration p
  | ScvU128 p => present "u128 value is nil" U128 p
  | ScvI128 p => present "i128 value is nil" I128 p
  | ScvU256 p => present "u256 value is nil" U256 p
  | ScvI256 p => present "i256 value is nil" I256 p
  | ScvBytes None => fail "bytes value is nil"
  | ScvBytes (Some b) => Returns (Bytes b)
  | ScvString p => present "string value is nil" String_ p
  | ScvSymbol p => present "symbol value is nil" Symbol p
  | ScvVec None => fail "vec value is nil"
  | ScvVec (Some None) => Returns (Vec (Some []))
  | ScvVec (Some (Some items)) =>
      values ← mapM_out (fun item =>
                 converted ← wrap_out "vec: " (convertScValToDomain item);
                 Returns (Some converted)) items;
      Returns (Vec (Some values))
  | ScvMap None => fail "map value is nil"
  | ScvMap (Some None) => Returns (Map (Some []))
  | ScvMap (Some (Some m)) =>
      entries ← convertScMapToDomain convertScValToDomain m;
      Returns (Map (Some entries))
  | ScvAddress None => fail "address value is nil"
  | ScvAddress (Some a) =>
      converted ← convertScAddressToDomain a;
      Returns (Address (Some converted))
  | ScvContractInstance None => fail "contract instance value is nil"
  | ScvContractInstance (Some i) => convertScContractInstanceToDomain convertScValToDomain i
  | ScvLedgerKeyContractInstance => Returns LedgerKeyContractInstance
  | ScvLedgerKeyNonce None => fail "nonce key value is nil"
  | ScvLedgerKeyNonce (Some n) => Returns (NonceKey n)
  | ScvUnknown _ => fail "unsupported scval type"
  end.

Definition decodeScValBase64ToDomain (encoded : string) : outcome stellartypes.ScVal :=
  match ScVal_UnmarshalBase64 encoded with
  | Err e => Errs e
  | Ok value => convertScValToDomain value
  end.

(** ** Event requests *)

Definition convertTopicFilterFromDomain (topic : list TopicSegment)
    : outcome (list protocol.SegmentFilter) :=
  if Nat.eqb (length topic) 0 then fail "topic filter must have at least one segment"
  else
    mapM_out (fun segment =>
      match Wildcard segment, Value segment with
      | Some _, Some _ => fail "topic segment cannot set both wildcard and value"
      | None, None => fail "topic segment must set either wildcard or value"
      | Some w, None =>
          if negb (String.eqb w protocol.WildCardExactOne) && negb (String.eqb w protocol.WildCardZeroOrMore)
          then fail "wildcard must be '*' or '**'"
          else Returns (protocol.mkSegmentFilter (Some w) None)
      | None, Some v =>
          value ← wrap_out "value: " (convertScValFromDomain v);
          Returns (protocol.mkSegmentFilter None (Some value))
      end) topic.

Definition convertEventFilterFromDomain (f : stellartypes.EventFilter)
    : outcome protocol.EventFilter :=
  eventTypes ← mapM_out (fun eventType =>
                 match eventType with
                 | EventTypeSystem => Returns protocol.EventTypeSystem
                 | EventTypeContract => Returns protocol.EventTypeContract
                 | EventTypeOther _ => fail "unsupported event type"
                 end) (EventTypes f);
  topics ← mapM_out (fun topic => wrap_out "topics: " (convertTopicFilterFromDomain topic)) (Topics f);
  Returns (protocol.mkEventFilter (list_to_set eventTypes) (ContractIDs f) topics).

Definition convertGetEventsRequestsFromDomain `{protocol.Cursors} (req : stellartypes.GetEventsRequest)
    : outcome protocol.GetEventsRequest :=
  if negb (StartLedger req =? 0) && negb (EndLedger req =? 0) && (StartLedger req >? EndLedger req)
  then fail "invalid ledger range: startLedger must be <= endLedger"
  else
    filters ← mapM_out (fun f => wrap_out "filters: " (convertEventFilterFromDomain f)) (Filters req);
    let out pagination := protocol.mkGetEventsRequest _ (StartLedger req) (EndLedger req) filters
                            pagination protocol.FormatBase64 in
    match Pagination req with
    | None => Returns (out None)
    | Some p =>
        if String.eqb (Cursor p) "" then
          Returns (out (Some (protocol.mkPaginationOptions _ None (u64 (Limit p)))))
        else
          cursor ← wrap_out "pagination.cursor: " (out_of_res (protocol.ParseCursor (Cursor p)));
          Returns (out (Some (protocol.mkPaginationOptions _ (Some cursor) (u64 (Limit p)))))
    end.

(** ** Event responses *)

Definition convertEventInfoToDomain (event : protocol.EventInfo) : outcome stellartypes.EventInfo :=
  if protocol.ev_Ledger event <? 0 then fail "ledger must be non-negative"
  else
    eventType ← (if String.eqb (protocol.ev_EventType event) protocol.EventTypeSystem
                 then Returns EventTypeSystem
                 else if String.eqb (protocol.ev_EventType event) protocol.EventTypeContract
                 then Returns EventTypeContract
                 else fail "unsupported event type");
    topics ← mapM_out (fun topicXDR => wrap_out "topics: " (decodeScValBase64ToDomain topicXDR))
               (protocol.ev_TopicXDR event);
    if String.eqb (protocol.ev_ValueXDR event) "" then fail "value is required"
    else
      value ← wrap_out "value: " (decodeScValBase64ToDomain (protocol.ev_ValueXDR event));
      Returns (mkEventInfo eventType (u32 (protocol.ev_Ledger event)) (protocol.ev_LedgerClosedAt event)
              (protocol.ev_ContractID event) (protocol.ev_ID event) (protocol.ev_OpIndex event)
              (protocol.ev_TxIndex event) (protocol.ev_TransactionHash event) topics value).

Definition convertGetEventsResponseToDomain (resp : protocol.GetEventsResponse)
    : outcome stellartypes.GetEventsResponse :=
  events ← mapM_out (fun event => wrap_out "events: " (convertEventInfoToDomain event))
             (protocol.r_Events resp);
  Returns (mkGetEventsResponse events (protocol.r_Cursor resp) (protocol.r_LatestLedger resp)
          (protocol.r_OldestLedger resp) (protocol.r_LatestLedgerCloseTime resp)
          (protocol.r_OldestLedgerCloseTime resp)).

Definition validateSimulateAuthMode (mode : string) : res string :=
  if String.eqb mode "" then Ok SimulateAuthModeRecord
  else if String.eqb mode SimulateAuthModeEnforce || String.eqb mode SimulateAuthModeRecord ||
          String.eqb mode SimulateAuthModeRecordAllowNonroot then Ok mode
  else Err (ErrorString ("unsupported auth mode: " +:+ mode)).

End Converters.
