(* ===== verification/TypeConvertersProofs.v ===== *)
(** * Correctness of the type converters

    A contract argument converted to the SDK's value and back is unchanged; every
    value the XDR decoder can produce is converted, muxed contract addresses
    excepted, and converts back exactly when it is an argument; an event request is
    translated filter by filter and refused exactly when it is ill-formed; event
    responses keep their order and their ledger numbers. *)

From S2P Require Import Prelude Sdk GoBytes Xdr DemoCodec Scval ScvalProofs TypeConverters.

(** ** Outcomes that are decided by a predicate *)

(** [o] succeeds if [b] and otherwise fails with an error: it never panics. *)
Definition verdict {A} (b : bool) (o : outcome A) : Prop :=
  if b then exists a, o = Returns a else exists e, o = Errs e.

Lemma verdict_done {A} (a : A) : verdict true (Returns a).
Proof. by exists a. Qed.

Lemma verdict_failed {A} e : verdict false (@Errs A e).
Proof. by exists e. Qed.

Lemma verdict_wrap {A} b pre (o : outcome A) : verdict b o -> verdict b (wrap_out pre o).
Proof. destruct b; intros [x ->]; simpl; eauto using verdict_done, verdict_failed. Qed.

Lemma verdict_bind {A B} b c (o : outcome A) (k : A -> outcome B) :
  verdict b o -> (forall a, o = Returns a -> verdict c (k a)) -> verdict (b && c) (a ← o; k a).
Proof.
  destruct b; intros [x ->] Hk; simpl; [by apply Hk|]. apply verdict_failed.
Qed.

Lemma verdict_map {A B} b (o : outcome A) (k : A -> B) :
  verdict b o -> verdict b (a ← o; Returns (k a)).
Proof.
  intros H. rewrite <- (andb_true_r b). apply verdict_bind; [done|]. intros; apply verdict_done.
Qed.

Lemma verdict_mapM {A B} (p : A -> bool) (f : A -> outcome B) l :
  Forall (fun a => verdict (p a) (f a)) l -> verdict (forallb p l) (mapM_out f l).
Proof.
  induction 1 as [|a l Ha _ IH]; simpl; [apply verdict_done|].
  destruct (p a); destruct Ha as [x ->]; [|apply verdict_failed].
  simpl. destruct (forallb p l); destruct IH as [y ->]; [apply verdict_done|apply verdict_failed].
Qed.

Arguments verdict : simpl never.
#[export] Hint Resolve verdict_done verdict_failed : verdict.

Lemma wrap_Done {A} pre (o : outcome A) a : wrap_out pre o = Returns a <-> o = Returns a.
Proof. by destruct o. Qed.

Lemma bind_Done {A B} (o : outcome A) (k : A -> outcome B) b :
  (a ← o; k a) = Returns b <-> exists a, o = Returns a /\ k a = Returns b.
Proof.
  destruct o as [a|e|]; simpl; [|split; [done|by intros (? & ? & ?)]..].
  split; [eauto|]. by intros (? & [= <-] & ?).
Qed.

Lemma forallb_Forall {A} (p : A -> bool) l : forallb p l = true <-> Forall (fun a => p a = true) l.
Proof. rewrite forallb_forall, List.Forall_forall. done. Qed.

(** [o] is the value [y] if [b] and an error otherwise. *)
Definition yields {A} (b : bool) (y : A) (o : outcome A) : Prop :=
  if b then o = Returns y else exists e, o = Errs e.

Lemma yields_wrap {A} b (y : A) pre o : yields b y o -> yields b y (wrap_out pre o).
Proof. destruct b; unfold yields; [by intros ->|]. intros [e ->]. simpl. eauto. Qed.

Lemma yields_bind {A B} b c (y : A) (z : B) o k :
  yields b y o -> yields c z (k y) -> yields (b && c) z (a ← o; k a).
Proof. destruct b; unfold yields at 1; [by intros ->|]. intros [e ->] _. simpl. by exists e. Qed.

Lemma yields_map {A B} b (y : A) o (k : A -> B) : yields b y o -> yields b (k y) (a ← o; Returns (k a)).
Proof. intros Ho. rewrite <- (andb_true_r b). by eapply yields_bind. Qed.

Lemma yields_mapM {A B C} (p : A -> bool) (g : A -> C) (f : B -> outcome C) l l' :
  Forall2 (fun a b => yields (p a) (g a) (f b)) l l' ->
  yields (forallb p l) (map g l) (mapM_out f l').
Proof.
  induction 1 as [|a b l l' Ha _ IH]; simpl; [done|].
  destruct (p a); simpl in Ha; [rewrite Ha|by destruct Ha as [e ->]; exists e].
  simpl. destruct (forallb p l); simpl in IH; [by rewrite IH|by destruct IH as [e ->]; exists e].
Qed.

(** ** Predicates on values *)

Definition byteb (x : Z) : bool := (0 <=? x) && (x <? 256).
Definition keyb (b : bytes) : bool := Nat.eqb (length b) 32 && forallb byteb b.

Lemma keyb_spec b : keyb b = true <-> is_key b.
Proof.
  unfold keyb, is_key. rewrite andb_true_iff, Nat.eqb_eq, forallb_Forall.
  split; intros [? H]; (split; [done|]); (eapply list.Forall_impl; [exact H|]); intros x;
    unfold byteb, is_byte; rewrite andb_true_iff, Z.leb_le, Z.ltb_lt; lia.
Qed.

(** The addresses the XDR decoder produces: the selected arm is set and its
    byte arrays have their length. *)
Definition decoded_address (a : ScAddress) : bool :=
  match a with
  | ScAddressTypeAccount (Some (mkAccountId 0 (Some k))) => keyb k
  | ScAddressTypeContract (Some k) => keyb k
  | ScAddressTypeMuxedAccount (Some m) => keyb (ma_Ed25519 m)
  | ScAddressTypeClaimableBalance (Some (mkClaimableBalanceId 0 (Some k))) => keyb k
  | ScAddressTypeLiquidityPool (Some k) => keyb k
  | ScAddressTypeMuxedContract (Some m) => keyb (mc_ContractId m)
  | _ => false
  end.

Definition decoded_error (e : ScError) : bool :=
  match se_Type e with
  | SceUnknown _ => false
  | SceContract => bool_decide (is_Some (se_ContractCode e))
  | _ => bool_decide (is_Some (se_Code e))
  end.

Definition decoded_executable (e : ContractExecutable) : bool :=
  match e with
  | ContractExecutableWasm (Some h) => keyb h
  | ContractExecutableStellarAsset => true
  | _ => false
  end.

(** The values the XDR decoder produces. *)
Fixpoint decoded (v : ScVal) : bool :=
  match v with
  | ScvBool p => bool_decide (is_Some p)
  | ScvVoid | ScvLedgerKeyContractInstance => true
  | ScvU32 p | ScvI32 p | ScvU64 p | ScvI64 p | ScvTimepoint p | ScvDuration p
  | ScvLedgerKeyNonce p => bool_decide (is_Some p)
  | ScvU128 p => bool_decide (is_Some p)
  | ScvI128 p => bool_decide (is_Some p)
  | ScvU256 p => bool_decide (is_Some p)
  | ScvI256 p => bool_decide (is_Some p)
  | ScvBytes p => bool_decide (is_Some p)
  | ScvString p | ScvSymbol p => bool_decide (is_Some p)
  | ScvError (Some e) => decoded_error e
  | ScvVec (Some None) | ScvMap (Some None) => true
  | ScvVec (Some (Some l)) => forallb decoded l
  | ScvMap (Some (Some l)) =>
      forallb (fun e => match e with mkScMapEntry k v => decoded k && decoded v end) l
  | ScvAddress (Some a) => decoded_address a
  | ScvContractInstance (Some (mkScContractInstance ex o)) =>
      decoded_executable ex &&
      match o with
      | None => true
      | Some l => forallb (fun e => match e with mkScMapEntry k v => decoded k && decoded v end) l
      end
  | _ => false
  end.

(** No muxed contract address occurs in the value. *)
Fixpoint representable (v : ScVal) : bool :=
  match v with
  | ScvVec (Some (Some l)) => forallb representable l
  | ScvMap (Some (Some l)) =>
      forallb (fun e => match e with mkScMapEntry k v => representable k && representable v end) l
  | ScvAddress (Some (ScAddressTypeMuxedContract _)) => false
  | ScvContractInstance (Some (mkScContractInstance _ (Some l))) =>
      forallb (fun e => match e with mkScMapEntry k v => representable k && representable v end) l
  | _ => true
  end.

(** The kinds of values a contract takes as arguments: no error, contract
    instance or ledger key, and only account and contract addresses. *)
Fixpoint argument (v : ScVal) : bool :=
  match v with
  | ScvError _ | ScvContractInstance _ | ScvLedgerKeyContractInstance | ScvLedgerKeyNonce _
  | ScvUnknown _ => false
  | ScvVec (Some (Some l)) => forallb argument l
  | ScvMap (Some (Some l)) =>
      forallb (fun e => match e with mkScMapEntry k v => argument k && argument v end) l
  | ScvAddress (Some (ScAddressTypeAccount _)) | ScvAddress (Some (ScAddressTypeContract _)) => true
  | ScvAddress _ => false
  | _ => true
  end.

(** The absent vector and map of the optional XDR arms, made empty. *)
Fixpoint present_collections (v : ScVal) : ScVal :=
  match v with
  | ScvVec (Some None) => ScvVec (Some (Some []))
  | ScvVec (Some (Some l)) => ScvVec (Some (Some (map present_collections l)))
  | ScvMap (Some None) => ScvMap (Some (Some []))
  | ScvMap (Some (Some l)) =>
      ScvMap (Some (Some (map (fun e => match e with mkScMapEntry k v =>
        mkScMapEntry (present_collections k) (present_collections v) end) l)))
  | _ => v
  end.

(** ** Scalars and addresses *)

Lemma present_verdict {A B} msg (f : option A -> B) p :
  verdict (bool_decide (is_Some p)) (present msg f p).
Proof. destruct p; [apply verdict_done|apply verdict_failed]. Qed.

Section Converters.
Context `{CodecLaws}.

Lemma convertScAddressToDomain_verdict a :
  decoded_address a = true ->
  verdict (match a with ScAddressTypeMuxedContract _ => false | _ => true end)
    (convertScAddressToDomain a).
Proof.
  destruct a as [[[[| |] [k|]]|]|[k|]|[m|]|[[[| |] [k|]]|]|[k|]|[m|]|t]; simpl; intros Hd;
    (done || apply verdict_done || apply verdict_failed).
Qed.

Lemma convertScErrorToDomain_verdict e :
  decoded_error e = true -> verdict true (convertScErrorToDomain e).
Proof.
  destruct e as [[] cc c]; unfold decoded_error; simpl; intros Hd; try done;
    apply bool_decide_eq_true in Hd as [x ->]; apply verdict_done.
Qed.

Lemma convertContractExecutableToDomain_verdict e :
  decoded_executable e = true -> verdict true (convertContractExecutableToDomain e).
Proof. destruct e as [[h|]| |]; simpl; intros; (done || apply verdict_done). Qed.

Lemma convertScMapToDomain_verdict l :
  Forall (entry_all (fun x => decoded x = true -> verdict (representable x) (convertScValToDomain x))) l ->
  forallb (fun e => match e with mkScMapEntry k v => decoded k && decoded v end) l = true ->
  verdict (forallb (fun e => match e with mkScMapEntry k v => representable k && representable v end) l)
    (convertScMapToDomain convertScValToDomain l).
Proof.
  rewrite forallb_Forall. intros HI Hd. apply verdict_mapM.
  apply (list.Forall_impl _ _ _ (Forall_and HI Hd)).
  intros [k v] [[Hk Hv] [Dk Dv]%andb_true_iff]. cbn in Hk, Hv.
  apply verdict_bind; [by apply verdict_wrap, Hk|]. intros ? _.
  by apply verdict_map, verdict_wrap, Hv.
Qed.

(** A decoded value is converted, without a panic, unless a muxed contract address
    occurs in it. *)
Lemma convertScValToDomain_verdict x :
  decoded x = true -> verdict (representable x) (convertScValToDomain x).
Proof.
  induction x as [l IH|l IH|ex o IH|v F] using ScVal_all; simpl.
  - intros Hd. apply verdict_map, verdict_mapM. apply forallb_Forall in Hd.
    apply (list.Forall_impl _ _ _ (Forall_and IH Hd)).
    intros y [Hy Dy]. by apply verdict_map, verdict_wrap, Hy.
  - intros Hd. by apply verdict_map, convertScMapToDomain_verdict.
  - intros [De Dl]%andb_true_iff.
    rewrite <- (andb_true_l (match o with Some _ => _ | None => _ end)).
    apply verdict_bind; [by apply verdict_wrap, convertContractExecutableToDomain_verdict|].
    intros e _. destruct o as [l|]; [|apply verdict_done].
    by apply verdict_map, verdict_wrap, convertScMapToDomain_verdict.
  - destruct v as [| |[e|]| | | | | | | | | | |[b|]| | |[[l|]|]|[[l|]|]|[a|]|[i|]| |[n|]|]; simpl; try done;
      try (intros [y ->]%bool_decide_eq_true; apply verdict_done);
      try (intros _; apply verdict_done).
    + intros Hd. by apply (verdict_map true), convertScErrorToDomain_verdict.
    + intros Hd. by apply verdict_map, convertScAddressToDomain_verdict.
Qed.

(** ** There and back *)

Lemma convertAddress_back a b :
  decoded_address a = true -> convertScAddressToDomain a = Returns b ->
  yields (match a with ScAddressTypeAccount _ | ScAddressTypeContract _ => true | _ => false end) a
    (convertAddressToDomain b).
Proof.
  destruct a as [[[[| |] [k|]]|]|[k|]|[m|]|[[[| |] [k|]]|]|[k|]|[m|]|t]; simpl; intros Hd E; simplify_eq;
    try (by eexists).
  - apply keyb_spec in Hd. destruct (Encode_account k Hd) as (s & E1 & _ & E2).
    unfold convertAddressToDomain. rewrite (proj2 (Nat.eqb_eq _ _) (proj1 Hd)). simpl.
    rewrite E1. simpl. by rewrite E2.
  - apply keyb_spec in Hd. unfold convertAddressToDomain.
    rewrite (proj2 (Nat.eqb_eq _ _) (proj1 Hd)). simpl. by rewrite BuildContractScAddress_key.
Qed.

(** A converted value converts back exactly when it is an argument. *)
Lemma toDomain_back x v :
  decoded x = true -> convertScValToDomain x = Returns v ->
  yields (argument x) (present_collections x) (convertScValFromDomain v).
Proof.
  revert v. induction x as [l IH|l IH|ex o IH|x F] using ScVal_all; intros v Hd.
  - simpl. intros (values & Hm & [= <-])%bind_Done. apply (yields_map _ _ _ (fun l => ScvVec (Some (Some l)))), yields_mapM.
    apply mapM_out_Forall2 in Hm. apply forallb_Forall in Hd.
    induction Hm as [|y ov l values Hy _ IHm]; constructor.
    + apply bind_Done in Hy as (w & Hw%wrap_Done & [= <-]). apply yields_wrap.
      exact (Forall_inv IH w (Forall_inv Hd) Hw).
    + exact (IHm (Forall_inv_tail IH) (Forall_inv_tail Hd)).
  - simpl. intros (values & Hm & [= <-])%bind_Done. apply (yields_map _ _ _ (fun l => ScvMap (Some (Some l)))), yields_mapM.
    apply mapM_out_Forall2 in Hm. simpl in Hd. apply forallb_Forall in Hd.
    induction Hm as [|[k y] oe l values Hy _ IHm]; constructor.
    + apply bind_Done in Hy as (k' & Hk%wrap_Done & (y' & Hy%wrap_Done & [= <-])%bind_Done).
      destruct (Forall_inv IH) as [IHk IHy]. destruct (proj1 (andb_true_iff _ _) (Forall_inv Hd)).
      eapply yields_bind; [by apply yields_wrap, IHk|]. by apply (yields_map _ _ _ (mkScMapEntry _)), yields_wrap, IHy.
    + exact (IHm (Forall_inv_tail IH) (Forall_inv_tail Hd)).
  - simpl. intros (e & _ & He)%bind_Done. destruct o as [m|]; [|injection He as <-; by eexists].
    apply bind_Done in He as (s & _ & [= <-]). by eexists.
  - destruct x as [[b|]| |[e|]|[n|]|[n|]|[n|]|[n|]|[n|]|[n|]|[n|]|[n|]|[n|]|[n|]|[b|]|[s|]|[s|]
                  |[[l|]|]|[[l|]|]|[a|]|[i|]| |[n|]|]; try done; simpl;
      try (intros [= <-]; done || by eexists).
    + intros (e' & _ & [= <-])%bind_Done. by eexists.
    + intros (a' & Ha & [= <-])%bind_Done.
      replace (match a with ScAddressTypeAccount _ => true | _ => _ end) with
        (match a with ScAddressTypeAccount _ | ScAddressTypeContract _ => true | _ => false end)
        by (by destruct a).
      by apply (yields_map _ _ _ (fun a => ScvAddress (Some a))), convertAddress_back.
Qed.

(** Every value of the chain is converted, and can be sent back when
    it is an argument.  A value of the shape the XDR decoder produces is refused
    with an error, never a panic, when a muxed contract address occurs in it;
    otherwise it is converted, and its conversion converts back to the value itself
    (an absent vector or map becoming an empty one) if every part of it is of a kind
    a contract takes as an argument, and is refused with an error if not. *)
Theorem chain_value_spec x :
  decoded x = true ->
  if representable x then
    exists v, convertScValToDomain x = Returns v /\
      if argument x then convertScValFromDomain v = Returns (present_collections x)
      else exists e, convertScValFromDomain v = Errs e
  else exists e, convertScValToDomain x = Errs e.
Proof.
  intros Hd. pose proof (convertScValToDomain_verdict x Hd) as V. unfold verdict in V.
  destruct (representable x); [|done]. destruct V as [v Hv]. exists v. split; [done|].
  by apply toDomain_back.
Qed.

(** The byte slices of a domain value's addresses hold bytes. *)
Fixpoint typed (v : stellartypes.ScVal) : bool :=
  match v with
  | stellartypes.Vec (Some l) =>
      forallb (fun e => match e with Some e => typed e | None => true end) l
  | stellartypes.Map (Some l) =>
      forallb (fun e => match e with
                        | mkScMapEntry (Some k) (Some v) => typed k && typed v
                        | _ => true
                        end) l
  | stellartypes.Address (Some (stellartypes.AccountID b))
  | stellartypes.Address (Some (stellartypes.ContractID b)) => forallb byteb b
  | _ => true
  end.

Definition opt_all {A} (P : A -> Prop) (o : option A) : Prop :=
  match o with Some a => P a | None => True end.

Section Domain_ind.
Variable P : stellartypes.ScVal -> Prop.
Hypothesis Hvec : forall l, Forall (opt_all P) l -> P (stellartypes.Vec (Some l)).
Hypothesis Hmap : forall l, Forall (fun e => opt_all P (Key e) /\ opt_all P (Val e)) l ->
  P (stellartypes.Map (Some l)).
Hypothesis Hflat : forall v,
  match v with stellartypes.Vec (Some _) | stellartypes.Map (Some _) => false | _ => true end = true ->
  P v.

Fixpoint domain_all (v : stellartypes.ScVal) : P v.
Proof using Hvec Hmap Hflat.
  pose proof (Hflat v) as F. destruct v; try exact (F eq_refl).
  - destruct Values as [l|]; [|exact (F eq_refl)]. apply Hvec. clear F.
    induction l as [|[a|] l IH]; constructor; [apply domain_all|exact IH|exact I|exact IH].
  - destruct Entries as [l|]; [|exact (F eq_refl)]. apply Hmap. clear F.
    induction l as [|[[k|] [v|]] l IH]; constructor; try exact IH; split; try exact I;
      apply domain_all.
Defined.

End Domain_ind.

Lemma convertAddress_forth b a :
  typed (stellartypes.Address (Some b)) = true ->
  convertAddressToDomain b = Returns a -> convertScAddressToDomain a = Returns b.
Proof.
  destruct b as [k|k|m|c|k|t]; intros Ht; unfold convertAddressToDomain; try done;
    destruct (Nat.eqb (length k) 32) eqn:El; try done; simpl in Ht |- *;
    (assert (Hk : is_key k) by (apply keyb_spec; unfold keyb; by rewrite El)).
  - destruct (Encode_account k Hk) as (s & -> & _ & E). simpl. rewrite E. simpl. by intros [= <-].
  - rewrite BuildContractScAddress_key by done. by intros [= <-].
Qed.

(** Property C18: a contract argument survives the conversion.  Whenever a domain
    value is accepted as a contract argument, the SDK's value it is given converts
    back to it, to any depth of nesting: the arguments sent are the ones asked
    for. *)
Theorem fromDomain_toDomain v x :
  typed v = true -> convertScValFromDomain v = Returns x -> convertScValToDomain x = Returns v.
Proof.
  revert x. induction v as [l IH|l IH|v F] using domain_all; intros x Ht.
  - simpl. intros (items & Hm & [= <-])%bind_Done. simpl.
    apply mapM_out_Forall2 in Hm. simpl in Ht. apply forallb_Forall in Ht.
    apply bind_Done. exists l. split; [|done]. apply mapM_out_Forall2.
    induction Hm as [|oe y l items Hy _ IHm]; constructor.
    + destruct oe as [e|]; [|done]. apply wrap_Done in Hy.
      by rewrite (Forall_inv IH y (Forall_inv Ht) Hy).
    + exact (IHm (Forall_inv_tail IH) (Forall_inv_tail Ht)).
  - simpl. intros (es & Hm & [= <-])%bind_Done. simpl.
    apply mapM_out_Forall2 in Hm. simpl in Ht. apply forallb_Forall in Ht.
    apply bind_Done. exists l. split; [|done]. apply mapM_out_Forall2.
    induction Hm as [|[[k|] [w|]] y l es Hy _ IHm]; try done; constructor.
    + apply bind_Done in Hy as (k' & Hk%wrap_Done & (w' & Hw%wrap_Done & [= <-])%bind_Done).
      destruct (Forall_inv IH) as [IHk IHw]. destruct (proj1 (andb_true_iff _ _) (Forall_inv Ht)).
      rewrite (IHk k'), (IHw w') by done. done.
    + exact (IHm (Forall_inv_tail IH) (Forall_inv_tail Ht)).
  - destruct v as [[b|]| |[e|]|[n|]|[n|]|[n|]|[n|]|[n|]|[n|]|[n|]|[n|]|[n|]|[n|]|b|[s|]|[s|]
                  |[l|]|[l|]|[a|]|ex st| |n|t]; try done; simpl; try (by intros [= <-]).
    intros (a' & Ha & [= <-])%bind_Done. simpl. by rewrite (convertAddress_forth a a').
Qed.

(** ** Event requests *)

Lemma mapM_out_Failed {A B} (f : A -> outcome B) l e :
  mapM_out f l = Errs e -> exists a, a ∈ l /\ f a = Errs e.
Proof.
  induction l as [|a l IH]; simpl; [done|].
  destruct (f a) eqn:Ha; [|intros [= ->]; exists a; split; [left|done]|done].
  destruct (mapM_out f l); [done| |done]. intros [= ->].
  destruct (IH eq_refl) as (b & Hb & ?). exists b. split; [by right|done].
Qed.

Lemma mapM_out_Panicked {A B} (f : A -> outcome B) l :
  mapM_out f l = Panics -> exists a, a ∈ l /\ f a = Panics.
Proof.
  induction l as [|a l IH]; simpl; [done|].
  destruct (f a) eqn:Ha; [|done|intros _; exists a; split; [left|done]].
  destruct (mapM_out f l); [done..|]. intros _.
  destruct (IH eq_refl) as (b & Hb & ?). exists b. split; [by right|done].
Qed.

Lemma wrap_Failed {A} pre (o : outcome A) e : wrap_out pre o = Errs e -> exists e', o = Errs e'.
Proof. destruct o; simpl; [done| |done]. eauto. Qed.

Lemma wrap_Panicked {A} pre (o : outcome A) : wrap_out pre o = Panics -> o = Panics.
Proof. by destruct o. Qed.

Lemma convertAddressToDomain_no_panic a : convertAddressToDomain a <> Panics.
Proof.
  destruct a; unfold convertAddressToDomain, fail; try done.
  - destruct (negb _); [done|]. destruct (strkey_Encode _ _); simpl; [|done].
    by destruct (xdr_AddressToAccountId _).
  - destruct (negb _); [done|]. by destruct (BuildContractScAddress _).
Qed.

Lemma convertScValFromDomain_no_panic v : convertScValFromDomain v <> Panics.
Proof.
  induction v as [l IH|l IH|v F] using domain_all; simpl.
  - destruct (mapM_out _ l) eqn:E; simpl; [done..|].
    apply mapM_out_Panicked in E as ([e|] & He & E); [|done]. apply wrap_Panicked in E.
    rewrite list.Forall_forall in IH. exact (False_ind _ (IH _ He E)).
  - destruct (mapM_out _ l) eqn:E; simpl; [done..|].
    apply mapM_out_Panicked in E as ([[k|] [w|]] & He & E); [|done..].
    rewrite list.Forall_forall in IH. destruct (IH _ He) as [Hk Hw]. simpl in Hk, Hw.
    destruct (convertScValFromDomain k); [|done..]. by destruct (convertScValFromDomain w).
  - destruct v as [[b|]| |[e|]|[n|]|[n|]|[n|]|[n|]|[n|]|[n|]|[n|]|[n|]|[n|]|[n|]|b|[s|]|[s|]
                  |[l|]|[l|]|[a|]|ex st| |n|t]; try done.
    simpl. pose proof (convertAddressToDomain_no_panic a). by destruct (convertAddressToDomain a).
Qed.

Definition valid_wildcard (w : string) : Prop :=
  w = protocol.WildCardExactOne \/ w = protocol.WildCardZeroOrMore.

(** A segment of a request and the one sent for it. *)
Definition segment_matches (seg : stellartypes.TopicSegment) (sf : protocol.SegmentFilter) : Prop :=
  (exists w, seg = stellartypes.mkSegment (Some w) None /\ valid_wildcard w /\
     sf = protocol.mkSegmentFilter (Some w) None) \/
  (exists v x, seg = stellartypes.mkSegment None (Some v) /\ convertScValFromDomain v = Returns x /\
     sf = protocol.mkSegmentFilter None (Some x)).

(** Why a segment is refused. *)
Definition segment_ill_formed (seg : stellartypes.TopicSegment) : Prop :=
  match seg with
  | stellartypes.mkSegment (Some _) (Some _) | stellartypes.mkSegment None None => True
  | stellartypes.mkSegment (Some w) None => ~ valid_wildcard w
  | stellartypes.mkSegment None (Some v) => exists e, convertScValFromDomain v = Errs e
  end.

Definition topic_matches (topic : list stellartypes.TopicSegment) (tf : list protocol.SegmentFilter) : Prop :=
  topic <> [] /\ Forall2 segment_matches topic tf.

Definition topic_ill_formed (topic : list stellartypes.TopicSegment) : Prop :=
  topic = [] \/ exists seg, seg ∈ topic /\ segment_ill_formed seg.

Definition filter_matches (f : stellartypes.EventFilter) (g : protocol.EventFilter) : Prop :=
  protocol.ContractIDs g = stellartypes.ContractIDs f /\
  (forall s, s ∈ protocol.EventType g <->
     (s = protocol.EventTypeSystem /\ stellartypes.EventTypeSystem ∈ stellartypes.EventTypes f) \/
     (s = protocol.EventTypeContract /\ stellartypes.EventTypeContract ∈ stellartypes.EventTypes f)) /\
  Forall2 topic_matches (stellartypes.Topics f) (protocol.Topics g).

Definition filter_ill_formed (f : stellartypes.EventFilter) : Prop :=
  (exists t, stellartypes.EventTypeOther t ∈ stellartypes.EventTypes f) \/
  exists topic, topic ∈ stellartypes.Topics f /\ topic_ill_formed topic.

(** The value of a conversion satisfies [P], its error is explained by [Q]. *)
Definition explained {A} (P : A -> Prop) (Q : Prop) (o : outcome A) : Prop :=
  match o with Returns a => P a | Errs _ => Q | Panics => False end.

Lemma explained_mapM {A B} (R : A -> B -> Prop) (Bad : A -> Prop) (f : A -> outcome B) l :
  (forall a, a ∈ l -> explained (R a) (Bad a) (f a)) ->
  explained (Forall2 R l) (exists a, a ∈ l /\ Bad a) (mapM_out f l).
Proof.
  intros Hf. destruct (mapM_out f l) eqn:E; simpl.
  - apply mapM_out_Forall2 in E. induction E as [|x y l l' Hy _ IH]; constructor.
    + pose proof (Hf x ltac:(left)) as Hx. by rewrite Hy in Hx.
    + apply IH. intros b Hb. apply Hf. by right.
  - apply mapM_out_Failed in E as (x & Hx & E). exists x. split; [done|].
    pose proof (Hf x Hx) as Hb. by rewrite E in Hb.
  - apply mapM_out_Panicked in E as (x & Hx & E). pose proof (Hf x Hx) as Hb. by rewrite E in Hb.
Qed.

Lemma explained_wrap {A} (P : A -> Prop) Q pre o : explained P Q o -> explained P Q (wrap_out pre o).
Proof. by destruct o. Qed.

Lemma convertTopicFilterFromDomain_spec topic :
  explained (topic_matches topic) (topic_ill_formed topic) (convertTopicFilterFromDomain topic).
Proof.
  unfold convertTopicFilterFromDomain. destruct topic as [|s topic]; [by left|].
  cbn [length Nat.eqb].
  match goal with |- explained _ _ (mapM_out ?f ?l) =>
    pose proof (explained_mapM segment_matches segment_ill_formed f l) as H' end.
  match type of H' with ?P -> _ => assert (Hp : P) end.
  { intros [[w|] [v|]] _; simpl; [done| | |done].
    - destruct (String.eqb_spec w protocol.WildCardExactOne) as [->|N1]; [left; exists protocol.WildCardExactOne|].
      { split; [done|]. split; [by left|done]. }
      destruct (String.eqb_spec w protocol.WildCardZeroOrMore) as [->|N2]; simpl.
      + left. exists protocol.WildCardZeroOrMore. split; [done|]. split; [by right|done].
      + by intros [?|?].
    - pose proof (convertScValFromDomain_no_panic v) as Np.
      destruct (convertScValFromDomain v) eqn:E; simpl; [right; eauto 6|eauto|done]. }
  specialize (H' Hp). destruct (mapM_out _ _); simpl in *; [by split|by right|done].
Qed.

Lemma convertEventFilterFromDomain_spec f :
  explained (filter_matches f) (filter_ill_formed f) (convertEventFilterFromDomain f).
Proof.
  unfold convertEventFilterFromDomain.
  set (ty := fun eventType => match eventType with
     | stellartypes.EventTypeSystem => Returns protocol.EventTypeSystem
     | stellartypes.EventTypeContract => Returns protocol.EventTypeContract
     | stellartypes.EventTypeOther _ => fail "unsupported event type" end).
  pose proof (explained_mapM (fun a s => ty a = Returns s)
    (fun a => exists t, a = stellartypes.EventTypeOther t) ty (stellartypes.EventTypes f)) as Ht.
  destruct (mapM_out ty _) as [names|e|]; simpl in Ht |- *.
  - specialize (Ht ltac:(intros []; simpl; eauto)).
    pose proof (explained_mapM topic_matches topic_ill_formed
      (fun topic => wrap_out "topics: " (convertTopicFilterFromDomain topic)) (stellartypes.Topics f)
      (fun a _ => explained_wrap _ _ _ _ (convertTopicFilterFromDomain_spec a))) as Hp.
    destruct (mapM_out _ (stellartypes.Topics f)); simpl in Hp |- *; [|by right|done].
    split; [done|]. split; [|done]. intros s. simpl. rewrite elem_of_list_to_set. clear Hp.
    induction Ht as [|ty1 s1 l l' H1 _ IH]; [set_solver|]. rewrite !elem_of_cons, IH.
    destruct ty1; simpl in H1; simplify_eq; set_solver.
  - left. destruct Ht as (x & Hx & t & ->); [intros []; simpl; eauto|]. eauto.
  - apply Ht. intros []; simpl; eauto.
Qed.

(** An event request is translated faithfully, and refused exactly
    for a reason.  On success the ledger range is the one asked for and is not
    reversed, every filter has the contract IDs, the event types and the topics
    asked for in the same order, each topic is non-empty and each segment is either
    one of the two wildcards or the converted value, and the page limit and cursor
    are those given.  A refusal means that the range is reversed, that a filter is
    ill-formed or that the cursor does not parse; the conversion never panics. *)
Theorem convertGetEventsRequestsFromDomain_spec `{protocol.Cursors} (req : stellartypes.GetEventsRequest) :
  let st := stellartypes.StartLedger req in
  let en := stellartypes.EndLedger req in
  explained
    (fun out =>
      protocol.StartLedger out = st /\ protocol.EndLedger out = en /\
      (st = 0 \/ en = 0 \/ st <= en) /\
      protocol.Format out = protocol.FormatBase64 /\
      Forall2 filter_matches (stellartypes.Filters req) (protocol.Filters out) /\
      match stellartypes.Pagination req, protocol.Pagination out with
      | None, None => True
      | Some p, Some q =>
          protocol.Limit q = u64 (stellartypes.Limit p) /\
          (if decide (stellartypes.Cursor p = "") then protocol.PCursor q = None
           else exists c, protocol.ParseCursor (stellartypes.Cursor p) = Ok c /\ protocol.PCursor q = Some c)
      | _, _ => False
      end)
    ((st <> 0 /\ en <> 0 /\ st > en) \/
     (exists f, f ∈ stellartypes.Filters req /\ filter_ill_formed f) \/
     (exists p e, stellartypes.Pagination req = Some p /\ stellartypes.Cursor p <> "" /\
        protocol.ParseCursor (stellartypes.Cursor p) = Err e))
    (convertGetEventsRequestsFromDomain req).
Proof.
  intros st en. unfold convertGetEventsRequestsFromDomain. fold st en.
  destruct (negb (st =? 0) && negb (en =? 0) && (st >? en)) eqn:Hr.
  { left. rewrite Z.gtb_ltb in Hr. zbool. lia. }
  assert (Hrange : st = 0 \/ en = 0 \/ st <= en).
  { rewrite Z.gtb_ltb in Hr. destruct (Z.eqb_spec st 0), (Z.eqb_spec en 0), (Z.ltb_spec en st);
      simpl in Hr; (done || lia). }
  pose proof (explained_mapM filter_matches filter_ill_formed
    (fun f => wrap_out "filters: " (convertEventFilterFromDomain f)) (stellartypes.Filters req)
    (fun a _ => explained_wrap _ _ _ _ (convertEventFilterFromDomain_spec a))) as Hf.
  destruct (mapM_out _ (stellartypes.Filters req)); simpl in Hf |- *; [|by right; left|done].
  destruct (stellartypes.Pagination req) as [p|] eqn:Hp; simpl; [|done].
  destruct (String.eqb_spec (stellartypes.Cursor p) "") as [E|E]; simpl.
  { rewrite decide_True by done. done. }
  destruct (protocol.ParseCursor (stellartypes.Cursor p)) as [c|e] eqn:Hc; simpl.
  - rewrite decide_False by done. repeat split; try done. eauto.
  - right; right. eauto.
Qed.

(** ** Event responses *)

Section Responses.
(** The XDR decoder sets the arm its discriminant selects, and fills byte arrays of
    fixed length. *)
Hypothesis decoder_shape : forall s x, ScVal_UnmarshalBase64 s = Ok x -> decoded x = true.

Definition undecodable (s : string) : Prop :=
  (exists e, ScVal_UnmarshalBase64 s = Err e) \/
  exists x, ScVal_UnmarshalBase64 s = Ok x /\ representable x = false.

Lemma decodeScValBase64ToDomain_spec s :
  explained (fun v => exists x, ScVal_UnmarshalBase64 s = Ok x /\ convertScValToDomain x = Returns v)
    (undecodable s) (decodeScValBase64ToDomain s).
Proof using decoder_shape.
  unfold decodeScValBase64ToDomain, undecodable. destruct (ScVal_UnmarshalBase64 s) as [x|e] eqn:E; simpl; [|eauto].
  pose proof (convertScValToDomain_verdict x (decoder_shape _ _ E)) as V. unfold verdict in V.
  destruct (representable x) eqn:R; destruct V as [y V]; rewrite V; simpl; eauto.
Qed.

(** What is decoded from an XDR string. *)
Definition decodes (s : string) (v : stellartypes.ScVal) : Prop :=
  exists x, ScVal_UnmarshalBase64 s = Ok x /\ convertScValToDomain x = Returns v.

Definition event_matches (e : protocol.EventInfo) (d : stellartypes.EventInfo) : Prop :=
  0 <= stellartypes.ev_Ledger d /\ stellartypes.ev_Ledger d = protocol.ev_Ledger e /\
  match stellartypes.ev_EventType d with
  | stellartypes.EventTypeSystem => protocol.ev_EventType e = protocol.EventTypeSystem
  | stellartypes.EventTypeContract => protocol.ev_EventType e = protocol.EventTypeContract
  | stellartypes.EventTypeOther _ => False
  end /\
  Forall2 decodes (protocol.ev_TopicXDR e) (stellartypes.ev_Topics d) /\
  decodes (protocol.ev_ValueXDR e) (stellartypes.ev_Value d) /\
  stellartypes.ev_ID d = protocol.ev_ID e /\
  stellartypes.ev_ContractID d = protocol.ev_ContractID e /\
  stellartypes.ev_LedgerClosedAt d = protocol.ev_LedgerClosedAt e /\
  stellartypes.ev_OperationIndex d = protocol.ev_OpIndex e /\
  stellartypes.ev_TransactionIndex d = protocol.ev_TxIndex e /\
  stellartypes.ev_TransactionHash d = protocol.ev_TransactionHash e.

Definition event_ill_formed (e : protocol.EventInfo) : Prop :=
  protocol.ev_Ledger e < 0 \/
  (protocol.ev_EventType e <> protocol.EventTypeSystem /\
   protocol.ev_EventType e <> protocol.EventTypeContract) \/
  (exists s, s ∈ protocol.ev_TopicXDR e /\ undecodable s) \/
  protocol.ev_ValueXDR e = "" \/ undecodable (protocol.ev_ValueXDR e).

Lemma convertEventInfoToDomain_spec e :
  - 2 ^ 31 <= protocol.ev_Ledger e < 2 ^ 31 ->
  explained (event_matches e) (event_ill_formed e) (convertEventInfoToDomain e).
Proof using decoder_shape.
  intros Hl. unfold convertEventInfoToDomain, event_ill_formed.
  destruct (Z.ltb_spec (protocol.ev_Ledger e) 0); [by left|].
  assert (Hu : u32 (protocol.ev_Ledger e) = protocol.ev_Ledger e) by (apply u32_id; goint).
  set (ty := if String.eqb (protocol.ev_EventType e) protocol.EventTypeSystem then _ else _).
  assert (Ht : match ty with
               | Returns stellartypes.EventTypeSystem => protocol.ev_EventType e = protocol.EventTypeSystem
               | Returns stellartypes.EventTypeContract => protocol.ev_EventType e = protocol.EventTypeContract
               | Errs _ => protocol.ev_EventType e <> protocol.EventTypeSystem /\
                             protocol.ev_EventType e <> protocol.EventTypeContract
               | _ => False end).
  { unfold ty. destruct (String.eqb_spec (protocol.ev_EventType e) protocol.EventTypeSystem); [done|].
    by destruct (String.eqb_spec (protocol.ev_EventType e) protocol.EventTypeContract). }
  clearbody ty. destruct ty as [ty|er|]; simpl; [|by right; left|done].
  pose proof (explained_mapM decodes undecodable
    (fun topicXDR => wrap_out "topics: " (decodeScValBase64ToDomain topicXDR)) (protocol.ev_TopicXDR e)
    (fun a _ => explained_wrap _ _ _ _ (decodeScValBase64ToDomain_spec a))) as Hp.
  destruct (mapM_out _ (protocol.ev_TopicXDR e)); simpl in Hp |- *; [|by right; right; left|done].
  destruct (String.eqb_spec (protocol.ev_ValueXDR e) ""); simpl; [by right; right; right; left|].
  pose proof (decodeScValBase64ToDomain_spec (protocol.ev_ValueXDR e)) as Hv.
  destruct (decodeScValBase64ToDomain (protocol.ev_ValueXDR e)); simpl in Hv |- *; [|auto|done].
  unfold event_matches. simpl. rewrite Hu. destruct ty; try done; repeat split; done.
Qed.

(** Event responses are translated faithfully.  With the ledger of
    every event in the int32 range of the RPC, a response is either converted, each
    event in its place with its own ledger (never wrapped around), type, position
    and transaction, its topics and value being the conversions of the decoded XDR,
    or refused because some event has a negative ledger, another type, a missing
    value, or XDR that does not decode or holds a muxed contract address. *)
Theorem convertGetEventsResponseToDomain_spec resp :
  Forall (fun e => - 2 ^ 31 <= protocol.ev_Ledger e < 2 ^ 31) (protocol.r_Events resp) ->
  explained
    (fun out =>
      Forall2 event_matches (protocol.r_Events resp) (stellartypes.r_Events out) /\
      stellartypes.r_Cursor out = protocol.r_Cursor resp /\
      stellartypes.r_LatestLedger out = protocol.r_LatestLedger resp /\
      stellartypes.r_OldestLedger out = protocol.r_OldestLedger resp /\
      stellartypes.r_LatestLedgerCloseTime out = protocol.r_LatestLedgerCloseTime resp /\
      stellartypes.r_OldestLedgerCloseTime out = protocol.r_OldestLedgerCloseTime resp)
    (exists e, e ∈ protocol.r_Events resp /\ event_ill_formed e)
    (convertGetEventsResponseToDomain resp).
Proof using decoder_shape.
  intros Hl. unfold convertGetEventsResponseToDomain. rewrite list.Forall_forall in Hl.
  pose proof (explained_mapM event_matches event_ill_formed
    (fun event => wrap_out "events: " (convertEventInfoToDomain event)) (protocol.r_Events resp)
    (fun a Ha => explained_wrap _ _ _ _ (convertEventInfoToDomain_spec a (Hl a Ha)))) as He.
  by destruct (mapM_out _ (protocol.r_Events resp)); simpl in He |- *.
Qed.

End Responses.

End Converters.

(** ** Witnesses *)

(** A vector holding a contract address and a map. *)
Definition demo_value : ScVal :=
  ScvVec (Some (Some [ScvAddress (Some (ScAddressTypeContract (Some demo_key)));
                      ScvMap (Some (Some [mkScMapEntry (ScvSymbol (Some "fee")) (ScvVec (Some None))]))])).

Lemma chain_value_spec_witness :
  exists v, convertScValToDomain demo_value = Returns v /\
    convertScValFromDomain v = Returns (present_collections demo_value).
Proof. exact (chain_value_spec demo_value ltac:(vm_compute; reflexivity)). Defined.

Definition demo_argument : stellartypes.ScVal :=
  stellartypes.Vec (Some [Some (stellartypes.Address (Some (stellartypes.AccountID demo_key)));
                          Some (stellartypes.U64 (Some 7))]).

Lemma fromDomain_toDomain_witness :
  convertScValToDomain (ScvVec (Some (Some
    [ScvAddress (Some (ScAddressTypeAccount (Some (mkAccountId 0 (Some demo_key))))); ScvU64 (Some 7)])))
  = Returns demo_argument.
Proof. apply (fromDomain_toDomain demo_argument); vm_compute; reflexivity. Defined.

Lemma demo_decoder_shape s x : ScVal_UnmarshalBase64 s = Ok x -> decoded x = true.
Proof. simpl. intros E. by repeat case_match; simplify_eq. Qed.

Definition demo_events : protocol.GetEventsResponse :=
  protocol.mkGetEventsResponse
    [protocol.mkEventInfo "contract" 41 "" "" "id" 0 1 "tx" ["AAAAAwAAAAc="] "AAAAAQ=="] "" 42 1 0 0.

Lemma convertGetEventsResponseToDomain_spec_witness :
  exists out, convertGetEventsResponseToDomain demo_events = Returns out /\
    stellartypes.ev_Ledger <$> stellartypes.r_Events out = [41].
Proof.
  pose proof (convertGetEventsResponseToDomain_spec demo_decoder_shape demo_events) as S.
  specialize (S ltac:(repeat constructor; vm_compute; congruence)).
  destruct (convertGetEventsResponseToDomain demo_events) as [out|e|] eqn:E; vm_compute in E; try discriminate.
  exists out. split; [reflexivity|]. injection E as <-. reflexivity.
Defined.

#[local] Instance demo_cursors : protocol.Cursors := {|
  protocol.Cursor := string;
  protocol.ParseCursor s := if String.eqb s "bad" then Err (ErrorString "invalid cursor") else Ok s;
  protocol.Cmp _ _ := 0;
  protocol.Cursor_Ledger _ := 0
|}.

Definition demo_events_request : stellartypes.GetEventsRequest :=
  stellartypes.mkGetEventsRequest 10 20
    [stellartypes.mkEventFilter [stellartypes.EventTypeContract] ["CAAA"]
       [[stellartypes.mkSegment None (Some (stellartypes.Symbol (Some "fee")));
         stellartypes.mkSegment (Some "**"%string) None]]]
    (Some (stellartypes.mkPagination "" 5)).

Lemma convertGetEventsRequestsFromDomain_spec_witness :
  exists out, convertGetEventsRequestsFromDomain demo_events_request = Returns out /\
    protocol.StartLedger out = 10 /\ protocol.Format out = protocol.FormatBase64.
Proof.
  pose proof (convertGetEventsRequestsFromDomain_spec demo_events_request) as S.
  destruct (convertGetEventsRequestsFromDomain demo_events_request) as [out|e|] eqn:E;
    [|vm_compute in E; discriminate..].
  exists out. split; [reflexivity|]. split; [exact (proj1 S)|exact (proj1 (proj2 (proj2 (proj2 S))))].
Defined.
