(* ===== verification/EventPages.v ===== *)
(** * Paging through contract events

    Models [GetEventsInRange] (ccv/destination_reader/events.go) and
    [fetchAllEvents] (ccv/source_reader/source_reader.go), the two loops that
    follow the cursors of the RPC's [getEvents].  The loops have no bound of their
    own: they take fuel, and the theorems give the amount that is enough for a
    server that behaves as documented: against such a server they return every
    matching event of their window once and in order, up to what happens at the end
    ledger, which a ledger range excludes and a cursor query does not.

    The context and the RPC client are the environment [W]. *)

From S2P Require Import Prelude Sdk Xdr Scval TypeConverters.

(** ** The environment's monad *)

Definition SM (W A : Type) : Type := W -> A * W.
#[export] Instance SM_ret {W} : MRet (SM W) := fun A a w => (a, w).
#[export] Instance SM_bind {W} : MBind (SM W) := fun A B f m w => let '(a, w') := m w in f a w'.

Lemma SM_bind_run {W A B} (m : SM W A) (f : A -> SM W B) w :
  mbind f m w = f (fst (m w)) (snd (m w)).
Proof. unfold mbind, SM_bind. by destruct (m w). Qed.

(** [rpcclient.Client], as the readers use it. *)
Class EventsClient (W : Type) `{protocol.Cursors} := {
  cl_GetEvents : protocol.GetEventsRequest -> SM W (res protocol.GetEventsResponse);
  cl_ctx_Err : W -> option error
}.

Section Loops.
Context {W : Type} `{EventsClient W}.
Import protocol.

(** The filter of both loops: one contract, the given leading topics and any
    further ones. *)
Definition contract_filter (contractID : string) (topics : list SegmentFilter)
    : list protocol.EventFilter :=
  [mkEventFilter {[protocol.EventTypeContract]} [contractID]
     [topics ++ [mkSegmentFilter (Some WildCardZeroOrMore) None]]].

Definition topic_segments (topics : list string) : list SegmentFilter :=
  (fun topic => mkSegmentFilter None (SymbolToScValPtr topic)) <$> topics.

(** ** GetEventsInRange *)

Definition eventsPageLimit : nat := 100.

(** The loop over a page: the ids seen, the events kept, and whether an event past
    the window was met. *)
Fixpoint collect_page (toLedger : Z) (l : list EventInfo) (seen : gset string) (out : list EventInfo)
    : gset string * list EventInfo * bool :=
  match l with
  | [] => (seen, out, false)
  | e :: l' =>
      if u32 (ev_Ledger e) >? toLedger then (seen, out, true)
      else if decide (ev_ID e ∈ seen) then collect_page toLedger l' seen out
      else collect_page toLedger l' ({[ev_ID e]} ∪ seen) (out ++ [e])
  end.

Definition range_request (filters : list protocol.EventFilter) (fromLedger toLedger : Z)
    (cursor : option Cursor) : GetEventsRequest :=
  mkGetEventsRequest _
    (match cursor with None => fromLedger | Some _ => 0 end)
    (match cursor with None => toLedger | Some _ => 0 end)
    filters (Some (mkPaginationOptions _ cursor (Z.of_nat eventsPageLimit))) "".

(** [None] when the fuel runs out. *)
Fixpoint range_loop (fuel : nat) (filters : list protocol.EventFilter) (fromLedger toLedger : Z)
    (seen : gset string) (out : list EventInfo) (cursor : option Cursor)
    : SM W (option (res (list EventInfo))) :=
  match fuel with
  | O => mret None
  | S fuel' =>
      r ← cl_GetEvents (range_request filters fromLedger toLedger cursor);
      match r with
      | Err e => mret (Some (Err (Wrapf "failed to get events: " e)))
      | Ok resp =>
          let '(seen, out, pastWindow) := collect_page toLedger (r_Events resp) seen out in
          if pastWindow || Nat.ltb (length (r_Events resp)) eventsPageLimit ||
             String.eqb (r_Cursor resp) ""
          then mret (Some (Ok out))
          else match ParseCursor (r_Cursor resp) with
               | Err e => mret (Some (Err (Wrapf "failed to parse events cursor: " e)))
               | Ok next =>
                   if match cursor with Some c => Cmp next c <=? 0 | None => false end
                   then mret (Some (Err (ErrorString "events cursor did not advance; refusing to loop on the same page")))
                   else range_loop fuel' filters fromLedger toLedger seen out (Some next)
               end
      end
  end.

Definition GetEventsInRange (fuel : nat) (contractID : string) (fromLedger toLedger : Z)
    (topics : list string) : SM W (option (res (list EventInfo))) :=
  range_loop fuel (contract_filter contractID (topic_segments topics)) fromLedger toLedger ∅ [] None.

(** ** fetchAllEvents *)

(** The loop over a page: the events kept and whether one was out of range. *)
Fixpoint keep_in_range (toLedger : Z) (l : list EventInfo) (events : list EventInfo)
    : list EventInfo * bool :=
  match l with
  | [] => (events, false)
  | e :: l' =>
      if u32 (ev_Ledger e) >? toLedger then (events, true)
      else keep_in_range toLedger l' (events ++ [e])
  end.

Fixpoint fetch_loop (fuel : nat) (filters : list protocol.EventFilter) (toLedger : Z)
    (req : GetEventsRequest) (events : list EventInfo) (prevCursor : string)
    : SM W (option (res (list EventInfo))) :=
  match fuel with
  | O => mret None
  | S fuel' => fun w =>
      match cl_ctx_Err w with
      | Some e => (Some (Err (Wrapf "fetching events: " e)), w)
      | None =>
          (r ← cl_GetEvents req;
           match r with
           | Err e => mret (Some (Err (Wrapf "failed to get events: " e)))
           | Ok resp =>
               let '(events, outOfRange) := keep_in_range toLedger (r_Events resp) events in
               if outOfRange || String.eqb (r_Cursor resp) "" ||
                  Nat.eqb (length (r_Events resp)) 0 || String.eqb (r_Cursor resp) prevCursor
               then mret (Some (Ok events))
               else match ParseCursor (r_Cursor resp) with
                    | Err e => mret (Some (Err (Wrapf "failed to parse events continuation cursor: " e)))
                    | Ok cursor =>
                        if Cursor_Ledger cursor >? toLedger then mret (Some (Ok events))
                        else fetch_loop fuel' filters toLedger
                               (mkGetEventsRequest _ 0 0 filters
                                  (Some (mkPaginationOptions _ (Some cursor) 0)) "")
                               events (r_Cursor resp)
                    end
           end) w
      end
  end.

Definition fetchAllEvents (fuel : nat) (ccipOnrampAddress : string) (fromLedger toLedger : Z)
    (topicScVal : option ScVal) : SM W (option (res (list EventInfo))) :=
  let filters := contract_filter ccipOnrampAddress [mkSegmentFilter None topicScVal] in
  fetch_loop fuel filters toLedger (mkGetEventsRequest _ fromLedger toLedger filters None "") [] "".

End Loops.

Import protocol.

(** ** Lists sorted by a key *)

Section Sorted.
Context {A : Type} (key : A -> Z).

Definition increasing (l : list A) : Prop := StronglySorted (fun a b => key a < key b) l.

Lemma filter_all (P : A -> Prop) `{!forall a, Decision (P a)} l : Forall P l -> filter P l = l.
Proof. induction 1; [done|]. rewrite filter_cons_True by done. by f_equal. Qed.

Lemma filter_none (P : A -> Prop) `{!forall a, Decision (P a)} l :
  Forall (fun a => ~ P a) l -> filter P l = [].
Proof. induction 1; [done|]. by rewrite filter_cons_False. Qed.

(** A predicate false on a prefix and true on the rest. *)
Lemma filter_split (P : A -> Prop) `{!forall a, Decision (P a)} k l :
  Forall (fun a => ~ P a) (take k l) -> Forall P (drop k l) -> filter P l = drop k l.
Proof.
  intros H1 H2. rewrite <- (take_drop k l) at 1. rewrite list.filter_app, filter_none, filter_all by done.
  done.
Qed.

(** The elements with a key of at least [b] are a suffix. *)
Lemma suffix_from l (f : A -> Z) b :
  StronglySorted (fun x y => f x <= f y) l ->
  exists k, (k <= length l)%nat /\ Forall (fun a => f a < b) (take k l) /\
    Forall (fun a => b <= f a) (drop k l).
Proof.
  induction 1 as [|a l _ (k & Hk & H1 & H2) Hall]; [exists 0%nat; simpl; repeat split; constructor|].
  destruct (decide (b <= f a)).
  - exists 0%nat. simpl. split; [lia|]. split; [constructor|]. constructor; [done|].
    eapply list.Forall_impl; [exact Hall|]. simpl. lia.
  - exists (S k). simpl. split; [lia|]. split; [|done]. constructor; [lia|done].
Qed.

Lemma sorted_drop (R : A -> A -> Prop) k l : StronglySorted R l -> StronglySorted R (drop k l).
Proof.
  revert k; induction l as [|a l IH]; intros [|k] Hs; try done. simpl. apply IH.
  by apply StronglySorted_inv in Hs as [? _].
Qed.

(** An element separates the list around its position. *)
Lemma increasing_split l i x :
  increasing l -> l !! i = Some x ->
  Forall (fun a => key a < key x) (take i l) /\ Forall (fun a => key x < key a) (drop (S i) l).
Proof.
  intros Hs. revert i; induction Hs as [|a l _ IH Hall]; intros [|i] Hi; simplify_eq/=.
  - split; [constructor|]. done.
  - destruct (IH _ Hi) as [H1 H2]. split; [|done]. constructor; [|done].
    rewrite list.Forall_forall in Hall. apply Hall. by eapply list_elem_of_lookup_2.
Qed.

Lemma increasing_inj l i j x y :
  increasing l -> l !! i = Some x -> l !! j = Some y -> key x = key y -> i = j.
Proof.
  intros Hs Hi Hj E. destruct (decide (i = j)) as [|N]; [done|exfalso].
  assert (G : forall i j x y, (i < j)%nat -> l !! i = Some x -> l !! j = Some y -> key x < key y).
  { clear -Hs. intros i j x y Hij Hi Hj. destruct (increasing_split _ _ _ Hs Hi) as [_ H].
    rewrite list.Forall_forall in H. apply H. apply list_elem_of_lookup.
    exists (j - S i)%nat. rewrite lookup_drop. replace (S i + (j - S i))%nat with j by lia. done. }
  destruct (Nat.lt_total i j) as [Hlt|[|Hlt]]; [|done|].
  - pose proof (G _ _ _ _ Hlt Hi Hj). lia.
  - pose proof (G _ _ _ _ Hlt Hj Hi). lia.
Qed.

End Sorted.

(** ** The documented server *)

Section Server.
Context {W : Type} `{EventsClient W}.

(** The order of the events of the chain, and the cursor of an event; [incl] is the
    server's convention for the event a cursor names; [lim] its default page size. *)
Variable rank : Cursor -> Z.
Variable pos : EventInfo -> Cursor.
Variable incl : bool.
Variable lim : nat.

Definition key (e : EventInfo) : Z := rank (pos e).

Definition event_ok (e : EventInfo) : Prop :=
  0 <= ev_Ledger e < 2 ^ 31 /\ ParseCursor (ev_ID e) = Ok (pos e) /\ ev_ID e <> "" /\
  Cursor_Ledger (pos e) = ev_Ledger e.

Definition chain_ok (l : list EventInfo) : Prop :=
  increasing key l /\ StronglySorted (fun a b => ev_Ledger a <= ev_Ledger b) l /\ Forall event_ok l.

Definition request_cursor (req : GetEventsRequest) : option Cursor :=
  match Pagination req with Some p => PCursor p | None => None end.
Definition request_limit (req : GetEventsRequest) : nat :=
  match Pagination req with
  | Some p => if Limit p =? 0 then lim else Z.to_nat (Limit p)
  | None => lim
  end.

(** The events a request asks for: a ledger range excludes its end; a cursor query
    is open-ended. *)
Definition selected (req : GetEventsRequest) (all : list EventInfo) : list EventInfo :=
  match request_cursor req with
  | None => filter (fun e => StartLedger req <= ev_Ledger e < EndLedger req) all
  | Some c => filter (fun e => rank c < key e \/ (incl = true /\ rank c = key e)) all
  end.

(** The matching events of ledgers up to [toLedger], which do not change any more. *)
Variable settled : list EventInfo.
Variables fromLedger toLedger : Z.

(** A response: the first page of the selected events of the chain, which extends
    the settled ones; its cursor is the last event's when the page is full and
    otherwise names the end of what was searched. *)
Definition answers (req : GetEventsRequest) (resp : GetEventsResponse) : Prop :=
  exists later,
    chain_ok (settled ++ later) /\ Forall (fun e => toLedger < ev_Ledger e) later /\
    r_Events resp = take (request_limit req) (selected req (settled ++ later)) /\
    (length (r_Events resp) = request_limit req ->
       exists e, list.last (r_Events resp) = Some e /\ r_Cursor resp = ev_ID e) /\
    ((length (r_Events resp) < request_limit req)%nat ->
       r_Cursor resp <> "" /\
       exists c, ParseCursor (r_Cursor resp) = Ok c /\
         match request_cursor req with
         | None => Cursor_Ledger c < EndLedger req /\
             Forall (fun e => key e <= rank c <-> ev_Ledger e < EndLedger req) (settled ++ later)
         | Some _ => Forall (fun e => key e <= rank c) (settled ++ later)
         end).

Hypothesis Cmp_rank : forall c d, Cmp c d <= 0 <-> rank c <= rank d.
Hypothesis served : forall w req,
  match fst (cl_GetEvents req w) with Ok resp => answers req resp | Err _ => True end.
Hypothesis settled_ledgers : Forall (fun e => ev_Ledger e <= toLedger) settled.

Lemma event_ledger e : event_ok e -> u32 (ev_Ledger e) = ev_Ledger e.
Proof. intros [Hl _]. apply u32_id. goint. Qed.

Lemma chain_ok_app l1 l2 : chain_ok (l1 ++ l2) -> chain_ok l1 /\ chain_ok l2.
Proof.
  intros (H1 & H2 & [H3 H4]%Forall_app). split; (split; [|split; [|done]]).
  - by apply StronglySorted_app_1_l in H1.
  - by apply StronglySorted_app_1_l in H2.
  - by apply StronglySorted_app_1_r in H1.
  - by apply StronglySorted_app_1_r in H2.
Qed.

(** Ids determine events, as they parse to different cursors. *)
Lemma ids_distinct l : chain_ok l -> NoDup (ev_ID <$> l).
Proof.
  intros (Hi & _ & Hok). apply NoDup_fmap_2_strong.
  - intros x y Hx Hy E. apply list_elem_of_lookup in Hx as [i Hx], Hy as [j Hy].
    pose proof (Forall_lookup_1 _ _ _ _ Hok Hx) as (_ & Px & _).
    pose proof (Forall_lookup_1 _ _ _ _ Hok Hy) as (_ & Py & _).
    rewrite E, Py in Px. injection Px as Ep.
    assert (i = j) as -> by (eapply (increasing_inj key); [exact Hi|done..|unfold key; congruence]).
    congruence.
  - apply NoDup_alt. intros i j x Hx Hy. by eapply (increasing_inj key).
Qed.

Lemma cursor_filter all i x c :
  increasing key all -> all !! i = Some x -> rank c = key x ->
  filter (fun e => rank c < key e \/ (incl = true /\ rank c = key e)) all =
  drop (if incl then i else S i) all.
Proof.
  intros Hi Hx Hc. destruct (increasing_split _ _ _ _ Hi Hx) as [H1 H2].
  apply filter_split; destruct incl.
  - eapply list.Forall_impl; [exact H1|]. simpl. intros a Ha [?|[_ ?]]; lia.
  - rewrite (take_S_r _ _ _ Hx). apply Forall_app. split.
    + eapply list.Forall_impl; [exact H1|]. simpl. intros a Ha [?|[? _]]; [lia|done].
    + constructor; [|constructor]. intros [?|[? _]]; [lia|done].
  - rewrite (drop_S _ _ _ Hx). constructor; [by right|].
    eapply list.Forall_impl; [exact H2|]. simpl. intros; lia.
  - eapply list.Forall_impl; [exact H2|]. simpl. intros; lia.
Qed.

(** ** The collecting loop over a page *)

Definition seen_of (seen : gset string) (out : list EventInfo) : Prop :=
  forall s, s ∈ seen <-> s ∈ ev_ID <$> out.

Lemma collect_run l1 l2 seen out :
  Forall (fun e => u32 (ev_Ledger e) <= toLedger) l1 -> NoDup (ev_ID <$> (out ++ l1)) ->
  seen_of seen out ->
  match l2 with [] => True | e :: _ => toLedger < u32 (ev_Ledger e) end ->
  exists seen', seen_of seen' (out ++ l1) /\
    collect_page toLedger (l1 ++ l2) seen out =
      (seen', out ++ l1, match l2 with [] => false | _ => true end).
Proof.
  intros Hl. revert seen out. induction Hl as [|e l1 He _ IH]; intros seen out Hn Hs Hl2.
  - exists seen. rewrite app_nil_r. split; [done|]. destruct l2 as [|e l2]; [done|]. simpl.
    by rewrite Z.gtb_ltb, (proj2 (Z.ltb_lt _ _)).
  - cbn [collect_page app]. rewrite Z.gtb_ltb, (proj2 (Z.ltb_ge _ _)) by done.
    assert (He' : ev_ID e ∉ seen).
    { rewrite (Hs (ev_ID e)). intros Hin. rewrite fmap_app in Hn. apply list.NoDup_app in Hn as (_ & Hd & _).
      apply (Hd _ Hin). rewrite fmap_cons. by left. }
    rewrite decide_False by done.
    destruct (IH ({[ev_ID e]} ∪ seen) (out ++ [e])) as (seen' & Hs' & Hc).
    + by rewrite <- app_assoc.
    + intros s. rewrite elem_of_union, elem_of_singleton, fmap_app, elem_of_app, (Hs s). simpl.
      rewrite list_elem_of_singleton. tauto.
    + done.
    + exists seen'. rewrite <- app_assoc in Hs', Hc. done.
Qed.

(** ** GetEventsInRange *)

(** The result is [T], or the error of a request. *)
Definition returns_all (T : list EventInfo) (r : option (res (list EventInfo))) : Prop :=
  match r with
  | Some (Ok out) => out = T
  | Some (Err e) => exists req w e', fst (cl_GetEvents req w) = Err e' /\ e = Wrapf "failed to get events: " e'
  | None => False
  end.

Lemma chain_ledgers all l : chain_ok all -> l ⊆ all -> Forall (fun e => ev_Ledger e <= toLedger) l ->
  Forall (fun e => u32 (ev_Ledger e) <= toLedger) l.
Proof.
  intros (_ & _ & Hok) Hsub Hl. rewrite list.Forall_forall in Hok, Hl. apply list.Forall_forall.
  intros e He. rewrite event_ledger by auto. auto.
Qed.

Lemma take_sub {A} n (l : list A) : take n l ⊆ l.
Proof. intros x Hx. rewrite <- (take_drop n l), elem_of_app. by left. Qed.

(** The head of the events past the window. *)
Lemma later_head all later k : chain_ok all -> later ⊆ all -> Forall (fun e => toLedger < ev_Ledger e) later ->
  match take k later with [] => True | e :: _ => toLedger < u32 (ev_Ledger e) end.
Proof.
  intros (_ & _ & Hok) Hsub Hl. rewrite list.Forall_forall in Hok, Hl.
  destruct (take k later) as [|e l] eqn:E; [done|].
  assert (He : e ∈ later) by (apply (take_sub k); rewrite E; by left).
  rewrite event_ledger by auto. auto.
Qed.

Lemma collect_seen e l seen out :
  u32 (ev_Ledger e) <= toLedger -> ev_ID e ∈ seen ->
  collect_page toLedger (e :: l) seen out = collect_page toLedger l seen out.
Proof.
  intros Hl Hs. cbn [collect_page]. rewrite Z.gtb_ltb, (proj2 (Z.ltb_ge _ _)) by done.
  by rewrite decide_True.
Qed.

(** The page of a cursor query. *)
Lemma cursor_page pre T n x c req later :
  settled = pre ++ T -> T !! n = Some x -> rank c = key x -> request_cursor req = Some c ->
  chain_ok (settled ++ later) ->
  selected req (settled ++ later) = (if incl then [x] else []) ++ drop (S n) T ++ later.
Proof.
  intros Es Hx Hc Hr (Hi & _ & _). unfold selected. rewrite Hr.
  assert (Hn : (n < length T)%nat) by (by apply lookup_lt_Some in Hx).
  assert (Hall : (settled ++ later) !! (length pre + n)%nat = Some x).
  { rewrite Es, <- app_assoc, lookup_app_r by lia.
    replace (length pre + n - length pre)%nat with n by lia. by rewrite lookup_app_l. }
  assert (Hd : drop (S (length pre + n)) (settled ++ later) = drop (S n) T ++ later).
  { rewrite Es, <- app_assoc, drop_app_ge by lia.
    replace (S (length pre + n) - length pre)%nat with (S n) by lia. by rewrite drop_app_le by lia. }
  rewrite (cursor_filter _ _ _ _ Hi Hall Hc). destruct incl; simpl; [|done].
  rewrite (drop_S _ _ _ Hall). by f_equal.
Qed.

(** Collecting the page of a cursor query after the first [S n] events of [T]. *)
Lemma collect_cursor_page T n x later m seen hd :
  chain_ok T -> chain_ok later -> Forall (fun e => ev_Ledger e <= toLedger) T ->
  Forall (fun e => toLedger < ev_Ledger e) later ->
  T !! n = Some x -> seen_of seen (take (S n) T) -> (hd = [] \/ hd = [x]) ->
  exists seen', seen_of seen' (take (S n + m) T) /\
    collect_page toLedger
      (hd ++ take m (drop (S n) T) ++ take (m - length (drop (S n) T)) later) seen (take (S n) T) =
    (seen', take (S n + m) T,
     match take (m - length (drop (S n) T)) later with [] => false | _ => true end).
Proof.
  intros HokT Hokl HT Hlater Hx Hs Hhd.
  assert (HTl : Forall (fun e => u32 (ev_Ledger e) <= toLedger) T) by by apply (chain_ledgers T).
  set (rest := take m (drop (S n) T) ++ _).
  replace (collect_page toLedger (hd ++ rest) seen (take (S n) T)) with
    (collect_page toLedger rest seen (take (S n) T)).
  - assert (HlT : take (S n) T ++ take m (drop (S n) T) = take (S n + m) T) by by rewrite take_take_drop.
    rewrite <- HlT. apply collect_run; [by apply Forall_take, Forall_drop| |done|].
    + rewrite HlT. rewrite <- (take_drop (S n + m) T) in HokT.
      apply ids_distinct. by apply chain_ok_app in HokT as [? _].
    + by apply (later_head later).
  - destruct Hhd as [-> | ->]; [done|]. simpl app. symmetry. apply collect_seen.
    + rewrite list.Forall_forall in HTl. apply HTl. by eapply list_elem_of_lookup_2.
    + apply (Hs (ev_ID x)). apply list_elem_of_fmap_2, list_elem_of_lookup. exists n.
      rewrite lookup_take. by rewrite decide_True by lia.
Qed.

(** The last event of a full page: a cursor that parses and is further on. *)
Lemma page_cursor T n x c m hd y resp :
  chain_ok T -> T !! n = Some x -> rank c = key x -> (0 < m)%nat -> (m <= length (drop (S n) T))%nat ->
  list.last (hd ++ take m (drop (S n) T)) = Some y -> r_Cursor resp = ev_ID y ->
  T !! (n + m)%nat = Some y /\ r_Cursor resp <> "" /\ ParseCursor (r_Cursor resp) = Ok (pos y) /\
  (Cmp (pos y) c <=? 0) = false.
Proof using Cmp_rank.
  intros HokT Hx Hc Hm Hm2 Hy ->.
  assert (HyT : T !! (n + m)%nat = Some y).
  { rewrite last_lookup, length_app, length_take in Hy.
    replace (Init.Nat.pred _) with (length hd + (m - 1))%nat in Hy by lia.
    rewrite lookup_app_r in Hy by lia.
    replace (length hd + (m - 1) - length hd)%nat with (m - 1)%nat in Hy by lia.
    rewrite lookup_take, decide_True, lookup_drop in Hy by lia.
    by replace (n + m)%nat with (S n + (m - 1))%nat by lia. }
  destruct HokT as (Hi & _ & Hok).
  destruct (Forall_lookup_1 _ _ _ _ Hok HyT) as (_ & Py & Ny & _).
  do 3 (split; [done|]). apply Z.leb_gt, Z.nle_gt. rewrite Cmp_rank, Hc. fold (key y).
  destruct (increasing_split key T n x Hi Hx) as [_ HH]. rewrite list.Forall_forall in HH.
  assert (G : key x < key y); [|lia]. apply HH, list_elem_of_lookup. exists (m - 1)%nat.
  rewrite lookup_drop. by replace (S n + (m - 1))%nat with (n + m)%nat by lia.
Qed.

Lemma range_loop_spec fuel filters pre T n x c seen w :
  settled = pre ++ T -> T !! n = Some x -> rank c = key x ->
  seen_of seen (take (S n) T) -> (length T < fuel + n)%nat ->
  returns_all T (fst (range_loop fuel filters fromLedger toLedger seen (take (S n) T) (Some c) w)).
Proof using Cmp_rank served settled_ledgers.
  intros Es. revert n x c seen w. induction fuel as [|fuel IH]; intros n x c seen w Hx Hc Hs Hf.
  { apply lookup_lt_Some in Hx. lia. }
  assert (Hn : (n < length T)%nat) by (by apply lookup_lt_Some in Hx).
  cbn [range_loop]. rewrite SM_bind_run.
  set (req := range_request filters fromLedger toLedger (Some c)).
  pose proof (served w req) as Sv. destruct (cl_GetEvents req w) as [r w'] eqn:Ew. cbn [fst snd] in *.
  destruct r as [resp|e]; [|simpl; exists req, w, e; by rewrite Ew].
  destruct Sv as (later & Hok & Hlater & Hpage & Hfull & _).
  rewrite (cursor_page pre T n x c req later Es Hx Hc eq_refl Hok) in Hpage.
  change (request_limit req) with 100%nat in *.
  set (hd := if incl then [x] else []) in *. set (m := (100 - length hd)%nat).
  assert (Hhd : hd = [] \/ hd = [x]) by (unfold hd; destruct incl; auto).
  assert (Hhl : (length hd <= 1)%nat) by (destruct Hhd as [-> | ->]; simpl; lia).
  rewrite take_app_ge, take_app in Hpage by lia. fold m in Hpage.
  apply chain_ok_app in Hok as [Hok Hokl]. rewrite Es in Hok, settled_ledgers.
  apply chain_ok_app in Hok as [_ HokT]. apply Forall_app in settled_ledgers as [_ HTl].
  destruct (collect_cursor_page T n x later m seen hd) as (seen' & Hs' & Hcol); try done.
  rewrite <- Hpage in Hcol. rewrite Hcol. clear Hcol.
  pose proof (length_drop T (S n)) as HlR. set (R := drop (S n) T) in *.
  assert (Hlen : length (r_Events resp) =
    (length hd + Nat.min m (length R) + Nat.min (m - length R) (length later))%nat)
    by (rewrite Hpage, !length_app, !length_take; lia).
  destruct (decide (m <= length R)%nat) as [Hm|Hm].
  - replace (m - length R)%nat with 0%nat in * by lia. rewrite take_0, app_nil_r in *.
    assert (Hl100 : length (r_Events resp) = 100%nat) by (rewrite Hlen; simpl; lia).
    destruct (Hfull Hl100) as (y & Hy & Hcur). rewrite Hpage in Hy.
    destruct (page_cursor T n x c m hd y resp) as (HyT & Hne & -> & ->); try done; [unfold m; lia|].
    rewrite (proj2 (Nat.ltb_ge _ _)), (proj2 (String.eqb_neq _ _) Hne) by (unfold eventsPageLimit; lia).
    simpl orb. cbv iota. replace (S n + m)%nat with (S (n + m)) in * by lia.
    apply (IH (n + m)%nat y (pos y)); [done..|]. unfold m. lia.
  - rewrite (take_ge T) by lia. replace (_ || _ || _)%bool with true; [done|].
    destruct (take (m - length R) later) eqn:El; [|done].
    assert (later = []) as ->.
    { destruct later; [done|]. destruct (m - length R)%nat eqn:E; [lia|done]. }
    simpl in Hlen. rewrite (proj2 (Nat.ltb_lt _ _)); [done|]. unfold eventsPageLimit, m in *. lia.
Qed.

(** ** The window *)

(** The events of the window, without and with its end ledger. *)
Definition window_open : list EventInfo :=
  filter (fun e => fromLedger <= ev_Ledger e < toLedger) settled.
Definition window_closed : list EventInfo :=
  filter (fun e => fromLedger <= ev_Ledger e <= toLedger) settled.

Lemma window_split later :
  chain_ok (settled ++ later) -> Forall (fun e => toLedger < ev_Ledger e) later ->
  exists pre T j,
    settled = pre ++ T /\ (j <= length T)%nat /\
    window_closed = T /\ window_open = take j T /\
    filter (fun e => fromLedger <= ev_Ledger e < toLedger) (settled ++ later) = take j T /\
    Forall (fun e => ev_Ledger e < fromLedger) pre /\
    Forall (fun e => fromLedger <= ev_Ledger e < toLedger) (take j T) /\
    Forall (fun e => toLedger <= ev_Ledger e) (drop j T).
Proof using settled_ledgers.
  intros [(_ & Hs & _) _]%chain_ok_app Hl.
  destruct (suffix_from settled ev_Ledger fromLedger Hs) as (k & Hk & H1 & H2).
  destruct (suffix_from (drop k settled) ev_Ledger toLedger (sorted_drop _ _ _ Hs)) as (j & Hj & H3 & H4).
  set (pre := take k settled) in *. set (T := drop k settled) in *.
  assert (Es : settled = pre ++ T) by (symmetry; apply take_drop).
  assert (HT : Forall (fun e => ev_Ledger e <= toLedger) T) by (by apply Forall_drop).
  assert (Hj2 : Forall (fun e => fromLedger <= ev_Ledger e < toLedger) (take j T)).
  { assert (H5 : Forall (fun a => fromLedger <= ev_Ledger a) (take j T)) by by apply Forall_take.
    eapply list.Forall_impl; [exact (Forall_and H5 H3)|]. simpl. lia. }
  assert (Ho : window_open = take j T).
  { unfold window_open. rewrite Es, <- (take_drop j T), !list.filter_app, take_app_length'
      by (rewrite length_take; lia).
    rewrite filter_none, filter_all, filter_none, app_nil_r; [done|..].
    - eapply list.Forall_impl; [exact H4|]. simpl. lia.
    - done.
    - eapply list.Forall_impl; [exact H1|]. simpl. lia. }
  exists pre, T, j. split; [done|]. split; [done|]. split; [|split; [done|split; [|done]]].
  - unfold window_closed. rewrite Es, list.filter_app, filter_none, filter_all; [done|..].
    + eapply list.Forall_impl; [exact (Forall_and H2 HT)|]. simpl. lia.
    + eapply list.Forall_impl; [exact H1|]. simpl. lia.
  - rewrite list.filter_app. fold window_open. rewrite Ho, filter_none, app_nil_r; [done|].
    eapply list.Forall_impl; [exact Hl|]. simpl. lia.
Qed.

(** Property C19: [GetEventsInRange] loses no event.  Against a server that answers
    as documented, in the error-free case and with enough fuel (so the loop ends),
    it returns every matching event of the window once and in order: all those of
    ledgers [fromLedger, toLedger) when they fit a page, and those of the end
    ledger as well when they do not, because the cursor queries that follow the
    first page are open-ended.  Its only errors are those of the requests. *)
Theorem GetEventsInRange_complete fuel contractID topics w :
  (length settled + 1 < fuel)%nat ->
  returns_all (if Nat.ltb (length window_open) eventsPageLimit then window_open else window_closed)
    (fst (GetEventsInRange fuel contractID fromLedger toLedger topics w)).
Proof using Cmp_rank served settled_ledgers.
  intros Hf. destruct fuel as [|fuel]; [lia|]. unfold GetEventsInRange. cbn [range_loop].
  rewrite SM_bind_run. set (filters := contract_filter _ _).
  set (req := range_request filters fromLedger toLedger None).
  pose proof (served w req) as Sv. destruct (cl_GetEvents req w) as [r w'] eqn:Ew. cbn [fst snd] in *.
  destruct r as [resp|e]; [|simpl; exists req, w, e; by rewrite Ew].
  destruct Sv as (later & Hok & Hlater & Hpage & Hfull & _).
  destruct (window_split later Hok Hlater) as (pre & T & j & Es & Hj & -> & -> & Hsel & _).
  unfold selected in Hpage. simpl in Hpage. rewrite Hsel in Hpage.
  change (request_limit req) with 100%nat in *.
  pose proof Hok as HokT. rewrite Es in HokT. apply chain_ok_app in HokT as [[_ HokT]%chain_ok_app _].
  assert (HTl : Forall (fun e => ev_Ledger e <= toLedger) T)
    by (pose proof settled_ledgers as HS; rewrite Es in HS; by apply Forall_app in HS as [_ ?]).
  assert (Hlp : r_Events resp = take (Nat.min 100 j) T) by (rewrite Hpage; apply take_take).
  destruct (collect_run (r_Events resp) [] ∅ []) as (seen' & Hs' & Hcol).
  { rewrite Hlp. apply Forall_take. by apply (chain_ledgers T). }
  { simpl. rewrite Hlp. rewrite <- (take_drop (Nat.min 100 j) T) in HokT.
    apply ids_distinct. by apply chain_ok_app in HokT as [? _]. }
  { intros s. set_solver. }
  { done. }
  rewrite app_nil_r in Hcol. rewrite Hcol. simpl app. clear Hcol.
  rewrite length_take, Nat.min_l by lia. simpl orb.
  assert (Hlen : length (r_Events resp) = Nat.min 100 j) by (rewrite Hlp, length_take; lia).
  destruct (Nat.ltb_spec j eventsPageLimit) as [Hs|Hs]; unfold eventsPageLimit in Hs.
  - rewrite (proj2 (Nat.ltb_lt _ _)) by (unfold eventsPageLimit; lia). simpl.
    rewrite Hlp. by rewrite Nat.min_r by lia.
  - rewrite (proj2 (Nat.ltb_ge _ _)) by (unfold eventsPageLimit; lia). simpl orb.
    rewrite Nat.min_l in * by lia. destruct (Hfull Hlen) as (y & Hy & Hcur).
    assert (HyT : T !! 99%nat = Some y).
    { rewrite Hlp, last_lookup, length_take, Nat.min_l in Hy by lia.
      by rewrite lookup_take, decide_True in Hy by (simpl; lia). }
    destruct (Forall_lookup_1 _ _ _ _ (proj2 (proj2 HokT)) HyT) as (_ & Py & Ny & _).
    rewrite Hcur, (proj2 (String.eqb_neq _ _) Ny), Py, Hlp. cbv iota.
    apply (range_loop_spec fuel filters pre T 99 y (pos y)); try done; [by rewrite <- Hlp|].
    pose proof (f_equal length Es) as EL. rewrite length_app in EL. lia.
Qed.

(** ** fetchAllEvents *)

(** The result is [T], or the error of the context or of a request. *)
Definition fetches (T : list EventInfo) (r : option (res (list EventInfo))) : Prop :=
  match r with
  | Some (Ok out) => out = T
  | Some (Err e) =>
      (exists w e', cl_ctx_Err w = Some e' /\ e = Wrapf "fetching events: " e') \/
      exists req w e', fst (cl_GetEvents req w) = Err e' /\ e = Wrapf "failed to get events: " e'
  | None => False
  end.

Lemma keep_run l1 l2 events :
  Forall (fun e => u32 (ev_Ledger e) <= toLedger) l1 ->
  match l2 with [] => True | e :: _ => toLedger < u32 (ev_Ledger e) end ->
  keep_in_range toLedger (l1 ++ l2) events =
    (events ++ l1, match l2 with [] => false | _ => true end).
Proof.
  intros Hl. revert events. induction Hl as [|e l1 He _ IH]; intros events Hl2.
  - rewrite app_nil_r. destruct l2 as [|e l2]; [done|]. simpl.
    by rewrite Z.gtb_ltb, (proj2 (Z.ltb_lt _ _)).
  - cbn [keep_in_range app]. rewrite Z.gtb_ltb, (proj2 (Z.ltb_ge _ _)) by done.
    rewrite IH by done. by rewrite <- app_assoc.
Qed.

(** The cursor [c] lies after the first [n] events of [T]. *)
Definition separates (c : Cursor) (pre T : list EventInfo) (n : nat) : Prop :=
  Forall (fun e => key e <= rank c) (pre ++ take n T) /\
  Forall (fun e => rank c < key e) (drop n T).

Lemma separates_event pre T n y :
  increasing key (pre ++ T) -> T !! n = Some y -> separates (pos y) pre T (S n).
Proof.
  intros Hi Hy.
  assert (Hall : (pre ++ T) !! (length pre + n)%nat = Some y)
    by (rewrite lookup_app_r by lia; by replace (length pre + n - length pre)%nat with n by lia).
  destruct (increasing_split key _ _ _ Hi Hall) as [H1 H2].
  rewrite take_app_add' in H1 by done.
  replace (S (length pre + n)) with (length pre + S n)%nat in H2 by lia.
  rewrite drop_app_add' in H2 by done. split; [|exact H2]. fold (key y) in *.
  rewrite (take_S_r _ _ _ Hy), app_assoc. apply Forall_app. split.
  - eapply list.Forall_impl; [exact H1|]. unfold key. simpl. lia.
  - constructor; [|constructor]. unfold key. lia.
Qed.

Lemma separates_selected req later pre T n c :
  incl = false -> request_cursor req = Some c -> separates c pre T n ->
  exists later', later' ⊆ later /\ selected req ((pre ++ T) ++ later) = drop n T ++ later'.
Proof.
  intros Hi Hr [H1 H2]. unfold selected. rewrite Hr.
  set (P := fun e => rank c < key e \/ (incl = true /\ rank c = key e)).
  exists (filter P later). split; [intros e He; by apply list_elem_of_filter in He as [_ ?]|].
  rewrite list.filter_app. f_equal. rewrite <- (take_drop n T) at 1. rewrite app_assoc, list.filter_app.
  rewrite filter_none, filter_all; [done|..].
  - eapply list.Forall_impl; [exact H2|]. unfold P. simpl. auto.
  - eapply list.Forall_impl; [exact H1|]. unfold P. simpl. intros e He [?|[? _]]; [lia|congruence].
Qed.

(** The request that continues from [c]. *)
Definition continue_request (filters : list protocol.EventFilter) (c : Cursor) : GetEventsRequest :=
  mkGetEventsRequest _ 0 0 filters (Some (mkPaginationOptions _ (Some c) 0)) "".

Lemma fetch_loop_spec fuel filters pre T n c prev w :
  incl = false -> (0 < lim)%nat -> settled = pre ++ T -> (n <= length T)%nat ->
  separates c pre T n -> ParseCursor prev = Ok c -> (length T < fuel + n)%nat ->
  fetches T (fst (fetch_loop fuel filters toLedger (continue_request filters c) (take n T) prev w)).
Proof using served settled_ledgers.
  intros Hincl Hlim Es. revert n c prev w.
  induction fuel as [|fuel IH]; intros n c prev w Hn Hsep Hprev Hf; [lia|].
  cbn [fetch_loop]. destruct (cl_ctx_Err w) as [e|] eqn:Ec; [simpl; left; exists w, e; done|].
  set (req := continue_request filters c). rewrite SM_bind_run.
  pose proof (served w req) as Sv. destruct (cl_GetEvents req w) as [r w'] eqn:Ew. cbn [fst snd] in *.
  destruct r as [resp|e]; [|simpl; right; exists req, w, e; by rewrite Ew].
  destruct Sv as (later & Hok & Hlater & Hpage & Hfull & Hshort). rewrite Es in *.
  destruct (separates_selected req later pre T n c Hincl eq_refl Hsep) as (later' & Hsub & Hsel).
  rewrite Hsel in Hpage. change (request_limit req) with lim in *. rewrite take_app in Hpage.
  pose proof Hok as [[_ HokT]%chain_ok_app Hokl]%chain_ok_app.
  assert (HTl : Forall (fun e => ev_Ledger e <= toLedger) T)
    by (by apply Forall_app in settled_ledgers as [_ ?]).
  pose proof (length_drop T n) as HlR.
  assert (Hl' : Forall (fun e => toLedger < ev_Ledger e) later').
  { apply list.Forall_forall. intros e He. rewrite list.Forall_forall in Hlater. auto. }
  rewrite Hpage, keep_run; [|apply Forall_take, Forall_drop; by apply (chain_ledgers T)
                            |by apply (later_head later)].
  rewrite <- Hpage, take_take_drop.
  destruct (take (lim - length (drop n T)) later') as [|e l2] eqn:El; cycle 1.
  { simpl. apply take_ge.
    destruct (decide (length (drop n T) < lim)%nat); [lia|].
    by replace (lim - length (drop n T))%nat with 0%nat in El by lia. }
  rewrite app_nil_r in Hpage. simpl orb.
  assert (Hlen : length (r_Events resp) = Nat.min lim (length T - n)) by (rewrite Hpage, length_take; lia).
  destruct (decide (n = length T)) as [->|Hne].
  { replace (length (r_Events resp)) with 0%nat by lia. rewrite Nat.eqb_refl, orb_true_r.
    simpl. apply take_ge. lia. }
  rewrite (proj2 (Nat.eqb_neq _ _)) by lia. rewrite orb_false_r.
  destruct (decide (lim <= length T - n)%nat) as [Hl|Hl].
  - destruct (Hfull ltac:(lia)) as (y & Hy & Hcur).
    assert (HyT : T !! (n + (lim - 1))%nat = Some y).
    { rewrite Hpage, last_lookup, length_take, Nat.min_l in Hy by lia.
      replace (Init.Nat.pred lim) with (lim - 1)%nat in Hy by lia.
      by rewrite lookup_take, decide_True, lookup_drop in Hy by lia. }
    destruct (Forall_lookup_1 _ _ _ _ (proj2 (proj2 HokT)) HyT) as (Ly & Py & Ny & Cy).
    rewrite Hcur, (proj2 (String.eqb_neq _ _) Ny). simpl orb.
    destruct (String.eqb_spec (ev_ID y) prev) as [Ep|_].
    { exfalso. rewrite Ep, Hprev in Py. injection Py as ->. destruct Hsep as [_ Hs2].
      rewrite list.Forall_forall in Hs2. assert (rank (pos y) < key y); [|unfold key in *; lia].
      apply Hs2. apply list_elem_of_lookup. exists (lim - 1)%nat. by rewrite lookup_drop. }
    rewrite Py, Cy, Z.gtb_ltb, (proj2 (Z.ltb_ge _ _)).
    2: { rewrite list.Forall_forall in HTl. apply HTl. by eapply list_elem_of_lookup_2. }
    apply IH; [lia| |done|lia]. replace (n + lim)%nat with (S (n + (lim - 1))) by lia.
    apply separates_event; [|done]. apply chain_ok_app in Hok as [(Hi & _) _]. done.
  - destruct (Hshort ltac:(lia)) as (Nc & c' & Pc & Hc). rewrite (proj2 (String.eqb_neq _ _) Nc).
    rewrite (take_ge T) by lia. simpl orb.
    destruct (String.eqb _ prev); [done|]. rewrite Pc. destruct (Cursor_Ledger c' >? toLedger); [done|].
    assert (HT : take (length T) T = T) by (apply take_ge; lia).
    specialize (IH (length T) c' (r_Cursor resp) w'). rewrite HT in IH. apply IH; [lia| |done|lia].
    apply Forall_app in Hc as [Hc _]. split; [by rewrite HT|]. rewrite drop_ge by lia. constructor.
Qed.

(** [fetchAllEvents] loses no message event but in one case.  Against
    a server that answers as documented (a cursor excluding the event it names),
    with enough fuel, it returns every matching event of [fromLedger, toLedger]
    once and in order, provided some event lies before the end ledger; if none
    does, the first page is empty and the loop stops without asking for the end
    ledger, whose events are then missed.  Its only errors are those of the context
    and of the requests. *)
Theorem fetchAllEvents_complete fuel address topic w :
  incl = false -> (0 < lim)%nat -> (length settled + 1 < fuel)%nat ->
  fetches (if decide (window_open = []) then [] else window_closed)
    (fst (fetchAllEvents fuel address fromLedger toLedger topic w)).
Proof using served settled_ledgers.
  intros Hincl Hlim Hf. destruct fuel as [|fuel]; [lia|]. unfold fetchAllEvents. cbn [fetch_loop].
  set (filters := contract_filter _ _).
  destruct (cl_ctx_Err w) as [e|] eqn:Ec; [simpl; left; exists w, e; done|].
  set (req := mkGetEventsRequest _ _ _ _ _ _). rewrite SM_bind_run.
  pose proof (served w req) as Sv. destruct (cl_GetEvents req w) as [r w'] eqn:Ew. cbn [fst snd] in *.
  destruct r as [resp|e]; [|simpl; right; exists req, w, e; by rewrite Ew].
  destruct Sv as (later & Hok & Hlater & Hpage & Hfull & Hshort).
  destruct (window_split later Hok Hlater) as (pre & T & j & Es & Hj & -> & Ho & Hsel & Hpre & Htk & Hdr).
  unfold selected in Hpage. simpl in Hpage. rewrite Hsel in Hpage. rewrite Ho.
  change (request_limit req) with lim in *.
  pose proof Hok as HokT. rewrite Es in HokT. apply chain_ok_app in HokT as [HokS _].
  pose proof HokS as [_ HokT]%chain_ok_app.
  assert (HTl : Forall (fun e => ev_Ledger e <= toLedger) T)
    by (pose proof settled_ledgers as HS; rewrite Es in HS; by apply Forall_app in HS as [_ ?]).
  rewrite take_take in Hpage.
  assert (Hkeep : keep_in_range toLedger (r_Events resp) [] = (take (Nat.min lim j) T, false)).
  { rewrite <- (app_nil_r (r_Events resp)), keep_run; [by rewrite Hpage| |done].
    rewrite Hpage. apply Forall_take. by apply (chain_ledgers T). }
  rewrite Hkeep. simpl orb.
  assert (Hlen : length (r_Events resp) = Nat.min lim j) by (rewrite Hpage, length_take; lia).
  destruct (decide (take j T = [])) as [E|E].
  { assert (j = 0%nat) as ->.
    { apply (f_equal length) in E. rewrite length_take in E. simpl in E. lia. }
    rewrite Hlen, Nat.min_0_r, Nat.eqb_refl, orb_true_r. done. }
  assert (Hj0 : (0 < j)%nat) by (destruct j; [done|lia]).
  rewrite (proj2 (Nat.eqb_neq (length _) 0)), orb_false_r by lia.
  pose proof (f_equal length Es) as EL. rewrite length_app in EL.
  destruct (decide (lim <= j)%nat) as [Hl|Hl].
  - rewrite Nat.min_l in * by lia. destruct (Hfull Hlen) as (y & Hy & Hcur).
    assert (HyT : T !! (lim - 1)%nat = Some y).
    { rewrite Hpage, last_lookup, length_take, Nat.min_l in Hy by lia.
      replace (Init.Nat.pred lim) with (lim - 1)%nat in Hy by lia.
      by rewrite lookup_take, decide_True in Hy by lia. }
    destruct (Forall_lookup_1 _ _ _ _ (proj2 (proj2 HokT)) HyT) as (Ly & Py & Ny & Cy).
    rewrite Hcur, (proj2 (String.eqb_neq _ _) Ny), Py, Cy, Z.gtb_ltb, (proj2 (Z.ltb_ge _ _)).
    2: { rewrite list.Forall_forall in HTl. apply HTl. by eapply list_elem_of_lookup_2. }
    simpl orb. apply (fetch_loop_spec fuel filters pre T lim (pos y)); try done; try lia.
    replace lim with (S (lim - 1)) by lia. apply separates_event; [by destruct HokS|done].
  - rewrite Nat.min_r in * by lia.
    destruct (Hshort ltac:(lia)) as (Nc & c & Pc & Hcl & Hc). rewrite (proj2 (String.eqb_neq _ _) Nc), Pc.
    simpl in Hcl. rewrite Z.gtb_ltb, (proj2 (Z.ltb_ge _ _)) by lia. simpl orb.
    apply (fetch_loop_spec fuel filters pre T j c); try done; [|lia].
    rewrite Es in Hc. apply Forall_app in Hc as [Hc _].
    assert (Hft : fromLedger <= toLedger).
    { destruct (take j T) as [|e l]; [done|]. apply Forall_inv in Htk. lia. }
    rewrite <- (take_drop j T), app_assoc in Hc. apply Forall_app in Hc as [Hc1 Hc2]. split.
    + assert (Hlt : Forall (fun e => ev_Ledger e < toLedger) (pre ++ take j T)).
      { apply Forall_app. split; (eapply list.Forall_impl; [eassumption|]); simpl; lia. }
      eapply list.Forall_impl; [exact (Forall_and Hc1 Hlt)|]. simpl. tauto.
    + eapply list.Forall_impl; [exact (Forall_and Hc2 Hdr)|]. simpl. intros e [He1 He2].
      destruct (Z.lt_ge_cases (rank c) (key e)); [done|]. tauto || lia.
Qed.

End Server.

(** ** Witnesses: a chain of two events *)

(** A cursor is its rank and its ledger. *)
#[local] Instance pages_cursors : Cursors := {|
  Cursor := Z * Z;
  ParseCursor s :=
    if String.eqb s "a" then Ok (10, 10)
    else if String.eqb s "m" then Ok (15, 19)
    else if String.eqb s "b" then Ok (20, 20)
    else if String.eqb s "z" then Ok (100, 20)
    else Err (ErrorString "invalid cursor");
  Cmp c d := fst c - fst d;
  Cursor_Ledger c := snd c
|}.

Definition event_a : EventInfo := mkEventInfo "contract" 10 "" "" "a" 0 0 "t1" [] "".
Definition event_b : EventInfo := mkEventInfo "contract" 20 "" "" "b" 0 0 "t2" [] "".
Definition pages_chain : list EventInfo := [event_a; event_b].
Definition pages_pos (e : EventInfo) : Cursor :=
  if String.eqb (ev_ID e) "a" then (10, 10) else (20, 20).

Definition pages_answer (req : GetEventsRequest) : res GetEventsResponse :=
  let reply l c := Ok (mkGetEventsResponse l c 20 1 0 0) in
  if Nat.ltb 1 (request_limit 10 req) then
    match request_cursor req with
    | None => if (StartLedger req =? 10) && (EndLedger req =? 20) then reply [event_a] "m"%string
              else Err (ErrorString "not scripted")
    | Some c => if fst c =? 15 then reply [event_b] "z"%string
                else if fst c =? 100 then reply [] "z"%string
                else Err (ErrorString "not scripted")
    end
  else Err (ErrorString "not scripted").

#[local] Instance pages_client : EventsClient unit := {|
  cl_GetEvents req w := (pages_answer req, w);
  cl_ctx_Err _ := None
|}.

Lemma pages_chain_ok : chain_ok fst pages_pos (pages_chain ++ []).
Proof.
  unfold chain_ok, increasing, pages_chain, key. simpl.
  repeat first [apply conj | constructor]; simpl; try done; try lia.
Qed.

Lemma pages_served : forall (w : unit) req,
  match fst (cl_GetEvents req w) with
  | Ok resp => answers fst pages_pos false 10 pages_chain 20 req resp
  | Err _ => True
  end.
Proof.
  intros w req. simpl. unfold pages_answer.
  destruct (Nat.ltb_spec 1 (request_limit 10 req)) as [Hl|]; [|done].
  unfold answers, selected. destruct (request_cursor req) as [[r l]|]; simpl.
  - destruct (Z.eqb_spec r 15) as [->|]; [|destruct (Z.eqb_spec r 100) as [->|]; [|done]];
      exists []; (split; [apply pages_chain_ok|]); (split; [constructor|]); simpl.
    + split; [by destruct (request_limit 10 req) as [|[|?]]; simpl; try lia|].
      split; [intros; lia|]. intros _. split; [done|]. exists (100, 20). split; [done|].
      repeat constructor; unfold key; simpl; lia.
    + split; [by destruct (request_limit 10 req)|].
      split; [intros; lia|]. intros _. split; [done|]. exists (100, 20). split; [done|].
      repeat constructor; unfold key; simpl; lia.
  - destruct (Z.eqb_spec (StartLedger req) 10) as [->|]; [|done].
    destruct (Z.eqb_spec (EndLedger req) 20) as [->|]; [|done]. simpl.
    exists []. split; [apply pages_chain_ok|]. split; [constructor|]. simpl.
    split; [by destruct (request_limit 10 req) as [|[|?]]; simpl; try lia|].
    split; [intros; lia|]. intros _. split; [done|]. exists (15, 19). split; [done|].
    split; [simpl; lia|]. repeat constructor; unfold key; simpl; lia.
Qed.

Lemma pages_settled : Forall (fun e => ev_Ledger e <= 20) pages_chain.
Proof. repeat constructor; simpl; lia. Qed.

Lemma pages_cmp (c d : Cursor) : Cmp c d <= 0 <-> fst c <= fst d.
Proof. simpl. lia. Qed.

Lemma GetEventsInRange_complete_witness :
  returns_all [event_a] (fst (GetEventsInRange 4 "CAAA" 10 20 ["topic"] tt)).
Proof.
  exact (GetEventsInRange_complete fst pages_pos false 10 pages_chain 10 20 pages_cmp pages_served
           pages_settled 4 "CAAA" ["topic"] tt ltac:(simpl; lia)).
Defined.

Lemma fetchAllEvents_complete_witness :
  fetches [event_a; event_b] (fst (fetchAllEvents 4 "CAAA" 10 20 (Some (ScvSymbol (Some "sent"))) tt)).
Proof.
  exact (fetchAllEvents_complete fst pages_pos false 10 pages_chain 10 20 pages_served
           pages_settled 4 "CAAA" (Some (ScvSymbol (Some "sent"))) tt eq_refl ltac:(lia) ltac:(simpl; lia)).
Defined.
