(* ===== verification/Invoker.v ===== *)
(** * Contract invocations

    Models relayer/txm/invoker_adapter.go and bindings/invoke_payload.go.  The
    adapter talks to the transaction manager through the [InvokerTxManager]
    interface; [StellarTxm_InvokerTxManager] is its implementation by the manager
    of Enqueue.v. *)

From S2P Require Import Prelude GoFloat Sdk GoBytes Xdr DemoCodec Scval TypeConverters TxStore Fee Config TxmState Logic Broadcast Enqueue Demo.

(** [txnbuild.InvokeHostFunction] with an [InvokeContract] host function. *)
Record InvokeHostFunction := mkInvokeHostFunction {
  ContractAddress : ScAddress;
  FunctionName : string;
  Args : list ScVal;
  SourceAccount : string
}.

(** [xdr.TransactionMeta]: its version and, for versions 3 and 4, the return value
    of the Soroban meta ([None] outside is the nil arm, then the nil SorobanMeta). *)
Record TransactionMeta := mkTransactionMeta {
  meta_V : Z;
  meta_V3 : option (option ScVal);
  meta_V4 : option (option (option ScVal))
}.

(** The SDK's part. *)
Class InvokeSdk `{Sdk} := {
  Operation_of : InvokeHostFunction -> Operation;
  TransactionMeta_UnmarshalBase64 : string -> res TransactionMeta
}.

(** [client.GetEvents]. *)
Class EventsRpc (W : Type) `{Env W} `{protocol.Cursors} := {
  rpc_GetEvents : Client -> protocol.GetEventsRequest -> W -> res protocol.GetEventsResponse * W
}.

(** The subset of the manager that the adapter uses; [T] is the manager. *)
Class InvokerTxManager `{Sdk} (W T : Type) := {
  itm_EnqueueAndWait : T -> TxRequest -> M W (res (option TxResult));
  itm_Simulate : T -> TxRequest -> M W (res SimulateTransactionResponse)
}.

#[export] Instance StellarTxm_InvokerTxManager `{Sdk} {W : Type} `{Env W} `{!Sched W}
    : InvokerTxManager W StellarTxm := {|
  itm_EnqueueAndWait s req := r ← EnqueueAndWait s req; mret (Some <$> r);
  itm_Simulate s req := Simulate s req
|}.

Record InvokerAdapter (T : Type) := mkInvokerAdapter {
  txm : T;
  fromAddress : string;
  ledgerBoundsOffset : Z
}.
Arguments mkInvokerAdapter {T} txm fromAddress ledgerBoundsOffset.
Arguments txm {T} i.
Arguments fromAddress {T} i.
Arguments ledgerBoundsOffset {T} i.

Definition WithInvokerFromAddress {T} (addr : string) (a : InvokerAdapter T) : InvokerAdapter T :=
  mkInvokerAdapter (txm a) addr (ledgerBoundsOffset a).
Definition WithInvokerLedgerBoundsOffset {T} (offset : Z) (a : InvokerAdapter T) : InvokerAdapter T :=
  mkInvokerAdapter (txm a) (fromAddress a) offset.

(** [getClient] is the environment's; [have_getClient] says it is not nil. *)
Definition NewInvokerAdapter {T} (m : option T) (have_getClient : bool)
    (opts : list (InvokerAdapter T -> InvokerAdapter T)) : res (InvokerAdapter T) :=
  match m with
  | None => Err (ErrorString "txm is required")
  | Some m =>
      if negb have_getClient then Err (ErrorString "getClient is required")
      else Ok (fold_left (fun a opt => opt a) opts (mkInvokerAdapter m "" 0))
  end.

(** ** Building the operation *)

Definition BuildInvokeContractOperation `{Codec} (contractID functionName : string)
    (args : list ScVal) (fromAddress : string) : res InvokeHostFunction :=
  if String.eqb contractID "" then Err (ErrorString "contractID is required")
  else if String.eqb functionName "" then Err (ErrorString "functionName is required")
  else match strkey_Decode VersionByteContract contractID with
       | Err e => Err (Wrapf "decode contract ID: " e)
       | Ok contractBytes =>
           match BuildContractScAddress contractBytes with
           | None => Err (ErrorString "build contract address")
           | Some contractAddr => Ok (mkInvokeHostFunction contractAddr functionName args fromAddress)
           end
       end.

(** ** Return values *)

Definition extractReturnValueFromTransactionMeta (meta : option TransactionMeta)
    : outcome (option ScVal) :=
  match meta with
  | None => Returns None
  | Some meta =>
      if meta_V meta =? 4 then
        v ← deref (meta_V4 meta);
        match v with None => Returns None | Some returnValue => Returns returnValue end
      else if meta_V meta =? 3 then
        v ← deref (meta_V3 meta);
        match v with None => Returns None | Some returnValue => Returns (Some returnValue) end
      else Errs (ErrorString "unsupported transaction meta version")
  end.

Definition extractReturnValueFromResultMetaXDR `{InvokeSdk} (resultMetaXDR : string)
    : outcome (option ScVal) :=
  if String.eqb resultMetaXDR "" then Returns None
  else match TransactionMeta_UnmarshalBase64 resultMetaXDR with
       | Err e => Errs (Wrapf "decode result meta XDR: " e)
       | Ok meta => extractReturnValueFromTransactionMeta (Some meta)
       end.

Definition extractReturnValueFromSimulationResult `{Codec} (result : SimulateTransactionResponse)
    : outcome (option ScVal) :=
  match sim_Results result with
  | [] => Returns None
  | r :: _ =>
      match ReturnValueXDR r with
      | None => Returns None
      | Some x =>
          if String.eqb x "" then Returns None
          else match ScVal_UnmarshalBase64 x with
               | Err e => Errs (Wrapf "decode simulation return value XDR: " e)
               | Ok scVal => Returns (Some scVal)
               end
      end
  end.

(** ** The adapter's methods *)

Section Adapter.
Context `{InvokeSdk} `{Codec} {W T : Type} `{!InvokerTxManager W T}.
Variable a : InvokerAdapter T.

(** The request of an invocation, its operation being the new object [op]. *)
Definition invoke_request (op : opref) : TxRequest :=
  mkTxRequest "" (fromAddress a) [Some op] (ledgerBoundsOffset a) None 0.

(** What is returned for the manager's answer. *)
Definition invoke_result (e : res (option TxResult)) : outcome (option ScVal) :=
  match e with
  | Err err => Errs (Wrapf "invoke: " err)
  | Ok None => Errs (ErrorString "invoke: nil transaction result")
  | Ok (Some result) =>
      match r_Error result with
      | Some err => Errs (Wrapf ("invoke: tx " +:+ r_ID result +:+ " failed: ") err)
      | None =>
          if decide (r_Status result = Finalized)
          then extractReturnValueFromResultMetaXDR (r_ResultMetaXDR result)
          else Errs (ErrorString ("invoke: tx " +:+ r_ID result +:+ " ended with another status"))
      end
  end.

Definition InvokeContract (contractID functionName : string) (args : list ScVal)
    : M W (outcome (option ScVal)) :=
  match BuildInvokeContractOperation contractID functionName args (fromAddress a) with
  | Err e => mret (Errs e)
  | Ok f =>
      op ← new_op (Operation_of f);
      e ← itm_EnqueueAndWait (txm a) (invoke_request op);
      mret (invoke_result e)
  end.

Definition simulate_result (e : res SimulateTransactionResponse) : outcome (option ScVal) :=
  match e with
  | Err err => Errs (Wrapf "simulate: " err)
  | Ok result =>
      match sim_RestorePreamble result with
      | Some _ => Errs (ErrorString "simulate: restore required before read-only simulation can return a value")
      | None => extractReturnValueFromSimulationResult result
      end
  end.

Definition SimulateContract (contractID functionName : string) (args : list ScVal)
    : M W (outcome (option ScVal)) :=
  match BuildInvokeContractOperation contractID functionName args (fromAddress a) with
  | Err e => mret (Errs e)
  | Ok f =>
      op ← new_op (Operation_of f);
      e ← itm_Simulate (txm a) (invoke_request op);
      mret (simulate_result e)
  end.

Definition events_topics (topics : list string) : list protocol.SegmentFilter :=
  ((fun topic => protocol.mkSegmentFilter None (SymbolToScValPtr topic)) <$> topics) ++
  [protocol.mkSegmentFilter (Some protocol.WildCardZeroOrMore) None].

Definition GetEvents `{EventsRpc W} (contractID : string) (startLedger : Z) (topics : list string)
    : M W (res (list protocol.EventInfo)) :=
  c ← io getClient;
  match c with
  | Err e => mret (Err (Wrapf "get events client: " e))
  | Ok client =>
      resp ← io (rpc_GetEvents client
        (protocol.mkGetEventsRequest _ startLedger 0
           [protocol.mkEventFilter {[protocol.EventTypeContract]} [contractID] [events_topics topics]]
           None ""));
      mret match resp with
           | Err e => Err (Wrapf "get events: " e)
           | Ok r => Ok (protocol.r_Events r)
           end
  end.

End Adapter.

(** ** The MCMS invoke payload *)

Definition symbol_char (c : Ascii.ascii) : bool :=
  let n := Z.of_N (Ascii.N_of_ascii c) in
  ((65 <=? n) && (n <=? 90)) || ((97 <=? n) && (n <=? 122)) ||
  ((48 <=? n) && (n <=? 57)) || (n =? 95).

Fixpoint string_forallb (p : Ascii.ascii -> bool) (s : string) : bool :=
  match s with EmptyString => true | String c s' => p c && string_forallb p s' end.

(** The regular expression [^[A-Za-z0-9_]{1,32}$]. *)
Definition sorobanInvokeSymbol (s : string) : bool :=
  Nat.leb 1 (String.length s) && Nat.leb (String.length s) 32 && string_forallb symbol_char s.

Definition SorobanInvokeEncodingVersion : Z := 1.

Section Payload.
Context `{Codec}.

Definition EncodeSorobanInvokePayload (function : string) (args : list ScVal) : outcome bytes :=
  if negb (sorobanInvokeSymbol function) then Errs (ErrorString "invalid Soroban symbol")
  else ScVal_MarshalBinary (ScvVec (Some (Some (SymbolToScVal function :: args)))).

Definition DecodeSorobanInvokePayload (data : bytes) : outcome (string * list ScVal) :=
  match ScVal_UnmarshalBinary data with
  | Err e => Errs (Wrapf "decode Soroban invoke payload: " e)
  | Ok value =>
      vec ← need (GetVec value) "Soroban invoke payload must be a non-empty vector";
      match vec with
      | None | Some [] => Errs (ErrorString "Soroban invoke payload must be a non-empty vector")
      | Some (first :: rest) =>
          function ← wrap_out "invalid invoke function symbol: " (SymbolFromScVal first);
          if negb (sorobanInvokeSymbol function)
          then Errs (ErrorString "invalid invoke function symbol")
          else Returns (function, rest)
      end
  end.

End Payload.

(** ** Correctness *)

Section Correctness.
Context `{InvokeSdk} `{Codec} {W T : Type} `{!InvokerTxManager W T}.

(** The return value recorded in a transaction's meta. *)
Definition meta_returns (resultMetaXDR : string) (v : option ScVal) : Prop :=
  (resultMetaXDR = "" /\ v = None) \/
  exists meta, TransactionMeta_UnmarshalBase64 resultMetaXDR = Ok meta /\
    ((meta_V meta = 4 /\ meta_V4 meta = Some (Some v)) \/
     (meta_V meta = 4 /\ meta_V4 meta = Some None /\ v = None) \/
     (meta_V meta = 3 /\ meta_V3 meta = Some v)).

Lemma extract_meta_returns x v :
  extractReturnValueFromResultMetaXDR x = Returns v -> meta_returns x v.
Proof.
  unfold extractReturnValueFromResultMetaXDR, meta_returns.
  destruct (String.eqb_spec x "") as [->|Hx]; [intros [= <-]; by left|].
  destruct (TransactionMeta_UnmarshalBase64 x) as [[V v3 v4]|e]; [|done]. intros E. right.
  eexists. split; [done|]. simpl in *.
  destruct (Z.eqb_spec V 4) as [->|N4].
  - destruct v4 as [[rv|]|]; simpl in E; simplify_eq; [left|right; left]; done.
  - destruct (Z.eqb_spec V 3) as [->|N3]; [|done].
    destruct v3 as [[rv|]|]; simpl in E; simplify_eq; right; right; done.
Qed.

(** An invocation answers with a value only for a finalized
    transaction.  If the contract id or the function name is invalid nothing is
    submitted.  Otherwise exactly one request is made to the manager, for one
    operation that invokes the decoded contract with the given function and
    arguments, from the adapter's account; a value is returned only if the
    manager's answer is a finalized transaction without an error, and it is the
    return value of that transaction's own meta; any other answer is an error. *)
Theorem InvokeContract_spec (a : InvokerAdapter T) contractID functionName args (w : W) (t : Txm) :
  let '(o, (w', t')) := InvokeContract a contractID functionName args (w, t) in
  match BuildInvokeContractOperation contractID functionName args (fromAddress a) with
  | Err e => o = Errs e /\ w' = w /\ t' = t
  | Ok f =>
      contractID <> "" /\ functionName <> "" /\ Args f = args /\ FunctionName f = functionName /\
      SourceAccount f = fromAddress a /\
      (exists raw, strkey_Decode VersionByteContract contractID = Ok raw /\ length raw = 32%nat /\
         BuildContractScAddress raw = Some (ContractAddress f)) /\
      exists op t1 e,
        ops t !! op = None /\ t1 = set_ops (<[op := Operation_of f]> (ops t)) t /\
        itm_EnqueueAndWait (txm a) (invoke_request a op) (w, t1) = (e, (w', t')) /\
        match o with
        | Returns v => exists r, e = Ok (Some r) /\ r_Status r = Finalized /\ r_Error r = None /\
            meta_returns (r_ResultMetaXDR r) v
        | Errs _ | Panics => True
        end /\
        (forall r, e = Ok (Some r) -> r_Status r <> Finalized -> exists err, o = Errs err) /\
        (forall r err, e = Ok (Some r) -> r_Error r = Some err -> exists err, o = Errs err)
  end.
Proof.
  unfold InvokeContract.
  destruct (BuildInvokeContractOperation contractID functionName args (fromAddress a)) as [f|e] eqn:E; [|done].
  rewrite bind_run. cbn [new_op fst snd]. rewrite bind_run. cbn [mret M_ret].
  set (op := fresh (dom (ops t))). set (t1 := set_ops _ t).
  destruct (itm_EnqueueAndWait (txm a) (invoke_request a op) (w, t1)) as [e [w' t']] eqn:Ee. simpl.
  unfold BuildInvokeContractOperation in E.
  destruct (String.eqb_spec contractID ""), (String.eqb_spec functionName ""); try done.
  destruct (strkey_Decode VersionByteContract contractID) as [raw|] eqn:Er; [|done].
  destruct (BuildContractScAddress raw) as [addr|] eqn:Eb; [|done]. injection E as <-. simpl.
  do 5 (split; [done|]). split.
  { exists raw. split; [done|]. split; [|done]. unfold BuildContractScAddress in Eb.
    by destruct (Nat.eqb_spec (length raw) 32). }
  exists op, t1, e. split; [apply not_elem_of_dom, is_fresh|]. split; [done|]. split; [done|].
  split; [|split].
  - destruct e as [[r|]|e]; simpl; [|done..].
    destruct (r_Error r) eqn:Hr; [done|]. destruct (decide (r_Status r = Finalized)); [|done].
    destruct (extractReturnValueFromResultMetaXDR (r_ResultMetaXDR r)) eqn:Ex; [|done..].
    exists r. eauto using extract_meta_returns.
  - intros r -> Hr. simpl. destruct (r_Error r); [eauto|]. rewrite decide_False by done. eauto.
  - intros r err -> Hr. simpl. rewrite Hr. eauto.
Qed.

(** The MCMS invoke payload round-trips.  What is encoded for a
    function and its arguments decodes to them; and whatever is decoded names a
    valid Soroban symbol, as is required of the function that is encoded. *)
Theorem payload_roundtrip `{!CodecLaws} function args data :
  (EncodeSorobanInvokePayload function args = Returns data ->
     DecodeSorobanInvokePayload data = Returns (function, args)) /\
  (DecodeSorobanInvokePayload data = Returns (function, args) -> sorobanInvokeSymbol function = true) /\
  (sorobanInvokeSymbol function = false -> exists e, EncodeSorobanInvokePayload function args = Errs e).
Proof.
  unfold EncodeSorobanInvokePayload, DecodeSorobanInvokePayload. split; [|split].
  - destruct (sorobanInvokeSymbol function) eqn:Hf; [|done]. simpl.
    intros ->%Unmarshal_Marshal. simpl. by rewrite Hf.
  - destruct (ScVal_UnmarshalBinary data) as [v|]; [|done].
    destruct (need (GetVec v) _) as [[[|f l]|]| |]; simpl; try done.
    destruct (SymbolFromScVal f) as [g| |]; simpl; try done.
    destruct (sorobanInvokeSymbol g) eqn:Hg; simpl; [|done]. by intros [= <- _].
  - intros ->. simpl. eauto.
Qed.

End Correctness.

Lemma payload_roundtrip_witness :
  EncodeSorobanInvokePayload "set_fee" [ScvU32 (Some 7)] =
    Returns (16 :: 7 :: string_codes "set_fee") /\
  DecodeSorobanInvokePayload (16 :: 7 :: string_codes "set_fee") =
    Returns ("set_fee"%string, [ScvU32 (Some 7)]).
Proof.
  split; [reflexivity|].
  apply (payload_roundtrip "set_fee" [ScvU32 (Some 7)]). reflexivity.
Defined.
