(* ===== verification/StellarService.v ===== *)
(** * The relayer's Stellar service

    Models relayer/stellar_service.go: the calls of the domain's [StellarService],
    over the RPC client, the keystore, the converters of TypeConverters.v and the
    transaction manager through [InvokerTxManager].  The context and the formatted
    arguments of errors are left out. *)

From S2P Require Import Prelude GoFloat Sdk GoBytes Xdr Scval TypeConverters TypeConvertersProofs TxStore Fee Config TxmState Logic Broadcast Enqueue Invoker.

(** ** RPC and domain data *)

Record LedgerEntryResult := mkLedgerEntryResult {
  KeyXDR : string;
  DataXDR : string;
  LastModifiedLedger : Z;
  LiveUntilLedgerSeq : option Z;
  ExtensionXDR : string
}.

(** A ledger as [GetLatestLedger] answers it. *)
Record LatestLedger := mkLatestLedgerInfo {
  lt_Hash : string;
  lt_ProtocolVersion : Z;
  lt_Sequence : Z;
  lt_LedgerCloseTime : Z;
  lt_LedgerHeader : string;
  lt_LedgerMetadata : string
}.

Record LedgerInfo := mkLedgerInfo {
  lg_Hash : string;
  lg_Sequence : Z;
  lg_LedgerCloseTime : Z;
  lg_LedgerHeader : string;
  lg_LedgerMetadata : string
}.

Record LedgersPage := mkLedgersPage {
  lp_Ledgers : list LedgerInfo;
  lp_LatestLedger : Z;
  lp_LatestLedgerCloseTime : Z;
  lp_OldestLedger : Z;
  lp_OldestLedgerCloseTime : Z;
  lp_Cursor : string
}.

(** [LedgerPaginationOptions]: cursor and limit. *)
Record LedgersRequest := mkLedgersRequest {
  lr_StartLedger : Z;
  lr_Pagination : option (string * Z)
}.

(** [protocol.SimulateTransactionResponse] with the fields the service copies. *)
Record SimulationResult := mkSimulationResult {
  sr_core : SimulateTransactionResponse;
  sr_EventsXDR : list string;
  sr_LatestLedger : Z
}.

Record SimulateRequest := mkSimulateRequest {
  sq_Transaction : string;
  sq_AuthMode : string;
  sq_InstructionLeeway : option Z
}.

(** The domain's simulation request and response. *)
Record DomainSimulateRequest := mkDomainSimulateRequest {
  ds_ContractID : string;
  ds_Function : string;
  ds_Args : list stellartypes.ScVal;
  ds_SourceAccount : string;
  ds_AuthMode : string;
  ds_ResourceConfig : option Z
}.

Record DomainSimulateResponse := mkDomainSimulateResponse {
  dr_LedgerSequence : Z;
  dr_Success : bool;
  dr_Error : string;
  dr_EventsXDR : list string;
  dr_TransactionDataXDR : string;
  dr_MinResourceFee : Z;
  dr_ReturnValueXDR : string;
  dr_RequiredAuthXDR : list string;
  dr_RestorePreamble : option RestorePreamble
}.
Definition no_simulation : DomainSimulateResponse := mkDomainSimulateResponse 0 false "" [] "" 0 "" [] None.

Record SubmitRequest := mkSubmitRequest {
  sb_ContractID : string;
  sb_Function : string;
  sb_Args : list stellartypes.ScVal;
  sb_FromAddress : string;
  sb_IdempotencyKey : string;
  sb_LedgerBoundsOffset : Z;
  sb_MaxResourceFee : Z
}.

Inductive DomainTxStatus := TxFatal | TxFailed | TxSuccess.

Record SubmitResponse := mkSubmitResponse {
  sp_TxHash : string;
  sp_TxIdempotencyKey : string;
  sp_ResultXDR : string;
  sp_ResultMetaXDR : string;
  sp_TransactionFee : option Z;
  sp_BlockTimestamp : option Z;
  sp_TxStatus : DomainTxStatus;
  sp_Error : string
}.

Record DomainTransaction := mkDomainTransaction {
  dt_FeeStroops : Z;
  dt_LedgerSequence : Z;
  dt_LedgerCloseTime : Z
}.

(** The RPC calls of the service; [GetTransaction] answers status, result, ledger
    and close time. *)
Class ServiceRpc (W : Type) `{Env W} := {
  sv_KeyStore : bool;   (* whether a keystore is configured *)
  sv_GetLedgerEntries : Client -> list string -> W -> res (list LedgerEntryResult * Z) * W;
  sv_GetLatestLedger : Client -> W -> res LatestLedger * W;
  sv_GetLedgers : Client -> LedgersRequest -> W -> res LedgersPage * W;
  sv_Simulate : Client -> SimulateRequest -> W -> res SimulationResult * W;
  sv_GetTransaction : Client -> string -> W -> res (RpcTxStatus * string * Z * Z) * W;
  ErrNodeError : error   (* the sentinel of the multinode package *)
}.

(** [fmt.Errorf("%w: %w", multinode.ErrNodeError, err)], its text. *)
Definition node_error `{ServiceRpc W} (e : error) : error := Wrapf (Error ErrNodeError +:+ ": ") e.

Section Service.
Context `{InvokeSdk} `{Codec} `{protocol.Cursors} {W T : Type} `{Env W} `{!EventsRpc W} `{!ServiceRpc W}.
Context `{!InvokerTxManager W T}.

(** [stellarService]: its manager may be nil. *)
Variable txMgr : option T.

(** [rpc, err := s.chain.GetClient(ctx)], then one call. *)
Definition with_client {A} (msg : string) (k : Client -> M W (res A)) : M W (res A) :=
  c ← io getClient;
  match c with
  | Err e => mret (Err (Wrapf msg e))
  | Ok rpc => k rpc
  end.

Definition GetSigningAccount : M W (res string) :=
  if negb sv_KeyStore then mret (Err (ErrorString "keystore is not configured"))
  else
    accounts ← io ks_Accounts;
    mret match accounts with
         | Err e => Err (Wrapf "keystore accounts: " e)
         | Ok [] => Err (ErrorString "keystore has no accounts")
         | Ok (a :: _) => Ok a
         end.

Definition GetLedgerEntries (keys : list string) : M W (res (list LedgerEntryResult * Z)) :=
  with_client "failed to get client: " (fun rpc => io (sv_GetLedgerEntries rpc keys)).

Definition GetLatestLedger : M W (res LatestLedger) :=
  with_client "failed to get client: " (fun rpc =>
    resp ← io (sv_GetLatestLedger rpc);
    mret match resp with Err e => Err (node_error e) | Ok l => Ok l end).

Definition GetLedgers (req : LedgersRequest) : M W (res LedgersPage) :=
  with_client "failed to get chain client: " (fun rpc =>
    out ← io (sv_GetLedgers rpc req);
    mret match out with Err e => Err (Wrapf "failed to get ledgers: " (node_error e)) | Ok l => Ok l end).

(** ** Simulation *)

Definition simulateTransactionTimeBound : Z := 60000000000.

(** The source account: the request's, or the all-zero account as a placeholder. *)
Definition simulate_source (sourceAccount : string) : res string :=
  if String.eqb sourceAccount "" then
    wrap_err "failed to build placeholder source account: "
      (strkey_Encode VersionByteAccountID (replicate 32 0))
  else match strkey_Decode VersionByteAccountID sourceAccount with
       | Err e => Err (Wrapf "failed to decode source account: " e)
       | Ok _ => Ok sourceAccount
       end.

(** The invocation that is simulated. *)
Definition simulate_operation (req : DomainSimulateRequest) : outcome InvokeHostFunction :=
  match strkey_Decode VersionByteContract (ds_ContractID req) with
  | Err e => Errs (Wrapf "failed to decode contract id: " e)
  | Ok contractBytes =>
      match BuildContractScAddress contractBytes with
      | None => Errs (ErrorString "failed to build contract address from contractID")
      | Some contractAddr =>
          args ← wrap_out "failed to convert args: " (convertScValsToDomain (ds_Args req));
          srcAddr ← out_of_res (simulate_source (ds_SourceAccount req));
          Returns (mkInvokeHostFunction contractAddr (ds_Function req) args srcAddr)
      end
  end.

(** [time.Now().Add(bound).Unix()]. *)
Definition simulate_maxTime (now : Z) : Z := (now + simulateTransactionTimeBound) / 1000000000.

Definition simulate_transaction (f : InvokeHostFunction) (now : Z) : res string :=
  match NewTransaction (SourceAccount f) 0 true [Operation_of f] MinBaseFee
          (mkTimeBounds 0 (simulate_maxTime now)) None with
  | Err e => Err (Wrapf "failed to build transaction: " e)
  | Ok tx => wrap_err "failed to encode transaction: " (tx_Base64 tx)
  end.

(** The domain response for the node's answer, and the error returned with it. *)
Definition simulate_response (simResult : SimulationResult) : DomainSimulateResponse * option error :=
  let s := sr_core simResult in
  let resp value auth preamble :=
    mkDomainSimulateResponse (sr_LatestLedger simResult) (String.eqb (sim_Error s) "") (sim_Error s)
      (sr_EventsXDR simResult) (sim_TransactionDataXDR s) (sim_MinResourceFee s) value auth preamble in
  let success := String.eqb (sim_Error s) "" in
  match sim_Results s with
  | [] =>
      if success && match sim_RestorePreamble s with None => true | _ => false end
      then (resp ""%string [] None, Some (ErrorString "simulation succeeded but returned no host function results"))
      else (resp ""%string [] (sim_RestorePreamble s), None)
  | [result] =>
      (resp (default ""%string (ReturnValueXDR result)) (default [] (AuthXDR result)) (sim_RestorePreamble s), None)
  | _ => (resp ""%string [] None, Some (ErrorString "unexpected simulation result count"))
  end.

(** A panic is [None]. *)
Definition SimulateTransaction (req : DomainSimulateRequest)
    : M W (option (DomainSimulateResponse * option error)) :=
  let fail e := mret (Some (no_simulation, Some e)) in
  if String.eqb (ds_ContractID req) "" then fail (ErrorString "contract id is required")
  else if String.eqb (ds_Function req) "" then fail (ErrorString "function is required")
  else
    match validateSimulateAuthMode (ds_AuthMode req) with
    | Err e => fail e
    | Ok authMode =>
        c ← io getClient;
        match c with
        | Err e => fail (Wrapf "failed to get chain client: " e)
        | Ok rpc =>
            match simulate_operation req with
            | Panics => mret None
            | Errs e => fail e
            | Returns f =>
                n ← now;
                match simulate_transaction f n with
                | Err e => fail e
                | Ok txXDR =>
                    simResult ← io (sv_Simulate rpc (mkSimulateRequest txXDR authMode (ds_ResourceConfig req)));
                    match simResult with
                    | Err e => fail (Wrapf "failed to simulate transaction: " (node_error e))
                    | Ok simResult => mret (Some (simulate_response simResult))
                    end
                end
            end
        end
    end.

(** ** Events and transactions *)

Definition service_GetEvents (req : stellartypes.GetEventsRequest) : M W (outcome stellartypes.GetEventsResponse) :=
  c ← io getClient;
  match c with
  | Err e => mret (Errs (Wrapf "failed to get chain client: " e))
  | Ok rpc =>
      match convertGetEventsRequestsFromDomain req with
      | Panics => mret Panics
      | Errs e => mret (Errs (Wrapf "invalid get events request: " e))
      | Returns protocolReq =>
          resp ← io (rpc_GetEvents rpc protocolReq);
          mret match resp with
               | Err e => Errs (Wrapf "failed to get events: " (node_error e))
               | Ok resp => convertGetEventsResponseToDomain resp
               end
      end
  end.

Definition GetTransaction (txHash : string) : M W (res DomainTransaction) :=
  if String.eqb txHash "" then mret (Err (ErrorString "tx hash is required"))
  else
    with_client "failed to get client: " (fun rpc =>
      resp ← io (sv_GetTransaction rpc txHash);
      mret match resp with
           | Err e => Err (node_error e)
           | Ok (TransactionStatusNotFound, _, _, _) => Err (ErrorString ("transaction not found: " +:+ txHash))
           | Ok (_, resultXDR, ledger, closeTime) =>
               let feeStroops :=
                 if String.eqb resultXDR "" then 0
                 else match unmarshal_TransactionResult resultXDR with
                      | Ok txResult => u64 (tr_FeeCharged txResult)
                      | Err _ => 0
                      end in
               Ok (mkDomainTransaction feeStroops ledger closeTime)
           end).

(** ** Submission *)

(** The reply for a result of the manager, and the error returned with it. *)
Definition submit_reply (result : TxResult) : SubmitResponse * option error :=
  let fee := match r_Fee result with
             | Some f => if (0 <=? f) && (f <? two64) then Some f else None
             | None => None
             end in
  let ts := if r_LedgerCloseTime result >? 0 then Some (u64 (u64 (r_LedgerCloseTime result) * 1000000)) else None in
  let reply status err :=
    mkSubmitResponse (r_Hash result) (r_ID result) (r_ResultXDR result) (r_ResultMetaXDR result) fee ts status err in
  match r_Status result with
  | Finalized => (reply TxSuccess ""%string, None)
  | Failed =>
      if negb (String.eqb (r_ResultXDR result) "")
      then (reply TxFailed match r_Error result with Some e => Error e | None => ""%string end, None)
      else (reply TxFatal ""%string, Some (ErrorString "submit transaction: pipeline failure"))
  | _ => (reply TxFatal ""%string, Some (ErrorString "submit transaction: unexpected terminal status"))
  end.

Definition submit_txrequest (req : SubmitRequest) (op : opref) : TxRequest :=
  mkTxRequest (sb_IdempotencyKey req) (sb_FromAddress req) [Some op] (sb_LedgerBoundsOffset req) None
    (sb_MaxResourceFee req).

(** A panic is [None]. *)
Definition SubmitTransaction (req : SubmitRequest) : M W (option (option SubmitResponse * option error)) :=
  let fail e := mret (Some (None, Some e)) in
  match txMgr with
  | None => fail (ErrorString "submit transaction: txm is not configured")
  | Some m =>
      if String.eqb (sb_ContractID req) "" then fail (ErrorString "submit transaction: contractID is required")
      else if String.eqb (sb_Function req) "" then fail (ErrorString "submit transaction: function is required")
      else
        match convertScValsToDomain (sb_Args req) with
        | Panics => mret None
        | Errs e => fail (Wrapf "submit transaction: convert args: " e)
        | Returns xdrArgs =>
            match BuildInvokeContractOperation (sb_ContractID req) (sb_Function req) xdrArgs (sb_FromAddress req) with
            | Err e => fail (Wrapf "submit transaction: build operation: " e)
            | Ok f =>
                op ← new_op (Operation_of f);
                result ← itm_EnqueueAndWait m (submit_txrequest req op);
                mret match result with
                     | Err e => Some (None, Some (Wrapf "submit transaction: " e))
                     | Ok None => Some (None, Some (ErrorString "submit transaction: nil result returned by TXM"))
                     | Ok (Some result) =>
                         let '(reply, err) := submit_reply result in Some (Some reply, err)
                     end
            end
        end
  end.

End Service.

(** ** Properties *)

Section Correctness.
Context `{InvokeSdk} `{Codec} `{protocol.Cursors} {W T : Type} `{Env W} `{!EventsRpc W} `{!ServiceRpc W}.
Context `{!InvokerTxManager W T}.

Lemma mapM_out_nopanic {A B} (f : A -> outcome B) l : (forall a, f a <> Panics) -> mapM_out f l <> Panics.
Proof.
  intros Hf. induction l as [|a l IH]; [done|]. simpl. specialize (Hf a).
  destruct (f a); [|done..]. by destruct (mapM_out f l).
Qed.

Lemma convertScVals_no_panic l : convertScValsToDomain l <> Panics.
Proof.
  apply mapM_out_nopanic. intros v E. apply wrap_Panicked in E. by apply (convertScValFromDomain_no_panic v).
Qed.

(** A request that reaches the manager: its arguments convert and its operation is
    well formed. *)
Definition submit_operation (req : SubmitRequest) : option InvokeHostFunction :=
  match convertScValsToDomain (sb_Args req) with
  | Returns args =>
      match BuildInvokeContractOperation (sb_ContractID req) (sb_Function req) args (sb_FromAddress req) with
      | Ok f => Some f
      | Err _ => None
      end
  | _ => None
  end.

(** A submission is reported as what it became.  A request without a
    contract or a function, or whose arguments do not convert, is refused before
    the manager sees it.  Otherwise one request is made, under the caller's
    idempotency key, for the converted invocation; there is no error exactly when
    the manager answers a finalized transaction (success) or one that failed with
    an on-chain result (failed); a reply carries the hash, the key and the result
    of the transaction answered, its close time in microseconds, and its fee. *)
Theorem SubmitTransaction_spec (m : T) req (w : W) (t : Txm) :
  let '(o, (w', t')) := SubmitTransaction (Some m) req (w, t) in
  match submit_operation req with
  | None => w' = w /\ t' = t /\ exists e, o = Some (None, Some e)
  | Some f =>
      sb_ContractID req <> "" /\ sb_Function req <> "" /\ convertScValsToDomain (sb_Args req) = Returns (Args f) /\
      exists op t1 answer,
        ops t !! op = None /\ t1 = set_ops (<[op := Operation_of f]> (ops t)) t /\
        itm_EnqueueAndWait m (submit_txrequest req op) (w, t1) = (answer, (w', t')) /\
        exists reply err, o = Some (reply, err) /\
        (err = None <-> exists r, answer = Ok (Some r) /\
           (r_Status r = Finalized \/ (r_Status r = Failed /\ r_ResultXDR r <> ""))) /\
        match reply with
        | None => forall r, answer <> Ok (Some r)
        | Some rp => exists r, answer = Ok (Some r) /\
            sp_TxHash rp = r_Hash r /\ sp_TxIdempotencyKey rp = r_ID r /\ sp_ResultXDR rp = r_ResultXDR r /\
            (sp_TxStatus rp = TxSuccess <-> r_Status r = Finalized) /\
            (sp_TxStatus rp = TxFailed <-> r_Status r = Failed /\ r_ResultXDR r <> "") /\
            (forall fee, sp_TransactionFee rp = Some fee -> r_Fee r = Some fee /\ is_u64 fee) /\
            (0 < r_LedgerCloseTime r -> r_LedgerCloseTime r * 1000000 < two64 ->
             sp_BlockTimestamp rp = Some (r_LedgerCloseTime r * 1000000))
        end
  end.
Proof.
  unfold SubmitTransaction, submit_operation.
  destruct (String.eqb_spec (sb_ContractID req) "") as [->|Hc].
  { cbn. destruct (convertScValsToDomain (sb_Args req)); cbn; eauto. }
  destruct (String.eqb_spec (sb_Function req) "") as [->|Hf].
  { destruct (convertScValsToDomain (sb_Args req)); cbn; [|eauto..].
    unfold BuildInvokeContractOperation. rewrite (proj2 (String.eqb_neq _ _) Hc). cbn. eauto. }
  destruct (convertScValsToDomain (sb_Args req)) as [args|e|] eqn:Ea; [|cbn; by eauto|by destruct (convertScVals_no_panic _ Ea)].
  destruct (BuildInvokeContractOperation _ _ args _) as [f|e] eqn:Eb; [|cbn; by eauto].
  assert (Ef : Args f = args).
  { unfold BuildInvokeContractOperation in Eb. by repeat case_match; simplify_eq. }
  rewrite bind_run. cbn [new_op fst snd]. rewrite bind_run. cbn [mret M_ret].
  set (op := fresh (dom (ops t))). set (t1 := set_ops _ t).
  destruct (itm_EnqueueAndWait m (submit_txrequest req op) (w, t1)) as [answer [w' t']] eqn:Ee.
  cbn [fst snd]. do 2 (split; [done|]). split; [by rewrite Ef|]. exists op, t1, answer.
  split; [apply not_elem_of_dom, is_fresh|]. split; [done|]. split; [done|].
  destruct answer as [[r|]|e].
  2: { do 2 eexists. split; [done|]. split; [|done]. split; [done|]. by intros (? & ? & _). }
  2: { do 2 eexists. split; [done|]. split; [|done]. split; [done|]. by intros (? & ? & _). }
  destruct (submit_reply r) as [rp err] eqn:Er. do 2 eexists. split; [done|].
  assert (S : (err = None <-> r_Status r = Finalized \/ (r_Status r = Failed /\ r_ResultXDR r <> "")) /\
    (sp_TxStatus rp = TxSuccess <-> r_Status r = Finalized) /\
    (sp_TxStatus rp = TxFailed <-> r_Status r = Failed /\ r_ResultXDR r <> "") /\
    sp_TxHash rp = r_Hash r /\ sp_TxIdempotencyKey rp = r_ID r /\ sp_ResultXDR rp = r_ResultXDR r /\
    sp_TransactionFee rp = match r_Fee r with
             | Some f => if (0 <=? f) && (f <? two64) then Some f else None
             | None => None
             end /\
    sp_BlockTimestamp rp = if r_LedgerCloseTime r >? 0 then Some (u64 (u64 (r_LedgerCloseTime r) * 1000000)) else None).
  { unfold submit_reply in Er. destruct (String.eqb_spec (r_ResultXDR r) "") as [Ex|Ex];
      destruct (r_Status r); cbn in Er; injection Er as <- <-; cbn; repeat split; intros; try done; auto;
      repeat match goal with H : _ \/ _ |- _ => destruct H | H : _ /\ _ |- _ => destruct H end; done. }
  destruct S as (S1 & S2 & S3 & S4 & S5 & S6 & S7 & S8). split.
  { rewrite S1. split; [eauto|]. by intros (r' & [= <-] & ?). }
  exists r. split_and!; try done; try apply S2; try apply S3.
  - intros fee. rewrite S7. destruct (r_Fee r) as [x|]; [|done].
    destruct (Z.leb_spec 0 x); [|done]. destruct (Z.ltb_spec x two64); [|done]. by intros [= <-].
  - intros Hpos Hb. rewrite S8, Z.gtb_ltb, (proj2 (Z.ltb_lt _ _) Hpos).
    rewrite (u64_id (r_LedgerCloseTime r)), u64_id; [done|unfold is_u64; lia..].
Qed.

Lemma simulate_operation_spec req :
  match simulate_operation req with
  | Panics => False
  | Errs _ => True
  | Returns f =>
      convertScValsToDomain (ds_Args req) = Returns (Args f) /\ FunctionName f = ds_Function req /\
      (ds_SourceAccount req <> "" -> SourceAccount f = ds_SourceAccount req) /\
      exists raw, strkey_Decode VersionByteContract (ds_ContractID req) = Ok raw /\
        BuildContractScAddress raw = Some (ContractAddress f)
  end.
Proof.
  unfold simulate_operation.
  destruct (strkey_Decode VersionByteContract (ds_ContractID req)) as [raw|e] eqn:Er; [|done].
  destruct (BuildContractScAddress raw) as [addr|] eqn:Eb; [|done].
  destruct (convertScValsToDomain (ds_Args req)) as [args|e|] eqn:Ea; cbn;
    [|done|by destruct (convertScVals_no_panic _ Ea)].
  destruct (simulate_source (ds_SourceAccount req)) as [src|e] eqn:Es; cbn; [|done].
  split; [done|]. split; [done|]. split; [|by exists raw]. intros Hn. unfold simulate_source in Es.
  rewrite (proj2 (String.eqb_neq _ _) Hn) in Es. destruct (strkey_Decode VersionByteAccountID _); [|done].
  by injection Es as <-.
Qed.

Lemma io_run {A} (f : W -> A * W) w (t : Txm) : io f (w, t) = (fst (f w), (snd (f w), t)).
Proof. unfold io. by destruct (f w). Qed.

(** A call that has failed: a response with an error. *)
Ltac failed := cbn; split; [done|]; do 2 eexists; split; [reflexivity|discriminate].

(** A simulation answers for the invocation asked.  It never panics and
    never touches the manager.  Without an error, the response is the node's answer
    to the simulation of one transaction: an invocation of the decoded contract and
    function with the converted arguments, from the given account; its ledger,
    error text, fees and restore preamble are the node's, it reports success
    exactly when the node reports no error, and then it holds the value of the
    single result, unless entries must be restored first and there is none. *)
Theorem SimulateTransaction_spec req (w : W) (t : Txm) :
  let '(o, (w', t')) := SimulateTransaction req (w, t) in
  t' = t /\ exists resp err, o = Some (resp, err) /\
  (err = None ->
   exists rpc f n txXDR mode w1 sim,
     ds_ContractID req <> "" /\ simulate_operation req = Returns f /\
     convertScValsToDomain (ds_Args req) = Returns (Args f) /\ FunctionName f = ds_Function req /\
     (ds_SourceAccount req <> "" -> SourceAccount f = ds_SourceAccount req) /\
     simulate_transaction f n = Ok txXDR /\ validateSimulateAuthMode (ds_AuthMode req) = Ok mode /\
     sv_Simulate rpc (mkSimulateRequest txXDR mode (ds_ResourceConfig req)) w1 = (Ok sim, w') /\
     dr_LedgerSequence resp = sr_LatestLedger sim /\ dr_Error resp = sim_Error (sr_core sim) /\
     dr_MinResourceFee resp = sim_MinResourceFee (sr_core sim) /\
     dr_RestorePreamble resp = sim_RestorePreamble (sr_core sim) /\
     (dr_Success resp = true <-> sim_Error (sr_core sim) = "") /\
     (dr_Success resp = true ->
        (exists r, sim_Results (sr_core sim) = [r] /\ dr_ReturnValueXDR resp = default "" (ReturnValueXDR r)) \/
        (sim_Results (sr_core sim) = [] /\ dr_RestorePreamble resp <> None))).
Proof.
  unfold SimulateTransaction.
  destruct (String.eqb_spec (ds_ContractID req) "") as [|Hc]; [failed|].
  destruct (String.eqb (ds_Function req) ""); [failed|].
  destruct (validateSimulateAuthMode (ds_AuthMode req)) as [mode|e] eqn:Em; [|failed].
  rewrite bind_run, io_run. destruct (getClient w) as [[rpc|e] w1] eqn:Ec; [|failed].
  cbn [fst snd]. pose proof (simulate_operation_spec req) as S.
  destruct (simulate_operation req) as [f|e|] eqn:Eo; [|failed|done].
  destruct S as (S1 & S2 & S3 & _). rewrite bind_run. unfold now. rewrite io_run.
  destruct (env_now w1) as [n w2]. cbn [fst snd].
  destruct (simulate_transaction f n) as [txXDR|e] eqn:Ex; [|failed].
  rewrite bind_run, io_run.
  destruct (sv_Simulate rpc _ w2) as [[sim|e] w3] eqn:Ev; [|failed]. cbn [fst snd].
  destruct (simulate_response sim) as [resp err] eqn:Er. cbn. split; [done|]. exists resp, err. split; [done|].
  intros ->. exists rpc, f, n, txXDR, mode, w2, sim. do 8 (split; [done|]).
  unfold simulate_response in Er.
  destruct (String.eqb_spec (sim_Error (sr_core sim)) "") as [Es|Es];
    destruct (sim_Results (sr_core sim)) as [|r [|r' l]]; cbn in Er;
    destruct (sim_RestorePreamble (sr_core sim)) as [p|]; simplify_eq; cbn; split_and!; try done; eauto 6.
Qed.

End Correctness.
