(* ===== verification/EventFields.v ===== *)
(** * Structures read from a contract's map, field by field

    The readers decode an event or a receipt by a loop over the entries of a map
    with a [switch] on the symbol of each key: a value of the wrong type is skipped,
    an unknown key is ignored and a repeated key overwrites.  This file has the
    loop and what it computes; AttemptPoller.v and SourceReader.v give it their
    fields. *)

From S2P Require Import Prelude Sdk GoBytes Xdr DemoCodec Scval ScvalProofs TypeConverters TypeConvertersProofs.

(** [v, err := f(...); if err == nil { use(v) }]: an error keeps the old value. *)
Definition on_value {A B} (r : outcome A) (use : A -> B) (old : B) : outcome B :=
  match r with
  | Returns v => Returns (use v)
  | Errs _ => Returns old
  | Panics => Panics
  end.

(** [v, ok := entry.Val.GetX(); if ok { use(v) }]. *)
Definition if_ok {A B} (r : outcome (option A)) (use : A -> B) (old : B) : outcome B :=
  match r with
  | Returns (Some v) => Returns (use v)
  | Returns None => Returns old
  | Errs e => Errs e
  | Panics => Panics
  end.

(** The loop over the entries of a map keyed by symbols. *)
Fixpoint fold_symbols {R} (field : string -> ScVal -> R -> outcome R) (m : list (ScMapEntry ScVal))
    (r : R) : outcome R :=
  match m with
  | [] => Returns r
  | entry :: m' =>
      key ← GetSym (Key entry);
      r ← match key with None => Returns r | Some k => field k (Val entry) r end;
      fold_symbols field m' r
  end.

(** [scMap, ok := v.GetMap(); if !ok || scMap == nil]. *)
Definition need_map (v : ScVal) (msg : string) : outcome (list (ScMapEntry ScVal)) :=
  match v with
  | ScvMap p =>
      m ← deref p;
      match m with Some l => Returns l | None => Errs (ErrorString msg) end
  | _ => Errs (ErrorString msg)
  end.


(** ** What the loop computes

    The last value decoded under a key, [d] if there is none. *)
Fixpoint last_field {A} (dec : ScVal -> option A) (k : string) (m : list (ScMapEntry ScVal)) (d : A) : A :=
  match m with
  | [] => d
  | e :: m' =>
      last_field dec k m'
        match Key e with
        | ScvSymbol (Some k') =>
            if String.eqb k' k then match dec (Val e) with Some a => a | None => d end else d
        | _ => d
        end
  end.

Lemma last_field_none {A} k m (d : A) : last_field (fun _ => None) k m d = d.
Proof.
  induction m as [|[k' v] m IH]; [done|]. simpl. rewrite <- IH. do 2 f_equal. rewrite IH.
  destruct k' as [| | | | | | | | | | | | | | |[k'|]| | | | | | |]; try done. by destruct (String.eqb k' k).
Qed.

Definition decoded_entry (e : ScMapEntry ScVal) : bool := decoded (Key e) && decoded (Val e).

Section Fold.
Context {R : Type} (field : string -> ScVal -> R -> outcome R).

Lemma GetSym_decoded v :
  decoded v = true -> GetSym v = Returns match v with ScvSymbol (Some k) => Some k | _ => None end.
Proof. by destruct v as [| | | | | | | | | | | | | | |[k|]| | | | | | |]. Qed.

Lemma fold_symbols_cons e m r :
  decoded (Key e) = true ->
  fold_symbols field (e :: m) r
  = (r' ← match Key e with ScvSymbol (Some k) => field k (Val e) r | _ => Returns r end;
     fold_symbols field m r').
Proof.
  intros Hk. cbn [fold_symbols]. rewrite GetSym_decoded by done.
  by destruct (Key e) as [| | | | | | | | | | | | | | |[k|]| | | | | | |].
Qed.

(** The loop ends with a value when no field refuses or panics. *)
Lemma fold_symbols_returns m :
  (forall k v r, decoded v = true -> exists r', field k v r = Returns r') ->
  Forall (fun e => decoded_entry e = true) m -> forall r, exists r', fold_symbols field m r = Returns r'.
Proof.
  intros Hf. induction 1 as [|e m [Hk Hv]%andb_true_iff _ IH]; intros r; [by eexists|].
  rewrite fold_symbols_cons by done.
  destruct (Key e) as [| | | | | | | | | | | | | | |[k|]| | | | | | |]; try apply IH.
  destruct (Hf k (Val e) r Hv) as [r' ->]. apply IH.
Qed.

(** A component of the result that only one key sets. *)
Lemma fold_symbols_last {A} (proj : R -> A) (dec : ScVal -> option A) key m :
  (forall k v r r', decoded v = true -> field k v r = Returns r' ->
     proj r' = if String.eqb k key then match dec v with Some a => a | None => proj r end else proj r) ->
  Forall (fun e => decoded_entry e = true) m ->
  forall r r', fold_symbols field m r = Returns r' -> proj r' = last_field dec key m (proj r).
Proof.
  intros Hf. induction 1 as [|e m [Hk Hv]%andb_true_iff _ IH]; intros r r'; [by intros [= ->]|].
  rewrite fold_symbols_cons by done. cbn [last_field].
  destruct (Key e) as [| | | | | | | | | | | | | | |[k|]| | | | | | |]; try apply IH.
  intros (r1 & E & F)%bind_Done. rewrite (IH _ _ F). f_equal. by apply (Hf k (Val e) r r1).
Qed.

End Fold.

(** ** Decoders that do not panic on decoded values *)

Lemma on_value_returns {A B} (r : outcome A) (use : A -> B) old :
  r <> Panics -> on_value r use old = Returns match r with Returns v => use v | _ => old end.
Proof. by destruct r. Qed.

(** The value of a getter that returned one. *)
Definition ok_of {A} (o : outcome A) : option A := match o with Returns a => Some a | _ => None end.
Definition ok_opt {A} (o : outcome (option A)) : option A := match o with Returns (Some a) => Some a | _ => None end.

Lemma if_ok_returns {A B} (r : outcome (option A)) (use : A -> B) old :
  (exists o, r = Returns o) -> if_ok r use old = Returns match ok_opt r with Some v => use v | None => old end.
Proof. by intros ([v|] & ->). Qed.

Lemma on_value_ok {A B} (r : outcome A) (use : A -> B) old :
  r <> Panics -> on_value r use old = Returns match ok_of r with Some v => use v | None => old end.
Proof. by destruct r. Qed.

(** Case analysis on a decoded value. *)
Ltac decoded_cases v :=
  destruct v; try done;
  repeat match goal with
  | H : decoded (_ ?p) = true |- _ => is_var p; destruct p; try done
  end.

Lemma need_decoded {A} (g : outcome (option A)) msg : g <> Panics -> need g msg <> Panics.
Proof. by destruct g as [[?|]| |]. Qed.

Lemma GetU32_decoded v : decoded v = true -> exists o, GetU32 v = Returns o.
Proof. intros. decoded_cases v; by eexists. Qed.
Lemma GetU64_decoded v : decoded v = true -> exists o, GetU64 v = Returns o.
Proof. intros. decoded_cases v; by eexists. Qed.
Lemma GetBytes_decoded v : decoded v = true -> exists o, GetBytes v = Returns o.
Proof. intros. decoded_cases v; by eexists. Qed.
Lemma GetI128_decoded v : decoded v = true -> exists o, GetI128 v = Returns o.
Proof. intros. decoded_cases v; by eexists. Qed.

Lemma Uint64FromScVal_decoded v : decoded v = true -> Uint64FromScVal v <> Panics.
Proof. intros [o E]%GetU64_decoded. apply need_decoded. by rewrite E. Qed.

Lemma Bytes32FromScVal_decoded v : decoded v = true -> Bytes32FromScVal v <> Panics.
Proof.
  intros [o E]%GetBytes_decoded. unfold Bytes32FromScVal, bytesNFromScVal, BytesFromScVal.
  rewrite E. destruct o; cbn; [|done]. by destruct (Nat.eqb _ _).
Qed.

Lemma decoded_map_entries l :
  decoded (ScvMap (Some (Some l))) = true -> Forall (fun e => decoded_entry e = true) l.
Proof.
  cbn. rewrite forallb_Forall. intros H. refine (list.Forall_impl _ _ _ H _). by intros [k v].
Qed.

(** One component of the result under each key of an unfolded [switch], for
    [fold_symbols_last]. *)
Ltac field_case :=
  intros k v [] r' Hv; unfold on_value, if_ok, ok_of, ok_opt;
  repeat match goal with
  | |- context [String.eqb k ?s] => destruct (String.eqb_spec k s); [subst|]
  end; cbn;
  repeat match goal with
  | |- context [match ?x with _ => _ end] => destruct x eqn:?
  end; intros; simplify_eq/=; try done.
