(* ===== verification/Transmitter.v ===== *)
(** * Executing messages on the OffRamp

    Models ccv/contract_transmitter/contract_transmitter.go ([LogRestorePreambleFootprint]
    and its helpers only log) and, from ccv/destination_reader/execution_attempt_poller.go,
    [extractInvokeContractArgs] and [decodeExecuteArgsToAttempt], which read such a
    call back from the chain.  [offramp_Execute] is the call of the generated client
    (bindings/contracts/offramp/client.go).  Then what [ConvertVerifierBlobToEIP2098]
    does to a verifier's signatures, and what the call made by
    [ConvertAndWriteMessageToChain] is read back as.

    The message codec of chainlink-ccv is a parameter. *)

From S2P Require Import Prelude Sdk GoBytes Xdr DemoCodec Scval ScvalProofs TypeConverters EventPages.

(** [protocol.Message] of chainlink-ccv. *)
Class CcvProtocol := {
  Message : Type;
  DecodeMessage : bytes -> res Message;
  Message_Encode : Message -> res bytes;
  MessageID : Message -> res bytes;
  ErrMessageEncoding : error   (* the sentinel [executor.ErrMessageEncoding] *)
}.

(** [MustMessageID]. *)
Definition MustMessageID `{CcvProtocol} (m : Message) : outcome bytes :=
  match MessageID m with Ok id => Returns id | Err _ => Panics end.

(** [bindings.Invoker]: the contract, the function and the arguments. *)
Class Invoker (W : Type) := {
  inv_InvokeContract : string -> string -> list ScVal -> SM W (outcome (option ScVal));
  inv_SimulateContract : string -> string -> list ScVal -> SM W (outcome (option ScVal))
}.

(** ** Signatures *)

(** The order of the curve secp256k1. *)
Definition secp256k1N : Z :=
  0xFFFFFFFFFFFFFFFFFFFFFFFFFFFFFFFEBAAEDCE6AF48A03BBFD25E8CD0364141.
Definition secp256k1HalfN : Z := Z.shiftr secp256k1N 1.

(** The body of the loop on the 32 bytes of S: [padded] right-aligned in the
    cleared bytes is the 32-byte big-endian form of the absolute value. *)
Definition convert_s (sBytes : bytes) : bytes :=
  let s := get_be sBytes in
  if s >? secp256k1HalfN then
    match put_be 32 (Z.abs (secp256k1N - s)) with
    | b0 :: rest => Z.lor b0 128 :: rest
    | [] => []
    end
  else sBytes.

(** [copy(out[off:], new)] within bounds. *)
Definition splice (off : nat) (new out : bytes) : bytes :=
  take off out ++ new ++ drop (off + length new) out.

(** [n] signatures from the [i]-th on. *)
Fixpoint convert_loop (n i : nat) (out : bytes) : bytes :=
  match n with
  | O => out
  | S n' =>
      let sOff := (6 + i * 64 + 32)%nat in
      convert_loop n' (S i) (splice sOff (convert_s (slice sOff (sOff + 32) out)) out)
  end.

Definition ConvertVerifierBlobToEIP2098 (blob : bytes) : res bytes :=
  let headerLen := 6%nat in
  let sigSize := 64%nat in
  if Nat.ltb (length blob) headerLen then Ok blob
  else
    let sigPayloadLen := Z.to_nat (get_be (slice 4 6 blob)) in
    if Nat.eqb sigPayloadLen 0 || Nat.ltb (length blob) (headerLen + sigPayloadLen) then Ok blob
    else if negb (Nat.eqb (sigPayloadLen mod sigSize) 0)
    then Err (ErrorString "signature payload length is not a multiple of 64")
    else Ok (convert_loop (sigPayloadLen / sigSize) 0 blob).

(** ** The execute call *)

Definition DefaultGasLimitOverride : Z := 0.

Definition execute_args `{Codec} (encodedMessage : bytes) (ccvs : list string)
    (verifierResults : list bytes) (gasLimitOverride : Z) : list ScVal :=
  [BytesToScVal encodedMessage; AddressSliceToScVal ccvs; BytesSliceToScVal verifierResults;
   Uint32ToScVal gasLimitOverride].

Section Transmitter.
Context `{Codec} `{CcvProtocol} {W : Type} `{Invoker W}.

Record AbstractAggregatedReport := mkReport {
  CCVS : list bytes;
  CCVData : list bytes;
  report_Message : Message
}.

Record ContractTransmitter := mkContractTransmitter { ccipOfframpAddress : string }.

Definition NewContractTransmitterWithClient (have_invoker : bool)
    (ccipOfframpAddress ccipStateChangedTopic : string) (have_lggr : bool) : res ContractTransmitter :=
  if negb have_invoker then Err (ErrorString "invoker is required")
  else if String.eqb ccipOfframpAddress "" then Err (ErrorString "ccip offramp address is required")
  else if String.eqb ccipStateChangedTopic "" then Err (ErrorString "ccip state changed topic is required")
  else if negb have_lggr then Err (ErrorString "logger is required")
  else Ok (mkContractTransmitter ccipOfframpAddress).

Variable ct : ContractTransmitter.

Definition offramp_Execute (encodedMessage : bytes) (ccvs : list string)
    (verifierResults : list bytes) (gasLimitOverride : Z) : SM W (outcome unit) :=
  r ← inv_InvokeContract (ccipOfframpAddress ct) "execute"
        (execute_args encodedMessage ccvs verifierResults gasLimitOverride);
  mret match r with
       | Returns _ => Returns tt
       | Errs e => Errs (Wrapf "failed to call execute: " e)
       | Panics => Panics
       end.

Definition encoding_error (e : error) : error := Join ErrMessageEncoding e.

Definition ccv_strkey (ccv : bytes) : outcome string :=
  wrap_out "unable to submit txn: invalid CCV address: "
    (out_of_res (HexToContractStrkey ("0x" +:+ hex_EncodeToString ccv))).

Definition ConvertAndWriteMessageToChain (report : AbstractAggregatedReport) : SM W (outcome unit) :=
  match MustMessageID (report_Message report) with
  | Panics => mret Panics
  | Errs e => mret (Errs e)
  | Returns _ =>
      match Message_Encode (report_Message report) with
      | Err e => mret (Errs (encoding_error (Wrapf "unable to submit txn: invalid message encoding: " e)))
      | Ok encodedMsg =>
          match mapM_out ccv_strkey (CCVS report) with
          | Panics => mret Panics
          | Errs e => mret (Errs (encoding_error e))
          | Returns ccvScVals =>
              match mapM_out (fun blob =>
                      wrap_out "unable to convert verifier blob to EIP-2098: "
                        (out_of_res (ConvertVerifierBlobToEIP2098 blob))) (CCVData report) with
              | Panics => mret Panics
              | Errs e => mret (Errs (encoding_error e))
              | Returns convertedCCVData =>
                  offramp_Execute encodedMsg ccvScVals convertedCCVData DefaultGasLimitOverride
              end
          end
      end
  end.

(** ** Reading a call back *)

(** [protocol.ExecutionAttempt]. *)
Record ExecutionAttempt := mkExecutionAttempt {
  Report : AbstractAggregatedReport;
  TransactionGasLimit : Z
}.

Definition expectedExecuteArgCount : nat := 4.

Definition decodeExecuteArgsToAttempt (args : list ScVal) : outcome ExecutionAttempt :=
  match args with
  | [a0; a1; a2; a3] =>
      encodedMsg ← wrap_out "failed to decode encoded_message: " (BytesFromScVal a0);
      ccvAddresses ← wrap_out "failed to decode ccvs: " (AddressVecFromScVal a1);
      verifierResults ← wrap_out "failed to decode verifier_results: " (BytesVecFromScVal a2);
      gasLimitOverride ← need (GetU32 a3) "failed to decode gas_limit_override: not a u32";
      message ← wrap_out "failed to decode message: " (out_of_res (DecodeMessage encodedMsg));
      Returns (mkExecutionAttempt (mkReport ccvAddresses verifierResults message) gasLimitOverride)
  | _ => Errs (ErrorString "expected 4 args")
  end.

End Transmitter.

(** The first operation of an envelope, as [extractInvokeContractArgs] inspects it:
    the type of its body, of its host function, and the arguments. *)
Inductive HostFunction :=
| HostFunctionInvokeContract (args : option (list ScVal))
| HostFunctionOther (t : Z).

Inductive OperationBody :=
| BodyInvokeHostFunction (hf : HostFunction)
| BodyOther (t : Z).

(** [xdr.TransactionEnvelope], as decoded: the operations of its transaction. *)
Inductive TransactionEnvelope :=
| EnvelopeTypeTxV0 (ops : list OperationBody)
| EnvelopeTypeTx (ops : list OperationBody)
| EnvelopeTypeTxFeeBump (inner_ops : list OperationBody)
| EnvelopeTypeOther (t : Z).

Class EnvelopeCodec := { TransactionEnvelope_UnmarshalBase64 : string -> res TransactionEnvelope }.

Definition extractInvokeContractArgs `{EnvelopeCodec} (envelopeXDR : string) : res (list ScVal) :=
  match TransactionEnvelope_UnmarshalBase64 envelopeXDR with
  | Err e => Err (Wrapf "failed to unmarshal transaction envelope: " e)
  | Ok envelope =>
      let first_args ops :=
        match ops with
        | [] => Err (ErrorString "transaction has no operations")
        | BodyOther _ :: _ => Err (ErrorString "first operation is not InvokeHostFunction")
        | BodyInvokeHostFunction (HostFunctionOther _) :: _ =>
            Err (ErrorString "host function is not InvokeContract")
        | BodyInvokeHostFunction (HostFunctionInvokeContract None) :: _ =>
            Err (ErrorString "InvokeContract args are nil")
        | BodyInvokeHostFunction (HostFunctionInvokeContract (Some args)) :: _ => Ok args
        end in
      match envelope with
      | EnvelopeTypeTxV0 ops | EnvelopeTypeTx ops | EnvelopeTypeTxFeeBump ops => first_args ops
      | EnvelopeTypeOther _ => Err (ErrorString "unsupported envelope type")
      end
  end.

(** ** The leading byte of a big-endian integer *)

Lemma put_be_cons n v : put_be (S n) v = (v / 256 ^ Z.of_nat n) mod 256 :: put_be n v.
Proof.
  revert v; induction n as [|n IH]; intros v; rewrite put_be_snoc.
  - simpl. by rewrite Z.div_1_r.
  - rewrite IH, (put_be_snoc n v). simpl. f_equal.
    rewrite Z.div_div by lia. rewrite Nat2Z.inj_succ, Z.pow_succ_r by lia. done.
Qed.

Lemma put_be_add n v k : put_be n (v + k * 256 ^ Z.of_nat n) = put_be n v.
Proof.
  revert v; induction n as [|n IH]; intros v; [done|]. rewrite !put_be_snoc.
  rewrite Nat2Z.inj_succ, Z.pow_succ_r by lia.
  replace (v + k * (256 * 256 ^ Z.of_nat n)) with (v + (k * 256 ^ Z.of_nat n) * 256) by lia.
  rewrite Z.div_add, Z.mod_add, IH by lia. done.
Qed.

Lemma lor128 b : 0 <= b < 128 -> Z.lor b 128 = b + 128.
Proof.
  intros Hb. rewrite Z.lor_comm. change 128 with (Z.shiftl 1 7).
  rewrite lor_shift_add by (change (2 ^ 7) with 128; lia). change (Z.shiftl 1 7) with 128.
  change (2 ^ 7) with 128. lia.
Qed.

(** Setting bit 255 of a 32-byte integer below 2^255. *)
Lemma put_be_top_bit s :
  0 <= s < 2 ^ 255 ->
  match put_be 32 s with b0 :: rest => Z.lor b0 128 :: rest | [] => [] end = put_be 32 (s + 2 ^ 255).
Proof.
  intros Hs. rewrite !(put_be_cons 31). change (256 ^ Z.of_nat 31) with (2 ^ 248).
  replace (s + 2 ^ 255) with (s + 128 * 2 ^ 248) by lia.
  replace (s + 128 * 2 ^ 248) with (s + 128 * 256 ^ Z.of_nat 31) at 2 by done.
  rewrite put_be_add. f_equal.
  assert (0 <= s / 2 ^ 248 < 128).
  { split; [apply Z.div_pos; lia|]. apply Z.div_lt_upper_bound; [lia|].
    replace (2 ^ 248 * 128) with (2 ^ 255) by lia. lia. }
  rewrite Z.div_add, !Z.mod_small by lia. by rewrite lor128.
Qed.

(** ** Slices of a known layout *)

Lemma slice_app a b c : slice (length a) (length a + length b) (a ++ b ++ c) = b.
Proof.
  unfold slice. rewrite drop_app_length.
  replace (length a + length b - length a)%nat with (length b) by lia. apply take_app_length.
Qed.

Lemma splice_app a new b c :
  length new = length b -> splice (length a) new (a ++ b ++ c) = a ++ new ++ c.
Proof.
  intros E. unfold splice. rewrite take_app_length, E, <- length_app.
  by rewrite (app_assoc a b c), drop_app_length.
Qed.

(** ** Signatures

    A secp256k1 signature in canonical form: R, a low S and the recovery id. *)
Record signature := mkSignature { sig_R : bytes; sig_V : bool; sig_S : Z }.

Definition wf_signature (s : signature) : Prop :=
  length (sig_R s) = 32%nat /\ 0 <= sig_S s <= secp256k1HalfN.

(** The aggregator's form: S is replaced by N - S when the recovery id is 1. *)
Definition normalized (s : signature) : bytes :=
  sig_R s ++ put_be 32 (if sig_V s then secp256k1N - sig_S s else sig_S s).

(** EIP-2098: the recovery id is bit 255 of S. *)
Definition compact (s : signature) : bytes :=
  sig_R s ++ put_be 32 (sig_S s + if sig_V s then 2 ^ 255 else 0).

Lemma convert_s_spec s :
  wf_signature s ->
  convert_s (put_be 32 (if sig_V s then secp256k1N - sig_S s else sig_S s))
  = put_be 32 (sig_S s + if sig_V s then 2 ^ 255 else 0).
Proof.
  intros [_ Hs]. unfold convert_s.
  assert (HN : secp256k1N = 2 * secp256k1HalfN + 1) by reflexivity.
  assert (HB : secp256k1HalfN < 2 ^ 255) by reflexivity.
  assert (HP : 256 ^ Z.of_nat 32 = 2 * 2 ^ 255) by reflexivity.
  generalize dependent secp256k1HalfN. intros half Hs HN HB.
  rewrite get_put_be by (destruct (sig_V s); lia). rewrite Z.gtb_ltb.
  destruct (sig_V s).
  - replace (half <? secp256k1N - sig_S s) with true by (symmetry; apply Z.ltb_lt; lia).
    replace (Z.abs (secp256k1N - (secp256k1N - sig_S s))) with (sig_S s) by lia.
    apply put_be_top_bit. lia.
  - replace (half <? sig_S s) with false by (symmetry; apply Z.ltb_ge; lia). by rewrite Z.add_0_r.
Qed.

Lemma convert_loop_spec sigs i pre rest :
  Forall wf_signature sigs -> length pre = (6 + i * 64)%nat ->
  convert_loop (length sigs) i (pre ++ concat (normalized <$> sigs) ++ rest)
  = pre ++ concat (compact <$> sigs) ++ rest.
Proof.
  revert i pre; induction sigs as [|s sigs IH]; intros i pre Hw Hl; [done|].
  pose proof (Forall_inv Hw) as Hs. apply Forall_inv_tail in Hw. pose proof (proj1 Hs) as HR. cbn [length convert_loop fmap list_fmap concat].
  set (S_old := put_be 32 (if sig_V s then secp256k1N - sig_S s else sig_S s)).
  set (tail := concat (normalized <$> sigs) ++ rest).
  assert (EL : (6 + i * 64 + 32)%nat = length (pre ++ sig_R s)) by (rewrite length_app, HR; lia).
  assert (EO : pre ++ (normalized s ++ concat (normalized <$> sigs)) ++ rest
               = (pre ++ sig_R s) ++ S_old ++ tail).
  { unfold normalized, tail. fold S_old. by rewrite <- !app_assoc. }
  change (concat (list_fmap _ _ normalized sigs)) with (concat (normalized <$> sigs)).
  rewrite EO, EL.
  replace (length (pre ++ sig_R s) + 32)%nat with (length (pre ++ sig_R s) + length S_old)%nat
    by (unfold S_old; by rewrite put_be_length).
  rewrite slice_app. replace (convert_s S_old) with (put_be 32 (sig_S s + if sig_V s then 2 ^ 255 else 0))
    by (symmetry; by apply convert_s_spec).
  rewrite splice_app by (unfold S_old; by rewrite !put_be_length).
  specialize (IH (S i) (pre ++ compact s) Hw).
  unfold tail. replace ((pre ++ sig_R s) ++ _ ++ _) with ((pre ++ compact s) ++ concat (normalized <$> sigs) ++ rest)
    by (unfold compact; by rewrite <- !app_assoc).
  rewrite IH; [by rewrite <- !app_assoc|]. unfold compact.
  rewrite !length_app, put_be_length, HR. lia.
Qed.

(** A blob as the aggregator writes it: a version tag, the length of the signatures,
    the signatures in the given form, and whatever follows. *)
Definition verifier_blob (form : signature -> bytes) (version : bytes) (sigs : list signature)
    (rest : bytes) : bytes :=
  version ++ put_be 2 (Z.of_nat (length sigs * 64)) ++ concat (form <$> sigs) ++ rest.

(** The length field of a blob. *)
Definition sig_payload_len (blob : bytes) : nat := Z.to_nat (get_be (slice 4 6 blob)).

Lemma concat_length (form : signature -> bytes) sigs :
  Forall (fun s => length (form s) = 64%nat) sigs -> length (concat (form <$> sigs)) = (length sigs * 64)%nat.
Proof.
  induction 1 as [|s l Hs _ IH]; [done|]. cbn. rewrite length_app, Hs.
  change (concat (list_fmap _ _ form l)) with (concat (form <$> l)). by rewrite IH.
Qed.

Lemma normalized_length sigs :
  Forall wf_signature sigs -> Forall (fun s => length (normalized s) = 64%nat) sigs.
Proof.
  intros H. refine (list.Forall_impl _ _ _ H _). intros s [HR _]. unfold normalized. by rewrite length_app, put_be_length, HR.
Qed.

Lemma sig_payload_len_blob form version sigs rest :
  length version = 4%nat -> (length sigs < 1024)%nat ->
  sig_payload_len (verifier_blob form version sigs rest) = (length sigs * 64)%nat.
Proof.
  intros Hv Hn. unfold sig_payload_len, verifier_blob.
  enough (E : slice 4 6 (version ++ put_be 2 (Z.of_nat (length sigs * 64)) ++ concat (form <$> sigs) ++ rest)
          = put_be 2 (Z.of_nat (length sigs * 64))); [rewrite E|].
  - rewrite get_put_be by (change (256 ^ Z.of_nat 2) with 65536; lia). lia.
  - pose proof (slice_app version (put_be 2 (Z.of_nat (length sigs * 64))) (concat (form <$> sigs) ++ rest)) as S.
    by rewrite put_be_length, Hv in S.
Qed.

(** The conversion of a verifier's blob to EIP-2098 is exact.  For up to
    1023 signatures in the aggregator's form (S replaced by N - S when the recovery
    id is 1), every signature is rewritten to R, the original low S and the
    recovery id in bit 255, and the version tag, the length field and the bytes
    after the signatures are kept.  A blob shorter than its header and length
    field announce is returned unchanged; a complete one is refused exactly when
    the length is not a multiple of 64. *)
Theorem ConvertVerifierBlobToEIP2098_spec version sigs rest blob :
  length version = 4%nat -> Forall wf_signature sigs -> (length sigs < 1024)%nat ->
  ConvertVerifierBlobToEIP2098 (verifier_blob normalized version sigs rest)
  = Ok (verifier_blob compact version sigs rest) /\
  ((length blob < 6 + sig_payload_len blob)%nat -> ConvertVerifierBlobToEIP2098 blob = Ok blob) /\
  ((6 + sig_payload_len blob <= length blob)%nat ->
     (exists e, ConvertVerifierBlobToEIP2098 blob = Err e) <-> (sig_payload_len blob mod 64 <> 0)%nat).
Proof.
  intros Hv Hw Hn. split; [|split].
  - pose proof (sig_payload_len_blob normalized version sigs rest Hv Hn) as HP.
    assert (HL : length (verifier_blob normalized version sigs rest)
                 = (6 + length sigs * 64 + length rest)%nat).
    { unfold verifier_blob. rewrite !length_app, put_be_length, Hv,
        concat_length by (by apply normalized_length). lia. }
    unfold ConvertVerifierBlobToEIP2098. fold (sig_payload_len (verifier_blob normalized version sigs rest)).
    rewrite HL, HP. replace (Nat.ltb _ 6) with false by (symmetry; apply Nat.ltb_ge; lia).
    replace (Nat.ltb _ _) with false by (symmetry; apply Nat.ltb_ge; lia). rewrite orb_false_r.
    rewrite Nat.Div0.mod_mul, Nat.div_mul by done. cbn [Nat.eqb negb].
    destruct (Nat.eqb (length sigs * 64) 0) eqn:E.
    + destruct sigs; [done|]. apply Nat.eqb_eq in E. simpl in E. lia.
    + unfold verifier_blob. rewrite (app_assoc version), convert_loop_spec; [|done|].
      * by rewrite <- app_assoc.
      * by rewrite length_app, put_be_length, Hv.
  - intros Hl. unfold ConvertVerifierBlobToEIP2098. fold (sig_payload_len blob).
    replace (Nat.ltb (length blob) (6 + _)) with true by (symmetry; by apply Nat.ltb_lt).
    rewrite orb_true_r. by destruct (Nat.ltb _ 6).
  - intros Hl. unfold ConvertVerifierBlobToEIP2098. fold (sig_payload_len blob).
    replace (Nat.ltb (length blob) 6) with false by (symmetry; apply Nat.ltb_ge; lia).
    replace (Nat.ltb _ _) with false by (symmetry; by apply Nat.ltb_ge). rewrite orb_false_r.
    destruct (Nat.eqb (sig_payload_len blob) 0) eqn:E.
    + apply Nat.eqb_eq in E. rewrite E. split; [by intros []|done].
    + destruct (Nat.eqb (sig_payload_len blob mod 64) 0) eqn:E'.
      * apply Nat.eqb_eq in E'. split; [by intros []|done].
      * apply Nat.eqb_neq in E'. split; [done|]. by eexists.
Qed.

Lemma ConvertVerifierBlobToEIP2098_spec_witness :
  let s := mkSignature (replicate 32 7) true 5 in
  ConvertVerifierBlobToEIP2098 (verifier_blob normalized [1; 2; 3; 4] [s] [9])
  = Ok ([1; 2; 3; 4; 0; 64] ++ replicate 32 7 ++ (128 :: replicate 30 0 ++ [5]) ++ [9]).
Proof.
  intros s. destruct (ConvertVerifierBlobToEIP2098_spec [1; 2; 3; 4] [s] [9] []) as [E _].
  - reflexivity.
  - constructor; [split; [reflexivity|split; vm_compute; discriminate]|constructor].
  - vm_compute. lia.
  - exact E.
Defined.

(** ** The execute call *)

Lemma HexToContractStrkey_hex `{Codec} b :
  Forall is_byte b ->
  HexToContractStrkey ("0x" +:+ hex_EncodeToString b) = strkey_Encode VersionByteContract b.
Proof.
  intros Hb. unfold HexToContractStrkey.
  replace (TrimPrefix _ "0x") with (hex_EncodeToString b); [by rewrite hex_roundtrip|].
  unfold TrimPrefix. cbn. by destruct (hex_EncodeToString b).
Qed.

Section Execute.
Context `{CodecLaws} `{CcvProtocol} {W : Type} `{Invoker W}.

(** The strkeys of contract IDs are read back as the IDs. *)
Lemma ccv_addresses ccvs :
  Forall is_key ccvs ->
  exists addrs, mapM_out ccv_strkey ccvs = Returns addrs /\
    AddressVecFromScVal (AddressSliceToScVal addrs) = Returns ccvs.
Proof.
  intros Hk. induction Hk as [|k ks Hk _ (addrs & E & D)].
  - by exists [].
  - destruct (contract_strkey k Hk) as (s & Es & Ps). exists (s :: addrs). simpl. split.
    + unfold ccv_strkey at 1. by rewrite HexToContractStrkey_hex, Es, E by apply Hk.
    + cbn in D |- *. by rewrite Ps; cbn; rewrite copy32_key, D by apply Hk.
Qed.

Lemma execute_args_decode enc addrs ccvs data m :
  AddressVecFromScVal (AddressSliceToScVal addrs) = Returns ccvs -> DecodeMessage enc = Ok m ->
  decodeExecuteArgsToAttempt (execute_args enc addrs data DefaultGasLimitOverride)
  = Returns (mkExecutionAttempt (mkReport ccvs data m) DefaultGasLimitOverride).
Proof.
  intros Ea Em. unfold decodeExecuteArgsToAttempt, execute_args. rewrite Ea. cbn [BytesFromScVal].
  replace (BytesVecFromScVal (BytesSliceToScVal data)) with (Returns data); [cbn; by rewrite Em|].
  symmetry. cbn. apply mapM_out_Forall2, Forall2_fmap_l. induction data; constructor; done.
Qed.

(** What makes a report executable. *)
Definition transmittable (report : AbstractAggregatedReport) : bool :=
  is_ok (MessageID (report_Message report)) && is_ok (Message_Encode (report_Message report)) &&
  forallb (fun blob => is_ok (ConvertVerifierBlobToEIP2098 blob)) (CCVData report).

Lemma convert_blobs blobs :
  match mapM_out (fun blob => wrap_out "unable to convert verifier blob to EIP-2098: "
                    (out_of_res (ConvertVerifierBlobToEIP2098 blob))) blobs with
  | Returns data => forallb (fun blob => is_ok (ConvertVerifierBlobToEIP2098 blob)) blobs = true /\
                    Forall2 (fun b d => ConvertVerifierBlobToEIP2098 b = Ok d) blobs data
  | Errs _ => forallb (fun blob => is_ok (ConvertVerifierBlobToEIP2098 blob)) blobs = false
  | Panics => False
  end.
Proof.
  induction blobs as [|b l IH]; [by split|]. simpl.
  destruct (ConvertVerifierBlobToEIP2098 b) eqn:E; simpl; [|done].
  destruct (mapM_out _ l); [|done..]. destruct IH as [-> IH]. split; [done|by constructor].
Qed.

(** Property C20: the transmitter submits exactly the report it is given.  When the
    message has an id and an encoding and every verifier blob can be converted,
    [ConvertAndWriteMessageToChain] makes one invocation of "execute" on its
    OffRamp, whose failure it reports; its arguments are read back, by the decoder
    of the attempt poller, as the report's message and CCV addresses, the converted
    verifier results in order and no gas override.  Otherwise it fails without
    touching the chain. *)
Theorem ConvertAndWriteMessageToChain_spec ct report w :
  Forall is_key (CCVS report) ->
  (forall m b, Message_Encode m = Ok b -> DecodeMessage b = Ok m) ->
  let '(r, w') := ConvertAndWriteMessageToChain ct report w in
  if transmittable report then
    exists args data,
      Forall2 (fun b d => ConvertVerifierBlobToEIP2098 b = Ok d) (CCVData report) data /\
      decodeExecuteArgsToAttempt args
      = Returns (mkExecutionAttempt (mkReport (CCVS report) data (report_Message report)) 0) /\
      let '(res, w1) := inv_InvokeContract (ccipOfframpAddress ct) "execute" args w in
      w' = w1 /\ is_done r = is_done res
  else is_done r = false /\ w' = w.
Proof.
  intros Hk Hdec. unfold ConvertAndWriteMessageToChain, transmittable, MustMessageID.
  destruct (MessageID (report_Message report)); [|done]. cbn [is_ok andb].
  destruct (Message_Encode (report_Message report)) as [enc|] eqn:Ee; [|done]. cbn [is_ok andb].
  destruct (ccv_addresses _ Hk) as (addrs & Ea & Da). rewrite Ea.
  pose proof (convert_blobs (CCVData report)) as C.
  destruct (mapM_out _ (CCVData report)) as [data|e|]; [|by rewrite C|done].
  destruct C as [-> C]. unfold offramp_Execute. rewrite SM_bind_run.
  exists (execute_args enc addrs data DefaultGasLimitOverride), data. split; [done|]. split.
  - by apply execute_args_decode; [|apply Hdec].
  - by destruct (inv_InvokeContract _ _ _ w) as [[| |] ?].
Qed.

End Execute.

(** A concrete protocol: a message is its encoding, identified by its length. *)
#[local] Instance demo_protocol : CcvProtocol := {|
  Message := bytes;
  DecodeMessage b := Ok b;
  Message_Encode m := Ok m;
  MessageID m := Ok [Z.of_nat (length m)];
  ErrMessageEncoding := ErrorString "message encoding"
|}.

(** An invoker that records the calls. *)
#[local] Instance demo_invoker : Invoker (list (string * string * list ScVal)) := {|
  inv_InvokeContract c f args := fun w => (Returns None, w ++ [(c, f, args)]);
  inv_SimulateContract _ _ _ := fun w => (Returns None, w)
|}.

Lemma ConvertAndWriteMessageToChain_spec_witness :
  exists args, snd (ConvertAndWriteMessageToChain (mkContractTransmitter "CABC")
                      (mkReport [demo_key] [[1; 2; 3]] [42]) []) = [("CABC", "execute", args)] /\
    decodeExecuteArgsToAttempt args
    = Returns (mkExecutionAttempt (mkReport [demo_key] [[1; 2; 3]] [42]) 0).
Proof.
  pose proof (ConvertAndWriteMessageToChain_spec (mkContractTransmitter "CABC")
    (mkReport [demo_key] [[1; 2; 3]] [42]) []) as S.
  destruct (ConvertAndWriteMessageToChain _ _ _) as [r w'].
  destruct S as (args & data & D & E & -> & _).
  - constructor; [exact demo_key_ok|constructor].
  - intros m b Em. injection Em as ->. reflexivity.
  - exists args. split; [reflexivity|]. rewrite E. inversion D as [|a d l l' A B]; subst.
    inversion B; subst. vm_compute in A. injection A as <-. reflexivity.
Defined.
