(* ===== verification/AttemptPoller.v ===== *)
(** * Polling for execution attempts

    Models ccv/destination_reader/execution_attempt_poller.go (with
    [extractInvokeContractArgs] and [decodeExecuteArgsToAttempt] in Transmitter.v and
    [GetEventsInRange] in EventPages.v) and execution_state_changed_event.go.

    The poller's state is shared by two goroutines and the readers: the polling loop
    ([pollForEvents]), the retry loop ([processRetries]) and [GetExecutionAttempts].
    What the others do while one of them runs is a parameter ([others]), which acts
    at every RPC and before every access to the shared caches. *)

From S2P Require Import Prelude Sdk GoBytes Xdr Scval TypeConverters EventPages EventFields Transmitter.

Import protocol.

(** ** The LRU cache of hashicorp/golang-lru, and what it documents

    [lru_entries] is the content of a cache.  A lookup answers an entry that was
    added; adding may evict the oldest entry of a full cache, and says so; keys are
    listed once.  Entries with a time to live vanish on their own ([lru_expired]). *)

Class ExpirableLRU (K V : Type) `{Countable K} := {
  LRU : Type;
  NewLRU : nat -> Z -> LRU;
  lru_Get : Z -> K -> LRU -> option V * LRU;
  lru_Peek : Z -> K -> LRU -> option V;
  lru_Add : Z -> K -> V -> LRU -> bool * LRU;
  lru_Remove : K -> LRU -> LRU;
  lru_Keys : Z -> LRU -> list K;
  lru_entries : LRU -> gmap K V;
  lru_limit : LRU -> nat;
  lru_ttl : LRU -> Z
}.
Arguments LRU K V {_ _ _}.

Class LRULaws (K V : Type) `{ExpirableLRU K V} : Prop := {
  New_entries n ttl : lru_entries (NewLRU n ttl) = ∅ /\ lru_limit (NewLRU n ttl) = n /\ lru_ttl (NewLRU n ttl) = ttl;
  Get_entries t k c v : fst (lru_Get t k c) = Some v -> lru_entries c !! k = Some v;
  Get_keeps t k c : lru_entries (snd (lru_Get t k c)) = lru_entries c /\
    lru_limit (snd (lru_Get t k c)) = lru_limit c /\ lru_ttl (snd (lru_Get t k c)) = lru_ttl c;
  Peek_entries t k c v : lru_Peek t k c = Some v -> lru_entries c !! k = Some v;
  Peek_all t k c : lru_ttl c = 0 -> lru_Peek t k c = lru_entries c !! k;
  Add_new t k v c : lru_entries (snd (lru_Add t k v c)) !! k = Some v;
  Add_others t k v c k' : k' <> k ->
    lru_entries (snd (lru_Add t k v c)) !! k' = lru_entries c !! k' \/
    fst (lru_Add t k v c) = true /\ lru_entries (snd (lru_Add t k v c)) !! k' = None;
  Add_full t k v c : fst (lru_Add t k v c) = true ->
    lru_limit c <> 0%nat /\ (lru_limit c <= size (lru_entries c))%nat;
  Add_limit t k v c : lru_limit c <> 0%nat -> (size (lru_entries c) <= lru_limit c)%nat ->
    (size (lru_entries (snd (lru_Add t k v c))) <= lru_limit c)%nat;
  Add_keeps t k v c : lru_limit (snd (lru_Add t k v c)) = lru_limit c /\
    lru_ttl (snd (lru_Add t k v c)) = lru_ttl c;
  Remove_entries k c : lru_entries (lru_Remove k c) = delete k (lru_entries c) /\
    lru_limit (lru_Remove k c) = lru_limit c /\ lru_ttl (lru_Remove k c) = lru_ttl c;
  Keys_NoDup t c : NoDup (lru_Keys t c);
  Keys_entries t c k : lru_ttl c = 0 -> k ∈ lru_Keys t c <-> is_Some (lru_entries c !! k)
}.

(** ** The events *)

Record ExecutionStateChangedEvent := mkExecutionStateChangedEvent {
  SourceChainSelector : Z;
  SequenceNumber : Z;
  MessageId : bytes;
  State : Z;
  ReturnData : bytes;
  ec_Ledger : Z;
  ec_TxHash : string
}.

Definition ExecutionStateChangedEventTopic : string := "offramp_2_0_ExecStateChanged".

(** [MessageExecutionStateFromScVal] of the generated client. *)
Definition MessageExecutionStateFromScVal (val : ScVal) : outcome Z :=
  need (GetU32 val) "expected u32 for MessageExecutionState enum".

Definition event_field (key : string) (v : ScVal) (r : ExecutionStateChangedEvent)
    : outcome ExecutionStateChangedEvent :=
  let '(mkExecutionStateChangedEvent sel seq mid st rd lg tx) := r in
  if String.eqb key "source_chain_selector" then
    on_value (Uint64FromScVal v) (fun x => mkExecutionStateChangedEvent x seq mid st rd lg tx) r
  else if String.eqb key "sequence_number" then
    on_value (Uint64FromScVal v) (fun x => mkExecutionStateChangedEvent sel x mid st rd lg tx) r
  else if String.eqb key "message_id" then
    on_value (Bytes32FromScVal v) (fun x => mkExecutionStateChangedEvent sel seq x st rd lg tx) r
  else if String.eqb key "state" then
    on_value (MessageExecutionStateFromScVal v) (fun x => mkExecutionStateChangedEvent sel seq mid x rd lg tx) r
  else if String.eqb key "return_data" then
    if_ok (GetBytes v) (fun x => mkExecutionStateChangedEvent sel seq mid st x lg tx) r
  else Returns r.

Definition ParseExecutionStateChangedEvent `{Codec} (e : EventInfo) : outcome ExecutionStateChangedEvent :=
  match ScVal_UnmarshalBase64 (ev_ValueXDR e) with
  | Err e => Errs (Wrapf "failed to decode event: " e)
  | Ok eventVal =>
      scMap ← need_map eventVal "event is not a map";
      fold_symbols event_field scMap
        (mkExecutionStateChangedEvent 0 0 (replicate 32 0) 0 [] (u32 (ev_Ledger e)) (ev_TransactionHash e))
  end.

(** ** The poller's state and environment *)

Record retryTask := mkRetryTask { event : ExecutionStateChangedEvent; retries : Z }.

Definition defaultRetryQueueLimit : nat := 64.
Definition maxEventProcessRetries : Z := 3.
Definition second : Z := 1000000000.
Definition estimatedLedgerCloseTime : Z := 6 * second.
Definition minStellarLedger : Z := 7.

(** The RPC client as the poller uses it ([GetEvents] is in [EventsClient]): the
    sequence of the latest ledger, and a transaction's status and envelope. *)
Class PollerClient (W : Type) := {
  pl_GetLatestLedger : SM W (res Z);
  pl_GetTransaction : string -> SM W (res (RpcTxStatus * string));
  pl_now : W -> Z
}.

Section Poller.
Context `{Codec} `{EnvelopeCodec} `{CcvProtocol} {W : Type} `{EventsClient W} `{PollerClient W}.
Context `{!ExpirableLRU bytes (list ExecutionAttempt)} `{!ExpirableLRU string retryTask}.

Record StellarExecutionAttemptPoller := mkPoller {
  offrampContractID : string;
  attemptCache : LRU bytes (list ExecutionAttempt);
  retryQueue : LRU string retryTask;
  lastPolledLedger : Z;
  startLedger : Z;
  lookbackWindow : Z
}.

Definition NewStellarExecutionAttemptPoller (have_client have_lggr : bool) (offrampContractID : string)
    (attemptCacheExpiration : Z) : res StellarExecutionAttemptPoller :=
  if negb have_client then Err (ErrorString "rpc client cannot be nil")
  else if negb have_lggr then Err (ErrorString "logger cannot be nil")
  else if String.eqb offrampContractID "" then Err (ErrorString "offramp contract ID cannot be empty")
  else Ok (mkPoller offrampContractID (NewLRU 0 attemptCacheExpiration)
             (NewLRU defaultRetryQueueLimit 0) 0 0 attemptCacheExpiration).

Definition set_attemptCache (c : LRU bytes (list ExecutionAttempt)) (p : StellarExecutionAttemptPoller) :=
  mkPoller (offrampContractID p) c (retryQueue p) (lastPolledLedger p) (startLedger p) (lookbackWindow p).
Definition set_retryQueue (q : LRU string retryTask) (p : StellarExecutionAttemptPoller) :=
  mkPoller (offrampContractID p) (attemptCache p) q (lastPolledLedger p) (startLedger p) (lookbackWindow p).
Definition set_lastPolledLedger (l : Z) (p : StellarExecutionAttemptPoller) :=
  mkPoller (offrampContractID p) (attemptCache p) (retryQueue p) l (startLedger p) (lookbackWindow p).
Definition set_startLedger (l : Z) (p : StellarExecutionAttemptPoller) :=
  mkPoller (offrampContractID p) (attemptCache p) (retryQueue p) (lastPolledLedger p) l (lookbackWindow p).

(** Code that runs on the poller and the outside world. *)
Abbreviation PM := (SM (StellarExecutionAttemptPoller * W)).

Definition get_poller : PM StellarExecutionAttemptPoller := fun s => (fst s, s).
Definition modify (f : Z -> StellarExecutionAttemptPoller -> StellarExecutionAttemptPoller) : PM unit :=
  fun '(p, w) => (tt, (f (pl_now w) p, w)).
Definition now : PM Z := fun s => (pl_now (snd s), s).

(** What the other goroutines do in the meantime. *)
Variable others : StellarExecutionAttemptPoller -> W -> StellarExecutionAttemptPoller * W.

Definition yield_others : PM unit := fun '(p, w) => (tt, others p w).

(** A call of the RPC client. *)
Definition rpc {A} (m : SM W A) : PM A := fun '(p, w) =>
  let '(a, w') := m w in (a, others p w').

(** ** Operations *)

Definition getStartLedger : PM (res unit) :=
  latest ← rpc pl_GetLatestLedger;
  match latest with
  | Err e => mret (Err (Wrapf "failed to get latest ledger: " e))
  | Ok latest =>
      p ← get_poller;
      let lookbackLedgers := u32 (Z.quot (lookbackWindow p) estimatedLedgerCloseTime) in
      modify (fun _ => set_startLedger
        (if lookbackLedgers >=? latest then minStellarLedger
         else Z.max (u32 (latest - lookbackLedgers)) minStellarLedger));;
      mret (Ok tt)
  end.

(** The critical section of [processExecutionStateChanged]. *)
Definition cache_attempt (msgID : bytes) (attempt : ExecutionAttempt) (t : Z)
    (p : StellarExecutionAttemptPoller) : StellarExecutionAttemptPoller :=
  let '(attempts, c) := lru_Get t msgID (attemptCache p) in
  let '(_, c) := lru_Add t msgID (default [] attempts ++ [attempt]) c in
  set_attemptCache c p.

Definition processExecutionStateChanged (event : ExecutionStateChangedEvent) : PM (outcome unit) :=
  txResp ← rpc (pl_GetTransaction (ec_TxHash event));
  match txResp with
  | Err e => mret (Errs (Wrapf "failed to get transaction: " e))
  | Ok (Status, EnvelopeXDR) =>
      match Status with
      | TransactionStatusSuccess =>
          match extractInvokeContractArgs EnvelopeXDR with
          | Err e => mret (Errs (Wrapf "failed to extract execute args from transaction: " e))
          | Ok executeArgs =>
              match decodeExecuteArgsToAttempt executeArgs with
              | Panics => mret Panics
              | Errs e => mret (Errs (Wrapf "failed to decode execute args from transaction: " e))
              | Returns attempt =>
                  match MustMessageID (report_Message (Report attempt)) with
                  | Panics => mret Panics
                  | Errs e => mret (Errs e)
                  | Returns attemptMsgID =>
                      if decide (MessageId event = attemptMsgID) then
                        yield_others;;
                        modify (cache_attempt (MessageId event) attempt);;
                        mret (Returns tt)
                      else mret (Errs (ErrorString "computed message id does not match event message id"))
                  end
              end
          end
      | _ => mret (Errs (ErrorString "transaction has non-success status"))
      end
  end.

Definition add_retry (task : retryTask) (t : Z) (p : StellarExecutionAttemptPoller) :=
  set_retryQueue (snd (lru_Add t (ec_TxHash (event task)) task (retryQueue p))) p.

Definition enqueueRetry (task : retryTask) : PM unit := yield_others;; modify (add_retry task).

(** The loop of [pollForEvents] over the events. *)
Fixpoint process_events (events : list EventInfo) : PM (outcome unit) :=
  match events with
  | [] => mret (Returns tt)
  | e :: events' =>
      match ParseExecutionStateChangedEvent e with
      | Panics => mret Panics
      | Errs _ => process_events events'
      | Returns parsed =>
          r ← processExecutionStateChanged parsed;
          match r with
          | Panics => mret Panics
          | Errs _ => enqueueRetry (mkRetryTask parsed 0);; process_events events'
          | Returns _ => process_events events'
          end
      end
  end.

(** [None] when the fuel of [GetEventsInRange] runs out. *)
Definition pollForEvents (fuel : nat) : PM (option (outcome unit)) :=
  latest ← rpc pl_GetLatestLedger;
  match latest with
  | Err e => mret (Some (Errs (Wrapf "failed to get latest ledger: " e)))
  | Ok toLedger =>
      p ← get_poller;
      if toLedger <=? lastPolledLedger p then mret (Some (Returns tt))
      else
        events ← rpc (GetEventsInRange fuel (offrampContractID p) (lastPolledLedger p) toLedger
                        [ExecutionStateChangedEventTopic]);
        match events with
        | None => mret None
        | Some (Err e) => mret (Some (Errs e))
        | Some (Ok events) =>
            r ← process_events events;
            match r with
            | Returns _ => modify (fun _ => set_lastPolledLedger toLedger);; mret (Some (Returns tt))
            | _ => mret (Some r)
            end
        end
  end.

Definition runBackfill (fuel : nat) : PM (option (outcome unit)) :=
  modify (fun _ p => set_lastPolledLedger (startLedger p) p);;
  r ← pollForEvents fuel;
  mret match r with
       | Some (Errs e) => Some (Errs (Wrapf "backfill failed: " e))
       | _ => r
       end.

(** The part of [Start] before the goroutines: a failed backfill is logged. *)
Definition Start (fuel : nat) : PM (option (outcome unit)) :=
  r ← getStartLedger;
  match r with
  | Err e => mret (Some (Errs (Wrapf "failed to calculate start ledger: " e)))
  | Ok _ =>
      r ← runBackfill fuel;
      match r with
      | Some (Errs _) =>
          modify (fun _ p => set_lastPolledLedger (startLedger p) p);; mret (Some (Returns tt))
      | _ => mret r
      end
  end.

(** One iteration of the loop of [processRetries]. *)
Definition retry_one (txHash : string) : PM (outcome unit) :=
  yield_others;;
  t ← now; p ← get_poller;
  match lru_Peek t txHash (retryQueue p) with
  | None => mret (Returns tt)
  | Some task =>
      yield_others;;
      modify (fun _ p => set_retryQueue (lru_Remove txHash (retryQueue p)) p);;
      r ← processExecutionStateChanged (event task);
      match r with
      | Panics => mret Panics
      | Returns _ => mret (Returns tt)
      | Errs _ =>
          let task := mkRetryTask (event task) (retries task + 1) in
          if retries task >=? maxEventProcessRetries then mret (Returns tt)
          else enqueueRetry task;; mret (Returns tt)
      end
  end.

Fixpoint retry_keys (keys : list string) : PM (outcome unit) :=
  match keys with
  | [] => mret (Returns tt)
  | txHash :: keys' =>
      r ← retry_one txHash;
      match r with Returns _ => retry_keys keys' | _ => mret r end
  end.

Definition processRetries : PM (outcome unit) :=
  t ← now; p ← get_poller;
  retry_keys (lru_Keys t (retryQueue p)).

Definition GetExecutionAttempts (message : Message) : PM (res (option (list ExecutionAttempt))) :=
  match MessageID message with
  | Err e => mret (Err (Wrapf "failed to get message ID: " e))
  | Ok msgID =>
      t ← now; p ← get_poller;
      let '(attempts, c) := lru_Get t msgID (attemptCache p) in
      modify (fun _ => set_attemptCache c);;
      mret (Ok attempts)
  end.

End Poller.
