(* ===== verification/DemoCache.v ===== *)
(** * A concrete cache and a concrete node for the poller's witnesses

    [demo_lru] satisfies [LRULaws]: a map that evicts one entry when it is full.
    It is not the library's cache (which evicts the oldest entry) and no theorem
    depends on it.  The node answers one transaction, an [execute] call. *)

From S2P Require Import Prelude Sdk GoBytes Xdr DemoCodec Scval TypeConverters EventPages Transmitter AttemptPoller.

Record cache (K V : Type) `{Countable K} := mkCache { c_limit : nat; c_ttl : Z; c_map : gmap K V }.
Arguments mkCache {K V _ _}.
Arguments c_limit {K V _ _}.
Arguments c_ttl {K V _ _}.
Arguments c_map {K V _ _}.

Section Cache.
Context {K V : Type} `{Countable K}.

Definition cache_add (k : K) (v : V) (c : cache K V) : bool * cache K V :=
  let with_map m := mkCache (c_limit c) (c_ttl c) m in
  if decide (c_limit c <> 0%nat /\ (c_limit c <= size (c_map c))%nat /\ c_map c !! k = None) then
    match map_to_list (c_map c) with
    | (k0, _) :: _ => (true, with_map (<[k := v]> (delete k0 (c_map c))))
    | [] => (false, with_map (<[k := v]> (c_map c)))
    end
  else (false, with_map (<[k := v]> (c_map c))).

#[export] Instance demo_lru : ExpirableLRU K V := {|
  LRU := cache K V;
  NewLRU n ttl := mkCache n ttl ∅;
  lru_Get _ k c := (c_map c !! k, c);
  lru_Peek _ k c := c_map c !! k;
  lru_Add _ := cache_add;
  lru_Remove k c := mkCache (c_limit c) (c_ttl c) (delete k (c_map c));
  lru_Keys _ c := (map_to_list (c_map c)).*1;
  lru_entries := c_map;
  lru_limit := c_limit;
  lru_ttl := c_ttl
|}.

(** The content after an insertion. *)
Lemma cache_add_map k v c :
  (fst (cache_add k v c) = false /\ c_map (snd (cache_add k v c)) = <[k := v]> (c_map c) /\
     (c_limit c <> 0%nat -> (c_limit c <= size (c_map c))%nat -> c_map c !! k = None -> c_map c = ∅)) \/
  (fst (cache_add k v c) = true /\ c_limit c <> 0%nat /\ (c_limit c <= size (c_map c))%nat /\
     exists k0, k0 <> k /\ is_Some (c_map c !! k0) /\
       c_map (snd (cache_add k v c)) = <[k := v]> (delete k0 (c_map c))).
Proof.
  unfold cache_add. case_decide as D; [|left; split; [done|]; split; [done|]; intros; by destruct D].
  destruct D as (D1 & D2 & D3). destruct (map_to_list (c_map c)) as [|[k0 v0] l] eqn:E.
  - left. split; [done|]. split; [done|]. intros _ _ _. by apply map_to_list_empty_iff.
  - right. split; [done|]. split; [done|]. split; [done|]. exists k0.
    assert (M : c_map c !! k0 = Some v0) by (apply elem_of_map_to_list; rewrite E; constructor).
    split; [|split; [by eexists|done]]. intros ->. congruence.
Qed.

#[export] Instance demo_lru_laws : LRULaws K V.
Proof.
  split; simpl; try done.
  - intros _ k v c. destruct (cache_add_map k v c) as [(_ & -> & _)|(_ & _ & _ & k0 & _ & _ & ->)];
      apply lookup_insert_eq.
  - intros _ k v c k' N. destruct (cache_add_map k v c) as [(_ & -> & _)|(F & _ & _ & k0 & _ & _ & ->)];
      rewrite lookup_insert_ne by done; [by left|].
    destruct (decide (k' = k0)) as [->|]; [right; by rewrite lookup_delete_eq|left; by rewrite lookup_delete_ne].
  - intros _ k v c F. destruct (cache_add_map k v c) as [(F' & _)|(_ & ? & ? & _)]; [congruence|done].
  - intros _ k v c Hl Hs. destruct (cache_add_map k v c) as [(_ & -> & E)|(_ & _ & _ & k0 & _ & [v0 M] & ->)].
    + rewrite map_size_insert. destruct (c_map c !! k) eqn:Ek; simpl; [lia|].
      destruct (decide (c_limit c <= size (c_map c))%nat); [|lia].
      rewrite E, map_size_empty in * by done. lia.
    + pose proof (map_size_delete (M := gmap K) k0 (c_map c)) as D. rewrite M in D. simpl in D.
      rewrite map_size_insert. assert (size (c_map c) <> 0%nat).
      { intros Z. apply map_size_empty_inv in Z. by rewrite Z, lookup_empty in M. }
      destruct (delete k0 (c_map c) !! k); simpl; lia.
  - intros _ k v c. unfold cache_add. by repeat case_match.
  - intros _ c. apply NoDup_fst_map_to_list.
  - intros _ c k _. rewrite list_elem_of_fmap. split.
    + intros ([k' v] & -> & M). apply elem_of_map_to_list in M. by eexists.
    + intros [v M]. exists (k, v). split; [done|]. by apply elem_of_map_to_list.
Qed.

End Cache.

(** ** A node with one event

    Event "E1" of transaction "t1" says that the message [42] was executed; the
    transaction's envelope holds the call. *)

Definition demo_id (m : bytes) : bytes := take 32 (m ++ replicate 32 0).

Definition node_protocol : CcvProtocol := {|
  Message := bytes;
  DecodeMessage b := Ok b;
  Message_Encode m := Ok m;
  MessageID m := Ok (demo_id m);
  ErrMessageEncoding := ErrorString "message encoding"
|}.

Definition node_event_value : ScVal :=
  ScvMap (Some (Some [mkScMapEntry (ScvSymbol (Some "message_id")) (ScvBytes (Some (demo_id [42])));
                      mkScMapEntry (ScvSymbol (Some "sequence_number")) (ScvU64 (Some 7))])).

Definition node_codec : Codec := {|
  strkey_Encode := strkey_Encode;
  strkey_Decode := strkey_Decode;
  xdr_AddressToAccountId := xdr_AddressToAccountId;
  ScAddress_UnmarshalBinary := ScAddress_UnmarshalBinary;
  ScVal_MarshalBinary := ScVal_MarshalBinary;
  ScVal_UnmarshalBinary := ScVal_UnmarshalBinary;
  ScVal_UnmarshalBase64 s :=
    if String.eqb s "E1" then Ok node_event_value else Err (ErrorString "not scripted")
|}.

Definition node_ccv : string := "C" +:+ hex_EncodeToString demo_key.

Definition node_args : list ScVal := execute_args [42] [node_ccv] [[1; 2; 3]] DefaultGasLimitOverride.

Definition node_envelopes : EnvelopeCodec := {|
  TransactionEnvelope_UnmarshalBase64 s :=
    if String.eqb s "env1"
    then Ok (EnvelopeTypeTx [BodyInvokeHostFunction (HostFunctionInvokeContract (Some node_args))])
    else Err (ErrorString "not scripted")
|}.

Definition node_cursors : protocol.Cursors := {|
  protocol.Cursor := Z;
  protocol.ParseCursor _ := Err (ErrorString "not scripted");
  protocol.Cmp c d := c - d;
  protocol.Cursor_Ledger c := c
|}.

Definition node_event : protocol.EventInfo :=
  protocol.mkEventInfo "contract" 10 "" "CAAA" "e1" 0 0 "t1" [] "E1".

Definition node_events : @EventsClient unit node_cursors := {|
  cl_GetEvents _ w :=
    (Ok (protocol.mkGetEventsResponse [node_event] "" 20 1 0 0), w);
  cl_ctx_Err _ := None
|}.

Definition node_client : PollerClient unit := {|
  pl_GetLatestLedger w := (Ok 20, w);
  pl_GetTransaction h w :=
    (if String.eqb h "t1" then Ok (TransactionStatusSuccess, "env1") else Err (ErrorString "not found"), w);
  pl_now _ := 0
|}.
