(* ===== verification/AttemptPollerProofs.v ===== *)
(** * The shared state of the attempt poller

    The actions the goroutines perform on the shared caches, the invariant these
    keep under every interleaving, and what a poll and a retry tick do to each
    event when they run alone. *)

From S2P Require Import Prelude Sdk GoBytes Xdr DemoCodec Scval TypeConverters TypeConvertersProofs EventPages EventFields Transmitter AttemptPoller DemoCache.

Import protocol.

Section Poller.
Context `{Codec} `{EnvelopeCodec} `{CcvProtocol} {W : Type} `{EventsClient W} `{PollerClient W}.
Context `{!ExpirableLRU bytes (list ExecutionAttempt)} `{!LRULaws bytes (list ExecutionAttempt)}.
Context `{!ExpirableLRU string retryTask} `{!LRULaws string retryTask}.

Abbreviation poller := StellarExecutionAttemptPoller.

(** ** Actions on the shared state

    The evidence for an attempt: the node answered the event's transaction with
    success, and the transaction's call decodes to the attempt, whose message has
    the event's id. *)
Definition fetched (ev : ExecutionStateChangedEvent) (a : ExecutionAttempt) : Prop :=
  exists w env args,
    fst (pl_GetTransaction (ec_TxHash ev) w) = Ok (TransactionStatusSuccess, env) /\
    extractInvokeContractArgs env = Ok args /\ decodeExecuteArgsToAttempt args = Returns a /\
    MessageID (report_Message (Report a)) = Ok (MessageId ev).

Definition pending (task : retryTask) : Prop := 0 <= retries task < maxEventProcessRetries.

(** What a goroutine does to the shared caches in one critical section; entries of
    the attempt cache also expire. *)
Inductive shared : poller -> poller -> Prop :=
| shared_cache ev a t p : fetched ev a -> shared p (cache_attempt (MessageId ev) a t p)
| shared_get id t p : shared p (set_attemptCache (snd (lru_Get t id (attemptCache p))) p)
| shared_retry task t p : pending task -> shared p (add_retry task t p)
| shared_remove key p : shared p (set_retryQueue (lru_Remove key (retryQueue p)) p)
| shared_expire c p :
    lru_entries c ⊆ lru_entries (attemptCache p) -> lru_limit c = lru_limit (attemptCache p) ->
    lru_ttl c = lru_ttl (attemptCache p) -> shared p (set_attemptCache c p).

(** The invariant: the attempts cached under an id were fetched for events of that
    id; the queue maps a transaction to a task of it with retries left, within its
    limit. *)
Record poller_ok (p : poller) : Prop := mkPollerOk {
  ok_cache id attempts : lru_entries (attemptCache p) !! id = Some attempts ->
    Forall (fun a => exists ev, MessageId ev = id /\ fetched ev a) attempts;
  ok_unlimited : lru_limit (attemptCache p) = 0%nat;
  ok_queue key task : lru_entries (retryQueue p) !! key = Some task ->
    key = ec_TxHash (event task) /\ pending task;
  ok_limit : lru_limit (retryQueue p) = defaultRetryQueueLimit;
  ok_bound : (size (lru_entries (retryQueue p)) <= defaultRetryQueueLimit)%nat;
  ok_ttl : lru_ttl (retryQueue p) = 0
}.

Lemma new_poller_ok c l id ttl p :
  NewStellarExecutionAttemptPoller c l id ttl = Ok p -> poller_ok p.
Proof.
  unfold NewStellarExecutionAttemptPoller. intros E. repeat case_match; simplify_eq.
  destruct (New_entries (K := bytes) (V := list ExecutionAttempt) 0 ttl) as (E1 & E2 & E3).
  destruct (New_entries (K := string) (V := retryTask) defaultRetryQueueLimit 0) as (F1 & F2 & F3).
  split; simpl; rewrite ?E1, ?F1, ?map_size_empty; try done; try lia; intros ? ? [=].
Qed.

(** The content of the attempt cache after an attempt is added. *)
Lemma cache_attempt_entries id a t p :
  lru_limit (attemptCache p) = 0%nat ->
  exists old, (old = [] \/ lru_entries (attemptCache p) !! id = Some old) /\
    lru_entries (attemptCache (cache_attempt id a t p)) = <[id := old ++ [a]]> (lru_entries (attemptCache p)).
Proof.
  intros Hl. unfold cache_attempt.
  pose proof (Get_entries t id (attemptCache p)) as G. pose proof (Get_keeps t id (attemptCache p)) as (K1 & K2 & _).
  destruct (lru_Get t id (attemptCache p)) as [o c] eqn:Eg. cbn [fst snd] in *.
  exists (default [] o). split.
  - destruct o as [l|]; [right; by apply G|by left].
  - pose proof (Add_new t id (default [] o ++ [a]) c) as A1.
    pose proof (Add_others t id (default [] o ++ [a]) c) as A2.
    pose proof (Add_full t id (default [] o ++ [a]) c) as A3.
    destruct (lru_Add t id _ c) as [ev c'] eqn:Ea. cbn [fst snd] in *. simpl.
    apply map_eq. intros k. destruct (decide (k = id)) as [->|N].
    + by rewrite lookup_insert_eq.
    + rewrite lookup_insert_ne by done. rewrite <- K1. destruct (A2 k N) as [|[-> _]]; [done|].
      destruct (A3 eq_refl) as [? _]. congruence.
Qed.

Lemma cache_attempt_keeps id a t p :
  retryQueue (cache_attempt id a t p) = retryQueue p /\
  lru_limit (attemptCache (cache_attempt id a t p)) = lru_limit (attemptCache p) /\
  lastPolledLedger (cache_attempt id a t p) = lastPolledLedger p.
Proof.
  unfold cache_attempt. pose proof (Get_keeps t id (attemptCache p)) as (_ & K & _).
  destruct (lru_Get _ _ _) as [o c]. pose proof (Add_keeps t id (default [] o ++ [a]) c) as [K' _].
  destruct (lru_Add _ _ _ _) as [? c']. simpl in *. split; [done|]. split; [congruence|done].
Qed.

(** Every action keeps the invariant. *)
Lemma shared_ok p p' : shared p p' -> poller_ok p -> poller_ok p'.
Proof.
  intros S [Hc Hu Hq Hl Hb Ht]. destruct S as [ev a t p F|id t p|task t p Hp|key p|c p E1 E2 E3].
  - destruct (cache_attempt_entries (MessageId ev) a t p Hu) as (old & Hold & E).
    destruct (cache_attempt_keeps (MessageId ev) a t p) as (Eq & El & _).
    split; rewrite ?Eq, ?El; try done. intros id attempts. rewrite E, lookup_insert_Some.
    intros [[<- <-]|[_ ?]]; [|by apply Hc]. apply Forall_app. split.
    + destruct Hold as [->|Hold]; [constructor|by apply (Hc _ _ Hold)].
    + constructor; [by exists ev|constructor].
  - destruct (Get_keeps t id (attemptCache p)) as (K1 & K2 & K3).
    split; simpl; rewrite ?K1, ?K2; done.
  - destruct (Add_keeps t (ec_TxHash (event task)) task (retryQueue p)) as [K1 K2].
    split; simpl; rewrite ?K1, ?K2; try done.
    + intros key task' E. destruct (decide (key = ec_TxHash (event task))) as [->|N].
      * rewrite Add_new in E. by injection E as <-.
      * destruct (Add_others t _ task (retryQueue p) key N) as [E'|[_ E']]; rewrite E' in E;
          [by apply Hq|done].
    + rewrite <- Hl. apply Add_limit; rewrite Hl; done.
  - destruct (Remove_entries key (retryQueue p)) as (K1 & K2 & K3).
    split; simpl; rewrite ?K1, ?K2, ?K3; try done.
    + intros k task [_ ?]%lookup_delete_Some. by apply Hq.
    + rewrite map_size_delete. destruct (lru_entries (retryQueue p) !! key); simpl; lia.
  - split; simpl; rewrite ?E2; try done. intros id attempts E. apply (Hc id). by eapply lookup_weaken.
Qed.

Lemma shared_rtc_ok p p' : rtc shared p p' -> poller_ok p -> poller_ok p'.
Proof. induction 1; [done|]. eauto using shared_ok. Qed.

(** ** The goroutines under every interleaving

    The program's own accesses and those of the other goroutines, or an update of
    the ledger counters. *)
Definition action (p p' : poller) : Prop :=
  shared p p' \/ attemptCache p' = attemptCache p /\ retryQueue p' = retryQueue p.

Lemma actions_ok p p' : rtc action p p' -> poller_ok p -> poller_ok p'.
Proof.
  induction 1 as [|p q r [S|[E1 E2]] _ IH]; [done|intros; by apply IH, (shared_ok p)|].
  intros [? ? ? ? ? ?]. apply IH. split; rewrite ?E1, ?E2; done.
Qed.

Lemma shared_actions p p' : rtc shared p p' -> rtc action p p'.
Proof. apply rtc_subrel. intros x y S. by left. Qed.

Section Interleaving.
Variable others : poller -> W -> poller * W.
Hypothesis others_shared : forall p w, poller_ok p -> rtc shared p (fst (others p w)).

(** From a state in the invariant, a run performs actions only, and its result
    satisfies [Q]. *)
Definition runs {A} (m : SM (poller * W) A) (Q : A -> Prop) : Prop :=
  forall p w, poller_ok p -> rtc action p (fst (snd (m (p, w)))) /\ Q (fst (m (p, w))).

Lemma runs_ret {A} (a : A) (Q : A -> Prop) : Q a -> runs (mret a) Q.
Proof. intros Ha p w _. by split. Qed.

Lemma runs_bind {A B} (m : SM (poller * W) A) (f : A -> SM (poller * W) B) Q R :
  runs m Q -> (forall a, Q a -> runs (f a) R) -> runs (m ≫= f) R.
Proof.
  intros Hm Hf p w Hp. rewrite SM_bind_run. destruct (Hm p w Hp) as [S Ha].
  destruct (m (p, w)) as [a [p1 w1]]. cbn [fst snd] in *.
  destruct (Hf a Ha p1 w1 (actions_ok _ _ S Hp)) as [S' HR].
  split; [by etrans|done].
Qed.

Lemma runs_rpc {A} (m : SM W A) : runs (rpc others m) (fun a => exists w, fst (m w) = a).
Proof.
  intros p w Hp. unfold rpc. destruct (m w) as [a w'] eqn:E. pose proof (others_shared p w' Hp) as S.
  split; [by apply shared_actions|]. exists w. by rewrite E.
Qed.

Lemma runs_yield : runs (yield_others others) (fun _ => True).
Proof. intros p w Hp. split; [|done]. by apply shared_actions, others_shared. Qed.

Lemma runs_modify f : (forall t p, action p (f t p)) -> runs (modify f) (fun _ => True).
Proof. intros Hf p w _. split; [|done]. apply rtc_once, Hf. Qed.

Lemma runs_get : runs get_poller poller_ok.
Proof. intros p w Hp. by split; [apply rtc_refl|]. Qed.
Lemma runs_now : runs now (fun _ => True).
Proof. intros p w _. by split; [apply rtc_refl|]. Qed.

Lemma runs_process ev : runs (processExecutionStateChanged others ev) (fun _ => True).
Proof.
  eapply runs_bind; [apply runs_rpc|]. intros resp [w E].
  destruct resp as [[[| | |st] env]|e]; try by apply runs_ret.
  destruct (extractInvokeContractArgs env) as [args|e] eqn:Ex; [|by apply runs_ret].
  destruct (decodeExecuteArgsToAttempt args) as [a|e|] eqn:Ed; try by apply runs_ret.
  unfold MustMessageID. destruct (MessageID (report_Message (Report a))) as [id|e] eqn:Em; [|by apply runs_ret].
  destruct (decide (MessageId ev = id)) as [<-|]; [|by apply runs_ret].
  eapply runs_bind; [apply runs_yield|]. intros _ _.
  eapply runs_bind; [apply runs_modify|intros; by apply runs_ret].
  intros t p. left. apply shared_cache. by exists w, env, args.
Qed.

Lemma runs_enqueue task : pending task -> runs (enqueueRetry others task) (fun _ => True).
Proof.
  intros Hp. eapply runs_bind; [apply runs_yield|]. intros _ _. apply runs_modify.
  intros t p. left. by apply shared_retry.
Qed.

Lemma runs_process_events events : runs (process_events others events) (fun _ => True).
Proof.
  induction events as [|e events IH]; [by apply runs_ret|]. simpl.
  destruct (ParseExecutionStateChangedEvent e) as [ev|err|]; [|done|by apply runs_ret].
  eapply runs_bind; [apply runs_process|]. intros [| |] _; [done| |by apply runs_ret].
  eapply runs_bind; [by apply runs_enqueue|done].
Qed.

Lemma action_ledger f : (forall p, attemptCache (f p) = attemptCache p /\ retryQueue (f p) = retryQueue p) ->
  forall (t : Z) p, action p (f p).
Proof. intros Hf t p. right. apply Hf. Qed.

Lemma runs_pollForEvents fuel : runs (pollForEvents others fuel) (fun _ => True).
Proof.
  eapply runs_bind; [apply runs_rpc|]. intros [to|e] _; [|by apply runs_ret].
  eapply runs_bind; [apply runs_get|]. intros p _.
  destruct (to <=? lastPolledLedger p); [by apply runs_ret|].
  eapply runs_bind; [apply runs_rpc|]. intros [[events|e]|] _; [|by apply runs_ret..].
  eapply runs_bind; [apply runs_process_events|]. intros [| |] _; [|by apply runs_ret..].
  eapply runs_bind; [apply runs_modify, action_ledger; by intros []|intros; by apply runs_ret].
Qed.

Lemma runs_runBackfill fuel : runs (runBackfill others fuel) (fun _ => True).
Proof.
  eapply runs_bind; [apply runs_modify, action_ledger; by intros []|intros _ _].
  eapply runs_bind; [apply runs_pollForEvents|]. intros; by apply runs_ret.
Qed.

Lemma runs_Start fuel : runs (Start others fuel) (fun _ => True).
Proof.
  eapply runs_bind with (Q := fun _ => True).
  - eapply runs_bind; [apply runs_rpc|]. intros [l|e] _; [|by apply runs_ret].
    eapply runs_bind; [apply runs_get|]. intros p _.
    eapply runs_bind; [apply runs_modify, action_ledger; by intros []|intros; by apply runs_ret].
  - intros [|e] _; [|by apply runs_ret]. eapply runs_bind; [apply runs_runBackfill|].
    intros [[| |]|] _; try by apply runs_ret.
    eapply runs_bind; [apply runs_modify, action_ledger; by intros []|intros; by apply runs_ret].
Qed.

Lemma runs_retry_one key : runs (retry_one others key) (fun _ => True).
Proof.
  eapply runs_bind; [apply runs_yield|]. intros _ _.
  eapply runs_bind; [apply runs_now|]. intros t _. eapply runs_bind; [apply runs_get|]. intros p Hp.
  destruct (lru_Peek t key (retryQueue p)) as [task|] eqn:Ek; [|by apply runs_ret].
  apply Peek_entries, (ok_queue _ Hp) in Ek as [_ Hr]. unfold pending in Hr.
  eapply runs_bind; [apply runs_yield|]. intros _ _.
  eapply runs_bind; [apply runs_modify; intros ? q; left; apply shared_remove|]. intros _ _.
  eapply runs_bind; [apply runs_process|]. intros [|e|] _; [by apply runs_ret| |by apply runs_ret].
  cbn [retries event]. destruct (Z.geb_spec (retries task + 1) maxEventProcessRetries); [by apply runs_ret|].
  eapply runs_bind; [apply runs_enqueue; unfold pending; simpl; lia|]. intros; by apply runs_ret.
Qed.

Lemma runs_processRetries : runs (processRetries others) (fun _ => True).
Proof.
  eapply runs_bind; [apply runs_now|]. intros t _. eapply runs_bind; [apply runs_get|]. intros p _.
  induction (lru_Keys t (retryQueue p)) as [|key keys IH]; [by apply runs_ret|]. simpl.
  eapply runs_bind; [apply runs_retry_one|]. intros [| |] _; [done|by apply runs_ret..].
Qed.

Lemma runs_GetExecutionAttempts m : runs (GetExecutionAttempts m) (fun _ => True).
Proof.
  unfold GetExecutionAttempts. destruct (MessageID m) as [id|e]; [|by apply runs_ret].
  intros p w Hp. rewrite SM_bind_run. cbn [now fst snd]. rewrite SM_bind_run. cbn [get_poller fst snd].
  pose proof (shared_get id (pl_now w) p) as S. destruct (lru_Get _ _ _) as [o c].
  split; [|done]. cbn in S |- *. apply rtc_once. by left.
Qed.

End Interleaving.

(** The methods of the poller. *)
Inductive operation (others : poller -> W -> poller * W) : (poller * W -> poller * W) -> Prop :=
| op_Start fuel : operation others (fun s => snd (Start others fuel s))
| op_poll fuel : operation others (fun s => snd (pollForEvents others fuel s))
| op_retries : operation others (fun s => snd (processRetries others s))
| op_read m : operation others (fun s => snd (GetExecutionAttempts m s)).

(** The states of a poller: it is created, its methods run while the other
    goroutines act on the caches, and entries expire. *)
Inductive reachable : poller -> Prop :=
| reach_new c l id ttl p : NewStellarExecutionAttemptPoller c l id ttl = Ok p -> reachable p
| reach_operation others op p w :
    (forall p w, poller_ok p -> rtc shared p (fst (others p w))) ->
    operation others op -> reachable p -> reachable (fst (op (p, w)))
| reach_shared p p' : reachable p -> shared p p' -> reachable p'.

Lemma reachable_ok p : reachable p -> poller_ok p.
Proof.
  induction 1 as [c l id ttl p E|others op p w Ho Op _ IH|p p' _ IH S]; [by eapply new_poller_ok| |].
  - refine (actions_ok p _ _ IH). destruct Op as [fuel|fuel| |m].
    + by apply (runs_Start others Ho fuel).
    + by apply (runs_pollForEvents others Ho fuel).
    + by apply (runs_processRetries others Ho).
    + by apply (runs_GetExecutionAttempts m).
  - by eapply shared_ok.
Qed.

(** Property C21: the attempts a reader gets are authentic.  In every state reached by
    the interleaved goroutines, each attempt [GetExecutionAttempts] answers for a
    message carries a message of the same id and was decoded from the call of a
    transaction that the node reported successful for an event of that id. *)
Theorem attempts_authentic p w m id l :
  reachable p -> MessageID m = Ok id ->
  fst (GetExecutionAttempts m (p, w)) = Ok (Some l) ->
  Forall (fun a => MessageID (report_Message (Report a)) = Ok id /\
                   exists ev, MessageId ev = id /\ fetched ev a) l.
Proof.
  intros Hp Hm. unfold GetExecutionAttempts. rewrite Hm, SM_bind_run. cbn [now fst snd].
  rewrite SM_bind_run. cbn [get_poller fst snd].
  pose proof (Get_entries (pl_now w) id (attemptCache p)) as G.
  destruct (lru_Get _ _ _) as [o c]. cbn. intros [= ->]. specialize (G l eq_refl).
  refine (list.Forall_impl _ _ _ (ok_cache _ (reachable_ok _ Hp) _ _ G) _).
  intros a (ev & <- & F). split; [|by exists ev]. by destruct F as (? & ? & ? & _ & _ & _ & ?).
Qed.

(** The retry queue stays bounded and so do the retries.  In every
    reachable state at most 64 tasks are pending, each under its own transaction,
    and each has been retried at most twice and will be retried at most once more
    for every failure left below three. *)
Theorem retry_queue_bounded p :
  reachable p ->
  (size (lru_entries (retryQueue p)) <= 64)%nat /\
  forall key task, lru_entries (retryQueue p) !! key = Some task ->
    key = ec_TxHash (event task) /\ 0 <= retries task <= 2.
Proof.
  intros Hp%reachable_ok. split; [apply Hp|]. intros key task [-> Hr]%(ok_queue _ Hp).
  split; [done|]. unfold pending, maxEventProcessRetries in Hr. lia.
Qed.

(** ** A poll and a retry tick on their own *)

Definition alone (p : poller) (w : W) : poller * W := (p, w).

Definition cached (ev : ExecutionStateChangedEvent) (p : poller) : Prop :=
  is_Some (lru_entries (attemptCache p) !! MessageId ev).
Definition queued (ev : ExecutionStateChangedEvent) (p : poller) : Prop :=
  is_Some (lru_entries (retryQueue p) !! ec_TxHash ev).

Lemma rpc_alone {A} (m : SM W A) p w : rpc alone m (p, w) = (fst (m w), (p, snd (m w))).
Proof. unfold rpc. by destruct (m w). Qed.

Lemma process_alone ev p w :
  let '(r, (p', _)) := processExecutionStateChanged alone ev (p, w) in
  match r with
  | Returns _ => exists a t, fetched ev a /\ p' = cache_attempt (MessageId ev) a t p
  | _ => p' = p
  end.
Proof.
  unfold processExecutionStateChanged. rewrite SM_bind_run, rpc_alone.
  pose proof (eq_refl (fst (pl_GetTransaction (ec_TxHash ev) w))) as E.
  destruct (pl_GetTransaction (ec_TxHash ev) w) as [resp w'] eqn:Ew. cbn [fst snd alone] in *.
  destruct resp as [[[| | |st] env]|e]; try done.
  destruct (extractInvokeContractArgs env) as [args|] eqn:Ex; [|done].
  destruct (decodeExecuteArgsToAttempt args) as [a| |] eqn:Ed; [|done..].
  unfold MustMessageID. destruct (MessageID (report_Message (Report a))) as [id|] eqn:Em; [|done].
  destruct (decide (MessageId ev = id)) as [<-|]; [|done].
  rewrite SM_bind_run. cbn [yield_others alone fst snd]. rewrite SM_bind_run. cbn.
  exists a, (pl_now w'). split; [|done]. exists w, env, args. by rewrite Ew.
Qed.

Lemma cached_cache_attempt ev id a t p :
  lru_limit (attemptCache p) = 0%nat -> cached ev p -> cached ev (cache_attempt id a t p).
Proof.
  intros Hl Hc. destruct (cache_attempt_entries id a t p Hl) as (old & _ & E). unfold cached. rewrite E.
  destruct (decide (MessageId ev = id)) as [->|]; [by rewrite lookup_insert_eq|].
  by rewrite lookup_insert_ne.
Qed.

Lemma cached_new ev a t p :
  lru_limit (attemptCache p) = 0%nat -> cached ev (cache_attempt (MessageId ev) a t p).
Proof.
  intros Hl. destruct (cache_attempt_entries (MessageId ev) a t p Hl) as (old & _ & E).
  unfold cached. by rewrite E, lookup_insert_eq.
Qed.

(** Adding to a queue that is not full. *)
Lemma add_retry_room task t p :
  (size (lru_entries (retryQueue p)) < lru_limit (retryQueue p))%nat ->
  lru_entries (retryQueue (add_retry task t p))
  = <[ec_TxHash (event task) := task]> (lru_entries (retryQueue p)).
Proof.
  intros Hl. simpl. apply map_eq. intros k. destruct (decide (k = ec_TxHash (event task))) as [->|N].
  - by rewrite Add_new, lookup_insert_eq.
  - rewrite lookup_insert_ne by done.
    destruct (Add_others t _ task (retryQueue p) k N) as [|[F _]]; [done|].
    apply Add_full in F. lia.
Qed.

(** What processing a list of events leaves: nothing is forgotten while the queue has
    room for all of them, and the counters are not touched. *)
Definition room (n : nat) (p : poller) : Prop :=
  (size (lru_entries (retryQueue p)) + n <= lru_limit (retryQueue p))%nat.

Definition kept (p p' : poller) : Prop :=
  lastPolledLedger p' = lastPolledLedger p /\
  lru_limit (attemptCache p') = lru_limit (attemptCache p) /\
  lru_limit (retryQueue p') = lru_limit (retryQueue p) /\
  forall ev, cached ev p -> cached ev p'.

Lemma kept_trans p q r : kept p q -> kept q r -> kept p r.
Proof. intros (? & ? & ? & ?) (? & ? & ? & ?). split_and!; try congruence. auto. Qed.

Lemma kept_refl p : kept p p.
Proof. by split_and!. Qed.

Lemma kept_cache id a t p : lru_limit (attemptCache p) = 0%nat -> kept p (cache_attempt id a t p).
Proof.
  intros Hl. destruct (cache_attempt_keeps id a t p) as (Eq & ? & ?). unfold kept. rewrite Eq.
  split_and!; try done. intros ev. by apply cached_cache_attempt.
Qed.

Lemma kept_retry task t p : kept p (add_retry task t p).
Proof. destruct (Add_keeps t (ec_TxHash (event task)) task (retryQueue p)) as [K _]. by split_and!. Qed.

Lemma size_insert_le {K V} `{Countable K} (k : K) (v : V) (m : gmap K V) : (size (<[k := v]> m) <= S (size m))%nat.
Proof. rewrite map_size_insert. destruct (m !! k); simpl; lia. Qed.

Lemma process_events_alone events p w :
  lru_limit (attemptCache p) = 0%nat ->
  let '(r, (p', _)) := process_events alone events (p, w) in
  (forall e, r <> Errs e) /\ kept p p' /\
  (room (length events) p -> (forall ev, queued ev p -> queued ev p') /\
     (is_done r = true -> Forall (fun e => forall ev, ParseExecutionStateChangedEvent e = Returns ev ->
        cached ev p' \/ queued ev p') events)).
Proof.
  revert p w; induction events as [|e events IH]; intros p w Hl; simpl.
  { split; [done|]. split; [apply kept_refl|]. by split. }
  destruct (ParseExecutionStateChangedEvent e) as [ev|err|] eqn:Ep.
  2: { specialize (IH p w Hl). destruct (process_events alone events (p, w)) as [r [p' w']].
       destruct IH as (NE & K & IH). split; [done|]. split; [done|]. intros Hr. destruct IH as [Q F]; [unfold room in *; lia|].
       split; [done|]. intros Hd. constructor; [congruence|auto]. }
  2: { split; [done|]. split; [apply kept_refl|]. by split. }
  rewrite SM_bind_run. pose proof (process_alone ev p w) as P.
  destruct (processExecutionStateChanged alone ev (p, w)) as [r1 [p1 w1]]. cbn [fst snd].
  destruct r1 as [u|err|].
  - destruct P as (a & t & _ & ->). set (p1 := cache_attempt _ _ _ _).
    pose proof (kept_cache (MessageId ev) a t p Hl) as K1. fold p1 in K1.
    assert (Hl1 : lru_limit (attemptCache p1) = 0%nat) by (destruct K1 as (_ & -> & _); done).
    assert (Eq : retryQueue p1 = retryQueue p) by apply (cache_attempt_keeps (MessageId ev) a t p).
    specialize (IH p1 w1 Hl1). destruct (process_events alone events (p1, w1)) as [r [p' w']].
    destruct IH as (NE & K & IH). split; [done|]. split; [by eapply kept_trans|]. intros Hr.
    destruct IH as [Q F]; [unfold room in *; rewrite Eq; lia|]. unfold queued in Q. rewrite Eq in Q.
    split; [done|]. intros Hd. constructor; [|auto]. rewrite Ep. intros ? [= <-]. left.
    by apply K, cached_new.
  - subst p1. rewrite SM_bind_run. unfold enqueueRetry. rewrite SM_bind_run. cbn [yield_others alone fst snd modify].
    set (task := mkRetryTask ev 0). set (p1 := add_retry task (pl_now w1) p).
    pose proof (kept_retry task (pl_now w1) p) as K1. fold p1 in K1.
    assert (Hl1 : lru_limit (attemptCache p1) = 0%nat) by (destruct K1 as (_ & -> & _); done).
    specialize (IH p1 w1 Hl1). destruct (process_events alone events (p1, w1)) as [r [p' w']].
    destruct IH as (NE & K & IH). split; [done|]. split; [by eapply kept_trans|]. intros Hr. unfold room in *. simpl in Hr.
    pose proof (add_retry_room task (pl_now w1) p ltac:(lia)) as E. fold p1 in E.
    destruct K1 as (_ & _ & EL & _).
    destruct IH as [Q F].
    { rewrite E, EL. pose proof (size_insert_le (ec_TxHash ev) task (lru_entries (retryQueue p))). simpl. lia. }
    unfold queued in *. setoid_rewrite E in Q. split.
    + intros ev' Hq. apply Q. simpl. destruct (decide (ec_TxHash ev' = ec_TxHash ev)) as [->|N];
        [by rewrite lookup_insert_eq|by rewrite lookup_insert_ne].
    + intros Hd. constructor; [|auto]. rewrite Ep. intros ? [= <-]. right. apply Q. simpl.
      by rewrite lookup_insert_eq.
  - subst p1. split; [done|]. split; [apply kept_refl|]. by split.
Qed.


(** What a retry tick may do to a task: nothing when there is none; otherwise it is
    taken out, for good when an attempt has been cached or its retries are
    exhausted, and back with one more retry otherwise. *)
Definition retried (p' : poller) (old new : option retryTask) : Prop :=
  match old with
  | None => new = None
  | Some task =>
      (new = None /\ (cached (event task) p' \/ retries task + 1 = maxEventProcessRetries)) \/
      (new = Some (mkRetryTask (event task) (retries task + 1)) /\ retries task + 1 < maxEventProcessRetries)
  end.

Lemma retry_one_eq key p w :
  poller_ok p ->
  retry_one alone key (p, w) =
  match lru_entries (retryQueue p) !! key with
  | None => (Returns tt, (p, w))
  | Some task =>
      let '(r, (p2, w2)) :=
        processExecutionStateChanged alone (event task) (set_retryQueue (lru_Remove key (retryQueue p)) p, w) in
      match r with
      | Panics => (Panics, (p2, w2))
      | Returns _ => (Returns tt, (p2, w2))
      | Errs _ =>
          if retries task + 1 >=? maxEventProcessRetries then (Returns tt, (p2, w2))
          else (Returns tt, (add_retry (mkRetryTask (event task) (retries task + 1)) (pl_now w2) p2, w2))
      end
  end.
Proof.
  intros Hp. unfold retry_one. rewrite SM_bind_run. cbn [yield_others alone fst snd].
  rewrite SM_bind_run. cbn [now fst snd]. rewrite SM_bind_run. cbn [get_poller fst snd].
  pose proof (Peek_all (pl_now w) key (retryQueue p) (ok_ttl _ Hp)) as K. rewrite <- K.
  unfold alone. cbn [fst snd]. destruct (lru_Peek (pl_now w) key (retryQueue p)) as [task|]; [|done].
  rewrite SM_bind_run. cbn [yield_others fst snd]. rewrite SM_bind_run. cbn [modify fst snd].
  rewrite SM_bind_run.
  destruct (processExecutionStateChanged _ (event task) _) as [r [p2 w2]]. cbn [fst snd].
  destruct r as [u|e|]; [done| |done]. cbn [retries event].
  destruct (retries task + 1 >=? maxEventProcessRetries); [done|].
  rewrite SM_bind_run. unfold enqueueRetry. rewrite SM_bind_run. done.
Qed.

Lemma retry_one_alone key p w :
  poller_ok p ->
  let '(r, (p', _)) := retry_one alone key (p, w) in
  is_done r = true ->
  retried p' (lru_entries (retryQueue p) !! key) (lru_entries (retryQueue p') !! key) /\
  (forall k, k <> key -> lru_entries (retryQueue p') !! k = lru_entries (retryQueue p) !! k) /\
  poller_ok p' /\ forall ev, cached ev p -> cached ev p'.
Proof.
  intros Hp. pose proof (runs_retry_one alone (fun p w _ => rtc_refl _ _) key p w Hp) as [A _].
  apply actions_ok in A; [|done]. rewrite retry_one_eq in A |- * by done.
  destruct (lru_entries (retryQueue p) !! key) as [task|] eqn:Ek; [|by rewrite Ek].
  destruct (ok_queue _ Hp _ _ Ek) as [-> Hr]. unfold pending in Hr.
  set (key := ec_TxHash (event task)) in *.
  set (p1 := set_retryQueue (lru_Remove key (retryQueue p)) p) in *.
  destruct (Remove_entries key (retryQueue p)) as (K1 & K2 & _).
  change (lru_Remove key (retryQueue p)) with (retryQueue p1) in K1, K2.
  assert (Hl1 : lru_limit (attemptCache p1) = 0%nat) by apply Hp.
  pose proof (process_alone (event task) p1 w) as P.
  destruct (processExecutionStateChanged alone (event task) (p1, w)) as [r [p2 w2]].
  destruct r as [u|e|]; [| |done].
  - destruct P as (a & t & _ & ->). cbn [fst snd] in A. intros _.
    destruct (cache_attempt_keeps (MessageId (event task)) a t p1) as (Eq & _). rewrite Eq, K1.
    split; [|split; [|split; [done|]]].
    + left. split; [apply lookup_delete_eq|left; by apply cached_new].
    + intros k N. by apply lookup_delete_ne.
    + intros ev Hc. by apply cached_cache_attempt.
  - subst p2. destruct (Z.geb_spec (retries task + 1) maxEventProcessRetries) as [Hge|Hlt];
      cbn [fst snd] in A; intros _.
    + rewrite K1. split; [|split; [|done]].
      * left. split; [apply lookup_delete_eq|right; lia].
      * intros k N. by apply lookup_delete_ne.
    + set (task' := mkRetryTask _ _) in *.
      assert (Hroom : (size (lru_entries (retryQueue p1)) < lru_limit (retryQueue p1))%nat).
      { rewrite K1, K2, map_size_delete, Ek, (ok_limit _ Hp). pose proof (ok_bound _ Hp).
        unfold defaultRetryQueueLimit in *. simpl. lia. }
      rewrite (add_retry_room task' (pl_now w2) p1 Hroom), K1. fold key. change (ec_TxHash (event task')) with key.
      rewrite insert_delete_eq, lookup_insert_eq. split; [|split; [|done]].
      * right. by split.
      * intros k N. by apply lookup_insert_ne.
Qed.

Lemma retry_keys_alone keys p w :
  poller_ok p -> NoDup keys ->
  let '(r, (p', _)) := retry_keys alone keys (p, w) in
  is_done r = true ->
  (forall k, if decide (k ∈ keys)
             then retried p' (lru_entries (retryQueue p) !! k) (lru_entries (retryQueue p') !! k)
             else lru_entries (retryQueue p') !! k = lru_entries (retryQueue p) !! k) /\
  poller_ok p' /\ forall ev, cached ev p -> cached ev p'.
Proof.
  intros Hp Hn. revert p w Hp; induction Hn as [|key keys Hni _ IH]; intros p w Hp; cbn [retry_keys].
  { intros _. split; [|done]. intros k. case_decide as D; [inversion D|done]. }
  rewrite SM_bind_run. pose proof (retry_one_alone key p w Hp) as R.
  destruct (retry_one alone key (p, w)) as [r1 [p1 w1]]. cbn [fst snd].
  destruct r1 as [u|e|]; [|done..]. destruct (R eq_refl) as (R1 & R2 & Hp1 & C1).
  specialize (IH p1 w1 Hp1). destruct (retry_keys alone keys (p1, w1)) as [r [p' w']].
  intros Hd. destruct (IH Hd) as (R' & Hp' & C'). split; [|split; [done|auto]].
  intros k. specialize (R' k). destruct (decide (k = key)) as [->|N].
  - rewrite decide_True by constructor. rewrite decide_False in R' by done. rewrite R'.
    unfold retried in *. destruct (lru_entries (retryQueue p) !! key); [|done].
    destruct R1 as [[? [?|?]]|?]; auto.
  - destruct (decide (k ∈ keys)); [rewrite decide_True by (by constructor)|
      rewrite decide_False by (by intros D; inversion D; subst)]; by rewrite <- (R2 k N).
Qed.

Lemma processRetries_alone p w :
  poller_ok p ->
  let '(r, (p', _)) := processRetries alone (p, w) in
  is_done r = true ->
  (forall key, retried p' (lru_entries (retryQueue p) !! key) (lru_entries (retryQueue p') !! key)) /\
  poller_ok p' /\ forall ev, cached ev p -> cached ev p'.
Proof.
  intros Hp. unfold processRetries. rewrite SM_bind_run. cbn [now fst snd].
  rewrite SM_bind_run. cbn [get_poller fst snd].
  pose proof (retry_keys_alone (lru_Keys (pl_now w) (retryQueue p)) p w Hp (Keys_NoDup _ _)) as R.
  destruct (retry_keys alone _ (p, w)) as [r [p' w']]. intros Hd. destruct (R Hd) as (R1 & R2).
  split; [|done]. intros key. specialize (R1 key). case_decide as D; [done|].
  rewrite Keys_entries in D by apply Hp. apply eq_None_not_Some in D. by rewrite R1, D.
Qed.

(** [n] retry ticks, as long as none panics. *)
Fixpoint ticks (n : nat) (s : poller * W) : option (poller * W) :=
  match n with
  | O => Some s
  | S n' => let '(r, s') := processRetries alone s in if is_done r then ticks n' s' else None
  end.

Lemma ticks_retries n m p w p' w' :
  poller_ok p -> ticks n (p, w) = Some (p', w') ->
  (forall key task, lru_entries (retryQueue p) !! key = Some task -> m <= retries task) ->
  poller_ok p' /\ (forall ev, cached ev p -> cached ev p') /\
  forall key task, lru_entries (retryQueue p') !! key = Some task -> m + Z.of_nat n <= retries task.
Proof.
  revert m p w; induction n as [|n IH]; intros m p w Hp.
  { cbn. intros [= <- <-] Hm. split; [done|]. split; [done|]. intros key task E.
    specialize (Hm _ _ E). lia. }
  cbn [ticks]. pose proof (processRetries_alone p w Hp) as S.
  destruct (processRetries alone (p, w)) as [r [p1 w1]]. destruct (is_done r); [|done].
  destruct (S eq_refl) as (R & Hp1 & C). intros Ht Hm.
  destruct (IH (m + 1) p1 w1 Hp1 Ht) as (? & C' & ?).
  - intros key task E. specialize (R key). rewrite E in R. unfold retried in R.
    destruct (lru_entries (retryQueue p) !! key) as [old|] eqn:Eo; [|done].
    destruct R as [[? _]|[[= ->] _]]; [done|]. simpl. specialize (Hm _ _ Eo). lia.
  - split; [done|]. split; [auto|]. rewrite Nat2Z.inj_succ. intros key task E.
    replace (m + Z.succ (Z.of_nat n)) with (m + 1 + Z.of_nat n) by lia. eauto.
Qed.


End Poller.

(** ** Witnesses

    A new poller polls the node of DemoCache.v. *)

#[local] Existing Instances node_protocol node_codec node_envelopes node_cursors node_events node_client.

Definition demo_poller : StellarExecutionAttemptPoller :=
  mkPoller "CAAA" (NewLRU 0 60) (NewLRU defaultRetryQueueLimit 0) 0 0 60.
Definition demo_polled : StellarExecutionAttemptPoller :=
  fst (snd (pollForEvents (fun p w => (p, w)) 2 (demo_poller, tt))).

Lemma demo_poller_new : NewStellarExecutionAttemptPoller true true "CAAA" 60 = Ok demo_poller.
Proof. reflexivity. Qed.

Lemma demo_polled_reachable : reachable demo_polled.
Proof.
  refine (reach_operation _ _ demo_poller tt _ (op_poll _ 2) (reach_new _ _ _ _ _ demo_poller_new)).
  intros p w _. apply rtc_refl.
Qed.

Definition demo_attempt : ExecutionAttempt :=
  mkExecutionAttempt (mkReport [demo_key] [[1; 2; 3]] [42]) 0.

Lemma attempts_authentic_witness :
  Forall (fun a => MessageID (report_Message (Report a)) = Ok (demo_id [42]) /\
                   exists ev, MessageId ev = demo_id [42] /\ fetched ev a) [demo_attempt].
Proof.
  apply (attempts_authentic demo_polled tt [42]).
  - exact demo_polled_reachable.
  - reflexivity.
  - vm_compute. reflexivity.
Defined.

Lemma retry_queue_bounded_witness : (size (lru_entries (retryQueue demo_polled)) <= 64)%nat.
Proof. exact (proj1 (retry_queue_bounded demo_polled demo_polled_reachable)). Defined.


(** A poller with a task for a transaction the node does not know. *)
Definition demo_task : retryTask :=
  mkRetryTask (mkExecutionStateChangedEvent 0 0 (demo_id [42]) 0 [] 10 "t2") 0.
Definition demo_pending : StellarExecutionAttemptPoller := add_retry demo_task 0 demo_poller.

Lemma demo_pending_ok : poller_ok demo_pending.
Proof.
  refine (shared_ok _ _ (shared_retry demo_task 0 demo_poller _) (new_poller_ok _ _ _ _ _ demo_poller_new)).
  split; vm_compute; congruence.
Qed.


Lemma event_field_total k v r : decoded v = true -> exists r', event_field k v r = Returns r'.
Proof.
  intros Hv. unfold event_field. destruct r as [sel seq mid st rd lg tx].
  repeat match goal with |- context [if ?b then _ else _] => destruct b end; try (by eexists);
    rewrite ?on_value_ok, ?if_ok_returns;
    auto using GetBytes_decoded, Uint64FromScVal_decoded, Bytes32FromScVal_decoded; try (by eexists).
  destruct (GetU32_decoded v Hv) as [o E]. apply need_decoded. by rewrite E.
Qed.

(** The components of an event that has been read from the entries [m]. *)
Definition event_of (m : list (ScMapEntry ScVal)) (ledger : Z) (txHash : string) : ExecutionStateChangedEvent :=
  mkExecutionStateChangedEvent
    (last_field (fun v => ok_of (Uint64FromScVal v)) "source_chain_selector" m 0)
    (last_field (fun v => ok_of (Uint64FromScVal v)) "sequence_number" m 0)
    (last_field (fun v => ok_of (Bytes32FromScVal v)) "message_id" m (replicate 32 0))
    (last_field (fun v => ok_of (MessageExecutionStateFromScVal v)) "state" m 0)
    (last_field (fun v => ok_opt (GetBytes v)) "return_data" m [])
    ledger txHash.

Lemma fold_event_fields m ledger tx r :
  Forall (fun e => decoded_entry e = true) m ->
  fold_symbols event_field m (mkExecutionStateChangedEvent 0 0 (replicate 32 0) 0 [] ledger tx) = Returns r ->
  r = event_of m ledger tx.
Proof.
  intros Hm Hr.
  assert (L : forall A (proj : ExecutionStateChangedEvent -> A) dec key,
    (forall k v r r', decoded v = true -> event_field k v r = Returns r' ->
       proj r' = if String.eqb k key then match dec v with Some a => a | None => proj r end else proj r) ->
    proj r = last_field dec key m (proj (mkExecutionStateChangedEvent 0 0 (replicate 32 0) 0 [] ledger tx)))
    by (intros A proj dec key Hf; exact (fold_symbols_last event_field proj dec key m Hf Hm _ _ Hr)).
  pose proof (L _ SourceChainSelector (fun v => ok_of (Uint64FromScVal v)) "source_chain_selector" ltac:(unfold event_field; field_case)) as E1.
  pose proof (L _ SequenceNumber (fun v => ok_of (Uint64FromScVal v)) "sequence_number" ltac:(unfold event_field; field_case)) as E2.
  pose proof (L _ MessageId (fun v => ok_of (Bytes32FromScVal v)) "message_id" ltac:(unfold event_field; field_case)) as E3.
  pose proof (L _ State (fun v => ok_of (MessageExecutionStateFromScVal v)) "state" ltac:(unfold event_field; field_case)) as E4.
  pose proof (L _ ReturnData (fun v => ok_opt (GetBytes v)) "return_data" ltac:(unfold event_field; field_case)) as E5.
  pose proof (L _ ec_Ledger (fun _ => None) "" ltac:(unfold event_field; field_case)) as E6.
  pose proof (L _ ec_TxHash (fun _ => None) "" ltac:(unfold event_field; field_case)) as E7.
  rewrite last_field_none in E6. rewrite last_field_none in E7. destruct r as [a b c d e f g].
  cbn [SourceChainSelector SequenceNumber MessageId State ReturnData ec_Ledger ec_TxHash] in *. by subst.
Qed.

Section Parse.
Context `{Codec}.

(** [ParseExecutionStateChangedEvent] reads each field of an event on
    its own.  On a value the XDR decoder produces it never panics: a value that is
    not a map is refused; from a map, every field is the last entry under its name
    that has the field's type (zero if there is none), whatever the order of the
    entries and whatever else the map holds, and the ledger and the transaction are
    those of the RPC's event. *)
Theorem ParseExecutionStateChangedEvent_spec e v :
  ScVal_UnmarshalBase64 (ev_ValueXDR e) = Ok v -> decoded v = true ->
  match v with
  | ScvMap (Some (Some m)) =>
      ParseExecutionStateChangedEvent e
      = Returns (event_of m (u32 (ev_Ledger e)) (ev_TransactionHash e))
  | _ => exists err, ParseExecutionStateChangedEvent e = Errs err
  end.
Proof.
  intros Ev Hv. unfold ParseExecutionStateChangedEvent. rewrite Ev.
  destruct v as [| | | | | | | | | | | | | | | | |[[m|]|]| | | | |]; try done; try (by eexists).
  apply decoded_map_entries in Hv.
  destruct (fold_symbols_returns event_field m event_field_total Hv
    (mkExecutionStateChangedEvent 0 0 (replicate 32 0) 0 [] (u32 (ev_Ledger e)) (ev_TransactionHash e)))
    as [r Er].
  pose proof (fold_event_fields _ _ _ _ Hv Er) as E. rewrite E in Er. exact Er.
Qed.

End Parse.

#[local] Existing Instance node_codec.

Lemma ParseExecutionStateChangedEvent_spec_witness :
  ParseExecutionStateChangedEvent node_event
  = Returns (mkExecutionStateChangedEvent 0 7 (demo_id [42]) 0 [] 10 "t1").
Proof. exact (ParseExecutionStateChangedEvent_spec node_event node_event_value eq_refl eq_refl). Defined.
