(* ===== verification/DestinationReader.v ===== *)
(** * Reading execution state and CCVs from the OffRamp

    Models ccv/destination_reader/destination_reader.go, with the view calls of the
    generated clients it makes (bindings/contracts/offramp/client.go and
    bindings/contracts/rmn_remote/client.go); its poller is AttemptPoller.v. *)

From S2P Require Import Prelude Sdk GoBytes Xdr DemoCodec Scval ScvalProofs TypeConverters TypeConvertersProofs EventPages Transmitter AttemptPoller.

Section DestinationReader.
Context `{Codec} `{CcvProtocol} {W : Type} `{Invoker W}.

Record DestinationReader := mkDestinationReader {
  offRampContractID : string;
  rmnRemoteAddress : string
}.

Definition NewDestinationReader (have_invoker have_rpc : bool) (offRampContractID rmnRemoteContractID : string)
    (have_lggr : bool) : res DestinationReader :=
  if negb have_invoker then Err (ErrorString "invoker is required")
  else if negb have_rpc then Err (ErrorString "rpc client is required")
  else if String.eqb offRampContractID "" then Err (ErrorString "offramp contract ID is required")
  else if String.eqb rmnRemoteContractID "" then Err (ErrorString "rmn remote contract ID is required")
  else if negb have_lggr then Err (ErrorString "logger is required")
  else Ok (mkDestinationReader offRampContractID rmnRemoteContractID).

(** ** The generated clients' views *)

(** [result, err := SimulateContract(...)], then the checks every view starts with
    and the decoding of the value. *)
Definition view {A} (contract function : string) (args : list ScVal) (decode : ScVal -> outcome A)
    : SM W (outcome A) :=
  r ← inv_SimulateContract contract function args;
  mret match r with
       | Panics => Panics
       | Errs e => Errs (Wrapf ("failed to call " +:+ function +:+ ": ") e)
       | Returns None => Errs (ErrorString ("no return value from " +:+ function))
       | Returns (Some v) => decode v
       end.

Definition need_vec (v : ScVal) (msg : string) : outcome (list ScVal) :=
  vec ← need (GetVec v) msg;
  match vec with None => Errs (ErrorString msg) | Some l => Returns l end.

Definition MessageExecutionStateSuccess : Z := 2.

Definition GetExecutionState (contractID : string) (messageId : bytes) : SM W (outcome Z) :=
  view contractID "get_execution_state" [Bytes32ToScVal messageId] MessageExecutionStateFromScVal.

Definition ccvs_decode (result : ScVal) : outcome (list string * list string * Z) :=
  vec ← need_vec result "expected vec for tuple return";
  match vec with
  | [a; b; c] =>
      v0Vec ← need_vec a "tuple[0]: expected vec";
      v0 ← mapM_out (fun item => wrap_out "tuple[0]: " (AddressFromScVal item)) v0Vec;
      v1Vec ← need_vec b "tuple[1]: expected vec";
      v1 ← mapM_out (fun item => wrap_out "tuple[1]: " (AddressFromScVal item)) v1Vec;
      v2 ← need (GetU32 c) "tuple[2]: expected u32";
      Returns (v0, v1, v2)
  | _ => Errs (ErrorString "expected 3 elements")
  end.

Definition GetCcvsForMessage (contractID : string) (encodedMessage : bytes)
    : SM W (outcome (list string * list string * Z)) :=
  view contractID "get_ccvs_for_message" [BytesToScVal encodedMessage] ccvs_decode.

Definition GetCursedSubjects (contractID : string) : SM W (outcome (list bytes)) :=
  view contractID "get_cursed_subjects" []
    (fun result => vec ← need_vec result "expected vec return type"; mapM_out Bytes16FromScVal vec).

(** ** The reader *)

Variable d : DestinationReader.

Definition GetMessageSuccess (message : Message) : SM W (outcome bool) :=
  match MessageID message with
  | Err e => mret (Errs (Wrapf "failed to compute message ID: " e))
  | Ok msgID =>
      state ← GetExecutionState (offRampContractID d) msgID;
      mret match state with
           | Panics => Panics
           | Errs e => Errs (Wrapf "failed to get execution state for message: " e)
           | Returns state => Returns (state =? MessageExecutionStateSuccess)
           end
  end.

Definition contractIDFromCCVAddress (addr : string) : outcome bytes :=
  match ParseAddress addr with
  | None => Errs (ErrorString "failed to parse CCV address")
  | Some (ScAddressTypeContract (Some contractID)) => Returns contractID
  | Some _ => Errs (ErrorString "only contract (C...) addresses are supported")
  end.

(** [protocol.CCVAddressInfo]; its threshold is a byte. *)
Record CCVAddressInfo := mkCCVAddressInfo {
  RequiredCCVs : list bytes;
  OptionalCCVs : list bytes;
  OptionalThreshold : Z
}.

Definition u8 (x : Z) : Z := x mod 256.

Definition GetCCVSForMessage (message : Message) : SM W (outcome CCVAddressInfo) :=
  match Message_Encode message with
  | Err e => mret (Errs (Wrapf "failed to encode message: " e))
  | Ok encoded =>
      r ← GetCcvsForMessage (offRampContractID d) encoded;
      mret match r with
           | Panics => Panics
           | Errs e => Errs (Wrapf "failed to get CCVs for message: " e)
           | Returns (requiredStr, optionalStr, optionalThresholdU32) =>
               requiredCCVs ← mapM_out (fun addr =>
                 wrap_out "invalid required CCV address: " (contractIDFromCCVAddress addr)) requiredStr;
               optionalCCVs ← mapM_out (fun addr =>
                 wrap_out "invalid optional CCV address: " (contractIDFromCCVAddress addr)) optionalStr;
               Returns (mkCCVAddressInfo requiredCCVs optionalCCVs (u8 optionalThresholdU32))
           end
  end.

Definition GetRMNCursedSubjects : SM W (outcome (list bytes)) :=
  r ← GetCursedSubjects (rmnRemoteAddress d);
  mret (wrap_out "failed to get cursed subjects: " r).

(** Stubs of the source: no attempt is honest, the reader is healthy and ready. *)
Definition HasHonestAttempt (message : Message) : res bool := Ok false.
Definition IsReady : bool := true.

End DestinationReader.

(** ** Theorems *)

Section Spec.
Context `{CodecLaws} `{CcvProtocol} {W : Type} `{Invoker W}.

(** The contract ID of an address value. *)
Definition contract_key (v : ScVal) : option bytes :=
  match v with ScvAddress (Some (ScAddressTypeContract (Some k))) => Some k | _ => None end.

Definition vec_of (v : ScVal) : option (list ScVal) :=
  match v with ScvVec (Some (Some l)) => Some l | _ => None end.
Definition u32_of (v : ScVal) : option Z := match v with ScvU32 p => p | _ => None end.

(** The tuple the OffRamp's view returns, when its addresses are contracts. *)
Definition ccv_tuple (v : ScVal) : option (list bytes * list bytes * Z) :=
  match vec_of v with
  | Some [a; b; c] =>
      la ← vec_of a; lb ← vec_of b; t ← u32_of c;
      req ← mapM contract_key la; opt ← mapM contract_key lb; Some (req, opt, t)
  | _ => None
  end.

Lemma contractID_contract k s :
  is_key k -> strkey_Encode VersionByteContract k = Ok s -> contractIDFromCCVAddress s = Returns k.
Proof.
  intros Hk Es. destruct (contract_strkey k Hk) as (s' & Es' & P). rewrite Es in Es'. injection Es' as <-.
  unfold contractIDFromCCVAddress. unfold AddressToScVal, contract_ScVal in P. by injection P as ->.
Qed.

Lemma contractID_account k s :
  is_key k -> strkey_Encode VersionByteAccountID k = Ok s -> exists e, contractIDFromCCVAddress s = Errs e.
Proof.
  intros Hk Es. destruct (account_strkey k Hk) as (s' & Es' & P). rewrite Es in Es'. injection Es' as <-.
  unfold contractIDFromCCVAddress. unfold AddressToScVal, account_ScVal in P. injection P as ->. by eexists.
Qed.

(** What the two decoding steps make of one address. *)
Lemma address_then_id v :
  decoded v = true ->
  match contract_key v with
  | Some k => exists s, AddressFromScVal v = Returns s /\ contractIDFromCCVAddress s = Returns k
  | None => (exists e, AddressFromScVal v = Errs e) \/
            exists s e, AddressFromScVal v = Returns s /\ contractIDFromCCVAddress s = Errs e
  end.
Proof.
  intros Hd. destruct v as [| | | | | | | | | | | | | | | | | |[a|]| | | |]; try done; try (by left; eexists).
  destruct a as [[[t p]|]|[k|]|[m|]|[c|]|[l|]|[m|]|u]; try done; try (by left; eexists).
  - cbn in Hd. destruct t; try done. destruct p as [k|]; [|done]. apply keyb_spec in Hd. right.
    destruct (Encode_account k Hd) as (s & Es & _). cbn. rewrite Es.
    destruct (contractID_account k _ Hd Es) as [e E]. by exists ("G" +:+ s), e.
  - apply keyb_spec in Hd. destruct (Encode_contract k Hd) as (s & Es & _). cbn. rewrite Es.
    exists ("C" +:+ s). split; [done|]. by apply contractID_contract.
Qed.

Lemma addresses_then_ids pre pre' l :
  forallb decoded l = true ->
  match mapM contract_key l with
  | Some ks => exists ss, mapM_out (fun v => wrap_out pre (AddressFromScVal v)) l = Returns ss /\
                          mapM_out (fun s => wrap_out pre' (contractIDFromCCVAddress s)) ss = Returns ks
  | None => (exists e, mapM_out (fun v => wrap_out pre (AddressFromScVal v)) l = Errs e) \/
            exists ss e, mapM_out (fun v => wrap_out pre (AddressFromScVal v)) l = Returns ss /\
                         mapM_out (fun s => wrap_out pre' (contractIDFromCCVAddress s)) ss = Errs e
  end.
Proof.
  induction l as [|v l IH]; [by exists []|]. intros [Hv Hl]%andb_true_iff. specialize (IH Hl).
  pose proof (address_then_id v Hv) as A. cbn [mapM mapM_out].
  destruct (contract_key v) as [k|]; cbn.
  - destruct A as (s & Ea & Ei). rewrite Ea. cbn. destruct (mapM contract_key l) as [ks|]; cbn.
    + destruct IH as (ss & E1 & E2). exists (s :: ss). rewrite E1. split; [done|]. cbn. by rewrite Ei, E2.
    + destruct IH as [[e E]|(ss & e & E1 & E2)]; [left|right].
      * exists e. by rewrite E.
      * exists (s :: ss), e. rewrite E1. split; [done|]. cbn. by rewrite Ei, E2.
  - destruct A as [[e Ea]|(s & e & Ea & Ei)].
    + left. rewrite Ea. by eexists.
    + rewrite Ea. cbn. destruct (mapM contract_key l) as [ks|]; cbn.
      * destruct IH as (ss & E1 & _). rewrite E1. right. exists (s :: ss). cbn. rewrite Ei. by eexists.
      * destruct IH as [[e' E]|(ss & e' & E1 & _)]; [left; rewrite E; by eexists|].
        right. rewrite E1. exists (s :: ss). cbn. rewrite Ei. by eexists.
Qed.

Lemma ids_cases pre pre' l :
  forallb decoded l = true ->
  let strings := mapM_out (fun v => wrap_out pre (AddressFromScVal v)) l in
  let ids ss := mapM_out (fun s => wrap_out pre' (contractIDFromCCVAddress s)) ss in
  (exists ss ks, strings = Returns ss /\ ids ss = Returns ks /\ mapM contract_key l = Some ks) \/
  (exists ss e, strings = Returns ss /\ ids ss = Errs e /\ mapM contract_key l = None) \/
  (exists e, strings = Errs e /\ mapM contract_key l = None).
Proof.
  intros Hl strings ids. pose proof (addresses_then_ids pre pre' l Hl) as A.
  destruct (mapM contract_key l) as [ks|].
  - destruct A as (ss & E1 & E2). left. by exists ss, ks.
  - right. destruct A as [[e E]|(ss & e & E1 & E2)]; [right; by exists e|left; by exists ss, e].
Qed.

Lemma need_vec_decoded v msg :
  decoded v = true ->
  need_vec v msg = match vec_of v with Some l => Returns l | None => Errs (ErrorString msg) end /\
  forall l, vec_of v = Some l -> forallb decoded l = true.
Proof.
  destruct v as [| | | | | | | | | | | | | | | |[[l|]|]| | | | | |]; try done. cbn. intros Hd.
  split; [done|]. by intros l' [= <-].
Qed.

Lemma need_u32_decoded v msg :
  decoded v = true ->
  need (GetU32 v) msg = match u32_of v with Some t => Returns t | None => Errs (ErrorString msg) end.
Proof. by destruct v as [| | |[t|]| | | | | | | | | | | | | | | | | | |]. Qed.

(** [ccvs_decode] and the conversion of its addresses. *)
Definition read_ccvs (v : ScVal) : outcome CCVAddressInfo :=
  r ← wrap_out "failed to get CCVs for message: " (ccvs_decode v);
  let '(v0, v1, t) := r in
  req ← mapM_out (fun s => wrap_out "invalid required CCV address: " (contractIDFromCCVAddress s)) v0;
  opt ← mapM_out (fun s => wrap_out "invalid optional CCV address: " (contractIDFromCCVAddress s)) v1;
  Returns (mkCCVAddressInfo req opt (u8 t)).

Lemma read_ccvs_spec v :
  decoded v = true ->
  match ccv_tuple v with
  | Some (req, opt, t) => read_ccvs v = Returns (mkCCVAddressInfo req opt (u8 t))
  | None => exists e, read_ccvs v = Errs e
  end.
Proof.
  intros Hd. unfold read_ccvs, ccvs_decode, ccv_tuple.
  destruct (need_vec_decoded v "expected vec for tuple return" Hd) as [-> Hl].
  destruct (vec_of v) as [l|]; [|by eexists]. specialize (Hl l eq_refl).
  destruct l as [|a [|b [|c [|]]]]; try by eexists. cbn in Hl.
  apply andb_true_iff in Hl as [Ha Hl]. apply andb_true_iff in Hl as [Hb Hl].
  apply andb_true_iff in Hl as [Hc _]. cbn [mbind option_bind outcome_bind].
  destruct (need_vec_decoded a "tuple[0]: expected vec" Ha) as [-> Hla].
  destruct (need_vec_decoded b "tuple[1]: expected vec" Hb) as [-> Hlb].
  rewrite (need_u32_decoded c) by done.
  destruct (vec_of a) as [la|]; [|by eexists]. cbn [mbind option_bind outcome_bind].
  destruct (ids_cases "tuple[0]: " "invalid required CCV address: " la (Hla la eq_refl))
    as [(ss & req & E1 & E2 & E3)|[(ss & e & E1 & E2 & E3)|(e & E1 & E3)]]; rewrite E1; cbn;
    (destruct (vec_of b) as [lb|]; [|by eexists]); cbn; try (destruct (u32_of c); cbn);
    rewrite ?E3; cbn; try (by eexists);
    destruct (ids_cases "tuple[1]: " "invalid optional CCV address: " lb (Hlb lb eq_refl))
      as [(ss' & opt & F1 & F2 & F3)|[(ss' & e' & F1 & F2 & F3)|(e' & F1 & F3)]]; rewrite F1; cbn;
    rewrite ?E2; cbn; rewrite ?F2, ?F3; cbn; first [done|by eexists].
Qed.

(** [GetCCVSForMessage] answers what the OffRamp's view says.  On a value
    the XDR decoder produces it never panics: it answers the required and optional
    CCVs, in order, as raw contract IDs exactly when the view returned a triple of
    two vectors of contract addresses and a u32; an account or another address
    among them, or any other value, is an error.  The threshold it answers is the
    view's modulo 256. *)
Theorem GetCCVSForMessage_spec d m enc v w :
  Message_Encode m = Ok enc ->
  fst (inv_SimulateContract (offRampContractID d) "get_ccvs_for_message" [BytesToScVal enc] w)
  = Returns (Some v) -> decoded v = true ->
  match ccv_tuple v with
  | Some (req, opt, t) =>
      fst (GetCCVSForMessage d m w) = Returns (mkCCVAddressInfo req opt (t mod 256))
  | None => exists e, fst (GetCCVSForMessage d m w) = Errs e
  end.
Proof.
  intros Hm Hv Hd. unfold GetCCVSForMessage. rewrite Hm. unfold GetCcvsForMessage, view.
  pose proof (read_ccvs_spec v Hd) as R. rewrite !SM_bind_run, Hv. cbn [fst mret SM_ret].
  unfold read_ccvs in R. destruct (ccvs_decode v) as [[[v0 v1] t]|e|]; exact R.
Qed.

(** A CCV address is a contract: [contractIDFromCCVAddress] inverts the
    strkey of a 32-byte contract ID and refuses the strkey of an account, and never
    panics. *)
Theorem contractIDFromCCVAddress_spec k :
  is_key k ->
  (exists s, strkey_Encode VersionByteContract k = Ok s /\ contractIDFromCCVAddress s = Returns k) /\
  (exists s e, strkey_Encode VersionByteAccountID k = Ok s /\ contractIDFromCCVAddress s = Errs e) /\
  forall s, contractIDFromCCVAddress s <> Panics.
Proof.
  intros Hk. split; [|split].
  - destruct (Encode_contract k Hk) as (s & Es & _). eexists. split; [exact Es|]. by apply contractID_contract.
  - destruct (Encode_account k Hk) as (s & Es & _). destruct (contractID_account k _ Hk Es) as [e E].
    eexists. exists e. by split.
  - intros s. unfold contractIDFromCCVAddress. by destruct (ParseAddress s) as [[| [|]| | | | |]|].
Qed.

End Spec.

(** A view that answers one required CCV and a threshold past a byte. *)
#[local] Instance view_protocol : CcvProtocol := {|
  Message := bytes;
  DecodeMessage b := Ok b;
  Message_Encode m := Ok m;
  MessageID m := Ok m;
  ErrMessageEncoding := ErrorString "message encoding"
|}.

Definition view_value : ScVal :=
  ScvVec (Some (Some [ScvVec (Some (Some [contract_ScVal demo_key])); ScvVec (Some (Some [])); ScvU32 (Some 258)])).

#[local] Instance view_invoker : Invoker unit := {|
  inv_InvokeContract _ _ _ := fun w => (Returns None, w);
  inv_SimulateContract _ _ _ := fun w => (Returns (Some view_value), w)
|}.

Lemma GetCCVSForMessage_spec_witness :
  fst (GetCCVSForMessage (mkDestinationReader "CAAA" "CBBB") ([42] : Message) tt)
  = Returns (mkCCVAddressInfo [demo_key] [] 2).
Proof.
  exact (GetCCVSForMessage_spec (mkDestinationReader "CAAA" "CBBB") ([42] : Message) [42] view_value tt
           eq_refl eq_refl ltac:(vm_compute; reflexivity)).
Defined.
