(* ===== verification/SourceReader.v ===== *)
(** * Reading messages from the OnRamp

    Models ccv/source_reader/source_reader.go ([fetchAllEvents] is in EventPages.v):
    decoding [CCIPMessageSent] events with their receipts, and block headers. *)

From S2P Require Import Prelude Sdk GoBytes Xdr Scval TypeConverters EventPages EventFields Transmitter DestinationReader.

Import protocol.

(** ** Data of chainlink-ccv *)

Record ReceiptWithBlob := mkReceiptWithBlob {
  Issuer : bytes;
  DestGasLimit : Z;
  DestBytesOverhead : Z;
  FeeTokenAmount : option Z;
  ExtraArgs : bytes;
  Blob : bytes
}.

Record BlockHeader := mkBlockHeader {
  Number : Z;
  Hash : bytes;
  ParentHash : bytes;
  Timestamp : Z
}.

(** ** Receipts *)

(** A big integer from the halves of an i128. *)
Definition i128_value (p : Int128Parts) : Z := Z.shiftl (i128_Hi p) 64 + i128_Lo p.

Definition receipt_field `{Codec} (key : string) (v : ScVal) (r : ReceiptWithBlob) : outcome ReceiptWithBlob :=
  let '(mkReceiptWithBlob iss gas ovh fee ext blob) := r in
  if String.eqb key "issuer" then
    on_value (RawBytesFromAddressScVal v) (fun x => mkReceiptWithBlob x gas ovh fee ext blob) r
  else if String.eqb key "dest_gas_limit" then
    if_ok (GetU32 v) (fun x => mkReceiptWithBlob iss x ovh fee ext blob) r
  else if String.eqb key "dest_bytes_overhead" then
    if_ok (GetU32 v) (fun x => mkReceiptWithBlob iss gas x fee ext blob) r
  else if String.eqb key "fee_token_amount" then
    if_ok (GetI128 v) (fun x => mkReceiptWithBlob iss gas ovh (Some (i128_value x)) ext blob) r
  else if String.eqb key "extra_args" then
    if_ok (GetBytes v) (fun x => mkReceiptWithBlob iss gas ovh fee x blob) r
  else Returns r.

Definition parseReceipt `{Codec} (val : ScVal) : outcome ReceiptWithBlob :=
  m ← need_map val "receipt is not a map";
  fold_symbols receipt_field m (mkReceiptWithBlob [] 0 0 None [] []).

Definition parseReceipts `{Codec} (val : ScVal) : outcome (list ReceiptWithBlob) :=
  vec ← need_vec val "receipts is not a vec";
  mapM_out (fun item => wrap_out "parse receipt: " (parseReceipt item)) vec.

(** ** The CCIPMessageSent event *)

(** The local variables of [decodeCCIPMessageSentEvent]. *)
Record sent_fields := mkSentFields {
  destChainSelector : Z;
  sequenceNumber : Z;
  sender : string;
  messageID : bytes;
  feeToken : string;
  tokenAmountBeforeFees : option Z;
  encodedMessage : bytes;
  receipts : list ReceiptWithBlob;
  verifierBlobs : list bytes
}.

Definition sent_field `{Codec} (key : string) (v : ScVal) (r : sent_fields) : outcome sent_fields :=
  let '(mkSentFields dest seq snd mid fee amt enc rcs vbs) := r in
  if String.eqb key "dest_chain_selector" then
    if_ok (GetU64 v) (fun x => mkSentFields x seq snd mid fee amt enc rcs vbs) r
  else if String.eqb key "sequence_number" then
    if_ok (GetU64 v) (fun x => mkSentFields dest x snd mid fee amt enc rcs vbs) r
  else if String.eqb key "sender" then
    on_value (AddressFromScVal v) (fun x => mkSentFields dest seq x mid fee amt enc rcs vbs) r
  else if String.eqb key "message_id" then
    if_ok (GetBytes v) (fun x =>
      if Nat.eqb (length x) 32 then mkSentFields dest seq snd x fee amt enc rcs vbs else r) r
  else if String.eqb key "fee_token" then
    on_value (AddressFromScVal v) (fun x => mkSentFields dest seq snd mid x amt enc rcs vbs) r
  else if String.eqb key "token_amount_before_fees" then
    if_ok (GetI128 v) (fun x => mkSentFields dest seq snd mid fee (Some (i128_value x)) enc rcs vbs) r
  else if String.eqb key "encoded_message" then
    if_ok (GetBytes v) (fun x => mkSentFields dest seq snd mid fee amt x rcs vbs) r
  else if String.eqb key "receipts" then
    on_value (parseReceipts v) (fun x => mkSentFields dest seq snd mid fee amt enc x vbs) r
  else if String.eqb key "verifier_blobs" then
    on_value (BytesVecFromScVal v) (fun x => mkSentFields dest seq snd mid fee amt enc rcs x) r
  else Returns r.

Definition no_fields : sent_fields := mkSentFields 0 0 "" (replicate 32 0) "" None [] [] [].

Definition set_Blob (b : bytes) (r : ReceiptWithBlob) : ReceiptWithBlob :=
  mkReceiptWithBlob (Issuer r) (DestGasLimit r) (DestBytesOverhead r) (FeeTokenAmount r) (ExtraArgs r) b.

(** The loop that pairs the receipts with the verifier blobs by index. *)
Fixpoint pair_blobs (receipts : list ReceiptWithBlob) (verifierBlobs : list bytes) : list ReceiptWithBlob :=
  match receipts, verifierBlobs with
  | r :: rs, b :: bs => set_Blob b r :: pair_blobs rs bs
  | rs, [] => rs
  | [], _ => []
  end.

(** [[]byte(s)] of the transaction hash. *)
Definition string_to_bytes (s : string) : bytes :=
  (fun c => Z.of_N (Ascii.N_of_ascii c)) <$> String.list_ascii_of_string s.

Section Reader.
Context `{Codec} `{CcvProtocol} {W : Type} `{EventsClient W}.

Record MessageSentEvent := mkMessageSentEvent {
  ms_MessageID : bytes;
  ms_Message : Message;
  ms_Receipts : list ReceiptWithBlob;
  ms_BlockNumber : Z;
  ms_TxHash : bytes
}.

Definition decodeCCIPMessageSentEvent (e : EventInfo) : outcome MessageSentEvent :=
  match ScVal_UnmarshalBase64 (ev_ValueXDR e) with
  | Err err => Errs (Wrapf "failed to decode event value: " err)
  | Ok eventVal =>
      scMap ← need_map eventVal "event value is not a map";
      f ← fold_symbols sent_field scMap no_fields;
      let receipts := pair_blobs (receipts f) (verifierBlobs f) in
      match DecodeMessage (encodedMessage f) with
      | Err err => Errs (Wrapf "failed to decode encoded_message as MessageV1: " err)
      | Ok msg =>
          Returns (mkMessageSentEvent (messageID f) msg receipts (u64 (ev_Ledger e))
                     (string_to_bytes (ev_TransactionHash e)))
      end
  end.

(** The events that decode, in order. *)
Fixpoint decode_events (events : list EventInfo) : outcome (list MessageSentEvent) :=
  match events with
  | [] => Returns []
  | e :: events' =>
      match decodeCCIPMessageSentEvent e with
      | Panics => Panics
      | Errs _ => decode_events events'
      | Returns msgEvent => rest ← decode_events events'; Returns (msgEvent :: rest)
      end
  end.

(** ** The reader *)

(** The RPC calls of [RPCClient] other than [GetEvents]: the latest ledger, and the
    first ledger from a sequence on (hash, header or metadata, sequence, close time). *)
Record LedgerInfo := mkLedgerInfo {
  li_Hash : string;
  li_XDR : string;
  li_Sequence : Z;
  li_LedgerCloseTime : Z
}.

Class LedgersClient := {
  rd_GetLatestLedger : SM W (res LedgerInfo);
  rd_GetLedgers : Z -> SM W (res (list LedgerInfo))
}.

(** [xdr.LedgerHeader] and [xdr.LedgerCloseMeta], up to the previous ledger's hash. *)
Class HeaderCodec := {
  LedgerHeader_PreviousLedgerHash : string -> res bytes;
  LedgerCloseMeta_PreviousLedgerHash : string -> res bytes
}.

Context `{LedgersClient} `{HeaderCodec}.

Record SourceReader := mkSourceReader {
  sr_ccipOnrampAddress : string;
  sr_ccipMessageSentTopic : string;
  sr_rmnRemoteAddress : string
}.

Definition NewSourceReaderWithClient (have_client : bool)
    (ccipOnrampAddress ccipMessageSentTopic rmnRemoteAddress : string) (have_lggr : bool) : res SourceReader :=
  if negb have_client then Err (ErrorString "rpc client is required")
  else if negb have_lggr then Err (ErrorString "logger is required")
  else if String.eqb ccipOnrampAddress "" then Err (ErrorString "ccip onramp address is required")
  else if String.eqb ccipMessageSentTopic "" then Err (ErrorString "ccip message sent topic is required")
  else if String.eqb rmnRemoteAddress "" then Err (ErrorString "rmn remote address is required")
  else Ok (mkSourceReader ccipOnrampAddress ccipMessageSentTopic rmnRemoteAddress).

Variable s : SourceReader.

Definition exceeds : error := ErrorString "block number exceeds uint32 (ledger seq) range".

(** The upper end of the window. *)
Definition to_ledger (toBlock : Z) : SM W (res Z) :=
  if negb (toBlock =? 0) then
    if toBlock >? MaxUint32 then mret (Err exceeds) else mret (Ok (u32 toBlock))
  else
    latestLedger ← rd_GetLatestLedger;
    mret match latestLedger with
         | Err e => Err (Wrapf "failed to get latest ledger: " e)
         | Ok l => Ok (li_Sequence l)
         end.

(** [None] when the fuel of [fetchAllEvents] runs out. *)
Definition FetchMessageSentEvents (fuel : nat) (fromBlock toBlock : Z)
    : SM W (option (outcome (list MessageSentEvent))) :=
  if fromBlock >? MaxUint32 then mret (Some (Errs exceeds))
  else
    let fromLedger := Z.max (u32 fromBlock) 7 in
    toLedger ← to_ledger toBlock;
    match toLedger with
    | Err e => mret (Some (Errs e))
    | Ok toLedger =>
        events ← fetchAllEvents fuel (sr_ccipOnrampAddress s) fromLedger toLedger
                   (SymbolToScValPtr (sr_ccipMessageSentTopic s));
        mret match events with
             | None => None
             | Some (Err e) => Some (Errs e)
             | Some (Ok events) => Some (decode_events events)
             end
    end.

(** ** Block headers *)

Definition HasPrefix (s pre : string) : bool := String.prefix pre s.

Definition toBytes32 (hexStr : string) : res bytes :=
  let hexStr := if HasPrefix hexStr "0x" then hexStr else "0x" +:+ TrimPrefix hexStr "0X" in
  let h := TrimPrefix hexStr "0x" in
  if negb (Nat.eqb (String.length h) 64)
  then Err (ErrorString "hex string must be exactly 64 characters (32 bytes)")
  else match hex_DecodeString h with
       | Err e => Err (Wrapf "decode hex: " e)
       | Ok decoded => Ok (copy32 decoded)
       end.

Definition buildBlockHeader (hashHex headerB64 : string) (sequence closeTime : Z) : res BlockHeader :=
  match LedgerHeader_PreviousLedgerHash headerB64 with
  | Err e => Err (Wrapf "unmarshal ledger header: " e)
  | Ok previous =>
      match toBytes32 hashHex with
      | Err e => Err (Wrapf "parse ledger hash: " e)
      | Ok hash => Ok (mkBlockHeader sequence hash previous closeTime)
      end
  end.

Definition buildBlockHeaderFromMeta (hashHex metadataB64 : string) (sequence closeTime : Z) : res BlockHeader :=
  match LedgerCloseMeta_PreviousLedgerHash metadataB64 with
  | Err e => Err (Wrapf "unmarshal ledger metadata: " e)
  | Ok previous =>
      match toBytes32 hashHex with
      | Err e => Err (Wrapf "parse ledger hash: " e)
      | Ok hash => Ok (mkBlockHeader sequence hash previous closeTime)
      end
  end.

Definition ledgerToBlockHeader (resp : LedgerInfo) : res BlockHeader :=
  buildBlockHeader (li_Hash resp) (li_XDR resp) (li_Sequence resp) (li_LedgerCloseTime resp).

(** One iteration of the loop of [GetBlocksHeaders]. *)
Definition block_header (seq : Z) (headers : gmap Z BlockHeader) : SM W (gmap Z BlockHeader) :=
  if seq >? MaxUint32 then mret headers
  else
    resp ← rd_GetLedgers (u32 seq);
    mret match resp with
         | Err _ | Ok [] => headers
         | Ok (ledger :: _) =>
             if negb (li_Sequence ledger =? u32 seq) then headers
             else match buildBlockHeaderFromMeta (li_Hash ledger) (li_XDR ledger)
                          (li_Sequence ledger) (li_LedgerCloseTime ledger) with
                  | Err _ => headers
                  | Ok blockHeader => <[seq := blockHeader]> headers
                  end
         end.

Fixpoint headers_loop (ledgerNumbers : list Z) (headers : gmap Z BlockHeader) : SM W (gmap Z BlockHeader) :=
  match ledgerNumbers with
  | [] => mret headers
  | seq :: rest => headers ← block_header seq headers; headers_loop rest headers
  end.

Definition GetBlocksHeaders (ledgerNumbers : list Z) : SM W (gmap Z BlockHeader) :=
  headers_loop ledgerNumbers ∅.

Definition LatestAndFinalizedBlock : SM W (res (BlockHeader * BlockHeader)) :=
  latestLedger ← rd_GetLatestLedger;
  mret match latestLedger with
       | Err e => Err (Wrapf "failed to get latest ledger: " e)
       | Ok l =>
           match ledgerToBlockHeader l with
           | Err e => Err (Wrapf "failed to build block header: " e)
           | Ok header => Ok (header, header)
           end
       end.

Definition LatestSafeBlock : res (option BlockHeader) := Ok None.

End Reader.

Definition SourceReader_GetRMNCursedSubjects {W} `{Invoker W} (s : SourceReader) : SM W (outcome (list bytes)) :=
  r ← GetCursedSubjects (sr_rmnRemoteAddress s);
  mret (wrap_out "failed to get cursed subjects: " r).
