(* ===== verification/SourceReaderProofs.v ===== *)
(** * Properties of the source reader *)

From S2P Require Import Prelude Sdk GoBytes Xdr DemoCodec Scval ScvalProofs TypeConverters TypeConvertersProofs EventPages EventFields Transmitter AttemptPoller DestinationReader DemoCache SourceReader.

Import protocol.

(** ** Big integers from the halves of an i128 *)

(** The readers' and the conversions' decoding of an i128 agree.  Shifting
    the high word and adding the low one, as the source reader does, gives the
    integer that [I128FromScVal] computes by a bitwise or, for every pair of words. *)
Theorem i128_value_equiv p :
  is_u64 (i128_Lo p) -> I128FromScVal (ScvI128 (Some p)) = Returns (i128_value p).
Proof.
  intros Hl. cbn. unfold i128_value. f_equal. rewrite lor_shift_add by (unfold_goint; lia).
  rewrite Z.shiftl_mul_pow2 by lia. done.
Qed.

(** ** Ledger hashes *)

Lemma hex_length b : String.length (hex_EncodeToString b) = (2 * length b)%nat.
Proof. induction b as [|x b IH]; [done|]. cbn [hex_EncodeToString String.length length]. lia. Qed.

Lemma drop_string_length n s : String.length (drop_string n s) = (String.length s - n)%nat.
Proof. revert s; induction n as [|n IH]; intros [|c s]; simpl; auto. Qed.

Lemma prefix_length a s : String.prefix a s = true -> (String.length a <= String.length s)%nat.
Proof.
  revert s; induction a as [|c a IH]; intros [|c' s]; simpl; try lia; try done.
  destruct (Ascii.ascii_dec c c'); [|done]. intros H. apply IH in H. lia.
Qed.

Lemma TrimPrefix_length a s n :
  String.length (TrimPrefix s a) = n ->
  String.length s = n \/ String.length s = (n + String.length a)%nat.
Proof.
  unfold TrimPrefix. destruct (String.prefix a s) eqn:P; [|by left]. rewrite drop_string_length.
  apply prefix_length in P. lia.
Qed.

Lemma copy32_length b : length (copy32 b) = 32%nat.
Proof. unfold copy32. rewrite length_take, length_app, length_replicate. lia. Qed.

(** A hexadecimal text does not start with "0x" or "0X". *)
Definition no_x (c : Ascii.ascii) : bool :=
  negb (String.eqb (String c "") "x") && negb (String.eqb (String c "") "X").

Lemma hexDigit_no_x n : 0 <= n < 16 -> no_x (hexDigit n) = true.
Proof.
  intros Hn. assert (F : Forall (fun n => no_x (hexDigit n) = true) (seqZ 0 16)).
  { refine (bool_decide_unpack _ _). by vm_compute. }
  rewrite list.Forall_forall in F. apply F, elem_of_seqZ. lia.
Qed.

Lemma no_x_prefix a c s : no_x c = true ->
  String.prefix "0x" (String a (String c s)) = false /\ String.prefix "0X" (String a (String c s)) = false.
Proof.
  intros N. unfold no_x in N. apply andb_true_iff in N as [N1 N2].
  split; cbn [String.prefix]; destruct (Ascii.ascii_dec _ a); try done;
    destruct (Ascii.ascii_dec _ c) as [E|]; try done; exfalso; revert N1 N2; by rewrite <- E.
Qed.

Lemma hex_no_prefix b :
  Forall is_byte b ->
  String.prefix "0x" (hex_EncodeToString b) = false /\ String.prefix "0X" (hex_EncodeToString b) = false.
Proof.
  intros Hb. destruct b as [|y b]; [done|]. apply Forall_inv in Hb.
  cbn [hex_EncodeToString]. apply no_x_prefix, hexDigit_no_x.
  change 15 with (Z.ones 4). rewrite Z.land_ones by lia. by apply Z.mod_pos_bound.
Qed.

Lemma toBytes32_length s h :
  toBytes32 s = Ok h -> length h = 32%nat /\ (String.length s = 64 \/ String.length s = 66)%nat.
Proof.
  assert (HT : forall s, TrimPrefix ("0x" +:+ s) "0x" = s) by (intros; apply TrimPrefix_app).
  unfold toBytes32. set (u := if HasPrefix s "0x" then s else _).
  destruct (Nat.eqb_spec (String.length (TrimPrefix u "0x")) 64) as [L|]; [|done].
  cbn [negb]. destruct (hex_DecodeString (TrimPrefix u "0x")) as [d|e]; [|by intros].
  intros [= <-]. split; [apply copy32_length|].
  unfold u, HasPrefix in L. destruct (String.prefix "0x" s) eqn:P.
  - apply TrimPrefix_length in L. simpl in L. lia.
  - rewrite HT in L. apply TrimPrefix_length in L. simpl in L. lia.
Qed.

(** Ledger hashes are read exactly.  A 32-byte hash is read back from its
    hexadecimal text, bare or after "0x" or "0X"; a text whose digits are not
    exactly 64 is refused, so no shorter hash is padded. *)
Theorem toBytes32_spec b :
  is_key b ->
  toBytes32 (hex_EncodeToString b) = Ok b /\
  toBytes32 ("0x" +:+ hex_EncodeToString b) = Ok b /\
  toBytes32 ("0X" +:+ hex_EncodeToString b) = Ok b /\
  forall s h, toBytes32 s = Ok h ->
    length h = 32%nat /\ (String.length s = 64 \/ String.length s = 66)%nat.
Proof.
  intros [Hl Hb].
  assert (HD : (if negb (Nat.eqb (String.length (hex_EncodeToString b)) 64)
    then Err (ErrorString "hex string must be exactly 64 characters (32 bytes)")
    else match hex_DecodeString (hex_EncodeToString b) with
         | Err e => Err (Wrapf "decode hex: " e)
         | Ok decoded => Ok (copy32 decoded)
         end) = Ok b).
  { rewrite hex_length, Hl, hex_roundtrip by done. cbn [Nat.mul Nat.add Nat.eqb negb]. by rewrite copy32_key. }
  assert (HT : forall s, TrimPrefix ("0x" +:+ s) "0x" = s) by (intros s; apply TrimPrefix_app).
  split; [|split; [|split]].
  - destruct (hex_no_prefix b Hb) as [N1 N2]. unfold toBytes32, HasPrefix. rewrite N1.
    replace (TrimPrefix (hex_EncodeToString b) "0X") with (hex_EncodeToString b) by (unfold TrimPrefix; by rewrite N2).
    by rewrite HT.
  - unfold toBytes32, HasPrefix. rewrite prefix_app. by rewrite HT.
  - unfold toBytes32. change (HasPrefix ("0X" +:+ hex_EncodeToString b) "0x") with false. cbv iota.
    rewrite (TrimPrefix_app "0X"). by rewrite HT.
  - apply toBytes32_length.
Qed.

(** ** Receipts and messages *)

Section Messages.
Context `{Codec} `{CcvProtocol}.

Lemma decoded_account k : decoded_address (ScAddressTypeAccount (Some k)) = true -> pk_Ed25519 k <> None.
Proof. destruct k as [[|?|?] [?|]]; done. Qed.

Lemma RawBytes_decoded v : decoded v = true -> RawBytesFromAddressScVal v <> Panics.
Proof.
  destruct v as [| | | | | | | | | | | | | | | | | |[a|]| | | |]; try done. intros Hd.
  destruct a as [[k|]|[k|]|m|c|l|m|u]; try done. cbn. by destruct (pk_Ed25519 k).
Qed.

Lemma Address_decoded v : decoded v = true -> AddressFromScVal v <> Panics.
Proof.
  destruct v as [| | | | | | | | | | | | | | | | | |[a|]| | | |]; try done. intros Hd.
  destruct a as [[k|]|[k|]|m|c|l|m|u]; try done; cbn.
  - destruct (pk_Ed25519 k); [|done]. by destruct (strkey_Encode _ _).
  - by destruct (strkey_Encode _ _).
Qed.

Lemma mapM_out_no_panic {A B} (f : A -> outcome B) l :
  Forall (fun a => f a <> Panics) l -> mapM_out f l <> Panics.
Proof.
  induction 1 as [|a l Ha _ IH]; [done|]. simpl. destruct (f a); [|done..]. by destruct (mapM_out f l).
Qed.

Lemma decoded_vec l v : decoded v = true -> vec_of v = Some l -> Forall (fun x => decoded x = true) l.
Proof.
  intros Hd E. apply forallb_Forall. by apply (proj2 (need_vec_decoded v "" Hd)).
Qed.

Lemma BytesVec_decoded v : decoded v = true -> BytesVecFromScVal v <> Panics.
Proof.
  intros Hd. destruct v as [| | | | | | | | | | | | | | | |[[l|]|]| | | | | |]; try done.
  apply (mapM_out_no_panic). refine (list.Forall_impl _ _ _ (decoded_vec l _ Hd eq_refl) _).
  intros x [o E]%GetBytes_decoded. apply need_decoded. by rewrite E.
Qed.

Lemma need_map_decoded v msg :
  decoded v = true ->
  match v with
  | ScvMap (Some (Some m)) => need_map v msg = Returns m /\ Forall (fun e => decoded_entry e = true) m
  | _ => need_map v msg = Errs (ErrorString msg)
  end.
Proof.
  destruct v as [| | | | | | | | | | | | | | | | |[[m|]|]| | | | |]; try done. intros Hd. split; [done|].
  by apply decoded_map_entries.
Qed.

Ltac total_field :=
  repeat match goal with |- context [if String.eqb ?k ?s then _ else _] => destruct (String.eqb k s) end;
  try (by eexists);
  rewrite ?on_value_ok, ?if_ok_returns;
  auto using GetBytes_decoded, GetU32_decoded, GetU64_decoded, GetI128_decoded, RawBytes_decoded,
    Address_decoded, BytesVec_decoded;
  try (by eexists).

Lemma receipt_field_total k v r : decoded v = true -> exists r', receipt_field k v r = Returns r'.
Proof. intros Hv. unfold receipt_field. destruct r as [iss gas ovh fee ext blob]. total_field. Qed.

(** A receipt read from the entries [m]. *)
Definition receipt_of (m : list (ScMapEntry ScVal)) : ReceiptWithBlob :=
  mkReceiptWithBlob
    (last_field (fun v => ok_of (RawBytesFromAddressScVal v)) "issuer" m [])
    (last_field (fun v => ok_opt (GetU32 v)) "dest_gas_limit" m 0)
    (last_field (fun v => ok_opt (GetU32 v)) "dest_bytes_overhead" m 0)
    (last_field (fun v => Some <$> (i128_value <$> ok_opt (GetI128 v))) "fee_token_amount" m None)
    (last_field (fun v => ok_opt (GetBytes v)) "extra_args" m [])
    [].

Lemma fold_receipt_fields m r :
  Forall (fun e => decoded_entry e = true) m ->
  fold_symbols receipt_field m (mkReceiptWithBlob [] 0 0 None [] []) = Returns r -> r = receipt_of m.
Proof.
  intros Hm Hr.
  assert (L : forall A (proj : ReceiptWithBlob -> A) dec key,
    (forall k v r r', decoded v = true -> receipt_field k v r = Returns r' ->
       proj r' = if String.eqb k key then match dec v with Some a => a | None => proj r end else proj r) ->
    proj r = last_field dec key m (proj (mkReceiptWithBlob [] 0 0 None [] [])))
    by (intros A proj dec key Hf; exact (fold_symbols_last receipt_field proj dec key m Hf Hm _ _ Hr)).
  pose proof (L _ Issuer (fun v => ok_of (RawBytesFromAddressScVal v)) "issuer" ltac:(unfold receipt_field; field_case)) as E1.
  pose proof (L _ DestGasLimit (fun v => ok_opt (GetU32 v)) "dest_gas_limit" ltac:(unfold receipt_field; field_case)) as E2.
  pose proof (L _ DestBytesOverhead (fun v => ok_opt (GetU32 v)) "dest_bytes_overhead" ltac:(unfold receipt_field; field_case)) as E3.
  pose proof (L _ FeeTokenAmount (fun v => Some <$> (i128_value <$> ok_opt (GetI128 v))) "fee_token_amount"
    ltac:(unfold receipt_field; field_case)) as E4.
  pose proof (L _ ExtraArgs (fun v => ok_opt (GetBytes v)) "extra_args" ltac:(unfold receipt_field; field_case)) as E5.
  pose proof (L _ Blob (fun _ => None) "" ltac:(unfold receipt_field; field_case)) as E6.
  rewrite last_field_none in E6. destruct r as [a b c d e f].
  cbn [Issuer DestGasLimit DestBytesOverhead FeeTokenAmount ExtraArgs Blob] in *. by subst.
Qed.

Definition receipt_at (v : ScVal) : option ReceiptWithBlob :=
  match v with ScvMap (Some (Some m)) => Some (receipt_of m) | _ => None end.

Lemma parseReceipt_decoded v :
  decoded v = true ->
  match receipt_at v with
  | Some r => parseReceipt v = Returns r
  | None => exists e, parseReceipt v = Errs e
  end.
Proof.
  intros Hd. pose proof (need_map_decoded v "receipt is not a map" Hd) as M. unfold parseReceipt.
  destruct v as [| | | | | | | | | | | | | | | | |[[m|]|]| | | | |]; try done;
    try (rewrite M; by eexists).
  destruct M as [-> Hm].
  destruct (fold_symbols_returns receipt_field m receipt_field_total Hm (mkReceiptWithBlob [] 0 0 None [] [])) as [r Er].
  cbn [receipt_at]. pose proof (fold_receipt_fields m r Hm Er) as E. rewrite E in Er. exact Er.
Qed.

(** The receipts of a decoded value: a vector of maps. *)
Definition receipts_of (v : ScVal) : option (list ReceiptWithBlob) := l ← vec_of v; mapM receipt_at l.

Lemma mapM_receipts pre l :
  Forall (fun v => decoded v = true) l ->
  match mapM receipt_at l with
  | Some rs => mapM_out (fun v => wrap_out pre (parseReceipt v)) l = Returns rs
  | None => exists e, mapM_out (fun v => wrap_out pre (parseReceipt v)) l = Errs e
  end.
Proof.
  induction 1 as [|v l Hv _ IH]; [done|]. pose proof (parseReceipt_decoded v Hv) as P. cbn.
  destruct (receipt_at v) as [r|]; cbn.
  - rewrite P. cbn. destruct (mapM receipt_at l); cbn; [by rewrite IH|].
    destruct IH as [e ->]. by eexists.
  - destruct P as [e ->]. by eexists.
Qed.

Lemma parseReceipts_decoded v :
  decoded v = true ->
  match receipts_of v with
  | Some rs => parseReceipts v = Returns rs
  | None => exists e, parseReceipts v = Errs e
  end.
Proof.
  intros Hd. unfold parseReceipts, receipts_of.
  destruct (need_vec_decoded v "receipts is not a vec" Hd) as [-> _].
  destruct (vec_of v) as [l|] eqn:E; [|by eexists]. cbn.
  apply mapM_receipts. by eapply decoded_vec.
Qed.

Lemma parseReceipts_ok v : decoded v = true -> ok_of (parseReceipts v) = receipts_of v /\ parseReceipts v <> Panics.
Proof.
  intros Hd. pose proof (parseReceipts_decoded v Hd) as P. destruct (receipts_of v); [by rewrite P|].
  by destruct P as [e ->].
Qed.

Definition bytes32_at (v : ScVal) : option bytes :=
  match ok_opt (GetBytes v) with Some b => if Nat.eqb (length b) 32 then Some b else None | None => None end.

Lemma sent_field_total k v r : decoded v = true -> exists r', sent_field k v r = Returns r'.
Proof.
  intros Hv. unfold sent_field. destruct r as [a b c d e f g h i]. total_field.
  all: try (by apply parseReceipts_ok); by eexists.
Qed.

(** What the four locals that reach the result hold after the loop. *)
Lemma fold_sent_fields m r :
  Forall (fun e => decoded_entry e = true) m -> fold_symbols sent_field m no_fields = Returns r ->
  messageID r = last_field bytes32_at "message_id" m (replicate 32 0) /\
  encodedMessage r = last_field (fun v => ok_opt (GetBytes v)) "encoded_message" m [] /\
  receipts r = last_field (fun v => ok_of (parseReceipts v)) "receipts" m [] /\
  verifierBlobs r = last_field (fun v => ok_of (BytesVecFromScVal v)) "verifier_blobs" m [].
Proof.
  intros Hm Hr.
  assert (L : forall A (proj : sent_fields -> A) dec key,
    (forall k v r r', decoded v = true -> sent_field k v r = Returns r' ->
       proj r' = if String.eqb k key then match dec v with Some a => a | None => proj r end else proj r) ->
    proj r = last_field dec key m (proj no_fields))
    by (intros A proj dec key Hf; exact (fold_symbols_last sent_field proj dec key m Hf Hm _ _ Hr)).
  split_and!.
  - exact (L _ messageID bytes32_at "message_id" ltac:(unfold sent_field, bytes32_at; field_case)).
  - exact (L _ encodedMessage (fun v => ok_opt (GetBytes v)) "encoded_message" ltac:(unfold sent_field; field_case)).
  - exact (L _ receipts (fun v => ok_of (parseReceipts v)) "receipts" ltac:(unfold sent_field; field_case)).
  - exact (L _ verifierBlobs (fun v => ok_of (BytesVecFromScVal v)) "verifier_blobs" ltac:(unfold sent_field; field_case)).
Qed.

Lemma last_field_ext {A} (dec dec' : ScVal -> option A) k m d :
  (forall v, decoded v = true -> dec v = dec' v) -> Forall (fun e => decoded_entry e = true) m ->
  last_field dec k m d = last_field dec' k m d.
Proof.
  intros Hd Hm. revert d. induction Hm as [|e m [_ Hv]%andb_true_iff _ IH]; intros d; [done|].
  cbn [last_field]. by rewrite IH, (Hd _ Hv).
Qed.

Lemma pair_blobs_lookup rs bs i :
  pair_blobs rs bs !! i = (fun r => match bs !! i with Some b => set_Blob b r | None => r end) <$> rs !! i.
Proof.
  revert bs i; induction rs as [|r rs IH]; intros [|b bs] [|i]; simpl;
    first [done|apply IH|by destruct (rs !! i)].
Qed.

(** What a CCIPMessageSent event says: the last well-formed entry under each name. *)
Definition sent_message_id (m : list (ScMapEntry ScVal)) : bytes :=
  last_field bytes32_at "message_id" m (replicate 32 0).
Definition sent_encoded (m : list (ScMapEntry ScVal)) : bytes :=
  last_field (fun v => ok_opt (GetBytes v)) "encoded_message" m [].
Definition sent_receipts (m : list (ScMapEntry ScVal)) : list ReceiptWithBlob :=
  last_field receipts_of "receipts" m [].
Definition sent_blobs (m : list (ScMapEntry ScVal)) : list bytes :=
  last_field (fun v => ok_of (BytesVecFromScVal v)) "verifier_blobs" m [].

Lemma decode_sent e v :
  ScVal_UnmarshalBase64 (ev_ValueXDR e) = Ok v -> decoded v = true ->
  decodeCCIPMessageSentEvent e =
  match v with
  | ScvMap (Some (Some m)) =>
      match DecodeMessage (sent_encoded m) with
      | Ok msg => Returns (mkMessageSentEvent (sent_message_id m) msg
                    (pair_blobs (sent_receipts m) (sent_blobs m)) (u64 (ev_Ledger e))
                    (string_to_bytes (ev_TransactionHash e)))
      | Err err => Errs (Wrapf "failed to decode encoded_message as MessageV1: " err)
      end
  | _ => Errs (ErrorString "event value is not a map")
  end.
Proof.
  intros Ev Hd. unfold decodeCCIPMessageSentEvent. rewrite Ev.
  pose proof (need_map_decoded v "event value is not a map" Hd) as M.
  destruct v as [| | | | | | | | | | | | | | | | |[[m|]|]| | | | |]; try done; try (by rewrite M).
  destruct M as [-> Hm].
  destruct (fold_symbols_returns sent_field m sent_field_total Hm no_fields) as [r Er].
  destruct (fold_sent_fields m r Hm Er) as (E1 & E2 & E3 & E4).
  cbn [mbind outcome_bind]. unfold mbind, outcome_bind in Er |- *. rewrite Er, E1, E2, E3, E4.
  unfold sent_receipts. rewrite (last_field_ext _ receipts_of) by (done || by intros; apply parseReceipts_ok).
  done.
Qed.

(** [decodeCCIPMessageSentEvent] reads what the contract emitted.  On a
    value the XDR decoder produces it never panics.  A map gives the message
    decoded from its encoded bytes, the id and the receipts found under their names
    (the last well-formed entry of each, whatever else the map holds), and the
    i-th receipt carries the i-th verifier blob if there is one; a map whose
    message does not decode, or another value, is refused. *)
Theorem decodeCCIPMessageSentEvent_spec e v :
  ScVal_UnmarshalBase64 (ev_ValueXDR e) = Ok v -> decoded v = true ->
  match v with
  | ScvMap (Some (Some m)) =>
      match DecodeMessage (sent_encoded m) with
      | Ok msg =>
          exists rcs, decodeCCIPMessageSentEvent e
            = Returns (mkMessageSentEvent (sent_message_id m) msg rcs (u64 (ev_Ledger e))
                         (string_to_bytes (ev_TransactionHash e))) /\
          length rcs = length (sent_receipts m) /\
          forall i r, sent_receipts m !! i = Some r ->
            rcs !! i = Some match sent_blobs m !! i with Some b => set_Blob b r | None => r end
      | Err _ => exists err, decodeCCIPMessageSentEvent e = Errs err
      end
  | _ => exists err, decodeCCIPMessageSentEvent e = Errs err
  end.
Proof.
  intros Ev Hd. rewrite (decode_sent e v Ev Hd).
  destruct v as [| | | | | | | | | | | | | | | | |[[m|]|]| | | | |]; try by eexists.
  destruct (DecodeMessage (sent_encoded m)) as [msg|err]; [|by eexists].
  eexists. split; [reflexivity|]. split.
  - generalize (sent_receipts m) (sent_blobs m). clear. intros rs.
    induction rs as [|r rs IH]; intros [|b bs]; simpl; auto.
  - intros i r E. by rewrite pair_blobs_lookup, E.
Qed.

End Messages.

(** ** The reader *)

Section Reader.
Context `{Codec} `{CcvProtocol} {W : Type} `{EventsClient W} `{!LedgersClient (W := W)} `{HeaderCodec}.

Lemma decode_events_omap events :
  (forall x v, ScVal_UnmarshalBase64 x = Ok v -> decoded v = true) ->
  decode_events events = Returns (omap (fun e => ok_of (decodeCCIPMessageSentEvent e)) events).
Proof.
  intros Hx. induction events as [|e events IH]; [done|]. cbn [decode_events omap list_omap].
  assert (N : decodeCCIPMessageSentEvent e <> Panics).
  { destruct (ScVal_UnmarshalBase64 (ev_ValueXDR e)) as [v|err] eqn:Ev;
      [|unfold decodeCCIPMessageSentEvent; by rewrite Ev].
    rewrite (decode_sent e v Ev (Hx _ _ Ev)).
    destruct v as [| | | | | | | | | | | | | | | | |[[m|]|]| | | | |]; try done.
    by destruct (DecodeMessage _). }
  destruct (decodeCCIPMessageSentEvent e) as [m|err|]; cbn; [by rewrite IH|done|done].
Qed.


(** The header of a ledger's answer. *)
Definition header_of (seq : Z) (h : BlockHeader) (answer : res (list LedgerInfo)) : Prop :=
  exists ledger rest, answer = Ok (ledger :: rest) /\ li_Sequence ledger = seq /\
    toBytes32 (li_Hash ledger) = Ok (Hash h) /\
    LedgerCloseMeta_PreviousLedgerHash (li_XDR ledger) = Ok (ParentHash h) /\
    Number h = seq /\ Timestamp h = li_LedgerCloseTime ledger.

Lemma block_header_spec seq headers w :
  0 <= seq ->
  let headers' := fst (block_header seq headers w) in
  (forall h, seq <= MaxUint32 -> header_of seq h (fst (rd_GetLedgers seq w)) -> headers' = <[seq := h]> headers) /\
  (headers' = headers \/
   exists h, seq <= MaxUint32 /\ header_of seq h (fst (rd_GetLedgers seq w)) /\ headers' = <[seq := h]> headers).
Proof.
  intros Hs. unfold block_header. rewrite Z.gtb_ltb.
  destruct (Z.ltb_spec MaxUint32 seq) as [|Hm]; [split; [lia|by left]|].
  rewrite SM_bind_run, u32_id by (unfold_goint; lia). cbn [fst mret SM_ret].
  destruct (fst (rd_GetLedgers seq w)) as [[|ledger rest]|e].
  - split; [|by left]. by intros h _ (? & ? & ? & _).
  - destruct (Z.eqb_spec (li_Sequence ledger) seq) as [E|N]; cbn [negb].
    2: { split; [|by left]. intros h _ (? & ? & [= <- <-] & ? & _). congruence. }
    unfold buildBlockHeaderFromMeta.
    destruct (LedgerCloseMeta_PreviousLedgerHash (li_XDR ledger)) as [prev|] eqn:Ep.
    2: { split; [|by left]. intros h _ (? & ? & [= <- <-] & _ & _ & ? & _). congruence. }
    destruct (toBytes32 (li_Hash ledger)) as [hash|] eqn:Eh.
    2: { split; [|by left]. intros h _ (? & ? & [= <- <-] & _ & ? & _). congruence. }
    split.
    + intros [n ha pa ts] _ (? & ? & [= <- <-] & ? & ? & ? & ? & ?). simpl in *. congruence.
    + right. eexists. split; [done|]. split; [|done]. by exists ledger, rest.
  - split; [|by left]. by intros h _ (? & ? & ? & _).
Qed.

Lemma headers_loop_spec l headers w :
  Forall (fun seq => 0 <= seq) l ->
  let headers' := fst (headers_loop l headers w) in
  (forall seq h, headers' !! seq = Some h -> headers !! seq = Some h \/
     (seq ∈ l /\ seq <= MaxUint32 /\ exists w1, header_of seq h (fst (rd_GetLedgers seq w1)))) /\
  (forall seq, is_Some (headers !! seq) -> is_Some (headers' !! seq)) /\
  (forall seq, seq ∈ l -> seq <= MaxUint32 ->
     (forall w1, exists h, header_of seq h (fst (rd_GetLedgers seq w1))) -> is_Some (headers' !! seq)).
Proof.
  intros Hl. revert headers w. induction Hl as [|s l Hs _ IH]; intros headers w; cbn [headers_loop].
  { split; [by left|]. split; [done|]. intros seq E. inversion E. }
  rewrite SM_bind_run. destruct (block_header_spec s headers w Hs) as [B1 B2].
  destruct (block_header s headers w) as [headers1 w1]. cbn [fst snd] in *.
  destruct (IH headers1 w1) as (I1 & I2 & I3). split; [|split].
  - intros seq h E. destruct (I1 seq h E) as [E1|(? & ? & ?)].
    + destruct B2 as [->|(h' & Hm & Hh & ->)]; [by left|].
      apply lookup_insert_Some in E1 as [[<- <-]|[_ ?]]; [right|by left].
      split; [constructor|]. eauto.
    + right. split; [by constructor|]. eauto.
  - intros seq Hi. apply I2. destruct B2 as [->|(h' & _ & _ & ->)]; [done|].
    apply lookup_insert_is_Some'. by right.
  - intros seq Hi Hm Hg. destruct (decide (seq = s)) as [->|N].
    + apply I2. destruct (Hg w) as [h Hh]. rewrite (B1 h Hm Hh), lookup_insert_eq. by eexists.
    + apply I3; [|done..]. by inversion Hi; subst.
Qed.

(** Block headers are those of the ledgers asked for.  Every header
    [GetBlocksHeaders] answers under a number was asked for, fits 32 bits, and is
    built from an answer of the node for that very ledger: its number, its own and
    its parent's hash (32 bytes), its close time.  A ledger the node always answers
    with a readable header is never left out; no failure of another one matters. *)
Theorem GetBlocksHeaders_spec l w :
  Forall (fun seq => 0 <= seq) l ->
  (forall seq h, fst (GetBlocksHeaders l w) !! seq = Some h ->
     seq ∈ l /\ seq <= MaxUint32 /\ Number h = seq /\ length (Hash h) = 32%nat /\
     exists w1, header_of seq h (fst (rd_GetLedgers seq w1))) /\
  (forall seq, seq ∈ l -> seq <= MaxUint32 ->
     (forall w1, exists h, header_of seq h (fst (rd_GetLedgers seq w1))) ->
     is_Some (fst (GetBlocksHeaders l w) !! seq)).
Proof.
  intros Hl. destruct (headers_loop_spec l ∅ w Hl) as (I1 & _ & I3). split; [|exact I3].
  intros seq h E. destruct (I1 seq h E) as [|(? & ? & w1 & Hh)]; [by rewrite lookup_empty in *|].
  split; [done|]. split; [done|]. destruct Hh as (ledger & rest & A & B & C & D & E1 & F).
  split; [done|]. split.
  - by apply (toBytes32_length (li_Hash ledger)).
  - exists w1. by exists ledger, rest.
Qed.

End Reader.

(** ** Witnesses

    A node with one CCIPMessageSent event, whose receipt takes the first blob, and
    one ledger. *)

Definition sent_receipt : ScVal :=
  ScvMap (Some (Some [mkScMapEntry (ScvSymbol (Some "dest_gas_limit")) (ScvU32 (Some 5));
                      mkScMapEntry (ScvSymbol (Some "issuer")) (contract_ScVal demo_key)])).

Definition sent_value : ScVal :=
  ScvMap (Some (Some [mkScMapEntry (ScvSymbol (Some "encoded_message")) (ScvBytes (Some [42]));
                      mkScMapEntry (ScvSymbol (Some "message_id")) (ScvBytes (Some (demo_id [42])));
                      mkScMapEntry (ScvSymbol (Some "receipts")) (ScvVec (Some (Some [sent_receipt])));
                      mkScMapEntry (ScvSymbol (Some "verifier_blobs")) (ScvVec (Some (Some [ScvBytes (Some [1]); ScvBytes (Some [2])])))])).

Definition sent_codec : Codec := {|
  strkey_Encode := strkey_Encode;
  strkey_Decode := strkey_Decode;
  xdr_AddressToAccountId := xdr_AddressToAccountId;
  ScAddress_UnmarshalBinary := ScAddress_UnmarshalBinary;
  ScVal_MarshalBinary := ScVal_MarshalBinary;
  ScVal_UnmarshalBinary := ScVal_UnmarshalBinary;
  ScVal_UnmarshalBase64 s :=
    if String.eqb s "E1" then Ok sent_value else Err (ErrorString "not scripted")
|}.

#[local] Existing Instances node_protocol sent_codec node_cursors node_events.

#[local] Instance demo_ledgers : LedgersClient (W := unit) := {|
  rd_GetLatestLedger w := (Ok (mkLedgerInfo (hex_EncodeToString demo_key) "header" 20 1000), w);
  rd_GetLedgers seq w :=
    (if seq =? 5 then Ok [mkLedgerInfo (hex_EncodeToString demo_key) "meta" 5 900]
     else Err (ErrorString "not found"), w)
|}.

#[local] Instance demo_headers : HeaderCodec := {|
  LedgerHeader_PreviousLedgerHash _ := Ok demo_key;
  LedgerCloseMeta_PreviousLedgerHash _ := Ok demo_key
|}.

Lemma sent_codec_shape x v : ScVal_UnmarshalBase64 x = Ok v -> decoded v = true.
Proof. cbn. destruct (String.eqb x "E1"); [|done]. intros [= <-]. by vm_compute. Qed.

Definition sent_message : MessageSentEvent :=
  mkMessageSentEvent (demo_id [42]) [42]
    [mkReceiptWithBlob demo_key 5 0 None [] [1]] 10 [116; 49].

Lemma i128_value_equiv_witness : I128FromScVal (ScvI128 (Some (mkInt128Parts (-1) 5))) = Returns (-18446744073709551611).
Proof. exact (i128_value_equiv (mkInt128Parts (-1) 5) ltac:(vm_compute; split; congruence)). Defined.

Lemma toBytes32_spec_witness : toBytes32 ("0X" +:+ hex_EncodeToString demo_key) = Ok demo_key.
Proof. exact (proj1 (proj2 (proj2 (toBytes32_spec demo_key demo_key_ok)))). Defined.

Lemma decodeCCIPMessageSentEvent_spec_witness :
  exists rcs, decodeCCIPMessageSentEvent node_event
    = Returns (mkMessageSentEvent (demo_id [42]) [42] rcs 10 [116; 49]) /\ length rcs = 1%nat.
Proof.
  destruct (@decodeCCIPMessageSentEvent_spec sent_codec node_protocol node_event sent_value ltac:(vm_compute; reflexivity) ltac:(vm_compute; reflexivity))
    as (rcs & E & L & _).
  exists rcs. split; [exact E|exact L].
Defined.


Lemma GetBlocksHeaders_spec_witness :
  is_Some (fst (GetBlocksHeaders [5; 6] tt) !! 5) /\
  forall h, fst (GetBlocksHeaders [5; 6] tt) !! 6 = Some h -> exists w1, header_of 6 h (fst (rd_GetLedgers 6 w1)).
Proof.
  destruct (GetBlocksHeaders_spec [5; 6] tt ltac:(repeat constructor; lia)) as [A B]. split.
  - apply B; [constructor|vm_compute; congruence|]. intros w1.
    exists (mkBlockHeader 5 demo_key demo_key 900), (mkLedgerInfo (hex_EncodeToString demo_key) "meta" 5 900), [].
    split_and!; reflexivity.
  - intros h E. exact (proj2 (proj2 (proj2 (proj2 (A 6 h E))))).
Defined.
