(* ===== verification/Interaction.v ===== *)
(** * Programs that interact with an environment

    A program is a tree: it ends with a value, or makes a request and goes on with
    the answer.  [wp] quantifies over every answer of the environment, [run] gives
    the answers by a handler on a state [W]; both keep the events so far, newest
    first.  [wp_run] transfers what is proved of all answers to each handler.  [swp]
    quantifies over the answers that a relation on a state allows.  A program whose
    value is an [outcome] may fail: [fprog] is their monad, [post] splits their
    postconditions. *)

From S2P Require Import Prelude.

Section Interaction.
Context {Req : Type} {Ans : Req -> Type}.

Record event := mkEvent { ev_req : Req; ev_ans : Ans ev_req }.

(** Newest first. *)
Abbreviation trace := (list event).

Inductive prog (A : Type) :=
| Done (a : A)
| Ask (r : Req) (k : Ans r -> prog A).
#[local] Arguments Done {A} a.
#[local] Arguments Ask {A} r k.

Fixpoint prog_bind {A B} (f : A -> prog B) (p : prog A) : prog B :=
  match p with
  | Done a => f a
  | Ask r k => Ask r (fun x => prog_bind f (k x))
  end.

(** ** Every answer *)

Fixpoint wp {A} (p : prog A) (Q : A -> trace -> Prop) (tr : trace) : Prop :=
  match p with
  | Done a => Q a tr
  | Ask r k => forall x, wp (k x) Q (mkEvent r x :: tr)
  end.

Lemma wp_bind {A B} (p : prog A) (f : A -> prog B) Q tr :
  wp (prog_bind f p) Q tr <-> wp p (fun a => wp (f a) Q) tr.
Proof. revert tr. induction p as [a|r k IH]; intros tr; simpl; [done|]. by setoid_rewrite IH. Qed.

Lemma wp_mono {A} (p : prog A) (Q Q' : A -> trace -> Prop) tr :
  wp p Q tr -> (forall a tr', Q a tr' -> Q' a tr') -> wp p Q' tr.
Proof. revert tr. induction p as [a|r k IH]; simpl; intros tr H HQ; [auto|]. intros x. eauto. Qed.

(** ** A handler *)

Section Run.
Context {W : Type}.
Variable h : forall r, W -> Ans r * W.

Fixpoint run {A} (p : prog A) (w : W) (tr : trace) : A * trace * W :=
  match p with
  | Done a => (a, tr, w)
  | Ask r k => let '(x, w') := h r w in run (k x) w' (mkEvent r x :: tr)
  end.

Lemma run_bind {A B} (p : prog A) (f : A -> prog B) w tr :
  run (prog_bind f p) w tr = let '(a, tr', w') := run p w tr in run (f a) w' tr'.
Proof.
  revert w tr. induction p as [a|r k IH]; intros w tr; simpl; [done|].
  destruct (h r w) as [x w']. apply IH.
Qed.

Lemma wp_run {A} (p : prog A) (Q : A -> trace -> Prop) w tr :
  wp p Q tr -> let '(a, tr', _) := run p w tr in Q a tr'.
Proof.
  revert w tr. induction p as [a|r k IH]; intros w tr H; simpl in *; [done|].
  destruct (h r w) as [x w']. apply IH, H.
Qed.

End Run.

End Interaction.

Arguments event {Req} Ans.
Arguments mkEvent {Req Ans} ev_req ev_ans.
Arguments ev_req {Req Ans} e.
Arguments ev_ans {Req Ans} e.
Arguments prog {Req} Ans A.
Arguments Done {Req Ans A} a.
Arguments Ask {Req Ans A} r k.

(** ** The answers a state allows *)

Section Stateful.
Context {Req : Type} {Ans : Req -> Type} {V : Type}.
Variable step : V -> forall r : Req, V -> Ans r -> Prop.

Fixpoint swp {A} (p : prog Ans A) (Q : A -> list (event Ans) -> V -> Prop)
    (tr : list (event Ans)) (v : V) : Prop :=
  match p with
  | Done a => Q a tr v
  | Ask r k => forall x v', step v r v' x -> swp (k x) Q (mkEvent r x :: tr) v'
  end.

Lemma swp_prog_bind {A B} (p : prog Ans A) (f : A -> prog Ans B) Q tr v :
  swp (prog_bind f p) Q tr v <-> swp p (fun a => swp (f a) Q) tr v.
Proof.
  revert tr v. induction p as [a|r k IH]; intros tr v; simpl; [done|]. by setoid_rewrite IH.
Qed.

Lemma swp_mono {A} (p : prog Ans A) (Q Q' : A -> list (event Ans) -> V -> Prop) tr v :
  swp p Q tr v -> (forall a tr' v', Q a tr' v' -> Q' a tr' v') -> swp p Q' tr v.
Proof.
  revert tr v. induction p as [a|r k IH]; simpl; intros tr v H HQ; [auto|]. intros x v' Hs. eauto.
Qed.

(** A handler whose answers are allowed. *)
Lemma swp_run {A} (h : forall r, V -> Ans r * V) (p : prog Ans A) Q tr v :
  (forall r v, step v r (h r v).2 (h r v).1) ->
  swp p Q tr v -> let '(a, tr', v') := run h p v tr in Q a tr' v'.
Proof.
  intros Hh. revert tr v. induction p as [a|r k IH]; simpl; intros tr v H; [done|].
  destruct (h r v) as [x v'] eqn:E. apply IH, H. pose proof (Hh r v) as S. by rewrite E in S.
Qed.

End Stateful.

(** ** Fallible programs *)

Definition fprog {Req} (Ans : Req -> Type) (A : Type) : Type := prog Ans (outcome A).

Section Fallible.
Context {Req : Type} {Ans : Req -> Type}.

#[export] Instance fprog_ret : MRet (fprog Ans) := fun A a => Done (Returns a).
#[export] Instance fprog_bind : MBind (fprog Ans) := fun A B f m =>
  prog_bind (fun r => match r with
                      | Returns a => f a
                      | Errs e => Done (Errs e)
                      | Panics => Done Panics
                      end) m.

Definition pfail {A} (e : error) : fprog Ans A := Done (Errs e).
Definition plift {A} (r : outcome A) : fprog Ans A := Done r.
Definition plift_res {A} (r : res A) : fprog Ans A := Done (out_of_res r).

Definition pwrap {A} (pre : string) (m : fprog Ans A) : fprog Ans A :=
  prog_bind (fun r => Done (wrap_out pre r)) m.

(** The value, the error and the panic of a fallible program. *)
Definition post {V A} (R : A -> list (event Ans) -> V -> Prop) (E : list (event Ans) -> V -> Prop)
    (r : outcome A) (tr : list (event Ans)) (v : V) : Prop :=
  match r with Returns a => R a tr v | _ => E tr v end.

Context {V : Type} (step : V -> forall r : Req, V -> Ans r -> Prop).

Lemma swp_bind {A B} (m : fprog Ans A) (f : A -> fprog Ans B) (R : B -> _ -> V -> Prop) E tr v :
  swp step m (post (fun a => swp step (f a) (post R E)) E) tr v ->
  swp step (mbind f m) (post R E) tr v.
Proof.
  intros H. unfold mbind, fprog_bind. rewrite swp_prog_bind. eapply swp_mono; [exact H|].
  intros r tr' v' Hr. by destruct r.
Qed.

(** A program that looks at the outcome itself. *)
Lemma swp_outcome {A B} (m : fprog Ans A) (f : outcome A -> prog Ans B) (Q : B -> _ -> V -> Prop) tr v :
  swp step m (post (fun a => swp step (f (Returns a)) Q)
                   (fun tr' v' => (forall e, swp step (f (Errs e)) Q tr' v') /\
                                  swp step (f Panics) Q tr' v')) tr v ->
  swp step (prog_bind f m) Q tr v.
Proof.
  intros H. rewrite swp_prog_bind. eapply swp_mono; [exact H|].
  intros [a|e|] tr' v'; [done|intros [He _]; apply He|by intros [_ ?]].
Qed.

Lemma swp_ret {A} (a : A) (R : A -> _ -> V -> Prop) E tr v :
  R a tr v -> swp step (mret a : fprog Ans A) (post R E) tr v.
Proof. done. Qed.

Lemma swp_pwrap {A} pre (m : fprog Ans A) (R : A -> _ -> V -> Prop) E tr v :
  swp step m (post R E) tr v -> swp step (pwrap pre m) (post R E) tr v.
Proof.
  intros H. unfold pwrap. rewrite swp_prog_bind. eapply swp_mono; [exact H|].
  intros r tr' v' Hr. by destruct r.
Qed.

Lemma swp_plift {A} (r : outcome A) (R : A -> _ -> V -> Prop) (E : _ -> V -> Prop) tr v :
  (forall a, r = Returns a -> R a tr v) -> (is_done r = false -> E tr v) ->
  swp step (plift r) (post R E) tr v.
Proof. intros HR HE. destruct r; simpl; eauto. Qed.

Lemma swp_plift_res {A} (r : res A) (R : A -> _ -> V -> Prop) (E : _ -> V -> Prop) tr v :
  (forall a, r = Ok a -> R a tr v) -> (forall e, r = Err e -> E tr v) ->
  swp step (plift_res r) (post R E) tr v.
Proof. intros HR HE. destruct r; simpl; eauto. Qed.

Lemma swp_weaken {A} (m : fprog Ans A) (R R' : A -> _ -> V -> Prop) (E E' : _ -> V -> Prop) tr v :
  swp step m (post R E) tr v ->
  (forall a tr' v', R a tr' v' -> R' a tr' v') -> (forall tr' v', E tr' v' -> E' tr' v') ->
  swp step m (post R' E') tr v.
Proof. intros H HR HE. eapply swp_mono; [exact H|]. intros [a|e|] tr' v'; simpl; auto. Qed.

End Fallible.
