(* ===== verification/Deployer.v ===== *)
(** * The deployer: data, interface and pure parts

    Models the data and the functions without effects of deployment/deployer.go:
    its options, fees, Soroban resources, identifiers and the extraction of
    results.  A deployer's call is a [D] program (Interaction.v) that makes the
    requests [dreq] to the node, the signer, the clock and the timers, and keeps
    the account sequence and the heap of operation objects. *)

From S2P Require Import Prelude GoFloat Sdk GoBytes Xdr Scval TypeConverters Invoker StellarService Interaction.

(** ** Ledger keys and entries *)

Inductive ConfigSettingId :=
| ConfigSettingContractComputeV0
| ConfigSettingContractLedgerCostV0
| ConfigSettingStateArchival.

Inductive ContractDataDurability := DurabilityTemporary | DurabilityPersistent.

(** [xdr.LedgerKey]; the kinds the program does not build are opaque. *)
Inductive LedgerKey :=
| LedgerKeyAccount (AccountId : AccountId)
| LedgerKeyConfigSetting (ConfigSettingId : ConfigSettingId)
| LedgerKeyContractCode (Hash : bytes)
| LedgerKeyContractData (Contract : ScAddress) (Key : ScVal) (Durability : ContractDataDurability)
| LedgerKeyOther (body : bytes).

Record AccountEntry := mkAccountEntry { ae_Balance : Z; ae_SeqNum : Z }.

Record ContractLedgerCost := mkContractLedgerCost { lc_TxMaxDiskReadBytes : Z; lc_TxMaxWriteBytes : Z }.

(** The arms of [xdr.ConfigSettingEntry] the program reads, [None] being nil. *)
Record ConfigSettingEntry := mkConfigSettingEntry {
  ContractCompute_TxMaxInstructions : option Z;
  ContractLedgerCost_ : option ContractLedgerCost;
  StateArchivalSettings_MaxEntryTtl : option Z
}.

(** [xdr.LedgerEntryData] as the decoder builds it: the arm of its type is set. *)
Inductive LedgerEntryData :=
| LedgerEntryAccount (a : AccountEntry)
| LedgerEntryConfigSetting (c : ConfigSettingEntry)
| LedgerEntryContractData (Val : ScVal)
| LedgerEntryOther (t : Z).

(** ** Transactions *)

(** [xdr.SorobanTransactionData] with its resources and footprint. *)
Record SorobanTransactionData := mkSorobanData {
  sd_ResourceFee : Z;
  sd_Instructions : Z;
  sd_DiskReadBytes : Z;
  sd_WriteBytes : Z;
  sd_ReadOnly : list LedgerKey;
  sd_ReadWrite : list LedgerKey;
  sd_ArchivedEntries : option (list Z)
}.

(** [xdr.SorobanTransactionData{Resources: {Footprint: {ReadOnly: keys}}}]. *)
Definition footprint_only (keys : list LedgerKey) : SorobanTransactionData :=
  mkSorobanData 0 0 0 0 keys [] None.

Definition set_fee (fee : Z) (d : SorobanTransactionData) : SorobanTransactionData :=
  mkSorobanData fee (sd_Instructions d) (sd_DiskReadBytes d) (sd_WriteBytes d)
    (sd_ReadOnly d) (sd_ReadWrite d) (sd_ArchivedEntries d).
Definition set_resources (instr disk write : Z) (d : SorobanTransactionData) : SorobanTransactionData :=
  mkSorobanData (sd_ResourceFee d) instr disk write (sd_ReadOnly d) (sd_ReadWrite d) (sd_ArchivedEntries d).
Definition set_instructions (instr : Z) (d : SorobanTransactionData) : SorobanTransactionData :=
  set_resources instr (sd_DiskReadBytes d) (sd_WriteBytes d) d.

(** The SDK's types and pure functions. *)
Class DeploySdk := {
  Asset : Type;
  SorobanAuthorizationEntry : Type;
  ClassicOp : Type;       (* the classic operations given by callers *)
  Envelope_ : Type        (* the envelope a txnbuild.Transaction holds *)
}.

Section Data.
Context `{DeploySdk}.

Inductive ContractIdPreimage :=
| FromAddress (Address : ScAddress) (Salt : bytes)
| FromAsset (a : Asset).

Inductive HostFunction :=
| HostFunctionInvokeContract (ContractAddress : ScAddress) (FunctionName : string) (Args : list ScVal)
| HostFunctionCreateContract (preimage : ContractIdPreimage) (Executable : ContractExecutable)
| HostFunctionUploadContractWasm (Wasm : bytes)
| HostFunctionCreateContractV2 (preimage : ContractIdPreimage) (Executable : ContractExecutable)
    (ConstructorArgs : list ScVal).

(** [txnbuild.Operation]; [Ext] is the Soroban data of a [TransactionExt] of
    version 1, [None] the empty extension. *)
Inductive DOperation :=
| OpInvokeHostFunction (hf : HostFunction) (SourceAccount : string)
    (Ext : option SorobanTransactionData) (Auth : list SorobanAuthorizationEntry)
| OpRestoreFootprint (SourceAccount : string) (Ext : option SorobanTransactionData)
| OpExtendFootprintTtl (ExtendTo : Z) (SourceAccount : string) (Ext : option SorobanTransactionData)
| OpNativePayment (Destination Amount : string)
| OpClassic (op : ClassicOp).

(** [txnbuild.TransactionParams]; the source account's sequence is the one before
    the increment. *)
Record TransactionParams := mkParams {
  p_SourceAccount : string;
  p_Sequence : Z;
  p_IncrementSequenceNum : bool;
  p_Operations : list DOperation;
  p_BaseFee : Z;
  p_TimeBounds : TimeBounds
}.

(** [xdr.HashIdPreimage] of a contract id. *)
Record HashIdPreimage := mkHashIdPreimage { hp_NetworkId : bytes; hp_Preimage : ContractIdPreimage }.

End Data.

(** The SDK's functions on them. *)
Class DeployFns `{DeploySdk} := {
  NewTransaction_ : TransactionParams -> res Envelope_;
  env_Base64 : Envelope_ -> res string;
  LedgerKey_Base64 : LedgerKey -> res string;
  SorobanData_Unmarshal : string -> res SorobanTransactionData;
  Auth_Unmarshal : string -> res SorobanAuthorizationEntry;
  LedgerEntryData_Unmarshal : string -> res LedgerEntryData;
  TransactionResult_Unmarshal : string -> res TransactionResult;
  TransactionMeta_Unmarshal : string -> res TransactionMeta;
  HashIdPreimage_Marshal : HashIdPreimage -> res bytes;
  sha256_Sum : bytes -> bytes;
  string_to_bytes : string -> bytes;
  HashTransactionInEnvelope : Envelope_ -> string -> res bytes;
  AddDecorated : bytes -> Envelope_ -> res Envelope_
}.

(** ** The deployer *)

Record Deployer := mkDeployer {
  dp_networkPassphrase : string;
  dp_signer_Address : string;
  dp_autoRestore : bool;
  dp_feeBumpFactor : f64;
  dp_logger : bool;           (* whether a logger is set *)
  dp_txnTimeBound : Z;
  dp_maxResourceFee : Z
}.

Definition defaultTxnTimeBound : Z := 120000000000.
Definition minFeeBuffer : Z := 10000.

Definition DeployerOption := Deployer -> Deployer.

Definition WithAutoRestore (enabled : bool) : DeployerOption := fun d =>
  mkDeployer (dp_networkPassphrase d) (dp_signer_Address d) enabled (dp_feeBumpFactor d) (dp_logger d)
    (dp_txnTimeBound d) (dp_maxResourceFee d).

Definition is_NaN_or_Inf (x : f64) : bool :=
  match x with SpecFloat.S754_nan | SpecFloat.S754_infinity _ => true | _ => false end.

Definition WithFeeBumpFactor (factor : f64) : DeployerOption := fun d =>
  let factor := if is_NaN_or_Inf factor || SpecFloat.SFltb factor f64_one then f64_one else factor in
  mkDeployer (dp_networkPassphrase d) (dp_signer_Address d) (dp_autoRestore d) factor (dp_logger d)
    (dp_txnTimeBound d) (dp_maxResourceFee d).

Definition WithTxnTimeBound (b : Z) : DeployerOption := fun d =>
  if b >? 0 then
    mkDeployer (dp_networkPassphrase d) (dp_signer_Address d) (dp_autoRestore d) (dp_feeBumpFactor d)
      (dp_logger d) b (dp_maxResourceFee d)
  else d.

Definition WithLogger (l : bool) : DeployerOption := fun d =>
  mkDeployer (dp_networkPassphrase d) (dp_signer_Address d) (dp_autoRestore d) (dp_feeBumpFactor d) l
    (dp_txnTimeBound d) (dp_maxResourceFee d).

Definition WithMaxResourceFee (maxFee : Z) : DeployerOption := fun d =>
  mkDeployer (dp_networkPassphrase d) (dp_signer_Address d) (dp_autoRestore d) (dp_feeBumpFactor d)
    (dp_logger d) (dp_txnTimeBound d) maxFee.

Definition NewDeployerWithSigner (networkPassphrase signer_Address : string) (opts : list DeployerOption) : Deployer :=
  fold_left (fun d opt => opt d) opts
    (mkDeployer networkPassphrase signer_Address true (f64_ratio 5 4) false defaultTxnTimeBound 0).

(** ** Errors

    The typed errors that the retry loop looks for with [errors.As], through any
    number of [%w] wraps. *)

Inductive derror :=
| DErr (e : error)
| ErrLedgerEntryNotFound
| resourceLimitExceededError (hash resultXDR : string)
| insufficientFeeRejectedError (label resultXDR : string)
| serverOverloadedError (label : string)
| transactionTimedOutError (hash : string)
| DWrap (pre : string) (e : derror).

(** The error at the end of the chain of wraps. *)
Fixpoint cause (e : derror) : derror :=
  match e with DWrap _ e' => cause e' | _ => e end.

Definition as_rle (e : derror) : bool :=
  match cause e with resourceLimitExceededError _ _ => true | _ => false end.
Definition as_ifr (e : derror) : bool :=
  match cause e with insufficientFeeRejectedError _ _ => true | _ => false end.
Definition as_soe (e : derror) : bool :=
  match cause e with serverOverloadedError _ => true | _ => false end.
Definition as_tto (e : derror) : bool :=
  match cause e with transactionTimedOutError _ => true | _ => false end.
Definition is_entry_not_found (e : derror) : bool :=
  match cause e with ErrLedgerEntryNotFound => true | _ => false end.

(** ** Classification of results *)

Definition TransactionResultCodeTxFailed : TransactionResultCode := TxResultOther (-1).
Definition OperationTypeInvokeHostFunction : Z := 24.

Section Results.
Context `{DeployFns}.

Definition isTxInsufficientFee (resultXDR : string) : bool :=
  if String.eqb resultXDR "" then false
  else match TransactionResult_Unmarshal resultXDR with
       | Err _ => false
       | Ok result => match tr_Code result with TxInsufficientFee => true | _ => false end
       end.

Definition isInvokeHostFunctionResourceLimitExceeded (resultXDR : string) : bool :=
  if String.eqb resultXDR "" then false
  else match TransactionResult_Unmarshal resultXDR with
       | Err _ => false
       | Ok result =>
           match tr_Code result, tr_Results result with
           | TxResultOther c, Some [opRes] =>
               if negb (c =? -1) then false
               else match op_Code opRes, op_Tr opRes with
                    | OpInner, Some tr =>
                        if negb (tr_Type tr =? OperationTypeInvokeHostFunction) then false
                        else match tr_InvokeHostFunctionResult tr with
                             | Some ResourceLimitExceeded => true
                             | _ => false
                             end
                    | _, _ => false
                    end
           | _, _ => false
           end
       end.

End Results.

(** ** Fees *)

Definition f64_sub : f64 -> f64 -> f64 := SpecFloat.SFsub 53 1024.

Section Fees.
Context `{FloatConv}.

Definition feeBumpExtra (minFee : Z) (factor : f64) : Z :=
  if minFee <=? 0 then 0
  else
    let x := f64_mul (f64_of_int minFee) (f64_sub factor f64_one) in
    if is_NaN_or_Inf x then 0 else f64_to_i64 (f64_ceil x).

Definition resourceFeeBump (d : Deployer) (minResourceFee : Z) : Z :=
  let bump := feeBumpExtra minResourceFee (dp_feeBumpFactor d) in
  if bump <? minFeeBuffer then minFeeBuffer else bump.

Definition checkResourceFee (d : Deployer) (fee : Z) : option derror :=
  if (dp_maxResourceFee d >? 0) && (fee >? dp_maxResourceFee d)
  then Some (DErr (ErrorString "resource fee exceeds configured cap"))
  else None.

End Fees.

(** ** Soroban resources *)

Record networkResourceCaps := mkCaps {
  caps_instructions : Z;
  caps_diskReadBytes : Z;
  caps_writeBytes : Z
}.

Definition clampToCap (v cap : Z) : Z := if (cap =? 0) || (v <=? cap) then v else cap.

Definition clampInt64ToUint32 (v : Z) : Z :=
  if v <=? 0 then 0 else if v >? MaxUint32 then MaxUint32 else u32 v.

Definition submitMaxAttempts : Z := 3.

(** The margin on the instructions of an invocation that carries authorizations. *)
Definition auth_margin (sd : SorobanTransactionData) : SorobanTransactionData :=
  set_instructions (u32 (sd_Instructions sd + u32 (sd_Instructions sd / 50 + 100000))) sd.

(** The local function [clamp] on a [uint64]. *)
Definition clamp_u32 (v : Z) : Z := if v >? MaxUint32 then MaxUint32 else u32 v.

(** The resources and the fee times [factor]. *)
Definition inflate (factor : Z) (sd : SorobanTransactionData) : SorobanTransactionData :=
  let sd := set_resources (clamp_u32 (u64 (sd_Instructions sd * factor)))
              (clamp_u32 (u64 (sd_DiskReadBytes sd * factor)))
              (clamp_u32 (u64 (sd_WriteBytes sd * factor))) sd in
  let fee := i64 (sd_ResourceFee sd * i64 factor) in
  if fee >? 0 then set_fee fee sd else sd.

Definition clamp_resources (caps : networkResourceCaps) (sd : SorobanTransactionData) : SorobanTransactionData :=
  set_resources (clampToCap (sd_Instructions sd) (caps_instructions caps))
    (clampToCap (sd_DiskReadBytes sd) (caps_diskReadBytes caps))
    (clampToCap (sd_WriteBytes sd) (caps_writeBytes caps)) sd.

(** The final attempt declares the whole instruction cap, its fee in proportion. *)
Definition raise_to_cap (attempt : Z) (caps : networkResourceCaps) (sd : SorobanTransactionData)
    : SorobanTransactionData :=
  if (attempt =? submitMaxAttempts) && (caps_instructions caps >? 0)
     && (sd_Instructions sd >? 0) && (sd_Instructions sd <? caps_instructions caps)
  then
    let fee := Z.quot (i64 (sd_ResourceFee sd * caps_instructions caps)) (sd_Instructions sd) in
    let sd' := if fee >? sd_ResourceFee sd then set_fee fee sd else sd in
    set_instructions (caps_instructions caps) sd'
  else sd.

(** [uint64(1) << (attempt - 1)]. *)
Definition attempt_factor (attempt : Z) : Z := u64 (Z.shiftl 1 (attempt - 1)).

Definition inflated (attempt : Z) (prevBudgetExceeded : bool) : bool := (attempt >? 1) && prevBudgetExceeded.

(** What is declared for a simulation's data: the resources and fee of an
    attempt. *)
Definition declared_data (bump : Z) (hasAuth : bool) (attempt : Z) (prevBudgetExceeded : bool)
    (caps : networkResourceCaps) (sd : SorobanTransactionData) : SorobanTransactionData :=
  let sd := set_fee (i64 (sd_ResourceFee sd + bump)) sd in
  let sd := if hasAuth then auth_margin sd else sd in
  if inflated attempt prevBudgetExceeded
  then raise_to_cap attempt caps (clamp_resources caps (inflate (attempt_factor attempt) sd))
  else sd.

(** ** Identifiers *)

Section Identifiers.
Context `{DeployFns} `{Codec}.

Definition deployer_preimage (pubKey256 salt : bytes) : ContractIdPreimage :=
  FromAddress (ScAddressTypeAccount (Some (mkAccountId 0 (Some pubKey256)))) salt.

Definition buildCreateContractHostFunction (pubKey256 wasmHash salt : bytes) (ctorArgs : list ScVal) : HostFunction :=
  let preimage := deployer_preimage pubKey256 salt in
  let executable := ContractExecutableWasm (Some wasmHash) in
  match ctorArgs with
  | [] => HostFunctionCreateContract preimage executable
  | _ => HostFunctionCreateContractV2 preimage executable ctorArgs
  end.

(** The contract id of a preimage on the network. *)
Definition contract_id (networkPassphrase : string) (preimage : ContractIdPreimage) : res string :=
  let networkID := sha256_Sum (string_to_bytes networkPassphrase) in
  match HashIdPreimage_Marshal (mkHashIdPreimage networkID preimage) with
  | Err e => Err (Wrapf "marshal preimage: " e)
  | Ok b => strkey_Encode VersionByteContract (sha256_Sum b)
  end.

Definition ComputeSACContractID (networkPassphrase : string) (asset : Asset) : res string :=
  contract_id networkPassphrase (FromAsset asset).

Definition ComputeContractID (networkPassphrase deployerAddress : string) (salt : bytes) : res string :=
  match strkey_Decode VersionByteAccountID deployerAddress with
  | Err e => Err (Wrapf "decode deployer address: " e)
  | Ok raw => contract_id networkPassphrase (deployer_preimage (copy32 raw) salt)
  end.

Definition GenerateDeterministicSalt (deployerAddress contractName : string) : bytes :=
  sha256_Sum (string_to_bytes (deployerAddress +:+ "-" +:+ contractName)).

(** ** Results of a transaction *)

(** The return value of the Soroban meta; reading it panics on the nil pointer
    that a version 4 meta holds when the call returned nothing. *)
Definition soroban_return (meta : option TransactionMeta) : outcome (option ScVal) :=
  match meta with
  | None => Errs (ErrorString "nil transaction meta")
  | Some meta =>
      if meta_V meta =? 4 then
        v ← deref (meta_V4 meta);
        match v with None => Errs (ErrorString "no soroban meta") | Some rv => Returns rv end
      else if meta_V meta =? 3 then
        v ← deref (meta_V3 meta);
        match v with None => Errs (ErrorString "no soroban meta") | Some rv => Returns (Some rv) end
      else Errs (ErrorString "unsupported version")
  end.

Definition extractWASMHash (meta : option TransactionMeta) : outcome bytes :=
  returnVal ← soroban_return meta;
  v ← deref returnVal;
  b ← need (GetBytes v) "return value is not bytes";
  Returns (copy32 b).

Definition extractContractID (meta : option TransactionMeta) : outcome string :=
  returnVal ← soroban_return meta;
  v ← deref returnVal;
  addr ← need (GetAddress v) "return value is not address";
  match addr with
  | ScAddressTypeContract contractId =>
      contractID ← deref contractId;
      out_of_res (strkey_Encode VersionByteContract contractID)
  | _ => Errs (ErrorString "address is not contract type")
  end.

Definition extractReturnValue (meta : option TransactionMeta) : outcome (option ScVal) :=
  match meta with
  | None => Returns None
  | Some meta =>
      if meta_V meta =? 4 then
        v ← deref (meta_V4 meta);
        match v with None => Returns None | Some rv => Returns rv end
      else if meta_V meta =? 3 then
        v ← deref (meta_V3 meta);
        match v with None => Returns None | Some rv => Returns (Some rv) end
      else Errs (ErrorString "unsupported transaction meta version")
  end.

End Identifiers.

Definition getResultXDR (result : SimulateHostFunctionResult) : option string :=
  match ReturnValueXDR result with
  | Some x => if String.eqb x "" then None else Some x
  | None => None
  end.

Definition getLedgerEntryXDR (entry : LedgerEntryResult) : option string :=
  if String.eqb (DataXDR entry) "" then None else Some (DataXDR entry).
