(* ===== verification/DeployerSubmit.v ===== *)
(** * The deployer: building, submitting and awaiting transactions

    Models the methods of deployment/deployer.go that reach the node.  A method is
    a [D] program: it can return, fail with an error, or panic; [Unfinished] is a
    confirmation poll that ran out of the model's fuel.  Operation objects live on
    a heap, because [assembleTransaction] writes the simulated data into the
    operation that the caller, and the retry loop, still hold. *)

From S2P Require Import Prelude GoFloat Sdk GoBytes Xdr Scval TypeConverters Invoker StellarService Interaction Deployer.

(** ** Requests *)

(** What a [select] over the context, the timeout and the ticker takes. *)
Inductive PollCase := PollDone | PollTimeout | PollTick.

Section Requests.
Context `{DeployFns} `{protocol.Cursors}.

Inductive dreq :=
| Now
| ContextErr                       (* [ctx.Err() != nil] *)
| Sleep (d : Z)
| Backoff (d : Z)                  (* [select] on the context and [time.After] *)
| StartPoll (d : Z)                (* the one-second ticker and [time.After(d)] *)
| PollSelect
| ReadFile (path : string)
| SignTransaction (passphrase : string) (tx : Envelope_)
| SignDecorated (hash : bytes)
| Simulate_ (tx : string)
| Send (tx : string)
| GetTransaction_ (hash : string)
| GetEntries (keys : list string)
| GetEvents_ (req : protocol.GetEventsRequest)
| GetLatest.

Definition dans (r : dreq) : Type :=
  match r with
  | Now => Z
  | ContextErr => bool
  | Sleep _ => unit
  | Backoff _ => bool              (* whether the timer fired *)
  | StartPoll _ => unit
  | PollSelect => PollCase
  | ReadFile _ => res bytes
  | SignTransaction _ _ => res Envelope_
  | SignDecorated _ => res bytes
  | Simulate_ _ => res SimulateTransactionResponse
  | Send _ => res SendTransactionResponse
  | GetTransaction_ _ => res GetTransactionResponse
  | GetEntries _ => res (list LedgerEntryResult)
  | GetEvents_ _ => res (list protocol.EventInfo)
  | GetLatest => res Z             (* the sequence of the latest ledger *)
  end.

End Requests.

(** ** The monad *)

Inductive dresult (A : Type) := Val (a : A) | Fail (e : derror) | Panicked | Unfinished.
Arguments Val {A} a.
Arguments Fail {A} e.
Arguments Panicked {A}.
Arguments Unfinished {A}.

(** [accountSequence] of the deployer, and the operation objects. *)
Record dstate `{DeploySdk} := mkDState {
  accountSequence : Z;
  op_heap : gmap positive DOperation
}.
Arguments mkDState {_}.

Definition D `{DeployFns} `{protocol.Cursors} (A : Type) : Type := dstate -> prog dans (dresult A * dstate).

Section Monad.
Context `{DeployFns} `{protocol.Cursors}.

#[export] Instance D_ret : MRet D := fun A a st => Done (Val a, st).
#[export] Instance D_bind : MBind D := fun A B f m st =>
  prog_bind (fun '(r, st') =>
    match r with
    | Val a => f a st'
    | Fail e => Done (Fail e, st')
    | Panicked => Done (Panicked, st')
    | Unfinished => Done (Unfinished, st')
    end) (m st).

Definition fail {A} (e : derror) : D A := fun st => Done (Fail e, st).
Definition failf {A} (msg : string) : D A := fail (DErr (ErrorString msg)).
Definition panic {A} : D A := fun st => Done (Panicked, st).
Definition unfinished {A} : D A := fun st => Done (Unfinished, st).
Definition call (r : dreq) : D (dans r) := fun st => Ask r (fun x => Done (Val x, st)).

(** [if err != nil { return fmt.Errorf(pre + ": %w", err) }]. *)
Definition wrapd {A} (pre : string) (m : D A) : D A := fun st =>
  prog_bind (fun '(r, st') => Done (match r with Fail e => Fail (DWrap pre e) | _ => r end, st')) (m st).

(** A result or a caught error, for code that inspects it. *)
Definition catch {A} (m : D A) : D (A + derror) := fun st =>
  prog_bind (fun '(r, st') =>
    Done (match r with
          | Val a => Val (inl a)
          | Fail e => Val (inr e)
          | Panicked => Panicked
          | Unfinished => Unfinished
          end, st')) (m st).

(** A fallible result, with or without a wrap. *)
Definition lift {A} (r : res A) : D A := match r with Ok a => mret a | Err e => fail (DErr e) end.
Definition liftw {A} (pre : string) (r : res A) : D A := wrapd pre (lift r).
Definition lift_out {A} (r : outcome A) : D A :=
  match r with Returns a => mret a | Errs e => fail (DErr e) | Panics => panic end.

Definition get_state : D dstate := fun st => Done (Val st, st).
Definition set_accountSequence (s : Z) : D unit := fun st => Done (Val tt, mkDState s (op_heap st)).
Definition set_op_heap (h : gmap positive DOperation) : D unit := fun st => Done (Val tt, mkDState (accountSequence st) h).

(** [&op]: a new operation object. *)
Definition new_operation (o : DOperation) : D positive :=
  st ← get_state;
  let r := fresh (dom (op_heap st)) in
  set_op_heap (<[r := o]> (op_heap st)) ;;
  mret r.

Definition write_operation (r : positive) (f : DOperation -> DOperation) : D unit :=
  st ← get_state;
  set_op_heap (alter f r (op_heap st)).

(** The objects that a slice of operations points to. *)
Definition read_operations (rs : list positive) : D (list DOperation) :=
  st ← get_state;
  mret (omap (fun r => op_heap st !! r) rs).

End Monad.

(** A [txnbuild.Transaction]: pointers to its operations, and the envelope built
    from them. *)
Record Tx `{DeploySdk} := mkTx { tx_ops : list positive; tx_env : Envelope_ }.
Arguments mkTx {_}.

Record SimpleAccount := mkSimpleAccount { AccountID : string; Sequence : Z }.

Section Submit.
Context `{DeployFns} `{!Codec} `{protocol.Cursors} `{FloatConv}.
Variable d : Deployer.

(** [deadline.Unix()] for a deadline in nanoseconds. *)
Definition unix_of (ns : Z) : Z := ns / 1000000000.

(** [txnbuild.NewTransaction] on operations that are read through their pointers. *)
Definition new_transaction (source : SimpleAccount) (ops : list positive) (deadline : Z) : D (res Tx) :=
  operations ← read_operations ops;
  mret (mkTx ops <$>
    NewTransaction_ (mkParams (AccountID source) (Sequence source) true operations MinBaseFee
                       (mkTimeBounds 0 (unix_of deadline)))).

(** ** The source account *)

(** [xdr.MustAddress]. *)
Definition account_key (address : string) : outcome LedgerKey :=
  match xdr_AddressToAccountId address with
  | Ok a => Returns (LedgerKeyAccount a)
  | Err _ => Panics
  end.

(** The loop of [getSourceAccount]: [n] attempts left. *)
Fixpoint fetch_with_retry (n : nat) (keyXDR : string) (backoff : Z) (err : error) : D (res (list LedgerEntryResult)) :=
  match n with
  | O => mret (Err err)
  | S n' =>
      resp ← call (GetEntries [keyXDR]);
      match resp with
      | Ok entries => mret (Ok entries)
      | Err e =>
          dead ← call ContextErr;
          if (dead : bool) then mret (Err e)
          else call (Sleep backoff) ;; fetch_with_retry n' keyXDR (i64 (backoff * 2)) e
      end
  end.

(** The sequence that the answer shows: 0 for an account that does not exist. *)
Definition account_sequence (entries : list LedgerEntryResult) : outcome Z :=
  match entries with
  | [] => Returns 0
  | e :: _ =>
      match getLedgerEntryXDR e with
      | None => Returns 0
      | Some entryXDR =>
          match LedgerEntryData_Unmarshal entryXDR with
          | Err e => Errs (Wrapf "failed to unmarshal account entry: " e)
          | Ok (LedgerEntryAccount a) => Returns (i64 (ae_SeqNum a))
          | Ok _ => Panics
          end
      end
  end.

Definition getSourceAccount : D SimpleAccount :=
  key ← lift_out (account_key (dp_signer_Address d));
  keyXDR ← liftw "failed to marshal account key: " (LedgerKey_Base64 key);
  resp ← fetch_with_retry 5 keyXDR 2000000000 (ErrorString "");
  entries ← liftw "failed to get ledger entries after attempts: " resp;
  sequence ← lift_out (account_sequence entries);
  set_accountSequence sequence ;;
  mret (mkSimpleAccount (dp_signer_Address d) sequence).

(** ** Reading ledger entries (ttl.go) *)

Definition fetchLedgerEntry (key : LedgerKey) : D LedgerEntryData :=
  keyXDR ← liftw "failed to marshal ledger key: " (LedgerKey_Base64 key);
  resp ← call (GetEntries [keyXDR]);
  entries ← lift resp;
  match entries with
  | [] => fail ErrLedgerEntryNotFound
  | e :: _ =>
      match getLedgerEntryXDR e with
      | None => failf "ledger entry has no data"
      | Some entryXDR => liftw "failed to decode ledger entry: " (LedgerEntryData_Unmarshal entryXDR)
      end
  end.

Definition GetConfigSetting (data : LedgerEntryData) : option ConfigSettingEntry :=
  match data with LedgerEntryConfigSetting c => Some c | _ => None end.

(** The caps that the two network-config entries show; 0 is unknown. *)
Definition caps_of (compute cost : LedgerEntryData + derror) : networkResourceCaps :=
  let instructions :=
    match compute with
    | inl data =>
        match GetConfigSetting data with
        | Some c => match ContractCompute_TxMaxInstructions c with Some m => clampInt64ToUint32 m | None => 0 end
        | None => 0
        end
    | inr _ => 0
    end in
  let '(disk, write) :=
    match cost with
    | inl data =>
        match GetConfigSetting data with
        | Some c => match ContractLedgerCost_ c with
                    | Some lc => (lc_TxMaxDiskReadBytes lc, lc_TxMaxWriteBytes lc)
                    | None => (0, 0)
                    end
        | None => (0, 0)
        end
    | inr _ => (0, 0)
    end in
  mkCaps instructions disk write.

Definition configSettingLedgerKey (id : ConfigSettingId) : LedgerKey := LedgerKeyConfigSetting id.

Definition networkResourceCaps_ : D networkResourceCaps :=
  compute ← catch (fetchLedgerEntry (configSettingLedgerKey ConfigSettingContractComputeV0));
  cost ← catch (fetchLedgerEntry (configSettingLedgerKey ConfigSettingContractLedgerCostV0));
  mret (caps_of compute cost).

(** ** Awaiting a transaction *)

(** The loop of [waitForTransaction]; each iteration takes one case of the [select]. *)
Fixpoint poll (fuel : nat) (hash : string) : D TransactionMeta :=
  match fuel with
  | O => unfinished
  | S fuel' =>
      sel ← call PollSelect;
      match sel with
      | PollDone => fail (DErr ErrCtx)
      | PollTimeout => fail (transactionTimedOutError hash)
      | PollTick =>
          r ← call (GetTransaction_ hash);
          match r with
          | Err _ => poll fuel' hash
          | Ok result =>
              match gt_Status result with
              | TransactionStatusSuccess =>
                  if String.eqb (gt_ResultMetaXDR result) "" then failf "no result meta XDR"
                  else liftw "failed to decode result meta: " (TransactionMeta_Unmarshal (gt_ResultMetaXDR result))
              | TransactionStatusFailed =>
                  if isInvokeHostFunctionResourceLimitExceeded (gt_ResultXDR result)
                  then fail (resourceLimitExceededError hash (gt_ResultXDR result))
                  else failf "transaction failed"
              | _ => poll fuel' hash
              end
          end
      end
  end.

Definition waitForTransaction (fuel : nat) (hash : string) (deadline : Z) : D TransactionMeta :=
  n ← call Now;
  let remaining := time_sub deadline n in
  if remaining <=? 0 then failf "transaction deadline already elapsed"
  else call (StartPoll remaining) ;; poll fuel hash.

(** The error for a submission that was not accepted. *)
Definition submit_rejection (label : string) (r : SendTransactionResponse) : option derror :=
  match send_Status r with
  | TXStatusPending | TXStatusDuplicate => None
  | TXStatusTryAgainLater => Some (serverOverloadedError label)
  | TXStatusError =>
      if negb (String.eqb (send_ErrorResultXDR r) "") then
        if isTxInsufficientFee (send_ErrorResultXDR r)
        then Some (insufficientFeeRejectedError label (send_ErrorResultXDR r))
        else Some (DErr (ErrorString (label +:+ "transaction rejected")))
      else Some (DErr (ErrorString (label +:+ "transaction rejected with status ERROR")))
  | TXStatusOther _ => Some (DErr (ErrorString ("unexpected " +:+ label +:+ "transaction status")))
  end.

(** Signing, encoding and sending, with the errors' texts. *)
Definition sign_and_send (sign_msg xdr_msg send_msg : string) (tx : Tx) : D SendTransactionResponse :=
  signed ← call (SignTransaction (dp_networkPassphrase d) (tx_env tx));
  signedTx ← liftw sign_msg signed;
  signedXDR ← liftw xdr_msg (env_Base64 signedTx);
  sent ← call (Send signedXDR);
  liftw send_msg sent.

Definition signSubmitAndWait (fuel : nat) (tx : Tx) (deadline : Z) (label : string) : D (TransactionMeta * string) :=
  submitResult ← sign_and_send ("failed to sign " +:+ label +:+ "transaction: ")
                   ("failed to get signed " +:+ label +:+ "transaction XDR: ")
                   ("failed to submit " +:+ label +:+ "transaction: ") tx;
  match submit_rejection label submitResult with
  | Some e => fail e
  | None =>
      meta ← waitForTransaction fuel (send_Hash submitResult) deadline;
      mret (meta, send_Hash submitResult)
  end.

(** ** Assembling *)

Definition with_ext (sd : SorobanTransactionData) (o : DOperation) : DOperation :=
  match o with
  | OpInvokeHostFunction hf src _ auth => OpInvokeHostFunction hf src (Some sd) auth
  | _ => o
  end.
Definition with_auth (auth : list SorobanAuthorizationEntry) (o : DOperation) : DOperation :=
  match o with
  | OpInvokeHostFunction hf src ext _ => OpInvokeHostFunction hf src ext auth
  | _ => o
  end.
(** [ihf.Ext = xdr.TransactionExt{}; ihf.Auth = nil]. *)
Definition bare (o : DOperation) : DOperation :=
  match o with
  | OpInvokeHostFunction hf src _ _ => OpInvokeHostFunction hf src None []
  | _ => o
  end.

Definition is_invoke (o : option DOperation) : bool :=
  match o with Some (OpInvokeHostFunction _ _ _ _) => true | _ => false end.

(** The authorizations of the first result, when there are any. *)
Definition sim_auth (sim : SimulateTransactionResponse) : list string :=
  match sim_Results sim with
  | r :: _ => default [] (AuthXDR r)
  | [] => []
  end.
Definition hasAuth (sim : SimulateTransactionResponse) : bool :=
  match sim_auth sim with [] => false | _ => true end.

(** The part of [assembleTransaction] guarded by [sim.TransactionDataXDR != ""]. *)
Definition assemble_data (first : positive) (sim : SimulateTransactionResponse) (bump attempt : Z)
    (prevBudgetExceeded : bool) : D unit :=
  sorobanData ← liftw "failed to decode soroban data: " (SorobanData_Unmarshal (sim_TransactionDataXDR sim));
  st ← get_state;
  if is_invoke (op_heap st !! first) then
    caps ← (if inflated attempt prevBudgetExceeded then networkResourceCaps_ else mret (mkCaps 0 0 0));
    let data := declared_data bump (hasAuth sim) attempt prevBudgetExceeded caps sorobanData in
    match checkResourceFee d (sd_ResourceFee data) with
    | Some e => fail e
    | None =>
        write_operation first (with_ext data) ;;
        if hasAuth sim then
          auth ← liftw "failed to decode auth: " (mapM_res (fun _ => Auth_Unmarshal) 0 (sim_auth sim));
          write_operation first (with_auth auth)
        else mret tt
    end
  else mret tt.

Definition assembleTransaction (tx : Tx) (sim : SimulateTransactionResponse) (deadline attempt : Z)
    (prevBudgetExceeded : bool) : D Tx :=
  match tx_ops tx with
  | [] => mret tx
  | first :: _ =>
      let bump := if sim_MinResourceFee sim >? 0 then resourceFeeBump d (sim_MinResourceFee sim) else 0 in
      (if String.eqb (sim_TransactionDataXDR sim) "" then mret tt
       else assemble_data first sim bump attempt prevBudgetExceeded) ;;
      if sim_MinResourceFee sim >? 0 then
        source ← getSourceAccount;
        rebuilt ← new_transaction source (tx_ops tx) deadline;
        lift rebuilt
      else mret tx
  end.

(** ** Simulation and restoration *)

(** A transaction built and simulated. *)
Definition draft (build_msg suffix : string) (source : SimpleAccount) (ops : list positive) (deadline : Z)
    : D (Tx * SimulateTransactionResponse) :=
  built ← new_transaction source ops deadline;
  tx ← liftw build_msg built;
  txXDR ← liftw ("failed to get transaction XDR" +:+ suffix +:+ ": ") (env_Base64 (tx_env tx));
  answer ← call (Simulate_ txXDR);
  simResult ← liftw ("simulation failed" +:+ suffix +:+ ": ") answer;
  if String.eqb (sim_Error simResult) "" then mret (tx, simResult)
  else failf ("simulation error" +:+ suffix).

Definition restoreFootprint (fuel : nat) (preamble : RestorePreamble) : D unit :=
  n ← call Now;
  let restoreDeadline := n + dp_txnTimeBound d in
  source ← wrapd "failed to get source account for restore: " getSourceAccount;
  sorobanData ← liftw "failed to decode restore preamble soroban data: "
                  (SorobanData_Unmarshal (rp_TransactionDataXDR preamble));
  let data := set_fee (i64 (sd_ResourceFee sorobanData + resourceFeeBump d (rp_MinResourceFee preamble))) sorobanData in
  match checkResourceFee d (sd_ResourceFee data) with
  | Some e => fail (DWrap "restore footprint: " e)
  | None =>
      op ← new_operation (OpRestoreFootprint (dp_signer_Address d) (Some data));
      built ← new_transaction source [op] restoreDeadline;
      tx ← liftw "failed to build restore transaction: " built;
      wrapd "restore transaction failed: " (signSubmitAndWait fuel tx restoreDeadline "restore ") ;;
      mret tt
  end.

(** The restoration of expired entries, then the second simulation, of the
    operations that [ops] makes; with the new deadline. *)
Definition restore_and_draft (fuel : nat) (preamble : RestorePreamble) (ops : D (list positive))
    : D (Tx * SimulateTransactionResponse * Z) :=
  wrapd "failed to restore expired ledger entries: " (restoreFootprint fuel preamble) ;;
  source ← wrapd "failed to get source account after restore: " getSourceAccount;
  n ← call Now;
  let deadline := n + dp_txnTimeBound d in
  os ← ops;
  r ← draft "failed to rebuild transaction after restore: " " after restore" source os deadline;
  match sim_RestorePreamble r.2 with
  | Some _ => failf "simulation after restore still requires another restore: unexpected second RestorePreamble"
  | None => mret (r, deadline)
  end.

(** ** The submission *)

Definition buildSimulateAndSubmitOnce (fuel : nat) (source : SimpleAccount) (op : positive) (attempt : Z)
    (prevBudgetExceeded : bool) : D (TransactionMeta * string) :=
  n ← call Now;
  let txnDeadline := n + dp_txnTimeBound d in
  write_operation op bare ;;
  first ← draft "failed to build transaction: " "" source [op] txnDeadline;
  round ← match sim_RestorePreamble first.2 with
          | Some preamble =>
              if dp_autoRestore d then restore_and_draft fuel preamble (mret [op])
              else mret (first, txnDeadline)
          | None => mret (first, txnDeadline)
          end;
  let '(tx, simResult, deadline) := round in
  assembled ← wrapd "failed to assemble transaction: "
                (assembleTransaction tx simResult deadline attempt prevBudgetExceeded);
  signSubmitAndWait fuel assembled deadline "".

Definition serverOverloadedBackoff : Z := 1000000000.

(** The failures the loop answers with another round. *)
Definition recoverable (e : derror) : bool := as_rle e || as_ifr e || as_soe e || as_tto e.

(** [rem] rounds are left after this one: the attempt's number is
    [submitMaxAttempts - rem]. *)
Fixpoint submit_loop (fuel rem : nat) (source : SimpleAccount) (op : positive) (prevBudgetExceeded : bool)
    : D (TransactionMeta * string) :=
  let attempt := submitMaxAttempts - Z.of_nat rem in
  r ← catch (buildSimulateAndSubmitOnce fuel source op attempt prevBudgetExceeded);
  match r with
  | inl v => mret v
  | inr e =>
      match rem with
      | O => fail e
      | S rem' =>
          if negb (recoverable e) then fail e
          else
            fired ← (if as_soe e then call (Backoff (attempt * serverOverloadedBackoff)) else mret true);
            if negb fired then fail (DErr ErrCtx)
            else
              source' ← wrapd "failed to get source account for retry: " getSourceAccount;
              submit_loop fuel rem' source' op (prevBudgetExceeded || as_rle e)
      end
  end.

Definition buildAndSubmitTransaction (fuel : nat) (source : SimpleAccount) (op : positive) : D (TransactionMeta * string) :=
  submit_loop fuel 2 source op false.

End Submit.
