(* ===== verification/DeployerCalls.v ===== *)
(** * The deployer's operations

    Models the exported methods of deployment/deployer.go, composed from the
    submission of DeployerSubmit.v: uploads, deployments, invocations, simulations,
    payments and the reads of accounts and events; and deployment/ttl.go: extending
    the life of ledger entries. *)

From stdpp Require Import pretty.
From S2P Require Import Prelude GoFloat Sdk GoBytes Xdr Scval TypeConverters Invoker StellarService Interaction Deployer DeployerSubmit.

Section Calls.
Context `{DeployFns} `{!Codec} `{protocol.Cursors} `{FloatConv}.
Variable d : Deployer.
Variable fuel : nat.

(** One host function, submitted from a fresh read of the account. *)
Definition submit_host_function (source : SimpleAccount) (hf : HostFunction) : D (TransactionMeta * string) :=
  op ← new_operation (OpInvokeHostFunction hf (dp_signer_Address d) None []);
  buildAndSubmitTransaction d fuel source op.

(** ** Deployment *)

Definition uploadWASM (wasmBytes : bytes) : D bytes :=
  source ← wrapd "failed to get source account: " (getSourceAccount d);
  r ← submit_host_function source (HostFunctionUploadContractWasm wasmBytes);
  wrapd "failed to extract WASM hash: " (lift_out (extractWASMHash (Some r.1))).

Definition createContractInstance (wasmHash salt : bytes) (ctorArgs : list ScVal) : D string :=
  source ← wrapd "failed to get source account: " (getSourceAccount d);
  pubKeyBytes ← liftw "failed to decode public key: " (strkey_Decode VersionByteAccountID (dp_signer_Address d));
  r ← submit_host_function source
        (buildCreateContractHostFunction (copy32 pubKeyBytes) wasmHash salt ctorArgs);
  wrapd "failed to extract contract ID: " (lift_out (extractContractID (Some r.1))).

Definition DeployContractBytesWithArgs (wasmBytes salt : bytes) (ctorArgs : list ScVal) : D string :=
  wasmHash ← wrapd "failed to upload WASM: " (uploadWASM wasmBytes);
  wrapd "failed to create contract instance: " (createContractInstance wasmHash salt ctorArgs).

Definition DeployContractBytes (wasmBytes salt : bytes) : D string := DeployContractBytesWithArgs wasmBytes salt [].

(** [os.ReadFile] and its wrap. *)
Definition read_wasm (wasmPath : string) : D bytes :=
  r ← call (ReadFile wasmPath);
  liftw "failed to read WASM file: " r.

Definition DeployContractWithArgs (wasmPath : string) (salt : bytes) (ctorArgs : list ScVal) : D string :=
  wasmBytes ← read_wasm wasmPath;
  DeployContractBytesWithArgs wasmBytes salt ctorArgs.

Definition DeployContract (wasmPath : string) (salt : bytes) : D string := DeployContractWithArgs wasmPath salt [].

Definition UploadContractWASMBytes (wasmBytes : bytes) : D bytes := uploadWASM wasmBytes.

Definition UploadContractWASM (wasmPath : string) : D bytes :=
  wasmBytes ← read_wasm wasmPath;
  UploadContractWASMBytes wasmBytes.

(** ** Calls of a contract *)

Definition invoke_function (contractID functionName : string) (args : list ScVal) : D HostFunction :=
  contractBytes ← liftw "failed to decode contract ID: " (strkey_Decode VersionByteContract contractID);
  match BuildContractScAddress contractBytes with
  | None => failf "failed to build contract address"
  | Some contractAddr => mret (HostFunctionInvokeContract contractAddr functionName args)
  end.

Definition InvokeContract (contractID functionName : string) (args : list ScVal) : D (option ScVal) :=
  source ← wrapd "failed to get source account: " (getSourceAccount d);
  hf ← invoke_function contractID functionName args;
  r ← submit_host_function source hf;
  wrapd "failed to extract return value: " (lift_out (extractReturnValue (Some r.1))).

(** The value of a simulation: none without a result. *)
Definition simulated_value (simResult : SimulateTransactionResponse) : res (option ScVal) :=
  match sim_Results simResult with
  | [] => Ok None
  | result :: _ =>
      match getResultXDR result with
      | None => Ok None
      | Some resultXDR =>
          if String.eqb resultXDR "" then Ok None
          else match ScVal_UnmarshalBase64 resultXDR with
               | Err e => Err (Wrapf "failed to decode result: " e)
               | Ok scVal => Ok (Some scVal)
               end
      end
  end.

Definition SimulateContract (contractID functionName : string) (args : list ScVal) : D (option ScVal) :=
  hf ← invoke_function contractID functionName args;
  source ← wrapd "failed to get source account: " (getSourceAccount d);
  let make := op ← new_operation (OpInvokeHostFunction hf (dp_signer_Address d) None []); mret [op] in
  n ← call Now;
  ops ← make;
  first ← draft "failed to build transaction: " "" source ops (n + dp_txnTimeBound d);
  round ← match sim_RestorePreamble first.2 with
          | Some preamble =>
              if dp_autoRestore d then r ← restore_and_draft d fuel preamble make; mret r.1
              else mret first
          | None => mret first
          end;
  lift (simulated_value round.2).

Definition deployer_GetEvents (contractID : string) (startLedger : Z) (topics : list string)
    : D (list protocol.EventInfo) :=
  let topicFilter :=
    ((fun t => protocol.mkSegmentFilter None (SymbolToScValPtr t)) <$> topics)
    ++ [protocol.mkSegmentFilter (Some protocol.WildCardZeroOrMore) None] in
  resp ← call (GetEvents_ (protocol.mkGetEventsRequest _ startLedger 0
                 [protocol.mkEventFilter {[protocol.EventTypeContract]} [contractID] [topicFilter]] None ""));
  liftw "failed to get events: " resp.

(** ** Accounts and payments *)

(** [(balance, seq, exists)]. *)
Definition native_account (entries : list LedgerEntryResult) : outcome (Z * Z * bool) :=
  match entries with
  | [] => Returns (0, 0, false)
  | e :: _ =>
      match getLedgerEntryXDR e with
      | None => Returns (0, 0, false)
      | Some entryXDR =>
          match LedgerEntryData_Unmarshal entryXDR with
          | Err e => Errs (Wrapf "unmarshal account entry: " e)
          | Ok (LedgerEntryAccount account) =>
              let seqN := i64 (ae_SeqNum account) in
              if seqN <? 0 then Errs (ErrorString "invalid account sequence")
              else Returns (i64 (ae_Balance account), u64 seqN, true)
          | Ok _ => Panics
          end
      end
  end.

Definition NativeAccountState (rawAccountKey : bytes) : D (Z * Z * bool) :=
  if negb (Nat.eqb (length rawAccountKey) 32) then failf "expected 32-byte account key"
  else
    gAddr ← liftw "encode account id: " (strkey_Encode VersionByteAccountID rawAccountKey);
    aid ← liftw "account id from address: " (xdr_AddressToAccountId gAddr);
    keyXDR ← liftw "marshal account ledger key: " (LedgerKey_Base64 (LedgerKeyAccount aid));
    resp ← call (GetEntries [keyXDR]);
    entries ← liftw "get ledger entries: " resp;
    lift_out (native_account entries).

Definition SubmitClassicOperation (op : DOperation) : D unit :=
  src ← wrapd "load source account: " (getSourceAccount d);
  n ← call Now;
  let txnDeadline := n + dp_txnTimeBound d in
  r ← new_operation op;
  built ← new_transaction src [r] txnDeadline;
  tx ← liftw "build transaction: " built;
  submitResult ← sign_and_send d "sign transaction: " "encode signed transaction: " "submit transaction: " tx;
  match send_Status submitResult with
  | TXStatusPending | TXStatusDuplicate =>
      waitForTransaction fuel (send_Hash submitResult) txnDeadline ;; mret tt
  | TXStatusTryAgainLater => failf "transaction submission failed: server overloaded, try again later"
  | TXStatusError =>
      if negb (String.eqb (send_ErrorResultXDR submitResult) "") then failf "transaction rejected"
      else failf "transaction rejected with status ERROR"
  | TXStatusOther _ => failf "unexpected transaction status"
  end.

Definition SendNativePayment (destinationStrkey : string) (stroops : Z) : D unit :=
  if stroops <=? 0 then failf "payment amount must be positive"
  else
    liftw "invalid destination account: " (xdr_AddressToAccountId destinationStrkey) ;;
    src ← wrapd "load source account: " (getSourceAccount d);
    op ← new_operation (OpNativePayment destinationStrkey (pretty stroops));
    buildAndSubmitTransaction d fuel src op ;;
    mret tt.

(** ** Asset contracts *)

Definition ContractInstanceLedgerKey (contractID : string) : res LedgerKey :=
  match strkey_Decode VersionByteContract contractID with
  | Err e => Err (Wrapf "invalid contract id: " e)
  | Ok raw => Ok (LedgerKeyContractData (ScAddressTypeContract (Some (copy32 raw)))
                    ScvLedgerKeyContractInstance DurabilityPersistent)
  end.

Definition sac_function (asset : Asset) : HostFunction :=
  HostFunctionCreateContract (FromAsset asset) ContractExecutableStellarAsset.

Definition DeploySACToken (asset : Asset) : D string :=
  contractID ← liftw "compute SAC contract ID: " (ComputeSACContractID (dp_networkPassphrase d) asset);
  key ← lift (ContractInstanceLedgerKey contractID);
  found ← catch (fetchLedgerEntry key);
  match found with
  | inl _ => mret contractID
  | inr e =>
      if negb (is_entry_not_found e) then fail (DWrap "check existing SAC: " e)
      else
        src ← wrapd "load source account: " (getSourceAccount d);
        wrapd "deploy SAC: " (submit_host_function src (sac_function asset)) ;;
        mret contractID
  end.

(** ** The signer over a signature of the envelope's hash

    [sdkTxSigner.SignTransaction]. *)

Definition sdk_SignTransaction (networkPassphrase : string) (tx : Envelope_) : D Envelope_ :=
  h ← liftw "hash transaction envelope: " (HashTransactionInEnvelope tx networkPassphrase);
  dec ← call (SignDecorated h);
  signature ← liftw "sign decorated: " dec;
  lift (AddDecorated signature tx).

End Calls.

Definition ContractCodeLedgerKey (wasmHash : bytes) : LedgerKey := LedgerKeyContractCode wasmHash.

Section Ttl.
Context `{DeployFns} `{!Codec} `{protocol.Cursors} `{FloatConv}.
Variable d : Deployer.
Variable fuel : nat.

(** ** Instances *)

(** The WASM hash of an instance entry, [None] when it is not one. *)
Definition instance_hash (data : LedgerEntryData) : option bytes :=
  match data with
  | LedgerEntryContractData (ScvContractInstance (Some inst)) =>
      match Executable inst with
      | ContractExecutableWasm (Some h) => Some h
      | _ => None
      end
  | _ => None
  end.

Definition ContractWasmHash (contractID : string) : D bytes :=
  key ← lift (ContractInstanceLedgerKey contractID);
  data ← wrapd "fetch instance: " (fetchLedgerEntry key);
  match instance_hash data with
  | None => failf "contract is not a WASM contract instance"
  | Some h => mret h
  end.

(** [(exists, wasmHash)]; a hash of zeros when there is none. *)
Definition ContractInstanceState (contractID : string) : D (bool * bytes) :=
  r ← catch (ContractWasmHash contractID);
  match r with
  | inl h => mret (true, h)
  | inr e => if is_entry_not_found e then mret (false, replicate 32 0) else fail e
  end.

(** ** Reading *)

Definition maxEntryTTL : D Z :=
  data ← wrapd "fetch state archival settings: " (fetchLedgerEntry (LedgerKeyConfigSetting ConfigSettingStateArchival));
  match GetConfigSetting data with
  | Some cs =>
      match StateArchivalSettings_MaxEntryTtl cs with
      | Some m => mret (u32 m)
      | None => failf "state archival settings missing from config setting entry"
      end
  | None => failf "state archival settings missing from config setting entry"
  end.

(** The map from keys to live-until ledgers; a later entry of a key wins. *)
Definition ttl_by_key (entries : list LedgerEntryResult) : gmap string Z :=
  fold_left (fun m e =>
    match LiveUntilLedgerSeq e with Some l => <[KeyXDR e := l]> m | None => m end) entries ∅.

(** The loop over the keys asked for. *)
Fixpoint ttls_of (byKey : gmap string Z) (keyXDRs : list string) : res (list Z) :=
  match keyXDRs with
  | [] => Ok []
  | k :: ks =>
      match byKey !! k with
      | None => Err (ErrorString "ledger entry not found after extend")
      | Some ttl => match ttls_of byKey ks with Err e => Err e | Ok out => Ok (ttl :: out) end
      end
  end.

Definition liveUntilLedgers (keys : list LedgerKey) : D (list Z) :=
  keyXDRs ← liftw "failed to marshal ledger key: " (mapM_res (fun _ => LedgerKey_Base64) 0 keys);
  resp ← call (GetEntries keyXDRs);
  entries ← liftw "read back TTLs: " resp;
  lift (ttls_of (ttl_by_key entries) keyXDRs).

(** [int64(lu)-int64(latest.Sequence) < int64(ttl)] for none of the entries. *)
Definition all_at_ttl (latest ttl : Z) (liveUntil : list Z) : bool :=
  forallb (fun lu => negb (lu - latest <? ttl)) liveUntil.

Definition entriesAtTTL (keys : list LedgerKey) (ttl : Z) : D bool :=
  l ← call GetLatest;
  latest ← liftw "failed to get latest ledger: " l;
  liveUntil ← liveUntilLedgers keys;
  mret (all_at_ttl latest ttl liveUntil).

(** ** Extending *)

Definition buildExtendTransaction (seq extendTo : Z) (data : SorobanTransactionData) (deadline : Z) : D Tx :=
  op ← new_operation (OpExtendFootprintTtl extendTo (dp_signer_Address d) (Some data));
  built ← new_transaction (mkSimpleAccount (dp_signer_Address d) seq) [op] deadline;
  liftw "failed to build extend transaction: " built.

Definition simulateExtend (keys : list LedgerKey) (extendTo deadline : Z) : D (Z * SimulateTransactionResponse) :=
  source ← wrapd "failed to get source account: " (getSourceAccount d);
  tx ← buildExtendTransaction (Sequence source) extendTo (footprint_only keys) deadline;
  draftXDR ← liftw "failed to get extend transaction XDR: " (env_Base64 (tx_env tx));
  answer ← call (Simulate_ draftXDR);
  sim ← liftw "extend simulation failed: " answer;
  if String.eqb (sim_Error sim) "" then mret (Sequence source, sim)
  else failf "extend simulation error".

(** The restoration before the extension, and the second simulation. *)
Definition restore_and_simulate (keys : list LedgerKey) (extendTo : Z) (preamble : RestorePreamble)
    : D (Z * SimulateTransactionResponse * Z) :=
  wrapd "failed to restore archived ledger entries: " (restoreFootprint d fuel preamble) ;;
  n ← call Now;
  let deadline := n + dp_txnTimeBound d in
  r ← simulateExtend keys extendTo deadline;
  match sim_RestorePreamble r.2 with
  | Some _ => failf "simulation after restore still requires another restore: unexpected second RestorePreamble"
  | None => mret (r, deadline)
  end.

(** The data of the transaction that is sent, or the refusal of its fee. *)
Definition extend_data (sim : SimulateTransactionResponse) (sorobanData : SorobanTransactionData)
    : SorobanTransactionData + derror :=
  let data := set_fee (i64 (sd_ResourceFee sorobanData + resourceFeeBump d (sim_MinResourceFee sim))) sorobanData in
  if i64 (sd_ResourceFee data + MinBaseFee) >? MaxUint32
  then inr (DErr (ErrorString "extend fee exceeds the uint32 transaction fee cap"))
  else inl data.

Definition extendTTL (keys : list LedgerKey) (extendTo : Z) : D (list Z) :=
  n ← call Now;
  let deadline := n + dp_txnTimeBound d in
  first ← simulateExtend keys extendTo deadline;
  round ← match sim_RestorePreamble first.2 with
          | Some preamble =>
              if negb (dp_autoRestore d)
              then failf "ledger entries are archived and auto-restore is disabled; restore them before extending"
              else restore_and_simulate keys extendTo preamble
          | None => mret (first, deadline)
          end;
  let '(seq, sim, deadline) := round in
  sorobanData ← liftw "failed to decode extend soroban data: " (SorobanData_Unmarshal (sim_TransactionDataXDR sim));
  match extend_data sim sorobanData with
  | inr e => fail e
  | inl data =>
      tx ← buildExtendTransaction seq extendTo data deadline;
      wrapd "extend transaction failed: " (signSubmitAndWait d fuel tx deadline "extend ") ;;
      liveUntilLedgers keys
  end.

Definition ExtendTTLToMax (keys : list LedgerKey) : D (list Z) :=
  match keys with
  | [] => failf "no ledger keys to extend"
  | _ =>
      maxTTL ← maxEntryTTL;
      extendTTL keys (u32 (maxTTL - 1))
  end.

Definition ExtendTTLTo (keys : list LedgerKey) (targetTTL : Z) : D (list Z) :=
  match keys with
  | [] => failf "no ledger keys to extend"
  | _ =>
      maxTTL ← maxEntryTTL;
      if targetTTL >=? maxTTL then failf "target TTL must stay below the network maximum; use ExtendTTLToMax to reach it"
      else
        atTarget ← entriesAtTTL keys targetTTL;
        if (atTarget : bool) then liveUntilLedgers keys else extendTTL keys targetTTL
  end.

(** [(fee, atTarget)]. *)
Definition SimulateExtendTTL (keys : list LedgerKey) (targetTTL : Z) : D (Z * bool) :=
  match keys with
  | [] => failf "no ledger keys to extend"
  | _ =>
      maxTTL ← maxEntryTTL;
      if targetTTL >=? maxTTL then failf "target TTL must stay below the network maximum"
      else
        atTarget ← entriesAtTTL keys targetTTL;
        if (atTarget : bool) then mret (0, true)
        else
          n ← call Now;
          r ← simulateExtend keys targetTTL (n + dp_txnTimeBound d);
          match sim_RestorePreamble r.2 with
          | Some _ => failf "ledger entries are archived; restore them before extending"
          | None => mret (sim_MinResourceFee r.2, false)
          end
  end.

End Ttl.
