(* ===== verification/DeployerLogic.v ===== *)
(** * A program logic for the deployer, its fees and resources

    [hoare P m R E]: from a state and a trace satisfying [P], whatever the
    environment answers, [m] ends in [R a] when it returns [a] and in [E x] when it
    exits by [x].  The rules follow the code.  Then the resources that an attempt
    declares, which are the ideal ones ([declared_data_spec]), and the lemmas on fees
    and on the extraction of results. *)

From S2P Require Import Prelude GoFloat Sdk GoBytes Xdr Scval TypeConverters Invoker StellarService Interaction Deployer DeployerSubmit.

(** How a method can end without a value. *)
Inductive exit := Failed (e : derror) | Crashed | OutOfFuel.

Definition wrap_exit (pre : string) (x : exit) : exit :=
  match x with Failed e => Failed (DWrap pre e) | _ => x end.

Section Logic.
Context `{DeployFns} `{protocol.Cursors}.

Abbreviation dtrace := (list (event dans)).
Abbreviation assertion := (dstate -> dtrace -> Prop).

Definition on_result {A} (R : A -> assertion) (E : exit -> assertion) (r : dresult A) : assertion :=
  match r with
  | Val a => R a
  | Fail e => E (Failed e)
  | Panicked => E Crashed
  | Unfinished => E OutOfFuel
  end.

Definition hoare {A} (P : assertion) (m : D A) (R : A -> assertion) (E : exit -> assertion) : Prop :=
  forall st tr, P st tr -> wp (m st) (fun '(r, st') tr' => on_result R E r st' tr') tr.

Lemma hoare_bind {A B} P (m : D A) (f : A -> D B) R' R E :
  hoare P m R' E -> (forall a, hoare (R' a) (f a) R E) -> hoare P (mbind f m) R E.
Proof.
  intros Hm Hf st tr HP. unfold mbind, D_bind. rewrite wp_bind.
  eapply wp_mono; [exact (Hm st tr HP)|]. intros [r st'] tr' HR. destruct r; simpl in *; [|done..].
  by apply Hf.
Qed.

Lemma hoare_ret {A} (P : assertion) (a : A) (R : A -> assertion) E :
  (forall st tr, P st tr -> R a st tr) -> hoare P (mret a) R E.
Proof. intros HR st tr HP. by apply HR. Qed.

Lemma hoare_fail {A} (P : assertion) e (R : A -> assertion) (E : exit -> assertion) :
  (forall st tr, P st tr -> E (Failed e) st tr) -> hoare P (fail e) R E.
Proof. intros HE st tr HP. by apply HE. Qed.

Lemma hoare_panic {A} (P : assertion) (R : A -> assertion) (E : exit -> assertion) :
  (forall st tr, P st tr -> E Crashed st tr) -> hoare P panic R E.
Proof. intros HE st tr HP. by apply HE. Qed.

Lemma hoare_unfinished {A} (P : assertion) (R : A -> assertion) (E : exit -> assertion) :
  (forall st tr, P st tr -> E OutOfFuel st tr) -> hoare P unfinished R E.
Proof. intros HE st tr HP. by apply HE. Qed.

Lemma hoare_call (P : assertion) (r : dreq) (R : dans r -> assertion) E :
  (forall x st tr, P st tr -> R x st (mkEvent r x :: tr)) -> hoare P (call r) R E.
Proof. intros HR st tr HP x. by apply HR. Qed.

Lemma hoare_get (P : assertion) (R : dstate -> assertion) E :
  (forall st tr, P st tr -> R st st tr) -> hoare P get_state R E.
Proof. intros HR st tr HP. by apply HR. Qed.

Lemma hoare_set_seq (P : assertion) s (R : unit -> assertion) E :
  (forall st tr, P st tr -> R tt (mkDState s (op_heap st)) tr) -> hoare P (set_accountSequence s) R E.
Proof. intros HR st tr HP. by apply HR. Qed.

Lemma hoare_set_heap (P : assertion) h (R : unit -> assertion) E :
  (forall st tr, P st tr -> R tt (mkDState (accountSequence st) h) tr) -> hoare P (set_op_heap h) R E.
Proof. intros HR st tr HP. by apply HR. Qed.

Lemma hoare_wrapd {A} P pre (m : D A) R E :
  hoare P m R (fun x => E (wrap_exit pre x)) -> hoare P (wrapd pre m) R E.
Proof.
  intros Hm st tr HP. unfold wrapd. rewrite wp_bind. eapply wp_mono; [exact (Hm st tr HP)|].
  intros [r st'] tr' HR. by destruct r.
Qed.

Lemma hoare_catch {A} P (m : D A) (R : A + derror -> assertion) E :
  hoare P m (fun a => R (inl a))
    (fun x => match x with Failed e => R (inr e) | _ => E x end) ->
  hoare P (catch m) R E.
Proof.
  intros Hm st tr HP. unfold catch. rewrite wp_bind. eapply wp_mono; [exact (Hm st tr HP)|].
  intros [r st'] tr' HR. by destruct r.
Qed.

Lemma hoare_lift {A} P (r : res A) (R : A -> assertion) (E : exit -> assertion) :
  (forall a st tr, r = Ok a -> P st tr -> R a st tr) ->
  (forall e st tr, r = Err e -> P st tr -> E (Failed (DErr e)) st tr) -> hoare P (lift r) R E.
Proof.
  intros HR HE. unfold lift. destruct r as [a|e].
  - apply hoare_ret. intros. by apply HR.
  - apply hoare_fail. intros. by apply HE.
Qed.

Lemma hoare_liftw {A} P pre (r : res A) (R : A -> assertion) (E : exit -> assertion) :
  (forall a st tr, r = Ok a -> P st tr -> R a st tr) ->
  (forall e st tr, r = Err e -> P st tr -> E (Failed (DWrap pre (DErr e))) st tr) ->
  hoare P (liftw pre r) R E.
Proof. intros HR HE. apply hoare_wrapd. by apply hoare_lift. Qed.

Lemma hoare_lift_out {A} P (r : outcome A) (R : A -> assertion) (E : exit -> assertion) :
  (forall a st tr, r = Returns a -> P st tr -> R a st tr) ->
  (forall e st tr, r = Errs e -> P st tr -> E (Failed (DErr e)) st tr) ->
  (forall st tr, r = Panics -> P st tr -> E Crashed st tr) -> hoare P (lift_out r) R E.
Proof.
  intros HR HE HC. unfold lift_out. destruct r as [a|e|].
  - apply hoare_ret. intros. by apply HR.
  - apply hoare_fail. intros. by apply HE.
  - apply hoare_panic. intros. by apply HC.
Qed.

Lemma hoare_conseq {A} (P P' : assertion) (m : D A) (R R' : A -> assertion) (E E' : exit -> assertion) :
  hoare P' m R' E' -> (forall st tr, P st tr -> P' st tr) ->
  (forall a st tr, R' a st tr -> R a st tr) -> (forall x st tr, E' x st tr -> E x st tr) ->
  hoare P m R E.
Proof.
  intros Hm HP HR HE st tr Hp. eapply wp_mono; [exact (Hm st tr (HP _ _ Hp))|].
  intros [r st'] tr' HQ. destruct r; simpl in *; auto.
Qed.

(** A specification at one state and trace. *)
Lemma hoare_use {A} (P : assertion) (m : D A) (R R' : A -> assertion) (E E' : exit -> assertion) st tr :
  hoare P m R' E' -> P st tr ->
  (forall a st tr, R' a st tr -> R a st tr) -> (forall x st tr, E' x st tr -> E x st tr) ->
  wp (m st) (fun '(r, st') tr' => on_result R E r st' tr') tr.
Proof. intros Hm HP HR HE. exact (hoare_conseq P P m R R' E E' Hm (fun _ _ => id) HR HE st tr HP). Qed.

Lemma hoare_pre {A} (P P' : assertion) (m : D A) R E :
  hoare P' m R E -> (forall st tr, P st tr -> P' st tr) -> hoare P m R E.
Proof. intros Hm HP st tr Hp. by apply Hm, HP. Qed.

(** A fact of the precondition that speaks of neither the state nor the trace. *)
Lemma hoare_fact {A} (F : Prop) (P : assertion) (m : D A) R E :
  (F -> hoare P m R E) -> hoare (fun st tr => F /\ P st tr) m R E.
Proof. intros Hm st tr [HF HP]. by apply Hm. Qed.

Lemma hoare_ex {A X} (P : X -> assertion) (m : D A) R E :
  (forall x, hoare (P x) m R E) -> hoare (fun st tr => exists x, P x st tr) m R E.
Proof. intros Hm st tr [x HP]. by apply (Hm x). Qed.

Lemma hoare_and {A} (P : assertion) (m : D A) R1 R2 E1 E2 :
  hoare P m R1 E1 -> hoare P m R2 E2 ->
  hoare P m (fun a st tr => R1 a st tr /\ R2 a st tr) (fun x st tr => E1 x st tr /\ E2 x st tr).
Proof.
  intros Ha Hb st tr HP. specialize (Ha st tr HP). specialize (Hb st tr HP).
  revert Ha Hb. generalize (m st) tr. intros p. induction p as [[r st']|r k IH]; intros tr' Ha Hb; simpl in *.
  - by destruct r.
  - intros x. by apply IH.
Qed.

(** What every answer leads to, for a handler. *)
Lemma hoare_run {A W} (h : forall r : dreq, W -> dans r * W) (P : assertion) (m : D A) R E st tr w :
  hoare P m R E -> P st tr ->
  let '((r, st'), tr', _) := run h (m st) w tr in on_result R E r st' tr'.
Proof.
  intros Hm HP. pose proof (wp_run h (m st) _ w tr (Hm st tr HP)) as Hr.
  destruct (run h (m st) w tr) as [[[r st'] tr'] w']. exact Hr.
Qed.

End Logic.

(** ** Widths *)

Definition well_typed (sd : SorobanTransactionData) : Prop :=
  is_i64 (sd_ResourceFee sd) /\ is_u32 (sd_Instructions sd) /\ is_u32 (sd_DiskReadBytes sd) /\ is_u32 (sd_WriteBytes sd).

Definition caps_ok (caps : networkResourceCaps) : Prop :=
  is_u32 (caps_instructions caps) /\ is_u32 (caps_diskReadBytes caps) /\ is_u32 (caps_writeBytes caps).

(** ** The ideal declaration

    On unbounded integers: a resource times [f], within the type and the network's
    cap when it is known. *)

Definition scaled (v f cap : Z) : Z :=
  let w := Z.min MaxUint32 (v * f) in if cap =? 0 then w else Z.min cap w.

Definition ideal_instructions (hasAuth : bool) (sd : SorobanTransactionData) : Z :=
  if hasAuth then sd_Instructions sd + sd_Instructions sd / 50 + 100000 else sd_Instructions sd.

Definition ideal_data (bump : Z) (hasAuth : bool) (attempt : Z) (prev : bool) (caps : networkResourceCaps)
    (sd : SorobanTransactionData) : SorobanTransactionData :=
  let instr := ideal_instructions hasAuth sd in
  let fee := sd_ResourceFee sd + bump in
  if inflated attempt prev then
    let f := 2 ^ (attempt - 1) in
    let i := scaled instr f (caps_instructions caps) in
    let '(fee, i) :=
      if (attempt =? 3) && (0 <? i) && (i <? caps_instructions caps)
      then (fee * f * caps_instructions caps / i, caps_instructions caps)
      else (fee * f, i) in
    set_fee fee (set_resources i (scaled (sd_DiskReadBytes sd) f (caps_diskReadBytes caps))
                   (scaled (sd_WriteBytes sd) f (caps_writeBytes caps)) sd)
  else set_fee fee (set_instructions instr sd).

Lemma clamp_u32_min v : 0 <= v -> clamp_u32 v = Z.min MaxUint32 v.
Proof. intros Hv. unfold clamp_u32. destruct (v >? MaxUint32) eqn:E; zbool; [lia|]. rewrite u32_id; goint. Qed.

Lemma scaled_eq v f cap : is_u32 v -> 0 < f <= 4 -> clampToCap (clamp_u32 (u64 (v * f))) cap = scaled v f cap.
Proof.
  intros Hv Hf. rewrite u64_id by (unfold_goint; nia). rewrite clamp_u32_min by (unfold_goint; nia).
  unfold clampToCap, scaled. destruct (cap =? 0) eqn:E; simpl; [done|].
  destruct (_ <=? _) eqn:E2; zbool; lia.
Qed.

Lemma scaled_range v f cap : is_u32 v -> is_u32 cap -> 0 < f -> is_u32 (scaled v f cap).
Proof. intros Hv Hc Hf. unfold scaled. destruct (_ =? _) eqn:E; unfold_goint; nia. Qed.

Lemma attempt_factor_eq attempt : 1 <= attempt <= 3 -> attempt_factor attempt = 2 ^ (attempt - 1) /\ 0 < 2 ^ (attempt - 1) <= 4.
Proof.
  intros Ha. assert (attempt = 1 \/ attempt = 2 \/ attempt = 3) as [->|[->| ->]] by lia; by vm_compute.
Qed.

Lemma ideal_typed hasAuth sd : well_typed sd -> ideal_instructions hasAuth sd < two32 -> is_u32 (ideal_instructions hasAuth sd).
Proof. intros (_ & Hi & _). unfold ideal_instructions. destruct hasAuth; goint. Qed.

Lemma auth_margin_eq sd : well_typed sd -> ideal_instructions true sd < two32 ->
  auth_margin sd = set_instructions (ideal_instructions true sd) sd.
Proof.
  intros (_ & Hi & _). unfold ideal_instructions, auth_margin. intros Hw. f_equal.
  assert (is_u32 (sd_Instructions sd / 50 + 100000)) by goint.
  rewrite (u32_id (_ / 50 + _)) by done. rewrite u32_id; [lia|goint].
Qed.

Lemma declared_start bump hasAuth attempt prev caps sd :
  well_typed sd -> ideal_instructions hasAuth sd < two32 -> is_i64 (sd_ResourceFee sd + bump) ->
  let sd1 := set_fee (sd_ResourceFee sd + bump) (set_instructions (ideal_instructions hasAuth sd) sd) in
  declared_data bump hasAuth attempt prev caps sd =
    if inflated attempt prev
    then raise_to_cap attempt caps (clamp_resources caps (inflate (attempt_factor attempt) sd1))
    else sd1.
Proof.
  intros Hsd Hw Hfee. cbv zeta. unfold declared_data. rewrite (i64_id (sd_ResourceFee sd + bump)) by done.
  destruct hasAuth; [rewrite auth_margin_eq by (done || (split; [done|apply Hsd]))|]; by destruct sd.
Qed.

(** The inflated resources and fee, before the final raise. *)
Lemma inflate_eq attempt caps sd :
  well_typed sd -> 1 <= attempt <= 3 -> 0 < sd_ResourceFee sd -> sd_ResourceFee sd * 2 ^ (attempt - 1) < two63 ->
  let f := 2 ^ (attempt - 1) in
  clamp_resources caps (inflate (attempt_factor attempt) sd) =
    set_fee (sd_ResourceFee sd * f)
      (set_resources (scaled (sd_Instructions sd) f (caps_instructions caps))
         (scaled (sd_DiskReadBytes sd) f (caps_diskReadBytes caps))
         (scaled (sd_WriteBytes sd) f (caps_writeBytes caps)) sd).
Proof.
  intros (Hf & Hi & Hd & Hw) Ha Hpos Hov. cbv zeta. destruct (attempt_factor_eq attempt Ha) as [-> Hr].
  set (f := 2 ^ (attempt - 1)) in *. unfold inflate.
  rewrite (i64_id f) by (unfold_goint; lia). rewrite i64_id by (unfold_goint; simpl in *; nia).
  cbn [sd_ResourceFee set_resources]. replace (_ >? 0) with true by (symmetry; apply Z.gtb_lt; nia).
  unfold clamp_resources. cbn. by rewrite !scaled_eq.
Qed.

(** The final raise, without overflow. *)
Lemma raise_eq attempt caps sd :
  0 < sd_ResourceFee sd -> 0 <= caps_instructions caps ->
  sd_ResourceFee sd * Z.max 1 (caps_instructions caps) < two63 ->
  raise_to_cap attempt caps sd =
    if (attempt =? 3) && (0 <? sd_Instructions sd) && (sd_Instructions sd <? caps_instructions caps)
    then set_fee (sd_ResourceFee sd * caps_instructions caps / sd_Instructions sd)
           (set_instructions (caps_instructions caps) sd)
    else sd.
Proof.
  intros Hf Hc Hov. unfold raise_to_cap. change submitMaxAttempts with 3.
  destruct (attempt =? 3); [|done]. cbn [andb]. rewrite Z.gtb_ltb.
  destruct (Z.ltb_spec 0 (caps_instructions caps)) as [Hc'|]; [|cbn [andb]; destruct (Z.ltb_spec 0 (sd_Instructions sd)); [|done]; cbn [andb];
     destruct (Z.ltb_spec (sd_Instructions sd) (caps_instructions caps)); [lia|done]].
  rewrite Z.gtb_ltb. cbn [andb]. destruct (Z.ltb_spec 0 (sd_Instructions sd)) as [Hi|]; [|done]. cbn [andb].
  destruct (Z.ltb_spec (sd_Instructions sd) (caps_instructions caps)) as [Hlt|]; [|done].
  rewrite i64_id by (unfold_goint; nia). rewrite Z.quot_div_nonneg by nia.
  set (q := _ / _). assert (Hq : sd_ResourceFee sd <= q) by (apply Z.div_le_lower_bound; nia).
  destruct (q >? sd_ResourceFee sd) eqn:E; zbool; [by destruct sd|].
  replace q with (sd_ResourceFee sd) by lia. by destruct sd.
Qed.

Lemma ideal_fee_bound fee f cap i : 0 < fee -> 0 < f -> 0 < i -> i < cap -> fee <= fee * f * cap / i <= fee * f * cap.
Proof.
  intros Hfee Hf Hi Hc. assert (i * fee <= cap * fee) by nia. assert (0 < cap * fee) by nia.
  assert (cap * fee <= fee * f * cap) by nia.
  split; [apply Z.div_le_lower_bound; lia|]. apply Z.div_le_upper_bound; nia.
Qed.

(** Property C14: at machine width, the resources and the fee declared for an attempt
    are the ideal ones: those of the simulation, with the margin for
    authorizations, and after a budget failure scaled by the attempt, kept within
    each cap that is known, the last attempt declaring the whole instruction cap
    with its fee in proportion.  They are of their types; no declared instruction
    count exceeds a known cap once the resources are scaled; the fee never falls
    below the simulated one with its bump.  It holds as long as the ideal numbers
    fit their types. *)
Theorem declared_data_spec bump hasAuth attempt prev caps sd :
  well_typed sd -> caps_ok caps -> 1 <= attempt <= 3 ->
  ideal_instructions hasAuth sd < two32 -> 0 < sd_ResourceFee sd + bump ->
  (sd_ResourceFee sd + bump) * 2 ^ (attempt - 1) * Z.max 1 (caps_instructions caps) < two63 ->
  let out := declared_data bump hasAuth attempt prev caps sd in
  out = ideal_data bump hasAuth attempt prev caps sd /\ well_typed out /\
  sd_ResourceFee sd + bump <= sd_ResourceFee out /\
  (inflated attempt prev = true -> 0 < caps_instructions caps -> sd_Instructions out <= caps_instructions caps).
Proof.
  intros Hsd Hcaps Ha Hi Hfee Hov. destruct (attempt_factor_eq attempt Ha) as [_ Hf].
  set (fee := sd_ResourceFee sd + bump) in *. set (f := 2 ^ (attempt - 1)) in *.
  assert (Hci : 0 <= caps_instructions caps) by apply Hcaps.
  assert (Hov1 : fee * f < two63) by (unfold_goint; nia).
  assert (Hfee1 : is_i64 fee) by (unfold_goint; nia).
  pose proof (ideal_typed hasAuth sd Hsd Hi) as Hity. cbv zeta.
  rewrite declared_start by done. fold fee. unfold ideal_data. fold fee f.
  destruct Hsd as (_ & _ & Hdt & Hwt).
  destruct (inflated attempt prev) eqn:Einf.
  2: { cbn. repeat split; try done; try apply Hfee1; try apply Hity; try apply Hdt; try apply Hwt; lia. }
  rewrite inflate_eq by (repeat split; done || apply Hfee1 || apply Hity || apply Hdt || apply Hwt || lia).
  cbn. fold f. set (i := scaled (ideal_instructions hasAuth sd) f (caps_instructions caps)).
  assert (Hit : is_u32 i) by (apply scaled_range; [done|apply Hcaps|lia]).
  pose proof (scaled_range (sd_DiskReadBytes sd) f (caps_diskReadBytes caps) Hdt (proj1 (proj2 Hcaps)) ltac:(lia)) as Hd'.
  pose proof (scaled_range (sd_WriteBytes sd) f (caps_writeBytes caps) Hwt (proj2 (proj2 Hcaps)) ltac:(lia)) as Hw'.
  rewrite raise_eq by (cbn; lia || nia). cbn. fold i.
  assert (Hcap : 0 < caps_instructions caps -> i <= caps_instructions caps).
  { intros Hc. unfold i, scaled. destruct (_ =? 0) eqn:E; zbool; lia. }
  destruct ((attempt =? 3) && (0 <? i) && (i <? caps_instructions caps)) eqn:Er; zbool; cbn.
  - pose proof (ideal_fee_bound fee f (caps_instructions caps) i Hfee ltac:(lia) ltac:(lia) ltac:(lia)).
    rewrite Z.max_r in Hov by lia.
    repeat split; try apply Hd'; try apply Hw'; try apply Hcaps; cbn; unfold_goint; lia.
  - repeat split; try apply Hd'; try apply Hw'; try apply Hit; try exact Hcap; cbn; unfold_goint; nia.
Qed.

Lemma declared_data_spec_witness :
  let sd := mkSorobanData 1000 20000000 500 600 [] [] None in
  let out := declared_data 10000 true 3 true (mkCaps 100000000 1000 0) sd in
  out = ideal_data 10000 true 3 true (mkCaps 100000000 1000 0) sd /\ well_typed out /\
  sd_ResourceFee sd + 10000 <= sd_ResourceFee out /\
  (inflated 3 true = true -> 0 < 100000000 -> sd_Instructions out <= 100000000).
Proof.
  apply (declared_data_spec 10000 true 3 true (mkCaps 100000000 1000 0) (mkSorobanData 1000 20000000 500 600 [] [] None));
    by repeat split.
Defined.

(** ** Fees *)

Section Fees.
Context `{FloatConv}.

(** The headroom is never below the buffer. *)
Lemma resourceFeeBump_floor d m : minFeeBuffer <= resourceFeeBump d m.
Proof. unfold resourceFeeBump. destruct (_ <? _) eqn:E; zbool; lia. Qed.

(** Without a factor above one the headroom is the buffer. *)
Lemma feeBumpExtra_nonpositive m factor : m <= 0 -> feeBumpExtra m factor = 0.
Proof. intros Hm. unfold feeBumpExtra. by destruct (Z.leb_spec m 0); [|lia]. Qed.

End Fees.

(** ** Results *)

Section Results.
Context `{DeployFns} `{!Codec}.

(** The deployer and the invoker read the same return value. *)
Lemma extractReturnValue_agrees meta : extractReturnValue meta = extractReturnValueFromTransactionMeta meta.
Proof. by destruct meta. Qed.

(** Reading a hash or an id from a meta panics exactly when the meta is of version
    4, has a Soroban part, and that part holds no return value (a nil pointer that
    the code dereferences), given that the meta's arm is the one of its version. *)
Definition arm_set (meta : TransactionMeta) : Prop :=
  (meta_V meta = 4 -> meta_V4 meta <> None) /\ (meta_V meta = 3 -> meta_V3 meta <> None).

Lemma extractWASMHash_panics meta :
  arm_set meta -> (forall v, meta_V3 meta = Some (Some v) \/ meta_V4 meta = Some (Some (Some v)) -> GetBytes v <> Panics) ->
  (extractWASMHash (Some meta) = Panics <-> meta_V meta = 4 /\ meta_V4 meta = Some (Some None)).
Proof.
  intros [H4 H3] Hv. unfold extractWASMHash, soroban_return.
  destruct (Z.eqb_spec (meta_V meta) 4) as [E4|N4].
  - destruct (meta_V4 meta) as [[[v|]|]|]; simpl; try naive_solver.
    specialize (Hv v (or_intror eq_refl)). destruct (GetBytes v) as [[b|]|e|]; simpl; naive_solver.
  - destruct (Z.eqb_spec (meta_V meta) 3) as [E3|N3]; [|simpl; naive_solver].
    destruct (meta_V3 meta) as [[v|]|]; simpl; try naive_solver.
    specialize (Hv v (or_introl eq_refl)). destruct (GetBytes v) as [[b|]|e|]; simpl; naive_solver.
Qed.

End Results.
