(* ===== verification/Discipline.v ===== *)
(** * The discipline of the deployer's submissions

    What a trace of the deployer shows: which account sequence was read last, what
    became of the last envelope sent ([flight]), and that everything signed, sent
    and awaited is as it should be ([disciplined]).  The lemmas establish it for
    the methods of DeployerSubmit.v. *)

From S2P Require Import Prelude GoFloat Sdk GoBytes Xdr Scval TypeConverters Invoker StellarService Interaction Deployer DeployerSubmit DeployerLogic.

(** The last envelope sent: none is under way, one was accepted under a hash, or
    the node's answer leaves it unknown. *)
Inductive flight := Clear | InFlight (hash : string) | Unclear.

(** The XDR of a network-config key is not that of an account's. *)
Class LedgerKeyLaws `{DeployFns} : Prop :=
  config_key_distinct : forall id a k,
    LedgerKey_Base64 (LedgerKeyConfigSetting id) = Ok k -> LedgerKey_Base64 (LedgerKeyAccount a) <> Ok k.

Section Discipline.
Context `{DeployFns} `{!Codec} `{protocol.Cursors} `{FloatConv}.
Variable d : Deployer.

Abbreviation dtrace := (list (event dans)).

(** ** Reading a trace *)

Definition accepted (r : SendTransactionResponse) : bool :=
  match send_Status r with TXStatusPending | TXStatusDuplicate => true | _ => false end.

(** Refused without having been executed: the queue is full, or the fee is too low. *)
Definition refused (r : SendTransactionResponse) : bool :=
  match send_Status r with
  | TXStatusTryAgainLater => true
  | TXStatusError => isTxInsufficientFee (send_ErrorResultXDR r)
  | _ => false
  end.

(** A send answers for its envelope; a poll of its hash ends the flight when it is
    executed, or when it failed for its resources; so does the end of its validity. *)
Definition step_flight (e : event dans) (f : flight) : flight :=
  match e with
  | mkEvent r x =>
      match r return dans r -> flight with
      | Send _ => fun ans =>
          match ans with
          | Ok resp => if accepted resp then InFlight (send_Hash resp) else if refused resp then Clear else Unclear
          | Err _ => Unclear
          end
      | GetTransaction_ h => fun ans =>
          match ans, f with
          | Ok resp, InFlight h' =>
              if negb (String.eqb h h') then f
              else match gt_Status resp with
                   | TransactionStatusSuccess => Clear
                   | TransactionStatusFailed =>
                       if isInvokeHostFunctionResourceLimitExceeded (gt_ResultXDR resp) then Clear else f
                   | _ => f
                   end
          | _, _ => f
          end
      | PollSelect => fun c => match c with PollTimeout => Clear | _ => f end
      | _ => fun _ => f
      end x
  end.

Definition flight_of (tr : dtrace) : flight := foldr step_flight Clear tr.

(** The account sequence that an event shows. *)
Definition read_of (e : event dans) : option Z :=
  match e with
  | mkEvent r x =>
      match r return dans r -> option Z with
      | GetEntries [k] => fun ans =>
          match ans, account_key (dp_signer_Address d) with
          | Ok entries, Returns key =>
              match LedgerKey_Base64 key, account_sequence entries with
              | Ok k', Returns s => if String.eqb k k' then Some s else None
              | _, _ => None
              end
          | _, _ => None
          end
      | _ => fun _ => None
      end x
  end.

Fixpoint last_sequence (tr : dtrace) : option Z :=
  match tr with
  | [] => None
  | e :: tr' => match read_of e with Some s => Some s | None => last_sequence tr' end
  end.

(** The submissions of a trace. *)
Fixpoint sends (tr : dtrace) : nat :=
  match tr with
  | [] => 0
  | e :: tr' => (match ev_req e with Send _ => 1 | _ => 0 end + sends tr')%nat
  end.

(** ** What is signed *)

(** The resource fee of an invocation or a restoration is within the cap. *)
Definition op_capped (o : DOperation) : Prop :=
  match o with
  | OpInvokeHostFunction _ _ (Some sd) _ | OpRestoreFootprint _ (Some sd) =>
      dp_maxResourceFee d > 0 -> sd_ResourceFee sd <= dp_maxResourceFee d
  | _ => True
  end.

(** After [tr], [env] is an envelope of the deployer's account with the sequence
    last read, the one operation [o], the minimal inclusion fee and [deadline] as
    its end of validity, which is the time bound from a reading of the clock. *)
Definition signable (deadline : Z) (o : DOperation) (tr : dtrace) (env : Envelope_) : Prop :=
  exists seq n,
    last_sequence tr = Some seq /\ op_capped o /\
    mkEvent Now n ∈ tr /\ deadline = n + dp_txnTimeBound d /\
    NewTransaction_ (mkParams (dp_signer_Address d) seq true [o] MinBaseFee (mkTimeBounds 0 (unix_of deadline))) = Ok env.

(** What an event must satisfy after the older ones. *)
Definition event_ok (e : event dans) (older : dtrace) : Prop :=
  match e with
  | mkEvent r x =>
      match r return Prop with
      | SignTransaction passphrase env =>
          passphrase = dp_networkPassphrase d /\ exists deadline o, signable deadline o older env
      | Send xdr =>
          flight_of older = Clear /\
          exists env env' older', older = mkEvent (SignTransaction (dp_networkPassphrase d) env) (Ok env') :: older' /\
            env_Base64 env' = Ok xdr
      | StartPoll remaining =>
          exists n xdr sent env signed older' deadline o,
            older = mkEvent Now n :: mkEvent (Send xdr) sent ::
                    mkEvent (SignTransaction (dp_networkPassphrase d) env) signed :: older' /\
            signable deadline o older' env /\ remaining = time_sub deadline n /\ 0 < remaining
      | _ => True
      end
  end.

Fixpoint disciplined (tr : dtrace) : Prop :=
  match tr with
  | [] => True
  | e :: older => event_ok e older /\ disciplined older
  end.

(** ** The invariants of a submission

    [T] are operation objects that callers hold: the methods keep them up to what
    [assembleTransaction] writes. *)

Variable T : gmap positive DOperation.

Definition tracked (st : dstate) : Prop :=
  map_Forall (fun r o0 => exists o, op_heap st !! r = Some o /\ bare o = bare o0) T.

Definition sane (st : dstate) (tr : dtrace) : Prop :=
  disciplined tr /\ map_Forall (fun _ => op_capped) (op_heap st) /\ tracked st.

(** Nothing is under way. *)
Definition ready (st : dstate) (tr : dtrace) : Prop := sane st tr /\ flight_of tr = Clear.

(** An exit: nothing is under way when the retry loop would go on. *)
Definition settled (x : exit) (st : dstate) (tr : dtrace) : Prop :=
  sane st tr /\ forall e, x = Failed e -> recoverable e = true -> flight_of tr = Clear.

Lemma recoverable_wrap pre e : recoverable (DWrap pre e) = recoverable e.
Proof. done. Qed.

Lemma settled_wrap pre x st tr : settled x st tr -> settled (wrap_exit pre x) st tr.
Proof.
  intros [HI Hx]. split; [done|]. intros e He Hr. destruct x as [e'| |]; simplify_eq/=.
  rewrite recoverable_wrap in Hr. eauto.
Qed.

Lemma ready_settled x st tr : ready st tr -> settled x st tr.
Proof. intros [HI Hc]. by split. Qed.

(** Requests that neither sign, nor send, nor poll. *)
Definition quiet (r : dreq) : bool :=
  match r with
  | SignTransaction _ _ | Send _ | StartPoll _ | PollSelect | GetTransaction_ _ => false
  | _ => true
  end.

Lemma ready_quiet r x st tr : quiet r = true -> ready st tr -> ready st (mkEvent r x :: tr).
Proof. intros Hq [[Hd Hh] Hc]. destruct r; try discriminate; (split; [split; [split; [exact I|exact Hd]|exact Hh]|exact Hc]). Qed.

(** A predicate kept by the events that do not read the account. *)
Definition stable (K : dstate -> dtrace -> Prop) : Prop :=
  forall st tr e, read_of e = None -> K st tr -> K st (e :: tr).

Lemma last_sequence_cons e tr : read_of e = None -> last_sequence (e :: tr) = last_sequence tr.
Proof. intros E. simpl. by rewrite E. Qed.

Lemma signable_cons deadline o tr env e :
  read_of e = None -> signable deadline o tr env -> signable deadline o (e :: tr) env.
Proof.
  intros E (seq & n & Hs & Hc & Hn & Hd & HN). exists seq, n. rewrite last_sequence_cons by done.
  repeat split; try done. by right.
Qed.

(** ** Reading *)

Abbreviation ok_with K := (fun st tr => ready st tr /\ K st tr).

(** A quiet request that reads no account sequence. *)
Lemma quiet_call (K : dstate -> dtrace -> Prop) r :
  stable K -> quiet r = true -> (forall x, read_of (mkEvent r x) = None) ->
  hoare (ok_with K) (call r) (fun _ => ok_with K) settled.
Proof.
  intros HK Hq Hr. apply hoare_call. intros x st tr [HJ HS]. split; [by apply ready_quiet|].
  by apply HK.
Qed.

Lemma fetch_with_retry_spec (K : dstate -> dtrace -> Prop) n k backoff err :
  (forall st tr e, K st tr -> K st (e :: tr)) ->
  hoare (ok_with K) (fetch_with_retry n k backoff err)
    (fun r st tr => ok_with K st tr /\
       forall entries, r = Ok entries -> exists older, tr = mkEvent (GetEntries [k]) (Ok entries) :: older)
    settled.
Proof.
  intros HK. revert backoff err. induction n as [|n IH]; intros backoff err; simpl.
  { apply hoare_ret. intros st tr HP. by split. }
  eapply hoare_bind with (R' := fun r st tr => ok_with K st tr /\
    forall entries, r = Ok entries -> exists older, tr = mkEvent (GetEntries [k]) (Ok entries) :: older).
  { apply hoare_call. intros x st tr [HJ HS]. split; [split; [by apply ready_quiet|by apply HK]|].
    intros entries ->. eauto. }
  intros [entries|e].
  { apply hoare_ret. intros st tr [HP Hr]. split; [done|]. intros entries' [= <-]. by apply Hr. }
  eapply hoare_bind with (R' := fun _ => ok_with K).
  { apply hoare_call. intros x st tr [[HJ HS] _]. split; [by apply ready_quiet|by apply HK]. }
  intros []; [apply hoare_ret; intros; by split|].
  eapply hoare_bind with (R' := fun _ => ok_with K).
  { apply hoare_call. intros x st tr [HJ HS]. split; [by apply ready_quiet|by apply HK]. }
  intros _. apply IH.
Qed.

(** A method's precondition after a failed computation. *)
Lemma ready_exit (K : Prop) x st tr : ready st tr /\ K -> settled x st tr.
Proof. intros [HJ _]. by apply ready_settled. Qed.

Lemma getSourceAccount_spec (K : dstate -> dtrace -> Prop) :
  (forall st tr e, K st tr -> K st (e :: tr)) ->
  (forall st s tr, K st tr -> K (mkDState s (op_heap st)) tr) ->
  hoare (ok_with K) (getSourceAccount d)
    (fun src st tr => ok_with K st tr /\ AccountID src = dp_signer_Address d /\
       last_sequence tr = Some (Sequence src) /\ accountSequence st = Sequence src)
    settled.
Proof.
  intros HK HKs. unfold getSourceAccount.
  eapply hoare_bind with (R' := fun key st tr => ok_with K st tr /\ account_key (dp_signer_Address d) = Returns key).
  { apply hoare_lift_out; [by auto|intros; by eapply ready_exit..]. }
  intros key. eapply hoare_bind with (R' := fun k st tr => ok_with K st tr /\
    account_key (dp_signer_Address d) = Returns key /\ LedgerKey_Base64 key = Ok k).
  { apply hoare_liftw; [intros k st tr E [HP Hk]; by auto|]. intros e st tr _ [HP _]. by eapply ready_exit. }
  intros k. eapply hoare_bind with (R' := fun r st tr => ok_with K st tr /\
    forall entries s, r = Ok entries -> account_sequence entries = Returns s -> last_sequence tr = Some s).
  { intros st tr [HP [Ek Eb]].
    eapply hoare_use; [exact (fetch_with_retry_spec K 5 k 2000000000 (ErrorString "") HK)|exact HP| |done].
    intros r st' tr' [HP' Hr]. split; [done|]. intros entries s -> Es.
    destruct (Hr _ eq_refl) as [older ->]. simpl. by rewrite Ek, Eb, Es, String.eqb_refl. }
  intros r. eapply hoare_bind with (R' := fun entries st tr => ok_with K st tr /\
    forall s, account_sequence entries = Returns s -> last_sequence tr = Some s).
  { apply hoare_liftw; [intros entries st tr -> [HP Hr]; by eauto|].
    intros e st tr _ [HP _]. by eapply ready_exit. }
  intros entries. eapply hoare_bind with (R' := fun s st tr => ok_with K st tr /\ last_sequence tr = Some s).
  { apply hoare_lift_out; [intros s st tr E [HP Hr]; by eauto|intros; by eapply ready_exit, proj1..]. }
  intros s. eapply hoare_bind with (R' := fun _ st tr => (ok_with K st tr /\ last_sequence tr = Some s) /\ accountSequence st = s).
  { apply hoare_set_seq. intros st tr [[[HI Hf] HP] Hs]. repeat split; try done; [apply HI..|by apply HKs]. }
  intros _. apply hoare_ret. intros st tr [[HP Hs] Ha]. simpl. auto.
Qed.

Lemma fetchLedgerEntry_spec (K : dstate -> dtrace -> Prop) key :
  (forall st tr k (x : dans (GetEntries [k])), LedgerKey_Base64 key = Ok k -> K st tr ->
     K st (mkEvent (GetEntries [k]) x :: tr)) ->
  hoare (ok_with K) (fetchLedgerEntry key) (fun _ => ok_with K) (fun _ => ok_with K).
Proof.
  intros HK. unfold fetchLedgerEntry.
  eapply hoare_bind with (R' := fun k st tr => ok_with K st tr /\ LedgerKey_Base64 key = Ok k).
  { by apply hoare_liftw; auto. }
  intros k. eapply hoare_bind with (R' := fun _ => ok_with K).
  { apply hoare_call. intros x st tr [[HJ HS] Hk]. split; [by apply ready_quiet|by apply HK]. }
  intros r. eapply hoare_bind with (R' := fun _ => ok_with K); [by apply hoare_lift; auto|].
  intros [|e es]; [by apply hoare_fail|]. destruct (getLedgerEntryXDR e); [|by apply hoare_fail].
  by apply hoare_liftw; auto.
Qed.

Lemma config_not_read `{!LedgerKeyLaws} id k (x : dans (GetEntries [k])) :
  LedgerKey_Base64 (LedgerKeyConfigSetting id) = Ok k -> read_of (mkEvent (GetEntries [k]) x) = None.
Proof.
  intros E. simpl. destruct x as [entries|]; [|done]. unfold account_key.
  destruct (xdr_AddressToAccountId _) as [a|]; [|done].
  destruct (LedgerKey_Base64 (LedgerKeyAccount a)) as [k'|] eqn:Ea; [|done].
  destruct (account_sequence entries); [|done..].
  destruct (String.eqb_spec k k') as [<-|]; [|done]. exfalso. by eapply config_key_distinct.
Qed.

Lemma networkResourceCaps_spec `{!LedgerKeyLaws} (K : dstate -> dtrace -> Prop) :
  stable K -> hoare (ok_with K) networkResourceCaps_ (fun _ => ok_with K) settled.
Proof.
  intros HK. unfold networkResourceCaps_.
  assert (Hf : forall id, hoare (ok_with K) (catch (fetchLedgerEntry (configSettingLedgerKey id)))
                            (fun _ => ok_with K) settled).
  { intros id. apply hoare_catch. eapply hoare_conseq; [apply fetchLedgerEntry_spec with (K := K)|done..|].
    - intros st tr k x Ek HS. apply HK; [|done]. by eapply config_not_read.
    - intros [] st tr HP; [done|by eapply ready_exit..]. }
  eapply hoare_bind; [apply Hf|]. intros compute. eapply hoare_bind; [apply Hf|]. intros cost.
  by apply hoare_ret.
Qed.

(** ** Operation objects *)

Lemma new_operation_spec (K : dstate -> dtrace -> Prop) o E :
  op_capped o -> (forall st r tr, op_heap st !! r = None -> K st tr -> K (mkDState (accountSequence st) (<[r := o]> (op_heap st))) tr) ->
  hoare (ok_with K) (new_operation o) (fun r st tr => ok_with K st tr /\ op_heap st !! r = Some o) E.
Proof.
  intros Ho HK. unfold new_operation.
  eapply hoare_bind with (R' := fun st0 st tr => ok_with K st tr /\ st = st0); [by apply hoare_get|].
  intros st0. set (r := fresh _).
  assert (Hr : op_heap st0 !! r = None) by (apply not_elem_of_dom, is_fresh).
  eapply hoare_bind with (R' := fun _ st tr => ok_with K st tr /\ op_heap st !! r = Some o).
  - apply hoare_set_heap. intros st tr [[[[Hd [Hc Ht]] Hf] HS] ->]. simpl.
    split; [|by simplify_map_eq]. split; [|by apply HK]. split; [|done]. split; [done|]. split.
    + by apply map_Forall_insert_2.
    + intros r' o' Ho'. destruct (Ht r' o' Ho') as (o1 & Hl & Hb). exists o1. split; [|done].
      simpl. rewrite lookup_insert_ne; [done|]. intros ->. congruence.
  - intros _. apply hoare_ret. auto.
Qed.

(** Writing the simulated data, or erasing it. *)
Lemma write_operation_spec (K K' : dstate -> dtrace -> Prop) r f E :
  (forall o, op_capped o -> op_capped (f o)) -> (forall o, bare (f o) = bare o) ->
  (forall st tr, K st tr -> K' (mkDState (accountSequence st) (alter f r (op_heap st))) tr) ->
  hoare (ok_with K) (write_operation r f) (fun _ => ok_with K') E.
Proof.
  intros Hcap Hbare HK. unfold write_operation.
  eapply hoare_bind with (R' := fun st0 st tr => ok_with K st tr /\ st = st0); [by apply hoare_get|].
  intros st0. apply hoare_set_heap. intros st tr [[[[Hd [Hc Ht]] Hf] HS] <-].
  split; [|by apply HK]. split; [|done]. split; [done|]. split; simpl.
  - intros r' o Ho. destruct (decide (r' = r)) as [->|Hne].
    + rewrite lookup_alter_eq in Ho. destruct (op_heap st !! r) eqn:E1; simplify_eq/=. eapply Hcap, Hc, E1.
    + rewrite lookup_alter_ne in Ho by done. by eapply Hc.
  - intros r' o' Ho'. destruct (Ht r' o' Ho') as (o1 & Hl & Hb). simpl. destruct (decide (r' = r)) as [->|Hne].
    + exists (f o1). rewrite lookup_alter_eq, Hl. split; [done|]. by rewrite Hbare.
    + exists o1. by rewrite lookup_alter_ne.
Qed.

Lemma bare_capped o : op_capped o -> op_capped (bare o).
Proof. by destruct o. Qed.

Lemma bare_bare o : bare (bare o) = bare o.
Proof. by destruct o. Qed.

Lemma with_ext_bare sd o : bare (with_ext sd o) = bare o.
Proof. by destruct o. Qed.

Lemma with_auth_bare auth o : bare (with_auth auth o) = bare o.
Proof. by destruct o. Qed.

(** ** Submission *)

(** An envelope of [o] was signed, sent and accepted under [hash]. *)
Definition submitted (o : DOperation) (hash : string) (deadline : Z) (tr : dtrace) : Prop :=
  exists later xdr resp env signed older,
    tr = later ++ mkEvent (Send xdr) (Ok resp) ::
           mkEvent (SignTransaction (dp_networkPassphrase d) env) (Ok signed) :: older /\
    accepted resp = true /\ send_Hash resp = hash /\ env_Base64 signed = Ok xdr /\ signable deadline o older env.

(** And the node's last answer is its success, with the meta [meta]. *)
Definition confirmed (o : DOperation) (meta : TransactionMeta) (hash : string) (tr : dtrace) : Prop :=
  exists deadline resp older,
    tr = mkEvent (GetTransaction_ hash) (Ok resp) :: older /\ submitted o hash deadline older /\
    gt_Status resp = TransactionStatusSuccess /\ TransactionMeta_Unmarshal (gt_ResultMetaXDR resp) = Ok meta.

Lemma submitted_cons o hash deadline e tr : submitted o hash deadline tr -> submitted o hash deadline (e :: tr).
Proof.
  intros (later & xdr & resp & env & signed & older & -> & Hs). by exists (e :: later), xdr, resp, env, signed, older.
Qed.

Lemma sane_cons e st tr : event_ok e tr -> sane st tr -> sane st (e :: tr).
Proof. intros He [Hd Hr]. by split. Qed.

Lemma poll_spec fuel o hash deadline :
  hoare (fun st tr => sane st tr /\ flight_of tr = InFlight hash /\ submitted o hash deadline tr)
    (poll fuel hash) (fun meta st tr => ready st tr /\ confirmed o meta hash tr) settled.
Proof.
  induction fuel as [|fuel IH]; simpl.
  { apply hoare_unfinished. by intros st tr [HI _]. }
  eapply hoare_bind with (R' := fun sel st tr => sane st tr /\
    match sel with
    | PollTimeout => flight_of tr = Clear
    | _ => flight_of tr = InFlight hash /\ submitted o hash deadline tr
    end).
  { apply hoare_call. intros [] st tr [HI [Hf Hs]]; (split; [by apply sane_cons|]); simpl; auto using submitted_cons. }
  intros [].
  { apply hoare_fail. intros st tr [HI _]. split; [done|]. by intros e [= <-]. }
  { apply hoare_fail. intros st tr [HI Hf]. by split. }
  eapply hoare_bind with (R' := fun r st tr => sane st tr /\ exists older,
    tr = mkEvent (GetTransaction_ hash) r :: older /\ flight_of older = InFlight hash /\ submitted o hash deadline older).
  { apply hoare_call. intros x st tr [HI [Hf Hs]]. split; [by apply sane_cons|]. by exists tr. }
  intros [resp|e].
  2: { refine (hoare_pre _ _ _ _ _ IH _). intros st tr [HI (older & -> & Hf & Hs)].
       split; [done|]. split; [done|by apply submitted_cons]. }
  destruct (gt_Status resp) eqn:Es.
  - destruct (String.eqb _ _).
    { apply hoare_fail. intros st tr [HI _]. split; [done|]. by intros e [= <-]. }
    apply hoare_liftw.
    + intros meta st tr Em [HI (older & -> & Hf & Hs)]. split.
      * split; [done|]. simpl. rewrite Hf. simpl. by rewrite String.eqb_refl, Es.
      * by exists deadline, resp, older.
    + intros e st tr _ [HI _]. split; [done|]. by intros e' [= <-].
  - destruct (isInvokeHostFunctionResourceLimitExceeded _) eqn:El; apply hoare_fail.
    + intros st tr [HI (older & -> & Hf & Hs)]. split; [done|]. intros _ _ _. simpl. rewrite Hf. simpl.
      by rewrite String.eqb_refl, Es, El.
    + intros st tr [HI _]. split; [done|]. by intros e [= <-].
  - refine (hoare_pre _ _ _ _ _ IH _). intros st tr [HI (older & -> & Hf & Hs)].
    split; [done|]. split; [|by apply submitted_cons]. simpl. rewrite Hf. simpl. by rewrite String.eqb_refl, Es.
  - refine (hoare_pre _ _ _ _ _ IH _). intros st tr [HI (older & -> & Hf & Hs)].
    split; [done|]. split; [|by apply submitted_cons]. simpl. rewrite Hf. simpl. by rewrite String.eqb_refl, Es.
Qed.

(** An envelope of [o] has just been signed, and sent with the answer [resp]. *)
Definition just_sent (o : DOperation) (deadline : Z) (resp : SendTransactionResponse) (tr : dtrace) : Prop :=
  exists xdr env signed older,
    tr = mkEvent (Send xdr) (Ok resp) :: mkEvent (SignTransaction (dp_networkPassphrase d) env) (Ok signed) :: older /\
    env_Base64 signed = Ok xdr /\ signable deadline o older env.

Lemma sign_and_send_spec m1 m2 m3 tx deadline o :
  hoare (fun st tr => ready st tr /\ signable deadline o tr (tx_env tx)) (sign_and_send d m1 m2 m3 tx)
    (fun resp st tr => sane st tr /\ just_sent o deadline resp tr) settled.
Proof.
  unfold sign_and_send. set (env := tx_env tx).
  set (signed_at := fun signed (st : dstate) (tr : dtrace) => ready st tr /\ exists older,
    tr = mkEvent (SignTransaction (dp_networkPassphrase d) env) signed :: older /\ signable deadline o older env).
  eapply hoare_bind with (R' := signed_at).
  { apply hoare_call. intros x st tr [[HI Hc] Hs]. split; [|by exists tr]. split; [|done].
    apply sane_cons; [|done]. simpl. eauto. }
  intros signed. eapply hoare_bind with (R' := fun env' => signed_at (Ok env')).
  { apply hoare_liftw; [by intros env' st tr ->|]. intros e st tr _ [HJ _]. by apply ready_settled. }
  intros env'. eapply hoare_bind with (R' := fun xdr st tr => signed_at (Ok env') st tr /\ env_Base64 env' = Ok xdr).
  { apply hoare_liftw; [by auto|]. intros e st tr _ [HJ _]. by apply ready_settled. }
  intros xdr. eapply hoare_bind with (R' := fun sent st tr => sane st tr /\ exists older,
    tr = mkEvent (Send xdr) sent :: mkEvent (SignTransaction (dp_networkPassphrase d) env) (Ok env') :: older /\
    env_Base64 env' = Ok xdr /\ signable deadline o older env).
  { apply hoare_call. intros x st tr [[[HI Hc] (older & -> & Hs)] Hx]. split; [|by exists older].
    apply sane_cons; [|done]. simpl. split; [done|]. by exists env, env', older. }
  intros sent. apply hoare_liftw.
  - intros resp st tr -> [HI (older & -> & Hs)]. split; [done|]. by exists xdr, env, env', older.
  - intros e st tr _ [HI _]. split; [done|]. by intros e' [= <-].
Qed.

Lemma waitForTransaction_spec fuel deadline o resp :
  accepted resp = true ->
  hoare (fun st tr => sane st tr /\ just_sent o deadline resp tr)
    (waitForTransaction fuel (send_Hash resp) deadline)
    (fun meta st tr => ready st tr /\ confirmed o meta (send_Hash resp) tr) settled.
Proof.
  intros Ha. unfold waitForTransaction.
  eapply hoare_bind with (R' := fun n st tr => sane st tr /\ exists older,
    tr = mkEvent Now n :: older /\ just_sent o deadline resp older).
  { apply hoare_call. intros n st tr [HI Hs]. split; [by apply sane_cons|]. by exists tr. }
  intros n. destruct (Z.leb_spec (time_sub deadline n) 0).
  { apply hoare_fail. intros st tr [HI _]. split; [done|]. by intros e [= <-]. }
  eapply hoare_bind with (R' := fun _ st tr => sane st tr /\ flight_of tr = InFlight (send_Hash resp) /\
    submitted o (send_Hash resp) deadline tr).
  { apply hoare_call. intros x st tr [HI (older & -> & xdr & env & env' & older' & -> & Hb & Hs)]. split; [|split].
    - apply sane_cons; [|done]. simpl. by exists n, xdr, (Ok resp), env, (Ok env'), older', deadline, o.
    - simpl. by rewrite Ha.
    - by exists [mkEvent (StartPoll (time_sub deadline n)) x; mkEvent Now n], xdr, resp, env, env', older'. }
  intros _. apply poll_spec.
Qed.

(** A rejection that the loop recovers from means that nothing was executed. *)
Lemma rejection_settled label o deadline resp e st tr :
  submit_rejection label resp = Some e -> sane st tr -> just_sent o deadline resp tr -> settled (Failed e) st tr.
Proof.
  intros Er HI (xdr & env & env' & older & -> & _). split; [done|]. intros e' [= <-] Hrec.
  revert Er. unfold submit_rejection. simpl. unfold accepted, refused.
  destruct (send_Status resp); intros Er; simplify_eq/=; try done.
  destruct (String.eqb _ _); simplify_eq/=; try done.
  destruct (isTxInsufficientFee _); by simplify_eq/=.
Qed.

Lemma accepted_of_rejection label resp : submit_rejection label resp = None -> accepted resp = true.
Proof.
  unfold submit_rejection, accepted. destruct (send_Status resp); try done.
  destruct (String.eqb _ _); [done|]. simpl. by destruct (isTxInsufficientFee _).
Qed.

Lemma signSubmitAndWait_spec fuel tx deadline label o :
  hoare (fun st tr => ready st tr /\ signable deadline o tr (tx_env tx))
    (signSubmitAndWait d fuel tx deadline label)
    (fun r st tr => ready st tr /\ confirmed o r.1 r.2 tr) settled.
Proof.
  eapply hoare_bind; [apply sign_and_send_spec|]. intros resp.
  destruct (submit_rejection label resp) as [e|] eqn:Er.
  { apply hoare_fail. intros st tr [HI Hs]. by eapply rejection_settled. }
  eapply hoare_bind; [by eapply waitForTransaction_spec, accepted_of_rejection|].
  intros meta. by apply hoare_ret.
Qed.

(** ** Building *)

(** The account read last is [source], and the deadline is a bound from the clock. *)
Definition at_source (source : SimpleAccount) (deadline : Z) (tr : dtrace) : Prop :=
  last_sequence tr = Some (Sequence source) /\ AccountID source = dp_signer_Address d /\
  exists n, mkEvent Now n ∈ tr /\ deadline = n + dp_txnTimeBound d.

Definition built (tx : Tx) (deadline : Z) (op : positive) (o : DOperation) (st : dstate) (tr : dtrace) : Prop :=
  tx_ops tx = [op] /\ op_heap st !! op = Some o /\ signable deadline o tr (tx_env tx).

Lemma built_stable tx deadline op o : stable (built tx deadline op o).
Proof. intros st tr e He (Ho & Hl & Hs). repeat split; try done. by apply signable_cons. Qed.

Lemma new_transaction_spec source deadline op o :
  hoare (fun st tr => ready st tr /\ at_source source deadline tr /\ op_heap st !! op = Some o)
    (new_transaction source [op] deadline)
    (fun r st tr => ready st tr /\ at_source source deadline tr /\
       forall tx, r = Ok tx -> built tx deadline op o st tr) settled.
Proof.
  unfold new_transaction, read_operations.
  eapply hoare_bind with (R' := fun os st tr => (ready st tr /\ at_source source deadline tr /\
    op_heap st !! op = Some o) /\ os = [o]).
  { eapply hoare_bind with (R' := fun st0 st tr => (ready st tr /\ at_source source deadline tr /\
      op_heap st !! op = Some o) /\ st = st0); [by apply hoare_get|].
    intros st0. apply hoare_ret. intros st tr [(HJ & Hs & Ho) <-]. simpl. by rewrite Ho. }
  intros os. apply hoare_ret. intros st tr [(HJ & (Hseq & Ha & n & Hn & Hd) & Ho) ->]. split; [done|].
  split; [by repeat split; eauto|].
  intros tx E. destruct (NewTransaction_ _) as [env|] eqn:EN; simplify_eq/=. split; [done|]. split; [done|].
  exists (Sequence source), n. rewrite Ha in EN. repeat split; try done. destruct HJ as [[_ [Hc _]] _]. by eapply Hc.
Qed.

Lemma draft_spec build_msg suffix source deadline op o :
  hoare (fun st tr => ready st tr /\ at_source source deadline tr /\ op_heap st !! op = Some o)
    (draft build_msg suffix source [op] deadline)
    (fun r st tr => ready st tr /\ built r.1 deadline op o st tr) settled.
Proof.
  unfold draft. eapply hoare_bind; [apply new_transaction_spec|]. intros r.
  eapply hoare_bind with (R' := fun tx st tr => ready st tr /\ built tx deadline op o st tr).
  { apply hoare_liftw; [intros tx st tr -> (HJ & _ & Hb); by auto|]. intros e st tr _ HP. by eapply ready_exit. }
  intros tx. eapply hoare_bind with (R' := fun _ st tr => ready st tr /\ built tx deadline op o st tr).
  { apply hoare_liftw; [by auto|]. intros e st tr _ HP. by eapply ready_exit. }
  intros x. eapply hoare_bind; [apply (quiet_call (built tx deadline op o)); [apply built_stable|done..]|].
  intros ans. eapply hoare_bind with (R' := fun _ st tr => ready st tr /\ built tx deadline op o st tr).
  { apply hoare_liftw; [by auto|]. intros e st tr _ HP. by eapply ready_exit. }
  intros sim. destruct (String.eqb _ _); [by apply hoare_ret|]. apply hoare_fail.
  intros st tr HP. by eapply ready_exit.
Qed.

Lemma checked_capped fee : checkResourceFee d fee = None -> dp_maxResourceFee d > 0 -> fee <= dp_maxResourceFee d.
Proof.
  unfold checkResourceFee. destruct (_ && _) eqn:E; [done|]. intros _ Hm.
  apply andb_false_iff in E as [E|E]; zbool; lia.
Qed.

(** The tracked part of a heap, after writes that only change data. *)
Definition same_op (op : positive) (o : DOperation) (st : dstate) : Prop :=
  exists o', op_heap st !! op = Some o' /\ bare o' = bare o.

Lemma same_op_alter op o r f st : (forall o, bare (f o) = bare o) ->
  same_op op o st -> same_op op o (mkDState (accountSequence st) (alter f r (op_heap st))).
Proof.
  intros Hf (o' & Hl & Hb). unfold same_op. simpl. destruct (decide (op = r)) as [->|Hne].
  - exists (f o'). rewrite lookup_alter_eq, Hl. split; [done|]. by rewrite Hf.
  - exists o'. by rewrite lookup_alter_ne.
Qed.

Lemma assemble_data_spec `{!LedgerKeyLaws} first sim bump attempt prev (K : dstate -> dtrace -> Prop) :
  stable K ->
  (forall st tr f, (forall o, bare (f o) = bare o) -> K st tr ->
     K (mkDState (accountSequence st) (alter f first (op_heap st))) tr) ->
  hoare (ok_with K) (assemble_data d first sim bump attempt prev) (fun _ => ok_with K) settled.
Proof.
  intros HK Hw. unfold assemble_data.
  assert (Hx : forall x st tr, ok_with K st tr -> settled x st tr) by (intros; by eapply ready_exit).
  eapply hoare_bind with (R' := fun _ => ok_with K); [by apply hoare_liftw; auto|]. intros sd.
  eapply hoare_bind with (R' := fun _ => ok_with K); [by apply hoare_get|]. intros st0.
  destruct (is_invoke _); [|by apply hoare_ret].
  eapply hoare_bind with (R' := fun _ => ok_with K).
  { destruct (inflated _ _); [by apply networkResourceCaps_spec|by apply hoare_ret]. }
  intros caps. destruct (checkResourceFee d _) as [e|] eqn:Ec; [by apply hoare_fail; auto|].
  eapply hoare_bind with (R' := fun _ => ok_with K).
  { apply write_operation_spec; [|intros; apply with_ext_bare|].
    - intros [] Ho; try done. simpl. by apply checked_capped.
    - intros st tr HS. apply Hw; [intros; apply with_ext_bare|done]. }
  intros _. destruct (hasAuth sim); [|by apply hoare_ret].
  eapply hoare_bind with (R' := fun _ => ok_with K); [by apply hoare_liftw; auto|]. intros auth.
  apply write_operation_spec; [by intros []|intros; apply with_auth_bare|].
  intros st tr HS. apply Hw; [intros; apply with_auth_bare|done].
Qed.

Lemma assembleTransaction_spec `{!LedgerKeyLaws} tx sim deadline attempt prev op o :
  hoare (fun st tr => ready st tr /\ built tx deadline op o st tr)
    (assembleTransaction d tx sim deadline attempt prev)
    (fun tx' st tr => ready st tr /\ exists o', bare o' = bare o /\ signable deadline o' tr (tx_env tx')) settled.
Proof.
  eapply hoare_pre with (P' := fun st tr => tx_ops tx = [op] /\ ready st tr /\ built tx deadline op o st tr).
  2: { intros st tr [HJ Hb]. repeat split; try done; apply Hb || apply HJ. }
  apply hoare_fact. intros Hops. unfold assembleTransaction. rewrite Hops.
  set (K := fun st tr => same_op op o st /\ signable deadline o tr (tx_env tx)).
  eapply hoare_bind with (R' := fun _ => ok_with K).
  { apply hoare_pre with (P' := ok_with K).
    2: { intros st tr [HJ (_ & Hl & Hs)]. split; [done|]. split; [by exists o|done]. }
    destruct (String.eqb _ _); [by apply hoare_ret|]. apply assemble_data_spec.
    - intros st tr e He [Hl Hs]. split; [done|by apply signable_cons].
    - intros st tr f Hf [Hl Hs]. split; [by apply same_op_alter|done]. }
  intros _. destruct (_ >? 0).
  2: { apply hoare_ret. intros st tr [HJ [_ Hs]]. split; [done|]. by exists o. }
  set (K' := fun (st : dstate) (tr : dtrace) => same_op op o st /\ exists n, mkEvent Now n ∈ tr /\ deadline = n + dp_txnTimeBound d).
  eapply hoare_bind.
  { eapply hoare_pre; [apply (getSourceAccount_spec K')|].
    - intros st tr e [Ho (n & Hn & Hd)]. split; [done|]. exists n. split; [by right|done].
    - by intros st s tr [Ho Hn].
    - intros st tr [HJ [Ho (seq & n & _ & _ & Hn & Hd & _)]]. split; [done|]. split; [done|]. by exists n. }
  intros src. simpl.
  apply hoare_pre with (P' := fun st tr => exists o', bare o' = bare o /\
    ready st tr /\ at_source src deadline tr /\ op_heap st !! op = Some o').
  2: { intros st tr [[HJ [(o' & Hl & Hb) Hn]] (Ha & Hs & _)]. by exists o'. }
  apply hoare_ex. intros o'. apply hoare_fact. intros Hb.
  eapply hoare_bind; [apply new_transaction_spec|]. intros r. apply hoare_lift.
  - intros tx' st tr -> (HJ & _ & Ht). split; [done|]. destruct (Ht _ eq_refl) as (_ & _ & Hs). by exists o'.
  - intros e st tr _ HP. by eapply ready_exit.
Qed.

(** ** Restoration *)

Lemma ready_getSource K :
  (forall st tr e, K st tr -> K st (e :: tr)) -> (forall st s tr, K st tr -> K (mkDState s (op_heap st)) tr) ->
  forall pre, hoare (ok_with K) (wrapd pre (getSourceAccount d))
    (fun src st tr => ok_with K st tr /\ AccountID src = dp_signer_Address d /\ last_sequence tr = Some (Sequence src)) settled.
Proof.
  intros HK HKs pre. apply hoare_wrapd. eapply hoare_conseq; [by apply (getSourceAccount_spec K)|done| |].
  - intros src st tr (HP & Ha & Hs & _). by auto.
  - intros x st tr Hx. by apply settled_wrap.
Qed.

Abbreviation clocked deadline := (fun (st : dstate) (tr : dtrace) => exists n, mkEvent Now n ∈ tr /\ deadline = n + dp_txnTimeBound d).

Lemma clocked_cons deadline st tr e : clocked deadline st tr -> clocked deadline st (e :: tr).
Proof. intros (n & Hn & Hd). exists n. split; [by right|done]. Qed.

Lemma restoreFootprint_spec fuel preamble :
  hoare ready (restoreFootprint d fuel preamble) (fun _ => ready) settled.
Proof.
  unfold restoreFootprint.
  eapply hoare_bind with (R' := fun n => ok_with (clocked (n + dp_txnTimeBound d))).
  { apply hoare_call. intros n st tr HJ. split; [by apply ready_quiet|]. exists n. split; [by left|done]. }
  intros n. set (deadline := n + dp_txnTimeBound d).
  eapply hoare_bind; [apply (ready_getSource (clocked deadline)); [by intros; apply clocked_cons|done]|].
  intros src. simpl. set (P := fun st tr => ready st tr /\ at_source src deadline tr).
  assert (HPx : forall x st tr, P st tr -> settled x st tr) by (intros x st tr HP; by eapply ready_exit).
  eapply hoare_bind with (R' := fun _ => P).
  { apply hoare_liftw.
    - intros sd st tr _ [[HJ Hn] [Ha Hs]]. by repeat split; apply HJ || done.
    - intros e st tr _ [HP _]. by eapply ready_exit. }
  intros sd. destruct (checkResourceFee d _) as [e|] eqn:Ec; [by apply hoare_fail; auto|].
  eapply hoare_bind.
  { apply (new_operation_spec (fun _ tr => at_source src deadline tr)); [|by intros].
    simpl. by apply checked_capped. }
  intros op. set (o := OpRestoreFootprint _ _).
  eapply hoare_bind.
  { eapply hoare_pre; [apply (new_transaction_spec src deadline op o)|]. by intros st tr [[HJ Hs] Ho]. }
  intros r. eapply hoare_bind with (R' := fun tx st tr => ready st tr /\ signable deadline o tr (tx_env tx)).
  { apply hoare_liftw.
    - intros tx st tr -> (HJ & _ & Ht). split; [done|]. by apply (Ht tx eq_refl).
    - intros e st tr _ HP. by eapply ready_exit. }
  intros tx. eapply hoare_bind with (R' := fun _ => ready).
  - apply hoare_wrapd. eapply hoare_conseq; [apply (signSubmitAndWait_spec _ _ _ _ o)|done|by intros m st tr [HJ _]|].
    intros x st tr Hx. by apply settled_wrap.
  - intros _. by apply hoare_ret.
Qed.

(** What makes the operations of a transaction: one object, whose operation
    satisfies [Q]; it keeps what is known of the trace. *)
Definition makes (ops : D (list positive)) (Q : DOperation -> Prop) : Prop :=
  forall K : dtrace -> Prop, hoare (ok_with (fun _ => K)) ops
    (fun rs st tr => ready st tr /\ K tr /\ exists op o, rs = [op] /\ op_heap st !! op = Some o /\ Q o) settled.

Lemma restore_and_draft_spec fuel preamble ops Q :
  makes ops Q ->
  hoare ready (restore_and_draft d fuel preamble ops)
    (fun r st tr => ready st tr /\ exists op o, Q o /\ built r.1.1 r.2 op o st tr) settled.
Proof.
  intros Hops. unfold restore_and_draft.
  eapply hoare_bind with (R' := fun _ => ready).
  { apply hoare_wrapd. eapply hoare_conseq; [apply restoreFootprint_spec|done..|].
    intros x st tr Hx. by apply settled_wrap. }
  intros _. eapply hoare_bind.
  { eapply hoare_pre; [by apply (ready_getSource (fun _ _ => True))|]. by intros st tr HJ. }
  intros src. simpl.
  eapply hoare_bind with (R' := fun n => ok_with (fun _ => at_source src (n + dp_txnTimeBound d))).
  { apply hoare_call. intros n st tr [[HJ _] [Ha Hs]]. split; [by apply ready_quiet|]. split; [done|].
    split; [done|]. exists n. split; [by left|done]. }
  intros n. eapply hoare_bind; [apply Hops|]. intros rs. simpl. set (deadline := n + dp_txnTimeBound d).
  apply hoare_pre with (P' := fun st tr => exists op o, (rs = [op] /\ Q o) /\
    ready st tr /\ at_source src deadline tr /\ op_heap st !! op = Some o).
  2: { intros st tr (HJ & Hs & op & o & -> & Hl & HQ). by exists op, o. }
  apply hoare_ex. intros op. apply hoare_ex. intros o. apply hoare_fact. intros [-> HQ].
  eapply hoare_bind; [apply draft_spec|]. intros [tx sim]. simpl.
  destruct (sim_RestorePreamble sim).
  - apply hoare_fail. intros st tr HP. by eapply ready_exit.
  - apply hoare_ret. intros st tr [HJ Hb]. split; [done|]. by exists op, o.
Qed.

Lemma tracked_makes op o0 : T !! op = Some o0 -> makes (mret [op]) (fun o => bare o = bare o0).
Proof.
  intros HT K. apply hoare_ret. intros st tr [HJ HK]. split; [done|]. split; [done|].
  destruct HJ as [[_ [_ Ht]] _]. destruct (Ht op o0 HT) as (o & Hl & Hb). by exists op, o.
Qed.

(** ** A round, and the loop *)

(** The account was read last as [source]. *)
Definition sourced (source : SimpleAccount) (tr : dtrace) : Prop :=
  last_sequence tr = Some (Sequence source) /\ AccountID source = dp_signer_Address d.

Lemma once_spec `{!LedgerKeyLaws} fuel source op o0 attempt prev :
  T !! op = Some o0 ->
  hoare (ok_with (fun _ => sourced source)) (buildSimulateAndSubmitOnce d fuel source op attempt prev)
    (fun r st tr => ready st tr /\ exists o, bare o = bare o0 /\ confirmed o r.1 r.2 tr) settled.
Proof.
  intros HT. unfold buildSimulateAndSubmitOnce.
  eapply hoare_bind with (R' := fun n => ok_with (fun _ => at_source source (n + dp_txnTimeBound d))).
  { apply hoare_call. intros n st tr [HJ [Hs Ha]]. split; [by apply ready_quiet|]. split; [done|].
    split; [done|]. exists n. split; [by left|done]. }
  intros n. set (deadline := n + dp_txnTimeBound d).
  eapply hoare_bind.
  { apply (write_operation_spec _ (fun _ => at_source source deadline)); [apply bare_capped|apply bare_bare|done]. }
  intros u. simpl. apply hoare_pre with (P' := fun st tr => exists o, bare o = bare o0 /\
    ready st tr /\ at_source source deadline tr /\ op_heap st !! op = Some o).
  2: { intros st tr [HJ Hs]. destruct (HJ) as [[_ [_ Ht]] _]. destruct (Ht op o0 HT) as (o & Hl & Hb). by exists o. }
  apply hoare_ex. intros o. apply hoare_fact. intros Hb.
  eapply hoare_bind; [apply draft_spec|]. intros first. simpl.
  eapply hoare_bind with (R' := fun r st tr => ready st tr /\ exists op' o', bare o' = bare o0 /\
    built r.1.1 r.2 op' o' st tr).
  { assert (Hfirst : hoare (fun st tr => ready st tr /\ built first.1 deadline op o st tr) (mret (first, deadline))
      (fun r st tr => ready st tr /\ exists op' o', bare o' = bare o0 /\ built r.1.1 r.2 op' o' st tr) settled).
    { apply hoare_ret. intros st tr [HJ Hbt]. split; [done|]. by exists op, o. }
    destruct (sim_RestorePreamble first.2) as [preamble|]; [|done].
    destruct (dp_autoRestore d); [|done].
    eapply hoare_pre; [by apply restore_and_draft_spec, tracked_makes|]. by intros st tr [HJ _]. }
  intros [[tx sim] deadline']. simpl.
  apply hoare_pre with (P' := fun st tr => exists op' o', bare o' = bare o0 /\
    ready st tr /\ built tx deadline' op' o' st tr).
  2: { intros st tr (HJ & op' & o' & Ho & Hbt). by exists op', o'. }
  apply hoare_ex. intros op'. apply hoare_ex. intros o'. apply hoare_fact. intros Ho.
  eapply hoare_bind.
  { apply hoare_wrapd. eapply hoare_conseq; [apply (assembleTransaction_spec tx sim deadline' attempt prev op' o')|done|done|].
    intros x st tr Hx. by apply settled_wrap. }
  intros tx'. simpl. apply hoare_pre with (P' := fun st tr => exists o1, bare o1 = bare o' /\
    ready st tr /\ signable deadline' o1 tr (tx_env tx')).
  2: { intros st tr (HJ & o1 & Ho1 & Hs). by exists o1. }
  apply hoare_ex. intros o1. apply hoare_fact. intros Ho1.
  eapply hoare_conseq; [apply (signSubmitAndWait_spec _ _ _ _ o1)|done| |done].
  intros r st tr [HJ Hc]. split; [done|]. exists o1. split; [congruence|done].
Qed.

Lemma caught {A} P (m : D A) (R : A -> dstate -> dtrace -> Prop) :
  hoare P m R settled ->
  hoare P (catch m) (fun r => match r with inl a => R a | inr e => settled (Failed e) end) settled.
Proof. intros Hm. apply hoare_catch. eapply hoare_conseq; [exact Hm|done..|]. by intros []. Qed.

Lemma submit_loop_spec `{!LedgerKeyLaws} fuel rem source op o0 prev :
  T !! op = Some o0 ->
  hoare (ok_with (fun _ => sourced source)) (submit_loop d fuel rem source op prev)
    (fun r st tr => ready st tr /\ exists o, bare o = bare o0 /\ confirmed o r.1 r.2 tr) settled.
Proof.
  intros HT. revert source prev. induction rem as [|rem IH]; intros source prev; simpl;
    (eapply hoare_bind; [exact (caught _ _ _ (once_spec fuel source op o0 _ prev HT))|]);
    intros [v|e]; try (by apply hoare_ret).
  { by apply hoare_fail. }
  destruct (recoverable e) eqn:Hr; [|by apply hoare_fail]. simpl.
  apply hoare_pre with (P' := ready).
  2: { intros st tr [HI Hx]. split; [done|]. by apply (Hx e). }
  eapply hoare_bind with (R' := fun _ => ready).
  { destruct (as_soe e); [|by apply hoare_ret]. apply hoare_call. intros x st tr HJ. by apply ready_quiet. }
  intros []; simpl.
  2: { apply hoare_fail. intros st tr HJ. by apply ready_settled. }
  eapply hoare_bind.
  { eapply hoare_pre; [by apply (ready_getSource (fun _ _ => True))|]. by intros st tr HJ. }
  intros src. eapply hoare_pre; [apply IH|]. simpl. intros st tr [[HJ _] [Ha Hs]]. by repeat split; apply HJ || done.
Qed.

End Discipline.
