(* ===== verification/SubmitProofs.v ===== *)
(** * The deployer's calls are disciplined

    The specifications of the exported methods: a sequence of calls only signs,
    sends and awaits what it should ([submission_discipline]); an invocation's
    result is one the node confirmed ([InvokeContract_confirmed]). *)

From S2P Require Import Prelude GoFloat Sdk GoBytes Xdr Scval TypeConverters Invoker StellarService Interaction Deployer DeployerSubmit DeployerCalls DeployerLogic Discipline.

(** ** Calls *)

Inductive deployer_call `{DeploySdk} :=
| CallDeploy (wasm salt : bytes) (ctorArgs : list ScVal)
| CallUpload (wasm : bytes)
| CallInvoke (contractID functionName : string) (args : list ScVal)
| CallSimulate (contractID functionName : string) (args : list ScVal)
| CallDeploySAC (a : Asset)
| CallPayment (destination : string) (stroops : Z)
| CallClassic (op : ClassicOp)
| CallExtendTTLTo (keys : list LedgerKey) (targetTTL : Z)
| CallExtendTTLToMax (keys : list LedgerKey)
| CallSimulateExtend (keys : list LedgerKey) (targetTTL : Z).

Section Calls.
Context `{DeployFns} `{!Codec} `{protocol.Cursors} `{FloatConv}.
Variable d : Deployer.

Abbreviation dtrace := (list (event dans)).

Definition ignore {A} (m : D A) : D unit := m ;; mret tt.

Definition perform (fuel : nat) (c : deployer_call) : D unit :=
  match c with
  | CallDeploy wasm salt args => ignore (DeployContractBytesWithArgs d fuel wasm salt args)
  | CallUpload wasm => ignore (UploadContractWASMBytes d fuel wasm)
  | CallInvoke id fn args => ignore (InvokeContract d fuel id fn args)
  | CallSimulate id fn args => ignore (SimulateContract d fuel id fn args)
  | CallDeploySAC a => ignore (DeploySACToken d fuel a)
  | CallPayment dest n => SendNativePayment d fuel dest n
  | CallClassic op => SubmitClassicOperation d fuel (OpClassic op)
  | CallExtendTTLTo keys ttl => ignore (ExtendTTLTo d fuel keys ttl)
  | CallExtendTTLToMax keys => ignore (ExtendTTLToMax d fuel keys)
  | CallSimulateExtend keys ttl => ignore (SimulateExtendTTL d keys ttl)
  end.

(** Calls in order, until one of them fails. *)
Fixpoint perform_all (fuel : nat) (cs : list deployer_call) : D unit :=
  match cs with
  | [] => mret tt
  | c :: cs' => perform fuel c ;; perform_all fuel cs'
  end.

(** A deployer as [NewDeployerWithSigner] makes it. *)
Definition new_state : dstate := mkDState (-1) ∅.

(** ** Specifications *)

Abbreviation rdy := (ready d ∅).
Abbreviation stl := (settled d ∅).
Abbreviation safe m := (hoare rdy m (fun _ => rdy) stl).

Lemma tracked_empty st : tracked ∅ st.
Proof. intros r o Ho. by rewrite lookup_empty in Ho. Qed.

Lemma untrack T st tr : ready d T st tr -> rdy st tr.
Proof. intros [[Hd [Hc _]] Hf]. by repeat split. Qed.

Lemma untrack_exit T x st tr : settled d T x st tr -> stl x st tr.
Proof. intros [[Hd [Hc _]] Hx]. split; [|done]. split; [done|]. split; [done|apply tracked_empty]. Qed.

Lemma rdy_exit x st tr : rdy st tr -> stl x st tr.
Proof. apply ready_settled. Qed.

Lemma safe_call r : quiet r = true -> safe (call r).
Proof. intros Hq. apply hoare_call. intros x st tr. by apply ready_quiet. Qed.

Lemma safe_lift {A} (r : res A) : safe (lift r).
Proof. apply hoare_lift; [done|]. intros. by apply rdy_exit. Qed.

Lemma safe_fail {A} e : safe (fail (A := A) e).
Proof. apply hoare_fail. intros. by apply rdy_exit. Qed.

Lemma safe_panic {A} : safe (panic (A := A)).
Proof. apply hoare_panic. intros. by apply rdy_exit. Qed.

Lemma safe_lift_out {A} (r : outcome A) : safe (lift_out r).
Proof. apply hoare_lift_out; [done|intros; by apply rdy_exit..]. Qed.

Lemma safe_wrapd {A} pre (m : D A) R : hoare rdy m R stl -> hoare rdy (wrapd pre m) R stl.
Proof.
  intros Hm. apply hoare_wrapd. eapply hoare_conseq; [exact Hm|done|done|].
  intros x st tr Hx. by apply settled_wrap.
Qed.

Lemma safe_liftw {A} pre (r : res A) : safe (liftw pre r).
Proof. apply safe_wrapd, safe_lift. Qed.

Lemma safe_ret {A} (a : A) : safe (mret a).
Proof. by apply hoare_ret. Qed.

Lemma safe_bind {A B} (m : D A) (f : A -> D B) : safe m -> (forall a, safe (f a)) -> safe (mbind f m).
Proof. intros Hm Hf. by apply hoare_bind with (R' := fun _ => rdy). Qed.

Lemma safe_fetch key : safe (fetchLedgerEntry key).
Proof.
  eapply hoare_conseq; [apply (fetchLedgerEntry_spec d ∅ (fun _ _ => True)); done| | |].
  - by intros.
  - by intros ? ? ? [].
  - intros x st tr [HJ _]. by apply rdy_exit.
Qed.

Lemma safe_catch {A} (m : D A) : safe m -> (forall e st tr, stl (Failed e) st tr -> rdy st tr) -> safe (catch m).
Proof.
  intros Hm He. apply hoare_catch. eapply hoare_conseq; [exact Hm|done|done|].
  intros [] st tr Hx; [by eapply He|done..].
Qed.

Lemma catch_fetch key : safe (catch (fetchLedgerEntry key)).
Proof.
  apply hoare_catch. eapply hoare_conseq; [apply (fetchLedgerEntry_spec d ∅ (fun _ _ => True)); done| | |].
  - by intros.
  - by intros ? ? ? [].
  - intros [] st tr [HJ _]; [done|by apply rdy_exit..].
Qed.

(** The source account read, which the next transaction is built on. *)
Lemma sourced_spec pre : hoare rdy (wrapd pre (getSourceAccount d))
  (fun src st tr => rdy st tr /\ sourced d src tr) stl.
Proof.
  eapply hoare_conseq; [by apply (ready_getSource d ∅ (fun _ _ => True))|done| |done].
  by intros src st tr ([HJ _] & Ha & Hs).
Qed.

Lemma safe_source pre : safe (wrapd pre (getSourceAccount d)).
Proof. eapply hoare_conseq; [apply sourced_spec|done| |done]. by intros src st tr [HJ _]. Qed.

Lemma sourced_weaken {A} src (m : D A) : safe m -> hoare (fun st tr => rdy st tr /\ sourced d src tr) m (fun _ => rdy) stl.
Proof. intros Hm. eapply hoare_pre; [exact Hm|]. by intros st tr [HJ _]. Qed.

(** An operation object, submitted. *)
Lemma submit_op_spec `{!LedgerKeyLaws} fuel src op o :
  hoare (fun st tr => (rdy st tr /\ sourced d src tr) /\ op_heap st !! op = Some o)
    (buildAndSubmitTransaction d fuel src op)
    (fun r st tr => rdy st tr /\ exists o', bare o' = bare o /\ confirmed d o' r.1 r.2 tr) stl.
Proof.
  eapply hoare_conseq; [apply (submit_loop_spec d {[op := o]} fuel 2 src op o false); by simplify_map_eq| | |].
  - intros st tr [[[[Hd [Hc _]] Hf] Hs] Hl]. repeat split; try done; try apply Hs.
    intros r o' [<- <-]%lookup_singleton_Some. by exists o.
  - intros r st tr [HJ Hc]. split; [by eapply untrack|done].
  - intros x st tr Hx. by eapply untrack_exit.
Qed.

Lemma new_sourced src o : op_capped d o ->
  hoare (fun st tr => rdy st tr /\ sourced d src tr) (new_operation o)
    (fun op st tr => (rdy st tr /\ sourced d src tr) /\ op_heap st !! op = Some o) stl.
Proof. intros Ho. apply (new_operation_spec d ∅ (fun _ tr => sourced d src tr)); [done|by intros]. Qed.

Lemma submit_new_spec `{!LedgerKeyLaws} fuel src o :
  op_capped d o ->
  hoare (fun st tr => rdy st tr /\ sourced d src tr)
    (op ← new_operation o; buildAndSubmitTransaction d fuel src op)
    (fun r st tr => rdy st tr /\ exists o', bare o' = bare o /\ confirmed d o' r.1 r.2 tr) stl.
Proof. intros Ho. eapply hoare_bind; [by apply new_sourced|]. intros op. apply submit_op_spec. Qed.

Lemma safe_submit_host_function `{!LedgerKeyLaws} fuel src hf :
  hoare (fun st tr => rdy st tr /\ sourced d src tr) (submit_host_function d fuel src hf) (fun _ => rdy) stl.
Proof. eapply hoare_conseq; [by apply submit_new_spec|done| |done]. by intros r st tr [HJ _]. Qed.

(** ** The calls *)

Context `{!LedgerKeyLaws}.

Lemma safe_uploadWASM fuel wasm : safe (uploadWASM d fuel wasm).
Proof.
  eapply hoare_bind; [apply sourced_spec|]. intros src.
  eapply hoare_bind; [apply safe_submit_host_function|]. intros r. apply safe_wrapd, safe_lift_out.
Qed.

Lemma safe_createContractInstance fuel h salt args : safe (createContractInstance d fuel h salt args).
Proof.
  eapply hoare_bind; [apply sourced_spec|]. intros src.
  eapply hoare_bind with (R' := fun _ st tr => rdy st tr /\ sourced d src tr).
  { apply hoare_liftw; [by auto|]. intros e st tr _ [HJ _]. by apply rdy_exit. }
  intros pk. eapply hoare_bind; [apply safe_submit_host_function|]. intros r. apply safe_wrapd, safe_lift_out.
Qed.

Lemma safe_deploy fuel wasm salt args : safe (DeployContractBytesWithArgs d fuel wasm salt args).
Proof.
  apply safe_bind; [apply safe_wrapd, safe_uploadWASM|]. intros h. apply safe_wrapd, safe_createContractInstance.
Qed.

(** The host function of a call is built without requests. *)
Lemma invoke_function_spec (K : dtrace -> Prop) id fn args :
  hoare (fun st tr => rdy st tr /\ K tr) (invoke_function id fn args)
    (fun hf st tr => rdy st tr /\ K tr /\ exists raw addr, strkey_Decode VersionByteContract id = Ok raw /\
       BuildContractScAddress raw = Some addr /\ hf = HostFunctionInvokeContract addr fn args) stl.
Proof.
  eapply hoare_bind with (R' := fun raw st tr => (rdy st tr /\ K tr) /\ strkey_Decode VersionByteContract id = Ok raw).
  { apply hoare_liftw; [by auto|]. intros e st tr _ [HJ _]. by apply rdy_exit. }
  intros raw. destruct (BuildContractScAddress raw) as [addr|] eqn:E.
  - apply hoare_ret. intros st tr [[HJ HK] Hd]. split; [done|]. split; [done|]. by exists raw, addr.
  - apply hoare_fail. intros st tr [[HJ _] _]. by apply rdy_exit.
Qed.

(** What an invocation returns is the value of a confirmed transaction. *)
Lemma InvokeContract_hoare fuel id fn args :
  hoare rdy (InvokeContract d fuel id fn args)
    (fun v st tr => rdy st tr /\ exists raw addr o meta hash,
       strkey_Decode VersionByteContract id = Ok raw /\ BuildContractScAddress raw = Some addr /\
       bare o = OpInvokeHostFunction (HostFunctionInvokeContract addr fn args) (dp_signer_Address d) None [] /\
       confirmed d o meta hash tr /\ extractReturnValue (Some meta) = Returns v) stl.
Proof.
  eapply hoare_bind; [apply sourced_spec|]. intros src.
  eapply hoare_bind; [apply (invoke_function_spec (sourced d src))|]. intros hf.
  eapply hoare_pre with (P' := fun st tr => exists raw addr, (strkey_Decode VersionByteContract id = Ok raw /\
       BuildContractScAddress raw = Some addr /\ hf = HostFunctionInvokeContract addr fn args) /\
       rdy st tr /\ sourced d src tr).
  2: { intros st tr (HJ & Hs & raw & addr & Hf). by exists raw, addr. }
  apply hoare_ex. intros raw. apply hoare_ex. intros addr. apply hoare_fact. intros (Hr & Ha & ->).
  eapply hoare_bind; [by apply submit_new_spec|]. intros r.
  apply hoare_wrapd, hoare_lift_out.
  - intros v st tr Hv [HJ (o & Ho & Hc)]. split; [done|]. by exists raw, addr, o, r.1, r.2.
  - intros e st tr _ [HJ _]. by apply rdy_exit.
  - intros st tr _ [HJ _]. by apply rdy_exit.
Qed.

Lemma draft_safe build_msg suffix source deadline op o :
  hoare (fun st tr => rdy st tr /\ at_source d source deadline tr /\ op_heap st !! op = Some o)
    (draft build_msg suffix source [op] deadline) (fun _ => rdy) stl.
Proof. eapply hoare_conseq; [apply (draft_spec d ∅ _ _ _ _ op o)|done| |done]. by intros r st tr [HJ _]. Qed.

(** A new object is all that a function of the simulation makes. *)
Lemma new_makes o : op_capped d o -> makes d ∅ (op ← new_operation o; mret [op]) (fun o' => o' = o).
Proof.
  intros Ho K. eapply hoare_bind; [apply (new_operation_spec d ∅ (fun _ => K)); [done|by intros]|].
  intros op. apply hoare_ret. intros st tr [[HJ HK] Hl]. split; [done|]. split; [done|]. by exists op, o.
Qed.

Lemma safe_SimulateContract fuel id fn args : safe (SimulateContract d fuel id fn args).
Proof.
  unfold SimulateContract. apply safe_bind.
  { eapply hoare_conseq; [apply (invoke_function_spec (fun _ => True))|by intros| |done]. by intros hf st tr [HJ _]. }
  intros hf. set (o := OpInvokeHostFunction hf (dp_signer_Address d) None []).
  eapply hoare_bind; [apply sourced_spec|]. intros src.
  eapply hoare_bind with (R' := fun n st tr => rdy st tr /\ at_source d src (n + dp_txnTimeBound d) tr).
  { apply hoare_call. intros n st tr [HJ [Hs Ha]]. split; [by apply ready_quiet|]. split; [done|].
    split; [done|]. exists n. split; [by left|done]. }
  intros n. eapply hoare_bind; [apply (new_makes o I)|]. intros ops. simpl.
  apply hoare_pre with (P' := fun st tr => exists op, ops = [op] /\
    rdy st tr /\ at_source d src (n + dp_txnTimeBound d) tr /\ op_heap st !! op = Some o).
  2: { intros st tr (HJ & Hs & op & o' & -> & Hl & ->). by exists op. }
  apply hoare_ex. intros op. apply hoare_fact. intros ->.
  eapply hoare_bind; [apply draft_safe|]. intros first. simpl.
  eapply hoare_bind with (R' := fun _ => rdy).
  { destruct (sim_RestorePreamble first.2); [|apply safe_ret]. destruct (dp_autoRestore d); [|apply safe_ret].
    eapply hoare_bind; [exact (restore_and_draft_spec d ∅ fuel _ _ _ (new_makes o I))|].
    intros rs. apply hoare_ret. by intros st tr [HJ _]. }
  intros round. apply safe_lift.
Qed.

Lemma safe_DeploySACToken fuel a : safe (DeploySACToken d fuel a).
Proof.
  unfold DeploySACToken. apply safe_bind; [apply safe_liftw|]. intros id.
  apply safe_bind; [apply safe_lift|]. intros key. apply safe_bind; [apply catch_fetch|].
  intros [data|e]; [apply safe_ret|]. destruct (negb _); [apply safe_fail|].
  eapply hoare_bind; [apply sourced_spec|]. intros src.
  eapply hoare_bind with (R' := fun _ => rdy); [|intros _; apply safe_ret].
  apply hoare_wrapd. eapply hoare_conseq; [apply (safe_submit_host_function fuel src)|done|done|].
  intros x st tr Hx. by apply settled_wrap.
Qed.

Lemma safe_payment fuel dest n : safe (SendNativePayment d fuel dest n).
Proof.
  unfold SendNativePayment. destruct (n <=? 0); [apply safe_fail|].
  apply safe_bind; [apply safe_liftw|]. intros _.
  eapply hoare_bind; [apply sourced_spec|]. intros src.
  eapply hoare_bind; [by apply new_sourced|]. intros op.
  eapply hoare_bind; [apply submit_op_spec|]. intros ?. apply hoare_ret. by intros st tr [HJ _].
Qed.

Lemma safe_classic fuel c : safe (SubmitClassicOperation d fuel (OpClassic c)).
Proof.
  unfold SubmitClassicOperation. set (o := OpClassic c).
  eapply hoare_bind; [apply sourced_spec|]. intros src.
  eapply hoare_bind with (R' := fun n st tr => rdy st tr /\ at_source d src (n + dp_txnTimeBound d) tr).
  { apply hoare_call. intros n st tr [HJ [Hs Ha]]. split; [by apply ready_quiet|]. split; [done|].
    split; [done|]. exists n. split; [by left|done]. }
  intros n. set (deadline := n + dp_txnTimeBound d).
  eapply hoare_bind; [apply (new_operation_spec d ∅ (fun _ tr => at_source d src deadline tr)); [done|by intros]|].
  intros op. eapply hoare_bind.
  { eapply hoare_pre; [apply (new_transaction_spec d ∅ src deadline op o)|]. by intros st tr [[HJ Hs] Hl]. }
  intros r. eapply hoare_bind with (R' := fun tx st tr => rdy st tr /\ signable d deadline o tr (tx_env tx)).
  { apply hoare_liftw; [|intros e st tr _ [HJ _]; by apply rdy_exit].
    intros tx st tr -> (HJ & _ & Ht). split; [done|]. by apply (Ht tx). }
  intros tx. eapply hoare_bind; [apply (sign_and_send_spec d ∅ _ _ _ tx deadline o)|]. intros resp.
  assert (Hfail : forall msg, hoare (fun st tr => sane d ∅ st tr /\ just_sent d o deadline resp tr)
    (failf (A := ()) msg) (fun _ => rdy) stl).
  { intros msg. apply hoare_fail. intros st tr [HI _]. split; [done|]. by intros e [= <-]. }
  assert (Hwait : accepted resp = true -> hoare (fun st tr => sane d ∅ st tr /\ just_sent d o deadline resp tr)
    (waitForTransaction fuel (send_Hash resp) deadline ;; mret tt) (fun _ => rdy) stl).
  { intros Ha. eapply hoare_bind; [by apply waitForTransaction_spec|]. intros meta. apply hoare_ret. by intros st tr [HJ _]. }
  unfold accepted in Hwait. destruct (send_Status resp); auto. destruct (negb _); auto.
Qed.

(** ** Extending *)

(** The account was read as of sequence [seq], the deadline is set by the clock. *)
Definition seq_at (seq deadline : Z) (tr : dtrace) : Prop :=
  last_sequence d tr = Some seq /\ exists n, mkEvent Now n ∈ tr /\ deadline = n + dp_txnTimeBound d.

Lemma seq_at_cons seq deadline e tr : read_of d e = None -> seq_at seq deadline tr -> seq_at seq deadline (e :: tr).
Proof.
  intros He [Hs (n & Hn & Hd)]. split; [by rewrite last_sequence_cons|]. exists n. split; [by right|done].
Qed.

Lemma extend_tx_spec seq extendTo data deadline :
  hoare (fun st tr => rdy st tr /\ seq_at seq deadline tr) (buildExtendTransaction d seq extendTo data deadline)
    (fun tx st tr => rdy st tr /\ seq_at seq deadline tr /\
       signable d deadline (OpExtendFootprintTtl extendTo (dp_signer_Address d) (Some data)) tr (tx_env tx)) stl.
Proof.
  unfold buildExtendTransaction. set (o := OpExtendFootprintTtl _ _ _).
  set (src := mkSimpleAccount (dp_signer_Address d) seq).
  assert (Hsrc : forall tr, seq_at seq deadline tr -> at_source d src deadline tr) by (by intros tr [Hs Hn]).
  eapply hoare_bind; [apply (new_operation_spec d ∅ (fun _ tr => seq_at seq deadline tr)); [done|by intros]|].
  intros op. eapply hoare_bind.
  { eapply hoare_pre; [apply (new_transaction_spec d ∅ src deadline op o)|]. intros st tr [[HJ Hs] Hl]. auto. }
  intros r. apply hoare_liftw.
  - intros tx st tr -> (HJ & (Hs & _ & Hn) & Ht). split; [done|]. split; [done|]. by apply (Ht tx).
  - intros e st tr _ HP. by eapply rdy_exit, HP.
Qed.

Lemma simulateExtend_spec keys extendTo deadline :
  hoare (fun st tr => rdy st tr /\ exists n, mkEvent Now n ∈ tr /\ deadline = n + dp_txnTimeBound d)
    (simulateExtend d keys extendTo deadline)
    (fun r st tr => rdy st tr /\ seq_at r.1 deadline tr) stl.
Proof.
  unfold simulateExtend. eapply hoare_bind.
  { eapply (ready_getSource d ∅ (fun _ tr => exists n, mkEvent Now n ∈ tr /\ deadline = n + dp_txnTimeBound d)).
    - intros st tr e (n & Hn & Hd). exists n. split; [by right|done].
    - done. }
  intros src. simpl. set (seq := Sequence src).
  apply hoare_pre with (P' := fun st tr => rdy st tr /\ seq_at seq deadline tr).
  2: { by intros st tr [[HJ Hn] [_ Hs]]. }
  assert (Hx : forall (K : Prop) x st tr, rdy st tr /\ K -> stl x st tr) by (intros K x st tr [HJ _]; by apply rdy_exit).
  eapply hoare_bind; [apply extend_tx_spec|]. intros tx.
  eapply hoare_bind with (R' := fun _ st tr => rdy st tr /\ seq_at seq deadline tr).
  { apply hoare_liftw; [by intros x st tr _ (HJ & Hs & _)|]. intros e st tr _. apply Hx. }
  intros x. eapply hoare_bind with (R' := fun _ st tr => rdy st tr /\ seq_at seq deadline tr).
  { apply hoare_call. intros ans st tr [HJ Hs]. split; [by apply ready_quiet|by apply seq_at_cons]. }
  intros ans. eapply hoare_bind with (R' := fun _ st tr => rdy st tr /\ seq_at seq deadline tr).
  { apply hoare_liftw; [by auto|]. intros e st tr _. apply Hx. }
  intros sim. destruct (String.eqb _ _); [by apply hoare_ret|]. apply hoare_fail. intros st tr. apply Hx.
Qed.

Lemma now_spec : hoare rdy (call Now)
  (fun n st tr => rdy st tr /\ exists n', mkEvent Now n' ∈ tr /\ n + dp_txnTimeBound d = n' + dp_txnTimeBound d) stl.
Proof. apply hoare_call. intros n st tr HJ. split; [by apply ready_quiet|]. exists n. split; [by left|done]. Qed.

Lemma safe_liveUntilLedgers keys : safe (liveUntilLedgers keys).
Proof.
  apply safe_bind; [apply safe_liftw|]. intros ks. apply safe_bind; [by apply safe_call|]. intros r.
  apply safe_bind; [apply safe_liftw|]. intros es. apply safe_lift.
Qed.

(** The round that the extension sends, after a restoration when there is one. *)
Lemma extend_round_spec fuel keys extendTo preamble :
  hoare rdy (restore_and_simulate d fuel keys extendTo preamble)
    (fun r st tr => rdy st tr /\ seq_at r.1.1 r.2 tr) stl.
Proof.
  unfold restore_and_simulate.
  eapply hoare_bind; [by apply safe_wrapd, restoreFootprint_spec|]. intros u.
  eapply hoare_bind; [apply now_spec|]. intros n. eapply hoare_bind; [apply simulateExtend_spec|].
  intros r. simpl. destruct (sim_RestorePreamble _); [|by apply hoare_ret].
  apply hoare_fail. intros st tr [HJ _]. by apply rdy_exit.
Qed.

(** The TTLs [ttls] of [keys] are what the node's last answer shows. *)
Definition reported (keys : list LedgerKey) (ttls : list Z) (older tr : dtrace) : Prop :=
  exists ks entries, mapM_res (fun _ => LedgerKey_Base64) 0 keys = Ok ks /\
    tr = mkEvent (GetEntries ks) (Ok entries) :: older /\ ttls_of (ttl_by_key entries) ks = Ok ttls.

Lemma liveUntilLedgers_spec (K : dtrace -> Prop) keys :
  hoare (fun st tr => rdy st tr /\ K tr) (liveUntilLedgers keys)
    (fun ttls st tr => rdy st tr /\ exists older, K older /\ reported keys ttls older tr) stl.
Proof.
  unfold liveUntilLedgers. assert (Hx : forall (F : Prop) x st tr, rdy st tr /\ F -> stl x st tr) by (intros F x st tr [HJ _]; by apply rdy_exit).
  eapply hoare_bind with (R' := fun ks st tr => rdy st tr /\ K tr /\ mapM_res (fun _ => LedgerKey_Base64) 0 keys = Ok ks).
  { apply hoare_liftw; [intros ks st tr Ek [HJ HK]; by auto|intros e st tr _; apply Hx]. }
  intros ks. set (asked := fun r tr => exists older, K older /\
    mapM_res (fun _ => LedgerKey_Base64) 0 keys = Ok ks /\ tr = mkEvent (Ans := dans) (GetEntries ks) r :: older).
  eapply hoare_bind with (R' := fun r st tr => rdy st tr /\ asked r tr).
  { apply hoare_call. intros x st tr (HJ & HK & Ek). split; [by apply ready_quiet|]. by exists tr. }
  intros r. eapply hoare_bind with (R' := fun entries st tr => rdy st tr /\ asked (Ok entries) tr).
  { apply hoare_liftw; [by intros entries st tr ->|intros e st tr _; apply Hx]. }
  intros entries. apply hoare_lift; [|intros e st tr _; apply Hx].
  intros ttls st tr Et [HJ (older & HK & Ek & ->)]. split; [done|]. exists older. split; [done|]. by exists ks, entries.
Qed.

(** What the extension sends: the simulated data, its fee with the headroom, below
    the type of a transaction's fee. *)
Definition extension (extendTo : Z) (o : DOperation) : Prop :=
  exists sim sd data, o = OpExtendFootprintTtl extendTo (dp_signer_Address d) (Some data) /\
    SorobanData_Unmarshal (sim_TransactionDataXDR sim) = Ok sd /\ extend_data d sim sd = inl data.

Lemma extendTTL_spec fuel keys extendTo :
  hoare rdy (extendTTL d fuel keys extendTo)
    (fun ttls st tr => rdy st tr /\ exists older, reported keys ttls older tr /\
       exists o meta hash, extension extendTo o /\ confirmed d o meta hash older) stl.
Proof.
  unfold extendTTL. eapply hoare_bind; [apply now_spec|]. intros n.
  eapply hoare_bind; [apply simulateExtend_spec|]. intros first. simpl. set (deadline := n + dp_txnTimeBound d).
  eapply hoare_bind with (R' := fun r st tr => rdy st tr /\ seq_at r.1.1 r.2 tr).
  { destruct (sim_RestorePreamble first.2) as [pre|]; [|by apply hoare_ret].
    destruct (negb _); [apply hoare_fail; intros st tr [HJ _]; by apply rdy_exit|].
    eapply hoare_pre; [apply extend_round_spec|]. by intros st tr [HJ _]. }
  intros [[seq sim] deadline']. simpl.
  apply hoare_bind with (R' := fun sd st tr => SorobanData_Unmarshal (sim_TransactionDataXDR sim) = Ok sd /\
    rdy st tr /\ seq_at seq deadline' tr).
  { apply hoare_liftw; [by auto|]. intros e st tr _ [HJ _]. by apply rdy_exit. }
  intros sd. apply hoare_fact. intros Esd. destruct (extend_data d sim sd) as [data|e] eqn:Ed.
  2: { apply hoare_fail. intros st tr [HJ _]. by apply rdy_exit. }
  eapply hoare_bind; [apply extend_tx_spec|]. intros tx. set (o := OpExtendFootprintTtl _ _ _).
  set (K := fun tr => exists meta hash, confirmed d o meta hash tr).
  apply hoare_bind with (R' := fun _ st tr => rdy st tr /\ K tr).
  - apply hoare_wrapd. eapply hoare_conseq; [apply (signSubmitAndWait_spec d ∅ fuel tx deadline' "extend " o)| | |].
    + by intros st tr (HJ & _ & Hs).
    + intros r st tr [HJ Hc]. split; [done|]. by exists r.1, r.2.
    + intros x st tr Hx. by apply settled_wrap.
  - intros _. eapply hoare_conseq; [apply (liveUntilLedgers_spec K)|done| |done].
    intros ttls st tr [HJ (older & (meta & hash & Hc) & Hr)]. split; [done|]. exists older. split; [done|].
    exists o, meta, hash. split; [|done]. by exists sim, sd, data.
Qed.

Lemma safe_extendTTL fuel keys extendTo : safe (extendTTL d fuel keys extendTo).
Proof. eapply hoare_conseq; [apply extendTTL_spec|done| |done]. by intros ttls st tr [HJ _]. Qed.

Lemma safe_maxEntryTTL : safe maxEntryTTL.
Proof.
  apply safe_bind; [apply safe_wrapd, safe_fetch|]. intros data. destruct (GetConfigSetting data) as [c|]; [|apply safe_fail].
  destruct (StateArchivalSettings_MaxEntryTtl c); [apply safe_ret|apply safe_fail].
Qed.

Lemma safe_entriesAtTTL keys ttl : safe (entriesAtTTL keys ttl).
Proof.
  apply safe_bind; [by apply safe_call|]. intros l. apply safe_bind; [apply safe_liftw|]. intros latest.
  apply safe_bind; [apply safe_liveUntilLedgers|]. intros lu. apply safe_ret.
Qed.

Lemma safe_ExtendTTLTo fuel keys ttl : safe (ExtendTTLTo d fuel keys ttl).
Proof.
  unfold ExtendTTLTo. destruct keys as [|k ks]; [apply safe_fail|].
  apply safe_bind; [apply safe_maxEntryTTL|]. intros m. destruct (_ >=? _); [apply safe_fail|].
  apply safe_bind; [apply safe_entriesAtTTL|]. intros []; [apply safe_liveUntilLedgers|apply safe_extendTTL].
Qed.

Lemma safe_ExtendTTLToMax fuel keys : safe (ExtendTTLToMax d fuel keys).
Proof.
  unfold ExtendTTLToMax. destruct keys as [|k ks]; [apply safe_fail|].
  apply safe_bind; [apply safe_maxEntryTTL|]. intros m. apply safe_extendTTL.
Qed.

Lemma safe_SimulateExtendTTL keys ttl : safe (SimulateExtendTTL d keys ttl).
Proof.
  unfold SimulateExtendTTL. destruct keys as [|k ks]; [apply safe_fail|].
  apply safe_bind; [apply safe_maxEntryTTL|]. intros m. destruct (_ >=? _); [apply safe_fail|].
  apply safe_bind; [apply safe_entriesAtTTL|]. intros []; [apply safe_ret|].
  eapply hoare_bind; [apply now_spec|]. intros n. eapply hoare_bind; [apply simulateExtend_spec|].
  intros r. destruct (sim_RestorePreamble _).
  - apply hoare_fail. intros st tr [HJ _]. by apply rdy_exit.
  - apply hoare_ret. by intros st tr [HJ _].
Qed.

(** ** Properties *)

Lemma safe_perform fuel c : safe (perform fuel c).
Proof.
  assert (Hi : forall A (m : D A), safe m -> safe (ignore m)).
  { intros A m Hm. apply safe_bind; [exact Hm|]. intros. apply safe_ret. }
  destruct c; simpl; try apply Hi.
  - apply safe_deploy.
  - apply safe_uploadWASM.
  - eapply hoare_conseq; [apply InvokeContract_hoare|done| |done]. by intros v st tr [HJ _].
  - apply safe_SimulateContract.
  - apply safe_DeploySACToken.
  - apply safe_payment.
  - apply safe_classic.
  - apply safe_ExtendTTLTo.
  - apply safe_ExtendTTLToMax.
  - apply safe_SimulateExtendTTL.
Qed.

Lemma safe_perform_all fuel cs : safe (perform_all fuel cs).
Proof.
  induction cs as [|c cs IH]; simpl; [apply safe_ret|]. apply safe_bind; [apply safe_perform|]. by intros.
Qed.

Lemma ready_new : rdy new_state [].
Proof. repeat split; try done; by intros ? ? ?%lookup_empty_Some. Qed.


(** Property C12: an invocation that returns a value was executed.  The trace ends
    with the node's answer that the transaction of a hash succeeded; that hash is
    the one under which the node accepted an envelope, which the signer had just
    returned for the invocation asked for (the contract, the function and its
    arguments, from the deployer's account), and the value is the one the
    transaction's meta holds. *)
Theorem InvokeContract_confirmed {W} (h : forall r : dreq, W -> dans r * W) (w : W) fuel id fn args :
  let '((r, _), tr, _) := run h (InvokeContract d fuel id fn args new_state) w [] in
  match r with
  | Val v => exists raw addr o meta hash,
      strkey_Decode VersionByteContract id = Ok raw /\ BuildContractScAddress raw = Some addr /\
      bare o = OpInvokeHostFunction (HostFunctionInvokeContract addr fn args) (dp_signer_Address d) None [] /\
      confirmed d o meta hash tr /\ extractReturnValue (Some meta) = Returns v
  | _ => True
  end.
Proof.
  pose proof (hoare_run h rdy _ _ _ new_state [] w (InvokeContract_hoare fuel id fn args) ready_new) as Hr.
  destruct (run _ _ _ _) as [[[r st] tr] w']. destruct r; [|done..]. apply Hr.
Qed.

End Calls.
