(* ===== verification/SubmitTermination.v ===== *)
(** * The deployer's calls end

    A call ends for every node whose timers are fair, with a bounded number of
    submissions ([ends]): with enough fuel its run is one and the same, and not
    [Unfinished]. *)

From S2P Require Import Prelude GoFloat Sdk GoBytes Xdr Scval TypeConverters Invoker StellarService Interaction Deployer DeployerSubmit DeployerCalls DeployerLogic Discipline SubmitProofs.

(** The ticks that a [select] can still take before the timeout or the end of the
    context: taking one uses it up, and asking for a transaction adds none. *)
Class FairTimers `{DeployFns} `{protocol.Cursors} {W} (h : forall r : dreq, W -> dans r * W) := {
  ticks : W -> nat;
  select_uses_tick w : (h PollSelect w).1 = PollTick -> (ticks (h PollSelect w).2 < ticks w)%nat;
  get_adds_no_tick hash w : (ticks (h (GetTransaction_ hash) w).2 <= ticks w)%nat
}.

Section Ends.
Context `{DeployFns} `{!Codec} `{protocol.Cursors} `{FloatConv}.
Context {W : Type} (h : forall r : dreq, W -> dans r * W) `{!FairTimers h}.

Abbreviation dtrace := (list (event dans)).

Definition finished {A} (r : dresult A) : bool := match r with Unfinished => false | _ => true end.

(** From some fuel on, the run is the same; it is finished and has sent at most [k]
    envelopes. *)
Definition ends {A} (k : nat) (m : nat -> D A) : Prop :=
  forall st w tr, exists F r st' tr' w',
    (forall F', (F <= F')%nat -> run h (m F' st) w tr = ((r, st'), tr', w')) /\
    finished r = true /\ (sends tr' <= sends tr + k)%nat.

(** A run that does not depend on the fuel. *)
Lemma ends_now {A} k (m : D A) :
  (forall st w tr, let '((r, _), tr', _) := run h (m st) w tr in finished r = true /\ (sends tr' <= sends tr + k)%nat) ->
  ends k (fun _ => m).
Proof.
  intros Hm st w tr. specialize (Hm st w tr). destruct (run h (m st) w tr) as [[[r st'] tr'] w'] eqn:E.
  by exists 0%nat, r, st', tr', w'.
Qed.

Lemma ends_weaken {A} k k' (m : nat -> D A) : (k <= k')%nat -> ends k m -> ends k' m.
Proof.
  intros Hk Hm st w tr. destruct (Hm st w tr) as (F & r & st' & tr' & w' & Hr & Hf & Hs).
  exists F, r, st', tr', w'. repeat split; try done. lia.
Qed.

Lemma ends_bind {A B} k1 k2 (m : nat -> D A) (f : nat -> A -> D B) :
  ends k1 m -> (forall a, ends k2 (fun F => f F a)) -> ends (k1 + k2) (fun F => mbind (f F) (m F)).
Proof.
  intros Hm Hf st w tr. destruct (Hm st w tr) as (F1 & r & st1 & tr1 & w1 & Hr & Hfin & Hs).
  assert (Hexit : forall r' : dresult B, finished r' = true ->
    (forall F', (F1 <= F')%nat -> run h (mbind (f F') (m F') st) w tr = ((r', st1), tr1, w1)) ->
    exists F r st' tr' w', (forall F', (F <= F')%nat -> run h (mbind (f F') (m F') st) w tr = ((r, st'), tr', w')) /\
      finished r = true /\ (sends tr' <= sends tr + (k1 + k2))%nat).
  { intros r' Hf' Hr'. exists F1, r', st1, tr1, w1. repeat split; try done. lia. }
  destruct r as [a|e| |]; [|eapply (Hexit (Fail e))|eapply (Hexit Panicked)|done]; try done.
  - destruct (Hf a st1 w1 tr1) as (F2 & r2 & st2 & tr2 & w2 & Hr2 & Hfin2 & Hs2).
    exists (F1 `max` F2)%nat, r2, st2, tr2, w2. repeat split; try done; [|lia].
    intros F' HF. unfold mbind, D_bind. rewrite run_bind, Hr by lia. apply Hr2. lia.
  - intros F' HF. unfold mbind, D_bind. by rewrite run_bind, Hr.
  - intros F' HF. unfold mbind, D_bind. by rewrite run_bind, Hr.
Qed.

Lemma ends_then {A B} k (m : nat -> D A) (f : nat -> A -> D B) :
  ends 0 m -> (forall a, ends k (fun F => f F a)) -> ends k (fun F => mbind (f F) (m F)).
Proof. intros Hm Hf. by apply (ends_bind 0 k). Qed.

Lemma ends_after {A B} k (m : nat -> D A) (f : nat -> A -> D B) :
  ends k m -> (forall a, ends 0 (fun F => f F a)) -> ends k (fun F => mbind (f F) (m F)).
Proof. intros Hm Hf. eapply ends_weaken; [|by apply (ends_bind k 0)]. lia. Qed.

Lemma ends_ret {A} k (a : A) : ends k (fun _ => mret a).
Proof. apply ends_now. intros st w tr. simpl. split; [done|lia]. Qed.

Lemma ends_fail {A} k e : ends k (fun _ => fail (A := A) e).
Proof. apply ends_now. intros st w tr. simpl. split; [done|lia]. Qed.

Lemma ends_failf {A} k msg : ends k (fun _ => failf (A := A) msg).
Proof. apply ends_fail. Qed.

Lemma ends_lift {A} k (r : res A) : ends k (fun _ => lift r).
Proof. destruct r; [apply ends_ret|apply ends_fail]. Qed.

Lemma ends_lift_out {A} k (r : outcome A) : ends k (fun _ => lift_out r).
Proof. destruct r; [apply ends_ret|apply ends_fail|]. apply ends_now. intros st w tr. simpl. split; [done|lia]. Qed.

Lemma ends_call r : ends (match r with Send _ => 1 | _ => 0 end) (fun _ => call r).
Proof. apply ends_now. intros st w tr. simpl. destruct (h r w). simpl. split; [done|lia]. Qed.

Lemma ends_state k : ends k (fun _ => get_state).
Proof. apply ends_now. intros st w tr. simpl. split; [done|lia]. Qed.

Lemma ends_set_seq k s : ends k (fun _ => set_accountSequence s).
Proof. apply ends_now. intros st w tr. simpl. split; [done|lia]. Qed.

Lemma ends_set_heap k hp : ends k (fun _ => set_op_heap hp).
Proof. apply ends_now. intros st w tr. simpl. split; [done|lia]. Qed.

Lemma ends_wrapd {A} k pre (m : nat -> D A) : ends k m -> ends k (fun F => wrapd pre (m F)).
Proof.
  intros Hm st w tr. destruct (Hm st w tr) as (F & r & st1 & tr1 & w1 & Hr & Hfin & Hs).
  exists F, (match r with Fail e => Fail (DWrap pre e) | _ => r end), st1, tr1, w1. repeat split; [|by destruct r|done].
  intros F' HF. unfold wrapd. rewrite run_bind, Hr by done. done.
Qed.

Lemma ends_catch {A} k (m : nat -> D A) : ends k m -> ends k (fun F => catch (m F)).
Proof.
  intros Hm st w tr. destruct (Hm st w tr) as (F & r & st1 & tr1 & w1 & Hr & Hfin & Hs).
  exists F, (match r with Val a => Val (inl a) | Fail e => Val (inr e) | Panicked => Panicked | Unfinished => Unfinished end),
    st1, tr1, w1. repeat split; [|by destruct r|done].
  intros F' HF. unfold catch. rewrite run_bind, Hr by done. done.
Qed.

Lemma ends_liftw {A} k pre (r : res A) : ends k (fun _ => liftw pre r).
Proof. apply (ends_wrapd k pre (fun _ => lift r)), ends_lift. Qed.

End Ends.

#[export] Hint Resolve ends_ret ends_fail ends_failf ends_lift ends_liftw ends_lift_out ends_state
  ends_set_seq ends_set_heap ends_wrapd ends_catch : ends.
#[export] Hint Extern 1 (ends ?h _ (fun _ => call ?r)) => exact (ends_call h r) : ends.

(** Walk through a method: what sends comes where [leaf] closes it. *)
Ltac ends_step :=
  match goal with
  | |- ends _ _ (fun _ => match ?x with _ => _ end) => destruct x
  | |- ends _ _ _ => solve [eauto 3 with ends]
  | |- ends _ _ (fun _ => mbind _ _) => eapply ends_then; [|intros ?; simpl]
  | |- ends _ _ (fun _ => wrapd _ _) => apply ends_wrapd
  | |- ends _ _ (fun _ => catch _) => apply ends_catch
  end.
Ltac ends_tac := intros; simpl; repeat ends_step.

Section Methods.
Context `{DeployFns} `{!Codec} `{protocol.Cursors} `{FloatConv}.
Context {W : Type} (h : forall r : dreq, W -> dans r * W) `{!FairTimers h}.
Variable d : Deployer.

Lemma ends_fetch n k backoff err : ends h 0 (fun _ => fetch_with_retry n k backoff err).
Proof. revert backoff err. induction n as [|n IH]; ends_tac. Qed.

#[local] Hint Resolve ends_fetch : ends.

Lemma ends_source : ends h 0 (fun _ => getSourceAccount d).
Proof. unfold getSourceAccount. ends_tac. Qed.

Lemma ends_entry key : ends h 0 (fun _ => fetchLedgerEntry key).
Proof. unfold fetchLedgerEntry. ends_tac. Qed.

#[local] Hint Resolve ends_source ends_entry : ends.

Lemma ends_caps : ends h 0 (fun _ => networkResourceCaps_).
Proof. unfold networkResourceCaps_. ends_tac. Qed.

Lemma ends_new_operation o : ends h 0 (fun _ => new_operation o).
Proof. unfold new_operation. ends_tac. Qed.

Lemma ends_write_operation r f : ends h 0 (fun _ => write_operation r f).
Proof. unfold write_operation. ends_tac. Qed.

Lemma ends_new_transaction src ops deadline : ends h 0 (fun _ => new_transaction src ops deadline).
Proof. unfold new_transaction, read_operations. ends_tac. Qed.

#[local] Hint Resolve ends_caps ends_new_operation ends_write_operation ends_new_transaction : ends.

Lemma ends_draft m1 m2 src ops deadline : ends h 0 (fun _ => draft m1 m2 src ops deadline).
Proof. unfold draft. ends_tac. Qed.

Lemma ends_assemble_data first sim bump attempt prev : ends h 0 (fun _ => assemble_data d first sim bump attempt prev).
Proof. unfold assemble_data. ends_tac. Qed.

#[local] Hint Resolve ends_draft ends_assemble_data : ends.

Lemma ends_assemble tx sim deadline attempt prev : ends h 0 (fun _ => assembleTransaction d tx sim deadline attempt prev).
Proof. unfold assembleTransaction. ends_tac. Qed.

(** The poll: one unit of fuel per tick that is left, and one. *)
Lemma poll_run hash fuel : forall st w tr F, (ticks (h := h) w < fuel)%nat -> (fuel <= F)%nat ->
  let out := run h (poll fuel hash st) w tr in
  run h (poll F hash st) w tr = out /\ finished out.1.1.1 = true /\ sends out.1.2 = sends tr.
Proof.
  induction fuel as [|fuel IH]; intros st w tr [|F] Ht HF; try lia.
  simpl. unfold mbind, D_bind, call. simpl.
  destruct (h PollSelect w) as [[] w1] eqn:Es; simpl; [done..|].
  assert (Ht1 : (ticks (h := h) w1 < fuel)%nat).
  { pose proof (select_uses_tick (h := h) w) as Hu. rewrite Es in Hu. specialize (Hu eq_refl). simpl in Hu. lia. }
  destruct (h (GetTransaction_ hash) w1) as [ans w2] eqn:Eg. simpl.
  assert (Ht2 : (ticks (h := h) w2 < fuel)%nat).
  { pose proof (get_adds_no_tick (h := h) hash w1) as Hg. rewrite Eg in Hg. simpl in Hg. lia. }
  assert (Hrec : forall tr', sends tr' = sends tr ->
    run h (poll F hash st) w2 tr' = run h (poll fuel hash st) w2 tr' /\
    finished (run h (poll fuel hash st) w2 tr').1.1.1 = true /\ sends (run h (poll fuel hash st) w2 tr').1.2 = sends tr).
  { intros tr' Htr. destruct (IH st w2 tr' F Ht2) as (Hr & Hf & Hs); [lia|]. by rewrite Hs. }
  destruct ans as [resp|e]; [|by apply Hrec].
  destruct (gt_Status resp); [| |by apply Hrec|by apply Hrec].
  - destruct (String.eqb _ _); [done|]. unfold liftw, wrapd, lift. by destruct (TransactionMeta_Unmarshal _).
  - by destruct (isInvokeHostFunctionResourceLimitExceeded _).
Qed.

Lemma ends_poll hash : ends h 0 (fun F => poll F hash).
Proof.
  intros st w tr. destruct (poll_run hash (S (ticks (h := h) w)) st w tr (S (ticks (h := h) w))) as (_ & Hf & Hs); [lia..|].
  destruct (run h (poll (S (ticks w)) hash st) w tr) as [[[r st'] tr'] w'] eqn:E.
  exists (S (ticks (h := h) w)), r, st', tr', w'. repeat split; [|done|simpl in *; lia].
  intros F' HF. destruct (poll_run hash (S (ticks (h := h) w)) st w tr F') as (Hr & _); [lia..|]. by rewrite Hr.
Qed.

#[local] Hint Resolve ends_assemble ends_poll : ends.

Lemma ends_wait hash deadline : ends h 0 (fun F => waitForTransaction F hash deadline).
Proof. unfold waitForTransaction. ends_tac. Qed.

Lemma ends_send m1 m2 m3 tx : ends h 1 (fun _ => sign_and_send d m1 m2 m3 tx).
Proof.
  unfold sign_and_send. do 3 (eapply ends_then; [ends_tac|intros ?]).
  eapply ends_after; [exact (ends_call h (Send _))|ends_tac].
Qed.

Lemma ends_signSubmit tx deadline label : ends h 1 (fun F => signSubmitAndWait d F tx deadline label).
Proof.
  unfold signSubmitAndWait. eapply ends_after; [apply ends_send|]. pose proof ends_wait. ends_tac.
Qed.

#[local] Hint Resolve ends_signSubmit : ends.

Lemma ends_restore preamble : ends h 1 (fun F => restoreFootprint d F preamble).
Proof.
  unfold restoreFootprint. do 3 (eapply ends_then; [ends_tac|intros ?]). simpl.
  destruct (checkResourceFee _ _); [apply ends_fail|]. do 3 (eapply ends_then; [ends_tac|intros ?]).
  eapply ends_after; ends_tac.
Qed.

#[local] Hint Resolve ends_restore : ends.

Lemma ends_restore_and_draft preamble ops :
  ends h 0 (fun _ => ops) -> ends h 1 (fun F => restore_and_draft d F preamble ops).
Proof. intros Ho. unfold restore_and_draft. eapply ends_after; [ends_tac|]. ends_tac. Qed.

Lemma ends_once src op attempt prev : ends h 2 (fun F => buildSimulateAndSubmitOnce d F src op attempt prev).
Proof.
  unfold buildSimulateAndSubmitOnce. do 3 (eapply ends_then; [ends_tac|intros ?]). simpl.
  eapply (ends_bind h 1 1).
  - destruct (sim_RestorePreamble _); [|apply ends_ret]. destruct (dp_autoRestore d); [|apply ends_ret].
    apply ends_restore_and_draft, ends_ret.
  - intros [[tx sim] dl]. ends_tac.
Qed.

(** A round sends at most a restoration and the transaction. *)
Lemma ends_loop rem src op prev : ends h (2 * S rem) (fun F => submit_loop d F rem src op prev).
Proof.
  revert src prev. induction rem as [|rem IH]; intros src prev; simpl.
  - eapply ends_after; [apply ends_catch, ends_once|]. ends_tac.
  - apply ends_weaken with (k := (2 + 2 * S rem)%nat); [lia|].
    eapply (ends_bind h 2 (2 * S rem)); [apply ends_catch, ends_once|]. ends_tac.
Qed.

Lemma ends_submit src op : ends h 6 (fun F => buildAndSubmitTransaction d F src op).
Proof. apply (ends_loop 2). Qed.

#[local] Hint Resolve ends_submit ends_restore_and_draft : ends.

(** ** The calls *)

Lemma ends_host_function src hf : ends h 6 (fun F => submit_host_function d F src hf).
Proof. unfold submit_host_function. ends_tac. Qed.

#[local] Hint Resolve ends_host_function : ends.

Lemma ends_upload wasm : ends h 6 (fun F => uploadWASM d F wasm).
Proof. unfold uploadWASM. eapply ends_then; [ends_tac|intros ?]. eapply ends_after; ends_tac. Qed.

Lemma ends_create hash salt args : ends h 6 (fun F => createContractInstance d F hash salt args).
Proof.
  unfold createContractInstance. do 2 (eapply ends_then; [ends_tac|intros ?]). eapply ends_after; ends_tac.
Qed.

Lemma ends_deploy wasm salt args : ends h 12 (fun F => DeployContractBytesWithArgs d F wasm salt args).
Proof.
  eapply (ends_bind h 6 6); [apply ends_wrapd, ends_upload|intros ?]. apply ends_wrapd, ends_create.
Qed.

Lemma ends_invoke_function id fn args : ends h 0 (fun _ => invoke_function id fn args).
Proof. unfold invoke_function. ends_tac. Qed.

#[local] Hint Resolve ends_invoke_function : ends.

Lemma ends_invoke id fn args : ends h 6 (fun F => InvokeContract d F id fn args).
Proof. unfold InvokeContract. do 2 (eapply ends_then; [ends_tac|intros ?]). eapply ends_after; ends_tac. Qed.

Lemma ends_simulate id fn args : ends h 1 (fun F => SimulateContract d F id fn args).
Proof.
  unfold SimulateContract. do 3 (eapply ends_then; [ends_tac|intros ?]). simpl.
  eapply ends_then; [ends_tac|intros ops]. eapply ends_then; [ends_tac|intros first]. simpl.
  eapply ends_after; [|ends_tac]. destruct (sim_RestorePreamble _); [|apply ends_ret].
  destruct (dp_autoRestore d); [|apply ends_ret].
  eapply ends_after; [apply ends_restore_and_draft; ends_tac|ends_tac].
Qed.

Lemma ends_sac a : ends h 6 (fun F => DeploySACToken d F a).
Proof.
  unfold DeploySACToken. do 3 (eapply ends_then; [ends_tac|intros ?]). destruct a2; [apply ends_ret|].
  destruct (negb _); [apply ends_fail|]. eapply ends_then; [ends_tac|intros ?]. eapply ends_after; ends_tac.
Qed.

Lemma ends_payment dest n : ends h 6 (fun F => SendNativePayment d F dest n).
Proof.
  unfold SendNativePayment. destruct (n <=? 0); [apply ends_fail|].
  do 3 (eapply ends_then; [ends_tac|intros ?]). eapply ends_after; ends_tac.
Qed.

Lemma ends_classic op : ends h 1 (fun F => SubmitClassicOperation d F op).
Proof.
  unfold SubmitClassicOperation. do 2 (eapply ends_then; [ends_tac|intros ?]). simpl.
  do 3 (eapply ends_then; [ends_tac|intros ?]). eapply ends_after; [apply ends_send|].
  pose proof ends_wait. ends_tac.
Qed.

(** ** Extending *)

Lemma ends_liveUntil keys : ends h 0 (fun _ => liveUntilLedgers keys).
Proof. unfold liveUntilLedgers. ends_tac. Qed.

#[local] Hint Resolve ends_liveUntil : ends.

Lemma ends_simulateExtend keys n deadline : ends h 0 (fun _ => simulateExtend d keys n deadline).
Proof. unfold simulateExtend, buildExtendTransaction. ends_tac. Qed.

Lemma ends_maxEntryTTL : ends h 0 (fun _ => maxEntryTTL).
Proof. unfold maxEntryTTL. ends_tac. Qed.

Lemma ends_entriesAtTTL keys ttl : ends h 0 (fun _ => entriesAtTTL keys ttl).
Proof. unfold entriesAtTTL. ends_tac. Qed.

#[local] Hint Resolve ends_simulateExtend ends_maxEntryTTL ends_entriesAtTTL : ends.

Lemma ends_restore_and_simulate keys n preamble : ends h 1 (fun F => restore_and_simulate d F keys n preamble).
Proof. unfold restore_and_simulate. eapply ends_after; ends_tac. Qed.

Lemma ends_extendTTL keys n : ends h 2 (fun F => extendTTL d F keys n).
Proof.
  unfold extendTTL. do 2 (eapply ends_then; [ends_tac|intros ?]). simpl.
  eapply (ends_bind h 1 1).
  - destruct (sim_RestorePreamble _); [|apply ends_ret]. destruct (negb _); [apply ends_fail|].
    apply ends_restore_and_simulate.
  - intros [[seq sim] dl]. eapply ends_then; [ends_tac|intros ?]. destruct (extend_data _ _ _); [|apply ends_fail].
    unfold buildExtendTransaction. eapply ends_then; [ends_tac|intros ?]. eapply ends_after; ends_tac.
Qed.

#[local] Hint Resolve ends_extendTTL : ends.

Lemma ends_ExtendTTLTo keys ttl : ends h 2 (fun F => ExtendTTLTo d F keys ttl).
Proof.
  unfold ExtendTTLTo. destruct keys; [apply ends_fail|]. eapply ends_then; [ends_tac|intros m].
  destruct (_ >=? _); [apply ends_fail|]. eapply ends_then; [ends_tac|intros []]; [|apply ends_extendTTL].
  eapply ends_weaken; [|apply ends_liveUntil]. lia.
Qed.

Lemma ends_ExtendTTLToMax keys : ends h 2 (fun F => ExtendTTLToMax d F keys).
Proof. unfold ExtendTTLToMax. destruct keys; [apply ends_fail|]. eapply ends_then; [ends_tac|intros m]. apply ends_extendTTL. Qed.

Lemma ends_SimulateExtendTTL keys ttl : ends h 0 (fun _ => SimulateExtendTTL d keys ttl).
Proof. unfold SimulateExtendTTL. ends_tac. Qed.

(** The most envelopes that a call sends. *)
Definition max_sends (c : deployer_call) : nat :=
  match c with
  | CallDeploy _ _ _ => 12
  | CallUpload _ | CallInvoke _ _ _ | CallDeploySAC _ | CallPayment _ _ => 6
  | CallExtendTTLTo _ _ | CallExtendTTLToMax _ => 2
  | CallSimulate _ _ _ | CallClassic _ => 1
  | CallSimulateExtend _ _ => 0
  end.

Lemma call_ends c : ends h (max_sends c) (fun F => perform d F c).
Proof.
  destruct c; simpl; try (eapply ends_after; [|intros ?; apply ends_ret]).
  - apply ends_deploy.
  - apply ends_upload.
  - apply ends_invoke.
  - apply ends_simulate.
  - apply ends_sac.
  - apply ends_payment.
  - apply ends_classic.
  - apply ends_ExtendTTLTo.
  - apply ends_ExtendTTLToMax.
  - apply ends_SimulateExtendTTL.
Qed.

(** Property C13: a call of the deployer ends, on every node with fair timers, with
    a bounded number of envelopes sent: three rounds of at most a restoration and a
    transaction, twice for a deployment, none for a preview.  With enough fuel for
    the confirmation polls the model's run is the same for every larger fuel, and
    is not cut short. *)
Theorem calls_end (w : W) st c :
  exists F r st' tr w', finished r = true /\ (sends tr <= max_sends c)%nat /\
    forall F', (F <= F')%nat -> run h (perform d F' c st) w [] = ((r, st'), tr, w').
Proof.
  destruct (call_ends c st w []) as (F & r & st' & tr & w' & Hr & Hf & Hs).
  by exists F, r, st', tr, w'.
Qed.

End Methods.
