(* ===== verification/DemoNode.v ===== *)
(** * A concrete node for the witnesses of the deployer

    Instances of the parameters of Deployer.v and a node with one account: an
    envelope that is sent is executed, in order.  Envelopes are texts that show
    the operation, the sequence and the resource fee.  [answer] is a node that
    loses its first [outages] polls. *)

From stdpp Require Import pretty.
From S2P Require Import Prelude GoFloat Sdk GoBytes Xdr DemoCodec Scval TypeConverters Invoker StellarService Interaction Deployer DeployerSubmit DeployerCalls DeployerLogic Discipline SubmitProofs SubmitTermination.

Record demo_envelope := mkDemoEnvelope { dv_text : string; dv_seq : Z; dv_maxTime : Z }.

#[export] Instance demo_deploy_sdk : DeploySdk := {|
  Asset := string;
  SorobanAuthorizationEntry := string;
  ClassicOp := string;
  Envelope_ := demo_envelope
|}.

Definition demo_fee (ext : option SorobanTransactionData) : string :=
  match ext with Some sd => "/fee " +:+ pretty (sd_ResourceFee sd) | None => "" end.

Definition demo_text (o : DOperation) : string :=
  match o with
  | OpInvokeHostFunction (HostFunctionInvokeContract _ fn _) _ ext _ => "invoke " +:+ fn +:+ demo_fee ext
  | OpInvokeHostFunction _ _ ext _ => "host function" +:+ demo_fee ext
  | OpRestoreFootprint _ ext => "restore" +:+ demo_fee ext
  | OpExtendFootprintTtl n _ ext => "extend " +:+ pretty n +:+ demo_fee ext
  | OpNativePayment dest amount => "pay " +:+ amount +:+ " to " +:+ dest
  | OpClassic op => "classic " +:+ op
  end.

Definition demo_sdata : SorobanTransactionData := mkSorobanData 1000 20000000 500 600 [] [] None.

#[export] Instance demo_deploy_fns : DeployFns := {|
  NewTransaction_ p :=
    match p_Operations p with
    | [o] => Ok (mkDemoEnvelope (demo_text o) (p_Sequence p + 1) (tb_MaxTime (p_TimeBounds p)))
    | _ => Err (ErrorString "one operation expected")
    end;
  env_Base64 e := Ok (dv_text e +:+ "#" +:+ pretty (dv_seq e));
  LedgerKey_Base64 k :=
    Ok match k with
       | LedgerKeyAccount _ => "account"
       | LedgerKeyConfigSetting _ => "config"
       | LedgerKeyContractCode _ => "code"
       | LedgerKeyContractData _ _ _ => "data"
       | LedgerKeyOther _ => "other"
       end;
  SorobanData_Unmarshal s := if String.eqb s "data" then Ok demo_sdata else Err (ErrorString "not scripted");
  Auth_Unmarshal s := Ok s;
  LedgerEntryData_Unmarshal s :=
    if String.eqb s "archival" then Ok (LedgerEntryConfigSetting (mkConfigSettingEntry None None (Some 1000)))
    else Ok (LedgerEntryAccount (mkAccountEntry 0 (Z.of_nat (String.length s))));
  TransactionResult_Unmarshal _ := Err (ErrorString "not scripted");
  TransactionMeta_Unmarshal s :=
    if String.eqb s "meta" then Ok (mkTransactionMeta 4 None (Some (Some (Some (ScvU32 (Some 7))))))
    else Err (ErrorString "not scripted");
  HashIdPreimage_Marshal _ := Ok [];
  sha256_Sum b := b;
  string_to_bytes s := string_codes s;
  HashTransactionInEnvelope _ _ := Ok [];
  AddDecorated _ e := Ok e
|}.

#[export] Instance demo_key_laws : LedgerKeyLaws.
Proof. intros id a k Hk Ha. simpl in *. congruence. Qed.

#[export] Instance demo_node_cursors : protocol.Cursors := {|
  protocol.Cursor := unit;
  protocol.ParseCursor _ := Ok tt;
  protocol.Cmp _ _ := 0;
  protocol.Cursor_Ledger _ := 0
|}.

Record node := mkNode {
  nd_now : Z;
  nd_seq : nat;
  nd_executed : list string;
  nd_ticks : nat;
  nd_outages : nat;
  nd_ttl : Z      (* live-until ledger of the entries *)
}.

Definition demo_entry (key data : string) (ttl : option Z) : LedgerEntryResult := mkLedgerEntryResult key data 0 ttl "".

(** An account's entry, of a length that is its sequence. *)
Definition demo_account (n : nat) : string := String.concat "" (replicate n "s").

Definition answer (r : dreq) (w : node) : dans r * node :=
  let set_ticks n := mkNode (nd_now w) (nd_seq w) (nd_executed w) n (nd_outages w) (nd_ttl w) in
  match r return dans r * node with
  | Now => (nd_now w, w)
  | ContextErr => (false, w)
  | Sleep _ => (tt, w)
  | Backoff _ => (true, w)
  | StartPoll _ => (tt, set_ticks 2%nat)
  | PollSelect =>
      match nd_ticks w with
      | O => (PollTimeout, w)
      | S n => (PollTick, set_ticks n)
      end
  | ReadFile _ => (Ok [], w)
  | SignTransaction _ tx => (Ok tx, w)
  | SignDecorated _ => (Ok [], w)
  | Simulate_ _ => (Ok (mkSimResponse "" None "data" 1000 []), w)
  | Send x =>
      (Ok (mkSendResponse TXStatusPending x ""),
       mkNode (nd_now w) (S (nd_seq w)) (nd_executed w ++ [x]) (nd_ticks w) (nd_outages w)
         (if String.prefix "extend" x then 900 else nd_ttl w))
  | GetTransaction_ _ =>
      match nd_outages w with
      | O => (Ok (mkGetTransactionResponse TransactionStatusSuccess "" "meta" 0 0 0), w)
      | S n => (Err (ErrorString "connection refused"),
                mkNode (nd_now w) (nd_seq w) (nd_executed w) (nd_ticks w) n (nd_ttl w))
      end
  | GetEntries ks =>
      (Ok ((fun k => if String.eqb k "account" then demo_entry k (demo_account (nd_seq w)) None
                     else if String.eqb k "config" then demo_entry k "archival" None
                     else demo_entry k "" (Some (nd_ttl w))) <$> ks), w)
  | GetEvents_ _ => (Ok [], w)
  | GetLatest => (Ok 100, w)
  end.

#[export] Program Instance demo_fair : FairTimers answer := {| ticks := nd_ticks |}.
Next Obligation. intros w. simpl. destruct (nd_ticks w); simpl; [done|lia]. Qed.
Next Obligation. intros hash w. simpl. by destruct (nd_outages w). Qed.

(** A deployer, with a fee cap, and a node that loses [outages] polls. *)
#[export] Instance demo_float : FloatConv := amd64_conv.
Definition demo_deployer : Deployer :=
  NewDeployerWithSigner "net" ("G" +:+ hex_EncodeToString demo_key) [WithMaxResourceFee 50000].
Definition demo_node_of (outages : nat) : node := mkNode 5000000000000 7 [] 0 outages 150.
Definition demo_contract : string := "C" +:+ hex_EncodeToString demo_key.

(** ** A second execution *)

(** The retry of a transaction that timed out can execute the call
    twice.  On this node every envelope sent is executed, and the polls of the
    first one are lost; the deployer takes the end of its validity as a proof that
    it can never land, reads the account again and submits the invocation anew,
    and reports one success. *)
Theorem timed_out_retry_executes_twice :
  let '((r, _), _, w) := run answer (InvokeContract demo_deployer 10 demo_contract "transfer" [] new_state) (demo_node_of 2) [] in
  r = Val (Some (ScvU32 (Some 7))) /\
  nd_executed w = ["invoke transfer/fee 11000#8"; "invoke transfer/fee 11000#9"].
Proof. by vm_compute. Qed.

(** ** Witnesses *)


Lemma InvokeContract_confirmed_witness :
  let '((r, _), tr, _) := run answer (InvokeContract demo_deployer 10 demo_contract "transfer" [] new_state) (demo_node_of 1) [] in
  match r with
  | Val v => exists raw addr o meta hash,
      strkey_Decode VersionByteContract demo_contract = Ok raw /\ BuildContractScAddress raw = Some addr /\
      bare o = OpInvokeHostFunction (HostFunctionInvokeContract addr "transfer" []) (dp_signer_Address demo_deployer) None [] /\
      confirmed demo_deployer o meta hash tr /\ extractReturnValue (Some meta) = Returns v
  | _ => True
  end.
Proof. apply (InvokeContract_confirmed demo_deployer answer). Defined.

Lemma calls_end_witness :
  exists F r st' tr w', finished r = true /\ (sends tr <= 12)%nat /\
    forall F', (F <= F')%nat ->
      run answer (perform demo_deployer F' (CallDeploy [] [] []) new_state) (demo_node_of 1) [] = ((r, st'), tr, w').
Proof. apply (calls_end answer demo_deployer (demo_node_of 1) new_state (CallDeploy [] [] [])). Defined.
