(* ===== verification/TtlProofs.v ===== *)
(** * Extending the life of ledger entries: correctness

    An extension sends nothing when every entry lives long enough, and otherwise
    one confirmed transaction for the target ([ExtendTTLTo_spec]); its preview makes
    the requests with which the extension begins ([preview_is_prefix]). *)

From S2P Require Import Prelude GoFloat Sdk GoBytes Xdr DemoCodec Scval TypeConverters Invoker StellarService Interaction Deployer DeployerSubmit DeployerCalls DeployerLogic Discipline SubmitProofs SubmitTermination DemoNode.

Section Ttl.
Context `{DeployFns} `{!Codec} `{protocol.Cursors} `{FloatConv} `{!LedgerKeyLaws}.
Variable d : Deployer.

Abbreviation dtrace := (list (event dans)).
Abbreviation rdy := (ready d ∅).
Abbreviation stl := (settled d ∅).

(** ** Reading *)

Lemma ttls_of_length m ks ttls : ttls_of m ks = Ok ttls -> length ttls = length ks.
Proof.
  revert ttls. induction ks as [|k ks IH]; intros ttls E; simpl in E; simplify_eq/=; [done|].
  destruct (m !! k); [|done]. destruct (ttls_of m ks) as [out|]; simplify_eq/=. by rewrite (IH out).
Qed.

Lemma all_at_ttl_spec latest ttl lu : all_at_ttl latest ttl lu = true <-> Forall (fun l => ttl <= l - latest) lu.
Proof.
  unfold all_at_ttl. induction lu as [|l lu IH]; simpl; [by split; constructor|].
  rewrite andb_true_iff, Forall_cons_iff, IH, negb_true_iff, Z.ltb_ge. done.
Qed.

(** Every entry has [ttl] ledgers of life left, as the node answered. *)
Definition lives (keys : list LedgerKey) (ttl : Z) (tr : dtrace) : Prop :=
  exists latest ks entries now, mkEvent GetLatest (Ok latest) ∈ tr /\ mkEvent (GetEntries ks) (Ok entries) ∈ tr /\
    mapM_res (fun _ => LedgerKey_Base64) 0 keys = Ok ks /\ ttls_of (ttl_by_key entries) ks = Ok now /\
    Forall (fun l => ttl <= l - latest) now.

Definition unsent (st : dstate) (tr : dtrace) : Prop := rdy st tr /\ sends tr = 0%nat.

Lemma unsent_exit (F : Prop) x st tr : unsent st tr /\ F -> stl x st tr.
Proof. intros [[HJ _] _]. by apply rdy_exit. Qed.

Lemma maxEntryTTL_unsent : hoare unsent maxEntryTTL (fun _ => unsent) stl.
Proof.
  assert (Hx : forall x st tr, unsent st tr -> stl x st tr) by (intros x st tr [HJ _]; by apply rdy_exit).
  unfold maxEntryTTL. eapply hoare_bind with (R' := fun _ => unsent).
  - apply hoare_wrapd. eapply hoare_conseq; [apply (fetchLedgerEntry_spec d ∅ (fun _ tr => sends tr = 0%nat)); done|done|done|].
    intros x st tr HP. by apply settled_wrap, Hx.
  - intros data. destruct (GetConfigSetting data) as [c|]; [|by apply hoare_fail; auto].
    destruct (StateArchivalSettings_MaxEntryTtl c); [by apply hoare_ret|by apply hoare_fail; auto].
Qed.

Lemma entriesAtTTL_spec keys ttl :
  hoare unsent (entriesAtTTL keys ttl) (fun b st tr => unsent st tr /\ (b = true -> lives keys ttl tr)) stl.
Proof.
  unfold entriesAtTTL.
  eapply hoare_bind with (R' := fun (l : dans GetLatest) st tr => unsent st tr /\ mkEvent GetLatest l ∈ tr).
  { apply hoare_call. intros l st tr [HJ Hs]. split; [|by left]. split; [by apply ready_quiet|done]. }
  intros l. eapply hoare_bind with (R' := fun latest st tr => unsent st tr /\ mkEvent (Ans := dans) GetLatest (Ok latest) ∈ tr).
  { apply hoare_liftw; [by intros latest st tr ->|]. intros e st tr _. apply unsent_exit. }
  intros latest. set (K := fun tr => sends tr = 0%nat /\ mkEvent (Ans := dans) GetLatest (Ok latest) ∈ tr).
  eapply hoare_bind.
  { eapply hoare_pre; [apply (liveUntilLedgers_spec d K)|]. by intros st tr [[HJ Hs] Hl]. }
  intros now. apply hoare_ret. simpl. intros st tr (HJ & older & [Hs Hl] & ks & entries & Ek & -> & Et).
  split; [split; [done|exact Hs]|]. intros Ha. apply all_at_ttl_spec in Ha.
  exists latest, ks, entries, now. split; [by right|]. split; [by left|]. done.
Qed.

(** ** Extending *)

Lemma ExtendTTLTo_hoare fuel keys target :
  hoare unsent (ExtendTTLTo d fuel keys target)
    (fun ttls st tr => rdy st tr /\ exists older, reported keys ttls older tr /\
       ((sends tr = 0%nat /\ lives keys target older) \/
        exists o meta hash, extension d target o /\ confirmed d o meta hash older)) stl.
Proof.
  unfold ExtendTTLTo. destruct keys as [|k ks].
  { apply hoare_fail. intros st tr [HJ _]. by apply rdy_exit. }
  set (keys := k :: ks). eapply hoare_bind; [apply maxEntryTTL_unsent|]. intros m. simpl.
  destruct (target >=? m); [apply hoare_fail; intros st tr [HJ _]; by apply rdy_exit|].
  eapply hoare_bind; [apply entriesAtTTL_spec|]. intros [].
  - set (K := fun tr => sends tr = 0%nat /\ lives keys target tr).
    eapply hoare_conseq; [apply (liveUntilLedgers_spec d K)| | |done].
    + intros st tr [[HJ Hs] Hl]. by repeat split; auto; apply HJ.
    + intros ttls st tr (HJ & older & [Hs Hl] & Hr). split; [done|]. exists older. split; [done|]. left.
      split; [|done]. by destruct Hr as (ks' & entries & _ & -> & _).
  - eapply hoare_conseq; [apply (extendTTL_spec d fuel keys target)| | |done].
    + by intros st tr [[HJ _] _].
    + intros ttls st tr (HJ & older & Hr & Ho). split; [done|]. exists older. by auto.
Qed.


(** ** The preview *)

Section Preview.
Context {W : Type} (h : forall r : dreq, W -> dans r * W).

(** A run adds events to the trace. *)
Lemma run_adds {A} (p : prog dans A) w tr : exists later, (run h p w tr).1.2 = later ++ tr.
Proof.
  revert w tr. induction p as [a|r k IH]; intros w tr; simpl; [by exists []|].
  destruct (h r w) as [x w']. destruct (IH x w' (mkEvent r x :: tr)) as [later E].
  exists (later ++ [mkEvent r x]). by rewrite E, <- app_assoc.
Qed.

(** What relates a preview to the extension. *)
Definition previews (o1 : dresult (Z * bool) * dtrace) (o2 : dresult (list Z) * dtrace) : Prop :=
  (exists later, o2.2 = later ++ o1.2) /\
  match o1.1 with
  | Val (fee, true) => fee = 0 /\ sends o2.2 = sends o1.2
  | Val (fee, false) => exists x sim older, o1.2 = mkEvent (Simulate_ x) (Ok sim) :: older /\
      sim_MinResourceFee sim = fee /\ sim_RestorePreamble sim = None
  | _ => True
  end.

Abbreviation outcome_of m st w tr := ((run h (m st) w tr).1.1.1, (run h (m st) w tr).1.2).

Lemma previews_bind {A} (m : D A) f g st w tr :
  (forall a st' w' tr', previews (outcome_of (f a) st' w' tr') (outcome_of (g a) st' w' tr')) ->
  previews (outcome_of (mbind f m) st w tr) (outcome_of (mbind g m) st w tr).
Proof.
  intros Hfg. unfold mbind, D_bind. rewrite !run_bind.
  destruct (run h (m st) w tr) as [[[r st'] tr'] w']. destruct r; [by apply Hfg|..]; split; simpl; done || by exists [].
Qed.

(** The preview of a round: the simulated fee. *)
Definition preview_fee (r : Z * SimulateTransactionResponse) : D (Z * bool) :=
  match sim_RestorePreamble r.2 with
  | Some _ => failf "ledger entries are archived; restore them before extending"
  | None => mret (sim_MinResourceFee r.2, false)
  end.

Lemma preview_stops r st w tr : run h (preview_fee r st) w tr =
  ((match sim_RestorePreamble r.2 with
    | Some _ => Fail (DErr (ErrorString "ledger entries are archived; restore them before extending"))
    | None => Val (sim_MinResourceFee r.2, false)
    end, st), tr, w).
Proof. unfold preview_fee. by destruct (sim_RestorePreamble r.2). Qed.

(** What an extension's simulation returned is its last event. *)
Lemma simulateExtend_last keys extendTo deadline :
  hoare (fun _ _ => True) (simulateExtend d keys extendTo deadline)
    (fun r _ tr => exists x older, tr = mkEvent (Simulate_ x) (Ok r.2) :: older) (fun _ _ _ => True).
Proof.
  assert (Ht : forall A (m : D A), hoare (fun _ _ => True) m (fun _ _ _ => True) (fun _ _ _ => True)).
  { intros A m st tr _. generalize (m st) tr. intros p. induction p as [[r st']|r k IH]; intros tr'; simpl; [by destruct r|].
    intros x. apply IH. }
  unfold simulateExtend. eapply hoare_bind; [apply Ht|]. intros src. eapply hoare_bind; [apply Ht|]. intros tx.
  eapply hoare_bind; [apply Ht|]. intros x.
  eapply hoare_bind with (R' := fun ans _ tr => exists older, tr = mkEvent (Simulate_ x) ans :: older).
  { apply hoare_call. intros ans st tr _. by exists tr. }
  intros ans. eapply hoare_bind with (R' := fun sim _ tr => exists older, tr = mkEvent (Ans := dans) (Simulate_ x) (Ok sim) :: older).
  { apply hoare_liftw; [|done]. by intros sim st tr ->. }
  intros sim. destruct (String.eqb _ _); [|by apply hoare_fail]. apply hoare_ret.
  intros st tr [older ->]. by exists x, older.
Qed.

Lemma preview_round keys n deadline g st w tr :
  previews (outcome_of (r ← simulateExtend d keys n deadline; preview_fee r) st w tr)
    (outcome_of (r ← simulateExtend d keys n deadline; g r) st w tr).
Proof.
  unfold mbind, D_bind. rewrite !run_bind.
  pose proof (hoare_run h _ _ _ _ st tr w (simulateExtend_last keys n deadline) I) as Hl.
  destruct (run h (simulateExtend d keys n deadline st) w tr) as [[[r st'] tr'] w'].
  destruct r as [r|e| |]; [|split; simpl; done || by exists []..]. rewrite preview_stops.
  destruct Hl as (x & older & ->).
  destruct (run_adds (g r st') w' (mkEvent (Simulate_ x) (Ok r.2) :: older)) as [later E].
  split; [by exists later|]. simpl. destruct (sim_RestorePreamble r.2) eqn:Er; [done|]. by exists x, r.2, older.
Qed.

Lemma liveUntilLedgers_sends keys k :
  hoare (fun _ tr => sends tr = k) (liveUntilLedgers keys) (fun _ _ tr => sends tr = k) (fun _ _ tr => sends tr = k).
Proof.
  unfold liveUntilLedgers. eapply hoare_bind with (R' := fun _ _ tr => sends tr = k); [by apply hoare_liftw|].
  intros ks. eapply hoare_bind with (R' := fun _ _ tr => sends tr = k); [by apply hoare_call|].
  intros r. eapply hoare_bind with (R' := fun _ _ tr => sends tr = k); [by apply hoare_liftw|].
  intros es. by apply hoare_lift.
Qed.

Lemma preview_at_target keys st w tr :
  previews (outcome_of (mret (0, true) : D (Z * bool)) st w tr) (outcome_of (liveUntilLedgers keys) st w tr).
Proof.
  destruct (run_adds (liveUntilLedgers keys st) w tr) as [later E]. split; [by exists later|]. simpl. split; [done|].
  pose proof (hoare_run h _ _ _ _ st tr w (liveUntilLedgers_sends keys (sends tr)) eq_refl) as Hs.
  destruct (run h (liveUntilLedgers keys st) w tr) as [[[r st'] tr'] w']. by destruct r.
Qed.

(** Property C16: the preview of an extension makes the requests with which the
    extension begins, and nothing else: on the same node, in the same state, the
    extension's events are the preview's and later ones.  When the preview answers
    that the entries live long enough, the extension sends no transaction; when it
    answers a fee, that is the minimal fee of the simulation it ended with, which
    is also the extension's first, and asked for no restoration. *)
Theorem preview_is_prefix fuel keys target st (w : W) :
  let '((r1, _), tr1, _) := run h (SimulateExtendTTL d keys target st) w [] in
  let '((r2, _), tr2, _) := run h (ExtendTTLTo d fuel keys target st) w [] in
  previews (r1, tr1) (r2, tr2).
Proof.
  cut (previews (outcome_of (SimulateExtendTTL d keys target) st w [])
         (outcome_of (ExtendTTLTo d fuel keys target) st w [])).
  { destruct (run h (SimulateExtendTTL _ _ _ _) _ _) as [[[r1 st1] tr1] w1].
    by destruct (run h (ExtendTTLTo _ _ _ _ _) _ _) as [[[r2 st2] tr2] w2]. }
  unfold SimulateExtendTTL, ExtendTTLTo. destruct keys as [|k ks]; [split; simpl; done || by exists []|].
  apply previews_bind. intros m st1 w1 tr1. destruct (target >=? m); [split; simpl; done || by exists []|].
  apply previews_bind. intros [] st2 w2 tr2; [apply preview_at_target|].
  unfold extendTTL. apply previews_bind. intros n st3 w3 tr3. apply preview_round.
Qed.

End Preview.

End Ttl.

(** ** Witness *)


(** The fee cap of the deployer does not bound an extension: with a cap of 5000
    stroops it sends one of 11000. *)
Example extension_over_the_cap :
  let d := NewDeployerWithSigner "net" ("G" +:+ hex_EncodeToString demo_key) [WithMaxResourceFee 5000] in
  let '((r, _), _, w) := run answer (ExtendTTLTo d 10 [LedgerKeyContractCode []] 500 new_state) (demo_node_of 0) [] in
  r = Val [900] /\ nd_executed w = ["extend 500/fee 11000#8"].
Proof. by vm_compute. Qed.
