(* ===== verification/RelayerConfig.v ===== *)
(** * Configuration of one chain of the relayer

    Models relayer/config/config.go and relayer/config/toml.go: the TOML
    structure of a chain, the [SetFrom] merges of its parts, the defaults of
    docs.toml, validation, and [NewDecodedTOMLConfig].

    A pointer field is an option; the copies behind the pointers are values,
    because no code of the package writes through one.  The nodes of a slice are
    the non-nil pointers the TOML decoder makes.  Parameters: the multinode
    part of the configuration and its merge (chainlink-framework), the TOML
    decoder and encoder (go-toml), and the chain ids (chain-selectors).

    Every merge is an overlay: an associative operation with the zero configuration
    as its unit and in which merging a layer twice changes nothing; the nodes and the
    hints need their names, resp. their hints, distinct for it.  From the laws:
    [SetDefaults] is the merge of the user's layer on the defaults, is idempotent,
    and a decoded configuration is accepted exactly when the declarative
    [acceptable] holds. *)

From S2P Require Import Prelude GoFloat Config.

Class ConfigSdk := {
  MultiNodeConfig : Type;
  MultiNode_zero : MultiNodeConfig;
  (** [MultiNodeConfig.SetFrom]: the merged value. *)
  MultiNode_SetFrom : MultiNodeConfig -> MultiNodeConfig -> MultiNodeConfig;
  (** The [MultiNode] table of docs.toml. *)
  docs_MultiNode : MultiNodeConfig;
  STELLAR_MAINNET_ChainID : string;
  STELLAR_TESTNET_ChainID : string;
  STELLAR_LOCALNET_ChainID : string
}.

(** [config.Node]; the URL is kept as its text. *)
Record Node := mkNode {
  Name : option string;
  URL : option string;
  Order : option Z
}.

#[export] Instance Node_eq_dec : EqDecision Node.
Proof. solve_decision. Defined.

Record BalanceMonitorConfig := mkBalanceMonitorConfig {
  BalancePollPeriod : option Z
}.

Section TOML.
Context `{ConfigSdk}.

Record TOMLConfig := mkTOMLConfig {
  Enabled : option bool;
  ChainID : string;
  Nodes : list Node;
  TxManager : TxManagerConfig;
  BalanceMonitor : BalanceMonitorConfig;
  MultiNode : MultiNodeConfig;
  RequestTimeout : option Z
}.

End TOML.

(** [30 * time.Second]. *)
Definition DefaultRequestTimeout : Z := 30 * 1000000000.

(** ** Merging one configuration onto another *)

(** [if f.X != nil { v := *f.X; c.X = &v }]. *)
Definition override {A} (c f : option A) : option A :=
  match f with Some v => Some v | None => c end.

(** [if len(f.Hints) > 0 { c.Hints = mergeSimulationHintLists(c.Hints, f.Hints) }]. *)
Definition override_hints (c f : list string) : list string :=
  match f with [] => c | _ => mergeSimulationHintLists c f end.

Definition TxManagerConfig_SetFrom (c f : TxManagerConfig) : TxManagerConfig := {|
  o_BroadcastChanSize := override (o_BroadcastChanSize c) (o_BroadcastChanSize f);
  o_ConfirmPollInterval := override (o_ConfirmPollInterval c) (o_ConfirmPollInterval f);
  o_BaseInclusionFee := override (o_BaseInclusionFee c) (o_BaseInclusionFee f);
  o_MaxInclusionFee := override (o_MaxInclusionFee c) (o_MaxInclusionFee f);
  o_FeeBumpMultiplier := override (o_FeeBumpMultiplier c) (o_FeeBumpMultiplier f);
  o_ResourceFeeBuffer := override (o_ResourceFeeBuffer c) (o_ResourceFeeBuffer f);
  o_RestoreFeeBuffer := override (o_RestoreFeeBuffer c) (o_RestoreFeeBuffer f);
  o_MaxResourceFee := override (o_MaxResourceFee c) (o_MaxResourceFee f);
  o_FeeStatsPollInterval := override (o_FeeStatsPollInterval c) (o_FeeStatsPollInterval f);
  o_FeeStatsLookback := override (o_FeeStatsLookback c) (o_FeeStatsLookback f);
  o_FirstSendFeePercentile := override (o_FirstSendFeePercentile c) (o_FirstSendFeePercentile f);
  o_RebroadcastFeePercentile :=
    override (o_RebroadcastFeePercentile c) (o_RebroadcastFeePercentile f);
  o_MaxSimulateAttempts := override (o_MaxSimulateAttempts c) (o_MaxSimulateAttempts f);
  o_MaxSubmitRetryAttempts := override (o_MaxSubmitRetryAttempts c) (o_MaxSubmitRetryAttempts f);
  o_SubmitRetryDelay := override (o_SubmitRetryDelay c) (o_SubmitRetryDelay f);
  o_TxTimeoutSecs := override (o_TxTimeoutSecs c) (o_TxTimeoutSecs f);
  o_LedgerBoundsOffset := override (o_LedgerBoundsOffset c) (o_LedgerBoundsOffset f);
  o_MaxTxRetryAttempts := override (o_MaxTxRetryAttempts c) (o_MaxTxRetryAttempts f);
  o_MaxGetClientRetryAttempts :=
    override (o_MaxGetClientRetryAttempts c) (o_MaxGetClientRetryAttempts f);
  o_MaxRestoreAttempts := override (o_MaxRestoreAttempts c) (o_MaxRestoreAttempts f);
  o_SimulationTerminalHints :=
    override_hints (o_SimulationTerminalHints c) (o_SimulationTerminalHints f);
  o_SimulationRetryableHints :=
    override_hints (o_SimulationRetryableHints c) (o_SimulationRetryableHints f);
  o_PruneInterval := override (o_PruneInterval c) (o_PruneInterval f);
  o_PruneTxExpiration := override (o_PruneTxExpiration c) (o_PruneTxExpiration f)
|}.

Definition BalanceMonitorConfig_SetFrom (c f : BalanceMonitorConfig) : BalanceMonitorConfig :=
  {| BalancePollPeriod := override (BalancePollPeriod c) (BalancePollPeriod f) |}.

Definition Node_SetFrom (n f : Node) : Node := {|
  Name := override (Name n) (Name f);
  URL := override (URL n) (URL f);
  Order := override (Order n) (Order f)
|}.

(** The index and the node of the first node named [x]. *)
Definition node_named (x : string) (ns : list Node) : option (nat * Node) :=
  list_find (fun n => Name n = Some x) ns.

(** One iteration of [Nodes.SetFrom]: an unnamed node and a new name are
    appended, a known name is overlaid in place. *)
Definition merge_node (ns : list Node) (f : Node) : list Node :=
  match Name f with
  | None => ns ++ [f]
  | Some x =>
      match node_named x ns with
      | None => ns ++ [f]
      | Some (idx, n) => <[idx := Node_SetFrom n f]> ns
      end
  end.

Definition Nodes_SetFrom (ns fs : list Node) : list Node := foldl merge_node ns fs.

(** ** Validation *)

(** The leaves [errors.Join] collects, in order; no leaf is a nil error. *)
Inductive config_error :=
| ErrMissing (name : string)
| ErrEmpty (name : string)
| ErrInvalidChainID (id : string).

Definition Node_ValidateConfig (n : Node) : list config_error :=
  match Name n with
  | None => [ErrMissing "Name"]
  | Some x => if decide (x = "")%string then [ErrEmpty "Name"] else []
  end ++
  match URL n with None => [ErrMissing "URL"] | Some _ => [] end.

Section Operations.
Context `{ConfigSdk}.

Definition TOMLConfig_SetFrom (c f : TOMLConfig) : TOMLConfig := {|
  Enabled := override (Enabled c) (Enabled f);
  ChainID := if decide (ChainID f = "")%string then ChainID c else ChainID f;
  TxManager := TxManagerConfig_SetFrom (TxManager c) (TxManager f);
  BalanceMonitor := BalanceMonitorConfig_SetFrom (BalanceMonitor c) (BalanceMonitor f);
  MultiNode := MultiNode_SetFrom (MultiNode c) (MultiNode f);
  Nodes := Nodes_SetFrom (Nodes c) (Nodes f);
  RequestTimeout := override (RequestTimeout c) (RequestTimeout f)
|}.

(** ** Defaults *)

(** The [TxManager] table of docs.toml: every scalar, and no hint. *)
Definition docs_TxManager : TxManagerConfig := mkTxManagerConfig
  (Some 100%nat) (Some 3000000000) (Some 100) (Some 200000000) (Some (f64_ratio 3 2))
  (Some 15000) (Some 10000) (Some 2000000000) (Some 5000000000) (Some 120000000000)
  (Some "P90"%string) (Some "P99"%string) (Some 3%nat) (Some 10%nat) (Some 3000000000)
  (Some 300) (Some 50) (Some 5) (Some 10) (Some 3%nat) [] []
  (Some 600000000000) (Some 7200000000000).

(** The zero value of [TxManagerConfig] and of [TOMLConfig]. *)
Definition TxManagerConfig_zero : TxManagerConfig := mkTxManagerConfig
  None None None None None None None None None None None None
  None None None None None None None None [] [] None None.

Definition TOMLConfig_zero : TOMLConfig :=
  mkTOMLConfig None "" [] TxManagerConfig_zero (mkBalanceMonitorConfig None) MultiNode_zero None.

(** The lines of docs.toml marked Default; its chain id and its node are examples. *)
Definition defaults : TOMLConfig := mkTOMLConfig
  (Some true) "" [] docs_TxManager (mkBalanceMonitorConfig (Some 30000000000))
  docs_MultiNode (Some DefaultRequestTimeout).

Definition Defaults : TOMLConfig := TOMLConfig_SetFrom TOMLConfig_zero defaults.

Definition SetDefaults (c : TOMLConfig) : TOMLConfig :=
  let d := TOMLConfig_SetFrom Defaults c in
  mkTOMLConfig (Enabled d) (ChainID d) (Nodes d)
    (to_manager_config (Resolve docs_defaults (TxManager d)))
    (BalanceMonitor d) (MultiNode d) (RequestTimeout d).

Definition IsEnabled (c : TOMLConfig) : bool :=
  match Enabled c with None => true | Some b => b end.

Definition ValidateConfig (c : TOMLConfig) : list config_error :=
  (if decide (ChainID c ∈ [STELLAR_MAINNET_ChainID; STELLAR_TESTNET_ChainID;
                           STELLAR_LOCALNET_ChainID])
   then [] else [ErrInvalidChainID (ChainID c)]) ++
  match Nodes c with
  | [] => [ErrMissing "Nodes"]
  | ns => ns ≫= Node_ValidateConfig
  end.

End Operations.

(** ** Decoding *)

(** go-toml: a strict decoder (unknown fields refused) and the encoder. *)
Class Toml `{ConfigSdk} := {
  toml_Decode : string -> res TOMLConfig;
  toml_Marshal : TOMLConfig -> res string;
  toml_MarshalNode : Node -> res string
}.

Inductive decode_error :=
| DecodeFailed (e : error)
| ConfigDisabled (id : string)
| ConfigInvalid (errs : list config_error).

Section Decode.
Context `{Toml}.

Definition TOMLString (c : TOMLConfig) : res string := toml_Marshal c.

Definition NewDecodedTOMLConfig (rawConfig : string) : decode_error + TOMLConfig :=
  match toml_Decode rawConfig with
  | Err e => inl (DecodeFailed e)
  | Ok cfg =>
      if negb (IsEnabled cfg) then inl (ConfigDisabled (ChainID cfg)) else
      let cfg := SetDefaults cfg in
      match ValidateConfig cfg with
      | [] => inr cfg
      | errs => inl (ConfigInvalid errs)
      end
  end.

End Decode.

(** ** Overlays *)

Class Overlay {A : Type} (op : A -> A -> A) (zero : A) : Prop := {
  overlay_assoc :: Assoc (=) op;
  overlay_left_id :: LeftId (=) zero op;
  overlay_right_id :: RightId (=) zero op;
  overlay_idemp :: IdemP (=) op
}.

(** A layer merged again, on either side, changes nothing. *)
Lemma overlay_again_r {A} {op : A -> A -> A} {zero : A} `{!Overlay op zero} (a b : A) : op (op a b) b = op a b.
Proof. by rewrite <- (assoc op), (idemp op). Qed.

Lemma overlay_again_l {A} {op : A -> A -> A} {zero : A} `{!Overlay op zero} (a b : A) : op a (op a b) = op a b.
Proof. by rewrite (assoc op), (idemp op). Qed.

#[export] Instance override_overlay {A} : Overlay (@override A) None.
Proof. split; repeat intros [?|]; reflexivity. Qed.

Ltac overlay_record :=
  split; repeat intros []; cbv -[override]; f_equal;
  first [apply overlay_assoc | apply overlay_idemp | apply overlay_left_id | apply overlay_right_id].

#[export] Instance Node_overlay : Overlay Node_SetFrom (mkNode None None None).
Proof. overlay_record. Qed.

#[export] Instance BalanceMonitor_overlay :
  Overlay BalanceMonitorConfig_SetFrom (mkBalanceMonitorConfig None).
Proof. overlay_record. Qed.

(** ** Hints *)

(** Hints appended in order of first occurrence. *)
Fixpoint add_new (out l : list string) : list string :=
  match l with
  | [] => out
  | h :: l' => add_new (if decide (h ∈ out) then out else out ++ [h]) l'
  end.

Lemma merge_loop_add_new l seen out :
  (forall h, h ∈ seen <-> h ∈ out) ->
  (forall h, h ∈ fst (merge_loop l seen out) <-> h ∈ add_new out l) /\
  snd (merge_loop l seen out) = add_new out l.
Proof.
  revert seen out; induction l as [|h l IH]; intros seen out Hs; simpl; [done|].
  destruct (decide (h ∈ seen)) as [Hi|Hi]; rewrite Hs in Hi.
  - rewrite decide_True by done. by apply IH.
  - rewrite decide_False by done. apply IH. set_solver.
Qed.

(** [mergeSimulationHintLists] is the order-preserving union, unless there is
    nothing to add, in which case the first list is copied as it is. *)
Lemma mergeSimulationHintLists_add_new c f :
  mergeSimulationHintLists c f = match f with [] => c | _ => add_new [] (c ++ f) end.
Proof.
  destruct f as [|h f]; [done|]. unfold mergeSimulationHintLists.
  pose proof (merge_loop_add_new c ∅ [] ltac:(set_solver)) as [Hs Ho].
  destruct (merge_loop c ∅ []) as [seen out]. simpl in Hs, Ho.
  pose proof (merge_loop_add_new (h :: f) seen out ltac:(by rewrite Ho)) as [_ ->].
  rewrite Ho. generalize (@nil string). clear. intros l.
  revert l; induction c as [|x c IH]; intros l; [done|]. apply IH.
Qed.

Lemma override_hints_eq c f : override_hints c f = mergeSimulationHintLists c f.
Proof. by destruct f. Qed.

Lemma add_new_app out l l' : add_new out (l ++ l') = add_new (add_new out l) l'.
Proof. revert out; induction l as [|h l IH]; intros out; simpl; [done|]. apply IH. Qed.

Lemma elem_of_add_new h out l : h ∈ add_new out l <-> h ∈ out \/ h ∈ l.
Proof.
  revert out; induction l as [|x l IH]; intros out; simpl; [set_solver|].
  rewrite IH. case_decide; set_solver.
Qed.

Lemma add_new_NoDup out l : NoDup out -> NoDup (add_new out l).
Proof.
  revert out; induction l as [|x l IH]; intros out Hnd; simpl; [done|]. apply IH.
  case_decide; [done|]. apply list.NoDup_app. split_and!; [done|set_solver|apply NoDup_singleton].
Qed.

Lemma add_new_fresh out l : NoDup (out ++ l) -> add_new out l = out ++ l.
Proof.
  revert out; induction l as [|x l IH]; intros out Hnd; simpl; [by rewrite app_nil_r|].
  rewrite decide_False.
  - rewrite IH by (by rewrite <- app_assoc). by rewrite <- app_assoc.
  - apply list.NoDup_app in Hnd as (_ & Hd & _). intros Hi. by apply (Hd x Hi), list_elem_of_here.
Qed.

Lemma add_new_cons out h l : add_new out (h :: l) = add_new (add_new out [h]) l.
Proof. done. Qed.

(** Removing the repetitions of a list first adds the same hints. *)
Lemma add_new_add_new out p l : add_new out (add_new p l) = add_new (add_new out p) l.
Proof.
  revert p; induction l as [|h l IH]; intros p; [done|].
  rewrite (add_new_cons (add_new out p)), (add_new_cons p), IH. f_equal.
  simpl. case_decide as Hp.
  - by rewrite decide_True by (apply elem_of_add_new; by right).
  - by rewrite add_new_app.
Qed.

Lemma add_new_nil l : NoDup l -> add_new [] l = l.
Proof. apply (add_new_fresh []). Qed.

#[export] Instance hints_assoc : Assoc (=) mergeSimulationHintLists.
Proof.
  intros a b c. rewrite !mergeSimulationHintLists_add_new.
  destruct c as [|h c]; [done|]. set (hc := h :: c).
  assert (add_new [] (b ++ hc) = [] -> False) as Hne.
  { intros E. assert (h ∈ add_new [] (b ++ hc)) as Hi by (apply elem_of_add_new; set_solver).
    rewrite E in Hi. by apply not_elem_of_nil in Hi. }
  assert (forall b', add_new [] (a ++ add_new [] (b' ++ hc)) = add_new [] ((a ++ b') ++ hc)) as E.
  { intros b'. by rewrite <- app_assoc, !(add_new_app _ a), add_new_add_new. }
  destruct (add_new [] (b ++ hc)) as [|x l] eqn:El; [done|]. rewrite <- El, E.
  destruct b as [|y b]; [by rewrite app_nil_r|].
  by rewrite !(add_new_app _ _ hc), (add_new_nil (add_new _ _)) by (apply add_new_NoDup; constructor).
Qed.

Lemma hints_right_id a : mergeSimulationHintLists a [] = a.
Proof. done. Qed.

Lemma hints_NoDup a b : NoDup a -> NoDup (mergeSimulationHintLists a b).
Proof.
  intros. rewrite mergeSimulationHintLists_add_new. destruct b; [done|].
  apply add_new_NoDup. constructor.
Qed.

Lemma hints_idemp a : NoDup a -> mergeSimulationHintLists a a = a.
Proof.
  intros Hnd. rewrite mergeSimulationHintLists_add_new. destruct a as [|h a]; [done|].
  rewrite add_new_app, add_new_nil by done.
  assert (forall l out, (forall x, x ∈ l -> x ∈ out) -> add_new out l = out) as E; [|by apply E].
  intros l; induction l as [|x l IH]; intros out Hi; simpl; [done|].
  rewrite decide_True by set_solver. apply IH. set_solver.
Qed.

(** The user's hints reach the built-in ones as written, whether or not they
    were merged with the empty lists of docs.toml before. *)
Lemma hints_through_docs b u :
  mergeSimulationHintLists b (mergeSimulationHintLists [] u) = mergeSimulationHintLists b u.
Proof. by rewrite (assoc mergeSimulationHintLists). Qed.

(** ** The manager's table *)

#[export] Instance TxManagerConfig_assoc : Assoc (=) TxManagerConfig_SetFrom.
Proof.
  intros [] [] []. unfold TxManagerConfig_SetFrom; simpl. rewrite !override_hints_eq.
  f_equal; first [apply overlay_assoc | apply (assoc mergeSimulationHintLists)].
Qed.

#[export] Instance TxManagerConfig_right_id :
  RightId (=) TxManagerConfig_zero TxManagerConfig_SetFrom.
Proof. by intros []. Qed.

(** The hints of a table are free of repetitions. *)
Definition hints_ok (c : TxManagerConfig) : Prop :=
  NoDup (o_SimulationTerminalHints c) /\ NoDup (o_SimulationRetryableHints c).

Lemma TxManagerConfig_idemp c : hints_ok c -> TxManagerConfig_SetFrom c c = c.
Proof.
  destruct c; intros []; unfold TxManagerConfig_SetFrom; simpl in *. rewrite !override_hints_eq.
  f_equal; first [apply overlay_idemp | by apply hints_idemp].
Qed.

Lemma override_default {A} (v : A) (o : option A) :
  default v (override (Some v) o) = default v o.
Proof. by destruct o. Qed.

(** Resolving a table merged on that of docs.toml resolves the table itself. *)
Lemma Resolve_through_docs u :
  Resolve docs_defaults (TxManagerConfig_SetFrom docs_TxManager u) = Resolve docs_defaults u.
Proof.
  unfold Resolve, TxManagerConfig_SetFrom, docs_TxManager; simpl.
  rewrite !override_hints_eq, !hints_through_docs. f_equal; apply override_default.
Qed.

(** ** Nodes *)

(** [merge_node] by recursion on the nodes. *)
Fixpoint put_node (ns : list Node) (f : Node) : list Node :=
  match ns with
  | [] => [f]
  | n :: ns' =>
      match Name f with
      | Some _ => if decide (Name n = Name f) then Node_SetFrom n f :: ns' else n :: put_node ns' f
      | None => n :: put_node ns' f
      end
  end.

Lemma merge_node_put ns f : merge_node ns f = put_node ns f.
Proof.
  unfold merge_node. destruct (Name f) as [x|] eqn:Ef.
  - unfold node_named. induction ns as [|n ns IH]; simpl; [done|]. rewrite Ef.
    destruct (decide (Name n = Some x)) as [E|E]; [done|].
    destruct (list_find _ ns) as [[i m]|]; simpl in *; by rewrite <- IH.
  - induction ns as [|n ns IH]; simpl; rewrite ?Ef; [done|]. by rewrite <- IH.
Qed.

Lemma Nodes_SetFrom_cons ns f fs : Nodes_SetFrom ns (f :: fs) = Nodes_SetFrom (put_node ns f) fs.
Proof. unfold Nodes_SetFrom. simpl. by rewrite merge_node_put. Qed.

Lemma Nodes_SetFrom_app ns fs gs :
  Nodes_SetFrom ns (fs ++ gs) = Nodes_SetFrom (Nodes_SetFrom ns fs) gs.
Proof. apply foldl_app. Qed.

(** The names of the named nodes, in order. *)
Definition names (ns : list Node) : list string := omap Name ns.
Arguments names : simpl never.

Lemma names_cons n ns :
  names (n :: ns) = match Name n with Some x => x :: names ns | None => names ns end.
Proof. unfold names; simpl. by destruct (Name n). Qed.

(** The node a configuration has under a name. *)
Definition node_of (x : string) (ns : list Node) : option Node := snd <$> node_named x ns.

Lemma node_of_cons x n ns :
  node_of x (n :: ns) = if decide (Name n = Some x) then Some n else node_of x ns.
Proof.
  unfold node_of, node_named; simpl. case_decide; [done|]. by destruct (list_find _ ns) as [[]|].
Qed.

Lemma elem_of_names x ns : x ∈ names ns <-> exists n, n ∈ ns /\ Name n = Some x.
Proof. apply list_elem_of_omap. Qed.

Lemma node_of_Some x ns n : node_of x ns = Some n -> n ∈ ns /\ Name n = Some x.
Proof.
  induction ns as [|m ns IH]; [done|]. rewrite node_of_cons. case_decide; intros E; simplify_eq.
  - split; [apply list_elem_of_here|done].
  - destruct (IH E). split; [by apply list_elem_of_further|done].
Qed.

Lemma node_of_None x ns : node_of x ns = None <-> x ∉ names ns.
Proof.
  induction ns as [|m ns IH]; [set_solver|]. rewrite node_of_cons.
  rewrite names_cons. case_decide as E; [rewrite E; set_solver|].
  rewrite IH. destruct (Name m); [|done]. set_solver.
Qed.

Lemma node_of_unique x ns n :
  NoDup (names ns) -> n ∈ ns -> Name n = Some x -> node_of x ns = Some n.
Proof.
  induction ns as [|m ns IH]; intros Hnd Hn Hx; [by apply not_elem_of_nil in Hn|].
  rewrite node_of_cons. rewrite names_cons in Hnd.
  apply elem_of_cons in Hn as [->|Hn]; [by rewrite decide_True|].
  assert (x ∈ names ns) by (apply elem_of_names; eauto).
  rewrite decide_False.
  - apply IH; [|done..]. destruct (Name m); [by apply list.NoDup_cons in Hnd as [_ ?]|done].
  - intros E. rewrite E in Hnd. by apply list.NoDup_cons in Hnd as [? _].
Qed.

Lemma Node_SetFrom_Name n f x : Name f = Some x -> Name (Node_SetFrom n f) = Some x.
Proof. intros E. simpl. by rewrite E. Qed.

Lemma names_put_node ns f :
  names (put_node ns f) = match Name f with
                          | Some x => if decide (x ∈ names ns) then names ns else names ns ++ [x]
                          | None => names ns
                          end.
Proof.
  induction ns as [|n ns IH]; simpl; [by rewrite names_cons; destruct (Name f)|].
  rewrite (names_cons n ns). destruct (Name f) as [x|] eqn:Ef.
  - destruct (decide (Name n = Some x)) as [E|E]; rewrite names_cons.
    + rewrite (Node_SetFrom_Name n f x Ef), E. by rewrite decide_True by set_solver.
    + rewrite IH. destruct (Name n) as [y|]; [|done]. repeat case_decide; set_solver.
  - by rewrite names_cons, IH.
Qed.

Lemma names_NoDup_put ns f : NoDup (names ns) -> NoDup (names (put_node ns f)).
Proof.
  intros Hnd. rewrite names_put_node. destruct (Name f); [|done]. case_decide; [done|].
  apply list.NoDup_app. split_and!; [done|set_solver|apply NoDup_singleton].
Qed.

Lemma node_of_put x ns f :
  node_of x (put_node ns f) =
    if decide (Name f = Some x)
    then Some (Node_SetFrom (default (mkNode None None None) (node_of x ns)) f)
    else node_of x ns.
Proof.
  induction ns as [|n ns IH].
  - simpl. rewrite node_of_cons. case_decide; [|done]. simpl. f_equal. symmetry. apply overlay_left_id.
  - simpl. destruct (Name f) as [y|] eqn:Ef.
    + destruct (decide (Name n = Some y)) as [E|E]; rewrite !node_of_cons.
      * rewrite (Node_SetFrom_Name n f y Ef). by repeat case_decide; simplify_eq.
      * rewrite IH. repeat case_decide; simplify_eq; done.
    + rewrite !node_of_cons, IH. by repeat case_decide.
Qed.

Lemma names_NoDup_SetFrom ns fs : NoDup (names ns) -> NoDup (names (Nodes_SetFrom ns fs)).
Proof.
  revert ns; induction fs as [|f fs IH]; intros ns Hnd; [done|].
  rewrite Nodes_SetFrom_cons. by apply IH, names_NoDup_put.
Qed.

(** The entries of a slice that carry a name, in order. *)
Definition versions (x : string) (fs : list Node) : list Node :=
  filter (fun f => Name f = Some x) fs.

(** Under a name, a merge keeps the node it had, overlaid with the entries of
    that name in order. *)
Lemma node_of_SetFrom x ns fs :
  node_of x (Nodes_SetFrom ns fs) =
    match versions x fs with
    | [] => node_of x ns
    | vs => Some (foldl Node_SetFrom (default (mkNode None None None) (node_of x ns)) vs)
    end.
Proof.
  revert ns; induction fs as [|f fs IH]; intros ns; [done|].
  rewrite Nodes_SetFrom_cons, IH, node_of_put. unfold versions. rewrite filter_cons.
  case_decide; simpl; [|done]. by destruct (filter _ fs).
Qed.

(** The unnamed nodes of a slice. *)
Definition unnamed (ns : list Node) : list Node := filter (fun n => Name n = None) ns.

Lemma unnamed_put ns f :
  unnamed (put_node ns f) = unnamed ns ++ unnamed [f].
Proof.
  unfold unnamed. induction ns as [|n ns IH]; [done|]. rewrite (filter_cons _ f []) in *. simpl.
  destruct (Name f) as [x|] eqn:Ef; simpl in *.
  - rewrite app_nil_r in *.
    destruct (decide (Name n = Some x)) as [E|E]; rewrite !filter_cons.
    + rewrite !decide_False; [done|by rewrite E|by rewrite (Node_SetFrom_Name n f x Ef)].
    + by rewrite IH.
  - rewrite !filter_cons, IH. by case_decide.
Qed.

Lemma unnamed_SetFrom ns fs : unnamed (Nodes_SetFrom ns fs) = unnamed ns ++ unnamed fs.
Proof.
  revert ns; induction fs as [|f fs IH]; intros ns; [by rewrite app_nil_r|].
  rewrite Nodes_SetFrom_cons, IH, unnamed_put, <- app_assoc. f_equal.
  unfold unnamed. by rewrite <- list.filter_app.
Qed.

(** *** Algebra of the merge *)

Lemma put_node_fresh ns f :
  (forall x, Name f = Some x -> x ∉ names ns) -> put_node ns f = ns ++ [f].
Proof.
  intros Hf. induction ns as [|n ns IH]; simpl; [done|].
  destruct (Name f) as [x|] eqn:Ef; [|f_equal; by apply IH].
  specialize (Hf x eq_refl). rewrite names_cons in Hf.
  rewrite decide_False by (intros E; rewrite E in Hf; set_solver).
  f_equal. apply IH. intros y [= <-]. destruct (Name n); set_solver.
Qed.

(** A slice whose names are new is appended. *)
Lemma Nodes_SetFrom_fresh ns fs :
  NoDup (names fs) -> (forall x, x ∈ names fs -> x ∉ names ns) ->
  Nodes_SetFrom ns fs = ns ++ fs.
Proof.
  revert ns; induction fs as [|f fs IH]; intros ns Hnd Hd; [by rewrite app_nil_r|].
  rewrite names_cons in Hnd, Hd. rewrite Nodes_SetFrom_cons, put_node_fresh.
  - rewrite IH; [by rewrite <- app_assoc| |].
    + destruct (Name f); [by apply list.NoDup_cons in Hnd as [_ ?]|done].
    + intros x Hx. unfold names. rewrite omap_app. fold (names ns).
      replace (omap Name [f]) with (names [f]) by done. rewrite names_cons.
      destruct (Name f) as [y|] eqn:Ef; [|set_solver].
      apply list.NoDup_cons in Hnd as [? _]. set_solver.
  - intros x Ex. rewrite Ex in Hd. set_solver.
Qed.

Lemma Nodes_SetFrom_nil_id fs : NoDup (names fs) -> Nodes_SetFrom [] fs = fs.
Proof. intros. apply Nodes_SetFrom_fresh; set_solver. Qed.

(** Entries of different names commute once one of the names is there. *)
Lemma put_node_comm ns f g x :
  Name f = Some x -> x ∈ names ns -> Name g ≠ Some x ->
  put_node (put_node ns g) f = put_node (put_node ns f) g.
Proof.
  intros Ef Hx Hg. induction ns as [|n ns IH]; [by apply not_elem_of_nil in Hx|].
  pose proof (Node_SetFrom_Name n f x Ef) as Enf.
  assert (Name n ≠ Some x -> x ∈ names ns) as Hx'.
  { intros. rewrite names_cons in Hx. destruct (Name n); set_solver. }
  cbn [put_node]; rewrite Ef.
  destruct (decide (Name n = Some x)) as [En|En], (Name g) as [y|] eqn:Eg; cbn [put_node];
    rewrite ?Ef, ?Eg, ?Enf.
  - rewrite !decide_False by congruence. cbn [put_node]. by rewrite Ef, decide_True.
  - by rewrite decide_True.
  - destruct (decide (Name n = Some y)) as [Ey|Ey]; cbn [put_node]; rewrite Ef.
    + rewrite (Node_SetFrom_Name n g y Eg). by rewrite decide_False by congruence.
    + rewrite decide_False by done. f_equal. by apply IH, Hx'.
  - rewrite decide_False by done. f_equal. by apply IH, Hx'.
Qed.

Lemma names_put_mono x ns f : x ∈ names ns -> x ∈ names (put_node ns f).
Proof. rewrite names_put_node. repeat case_match; set_solver. Qed.

Lemma put_SetFrom_comm ns f fs x :
  Name f = Some x -> x ∈ names ns -> x ∉ names fs ->
  put_node (Nodes_SetFrom ns fs) f = Nodes_SetFrom (put_node ns f) fs.
Proof.
  intros Ef. revert ns; induction fs as [|g fs IH]; intros ns Hx Hn; [done|].
  rewrite names_cons in Hn. rewrite !Nodes_SetFrom_cons, IH.
  - f_equal. eapply put_node_comm; [done..|]. intros E. rewrite E in Hn. set_solver.
  - by apply names_put_mono.
  - destruct (Name g); set_solver.
Qed.

(** Overlaying twice under one name overlays the overlay. *)
Lemma put_node_twice ns n f x :
  Name n = Some x -> Name f = Some x ->
  put_node (put_node ns n) f = put_node ns (Node_SetFrom n f).
Proof.
  intros En Ef. pose proof (Node_SetFrom_Name n f x Ef) as Enf.
  induction ns as [|m ns IH]; cbn [put_node]; rewrite ?En, ?Ef, ?Enf.
  - by rewrite decide_True.
  - destruct (decide (Name m = Some x)) as [E|E]; cbn [put_node]; rewrite Ef.
    + rewrite (Node_SetFrom_Name m n x En), decide_True by done. f_equal.
      symmetry. apply overlay_assoc.
    + rewrite decide_False by done. by rewrite IH.
Qed.

Lemma SetFrom_put a d f :
  NoDup (names d) -> Nodes_SetFrom a (put_node d f) = put_node (Nodes_SetFrom a d) f.
Proof.
  revert a; induction d as [|n d IH]; intros a Hnd; [apply Nodes_SetFrom_cons|].
  rewrite names_cons in Hnd. cbn [put_node]. destruct (Name f) as [x|] eqn:Ef.
  - destruct (decide (Name n = Some x)) as [E|E]; rewrite !Nodes_SetFrom_cons.
    + rewrite E in Hnd. apply list.NoDup_cons in Hnd as [Hx _].
      rewrite <- (put_node_twice a n f x E Ef). symmetry. apply (put_SetFrom_comm _ f d x Ef); [|done].
      rewrite names_put_node, E. case_decide; set_solver.
    + apply IH. destruct (Name n); [by apply list.NoDup_cons in Hnd as [_ ?]|done].
  - rewrite !Nodes_SetFrom_cons. apply IH.
    destruct (Name n); [by apply list.NoDup_cons in Hnd as [_ ?]|done].
Qed.

(** Layers merge associatively when the middle one names its nodes apart. *)
Lemma Nodes_SetFrom_assoc a b c :
  NoDup (names b) ->
  Nodes_SetFrom a (Nodes_SetFrom b c) = Nodes_SetFrom (Nodes_SetFrom a b) c.
Proof.
  revert b; induction c as [|f c IH]; intros b Hnd; [done|].
  rewrite !Nodes_SetFrom_cons, IH by (by apply names_NoDup_put). by rewrite SetFrom_put.
Qed.

(** ** Whole configurations *)

(** The multinode table merges like the others (chainlink-framework: set fields
    replace, unset ones are kept). *)
Class MultiNodeLaws `{ConfigSdk} : Prop :=
  MultiNode_overlay :: Overlay MultiNode_SetFrom MultiNode_zero.

Section Layers.
Context `{MultiNodeLaws}.

Lemma override_default_id {A} (d c : option A) : override d (override d c) = override d c.
Proof. by destruct c, d. Qed.

Lemma Defaults_eq : Defaults = defaults.
Proof. unfold Defaults, TOMLConfig_SetFrom. simpl. rewrite (overlay_left_id docs_MultiNode). reflexivity. Qed.

(** What [SetDefaults] makes of each field: the user's value where there is one,
    else that of docs.toml; the manager's table is the one [Resolve] makes of
    the user's; nodes of one name become one. *)
Lemma SetDefaults_eq c :
  SetDefaults c = mkTOMLConfig
    (override (Some true) (Enabled c)) (ChainID c) (Nodes_SetFrom [] (Nodes c))
    (to_manager_config (Resolve docs_defaults (TxManager c)))
    (BalanceMonitorConfig_SetFrom (mkBalanceMonitorConfig (Some 30000000000)) (BalanceMonitor c))
    (MultiNode_SetFrom docs_MultiNode (MultiNode c))
    (override (Some DefaultRequestTimeout) (RequestTimeout c)).
Proof.
  unfold SetDefaults. rewrite Defaults_eq. simpl. rewrite Resolve_through_docs.
  f_equal. case_decide; congruence.
Qed.

Lemma SetDefaults_Nodes c : Nodes (SetDefaults c) = Nodes_SetFrom [] (Nodes c).
Proof. by rewrite SetDefaults_eq. Qed.

(** Resolving the manager's table of a completed configuration, as the manager's
    constructor does again, gives what the user's table resolves to. *)
Lemma SetDefaults_TxManager c :
  Resolve docs_defaults (TxManager (SetDefaults c)) = Resolve docs_defaults (TxManager c).
Proof. rewrite SetDefaults_eq. apply Resolve_idempotent. Qed.

(** Completing a configuration with the defaults again changes nothing. *)
Lemma SetDefaults_idempotent c : SetDefaults (SetDefaults c) = SetDefaults c.
Proof.
  rewrite !SetDefaults_eq. simpl. rewrite Resolve_idempotent. f_equal.
  - by destruct (Enabled c).
  - apply Nodes_SetFrom_nil_id, names_NoDup_SetFrom, NoDup_nil_2.
  - unfold BalanceMonitorConfig_SetFrom; simpl. f_equal. apply override_default_id.
  - apply overlay_again_l.
  - by destruct (RequestTimeout c).
Qed.

(** Three layers of configuration give the same result however they
    are grouped, provided the middle one names its nodes apart. *)
Theorem TOMLConfig_SetFrom_assoc a b c :
  NoDup (names (Nodes b)) ->
  TOMLConfig_SetFrom a (TOMLConfig_SetFrom b c) = TOMLConfig_SetFrom (TOMLConfig_SetFrom a b) c.
Proof.
  intros Hnd. unfold TOMLConfig_SetFrom; simpl. rewrite Nodes_SetFrom_assoc by done.
  f_equal; first [apply overlay_assoc | apply TxManagerConfig_assoc | repeat case_decide; congruence].
Qed.

(** ** What is accepted *)

(** A user's configuration the relayer takes: a Stellar chain id, at least one
    node, every node named, and under every name some entry with a URL. *)
Definition acceptable (u : TOMLConfig) : Prop :=
  ChainID u ∈ [STELLAR_MAINNET_ChainID; STELLAR_TESTNET_ChainID; STELLAR_LOCALNET_ChainID] /\
  Nodes u ≠ [] /\
  forall n, n ∈ Nodes u ->
    exists x, Name n = Some x /\ x ≠ ""%string /\
    exists m, m ∈ Nodes u /\ Name m = Some x /\ is_Some (URL m).

Definition node_ok (n : Node) : Prop :=
  (exists x, Name n = Some x /\ x ≠ ""%string) /\ is_Some (URL n).

Lemma Node_ValidateConfig_nil n : Node_ValidateConfig n = [] <-> node_ok n.
Proof.
  unfold Node_ValidateConfig, node_ok. destruct (Name n) as [x|], (URL n); simpl;
    try case_decide; simpl; split; naive_solver.
Qed.

Lemma ValidateConfig_nil c :
  ValidateConfig c = [] <->
  ChainID c ∈ [STELLAR_MAINNET_ChainID; STELLAR_TESTNET_ChainID; STELLAR_LOCALNET_ChainID] /\
  Nodes c ≠ [] /\ Forall node_ok (Nodes c).
Proof.
  unfold ValidateConfig. rewrite app_nil. destruct (Nodes c) as [|n ns] eqn:E.
  - split; [by intros [_ ?]|by intros (_ & ? & _)].
  - assert (forall l, l ≫= Node_ValidateConfig = [] <-> Forall node_ok l) as Hb.
    { intros l; induction l as [|m l IH]; csimpl; [by split; [constructor|]|].
      rewrite app_nil, IH, Node_ValidateConfig_nil. by rewrite list.Forall_cons. }
    rewrite Hb. case_decide; naive_solver.
Qed.

Lemma foldl_URL b vs :
  is_Some (URL (foldl Node_SetFrom b vs)) <-> is_Some (URL b) \/ Exists (fun v => is_Some (URL v)) vs.
Proof.
  revert b; induction vs as [|v vs IH]; intros b; simpl; [rewrite Exists_nil; tauto|].
  rewrite IH, Exists_cons. simpl. unfold override. destruct (URL v) eqn:E.
  - naive_solver.
  - assert (~ is_Some (@None string)) by (by intros []). tauto.
Qed.

Lemma elem_of_versions v x fs : v ∈ versions x fs <-> v ∈ fs /\ Name v = Some x.
Proof. unfold versions. rewrite list_elem_of_filter. tauto. Qed.

Lemma elem_of_unnamed n ns : n ∈ unnamed ns <-> n ∈ ns /\ Name n = None.
Proof. unfold unnamed. rewrite list_elem_of_filter. tauto. Qed.

Lemma Nodes_SetFrom_nil ns fs : Nodes_SetFrom ns fs = [] <-> ns = [] /\ fs = [].
Proof.
  revert ns; induction fs as [|f fs IH]; intros ns; [simpl; tauto|].
  rewrite Nodes_SetFrom_cons, IH. split; [intros [E _]|by intros [_ ?]]. exfalso.
  destruct ns as [|n ns]; simpl in E; [done|]. by repeat case_match.
Qed.

Lemma node_of_merged x fs :
  node_of x (Nodes_SetFrom [] fs) =
    match versions x fs with
    | [] => None
    | vs => Some (foldl Node_SetFrom (mkNode None None None) vs)
    end.
Proof. by rewrite node_of_SetFrom. Qed.

Lemma URL_versions x fs vs :
  versions x fs = vs ->
  is_Some (URL (foldl Node_SetFrom (mkNode None None None) vs)) <->
  exists m, m ∈ fs /\ Name m = Some x /\ is_Some (URL m).
Proof.
  intros <-. rewrite foldl_URL, list.Exists_exists. simpl. split.
  - intros [[? ?]|(m & Hm & ?)]; [done|]. apply elem_of_versions in Hm. naive_solver.
  - intros (m & ? & ? & ?). right. exists m. by rewrite elem_of_versions.
Qed.

Lemma merged_node x fs k :
  node_of x (Nodes_SetFrom [] fs) = Some k ->
  Name k = Some x /\ k ∈ Nodes_SetFrom [] fs /\
  (is_Some (URL k) <-> exists m, m ∈ fs /\ Name m = Some x /\ is_Some (URL m)).
Proof.
  intros E. destruct (node_of_Some _ _ _ E) as [? ?]. split_and!; [done..|].
  rewrite node_of_merged in E. destruct (versions x fs) as [|v vs] eqn:Ev; [done|].
  injection E as <-. exact (URL_versions x fs (v :: vs) Ev).
Qed.

Lemma merged_has x fs n :
  n ∈ fs -> Name n = Some x -> exists k, node_of x (Nodes_SetFrom [] fs) = Some k.
Proof.
  intros Hn Hx. rewrite node_of_merged. assert (n ∈ versions x fs) as Hv by by apply elem_of_versions.
  destruct (versions x fs); [by apply not_elem_of_nil in Hv|eauto].
Qed.

Lemma merged_ok fs :
  Forall node_ok (Nodes_SetFrom [] fs) <->
  forall n, n ∈ fs -> exists x, Name n = Some x /\ x ≠ ""%string /\
    exists m, m ∈ fs /\ Name m = Some x /\ is_Some (URL m).
Proof.
  rewrite list.Forall_forall. pose proof (unnamed_SetFrom [] fs) as Hu. simpl in Hu.
  pose proof (names_NoDup_SetFrom [] fs (NoDup_nil_2)) as Hnd. split.
  - intros Hok n Hn. destruct (Name n) as [x|] eqn:En.
    + destruct (merged_has x fs n Hn En) as [k Ek].
      destruct (merged_node x fs k Ek) as (Hk & Hi & HU).
      destruct (Hok k Hi) as [(y & ? & ?) ?]. exists x. simplify_eq. naive_solver.
    + assert (n ∈ unnamed fs) as Hi by by apply elem_of_unnamed.
      rewrite <- Hu in Hi. apply elem_of_unnamed in Hi as [Hi _].
      destruct (Hok n Hi) as [(? & ? & _) _]. congruence.
  - intros Hf k Hk. destruct (Name k) as [x|] eqn:En.
    + pose proof (node_of_unique x _ k Hnd Hk En) as Ek.
      destruct (merged_node x fs k Ek) as (_ & _ & HU).
      rewrite node_of_merged in Ek. destruct (versions x fs) as [|v vs] eqn:Ev; [done|].
      assert (v ∈ versions x fs) as Hv by (rewrite Ev; apply list_elem_of_here).
      apply elem_of_versions in Hv as [Hv Hx]. destruct (Hf v Hv) as (y & ? & ? & ?).
      simplify_eq. split; [eauto|by apply HU].
    + assert (k ∈ unnamed (Nodes_SetFrom [] fs)) as Hi by by apply elem_of_unnamed.
      rewrite Hu in Hi. apply elem_of_unnamed in Hi as [Hi _].
      destruct (Hf k Hi) as (? & ? & _). congruence.
Qed.

Lemma accepted_iff u : ValidateConfig (SetDefaults u) = [] <-> acceptable u.
Proof.
  rewrite ValidateConfig_nil, SetDefaults_eq. simpl. rewrite merged_ok, Nodes_SetFrom_nil.
  unfold acceptable. naive_solver.
Qed.

End Layers.

Section Decoding.
Context `{Toml} `{!MultiNodeLaws}.

(** A configuration every part of which is set, as the constructors of the
    chain dereference it. *)
Definition complete (c : TOMLConfig) : Prop :=
  ValidateConfig c = [] /\ NoDup (names (Nodes c)) /\
  is_Some (RequestTimeout c) /\ is_Some (BalancePollPeriod (BalanceMonitor c)) /\
  (exists m, TxManager c = to_manager_config m) /\ SetDefaults c = c.

Lemma SetDefaults_complete u : acceptable u -> complete (SetDefaults u).
Proof.
  intros Hu. split_and!.
  - by apply accepted_iff.
  - rewrite SetDefaults_eq. apply names_NoDup_SetFrom, NoDup_nil_2.
  - rewrite SetDefaults_eq. simpl. by destruct (RequestTimeout u).
  - rewrite SetDefaults_eq. simpl. by destruct (BalancePollPeriod _).
  - rewrite SetDefaults_eq. simpl. eauto.
  - apply SetDefaults_idempotent.
Qed.

(** What is decoded successfully, and what it gives. *)
Lemma decoded_iff rawConfig c :
  NewDecodedTOMLConfig rawConfig = inr c <->
  exists u, toml_Decode rawConfig = Ok u /\ Enabled u ≠ Some false /\ acceptable u /\
    c = SetDefaults u.
Proof.
  unfold NewDecodedTOMLConfig. destruct (toml_Decode rawConfig) as [u|e]; [|naive_solver].
  unfold IsEnabled. pose proof (accepted_iff u) as Ha.
  destruct (Enabled u) as [[]|] eqn:Eu; simpl; destruct (ValidateConfig (SetDefaults u)); naive_solver.
Qed.

(** Property C25: decoding a chain's configuration answers on every input.  A text
    the decoder refuses, a disabled chain and an unacceptable configuration are
    each refused with their own error; everything else is returned completed:
    valid, every pointer set, at most one node per name, and completing it again
    changes nothing. *)
Theorem NewDecodedTOMLConfig_spec rawConfig :
  match NewDecodedTOMLConfig rawConfig with
  | inl (DecodeFailed e) => toml_Decode rawConfig = Err e
  | inl (ConfigDisabled id) =>
      exists u, toml_Decode rawConfig = Ok u /\ Enabled u = Some false /\ id = ChainID u
  | inl (ConfigInvalid errs) =>
      exists u, toml_Decode rawConfig = Ok u /\ Enabled u ≠ Some false /\ ~ acceptable u /\
        errs = ValidateConfig (SetDefaults u) /\ errs ≠ []
  | inr c =>
      exists u, toml_Decode rawConfig = Ok u /\ Enabled u ≠ Some false /\ acceptable u /\
        c = SetDefaults u /\ complete c
  end.
Proof.
  destruct (NewDecodedTOMLConfig rawConfig) as [e|c] eqn:E.
  - unfold NewDecodedTOMLConfig in E. destruct (toml_Decode rawConfig) as [u|?]; [|by simplify_eq/=].
    unfold IsEnabled in E. pose proof (accepted_iff u) as Ha.
    destruct (Enabled u) as [[]|] eqn:Eu; simplify_eq/=; [|by exists u|];
      destruct (ValidateConfig (SetDefaults u)) eqn:Ev; simplify_eq; exists u; naive_solver.
  - apply decoded_iff in E as (u & ? & ? & ? & ->). exists u.
    split_and!; [done..|]. by apply SetDefaults_complete.
Qed.

End Decoding.
