(* ===== verification/Chain.v ===== *)
(** * The chain service and its node pool

    Models relayer/chain/chain.go, relayer/chain/multinode_client.go and
    relayer/chain/limited_transport.go (with its duplicate
    deployment/rpclimit/rpclimit.go), and the factory of
    relayer/cmd/chainlink-stellar/main.go that builds a chain from the TOML text
    a node passes.  The proofs are in ChainProofs.v.

    Parameters: what the metrics constructors, the passphrase lookup, the balance
    monitor, the config emitter and the node pool answer.  Loggers, the start
    and stop of the services and the gRPC plumbing are not modelled. *)

From stdpp Require Import pretty.
From S2P Require Import Prelude GoBytes GoFloat Config Sdk TxmState RelayerConfig.

(** [chainsel.StellarChain]. *)
Record StellarChain := mkStellarChain {
  sc_ChainID : string;
  sc_Name : string;
  sc_NetworkType : string
}.

(** The arguments of one [multinode.NewNode] that vary between nodes, with those
    of its [NewMultiNodeClient]. *)
Record Primary := mkPrimary {
  pr_url : string;
  pr_requestTimeout : Z;
  pr_name : string;
  pr_id : Z;
  pr_order : Z
}.

(** The framework and the chain selectors. *)
Class ChainSdk := {
  NewGenericMultiNodeMetrics : string -> string -> res unit;
  NewRPCClientMetrics : string -> string -> res unit;
  StellarPassphraseFromChainId : string -> res string;
  (** poll period *)
  NewGenericBalanceMonitor : Z -> res unit;
  (** [chainsel.StellarALL]. *)
  StellarALL : list StellarChain
}.

(** [chain.Opts]: whether the logger and the keystore are there. *)
Record Opts := mkOpts { has_Logger : bool; has_KeyStore : bool }.

Definition Opts_Validate (o : Opts) : res unit :=
  if negb (has_Logger o) then Err (ErrorString "logger is required")
  else if negb (has_KeyStore o) then Err (ErrorString "keystore is required")
  else Ok tt.

Record BalanceMonitorOpts := mkBalanceMonitorOpts {
  bm_ChainFamilyName : string;
  bm_ChainID : string;
  bm_NetworkName : string;
  bm_NetworkNameFull : string;
  bm_PollPeriod : Z;
  bm_Timeout : Z
}.

(** [config.ChainFamilyName]. *)
Definition ChainFamilyName : string := "stellar".

Section Chain.
Context `{ConfigSdk} `{ChainSdk} `{Sdk}.

(** [chain], once built: the pool by its primaries, the balance monitor by its
    options, the manager by its state. *)
Record chain := mkChain {
  chainInfo : StellarChain;
  cfg : TOMLConfig;
  ch_txm : StellarTxm * Txm;
  multiNode : list Primary;
  balanceMonitor : BalanceMonitorOpts
}.

(** One node of the loop of [newMultiNode]. *)
Definition newPrimary (c : TOMLConfig) (i : nat) (node : Node) : outcome Primary :=
  url ← deref (URL node);
  timeout ← deref (RequestTimeout c);
  let order := default 0 (Order node) in
  name ← deref (Name node);
  mret (mkPrimary url timeout name (Z.of_nat i) order).

Definition newMultiNode (c : TOMLConfig) : outcome (list Primary) :=
  _ ← out_of_res (wrap_err "failed to create multinode metrics: "
                    (NewGenericMultiNodeMetrics ChainFamilyName (ChainID c)));
  _ ← out_of_res (wrap_err "failed to create rpc client metrics: "
                    (NewRPCClientMetrics ChainFamilyName (ChainID c)));
  mapM_out (fun p => newPrimary c p.1 p.2) (imap pair (Nodes c)).

Definition NewBalanceMonitor (o : BalanceMonitorOpts) : res unit :=
  if bm_Timeout o <=? 0 then Err (ErrorString "balance monitor timeout must be positive")
  else NewGenericBalanceMonitor (bm_PollPeriod o).

Definition NewChain (c : TOMLConfig) (opts : Opts) (info : StellarChain) : outcome chain :=
  if negb (IsEnabled c) then Errs (ErrorString "cannot create new chain: chain is disabled") else
  _ ← out_of_res (wrap_err "invalid ChainOpts: " (Opts_Validate opts));
  match ValidateConfig c with
  | _ :: _ => Errs (Wrapf "invalid Stellar config: " (ErrorString "validation"))
  | [] =>
      mn ← wrap_out "failed to create multinode pool: " (newMultiNode c);
      t ← out_of_res (wrap_err "failed to create txm: "
            (New docs_defaults (TxManager c) (StellarPassphraseFromChainId (sc_ChainID info))));
      period ← deref (BalancePollPeriod (BalanceMonitor c));
      timeout ← deref (RequestTimeout c);
      let bm := mkBalanceMonitorOpts ChainFamilyName (sc_ChainID info) (sc_NetworkType info)
                  (sc_Name info) period timeout in
      _ ← out_of_res (wrap_err "failed to create balance monitor: " (NewBalanceMonitor bm));
      mret (mkChain info c t mn bm)
  end.

(** ** Status of the nodes *)

Record NodeStatus := mkNodeStatus {
  ns_ChainID : string;
  ns_Name : string;
  ns_Config : string;
  ns_State : string
}.

Context `{!Toml}.

(** One iteration of the loop of [listNodeStatuses]; [states] is the pool's. *)
Definition node_status (ch : chain) (states : gmap string string) (node : Node)
    : outcome NodeStatus :=
  nodeConfig ← out_of_res (toml_MarshalNode node);
  name ← deref (Name node);
  mret (mkNodeStatus (sc_ChainID (chainInfo ch)) name nodeConfig
          (default "Unknown"%string (states !! name))).

(** The statuses of the nodes [start, end), or an error, with the total; a slice
    with a negative or a reversed bound panics. *)
Definition listNodeStatuses (ch : chain) (states : gmap string string) (start stop : Z)
    : outcome (res (list NodeStatus) * Z) :=
  let nodes := Nodes (cfg ch) in
  let total := Z.of_nat (length nodes) in
  if total <=? start then Returns (Err (ErrorString "out of range"), total) else
  let stop := if total <? stop then total else stop in
  if (start <? 0) || (stop <? start) then Panics else
  match mapM_out (node_status ch states)
          (take (Z.to_nat (stop - start)) (drop (Z.to_nat start) nodes)) with
  | Returns stats => Returns (Ok stats, total)
  | Errs e => Returns (Err e, -1)
  | Panics => Panics
  end.

(** ** Chain information *)

Record ChainInfo := mkChainInfo {
  ci_FamilyName : string;
  ci_ChainID : string;
  ci_NetworkName : string;
  ci_NetworkNameFull : string
}.

Definition GetChainInfo (ch : chain) : ChainInfo :=
  mkChainInfo ChainFamilyName (sc_ChainID (chainInfo ch)) (sc_NetworkType (chainInfo ch))
    (sc_Name (chainInfo ch)).

Definition GetChainStatus (ch : chain) : res (string * bool * string) :=
  tomlStr ← TOMLString (cfg ch);
  mret (sc_ChainID (chainInfo ch), IsEnabled (cfg ch), tomlStr).

End Chain.

(** ** Heads *)

(** The fields of [GetLatestLedgerResponse] the chain reads: a uint32 and an
    int64. *)
Record LatestLedger := mkLatestLedger {
  ll_Hash : string;
  ll_Sequence : Z;
  ll_LedgerCloseTime : Z
}.

(** [types.Head]. *)
Record ChainHead := mkChainHead {
  Height : string;
  Hash : bytes;
  Timestamp : Z
}.

(** [client] is the answer of the pool, and [ledger] that of the client. *)
Definition LatestHead (client : res unit) (ledger : res LatestLedger) : res ChainHead :=
  _ ← client;
  l ← ledger;
  hash ← wrap_err "failed to decode ledger hash: " (hex_DecodeString (ll_Hash l));
  mret (mkChainHead (pretty (i64 (ll_Sequence l))) hash (u64 (ll_LedgerCloseTime l))).

Definition FinalizedHead (client : res unit) (ledger : res LatestLedger) : res ChainHead :=
  LatestHead client ledger.

(** [chain.Head], through its pointer. *)
Record Head := mkHead { Sequence : Z }.

Definition IsValid (h : option Head) : bool :=
  match h with None => false | Some h => Sequence h >? 0 end.

Definition BlockNumber (h : option Head) : Z :=
  if negb (IsValid h) then 0 else match h with None => 0 | Some h => i64 (Sequence h) end.

Definition latestBlock (ledger : res LatestLedger) : res Head :=
  l ← ledger; mret (mkHead (ll_Sequence l)).

Definition latestFinalizedBlock (ledger : res LatestLedger) : res Head := latestBlock ledger.

(** ** Probes of a node *)

Definition healthStatusHealthy : string := "healthy".

(** [health] is the status [GetHealth] reports. *)
Definition Dial (health : res string) : res unit :=
  status ← wrap_err "stellar rpc dial/health check failed: " health;
  if decide (status = healthStatusHealthy) then Ok tt
  else Err (ErrorString "stellar rpc dial/health check returned non-healthy status").

(** [network.ID] is the hash of the passphrase, which [GetNetwork] reports. *)
Definition MultiNodeClient_ChainID `{Sdk} (passphrase : res string) : res string :=
  p ← wrap_err "failed to get network: " passphrase;
  mret (hex_EncodeToString (sha256 (string_bytes p))).

Definition ClientVersion (version : res string) : res string := version.

Definition IsSyncing : res bool := Ok false.

(** ** The capped transport *)

(** What [io.ReadAll] of a body answers. *)
Inductive body_result :=
| BodyRead (data : bytes)
| BodyFailed (e : error)
| MaxBytesError (limit : Z).

(** A response: its declared length ([-1] when unknown), the chunks its body
    yields and the error that ends it, if any. *)
Record Response := mkResponse {
  ContentLength : Z;
  Chunks : list bytes;
  Broken : option error
}.

(** Reading a body to its end. *)
Definition ReadAll (r : Response) : body_result :=
  match Broken r with None => BodyRead (concat (Chunks r)) | Some e => BodyFailed e end.

(** [http.MaxBytesReader] read to its end: [n] bytes are still allowed, none for
    a negative limit; the chunk that exceeds them ends the body with the limit's
    error. *)
Fixpoint ReadAll_max (limit n : Z) (cs : list bytes) (broken : option error) (acc : bytes)
    : body_result :=
  match cs with
  | [] => match broken with None => BodyRead acc | Some e => BodyFailed e end
  | c :: cs' =>
      if Z.of_nat (length c) <=? n
      then ReadAll_max limit (n - Z.of_nat (length c)) cs' broken (acc ++ c)
      else MaxBytesError limit
  end.

Definition maxRPCResponseBytes : Z := Z.shiftl 32 20.

(** [limitedTransport.RoundTrip] followed by a read of the whole body, as the
    SDK's client does; [base] is the answer of the wrapped transport. *)
Definition RoundTrip (max : Z) (base : res Response) : body_result :=
  match base with
  | Err e => BodyFailed e
  | Ok resp =>
      if max <? ContentLength resp then MaxBytesError max
      else ReadAll_max max (Z.max 0 max) (Chunks resp) (Broken resp) []
  end.

(** ** The plugin's factory *)

Section Plugin.
Context `{Toml} `{ChainSdk} `{Sdk}.

(** The loop over [chainsel.StellarALL]: the last chain of that id, else the
    zero value. *)
Definition find_chain (id : string) : StellarChain :=
  fold_left (fun acc sc => if decide (sc_ChainID sc = id) then sc else acc) StellarALL
    (mkStellarChain "" "" "").

(** The URLs the config emitter reports. *)
Definition rawNodes (c : TOMLConfig) : list string := omap URL (Nodes c).

(** [pluginRelayer.NewRelayer]; [emitter_Start] answers for the emitter built
    from the chain id and the URLs. *)
Definition NewRelayer (emitter_Start : string -> list string -> res unit) (has_keystore : bool)
    (rawConfig : string) : outcome chain :=
  match NewDecodedTOMLConfig rawConfig with
  | inl _ => Errs (Wrapf "failed to read Stellar config: " (ErrorString "decode"))
  | inr c =>
      _ ← out_of_res (wrap_err "failed to start config emitter: "
                        (emitter_Start (ChainID c) (rawNodes c)));
      wrap_out "failed to create Stellar chain: "
        (NewChain c (mkOpts true has_keystore) (find_chain (ChainID c)))
  end.

End Plugin.
