(* ===== verification/ChainProofs.v ===== *)
(** * From a node's TOML to a running chain

    Proofs about Chain.v: the factory and the constructors compose without a nil
    dereference because [NewDecodedTOMLConfig] completes what it returns; the
    pages of node statuses; the cap on response bodies. *)

From S2P Require Import Prelude GoBytes GoFloat Config Sdk TxmState RelayerConfig Chain.

Lemma mapM_out_total {A B} (f : A -> outcome B) (g : A -> B) l :
  (forall a, a ∈ l -> f a = Returns (g a)) -> mapM_out f l = Returns (g <$> l).
Proof.
  intros Hf. apply mapM_out_Forall2. rewrite Forall2_fmap_r. apply Forall_Forall2_diag.
  by apply list.Forall_forall.
Qed.

Section Construction.
Context `{Toml} `{!MultiNodeLaws} `{ChainSdk} `{Sdk}.

(** The primary a node of a configuration becomes. *)
Definition primary_of (timeout : Z) (i : nat) (n : Node) : Primary :=
  mkPrimary (default ""%string (URL n)) timeout (default ""%string (Name n)) (Z.of_nat i)
    (default 0 (Order n)).

Lemma newPrimary_ok c timeout i n :
  RequestTimeout c = Some timeout -> node_ok n -> newPrimary c i n = Returns (primary_of timeout i n).
Proof.
  intros Ht [(x & Hx & _) [u Hu]]. unfold newPrimary, primary_of. by rewrite Hu, Ht, Hx.
Qed.

Lemma primaries_ok c timeout :
  RequestTimeout c = Some timeout -> Forall node_ok (Nodes c) ->
  mapM_out (fun p => newPrimary c p.1 p.2) (imap pair (Nodes c)) =
    Returns (imap (primary_of timeout) (Nodes c)).
Proof.
  intros Ht Hok. rewrite (mapM_out_total _ (fun p => primary_of timeout p.1 p.2)).
  - f_equal. by rewrite fmap_imap.
  - intros [i n] Hi. apply elem_of_lookup_imap in Hi as (j & m & [= -> ->] & Hm).
    apply newPrimary_ok; [done|]. rewrite list.Forall_forall in Hok. eapply Hok, list_elem_of_lookup_2, Hm.
Qed.

(** What the constructor of a chain needs from outside. *)
Definition outside_ok (id : string) (info : StellarChain) (timeout period : Z) : Prop :=
  is_ok (NewGenericMultiNodeMetrics ChainFamilyName id) = true /\
  is_ok (NewRPCClientMetrics ChainFamilyName id) = true /\
  is_ok (StellarPassphraseFromChainId (sc_ChainID info)) = true /\
  0 < timeout /\
  is_ok (NewGenericBalanceMonitor period) = true.

(** [NewChain] on a completed, enabled configuration. *)
Lemma NewChain_complete c info timeout period :
  complete c -> IsEnabled c = true -> RequestTimeout c = Some timeout ->
  BalancePollPeriod (BalanceMonitor c) = Some period ->
  match NewChain c (mkOpts true true) info with
  | Returns ch =>
      outside_ok (ChainID c) info timeout period /\
      chainInfo ch = info /\ cfg ch = c /\
      multiNode ch = imap (primary_of timeout) (Nodes c) /\
      config (ch_txm ch).1 = Resolve docs_defaults (TxManager c)
  | Errs _ => ~ outside_ok (ChainID c) info timeout period
  | Panics => False
  end.
Proof.
  intros (Hv & _ & _ & _ & _ & _) He Ht Hp.
  unfold NewChain, newMultiNode, outside_ok. rewrite He, Hv; simpl.
  destruct (NewGenericMultiNodeMetrics _ _); simpl; [|naive_solver].
  destruct (NewRPCClientMetrics _ _); simpl; [|naive_solver].
  rewrite (primaries_ok c timeout Ht) by (by apply ValidateConfig_nil in Hv as (_ & _ & ?)).
  simpl. unfold New. destruct (StellarPassphraseFromChainId _); simpl; [|naive_solver].
  rewrite Hp; simpl. rewrite Ht; simpl. unfold NewBalanceMonitor; simpl.
  destruct (timeout <=? 0) eqn:Et; zbool; simpl; [intros (_ & _ & _ & ? & _); lia|].
  destruct (NewGenericBalanceMonitor _); simpl; [|naive_solver]. naive_solver.
Qed.

Lemma fold_chain_id id l z :
  sc_ChainID (fold_left (fun acc sc => if decide (sc_ChainID sc = id) then sc else acc) l z) =
    if decide (id ∈ sc_ChainID <$> l) then id else sc_ChainID z.
Proof.
  revert z; induction l as [|sc l IH]; intros z; [done|].
  rewrite fmap_cons. simpl. rewrite IH. repeat case_decide; set_solver.
Qed.

(** The chain of the factory is the registered one of the configured id, if there is one. *)
Lemma find_chain_id id :
  id ∈ sc_ChainID <$> StellarALL -> sc_ChainID (find_chain id) = id.
Proof. intros Hi. unfold find_chain. rewrite fold_chain_id. by rewrite decide_True. Qed.

Lemma primary_names timeout ns :
  Forall node_ok ns -> pr_name <$> imap (primary_of timeout) ns = names ns.
Proof.
  intros Hok. rewrite fmap_imap. induction Hok as [|n ns [(x & Hx & _) _] _ IH]; [done|].
  rewrite names_cons, Hx. csimpl. rewrite Hx. simpl. f_equal. by rewrite <- IH.
Qed.

(** Property C26: the factory the node calls never dereferences a nil pointer, on any
    text.  A chain it returns is built from the user's layer completed with the
    defaults: its manager runs with the resolved table, its pool has one primary
    per distinct node name, in order, and it is the chain of the configured id.
    An acceptable configuration is refused only when a part outside the
    program refuses, or when the request timeout is not positive. *)
Theorem NewRelayer_spec emitter_Start has_keystore rawConfig :
  match NewRelayer emitter_Start has_keystore rawConfig with
  | Panics => False
  | Returns ch =>
      has_keystore = true /\
      exists u timeout, toml_Decode rawConfig = Ok u /\ Enabled u ≠ Some false /\ acceptable u /\
        cfg ch = SetDefaults u /\
        config (ch_txm ch).1 = Resolve docs_defaults (TxManager u) /\
        multiNode ch = imap (primary_of timeout) (Nodes_SetFrom [] (Nodes u)) /\
        NoDup (pr_name <$> multiNode ch) /\
        (ChainID u ∈ sc_ChainID <$> StellarALL -> sc_ChainID (chainInfo ch) = ChainID u)
  | Errs _ =>
      ~ (has_keystore = true /\
         exists u timeout period, toml_Decode rawConfig = Ok u /\ Enabled u ≠ Some false /\
           acceptable u /\
           RequestTimeout (SetDefaults u) = Some timeout /\
           BalancePollPeriod (BalanceMonitor (SetDefaults u)) = Some period /\
           is_ok (emitter_Start (ChainID u) (rawNodes (SetDefaults u))) = true /\
           outside_ok (ChainID u) (find_chain (ChainID u)) timeout period)
  end.
Proof.
  unfold NewRelayer. destruct (NewDecodedTOMLConfig rawConfig) as [e|c] eqn:E.
  { intros (_ & u & ? & ? & Hu & He & Ha & _).
    assert (NewDecodedTOMLConfig rawConfig = inr (SetDefaults u)) by (apply decoded_iff; eauto).
    congruence. }
  apply decoded_iff in E as (u & Hu & He & Ha & ->).
  pose proof (SetDefaults_complete u Ha) as Hc.
  pose proof Hc as (Hv & Hnd & [timeout Ht] & [period Hp] & _).
  assert (ChainID (SetDefaults u) = ChainID u) as Hid by by rewrite SetDefaults_eq.
  assert (IsEnabled (SetDefaults u) = true) as Hen.
  { rewrite SetDefaults_eq. unfold IsEnabled; simpl. by destruct (Enabled u) as [[]|]. }
  rewrite Hid. destruct (emitter_Start _ _) eqn:Em; cbn [wrap_err out_of_res mbind outcome_bind].
  2:{ intros (_ & u' & ? & ? & Hu' & _ & _ & _ & _ & Ho & _).
      rewrite Hu in Hu'. injection Hu' as <-. by rewrite Em in Ho. }
  destruct has_keystore; [|unfold NewChain; rewrite Hen; simpl; naive_solver].
  pose proof (NewChain_complete _ (find_chain (ChainID u)) _ _ Hc Hen Ht Hp) as Hn. rewrite Hid in Hn.
  destruct (NewChain _ _ _) as [ch|e|]; cbn [wrap_out]; [| |done].
  2:{ intros (_ & u' & t' & p' & Hu' & _ & _ & Ht' & Hp' & _ & Ho). apply Hn.
      rewrite Hu in Hu'. injection Hu' as <-.
      rewrite Ht in Ht'. injection Ht' as ->. rewrite Hp in Hp'. injection Hp' as ->. exact Ho. }
  destruct Hn as (Ho & Hi & Hcfg & Hm & Ht'). split; [done|]. exists u, timeout.
  rewrite Hm, Hi, Ht'. split_and!; try done.
  - by rewrite SetDefaults_TxManager.
  - rewrite primary_names; [done|]. by apply ValidateConfig_nil in Hv as (_ & _ & ?).
  - apply find_chain_id.
Qed.

End Construction.

(** ** Pages of node statuses *)

Section Statuses.
Context `{Toml} `{!MultiNodeLaws} `{ChainSdk} `{Sdk}.

(** The status of a node the encoder takes. *)
Definition status_of (ch : chain) (states : gmap string string) (n : Node) : NodeStatus :=
  let name := default ""%string (Name n) in
  mkNodeStatus (sc_ChainID (chainInfo ch)) name
    (match toml_MarshalNode n with Ok s => s | Err _ => ""%string end)
    (default "Unknown"%string (states !! name)).

Lemma node_status_ok ch states n :
  node_ok n -> is_ok (toml_MarshalNode n) = true ->
  node_status ch states n = Returns (status_of ch states n).
Proof.
  intros [(x & Hx & _) _] Hm. unfold node_status, status_of.
  destruct (toml_MarshalNode n); [|done]. by rewrite Hx.
Qed.

(** On a chain whose configuration is valid, a page of node statuses is
    exactly the nodes between its bounds, in the order of the configuration, cut
    at the end; a page that starts beyond the end is refused with the total; only
    a negative start or a reversed page that starts inside panics. *)
Theorem listNodeStatuses_spec ch states start stop :
  ValidateConfig (cfg ch) = [] ->
  (forall n, n ∈ Nodes (cfg ch) -> is_ok (toml_MarshalNode n) = true) ->
  let nodes := Nodes (cfg ch) in
  let total := Z.of_nat (length nodes) in
  listNodeStatuses ch states start stop =
    if total <=? start then Returns (Err (ErrorString "out of range"), total)
    else if (start <? 0) || (stop <? start) then Panics
    else Returns (Ok (status_of ch states <$>
                        take (Z.to_nat (Z.min stop total) - Z.to_nat start)
                          (drop (Z.to_nat start) nodes)), total).
Proof.
  intros Hv Hm nodes total. apply ValidateConfig_nil in Hv as (_ & _ & Hok).
  unfold listNodeStatuses. fold nodes. fold total.
  destruct (total <=? start) eqn:E1; [done|]. zbool.
  assert (((start <? 0) || ((if total <? stop then total else stop) <? start)) =
          ((start <? 0) || (stop <? start)))%bool as ->.
  { f_equal. destruct (total <? stop) eqn:E; zbool; [|done].
    destruct (total <? start) eqn:?, (stop <? start) eqn:?; zbool; lia. }
  destruct ((start <? 0) || (stop <? start))%bool eqn:E2; [done|]. zbool.
  replace (Z.to_nat ((if total <? stop then total else stop) - start))
    with (Z.to_nat (Z.min stop total) - Z.to_nat start)%nat
    by (destruct (total <? stop) eqn:?; zbool; lia).
  rewrite (mapM_out_total _ (status_of ch states)); [done|].
  intros n Hn. assert (n ∈ nodes) as Hi.
  { apply list_elem_of_lookup_1 in Hn as [i Hi]. apply lookup_take_Some in Hi as [Hi _].
    rewrite lookup_drop in Hi. by eapply list_elem_of_lookup_2. }
  apply node_status_ok; [|by apply Hm]. by eapply (proj1 (list.Forall_forall _ _)).
Qed.

End Statuses.

(** ** The cap on responses *)

Lemma ReadAll_max_spec limit n cs broken acc :
  0 <= n ->
  ReadAll_max limit n cs broken acc =
    if n <? Z.of_nat (length (concat cs)) then MaxBytesError limit
    else match broken with None => BodyRead (acc ++ concat cs) | Some e => BodyFailed e end.
Proof.
  revert n acc; induction cs as [|c cs IH]; intros n acc Hn; cbn [ReadAll_max concat].
  - destruct (_ <? _) eqn:E; zbool; simpl in *; [lia|]. by rewrite app_nil_r.
  - rewrite length_app. destruct (Z.of_nat (length c) <=? n) eqn:E; zbool.
    + rewrite IH by lia. rewrite <- app_assoc.
      destruct (_ <? _) eqn:E1, (n <? _) eqn:E2; zbool; try done; lia.
    + destruct (n <? _) eqn:E2; zbool; [done|lia].
Qed.

(** The capped client reads exactly what the uncapped one would,
    unless the declared or the delivered size exceeds the cap; then the caller
    gets the limit's error, and never a truncated body. *)
Theorem RoundTrip_spec max base :
  RoundTrip max base =
    match base with
    | Err e => BodyFailed e
    | Ok resp =>
        if (max <? ContentLength resp) || (Z.max 0 max <? Z.of_nat (length (concat (Chunks resp))))
        then MaxBytesError max else ReadAll resp
    end.
Proof.
  unfold RoundTrip, ReadAll. destruct base as [resp|]; [|done].
  destruct (max <? ContentLength resp); simpl; [done|]. rewrite ReadAll_max_spec by lia.
  by destruct (_ <? _).
Qed.

(** ** Heads *)

(** The finalized head of a node is its latest one, and block numbers are the
    ledger sequences, never negative. *)
Lemma heads_final ledger client :
  latestFinalizedBlock ledger = latestBlock ledger /\
  FinalizedHead client ledger = LatestHead client ledger /\
  forall h, latestBlock ledger = Ok h -> is_u32 (Sequence h) ->
    BlockNumber (Some h) = Sequence h /\ (IsValid (Some h) = true <-> Sequence h ≠ 0).
Proof.
  split_and!; [done..|]. intros h _ Hr. unfold BlockNumber. simpl.
  destruct (Sequence h >? 0) eqn:E; zbool; simpl.
  - rewrite i64_id by goint. split; [done|]. split; [lia|done].
  - split; [goint|]. split; [done|goint].
Qed.
