(* ===== verification/DemoChain.v ===== *)
(** * A concrete relayer configuration

    Instances of the parameters of RelayerConfig.v and Chain.v, and the
    theorems about configurations and chains at concrete inputs: a text with two
    nodes, one with a repeated name, a disabled chain, and refused ones. *)

From S2P Require Import Prelude GoBytes GoFloat Config Sdk TxmState Demo RelayerConfig Chain ChainProofs.

(** The multinode table by its selection mode. *)
#[export] Instance demo_config_sdk : ConfigSdk := {|
  MultiNodeConfig := option string;
  MultiNode_zero := None;
  MultiNode_SetFrom := override;
  docs_MultiNode := Some "HighestHead"%string;
  STELLAR_MAINNET_ChainID := "7ac33997544e3175d266bd022439b22cdb16508c01163f26e5cb2a3e1045a979";
  STELLAR_TESTNET_ChainID := "cee0302d59844d32bdca915c8203dd44b33fbb7edc19051ea37abedf28ecd472";
  STELLAR_LOCALNET_ChainID := "baefd734b8d3e48472cff83912375fedbc7573701912fe308af730180f97d74a"
|}.

#[export] Instance demo_multinode_laws : MultiNodeLaws := override_overlay.

Definition testnet : string := STELLAR_TESTNET_ChainID.

Definition demo_user (id : string) (nodes : list Node) (enabled : option bool) : TOMLConfig :=
  mkTOMLConfig enabled id nodes TxManagerConfig_zero (mkBalanceMonitorConfig None)
    (Some "RoundRobin"%string) None.

Definition primary : Node := mkNode (Some "primary"%string) (Some "http://localhost:8000"%string) None.
Definition secondary : Node :=
  mkNode (Some "secondary"%string) (Some "http://localhost:8001"%string) (Some 2).
Definition primary_again : Node :=
  mkNode (Some "primary"%string) (Some "http://localhost:9000"%string) None.

#[export] Instance demo_toml : Toml := {|
  toml_Decode s :=
    if decide (s = "two nodes")%string then Ok (demo_user testnet [primary; secondary] None)
    else if decide (s = "repeated name")%string
    then Ok (demo_user testnet [primary; secondary; primary_again] None)
    else if decide (s = "disabled")%string then Ok (demo_user testnet [primary] (Some false))
    else if decide (s = "docs")%string then Ok (demo_user "stellar-testnet" [primary] None)
    else if decide (s = "unnamed")%string
    then Ok (demo_user testnet [primary; mkNode None (Some "http://x"%string) None] None)
    else Err (ErrorString "toml: syntax");
  toml_Marshal c := Ok (ChainID c);
  toml_MarshalNode n := Ok (default ""%string (Name n))
|}.

#[export] Instance demo_chain_sdk : ChainSdk := {|
  NewGenericMultiNodeMetrics _ _ := Ok tt;
  NewRPCClientMetrics _ _ := Ok tt;
  StellarPassphraseFromChainId id :=
    if decide (id = testnet) then Ok "Test SDF Network ; September 2015"%string
    else Err (ErrorString "unknown chain");
  NewGenericBalanceMonitor _ := Ok tt;
  StellarALL := [mkStellarChain testnet "stellar-testnet" "testnet"]
|}.

(** ** What the code does on these texts *)

(** A name repeated in one text is not refused: its entries become one node, and
    the last URL wins. *)
Lemma repeated_name_merged :
  match NewDecodedTOMLConfig "repeated name" with
  | inr c => URL <$> Nodes c = [Some "http://localhost:9000"%string; Some "http://localhost:8001"%string]
  | inl _ => False
  end.
Proof. vm_compute. reflexivity. Qed.

(** The chain id docs.toml gives as its example is refused: the accepted ids are
    hashes of the network passphrases. *)
Lemma docs_chain_id_refused :
  NewDecodedTOMLConfig "docs" = inl (ConfigInvalid [ErrInvalidChainID "stellar-testnet"]).
Proof. vm_compute. reflexivity. Qed.

Lemma other_refusals :
  NewDecodedTOMLConfig "disabled" = inl (ConfigDisabled testnet) /\
  NewDecodedTOMLConfig "unnamed" = inl (ConfigInvalid [ErrMissing "Name"]) /\
  NewDecodedTOMLConfig "?" = inl (DecodeFailed (ErrorString "toml: syntax")).
Proof. split_and!; vm_compute; reflexivity. Qed.

(** A valid configuration that was not completed makes the constructor panic. *)
Lemma NewChain_uncompleted :
  ValidateConfig (demo_user testnet [primary] None) = [] /\
  match NewChain (demo_user testnet [primary] None) (mkOpts true true) (find_chain testnet) with
  | Panics => True
  | _ => False
  end.
Proof. split; [vm_compute; reflexivity|vm_compute; exact I]. Qed.

(** ** Witnesses *)

Lemma NewDecodedTOMLConfig_spec_witness :
  (match NewDecodedTOMLConfig "two nodes" with
   | inr c => names (Nodes c) = ["primary"; "secondary"]%string
   | inl _ => False
   end) /\
  match NewDecodedTOMLConfig "docs" with
  | inl (ConfigInvalid errs) =>
      exists u, toml_Decode "docs" = Ok u /\ Enabled u ≠ Some false /\ ~ acceptable u /\
        errs = ValidateConfig (SetDefaults u) /\ errs ≠ []
  | _ => False
  end.
Proof.
  split; [vm_compute; reflexivity|].
  pose proof (NewDecodedTOMLConfig_spec "docs") as Hw. rewrite docs_chain_id_refused in Hw |- *.
  exact Hw.
Defined.

Lemma TOMLConfig_SetFrom_assoc_witness :
  let a := demo_user testnet [primary] None in
  let b := demo_user "" [primary_again; secondary] (Some true) in
  let c := demo_user "" [mkNode (Some "secondary"%string) None (Some 7)] None in
  NoDup (names (Nodes b)) /\
  TOMLConfig_SetFrom a (TOMLConfig_SetFrom b c) = TOMLConfig_SetFrom (TOMLConfig_SetFrom a b) c.
Proof.
  intros a b c. assert (NoDup (names (Nodes b))) as Hnd by (apply (bool_decide_unpack _); vm_compute; exact I).
  split; [exact Hnd|]. exact (TOMLConfig_SetFrom_assoc a b c Hnd).
Defined.

Lemma NewRelayer_spec_witness :
  match NewRelayer (fun _ _ => Ok tt) true "repeated name" with
  | Returns ch =>
      pr_url <$> multiNode ch = ["http://localhost:9000"; "http://localhost:8001"]%string /\
      NoDup (pr_name <$> multiNode ch)
  | _ => False
  end.
Proof.
  pose proof (NewRelayer_spec (fun _ _ => Ok tt) true "repeated name") as Hw.
  assert (match NewRelayer (fun _ _ => Ok tt) true "repeated name" with
          | Returns ch => pr_url <$> multiNode ch = ["http://localhost:9000"; "http://localhost:8001"]%string
          | _ => False end) as Hu by (vm_compute; reflexivity).
  destruct (NewRelayer (fun _ _ => Ok tt) true "repeated name") as [ch|e|]; [|destruct Hu|destruct Hu].
  split; [exact Hu|]. destruct Hw as (_ & u & t & _ & _ & _ & _ & _ & _ & Hn & _). exact Hn.
Defined.

(** A built chain of two nodes, one of them known to the pool. *)
Definition demo_chain : chain :=
  mkChain (find_chain testnet) (SetDefaults (demo_user testnet [primary; secondary] None))
    (demo_txm_static, demo_state) [] (mkBalanceMonitorOpts "" "" "" "" 1 1).

Definition demo_states : gmap string string := {["secondary"%string := "Alive"%string]}.

Lemma listNodeStatuses_spec_witness :
  listNodeStatuses demo_chain demo_states 1 9 =
    Returns (Ok [mkNodeStatus testnet "secondary" "secondary" "Alive"], 2).
Proof.
  assert (ValidateConfig (cfg demo_chain) = []) as Hv by (vm_compute; reflexivity).
  pose proof (listNodeStatuses_spec demo_chain demo_states 1 9 Hv (fun _ _ => eq_refl)) as Hw.
  rewrite Hw. vm_compute. reflexivity.
Defined.
