(* ===== verification/Lanes.v ===== *)
(** * Configuration of the lanes of a chain: requests and pure parts

    Models the part of deployment/sequences/configure_stellar_lanes.go that makes
    no request, the binding structures it fills, and the operations of
    deployment/operations it executes.  LaneSequence.v has the sequence itself.

    A request is one read or write of a contract, answered by the contract's
    value or by an error; [read_optional] is the operations' reading of an
    error code as "not configured".  Parameters: the committee verifier's
    datastore type and go-ethereum's hexadecimal addresses. *)

From stdpp Require Import pretty.
From S2P Require Import Prelude Sdk GoBytes Xdr Scval Interaction.

(** ** Binding structures *)

Module OffRamp.

Record SourceChainConfig := mkSourceChainConfig {
  DefaultCcvs : list string;
  IsEnabled : bool;
  LaneMandatedCcvs : list string;
  OnRamps : list bytes;
  Router : string
}.

Record SourceChainConfigArgs := mkSourceChainConfigArgs {
  a_SourceChainSelector : Z;
  a_config : SourceChainConfig
}.

End OffRamp.

Module OnRamp.

(** The fields of [DestChainConfigArgs] other than the selector. *)
Record DestChain := mkDestChain {
  AddressBytesLength : Z;
  BaseExecutionGasCost : Z;
  DefaultCcvs : list string;
  DefaultExecutor : string;
  ExecutionFeeUsdCents : Z;
  LaneMandatedCcvs : list string;
  MessageNetworkFeeUsdCents : Z;
  d_OffRamp : bytes;
  Router : string;
  TokenNetworkFeeUsdCents : Z;
  TokenReceiverAllowed : bool
}.

(** [DestChainConfig]: the same, with the message number. *)
Record DestChainConfig := mkDestChainConfig { MessageNumber : Z; c_dest : DestChain }.

Record DestChainConfigArgs := mkDestChainConfigArgs {
  a_DestChainSelector : Z;
  a_dest : DestChain
}.

End OnRamp.

Module Executor.

Record RemoteChainConfig := mkRemoteChainConfig { Enabled : bool; UsdCentsFee : Z }.

#[global] Instance RemoteChainConfig_eq_dec : EqDecision RemoteChainConfig.
Proof. solve_decision. Defined.

Record RemoteChainConfigArgs := mkRemoteChainConfigArgs {
  a_DestChainSelector : Z;
  a_Config : RemoteChainConfig
}.

End Executor.

Module FeeQuoter.

Record DestChainConfig := mkDestChainConfig {
  DefaultTokenDestGas : Z;
  DefaultTokenFeeUsd : Z;
  DefaultTxGasLimit : Z;
  DestGasOverhead : Z;
  DestGasPerPayloadByte : Z;
  IsEnabled : bool;
  LinkPremiumPercent : Z;
  MaxDataBytes : Z;
  MaxPerMsgGasLimit : Z;
  NetworkFeeUsdCents : Z
}.

#[global] Instance DestChainConfig_eq_dec : EqDecision DestChainConfig.
Proof. solve_decision. Defined.

Record DestChainConfigArgs := mkDestChainConfigArgs {
  a_DestChainSelector : Z;
  a_Config : DestChainConfig
}.

End FeeQuoter.

(** [router.OnRampEntry] and [router.OffRampEntry]: selector and contract. *)
Record RampEntry := mkRampEntry { e_ChainSelector : Z; e_Ramp : string }.

(** [committee_verifier.SignatureQuorumConfig]; a signer is 32 bytes. *)
Record SignatureQuorumConfig := mkSignatureQuorumConfig {
  q_SourceChainSelector : Z;
  q_Threshold : Z;
  q_Signers : list bytes
}.

(** ** Requests *)

Inductive lreq :=
| GetOnramp (contract : string) (dest : Z)
| GetOfframps (contract : string)
| GetSourceChainConfig (contract : string) (source : Z)
| GetOnRampDestChainConfig (contract : string) (dest : Z)
| GetExecutorDestChainConfig (contract : string) (dest : Z)
| GetFeeQuoterDestChainConfig (contract : string) (dest : Z)
| GetSignatureConfig (contract : string) (source : Z)
| GetAllowedFinalityConfig (contract : string)
| ApplySourceChainCfgUpdates (contract : string) (updates : list OffRamp.SourceChainConfigArgs)
| ApplyDestChainConfigUpdates (contract : string) (updates : list OnRamp.DestChainConfigArgs)
| ApplyDestChainUpdates (contract : string) (to_add : list Executor.RemoteChainConfigArgs)
| ApplyDestChainConfigs (contract : string) (configs : list FeeQuoter.DestChainConfigArgs)
| ApplySignatureConfigs (contract : string) (configs : list SignatureQuorumConfig)
| SetAllowedFinalityConfig (contract : string) (config : Z)
| ApplyRampUpdates (contract : string) (onramps offramps : list RampEntry).

Definition lans (r : lreq) : Type :=
  match r with
  | GetOnramp _ _ => res string
  | GetOfframps _ => res (list RampEntry)
  | GetSourceChainConfig _ _ => res OffRamp.SourceChainConfig
  | GetOnRampDestChainConfig _ _ => res OnRamp.DestChainConfig
  | GetExecutorDestChainConfig _ _ => res Executor.RemoteChainConfig
  | GetFeeQuoterDestChainConfig _ _ => res FeeQuoter.DestChainConfig
  | GetSignatureConfig _ _ => res SignatureQuorumConfig
  | GetAllowedFinalityConfig _ => res Z
  | _ => res unit
  end.

Definition is_write (r : lreq) : bool :=
  match r with
  | ApplySourceChainCfgUpdates _ _ | ApplyDestChainConfigUpdates _ _ | ApplyDestChainUpdates _ _
  | ApplyDestChainConfigs _ _ | ApplySignatureConfigs _ _ | SetAllowedFinalityConfig _ _
  | ApplyRampUpdates _ _ _ => true
  | _ => false
  end.

(** ** Contract error codes (deployment/operations/errors.go) *)

Definition DestinationChainNotEnabledCode : Z := 25.
Definition DestinationChainNotSupportedCode : Z := 37.
Definition UnsupportedDestinationChainCode : Z := 63.
Definition SourceChainNotEnabledCode : Z := 100.
Definition SourceSignersNotConfiguredCode : Z := 19.

Definition IsContractErrorCode (e : error) (code : Z) : bool :=
  Contains (Error e) ("Error(Contract, #" +:+ pretty code +:+ ")").

(** ** Input *)

Record FeeQuoterOverrides := mkFeeQuoterOverrides {
  OverrideExistingConfig : bool;
  f_IsEnabled : option bool;
  f_MaxDataBytes : option Z;
  f_MaxPerMsgGasLimit : option Z;
  f_DestGasOverhead : option Z;
  f_DestGasPerPayloadByteBase : option Z;
  f_DefaultTokenFeeUSDCents : option Z;
  f_DefaultTokenDestGasOverhead : option Z;
  f_DefaultTxGasLimit : option Z;
  f_NetworkFeeUSDCents : option Z;
  f_LinkFeeMultiplierPercent : option Z
}.

(** The fields of [ccvadapters.RemoteChainConfig] the sequence reads. *)
Record RemoteChainConfig := mkRemoteChainConfig {
  AllowTrafficFrom : option bool;
  r_OnRamps : list bytes;
  r_OffRamp : bytes;
  DefaultInboundCCVs : list string;
  LaneMandatedInboundCCVs : list string;
  DefaultOutboundCCVs : list string;
  LaneMandatedOutboundCCVs : list string;
  r_DefaultExecutor : string;
  SkipExecutorConfig : bool;
  ExecutorEnabled : bool;
  ExecutorUSDCentsFee : Z;
  FeeQuoterDestChainConfig : FeeQuoterOverrides;
  r_AddressBytesLength : Z;
  r_BaseExecutionGasCost : Z;
  r_TokenReceiverAllowed : option bool;
  r_MessageNetworkFeeUSDCents : Z;
  r_TokenNetworkFeeUSDCents : Z
}.

(** A resolved contract reference, by its type and address. *)
Record ContractRef := mkContractRef { ref_Type : string; ref_Address : string }.

Record SignatureInput := mkSignatureInput { s_Signers : list string; s_Threshold : Z }.

(** [AllowedFinalityConfig]: whether it is the zero value, and its four bytes. *)
Record CommitteeVerifierConfig := mkCommitteeVerifierConfig {
  CommitteeVerifier : list ContractRef;
  cv_RemoteChains : gmap Z SignatureInput;
  finality_IsZero : bool;
  finality_Raw : bytes
}.

Record ConfigureChainForLanesInput := mkConfigureChainForLanesInput {
  i_Router : bytes;
  i_OnRamp : bytes;
  i_OffRamp : bytes;
  i_FeeQuoter : bytes;
  RemoteChains : gmap Z RemoteChainConfig;
  AllowOnrampOverride : bool;
  AllowLoweringBaseExecutionGasCost : bool;
  CommitteeVerifiers : list CommitteeVerifierConfig
}.

(** go-ethereum's addresses (20 bytes) and the verifier's datastore type. *)
Class LaneSdk := {
  IsHexAddress : string -> bool;
  HexToAddress : string -> bytes;
  committee_verifier_ContractType : string
}.

Definition NoExecutionExecutorStrkey : string :=
  "CDV2KF6SAAAAAAAAAAAAAAAAAAAAAAAAAAAAAAAAAAAAAAAAAAAAAEJ6".

Definition ErrBaseExecutionGasCostLowered : error :=
  ErrorString "baseExecutionGasCost would be lowered".
Definition ErrZeroAddressNotAllowed : error := ErrorString "zero address not allowed".

(** ** Unordered comparison

    [unorderedStringSliceEqual], [unorderedBytesSliceEqual] and
    [unorderedSignersEqual] are this function at their types: a map of counts,
    raised by the first slice and lowered by the second. *)

Section Unordered.
Context {A : Type} `{Countable A}.

Definition bump (d : Z) (counts : gmap A Z) (x : A) : gmap A Z :=
  <[x := default 0 (counts !! x) + d]> counts.

Fixpoint lower_counts (counts : gmap A Z) (b : list A) : bool :=
  match b with
  | [] => true
  | y :: b' =>
      let counts := bump (-1) counts y in
      if default 0 (counts !! y) <? 0 then false else lower_counts counts b'
  end.

Definition unordered_equal (a b : list A) : bool :=
  if negb (Nat.eqb (length a) (length b)) then false
  else lower_counts (foldl (bump 1) ∅ a) b.

End Unordered.

Definition unorderedStringSliceEqual : list string -> list string -> bool := unordered_equal.
Definition unorderedBytesSliceEqual : list bytes -> list bytes -> bool := unordered_equal.
Definition unorderedSignersEqual : list bytes -> list bytes -> bool := unordered_equal.

(** ** Contract references *)

Section Refs.
Context `{Codec} `{LaneSdk}.

Definition localContractStrkey (s what : string) : res string :=
  if decide (s = "")%string then Err (ErrorString ("empty " +:+ what +:+ " contract reference"))
  else if String.prefix "0x" s then
    raw ← wrap_err "convert reference: " (hex_DecodeString (TrimPrefix s "0x"));
    if negb (Nat.eqb (length raw) 32) then Err (ErrorString "expected 32-byte contract ID")
    else BytesToContractStrkey raw
  else
    match strkey_Decode VersionByteContract s with
    | Ok raw => if Nat.eqb (length raw) 32 then Ok s
                else Err (ErrorString "neither 0x-hex nor a contract strkey")
    | Err _ => Err (ErrorString "neither 0x-hex nor a contract strkey")
    end.

Definition localContractStrkeys (refs : list string) (what : string) : res (list string) :=
  mapM_res (fun _ ref => localContractStrkey ref what) 0 refs.

(** The local OnRamp in its wire form or as a raw contract id. *)
Definition onRampStrkeyFromWireBytes (b : bytes) : outcome string :=
  if Nat.eqb (length b) 40 then
    raw ← ContractIDFromWireBytes b;
    out_of_res (BytesToContractStrkey raw)
  else out_of_res (BytesToContractStrkey b).

(** The first reference of the verifier's type; the others are skipped. *)
Fixpoint stellarCommitteeVerifierContractID (refs : list ContractRef) : res string :=
  match refs with
  | [] => Err (ErrorString "no CommitteeVerifier contract ref in resolved refs")
  | ref :: refs' =>
      if decide (ref_Type ref = committee_verifier_ContractType)
      then wrap_err "convert committee verifier address to strkey: "
             (HexToContractStrkey (ref_Address ref))
      else stellarCommitteeVerifierContractID refs'
  end.

End Refs.

(** The source chain's onramps, unless one is empty or all zero. *)
Fixpoint check_onRamps (onRamps : list bytes) : res unit :=
  match onRamps with
  | [] => Ok tt
  | onRamp :: rest =>
      if Nat.eqb (length onRamp) 0 then Err (Wrapf "onRamp is empty: " ErrZeroAddressNotAllowed)
      else if forallb (fun b => b =? 0) onRamp
      then Err (Wrapf "onRamp is the zero address: " ErrZeroAddressNotAllowed)
      else check_onRamps rest
  end.

Definition nonZeroSourceOnRamps (onRamps : list bytes) : res (list bytes) :=
  _ ← check_onRamps onRamps; mret onRamps.

(** [if len(desired) == 0 { desired = cur }]. *)
Definition keep_list {A} (desired cur : list A) : list A :=
  match desired with [] => cur | _ => desired end.

(** [if desired == 0 { desired = cur }]. *)
Definition keep_Z (desired cur : Z) : Z := if desired =? 0 then cur else desired.

(** ** OffRamp source chain *)

Definition SourceChainConfig_zero : OffRamp.SourceChainConfig :=
  OffRamp.mkSourceChainConfig [] false [] [] "".

Definition desired_source (routerID : string) (rc : RemoteChainConfig)
    (onRamps : list bytes) (defaultCCVs laneMandatedCCVs : list string)
    (cur : OffRamp.SourceChainConfig) : OffRamp.SourceChainConfig := {|
  OffRamp.Router := routerID;
  OffRamp.IsEnabled := match AllowTrafficFrom rc with
                       | Some b => b | None => OffRamp.IsEnabled cur end;
  OffRamp.OnRamps := keep_list onRamps (OffRamp.OnRamps cur);
  OffRamp.DefaultCcvs := keep_list defaultCCVs (OffRamp.DefaultCcvs cur);
  OffRamp.LaneMandatedCcvs := keep_list laneMandatedCCVs (OffRamp.LaneMandatedCcvs cur)
|}.

Definition source_differs (cur desired : OffRamp.SourceChainConfig) : bool :=
  negb (eqb (OffRamp.IsEnabled cur) (OffRamp.IsEnabled desired)) ||
  negb (bool_decide (OffRamp.Router cur = OffRamp.Router desired)) ||
  negb (unorderedBytesSliceEqual (OffRamp.OnRamps cur) (OffRamp.OnRamps desired)) ||
  negb (unorderedStringSliceEqual (OffRamp.DefaultCcvs cur) (OffRamp.DefaultCcvs desired)) ||
  negb (unorderedStringSliceEqual (OffRamp.LaneMandatedCcvs cur) (OffRamp.LaneMandatedCcvs desired)).

(** ** OnRamp destination chain *)

Definition DestChain_zero : OnRamp.DestChain :=
  OnRamp.mkDestChain 0 0 [] "" 0 [] 0 [] "" 0 false.

Definition desired_dest (routerID : string) (rc : RemoteChainConfig)
    (outbound laneMandated : list string) (executor : string)
    (cur : OnRamp.DestChain) : OnRamp.DestChain := {|
  OnRamp.Router := routerID;
  OnRamp.AddressBytesLength :=
    keep_Z (u32 (r_AddressBytesLength rc)) (OnRamp.AddressBytesLength cur);
  OnRamp.BaseExecutionGasCost :=
    keep_Z (r_BaseExecutionGasCost rc) (OnRamp.BaseExecutionGasCost cur);
  OnRamp.MessageNetworkFeeUsdCents :=
    keep_Z (u32 (r_MessageNetworkFeeUSDCents rc)) (OnRamp.MessageNetworkFeeUsdCents cur);
  OnRamp.TokenNetworkFeeUsdCents :=
    keep_Z (u32 (r_TokenNetworkFeeUSDCents rc)) (OnRamp.TokenNetworkFeeUsdCents cur);
  OnRamp.ExecutionFeeUsdCents :=
    keep_Z (u32 (ExecutorUSDCentsFee rc)) (OnRamp.ExecutionFeeUsdCents cur);
  OnRamp.DefaultCcvs := keep_list outbound (OnRamp.DefaultCcvs cur);
  OnRamp.LaneMandatedCcvs := keep_list laneMandated (OnRamp.LaneMandatedCcvs cur);
  OnRamp.DefaultExecutor := executor;
  OnRamp.d_OffRamp := r_OffRamp rc;
  OnRamp.TokenReceiverAllowed :=
    match r_TokenReceiverAllowed rc with
    | Some b => b | None => OnRamp.TokenReceiverAllowed cur end
|}.

Definition onRampDestChainConfigDiffers (cur desired : OnRamp.DestChain) : bool :=
  negb (bool_decide (OnRamp.Router cur = OnRamp.Router desired)) ||
  negb (OnRamp.AddressBytesLength cur =? OnRamp.AddressBytesLength desired) ||
  negb (OnRamp.BaseExecutionGasCost cur =? OnRamp.BaseExecutionGasCost desired) ||
  negb (OnRamp.MessageNetworkFeeUsdCents cur =? OnRamp.MessageNetworkFeeUsdCents desired) ||
  negb (OnRamp.TokenNetworkFeeUsdCents cur =? OnRamp.TokenNetworkFeeUsdCents desired) ||
  negb (OnRamp.ExecutionFeeUsdCents cur =? OnRamp.ExecutionFeeUsdCents desired) ||
  negb (bool_decide (OnRamp.DefaultExecutor cur = OnRamp.DefaultExecutor desired)) ||
  negb (eqb (OnRamp.TokenReceiverAllowed cur) (OnRamp.TokenReceiverAllowed desired)) ||
  negb (bool_decide (OnRamp.d_OffRamp cur = OnRamp.d_OffRamp desired)) ||
  negb (unorderedStringSliceEqual (OnRamp.DefaultCcvs cur) (OnRamp.DefaultCcvs desired)) ||
  negb (unorderedStringSliceEqual (OnRamp.LaneMandatedCcvs cur) (OnRamp.LaneMandatedCcvs desired)).

(** ** FeeQuoter destination chain *)

Definition u8 (x : Z) : Z := x mod 256.
Definition u16 (x : Z) : Z := x mod 65536.

Definition FeeQuoterConfig_zero : FeeQuoter.DestChainConfig :=
  FeeQuoter.mkDestChainConfig 0 0 0 0 0 false 0 0 0 0.

(** [fillFeeQuoterOverridesFromCurrent], then the conversion of the filled
    overrides into the contract's structure: an unset field takes the current
    value through the width the overrides have. *)
Definition desired_feequoter (o : FeeQuoterOverrides) (cur : FeeQuoter.DestChainConfig)
    : FeeQuoter.DestChainConfig := {|
  FeeQuoter.IsEnabled := default (FeeQuoter.IsEnabled cur) (f_IsEnabled o);
  FeeQuoter.MaxDataBytes := default (FeeQuoter.MaxDataBytes cur) (f_MaxDataBytes o);
  FeeQuoter.MaxPerMsgGasLimit := default (FeeQuoter.MaxPerMsgGasLimit cur) (f_MaxPerMsgGasLimit o);
  FeeQuoter.DestGasOverhead := default (FeeQuoter.DestGasOverhead cur) (f_DestGasOverhead o);
  FeeQuoter.DestGasPerPayloadByte :=
    u32 (default (u8 (FeeQuoter.DestGasPerPayloadByte cur)) (f_DestGasPerPayloadByteBase o));
  FeeQuoter.DefaultTokenFeeUsd :=
    u32 (default (u16 (FeeQuoter.DefaultTokenFeeUsd cur)) (f_DefaultTokenFeeUSDCents o));
  FeeQuoter.DefaultTokenDestGas :=
    default (FeeQuoter.DefaultTokenDestGas cur) (f_DefaultTokenDestGasOverhead o);
  FeeQuoter.DefaultTxGasLimit := default (FeeQuoter.DefaultTxGasLimit cur) (f_DefaultTxGasLimit o);
  FeeQuoter.NetworkFeeUsdCents :=
    u32 (default (u16 (FeeQuoter.NetworkFeeUsdCents cur)) (f_NetworkFeeUSDCents o));
  FeeQuoter.LinkPremiumPercent :=
    u32 (default (u8 (FeeQuoter.LinkPremiumPercent cur)) (f_LinkFeeMultiplierPercent o))
|}.

Definition feeQuoterDestChainConfigEqualTo (cur desired : FeeQuoter.DestChainConfig) : bool :=
  bool_decide (cur = desired).

(** ** Signature quorums *)

(** A 20-byte address in the last bytes of a 32-byte signer. *)
Definition padded (addr : bytes) : bytes := replicate 12 0 ++ addr.

(** [bytes.Compare(a, b) < 0] or equal. *)
Fixpoint bytes_le (a b : bytes) : bool :=
  match a, b with
  | [], _ => true
  | _ :: _, [] => false
  | x :: a', y :: b' => if x =? y then bytes_le a' b' else x <? y
  end.

Definition signer_le (a b : bytes) : Prop := bytes_le a b = true.
#[export] Instance signer_le_dec : RelDecision signer_le.
Proof. unfold signer_le. intros a b. apply _. Defined.

Definition sort_signers : list bytes -> list bytes := merge_sort signer_le.

Definition signers_of `{LaneSdk} (l : list string) : res (list bytes) :=
  signers ← mapM_res (fun _ s =>
      if negb (IsHexAddress s) then Err (ErrorString "invalid signer address for source chain")
      else Ok (padded (HexToAddress s))) 0 l;
  mret (sort_signers signers).

(** The selectors of a map of remote chains, ascending. *)
Definition sorted_selectors {A} (m : gmap Z A) : list Z := merge_sort Z.le (map_to_list m).*1.
