(* ===== verification/LaneSequence.v ===== *)
(** * Configuration of the lanes of a chain: the sequence

    Models [runStellarConfigureChainForLanes] of
    deployment/sequences/configure_stellar_lanes.go with its helpers that read
    and write contracts, and the operations of deployment/operations they
    execute, as a program over the requests of Lanes.v.  The framework runs each
    operation once and hands its answer on. *)

From S2P Require Import Prelude Sdk GoBytes Xdr Scval Interaction Lanes.

(** ** The monad: requests, errors and panics *)

Abbreviation L := (fprog lans).
Abbreviation lfail := pfail.
Abbreviation lift := plift.
Abbreviation lift_res := plift_res.
Abbreviation lwrap := pwrap.

(** ** Operations *)

(** [if IsContractErrorCode(err, code) { return nil, nil }]. *)
Definition read_optional {A} (code : Z) (r : res A) : outcome (option A) :=
  match r with
  | Ok a => Returns (Some a)
  | Err e => if IsContractErrorCode e code then Returns None else Errs e
  end.

Definition op_GetOnramp (c : string) (dest : Z) : L (option string) :=
  Ask (GetOnramp c dest) (fun r => Done (read_optional UnsupportedDestinationChainCode r)).

Definition op_GetOfframps (c : string) : L (list RampEntry) :=
  Ask (GetOfframps c) (fun r => Done (out_of_res r)).

Definition op_GetSourceChainConfig (c : string) (source : Z) : L (option OffRamp.SourceChainConfig) :=
  Ask (GetSourceChainConfig c source)
    (fun r => Done (read_optional SourceChainNotEnabledCode r)).

Definition op_GetOnRampDestChainConfig (c : string) (dest : Z) : L (option OnRamp.DestChainConfig) :=
  Ask (GetOnRampDestChainConfig c dest)
    (fun r => Done (read_optional DestinationChainNotSupportedCode r)).

Definition op_GetExecutorDestChainConfig (c : string) (dest : Z)
    : L (option Executor.RemoteChainConfig) :=
  Ask (GetExecutorDestChainConfig c dest)
    (fun r => Done (read_optional DestinationChainNotEnabledCode r)).

Definition op_GetFeeQuoterDestChainConfig (c : string) (dest : Z)
    : L (option FeeQuoter.DestChainConfig) :=
  Ask (GetFeeQuoterDestChainConfig c dest)
    (fun r => Done (read_optional DestinationChainNotEnabledCode r)).

Definition op_GetSignatureConfig (c : string) (source : Z) : L (option SignatureQuorumConfig) :=
  Ask (GetSignatureConfig c source)
    (fun r => Done (read_optional SourceSignersNotConfiguredCode r)).

Definition op_GetAllowedFinalityConfig (c : string) : L Z :=
  Ask (GetAllowedFinalityConfig c) (fun r => Done (out_of_res r)).

Definition op_ApplySourceChainCfgUpdates c us : L unit :=
  Ask (ApplySourceChainCfgUpdates c us) (fun r => Done (out_of_res r)).
Definition op_ApplyDestChainConfigUpdates c us : L unit :=
  Ask (ApplyDestChainConfigUpdates c us) (fun r => Done (out_of_res r)).
Definition op_ApplyDestChainUpdates c us : L unit :=
  Ask (ApplyDestChainUpdates c us) (fun r => Done (out_of_res r)).
Definition op_ApplyDestChainConfigs c us : L unit :=
  Ask (ApplyDestChainConfigs c us) (fun r => Done (out_of_res r)).
Definition op_ApplySignatureConfigs c us : L unit :=
  Ask (ApplySignatureConfigs c us) (fun r => Done (out_of_res r)).
Definition op_SetAllowedFinalityConfig c x : L unit :=
  Ask (SetAllowedFinalityConfig c x) (fun r => Done (out_of_res r)).
Definition op_ApplyRampUpdates c on off : L unit :=
  Ask (ApplyRampUpdates c on off) (fun r => Done (out_of_res r)).

(** ** Helpers of one remote chain *)

Section Sequence.
Context `{Codec} `{LaneSdk}.

Definition maybeOffRampSourceChainConfigArg (remoteSelector : Z) (rc : RemoteChainConfig)
    (routerID offRampID : string) (args : list OffRamp.SourceChainConfigArgs)
    : L (list OffRamp.SourceChainConfigArgs) :=
  onRamps ← lift_res (nonZeroSourceOnRamps (r_OnRamps rc));
  defaultCCVs ← lift_res (localContractStrkeys (DefaultInboundCCVs rc) "default inbound CCV");
  laneMandatedCCVs ← lift_res (localContractStrkeys (LaneMandatedInboundCCVs rc)
                                 "lane-mandated inbound CCV");
  current ← lwrap "failed to get source chain config: "
              (op_GetSourceChainConfig offRampID remoteSelector);
  let cur := default SourceChainConfig_zero current in
  let desired := desired_source routerID rc onRamps defaultCCVs laneMandatedCCVs cur in
  mret (if source_differs cur desired
        then args ++ [OffRamp.mkSourceChainConfigArgs remoteSelector desired] else args).

(** The OnRamp's executor: the sentinel when the destination executes by hand. *)
Definition default_executor (rc : RemoteChainConfig) : res string :=
  if SkipExecutorConfig rc then Ok NoExecutionExecutorStrkey
  else localContractStrkey (r_DefaultExecutor rc) "default executor".

Definition maybeOnRampDestChainConfigArg (allow_lowering : bool) (remoteSelector : Z)
    (rc : RemoteChainConfig) (routerID onRampID : string)
    (args : list OnRamp.DestChainConfigArgs) : L (list OnRamp.DestChainConfigArgs) :=
  outbound ← lift_res (localContractStrkeys (DefaultOutboundCCVs rc) "default outbound CCV");
  laneMandated ← lift_res (localContractStrkeys (LaneMandatedOutboundCCVs rc)
                             "lane-mandated outbound CCV");
  executor ← lift_res (default_executor rc);
  current ← lwrap "failed to get dest chain config: "
              (op_GetOnRampDestChainConfig onRampID remoteSelector);
  let cur := default DestChain_zero (OnRamp.c_dest <$> current) in
  let desired := desired_dest routerID rc outbound laneMandated executor cur in
  if (OnRamp.BaseExecutionGasCost desired <? OnRamp.BaseExecutionGasCost cur) && negb allow_lowering
  then lfail (Wrapf "refusing to lower it: " ErrBaseExecutionGasCostLowered)
  else mret (if onRampDestChainConfigDiffers cur desired
             then args ++ [OnRamp.mkDestChainConfigArgs remoteSelector desired] else args).

Definition maybeFeeQuoterDestChainConfigArg (feeQuoterID : string) (remoteSelector : Z)
    (rc : RemoteChainConfig) (args : list FeeQuoter.DestChainConfigArgs)
    : L (list FeeQuoter.DestChainConfigArgs) :=
  current ← lwrap "failed to get dest chain config: "
              (op_GetFeeQuoterDestChainConfig feeQuoterID remoteSelector);
  let o := FeeQuoterDestChainConfig rc in
  if negb (OverrideExistingConfig o) &&
     match current with Some c => FeeQuoter.IsEnabled c | None => false end
  then mret args
  else
    let cur := default FeeQuoterConfig_zero current in
    let desired := desired_feequoter o cur in
    mret (if feeQuoterDestChainConfigEqualTo cur desired then args
          else args ++ [FeeQuoter.mkDestChainConfigArgs remoteSelector desired]).

(** The desired state that differs from the chain's, as Phase 1 collects it. *)
Record Plan := mkPlan {
  offRampArgs : list OffRamp.SourceChainConfigArgs;
  onRampArgs : list OnRamp.DestChainConfigArgs;
  fqArgs : list FeeQuoter.DestChainConfigArgs;
  onRampAdds : list RampEntry;
  offRampAdds : list RampEntry;
  executorArgsByContract : gmap string (list Executor.RemoteChainConfigArgs)
}.

Definition executor_step (remoteSelector : Z) (rc : RemoteChainConfig)
    (byContract : gmap string (list Executor.RemoteChainConfigArgs))
    : L (gmap string (list Executor.RemoteChainConfigArgs)) :=
  if SkipExecutorConfig rc then mret byContract else
  executorID ← lift_res (localContractStrkey (r_DefaultExecutor rc) "default executor");
  let desired := Executor.mkRemoteChainConfig (ExecutorEnabled rc) (u32 (ExecutorUSDCentsFee rc)) in
  current ← lwrap "failed to get dest chain config from Executor: "
              (op_GetExecutorDestChainConfig executorID remoteSelector);
  mret (if bool_decide (current = Some desired) then byContract
        else <[executorID := default [] (byContract !! executorID) ++
                 [Executor.mkRemoteChainConfigArgs remoteSelector desired]]> byContract).

(** The contracts of the chain, as strkeys. *)
Record LocalIDs := mkLocalIDs {
  routerID : string;
  onRampID : string;
  offRampID : string;
  feeQuoterID : string
}.

Definition local_ids (input : ConfigureChainForLanesInput) : L LocalIDs :=
  routerID ← lift_res (wrap_err "router address: " (BytesToContractStrkey (i_Router input)));
  onRampID ← lift (wrap_out "onramp address: " (onRampStrkeyFromWireBytes (i_OnRamp input)));
  offRampID ← lift_res (wrap_err "offramp address: " (BytesToContractStrkey (i_OffRamp input)));
  feeQuoterID ← lift_res (wrap_err "fee quoter address: " (BytesToContractStrkey (i_FeeQuoter input)));
  mret (mkLocalIDs routerID onRampID offRampID feeQuoterID).

(** Phase 0: the router's onramp of every remote chain, guarded. *)
Fixpoint router_guard (input : ConfigureChainForLanesInput) (ids : LocalIDs)
    (remoteSelectors : list Z) (currentOnRampByRemote : gmap Z (option string))
    : L (gmap Z (option string)) :=
  match remoteSelectors with
  | [] => mret currentOnRampByRemote
  | remoteSelector :: rest =>
      current ← lwrap "failed to read onramp: " (op_GetOnramp (routerID ids) remoteSelector);
      if match current with
         | Some c => negb (bool_decide (c = onRampID ids)) && negb (AllowOnrampOverride input)
         | None => false
         end
      then lfail (ErrorString "router already has onramp; refusing to overwrite")
      else router_guard input ids rest (<[remoteSelector := current]> currentOnRampByRemote)
  end.

(** Phase 1, for one remote chain. *)
Definition collect_remote (input : ConfigureChainForLanesInput) (ids : LocalIDs)
    (currentOnRampByRemote : gmap Z (option string)) (remoteSelector : Z) (rc : RemoteChainConfig)
    (p : Plan) : L Plan :=
  offs ← lwrap "remote chain: " (maybeOffRampSourceChainConfigArg remoteSelector rc
            (routerID ids) (offRampID ids) (offRampArgs p));
  ons ← lwrap "remote chain: " (maybeOnRampDestChainConfigArg
            (AllowLoweringBaseExecutionGasCost input) remoteSelector rc
            (routerID ids) (onRampID ids) (onRampArgs p));
  execs ← lwrap "remote chain: " (executor_step remoteSelector rc (executorArgsByContract p));
  fqs ← lwrap "remote chain: " (maybeFeeQuoterDestChainConfigArg (feeQuoterID ids)
            remoteSelector rc (fqArgs p));
  let current := default None (currentOnRampByRemote !! remoteSelector) in
  let adds := if bool_decide (current = Some (onRampID ids)) then onRampAdds p
              else onRampAdds p ++ [mkRampEntry remoteSelector (onRampID ids)] in
  mret (mkPlan offs ons fqs adds
          (offRampAdds p ++ [mkRampEntry remoteSelector (offRampID ids)]) execs).

Fixpoint collect (input : ConfigureChainForLanesInput) (ids : LocalIDs)
    (currentOnRampByRemote : gmap Z (option string)) (remoteSelectors : list Z) (p : Plan)
    : L Plan :=
  match remoteSelectors with
  | [] => mret p
  | remoteSelector :: rest =>
      match RemoteChains input !! remoteSelector with
      | None => collect input ids currentOnRampByRemote rest p
      | Some rc =>
          p' ← collect_remote input ids currentOnRampByRemote remoteSelector rc p;
          collect input ids currentOnRampByRemote rest p'
      end
  end.

(** Phase 2: the last offramp the table has for each source chain. *)
Definition existingOffRampBySource (entries : list RampEntry) : gmap Z string :=
  fold_left (fun m e => <[e_ChainSelector e := e_Ramp e]> m) entries ∅.

Definition filter_offramps (entries adds : list RampEntry) : list RampEntry :=
  filter (fun add => default ""%string (existingOffRampBySource entries !! e_ChainSelector add)
                       ≠ e_Ramp add) adds.

(** ** Phase 3 *)

Definition write_if {A} (l : list A) (w : L unit) : L unit :=
  match l with [] => mret tt | _ => w end.

Fixpoint apply_executors (byContract : gmap string (list Executor.RemoteChainConfigArgs))
    (contracts : list string) : L unit :=
  match contracts with
  | [] => mret tt
  | executorID :: rest =>
      _ ← lwrap "failed to apply dest chain updates to Executor: "
            (op_ApplyDestChainUpdates executorID (default [] (byContract !! executorID)));
      apply_executors byContract rest
  end.

(** One remote chain of a verifier: an unset configuration is skipped, and only
    a quorum that differs is collected. *)
Definition quorum_step (contractID : string) (remoteSelector : Z) (sig : SignatureInput)
    (quorumConfigs : list SignatureQuorumConfig) : L (list SignatureQuorumConfig) :=
  if Nat.eqb (length (s_Signers sig)) 0 && (s_Threshold sig =? 0) then mret quorumConfigs
  else if Nat.eqb (length (s_Signers sig)) 0
  then lfail (ErrorString "no committee signers resolved for remote chain")
  else
    signers ← lift_res (signers_of (s_Signers sig));
    let desired := mkSignatureQuorumConfig remoteSelector (u32 (s_Threshold sig)) signers in
    current ← lwrap "get signature quorum config: "
                (op_GetSignatureConfig contractID remoteSelector);
    mret (if match current with
             | Some c => (q_Threshold c =? q_Threshold desired) &&
                         unorderedSignersEqual (q_Signers c) (q_Signers desired)
             | None => false
             end
          then quorumConfigs else quorumConfigs ++ [desired]).

Fixpoint collect_quorums (contractID : string) (remotes : gmap Z SignatureInput)
    (remoteSelectors : list Z) (quorumConfigs : list SignatureQuorumConfig)
    : L (list SignatureQuorumConfig) :=
  match remoteSelectors with
  | [] => mret quorumConfigs
  | remoteSelector :: rest =>
      match remotes !! remoteSelector with
      | None => collect_quorums contractID remotes rest quorumConfigs
      | Some sig =>
          quorumConfigs' ← quorum_step contractID remoteSelector sig quorumConfigs;
          collect_quorums contractID remotes rest quorumConfigs'
      end
  end.

Fixpoint applyCommitteeVerifierSignatureQuorums (cvs : list CommitteeVerifierConfig) : L unit :=
  match cvs with
  | [] => mret tt
  | cvCfg :: rest =>
      contractID ← lift_res (wrap_err "chain: "
                      (stellarCommitteeVerifierContractID (CommitteeVerifier cvCfg)));
      quorumConfigs ← collect_quorums contractID (cv_RemoteChains cvCfg)
                        (sorted_selectors (cv_RemoteChains cvCfg)) [];
      _ ← write_if quorumConfigs (lwrap "apply signature quorum configs: "
            (op_ApplySignatureConfigs contractID quorumConfigs));
      applyCommitteeVerifierSignatureQuorums rest
  end.

Fixpoint applyCommitteeVerifierAllowedFinality (cvs : list CommitteeVerifierConfig) : L unit :=
  match cvs with
  | [] => mret tt
  | cvCfg :: rest =>
      if finality_IsZero cvCfg then applyCommitteeVerifierAllowedFinality rest else
      contractID ← lift_res (wrap_err "chain: "
                      (stellarCommitteeVerifierContractID (CommitteeVerifier cvCfg)));
      let desired := get_be (finality_Raw cvCfg) in
      current ← lwrap "get allowed finality config: " (op_GetAllowedFinalityConfig contractID);
      _ ← (if current =? desired then mret tt
           else lwrap "set allowed finality config: "
                  (op_SetAllowedFinalityConfig contractID desired));
      applyCommitteeVerifierAllowedFinality rest
  end.

Definition apply_plan (input : ConfigureChainForLanesInput) (ids : LocalIDs) (p : Plan) : L unit :=
  _ ← write_if (offRampArgs p) (lwrap "failed to apply source chain config updates: "
        (op_ApplySourceChainCfgUpdates (offRampID ids) (offRampArgs p)));
  _ ← write_if (onRampArgs p) (lwrap "failed to apply dest chain config updates: "
        (op_ApplyDestChainConfigUpdates (onRampID ids) (onRampArgs p)));
  _ ← apply_executors (executorArgsByContract p)
        (sort_Strings (map_to_list (executorArgsByContract p)).*1);
  _ ← write_if (fqArgs p) (lwrap "failed to apply dest chain configs to FeeQuoter: "
        (op_ApplyDestChainConfigs (feeQuoterID ids) (fqArgs p)));
  _ ← applyCommitteeVerifierSignatureQuorums (CommitteeVerifiers input);
  _ ← applyCommitteeVerifierAllowedFinality (CommitteeVerifiers input);
  write_if (onRampAdds p ++ offRampAdds p)
    (lwrap "failed to apply ramp updates to Router: "
      (op_ApplyRampUpdates (routerID ids) (onRampAdds p) (offRampAdds p))).

Definition plan_zero : Plan := mkPlan [] [] [] [] [] ∅.

Definition runStellarConfigureChainForLanes (input : ConfigureChainForLanesInput) : L unit :=
  ids ← local_ids input;
  let remoteSelectors := sorted_selectors (RemoteChains input) in
  currents ← router_guard input ids remoteSelectors ∅;
  p ← collect input ids currents remoteSelectors plan_zero;
  existing ← lwrap "failed to read offramp table: " (op_GetOfframps (routerID ids));
  apply_plan input ids (mkPlan (offRampArgs p) (onRampArgs p) (fqArgs p) (onRampAdds p)
    (filter_offramps existing (offRampAdds p)) (executorArgsByContract p)).

End Sequence.
