(* ===== verification/LaneLedger.v ===== *)
(** * The contracts a lane configuration talks to, and what it decides to write

    What the contracts keep, as far as the sequence of LaneSequence.v reads and
    writes it, and how they answer: a read gives what is kept, or fails; a write
    that succeeds replaces the entries it names (contracts/onramp, offramp,
    executor, fee-quoter, ccvs/committee-verifier and router of the repository).
    Any request may fail for a reason of its own, which does not render a
    contract's "not configured" code; a failed write may or may not have taken
    effect.

    [vwp] is the weakest precondition of a program against these contracts.

    Then the reading part of the sequence as a function of what the contracts keep:
    for every remote chain, the desired state where it differs from the current one.
    The program refines the function. *)

From S2P Require Import Prelude Sdk GoBytes Xdr Scval Interaction Lanes LaneSequence.

Record View := mkView {
  v_onramp : string -> Z -> option string;
  v_offramps : string -> Z -> list string;
  v_source : string -> Z -> option OffRamp.SourceChainConfig;
  v_dest : string -> Z -> option OnRamp.DestChainConfig;
  v_executor : string -> Z -> option Executor.RemoteChainConfig;
  v_feequoter : string -> Z -> option FeeQuoter.DestChainConfig;
  v_sig : string -> Z -> option SignatureQuorumConfig;
  v_finality : string -> Z
}.

(** ** Updates *)

Definition upd {A} (f : string -> Z -> A) (c : string) (k : Z) (a : A) : string -> Z -> A :=
  fun c' k' => if decide (c' = c /\ k' = k) then a else f c' k'.

Definition write_source (c : string) (us : list OffRamp.SourceChainConfigArgs) f :=
  foldl (fun f u => upd f c (OffRamp.a_SourceChainSelector u) (Some (OffRamp.a_config u))) f us.

(** The onramp keeps the message number of a lane it reconfigures. *)
Definition write_dest (c : string) (us : list OnRamp.DestChainConfigArgs) f :=
  foldl (fun f u =>
    let s := OnRamp.a_DestChainSelector u in
    upd f c s (Some (OnRamp.mkDestChainConfig
                       (default 0 (OnRamp.MessageNumber <$> f c s)) (OnRamp.a_dest u)))) f us.

Definition write_executor (c : string) (us : list Executor.RemoteChainConfigArgs) f :=
  foldl (fun f u => upd f c (Executor.a_DestChainSelector u) (Some (Executor.a_Config u))) f us.

Definition write_feequoter (c : string) (us : list FeeQuoter.DestChainConfigArgs) f :=
  foldl (fun f u => upd f c (FeeQuoter.a_DestChainSelector u) (Some (FeeQuoter.a_Config u))) f us.

Definition write_sig (c : string) (us : list SignatureQuorumConfig) f :=
  foldl (fun f u => upd f c (q_SourceChainSelector u) (Some u)) f us.

Definition write_onramps (c : string) (us : list RampEntry) f :=
  foldl (fun f u => upd f c (e_ChainSelector u) (Some (e_Ramp u))) f us.

(** The router adds an offramp at the end of its source chain's list, unless the
    list has it. *)
Definition write_offramps (c : string) (us : list RampEntry) f :=
  foldl (fun f u =>
    let s := e_ChainSelector u in
    upd f c s (if decide (e_Ramp u ∈ f c s) then f c s else f c s ++ [e_Ramp u])) f us.

Definition set_source v x :=
  mkView (v_onramp v) (v_offramps v) x (v_dest v) (v_executor v) (v_feequoter v) (v_sig v) (v_finality v).
Definition set_dest v x :=
  mkView (v_onramp v) (v_offramps v) (v_source v) x (v_executor v) (v_feequoter v) (v_sig v) (v_finality v).
Definition set_executor v x :=
  mkView (v_onramp v) (v_offramps v) (v_source v) (v_dest v) x (v_feequoter v) (v_sig v) (v_finality v).
Definition set_feequoter v x :=
  mkView (v_onramp v) (v_offramps v) (v_source v) (v_dest v) (v_executor v) x (v_sig v) (v_finality v).
Definition set_sig v x :=
  mkView (v_onramp v) (v_offramps v) (v_source v) (v_dest v) (v_executor v) (v_feequoter v) x (v_finality v).
Definition set_finality v x :=
  mkView (v_onramp v) (v_offramps v) (v_source v) (v_dest v) (v_executor v) (v_feequoter v) (v_sig v) x.
Definition set_ramps v x y :=
  mkView x y (v_source v) (v_dest v) (v_executor v) (v_feequoter v) (v_sig v) (v_finality v).

(** ** Answers *)

(** A read of an entry that may be missing. *)
Definition reads {A} (code : Z) (kept : option A) (x : res A) : Prop :=
  match x with Ok a => kept = Some a | Err e => IsContractErrorCode e code = true -> kept = None end.

(** A write that is reported to have succeeded has; one that is reported to have
    failed may have. *)
Definition writes (v v' : View) (written : View) (x : res unit) : Prop :=
  match x with Ok _ => v' = written | Err _ => v' = v \/ v' = written end.

Definition of_source (s : Z) (entries : list RampEntry) : list string :=
  e_Ramp <$> filter (fun e => e_ChainSelector e = s) entries.

Definition written (v : View) (r : lreq) : View :=
  match r with
  | ApplySourceChainCfgUpdates c us => set_source v (write_source c us (v_source v))
  | ApplyDestChainConfigUpdates c us => set_dest v (write_dest c us (v_dest v))
  | ApplyDestChainUpdates c us => set_executor v (write_executor c us (v_executor v))
  | ApplyDestChainConfigs c us => set_feequoter v (write_feequoter c us (v_feequoter v))
  | ApplySignatureConfigs c us => set_sig v (write_sig c us (v_sig v))
  | SetAllowedFinalityConfig c x =>
      set_finality v (fun c' => if decide (c' = c) then x else v_finality v c')
  | ApplyRampUpdates c on off =>
      set_ramps v (write_onramps c on (v_onramp v)) (write_offramps c off (v_offramps v))
  | _ => v
  end.

Definition ledger_step (v : View) (r : lreq) (v' : View) : lans r -> Prop :=
  match r return lans r -> Prop with
  | GetOnramp c s => fun x => v' = v /\ reads UnsupportedDestinationChainCode (v_onramp v c s) x
  | GetOfframps c => fun x => v' = v /\
      match x with Ok t => forall s, of_source s t = v_offramps v c s | Err _ => True end
  | GetSourceChainConfig c s => fun x => v' = v /\ reads SourceChainNotEnabledCode (v_source v c s) x
  | GetOnRampDestChainConfig c s => fun x =>
      v' = v /\ reads DestinationChainNotSupportedCode (v_dest v c s) x
  | GetExecutorDestChainConfig c s => fun x =>
      v' = v /\ reads DestinationChainNotEnabledCode (v_executor v c s) x
  | GetFeeQuoterDestChainConfig c s => fun x =>
      v' = v /\ reads DestinationChainNotEnabledCode (v_feequoter v c s) x
  | GetSignatureConfig c s => fun x =>
      v' = v /\ reads SourceSignersNotConfiguredCode (v_sig v c s) x
  | GetAllowedFinalityConfig c => fun x => v' = v /\
      match x with Ok z => v_finality v c = z | Err _ => True end
  | r => fun x => writes v v' (written v r) x
  end.

(** An answer that makes the operation fail. *)
Definition reads_failed {A} (code : Z) (x : res A) : bool :=
  match x with Ok _ => false | Err e => negb (IsContractErrorCode e code) end.

Definition failed_answer (r : lreq) : lans r -> bool :=
  match r return lans r -> bool with
  | GetOnramp _ _ => reads_failed UnsupportedDestinationChainCode
  | GetSourceChainConfig _ _ => reads_failed SourceChainNotEnabledCode
  | GetOnRampDestChainConfig _ _ => reads_failed DestinationChainNotSupportedCode
  | GetExecutorDestChainConfig _ _ | GetFeeQuoterDestChainConfig _ _ =>
      reads_failed DestinationChainNotEnabledCode
  | GetSignatureConfig _ _ => reads_failed SourceSignersNotConfiguredCode
  | _ => fun x => negb (is_ok x)
  end.

Abbreviation ltrace := (list (event lans)).

(** Some request of the trace failed. *)
Definition some_failed (tr : ltrace) : Prop :=
  Exists (fun e => failed_answer (ev_req e) (ev_ans e) = true) tr.

Definition no_write (tr : ltrace) : Prop := Forall (fun e => is_write (ev_req e) = false) tr.

(** ** Weakest preconditions *)

Abbreviation vwp := (swp ledger_step).

(** *** Reads

    Each leaves the contracts alone, and answers what they keep; otherwise the
    trace records a failed request. *)

Section Reads.
Context (tr : ltrace) (v : View).

Definition after (r : lreq) (x : lans r) : ltrace := mkEvent r x :: tr.

Ltac read_optional_tac :=
  intros HR HE x v' [-> Hx]; unfold read_optional; destruct x as [a|e]; simpl in *;
    [rewrite Hx in HR; apply HR|];
  destruct (IsContractErrorCode e _) eqn:Ee; simpl;
    [rewrite (Hx eq_refl) in HR; apply HR | apply HE; left; simpl; by rewrite Ee].

Lemma vwp_GetOnramp c s (R : _ -> ltrace -> View -> Prop) (E : ltrace -> View -> Prop) :
  (forall x, R (v_onramp v c s) (after (GetOnramp c s) x) v) ->
  (forall x, some_failed (after (GetOnramp c s) x) -> E (after (GetOnramp c s) x) v) ->
  vwp (op_GetOnramp c s) (post R E) tr v.
Proof. read_optional_tac. Qed.

Lemma vwp_GetSourceChainConfig c s (R : _ -> ltrace -> View -> Prop) (E : ltrace -> View -> Prop) :
  (forall x, R (v_source v c s) (after (GetSourceChainConfig c s) x) v) ->
  (forall x, some_failed (after (GetSourceChainConfig c s) x) ->
     E (after (GetSourceChainConfig c s) x) v) ->
  vwp (op_GetSourceChainConfig c s) (post R E) tr v.
Proof. read_optional_tac. Qed.

Lemma vwp_GetOnRampDestChainConfig c s (R : _ -> ltrace -> View -> Prop) (E : ltrace -> View -> Prop) :
  (forall x, R (v_dest v c s) (after (GetOnRampDestChainConfig c s) x) v) ->
  (forall x, some_failed (after (GetOnRampDestChainConfig c s) x) ->
     E (after (GetOnRampDestChainConfig c s) x) v) ->
  vwp (op_GetOnRampDestChainConfig c s) (post R E) tr v.
Proof. read_optional_tac. Qed.

Lemma vwp_GetExecutorDestChainConfig c s (R : _ -> ltrace -> View -> Prop) (E : ltrace -> View -> Prop) :
  (forall x, R (v_executor v c s) (after (GetExecutorDestChainConfig c s) x) v) ->
  (forall x, some_failed (after (GetExecutorDestChainConfig c s) x) ->
     E (after (GetExecutorDestChainConfig c s) x) v) ->
  vwp (op_GetExecutorDestChainConfig c s) (post R E) tr v.
Proof. read_optional_tac. Qed.

Lemma vwp_GetFeeQuoterDestChainConfig c s (R : _ -> ltrace -> View -> Prop) (E : ltrace -> View -> Prop) :
  (forall x, R (v_feequoter v c s) (after (GetFeeQuoterDestChainConfig c s) x) v) ->
  (forall x, some_failed (after (GetFeeQuoterDestChainConfig c s) x) ->
     E (after (GetFeeQuoterDestChainConfig c s) x) v) ->
  vwp (op_GetFeeQuoterDestChainConfig c s) (post R E) tr v.
Proof. read_optional_tac. Qed.

Lemma vwp_GetSignatureConfig c s (R : _ -> ltrace -> View -> Prop) (E : ltrace -> View -> Prop) :
  (forall x, R (v_sig v c s) (after (GetSignatureConfig c s) x) v) ->
  (forall x, some_failed (after (GetSignatureConfig c s) x) ->
     E (after (GetSignatureConfig c s) x) v) ->
  vwp (op_GetSignatureConfig c s) (post R E) tr v.
Proof. read_optional_tac. Qed.

Lemma vwp_GetAllowedFinalityConfig c (R : _ -> ltrace -> View -> Prop) (E : ltrace -> View -> Prop) :
  (forall x, R (v_finality v c) (after (GetAllowedFinalityConfig c) x) v) ->
  (forall x, some_failed (after (GetAllowedFinalityConfig c) x) ->
     E (after (GetAllowedFinalityConfig c) x) v) ->
  vwp (op_GetAllowedFinalityConfig c) (post R E) tr v.
Proof.
  intros HR HE x v' [-> Hx]. destruct x as [a|e]; simpl; [rewrite Hx in HR; apply HR|].
  apply HE. by left.
Qed.

Lemma vwp_GetOfframps c (R : _ -> ltrace -> View -> Prop) (E : ltrace -> View -> Prop) :
  (forall t x, (forall s, of_source s t = v_offramps v c s) -> R t (after (GetOfframps c) x) v) ->
  (forall x, some_failed (after (GetOfframps c) x) -> E (after (GetOfframps c) x) v) ->
  vwp (op_GetOfframps c) (post R E) tr v.
Proof.
  intros HR HE x v' [-> Hx]. destruct x as [a|e]; simpl; [by apply HR|]. apply HE. by left.
Qed.

(** *** Writes: their effect when they are reported to succeed; otherwise a request
    failed *)

Ltac write_tac := intros HR HE x v' Hw; destruct x as [[]|e]; simpl in *;
  [subst; apply HR|apply HE; by left].

Lemma vwp_ApplySourceChainCfgUpdates c us (R : _ -> ltrace -> View -> Prop) (E : ltrace -> View -> Prop) :
  (forall x, R tt (after (ApplySourceChainCfgUpdates c us) x) (written v (ApplySourceChainCfgUpdates c us))) ->
  (forall x v', some_failed (after (ApplySourceChainCfgUpdates c us) x) -> E (after (ApplySourceChainCfgUpdates c us) x) v') ->
  vwp (op_ApplySourceChainCfgUpdates c us) (post R E) tr v.
Proof. write_tac. Qed.

Lemma vwp_ApplyDestChainConfigUpdates c us (R : _ -> ltrace -> View -> Prop) (E : ltrace -> View -> Prop) :
  (forall x, R tt (after (ApplyDestChainConfigUpdates c us) x) (written v (ApplyDestChainConfigUpdates c us))) ->
  (forall x v', some_failed (after (ApplyDestChainConfigUpdates c us) x) -> E (after (ApplyDestChainConfigUpdates c us) x) v') ->
  vwp (op_ApplyDestChainConfigUpdates c us) (post R E) tr v.
Proof. write_tac. Qed.

Lemma vwp_ApplyDestChainUpdates c us (R : _ -> ltrace -> View -> Prop) (E : ltrace -> View -> Prop) :
  (forall x, R tt (after (ApplyDestChainUpdates c us) x) (written v (ApplyDestChainUpdates c us))) ->
  (forall x v', some_failed (after (ApplyDestChainUpdates c us) x) -> E (after (ApplyDestChainUpdates c us) x) v') ->
  vwp (op_ApplyDestChainUpdates c us) (post R E) tr v.
Proof. write_tac. Qed.

Lemma vwp_ApplyDestChainConfigs c us (R : _ -> ltrace -> View -> Prop) (E : ltrace -> View -> Prop) :
  (forall x, R tt (after (ApplyDestChainConfigs c us) x) (written v (ApplyDestChainConfigs c us))) ->
  (forall x v', some_failed (after (ApplyDestChainConfigs c us) x) -> E (after (ApplyDestChainConfigs c us) x) v') ->
  vwp (op_ApplyDestChainConfigs c us) (post R E) tr v.
Proof. write_tac. Qed.

Lemma vwp_ApplySignatureConfigs c us (R : _ -> ltrace -> View -> Prop) (E : ltrace -> View -> Prop) :
  (forall x, R tt (after (ApplySignatureConfigs c us) x) (written v (ApplySignatureConfigs c us))) ->
  (forall x v', some_failed (after (ApplySignatureConfigs c us) x) -> E (after (ApplySignatureConfigs c us) x) v') ->
  vwp (op_ApplySignatureConfigs c us) (post R E) tr v.
Proof. write_tac. Qed.

Lemma vwp_SetAllowedFinalityConfig c y (R : _ -> ltrace -> View -> Prop) (E : ltrace -> View -> Prop) :
  (forall x, R tt (after (SetAllowedFinalityConfig c y) x) (written v (SetAllowedFinalityConfig c y))) ->
  (forall x v', some_failed (after (SetAllowedFinalityConfig c y) x) -> E (after (SetAllowedFinalityConfig c y) x) v') ->
  vwp (op_SetAllowedFinalityConfig c y) (post R E) tr v.
Proof. write_tac. Qed.

Lemma vwp_ApplyRampUpdates c on off (R : _ -> ltrace -> View -> Prop) (E : ltrace -> View -> Prop) :
  (forall x, R tt (after (ApplyRampUpdates c on off) x) (written v (ApplyRampUpdates c on off))) ->
  (forall x v', some_failed (after (ApplyRampUpdates c on off) x) -> E (after (ApplyRampUpdates c on off) x) v') ->
  vwp (op_ApplyRampUpdates c on off) (post R E) tr v.
Proof. write_tac. Qed.

End Reads.

(** ** Readers

    A program that only reads refines a pure computation on what the contracts
    keep: it returns the computed value, or else the computation fails or some
    request did. *)

Section Readers.
Context (v : View).

Definition reads_only (tr tr' : ltrace) : Prop := exists ext, tr' = ext ++ tr /\ no_write ext.

Definition reader {A} (m : L A) (pure : outcome A) : Prop :=
  forall tr, vwp m (post
    (fun a tr' v' => v' = v /\ reads_only tr tr' /\ pure = Returns a)
    (fun tr' v' => v' = v /\ reads_only tr tr' /\ (some_failed tr' \/ is_done pure = false))) tr v.

Lemma reads_only_refl tr : reads_only tr tr.
Proof. exists []. split; [done|constructor]. Qed.

Lemma reads_only_trans tr1 tr2 tr3 : reads_only tr1 tr2 -> reads_only tr2 tr3 -> reads_only tr1 tr3.
Proof.
  intros (e1 & -> & H1) (e2 & -> & H2). exists (e2 ++ e1). split; [by rewrite app_assoc|].
  by apply Forall_app_2.
Qed.

Lemma reads_only_after tr r x : is_write r = false -> reads_only tr (after tr r x).
Proof. intros Hr. exists [mkEvent r x]. split; [done|]. by constructor. Qed.

Lemma reader_ret {A} (a : A) : reader (mret a) (Returns a).
Proof. intros tr. split_and!; [done|apply reads_only_refl|done]. Qed.

Lemma reader_fail {A} e : reader (lfail e : L A) (Errs e).
Proof. intros tr. split_and!; [done|apply reads_only_refl|by right]. Qed.

Lemma reader_lift {A} (r : outcome A) : reader (lift r) r.
Proof. intros tr. destruct r; (split_and!; [done|apply reads_only_refl|by first [right|done]]). Qed.

Lemma reader_lift_res {A} (r : res A) : reader (lift_res r) (out_of_res r).
Proof. apply reader_lift. Qed.

Lemma reader_bind {A B} (m : L A) (f : A -> L B) pm pf :
  reader m pm -> (forall a, pm = Returns a -> reader (f a) (pf a)) ->
  reader (mbind f m) (mbind pf pm).
Proof.
  intros Hm Hf tr. apply swp_bind. eapply swp_weaken; [apply Hm| |].
  - intros a tr1 v1 (-> & H1 & E). rewrite E. eapply swp_weaken; [by apply Hf| |].
    + intros b tr2 v2 (-> & H2 & Eb). split_and!; [done|by eapply reads_only_trans|done].
    + intros tr2 v2 (-> & H2 & Eb). split_and!; [done|by eapply reads_only_trans|done].
  - intros tr1 v1 (-> & H1 & [Hs|Hn]); (split_and!; [done..|]); [by left|right]. by destruct pm.
Qed.

(** The context an error is wrapped in does not matter here. *)
Lemma reader_lwrap {A} pre (m : L A) pm : reader m pm -> reader (lwrap pre m) pm.
Proof. intros Hm tr. apply swp_pwrap, Hm. Qed.

Ltac reader_op H := intros tr; apply H; intros;
  (split_and!; [done|by apply reads_only_after|first [done|by left]]).

Lemma reader_GetOnramp c s : reader (op_GetOnramp c s) (Returns (v_onramp v c s)).
Proof. reader_op @vwp_GetOnramp. Qed.
Lemma reader_GetSourceChainConfig c s :
  reader (op_GetSourceChainConfig c s) (Returns (v_source v c s)).
Proof. reader_op @vwp_GetSourceChainConfig. Qed.
Lemma reader_GetOnRampDestChainConfig c s :
  reader (op_GetOnRampDestChainConfig c s) (Returns (v_dest v c s)).
Proof. reader_op @vwp_GetOnRampDestChainConfig. Qed.
Lemma reader_GetExecutorDestChainConfig c s :
  reader (op_GetExecutorDestChainConfig c s) (Returns (v_executor v c s)).
Proof. reader_op @vwp_GetExecutorDestChainConfig. Qed.
Lemma reader_GetFeeQuoterDestChainConfig c s :
  reader (op_GetFeeQuoterDestChainConfig c s) (Returns (v_feequoter v c s)).
Proof. reader_op @vwp_GetFeeQuoterDestChainConfig. Qed.
Lemma reader_GetSignatureConfig c s : reader (op_GetSignatureConfig c s) (Returns (v_sig v c s)).
Proof. reader_op @vwp_GetSignatureConfig. Qed.
Lemma reader_GetAllowedFinalityConfig c :
  reader (op_GetAllowedFinalityConfig c) (Returns (v_finality v c)).
Proof. reader_op @vwp_GetAllowedFinalityConfig. Qed.

Lemma reader_eq {A} (m : L A) p p' : reader m p -> p = p' -> reader m p'.
Proof. by intros ? <-. Qed.

Lemma reader_if {A} (b : bool) (m1 m2 : L A) p1 p2 :
  reader m1 p1 -> reader m2 p2 -> reader (if b then m1 else m2) (if b then p1 else p2).
Proof. by destruct b. Qed.

End Readers.

Create HintDb reader.
#[export] Hint Resolve reader_ret reader_fail reader_lift reader_lift_res reader_bind reader_lwrap
  reader_GetOnramp reader_GetSourceChainConfig reader_GetOnRampDestChainConfig
  reader_GetExecutorDestChainConfig reader_GetFeeQuoterDestChainConfig
  reader_GetSignatureConfig reader_GetAllowedFinalityConfig : reader.

Ltac reader_step :=
  lazymatch goal with
  | |- reader _ (if _ then _ else _) _ => eapply reader_if
  | |- reader _ (lwrap _ _) _ => apply reader_lwrap
  | |- reader _ (mbind _ _) _ => eapply reader_bind; [|intros]
  | |- reader _ (mret _) _ => apply reader_ret
  | |- reader _ (lfail _) _ => apply reader_fail
  | |- _ => solve [eauto with reader nocore]
  end.

(** Both sides run the same fallible parts in the same order. *)
Ltac outcome_eq :=
  repeat first
    [ match goal with
      | |- context [out_of_res ?r] => destruct (out_of_res r); simpl; [|reflexivity..]
      end
    | case_match; simpl ]; try by rewrite ?app_nil_r.

Section Plan.
Context `{Codec} `{LaneSdk}.
Context (v : View).

Definition source_arg (ids : LocalIDs) (s : Z) (rc : RemoteChainConfig)
    : outcome (option OffRamp.SourceChainConfig) :=
  onRamps ← out_of_res (nonZeroSourceOnRamps (r_OnRamps rc));
  defaultCCVs ← out_of_res (localContractStrkeys (DefaultInboundCCVs rc) "default inbound CCV");
  laneMandatedCCVs ← out_of_res (localContractStrkeys (LaneMandatedInboundCCVs rc)
                                   "lane-mandated inbound CCV");
  let cur := default SourceChainConfig_zero (v_source v (offRampID ids) s) in
  let desired := desired_source (routerID ids) rc onRamps defaultCCVs laneMandatedCCVs cur in
  mret (if source_differs cur desired then Some desired else None).

Definition dest_arg (ids : LocalIDs) (allow_lowering : bool) (s : Z) (rc : RemoteChainConfig)
    : outcome (option OnRamp.DestChain) :=
  outbound ← out_of_res (localContractStrkeys (DefaultOutboundCCVs rc) "default outbound CCV");
  laneMandated ← out_of_res (localContractStrkeys (LaneMandatedOutboundCCVs rc)
                               "lane-mandated outbound CCV");
  executor ← out_of_res (default_executor rc);
  let cur := default DestChain_zero (OnRamp.c_dest <$> v_dest v (onRampID ids) s) in
  let desired := desired_dest (routerID ids) rc outbound laneMandated executor cur in
  if (OnRamp.BaseExecutionGasCost desired <? OnRamp.BaseExecutionGasCost cur) && negb allow_lowering
  then Errs (Wrapf "refusing to lower it: " ErrBaseExecutionGasCostLowered)
  else mret (if onRampDestChainConfigDiffers cur desired then Some desired else None).

Definition feequoter_arg (ids : LocalIDs) (s : Z) (rc : RemoteChainConfig)
    : option FeeQuoter.DestChainConfig :=
  let current := v_feequoter v (feeQuoterID ids) s in
  let o := FeeQuoterDestChainConfig rc in
  if negb (OverrideExistingConfig o) &&
     match current with Some c => FeeQuoter.IsEnabled c | None => false end
  then None
  else
    let cur := default FeeQuoterConfig_zero current in
    let desired := desired_feequoter o cur in
    if feeQuoterDestChainConfigEqualTo cur desired then None else Some desired.

(** The executor to write to, with the configuration. *)
Definition executor_arg (s : Z) (rc : RemoteChainConfig)
    : outcome (option (string * Executor.RemoteChainConfig)) :=
  if SkipExecutorConfig rc then mret None else
  executorID ← out_of_res (localContractStrkey (r_DefaultExecutor rc) "default executor");
  let desired := Executor.mkRemoteChainConfig (ExecutorEnabled rc) (u32 (ExecutorUSDCentsFee rc)) in
  mret (if bool_decide (v_executor v executorID s = Some desired) then None
        else Some (executorID, desired)).

Definition executor_add (s : Z) (o : option (string * Executor.RemoteChainConfig))
    (m : gmap string (list Executor.RemoteChainConfigArgs)) :=
  match o with
  | None => m
  | Some (c, cfg) => <[c := default [] (m !! c) ++ [Executor.mkRemoteChainConfigArgs s cfg]]> m
  end.

Definition plan_remote (input : ConfigureChainForLanesInput) (ids : LocalIDs) (s : Z)
    (rc : RemoteChainConfig) (p : Plan) : outcome Plan :=
  src ← source_arg ids s rc;
  dst ← dest_arg ids (AllowLoweringBaseExecutionGasCost input) s rc;
  exe ← executor_arg s rc;
  mret {|
    offRampArgs := offRampArgs p ++
      option_list (OffRamp.mkSourceChainConfigArgs s <$> src);
    onRampArgs := onRampArgs p ++ option_list (OnRamp.mkDestChainConfigArgs s <$> dst);
    fqArgs := fqArgs p ++ option_list (FeeQuoter.mkDestChainConfigArgs s <$> feequoter_arg ids s rc);
    onRampAdds := onRampAdds p ++
      (if bool_decide (v_onramp v (routerID ids) s = Some (onRampID ids)) then []
       else [mkRampEntry s (onRampID ids)]);
    offRampAdds := offRampAdds p ++ [mkRampEntry s (offRampID ids)];
    executorArgsByContract := executor_add s exe (executorArgsByContract p)
  |}.

Fixpoint plan_all (input : ConfigureChainForLanesInput) (ids : LocalIDs) (l : list Z) (p : Plan)
    : outcome Plan :=
  match l with
  | [] => mret p
  | s :: l' =>
      match RemoteChains input !! s with
      | None => plan_all input ids l' p
      | Some rc => p' ← plan_remote input ids s rc p; plan_all input ids l' p'
      end
  end.

(** ** The program refines the function *)

Lemma reader_source s rc ids args :
  reader v (maybeOffRampSourceChainConfigArg s rc (routerID ids) (offRampID ids) args)
    (o ← source_arg ids s rc;
     mret (args ++ option_list (OffRamp.mkSourceChainConfigArgs s <$> o))).
Proof.
  eapply reader_eq; [unfold maybeOffRampSourceChainConfigArg; repeat reader_step|].
  unfold source_arg. outcome_eq.
Qed.

Lemma reader_dest low s rc ids args :
  reader v (maybeOnRampDestChainConfigArg low s rc (routerID ids) (onRampID ids) args)
    (o ← dest_arg ids low s rc;
     mret (args ++ option_list (OnRamp.mkDestChainConfigArgs s <$> o))).
Proof.
  unfold maybeOnRampDestChainConfigArg, dest_arg.
  eapply reader_eq; [repeat reader_step|]. outcome_eq.
Qed.

Lemma reader_executor s rc by_contract :
  reader v (executor_step s rc by_contract)
    (o ← executor_arg s rc; mret (executor_add s o by_contract)).
Proof.
  unfold executor_step, executor_arg.
  eapply reader_eq; [repeat reader_step|]. outcome_eq.
Qed.

Lemma reader_feequoter s rc ids args :
  reader v (maybeFeeQuoterDestChainConfigArg (feeQuoterID ids) s rc args)
    (Returns (args ++ option_list (FeeQuoter.mkDestChainConfigArgs s <$> feequoter_arg ids s rc))).
Proof.
  unfold maybeFeeQuoterDestChainConfigArg, feequoter_arg.
  eapply reader_eq; [repeat reader_step|]. simpl. repeat case_match; by rewrite ?app_nil_r.
Qed.

(** What Phase 0 has read of the router. *)
Definition router_read (ids : LocalIDs) (l : list Z) (m : gmap Z (option string)) : Prop :=
  forall s, s ∈ l -> m !! s = Some (v_onramp v (routerID ids) s).

Lemma reader_collect_remote input ids currents s rc p :
  currents !! s = Some (v_onramp v (routerID ids) s) ->
  reader v (collect_remote input ids currents s rc p) (plan_remote input ids s rc p).
Proof.
  intros Hc. unfold collect_remote. rewrite Hc. cbn [default id].
  eapply reader_eq.
  { repeat first [apply reader_source | apply reader_dest | apply reader_executor
                 | apply reader_feequoter | reader_step]. }
  unfold plan_remote. destruct (source_arg ids s rc); simpl; [|done..].
  destruct (dest_arg ids _ s rc); simpl; [|done..].
  destruct (executor_arg s rc); simpl; [|done..]. case_bool_decide; by rewrite ?app_nil_r.
Qed.

Lemma reader_collect input ids currents l p :
  router_read ids l currents ->
  reader v (collect input ids currents l p) (plan_all input ids l p).
Proof.
  revert p. induction l as [|s l IH]; intros p Hr; simpl; [apply reader_ret|].
  assert (router_read ids l currents) by (intros ? ?; apply Hr; by right).
  case_match; [|by apply IH]. apply reader_bind; [|intros; by apply IH].
  apply reader_collect_remote, Hr. by left.
Qed.

(** Phase 0 refuses as soon as one mapping is another's. *)
Definition taken (input : ConfigureChainForLanesInput) (ids : LocalIDs) (s : Z) : bool :=
  match v_onramp v (routerID ids) s with
  | Some c => negb (bool_decide (c = onRampID ids)) && negb (AllowOnrampOverride input)
  | None => false
  end.

Fixpoint guard_all (input : ConfigureChainForLanesInput) (ids : LocalIDs) (l : list Z)
    (m : gmap Z (option string)) : outcome (gmap Z (option string)) :=
  match l with
  | [] => mret m
  | s :: l' =>
      if taken input ids s
      then Errs (ErrorString "router already has onramp; refusing to overwrite")
      else guard_all input ids l' (<[s := v_onramp v (routerID ids) s]> m)
  end.

Lemma reader_guard input ids l m :
  reader v (router_guard input ids l m) (guard_all input ids l m).
Proof.
  revert m. induction l as [|s l IH]; intros m; [apply reader_ret|].
  apply (reader_bind v _ _ (Returns (v_onramp v (routerID ids) s)) (fun x =>
    if match x with
       | Some c => negb (bool_decide (c = onRampID ids)) && negb (AllowOnrampOverride input)
       | None => false
       end then Errs _ else guard_all input ids l (<[s := x]> m))).
  - apply reader_lwrap, reader_GetOnramp.
  - intros x _. apply reader_if; [apply reader_fail|apply IH].
Qed.

Lemma guard_all_read input ids l m m' :
  guard_all input ids l m = Returns m' ->
  (forall s, s ∈ l -> taken input ids s = false) /\
  (forall s, m' !! s = if decide (s ∈ l) then Some (v_onramp v (routerID ids) s) else m !! s).
Proof.
  revert m. induction l as [|s l IH]; intros m; simpl.
  { intros [= ->]. split; [by intros ? ?%not_elem_of_nil|]. done. }
  destruct (taken input ids s) eqn:Et; [done|]. intros [H1 H2]%IH. split.
  - intros s' [->|?]%elem_of_cons; auto.
  - intros s'. rewrite H2. destruct (decide (s' ∈ l)) as [?|Hn].
    + rewrite decide_True; [done|by right].
    + destruct (decide (s' = s)) as [->|Hs].
      * rewrite lookup_insert_eq, decide_True; [done|by left].
      * rewrite lookup_insert_ne by done. rewrite decide_False; [done|].
        by intros [?|?]%elem_of_cons.
Qed.

End Plan.
