(* ===== verification/LaneConverge.v ===== *)
(** * What the writes of a lane configuration leave behind

    The plan of LaneLedger.v selector by selector ([want]), the tables after it is
    applied ([write_table]), and, for each part of the desired state, that nothing
    is left to want once it is written: the desired state computed from the written
    one is the written one. *)

From S2P Require Import Prelude Sdk GoBytes Xdr Scval Interaction Lanes LaneSequence LaneLedger.

(** ** Unordered comparison is equality up to a permutation *)

Section Unordered.
Context {A : Type} `{Countable A}.

Definition count (x : A) (l : list A) : Z := Z.of_nat (length (filter (fun y => y = x) l)).

Lemma count_cons x y l : count x (y :: l) = count x l + (if decide (y = x) then 1 else 0).
Proof. unfold count. rewrite filter_cons. case_decide; simpl; lia. Qed.

Lemma bump_lookup d (m : gmap A Z) x y :
  default 0 (bump d m x !! y) = default 0 (m !! y) + (if decide (x = y) then d else 0).
Proof.
  unfold bump. case_decide as E; [subst; by rewrite lookup_insert_eq|].
  rewrite lookup_insert_ne by done. lia.
Qed.

Lemma counts_lookup (l : list A) (m : gmap A Z) x :
  default 0 (foldl (bump 1) m l !! x) = default 0 (m !! x) + count x l.
Proof.
  revert m. induction l as [|y l IH]; intros m; simpl; [unfold count; simpl; lia|].
  rewrite IH, bump_lookup, count_cons. lia.
Qed.

Lemma lower_counts_spec (b : list A) (m : gmap A Z) :
  (forall x, 0 <= default 0 (m !! x)) ->
  lower_counts m b = true <-> (forall x, count x b <= default 0 (m !! x)).
Proof.
  revert m. induction b as [|y b IH]; intros m Hm; simpl.
  { split; [|done]. intros _ x. unfold count; simpl. apply Hm. }
  pose proof (bump_lookup (-1) m y y) as Hy. rewrite decide_True in Hy by done.
  destruct (Z.ltb_spec (default 0 (bump (-1) m y !! y)) 0) as [Hlt|Hge].
  - split; [done|]. intros Hx. specialize (Hx y). rewrite count_cons, decide_True in Hx by done.
    assert (0 <= count y b) by (unfold count; lia). lia.
  - rewrite IH.
    + split; intros Hx x; specialize (Hx x); rewrite ?count_cons, ?bump_lookup in *;
        case_decide; lia.
    + intros x. rewrite bump_lookup. specialize (Hm x). case_decide; subst; lia.
Qed.

Lemma unordered_equal_refl (l : list A) : unordered_equal l l = true.
Proof.
  unfold unordered_equal. rewrite Nat.eqb_refl. simpl. apply lower_counts_spec.
  - intros x. rewrite counts_lookup, lookup_empty. unfold count. simpl. lia.
  - intros x. rewrite counts_lookup, lookup_empty. simpl. lia.
Qed.

Lemma count_le_submseteq (a b : list A) : (forall x, count x b <= count x a) -> exists k, a ≡ₚ b ++ k.
Proof.
  revert a. induction b as [|y b IH]; intros a Hc; [by exists a|].
  assert (y ∈ a) as Hy.
  { specialize (Hc y). rewrite count_cons, decide_True in Hc by done.
    destruct (decide (y ∈ a)) as [|Hn]; [done|]. exfalso.
    assert (filter (fun z => z = y) a = []) as E.
    { destruct (filter (fun z => z = y) a) as [|z r] eqn:E; [done|].
      assert (z ∈ filter (fun z => z = y) a) as [-> Hz]%list_elem_of_filter
        by (rewrite E; by left). done. }
    revert Hc. unfold count. rewrite E. simpl. lia. }
  apply list_elem_of_split in Hy as (a1 & a2 & ->).
  destruct (IH (a1 ++ a2)) as [k Hk].
  { intros x. specialize (Hc x). revert Hc. unfold count.
    rewrite !list.filter_app, !filter_cons, !length_app. case_decide; simpl; lia. }
  exists k. rewrite <- Permutation_middle. simpl. by rewrite Hk.
Qed.

Lemma unordered_equal_Permutation (a b : list A) : unordered_equal a b = true <-> a ≡ₚ b.
Proof.
  split.
  - unfold unordered_equal. destruct (Nat.eqb_spec (length a) (length b)) as [El|]; [|done].
    simpl. intros Hl. rewrite lower_counts_spec in Hl
      by (intros x; rewrite counts_lookup, lookup_empty; unfold count; simpl; lia).
    destruct (count_le_submseteq a b) as [k Hk].
    { intros x. specialize (Hl x). rewrite counts_lookup, lookup_empty in Hl. simpl in Hl. lia. }
    assert (k = []) as ->; [|by rewrite app_nil_r in Hk].
    apply length_zero_iff_nil. apply Permutation_length in Hk. rewrite length_app in Hk. lia.
  - intros Hp. unfold unordered_equal. rewrite (Permutation_length Hp), Nat.eqb_refl. simpl.
    apply lower_counts_spec.
    + intros x. rewrite counts_lookup, lookup_empty. unfold count. simpl. lia.
    + intros x. rewrite counts_lookup, lookup_empty. unfold count. simpl. rewrite Hp. lia.
Qed.

End Unordered.

(** ** Tables *)

Section Tables.
Context {A U : Type} (k : U -> Z) (h : U -> A -> A).

(** The common form of the writes of LaneLedger.v. *)
Definition write_table (c : string) (us : list U) (f : string -> Z -> A) : string -> Z -> A :=
  foldl (fun f u => upd f c (k u) (h u (f c (k u)))) f us.

Lemma write_table_other c us f c' s : c' <> c -> write_table c us f c' s = f c' s.
Proof.
  intros Hc. revert f. induction us as [|u us IH]; intros f; simpl; [done|].
  rewrite IH. unfold upd. by rewrite decide_False by tauto.
Qed.

Lemma write_table_ext c us f f' s :
  (forall s, f c s = f' c s) -> write_table c us f c s = write_table c us f' c s.
Proof.
  revert f f'. induction us as [|u us IH]; intros f f' E; simpl; [done|].
  apply IH. intros s'. unfold upd. by rewrite !E.
Qed.

Lemma write_table_notin c us f s :
  Forall (fun u => k u <> s) us -> write_table c us f c s = f c s.
Proof.
  revert f. induction us as [|u us IH]; intros f Hf; simpl; [done|].
  apply Forall_cons_1 in Hf as [Hu Hf]. rewrite IH by done. unfold upd.
  rewrite decide_False; [done|]. intros [_ ?]. by apply Hu.
Qed.

Lemma write_table_omap (g : Z -> option U) c l f s :
  NoDup l -> (forall s u, g s = Some u -> k u = s) -> s ∈ l ->
  write_table c (omap g l) f c s = match g s with Some u => h u (f c s) | None => f c s end.
Proof.
  intros Hl Hg. revert f. induction Hl as [|s' l Hs' Hl IH]; intros f Hs.
  { by apply not_elem_of_nil in Hs. }
  apply elem_of_cons in Hs as [->|Hs].
  - assert (Forall (fun u => k u <> s') (omap g l)).
    { apply list.Forall_forall. intros u (s2 & Hs2 & Hu)%list_elem_of_omap E.
      apply Hg in Hu as <-. by rewrite E in Hs2. }
    simpl. destruct (g s') as [u|] eqn:Eg; simpl; rewrite write_table_notin by done; [|done].
    unfold upd. apply Hg in Eg. subst. by rewrite decide_True.
  - simpl. destruct (g s') as [u|] eqn:Eg; simpl; rewrite IH by done; [|done].
    unfold upd. apply Hg in Eg. subst s'. rewrite decide_False; [done|]. intros [_ ->]. done.
Qed.

End Tables.

(** ** Selectors *)

Lemma elem_of_sorted_selectors {A} (m : gmap Z A) s : s ∈ sorted_selectors m <-> is_Some (m !! s).
Proof.
  unfold sorted_selectors. rewrite merge_sort_Permutation, list_elem_of_fmap. split.
  - intros ([s' a] & -> & Ha%elem_of_map_to_list). by exists a.
  - intros [a Ha]. exists (s, a). split; [done|]. by apply elem_of_map_to_list.
Qed.

Lemma NoDup_sorted_selectors {A} (m : gmap Z A) : NoDup (sorted_selectors m).
Proof. unfold sorted_selectors. rewrite merge_sort_Permutation. apply NoDup_fst_map_to_list. Qed.

(** ** Wants *)

(** The entry a plan has for a selector. *)
Definition want {R A B} (m : gmap Z R) (f : Z -> R -> outcome (option A)) (mk : Z -> A -> B)
    (s : Z) : option B :=
  rc ← m !! s;
  match f s rc with Returns o => mk s <$> o | _ => None end.

Lemma want_selector {R A B} (m : gmap Z R) f (mk : Z -> A -> B) (k : B -> Z) s u :
  (forall s a, k (mk s a) = s) -> want m f mk s = Some u -> k u = s.
Proof.
  intros Hk. unfold want. destruct (m !! s) as [rc|]; simpl; [|done].
  destruct (f s rc) as [[a|]|e|]; simpl; try done. by intros [= <-].
Qed.

Section Plans.
Context `{Codec} `{LaneSdk}.
Context (v : View) (input : ConfigureChainForLanesInput) (ids : LocalIDs).

Definition onramp_arg (s : Z) (_ : RemoteChainConfig) : outcome (option string) :=
  Returns (if bool_decide (v_onramp v (routerID ids) s = Some (onRampID ids)) then None
           else Some (onRampID ids)).

Definition offramp_arg (_ : Z) (_ : RemoteChainConfig) : outcome (option string) :=
  Returns (Some (offRampID ids)).

Definition executor_arg_of (c : string) (s : Z) (rc : RemoteChainConfig)
    : outcome (option Executor.RemoteChainConfig) :=
  o ← executor_arg v s rc;
  mret (match o with Some (c', cfg) => if decide (c' = c) then Some cfg else None | None => None end).

Definition wants {A B} (f : Z -> RemoteChainConfig -> outcome (option A)) (mk : Z -> A -> B)
    (l : list Z) : list B :=
  omap (want (RemoteChains input) f mk) l.

Definition source_wants := wants (source_arg v ids) OffRamp.mkSourceChainConfigArgs.
Definition dest_wants :=
  wants (dest_arg v ids (AllowLoweringBaseExecutionGasCost input)) OnRamp.mkDestChainConfigArgs.
Definition feequoter_wants :=
  wants (fun s rc => Returns (feequoter_arg v ids s rc)) FeeQuoter.mkDestChainConfigArgs.
Definition onramp_wants := wants onramp_arg mkRampEntry.
Definition offramp_wants := wants offramp_arg mkRampEntry.
Definition executor_wants (c : string) :=
  wants (executor_arg_of c) Executor.mkRemoteChainConfigArgs.

(** Every part of a remote chain's desired state could be resolved. *)
Definition resolved (s : Z) : Prop :=
  forall rc, RemoteChains input !! s = Some rc ->
    is_done (source_arg v ids s rc) = true /\
    is_done (dest_arg v ids (AllowLoweringBaseExecutionGasCost input) s rc) = true /\
    is_done (executor_arg v s rc) = true.

(** The plan [p'] is [p] with the wants of [l]. *)
Record extends (l : list Z) (p p' : Plan) : Prop := {
  ext_source : offRampArgs p' = offRampArgs p ++ source_wants l;
  ext_dest : onRampArgs p' = onRampArgs p ++ dest_wants l;
  ext_feequoter : fqArgs p' = fqArgs p ++ feequoter_wants l;
  ext_onramp : onRampAdds p' = onRampAdds p ++ onramp_wants l;
  ext_offramp : offRampAdds p' = offRampAdds p ++ offramp_wants l;
  ext_executor : forall c, default [] (executorArgsByContract p' !! c) =
    default [] (executorArgsByContract p !! c) ++ executor_wants c l;
  ext_resolved : forall s, s ∈ l -> resolved s
}.

Lemma wants_cons {A B} f (mk : Z -> A -> B) s l :
  wants f mk (s :: l) = wants f mk [s] ++ wants f mk l.
Proof. unfold wants. simpl. by destruct (want _ f mk s). Qed.

Lemma extends_nil p : extends [] p p.
Proof.
  split; intros; unfold source_wants, dest_wants, feequoter_wants, onramp_wants, offramp_wants,
    executor_wants, wants; simpl; rewrite ?app_nil_r; try done. by apply not_elem_of_nil in H1.
Qed.

Lemma extends_cons s l p p1 p2 : extends [s] p p1 -> extends l p1 p2 -> extends (s :: l) p p2.
Proof.
  intros [A1 A2 A3 A4 A5 A6 A7] [B1 B2 B3 B4 B5 B6 B7].
  split; unfold source_wants, dest_wants, feequoter_wants, onramp_wants, offramp_wants,
    executor_wants in *; intros; rewrite ?(wants_cons _ _ s l), ?app_assoc.
  - by rewrite B1, A1.
  - by rewrite B2, A2.
  - by rewrite B3, A3.
  - by rewrite B4, A4.
  - by rewrite B5, A5.
  - by rewrite B6, A6.
  - apply elem_of_cons in H1 as [->|?]; [apply A7; by left|auto].
Qed.

Lemma plan_remote_extends s rc p p' :
  RemoteChains input !! s = Some rc -> plan_remote v input ids s rc p = Returns p' ->
  extends [s] p p'.
Proof.
  intros Hrc. unfold plan_remote.
  destruct (source_arg v ids s rc) as [o1|?|] eqn:E1; simpl; try done.
  destruct (dest_arg v ids _ s rc) as [o2|?|] eqn:E2; simpl; try done.
  destruct (executor_arg v s rc) as [o3|?|] eqn:E3; simpl; try done. intros [= <-].
  split; simpl; intros; unfold source_wants, dest_wants, feequoter_wants, onramp_wants,
    offramp_wants, executor_wants, wants, want; simpl; rewrite ?Hrc; simpl; rewrite ?E1, ?E2; simpl.
  - by destruct o1.
  - by destruct o2.
  - by destruct (feequoter_arg v ids s rc).
  - by case_bool_decide.
  - done.
  - unfold executor_arg_of. rewrite E3. simpl. destruct o3 as [[c' cfg]|]; simpl;
      [|by rewrite app_nil_r].
    case_decide as Ec; [subst; by rewrite lookup_insert_eq|].
    rewrite lookup_insert_ne by done. by rewrite app_nil_r.
  - apply list_elem_of_singleton in H1 as ->. intros rc' E. rewrite Hrc in E.
    injection E as <-. by rewrite E1, E2, E3.
Qed.

Lemma skip_extends s p : RemoteChains input !! s = None -> extends [s] p p.
Proof.
  intros Hrc. split; intros; unfold source_wants, dest_wants, feequoter_wants, onramp_wants,
    offramp_wants, executor_wants, wants, want; simpl; rewrite ?Hrc; simpl; rewrite ?app_nil_r;
    try done. apply list_elem_of_singleton in H1 as ->. intros rc. by rewrite Hrc.
Qed.

Lemma plan_all_extends l p p' : plan_all v input ids l p = Returns p' -> extends l p p'.
Proof.
  revert p. induction l as [|s l IH]; intros p; simpl; [intros [= <-]; apply extends_nil|].
  destruct (RemoteChains input !! s) as [rc|] eqn:Hrc.
  - destruct (plan_remote v input ids s rc p) as [p1|?|] eqn:E; simpl; try done.
    intros Hp. eapply extends_cons; [by eapply plan_remote_extends|by apply IH].
  - intros Hp. eapply extends_cons; [by apply skip_extends|by apply IH].
Qed.

(** A remote chain whose desired state is all on chain. *)
Definition settled_remote (s : Z) : Prop :=
  forall rc, RemoteChains input !! s = Some rc ->
    source_arg v ids s rc = Returns None /\
    dest_arg v ids (AllowLoweringBaseExecutionGasCost input) s rc = Returns None /\
    feequoter_arg v ids s rc = None /\
    executor_arg v s rc = Returns None /\
    v_onramp v (routerID ids) s = Some (onRampID ids) /\
    default ""%string (list.last (v_offramps v (routerID ids) s)) = offRampID ids.

Lemma offramp_wants_cons s l :
  offramp_wants (s :: l) =
    match RemoteChains input !! s with Some _ => [mkRampEntry s (offRampID ids)] | None => [] end
    ++ offramp_wants l.
Proof. unfold offramp_wants, wants. simpl. unfold want. by destruct (RemoteChains input !! s). Qed.

(** Nothing is planned for it but its offramp, which Phase 2 drops. *)
Lemma settled_plan l p :
  Forall settled_remote l ->
  plan_all v input ids l p = Returns (mkPlan (offRampArgs p) (onRampArgs p) (fqArgs p)
    (onRampAdds p) (offRampAdds p ++ offramp_wants l) (executorArgsByContract p)).
Proof.
  intros Hl. revert p. induction Hl as [|s l Hs Hl IH]; intros p.
  { unfold offramp_wants, wants. simpl. rewrite app_nil_r. by destruct p. }
  rewrite offramp_wants_cons. simpl.
  destruct (RemoteChains input !! s) as [rc|] eqn:Hrc.
  - destruct (Hs rc Hrc) as (E1 & E2 & E3 & E4 & E5 & E6).
    unfold plan_remote. rewrite E1, E2, E3, E4, E5, bool_decide_true by done.
    simpl. rewrite IH. simpl. by rewrite !app_nil_r, <- app_assoc.
  - by rewrite IH.
Qed.

Lemma settled_not_taken s rc :
  RemoteChains input !! s = Some rc -> settled_remote s -> taken v input ids s = false.
Proof.
  intros Hrc Hs. destruct (Hs rc Hrc) as (_ & _ & _ & _ & E & _). unfold taken. rewrite E.
  by rewrite bool_decide_true.
Qed.

End Plans.

(** ** The comparisons are reflexive *)

Lemma source_differs_refl x : source_differs x x = false.
Proof.
  unfold source_differs, unorderedBytesSliceEqual, unorderedStringSliceEqual.
  by rewrite !unordered_equal_refl, eqb_reflx, bool_decide_true.
Qed.

Lemma dest_differs_refl x : onRampDestChainConfigDiffers x x = false.
Proof.
  unfold onRampDestChainConfigDiffers, unorderedStringSliceEqual.
  by rewrite !unordered_equal_refl, eqb_reflx, !Z.eqb_refl, !bool_decide_true.
Qed.

Lemma feequoter_equal_refl x : feeQuoterDestChainConfigEqualTo x x = true.
Proof. by apply bool_decide_true. Qed.

(** ** The desired states are fixed points *)

Lemma keep_list_idem {A} (d c : list A) : keep_list d (keep_list d c) = keep_list d c.
Proof. by destruct d. Qed.

Lemma keep_Z_idem d c : keep_Z d (keep_Z d c) = keep_Z d c.
Proof. unfold keep_Z. by destruct (d =? 0). Qed.

Lemma desired_source_idem r rc on d l cur :
  desired_source r rc on d l (desired_source r rc on d l cur) = desired_source r rc on d l cur.
Proof.
  unfold desired_source. simpl. rewrite !keep_list_idem. by destruct (AllowTrafficFrom rc).
Qed.

Lemma desired_dest_idem r rc o l e cur :
  desired_dest r rc o l e (desired_dest r rc o l e cur) = desired_dest r rc o l e cur.
Proof.
  unfold desired_dest. simpl. rewrite !keep_list_idem, !keep_Z_idem.
  by destruct (r_TokenReceiverAllowed rc).
Qed.

Lemma default_idem {A} (x : A) o : default (default x o) o = default x o.
Proof. by destruct o. Qed.

(** An unset field is truncated once: then it fits. *)
Lemma truncated_idem (o : option Z) x w :
  0 < w <= 2 ^ 32 ->
  u32 (default (u32 (default (x mod w) o) mod w) o) = u32 (default (x mod w) o).
Proof.
  intros Hw. destruct o as [y|]; simpl; [done|].
  assert (0 <= x mod w < w) by (apply Z.mod_pos_bound; lia).
  rewrite (u32_id (x mod w)) by (unfold is_u32, two32; lia).
  rewrite Z.mod_mod by lia. apply u32_id. unfold is_u32, two32. lia.
Qed.

Lemma desired_feequoter_idem o cur :
  desired_feequoter o (desired_feequoter o cur) = desired_feequoter o cur.
Proof.
  unfold desired_feequoter. simpl. unfold u8, u16. by rewrite !truncated_idem, !default_idem by lia.
Qed.

(** ** The parts of a remote chain *)

Section Settles.
Context `{Codec} `{LaneSdk}.
Context (v v' : View) (ids : LocalIDs) (s : Z) (rc : RemoteChainConfig).

(** The parts that do not read the chain resolve in both views, or in neither. *)
Ltac resolve_parts := repeat (destruct (out_of_res _); cbn [mbind outcome_bind]; try done).

(** What a written part reads as. *)
Definition settle {A} (o cur : option A) : option A :=
  match o with Some d => Some d | None => cur end.

Lemma source_settles o :
  source_arg v ids s rc = Returns o ->
  v_source v' (offRampID ids) s = settle o (v_source v (offRampID ids) s) ->
  source_arg v' ids s rc = Returns None.
Proof.
  unfold source_arg. resolve_parts. intros [= <-].
  case_match eqn:Ed; simpl; intros ->; simpl; [|by rewrite Ed].
  by rewrite desired_source_idem, source_differs_refl.
Qed.

Lemma dest_settles low o :
  dest_arg v ids low s rc = Returns o ->
  OnRamp.c_dest <$> v_dest v' (onRampID ids) s =
    settle o (OnRamp.c_dest <$> v_dest v (onRampID ids) s) ->
  dest_arg v' ids low s rc = Returns None.
Proof.
  unfold dest_arg. resolve_parts.
  case_match eqn:Eg; [done|]. intros [= <-].
  case_match eqn:Ed; intros ->; cbn [settle default from_option id]; [|by rewrite Eg, Ed].
  by rewrite desired_dest_idem, dest_differs_refl, Z.ltb_irrefl.
Qed.

Lemma feequoter_settles :
  v_feequoter v' (feeQuoterID ids) s =
    settle (feequoter_arg v ids s rc) (v_feequoter v (feeQuoterID ids) s) ->
  feequoter_arg v' ids s rc = None.
Proof.
  unfold feequoter_arg.
  destruct (negb _ && _) eqn:Eo; simpl; [intros ->; by rewrite Eo|].
  destruct (feeQuoterDestChainConfigEqualTo _ _) eqn:Ee; simpl; intros ->; simpl.
  - by rewrite Eo, Ee.
  - rewrite desired_feequoter_idem, feequoter_equal_refl.
    by match goal with |- (if ?b then _ else _) = _ => destruct b end.
Qed.

Lemma executor_settles o :
  executor_arg v s rc = Returns o ->
  (forall c cfg, o = Some (c, cfg) -> v_executor v' c s = Some cfg) ->
  (forall c, (forall cfg, o <> Some (c, cfg)) -> v_executor v' c s = v_executor v c s) ->
  executor_arg v' s rc = Returns None.
Proof.
  unfold executor_arg. destruct (SkipExecutorConfig rc); [done|].
  destruct (out_of_res _) as [c|?|]; simpl; [|done..]. intros [= <-].
  case_bool_decide as Ec; intros H1 H2; simpl.
  - rewrite (H2 c) by done. by rewrite bool_decide_true.
  - rewrite (H1 c _ eq_refl). by rewrite bool_decide_true.
Qed.

End Settles.
