(* ===== verification/LaneVerifiers.v ===== *)
(** * Committee verifiers of a lane configuration

    The signature quorums and the allowed finality: read, compared and written
    verifier by verifier.  Verifiers at distinct contracts do not disturb each
    other, so that each is settled at the end; a settled verifier is only read. *)

From S2P Require Import Prelude Sdk GoBytes Xdr Scval Interaction Lanes LaneSequence LaneLedger LaneConverge.

(** ** Rules shared by the phases of the sequence *)

(** Why a program may fail: a request did, or else [P]. *)
Definition failed_or (P : Prop) (tr : ltrace) (v : View) : Prop := some_failed tr \/ P.

Lemma failed_or_mono (P P' : Prop) tr v : (P -> P') -> failed_or P tr v -> failed_or P' tr v.
Proof. unfold failed_or. tauto. Qed.

Lemma vwp_reader {A} (m : L A) p (R : A -> ltrace -> View -> Prop) (E : ltrace -> View -> Prop) tr v :
  reader v m p ->
  (forall a tr', reads_only tr tr' -> p = Returns a -> R a tr' v) ->
  (forall tr', reads_only tr tr' -> some_failed tr' \/ is_done p = false -> E tr' v) ->
  vwp m (post R E) tr v.
Proof.
  intros Hm HR HE. eapply swp_weaken; [apply Hm| |].
  - intros a tr' v' (-> & ? & ?). by apply HR.
  - intros tr' v' (-> & ? & ?). by apply HE.
Qed.

(** A write that is left out when there is nothing to write. *)
Lemma vwp_write_if {A} (l : list A) w pre r (R : unit -> ltrace -> View -> Prop) P tr v :
  (l = [] -> written v r = v) ->
  (forall R' : unit -> ltrace -> View -> Prop,
     (forall x, R' tt (after tr r x) (written v r)) -> vwp w (post R' (failed_or P)) tr v) ->
  (forall tr', R tt tr' (written v r)) ->
  vwp (write_if l (lwrap pre w)) (post R (failed_or P)) tr v.
Proof.
  intros Hl Hw HR. destruct l as [|a l]; simpl.
  - rewrite <- (Hl eq_refl). apply HR.
  - apply swp_pwrap, Hw. intros x. apply HR.
Qed.

Section Verifiers.
Context `{Codec} `{LaneSdk}.

Definition verifier_id (cv : CommitteeVerifierConfig) : res string :=
  stellarCommitteeVerifierContractID (CommitteeVerifier cv).

Definition verifier_ids (cvs : list CommitteeVerifierConfig) : list string :=
  omap (fun cv => match verifier_id cv with Ok c => Some c | Err _ => None end) cvs.

Lemma verifier_ids_cons cv c cvs :
  verifier_id cv = Ok c -> verifier_ids (cv :: cvs) = c :: verifier_ids cvs.
Proof. intros E. unfold verifier_ids. simpl. by rewrite E. Qed.

Lemma elem_of_verifier_ids cv c cvs : cv ∈ cvs -> verifier_id cv = Ok c -> c ∈ verifier_ids cvs.
Proof. intros Hc E. apply list_elem_of_omap. exists cv. by rewrite E. Qed.

(** ** Signature quorums *)

Definition quorum_arg (v : View) (c : string) (s : Z) (sig : SignatureInput)
    : outcome (option SignatureQuorumConfig) :=
  if Nat.eqb (length (s_Signers sig)) 0 && (s_Threshold sig =? 0) then mret None
  else if Nat.eqb (length (s_Signers sig)) 0
  then Errs (ErrorString "no committee signers resolved for remote chain")
  else
    signers ← out_of_res (signers_of (s_Signers sig));
    let desired := mkSignatureQuorumConfig s (u32 (s_Threshold sig)) signers in
    mret (if match v_sig v c s with
             | Some cur => (q_Threshold cur =? q_Threshold desired) &&
                           unorderedSignersEqual (q_Signers cur) (q_Signers desired)
             | None => false
             end
          then None else Some desired).

Fixpoint quorums_all (v : View) (c : string) (remotes : gmap Z SignatureInput) (l : list Z)
    (acc : list SignatureQuorumConfig) : outcome (list SignatureQuorumConfig) :=
  match l with
  | [] => mret acc
  | s :: l' =>
      match remotes !! s with
      | None => quorums_all v c remotes l' acc
      | Some sig =>
          o ← quorum_arg v c s sig; quorums_all v c remotes l' (acc ++ option_list o)
      end
  end.

Lemma reader_quorum_step v c s sig acc :
  reader v (quorum_step c s sig acc) (o ← quorum_arg v c s sig; mret (acc ++ option_list o)).
Proof.
  unfold quorum_step, quorum_arg.
  eapply reader_eq; [repeat reader_step|]. outcome_eq.
Qed.

Lemma reader_collect_quorums v c remotes l acc :
  reader v (collect_quorums c remotes l acc) (quorums_all v c remotes l acc).
Proof.
  revert acc. induction l as [|s l IH]; intros acc; simpl; [apply reader_ret|].
  destruct (remotes !! s) as [sig|]; [|apply IH].
  eapply reader_eq; [apply reader_bind; [apply reader_quorum_step|intros; apply IH]|].
  by destruct (quorum_arg v c s sig).
Qed.

Definition quorum_wants (v : View) (c : string) (remotes : gmap Z SignatureInput) :=
  want remotes (quorum_arg v c) (fun _ q => q).

Lemma quorums_all_wants v c remotes l acc q :
  quorums_all v c remotes l acc = Returns q ->
  q = acc ++ omap (quorum_wants v c remotes) l /\
  (forall s sig, s ∈ l -> remotes !! s = Some sig -> is_done (quorum_arg v c s sig) = true).
Proof.
  revert acc. induction l as [|s l IH]; intros acc; simpl.
  { intros [= <-]. rewrite app_nil_r. split; [done|]. by intros ? ? ?%not_elem_of_nil. }
  unfold quorum_wants at 1, want. destruct (remotes !! s) as [sig|] eqn:Es; simpl.
  - destruct (quorum_arg v c s sig) as [o|?|] eqn:Eq; simpl; [|done..]. intros [-> Hl]%IH. split.
    + rewrite <- app_assoc. by destruct o.
    + intros s' sig' [->|?]%elem_of_cons Hs'; [|by eapply Hl]. rewrite Es in Hs'.
      injection Hs' as <-. by rewrite Eq.
  - intros [-> Hl]%IH. split; [done|].
    intros s' sig' [->|?]%elem_of_cons Hs'; [congruence|by eapply Hl].
Qed.

(** The configurations a quorum can be made of. *)
Definition sig_ok (sig : SignatureInput) : bool :=
  if Nat.eqb (length (s_Signers sig)) 0 then s_Threshold sig =? 0
  else is_ok (signers_of (s_Signers sig)).

Lemma quorum_arg_done v c s sig : is_done (quorum_arg v c s sig) = sig_ok sig.
Proof.
  unfold quorum_arg, sig_ok. destruct (Nat.eqb _ _); simpl; [by case_match|].
  by destruct (signers_of _).
Qed.

Lemma quorums_all_done v c remotes l acc :
  (forall s sig, remotes !! s = Some sig -> sig_ok sig = true) ->
  is_done (quorums_all v c remotes l acc) = true.
Proof.
  intros Hok. revert acc. induction l as [|s l IH]; intros acc; simpl; [done|].
  destruct (remotes !! s) as [sig|] eqn:Es; [|done]. apply Hok in Es.
  rewrite <- (quorum_arg_done v c s) in Es. by destruct (quorum_arg v c s sig); simpl in *.
Qed.

Definition verifier_ok (cv : CommitteeVerifierConfig) : Prop :=
  is_ok (verifier_id cv) = true /\
  forall s sig, cv_RemoteChains cv !! s = Some sig -> sig_ok sig = true.

Definition bad_verifiers (cvs : list CommitteeVerifierConfig) : Prop := ~ Forall verifier_ok cvs.

Lemma bad_verifiers_head cv cvs : ~ verifier_ok cv -> bad_verifiers (cv :: cvs).
Proof. by intros Hn [? _]%Forall_cons_1. Qed.

Lemma bad_verifiers_tail cv cvs : bad_verifiers cvs -> bad_verifiers (cv :: cvs).
Proof. by intros Hn [_ ?]%Forall_cons_1. Qed.

Lemma unresolved_verifier cv cvs e : verifier_id cv = Err e -> bad_verifiers (cv :: cvs).
Proof. intros E. apply bad_verifiers_head. intros [Hok _]. by rewrite E in Hok. Qed.

Definition settled_quorums (v : View) (c : string) (remotes : gmap Z SignatureInput) : Prop :=
  forall s sig, remotes !! s = Some sig -> quorum_arg v c s sig = Returns None.

Definition settled_verifier (v : View) (cv : CommitteeVerifierConfig) : Prop :=
  exists c, verifier_id cv = Ok c /\ settled_quorums v c (cv_RemoteChains cv).

Lemma quorum_wants_selector v c remotes s u :
  quorum_wants v c remotes s = Some u -> q_SourceChainSelector u = s.
Proof.
  unfold quorum_wants, want. destruct (remotes !! s) as [sig|]; simpl; [|done].
  destruct (quorum_arg v c s sig) as [[q|]|?|] eqn:Eq; simpl; try done. intros [= <-].
  revert Eq. unfold quorum_arg. destruct (_ && _); [done|]. destruct (Nat.eqb _ _); [done|].
  destruct (out_of_res _); simpl; [|done..]. case_match; by intros [= <-].
Qed.

Lemma quorum_settles v v' c s sig o :
  quorum_arg v c s sig = Returns o -> v_sig v' c s = settle o (v_sig v c s) ->
  quorum_arg v' c s sig = Returns None.
Proof.
  unfold quorum_arg. destruct (_ && _); [done|]. destruct (Nat.eqb _ _); [done|].
  destruct (out_of_res _); cbn [mbind outcome_bind]; [|done..]. intros [= <-].
  case_match eqn:Ed; intros ->; simpl; [by rewrite Ed|].
  unfold unorderedSignersEqual. by rewrite Z.eqb_refl, unordered_equal_refl.
Qed.

(** The quorums a verifier wants are settled once written. *)
Lemma quorums_written v c remotes q :
  quorums_all v c remotes (sorted_selectors remotes) [] = Returns q ->
  settled_quorums (written v (ApplySignatureConfigs c q)) c remotes.
Proof.
  intros [-> Hd]%quorums_all_wants s sig Hs. simpl.
  assert (s ∈ sorted_selectors remotes) as Hin by (by apply elem_of_sorted_selectors; eexists).
  specialize (Hd s sig Hin Hs). destruct (quorum_arg v c s sig) as [o|?|] eqn:Eq; [|done..].
  eapply quorum_settles; [exact Eq|]. simpl.
  change (write_sig c) with (write_table q_SourceChainSelector (fun u (_ : option SignatureQuorumConfig) => Some u) c).
  rewrite write_table_omap; [|apply NoDup_sorted_selectors|apply quorum_wants_selector|done].
  unfold quorum_wants, want. rewrite Hs. simpl. rewrite Eq. by destruct o.
Qed.

Lemma set_sig_eta v : set_sig v (v_sig v) = v.
Proof. by destruct v. Qed.

(** Only the signature quorums differ, and only at these contracts. *)
Definition sig_frame (cs : list string) (v v' : View) : Prop :=
  v' = set_sig v (v_sig v') /\ forall c s, c ∉ cs -> v_sig v' c s = v_sig v c s.

Lemma settled_quorums_frame v v' c remotes :
  (forall s, v_sig v' c s = v_sig v c s) ->
  settled_quorums v c remotes -> settled_quorums v' c remotes.
Proof.
  intros E Hs s sig Hsig. rewrite <- (Hs s sig Hsig). unfold quorum_arg. by rewrite E.
Qed.

Lemma vwp_verifier_id cv (R : string -> ltrace -> View -> Prop) (E : ltrace -> View -> Prop) tr v :
  (forall c, verifier_id cv = Ok c -> R c tr v) -> (forall e, verifier_id cv = Err e -> E tr v) ->
  vwp (lift_res (wrap_err "chain: " (stellarCommitteeVerifierContractID (CommitteeVerifier cv))))
    (post R E) tr v.
Proof.
  unfold verifier_id. destruct (stellarCommitteeVerifierContractID _); simpl; eauto.
Qed.

Lemma quorums_phase cvs tr v :
  NoDup (verifier_ids cvs) ->
  vwp (applyCommitteeVerifierSignatureQuorums cvs)
    (post (fun _ _ v' => sig_frame (verifier_ids cvs) v v' /\ Forall (settled_verifier v') cvs) (failed_or (bad_verifiers cvs)))
    tr v.
Proof.
  revert tr v. induction cvs as [|cv cvs IH]; intros tr v Hd.
  { apply swp_ret. split; [|constructor]. split; [by rewrite set_sig_eta|done]. }
  cbn [applyCommitteeVerifierSignatureQuorums].
  apply swp_bind, vwp_verifier_id; [|by intros ? ?%(unresolved_verifier cv cvs); right].
  intros c Hc.
  rewrite (verifier_ids_cons _ _ _ Hc) in Hd |- *. apply list.NoDup_cons in Hd as [Hn Hd].
  apply swp_bind. eapply vwp_reader; [apply reader_collect_quorums| |].
  2:{ intros tr1 _ [?|Hq]; [by left|right]. apply bad_verifiers_head. intros [_ Hok].
      by rewrite quorums_all_done in Hq. }
  intros q tr1 _ Eq.
  apply swp_bind. eapply (vwp_write_if _ _ _ (ApplySignatureConfigs c q)).
  { intros ->. apply set_sig_eta. }
  { intros R' HR'. apply vwp_ApplySignatureConfigs; [done|by left]. }
  intros tr2. eapply swp_weaken;
    [by apply IH| |by intros ? ?; apply failed_or_mono, bad_verifiers_tail]. intros [] tr3 v' [[Hv Hs] Hf].
  split; [split|constructor; [|done]].
  - rewrite Hv. done.
  - intros c' s Hc'. apply not_elem_of_cons in Hc' as [Hc1 Hc2].
    rewrite Hs by done. by apply (write_table_other q_SourceChainSelector (fun u _ => Some u)).
  - exists c. split; [done|]. eapply settled_quorums_frame; [by intros s; apply Hs|].
    by eapply quorums_written.
Qed.

Lemma settled_quorums_all v c remotes l acc :
  settled_quorums v c remotes -> quorums_all v c remotes l acc = Returns acc.
Proof.
  intros Hs. revert acc. induction l as [|s l IH]; intros acc; simpl; [done|].
  destruct (remotes !! s) as [sig|] eqn:Es; [|done]. rewrite (Hs _ _ Es). simpl.
  by rewrite app_nil_r.
Qed.

(** A program that only reads, and succeeds unless a request fails. *)
Definition quiet (v : View) (m : L unit) : Prop := reader v m (Returns tt).

Lemma quiet_then v m1 m2 : quiet v m1 -> quiet v m2 -> quiet v (mbind (fun _ : unit => m2) m1).
Proof. intros H1 H2. apply (reader_bind v _ _ (Returns tt) (fun _ => Returns tt)); auto. Qed.

Lemma quiet_verifier_id v cv c A (f : string -> L A) p :
  verifier_id cv = Ok c -> reader v (f c) p ->
  reader v (mbind f (lift_res (wrap_err "chain: "
    (stellarCommitteeVerifierContractID (CommitteeVerifier cv))))) p.
Proof.
  unfold verifier_id. intros -> Hf.
  apply (reader_bind v _ _ (Returns c) (fun _ => p)); [apply (reader_lift_res v (Ok c))|].
  by intros ? [= <-].
Qed.

Lemma quorums_quiet v cvs :
  Forall (settled_verifier v) cvs -> quiet v (applyCommitteeVerifierSignatureQuorums cvs).
Proof.
  intros Hf. induction Hf as [|cv cvs (c & Hc & Hs) Hf IH]; [apply reader_ret|]. simpl.
  eapply quiet_verifier_id; [exact Hc|].
  refine (reader_bind v _ _ (Returns []) (fun _ => Returns tt) _ _); [|by intros ? [= <-]].
  rewrite <- (settled_quorums_all v c (cv_RemoteChains cv) (sorted_selectors (cv_RemoteChains cv)) [])
    by done.
  apply reader_collect_quorums.
Qed.

(** ** Allowed finality *)

Definition desired_finality (cv : CommitteeVerifierConfig) : Z := get_be (finality_Raw cv).

Definition settled_finality (v : View) (cv : CommitteeVerifierConfig) : Prop :=
  finality_IsZero cv = true \/
  exists c, verifier_id cv = Ok c /\ v_finality v c = desired_finality cv.

Lemma set_finality_eta v : set_finality v (v_finality v) = v.
Proof. by destruct v. Qed.

Definition finality_frame (cs : list string) (v v' : View) : Prop :=
  v' = set_finality v (v_finality v') /\ forall c, c ∉ cs -> v_finality v' c = v_finality v c.

Lemma verifier_ids_tail cv cvs : NoDup (verifier_ids (cv :: cvs)) -> NoDup (verifier_ids cvs).
Proof.
  unfold verifier_ids. simpl. destruct (verifier_id cv); [|done]. by intros [_ ?]%list.NoDup_cons.
Qed.

Lemma finality_frame_tail cv cvs v v' :
  finality_frame (verifier_ids cvs) v v' -> finality_frame (verifier_ids (cv :: cvs)) v v'.
Proof.
  intros [Hv Hs]. split; [done|]. intros c Hc. apply Hs. contradict Hc. unfold verifier_ids. simpl.
  destruct (verifier_id cv); [by right|done].
Qed.

Lemma finality_phase cvs tr v :
  NoDup (verifier_ids cvs) ->
  vwp (applyCommitteeVerifierAllowedFinality cvs)
    (post (fun _ _ v' => finality_frame (verifier_ids cvs) v v' /\ Forall (settled_finality v') cvs) (failed_or (bad_verifiers cvs)))
    tr v.
Proof.
  revert tr v. induction cvs as [|cv cvs IH]; intros tr v Hd.
  { apply swp_ret. split; [|constructor]. split; [by rewrite set_finality_eta|done]. }
  cbn [applyCommitteeVerifierAllowedFinality]. destruct (finality_IsZero cv) eqn:Ez.
  { eapply swp_weaken; [by eapply IH, verifier_ids_tail|
      |by intros ? ?; apply failed_or_mono, bad_verifiers_tail]. intros [] tr' v' [Hfr Hf].
    split; [by eapply finality_frame_tail|]. constructor; [by left|done]. }
  apply swp_bind, vwp_verifier_id; [|by intros ? ?%(unresolved_verifier cv cvs); right].
  intros c Hc.
  rewrite (verifier_ids_cons _ _ _ Hc) in Hd |- *. apply list.NoDup_cons in Hd as [Hn Hd].
  apply swp_bind, swp_pwrap. eapply vwp_reader; [apply reader_GetAllowedFinalityConfig|
    |intros ? _ [?|?]; [by left|done]].
  intros ? tr1 _ [= <-]. apply swp_bind.
  assert (forall tr2 v2, finality_frame [c] v v2 -> v_finality v2 c = desired_finality cv ->
    vwp (applyCommitteeVerifierAllowedFinality cvs)
    (post (fun _ _ v' => finality_frame (c :: verifier_ids cvs) v v' /\
             Forall (settled_finality v') (cv :: cvs)) (failed_or (bad_verifiers (cv :: cvs)))) tr2 v2) as Hrest.
  { intros tr2 v2 [Hv2 Ho] Hfc. eapply swp_weaken;
      [by apply IH| |by intros ? ?; apply failed_or_mono, bad_verifiers_tail].
    intros [] tr3 v' [[Hv Hs] Hf]. split; [split|constructor; [|done]].
    - rewrite Hv, Hv2. done.
    - intros c' [Hc1 Hc2]%not_elem_of_cons. rewrite Hs by done. apply Ho. set_solver.
    - right. exists c. split; [done|]. by rewrite Hs. }
  change (get_be (finality_Raw cv)) with (desired_finality cv).
  destruct (Z.eqb_spec (v_finality v c) (desired_finality cv)) as [Heq|_].
  - apply swp_ret. apply Hrest; [|done]. split; [by rewrite set_finality_eta|done].
  - apply swp_pwrap, vwp_SetAllowedFinalityConfig; [|by left]. intros x. apply Hrest; simpl.
    + split; [done|]. intros c' Hc'. simpl. rewrite decide_False; [done|set_solver].
    + by rewrite decide_True.
Qed.

Lemma finality_quiet v cvs :
  Forall (settled_finality v) cvs -> quiet v (applyCommitteeVerifierAllowedFinality cvs).
Proof.
  intros Hf. induction Hf as [|cv cvs Hs Hf IH]; [apply reader_ret|].
  cbn [applyCommitteeVerifierAllowedFinality].
  destruct (finality_IsZero cv) eqn:Ez; [done|]. destruct Hs as [Hz|(c & Hc & Hs)]; [congruence|].
  eapply quiet_verifier_id; [exact Hc|].
  refine (reader_bind v _ _ (Returns (v_finality v c)) (fun _ => Returns tt) _ _).
  { apply reader_lwrap, reader_GetAllowedFinalityConfig. }
  intros ? [= <-]. change (get_be (finality_Raw cv)) with (desired_finality cv).
  rewrite Hs, Z.eqb_refl. by apply quiet_then; [apply reader_ret|].
Qed.

End Verifiers.
