(* ===== verification/LaneProofs.v ===== *)
(** * A run of the lane configuration

    The phases composed: what the contracts keep after a run that returns
    ([applied]), that every remote chain is then settled, and that a run on
    settled contracts only reads.  The theorems are at the end: a run that returns
    leaves every lane wired as its input says ([wired]), and a run on its own result
    only reads. *)

From S2P Require Import Prelude Sdk GoBytes Xdr Scval Interaction Lanes LaneSequence LaneLedger LaneConverge LaneVerifiers.

(** ** The offramp table *)

Lemma existing_lookup t s : existingOffRampBySource t !! s = list.last (of_source s t).
Proof.
  unfold existingOffRampBySource, of_source. induction t as [|e t IH] using rev_ind; [done|].
  rewrite fold_left_app. simpl. rewrite list.filter_app, fmap_app.
  destruct (decide (e_ChainSelector e = s)) as [E|E].
  - rewrite E, lookup_insert_eq, filter_cons_True by done. simpl. by rewrite last_snoc.
  - rewrite lookup_insert_ne by done. rewrite filter_cons_False by done. simpl.
    by rewrite app_nil_r.
Qed.

(** Whether Phase 2 keeps an offramp. *)
Definition kept (t : list RampEntry) (u : RampEntry) : option RampEntry :=
  if decide (default ""%string (list.last (of_source (e_ChainSelector u) t)) ≠ e_Ramp u)
  then Some u else None.

Lemma filter_offramps_omap t g (l : list Z) :
  filter_offramps t (omap g l) = omap (fun s => u ← g s; kept t u) l.
Proof.
  unfold filter_offramps. induction l as [|s l IH]; [done|]. csimpl.
  destruct (g s) as [u|]; simpl; [|done]. rewrite filter_cons, existing_lookup, IH.
  unfold kept. by case_decide.
Qed.

Section Phases.
Context `{Codec} `{LaneSdk}.
Context (input : ConfigureChainForLanesInput) (ids : LocalIDs).

Abbreviation cvs := (CommitteeVerifiers input).

(** The contracts after every write of the plan [p]. *)
Record applied (v : View) (p : Plan) (v' : View) : Prop := {
  app_source : v_source v' = write_source (offRampID ids) (offRampArgs p) (v_source v);
  app_dest : v_dest v' = write_dest (onRampID ids) (onRampArgs p) (v_dest v);
  app_executor : forall c s, v_executor v' c s =
    write_executor c (default [] (executorArgsByContract p !! c)) (v_executor v) c s;
  app_feequoter : v_feequoter v' = write_feequoter (feeQuoterID ids) (fqArgs p) (v_feequoter v);
  app_onramps : v_onramp v' = write_onramps (routerID ids) (onRampAdds p) (v_onramp v);
  app_offramps : v_offramps v' = write_offramps (routerID ids) (offRampAdds p) (v_offramps v);
  app_quorums : Forall (settled_verifier v') cvs;
  app_finality : Forall (settled_finality v') cvs
}.

(** Only the executors' table differs, as written for these contracts. *)
Definition executors_written (m : gmap string (list Executor.RemoteChainConfigArgs))
    (l : list string) (v v' : View) : Prop :=
  v' = set_executor v (v_executor v') /\
  (forall c s, v_executor v' c s =
     if decide (c ∈ l) then write_executor c (default [] (m !! c)) (v_executor v) c s
     else v_executor v c s).

Lemma write_executor_other c us f c' s : c' <> c -> write_executor c us f c' s = f c' s.
Proof. apply (write_table_other Executor.a_DestChainSelector (fun u _ => Some (Executor.a_Config u))). Qed.

Lemma write_executor_ext c us f f' s :
  (forall s, f c s = f' c s) -> write_executor c us f c s = write_executor c us f' c s.
Proof. apply (write_table_ext Executor.a_DestChainSelector (fun u _ => Some (Executor.a_Config u))). Qed.

Lemma executors_phase m l P tr v :
  NoDup l ->
  vwp (apply_executors m l) (post (fun _ _ v' => executors_written m l v v') (failed_or P)) tr v.
Proof.
  intros Hl. revert tr v. induction Hl as [|c l Hc Hl IH]; intros tr v.
  { apply swp_ret. split; [by destruct v|]. intros c s. by rewrite decide_False by set_solver. }
  cbn [apply_executors]. apply swp_bind, swp_pwrap, vwp_ApplyDestChainUpdates; [|by left].
  intros x. eapply swp_weaken; [apply IH| |done]. intros [] tr' v' [Hv He]. split.
  - rewrite Hv. done.
  - intros c' s. rewrite He. simpl.
    destruct (decide (c' = c)) as [->|Hn].
    + rewrite decide_False by done. by rewrite decide_True by set_solver.
    + assert (forall s, write_executor c (default [] (m !! c)) (v_executor v) c' s =
                        v_executor v c' s) as Ho by (intros; by apply write_executor_other).
      destruct (decide (c' ∈ l)) as [Hin|Hin].
      * rewrite decide_True by set_solver. by apply write_executor_ext.
      * rewrite decide_False by set_solver. by rewrite Ho.
Qed.

Lemma executor_contracts_NoDup (m : gmap string (list Executor.RemoteChainConfigArgs)) :
  NoDup (sort_Strings (map_to_list m).*1).
Proof. unfold sort_Strings. rewrite merge_sort_Permutation. apply NoDup_fst_map_to_list. Qed.

Lemma elem_of_executor_contracts (m : gmap string (list Executor.RemoteChainConfigArgs)) c :
  c ∈ sort_Strings (map_to_list m).*1 <-> is_Some (m !! c).
Proof.
  unfold sort_Strings. rewrite merge_sort_Permutation, list_elem_of_fmap. split.
  - intros ([c' a] & -> & Ha%elem_of_map_to_list). by exists a.
  - intros [a Ha]. exists (c, a). split; [done|]. by apply elem_of_map_to_list.
Qed.

Lemma executors_all_written m v v' :
  executors_written m (sort_Strings (map_to_list m).*1) v v' ->
  forall c s, v_executor v' c s = write_executor c (default [] (m !! c)) (v_executor v) c s.
Proof.
  intros [_ He] c s. rewrite He. case_decide as Hin; [done|].
  rewrite elem_of_executor_contracts in Hin.
  destruct (m !! c) as [us|] eqn:E; [by destruct Hin; eexists|done].
Qed.

Lemma apply_plan_applied p tr v :
  NoDup (verifier_ids cvs) ->
  vwp (apply_plan input ids p)
    (post (fun _ _ v' => applied v p v') (failed_or (bad_verifiers cvs))) tr v.
Proof.
  intros Hd. unfold apply_plan.
  apply swp_bind.
  apply (vwp_write_if _ _ _ (ApplySourceChainCfgUpdates (offRampID ids) (offRampArgs p))).
  { intros E. rewrite E. by destruct v. }
  { intros R' HR'. apply vwp_ApplySourceChainCfgUpdates; [done|by left]. }
  intros tr1. apply swp_bind.
  apply (vwp_write_if _ _ _ (ApplyDestChainConfigUpdates (onRampID ids) (onRampArgs p))).
  { intros E. rewrite E. by destruct v. }
  { intros R' HR'. apply vwp_ApplyDestChainConfigUpdates; [done|by left]. }
  intros tr2. apply swp_bind. eapply swp_weaken;
    [apply executors_phase, executor_contracts_NoDup| |done].
  intros [] tr3 v3 Hx. pose proof (executors_all_written _ _ _ Hx) as He. destruct Hx as [Hv3 _].
  apply swp_bind.
  apply (vwp_write_if _ _ _ (ApplyDestChainConfigs (feeQuoterID ids) (fqArgs p))).
  { intros E. rewrite E. by destruct v3. }
  { intros R' HR'. apply vwp_ApplyDestChainConfigs; [done|by left]. }
  intros tr4. apply swp_bind. eapply swp_weaken; [by apply quorums_phase| |done].
  intros [] tr5 v5 [[Hv5 _] Hq]. apply swp_bind.
  eapply swp_weaken; [by apply finality_phase| |done]. intros [] tr6 v6 [[Hv6 _] Hf].
  apply (vwp_write_if _ _ _ (ApplyRampUpdates (routerID ids) (onRampAdds p) (offRampAdds p))).
  { intros [E1 E2]%app_nil. simpl. rewrite E1, E2. by destruct v6. }
  { intros R' HR'. apply vwp_ApplyRampUpdates; [done|by left]. }
  intros tr7. rewrite Hv6, Hv5, Hv3 in *. simpl in *. split; simpl; try done.
Qed.

(** ** Settled once applied *)

(** The router lists our offramp last for a source chain, if it lists it. *)
Definition ours_last (v : View) (s : Z) : Prop :=
  offRampID ids ∈ v_offramps v (routerID ids) s ->
  list.last (v_offramps v (routerID ids) s) = Some (offRampID ids).

Section Applied.
Context (v v' : View) (l : list Z) (t : list RampEntry) (p0 : Plan).
Hypothesis l_NoDup : NoDup l.
Hypothesis planned : extends v input ids l plan_zero p0.
Hypothesis table : forall s, of_source s t = v_offramps v (routerID ids) s.

Definition final_plan : Plan :=
  mkPlan (offRampArgs p0) (onRampArgs p0) (fqArgs p0) (onRampAdds p0)
    (filter_offramps t (offRampAdds p0)) (executorArgsByContract p0).

Hypothesis written_plan : applied v final_plan v'.

Context (s : Z) (rc : RemoteChainConfig).
Hypothesis s_in : s ∈ l.
Hypothesis s_config : RemoteChains input !! s = Some rc.

(** One table: what is wanted is written, the rest is as it was. *)
Lemma wants_written {A B T} (f : Z -> RemoteChainConfig -> outcome (option A)) (mk : Z -> A -> B)
    (k : B -> Z) (h : B -> T -> T) c (tb : string -> Z -> T) o :
  (forall s a, k (mk s a) = s) -> f s rc = Returns o ->
  write_table k h c (wants input f mk l) tb c s =
    match o with Some a => h (mk s a) (tb c s) | None => tb c s end.
Proof.
  intros Hk Ho. unfold wants. rewrite write_table_omap; [|done|by intros; eapply want_selector|done].
  unfold want. rewrite s_config. simpl. rewrite Ho. by destruct o.
Qed.

Lemma applied_source : source_arg v' ids s rc = Returns None.
Proof.
  destruct (ext_resolved _ _ _ _ _ _ planned s s_in rc s_config) as (Hd & _ & _).
  destruct (source_arg v ids s rc) as [o|?|] eqn:Eo; [|done..].
  eapply source_settles; [exact Eo|]. rewrite (app_source _ _ _ written_plan).
  simpl. rewrite (ext_source _ _ _ _ _ _ planned). simpl.
  etrans; [by apply (wants_written (source_arg v ids) _ OffRamp.a_SourceChainSelector
    (fun u _ => Some (OffRamp.a_config u)) _ _ o)|]. by destruct o.
Qed.

Lemma applied_dest :
  dest_arg v' ids (AllowLoweringBaseExecutionGasCost input) s rc = Returns None.
Proof.
  destruct (ext_resolved _ _ _ _ _ _ planned s s_in rc s_config) as (_ & Hd & _).
  destruct (dest_arg v ids _ s rc) as [o|?|] eqn:Eo; [|done..].
  eapply dest_settles; [exact Eo|]. rewrite (app_dest _ _ _ written_plan).
  simpl. rewrite (ext_dest _ _ _ _ _ _ planned). simpl.
  etrans; [apply f_equal; by apply (wants_written
    (dest_arg v ids (AllowLoweringBaseExecutionGasCost input)) _ OnRamp.a_DestChainSelector
    (fun u cur => Some (OnRamp.mkDestChainConfig (default 0 (OnRamp.MessageNumber <$> cur))
                          (OnRamp.a_dest u))) _ _ o)|]. by destruct o.
Qed.

Lemma applied_feequoter : feequoter_arg v' ids s rc = None.
Proof.
  eapply (feequoter_settles v). rewrite (app_feequoter _ _ _ written_plan).
  simpl. rewrite (ext_feequoter _ _ _ _ _ _ planned). simpl.
  etrans; [by apply (wants_written (fun s rc => Returns (feequoter_arg v ids s rc)) _
    FeeQuoter.a_DestChainSelector (fun u _ => Some (FeeQuoter.a_Config u)) _ _
    (feequoter_arg v ids s rc))|].
  by destruct (feequoter_arg v ids s rc).
Qed.

Lemma applied_executor : executor_arg v' s rc = Returns None.
Proof.
  destruct (ext_resolved _ _ _ _ _ _ planned s s_in rc s_config) as (_ & _ & Hd).
  destruct (executor_arg v s rc) as [o|?|] eqn:Eo; [|done..].
  assert (forall c, v_executor v' c s = match executor_arg_of v c s rc with
            | Returns (Some cfg) => Some cfg | _ => v_executor v c s end) as Hw.
  { intros c. rewrite (app_executor _ _ _ written_plan). simpl.
    rewrite (ext_executor _ _ _ _ _ _ planned). simpl.
    unfold executor_arg_of. rewrite Eo. simpl.
    set (o' := match o with
               | Some (c', cfg) => if decide (c' = c) then Some cfg else None | None => None end).
    etrans; [apply (wants_written (executor_arg_of v c) _ Executor.a_DestChainSelector
      (fun u _ => Some (Executor.a_Config u)) _ _ o'); [done|]|].
    { unfold executor_arg_of. by rewrite Eo. }
    by case_match. }
  unfold executor_arg_of in Hw. rewrite Eo in Hw. simpl in Hw.
  eapply executor_settles; [exact Eo| |].
  - intros c cfg ->. rewrite Hw. by rewrite decide_True.
  - intros c Hn. rewrite Hw. destruct o as [[c' cfg]|]; [|done]. case_decide; [subst|done].
    by destruct (Hn cfg).
Qed.

Lemma applied_onramp : v_onramp v' (routerID ids) s = Some (onRampID ids).
Proof.
  rewrite (app_onramps _ _ _ written_plan). simpl. rewrite (ext_onramp _ _ _ _ _ _ planned). simpl.
  etrans; [by apply (wants_written (onramp_arg v ids) _ e_ChainSelector
    (fun u _ => Some (e_Ramp u)) _ _ (if bool_decide (v_onramp v (routerID ids) s = Some (onRampID ids))
    then None else Some (onRampID ids)))|]. by case_bool_decide.
Qed.

Lemma applied_offramp :
  ours_last v s ->
  default ""%string (list.last (v_offramps v' (routerID ids) s)) = offRampID ids.
Proof.
  intros Hlast. rewrite (app_offramps _ _ _ written_plan). simpl.
  rewrite (ext_offramp _ _ _ _ _ _ planned). simpl. unfold offramp_wants, wants.
  rewrite filter_offramps_omap.
  change (write_offramps (routerID ids)) with (write_table e_ChainSelector
    (fun u rs => if decide (e_Ramp u ∈ rs) then rs else rs ++ [e_Ramp u]) (routerID ids)).
  rewrite write_table_omap; [|done| |done].
  - unfold want. rewrite s_config. simpl. unfold kept. simpl. rewrite table.
    case_decide as Hk; simpl; [|done].
    case_decide as Hin; [by rewrite Hlast|by rewrite last_snoc].
  - intros s' u. unfold want. destruct (RemoteChains input !! s'); simpl; [|done].
    unfold kept. case_decide; simpl; [|done]. by intros [= <-].
Qed.

End Applied.

Lemma applied_settled v v' l t p0 :
  NoDup l -> extends v input ids l plan_zero p0 ->
  (forall s, of_source s t = v_offramps v (routerID ids) s) ->
  applied v (final_plan t p0) v' -> Forall (ours_last v) l -> Forall (settled_remote v' input ids) l.
Proof.
  intros Hl Hp Ht Ha Ho. apply list.Forall_forall. intros s Hs rc Hrc.
  rewrite list.Forall_forall in Ho. split_and!.
  - by eapply applied_source.
  - by eapply applied_dest.
  - by eapply applied_feequoter.
  - by eapply applied_executor.
  - by eapply applied_onramp.
  - by eapply applied_offramp; [..|apply Ho].
Qed.

End Phases.

(** ** A run *)

Section Run.
Context `{Codec} `{LaneSdk}.

(** The chain's own contracts. *)
Definition ids_of (input : ConfigureChainForLanesInput) : outcome LocalIDs :=
  routerID ← out_of_res (wrap_err "router address: " (BytesToContractStrkey (i_Router input)));
  onRampID ← wrap_out "onramp address: " (onRampStrkeyFromWireBytes (i_OnRamp input));
  offRampID ← out_of_res (wrap_err "offramp address: " (BytesToContractStrkey (i_OffRamp input)));
  feeQuoterID ←
    out_of_res (wrap_err "fee quoter address: " (BytesToContractStrkey (i_FeeQuoter input)));
  mret (mkLocalIDs routerID onRampID offRampID feeQuoterID).

Abbreviation selectors input := (sorted_selectors (RemoteChains input)).

(** The contracts are known, no lane of the router is another onramp's unless
    that may be overridden, and the configuration of every remote chain and
    verifier can be resolved, without lowering a gas cost unless that is
    allowed. *)
Definition acceptable (v : View) (input : ConfigureChainForLanesInput) : Prop :=
  exists ids, ids_of input = Returns ids /\
    Forall (fun s => taken v input ids s = false) (selectors input) /\
    is_done (plan_all v input ids (selectors input) plan_zero) = true /\
    Forall verifier_ok (CommitteeVerifiers input).

(** Everything the input asks for is what the contracts keep. *)
Definition settled (v : View) (input : ConfigureChainForLanesInput) : Prop :=
  exists ids, ids_of input = Returns ids /\
    Forall (settled_remote v input ids) (selectors input) /\
    Forall (settled_verifier v) (CommitteeVerifiers input) /\
    Forall (settled_finality v) (CommitteeVerifiers input).

Lemma reader_local_ids v input : reader v (local_ids input) (ids_of input).
Proof.
  unfold local_ids. eapply reader_eq; [repeat reader_step|]. done.
Qed.

Lemma guard_all_done v input ids l m :
  Forall (fun s => taken v input ids s = false) l -> is_done (guard_all v input ids l m) = true.
Proof.
  intros Hf. revert m. induction Hf as [|s l Hs Hf IH]; intros m; simpl; [done|]. by rewrite Hs.
Qed.

(** A run that returns has applied its plan; one that fails had a reason to. *)
Lemma run_applied input tr v :
  NoDup (verifier_ids (CommitteeVerifiers input)) ->
  vwp (runStellarConfigureChainForLanes input)
    (post (fun _ _ v' => exists ids t p0, ids_of input = Returns ids /\
             extends v input ids (selectors input) plan_zero p0 /\
             (forall s, of_source s t = v_offramps v (routerID ids) s) /\
             applied input ids v (final_plan t p0) v')
       (failed_or (~ acceptable v input))) tr v.
Proof.
  intros Hd. unfold runStellarConfigureChainForLanes. apply swp_bind.
  eapply vwp_reader; [apply reader_local_ids| |].
  2:{ intros tr' _ [?|Hi]; [by left|right]. intros (ids & E & _). by rewrite E in Hi. }
  intros ids tr1 _ Ei. apply swp_bind. eapply vwp_reader; [apply reader_guard| |].
  2:{ intros tr' _ [?|Hg]; [by left|right]. intros (ids' & E & Ht & _).
      rewrite Ei in E. injection E as <-. by rewrite guard_all_done in Hg. }
  intros m tr2 _ Em. apply swp_bind.
  apply guard_all_read in Em as [_ Hm].
  eapply vwp_reader; [apply reader_collect; intros s Hs; by rewrite Hm, decide_True| |].
  2:{ intros tr' _ [?|Hp]; [by left|right]. intros (ids' & E & _ & Hp' & _).
      rewrite Ei in E. injection E as <-. by rewrite Hp' in Hp. }
  intros p0 tr3 _ Ep. apply swp_bind, swp_pwrap, vwp_GetOfframps; [|by left].
  intros t x Ht. eapply swp_weaken; [by apply apply_plan_applied| |].
  - intros [] tr4 v' Ha. exists ids, t, p0. split_and!; [done| |done|done]. by apply plan_all_extends.
  - intros tr4 v'. apply failed_or_mono. intros Hb (ids' & _ & _ & _ & ?). by apply Hb.
Qed.

Lemma app_settled input ids v v' t p0 :
  ids_of input = Returns ids -> extends v input ids (selectors input) plan_zero p0 ->
  (forall s, of_source s t = v_offramps v (routerID ids) s) ->
  applied input ids v (final_plan t p0) v' ->
  Forall (ours_last ids v) (selectors input) -> settled v' input.
Proof.
  intros Ei Hp Ht Ha Ho. exists ids. split_and!; [done| | |].
  - eapply applied_settled; eauto using NoDup_sorted_selectors.
  - by eapply app_quorums.
  - by eapply app_finality.
Qed.

(** *** On settled contracts *)

Lemma settled_filter v input ids t l :
  (forall s, of_source s t = v_offramps v (routerID ids) s) ->
  Forall (settled_remote v input ids) l -> filter_offramps t (offramp_wants input ids l) = [].
Proof.
  intros Ht Hf. unfold offramp_wants, wants. rewrite filter_offramps_omap.
  induction Hf as [|s l Hs Hf IH]; [done|]. csimpl.
  unfold want at 1. destruct (RemoteChains input !! s) as [rc|] eqn:Hrc; simpl; [|done].
  destruct (Hs rc Hrc) as (_ & _ & _ & _ & _ & E). unfold kept. simpl. rewrite Ht, E.
  by rewrite decide_False by (intros Hn; by apply Hn).
Qed.

Lemma empty_plan_quiet v input ids :
  Forall (settled_verifier v) (CommitteeVerifiers input) ->
  Forall (settled_finality v) (CommitteeVerifiers input) ->
  quiet v (apply_plan input ids plan_zero).
Proof.
  intros Hq Hf. unfold apply_plan, plan_zero. simpl.
  repeat first [apply quiet_then | by apply quorums_quiet | by apply finality_quiet
               | apply reader_ret].
Qed.

Lemma settled_quiet v input tr :
  settled v input ->
  vwp (runStellarConfigureChainForLanes input)
    (post (fun _ tr' v' => v' = v /\ reads_only tr tr')
       (fun tr' v' => v' = v /\ reads_only tr tr' /\ some_failed tr')) tr v.
Proof.
  intros (ids & Ei & Hr & Hq & Hf). unfold runStellarConfigureChainForLanes. apply swp_bind.
  eapply vwp_reader; [apply reader_local_ids| |].
  2:{ intros tr' Hro [?|Hi]; [done|by rewrite Ei in Hi]. }
  intros ids' tr1 H1 Ei'. rewrite Ei in Ei'. injection Ei' as <-.
  apply swp_bind. eapply vwp_reader; [apply reader_guard| |].
  2:{ intros tr2 H2 [?|Hg]; [split_and!; [done| |done]; by eapply reads_only_trans|].
      rewrite guard_all_done in Hg; [done|]. apply list.Forall_forall. intros s Hs.
      rewrite list.Forall_forall in Hr. apply elem_of_sorted_selectors in Hs as Hi.
      destruct Hi as [rc Hrc]. by eapply settled_not_taken; [|apply Hr]. }
  intros m tr2 H2 Em. apply swp_bind. apply guard_all_read in Em as [_ Hm].
  assert (reads_only tr tr2) as H12 by (by eapply reads_only_trans).
  eapply vwp_reader; [apply reader_collect; intros s Hs; by rewrite Hm, decide_True| |].
  2:{ intros tr3 H3 [?|Hp]; [split_and!; [done| |done]; by eapply reads_only_trans|].
      by rewrite settled_plan in Hp. }
  intros p0 tr3 H3 Ep. rewrite settled_plan in Ep by done. injection Ep as <-.
  assert (reads_only tr tr3) as H13 by (by eapply reads_only_trans).
  apply swp_bind, swp_pwrap, vwp_GetOfframps.
  2:{ intros x Hx. split_and!; [done| |done]. eapply reads_only_trans; [done|].
      by apply reads_only_after. }
  intros t x Ht. simpl. rewrite (settled_filter v) by done.
  assert (reads_only tr (after tr3 (GetOfframps (routerID ids)) x)) as H14
    by (eapply reads_only_trans; [done|by apply reads_only_after]).
  eapply vwp_reader; [by apply empty_plan_quiet| |].
  - intros [] tr4 H4 _. split; [done|]. by eapply reads_only_trans.
  - intros tr4 H4 [?|]; [|done]. split_and!; [done| |done]. by eapply reads_only_trans.
Qed.

End Run.

(** ** A wired lane *)

Section Wired.
Context `{Codec} `{LaneSdk}.
Context (v : View) (ids : LocalIDs) (s : Z) (rc : RemoteChainConfig).

(** What the onramp keeps of the remote chain, zero where it keeps nothing. *)
Definition kept_dest : OnRamp.DestChain :=
  default DestChain_zero (OnRamp.c_dest <$> v_dest v (onRampID ids) s).

Definition kept_source : OffRamp.SourceChainConfig :=
  default SourceChainConfig_zero (v_source v (offRampID ids) s).

(** Messages leave through our onramp, set up for the remote chain. *)
Definition wired_out : Prop :=
  v_onramp v (routerID ids) s = Some (onRampID ids) /\
  OnRamp.Router kept_dest = routerID ids /\
  OnRamp.d_OffRamp kept_dest = r_OffRamp rc /\
  default_executor rc = Ok (OnRamp.DefaultExecutor kept_dest) /\
  (r_BaseExecutionGasCost rc <> 0 ->
     OnRamp.BaseExecutionGasCost kept_dest = r_BaseExecutionGasCost rc) /\
  (forall b, r_TokenReceiverAllowed rc = Some b -> OnRamp.TokenReceiverAllowed kept_dest = b) /\
  (forall l, localContractStrkeys (DefaultOutboundCCVs rc) "default outbound CCV" = Ok l -> l <> [] ->
     OnRamp.DefaultCcvs kept_dest ≡ₚ l).

(** Messages arrive through our offramp, which knows the remote onramps. *)
Definition wired_in : Prop :=
  default ""%string (list.last (v_offramps v (routerID ids) s)) = offRampID ids /\
  OffRamp.Router kept_source = routerID ids /\
  (forall b, AllowTrafficFrom rc = Some b -> OffRamp.IsEnabled kept_source = b) /\
  (r_OnRamps rc <> [] -> OffRamp.OnRamps kept_source ≡ₚ r_OnRamps rc) /\
  Forall (fun onRamp => Exists (fun b => b <> 0) onRamp) (r_OnRamps rc) /\
  (forall l, localContractStrkeys (DefaultInboundCCVs rc) "default inbound CCV" = Ok l -> l <> [] ->
     OffRamp.DefaultCcvs kept_source ≡ₚ l).

(** The lane's executor serves the remote chain, unless it executes by hand. *)
Definition wired_executor : Prop :=
  SkipExecutorConfig rc = true \/
  exists c, localContractStrkey (r_DefaultExecutor rc) "default executor" = Ok c /\
    v_executor v c s =
      Some (Executor.mkRemoteChainConfig (ExecutorEnabled rc) (u32 (ExecutorUSDCentsFee rc))).

(** The fee quoter prices the remote chain: as configured when that overrides,
    and otherwise at least enabled if it is to be. *)
Definition wired_fees : Prop :=
  let o := FeeQuoterDestChainConfig rc in
  let cur := default FeeQuoterConfig_zero (v_feequoter v (feeQuoterID ids) s) in
  (OverrideExistingConfig o = true -> cur = desired_feequoter o cur) /\
  (f_IsEnabled o = Some true -> FeeQuoter.IsEnabled cur = true).

Lemma no_zero_onramp l : check_onRamps l = Ok tt -> Forall (fun x => Exists (fun b => b <> 0) x) l.
Proof.
  induction l as [|x l IH]; simpl; [by constructor|].
  destruct (Nat.eqb (length x) 0); [done|].
  destruct (forallb (fun b => b =? 0) x) eqn:Ez; [done|]. intros Hl. constructor; [|by apply IH].
  clear -Ez. induction x as [|b x IH]; simpl in Ez; [done|].
  destruct (Z.eqb_spec b 0); simpl in Ez; [right; by apply IH|by left].
Qed.

Lemma keep_list_ne {A} (d c : list A) : d <> [] -> keep_list d c = d.
Proof. by destruct d. Qed.

Lemma keep_Z_ne d c : d <> 0 -> keep_Z d c = d.
Proof. unfold keep_Z. by destruct (Z.eqb_spec d 0). Qed.

(** Splits a difference that was not found into the comparisons that hold. *)
Ltac no_difference E :=
  rewrite ?orb_false_iff, ?negb_false_iff, ?bool_decide_eq_true, ?eqb_true_iff, ?Z.eqb_eq,
    ?unordered_equal_Permutation in E.

Lemma out_of_res_inv {A} (r : res A) a : out_of_res r = Returns a -> r = Ok a.
Proof. destruct r; simpl; [by intros [= ->]|done]. Qed.

Lemma source_settled_wired :
  source_arg v ids s rc = Returns None ->
  default ""%string (list.last (v_offramps v (routerID ids) s)) = offRampID ids -> wired_in.
Proof.
  unfold source_arg. fold kept_source. intros Hs Hl.
  destruct (nonZeroSourceOnRamps (r_OnRamps rc)) as [on|?] eqn:Eon; cbn in Hs; [|done].
  destruct (localContractStrkeys (DefaultInboundCCVs rc) _) as [d|?] eqn:Ed; cbn in Hs; [|done].
  destruct (localContractStrkeys (LaneMandatedInboundCCVs rc) _) as [m|?]; cbn in Hs; [|done].
  destruct (source_differs _ _) eqn:E; [done|]. unfold source_differs in E.
  unfold unorderedBytesSliceEqual, unorderedStringSliceEqual in E. no_difference E.
  destruct E as [[[[E1 E2] E3] E4] _]. simpl in E1, E2, E3, E4.
  assert (check_onRamps (r_OnRamps rc) = Ok tt /\ on = r_OnRamps rc) as [Hz ->].
  { unfold nonZeroSourceOnRamps in Eon. destruct (check_onRamps _) as [[]|]; simpl in Eon; [|done].
    by injection Eon as <-. }
  split_and!; [done|done| | |by apply no_zero_onramp|].
  - intros b Hb. by rewrite Hb in E1.
  - intros Hne. by rewrite keep_list_ne in E3.
  - intros l Hd Hne. rewrite Ed in Hd. injection Hd as <-. by rewrite keep_list_ne in E4.
Qed.

Lemma dest_settled_wired low :
  dest_arg v ids low s rc = Returns None ->
  v_onramp v (routerID ids) s = Some (onRampID ids) -> wired_out.
Proof.
  unfold dest_arg. fold kept_dest. intros Hs Hr.
  destruct (localContractStrkeys (DefaultOutboundCCVs rc) _) as [d|?] eqn:Ed; cbn in Hs; [|done].
  destruct (localContractStrkeys (LaneMandatedOutboundCCVs rc) _) as [m|?]; cbn in Hs; [|done].
  destruct (default_executor rc) as [e|?] eqn:Ee; cbn in Hs; [|done].
  destruct (_ && _); [done|].
  destruct (onRampDestChainConfigDiffers _ _) eqn:E; [done|]. unfold onRampDestChainConfigDiffers in E.
  unfold unorderedStringSliceEqual in E. no_difference E.
  destruct E as [[[[[[[[[[E1 _] E2] _] _] _] E3] E4] E5] E6] _].
  simpl in E1, E2, E3, E4, E5, E6.
  split_and!; [done|done|done|by rewrite E3| | |].
  - intros Hne. by rewrite keep_Z_ne in E2.
  - intros b Hb. by rewrite Hb in E4.
  - intros l Hd Hne. rewrite Ed in Hd. injection Hd as <-. by rewrite keep_list_ne in E6.
Qed.

Lemma executor_settled_wired : executor_arg v s rc = Returns None -> wired_executor.
Proof.
  unfold executor_arg, wired_executor. destruct (SkipExecutorConfig rc); [by left|]. right.
  destruct (localContractStrkey _ _) as [c|?]; simpl in *; [|done].
  exists c. split; [done|]. by case_bool_decide.
Qed.

Lemma feequoter_settled_wired : feequoter_arg v ids s rc = None -> wired_fees.
Proof.
  unfold feequoter_arg, wired_fees. set (o := FeeQuoterDestChainConfig rc).
  set (cur := default FeeQuoterConfig_zero _).
  destruct (negb _ && _) eqn:Eo; intros Hs.
  - apply andb_true_iff in Eo as [Ho Hc]. apply negb_true_iff in Ho. split; [congruence|].
    intros _. unfold cur. by destruct (v_feequoter v (feeQuoterID ids) s).
  - destruct (feeQuoterDestChainConfigEqualTo _ _) eqn:E; [|done].
    apply bool_decide_eq_true in E. split; [done|]. intros Hi. rewrite E. simpl. by rewrite Hi.
Qed.

Record wired : Prop := {
  w_out : wired_out;
  w_in : wired_in;
  w_executor : wired_executor;
  w_fees : wired_fees
}.

Lemma settled_wired input :
  RemoteChains input !! s = Some rc -> settled_remote v input ids s -> wired.
Proof.
  intros Hrc Hs. destruct (Hs rc Hrc) as (E1 & E2 & E3 & E4 & E5 & E6). split.
  - by eapply dest_settled_wired.
  - by apply source_settled_wired.
  - by apply executor_settled_wired.
  - by apply feequoter_settled_wired.
Qed.

End Wired.

(** ** The theorems *)

Section Theorems.
Context `{Codec} `{LaneSdk}.

(** The committee verifiers of the input are distinct contracts, and where the
    router lists our offramp for a source chain, it lists it last. *)
Definition separate (v : View) (input : ConfigureChainForLanesInput) : Prop :=
  NoDup (verifier_ids (CommitteeVerifiers input)) /\
  forall ids, ids_of input = Returns ids ->
    Forall (ours_last ids v) (sorted_selectors (RemoteChains input)).

Definition all_wired (v : View) (input : ConfigureChainForLanesInput) : Prop :=
  exists ids, ids_of input = Returns ids /\
    forall s rc, RemoteChains input !! s = Some rc -> wired v ids s rc.

Lemma settled_all_wired v input : settled v input -> all_wired v input.
Proof.
  intros (ids & Ei & Hr & _). exists ids. split; [done|]. intros s rc Hrc.
  eapply settled_wired; [exact Hrc|]. rewrite list.Forall_forall in Hr. apply Hr.
  apply elem_of_sorted_selectors. by eexists.
Qed.

Lemma run_settles input tr v :
  separate v input ->
  vwp (runStellarConfigureChainForLanes input)
    (post (fun _ _ v' => settled v' input) (failed_or (~ acceptable v input))) tr v.
Proof.
  intros [Hd Ho]. eapply swp_weaken; [by apply run_applied| |done].
  intros [] tr' v' (ids & t & p0 & Ei & Hp & Ht & Ha). eapply app_settled; eauto.
Qed.



End Theorems.
