(* ===== verification/LaneOrder.v ===== *)
(** * The order of a lane configuration's requests

    On every answer the contracts may give, truthful or not: the contracts are
    written in the order offramp, onramp, executors, fee quoter, committee
    verifiers, router; everything the plan is made of is read before the first
    write; and the first request that fails is the last one made.

    [stages] is the discipline a program keeps when what it asked so far is at
    most at stage [lo]; it composes with the sequence's monad. *)

From S2P Require Import Prelude Sdk GoBytes Xdr Scval Interaction Lanes LaneSequence LaneLedger.

Definition stage (r : lreq) : Z :=
  match r with
  | GetOnramp _ _ => 0
  | GetSourceChainConfig _ _ | GetOnRampDestChainConfig _ _ | GetExecutorDestChainConfig _ _
  | GetFeeQuoterDestChainConfig _ _ => 1
  | GetOfframps _ => 2
  | ApplySourceChainCfgUpdates _ _ => 3
  | ApplyDestChainConfigUpdates _ _ => 4
  | ApplyDestChainUpdates _ _ => 5
  | ApplyDestChainConfigs _ _ => 6
  | GetSignatureConfig _ _ | ApplySignatureConfigs _ _ => 7
  | GetAllowedFinalityConfig _ | SetAllowedFinalityConfig _ _ => 8
  | ApplyRampUpdates _ _ _ => 9
  end.

(** The stages with several requests; the others make one at most. *)
Definition repeats (z : Z) : bool := negb (bool_decide (z ∈ [2; 3; 4; 6; 9])).

Definition follows (lo hi : Z) : Prop := lo < hi \/ lo = hi /\ repeats lo = true.

Fixpoint stages {A} (lo : Z) (p : prog lans (outcome A)) (Q : Z -> A -> Prop) : Prop :=
  match p with
  | Done (Returns a) => Q lo a
  | Done _ => True
  | Ask r k => follows lo (stage r) /\ forall x,
      if failed_answer r x then exists e, k x = Done (Errs e) else stages (stage r) (k x) Q
  end.

Lemma stages_mono {A} (p : prog lans (outcome A)) lo (Q Q' : Z -> A -> Prop) :
  stages lo p Q -> (forall z a, Q z a -> Q' z a) -> stages lo p Q'.
Proof.
  revert lo. induction p as [[a|e|]|r k IH]; intros lo H HQ; simpl in *; auto.
  destruct H as [Hf Hk]. split; [done|]. intros x. specialize (Hk x).
  destruct (failed_answer r x); [done|]. by apply IH.
Qed.

Lemma stages_bind {A B} (m : L A) (f : A -> L B) lo Q :
  stages lo m (fun z a => stages z (f a) Q) -> stages lo (mbind f m) Q.
Proof.
  unfold mbind, fprog_bind. revert lo. induction m as [[a|e|]|r k IH]; intros lo H; simpl in *; auto.
  destruct H as [Hf Hk]. split; [done|]. intros x. specialize (Hk x).
  destruct (failed_answer r x); [|by apply IH]. destruct Hk as [e ->]. by exists e.
Qed.

Lemma stages_lwrap {A} pre (m : L A) lo Q : stages lo m Q -> stages lo (lwrap pre m) Q.
Proof.
  unfold pwrap. revert lo. induction m as [[a|e|]|r k IH]; intros lo H; simpl in *; auto.
  destruct H as [Hf Hk]. split; [done|]. intros x. specialize (Hk x).
  destruct (failed_answer r x); [|by apply IH]. destruct Hk as [e ->]. by eexists.
Qed.

Lemma stages_lift {A} (r : outcome A) lo (Q : Z -> A -> Prop) :
  (forall a, Q lo a) -> stages lo (lift r) Q.
Proof. intros HQ. by destruct r; simpl. Qed.

Lemma stages_lift_res {A} (r : res A) lo (Q : Z -> A -> Prop) :
  (forall a, Q lo a) -> stages lo (lift_res r) Q.
Proof. apply stages_lift. Qed.

(** Every operation hands a failure on, and nothing else. *)
Ltac op_tac := intros Hf HQ; split; [exact Hf|]; intros [a|e]; simpl; [apply HQ|];
  first [by eexists
        | unfold read_optional; destruct (IsContractErrorCode e _); simpl; [apply HQ|by eexists]].

Section Operations.
Context (lo : Z).

Lemma st_GetOnramp c s Q : follows lo 0 -> (forall a, Q 0 a) -> stages lo (op_GetOnramp c s) Q.
Proof. op_tac. Qed.
Lemma st_GetSourceChainConfig c s Q :
  follows lo 1 -> (forall a, Q 1 a) -> stages lo (op_GetSourceChainConfig c s) Q.
Proof. op_tac. Qed.
Lemma st_GetOnRampDestChainConfig c s Q :
  follows lo 1 -> (forall a, Q 1 a) -> stages lo (op_GetOnRampDestChainConfig c s) Q.
Proof. op_tac. Qed.
Lemma st_GetExecutorDestChainConfig c s Q :
  follows lo 1 -> (forall a, Q 1 a) -> stages lo (op_GetExecutorDestChainConfig c s) Q.
Proof. op_tac. Qed.
Lemma st_GetFeeQuoterDestChainConfig c s Q :
  follows lo 1 -> (forall a, Q 1 a) -> stages lo (op_GetFeeQuoterDestChainConfig c s) Q.
Proof. op_tac. Qed.
Lemma st_GetOfframps c Q : follows lo 2 -> (forall a, Q 2 a) -> stages lo (op_GetOfframps c) Q.
Proof. op_tac. Qed.
Lemma st_ApplySourceChainCfgUpdates c us Q :
  follows lo 3 -> (forall a, Q 3 a) -> stages lo (op_ApplySourceChainCfgUpdates c us) Q.
Proof. op_tac. Qed.
Lemma st_ApplyDestChainConfigUpdates c us Q :
  follows lo 4 -> (forall a, Q 4 a) -> stages lo (op_ApplyDestChainConfigUpdates c us) Q.
Proof. op_tac. Qed.
Lemma st_ApplyDestChainUpdates c us Q :
  follows lo 5 -> (forall a, Q 5 a) -> stages lo (op_ApplyDestChainUpdates c us) Q.
Proof. op_tac. Qed.
Lemma st_ApplyDestChainConfigs c us Q :
  follows lo 6 -> (forall a, Q 6 a) -> stages lo (op_ApplyDestChainConfigs c us) Q.
Proof. op_tac. Qed.
Lemma st_GetSignatureConfig c s Q :
  follows lo 7 -> (forall a, Q 7 a) -> stages lo (op_GetSignatureConfig c s) Q.
Proof. op_tac. Qed.
Lemma st_ApplySignatureConfigs c us Q :
  follows lo 7 -> (forall a, Q 7 a) -> stages lo (op_ApplySignatureConfigs c us) Q.
Proof. op_tac. Qed.
Lemma st_GetAllowedFinalityConfig c Q :
  follows lo 8 -> (forall a, Q 8 a) -> stages lo (op_GetAllowedFinalityConfig c) Q.
Proof. op_tac. Qed.
Lemma st_SetAllowedFinalityConfig c x Q :
  follows lo 8 -> (forall a, Q 8 a) -> stages lo (op_SetAllowedFinalityConfig c x) Q.
Proof. op_tac. Qed.
Lemma st_ApplyRampUpdates c on off Q :
  follows lo 9 -> (forall a, Q 9 a) -> stages lo (op_ApplyRampUpdates c on off) Q.
Proof. op_tac. Qed.

End Operations.

Lemma follows_lt lo hi : lo < hi -> follows lo hi.
Proof. by left. Qed.

Lemma follows_le lo hi : repeats hi = true -> lo <= hi -> follows lo hi.
Proof.
  intros Hr Hl. destruct (decide (lo = hi)) as [->|Hn]; [by right|left; lia].
Qed.

Ltac follow := first [apply follows_lt; lia | apply follows_le; [reflexivity|lia]].

(** One step through a program of the sequence. *)
Ltac st_step :=
  lazymatch goal with
  | |- stages _ (lwrap _ _) _ => apply stages_lwrap
  | |- stages _ (lift_res _) _ => apply stages_lift_res; intros
  | |- stages _ (lift _) _ => apply stages_lift; intros
  | |- stages _ (lfail _) _ => exact I
  | |- stages _ (mbind _ _) _ => apply stages_bind
  | |- stages _ (mret _) _ => cbn
  | |- stages _ (op_GetOnramp _ _) _ => apply st_GetOnramp; [follow|intros]
  | |- stages _ (op_GetSourceChainConfig _ _) _ => apply st_GetSourceChainConfig; [follow|intros]
  | |- stages _ (op_GetOnRampDestChainConfig _ _) _ =>
      apply st_GetOnRampDestChainConfig; [follow|intros]
  | |- stages _ (op_GetExecutorDestChainConfig _ _) _ =>
      apply st_GetExecutorDestChainConfig; [follow|intros]
  | |- stages _ (op_GetFeeQuoterDestChainConfig _ _) _ =>
      apply st_GetFeeQuoterDestChainConfig; [follow|intros]
  | |- stages _ (op_GetOfframps _) _ => apply st_GetOfframps; [follow|intros]
  | |- stages _ (op_ApplySourceChainCfgUpdates _ _) _ =>
      apply st_ApplySourceChainCfgUpdates; [follow|intros]
  | |- stages _ (op_ApplyDestChainConfigUpdates _ _) _ =>
      apply st_ApplyDestChainConfigUpdates; [follow|intros]
  | |- stages _ (op_ApplyDestChainUpdates _ _) _ => apply st_ApplyDestChainUpdates; [follow|intros]
  | |- stages _ (op_ApplyDestChainConfigs _ _) _ => apply st_ApplyDestChainConfigs; [follow|intros]
  | |- stages _ (op_GetSignatureConfig _ _) _ => apply st_GetSignatureConfig; [follow|intros]
  | |- stages _ (op_ApplySignatureConfigs _ _) _ => apply st_ApplySignatureConfigs; [follow|intros]
  | |- stages _ (op_GetAllowedFinalityConfig _) _ =>
      apply st_GetAllowedFinalityConfig; [follow|intros]
  | |- stages _ (op_SetAllowedFinalityConfig _ _) _ =>
      apply st_SetAllowedFinalityConfig; [follow|intros]
  | |- stages _ (op_ApplyRampUpdates _ _ _) _ => apply st_ApplyRampUpdates; [follow|intros]
  | |- stages _ (if ?b then _ else _) _ => destruct b
  | |- stages _ (write_if ?l _) _ => destruct l; simpl write_if
  end.

Section Sequence.
Context `{Codec} `{LaneSdk}.

(** From a stage at most [hi], to one at most [hi]. *)
Definition stays {A} (hi : Z) (m : L A) : Prop :=
  forall lo, lo <= hi -> stages lo m (fun z _ => z <= hi).

Lemma stays_then {A B} hi (m : L A) (f : A -> L B) lo Q :
  stays hi m -> lo <= hi -> (forall z a, z <= hi -> stages z (f a) Q) -> stages lo (mbind f m) Q.
Proof.
  intros Hm Hl Hf. apply stages_bind. eapply stages_mono; [by apply Hm|]. intros z a Hz. by apply Hf.
Qed.

Lemma guard_stays input ids l m : stays 0 (router_guard input ids l m).
Proof.
  revert m. induction l as [|s l IH]; intros m lo Hlo; [done|].
  cbn [router_guard]. do 3 st_step. destruct (match a with Some _ => _ | None => _ end); [exact I|].
  by apply IH.
Qed.

Lemma source_stays s rc r o args : stays 1 (maybeOffRampSourceChainConfigArg s rc r o args).
Proof. intros lo Hlo. unfold maybeOffRampSourceChainConfigArg. repeat st_step. lia. Qed.

Lemma dest_stays low s rc r o args : stays 1 (maybeOnRampDestChainConfigArg low s rc r o args).
Proof. intros lo Hlo. unfold maybeOnRampDestChainConfigArg. repeat st_step; lia. Qed.

Lemma executor_stays s rc m : stays 1 (executor_step s rc m).
Proof. intros lo Hlo. unfold executor_step. repeat st_step; lia. Qed.

Lemma feequoter_stays f s rc args : stays 1 (maybeFeeQuoterDestChainConfigArg f s rc args).
Proof. intros lo Hlo. unfold maybeFeeQuoterDestChainConfigArg. repeat st_step; lia. Qed.

Lemma stays_lwrap {A} pre hi (m : L A) : stays hi m -> stays hi (lwrap pre m).
Proof. intros Hm lo Hlo. by apply stages_lwrap, Hm. Qed.

Lemma collect_stays input ids currents l p : stays 1 (collect input ids currents l p).
Proof.
  revert p. induction l as [|s l IH]; intros p lo Hlo; [done|]. cbn [collect].
  destruct (RemoteChains input !! s) as [rc|]; [|by apply IH].
  apply (stays_then 1); [|done|intros; by apply IH]. intros lo' Hlo'. unfold collect_remote.
  apply (stays_then 1); [apply stays_lwrap, source_stays|done|]. intros z1 ? H1.
  apply (stays_then 1); [apply stays_lwrap, dest_stays|done|]. intros z2 ? H2.
  apply (stays_then 1); [apply stays_lwrap, executor_stays|done|]. intros z3 ? H3.
  apply (stays_then 1); [apply stays_lwrap, feequoter_stays|done|]. intros z4 ? H4. done.
Qed.

Lemma executors_stay m l : stays 5 (apply_executors m l).
Proof.
  induction l as [|c l IH]; intros lo Hlo; [done|]. cbn [apply_executors]. do 3 st_step.
  apply IH. lia.
Qed.

Lemma collect_quorums_stays c remotes l acc : stays 7 (collect_quorums c remotes l acc).
Proof.
  revert acc. induction l as [|s l IH]; intros acc lo Hlo; [done|]. cbn [collect_quorums].
  destruct (remotes !! s) as [sig|]; [|by apply IH].
  apply (stays_then 7); [|done|intros; by apply IH]. intros lo' Hlo'. unfold quorum_step.
  repeat st_step; lia.
Qed.

Lemma quorums_stay cvs : stays 7 (applyCommitteeVerifierSignatureQuorums cvs).
Proof.
  induction cvs as [|cv cvs IH]; intros lo Hlo; [done|].
  cbn [applyCommitteeVerifierSignatureQuorums]. do 2 st_step.
  apply (stays_then 7); [apply collect_quorums_stays|done|]. intros z q Hz.
  repeat st_step; apply IH; lia.
Qed.

Lemma finality_stays cvs : stays 8 (applyCommitteeVerifierAllowedFinality cvs).
Proof.
  induction cvs as [|cv cvs IH]; intros lo Hlo; [done|].
  cbn [applyCommitteeVerifierAllowedFinality]. destruct (finality_IsZero cv); [by apply IH|].
  repeat st_step; apply IH; lia.
Qed.

Lemma once_then {A B} hi (m : L A) (f : A -> L B) lo Q :
  stages lo m (fun z _ => z <= hi) -> (forall z a, z <= hi -> stages z (f a) Q) ->
  stages lo (mbind f m) Q.
Proof.
  intros Hm Hf. apply stages_bind. eapply stages_mono; [exact Hm|]. intros z a Hz. by apply Hf.
Qed.

Ltac steps := repeat st_step; lia.

Lemma apply_plan_stages input ids p lo :
  lo <= 2 -> stages lo (apply_plan input ids p) (fun _ _ => True).
Proof.
  intros Hlo. unfold apply_plan.
  apply (once_then 3); [steps|]. intros z1 ? H1.
  apply (once_then 4); [steps|]. intros z2 ? H2.
  apply (stays_then 5); [apply executors_stay|lia|]. intros z3 ? H3.
  apply (once_then 6); [steps|]. intros z4 ? H4.
  apply (stays_then 7); [apply quorums_stay|lia|]. intros z5 ? H5.
  apply (stays_then 8); [apply finality_stays|lia|]. intros z6 ? H6.
  by repeat st_step.
Qed.

Lemma run_stages input :
  stages (-1) (runStellarConfigureChainForLanes input) (fun _ _ => True).
Proof.
  unfold runStellarConfigureChainForLanes.
  apply (once_then (-1)); [unfold local_ids; steps|]. intros z1 ids H1.
  apply (stays_then 0); [apply guard_stays|lia|]. intros z2 m H2.
  apply (stays_then 1); [apply collect_stays|lia|]. intros z3 p H3.
  apply (once_then 2); [steps|]. intros z4 t H4. by apply apply_plan_stages.
Qed.

End Sequence.

(** ** What the stages make of a run *)

(** An event after another, oldest first. *)
Definition ev_follows (e1 e2 : event lans) : Prop :=
  follows (stage (ev_req e1)) (stage (ev_req e2)).

Definition succeeded (e : event lans) : Prop := failed_answer (ev_req e) (ev_ans e) = false.

(** The requests of [tr] are in order, and all but the newest succeeded; when
    the newest failed, so does the program. *)
Record orderly {A} (r : outcome A) (tr : ltrace) : Prop := {
  ord_stages : StronglySorted ev_follows (rev tr);
  ord_failures : Forall succeeded tr \/
    exists e tr' err, tr = e :: tr' /\ ~ succeeded e /\ Forall succeeded tr' /\ r = Errs err
}.

Lemma follows_trans a b c : follows a b -> follows b c -> follows a c.
Proof. unfold follows. intros [?|[-> ?]] [?|[-> ?]]; auto; left; lia. Qed.

Lemma StronglySorted_snoc {A} (R : A -> A -> Prop) l x :
  StronglySorted R l -> Forall (fun y => R y x) l -> StronglySorted R (l ++ [x]).
Proof.
  induction 1 as [|y l Hl IH Hy]; intros Hf; simpl.
  - by constructor; constructor.
  - apply Forall_cons_1 in Hf as [Hyx Hf]. constructor; [by apply IH|].
    apply Forall_app_2; [done|by constructor].
Qed.

Lemma stages_wp {A} (p : prog lans (outcome A)) lo Q tr :
  stages lo p Q -> StronglySorted ev_follows (rev tr) -> Forall succeeded tr ->
  Forall (fun e => stage (ev_req e) = lo \/ follows (stage (ev_req e)) lo) tr ->
  wp p orderly tr.
Proof.
  revert lo tr. induction p as [r|r k IH]; intros lo tr Hp Hs Ho Hl; simpl.
  { split; [done|by left]. }
  destruct Hp as [Hf Hk]. intros x. specialize (Hk x).
  assert (Forall (fun e => follows (stage (ev_req e)) (stage r)) tr) as Hn.
  { eapply list.Forall_impl; [exact Hl|]. intros e [->|He]; [done|by eapply follows_trans]. }
  assert (StronglySorted ev_follows (rev (mkEvent r x :: tr))) as Hs'.
  { simpl. apply StronglySorted_snoc; [done|]. by apply Forall_rev. }
  destruct (failed_answer r x) eqn:Ef.
  - destruct Hk as [err ->]. split; [done|]. right. exists (mkEvent r x), tr, err.
    split_and!; [done| |done|done]. unfold succeeded. simpl. by rewrite Ef.
  - eapply IH; [exact Hk|done|by constructor|]. constructor; [by left|].
    eapply list.Forall_impl; [exact Hn|]. by right.
Qed.

Section Order.
Context `{Codec} `{LaneSdk}.

(** Property C29: whatever the contracts answer, the run writes in the order its
    documentation states. The offramp is written before the onramp, then the
    executors, the fee quoter, the committee verifiers and, last of all and
    once, the router, so that the router never routes to what is not yet
    configured; the router's mappings, the lanes' current state and the offramp
    table are all read before the first write.  The first request that fails is
    the last one made, and the run then reports an error. *)
Theorem configure_order input : wp (runStellarConfigureChainForLanes input) orderly [].
Proof. eapply stages_wp; [apply run_stages|constructor..]. Qed.

End Order.
