(* ===== verification/DemoLanes.v ===== *)
(** * Concrete lane configurations

    Contracts that answer truthfully, as a handler on the views of LaneLedger.v,
    and runs of the sequence on them: the witnesses, and the behaviours the
    documentation of the sequence does not state. *)

From S2P Require Import Prelude Sdk GoBytes Xdr DemoCodec Scval Interaction Lanes LaneSequence LaneLedger LaneConverge LaneVerifiers LaneProofs.

#[export] Instance demo_lane_sdk : LaneSdk := {|
  IsHexAddress s := Nat.eqb (String.length s) 40;
  HexToAddress s := match hex_DecodeString s with Ok b => b | Err _ => [] end;
  committee_verifier_ContractType := "CommitteeVerifier"
|}.

(** ** Contracts that answer truthfully *)

Definition contract_error (code : Z) : error :=
  ErrorString ("Error(Contract, #" +:+ pretty.pretty code +:+ ")").

Definition answer {A} (code : Z) (kept : option A) : res A :=
  match kept with Some a => Ok a | None => Err (contract_error code) end.

(** The offramp table lists these source chains only. *)
Definition demo_sources : list Z := [1; 2; 3].

Definition serve (r : lreq) (v : View) : lans r * View :=
  match r return lans r * View with
  | GetOnramp c s => (answer UnsupportedDestinationChainCode (v_onramp v c s), v)
  | GetOfframps c =>
      (Ok (demo_sources ≫= fun s => mkRampEntry s <$> v_offramps v c s), v)
  | GetSourceChainConfig c s => (answer SourceChainNotEnabledCode (v_source v c s), v)
  | GetOnRampDestChainConfig c s => (answer DestinationChainNotSupportedCode (v_dest v c s), v)
  | GetExecutorDestChainConfig c s => (answer DestinationChainNotEnabledCode (v_executor v c s), v)
  | GetFeeQuoterDestChainConfig c s => (answer DestinationChainNotEnabledCode (v_feequoter v c s), v)
  | GetSignatureConfig c s => (answer SourceSignersNotConfiguredCode (v_sig v c s), v)
  | GetAllowedFinalityConfig c => (Ok (v_finality v c), v)
  | ApplySourceChainCfgUpdates c us => (Ok tt, written v (ApplySourceChainCfgUpdates c us))
  | ApplyDestChainConfigUpdates c us => (Ok tt, written v (ApplyDestChainConfigUpdates c us))
  | ApplyDestChainUpdates c us => (Ok tt, written v (ApplyDestChainUpdates c us))
  | ApplyDestChainConfigs c us => (Ok tt, written v (ApplyDestChainConfigs c us))
  | ApplySignatureConfigs c us => (Ok tt, written v (ApplySignatureConfigs c us))
  | SetAllowedFinalityConfig c x => (Ok tt, written v (SetAllowedFinalityConfig c x))
  | ApplyRampUpdates c on off => (Ok tt, written v (ApplyRampUpdates c on off))
  end.

(** The answer, the writes (oldest first) and the contracts after a run. *)
Definition run_on (input : ConfigureChainForLanesInput) (v : View) : outcome unit * list lreq * View :=
  let '(r, tr, v') := run serve (runStellarConfigureChainForLanes input) v [] in
  (r, filter (fun r => is_write r = true) (rev (map ev_req tr)), v').

Definition answered (x : outcome unit * list lreq * View) : outcome unit := x.1.1.
Definition written_requests (x : outcome unit * list lreq * View) : list lreq := x.1.2.
Definition left_behind (x : outcome unit * list lreq * View) : View := x.2.

(** ** An input *)

Definition key (n : Z) : bytes := replicate 31 0 ++ [n].
Definition cid (n : Z) : string := "C" +:+ hex_EncodeToString (key n).

Definition no_overrides : FeeQuoterOverrides :=
  mkFeeQuoterOverrides false (Some true) None None None None None None None None None.

Definition demo_remote : RemoteChainConfig :=
  mkRemoteChainConfig (Some true) [[171; 205]] [1; 2; 3] [cid 7] [] [cid 7; cid 8] []
    (cid 6) false true 50 no_overrides 20 60000 None 10 20.

Definition demo_verifier : CommitteeVerifierConfig :=
  mkCommitteeVerifierConfig [mkContractRef "Resolver" "0x"; mkContractRef "CommitteeVerifier"
      ("0x" +:+ hex_EncodeToString (key 9))]
    {[ 2 := mkSignatureInput ["00000000000000000000000000000000000000ff";
                              "000000000000000000000000000000000000000a"] 2 ]}
    false [0; 0; 0; 5].

Definition demo_input (remotes : gmap Z RemoteChainConfig) : ConfigureChainForLanesInput :=
  mkConfigureChainForLanesInput (key 1) (key 2) (key 3) (key 4) remotes false false [demo_verifier].

Definition two_lanes : ConfigureChainForLanesInput :=
  demo_input {[ 2 := demo_remote; 1 := demo_remote ]}.

Definition fresh : View :=
  mkView (fun _ _ => None) (fun _ _ => []) (fun _ _ => None) (fun _ _ => None)
    (fun _ _ => None) (fun _ _ => None) (fun _ _ => None) (fun _ => 0).

(** The first run writes every contract once, the router last; the second
    writes nothing. *)
Example fresh_run :
  answered (run_on two_lanes fresh) = Returns tt /\
  written_requests (run_on two_lanes (left_behind (run_on two_lanes fresh))) = [] /\
  match written_requests (run_on two_lanes fresh) with
  | [ApplySourceChainCfgUpdates _ [_; _]; ApplyDestChainConfigUpdates _ [_; _];
     ApplyDestChainUpdates _ [_; _]; ApplyDestChainConfigs _ [_; _];
     ApplySignatureConfigs _ [q]; SetAllowedFinalityConfig _ 5; ApplyRampUpdates _ [_; _] [_; _]] =>
      last (q_Signers q) [] = padded (replicate 19 0 ++ [255])
  | _ => False
  end.
Proof. vm_compute. repeat split. Qed.

Lemma fresh_separate remotes : separate fresh (demo_input remotes).
Proof.
  split.
  - vm_compute. repeat constructor. by intros ?%not_elem_of_nil.
  - intros ids _. apply list.Forall_forall. intros s _ Hin. by apply not_elem_of_nil in Hin.
Qed.



(** The handler answers as the contracts of LaneLedger.v do. *)
Lemma serve_truthful r v :
  (forall c s, s ∉ demo_sources -> v_offramps v c s = []) ->
  ledger_step v r (serve r v).2 (serve r v).1.
Proof.
  intros Hv. assert (forall A code (o : option A), reads code o (answer code o)) as Hr by (by intros ?? []).
  destruct r; simpl; try (split; [done|apply Hr]); try done.
  split; [done|]. intros s.
  assert (forall s' l, of_source s (mkRampEntry s' <$> l) = if decide (s' = s) then l else []) as Ho.
  { intros s' l. unfold of_source. induction l as [|x l IH]; simpl; [by case_decide|].
    rewrite filter_cons. simpl. case_decide; simpl; [by f_equal|done]. }
  assert (forall a b, of_source s (a ++ b) = of_source s a ++ of_source s b) as Happ.
  { intros a b. unfold of_source. by rewrite list.filter_app, fmap_app. }
  change (demo_sources ≫= fun s => mkRampEntry s <$> v_offramps v contract s) with
    ((mkRampEntry 1 <$> v_offramps v contract 1) ++ (mkRampEntry 2 <$> v_offramps v contract 2) ++
     (mkRampEntry 3 <$> v_offramps v contract 3) ++ []).
  rewrite !Happ, !Ho. change (of_source s []) with (@nil string). rewrite app_nil_r.
  destruct (decide (s ∈ demo_sources)) as [Hs|Hs].
  - unfold demo_sources in Hs. rewrite !elem_of_cons, elem_of_nil in Hs.
    destruct Hs as [E|[E|[E|E]]]; [subst s..|done]; simpl; by rewrite ?app_nil_r.
  - rewrite (Hv _ _ Hs). unfold demo_sources in Hs. rewrite !not_elem_of_cons in Hs.
    by rewrite !decide_False by (intros <-; tauto).
Qed.

(** ** What the documentation of the sequence does not say *)

(** The contracts after a run, but for the router's list of source chain 1. *)
Definition listed (l : list string) : View :=
  let v := left_behind (run_on two_lanes fresh) in
  set_ramps v (v_onramp v)
    (fun c s => if decide (s = 1) then l else v_offramps v c s).

(** Our offramp is on the router, but not the last of its source chain: every run
    writes the router, which has nothing to add. *)
Example offramp_not_last :
  let v := listed [cid 3; cid 99] in
  let r := run_on two_lanes v in
  answered r = Returns tt /\
  written_requests r = [ApplyRampUpdates (cid 1) [] [mkRampEntry 1 (cid 3)]] /\
  v_offramps (left_behind r) (cid 1) 1 = [cid 3; cid 99] /\
  written_requests (run_on two_lanes (left_behind r)) = written_requests r.
Proof. vm_compute. done. Qed.

(** A partial override of an on-chain price that does not fit the width of the
    override's field writes the price truncated. *)
Definition one_lane (rc : RemoteChainConfig) : ConfigureChainForLanesInput :=
  mkConfigureChainForLanesInput (key 1) (key 2) (key 3) (key 4) {[ 1 := rc ]} false false [].

Definition with_overrides (o : FeeQuoterOverrides) : RemoteChainConfig :=
  mkRemoteChainConfig (Some true) [[171; 205]] [1; 2; 3] [cid 7] [] [cid 7; cid 8] []
    (cid 6) false true 50 o 20 60000 None 10 20.

Definition priced (payload : Z) : View :=
  set_feequoter fresh (fun _ _ => Some (FeeQuoter.mkDestChainConfig 1 2 3 4 payload true 90 6 7 8)).

Example unset_field_truncated :
  let r := run_on (one_lane (with_overrides (mkFeeQuoterOverrides true None None (Some 30000)
             None None None None None None None))) (priced 300) in
  answered r = Returns tt /\
  FeeQuoter.DestGasPerPayloadByte <$> v_feequoter (left_behind r) (cid 4) 1 = Some 44.
Proof. vm_compute. done. Qed.

(** An empty OffRamp of the input is written over the one the onramp has. *)
Definition without_offramp : RemoteChainConfig :=
  mkRemoteChainConfig (Some true) [[171; 205]] [] [cid 7] [] [cid 7; cid 8] []
    (cid 6) false true 50 no_overrides 20 60000 None 10 20.

Example empty_offramp_written :
  let v := left_behind (run_on (one_lane demo_remote) fresh) in
  let r := run_on (one_lane without_offramp) v in
  OnRamp.d_OffRamp ∘ OnRamp.c_dest <$> v_dest v (cid 2) 1 = Some [1; 2; 3] /\
  answered r = Returns tt /\
  OnRamp.d_OffRamp ∘ OnRamp.c_dest <$> v_dest (left_behind r) (cid 2) 1 = Some [].
Proof. vm_compute. done. Qed.
