(* ===== verification/GovRefs.v ===== *)
(** * Governance of a chain: recorded references and payloads

    Models deployment/mcmsutil (refs.go, tx.go and the encoder and decoder of
    invoke_payload.go), deployment/ownership/address.go, [StrkeyToHex] of
    deployment/ccip/stellarutil and the reference constructors of
    deployment/ccip/datastore_contract_ref.go that the governance sequences use.
    The two lookups of a timelock agree on a datastore without duplicates, and two
    stacks of a chain do not share a deploy salt.

    Parameters ([GovSdk]): semantic versions and their comparison, the contract
    types and qualifiers of chainlink-ccip, SHA-256 and the framework's batches. *)

From stdpp Require Import pretty.
From Stdlib Require Import Ascii.
From S2P Require Import Prelude Sdk GoBytes Xdr Scval Invoker Interaction.

(** ** Datastore references *)

(** [*semver.Version] and the constants of chainlink-ccip.  [None] is the nil
    version, which [Equal] accepts on either side. *)
Class GovSdk := {
  Version : Type;
  Version_Equal : option Version -> option Version -> bool;
  MCMSVersion : option Version;
  RMNRemoteContractVersion : option Version;
  router_Version : option Version;
  router_ContractType : string;
  ProposerManyChainMultisig : string;
  CancellerManyChainMultisig : string;
  BypasserManyChainMultisig : string;
  RBACTimelock : string;
  RMNTimelockQualifier : string;
  UltraFastCurseMCMSQualifier : string;
  Sum256 : bytes -> bytes
}.

Record AddressRef `{GovSdk} := mkAddressRef {
  ref_Address : string;
  ref_ChainSelector : Z;
  ref_Labels : list string;
  ref_Qualifier : string;
  ref_Type : string;
  ref_Version : option Version
}.
Arguments mkAddressRef {_} ref_Address ref_ChainSelector ref_Labels ref_Qualifier ref_Type ref_Version.

(** A string type of three values. *)
Abbreviation MCMSRole := string (only parsing).

Section Refs.
Context `{GovSdk}.

Definition with_Address (a : string) (r : AddressRef) : AddressRef :=
  mkAddressRef a (ref_ChainSelector r) (ref_Labels r) (ref_Qualifier r) (ref_Type r) (ref_Version r).

(** [DatastoreSorobanContractRef]. *)
Record DatastoreSorobanContractRef := mkDatastoreRef {
  d_Type : string;
  d_Version : option Version;
  d_Qualifier : string
}.

Definition PartialAddressRef (r : DatastoreSorobanContractRef) : AddressRef :=
  mkAddressRef "" 0 [] (d_Qualifier r) (d_Type r) (d_Version r).
Definition LaneAddressRef (r : DatastoreSorobanContractRef) (chainSelector : Z) : AddressRef :=
  mkAddressRef "" chainSelector [] (d_Qualifier r) (d_Type r) (d_Version r).
Definition FullAddressRef (r : DatastoreSorobanContractRef) (chainSelector : Z)
    (addressHex : string) : AddressRef :=
  with_Address addressHex (LaneAddressRef r chainSelector).

Definition RMNRemoteContractType : string := "RMNRemote".
Definition RMNRemoteDatastoreRef : DatastoreSorobanContractRef :=
  mkDatastoreRef RMNRemoteContractType RMNRemoteContractVersion "".
Definition RouterDatastoreRef : DatastoreSorobanContractRef :=
  mkDatastoreRef router_ContractType router_Version "".

(** ** Roles *)

Definition RoleProposer : MCMSRole := "proposer".
Definition RoleCanceller : MCMSRole := "canceller".
Definition RoleBypasser : MCMSRole := "bypasser".
Definition AllMCMSRoles : list MCMSRole := [RoleProposer; RoleCanceller; RoleBypasser].

(** [strings.ToUpper]; the role names are ASCII. *)
Definition ascii_upper (c : Ascii.ascii) : Ascii.ascii :=
  let n := Ascii.N_of_ascii c in
  if (97 <=? n)%N && (n <=? 122)%N then Ascii.ascii_of_N (n - 32) else c.
Definition InstanceLabel (r : MCMSRole) : string := string_map ascii_upper r.

Definition DatastoreType (r : MCMSRole) : res string :=
  if decide (r = RoleProposer) then Ok ProposerManyChainMultisig
  else if decide (r = RoleCanceller) then Ok CancellerManyChainMultisig
  else if decide (r = RoleBypasser) then Ok BypasserManyChainMultisig
  else Err (ErrorString "unknown MCMS role").

Definition QualifierStr (q : option string) : string := default "" q.

(** ** Salts *)

Fixpoint string_bytes (s : string) : bytes :=
  match s with
  | EmptyString => []
  | String c s' => Z.of_N (Ascii.N_of_ascii c) :: string_bytes s'
  end.

Definition ChainNetworkID (passphrase : string) : bytes := Sum256 (string_bytes passphrase).

Definition withLabel (seed label : string) : bytes :=
  if decide (label = ""%string) then string_bytes seed
  else string_bytes (seed +:+ ":" +:+ label).

Definition mcms_seed (chainSelector : Z) (qual label : string) (role : MCMSRole) : bytes :=
  withLabel ("stellar-mcms:" +:+ role +:+ ":" +:+ pretty chainSelector +:+ ":" +:+ qual) label.
Definition MCMSRoleDeploySalt (chainSelector : Z) (qual label : string) (role : MCMSRole) : bytes :=
  Sum256 (mcms_seed chainSelector qual label role).

Definition timelock_seed (chainSelector : Z) (qual label : string) : bytes :=
  withLabel ("stellar-timelock:" +:+ pretty chainSelector +:+ ":" +:+ qual) label.
Definition TimelockDeploySalt (chainSelector : Z) (qual label : string) : bytes :=
  Sum256 (timelock_seed chainSelector qual label).

(** ** Lookups *)

Definition stack_ref (chainSelector : Z) (qual ct : string) (r : AddressRef) : bool :=
  (ref_ChainSelector r =? chainSelector) && bool_decide (ref_Qualifier r = qual) &&
  Version_Equal (ref_Version r) MCMSVersion &&
  bool_decide (ref_Type r = ct) && negb (bool_decide (ref_Address r = ""%string)).

Fixpoint first_address (p : AddressRef -> bool) (refs : list AddressRef) : option string :=
  match refs with
  | [] => None
  | r :: refs' => if p r then Some (ref_Address r) else first_address p refs'
  end.

Definition FindExistingStellarMCMSByRole (refs : list AddressRef) (chainSelector : Z)
    (qual : string) (role : MCMSRole) : res (option string) :=
  ct ← DatastoreType role;
  Ok (first_address (stack_ref chainSelector qual ct) refs).

Definition StellarMCMSRoleDatastoreRef (chainSelector : Z) (qual : string) (role : MCMSRole)
    (contractID : string) : res AddressRef :=
  ct ← DatastoreType role;
  Ok (mkAddressRef contractID chainSelector [] qual ct MCMSVersion).

Definition FindExistingStellarTimelock (refs : list AddressRef) (chainSelector : Z)
    (qual : string) : option string :=
  first_address (stack_ref chainSelector qual RBACTimelock) refs.

Definition record_timelock (chainSelector : Z) (out : gmap string string) (r : AddressRef)
    : gmap string string :=
  if negb (ref_ChainSelector r =? chainSelector) then out
  else if bool_decide (ref_Qualifier r = ""%string) || bool_decide (ref_Address r = ""%string)
  then out
  else if negb (Version_Equal (ref_Version r) MCMSVersion) then out
  else if bool_decide (ref_Type r = RBACTimelock)
  then <[ref_Qualifier r := ref_Address r]> out else out.

Definition StellarTimelocksByQualifier (refs : list AddressRef) (chainSelector : Z)
    : gmap string string :=
  fold_left (record_timelock chainSelector) refs ∅.

Definition StellarTimelockDatastoreRef (chainSelector : Z) (qual contractID : string) : AddressRef :=
  mkAddressRef contractID chainSelector [] qual RBACTimelock MCMSVersion.

End Refs.

(** ** Payloads *)

Section Payloads.
Context `{Codec}.

(** Unlike [EncodeSorobanInvokePayload] of the bindings, it accepts any name. *)
Definition EncodeSorobanMCMSInvokePayload (functionName : string) (argScVals : list ScVal)
    : outcome bytes :=
  wrap_out "marshal soroban invoke payload: "
    (ScVal_MarshalBinary (ScvVec (Some (Some (SymbolToScVal functionName :: argScVals))))).

Definition EncodeSorobanInvokeArgs (argScVals : list ScVal) : outcome bytes :=
  wrap_out "marshal soroban invoke args: " (ScVal_MarshalBinary (VecToScVal argScVals)).

(** [GetSym] dereferences the arm its discriminant selects. *)
Definition DecodeSorobanMCMSInvokePayload (data : bytes) : outcome (string * list ScVal) :=
  match ScVal_UnmarshalBinary data with
  | Err e => Errs (Wrapf "unmarshal soroban invoke payload: " e)
  | Ok (ScvVec (Some (Some []))) => Errs (ErrorString "soroban invoke payload vec is empty")
  | Ok (ScvVec (Some (Some (first :: rest)))) =>
      fn ← need (GetSym first) "soroban invoke payload first element is not a symbol";
      Returns (fn, rest)
  | Ok _ => Errs (ErrorString "soroban invoke payload is not a populated vec")
  end.

End Payloads.

(** ** Batches *)

Record Transaction := mkTransaction {
  tx_ContractType : string;
  tx_To : string;
  tx_Data : bytes;
  tx_AdditionalFields : string
}.

Record BatchOperation := mkBatchOperation {
  bo_ChainSelector : Z;
  Transactions : list Transaction
}.

(** A write and, when it has been executed, its marker. *)
Record WriteOutput := mkWriteOutput {
  wo_ChainSelector : Z;
  wo_Tx : Transaction;
  wo_ExecInfo : option string
}.

Definition Transaction_zero : Transaction := mkTransaction "" "" [] "".

Definition quoted (s : string) : string :=
  String (Ascii.ascii_of_nat 34) (s +:+ String (Ascii.ascii_of_nat 34) "").
Definition StellarMCMSTxAdditionalFields : string :=
  "{" +:+ quoted "family" +:+ ":" +:+ quoted "stellar" +:+ "," +:+ quoted "encodingVersion"
  +:+ ":" +:+ pretty SorobanInvokeEncodingVersion +:+ "}".

Definition MCMSInvokeTx `{GovSdk} (ref : AddressRef) (data : bytes) : BatchOperation :=
  mkBatchOperation (ref_ChainSelector ref)
    [mkTransaction (ref_Type ref) (ref_Address ref) data StellarMCMSTxAdditionalFields].

(** [evmcontract.NewBatchOperationFromWrites] on one write: an executed write is
    skipped, another is the batch's transaction. *)
Class BatchSdk := { NewBatchOperationFromWrites : WriteOutput -> res BatchOperation }.
Class BatchLaws `{BatchSdk} : Prop := {
  batch_of_executed sel tx marker : exists b,
    NewBatchOperationFromWrites (mkWriteOutput sel tx (Some marker)) = Ok b /\ Transactions b = [];
  batch_of_pending sel tx :
    NewBatchOperationFromWrites (mkWriteOutput sel tx None) = Ok (mkBatchOperation sel [tx])
}.

(** ** Addresses *)

Section Addresses.
Context `{Codec}.

Definition contractStrkeyLength : nat := 56.

Definition NormalizeContractAddress (addr : string) : res string :=
  if String.prefix "C" addr && Nat.eqb (String.length addr) contractStrkeyLength then
    match strkey_Decode VersionByteContract addr with
    | Err e => Err (Wrapf "contract address is not a valid contract strkey: " e)
    | Ok _ => Ok addr
    end
  else
    let trimmed := TrimPrefix addr "0x" in
    if Nat.eqb (String.length trimmed) 64 && is_ok (hex_DecodeString trimmed)
    then HexToContractStrkey addr
    else Err (ErrorString "contract address is neither a contract strkey nor the hex form the datastore records").

Definition StrkeyToHex (addr : string) : res string :=
  let decode vb :=
    raw ← wrap_err "decode strkey: " (strkey_Decode vb addr);
    Ok ("0x" +:+ hex_EncodeToString raw) in
  if String.prefix "C" addr then decode VersionByteContract
  else if String.prefix "G" addr then decode VersionByteAccountID
  else Err (ErrorString "unsupported strkey prefix").

End Addresses.

(** ** The lookups *)

Section Lookups.
Context `{GovSdk} (sel : Z).

Fixpoint last_address (p : AddressRef -> bool) (refs : list AddressRef) : option string :=
  match refs with
  | [] => None
  | r :: refs' =>
      match last_address p refs' with
      | Some a => Some a
      | None => if p r then Some (ref_Address r) else None
      end
  end.

Definition timelock_ref (q : string) : AddressRef -> bool := stack_ref sel q RBACTimelock.

Lemma record_timelock_lookup out r q :
  q <> ""%string ->
  record_timelock sel out r !! q = if timelock_ref q r then Some (ref_Address r) else out !! q.
Proof.
  intros Hq. unfold record_timelock, timelock_ref, stack_ref.
  destruct (ref_ChainSelector r =? sel); [|done]. simpl.
  destruct (bool_decide (ref_Qualifier r = q)) eqn:Eq; simpl.
  - apply bool_decide_eq_true_1 in Eq. rewrite (bool_decide_false (ref_Qualifier r = _)) by congruence. simpl.
    destruct (bool_decide (ref_Address r = _)); simpl; [by rewrite andb_false_r|].
    destruct (Version_Equal _ _); simpl; [|done].
    destruct (bool_decide (ref_Type r = _)); simpl; [|done]. by rewrite Eq, lookup_insert_eq.
  - apply bool_decide_eq_false_1 in Eq. repeat case_match; try done. by rewrite lookup_insert_ne.
Qed.

Lemma timelocks_lookup refs q :
  q <> ""%string -> StellarTimelocksByQualifier refs sel !! q = last_address (timelock_ref q) refs.
Proof.
  intros Hq. unfold StellarTimelocksByQualifier.
  assert (G : forall out, fold_left (record_timelock sel) refs out !! q =
            match last_address (timelock_ref q) refs with Some a => Some a | None => out !! q end).
  { induction refs as [|r refs IH]; intros out; simpl; [done|].
    rewrite IH, record_timelock_lookup by done. by destruct (last_address _ refs), (timelock_ref q r). }
  rewrite G, lookup_empty. by destruct (last_address _ refs).
Qed.

Lemma last_address_elem p refs a :
  last_address p refs = Some a -> exists r, r ∈ refs /\ p r = true /\ ref_Address r = a.
Proof.
  induction refs as [|r refs IH]; simpl; [done|]. destruct (last_address p refs) as [x|].
  - intros [= ->]. destruct IH as (y & Hy & ?); [done|]. exists y. split; [set_solver|done].
  - destruct (p r) eqn:E; [|done]. intros [= <-]. exists r. split; [set_solver|done].
Qed.

(** The curse adapter's map and the lookup of the deployments and the
    activation name the same timelock for a qualifier, when no two records of it
    disagree; an empty qualifier, which the lookup accepts, is not in the map. *)
Theorem timelock_lookups_agree refs q :
  (forall r r', r ∈ refs -> r' ∈ refs -> timelock_ref q r = true -> timelock_ref q r' = true ->
     ref_Address r = ref_Address r') ->
  StellarTimelocksByQualifier refs sel !! q =
    if decide (q = ""%string) then None else FindExistingStellarTimelock refs sel q.
Proof.
  intros Hu. destruct (decide (q = ""%string)) as [->|Hq].
  - unfold StellarTimelocksByQualifier.
    assert (G : forall l out, fold_left (record_timelock sel) l out !! ""%string = out !! ""%string).
    { induction l as [|r l IH]; intros out; simpl; [done|]. rewrite IH. unfold record_timelock.
      destruct (negb _); [done|]. destruct (bool_decide (ref_Qualifier r = _)) eqn:E; [done|].
      apply bool_decide_eq_false_1 in E. repeat case_match; try done. by rewrite lookup_insert_ne. }
    by rewrite G.
  - rewrite timelocks_lookup by done. unfold FindExistingStellarTimelock.
    change (stack_ref sel q RBACTimelock) with (timelock_ref q).
    induction refs as [|r refs IH]; simpl; [done|].
    rewrite IH by (intros; apply Hu; set_solver). destruct (timelock_ref q r) eqn:E; [|by destruct (first_address _ refs)].
    rewrite <- IH by (intros; apply Hu; set_solver).
    destruct (last_address (timelock_ref q) refs) as [a|] eqn:El; [|done].
    apply last_address_elem in El as (y & Hy & Ey & <-). f_equal. apply Hu; set_solver.
Qed.

End Lookups.

(** ** The salts *)

Fixpoint no_colon (s : string) : bool :=
  match s with
  | EmptyString => true
  | String c s' => negb (Ascii.eqb c ":"%char) && no_colon s'
  end.

Lemma colon_split a b s t :
  no_colon a = true -> no_colon b = true ->
  a +:+ String ":"%char s = b +:+ String ":"%char t -> a = b /\ s = t.
Proof.
  revert b. induction a as [|x a IH]; intros [|y b]; simpl; intros Ha Hb E.
  - by injection E.
  - injection E as <- _. done.
  - injection E as -> _. done.
  - injection E as -> E. apply andb_true_iff in Ha as [_ Ha], Hb as [_ Hb].
    destruct (IH b Ha Hb E) as [-> ->]. done.
Qed.

Lemma no_colon_left a b s : no_colon a = true -> a = b +:+ String ":"%char s -> False.
Proof.
  revert b. induction a as [|x a IH]; intros [|y b]; simpl; intros Ha E; [done|done|..].
  - injection E as -> _. done.
  - injection E as -> E. apply andb_true_iff in Ha as [_ Ha]. by eapply IH.
Qed.

Lemma pretty_N_no_colon (x : N) : no_colon (pretty x) = true.
Proof.
  unfold pretty, pretty_N. case_decide; [done|].
  assert (G : forall s, no_colon s = true -> no_colon (pretty_N_go x s) = true); [|by apply G].
  clear H. induction (N.lt_wf_0 x) as [x _ IH]. intros s Hs.
  destruct (decide (0 < x)%N) as [Hx|Hx].
  - rewrite pretty_N_go_step by done. apply IH; [by apply N.div_lt|]. simpl. rewrite Hs, andb_true_r.
    assert (Hm : (x `mod` 10 < 10)%N) by (by apply N.mod_lt). revert Hm. generalize (x `mod` 10)%N. intros d Hd.
    assert (F : Forall (fun d => negb (Ascii.eqb (pretty_N_char d) ":"%char) = true)
                  [0;1;2;3;4;5;6;7;8;9]%N) by (by repeat constructor).
    rewrite list.Forall_forall in F. apply F.
    assert (d = 0 \/ d = 1 \/ d = 2 \/ d = 3 \/ d = 4 \/ d = 5 \/ d = 6 \/ d = 7 \/ d = 8 \/ d = 9)%N by lia.
    set_solver.
  - assert (x = 0)%N as -> by lia. by rewrite pretty_N_go_0.
Qed.

Lemma pretty_Z_no_colon (z : Z) : no_colon (pretty z) = true.
Proof. destruct z as [|p|p]; [done|apply (pretty_N_no_colon (N.pos p))|]. simpl. apply (pretty_N_no_colon (N.pos p)). Qed.

Lemma string_app_assoc (a b c : string) : a +:+ (b +:+ c) = (a +:+ b) +:+ c.
Proof. induction a as [|x a IH]; [done|]. exact (f_equal (String x) IH). Qed.

Lemma string_bytes_inj s t : string_bytes s = string_bytes t -> s = t.
Proof.
  revert t. induction s as [|c s IH]; intros [|d t]; simpl; try done. intros [= E ->%IH].
  apply N2Z.inj in E. apply (f_equal Ascii.ascii_of_N) in E. rewrite !Ascii.ascii_N_embedding in E. by subst.
Qed.

(** The qualifier and, unless it is empty, the label. *)
Definition tail (q l : string) : string :=
  if decide (l = ""%string) then q else q +:+ String ":"%char l.

Lemma tail_inj q q' l l' :
  no_colon q = true -> no_colon q' = true -> tail q l = tail q' l' -> q = q' /\ l = l'.
Proof.
  intros Hq Hq'. unfold tail. repeat case_decide; intros E.
  - naive_solver.
  - destruct (no_colon_left _ _ _ Hq E).
  - destruct (no_colon_left _ _ _ Hq' (eq_sym E)).
  - by apply colon_split.
Qed.

Lemma withLabel_tail p q l : withLabel (p +:+ q) l = string_bytes (p +:+ tail q l).
Proof. unfold withLabel, tail. case_decide; [done|]. by rewrite <- string_app_assoc. Qed.

Lemma role_no_colon r : r ∈ AllMCMSRoles -> no_colon r = true.
Proof. unfold AllMCMSRoles. rewrite !elem_of_cons, elem_of_nil. by intros [->|[->|[->|[]]]]. Qed.

Lemma selector_tail_inj (z z' : Z) q q' l l' :
  no_colon q = true -> no_colon q' = true ->
  pretty z +:+ String ":"%char (tail q l) = pretty z' +:+ String ":"%char (tail q' l') ->
  z = z' /\ q = q' /\ l = l'.
Proof.
  intros Hq Hq' E. apply colon_split in E as [Ez Et]; [|apply pretty_Z_no_colon..].
  apply (inj pretty) in Ez. apply tail_inj in Et as [-> ->]; [|done..]. done.
Qed.

Section Salts.
Context `{GovSdk}.

(** Two inputs of the hash that are not the same and have the same image. *)
Definition collision (x y : bytes) : Prop := x <> y /\ Sum256 x = Sum256 y.

Lemma same_or_collision (x y : bytes) : Sum256 x = Sum256 y -> x = y \/ collision x y.
Proof. intros E. destruct (decide (x = y)); [by left|by right]. Qed.

Lemma mcms_seed_tail sel q l r :
  mcms_seed sel q l r =
  string_bytes ("stellar-mcms:" +:+ r +:+ String ":"%char (pretty sel +:+ String ":"%char (tail q l))).
Proof.
  unfold mcms_seed. rewrite !string_app_assoc, withLabel_tail, <- !string_app_assoc. done.
Qed.

Lemma timelock_seed_tail sel q l :
  timelock_seed sel q l =
  string_bytes ("stellar-timelock:" +:+ pretty sel +:+ String ":"%char (tail q l)).
Proof.
  unfold timelock_seed. rewrite !string_app_assoc, withLabel_tail, <- !string_app_assoc. done.
Qed.

(** The contracts of a stack, and those of two stacks, are deployed under
    salts of their own.  With qualifiers that have no colon, two equal salts of role
    instances are for the same chain, qualifier, label and role, two equal salts of
    timelocks for the same chain, qualifier and label, and no instance has the salt of a
    timelock, unless SHA-256 collides on the two seeds. *)
Theorem salts_separate sel sel' q q' l l' r r' :
  no_colon q = true -> no_colon q' = true -> r ∈ AllMCMSRoles -> r' ∈ AllMCMSRoles ->
  (MCMSRoleDeploySalt sel q l r = MCMSRoleDeploySalt sel' q' l' r' ->
     (sel = sel' /\ q = q' /\ l = l' /\ r = r') \/ collision (mcms_seed sel q l r) (mcms_seed sel' q' l' r')) /\
  (TimelockDeploySalt sel q l = TimelockDeploySalt sel' q' l' ->
     (sel = sel' /\ q = q' /\ l = l') \/ collision (timelock_seed sel q l) (timelock_seed sel' q' l')) /\
  (MCMSRoleDeploySalt sel q l r = TimelockDeploySalt sel' q' l' ->
     collision (mcms_seed sel q l r) (timelock_seed sel' q' l')).
Proof.
  intros Hq Hq' Hr Hr'. split_and!; intros E;
    (destruct (same_or_collision _ _ E) as [S|C]; [|by auto]); clear E.
  - left. rewrite !mcms_seed_tail in S. apply string_bytes_inj, (inj _) in S.
    apply colon_split in S as [-> S]; [|by apply role_no_colon..].
    by apply selector_tail_inj in S as (-> & -> & ->).
  - left. rewrite !timelock_seed_tail in S. apply string_bytes_inj, (inj _) in S.
    by apply selector_tail_inj in S.
  - exfalso. rewrite mcms_seed_tail, timelock_seed_tail in S. by apply string_bytes_inj in S.
Qed.

(** Without the condition on qualifiers, a label does not always give new salts:
    those of the label are those of the qualifier that spells it out. *)
Example label_spelled_out sel r :
  MCMSRoleDeploySalt sel "RMNMCMS" "v2" r = MCMSRoleDeploySalt sel "RMNMCMS:v2" "" r /\
  TimelockDeploySalt sel "RMNMCMS" "v2" = TimelockDeploySalt sel "RMNMCMS:v2" "".
Proof.
  unfold MCMSRoleDeploySalt, TimelockDeploySalt. rewrite !mcms_seed_tail, !timelock_seed_tail. done.
Qed.

End Salts.
