(* ===== verification/Ownership.v ===== *)
(** * Governance of a chain: contract calls

    The client methods of bindings/contracts that the governance code calls, over
    the two methods of [bindings.Invoker] that they use: each is a request with
    its contract, function and arguments, answered by an error or by a value that
    may be nil.  On them, deployment/ownership and the operations of
    deployment/operations that it executes; the framework runs an operation once
    and hands its answer on.

    The generated [Owner], [TransferOwnership], [AcceptOwnership] and [Upgrade]
    are the same code in every contract's client. *)

From S2P Require Import Prelude Sdk GoBytes Xdr Scval Interaction GovRefs.

(** ** Requests *)

Inductive greq :=
| SimulateContract (contractID function : string) (args : list ScVal)
| InvokeContract (contractID function : string) (args : list ScVal).

Definition gans (_ : greq) : Type := outcome (option ScVal).

Abbreviation G := (fprog gans).

Definition greq_invokes (r : greq) : bool :=
  match r with InvokeContract _ _ _ => true | _ => false end.

(** ** Client methods *)

Section Clients.
Context `{Codec}.

Definition GetB (v : ScVal) : outcome (option bool) :=
  match v with ScvBool p => Some <$> deref p | _ => Returns None end.

Definition simulate (contractID function : string) (args : list ScVal) : G ScVal :=
  result ← Ask (SimulateContract contractID function args)
             (fun r => Done (wrap_out ("failed to call " +:+ function +:+ ": ") r) : G _);
  match result with
  | None => pfail (ErrorString ("no return value from " +:+ function))
  | Some v => mret v
  end.

Definition invoke (contractID function : string) (args : list ScVal) : G unit :=
  _ ← Ask (InvokeContract contractID function args)
        (fun r => Done (wrap_out ("failed to call " +:+ function +:+ ": ") r) : G _);
  mret tt.

Definition Owner (contractID : string) : G (option string) :=
  v ← simulate contractID "owner" [];
  plift (OptionalAddressFromScVal v).

Definition TransferOwnership (contractID newOwner : string) : G unit :=
  invoke contractID "transfer_ownership" [AddressToScVal newOwner].
Definition AcceptOwnership (contractID : string) : G unit :=
  invoke contractID "accept_ownership" [].
Definition Upgrade (contractID : string) (newWasmHash : bytes) : G unit :=
  invoke contractID "upgrade" [Bytes32ToScVal newWasmHash].

(** [RmnRemoteClient]. *)
Definition Curse (contractID caller : string) (subjects : list bytes) : G unit :=
  invoke contractID "curse" [AddressToScVal caller; Bytes16SliceToScVal subjects].
Definition Uncurse (contractID : string) (subjects : list bytes) : G unit :=
  invoke contractID "uncurse" [Bytes16SliceToScVal subjects].
Definition ApplyCurseAdminUpdates (contractID : string) (added removed : list string) : G unit :=
  invoke contractID "apply_curse_admin_updates"
    [AddressSliceToScVal added; AddressSliceToScVal removed].

Definition GetCurseAdmins (contractID : string) : G (list string) :=
  v ← simulate contractID "get_curse_admins" [];
  vec ← plift (need (GetVec v) "expected vec return type");
  match vec with
  | None => pfail (ErrorString "expected vec return type")
  | Some items => plift (mapM_out AddressFromScVal items)
  end.

Definition IsCursedBySubject (contractID : string) (subject : bytes) : G bool :=
  v ← simulate contractID "is_cursed_by_subject" [Bytes16ToScVal subject];
  plift (need (GetB v) "expected bool return type").

(** [RouterClient]. *)
Definition IsChainSupported (contractID : string) (destChainSelector : Z) : G bool :=
  v ← simulate contractID "is_chain_supported" [Uint64ToScVal destChainSelector];
  plift (need (GetB v) "expected bool return type").

End Clients.

(** ** deployment/ownership *)

Section Ownership.
Context `{Codec} `{GovSdk}.

(** The contract types of deployment/operations the dispatch of [ContractOwner]
    knows; [ExecuteTransferOwnership] and [ExecuteAcceptOwnership] know the same. *)
Definition ownable_types : list string :=
  ["MCMS"; "OffRamp"; "OnRamp"; "Router"; "FeeQuoter"; "RMNRemote"; "RmnProxy"; "RampRegistry";
   "TokenAdminRegistry"; "CommitteeVerifier"; "CommitteeVerifierResolver"; "LockReleasePool";
   "SiloedLockReleasePool"; "BurnMintPool"; "TokenLockBox"; "CcipReceiverExample"; "Executor";
   "AdvancedPoolHooks"; "CREForwarder"].

(** [ExecuteUpgrade] knows these. *)
Definition upgradeable_types : list string :=
  ["MCMS"; "OffRamp"; "OnRamp"; "Router"; "FeeQuoter"; "Executor"; "RMNRemote"; "RmnProxy";
   "RampRegistry"; "TokenAdminRegistry"; "CommitteeVerifier"; "CommitteeVerifierResolver";
   "LockReleasePool"; "SiloedLockReleasePool"; "BurnMintPool"; "TokenLockBox";
   "AdvancedPoolHooks"; "CcipReceiverExample"].

Definition rmn_remote_ContractType : string := "RMNRemote".

(** The dispatch on a type: the address is normalized first. *)
Definition dispatch {A} (pre : string) (types : list string) (ref : AddressRef)
    (call : string -> G A) : G A :=
  cid ← plift_res (wrap_err pre (NormalizeContractAddress (ref_Address ref)));
  if decide (ref_Type ref ∈ types) then call cid
  else pfail (ErrorString (pre +:+ "unsupported contract type")).

Definition optionalStellarOwner (o : option string) : res string :=
  res_of_option (ErrorString "contract returned no owner") o.

Definition ContractOwner (ref : AddressRef) : G string :=
  dispatch "stellar ownership: " ownable_types ref
    (fun cid => o ← Owner cid; plift_res (optionalStellarOwner o)).

Definition CurseAdmins (ref : AddressRef) : G (list string) :=
  dispatch "stellar curse admins: " [rmn_remote_ContractType] ref GetCurseAdmins.

Definition ExecuteTransferOwnership (ref : AddressRef) (newOwner : string) : G unit :=
  dispatch "stellar transfer ownership: " ownable_types ref
    (fun cid => TransferOwnership cid newOwner).

Definition ExecuteAcceptOwnership (ref : AddressRef) : G unit :=
  dispatch "stellar accept ownership: " ownable_types ref AcceptOwnership.

Definition ExecuteApplyCurseAdminUpdates (ref : AddressRef) (added removed : list string) : G unit :=
  dispatch "stellar apply curse admin updates: " [rmn_remote_ContractType] ref
    (fun cid => ApplyCurseAdminUpdates cid added removed).

Definition ExecuteUpgrade (ref : AddressRef) (newWasmHash : bytes) : G unit :=
  dispatch "stellar upgrade: " upgradeable_types ref (fun cid => Upgrade cid newWasmHash).

End Ownership.
