(* ===== verification/Bindgen.v ===== *)
(** * The generator of the contract bindings

    Models bindings/generator: the parsed contract (parser.go), the splitting of
    parameter lists and enum bodies, the type mapping and the conversions that
    codegen.go and client_codegen.go emit, and main.go's choice of the read-only
    functions.  A type is the text the parser found; an emitted expression,
    statement or declaration is its abstract syntax ([enc], [dec], [StructDecl],
    ...), with the text of types and expressions.  Not modelled: the regular
    expressions of the parser and the layout of the emitted text. *)

From Stdlib Require Import Ascii.
From stdpp Require Import pretty.
From S2P Require Import Prelude Sdk GoBytes Xdr Scval.

(** ** strings *)

Definition HasPrefix (s p : string) : bool := String.prefix p s.

(** The text before the suffix, where it is one. *)
Fixpoint TrimSuffix (s p : string) : string :=
  if decide (s = p) then ""
  else match s with EmptyString => "" | String c r => String c (TrimSuffix r p) end.

Fixpoint Contains (s sub : string) : bool :=
  String.prefix sub s || match s with EmptyString => false | String _ r => Contains r sub end.

Definition is_space (c : Ascii.ascii) : bool :=
  let n := Ascii.nat_of_ascii c in Nat.eqb n 32 || (Nat.leb 9 n && Nat.leb n 13).

Fixpoint trim_left (s : string) : string :=
  match s with String c r => if is_space c then trim_left r else s | EmptyString => "" end.
Fixpoint trim_right (s : string) : string :=
  match s with
  | EmptyString => ""
  | String c r =>
      match trim_right r with
      | EmptyString => if is_space c then "" else String c ""
      | r' => String c r'
      end
  end.
Definition TrimSpace (s : string) : string := trim_right (trim_left s).

(** [strings.Split] on one character, [cur] read so far. *)
Fixpoint split_char (sep : Ascii.ascii) (cur s : string) : list string :=
  match s with
  | EmptyString => [cur]
  | String c r => if decide (c = sep) then cur :: split_char sep "" r
                  else split_char sep (cur +:+ String c "") r
  end.

(** [strings.Split] on two colons. *)
Fixpoint split_colons (cur s : string) : list string :=
  match s with
  | EmptyString => [cur]
  | String c r =>
      match r with
      | String c' r' =>
          if decide (c = ":"%char /\ c' = ":"%char) then cur :: split_colons "" r'
          else split_colons (cur +:+ String c "") r
      | EmptyString => [cur +:+ String c ""]
      end
  end.

(** [strings.ToUpper(part[:1]) + part[1:]] of an identifier. *)
Definition upper (c : Ascii.ascii) : Ascii.ascii :=
  let n := Ascii.N_of_ascii c in
  if (97 <=? n)%N && (n <=? 122)%N then Ascii.ascii_of_N (n - 32) else c.
Definition capitalize (s : string) : string :=
  match s with EmptyString => "" | String c r => String (upper c) r end.

Definition snakeToPascal (s : string) : string :=
  String.concat "" (capitalize <$> split_char "_"%char "" s).
Definition snakeToCamel (s : string) : string :=
  match split_char "_"%char "" s with
  | [] => ""
  | p :: rest => String.concat "" (p :: (capitalize <$> rest))
  end.

Definition is_upper (c : Ascii.ascii) : bool :=
  let n := Ascii.N_of_ascii c in (65 <=? n)%N && (n <=? 90)%N.
Definition lower (c : Ascii.ascii) : Ascii.ascii :=
  if is_upper c then Ascii.ascii_of_N (Ascii.N_of_ascii c + 32) else c.
Fixpoint camel_words (first : bool) (s : string) : string :=
  match s with
  | EmptyString => ""
  | String c r =>
      let rest := String (lower c) (camel_words false r) in
      if negb first && is_upper c then String " "%char rest else rest
  end.
Definition camelToSpaces (s : string) : string := camel_words true s.

(** [fmt.Sscanf(s, "%d", &n)]: the digits the text starts with; zero without any, or
    when they do not fit. *)
Definition digit (c : Ascii.ascii) : option Z :=
  let n := Z.of_N (Ascii.N_of_ascii c) in if (48 <=? n) && (n <=? 57) then Some (n - 48) else None.
Fixpoint scan_digits (acc : Z) (s : string) : Z :=
  match s with
  | EmptyString => acc
  | String c r => match digit c with Some d => scan_digits (10 * acc + d) r | None => acc end
  end.
Definition Sscanf_d (s : string) : Z :=
  let v := match s with
           | String "-"%char r => - scan_digits 0 r
           | String "+"%char r => scan_digits 0 r
           | _ => scan_digits 0 s
           end in
  if (- two63 <=? v) && (v <=? MaxInt64) then v else 0.

(** ** The parsed contract *)

Record Field := mkField { f_Name : string; f_Type : string }.
Record Struct := mkStruct { s_Name : string; s_Fields : list Field }.
Record EventField := mkEventField { ef_Field : Field; Topic : bool }.
Record Event := mkGenEvent { ev_Name : string; Topics : list string; ev_Fields : list EventField }.
Record Function := mkFunction {
  fn_Name : string;
  Inputs : list Field;
  fn_Returns : string;
  ReadOnly : bool
}.
Record ErrorVariant := mkErrorVariant { er_Name : string; er_Value : Z }.
Record ErrorEnum := mkErrorEnum { ee_Name : string; ee_Variants : list ErrorVariant }.

Inductive EnumVariantKind := EnumVariantUnit | EnumVariantTuple | EnumVariantStruct.
#[export] Instance EnumVariantKind_eq_dec : EqDecision EnumVariantKind.
Proof. solve_decision. Defined.

Record EnumVariant := mkEnumVariant {
  v_Name : string;
  Kind : EnumVariantKind;
  v_Value : Z;
  Explicit : bool;
  Payload : list Field
}.
Record Enum := mkEnum { en_Name : string; en_Variants : list EnumVariant }.

Record Contract := mkGenContract {
  c_Name : string;
  Structs : list Struct;
  Functions : list Function;
  Errors : list ErrorEnum;
  Events : list Event;
  Enums : list Enum
}.

Definition is_unit (v : EnumVariant) : bool := bool_decide (Kind v = EnumVariantUnit).
Definition IsUnit (e : Enum) : bool := forallb is_unit (en_Variants e).
Definition IsIntRepr (e : Enum) : bool :=
  match en_Variants e with
  | [] => false
  | vs => forallb (fun v => is_unit v && Explicit v) vs
  end.

(** ** parser.go: splitting *)

(** The nesting of angles, parentheses and braces. *)
Record Depth := mkDepth { angle : nat; paren : nat; brace : nat }.
Definition flat_depth : Depth := mkDepth 0 0 0.

Definition step_depth (c : Ascii.ascii) (d : Depth) : Depth :=
  if decide (c = "<"%char) then mkDepth (S (angle d)) (paren d) (brace d)
  else if decide (c = ">"%char) then mkDepth (pred (angle d)) (paren d) (brace d)
  else if decide (c = "("%char) then mkDepth (angle d) (S (paren d)) (brace d)
  else if decide (c = ")"%char) then mkDepth (angle d) (pred (paren d)) (brace d)
  else if decide (c = "{"%char) then mkDepth (angle d) (paren d) (S (brace d))
  else if decide (c = "}"%char) then mkDepth (angle d) (paren d) (pred (brace d))
  else d.

Definition is_flat (d : Depth) : bool :=
  Nat.eqb (angle d) 0 && Nat.eqb (paren d) 0 && Nat.eqb (brace d) 0.

Fixpoint split_top (sep : Ascii.ascii) (d : Depth) (cur s : string) : list string :=
  match s with
  | EmptyString => if decide (cur = "") then [] else [cur]
  | String c r =>
      let d' := step_depth c d in
      if bool_decide (c = sep) && is_flat d' then cur :: split_top sep d' "" r
      else split_top sep d' (cur +:+ String c "") r
  end.
Definition splitTopLevel (s : string) (sep : Ascii.ascii) : list string :=
  split_top sep flat_depth "" s.

(** The text up to the brace that closes the one before [s]. *)
Fixpoint balanced_body (depth : nat) (cur s : string) : option string :=
  match s with
  | EmptyString => None
  | String c r =>
      if decide (c = "{"%char) then balanced_body (S depth) (cur +:+ String c "") r
      else if decide (c = "}"%char) then
        match depth with
        | 1%nat => Some cur
        | _ => balanced_body (pred depth) (cur +:+ String c "") r
        end
      else balanced_body depth (cur +:+ String c "") r
  end.
Definition extractBalancedBody (s : string) : option string := balanced_body 1 "" s.

(** Commas outside the given brackets; a closing bracket too many makes the depth
    negative. *)
Fixpoint split_params (opening closing : list Ascii.ascii) (depth : Z) (cur s : string) : list string :=
  match s with
  | EmptyString => let l := TrimSpace cur in if decide (l = "") then [] else [l]
  | String c r =>
      if decide (c ∈ opening) then split_params opening closing (depth + 1) (cur +:+ String c "") r
      else if decide (c ∈ closing) then split_params opening closing (depth - 1) (cur +:+ String c "") r
      else if decide (c = ","%char /\ depth = 0) then TrimSpace cur :: split_params opening closing depth "" r
      else split_params opening closing depth (cur +:+ String c "") r
  end.
Definition splitParams (params : string) : list string :=
  split_params ["<"%char] [">"%char] 0 "" params.
Definition splitReturnType (s : string) : list string :=
  split_params ["<"; "("]%char [">"; ")"]%char 0 "" s.

Definition qualifySorobanType (t : string) : string :=
  if decide (t ∈ ["Address"; "MuxedAddress"; "Bytes"; "Symbol"; "String"]%string) then "soroban_sdk::" +:+ t
  else if HasPrefix t "BytesN<" || HasPrefix t "Vec<" then "soroban_sdk::" +:+ t
  else t.

(** ** codegen.go: types *)

Definition known_enums (c : Contract) : gmap string bool :=
  list_to_map (rev ((fun e => (en_Name e, IsIntRepr e)) <$> Enums c)).

Definition extractStructName (rustType : string) : string :=
  if Contains rustType "::" then default ""%string (list.last (split_colons "" rustType)) else rustType.

Definition extractVecInnerType (vecType : string) : string :=
  TrimSpace (TrimSuffix (TrimPrefix vecType "soroban_sdk::Vec<") ">").

Definition option_inner (t : string) : string := TrimSpace (TrimSuffix (TrimPrefix t "Option<") ">").

Definition bytesN_text (rustType : string) : string :=
  TrimSuffix (TrimPrefix rustType "soroban_sdk::BytesN<") ">".

Definition extractBytesNSize (rustType : string) : Z :=
  if HasPrefix rustType "soroban_sdk::BytesN<" then Sscanf_d (TrimSpace (bytesN_text rustType)) else 0.

Inductive gtype :=
| TUint64 | TUint32 | TU128 | TBig | TBool | TString | TBytes
| TArray (n : string)
| TPtr (t : gtype)
| TSlice (t : gtype)
| TNamed (name : string).
#[export] Instance gtype_eq_dec : EqDecision gtype.
Proof. solve_decision. Defined.

Fixpoint gtype_text (t : gtype) : string :=
  match t with
  | TUint64 => "uint64" | TUint32 => "uint32" | TU128 => "scval.U128" | TBig => "*big.Int"
  | TBool => "bool" | TString => "string" | TBytes => "[]byte"
  | TArray n => "[" +:+ n +:+ "]byte"
  | TPtr t => "*" +:+ gtype_text t
  | TSlice t => "[]" +:+ gtype_text t
  | TNamed name => name
  end.

Definition scalar_type (t : string) : option gtype :=
  if decide (t = "u64") then Some TUint64
  else if decide (t = "u32") then Some TUint32
  else if decide (t = "u128") then Some TU128
  else if decide (t = "i128") then Some TBig
  else if decide (t = "soroban_sdk::I256") then Some TBig
  else if decide (t = "bool") then Some TBool
  else if decide (t = "soroban_sdk::Address") then Some TString
  else if decide (t = "soroban_sdk::MuxedAddress") then Some TString
  else if decide (t = "soroban_sdk::Bytes") then Some TBytes
  else if decide (t = "soroban_sdk::Symbol") then Some TString
  else if decide (t = "soroban_sdk::String") then Some TString
  else None.

(** Each call is on a shorter text. *)
Fixpoint go_type (fuel : nat) (rustType : string) : gtype :=
  match fuel with
  | O => TNamed ""
  | S fuel =>
      match scalar_type rustType with
      | Some t => t
      | None =>
          if HasPrefix rustType "Option<" then
            let inner := option_inner rustType in
            if decide (inner = "soroban_sdk::Address") then TPtr TString else TPtr (go_type fuel inner)
          else if HasPrefix rustType "soroban_sdk::BytesN<" then TArray (bytesN_text rustType)
          else if HasPrefix rustType "soroban_sdk::Vec<" then TSlice (go_type fuel (extractVecInnerType rustType))
          else TNamed (extractStructName rustType)
      end
  end.
Definition rustTypeToGo (rustType : string) : gtype := go_type (S (String.length rustType)) rustType.

(** *** Conversions to a Soroban value *)

Inductive enc :=
| ECall (fn : string)
| EMust (fn : string)
| EMethod
| EMethodOf.

Definition enc_text (e : enc) (expr : string) : string :=
  match e with
  | ECall fn => "scval." +:+ fn +:+ "(" +:+ expr +:+ ")"
  | EMust fn => "scval.MustToScVal(scval." +:+ fn +:+ "(" +:+ expr +:+ "))"
  | EMethod => "scval.MustToScVal((" +:+ expr +:+ ").ToScVal())"
  | EMethodOf => "scval.MustToScVal(" +:+ expr +:+ ".ToScVal())"
  end.

Definition bytesN_fn (n : Z) (suffix : string) : string := "Bytes" +:+ pretty n +:+ suffix.

Definition vec_converter (inner : string) : enc :=
  if decide (inner = "u64") then ECall "Uint64SliceToScVal"
  else if decide (inner = "u32") then ECall "Uint32SliceToScVal"
  else if decide (inner = "soroban_sdk::Address") then ECall "AddressSliceToScVal"
  else if decide (inner = "soroban_sdk::Bytes") then ECall "BytesSliceToScVal"
  else if 0 <? extractBytesNSize inner then ECall (bytesN_fn (extractBytesNSize inner) "SliceToScVal")
  else if decide (inner = "soroban_sdk::I256") then EMust "I256SliceToScVal"
  else ECall "StructSliceToScVal".

Definition is_option_address (t : string) : bool := HasPrefix t "Option<" && Contains t "soroban_sdk::Address".

Definition to_converter (rustType : string) : enc :=
  if decide (rustType = "u64") then ECall "Uint64ToScVal"
  else if decide (rustType = "u32") then ECall "Uint32ToScVal"
  else if decide (rustType = "u128") then EMethod
  else if decide (rustType = "i128") then ECall "I128ToScVal"
  else if decide (rustType = "soroban_sdk::I256") then EMust "I256ToScVal"
  else if decide (rustType = "bool") then ECall "BoolToScVal"
  else if decide (rustType = "soroban_sdk::Address") then ECall "AddressToScVal"
  else if decide (rustType = "soroban_sdk::Bytes") then ECall "BytesToScVal"
  else if decide (rustType = "soroban_sdk::String") then ECall "StringToScVal"
  else if decide (rustType = "soroban_sdk::Symbol") then ECall "SymbolToScVal"
  else if is_option_address rustType then ECall "OptionalAddressToScVal"
  else if HasPrefix rustType "soroban_sdk::BytesN<" then ECall (bytesN_fn (extractBytesNSize rustType) "ToScVal")
  else if HasPrefix rustType "soroban_sdk::Vec<" then vec_converter (extractVecInnerType rustType)
  else EMethod.
Definition getToScValConverter (rustType expr : string) : string := enc_text (to_converter rustType) expr.

(** The same with muxed addresses, unqualified strings and without parentheses. *)
Definition arg_converter (rustType : string) : enc :=
  if decide (rustType = "soroban_sdk::MuxedAddress") then ECall "AddressToScVal"
  else if decide (rustType = "String") then ECall "StringToScVal"
  else match to_converter rustType with
       | EMethod => if decide (rustType = "u128") then EMethod else EMethodOf
       | e => e
       end.
Definition getArgConverter (rustType varName : string) : string := enc_text (arg_converter rustType) varName.

(** *** Conversions from a Soroban value *)

(** A call of the package, an accessor of the union, the loop over a vector, a
    declared enum, a declared structure behind a pointer, and one that may be void. *)
Inductive dec :=
| DCall (fn : string)
| DGet (accessor : string)
| DVec (elem : gtype) (item : dec)
| DEnum (name : string)
| DStruct (name : string)
| DNullable (name : string).

Section Known.
Variable known : gmap string bool.

Definition isEnumType (rustType : string) : bool :=
  match known !! extractStructName rustType with Some _ => true | None => false end.
Definition isIntReprEnumType (rustType : string) : bool :=
  match known !! extractStructName rustType with Some b => b | None => false end.

(** A declared type. *)
Definition declared (rustType : string) : dec :=
  if isEnumType rustType then DEnum (extractStructName rustType) else DStruct (extractStructName rustType).

Definition generateVecItemParse (innerType : string) : dec :=
  if decide (innerType = "u64") then DCall "Uint64FromScVal"
  else if decide (innerType = "u32") then DCall "Uint32FromScVal"
  else if decide (innerType = "soroban_sdk::Address") then DCall "AddressFromScVal"
  else if decide (innerType = "soroban_sdk::Bytes") then DGet "GetBytes"
  else if decide (innerType = "soroban_sdk::String") then DCall "StringFromScVal"
  else if decide (innerType = "u128") then DCall "U128FromScVal"
  else if decide (innerType = "soroban_sdk::I256") then DCall "I256FromScVal"
  else if is_option_address innerType then DCall "OptionalAddressFromScVal"
  else if 0 <? extractBytesNSize innerType then DCall (bytesN_fn (extractBytesNSize innerType) "FromScVal")
  else declared innerType.

Definition generateFromScValField (rustType : string) : dec :=
  if decide (rustType = "u64") then DCall "Uint64FromScVal"
  else if decide (rustType = "u32") then DGet "GetU32"
  else if decide (rustType = "i128") then DCall "I128FromScVal"
  else if decide (rustType = "soroban_sdk::I256") then DCall "I256FromScVal"
  else if decide (rustType = "bool") then DGet "GetB"
  else if decide (rustType = "soroban_sdk::Address") then DCall "AddressFromScVal"
  else if decide (rustType = "soroban_sdk::Bytes") then DGet "GetBytes"
  else if decide (rustType = "soroban_sdk::String") then DCall "StringFromScVal"
  else if decide (rustType = "soroban_sdk::Symbol") then DCall "SymbolFromScVal"
  else if decide (rustType = "u128") then DCall "U128FromScVal"
  else if is_option_address rustType then DCall "OptionalAddressFromScVal"
  else if HasPrefix rustType "soroban_sdk::BytesN<" then DCall (bytesN_fn (extractBytesNSize rustType) "FromScVal")
  else if HasPrefix rustType "soroban_sdk::Vec<" then
    DVec (match rustTypeToGo rustType with TSlice t => t | t => t end)
      (generateVecItemParse (extractVecInnerType rustType))
  else declared rustType.

Definition generatePayloadFromScVal (rustType : string) : dec :=
  if decide (rustType = "u32") then DGet "GetU32"
  else if decide (rustType = "u64") then DCall "Uint64FromScVal"
  else if decide (rustType = "i128") then DCall "I128FromScVal"
  else if decide (rustType = "u128") then DCall "U128FromScVal"
  else if decide (rustType = "bool") then DGet "GetB"
  else if decide (rustType = "soroban_sdk::Address") then DCall "AddressFromScVal"
  else if decide (rustType = "soroban_sdk::Bytes") then DGet "GetBytes"
  else if decide (rustType = "soroban_sdk::String") then DCall "StringFromScVal"
  else if decide (rustType = "soroban_sdk::Symbol") then DCall "SymbolFromScVal"
  else if HasPrefix rustType "soroban_sdk::BytesN<" then DCall (bytesN_fn (extractBytesNSize rustType) "FromScVal")
  else declared rustType.

(** ** codegen.go: declarations *)

(** A member: its key in the map, its Go name and type, and its two conversions. *)
Record Member := mkMember { m_Key : string; m_Go : string; m_Type : gtype; m_To : enc; m_From : dec }.

Record StructDecl := mkStructDecl { sd_Name : string; sd_Members : list Member }.

Definition struct_member (f : Field) : Member :=
  mkMember (f_Name f) (snakeToPascal (f_Name f)) (rustTypeToGo (f_Type f)) (to_converter (f_Type f))
    (generateFromScValField (f_Type f)).
Definition generateStruct (s : Struct) : StructDecl :=
  mkStructDecl (s_Name s) (struct_member <$> s_Fields s).

Definition tupleFieldName (i : nat) : string := "Field" +:+ pretty (Z.of_nat i).

(** A variant, with its payload in order. *)
Record VariantDecl := mkVariantDecl { vd_Name : string; vd_Members : list Member }.

Definition payload_member (k : EnumVariantKind) (i : nat) (f : Field) : Member :=
  mkMember (f_Name f)
    (match k with EnumVariantTuple => tupleFieldName i | _ => snakeToPascal (f_Name f) end)
    (rustTypeToGo (f_Type f)) (to_converter (f_Type f)) (generatePayloadFromScVal (f_Type f)).
Definition variant_members (v : EnumVariant) : list Member :=
  match Kind v with EnumVariantUnit => [] | k => imap (payload_member k) (Payload v) end.

Inductive EnumDecl :=
| UnitEnum (name : string) (consts : list (string * Z))
| UnionEnum (name : string) (variants : list VariantDecl).

Definition generateUnitEnum (e : Enum) : EnumDecl :=
  UnitEnum (en_Name e) ((fun v => (en_Name e +:+ v_Name v, v_Value v)) <$> en_Variants e).
Definition generateUnionEnum (e : Enum) : EnumDecl :=
  UnionEnum (en_Name e) ((fun v => mkVariantDecl (v_Name v) (variant_members v)) <$> en_Variants e).
Definition generateEnum (e : Enum) : EnumDecl :=
  if IsIntRepr e then generateUnitEnum e else generateUnionEnum e.

End Known.

(** The codes of an error enum as constants, and their messages by code. *)
Record ErrorDecl := mkErrorDecl { xd_Name : string; xd_Consts : list (string * Z); xd_Messages : list (Z * string) }.
Definition generateErrorEnum (e : ErrorEnum) : ErrorDecl :=
  mkErrorDecl (ee_Name e) ((fun v => (ee_Name e +:+ er_Name v, er_Value v)) <$> ee_Variants e)
    ((fun v => (er_Value v, camelToSpaces (er_Name v))) <$> ee_Variants e).

(** The members of an event's structure, with the two of its metadata, and the
    constant of its topic. *)
Record EventDecl := mkEventDecl { ed_Name : string; ed_Members : list (string * gtype); ed_Topic : option string }.
Definition event_metadata : list (string * gtype) := [("Ledger"%string, TUint32); ("TxHash"%string, TString)].
Definition generateEventStruct (e : Event) : EventDecl :=
  mkEventDecl (ev_Name e)
    (((fun f => (snakeToPascal (f_Name (ef_Field f)), rustTypeToGo (f_Type (ef_Field f)))) <$> ev_Fields e)
       ++ event_metadata) (head (Topics e)).

Record Imports := mkImports { needFmt : bool; needScval : bool; needXdr : bool; needBig : bool }.

Definition types_fields (c : Contract) : list Field :=
  (Structs c ≫= s_Fields) ++ (Events c ≫= fun e => ef_Field <$> ev_Fields e)
  ++ (Enums c ≫= fun e => en_Variants e ≫= Payload).

Definition typesFileNeedsImports (c : Contract) : Imports :=
  let coded := negb (Nat.eqb (length (Structs c)) 0) || negb (Nat.eqb (length (Enums c)) 0) in
  let mentions s := existsb (fun f => Contains (gtype_text (rustTypeToGo (f_Type f))) s) (types_fields c) in
  mkImports coded (coded || mentions "scval.") coded (mentions "big.Int").

(** [types.go]. *)
Record TypesFile := mkTypesFile {
  tf_Package : string;
  tf_Imports : Imports;
  tf_Structs : list StructDecl;
  tf_Errors : list ErrorDecl;
  tf_Events : list EventDecl;
  tf_Enums : list EnumDecl
}.
Definition GenerateTypes (pkg : string) (c : Contract) : TypesFile :=
  let known := known_enums c in
  mkTypesFile pkg (typesFileNeedsImports c) (generateStruct known <$> Structs c) (generateErrorEnum <$> Errors c)
    (generateEventStruct <$> Events c) (generateEnum known <$> Enums c).

(** ** client_codegen.go: types *)

Definition isTupleType (rustType : string) : bool :=
  HasPrefix rustType "(" && bool_decide (TrimSuffix rustType ")" +:+ ")" = rustType).
Definition parseTupleTypes (tupleType : string) : list string :=
  splitReturnType (TrimSuffix (TrimPrefix tupleType "(") ")").

(** The text of the empty string of Go. *)
Definition empty_literal : string := String (ascii_of_nat 34) (String (ascii_of_nat 34) "").

(** The type returned next to the error, if there is one. *)
Definition parseReturnType (returnStr : string) : option string :=
  let returnStr := TrimSpace returnStr in
  if decide (returnStr = "") then None
  else if HasPrefix returnStr "Option<" then Some returnStr
  else if HasPrefix returnStr "Result<" then
    match splitReturnType (TrimSuffix (TrimPrefix returnStr "Result<") ">") with
    | [] => Some returnStr
    | okType :: _ => if decide (TrimSpace okType = "()") then None else Some (TrimSpace okType)
    end
  else Some returnStr.

Section Client.
Variable known : gmap string bool.

Fixpoint struct_type (fuel : nat) (rustType : string) : bool :=
  match fuel with
  | O => true
  | S fuel =>
      if isEnumType known rustType then false
      else if decide (rustType ∈ ["u64"; "u32"; "u128"; "i128"; "bool"]%string) then false
      else if HasPrefix rustType "soroban_sdk::" then false
      else if HasPrefix rustType "Option<" then struct_type fuel (option_inner rustType)
      else true
  end.
Definition isStructType (rustType : string) : bool := struct_type (S (String.length rustType)) rustType.

Fixpoint zero_text (fuel : nat) (rustType : string) : string :=
  match fuel with
  | O => "nil"
  | S fuel =>
      if isTupleType rustType then String.concat ", " (zero_text fuel <$> parseTupleTypes rustType)
      else if decide (rustType ∈ ["u64"; "u32"]%string) then "0"
      else if decide (rustType = "u128") then "scval.U128{}"
      else if decide (rustType ∈ ["i128"; "soroban_sdk::I256"]%string) then "nil"
      else if decide (rustType = "bool") then "false"
      else if decide (rustType ∈ ["soroban_sdk::Address"; "soroban_sdk::String"; "soroban_sdk::Symbol"]%string)
      then empty_literal
      else if HasPrefix rustType "Option<" then "nil"
      else if HasPrefix rustType "soroban_sdk::BytesN<" then "[" +:+ pretty (extractBytesNSize rustType) +:+ "]byte{}"
      else if isEnumType known rustType then
        if isIntReprEnumType known rustType then "0" else extractStructName rustType +:+ "{}"
      else "nil"
  end.
Definition zeroValue (rustType : string) : string := zero_text (S (String.length rustType)) rustType.

(** ** client_codegen.go: methods *)

Inductive ret := RVoid | RVal (d : dec) | RTuple (l : list dec).

Definition vec_return_item (innerType : string) : dec :=
  if is_option_address innerType then DCall "OptionalAddressFromScVal"
  else if decide (innerType = "soroban_sdk::Address") then DCall "AddressFromScVal"
  else if decide (innerType = "soroban_sdk::Bytes") then DGet "GetBytes"
  else if HasPrefix innerType "Option<" then
    let optInner := option_inner innerType in
    if decide (optInner = "u32") then DCall "OptionalUint32FromScVal"
    else if decide (optInner = "soroban_sdk::String") then DCall "OptionalStringFromScVal"
    else DNullable (extractStructName optInner)
  else if decide (innerType = "bool") then DGet "GetB"
  else if decide (innerType = "u64") then DCall "Uint64FromScVal"
  else if decide (innerType = "soroban_sdk::I256") then DCall "I256FromScVal"
  else if 0 <? extractBytesNSize innerType then DCall (bytesN_fn (extractBytesNSize innerType) "FromScVal")
  else declared known innerType.

Definition tuple_vec_item (innerType : string) : dec :=
  if decide (innerType = "u64") then DCall "Uint64FromScVal"
  else if decide (innerType = "u32") then DGet "GetU32"
  else if decide (innerType = "soroban_sdk::Address") then DCall "AddressFromScVal"
  else if decide (innerType = "soroban_sdk::Bytes") then DGet "GetBytes"
  else declared known innerType.

Definition vec_elem (rustType : string) : gtype := rustTypeToGo (extractVecInnerType rustType).

Definition generateTupleElementParsing (rustType : string) : dec :=
  if decide (rustType = "u32") then DGet "GetU32"
  else if decide (rustType = "u64") then DCall "Uint64FromScVal"
  else if decide (rustType = "i128") then DCall "I128FromScVal"
  else if decide (rustType = "soroban_sdk::I256") then DCall "I256FromScVal"
  else if decide (rustType = "bool") then DGet "GetB"
  else if decide (rustType = "soroban_sdk::Address") then DCall "AddressFromScVal"
  else if decide (rustType = "soroban_sdk::Bytes") then DGet "GetBytes"
  else if HasPrefix rustType "soroban_sdk::BytesN<" then DCall (bytesN_fn (extractBytesNSize rustType) "FromScVal")
  else if HasPrefix rustType "soroban_sdk::Vec<" then
    DVec (vec_elem rustType) (tuple_vec_item (extractVecInnerType rustType))
  else declared known rustType.

Definition generateReturnValueParsing (returnType : string) : ret :=
  if decide (returnType = "u64") then RVal (DCall "Uint64FromScVal")
  else if decide (returnType = "u32") then RVal (DGet "GetU32")
  else if decide (returnType = "i128") then RVal (DCall "I128FromScVal")
  else if decide (returnType = "soroban_sdk::I256") then RVal (DCall "I256FromScVal")
  else if decide (returnType = "bool") then RVal (DGet "GetB")
  else if decide (returnType = "soroban_sdk::Address") then RVal (DCall "AddressFromScVal")
  else if decide (returnType = "soroban_sdk::Bytes") then RVal (DGet "GetBytes")
  else if decide (returnType = "soroban_sdk::String") then RVal (DCall "StringFromScVal")
  else if decide (returnType = "soroban_sdk::Symbol") then RVal (DCall "SymbolFromScVal")
  else if HasPrefix returnType "Option<" then
    let innerType := option_inner returnType in
    if decide (innerType = "soroban_sdk::Address") then RVal (DCall "OptionalAddressFromScVal")
    else if decide (innerType = "u32") then RVal (DCall "OptionalUint32FromScVal")
    else if decide (innerType = "soroban_sdk::String") then RVal (DCall "OptionalStringFromScVal")
    else RVal (DNullable (extractStructName innerType))
  else if decide (returnType = "u128") then RVal (DCall "U128FromScVal")
  else if HasPrefix returnType "soroban_sdk::BytesN<" then RVal (DCall (bytesN_fn (extractBytesNSize returnType) "FromScVal"))
  else if HasPrefix returnType "soroban_sdk::Vec<" then
    RVal (DVec (vec_elem returnType) (vec_return_item (extractVecInnerType returnType)))
  else if isTupleType returnType then RTuple (generateTupleElementParsing <$> parseTupleTypes returnType)
  else RVal (declared known returnType).

(** The Go types of the values next to the error. *)
Definition return_types (returnType : string) : list gtype :=
  let plain t :=
    if negb (HasPrefix t "Option<") && isStructType t then TPtr (rustTypeToGo t) else rustTypeToGo t in
  if isTupleType returnType then plain <$> parseTupleTypes returnType else [plain returnType].

(** A method: its parameters, the values next to the error and their text when there
    is an error, which call it makes of which function with which arguments, and how
    it reads the result. *)
Record Method := mkMethod {
  me_Name : string;
  Params : list (string * gtype);
  me_Returns : list gtype;
  me_Zero : string;
  Simulates : bool;
  Calls : string;
  Args : list enc;
  Parses : ret
}.

Definition generateMethod (fn : Function) : Method :=
  mkMethod (snakeToPascal (fn_Name fn))
    ((fun i => (snakeToCamel (f_Name i), rustTypeToGo (f_Type i))) <$> Inputs fn)
    (match parseReturnType (fn_Returns fn) with Some t => return_types t | None => [] end)
    (match parseReturnType (fn_Returns fn) with Some t => zeroValue t | None => "" end)
    (ReadOnly fn) (fn_Name fn) ((fun i => arg_converter (f_Type i)) <$> Inputs fn)
    (match parseReturnType (fn_Returns fn) with Some t => generateReturnValueParsing t | None => RVoid end).

(** ** client_codegen.go: events

    A value that does not decode is skipped; an item that does not leaves its place
    zero, or is left out where the items are structures. *)
Inductive event_dec :=
| EvField (d : dec)
| EvVec (elem : gtype) (item : dec) (drops : bool).

Definition generateTopicFieldParsing (rustType : string) : option dec :=
  if decide (rustType = "u64") then Some (DCall "Uint64FromScVal")
  else if decide (rustType = "u32") then Some (DCall "Uint32FromScVal")
  else if decide (rustType = "i128") then Some (DCall "I128FromScVal")
  else if decide (rustType = "soroban_sdk::I256") then Some (DCall "I256FromScVal")
  else if decide (rustType = "soroban_sdk::Address") then Some (DCall "AddressFromScVal")
  else if decide (rustType = "soroban_sdk::String") then Some (DCall "StringFromScVal")
  else if HasPrefix rustType "soroban_sdk::BytesN<" then Some (DCall (bytesN_fn (extractBytesNSize rustType) "FromScVal"))
  else None.

Definition event_vec (rustType innerType : string) : event_dec :=
  let item d := EvVec (vec_elem rustType) d false in
  if is_option_address innerType then item (DCall "OptionalAddressFromScVal")
  else if decide (innerType = "soroban_sdk::Address") then item (DCall "AddressFromScVal")
  else if decide (innerType = "soroban_sdk::Bytes") then item (DGet "GetBytes")
  else if 0 <? extractBytesNSize innerType then item (DCall (bytesN_fn (extractBytesNSize innerType) "FromScVal"))
  else if isEnumType known innerType then item (DEnum (extractStructName innerType))
  else EvVec (vec_elem rustType) (DStruct (extractStructName innerType)) true.

Definition generateEventFieldParsing (rustType : string) : event_dec :=
  if decide (rustType = "u64") then EvField (DCall "Uint64FromScVal")
  else if decide (rustType = "u32") then EvField (DGet "GetU32")
  else if decide (rustType = "u128") then EvField (DCall "U128FromScVal")
  else if decide (rustType = "i128") then EvField (DCall "I128FromScVal")
  else if decide (rustType = "soroban_sdk::I256") then EvField (DCall "I256FromScVal")
  else if decide (rustType = "bool") then EvField (DGet "GetB")
  else if decide (rustType = "soroban_sdk::Address") then EvField (DCall "AddressFromScVal")
  else if is_option_address rustType then EvField (DCall "OptionalAddressFromScVal")
  else if decide (rustType = "soroban_sdk::Symbol") then EvField (DCall "SymbolFromScVal")
  else if decide (rustType = "soroban_sdk::String") then EvField (DCall "StringFromScVal")
  else if decide (rustType = "soroban_sdk::Bytes") then EvField (DGet "GetBytes")
  else if HasPrefix rustType "soroban_sdk::BytesN<" then EvField (DCall (bytesN_fn (extractBytesNSize rustType) "FromScVal"))
  else if HasPrefix rustType "soroban_sdk::Vec<" then event_vec rustType (extractVecInnerType rustType)
  else EvField (declared known rustType).

(** The topics read, by their position, and the members of the map. *)
Record EventParser := mkEventParser {
  ep_Topics : list (nat * string * dec);
  ep_Fields : list (string * string * event_dec)
}.

Fixpoint topic_parsers (idx : nat) (fields : list EventField) : list (nat * string * dec) :=
  match fields with
  | [] => []
  | f :: rest =>
      if Topic f then
        match generateTopicFieldParsing (f_Type (ef_Field f)) with
        | Some d => [(idx, snakeToPascal (f_Name (ef_Field f)), d)]
        | None => []
        end ++ topic_parsers (S idx) rest
      else topic_parsers idx rest
  end.

Definition generateEventParser (e : Event) : EventParser :=
  mkEventParser (topic_parsers 1 (ev_Fields e))
    ((fun f => (f_Name f, snakeToPascal (f_Name f), generateEventFieldParsing (f_Type f)))
       <$> (ef_Field <$> filter (fun f => Topic f = false) (ev_Fields e))).

(** [WaitFor] and [Parse] of an event. *)
Record EventHelper := mkEventHelper { eh_Event : string; eh_Parser : EventParser }.
Definition generateEventHelpers (c : Contract) : list EventHelper :=
  (fun e => mkEventHelper (ev_Name e) (generateEventParser e)) <$> Events c.

End Client.

(** [client.go]. *)
Record ClientFile := mkClientFile {
  cf_Package : string;
  cf_Contract : string;
  cf_Big : bool;
  cf_Events : bool;
  cf_Methods : list Method;
  cf_Helpers : list EventHelper
}.

Definition requiresBigIntImport (c : Contract) : bool :=
  let big t := Contains t "i128" || Contains t "soroban_sdk::I256" in
  existsb (fun fn => big (fn_Returns fn) || existsb (fun i => big (f_Type i)) (Inputs fn)) (Functions c).

Definition GenerateClient (pkg : string) (c : Contract) : ClientFile :=
  let known := known_enums c in
  mkClientFile pkg (c_Name c) (requiresBigIntImport c) (negb (Nat.eqb (length (Events c)) 0))
    (generateMethod known <$> Functions c) (generateEventHelpers known c).

(** ** main.go *)

(** The events of [src] that [dst] does not have, each name once. *)
Fixpoint mergeEvents (dst src : list Event) : list Event :=
  match src with
  | [] => dst
  | e :: rest => if decide (ev_Name e ∈ (ev_Name <$> dst)) then mergeEvents dst rest
                 else mergeEvents (dst ++ [e]) rest
  end.

(** The names of a flag; none are given by the empty text. *)
Definition parseFnSet (csv : string) (valid : list string) : res (option (list string)) :=
  if decide (csv = "") then Ok None
  else
    let set := TrimSpace <$> split_char ","%char "" csv in
    if forallb (fun fn => bool_decide (fn ∈ valid)) set then Ok (Some set)
    else Err (ErrorString "function not valid for contract").

Definition lower_string (s : string) : string := string_map lower s.

Definition reads_by_name (name : string) : bool :=
  let n := lower_string name in
  HasPrefix n "get_" || HasPrefix n "is_" || bool_decide (n = "owner"%string) || bool_decide (n = "balance"%string).

Definition in_set (s : option (list string)) (name : string) : bool :=
  match s with Some l => bool_decide (name ∈ l) | None => false end.

(** The functions a client gets, with which are read-only. *)
Definition select_functions (readOnly includeVoid : option (list string)) (fns : list Function) : list Function :=
  (fun fn => mkFunction (fn_Name fn) (Inputs fn) (fn_Returns fn)
               (match readOnly with Some _ => in_set readOnly (fn_Name fn) | None => reads_by_name (fn_Name fn) end))
    <$> filter (fun fn => negb (bool_decide (fn_Returns fn = "")) || in_set includeVoid (fn_Name fn) = true) fns.

Definition names_of (fns : list Function) : list string := fn_Name <$> fns.

(** What the two files are generated from. *)
Definition prepared (name readOnly includeVoid : string) (supplement : list Event) (c : Contract) : res Contract :=
  readOnlyFns ← parseFnSet readOnly (names_of (Functions c));
  includeVoidFns ← parseFnSet includeVoid (names_of (filter (fun fn => fn_Returns fn = ""%string) (Functions c)));
  Ok (mkGenContract name (Structs c) (select_functions readOnlyFns includeVoidFns (Functions c)) (Errors c)
        (mergeEvents (Events c) supplement) (Enums c)).

(** The two files of the package. *)
Definition main (name pkg readOnly includeVoid : string) (supplement : list Event) (c : Contract)
    : res (TypesFile * ClientFile) :=
  c ← prepared name readOnly includeVoid supplement c;
  Ok (GenerateTypes pkg c, GenerateClient pkg c).
