(* ===== verification/BindgenSem.v ===== *)
(** * Generated bindings: what the emitted code does

    The values of the Go types of the bindings ([gval]), the functions of
    bindings/scval that emitted code calls, by name, and the meaning of the emitted
    declarations of Bindgen.v: [ToScVal] and [FromScVal] of every declared type, and
    the methods of a client over the invoker of Ownership.v.  [None] is the meaning
    of code that does not compile. *)

From S2P Require Import Prelude Sdk GoBytes Xdr Scval TypeConverters EventFields Interaction GovRefs Ownership Bindgen.

#[local] Set Warnings "-register-all".
Inductive gval :=
| GUint64 (z : Z)
| GUint32 (z : Z)
| GU128 (p : UInt128Parts)
| GBig (z : option Z)
| GBool (b : bool)
| GString (s : string)
| GBytes (b : bytes)
| GArray (b : bytes)
| GPtr (o : option gval)
| GSlice (l : list gval)
| GStruct (fs : list (string * gval)).

(** ** Code that may not compile *)

Definition may (A : Type) : Type := option (outcome A).
#[export] Instance may_ret : MRet may := fun A a => Some (Returns a).
#[export] Instance may_bind : MBind may := fun A B f m =>
  match m with
  | None => None
  | Some (Returns a) => f a
  | Some (Errs e) => Some (Errs e)
  | Some Panics => Some Panics
  end.

Fixpoint mapM_may {A B} (f : A -> may B) (l : list A) : may (list B) :=
  match l with
  | [] => mret []
  | a :: l' => b ← f a; bs ← mapM_may f l'; mret (b :: bs)
  end.

(** [MustToScVal] panics on an error. *)
Definition must {A} (m : may A) : may A :=
  match m with Some (Errs _) => Some Panics | m => m end.

(** ** The package scval, by name *)

Definition array_sizes : list nat := [2; 4; 10; 16; 20; 32; 64]%nat.
Definition slice_sizes : list nat := [4; 16; 32]%nat.

Definition sized (sizes : list nat) (suffix fn : string) : option nat :=
  list_find (fun n => bytesN_fn (Z.of_nat n) suffix = fn) sizes ≫= fun p => Some p.2.

Definition strings_of : list gval -> option (list string) := mapM (fun v => match v with GString s => Some s | _ => None end).
Definition uint64s_of : list gval -> option (list Z) := mapM (fun v => match v with GUint64 z => Some z | _ => None end).
Definition uint32s_of : list gval -> option (list Z) := mapM (fun v => match v with GUint32 z => Some z | _ => None end).
Definition bytes_of : list gval -> option (list bytes) := mapM (fun v => match v with GBytes b => Some b | _ => None end).
Definition bigs_of : list gval -> option (list (option Z)) := mapM (fun v => match v with GBig z => Some z | _ => None end).
Definition arrays_of (n : nat) : list gval -> option (list bytes) :=
  mapM (fun v => match v with GArray b => if Nat.eqb (length b) n then Some b else None | _ => None end).

Section Sem.
Context `{Codec}.

Definition total (o : option ScVal) : may ScVal := Returns <$> o.

Definition pkg_to (fn : string) (v : gval) : may ScVal :=
  if decide (fn = "Uint64ToScVal") then total (match v with GUint64 z => Some (Uint64ToScVal z) | _ => None end)
  else if decide (fn = "Uint32ToScVal") then total (match v with GUint32 z => Some (Uint32ToScVal z) | _ => None end)
  else if decide (fn = "I128ToScVal") then match v with GBig z => Some (I128ToScVal z) | _ => None end
  else if decide (fn = "BoolToScVal") then total (match v with GBool b => Some (BoolToScVal b) | _ => None end)
  else if decide (fn = "AddressToScVal") then total (match v with GString s => Some (AddressToScVal s) | _ => None end)
  else if decide (fn = "OptionalAddressToScVal") then
    total (match v with
           | GPtr None => Some (OptionalAddressToScVal None)
           | GPtr (Some (GString s)) => Some (OptionalAddressToScVal (Some s))
           | _ => None
           end)
  else if decide (fn = "BytesToScVal") then total (match v with GBytes b => Some (BytesToScVal b) | _ => None end)
  else if decide (fn = "StringToScVal") then total (match v with GString s => Some (StringToScVal s) | _ => None end)
  else if decide (fn = "SymbolToScVal") then total (match v with GString s => Some (SymbolToScVal s) | _ => None end)
  else if decide (fn = "Uint64SliceToScVal") then
    total (match v with GSlice l => Uint64SliceToScVal <$> uint64s_of l | _ => None end)
  else if decide (fn = "Uint32SliceToScVal") then
    total (match v with GSlice l => Uint32SliceToScVal <$> uint32s_of l | _ => None end)
  else if decide (fn = "AddressSliceToScVal") then
    total (match v with GSlice l => AddressSliceToScVal <$> strings_of l | _ => None end)
  else if decide (fn = "BytesSliceToScVal") then
    total (match v with GSlice l => BytesSliceToScVal <$> bytes_of l | _ => None end)
  else match sized array_sizes "ToScVal" fn with
       | Some n => total (match v with
                          | GArray b => if Nat.eqb (length b) n then Some (BytesToScVal b) else None
                          | _ => None
                          end)
       | None =>
           match sized slice_sizes "SliceToScVal" fn with
           | Some n => total (match v with
                              | GSlice l => (fun bs => VecToScVal (BytesToScVal <$> bs)) <$> arrays_of n l
                              | _ => None
                              end)
           | None => None
           end
       end.

(** The functions with an error. *)
Definition pkg_to_res (fn : string) (v : gval) : may ScVal :=
  if decide (fn = "I256ToScVal") then match v with GBig z => Some (out_of_res (I256ToScVal z)) | _ => None end
  else if decide (fn = "I256SliceToScVal") then
    match v with GSlice l => zs ← bigs_of l; Some (out_of_res (I256SliceToScVal zs)) | _ => None end
  else None.

Definition pkg_from (fn : string) (val : ScVal) : may gval :=
  if decide (fn = "Uint64FromScVal") then Some (GUint64 <$> Uint64FromScVal val)
  else if decide (fn = "Uint32FromScVal") then Some (GUint32 <$> Uint32FromScVal val)
  else if decide (fn = "U128FromScVal") then Some (GU128 <$> U128FromScVal val)
  else if decide (fn = "I128FromScVal") then Some ((fun z => GBig (Some z)) <$> I128FromScVal val)
  else if decide (fn = "I256FromScVal") then Some ((fun z => GBig (Some z)) <$> I256FromScVal val)
  else if decide (fn = "AddressFromScVal") then Some (GString <$> AddressFromScVal val)
  else if decide (fn = "StringFromScVal") then Some (GString <$> StringFromScVal val)
  else if decide (fn = "SymbolFromScVal") then Some (GString <$> SymbolFromScVal val)
  else if decide (fn = "OptionalAddressFromScVal") then
    Some ((fun o => GPtr (GString <$> o)) <$> OptionalAddressFromScVal val)
  else if decide (fn = "OptionalStringFromScVal") then
    Some ((fun o => GPtr (GString <$> o)) <$> OptionalStringFromScVal val)
  else if decide (fn = "OptionalUint32FromScVal") then
    Some ((fun o => GPtr (GUint32 <$> o)) <$> OptionalUint32FromScVal val)
  else match sized array_sizes "FromScVal" fn with
       | Some n => Some (GArray <$> bytesNFromScVal val n)
       | None => None
       end.

Definition accessor_of (accessor : string) (val : ScVal) : may gval :=
  if decide (accessor = "GetU32") then Some (GUint32 <$> need (GetU32 val) "expected u32")
  else if decide (accessor = "GetB") then Some (GBool <$> need (GetB val) "expected bool")
  else if decide (accessor = "GetBytes") then Some (GBytes <$> need (GetBytes val) "expected bytes")
  else None.

(** ** Emitted conversions

    [to] and [from] are the conversions of the declared types. *)

(** *** Waiting for an event: what it asks *)

Inductive wreq :=
| Await
| Elapsed
| PollEvents (contractID : string) (startLedger : Z) (topics : list string).

(** The tick or the end of the context, the time since the start, the invoker's
    events. *)
Definition wans (r : wreq) : Type :=
  match r with
  | Await => option error
  | Elapsed => Z
  | PollEvents _ _ _ => outcome (list protocol.EventInfo)
  end.

Section Emitted.
Variable to : string -> gval -> may ScVal.
Variable from : string -> ScVal -> may gval.

(** [(x).ToScVal()], by the type of [x]. *)
Definition method (t : gtype) (v : gval) : may ScVal :=
  match t, v with
  | TU128, GU128 p => Some (Returns (U128ToScVal p))
  | TNamed N, _ => to N v
  | _, _ => None
  end.

Definition run_enc (t : gtype) (e : enc) (v : gval) : may ScVal :=
  match e with
  | EMethod | EMethodOf => must (method t v)
  | EMust fn => must (pkg_to_res fn v)
  | ECall fn =>
      if decide (fn = "StructSliceToScVal"%string) then
        match t, v with
        | TSlice t', GSlice l => xs ← mapM_may (fun x => must (method t' x)) l; mret (VecToScVal xs)
        | _, _ => None
        end
      else pkg_to fn v
  end.

Definition loop (item : ScVal -> may gval) (val : ScVal) : may gval :=
  vec ← (Some (need (GetVec val) "not a vec") : may _);
  match vec with
  | None => Some (Errs (ErrorString "not a vec"))
  | Some items => vs ← mapM_may item items; mret (GSlice vs)
  end.

Fixpoint run_dec (d : dec) (val : ScVal) : may gval :=
  match d with
  | DCall fn => pkg_from fn val
  | DGet accessor => accessor_of accessor val
  | DVec _ item => loop (run_dec item) val
  | DEnum N | DStruct N => from N val
  | DNullable N =>
      match val with
      | ScvVoid => mret (GPtr None)
      | _ => v ← from N val; mret (GPtr (Some v))
      end
  end.

Definition get_field (fs : list (string * gval)) (g : string) : may gval :=
  match list_to_map (M := gmap string gval) fs !! g with Some v => mret v | None => None end.

(** The value of a member, converted. *)
Definition member_to (fs : list (string * gval)) (m : Member) : may ScVal :=
  v ← get_field fs (m_Go m); run_enc (m_Type m) (m_To m) v.

(** [BuildStructScVal] on the map literal of the members. *)
Definition struct_to (d : StructDecl) (v : gval) : may ScVal :=
  match v with
  | GStruct fs =>
      xs ← mapM_may (member_to fs) (sd_Members d);
      let keys := m_Key <$> sd_Members d in
      Some (out_of_res (BuildStructScVal keys (list_to_map (zip keys xs))))
  | _ => None
  end.

Definition set_field (g : string) (x : gval) (fs : list (string * gval)) : list (string * gval) :=
  (fun p => if decide (p.1 = g) then (g, x) else p) <$> fs.

Definition find_member (ms : list Member) (k : string) : option Member :=
  snd <$> list_find (fun m => m_Key m = k) ms.

(** The loop over the entries with its switch. *)
Fixpoint fill (ms : list Member) (entries : list (ScMapEntry ScVal)) (fs : list (string * gval))
    : may (list (string * gval)) :=
  match entries with
  | [] => mret fs
  | e :: rest =>
      key ← (Some (GetSym (Key e)) : may _);
      match key ≫= find_member ms with
      | None => fill ms rest fs
      | Some m => v ← run_dec (m_From m) (Val e); fill ms rest (set_field (m_Go m) v fs)
      end
  end.

Definition struct_from (zero : gtype -> gval) (d : StructDecl) (val : ScVal) : may gval :=
  scMap ← (Some (need_map val "not a map type") : may _);
  fs ← fill (sd_Members d) scMap ((fun m => (m_Go m, zero (m_Type m))) <$> sd_Members d);
  mret (GStruct fs).

(** Exactly one variant pointer is set. *)
Definition chosen (vs : list VariantDecl) (fs : list (string * gval)) : list (VariantDecl * list (string * gval)) :=
  omap (fun d => match list_to_map (M := gmap string gval) fs !! vd_Name d with
                 | Some (GPtr (Some (GStruct p))) => Some (d, p)
                 | _ => None
                 end) vs.

Definition enum_to (d : EnumDecl) (v : gval) : may ScVal :=
  match d, v with
  | UnitEnum _ _, GUint32 z => Some (Returns (Uint32ToScVal z))
  | UnionEnum _ vs, GStruct fs =>
      match chosen vs fs with
      | [(vd, p)] =>
          xs ← mapM_may (member_to p) (vd_Members vd);
          mret (VecToScVal (SymbolToScVal (vd_Name vd) :: xs))
      | _ => Some (Errs (ErrorString "expected exactly one variant set"))
      end
  | _, _ => None
  end.

Definition union_value (vs : list VariantDecl) (name : string) (payload : list (string * gval)) : gval :=
  GStruct ((fun d => (vd_Name d, GPtr (if decide (vd_Name d = name) then Some (GStruct payload) else None))) <$> vs).

Definition variant_from (vs : list VariantDecl) (vd : VariantDecl) (payload : list ScVal) : may gval :=
  if negb (Nat.eqb (length payload) (length (vd_Members vd))) then Some (Errs (ErrorString "wrong number of elements"))
  else
    xs ← mapM_may (fun p => run_dec (m_From p.1) p.2) (zip (vd_Members vd) payload);
    mret (union_value vs (vd_Name vd) (zip (m_Go <$> vd_Members vd) xs)).

Definition enum_from (d : EnumDecl) (val : ScVal) : may gval :=
  match d with
  | UnitEnum _ _ => Some (GUint32 <$> need (GetU32 val) "expected u32")
  | UnionEnum _ vs =>
      vecPtr ← (Some (need (GetVec val) "expected vec") : may _);
      match vecPtr with
      | None => Some (Errs (ErrorString "expected vec"))
      | Some [] => Some (Errs (ErrorString "empty vec"))
      | Some (tag :: payload) =>
          name ← (Some (SymbolFromScVal tag) : may _);
          match list_find (fun d => vd_Name d = name) vs with
          | Some (_, vd) => variant_from vs vd payload
          | None => Some (Errs (ErrorString "unknown variant"))
          end
      end
  end.

(** *** Events *)

(** [v, err := ...; if err == nil]: [None] for an error. *)
Definition attempt {A} (m : may A) : may (option A) :=
  match m with
  | Some (Errs _) => mret None
  | m => a ← m; mret (Some a)
  end.

Fixpoint parse_items (zero : gval) (drops : bool) (item : ScVal -> may gval) (items : list ScVal) : may (list gval) :=
  match items with
  | [] => mret []
  | i :: rest =>
      v ← attempt (item i);
      vs ← parse_items zero drops item rest;
      mret match v with
           | Some v => v :: vs
           | None => if drops then vs else zero :: vs
           end
  end.

(** The value of a member of an event, if there is one. *)
Definition run_event_dec (zero : gtype -> gval) (d : event_dec) (val : ScVal) : may (option gval) :=
  match d with
  | EvField d => attempt (run_dec d val)
  | EvVec elem item drops =>
      vec ← attempt (Some (need (GetVec val) "not a vec"));
      match vec with
      | Some (Some items) => parsed ← parse_items (zero elem) drops (run_dec item) items; mret (Some (GSlice parsed))
      | _ => mret None
      end
  end.

Definition set_some (g : string) (v : option gval) (fs : list (string * gval)) : list (string * gval) :=
  match v with Some v => set_field g v fs | None => fs end.

Fixpoint read_topics (topics : list (nat * string * dec)) (xdr : list string) (fs : list (string * gval))
    : may (list (string * gval)) :=
  match topics with
  | [] => mret fs
  | (idx, g, d) :: rest =>
      match xdr !! idx with
      | None => read_topics rest xdr fs
      | Some text =>
          match ScVal_UnmarshalBase64 text with
          | Err _ => read_topics rest xdr fs
          | Ok tv => v ← attempt (run_dec d tv); read_topics rest xdr (set_some g v fs)
          end
      end
  end.

Fixpoint read_fields (zero : gtype -> gval) (fields : list (string * string * event_dec))
    (entries : list (ScMapEntry ScVal)) (fs : list (string * gval)) : may (list (string * gval)) :=
  match entries with
  | [] => mret fs
  | e :: rest =>
      key ← (Some (GetSym (Key e)) : may _);
      match key ≫= (fun k => snd <$> list_find (fun f => f.1.1 = k) fields) with
      | None => read_fields zero fields rest fs
      | Some (_, g, d) => v ← run_event_dec zero d (Val e); read_fields zero fields rest (set_some g v fs)
      end
  end.

(** [Parse] of an event. *)
Definition parse_event (zero : gtype -> gval) (d : EventDecl) (p : EventParser) (e : protocol.EventInfo) : may gval :=
  match ScVal_UnmarshalBase64 (protocol.ev_ValueXDR e) with
  | Err err => Some (Errs (Wrapf "failed to decode event: " err))
  | Ok eventVal =>
      scMap ← (Some (need_map eventVal "event is not a map") : may _);
      fs ← read_topics (ep_Topics p) (protocol.ev_TopicXDR e)
             (set_field "Ledger" (GUint32 (u32 (protocol.ev_Ledger e)))
                (set_field "TxHash" (GString (protocol.ev_TransactionHash e))
                   ((fun m => (m.1, zero m.2)) <$> ed_Members d)));
      fs ← read_fields zero (ep_Fields p) scMap fs;
      mret (GStruct fs)
  end.

(** The first event that parses and passes the filter. *)
Fixpoint first_match (filter : option (gval -> bool)) (parse : protocol.EventInfo -> may gval)
    (events : list protocol.EventInfo) : may (option gval) :=
  match events with
  | [] => mret None
  | e :: rest =>
      parsed ← attempt (parse e);
      match parsed with
      | Some v => if match filter with None => true | Some f => f v end then mret (Some v)
                  else first_match filter parse rest
      | None => first_match filter parse rest
      end
  end.

(** [WaitFor] of an event, over [fuel] ticks: [None] when it waits longer. *)
Fixpoint wait_for (filter : option (gval -> bool)) (parse : protocol.EventInfo -> may gval)
    (contractID : string) (startLedger timeout : Z) (topic : string) (fuel : nat)
    : prog wans (option (may gval)) :=
  match fuel with
  | O => Done None
  | S fuel =>
      let again := wait_for filter parse contractID startLedger timeout topic fuel in
      Ask Await (fun done =>
        match done : option error with
        | Some e => Done (Some (Some (Errs e)))
        | None =>
            Ask Elapsed (fun since =>
              if timeout <? since then Done (Some (Some (Errs (ErrorString "timeout waiting for event"))))
              else Ask (PollEvents contractID startLedger [topic]) (fun events =>
                match events : outcome (list protocol.EventInfo) with
                | Errs _ => again
                | Panics => Done (Some (Some Panics))
                | Returns events =>
                    match first_match filter parse events with
                    | Some (Returns None) => again
                    | Some (Returns (Some v)) => Done (Some (mret v))
                    | Some (Errs e) => Done (Some (Some (Errs e)))
                    | Some Panics => Done (Some (Some Panics))
                    | None => Done (Some None)
                    end
                end))
        end)
  end.

End Emitted.

(** ** Declared types

    [fuel] bounds how deep declared types are nested in a value. *)

Section Declared.
Variable file : TypesFile.

Definition enum_name (d : EnumDecl) : string := match d with UnitEnum N _ | UnionEnum N _ => N end.
Definition find_struct (N : string) : option StructDecl := snd <$> list_find (fun d => sd_Name d = N) (tf_Structs file).
Definition find_enum (N : string) : option EnumDecl := snd <$> list_find (fun d => enum_name d = N) (tf_Enums file).

Fixpoint zero_of (fuel : nat) (t : gtype) : gval :=
  match t with
  | TUint64 => GUint64 0 | TUint32 => GUint32 0 | TU128 => GU128 (mkUInt128Parts 0 0) | TBig => GBig None
  | TBool => GBool false | TString => GString "" | TBytes => GBytes [] | TPtr _ => GPtr None | TSlice _ => GSlice []
  | TArray n => GArray (replicate (Z.to_nat (Sscanf_d n)) 0)
  | TNamed N =>
      match fuel with
      | O => GStruct []
      | S fuel =>
          match find_struct N, find_enum N with
          | Some d, _ => GStruct ((fun m => (m_Go m, zero_of fuel (m_Type m))) <$> sd_Members d)
          | _, Some (UnionEnum _ vs) => GStruct ((fun d => (vd_Name d, GPtr None)) <$> vs)
          | _, _ => GUint32 0
          end
      end
  end.

Fixpoint named_to (fuel : nat) (N : string) (v : gval) : may ScVal :=
  match fuel with
  | O => None
  | S fuel =>
      match find_struct N, find_enum N with
      | Some d, _ => struct_to (named_to fuel) d v
      | _, Some d => enum_to (named_to fuel) d v
      | _, _ => None
      end
  end.

Fixpoint named_from (fuel : nat) (N : string) (val : ScVal) : may gval :=
  match fuel with
  | O => None
  | S fuel =>
      match find_struct N, find_enum N with
      | Some d, _ => struct_from (named_from fuel) (zero_of fuel) d val
      | _, Some d => enum_from (named_from fuel) d val
      | _, _ => None
      end
  end.

(** ** Methods of a client *)

(** A structure is returned behind a pointer. *)
Definition run_ret (fuel : nat) (r : ret) (result : ScVal) : may (list gval) :=
  match r with
  | RVoid => mret []
  | RVal (DStruct N) => v ← named_from fuel N result; mret [GPtr (Some v)]
  | RVal d => v ← run_dec (named_from fuel) d result; mret [v]
  | RTuple ds =>
      vec ← (Some (need (GetVec result) "expected vec for tuple return") : may _);
      match vec with
      | None => Some (Errs (ErrorString "expected vec for tuple return"))
      | Some items =>
          if negb (Nat.eqb (length items) (length ds)) then Some (Errs (ErrorString "wrong number of elements"))
          else mapM_may (fun p => v ← run_dec (named_from fuel) p.1 p.2;
                                  mret match p.1 with DStruct _ => GPtr (Some v) | _ => v end) (zip ds items)
      end
  end.

Definition plift_may {A} (m : may A) : G A :=
  match m with Some r => plift r | None => pfail (ErrorString "does not compile") end.

(** A method of the client of [contractID], on its arguments. *)
Definition run_method (fuel : nat) (m : Method) (contractID : string) (args : list gval) : G (list gval) :=
  xs ← plift_may (mapM_may (fun p => run_enc (named_to fuel) p.1.1 p.1.2 p.2)
                    (zip (zip (snd <$> Params m) (Args m)) args));
  let req := if Simulates m then SimulateContract contractID (Calls m) xs else InvokeContract contractID (Calls m) xs in
  result ← Ask req (fun r => Done (wrap_out ("failed to call " +:+ Calls m +:+ ": ") r) : G _);
  match Parses m with
  | RVoid => mret []
  | r =>
      match result with
      | None => pfail (ErrorString ("no return value from " +:+ Calls m))
      | Some v => plift_may (run_ret fuel r v)
      end
  end.

(** ** Events of a client *)

Definition find_event (name : string) : option EventDecl := snd <$> list_find (fun d => ed_Name d = name) (tf_Events file).

Definition run_parse (fuel : nat) (h : EventHelper) (e : protocol.EventInfo) : may gval :=
  match find_event (eh_Event h) with
  | Some d => parse_event (named_from fuel) (zero_of fuel) d (eh_Parser h) e
  | None => None
  end.

Definition run_wait (fuel ticks : nat) (h : EventHelper) (filter : option (gval -> bool))
    (contractID : string) (startLedger timeout : Z) : prog wans (option (may gval)) :=
  match find_event (eh_Event h) ≫= ed_Topic with
  | Some topic => wait_for filter (run_parse fuel h) contractID startLedger timeout topic ticks
  | None => Done (Some None)
  end.

End Declared.
End Sem.
