(* ===== verification/Interfaces.v ===== *)
(** * The interfaces of the contracts

    What the parser of the bindings' generator reads of each interface in
    contracts/common/interfaces, and of the events of the contracts whose interface
    leaves some out; the two structures that scripts/gen_bindings.sh puts before the
    interfaces of the on-ramp and the fee quoter are those of router.rs. *)

From S2P Require Import Prelude Bindgen.

Definition committee_verifier_interface : Contract :=
  mkGenContract ""
    [mkStruct "FeeResponse" [mkField "dest_bytes_overhead" "u32"; mkField "dest_gas_limit" "u32"; mkField "fee"
      "u32"];
     mkStruct "DynamicConfig" [mkField "allowlist_admin" "Option<soroban_sdk::Address>";
       mkField "fee_aggregator" "Option<soroban_sdk::Address>"];
     mkStruct "RemoteChainConfig" [mkField "allowlist_enabled" "bool"; mkField "fee_usd_cents" "u32";
       mkField "gas_for_verification" "u32"; mkField "payload_size_bytes" "u32";
       mkField "remote_chain_selector" "u64"; mkField "router" "Option<soroban_sdk::Address>"];
     mkStruct "SignatureQuorumConfig" [mkField "signers" "soroban_sdk::Vec<soroban_sdk::BytesN<32>>";
       mkField "source_chain_selector" "u64"; mkField "threshold" "u32"];
     mkStruct "AllowListEntry" [mkField "allowlist" "soroban_sdk::Vec<soroban_sdk::Address>";
       mkField "allowlist_enabled" "bool"];
     mkStruct "AllowListUpdate" [mkField "added_allowlisted_senders" "soroban_sdk::Vec<soroban_sdk::Address>";
       mkField "allowlist_enabled" "bool"; mkField "dest_chain_selector" "u64";
       mkField "removed_allowlisted_senders" "soroban_sdk::Vec<soroban_sdk::Address>"]]
    [mkFunction "owner" [] "Option<soroban_sdk::Address>" false;
     mkFunction "get_fee" [mkField "dest_chain_selector" "u64"; mkField "message" "soroban_sdk::Bytes"; mkField
       "extra_args" "soroban_sdk::Bytes"; mkField "requested_finality" "u32"; mkField "fee_token"
         "soroban_sdk::Address"] "Result<FeeResponse, CCIPError>" false;
     mkFunction "upgrade" [mkField "new_wasm_hash" "soroban_sdk::BytesN<32>"] "Result<(), CCIPError>" false;
     mkFunction "is_owner" [mkField "addr" "soroban_sdk::Address"] "bool" false;
     mkFunction "init_owner" [mkField "owner" "soroban_sdk::Address"] "Result<(), CCIPError>" false;
     mkFunction "initialize" [mkField "owner" "soroban_sdk::Address"; mkField "dynamic_config" "DynamicConfig";
       mkField "storage_locations" "soroban_sdk::Vec<soroban_sdk::Bytes>"; mkField "rmn_proxy"
         "soroban_sdk::Address"; mkField "version_tag" "soroban_sdk::BytesN<4>"] "Result<(), CCIPError>" false;
     mkFunction "version_tag" [] "soroban_sdk::BytesN<4>" false;
     mkFunction "require_owner" [] "Result<soroban_sdk::Address, CCIPError>" false;
     mkFunction "init_allowlist" [mkField "initial_allowlist"
       "soroban_sdk::Map<u64, soroban_sdk::Vec<soroban_sdk::Address>>"] "" false;
     mkFunction "verify_message" [mkField "source_chain_selector" "u64"; mkField "message_hash"
       "soroban_sdk::BytesN<32>"; mkField "verifier_results" "soroban_sdk::Bytes"] "Result<(), CCIPError>"
         false;
     mkFunction "is_in_allowlist" [mkField "key" "u64"; mkField "addr" "soroban_sdk::Address"] "bool" false;
     mkFunction "accept_ownership" [] "Result<(), CCIPError>" false;
     mkFunction "type_and_version" [] "soroban_sdk::String" false;
     mkFunction "get_pending_owner" [] "Option<soroban_sdk::Address>" false;
     mkFunction "get_dynamic_config" [] "Result<DynamicConfig, CCIPError>" false;
     mkFunction "set_dynamic_config" [mkField "dynamic_config" "DynamicConfig"] "Result<(), CCIPError>" false;
     mkFunction "transfer_ownership" [mkField "new_owner" "soroban_sdk::Address"] "Result<(), CCIPError>" false;
     mkFunction "forward_to_verifier"
       [mkField "dest_chain_selector" "u64"; mkField "sender" "soroban_sdk::Address"; mkField "message_id"
         "soroban_sdk::BytesN<32>"; mkField "fee_token" "soroban_sdk::Address"; mkField "fee_token_amount"
           "i128"; mkField "verifier_args" "soroban_sdk::Bytes"] "Result<soroban_sdk::Bytes, CCIPError>" false;
     mkFunction "get_allowlist_entry" [mkField "key" "u64"] "Option<AllowListEntry>" false;
     mkFunction "withdraw_fee_tokens" [mkField "fee_tokens" "soroban_sdk::Vec<soroban_sdk::Address>"]
       "Result<(), CCIPError>" false;
     mkFunction "get_signature_config" [mkField "source_chain_selector" "u64"]
       "Result<SignatureQuorumConfig, CCIPError>" false;
     mkFunction "is_allowlist_enabled" [mkField "key" "u64"] "bool" false;
     mkFunction "require_in_allowlist" [mkField "key" "u64"; mkField "address" "soroban_sdk::Address"]
       "Result<(), CCIPError>" false;
     mkFunction "get_storage_locations" [] "Result<soroban_sdk::Vec<soroban_sdk::Bytes>, CCIPError>" false;
     mkFunction "apply_allowlist_updates"
       [mkField "caller" "soroban_sdk::Address"; mkField "updates" "soroban_sdk::Vec<AllowListUpdate>"]
         "Result<(), CCIPError>" false;
     mkFunction "apply_signature_configs"
       [mkField "source_chains_to_remove" "soroban_sdk::Vec<u64>"; mkField "signature_configs"
         "soroban_sdk::Vec<SignatureQuorumConfig>"] "Result<(), CCIPError>" false;
     mkFunction "get_remote_chain_config" [mkField "remote_chain_selector" "u64"]
       "Result<RemoteChainConfig, CCIPError>" false;
     mkFunction "update_storage_locations" [mkField "new_locations" "soroban_sdk::Vec<soroban_sdk::Bytes>"]
       "Result<(), CCIPError>" false;
     mkFunction "cancel_ownership_transfer" [] "Result<(), CCIPError>" false;
     mkFunction "get_allowed_finality_config" [] "Result<u32, CCIPError>" false;
     mkFunction "get_storage_locations_admin" [] "Result<soroban_sdk::Address, CCIPError>" false;
     mkFunction "set_allowed_finality_config" [mkField "allowed_finality" "u32"] "Result<(), CCIPError>" false;
     mkFunction "get_pending_storage_loc_admin" [] "Result<Option<soroban_sdk::Address>, CCIPError>" false;
     mkFunction "accept_storage_locations_admin" [] "Result<(), CCIPError>" false;
     mkFunction "apply_remote_chain_cfg_updates"
       [mkField "remote_chain_config_args" "soroban_sdk::Vec<RemoteChainConfig>"] "Result<(), CCIPError>" false;
     mkFunction "transfer_storage_locations_admin" [mkField "to" "soroban_sdk::Address"]
       "Result<(), CCIPError>" false]
    [mkErrorEnum "CCIPError"
       [mkErrorVariant "NotInitialized" 1; mkErrorVariant "AlreadyInitialized" 2;
        mkErrorVariant "Unauthorized" 3; mkErrorVariant "NotOwner" 4;
        mkErrorVariant "NoPendingOwner" 5; mkErrorVariant "CallerNotAuthorized" 6;
        mkErrorVariant "CallerAlreadyAuthorized" 7; mkErrorVariant "CallerNotFound" 8;
        mkErrorVariant "RoleNotGranted" 9; mkErrorVariant "FeatureNotEnabled" 10;
        mkErrorVariant "RoleAlreadyGranted" 11; mkErrorVariant "CannotRenounceRole" 12;
        mkErrorVariant "InvalidVersionTag" 13; mkErrorVariant "InvalidSignatureLength" 14;
        mkErrorVariant "InvalidSignature" 15; mkErrorVariant "InvalidSignatureCount" 16;
        mkErrorVariant "InvalidSignatureThreshold" 17;
        mkErrorVariant "InvalidSignaturePubkey" 18;
        mkErrorVariant "SourceSignersNotConfigured" 19;
        mkErrorVariant "InvalidVerifierResults" 20; mkErrorVariant "ReentrantCall" 21;
        mkErrorVariant "TokenNotSupported" 22; mkErrorVariant "FeeTokenNotSupported" 23;
        mkErrorVariant "NoGasPriceAvailable" 24; mkErrorVariant "DestinationChainNotEnabled" 25;
        mkErrorVariant "InvalidExtraArgsTag" 26; mkErrorVariant "InvalidExtraArgsData" 27;
        mkErrorVariant "MessageGasLimitTooHigh" 28; mkErrorVariant "MessageTooLarge" 29;
        mkErrorVariant "UnsupportedNumberOfTokens" 30;
        mkErrorVariant "InvalidDestChainConfig" 31; mkErrorVariant "MessageFeeTooHigh" 32;
        mkErrorVariant "InvalidStaticConfig" 33; mkErrorVariant "InvalidTokenReceiver" 34;
        mkErrorVariant "SourceTokenDataTooLarge" 35;
        mkErrorVariant "InvalidDestBytesOverhead" 36;
        mkErrorVariant "DestinationChainNotSupported" 37;
        mkErrorVariant "MustBeCalledByRouter" 38;
        mkErrorVariant "RouterMustSetOriginalSender" 39;
        mkErrorVariant "CannotSendZeroTokens" 40;
        mkErrorVariant "CanOnlySendOneTokenPerMessage" 41; mkErrorVariant "UnsupportedToken" 42;
        mkErrorVariant "InvalidDestChainAddress" 43; mkErrorVariant "FeeExceedsMaxAllowed" 44;
        mkErrorVariant "InsufficientFeeTokenAmount" 45;
        mkErrorVariant "TokenReceiverNotAllowed" 46; mkErrorVariant "CursedByRMN" 47;
        mkErrorVariant "RemoteChainNotSupported" 48; mkErrorVariant "SenderNotAllowed" 49;
        mkErrorVariant "InvalidTokenAmount" 50; mkErrorVariant "InvalidReceiverAddress" 51;
        mkErrorVariant "InvalidConfig" 52; mkErrorVariant "InvalidVerifierResultsLength" 53;
        mkErrorVariant "InboundImplementationNotFound" 54;
        mkErrorVariant "OutboundImplementationNotFound" 55; mkErrorVariant "InvalidAddress" 56;
        mkErrorVariant "InvalidChainSelector" 57; mkErrorVariant "InvalidVersion" 58;
        mkErrorVariant "InvalidCCVVersion" 59; mkErrorVariant "OffRampAlreadyExists" 60;
        mkErrorVariant "OffRampMismatch" 61; mkErrorVariant "BadRMNSignal" 62;
        mkErrorVariant "UnsupportedDestinationChain" 63; mkErrorVariant "AlreadyCursed" 64;
        mkErrorVariant "ConfigNotSet" 65; mkErrorVariant "DuplicateOnchainPublicKey" 66;
        mkErrorVariant "InvalidSignerOrder" 67; mkErrorVariant "NotEnoughSigners" 68;
        mkErrorVariant "NotCursed" 69; mkErrorVariant "OutOfOrderSignatures" 70;
        mkErrorVariant "ThresholdNotMet" 71; mkErrorVariant "UnexpectedSigner" 72;
        mkErrorVariant "ZeroValueNotAllowed" 73; mkErrorVariant "SourceChainNotEnabled" 100;
        mkErrorVariant "InvalidSourceChainConfig" 101;
        mkErrorVariant "InvalidOnRampAddress" 102; mkErrorVariant "InvalidOffRampAddress" 103;
        mkErrorVariant "InvalidMessageDestination" 104;
        mkErrorVariant "MessageAlreadyExecuted" 105; mkErrorVariant "InvalidExecutionState" 106;
        mkErrorVariant "CCVLengthMismatch" 107; mkErrorVariant "CCVQuorumNotMet" 108;
        mkErrorVariant "ReceiverError" 109; mkErrorVariant "GasLimitOverrideTooLow" 110;
        mkErrorVariant "InvalidReceiverLength" 111; mkErrorVariant "TokenHandlingError" 112;
        mkErrorVariant "MessageDecodingError" 113; mkErrorVariant "ReceiverDoesNotExist" 114;
        mkErrorVariant "ReceiverNotWasmContract" 115; mkErrorVariant "RequiredCCVMissing" 116;
        mkErrorVariant "InvalidOptionalThreshold" 117;
        mkErrorVariant "OptionalCCVQuorumNotReached" 118;
        mkErrorVariant "NoStateProgressMade" 119;
        mkErrorVariant "OnlyRegistryModuleOrOwner" 201; mkErrorVariant "OnlyAdministrator" 202;
        mkErrorVariant "OnlyPendingAdministrator" 203;
        mkErrorVariant "TokenAlreadyRegistered" 204; mkErrorVariant "InvalidTokenPoolToken" 205;
        mkErrorVariant "PoolTokenMismatch" 301; mkErrorVariant "ChainNotSupported" 302;
        mkErrorVariant "CallerIsNotRamp" 303; mkErrorVariant "InsufficientPoolLiquidity" 304;
        mkErrorVariant "InvalidRemotePoolAddress" 305;
        mkErrorVariant "InvalidRemoteChainConfig" 306;
        mkErrorVariant "InvalidRemoteChainDecimals" 307;
        mkErrorVariant "DecimalAmountOverflow" 308;
        mkErrorVariant "InvalidPoolTokenDecimals" 309; mkErrorVariant "BucketOverfilled" 310;
        mkErrorVariant "TokenMaxCapacityExceeded" 311;
        mkErrorVariant "TokenRateLimitReached" 312; mkErrorVariant "InvalidRateLimitRate" 313;
        mkErrorVariant "DisabledNonZeroRateLimit" 314;
        mkErrorVariant "InvalidRequestedFinality" 315;
        mkErrorVariant "RequestedFinalityCanOnlyHaveOneMode" 316;
        mkErrorVariant "InvalidChainForClient" 317; mkErrorVariant "RouterNotConfigured" 318;
        mkErrorVariant "InvalidSourcePoolAddress" 319;
        mkErrorVariant "DuplicateCCVNotAllowed" 320;
        mkErrorVariant "InvalidTokenTransferFeeConfig" 321;
        mkErrorVariant "InvalidTransferFeeBps" 322;
        mkErrorVariant "InvalidAllowListRequest" 323;
        mkErrorVariant "InvalidFeeCalculation" 801;
        mkErrorVariant "InvalidFeeTokenConversion" 802;
        mkErrorVariant "ZeroFeeAggregatorNotAllowed" 803; mkErrorVariant "ExceedsMaxCCVs" 804;
        mkErrorVariant "CCVNotAllowed" 805; mkErrorVariant "PolicyEngineDetachReverted" 806;
        mkErrorVariant "UnsupportedSelector" 807; mkErrorVariant "ZeroAddressNotAllowed" 808]]
    [mkGenEvent "ConfigSetEvent" ["ccv_ConfigSet"]
       [mkEventField (mkField "dynamic_config" "DynamicConfig") false];
     mkGenEvent "FinalityConfigSetEvent" ["ccv_FinalityConfigSet"]
       [mkEventField (mkField "allowed_finality" "u32") false];
     mkGenEvent "SignatureConfigSetEvent" ["ccv_SignatureConfigSet"]
       [mkEventField (mkField "source_chain_selector" "u64") false;
        mkEventField (mkField "signers" "soroban_sdk::Vec<soroban_sdk::BytesN<32>>") false;
        mkEventField (mkField "threshold" "u32") false];
     mkGenEvent "RemoteChainConfigSetEvent" ["ccv_RemoteChainConfigSet"]
       [mkEventField (mkField "remote_chain_selector" "u64") false;
        mkEventField (mkField "router" "Option<soroban_sdk::Address>") false;
        mkEventField (mkField "allowlist_enabled" "bool") false];
     mkGenEvent "AllowListSendersAddedEvent" ["ccv_AllowListSendersAdded"]
       [mkEventField (mkField "dest_chain_selector" "u64") false;
        mkEventField (mkField "sender" "soroban_sdk::Address") false];
     mkGenEvent "AllowListStateChangedEvent" ["ccv_AllowListStateChanged"]
       [mkEventField (mkField "dest_chain_selector" "u64") false;
        mkEventField (mkField "allowlist_enabled" "bool") false];
     mkGenEvent "AllowListSendersRemovedEvent" ["ccv_AllowListSendersRemoved"]
       [mkEventField (mkField "dest_chain_selector" "u64") false;
        mkEventField (mkField "sender" "soroban_sdk::Address") false];
     mkGenEvent "StorageAdminTransferredEvent" ["ccv_StorageAdminTransferred"]
       [mkEventField (mkField "from" "soroban_sdk::Address") false;
        mkEventField (mkField "to" "soroban_sdk::Address") false];
     mkGenEvent "StorageAdminTransferReqEvent" ["ccv_StorageAdminTransferReq"]
       [mkEventField (mkField "from" "soroban_sdk::Address") false;
        mkEventField (mkField "to" "soroban_sdk::Address") false];
     mkGenEvent "StorageLocationsUpdatedEvent" ["ccv_StorageLocationsUpdated"]
       [mkEventField (mkField "old_locations" "soroban_sdk::Vec<soroban_sdk::Bytes>") false;
        mkEventField (mkField "new_locations" "soroban_sdk::Vec<soroban_sdk::Bytes>") false];
     mkGenEvent "RoleGrantedEvent" ["auth_RoleGranted"]
       [mkEventField (mkField "role" "soroban_sdk::Symbol") false;
        mkEventField (mkField "account" "soroban_sdk::Address") false;
        mkEventField (mkField "sender" "soroban_sdk::Address") false];
     mkGenEvent "RoleRevokedEvent" ["auth_RoleRevoked"]
       [mkEventField (mkField "role" "soroban_sdk::Symbol") false;
        mkEventField (mkField "account" "soroban_sdk::Address") false;
        mkEventField (mkField "sender" "soroban_sdk::Address") false];
     mkGenEvent "AuthorizedCallerAddedEvent" ["auth_CallerAdded"]
       [mkEventField (mkField "caller" "soroban_sdk::Address") false];
     mkGenEvent "AuthorizedCallerRemovedEvent" ["auth_CallerRemoved"]
       [mkEventField (mkField "caller" "soroban_sdk::Address") false];
     mkGenEvent "OwnershipTransferStartedEvent" ["auth_OwnerTransferStart"]
       [mkEventField (mkField "previous_owner" "soroban_sdk::Address") false;
        mkEventField (mkField "new_owner" "soroban_sdk::Address") false]]
    [].

Definition executor_interface : Contract :=
  mkGenContract ""
    [mkStruct "DynamicConfig" [mkField "allowed_finality_config" "u32"; mkField "ccv_allowlist_enabled" "bool";
       mkField "fee_aggregator" "Option<soroban_sdk::Address>"];
     mkStruct "RemoteChainConfig" [mkField "enabled" "bool"; mkField "usd_cents_fee" "u32"];
     mkStruct "RemoteChainConfigArgs"
       [mkField "config" "RemoteChainConfig"; mkField "dest_chain_selector" "u64"]]
    [mkFunction "owner" [] "Option<soroban_sdk::Address>" false;
     mkFunction "get_fee" [mkField "dest_chain_selector" "u64"; mkField "requested_finality_config" "u32";
       mkField "ccv_addresses" "soroban_sdk::Vec<soroban_sdk::Address>"; mkField "extra_args"
         "soroban_sdk::Bytes"; mkField "fee_token" "soroban_sdk::Address"] "Result<u32, CCIPError>" false;
     mkFunction "upgrade" [mkField "new_wasm_hash" "soroban_sdk::BytesN<32>"] "Result<(), CCIPError>" false;
     mkFunction "is_owner" [mkField "addr" "soroban_sdk::Address"] "bool" false;
     mkFunction "init_owner" [mkField "owner" "soroban_sdk::Address"] "Result<(), CCIPError>" false;
     mkFunction "initialize" [mkField "owner" "soroban_sdk::Address"; mkField "max_ccvs_per_msg" "u32"; mkField
       "dynamic_config" "DynamicConfig"] "Result<(), CCIPError>" false;
     mkFunction "require_owner" [] "Result<soroban_sdk::Address, CCIPError>" false;
     mkFunction "get_dest_chains" [] "Result<soroban_sdk::Vec<RemoteChainConfigArgs>, CCIPError>" false;
     mkFunction "accept_ownership" [] "Result<(), CCIPError>" false;
     mkFunction "get_allowed_ccvs" [] "soroban_sdk::Vec<soroban_sdk::Address>" false;
     mkFunction "type_and_version" [] "soroban_sdk::String" false;
     mkFunction "get_pending_owner" [] "Option<soroban_sdk::Address>" false;
     mkFunction "get_dynamic_config" [] "Result<DynamicConfig, CCIPError>" false;
     mkFunction "set_dynamic_config" [mkField "dynamic_config" "DynamicConfig"] "Result<(), CCIPError>" false;
     mkFunction "transfer_ownership" [mkField "new_owner" "soroban_sdk::Address"] "Result<(), CCIPError>" false;
     mkFunction "withdraw_fee_tokens" [mkField "fee_tokens" "soroban_sdk::Vec<soroban_sdk::Address>"]
       "Result<(), CCIPError>" false;
     mkFunction "get_dest_chain_config" [mkField "dest_chain_selector" "u64"]
       "Result<RemoteChainConfig, CCIPError>" false;
     mkFunction "apply_dest_chain_updates"
       [mkField "dest_chain_selectors_to_remove" "soroban_sdk::Vec<u64>"; mkField "dest_chain_selectors_to_add"
         "soroban_sdk::Vec<RemoteChainConfigArgs>"] "Result<(), CCIPError>" false;
     mkFunction "get_max_ccvs_per_message" [] "Result<u32, CCIPError>" false;
     mkFunction "apply_allowed_ccv_updates"
       [mkField "ccvs_to_remove" "soroban_sdk::Vec<soroban_sdk::Address>"; mkField "ccvs_to_add"
         "soroban_sdk::Vec<soroban_sdk::Address>"; mkField "ccv_allowlist_enabled" "bool"]
           "Result<(), CCIPError>" false;
     mkFunction "cancel_ownership_transfer" [] "Result<(), CCIPError>" false;
     mkFunction "get_allowed_finality_config" [] "Result<u32, CCIPError>" false]
    [mkErrorEnum "CCIPError"
       [mkErrorVariant "NotInitialized" 1; mkErrorVariant "AlreadyInitialized" 2;
        mkErrorVariant "Unauthorized" 3; mkErrorVariant "NotOwner" 4;
        mkErrorVariant "NoPendingOwner" 5; mkErrorVariant "CallerNotAuthorized" 6;
        mkErrorVariant "CallerAlreadyAuthorized" 7; mkErrorVariant "CallerNotFound" 8;
        mkErrorVariant "RoleNotGranted" 9; mkErrorVariant "FeatureNotEnabled" 10;
        mkErrorVariant "RoleAlreadyGranted" 11; mkErrorVariant "CannotRenounceRole" 12;
        mkErrorVariant "InvalidVersionTag" 13; mkErrorVariant "InvalidSignatureLength" 14;
        mkErrorVariant "InvalidSignature" 15; mkErrorVariant "InvalidSignatureCount" 16;
        mkErrorVariant "InvalidSignatureThreshold" 17;
        mkErrorVariant "InvalidSignaturePubkey" 18;
        mkErrorVariant "SourceSignersNotConfigured" 19;
        mkErrorVariant "InvalidVerifierResults" 20; mkErrorVariant "ReentrantCall" 21;
        mkErrorVariant "TokenNotSupported" 22; mkErrorVariant "FeeTokenNotSupported" 23;
        mkErrorVariant "NoGasPriceAvailable" 24; mkErrorVariant "DestinationChainNotEnabled" 25;
        mkErrorVariant "InvalidExtraArgsTag" 26; mkErrorVariant "InvalidExtraArgsData" 27;
        mkErrorVariant "MessageGasLimitTooHigh" 28; mkErrorVariant "MessageTooLarge" 29;
        mkErrorVariant "UnsupportedNumberOfTokens" 30;
        mkErrorVariant "InvalidDestChainConfig" 31; mkErrorVariant "MessageFeeTooHigh" 32;
        mkErrorVariant "InvalidStaticConfig" 33; mkErrorVariant "InvalidTokenReceiver" 34;
        mkErrorVariant "SourceTokenDataTooLarge" 35;
        mkErrorVariant "InvalidDestBytesOverhead" 36;
        mkErrorVariant "DestinationChainNotSupported" 37;
        mkErrorVariant "MustBeCalledByRouter" 38;
        mkErrorVariant "RouterMustSetOriginalSender" 39;
        mkErrorVariant "CannotSendZeroTokens" 40;
        mkErrorVariant "CanOnlySendOneTokenPerMessage" 41; mkErrorVariant "UnsupportedToken" 42;
        mkErrorVariant "InvalidDestChainAddress" 43; mkErrorVariant "FeeExceedsMaxAllowed" 44;
        mkErrorVariant "InsufficientFeeTokenAmount" 45;
        mkErrorVariant "TokenReceiverNotAllowed" 46; mkErrorVariant "CursedByRMN" 47;
        mkErrorVariant "RemoteChainNotSupported" 48; mkErrorVariant "SenderNotAllowed" 49;
        mkErrorVariant "InvalidTokenAmount" 50; mkErrorVariant "InvalidReceiverAddress" 51;
        mkErrorVariant "InvalidConfig" 52; mkErrorVariant "InvalidVerifierResultsLength" 53;
        mkErrorVariant "InboundImplementationNotFound" 54;
        mkErrorVariant "OutboundImplementationNotFound" 55; mkErrorVariant "InvalidAddress" 56;
        mkErrorVariant "InvalidChainSelector" 57; mkErrorVariant "InvalidVersion" 58;
        mkErrorVariant "InvalidCCVVersion" 59; mkErrorVariant "OffRampAlreadyExists" 60;
        mkErrorVariant "OffRampMismatch" 61; mkErrorVariant "BadRMNSignal" 62;
        mkErrorVariant "UnsupportedDestinationChain" 63; mkErrorVariant "AlreadyCursed" 64;
        mkErrorVariant "ConfigNotSet" 65; mkErrorVariant "DuplicateOnchainPublicKey" 66;
        mkErrorVariant "InvalidSignerOrder" 67; mkErrorVariant "NotEnoughSigners" 68;
        mkErrorVariant "NotCursed" 69; mkErrorVariant "OutOfOrderSignatures" 70;
        mkErrorVariant "ThresholdNotMet" 71; mkErrorVariant "UnexpectedSigner" 72;
        mkErrorVariant "ZeroValueNotAllowed" 73; mkErrorVariant "SourceChainNotEnabled" 100;
        mkErrorVariant "InvalidSourceChainConfig" 101;
        mkErrorVariant "InvalidOnRampAddress" 102; mkErrorVariant "InvalidOffRampAddress" 103;
        mkErrorVariant "InvalidMessageDestination" 104;
        mkErrorVariant "MessageAlreadyExecuted" 105; mkErrorVariant "InvalidExecutionState" 106;
        mkErrorVariant "CCVLengthMismatch" 107; mkErrorVariant "CCVQuorumNotMet" 108;
        mkErrorVariant "ReceiverError" 109; mkErrorVariant "GasLimitOverrideTooLow" 110;
        mkErrorVariant "InvalidReceiverLength" 111; mkErrorVariant "TokenHandlingError" 112;
        mkErrorVariant "MessageDecodingError" 113; mkErrorVariant "ReceiverDoesNotExist" 114;
        mkErrorVariant "ReceiverNotWasmContract" 115; mkErrorVariant "RequiredCCVMissing" 116;
        mkErrorVariant "InvalidOptionalThreshold" 117;
        mkErrorVariant "OptionalCCVQuorumNotReached" 118;
        mkErrorVariant "NoStateProgressMade" 119;
        mkErrorVariant "OnlyRegistryModuleOrOwner" 201; mkErrorVariant "OnlyAdministrator" 202;
        mkErrorVariant "OnlyPendingAdministrator" 203;
        mkErrorVariant "TokenAlreadyRegistered" 204; mkErrorVariant "InvalidTokenPoolToken" 205;
        mkErrorVariant "PoolTokenMismatch" 301; mkErrorVariant "ChainNotSupported" 302;
        mkErrorVariant "CallerIsNotRamp" 303; mkErrorVariant "InsufficientPoolLiquidity" 304;
        mkErrorVariant "InvalidRemotePoolAddress" 305;
        mkErrorVariant "InvalidRemoteChainConfig" 306;
        mkErrorVariant "InvalidRemoteChainDecimals" 307;
        mkErrorVariant "DecimalAmountOverflow" 308;
        mkErrorVariant "InvalidPoolTokenDecimals" 309; mkErrorVariant "BucketOverfilled" 310;
        mkErrorVariant "TokenMaxCapacityExceeded" 311;
        mkErrorVariant "TokenRateLimitReached" 312; mkErrorVariant "InvalidRateLimitRate" 313;
        mkErrorVariant "DisabledNonZeroRateLimit" 314;
        mkErrorVariant "InvalidRequestedFinality" 315;
        mkErrorVariant "RequestedFinalityCanOnlyHaveOneMode" 316;
        mkErrorVariant "InvalidChainForClient" 317; mkErrorVariant "RouterNotConfigured" 318;
        mkErrorVariant "InvalidSourcePoolAddress" 319;
        mkErrorVariant "DuplicateCCVNotAllowed" 320;
        mkErrorVariant "InvalidTokenTransferFeeConfig" 321;
        mkErrorVariant "InvalidTransferFeeBps" 322;
        mkErrorVariant "InvalidAllowListRequest" 323;
        mkErrorVariant "InvalidFeeCalculation" 801;
        mkErrorVariant "InvalidFeeTokenConversion" 802;
        mkErrorVariant "ZeroFeeAggregatorNotAllowed" 803; mkErrorVariant "ExceedsMaxCCVs" 804;
        mkErrorVariant "CCVNotAllowed" 805; mkErrorVariant "PolicyEngineDetachReverted" 806;
        mkErrorVariant "UnsupportedSelector" 807; mkErrorVariant "ZeroAddressNotAllowed" 808]]
    [mkGenEvent "RoleGrantedEvent" ["auth_RoleGranted"]
       [mkEventField (mkField "role" "soroban_sdk::Symbol") false;
        mkEventField (mkField "account" "soroban_sdk::Address") false;
        mkEventField (mkField "sender" "soroban_sdk::Address") false];
     mkGenEvent "RoleRevokedEvent" ["auth_RoleRevoked"]
       [mkEventField (mkField "role" "soroban_sdk::Symbol") false;
        mkEventField (mkField "account" "soroban_sdk::Address") false;
        mkEventField (mkField "sender" "soroban_sdk::Address") false];
     mkGenEvent "AuthorizedCallerAddedEvent" ["auth_CallerAdded"]
       [mkEventField (mkField "caller" "soroban_sdk::Address") false];
     mkGenEvent "AuthorizedCallerRemovedEvent" ["auth_CallerRemoved"]
       [mkEventField (mkField "caller" "soroban_sdk::Address") false];
     mkGenEvent "OwnershipTransferStartedEvent" ["auth_OwnerTransferStart"]
       [mkEventField (mkField "previous_owner" "soroban_sdk::Address") false;
        mkEventField (mkField "new_owner" "soroban_sdk::Address") false];
     mkGenEvent "CCVAddedEvent" ["exec_CCVAdded"]
       [mkEventField (mkField "ccv" "soroban_sdk::Address") false];
     mkGenEvent "ConfigSetEvent" ["exec_ConfigSet"]
       [mkEventField (mkField "dynamic_config" "DynamicConfig") false];
     mkGenEvent "CCVRemovedEvent" ["exec_CCVRemoved"]
       [mkEventField (mkField "ccv" "soroban_sdk::Address") false];
     mkGenEvent "DestChainAddedEvent" ["exec_DestChainAdded"]
       [mkEventField (mkField "dest_chain_selector" "u64") false;
        mkEventField (mkField "config" "RemoteChainConfig") false];
     mkGenEvent "DestChainRemovedEvent" ["exec_DestChainRemoved"]
       [mkEventField (mkField "dest_chain_selector" "u64") false];
     mkGenEvent "FeeTokenWithdrawnEvent" ["exec_FeeTokenWithdrawn"]
       [mkEventField (mkField "receiver" "soroban_sdk::Address") false;
        mkEventField (mkField "fee_token" "soroban_sdk::Address") false;
        mkEventField (mkField "amount" "i128") false];
     mkGenEvent "CCVAllowlistUpdatedEvent" ["exec_CCVAllowlistUpdated"]
       [mkEventField (mkField "enabled" "bool") false]]
    [].

Definition fee_quoter_interface : Contract :=
  mkGenContract ""
    [mkStruct "TokenAmount" [mkField "amount" "i128"; mkField "token" "soroban_sdk::Address"];
     mkStruct "StellarToAnyMessage" [mkField "data" "soroban_sdk::Bytes"; mkField "extra_args"
       "soroban_sdk::Bytes";
       mkField "fee_token" "soroban_sdk::Address"; mkField "receiver" "soroban_sdk::Bytes";
       mkField "token_amounts" "soroban_sdk::Vec<TokenAmount>"];
     mkStruct "PriceUpdates" [mkField "gas_price_updates" "soroban_sdk::Vec<GasPriceUpdate>";
       mkField "token_price_updates" "soroban_sdk::Vec<TokenPriceUpdate>"];
     mkStruct "StaticConfig" [mkField "link_token" "soroban_sdk::Address"; mkField "max_fee_juels_per_msg"
       "i128"];
     mkStruct "GasPriceUpdate" [mkField "dest_chain_selector" "u64"; mkField "usd_per_unit_gas" "u128"];
     mkStruct "GasQuoteResult" [mkField "fee_token_price" "u128"; mkField "gas_cost_usd_cents" "u128";
       mkField "premium_multiplier" "u32"; mkField "total_gas" "u32"];
     mkStruct "DestChainConfig" [mkField "default_token_dest_gas" "u32"; mkField "default_token_fee_usd" "u32";
       mkField "default_tx_gas_limit" "u32"; mkField "dest_gas_overhead" "u32";
       mkField "dest_gas_per_payload_byte" "u32"; mkField "is_enabled" "bool";
       mkField "link_premium_percent" "u32"; mkField "max_data_bytes" "u32";
       mkField "max_per_msg_gas_limit" "u32"; mkField "network_fee_usd_cents" "u32"];
     mkStruct "MessageFeeResult" [mkField "fee_token_amount" "i128"; mkField "fee_token_price" "u128";
       mkField "fee_usd_cents" "u128"];
     mkStruct "TimestampedPrice" [mkField "timestamp" "u64"; mkField "value" "u128"];
     mkStruct "TokenPriceUpdate" [mkField "token" "soroban_sdk::Address"; mkField "usd_per_token" "u128"];
     mkStruct "TokenFeeConfigArgs" [mkField "config" "TokenTransferFeeConfig"; mkField "dest_chain_selector"
       "u64";
       mkField "token" "soroban_sdk::Address"];
     mkStruct "DestChainConfigArgs" [mkField "config" "DestChainConfig"; mkField "dest_chain_selector" "u64"];
     mkStruct "TokenTransferFeeConfig" [mkField "dest_bytes_overhead" "u32"; mkField "dest_gas_overhead" "u32";
       mkField "fee_usd_cents" "u32"; mkField "is_enabled" "bool"];
     mkStruct "TokenTransferFeeResult" [mkField "dest_bytes_overhead" "u32"; mkField "dest_gas_overhead" "u32";
       mkField "fee_usd_cents" "u32"];
     mkStruct "TokenFeeConfigRemoveArgs"
       [mkField "dest_chain_selector" "u64"; mkField "token" "soroban_sdk::Address"]]
    [mkFunction "owner" [] "Option<soroban_sdk::Address>" false;
     mkFunction "upgrade" [mkField "new_wasm_hash" "soroban_sdk::BytesN<32>"] "Result<(), CCIPError>" false;
     mkFunction "is_owner" [mkField "addr" "soroban_sdk::Address"] "bool" false;
     mkFunction "init_owner" [mkField "owner" "soroban_sdk::Address"] "Result<(), CCIPError>" false;
     mkFunction "initialize" [mkField "owner" "soroban_sdk::Address"; mkField "static_config" "StaticConfig";
       mkField "authorized_callers" "soroban_sdk::Vec<soroban_sdk::Address>"] "Result<(), CCIPError>" false;
     mkFunction "require_owner" [] "Result<soroban_sdk::Address, CCIPError>" false;
     mkFunction "update_prices" [mkField "updater" "soroban_sdk::Address"; mkField "price_updates"
       "PriceUpdates"] "Result<(), CCIPError>" false;
     mkFunction "get_fee_tokens" [] "Result<soroban_sdk::Vec<soroban_sdk::Address>, CCIPError>" false;
     mkFunction "get_message_fee" [mkField "dest_chain_selector" "u64"; mkField "message"
       "StellarToAnyMessage"] "Result<MessageFeeResult, CCIPError>" false;
     mkFunction "get_token_price" [mkField "token" "soroban_sdk::Address"]
       "Result<TimestampedPrice, CCIPError>" false;
     mkFunction "accept_ownership" [] "Result<(), CCIPError>" false;
     mkFunction "get_token_prices" [mkField "tokens" "soroban_sdk::Vec<soroban_sdk::Address>"]
       "Result<soroban_sdk::Vec<TimestampedPrice>, CCIPError>" false;
     mkFunction "type_and_version" [] "soroban_sdk::String" false;
     mkFunction "get_pending_owner" [] "Option<soroban_sdk::Address>" false;
     mkFunction "get_static_config" [] "Result<StaticConfig, CCIPError>" false;
     mkFunction "remove_fee_tokens" [mkField "tokens" "soroban_sdk::Vec<soroban_sdk::Address>"]
       "Result<(), CCIPError>" false;
     mkFunction "quote_gas_for_exec"
       [mkField "dest_chain_selector" "u64"; mkField "non_calldata_gas" "u32"; mkField "calldata_size" "u32";
         mkField "fee_token" "soroban_sdk::Address"] "Result<GasQuoteResult, CCIPError>" false;
     mkFunction "transfer_ownership" [mkField "new_owner" "soroban_sdk::Address"] "Result<(), CCIPError>" false;
     mkFunction "convert_token_amount"
       [mkField "from_token" "soroban_sdk::Address"; mkField "from_token_amount" "i128"; mkField "to_token"
         "soroban_sdk::Address"] "Result<i128, CCIPError>" false;
     mkFunction "get_all_dest_configs" []
       "Result<(soroban_sdk::Vec<u64>, soroban_sdk::Vec<DestChainConfig>), CCIPError>" false;
     mkFunction "get_token_fee_config"
       [mkField "dest_chain_selector" "u64"; mkField "token" "soroban_sdk::Address"]
         "Result<TokenTransferFeeConfig, CCIPError>" false;
     mkFunction "get_dest_chain_config" [mkField "dest_chain_selector" "u64"]
       "Result<DestChainConfig, CCIPError>" false;
     mkFunction "get_token_transfer_fee"
       [mkField "dest_chain_selector" "u64"; mkField "token" "soroban_sdk::Address"]
         "Result<TokenTransferFeeResult, CCIPError>" false;
     mkFunction "apply_token_fee_configs"
       [mkField "config_args" "soroban_sdk::Vec<TokenFeeConfigArgs>"; mkField "remove_args"
         "soroban_sdk::Vec<TokenFeeConfigRemoveArgs>"] "Result<(), CCIPError>" false;
     mkFunction "apply_dest_chain_configs" [mkField "config_args" "soroban_sdk::Vec<DestChainConfigArgs>"]
       "Result<(), CCIPError>" false;
     mkFunction "get_dest_chain_gas_price" [mkField "dest_chain_selector" "u64"]
       "Result<TimestampedPrice, CCIPError>" false;
     mkFunction "cancel_ownership_transfer" [] "Result<(), CCIPError>" false;
     mkFunction "get_validated_token_price" [mkField "token" "soroban_sdk::Address"] "Result<u128, CCIPError>"
       false]
    [mkErrorEnum "CCIPError"
       [mkErrorVariant "NotInitialized" 1; mkErrorVariant "AlreadyInitialized" 2;
        mkErrorVariant "Unauthorized" 3; mkErrorVariant "NotOwner" 4;
        mkErrorVariant "NoPendingOwner" 5; mkErrorVariant "CallerNotAuthorized" 6;
        mkErrorVariant "CallerAlreadyAuthorized" 7; mkErrorVariant "CallerNotFound" 8;
        mkErrorVariant "RoleNotGranted" 9; mkErrorVariant "FeatureNotEnabled" 10;
        mkErrorVariant "RoleAlreadyGranted" 11; mkErrorVariant "CannotRenounceRole" 12;
        mkErrorVariant "InvalidVersionTag" 13; mkErrorVariant "InvalidSignatureLength" 14;
        mkErrorVariant "InvalidSignature" 15; mkErrorVariant "InvalidSignatureCount" 16;
        mkErrorVariant "InvalidSignatureThreshold" 17;
        mkErrorVariant "InvalidSignaturePubkey" 18;
        mkErrorVariant "SourceSignersNotConfigured" 19;
        mkErrorVariant "InvalidVerifierResults" 20; mkErrorVariant "ReentrantCall" 21;
        mkErrorVariant "TokenNotSupported" 22; mkErrorVariant "FeeTokenNotSupported" 23;
        mkErrorVariant "NoGasPriceAvailable" 24; mkErrorVariant "DestinationChainNotEnabled" 25;
        mkErrorVariant "InvalidExtraArgsTag" 26; mkErrorVariant "InvalidExtraArgsData" 27;
        mkErrorVariant "MessageGasLimitTooHigh" 28; mkErrorVariant "MessageTooLarge" 29;
        mkErrorVariant "UnsupportedNumberOfTokens" 30;
        mkErrorVariant "InvalidDestChainConfig" 31; mkErrorVariant "MessageFeeTooHigh" 32;
        mkErrorVariant "InvalidStaticConfig" 33; mkErrorVariant "InvalidTokenReceiver" 34;
        mkErrorVariant "SourceTokenDataTooLarge" 35;
        mkErrorVariant "InvalidDestBytesOverhead" 36;
        mkErrorVariant "DestinationChainNotSupported" 37;
        mkErrorVariant "MustBeCalledByRouter" 38;
        mkErrorVariant "RouterMustSetOriginalSender" 39;
        mkErrorVariant "CannotSendZeroTokens" 40;
        mkErrorVariant "CanOnlySendOneTokenPerMessage" 41; mkErrorVariant "UnsupportedToken" 42;
        mkErrorVariant "InvalidDestChainAddress" 43; mkErrorVariant "FeeExceedsMaxAllowed" 44;
        mkErrorVariant "InsufficientFeeTokenAmount" 45;
        mkErrorVariant "TokenReceiverNotAllowed" 46; mkErrorVariant "CursedByRMN" 47;
        mkErrorVariant "RemoteChainNotSupported" 48; mkErrorVariant "SenderNotAllowed" 49;
        mkErrorVariant "InvalidTokenAmount" 50; mkErrorVariant "InvalidReceiverAddress" 51;
        mkErrorVariant "InvalidConfig" 52; mkErrorVariant "InvalidVerifierResultsLength" 53;
        mkErrorVariant "InboundImplementationNotFound" 54;
        mkErrorVariant "OutboundImplementationNotFound" 55; mkErrorVariant "InvalidAddress" 56;
        mkErrorVariant "InvalidChainSelector" 57; mkErrorVariant "InvalidVersion" 58;
        mkErrorVariant "InvalidCCVVersion" 59; mkErrorVariant "OffRampAlreadyExists" 60;
        mkErrorVariant "OffRampMismatch" 61; mkErrorVariant "BadRMNSignal" 62;
        mkErrorVariant "UnsupportedDestinationChain" 63; mkErrorVariant "AlreadyCursed" 64;
        mkErrorVariant "ConfigNotSet" 65; mkErrorVariant "DuplicateOnchainPublicKey" 66;
        mkErrorVariant "InvalidSignerOrder" 67; mkErrorVariant "NotEnoughSigners" 68;
        mkErrorVariant "NotCursed" 69; mkErrorVariant "OutOfOrderSignatures" 70;
        mkErrorVariant "ThresholdNotMet" 71; mkErrorVariant "UnexpectedSigner" 72;
        mkErrorVariant "ZeroValueNotAllowed" 73; mkErrorVariant "SourceChainNotEnabled" 100;
        mkErrorVariant "InvalidSourceChainConfig" 101;
        mkErrorVariant "InvalidOnRampAddress" 102; mkErrorVariant "InvalidOffRampAddress" 103;
        mkErrorVariant "InvalidMessageDestination" 104;
        mkErrorVariant "MessageAlreadyExecuted" 105; mkErrorVariant "InvalidExecutionState" 106;
        mkErrorVariant "CCVLengthMismatch" 107; mkErrorVariant "CCVQuorumNotMet" 108;
        mkErrorVariant "ReceiverError" 109; mkErrorVariant "GasLimitOverrideTooLow" 110;
        mkErrorVariant "InvalidReceiverLength" 111; mkErrorVariant "TokenHandlingError" 112;
        mkErrorVariant "MessageDecodingError" 113; mkErrorVariant "ReceiverDoesNotExist" 114;
        mkErrorVariant "ReceiverNotWasmContract" 115; mkErrorVariant "RequiredCCVMissing" 116;
        mkErrorVariant "InvalidOptionalThreshold" 117;
        mkErrorVariant "OptionalCCVQuorumNotReached" 118;
        mkErrorVariant "NoStateProgressMade" 119;
        mkErrorVariant "OnlyRegistryModuleOrOwner" 201; mkErrorVariant "OnlyAdministrator" 202;
        mkErrorVariant "OnlyPendingAdministrator" 203;
        mkErrorVariant "TokenAlreadyRegistered" 204; mkErrorVariant "InvalidTokenPoolToken" 205;
        mkErrorVariant "PoolTokenMismatch" 301; mkErrorVariant "ChainNotSupported" 302;
        mkErrorVariant "CallerIsNotRamp" 303; mkErrorVariant "InsufficientPoolLiquidity" 304;
        mkErrorVariant "InvalidRemotePoolAddress" 305;
        mkErrorVariant "InvalidRemoteChainConfig" 306;
        mkErrorVariant "InvalidRemoteChainDecimals" 307;
        mkErrorVariant "DecimalAmountOverflow" 308;
        mkErrorVariant "InvalidPoolTokenDecimals" 309; mkErrorVariant "BucketOverfilled" 310;
        mkErrorVariant "TokenMaxCapacityExceeded" 311;
        mkErrorVariant "TokenRateLimitReached" 312; mkErrorVariant "InvalidRateLimitRate" 313;
        mkErrorVariant "DisabledNonZeroRateLimit" 314;
        mkErrorVariant "InvalidRequestedFinality" 315;
        mkErrorVariant "RequestedFinalityCanOnlyHaveOneMode" 316;
        mkErrorVariant "InvalidChainForClient" 317; mkErrorVariant "RouterNotConfigured" 318;
        mkErrorVariant "InvalidSourcePoolAddress" 319;
        mkErrorVariant "DuplicateCCVNotAllowed" 320;
        mkErrorVariant "InvalidTokenTransferFeeConfig" 321;
        mkErrorVariant "InvalidTransferFeeBps" 322;
        mkErrorVariant "InvalidAllowListRequest" 323;
        mkErrorVariant "InvalidFeeCalculation" 801;
        mkErrorVariant "InvalidFeeTokenConversion" 802;
        mkErrorVariant "ZeroFeeAggregatorNotAllowed" 803; mkErrorVariant "ExceedsMaxCCVs" 804;
        mkErrorVariant "CCVNotAllowed" 805; mkErrorVariant "PolicyEngineDetachReverted" 806;
        mkErrorVariant "UnsupportedSelector" 807; mkErrorVariant "ZeroAddressNotAllowed" 808]]
    [mkGenEvent "RoleGrantedEvent" ["auth_RoleGranted"]
       [mkEventField (mkField "role" "soroban_sdk::Symbol") false;
        mkEventField (mkField "account" "soroban_sdk::Address") false;
        mkEventField (mkField "sender" "soroban_sdk::Address") false];
     mkGenEvent "RoleRevokedEvent" ["auth_RoleRevoked"]
       [mkEventField (mkField "role" "soroban_sdk::Symbol") false;
        mkEventField (mkField "account" "soroban_sdk::Address") false;
        mkEventField (mkField "sender" "soroban_sdk::Address") false];
     mkGenEvent "AuthorizedCallerAddedEvent" ["auth_CallerAdded"]
       [mkEventField (mkField "caller" "soroban_sdk::Address") false];
     mkGenEvent "AuthorizedCallerRemovedEvent" ["auth_CallerRemoved"]
       [mkEventField (mkField "caller" "soroban_sdk::Address") false];
     mkGenEvent "OwnershipTransferStartedEvent" ["auth_OwnerTransferStart"]
       [mkEventField (mkField "previous_owner" "soroban_sdk::Address") false;
        mkEventField (mkField "new_owner" "soroban_sdk::Address") false];
     mkGenEvent "FeeTokenAddedEvent" ["fq_FeeTokenAdded"]
       [mkEventField (mkField "fee_token" "soroban_sdk::Address") false];
     mkGenEvent "DestChainAddedEvent" ["fq_DestChainAdded"]
       [mkEventField (mkField "dest_chain_selector" "u64") false;
        mkEventField (mkField "is_enabled" "bool") false;
        mkEventField (mkField "max_data_bytes" "u32") false];
     mkGenEvent "FeeTokenRemovedEvent" ["fq_FeeTokenRemoved"]
       [mkEventField (mkField "fee_token" "soroban_sdk::Address") false];
     mkGenEvent "UsdPerTokenUpdatedEvent" ["fq_UsdPerTokenUpdated"]
       [mkEventField (mkField "token" "soroban_sdk::Address") false;
        mkEventField (mkField "value" "u128") false;
        mkEventField (mkField "timestamp" "u64") false];
     mkGenEvent "UsdPerUnitGasUpdatedEvent" ["fq_UsdPerUnitGasUpdated"]
       [mkEventField (mkField "dest_chain_selector" "u64") false;
        mkEventField (mkField "value" "u128") false;
        mkEventField (mkField "timestamp" "u64") false];
     mkGenEvent "TokenFeeConfigDeletedEvent" ["fq_TknTransferFeeDeleted"]
       [mkEventField (mkField "dest_chain_selector" "u64") false;
        mkEventField (mkField "token" "soroban_sdk::Address") false];
     mkGenEvent "TokenFeeConfigUpdatedEvent" ["fq_TknTransferFeeUpdated"]
       [mkEventField (mkField "dest_chain_selector" "u64") false;
        mkEventField (mkField "token" "soroban_sdk::Address") false;
        mkEventField (mkField "fee_usd_cents" "u32") false;
        mkEventField (mkField "dest_gas_overhead" "u32") false;
        mkEventField (mkField "dest_bytes_overhead" "u32") false];
     mkGenEvent "DestChainConfigUpdatedEvent" ["fq_DestChainConfigUpdated"]
       [mkEventField (mkField "dest_chain_selector" "u64") false;
        mkEventField (mkField "is_enabled" "bool") false;
        mkEventField (mkField "max_data_bytes" "u32") false]]
    [].

Definition versioned_verifier_resolver_interface : Contract :=
  mkGenContract ""
    [mkStruct "InboundImplementationArgs"
      [mkField "verifier" "soroban_sdk::Address"; mkField "version" "soroban_sdk::BytesN<4>"];
     mkStruct "OutboundImplementationArgs"
       [mkField "dest_chain_selector" "u64"; mkField "verifier" "soroban_sdk::Address"];
     mkStruct "InboundImplementationUpdate" [mkField "verifier" "Option<soroban_sdk::Address>";
       mkField "version" "soroban_sdk::BytesN<4>"];
     mkStruct "OutboundImplementationUpdate"
       [mkField "dest_chain_selector" "u64"; mkField "verifier" "Option<soroban_sdk::Address>"]]
    [mkFunction "owner" [] "Option<soroban_sdk::Address>" false;
     mkFunction "upgrade" [mkField "new_wasm_hash" "soroban_sdk::BytesN<32>"] "Result<(), CCIPError>" false;
     mkFunction "is_owner" [mkField "addr" "soroban_sdk::Address"] "bool" false;
     mkFunction "init_owner" [mkField "owner" "soroban_sdk::Address"] "Result<(), CCIPError>" false;
     mkFunction "initialize" [mkField "owner" "soroban_sdk::Address"; mkField "fee_aggregator"
       "soroban_sdk::Address"] "Result<(), CCIPError>" false;
     mkFunction "require_owner" [] "Result<soroban_sdk::Address, CCIPError>" false;
     mkFunction "accept_ownership" [] "Result<(), CCIPError>" false;
     mkFunction "type_and_version" [] "soroban_sdk::String" false;
     mkFunction "get_pending_owner" [] "Option<soroban_sdk::Address>" false;
     mkFunction "get_fee_aggregator" [] "Result<soroban_sdk::Address, CCIPError>" false;
     mkFunction "set_fee_aggregator" [mkField "fee_aggregator" "soroban_sdk::Address"] "Result<(), CCIPError>"
       false;
     mkFunction "transfer_ownership" [mkField "new_owner" "soroban_sdk::Address"] "Result<(), CCIPError>" false;
     mkFunction "withdraw_fee_tokens" [mkField "fee_tokens" "soroban_sdk::Vec<soroban_sdk::Address>"]
       "Result<(), CCIPError>" false;
     mkFunction "cancel_ownership_transfer" [] "Result<(), CCIPError>" false;
     mkFunction "apply_inbound_impl_updates"
       [mkField "implementations" "soroban_sdk::Vec<InboundImplementationUpdate>"] "Result<(), CCIPError>"
         false;
     mkFunction "get_inbound_implementation" [mkField "verifier_results" "soroban_sdk::Bytes"]
       "Result<soroban_sdk::Address, CCIPError>" false;
     mkFunction "apply_outbound_impl_updates"
       [mkField "implementations" "soroban_sdk::Vec<OutboundImplementationUpdate>"] "Result<(), CCIPError>"
         false;
     mkFunction "get_outbound_implementation"
       [mkField "dest_chain_selector" "u64"; mkField "extra_args" "soroban_sdk::Bytes"]
         "Result<soroban_sdk::Address, CCIPError>" false;
     mkFunction "get_all_inbound_implementations" [] "soroban_sdk::Vec<InboundImplementationArgs>" false;
     mkFunction "get_all_outbound_implementations" [] "soroban_sdk::Vec<OutboundImplementationArgs>" false]
    [mkErrorEnum "CCIPError"
       [mkErrorVariant "NotInitialized" 1; mkErrorVariant "AlreadyInitialized" 2;
        mkErrorVariant "Unauthorized" 3; mkErrorVariant "NotOwner" 4;
        mkErrorVariant "NoPendingOwner" 5; mkErrorVariant "CallerNotAuthorized" 6;
        mkErrorVariant "CallerAlreadyAuthorized" 7; mkErrorVariant "CallerNotFound" 8;
        mkErrorVariant "RoleNotGranted" 9; mkErrorVariant "FeatureNotEnabled" 10;
        mkErrorVariant "RoleAlreadyGranted" 11; mkErrorVariant "CannotRenounceRole" 12;
        mkErrorVariant "InvalidVersionTag" 13; mkErrorVariant "InvalidSignatureLength" 14;
        mkErrorVariant "InvalidSignature" 15; mkErrorVariant "InvalidSignatureCount" 16;
        mkErrorVariant "InvalidSignatureThreshold" 17;
        mkErrorVariant "InvalidSignaturePubkey" 18;
        mkErrorVariant "SourceSignersNotConfigured" 19;
        mkErrorVariant "InvalidVerifierResults" 20; mkErrorVariant "ReentrantCall" 21;
        mkErrorVariant "TokenNotSupported" 22; mkErrorVariant "FeeTokenNotSupported" 23;
        mkErrorVariant "NoGasPriceAvailable" 24; mkErrorVariant "DestinationChainNotEnabled" 25;
        mkErrorVariant "InvalidExtraArgsTag" 26; mkErrorVariant "InvalidExtraArgsData" 27;
        mkErrorVariant "MessageGasLimitTooHigh" 28; mkErrorVariant "MessageTooLarge" 29;
        mkErrorVariant "UnsupportedNumberOfTokens" 30;
        mkErrorVariant "InvalidDestChainConfig" 31; mkErrorVariant "MessageFeeTooHigh" 32;
        mkErrorVariant "InvalidStaticConfig" 33; mkErrorVariant "InvalidTokenReceiver" 34;
        mkErrorVariant "SourceTokenDataTooLarge" 35;
        mkErrorVariant "InvalidDestBytesOverhead" 36;
        mkErrorVariant "DestinationChainNotSupported" 37;
        mkErrorVariant "MustBeCalledByRouter" 38;
        mkErrorVariant "RouterMustSetOriginalSender" 39;
        mkErrorVariant "CannotSendZeroTokens" 40;
        mkErrorVariant "CanOnlySendOneTokenPerMessage" 41; mkErrorVariant "UnsupportedToken" 42;
        mkErrorVariant "InvalidDestChainAddress" 43; mkErrorVariant "FeeExceedsMaxAllowed" 44;
        mkErrorVariant "InsufficientFeeTokenAmount" 45;
        mkErrorVariant "TokenReceiverNotAllowed" 46; mkErrorVariant "CursedByRMN" 47;
        mkErrorVariant "RemoteChainNotSupported" 48; mkErrorVariant "SenderNotAllowed" 49;
        mkErrorVariant "InvalidTokenAmount" 50; mkErrorVariant "InvalidReceiverAddress" 51;
        mkErrorVariant "InvalidConfig" 52; mkErrorVariant "InvalidVerifierResultsLength" 53;
        mkErrorVariant "InboundImplementationNotFound" 54;
        mkErrorVariant "OutboundImplementationNotFound" 55; mkErrorVariant "InvalidAddress" 56;
        mkErrorVariant "InvalidChainSelector" 57; mkErrorVariant "InvalidVersion" 58;
        mkErrorVariant "InvalidCCVVersion" 59; mkErrorVariant "OffRampAlreadyExists" 60;
        mkErrorVariant "OffRampMismatch" 61; mkErrorVariant "BadRMNSignal" 62;
        mkErrorVariant "UnsupportedDestinationChain" 63; mkErrorVariant "AlreadyCursed" 64;
        mkErrorVariant "ConfigNotSet" 65; mkErrorVariant "DuplicateOnchainPublicKey" 66;
        mkErrorVariant "InvalidSignerOrder" 67; mkErrorVariant "NotEnoughSigners" 68;
        mkErrorVariant "NotCursed" 69; mkErrorVariant "OutOfOrderSignatures" 70;
        mkErrorVariant "ThresholdNotMet" 71; mkErrorVariant "UnexpectedSigner" 72;
        mkErrorVariant "ZeroValueNotAllowed" 73; mkErrorVariant "SourceChainNotEnabled" 100;
        mkErrorVariant "InvalidSourceChainConfig" 101;
        mkErrorVariant "InvalidOnRampAddress" 102; mkErrorVariant "InvalidOffRampAddress" 103;
        mkErrorVariant "InvalidMessageDestination" 104;
        mkErrorVariant "MessageAlreadyExecuted" 105; mkErrorVariant "InvalidExecutionState" 106;
        mkErrorVariant "CCVLengthMismatch" 107; mkErrorVariant "CCVQuorumNotMet" 108;
        mkErrorVariant "ReceiverError" 109; mkErrorVariant "GasLimitOverrideTooLow" 110;
        mkErrorVariant "InvalidReceiverLength" 111; mkErrorVariant "TokenHandlingError" 112;
        mkErrorVariant "MessageDecodingError" 113; mkErrorVariant "ReceiverDoesNotExist" 114;
        mkErrorVariant "ReceiverNotWasmContract" 115; mkErrorVariant "RequiredCCVMissing" 116;
        mkErrorVariant "InvalidOptionalThreshold" 117;
        mkErrorVariant "OptionalCCVQuorumNotReached" 118;
        mkErrorVariant "NoStateProgressMade" 119;
        mkErrorVariant "OnlyRegistryModuleOrOwner" 201; mkErrorVariant "OnlyAdministrator" 202;
        mkErrorVariant "OnlyPendingAdministrator" 203;
        mkErrorVariant "TokenAlreadyRegistered" 204; mkErrorVariant "InvalidTokenPoolToken" 205;
        mkErrorVariant "PoolTokenMismatch" 301; mkErrorVariant "ChainNotSupported" 302;
        mkErrorVariant "CallerIsNotRamp" 303; mkErrorVariant "InsufficientPoolLiquidity" 304;
        mkErrorVariant "InvalidRemotePoolAddress" 305;
        mkErrorVariant "InvalidRemoteChainConfig" 306;
        mkErrorVariant "InvalidRemoteChainDecimals" 307;
        mkErrorVariant "DecimalAmountOverflow" 308;
        mkErrorVariant "InvalidPoolTokenDecimals" 309; mkErrorVariant "BucketOverfilled" 310;
        mkErrorVariant "TokenMaxCapacityExceeded" 311;
        mkErrorVariant "TokenRateLimitReached" 312; mkErrorVariant "InvalidRateLimitRate" 313;
        mkErrorVariant "DisabledNonZeroRateLimit" 314;
        mkErrorVariant "InvalidRequestedFinality" 315;
        mkErrorVariant "RequestedFinalityCanOnlyHaveOneMode" 316;
        mkErrorVariant "InvalidChainForClient" 317; mkErrorVariant "RouterNotConfigured" 318;
        mkErrorVariant "InvalidSourcePoolAddress" 319;
        mkErrorVariant "DuplicateCCVNotAllowed" 320;
        mkErrorVariant "InvalidTokenTransferFeeConfig" 321;
        mkErrorVariant "InvalidTransferFeeBps" 322;
        mkErrorVariant "InvalidAllowListRequest" 323;
        mkErrorVariant "InvalidFeeCalculation" 801;
        mkErrorVariant "InvalidFeeTokenConversion" 802;
        mkErrorVariant "ZeroFeeAggregatorNotAllowed" 803; mkErrorVariant "ExceedsMaxCCVs" 804;
        mkErrorVariant "CCVNotAllowed" 805; mkErrorVariant "PolicyEngineDetachReverted" 806;
        mkErrorVariant "UnsupportedSelector" 807; mkErrorVariant "ZeroAddressNotAllowed" 808]]
    [mkGenEvent "InboundImplSetEvent" ["vvr_InboundImplSet"]
       [mkEventField (mkField "version" "soroban_sdk::BytesN<4>") false;
        mkEventField (mkField "verifier" "soroban_sdk::Address") false];
     mkGenEvent "OutboundImplSetEvent" ["vvr_OutboundImplSet"]
       [mkEventField (mkField "dest_chain_selector" "u64") false;
        mkEventField (mkField "verifier" "soroban_sdk::Address") false];
     mkGenEvent "FeeAggregatorSetEvent" ["vvr_FeeAggregatorSet"]
       [mkEventField (mkField "fee_aggregator" "soroban_sdk::Address") false];
     mkGenEvent "InboundImplRemovedEvent" ["vvr_InboundImplRemoved"]
       [mkEventField (mkField "version" "soroban_sdk::BytesN<4>") false];
     mkGenEvent "OutboundImplRemovedEvent" ["vvr_OutboundImplRemoved"]
       [mkEventField (mkField "dest_chain_selector" "u64") false];
     mkGenEvent "RoleGrantedEvent" ["auth_RoleGranted"]
       [mkEventField (mkField "role" "soroban_sdk::Symbol") false;
        mkEventField (mkField "account" "soroban_sdk::Address") false;
        mkEventField (mkField "sender" "soroban_sdk::Address") false];
     mkGenEvent "RoleRevokedEvent" ["auth_RoleRevoked"]
       [mkEventField (mkField "role" "soroban_sdk::Symbol") false;
        mkEventField (mkField "account" "soroban_sdk::Address") false;
        mkEventField (mkField "sender" "soroban_sdk::Address") false];
     mkGenEvent "AuthorizedCallerAddedEvent" ["auth_CallerAdded"]
       [mkEventField (mkField "caller" "soroban_sdk::Address") false];
     mkGenEvent "AuthorizedCallerRemovedEvent" ["auth_CallerRemoved"]
       [mkEventField (mkField "caller" "soroban_sdk::Address") false];
     mkGenEvent "OwnershipTransferStartedEvent" ["auth_OwnerTransferStart"]
       [mkEventField (mkField "previous_owner" "soroban_sdk::Address") false;
        mkEventField (mkField "new_owner" "soroban_sdk::Address") false]]
    [].

Definition onramp_interface : Contract :=
  mkGenContract ""
    [mkStruct "TokenAmount" [mkField "amount" "i128"; mkField "token" "soroban_sdk::Address"];
     mkStruct "StellarToAnyMessage" [mkField "data" "soroban_sdk::Bytes"; mkField "extra_args"
       "soroban_sdk::Bytes";
       mkField "fee_token" "soroban_sdk::Address"; mkField "receiver" "soroban_sdk::Bytes";
       mkField "token_amounts" "soroban_sdk::Vec<TokenAmount>"];
     mkStruct "StaticConfig" [mkField "chain_selector" "u64"; mkField "max_usd_cents_per_message" "u32";
       mkField "rmn_proxy" "soroban_sdk::Address";
       mkField "token_admin_registry" "soroban_sdk::Address"];
     mkStruct "DynamicConfig" [mkField "fee_aggregator" "soroban_sdk::Address";
       mkField "fee_quoter" "soroban_sdk::Address"];
     mkStruct "DestChainConfig" [mkField "address_bytes_length" "u32"; mkField "base_execution_gas_cost" "u32";
       mkField "default_ccvs" "soroban_sdk::Vec<soroban_sdk::Address>";
       mkField "default_executor" "soroban_sdk::Address";
       mkField "execution_fee_usd_cents" "u32";
       mkField "lane_mandated_ccvs" "soroban_sdk::Vec<soroban_sdk::Address>";
       mkField "message_network_fee_usd_cents" "u32"; mkField "message_number" "u64";
       mkField "off_ramp" "soroban_sdk::Bytes"; mkField "router" "soroban_sdk::Address";
       mkField "token_network_fee_usd_cents" "u32"; mkField "token_receiver_allowed" "bool"];
     mkStruct "DestChainConfigArgs" [mkField "address_bytes_length" "u32"; mkField "base_execution_gas_cost"
       "u32";
       mkField "default_ccvs" "soroban_sdk::Vec<soroban_sdk::Address>";
       mkField "default_executor" "soroban_sdk::Address"; mkField "dest_chain_selector" "u64";
       mkField "execution_fee_usd_cents" "u32";
       mkField "lane_mandated_ccvs" "soroban_sdk::Vec<soroban_sdk::Address>";
       mkField "message_network_fee_usd_cents" "u32"; mkField "off_ramp" "soroban_sdk::Bytes";
       mkField "router" "soroban_sdk::Address"; mkField "token_network_fee_usd_cents" "u32";
       mkField "token_receiver_allowed" "bool"]]
    [mkFunction "init" [mkField "rmn_proxy" "soroban_sdk::Address"] "Result<(), CCIPError>" false;
     mkFunction "owner" [] "Option<soroban_sdk::Address>" false;
     mkFunction "get_fee" [mkField "dest_chain_selector" "u64"; mkField "message" "StellarToAnyMessage"]
       "Result<i128, CCIPError>" false;
     mkFunction "upgrade" [mkField "new_wasm_hash" "soroban_sdk::BytesN<32>"] "Result<(), CCIPError>" false;
     mkFunction "is_owner" [mkField "addr" "soroban_sdk::Address"] "bool" false;
     mkFunction "is_cursed" [] "Result<bool, CCIPError>" false;
     mkFunction "init_owner" [mkField "owner" "soroban_sdk::Address"] "Result<(), CCIPError>" false;
     mkFunction "initialize" [mkField "owner" "soroban_sdk::Address"; mkField "static_config" "StaticConfig";
       mkField "dynamic_config" "DynamicConfig"] "Result<(), CCIPError>" false;
     mkFunction "require_owner" [] "Result<soroban_sdk::Address, CCIPError>" false;
     mkFunction "accept_ownership" [] "Result<(), CCIPError>" false;
     mkFunction "type_and_version" [] "soroban_sdk::String" false;
     mkFunction "get_pending_owner" [] "Option<soroban_sdk::Address>" false;
     mkFunction "get_static_config" [] "Result<StaticConfig, CCIPError>" false;
     mkFunction "is_subject_cursed" [mkField "subject" "soroban_sdk::BytesN<16>"] "Result<bool, CCIPError>"
       false;
     mkFunction "get_dynamic_config" [] "Result<DynamicConfig, CCIPError>" false;
     mkFunction "require_not_cursed" [] "Result<(), CCIPError>" false;
     mkFunction "set_dynamic_config" [mkField "dynamic_config" "DynamicConfig"] "Result<(), CCIPError>" false;
     mkFunction "transfer_ownership" [mkField "new_owner" "soroban_sdk::Address"] "Result<(), CCIPError>" false;
     mkFunction "forward_from_router"
       [mkField "dest_chain_selector" "u64"; mkField "message" "StellarToAnyMessage"; mkField
         "fee_token_amount" "i128"; mkField "original_sender" "soroban_sdk::Address"]
           "Result<soroban_sdk::BytesN<32>, CCIPError>" false;
     mkFunction "withdraw_fee_tokens" [mkField "fee_tokens" "soroban_sdk::Vec<soroban_sdk::Address>"]
       "Result<(), CCIPError>" false;
     mkFunction "get_dest_chain_config" [mkField "dest_chain_selector" "u64"]
       "Result<DestChainConfig, CCIPError>" false;
     mkFunction "get_pool_by_source_token" [mkField "source_token" "soroban_sdk::Address"]
       "Result<soroban_sdk::Address, CCIPError>" false;
     mkFunction "require_chain_not_cursed" [mkField "chain_selector" "u64"] "Result<(), CCIPError>" false;
     mkFunction "cancel_ownership_transfer" [] "Result<(), CCIPError>" false;
     mkFunction "get_all_dest_chain_configs" []
       "Result<(soroban_sdk::Vec<u64>, soroban_sdk::Vec<DestChainConfig>), CCIPError>" false;
     mkFunction "require_subject_not_cursed" [mkField "subject" "soroban_sdk::BytesN<16>"]
       "Result<(), CCIPError>" false;
     mkFunction "apply_dest_chain_config_updates"
       [mkField "dest_chain_config_args" "soroban_sdk::Vec<DestChainConfigArgs>"] "Result<(), CCIPError>" false;
     mkFunction "get_expected_next_message_number" [mkField "dest_chain_selector" "u64"]
       "Result<u64, CCIPError>" false]
    [mkErrorEnum "CCIPError"
       [mkErrorVariant "NotInitialized" 1; mkErrorVariant "AlreadyInitialized" 2;
        mkErrorVariant "Unauthorized" 3; mkErrorVariant "NotOwner" 4;
        mkErrorVariant "NoPendingOwner" 5; mkErrorVariant "CallerNotAuthorized" 6;
        mkErrorVariant "CallerAlreadyAuthorized" 7; mkErrorVariant "CallerNotFound" 8;
        mkErrorVariant "RoleNotGranted" 9; mkErrorVariant "FeatureNotEnabled" 10;
        mkErrorVariant "RoleAlreadyGranted" 11; mkErrorVariant "CannotRenounceRole" 12;
        mkErrorVariant "InvalidVersionTag" 13; mkErrorVariant "InvalidSignatureLength" 14;
        mkErrorVariant "InvalidSignature" 15; mkErrorVariant "InvalidSignatureCount" 16;
        mkErrorVariant "InvalidSignatureThreshold" 17;
        mkErrorVariant "InvalidSignaturePubkey" 18;
        mkErrorVariant "SourceSignersNotConfigured" 19;
        mkErrorVariant "InvalidVerifierResults" 20; mkErrorVariant "ReentrantCall" 21;
        mkErrorVariant "TokenNotSupported" 22; mkErrorVariant "FeeTokenNotSupported" 23;
        mkErrorVariant "NoGasPriceAvailable" 24; mkErrorVariant "DestinationChainNotEnabled" 25;
        mkErrorVariant "InvalidExtraArgsTag" 26; mkErrorVariant "InvalidExtraArgsData" 27;
        mkErrorVariant "MessageGasLimitTooHigh" 28; mkErrorVariant "MessageTooLarge" 29;
        mkErrorVariant "UnsupportedNumberOfTokens" 30;
        mkErrorVariant "InvalidDestChainConfig" 31; mkErrorVariant "MessageFeeTooHigh" 32;
        mkErrorVariant "InvalidStaticConfig" 33; mkErrorVariant "InvalidTokenReceiver" 34;
        mkErrorVariant "SourceTokenDataTooLarge" 35;
        mkErrorVariant "InvalidDestBytesOverhead" 36;
        mkErrorVariant "DestinationChainNotSupported" 37;
        mkErrorVariant "MustBeCalledByRouter" 38;
        mkErrorVariant "RouterMustSetOriginalSender" 39;
        mkErrorVariant "CannotSendZeroTokens" 40;
        mkErrorVariant "CanOnlySendOneTokenPerMessage" 41; mkErrorVariant "UnsupportedToken" 42;
        mkErrorVariant "InvalidDestChainAddress" 43; mkErrorVariant "FeeExceedsMaxAllowed" 44;
        mkErrorVariant "InsufficientFeeTokenAmount" 45;
        mkErrorVariant "TokenReceiverNotAllowed" 46; mkErrorVariant "CursedByRMN" 47;
        mkErrorVariant "RemoteChainNotSupported" 48; mkErrorVariant "SenderNotAllowed" 49;
        mkErrorVariant "InvalidTokenAmount" 50; mkErrorVariant "InvalidReceiverAddress" 51;
        mkErrorVariant "InvalidConfig" 52; mkErrorVariant "InvalidVerifierResultsLength" 53;
        mkErrorVariant "InboundImplementationNotFound" 54;
        mkErrorVariant "OutboundImplementationNotFound" 55; mkErrorVariant "InvalidAddress" 56;
        mkErrorVariant "InvalidChainSelector" 57; mkErrorVariant "InvalidVersion" 58;
        mkErrorVariant "InvalidCCVVersion" 59; mkErrorVariant "OffRampAlreadyExists" 60;
        mkErrorVariant "OffRampMismatch" 61; mkErrorVariant "BadRMNSignal" 62;
        mkErrorVariant "UnsupportedDestinationChain" 63; mkErrorVariant "AlreadyCursed" 64;
        mkErrorVariant "ConfigNotSet" 65; mkErrorVariant "DuplicateOnchainPublicKey" 66;
        mkErrorVariant "InvalidSignerOrder" 67; mkErrorVariant "NotEnoughSigners" 68;
        mkErrorVariant "NotCursed" 69; mkErrorVariant "OutOfOrderSignatures" 70;
        mkErrorVariant "ThresholdNotMet" 71; mkErrorVariant "UnexpectedSigner" 72;
        mkErrorVariant "ZeroValueNotAllowed" 73; mkErrorVariant "SourceChainNotEnabled" 100;
        mkErrorVariant "InvalidSourceChainConfig" 101;
        mkErrorVariant "InvalidOnRampAddress" 102; mkErrorVariant "InvalidOffRampAddress" 103;
        mkErrorVariant "InvalidMessageDestination" 104;
        mkErrorVariant "MessageAlreadyExecuted" 105; mkErrorVariant "InvalidExecutionState" 106;
        mkErrorVariant "CCVLengthMismatch" 107; mkErrorVariant "CCVQuorumNotMet" 108;
        mkErrorVariant "ReceiverError" 109; mkErrorVariant "GasLimitOverrideTooLow" 110;
        mkErrorVariant "InvalidReceiverLength" 111; mkErrorVariant "TokenHandlingError" 112;
        mkErrorVariant "MessageDecodingError" 113; mkErrorVariant "ReceiverDoesNotExist" 114;
        mkErrorVariant "ReceiverNotWasmContract" 115; mkErrorVariant "RequiredCCVMissing" 116;
        mkErrorVariant "InvalidOptionalThreshold" 117;
        mkErrorVariant "OptionalCCVQuorumNotReached" 118;
        mkErrorVariant "NoStateProgressMade" 119;
        mkErrorVariant "OnlyRegistryModuleOrOwner" 201; mkErrorVariant "OnlyAdministrator" 202;
        mkErrorVariant "OnlyPendingAdministrator" 203;
        mkErrorVariant "TokenAlreadyRegistered" 204; mkErrorVariant "InvalidTokenPoolToken" 205;
        mkErrorVariant "PoolTokenMismatch" 301; mkErrorVariant "ChainNotSupported" 302;
        mkErrorVariant "CallerIsNotRamp" 303; mkErrorVariant "InsufficientPoolLiquidity" 304;
        mkErrorVariant "InvalidRemotePoolAddress" 305;
        mkErrorVariant "InvalidRemoteChainConfig" 306;
        mkErrorVariant "InvalidRemoteChainDecimals" 307;
        mkErrorVariant "DecimalAmountOverflow" 308;
        mkErrorVariant "InvalidPoolTokenDecimals" 309; mkErrorVariant "BucketOverfilled" 310;
        mkErrorVariant "TokenMaxCapacityExceeded" 311;
        mkErrorVariant "TokenRateLimitReached" 312; mkErrorVariant "InvalidRateLimitRate" 313;
        mkErrorVariant "DisabledNonZeroRateLimit" 314;
        mkErrorVariant "InvalidRequestedFinality" 315;
        mkErrorVariant "RequestedFinalityCanOnlyHaveOneMode" 316;
        mkErrorVariant "InvalidChainForClient" 317; mkErrorVariant "RouterNotConfigured" 318;
        mkErrorVariant "InvalidSourcePoolAddress" 319;
        mkErrorVariant "DuplicateCCVNotAllowed" 320;
        mkErrorVariant "InvalidTokenTransferFeeConfig" 321;
        mkErrorVariant "InvalidTransferFeeBps" 322;
        mkErrorVariant "InvalidAllowListRequest" 323;
        mkErrorVariant "InvalidFeeCalculation" 801;
        mkErrorVariant "InvalidFeeTokenConversion" 802;
        mkErrorVariant "ZeroFeeAggregatorNotAllowed" 803; mkErrorVariant "ExceedsMaxCCVs" 804;
        mkErrorVariant "CCVNotAllowed" 805; mkErrorVariant "PolicyEngineDetachReverted" 806;
        mkErrorVariant "UnsupportedSelector" 807; mkErrorVariant "ZeroAddressNotAllowed" 808]]
    [mkGenEvent "RoleGrantedEvent" ["auth_RoleGranted"]
       [mkEventField (mkField "role" "soroban_sdk::Symbol") false;
        mkEventField (mkField "account" "soroban_sdk::Address") false;
        mkEventField (mkField "sender" "soroban_sdk::Address") false];
     mkGenEvent "RoleRevokedEvent" ["auth_RoleRevoked"]
       [mkEventField (mkField "role" "soroban_sdk::Symbol") false;
        mkEventField (mkField "account" "soroban_sdk::Address") false;
        mkEventField (mkField "sender" "soroban_sdk::Address") false];
     mkGenEvent "AuthorizedCallerAddedEvent" ["auth_CallerAdded"]
       [mkEventField (mkField "caller" "soroban_sdk::Address") false];
     mkGenEvent "AuthorizedCallerRemovedEvent" ["auth_CallerRemoved"]
       [mkEventField (mkField "caller" "soroban_sdk::Address") false];
     mkGenEvent "OwnershipTransferStartedEvent" ["auth_OwnerTransferStart"]
       [mkEventField (mkField "previous_owner" "soroban_sdk::Address") false;
        mkEventField (mkField "new_owner" "soroban_sdk::Address") false]]
    [].

Definition rmn_proxy_interface : Contract :=
  mkGenContract ""
    []
    [mkFunction "owner" [] "Option<soroban_sdk::Address>" false;
     mkFunction "get_rmn" [] "Result<soroban_sdk::Address, CCIPError>" false;
     mkFunction "set_rmn" [mkField "rmn" "soroban_sdk::Address"] "Result<(), CCIPError>" false;
     mkFunction "upgrade" [mkField "new_wasm_hash" "soroban_sdk::BytesN<32>"] "Result<(), CCIPError>" false;
     mkFunction "is_owner" [mkField "addr" "soroban_sdk::Address"] "bool" false;
     mkFunction "is_cursed" [] "Result<bool, CCIPError>" false;
     mkFunction "init_owner" [mkField "owner" "soroban_sdk::Address"] "Result<(), CCIPError>" false;
     mkFunction "initialize" [mkField "owner" "soroban_sdk::Address"; mkField "rmn" "soroban_sdk::Address"]
       "Result<(), CCIPError>" false;
     mkFunction "require_owner" [] "Result<soroban_sdk::Address, CCIPError>" false;
     mkFunction "accept_ownership" [] "Result<(), CCIPError>" false;
     mkFunction "type_and_version" [] "soroban_sdk::String" false;
     mkFunction "get_pending_owner" [] "Option<soroban_sdk::Address>" false;
     mkFunction "transfer_ownership" [mkField "new_owner" "soroban_sdk::Address"] "Result<(), CCIPError>" false;
     mkFunction "cancel_ownership_transfer" [] "Result<(), CCIPError>" false]
    [mkErrorEnum "CCIPError"
       [mkErrorVariant "NotInitialized" 1; mkErrorVariant "AlreadyInitialized" 2;
        mkErrorVariant "Unauthorized" 3; mkErrorVariant "NotOwner" 4;
        mkErrorVariant "NoPendingOwner" 5; mkErrorVariant "CallerNotAuthorized" 6;
        mkErrorVariant "CallerAlreadyAuthorized" 7; mkErrorVariant "CallerNotFound" 8;
        mkErrorVariant "RoleNotGranted" 9; mkErrorVariant "FeatureNotEnabled" 10;
        mkErrorVariant "RoleAlreadyGranted" 11; mkErrorVariant "CannotRenounceRole" 12;
        mkErrorVariant "InvalidVersionTag" 13; mkErrorVariant "InvalidSignatureLength" 14;
        mkErrorVariant "InvalidSignature" 15; mkErrorVariant "InvalidSignatureCount" 16;
        mkErrorVariant "InvalidSignatureThreshold" 17;
        mkErrorVariant "InvalidSignaturePubkey" 18;
        mkErrorVariant "SourceSignersNotConfigured" 19;
        mkErrorVariant "InvalidVerifierResults" 20; mkErrorVariant "ReentrantCall" 21;
        mkErrorVariant "TokenNotSupported" 22; mkErrorVariant "FeeTokenNotSupported" 23;
        mkErrorVariant "NoGasPriceAvailable" 24; mkErrorVariant "DestinationChainNotEnabled" 25;
        mkErrorVariant "InvalidExtraArgsTag" 26; mkErrorVariant "InvalidExtraArgsData" 27;
        mkErrorVariant "MessageGasLimitTooHigh" 28; mkErrorVariant "MessageTooLarge" 29;
        mkErrorVariant "UnsupportedNumberOfTokens" 30;
        mkErrorVariant "InvalidDestChainConfig" 31; mkErrorVariant "MessageFeeTooHigh" 32;
        mkErrorVariant "InvalidStaticConfig" 33; mkErrorVariant "InvalidTokenReceiver" 34;
        mkErrorVariant "SourceTokenDataTooLarge" 35;
        mkErrorVariant "InvalidDestBytesOverhead" 36;
        mkErrorVariant "DestinationChainNotSupported" 37;
        mkErrorVariant "MustBeCalledByRouter" 38;
        mkErrorVariant "RouterMustSetOriginalSender" 39;
        mkErrorVariant "CannotSendZeroTokens" 40;
        mkErrorVariant "CanOnlySendOneTokenPerMessage" 41; mkErrorVariant "UnsupportedToken" 42;
        mkErrorVariant "InvalidDestChainAddress" 43; mkErrorVariant "FeeExceedsMaxAllowed" 44;
        mkErrorVariant "InsufficientFeeTokenAmount" 45;
        mkErrorVariant "TokenReceiverNotAllowed" 46; mkErrorVariant "CursedByRMN" 47;
        mkErrorVariant "RemoteChainNotSupported" 48; mkErrorVariant "SenderNotAllowed" 49;
        mkErrorVariant "InvalidTokenAmount" 50; mkErrorVariant "InvalidReceiverAddress" 51;
        mkErrorVariant "InvalidConfig" 52; mkErrorVariant "InvalidVerifierResultsLength" 53;
        mkErrorVariant "InboundImplementationNotFound" 54;
        mkErrorVariant "OutboundImplementationNotFound" 55; mkErrorVariant "InvalidAddress" 56;
        mkErrorVariant "InvalidChainSelector" 57; mkErrorVariant "InvalidVersion" 58;
        mkErrorVariant "InvalidCCVVersion" 59; mkErrorVariant "OffRampAlreadyExists" 60;
        mkErrorVariant "OffRampMismatch" 61; mkErrorVariant "BadRMNSignal" 62;
        mkErrorVariant "UnsupportedDestinationChain" 63; mkErrorVariant "AlreadyCursed" 64;
        mkErrorVariant "ConfigNotSet" 65; mkErrorVariant "DuplicateOnchainPublicKey" 66;
        mkErrorVariant "InvalidSignerOrder" 67; mkErrorVariant "NotEnoughSigners" 68;
        mkErrorVariant "NotCursed" 69; mkErrorVariant "OutOfOrderSignatures" 70;
        mkErrorVariant "ThresholdNotMet" 71; mkErrorVariant "UnexpectedSigner" 72;
        mkErrorVariant "ZeroValueNotAllowed" 73; mkErrorVariant "SourceChainNotEnabled" 100;
        mkErrorVariant "InvalidSourceChainConfig" 101;
        mkErrorVariant "InvalidOnRampAddress" 102; mkErrorVariant "InvalidOffRampAddress" 103;
        mkErrorVariant "InvalidMessageDestination" 104;
        mkErrorVariant "MessageAlreadyExecuted" 105; mkErrorVariant "InvalidExecutionState" 106;
        mkErrorVariant "CCVLengthMismatch" 107; mkErrorVariant "CCVQuorumNotMet" 108;
        mkErrorVariant "ReceiverError" 109; mkErrorVariant "GasLimitOverrideTooLow" 110;
        mkErrorVariant "InvalidReceiverLength" 111; mkErrorVariant "TokenHandlingError" 112;
        mkErrorVariant "MessageDecodingError" 113; mkErrorVariant "ReceiverDoesNotExist" 114;
        mkErrorVariant "ReceiverNotWasmContract" 115; mkErrorVariant "RequiredCCVMissing" 116;
        mkErrorVariant "InvalidOptionalThreshold" 117;
        mkErrorVariant "OptionalCCVQuorumNotReached" 118;
        mkErrorVariant "NoStateProgressMade" 119;
        mkErrorVariant "OnlyRegistryModuleOrOwner" 201; mkErrorVariant "OnlyAdministrator" 202;
        mkErrorVariant "OnlyPendingAdministrator" 203;
        mkErrorVariant "TokenAlreadyRegistered" 204; mkErrorVariant "InvalidTokenPoolToken" 205;
        mkErrorVariant "PoolTokenMismatch" 301; mkErrorVariant "ChainNotSupported" 302;
        mkErrorVariant "CallerIsNotRamp" 303; mkErrorVariant "InsufficientPoolLiquidity" 304;
        mkErrorVariant "InvalidRemotePoolAddress" 305;
        mkErrorVariant "InvalidRemoteChainConfig" 306;
        mkErrorVariant "InvalidRemoteChainDecimals" 307;
        mkErrorVariant "DecimalAmountOverflow" 308;
        mkErrorVariant "InvalidPoolTokenDecimals" 309; mkErrorVariant "BucketOverfilled" 310;
        mkErrorVariant "TokenMaxCapacityExceeded" 311;
        mkErrorVariant "TokenRateLimitReached" 312; mkErrorVariant "InvalidRateLimitRate" 313;
        mkErrorVariant "DisabledNonZeroRateLimit" 314;
        mkErrorVariant "InvalidRequestedFinality" 315;
        mkErrorVariant "RequestedFinalityCanOnlyHaveOneMode" 316;
        mkErrorVariant "InvalidChainForClient" 317; mkErrorVariant "RouterNotConfigured" 318;
        mkErrorVariant "InvalidSourcePoolAddress" 319;
        mkErrorVariant "DuplicateCCVNotAllowed" 320;
        mkErrorVariant "InvalidTokenTransferFeeConfig" 321;
        mkErrorVariant "InvalidTransferFeeBps" 322;
        mkErrorVariant "InvalidAllowListRequest" 323;
        mkErrorVariant "InvalidFeeCalculation" 801;
        mkErrorVariant "InvalidFeeTokenConversion" 802;
        mkErrorVariant "ZeroFeeAggregatorNotAllowed" 803; mkErrorVariant "ExceedsMaxCCVs" 804;
        mkErrorVariant "CCVNotAllowed" 805; mkErrorVariant "PolicyEngineDetachReverted" 806;
        mkErrorVariant "UnsupportedSelector" 807; mkErrorVariant "ZeroAddressNotAllowed" 808]]
    [mkGenEvent "RoleGrantedEvent" ["auth_RoleGranted"]
       [mkEventField (mkField "role" "soroban_sdk::Symbol") false;
        mkEventField (mkField "account" "soroban_sdk::Address") false;
        mkEventField (mkField "sender" "soroban_sdk::Address") false];
     mkGenEvent "RoleRevokedEvent" ["auth_RoleRevoked"]
       [mkEventField (mkField "role" "soroban_sdk::Symbol") false;
        mkEventField (mkField "account" "soroban_sdk::Address") false;
        mkEventField (mkField "sender" "soroban_sdk::Address") false];
     mkGenEvent "AuthorizedCallerAddedEvent" ["auth_CallerAdded"]
       [mkEventField (mkField "caller" "soroban_sdk::Address") false];
     mkGenEvent "AuthorizedCallerRemovedEvent" ["auth_CallerRemoved"]
       [mkEventField (mkField "caller" "soroban_sdk::Address") false];
     mkGenEvent "OwnershipTransferStartedEvent" ["auth_OwnerTransferStart"]
       [mkEventField (mkField "previous_owner" "soroban_sdk::Address") false;
        mkEventField (mkField "new_owner" "soroban_sdk::Address") false];
     mkGenEvent "RmnSetEvent" ["rmn_proxy_RmnSet"]
       [mkEventField (mkField "rmn" "soroban_sdk::Address") false]]
    [].

Definition rmn_remote_interface : Contract :=
  mkGenContract ""
    []
    [mkFunction "curse" [mkField "caller" "soroban_sdk::Address"; mkField "subjects"
      "soroban_sdk::Vec<soroban_sdk::BytesN<16>>"] "Result<(), CCIPError>" false;
     mkFunction "owner" [] "Option<soroban_sdk::Address>" false;
     mkFunction "uncurse" [mkField "subjects" "soroban_sdk::Vec<soroban_sdk::BytesN<16>>"]
       "Result<(), CCIPError>" false;
     mkFunction "upgrade" [mkField "new_wasm_hash" "soroban_sdk::BytesN<32>"] "Result<(), CCIPError>" false;
     mkFunction "is_owner" [mkField "addr" "soroban_sdk::Address"] "bool" false;
     mkFunction "is_cursed" [] "bool" false;
     mkFunction "init_owner" [mkField "owner" "soroban_sdk::Address"] "Result<(), CCIPError>" false;
     mkFunction "initialize" [mkField "owner" "soroban_sdk::Address"; mkField "curse_admins"
       "soroban_sdk::Vec<soroban_sdk::Address>"] "Result<(), CCIPError>" false;
     mkFunction "require_owner" [] "Result<soroban_sdk::Address, CCIPError>" false;
     mkFunction "accept_ownership" [] "Result<(), CCIPError>" false;
     mkFunction "get_curse_admins" [] "Result<soroban_sdk::Vec<soroban_sdk::Address>, CCIPError>" false;
     mkFunction "type_and_version" [] "soroban_sdk::String" false;
     mkFunction "get_pending_owner" [] "Option<soroban_sdk::Address>" false;
     mkFunction "transfer_ownership" [mkField "new_owner" "soroban_sdk::Address"] "Result<(), CCIPError>" false;
     mkFunction "get_cursed_subjects" [] "Result<soroban_sdk::Vec<soroban_sdk::BytesN<16>>, CCIPError>" false;
     mkFunction "is_cursed_by_subject" [mkField "subject" "soroban_sdk::BytesN<16>"] "bool" false;
     mkFunction "apply_curse_admin_updates"
       [mkField "added_admins" "soroban_sdk::Vec<soroban_sdk::Address>"; mkField "removed_admins"
         "soroban_sdk::Vec<soroban_sdk::Address>"] "Result<(), CCIPError>" false;
     mkFunction "cancel_ownership_transfer" [] "Result<(), CCIPError>" false]
    []
    [mkGenEvent "RoleGrantedEvent" ["auth_RoleGranted"]
       [mkEventField (mkField "role" "soroban_sdk::Symbol") false;
        mkEventField (mkField "account" "soroban_sdk::Address") false;
        mkEventField (mkField "sender" "soroban_sdk::Address") false];
     mkGenEvent "RoleRevokedEvent" ["auth_RoleRevoked"]
       [mkEventField (mkField "role" "soroban_sdk::Symbol") false;
        mkEventField (mkField "account" "soroban_sdk::Address") false;
        mkEventField (mkField "sender" "soroban_sdk::Address") false];
     mkGenEvent "AuthorizedCallerAddedEvent" ["auth_CallerAdded"]
       [mkEventField (mkField "caller" "soroban_sdk::Address") false];
     mkGenEvent "AuthorizedCallerRemovedEvent" ["auth_CallerRemoved"]
       [mkEventField (mkField "caller" "soroban_sdk::Address") false];
     mkGenEvent "OwnershipTransferStartedEvent" ["auth_OwnerTransferStart"]
       [mkEventField (mkField "previous_owner" "soroban_sdk::Address") false;
        mkEventField (mkField "new_owner" "soroban_sdk::Address") false];
     mkGenEvent "CursedEvent" ["rmn_Cursed"]
       [mkEventField (mkField "subjects" "soroban_sdk::Vec<soroban_sdk::BytesN<16>>") false];
     mkGenEvent "UncursedEvent" ["rmn_Uncursed"]
       [mkEventField (mkField "subjects" "soroban_sdk::Vec<soroban_sdk::BytesN<16>>") false]]
    [].

Definition offramp_interface : Contract :=
  mkGenContract ""
    [mkStruct "StaticConfig" [mkField "chain_selector" "u64"; mkField "rmn_proxy" "soroban_sdk::Address";
       mkField "token_admin_registry" "soroban_sdk::Address"];
     mkStruct "SourceChainConfig" [mkField "default_ccvs" "soroban_sdk::Vec<soroban_sdk::Address>";
       mkField "is_enabled" "bool";
       mkField "lane_mandated_ccvs" "soroban_sdk::Vec<soroban_sdk::Address>";
       mkField "on_ramps" "soroban_sdk::Vec<soroban_sdk::Bytes>";
       mkField "router" "soroban_sdk::Address"];
     mkStruct "SourceChainConfigArgs" [mkField "default_ccvs" "soroban_sdk::Vec<soroban_sdk::Address>";
       mkField "is_enabled" "bool";
       mkField "lane_mandated_ccvs" "soroban_sdk::Vec<soroban_sdk::Address>";
       mkField "on_ramps" "soroban_sdk::Vec<soroban_sdk::Bytes>";
       mkField "router" "soroban_sdk::Address"; mkField "source_chain_selector" "u64"]]
    [mkFunction "init" [mkField "rmn_proxy" "soroban_sdk::Address"] "Result<(), CCIPError>" false;
     mkFunction "owner" [] "Option<soroban_sdk::Address>" false;
     mkFunction "execute" [mkField "encoded_message" "soroban_sdk::Bytes"; mkField "ccvs"
       "soroban_sdk::Vec<soroban_sdk::Address>"; mkField "verifier_results"
         "soroban_sdk::Vec<soroban_sdk::Bytes>"; mkField "gas_limit_override" "u32"] "Result<(), CCIPError>"
           false;
     mkFunction "upgrade" [mkField "new_wasm_hash" "soroban_sdk::BytesN<32>"] "Result<(), CCIPError>" false;
     mkFunction "is_owner" [mkField "addr" "soroban_sdk::Address"] "bool" false;
     mkFunction "is_cursed" [] "Result<bool, CCIPError>" false;
     mkFunction "init_owner" [mkField "owner" "soroban_sdk::Address"] "Result<(), CCIPError>" false;
     mkFunction "initialize" [mkField "owner" "soroban_sdk::Address"; mkField "static_config" "StaticConfig"]
       "Result<(), CCIPError>" false;
     mkFunction "require_owner" [] "Result<soroban_sdk::Address, CCIPError>" false;
     mkFunction "accept_ownership" [] "Result<(), CCIPError>" false;
     mkFunction "type_and_version" [] "soroban_sdk::String" false;
     mkFunction "get_pending_owner" [] "Option<soroban_sdk::Address>" false;
     mkFunction "get_static_config" [] "Result<StaticConfig, CCIPError>" false;
     mkFunction "is_subject_cursed" [mkField "subject" "soroban_sdk::BytesN<16>"] "Result<bool, CCIPError>"
       false;
     mkFunction "require_not_cursed" [] "Result<(), CCIPError>" false;
     mkFunction "transfer_ownership" [mkField "new_owner" "soroban_sdk::Address"] "Result<(), CCIPError>" false;
     mkFunction "get_execution_state" [mkField "message_id" "soroban_sdk::BytesN<32>"]
       "Result<MessageExecutionState, CCIPError>" false;
     mkFunction "get_ccvs_for_message" [mkField "encoded_message" "soroban_sdk::Bytes"] "Result<
        (
            soroban_sdk::Vec<soroban_sdk::Address>,
            soroban_sdk::Vec<soroban_sdk::Address>,
            u32,
        ),
        CCIPError,
    >" false;
     mkFunction "get_source_chain_config" [mkField "source_chain_selector" "u64"]
       "Result<SourceChainConfig, CCIPError>" false;
     mkFunction "require_chain_not_cursed" [mkField "chain_selector" "u64"] "Result<(), CCIPError>" false;
     mkFunction "cancel_ownership_transfer" [] "Result<(), CCIPError>" false;
     mkFunction "extend_execution_state_ttl" [mkField "message_id" "soroban_sdk::BytesN<32>"]
       "Result<(), CCIPError>" false;
     mkFunction "require_subject_not_cursed" [mkField "subject" "soroban_sdk::BytesN<16>"]
       "Result<(), CCIPError>" false;
     mkFunction "get_all_source_chain_configs" []
       "Result<(soroban_sdk::Vec<u64>, soroban_sdk::Vec<SourceChainConfig>), CCIPError>" false;
     mkFunction "apply_source_chain_cfg_updates"
       [mkField "source_chain_config_args" "soroban_sdk::Vec<SourceChainConfigArgs>"] "Result<(), CCIPError>"
         false]
    [mkErrorEnum "CCIPError"
       [mkErrorVariant "NotInitialized" 1; mkErrorVariant "AlreadyInitialized" 2;
        mkErrorVariant "Unauthorized" 3; mkErrorVariant "NotOwner" 4;
        mkErrorVariant "NoPendingOwner" 5; mkErrorVariant "CallerNotAuthorized" 6;
        mkErrorVariant "CallerAlreadyAuthorized" 7; mkErrorVariant "CallerNotFound" 8;
        mkErrorVariant "RoleNotGranted" 9; mkErrorVariant "FeatureNotEnabled" 10;
        mkErrorVariant "RoleAlreadyGranted" 11; mkErrorVariant "CannotRenounceRole" 12;
        mkErrorVariant "InvalidVersionTag" 13; mkErrorVariant "InvalidSignatureLength" 14;
        mkErrorVariant "InvalidSignature" 15; mkErrorVariant "InvalidSignatureCount" 16;
        mkErrorVariant "InvalidSignatureThreshold" 17;
        mkErrorVariant "InvalidSignaturePubkey" 18;
        mkErrorVariant "SourceSignersNotConfigured" 19;
        mkErrorVariant "InvalidVerifierResults" 20; mkErrorVariant "ReentrantCall" 21;
        mkErrorVariant "TokenNotSupported" 22; mkErrorVariant "FeeTokenNotSupported" 23;
        mkErrorVariant "NoGasPriceAvailable" 24; mkErrorVariant "DestinationChainNotEnabled" 25;
        mkErrorVariant "InvalidExtraArgsTag" 26; mkErrorVariant "InvalidExtraArgsData" 27;
        mkErrorVariant "MessageGasLimitTooHigh" 28; mkErrorVariant "MessageTooLarge" 29;
        mkErrorVariant "UnsupportedNumberOfTokens" 30;
        mkErrorVariant "InvalidDestChainConfig" 31; mkErrorVariant "MessageFeeTooHigh" 32;
        mkErrorVariant "InvalidStaticConfig" 33; mkErrorVariant "InvalidTokenReceiver" 34;
        mkErrorVariant "SourceTokenDataTooLarge" 35;
        mkErrorVariant "InvalidDestBytesOverhead" 36;
        mkErrorVariant "DestinationChainNotSupported" 37;
        mkErrorVariant "MustBeCalledByRouter" 38;
        mkErrorVariant "RouterMustSetOriginalSender" 39;
        mkErrorVariant "CannotSendZeroTokens" 40;
        mkErrorVariant "CanOnlySendOneTokenPerMessage" 41; mkErrorVariant "UnsupportedToken" 42;
        mkErrorVariant "InvalidDestChainAddress" 43; mkErrorVariant "FeeExceedsMaxAllowed" 44;
        mkErrorVariant "InsufficientFeeTokenAmount" 45;
        mkErrorVariant "TokenReceiverNotAllowed" 46; mkErrorVariant "CursedByRMN" 47;
        mkErrorVariant "RemoteChainNotSupported" 48; mkErrorVariant "SenderNotAllowed" 49;
        mkErrorVariant "InvalidTokenAmount" 50; mkErrorVariant "InvalidReceiverAddress" 51;
        mkErrorVariant "InvalidConfig" 52; mkErrorVariant "InvalidVerifierResultsLength" 53;
        mkErrorVariant "InboundImplementationNotFound" 54;
        mkErrorVariant "OutboundImplementationNotFound" 55; mkErrorVariant "InvalidAddress" 56;
        mkErrorVariant "InvalidChainSelector" 57; mkErrorVariant "InvalidVersion" 58;
        mkErrorVariant "InvalidCCVVersion" 59; mkErrorVariant "OffRampAlreadyExists" 60;
        mkErrorVariant "OffRampMismatch" 61; mkErrorVariant "BadRMNSignal" 62;
        mkErrorVariant "UnsupportedDestinationChain" 63; mkErrorVariant "AlreadyCursed" 64;
        mkErrorVariant "ConfigNotSet" 65; mkErrorVariant "DuplicateOnchainPublicKey" 66;
        mkErrorVariant "InvalidSignerOrder" 67; mkErrorVariant "NotEnoughSigners" 68;
        mkErrorVariant "NotCursed" 69; mkErrorVariant "OutOfOrderSignatures" 70;
        mkErrorVariant "ThresholdNotMet" 71; mkErrorVariant "UnexpectedSigner" 72;
        mkErrorVariant "ZeroValueNotAllowed" 73; mkErrorVariant "SourceChainNotEnabled" 100;
        mkErrorVariant "InvalidSourceChainConfig" 101;
        mkErrorVariant "InvalidOnRampAddress" 102; mkErrorVariant "InvalidOffRampAddress" 103;
        mkErrorVariant "InvalidMessageDestination" 104;
        mkErrorVariant "MessageAlreadyExecuted" 105; mkErrorVariant "InvalidExecutionState" 106;
        mkErrorVariant "CCVLengthMismatch" 107; mkErrorVariant "CCVQuorumNotMet" 108;
        mkErrorVariant "ReceiverError" 109; mkErrorVariant "GasLimitOverrideTooLow" 110;
        mkErrorVariant "InvalidReceiverLength" 111; mkErrorVariant "TokenHandlingError" 112;
        mkErrorVariant "MessageDecodingError" 113; mkErrorVariant "ReceiverDoesNotExist" 114;
        mkErrorVariant "ReceiverNotWasmContract" 115; mkErrorVariant "RequiredCCVMissing" 116;
        mkErrorVariant "InvalidOptionalThreshold" 117;
        mkErrorVariant "OptionalCCVQuorumNotReached" 118;
        mkErrorVariant "NoStateProgressMade" 119;
        mkErrorVariant "OnlyRegistryModuleOrOwner" 201; mkErrorVariant "OnlyAdministrator" 202;
        mkErrorVariant "OnlyPendingAdministrator" 203;
        mkErrorVariant "TokenAlreadyRegistered" 204; mkErrorVariant "InvalidTokenPoolToken" 205;
        mkErrorVariant "PoolTokenMismatch" 301; mkErrorVariant "ChainNotSupported" 302;
        mkErrorVariant "CallerIsNotRamp" 303; mkErrorVariant "InsufficientPoolLiquidity" 304;
        mkErrorVariant "InvalidRemotePoolAddress" 305;
        mkErrorVariant "InvalidRemoteChainConfig" 306;
        mkErrorVariant "InvalidRemoteChainDecimals" 307;
        mkErrorVariant "DecimalAmountOverflow" 308;
        mkErrorVariant "InvalidPoolTokenDecimals" 309; mkErrorVariant "BucketOverfilled" 310;
        mkErrorVariant "TokenMaxCapacityExceeded" 311;
        mkErrorVariant "TokenRateLimitReached" 312; mkErrorVariant "InvalidRateLimitRate" 313;
        mkErrorVariant "DisabledNonZeroRateLimit" 314;
        mkErrorVariant "InvalidRequestedFinality" 315;
        mkErrorVariant "RequestedFinalityCanOnlyHaveOneMode" 316;
        mkErrorVariant "InvalidChainForClient" 317; mkErrorVariant "RouterNotConfigured" 318;
        mkErrorVariant "InvalidSourcePoolAddress" 319;
        mkErrorVariant "DuplicateCCVNotAllowed" 320;
        mkErrorVariant "InvalidTokenTransferFeeConfig" 321;
        mkErrorVariant "InvalidTransferFeeBps" 322;
        mkErrorVariant "InvalidAllowListRequest" 323;
        mkErrorVariant "InvalidFeeCalculation" 801;
        mkErrorVariant "InvalidFeeTokenConversion" 802;
        mkErrorVariant "ZeroFeeAggregatorNotAllowed" 803; mkErrorVariant "ExceedsMaxCCVs" 804;
        mkErrorVariant "CCVNotAllowed" 805; mkErrorVariant "PolicyEngineDetachReverted" 806;
        mkErrorVariant "UnsupportedSelector" 807; mkErrorVariant "ZeroAddressNotAllowed" 808]]
    [mkGenEvent "RoleGrantedEvent" ["auth_RoleGranted"]
       [mkEventField (mkField "role" "soroban_sdk::Symbol") false;
        mkEventField (mkField "account" "soroban_sdk::Address") false;
        mkEventField (mkField "sender" "soroban_sdk::Address") false];
     mkGenEvent "RoleRevokedEvent" ["auth_RoleRevoked"]
       [mkEventField (mkField "role" "soroban_sdk::Symbol") false;
        mkEventField (mkField "account" "soroban_sdk::Address") false;
        mkEventField (mkField "sender" "soroban_sdk::Address") false];
     mkGenEvent "AuthorizedCallerAddedEvent" ["auth_CallerAdded"]
       [mkEventField (mkField "caller" "soroban_sdk::Address") false];
     mkGenEvent "AuthorizedCallerRemovedEvent" ["auth_CallerRemoved"]
       [mkEventField (mkField "caller" "soroban_sdk::Address") false];
     mkGenEvent "OwnershipTransferStartedEvent" ["auth_OwnerTransferStart"]
       [mkEventField (mkField "previous_owner" "soroban_sdk::Address") false;
        mkEventField (mkField "new_owner" "soroban_sdk::Address") false]]
    [mkEnum "MessageExecutionState" [mkEnumVariant "Untouched" EnumVariantUnit 0 true [];
       mkEnumVariant "InProgress" EnumVariantUnit 1 true [];
       mkEnumVariant "Success" EnumVariantUnit 2 true [];
       mkEnumVariant "Failure" EnumVariantUnit 3 true []]].

Definition offramp_events : list Event :=
  [mkGenEvent "ExecutionStateChangedEvent" ["offramp_2_0_ExecStateChanged"]
       [mkEventField (mkField "source_chain_selector" "u64") false;
        mkEventField (mkField "sequence_number" "u64") false;
        mkEventField (mkField "message_id" "soroban_sdk::BytesN<32>") false;
        mkEventField (mkField "state" "MessageExecutionState") false;
        mkEventField (mkField "return_data" "soroban_sdk::Bytes") false];
   mkGenEvent "SourceChainConfigSetEvent" ["offramp_2_0_SrcChainCfgSet"]
       [mkEventField (mkField "source_chain_selector" "u64") false;
        mkEventField (mkField "source_config" "SourceChainConfig") false];
   mkGenEvent "StaticConfigSetEvent" ["offramp_2_0_StaticConfigSet"]
       [mkEventField (mkField "static_config" "StaticConfig") false]].

Definition router_interface : Contract :=
  mkGenContract ""
    [mkStruct "TokenAmount" [mkField "amount" "i128"; mkField "token" "soroban_sdk::Address"];
     mkStruct "AnyToStellarMessage" [mkField "data" "soroban_sdk::Bytes";
       mkField "dest_token_amounts" "soroban_sdk::Vec<TokenAmount>";
       mkField "message_id" "soroban_sdk::BytesN<32>"; mkField "sender" "soroban_sdk::Bytes";
       mkField "source_chain_selector" "u64"];
     mkStruct "StellarToAnyMessage" [mkField "data" "soroban_sdk::Bytes"; mkField "extra_args"
       "soroban_sdk::Bytes";
       mkField "fee_token" "soroban_sdk::Address"; mkField "receiver" "soroban_sdk::Bytes";
       mkField "token_amounts" "soroban_sdk::Vec<TokenAmount>"];
     mkStruct "OnRampEntry" [mkField "dest_chain_selector" "u64"; mkField "onramp" "soroban_sdk::Address"];
     mkStruct "OffRampEntry" [mkField "offramp" "soroban_sdk::Address"; mkField "source_chain_selector" "u64"];
     mkStruct "RouterConfig" [mkField "rmn_proxy" "soroban_sdk::Address"]]
    [mkFunction "owner" [] "Option<soroban_sdk::Address>" false;
     mkFunction "get_fee" [mkField "dest_chain_selector" "u64"; mkField "message" "StellarToAnyMessage"]
       "Result<i128, CCIPError>" false;
     mkFunction "upgrade" [mkField "new_wasm_hash" "soroban_sdk::BytesN<32>"] "Result<(), CCIPError>" false;
     mkFunction "is_owner" [mkField "addr" "soroban_sdk::Address"] "bool" false;
     mkFunction "ccip_send" [mkField "sender" "soroban_sdk::Address"; mkField "dest_chain_selector" "u64";
       mkField "message" "StellarToAnyMessage"] "Result<soroban_sdk::BytesN<32>, CCIPError>" false;
     mkFunction "get_config" [] "Result<RouterConfig, CCIPError>" false;
     mkFunction "get_onramp" [mkField "dest_chain_selector" "u64"] "Result<soroban_sdk::Address, CCIPError>"
       false;
     mkFunction "init_owner" [mkField "owner" "soroban_sdk::Address"] "Result<(), CCIPError>" false;
     mkFunction "initialize" [mkField "owner" "soroban_sdk::Address"; mkField "rmn_proxy"
       "soroban_sdk::Address"] "Result<(), CCIPError>" false;
     mkFunction "is_offramp" [mkField "source_chain_selector" "u64"; mkField "offramp" "soroban_sdk::Address"]
       "Result<bool, CCIPError>" false;
     mkFunction "set_onramp" [mkField "dest_chain_selector" "u64"; mkField "onramp" "soroban_sdk::Address"]
       "Result<(), CCIPError>" false;
     mkFunction "add_offramp" [mkField "source_chain_selector" "u64"; mkField "offramp" "soroban_sdk::Address"]
       "Result<(), CCIPError>" false;
     mkFunction "get_onramps" [] "Result<soroban_sdk::Vec<OnRampEntry>, CCIPError>" false;
     mkFunction "get_offramps" [] "Result<soroban_sdk::Vec<OffRampEntry>, CCIPError>" false;
     mkFunction "remove_onramp" [mkField "dest_chain_selector" "u64"] "Result<(), CCIPError>" false;
     mkFunction "require_owner" [] "Result<soroban_sdk::Address, CCIPError>" false;
     mkFunction "route_message" [mkField "offramp" "soroban_sdk::Address"; mkField "source_chain_selector"
       "u64"; mkField "receiver" "soroban_sdk::Address"; mkField "message" "AnyToStellarMessage"]
         "Result<(), CCIPError>" false;
     mkFunction "remove_offramp" [mkField "source_chain_selector" "u64"; mkField "offramp"
       "soroban_sdk::Address"] "Result<(), CCIPError>" false;
     mkFunction "accept_ownership" [] "Result<(), CCIPError>" false;
     mkFunction "type_and_version" [] "soroban_sdk::String" false;
     mkFunction "get_pending_owner" [] "Option<soroban_sdk::Address>" false;
     mkFunction "apply_ramp_updates"
       [mkField "onramp_updates" "soroban_sdk::Vec<OnRampEntry>"; mkField "offramp_removes"
         "soroban_sdk::Vec<OffRampEntry>"; mkField "offramp_adds" "soroban_sdk::Vec<OffRampEntry>"]
           "Result<(), CCIPError>" false;
     mkFunction "is_chain_supported" [mkField "dest_chain_selector" "u64"] "Result<bool, CCIPError>" false;
     mkFunction "transfer_ownership" [mkField "new_owner" "soroban_sdk::Address"] "Result<(), CCIPError>" false;
     mkFunction "cancel_ownership_transfer" [] "Result<(), CCIPError>" false]
    [mkErrorEnum "CCIPError"
       [mkErrorVariant "NotInitialized" 1; mkErrorVariant "AlreadyInitialized" 2;
        mkErrorVariant "Unauthorized" 3; mkErrorVariant "NotOwner" 4;
        mkErrorVariant "NoPendingOwner" 5; mkErrorVariant "CallerNotAuthorized" 6;
        mkErrorVariant "CallerAlreadyAuthorized" 7; mkErrorVariant "CallerNotFound" 8;
        mkErrorVariant "RoleNotGranted" 9; mkErrorVariant "FeatureNotEnabled" 10;
        mkErrorVariant "RoleAlreadyGranted" 11; mkErrorVariant "CannotRenounceRole" 12;
        mkErrorVariant "InvalidVersionTag" 13; mkErrorVariant "InvalidSignatureLength" 14;
        mkErrorVariant "InvalidSignature" 15; mkErrorVariant "InvalidSignatureCount" 16;
        mkErrorVariant "InvalidSignatureThreshold" 17;
        mkErrorVariant "InvalidSignaturePubkey" 18;
        mkErrorVariant "SourceSignersNotConfigured" 19;
        mkErrorVariant "InvalidVerifierResults" 20; mkErrorVariant "ReentrantCall" 21;
        mkErrorVariant "TokenNotSupported" 22; mkErrorVariant "FeeTokenNotSupported" 23;
        mkErrorVariant "NoGasPriceAvailable" 24; mkErrorVariant "DestinationChainNotEnabled" 25;
        mkErrorVariant "InvalidExtraArgsTag" 26; mkErrorVariant "InvalidExtraArgsData" 27;
        mkErrorVariant "MessageGasLimitTooHigh" 28; mkErrorVariant "MessageTooLarge" 29;
        mkErrorVariant "UnsupportedNumberOfTokens" 30;
        mkErrorVariant "InvalidDestChainConfig" 31; mkErrorVariant "MessageFeeTooHigh" 32;
        mkErrorVariant "InvalidStaticConfig" 33; mkErrorVariant "InvalidTokenReceiver" 34;
        mkErrorVariant "SourceTokenDataTooLarge" 35;
        mkErrorVariant "InvalidDestBytesOverhead" 36;
        mkErrorVariant "DestinationChainNotSupported" 37;
        mkErrorVariant "MustBeCalledByRouter" 38;
        mkErrorVariant "RouterMustSetOriginalSender" 39;
        mkErrorVariant "CannotSendZeroTokens" 40;
        mkErrorVariant "CanOnlySendOneTokenPerMessage" 41; mkErrorVariant "UnsupportedToken" 42;
        mkErrorVariant "InvalidDestChainAddress" 43; mkErrorVariant "FeeExceedsMaxAllowed" 44;
        mkErrorVariant "InsufficientFeeTokenAmount" 45;
        mkErrorVariant "TokenReceiverNotAllowed" 46; mkErrorVariant "CursedByRMN" 47;
        mkErrorVariant "RemoteChainNotSupported" 48; mkErrorVariant "SenderNotAllowed" 49;
        mkErrorVariant "InvalidTokenAmount" 50; mkErrorVariant "InvalidReceiverAddress" 51;
        mkErrorVariant "InvalidConfig" 52; mkErrorVariant "InvalidVerifierResultsLength" 53;
        mkErrorVariant "InboundImplementationNotFound" 54;
        mkErrorVariant "OutboundImplementationNotFound" 55; mkErrorVariant "InvalidAddress" 56;
        mkErrorVariant "InvalidChainSelector" 57; mkErrorVariant "InvalidVersion" 58;
        mkErrorVariant "InvalidCCVVersion" 59; mkErrorVariant "OffRampAlreadyExists" 60;
        mkErrorVariant "OffRampMismatch" 61; mkErrorVariant "BadRMNSignal" 62;
        mkErrorVariant "UnsupportedDestinationChain" 63; mkErrorVariant "AlreadyCursed" 64;
        mkErrorVariant "ConfigNotSet" 65; mkErrorVariant "DuplicateOnchainPublicKey" 66;
        mkErrorVariant "InvalidSignerOrder" 67; mkErrorVariant "NotEnoughSigners" 68;
        mkErrorVariant "NotCursed" 69; mkErrorVariant "OutOfOrderSignatures" 70;
        mkErrorVariant "ThresholdNotMet" 71; mkErrorVariant "UnexpectedSigner" 72;
        mkErrorVariant "ZeroValueNotAllowed" 73; mkErrorVariant "SourceChainNotEnabled" 100;
        mkErrorVariant "InvalidSourceChainConfig" 101;
        mkErrorVariant "InvalidOnRampAddress" 102; mkErrorVariant "InvalidOffRampAddress" 103;
        mkErrorVariant "InvalidMessageDestination" 104;
        mkErrorVariant "MessageAlreadyExecuted" 105; mkErrorVariant "InvalidExecutionState" 106;
        mkErrorVariant "CCVLengthMismatch" 107; mkErrorVariant "CCVQuorumNotMet" 108;
        mkErrorVariant "ReceiverError" 109; mkErrorVariant "GasLimitOverrideTooLow" 110;
        mkErrorVariant "InvalidReceiverLength" 111; mkErrorVariant "TokenHandlingError" 112;
        mkErrorVariant "MessageDecodingError" 113; mkErrorVariant "ReceiverDoesNotExist" 114;
        mkErrorVariant "ReceiverNotWasmContract" 115; mkErrorVariant "RequiredCCVMissing" 116;
        mkErrorVariant "InvalidOptionalThreshold" 117;
        mkErrorVariant "OptionalCCVQuorumNotReached" 118;
        mkErrorVariant "NoStateProgressMade" 119;
        mkErrorVariant "OnlyRegistryModuleOrOwner" 201; mkErrorVariant "OnlyAdministrator" 202;
        mkErrorVariant "OnlyPendingAdministrator" 203;
        mkErrorVariant "TokenAlreadyRegistered" 204; mkErrorVariant "InvalidTokenPoolToken" 205;
        mkErrorVariant "PoolTokenMismatch" 301; mkErrorVariant "ChainNotSupported" 302;
        mkErrorVariant "CallerIsNotRamp" 303; mkErrorVariant "InsufficientPoolLiquidity" 304;
        mkErrorVariant "InvalidRemotePoolAddress" 305;
        mkErrorVariant "InvalidRemoteChainConfig" 306;
        mkErrorVariant "InvalidRemoteChainDecimals" 307;
        mkErrorVariant "DecimalAmountOverflow" 308;
        mkErrorVariant "InvalidPoolTokenDecimals" 309; mkErrorVariant "BucketOverfilled" 310;
        mkErrorVariant "TokenMaxCapacityExceeded" 311;
        mkErrorVariant "TokenRateLimitReached" 312; mkErrorVariant "InvalidRateLimitRate" 313;
        mkErrorVariant "DisabledNonZeroRateLimit" 314;
        mkErrorVariant "InvalidRequestedFinality" 315;
        mkErrorVariant "RequestedFinalityCanOnlyHaveOneMode" 316;
        mkErrorVariant "InvalidChainForClient" 317; mkErrorVariant "RouterNotConfigured" 318;
        mkErrorVariant "InvalidSourcePoolAddress" 319;
        mkErrorVariant "DuplicateCCVNotAllowed" 320;
        mkErrorVariant "InvalidTokenTransferFeeConfig" 321;
        mkErrorVariant "InvalidTransferFeeBps" 322;
        mkErrorVariant "InvalidAllowListRequest" 323;
        mkErrorVariant "InvalidFeeCalculation" 801;
        mkErrorVariant "InvalidFeeTokenConversion" 802;
        mkErrorVariant "ZeroFeeAggregatorNotAllowed" 803; mkErrorVariant "ExceedsMaxCCVs" 804;
        mkErrorVariant "CCVNotAllowed" 805; mkErrorVariant "PolicyEngineDetachReverted" 806;
        mkErrorVariant "UnsupportedSelector" 807; mkErrorVariant "ZeroAddressNotAllowed" 808]]
    [mkGenEvent "RoleGrantedEvent" ["auth_RoleGranted"]
       [mkEventField (mkField "role" "soroban_sdk::Symbol") false;
        mkEventField (mkField "account" "soroban_sdk::Address") false;
        mkEventField (mkField "sender" "soroban_sdk::Address") false];
     mkGenEvent "RoleRevokedEvent" ["auth_RoleRevoked"]
       [mkEventField (mkField "role" "soroban_sdk::Symbol") false;
        mkEventField (mkField "account" "soroban_sdk::Address") false;
        mkEventField (mkField "sender" "soroban_sdk::Address") false];
     mkGenEvent "AuthorizedCallerAddedEvent" ["auth_CallerAdded"]
       [mkEventField (mkField "caller" "soroban_sdk::Address") false];
     mkGenEvent "AuthorizedCallerRemovedEvent" ["auth_CallerRemoved"]
       [mkEventField (mkField "caller" "soroban_sdk::Address") false];
     mkGenEvent "OwnershipTransferStartedEvent" ["auth_OwnerTransferStart"]
       [mkEventField (mkField "previous_owner" "soroban_sdk::Address") false;
        mkEventField (mkField "new_owner" "soroban_sdk::Address") false];
     mkGenEvent "OnRampSetEvent" ["router_OnRampSet"]
       [mkEventField (mkField "dest_chain_selector" "u64") false;
        mkEventField (mkField "onramp" "soroban_sdk::Address") false];
     mkGenEvent "OffRampAddedEvent" ["router_OffRampAdded"]
       [mkEventField (mkField "source_chain_selector" "u64") false;
        mkEventField (mkField "offramp" "soroban_sdk::Address") false];
     mkGenEvent "OnRampRemovedEvent" ["router_OnRampRemoved"]
       [mkEventField (mkField "dest_chain_selector" "u64") false;
        mkEventField (mkField "onramp" "soroban_sdk::Address") false];
     mkGenEvent "OffRampRemovedEvent" ["router_OffRampRemoved"]
       [mkEventField (mkField "source_chain_selector" "u64") false;
        mkEventField (mkField "offramp" "soroban_sdk::Address") false];
     mkGenEvent "MessageExecutedEvent" ["router_MessageExecuted"]
       [mkEventField (mkField "message_id" "soroban_sdk::BytesN<32>") false;
        mkEventField (mkField "source_chain_selector" "u64") false;
        mkEventField (mkField "offramp" "soroban_sdk::Address") false];
     mkGenEvent "CCIPSendRequestedEvent" ["router_CCIPSendRequested"]
       [mkEventField (mkField "message_id" "soroban_sdk::BytesN<32>") false;
        mkEventField (mkField "dest_chain_selector" "u64") false;
        mkEventField (mkField "sender" "soroban_sdk::Address") false]]
    [].

Definition ramp_registry_interface : Contract :=
  mkGenContract ""
    [mkStruct "OnRampEntry" [mkField "dest_chain_selector" "u64"; mkField "onramp" "soroban_sdk::Address"];
     mkStruct "OffRampEntry" [mkField "offramp" "soroban_sdk::Address"; mkField "source_chain_selector" "u64"];
     mkStruct "OnRampUpdate" [mkField "dest_chain_selector" "u64"; mkField "onramp"
       "Option<soroban_sdk::Address>"];
     mkStruct "OffRampUpdate" [mkField "enabled" "bool"; mkField "offramp" "soroban_sdk::Address";
       mkField "source_chain_selector" "u64"]]
    [mkFunction "owner" [] "Option<soroban_sdk::Address>" false;
     mkFunction "upgrade" [mkField "new_wasm_hash" "soroban_sdk::BytesN<32>"] "Result<(), CCIPError>" false;
     mkFunction "is_owner" [mkField "addr" "soroban_sdk::Address"] "bool" false;
     mkFunction "get_onramp" [mkField "dest_chain_selector" "u64"] "Result<soroban_sdk::Address, CCIPError>"
       false;
     mkFunction "init_owner" [mkField "owner" "soroban_sdk::Address"] "Result<(), CCIPError>" false;
     mkFunction "initialize" [mkField "owner" "soroban_sdk::Address"] "Result<(), CCIPError>" false;
     mkFunction "is_offramp" [mkField "source_chain_selector" "u64"; mkField "offramp" "soroban_sdk::Address"]
       "Result<bool, CCIPError>" false;
     mkFunction "get_onramps" [] "Result<soroban_sdk::Vec<OnRampEntry>, CCIPError>" false;
     mkFunction "get_offramps" [] "Result<soroban_sdk::Vec<OffRampEntry>, CCIPError>" false;
     mkFunction "require_owner" [] "Result<soroban_sdk::Address, CCIPError>" false;
     mkFunction "accept_ownership" [] "Result<(), CCIPError>" false;
     mkFunction "type_and_version" [] "soroban_sdk::String" false;
     mkFunction "get_pending_owner" [] "Option<soroban_sdk::Address>" false;
     mkFunction "transfer_ownership" [mkField "new_owner" "soroban_sdk::Address"] "Result<(), CCIPError>" false;
     mkFunction "apply_onramp_updates" [mkField "updates" "soroban_sdk::Vec<OnRampUpdate>"]
       "Result<(), CCIPError>" false;
     mkFunction "apply_offramp_updates" [mkField "updates" "soroban_sdk::Vec<OffRampUpdate>"]
       "Result<(), CCIPError>" false;
     mkFunction "cancel_ownership_transfer" [] "Result<(), CCIPError>" false]
    []
    [mkGenEvent "RoleGrantedEvent" ["auth_RoleGranted"]
       [mkEventField (mkField "role" "soroban_sdk::Symbol") false;
        mkEventField (mkField "account" "soroban_sdk::Address") false;
        mkEventField (mkField "sender" "soroban_sdk::Address") false];
     mkGenEvent "RoleRevokedEvent" ["auth_RoleRevoked"]
       [mkEventField (mkField "role" "soroban_sdk::Symbol") false;
        mkEventField (mkField "account" "soroban_sdk::Address") false;
        mkEventField (mkField "sender" "soroban_sdk::Address") false];
     mkGenEvent "AuthorizedCallerAddedEvent" ["auth_CallerAdded"]
       [mkEventField (mkField "caller" "soroban_sdk::Address") false];
     mkGenEvent "AuthorizedCallerRemovedEvent" ["auth_CallerRemoved"]
       [mkEventField (mkField "caller" "soroban_sdk::Address") false];
     mkGenEvent "OwnershipTransferStartedEvent" ["auth_OwnerTransferStart"]
       [mkEventField (mkField "previous_owner" "soroban_sdk::Address") false;
        mkEventField (mkField "new_owner" "soroban_sdk::Address") false]]
    [].

Definition ccip_receiver_interface : Contract :=
  mkGenContract ""
    [mkStruct "CcvChainConfig" [mkField "optional_ccvs" "soroban_sdk::Vec<soroban_sdk::Address>";
       mkField "optional_threshold" "u32";
       mkField "required_ccvs" "soroban_sdk::Vec<soroban_sdk::Address>"];
     mkStruct "CcvConfigUpdate" [mkField "optional_ccvs" "soroban_sdk::Vec<soroban_sdk::Address>";
       mkField "optional_threshold" "u32";
       mkField "required_ccvs" "soroban_sdk::Vec<soroban_sdk::Address>";
       mkField "source_chain_selector" "u64"];
     mkStruct "RemoteChainConfig" [mkField "allowed_finality_config" "u32"; mkField "extra_args"
       "soroban_sdk::Bytes"];
     mkStruct "CcvsAndFinalityConfig" [mkField "allowed_finality_config" "u32";
       mkField "optional_ccvs" "soroban_sdk::Vec<soroban_sdk::Address>";
       mkField "optional_threshold" "u32";
       mkField "required_ccvs" "soroban_sdk::Vec<soroban_sdk::Address>"];
     mkStruct "TokenAmount" [mkField "amount" "i128"; mkField "token" "soroban_sdk::Address"];
     mkStruct "AnyToStellarMessage" [mkField "data" "soroban_sdk::Bytes";
       mkField "dest_token_amounts" "soroban_sdk::Vec<TokenAmount>";
       mkField "message_id" "soroban_sdk::BytesN<32>"; mkField "sender" "soroban_sdk::Bytes";
       mkField "source_chain_selector" "u64"]]
    [mkFunction "owner" [] "Option<soroban_sdk::Address>" false;
     mkFunction "upgrade" [mkField "new_wasm_hash" "soroban_sdk::BytesN<32>"] "Result<(), CCIPError>" false;
     mkFunction "is_owner" [mkField "addr" "soroban_sdk::Address"] "bool" false;
     mkFunction "get_router" [] "Result<soroban_sdk::Address, CCIPError>" false;
     mkFunction "init_owner" [mkField "owner" "soroban_sdk::Address"] "Result<(), CCIPError>" false;
     mkFunction "initialize" [mkField "owner" "soroban_sdk::Address"; mkField "router" "soroban_sdk::Address"]
       "Result<(), CCIPError>" false;
     mkFunction "ccip_receive" [mkField "message" "AnyToStellarMessage"] "Result<(), CCIPError>" false;
     mkFunction "require_owner" [] "Result<soroban_sdk::Address, CCIPError>" false;
     mkFunction "get_ccv_config" [mkField "source_chain_selector" "u64"] "Result<CcvChainConfig, CCIPError>"
       false;
     mkFunction "last_message_id" [] "Result<soroban_sdk::BytesN<32>, CCIPError>" false;
     mkFunction "accept_ownership" [] "Result<(), CCIPError>" false;
     mkFunction "type_and_version" [] "soroban_sdk::String" false;
     mkFunction "extend_config_ttl" [mkField "remote_chain_selectors" "soroban_sdk::Vec<u64>"; mkField
       "ccv_source_chain_selectors" "soroban_sdk::Vec<u64>"; mkField "threshold_ledgers" "u32"; mkField
         "extend_to_ledgers" "u32"] "Result<(), CCIPError>" false;
     mkFunction "get_pending_owner" [] "Option<soroban_sdk::Address>" false;
     mkFunction "transfer_ownership" [mkField "new_owner" "soroban_sdk::Address"] "Result<(), CCIPError>" false;
     mkFunction "enable_remote_chain"
       [mkField "caller" "soroban_sdk::Address"; mkField "dest_chain_selector" "u64"; mkField "extra_args"
         "soroban_sdk::Bytes"; mkField "allowed_finality_config" "u32"] "Result<(), CCIPError>" false;
     mkFunction "disable_remote_chain"
       [mkField "caller" "soroban_sdk::Address"; mkField "dest_chain_selector" "u64"] "Result<(), CCIPError>"
         false;
     mkFunction "get_remote_chain_config" [mkField "chain_selector" "u64"]
       "Result<RemoteChainConfig, CCIPError>" false;
     mkFunction "send_data_pay_fee_token"
       [mkField "caller" "soroban_sdk::Address"; mkField "dest_chain_selector" "u64"; mkField "receiver"
         "soroban_sdk::Bytes"; mkField "data" "soroban_sdk::Bytes"; mkField "fee_token" "soroban_sdk::Address"]
           "Result<soroban_sdk::BytesN<32>, CCIPError>" false;
     mkFunction "apply_ccv_config_updates"
       [mkField "caller" "soroban_sdk::Address"; mkField "updates" "soroban_sdk::Vec<CcvConfigUpdate>"]
         "Result<(), CCIPError>" false;
     mkFunction "cancel_ownership_transfer" [] "Result<(), CCIPError>" false;
     mkFunction "get_remote_chain_selectors" [] "Result<soroban_sdk::Vec<u64>, CCIPError>" false;
     mkFunction "get_remote_chain_extra_args" [mkField "dest_chain_selector" "u64"]
       "Result<soroban_sdk::Bytes, CCIPError>" false;
     mkFunction "get_ccvs_and_finality_config"
       [mkField "source_chain_selector" "u64"; mkField "sender" "soroban_sdk::Bytes"]
         "Result<CcvsAndFinalityConfig, CCIPError>" false]
    [mkErrorEnum "CCIPError"
       [mkErrorVariant "NotInitialized" 1; mkErrorVariant "AlreadyInitialized" 2;
        mkErrorVariant "Unauthorized" 3; mkErrorVariant "NotOwner" 4;
        mkErrorVariant "NoPendingOwner" 5; mkErrorVariant "CallerNotAuthorized" 6;
        mkErrorVariant "CallerAlreadyAuthorized" 7; mkErrorVariant "CallerNotFound" 8;
        mkErrorVariant "RoleNotGranted" 9; mkErrorVariant "FeatureNotEnabled" 10;
        mkErrorVariant "RoleAlreadyGranted" 11; mkErrorVariant "CannotRenounceRole" 12;
        mkErrorVariant "InvalidVersionTag" 13; mkErrorVariant "InvalidSignatureLength" 14;
        mkErrorVariant "InvalidSignature" 15; mkErrorVariant "InvalidSignatureCount" 16;
        mkErrorVariant "InvalidSignatureThreshold" 17;
        mkErrorVariant "InvalidSignaturePubkey" 18;
        mkErrorVariant "SourceSignersNotConfigured" 19;
        mkErrorVariant "InvalidVerifierResults" 20; mkErrorVariant "ReentrantCall" 21;
        mkErrorVariant "TokenNotSupported" 22; mkErrorVariant "FeeTokenNotSupported" 23;
        mkErrorVariant "NoGasPriceAvailable" 24; mkErrorVariant "DestinationChainNotEnabled" 25;
        mkErrorVariant "InvalidExtraArgsTag" 26; mkErrorVariant "InvalidExtraArgsData" 27;
        mkErrorVariant "MessageGasLimitTooHigh" 28; mkErrorVariant "MessageTooLarge" 29;
        mkErrorVariant "UnsupportedNumberOfTokens" 30;
        mkErrorVariant "InvalidDestChainConfig" 31; mkErrorVariant "MessageFeeTooHigh" 32;
        mkErrorVariant "InvalidStaticConfig" 33; mkErrorVariant "InvalidTokenReceiver" 34;
        mkErrorVariant "SourceTokenDataTooLarge" 35;
        mkErrorVariant "InvalidDestBytesOverhead" 36;
        mkErrorVariant "DestinationChainNotSupported" 37;
        mkErrorVariant "MustBeCalledByRouter" 38;
        mkErrorVariant "RouterMustSetOriginalSender" 39;
        mkErrorVariant "CannotSendZeroTokens" 40;
        mkErrorVariant "CanOnlySendOneTokenPerMessage" 41; mkErrorVariant "UnsupportedToken" 42;
        mkErrorVariant "InvalidDestChainAddress" 43; mkErrorVariant "FeeExceedsMaxAllowed" 44;
        mkErrorVariant "InsufficientFeeTokenAmount" 45;
        mkErrorVariant "TokenReceiverNotAllowed" 46; mkErrorVariant "CursedByRMN" 47;
        mkErrorVariant "RemoteChainNotSupported" 48; mkErrorVariant "SenderNotAllowed" 49;
        mkErrorVariant "InvalidTokenAmount" 50; mkErrorVariant "InvalidReceiverAddress" 51;
        mkErrorVariant "InvalidConfig" 52; mkErrorVariant "InvalidVerifierResultsLength" 53;
        mkErrorVariant "InboundImplementationNotFound" 54;
        mkErrorVariant "OutboundImplementationNotFound" 55; mkErrorVariant "InvalidAddress" 56;
        mkErrorVariant "InvalidChainSelector" 57; mkErrorVariant "InvalidVersion" 58;
        mkErrorVariant "InvalidCCVVersion" 59; mkErrorVariant "OffRampAlreadyExists" 60;
        mkErrorVariant "OffRampMismatch" 61; mkErrorVariant "BadRMNSignal" 62;
        mkErrorVariant "UnsupportedDestinationChain" 63; mkErrorVariant "AlreadyCursed" 64;
        mkErrorVariant "ConfigNotSet" 65; mkErrorVariant "DuplicateOnchainPublicKey" 66;
        mkErrorVariant "InvalidSignerOrder" 67; mkErrorVariant "NotEnoughSigners" 68;
        mkErrorVariant "NotCursed" 69; mkErrorVariant "OutOfOrderSignatures" 70;
        mkErrorVariant "ThresholdNotMet" 71; mkErrorVariant "UnexpectedSigner" 72;
        mkErrorVariant "ZeroValueNotAllowed" 73; mkErrorVariant "SourceChainNotEnabled" 100;
        mkErrorVariant "InvalidSourceChainConfig" 101;
        mkErrorVariant "InvalidOnRampAddress" 102; mkErrorVariant "InvalidOffRampAddress" 103;
        mkErrorVariant "InvalidMessageDestination" 104;
        mkErrorVariant "MessageAlreadyExecuted" 105; mkErrorVariant "InvalidExecutionState" 106;
        mkErrorVariant "CCVLengthMismatch" 107; mkErrorVariant "CCVQuorumNotMet" 108;
        mkErrorVariant "ReceiverError" 109; mkErrorVariant "GasLimitOverrideTooLow" 110;
        mkErrorVariant "InvalidReceiverLength" 111; mkErrorVariant "TokenHandlingError" 112;
        mkErrorVariant "MessageDecodingError" 113; mkErrorVariant "ReceiverDoesNotExist" 114;
        mkErrorVariant "ReceiverNotWasmContract" 115; mkErrorVariant "RequiredCCVMissing" 116;
        mkErrorVariant "InvalidOptionalThreshold" 117;
        mkErrorVariant "OptionalCCVQuorumNotReached" 118;
        mkErrorVariant "NoStateProgressMade" 119;
        mkErrorVariant "OnlyRegistryModuleOrOwner" 201; mkErrorVariant "OnlyAdministrator" 202;
        mkErrorVariant "OnlyPendingAdministrator" 203;
        mkErrorVariant "TokenAlreadyRegistered" 204; mkErrorVariant "InvalidTokenPoolToken" 205;
        mkErrorVariant "PoolTokenMismatch" 301; mkErrorVariant "ChainNotSupported" 302;
        mkErrorVariant "CallerIsNotRamp" 303; mkErrorVariant "InsufficientPoolLiquidity" 304;
        mkErrorVariant "InvalidRemotePoolAddress" 305;
        mkErrorVariant "InvalidRemoteChainConfig" 306;
        mkErrorVariant "InvalidRemoteChainDecimals" 307;
        mkErrorVariant "DecimalAmountOverflow" 308;
        mkErrorVariant "InvalidPoolTokenDecimals" 309; mkErrorVariant "BucketOverfilled" 310;
        mkErrorVariant "TokenMaxCapacityExceeded" 311;
        mkErrorVariant "TokenRateLimitReached" 312; mkErrorVariant "InvalidRateLimitRate" 313;
        mkErrorVariant "DisabledNonZeroRateLimit" 314;
        mkErrorVariant "InvalidRequestedFinality" 315;
        mkErrorVariant "RequestedFinalityCanOnlyHaveOneMode" 316;
        mkErrorVariant "InvalidChainForClient" 317; mkErrorVariant "RouterNotConfigured" 318;
        mkErrorVariant "InvalidSourcePoolAddress" 319;
        mkErrorVariant "DuplicateCCVNotAllowed" 320;
        mkErrorVariant "InvalidTokenTransferFeeConfig" 321;
        mkErrorVariant "InvalidTransferFeeBps" 322;
        mkErrorVariant "InvalidAllowListRequest" 323;
        mkErrorVariant "InvalidFeeCalculation" 801;
        mkErrorVariant "InvalidFeeTokenConversion" 802;
        mkErrorVariant "ZeroFeeAggregatorNotAllowed" 803; mkErrorVariant "ExceedsMaxCCVs" 804;
        mkErrorVariant "CCVNotAllowed" 805; mkErrorVariant "PolicyEngineDetachReverted" 806;
        mkErrorVariant "UnsupportedSelector" 807; mkErrorVariant "ZeroAddressNotAllowed" 808]]
    [mkGenEvent "CcipCcvConfigSetEvent" ["example_CcvCfg"]
       [mkEventField (mkField "source_chain_selector" "u64") false;
        mkEventField (mkField "required_len" "u32") false;
        mkEventField (mkField "optional_len" "u32") false;
        mkEventField (mkField "optional_threshold" "u32") false];
     mkGenEvent "CcipMessageReceivedEvent" ["example_CcipMessageReceived"]
       [mkEventField (mkField "message_id" "soroban_sdk::BytesN<32>") false;
        mkEventField (mkField "source_chain_selector" "u64") false;
        mkEventField (mkField "data_len" "u32") false;
        mkEventField (mkField "sender_len" "u32") false;
        mkEventField (mkField "dest_token_transfers" "u32") false];
     mkGenEvent "CcipRemoteChainConfiguredEvent" ["example_RemChCfg"]
       [mkEventField (mkField "dest_chain_selector" "u64") false;
        mkEventField (mkField "extra_args_len" "u32") false;
        mkEventField (mkField "allowed_finality_config" "u32") false];
     mkGenEvent "RoleGrantedEvent" ["auth_RoleGranted"]
       [mkEventField (mkField "role" "soroban_sdk::Symbol") false;
        mkEventField (mkField "account" "soroban_sdk::Address") false;
        mkEventField (mkField "sender" "soroban_sdk::Address") false];
     mkGenEvent "RoleRevokedEvent" ["auth_RoleRevoked"]
       [mkEventField (mkField "role" "soroban_sdk::Symbol") false;
        mkEventField (mkField "account" "soroban_sdk::Address") false;
        mkEventField (mkField "sender" "soroban_sdk::Address") false];
     mkGenEvent "AuthorizedCallerAddedEvent" ["auth_CallerAdded"]
       [mkEventField (mkField "caller" "soroban_sdk::Address") false];
     mkGenEvent "AuthorizedCallerRemovedEvent" ["auth_CallerRemoved"]
       [mkEventField (mkField "caller" "soroban_sdk::Address") false];
     mkGenEvent "OwnershipTransferStartedEvent" ["auth_OwnerTransferStart"]
       [mkEventField (mkField "previous_owner" "soroban_sdk::Address") false;
        mkEventField (mkField "new_owner" "soroban_sdk::Address") false]]
    [].

Definition token_admin_registry_interface : Contract :=
  mkGenContract ""
    [mkStruct "TokenConfig" [mkField "administrator" "Option<soroban_sdk::Address>";
       mkField "pending_administrator" "Option<soroban_sdk::Address>";
       mkField "token_pool" "Option<soroban_sdk::Address>"]]
    [mkFunction "owner" [] "Option<soroban_sdk::Address>" false;
     mkFunction "upgrade" [mkField "new_wasm_hash" "soroban_sdk::BytesN<32>"] "Result<(), CCIPError>" false;
     mkFunction "get_pool" [mkField "token" "soroban_sdk::Address"]
       "Result<Option<soroban_sdk::Address>, CCIPError>" false;
     mkFunction "is_owner" [mkField "addr" "soroban_sdk::Address"] "bool" false;
     mkFunction "set_pool" [mkField "local_token" "soroban_sdk::Address"; mkField "pool"
       "Option<soroban_sdk::Address>"] "Result<(), CCIPError>" false;
     mkFunction "get_pools" [mkField "tokens" "soroban_sdk::Vec<soroban_sdk::Address>"]
       "Result<soroban_sdk::Vec<Option<soroban_sdk::Address>>, CCIPError>" false;
     mkFunction "init_owner" [mkField "owner" "soroban_sdk::Address"] "Result<(), CCIPError>" false;
     mkFunction "initialize" [mkField "owner" "soroban_sdk::Address"] "Result<(), CCIPError>" false;
     mkFunction "require_owner" [] "Result<soroban_sdk::Address, CCIPError>" false;
     mkFunction "accept_ownership" [] "Result<(), CCIPError>" false;
     mkFunction "get_token_config" [mkField "token" "soroban_sdk::Address"] "Result<TokenConfig, CCIPError>"
       false;
     mkFunction "is_administrator" [mkField "local_token" "soroban_sdk::Address"; mkField "administrator"
       "soroban_sdk::Address"] "Result<bool, CCIPError>" false;
     mkFunction "type_and_version" [] "soroban_sdk::String" false;
     mkFunction "accept_admin_role" [mkField "local_token" "soroban_sdk::Address"] "Result<(), CCIPError>"
       false;
     mkFunction "get_pending_owner" [] "Option<soroban_sdk::Address>" false;
     mkFunction "is_registry_module" [mkField "module" "soroban_sdk::Address"] "Result<bool, CCIPError>" false;
     mkFunction "transfer_ownership" [mkField "new_owner" "soroban_sdk::Address"] "Result<(), CCIPError>" false;
     mkFunction "add_registry_module" [mkField "module" "soroban_sdk::Address"] "Result<(), CCIPError>" false;
     mkFunction "transfer_admin_role"
       [mkField "local_token" "soroban_sdk::Address"; mkField "new_admin" "Option<soroban_sdk::Address>"]
         "Result<(), CCIPError>" false;
     mkFunction "propose_administrator"
       [mkField "caller" "soroban_sdk::Address"; mkField "local_token" "soroban_sdk::Address"; mkField
         "administrator" "soroban_sdk::Address"] "Result<(), CCIPError>" false;
     mkFunction "remove_registry_module" [mkField "module" "soroban_sdk::Address"] "Result<(), CCIPError>"
       false;
     mkFunction "cancel_ownership_transfer" [] "Result<(), CCIPError>" false;
     mkFunction "get_all_configured_tokens" [mkField "start_index" "u32"; mkField "max_count" "u32"]
       "Result<soroban_sdk::Vec<soroban_sdk::Address>, CCIPError>" false]
    [mkErrorEnum "CCIPError"
       [mkErrorVariant "NotInitialized" 1; mkErrorVariant "AlreadyInitialized" 2;
        mkErrorVariant "Unauthorized" 3; mkErrorVariant "NotOwner" 4;
        mkErrorVariant "NoPendingOwner" 5; mkErrorVariant "CallerNotAuthorized" 6;
        mkErrorVariant "CallerAlreadyAuthorized" 7; mkErrorVariant "CallerNotFound" 8;
        mkErrorVariant "RoleNotGranted" 9; mkErrorVariant "FeatureNotEnabled" 10;
        mkErrorVariant "RoleAlreadyGranted" 11; mkErrorVariant "CannotRenounceRole" 12;
        mkErrorVariant "InvalidVersionTag" 13; mkErrorVariant "InvalidSignatureLength" 14;
        mkErrorVariant "InvalidSignature" 15; mkErrorVariant "InvalidSignatureCount" 16;
        mkErrorVariant "InvalidSignatureThreshold" 17;
        mkErrorVariant "InvalidSignaturePubkey" 18;
        mkErrorVariant "SourceSignersNotConfigured" 19;
        mkErrorVariant "InvalidVerifierResults" 20; mkErrorVariant "ReentrantCall" 21;
        mkErrorVariant "TokenNotSupported" 22; mkErrorVariant "FeeTokenNotSupported" 23;
        mkErrorVariant "NoGasPriceAvailable" 24; mkErrorVariant "DestinationChainNotEnabled" 25;
        mkErrorVariant "InvalidExtraArgsTag" 26; mkErrorVariant "InvalidExtraArgsData" 27;
        mkErrorVariant "MessageGasLimitTooHigh" 28; mkErrorVariant "MessageTooLarge" 29;
        mkErrorVariant "UnsupportedNumberOfTokens" 30;
        mkErrorVariant "InvalidDestChainConfig" 31; mkErrorVariant "MessageFeeTooHigh" 32;
        mkErrorVariant "InvalidStaticConfig" 33; mkErrorVariant "InvalidTokenReceiver" 34;
        mkErrorVariant "SourceTokenDataTooLarge" 35;
        mkErrorVariant "InvalidDestBytesOverhead" 36;
        mkErrorVariant "DestinationChainNotSupported" 37;
        mkErrorVariant "MustBeCalledByRouter" 38;
        mkErrorVariant "RouterMustSetOriginalSender" 39;
        mkErrorVariant "CannotSendZeroTokens" 40;
        mkErrorVariant "CanOnlySendOneTokenPerMessage" 41; mkErrorVariant "UnsupportedToken" 42;
        mkErrorVariant "InvalidDestChainAddress" 43; mkErrorVariant "FeeExceedsMaxAllowed" 44;
        mkErrorVariant "InsufficientFeeTokenAmount" 45;
        mkErrorVariant "TokenReceiverNotAllowed" 46; mkErrorVariant "CursedByRMN" 47;
        mkErrorVariant "RemoteChainNotSupported" 48; mkErrorVariant "SenderNotAllowed" 49;
        mkErrorVariant "InvalidTokenAmount" 50; mkErrorVariant "InvalidReceiverAddress" 51;
        mkErrorVariant "InvalidConfig" 52; mkErrorVariant "InvalidVerifierResultsLength" 53;
        mkErrorVariant "InboundImplementationNotFound" 54;
        mkErrorVariant "OutboundImplementationNotFound" 55; mkErrorVariant "InvalidAddress" 56;
        mkErrorVariant "InvalidChainSelector" 57; mkErrorVariant "InvalidVersion" 58;
        mkErrorVariant "InvalidCCVVersion" 59; mkErrorVariant "OffRampAlreadyExists" 60;
        mkErrorVariant "OffRampMismatch" 61; mkErrorVariant "BadRMNSignal" 62;
        mkErrorVariant "UnsupportedDestinationChain" 63; mkErrorVariant "AlreadyCursed" 64;
        mkErrorVariant "ConfigNotSet" 65; mkErrorVariant "DuplicateOnchainPublicKey" 66;
        mkErrorVariant "InvalidSignerOrder" 67; mkErrorVariant "NotEnoughSigners" 68;
        mkErrorVariant "NotCursed" 69; mkErrorVariant "OutOfOrderSignatures" 70;
        mkErrorVariant "ThresholdNotMet" 71; mkErrorVariant "UnexpectedSigner" 72;
        mkErrorVariant "ZeroValueNotAllowed" 73; mkErrorVariant "SourceChainNotEnabled" 100;
        mkErrorVariant "InvalidSourceChainConfig" 101;
        mkErrorVariant "InvalidOnRampAddress" 102; mkErrorVariant "InvalidOffRampAddress" 103;
        mkErrorVariant "InvalidMessageDestination" 104;
        mkErrorVariant "MessageAlreadyExecuted" 105; mkErrorVariant "InvalidExecutionState" 106;
        mkErrorVariant "CCVLengthMismatch" 107; mkErrorVariant "CCVQuorumNotMet" 108;
        mkErrorVariant "ReceiverError" 109; mkErrorVariant "GasLimitOverrideTooLow" 110;
        mkErrorVariant "InvalidReceiverLength" 111; mkErrorVariant "TokenHandlingError" 112;
        mkErrorVariant "MessageDecodingError" 113; mkErrorVariant "ReceiverDoesNotExist" 114;
        mkErrorVariant "ReceiverNotWasmContract" 115; mkErrorVariant "RequiredCCVMissing" 116;
        mkErrorVariant "InvalidOptionalThreshold" 117;
        mkErrorVariant "OptionalCCVQuorumNotReached" 118;
        mkErrorVariant "NoStateProgressMade" 119;
        mkErrorVariant "OnlyRegistryModuleOrOwner" 201; mkErrorVariant "OnlyAdministrator" 202;
        mkErrorVariant "OnlyPendingAdministrator" 203;
        mkErrorVariant "TokenAlreadyRegistered" 204; mkErrorVariant "InvalidTokenPoolToken" 205;
        mkErrorVariant "PoolTokenMismatch" 301; mkErrorVariant "ChainNotSupported" 302;
        mkErrorVariant "CallerIsNotRamp" 303; mkErrorVariant "InsufficientPoolLiquidity" 304;
        mkErrorVariant "InvalidRemotePoolAddress" 305;
        mkErrorVariant "InvalidRemoteChainConfig" 306;
        mkErrorVariant "InvalidRemoteChainDecimals" 307;
        mkErrorVariant "DecimalAmountOverflow" 308;
        mkErrorVariant "InvalidPoolTokenDecimals" 309; mkErrorVariant "BucketOverfilled" 310;
        mkErrorVariant "TokenMaxCapacityExceeded" 311;
        mkErrorVariant "TokenRateLimitReached" 312; mkErrorVariant "InvalidRateLimitRate" 313;
        mkErrorVariant "DisabledNonZeroRateLimit" 314;
        mkErrorVariant "InvalidRequestedFinality" 315;
        mkErrorVariant "RequestedFinalityCanOnlyHaveOneMode" 316;
        mkErrorVariant "InvalidChainForClient" 317; mkErrorVariant "RouterNotConfigured" 318;
        mkErrorVariant "InvalidSourcePoolAddress" 319;
        mkErrorVariant "DuplicateCCVNotAllowed" 320;
        mkErrorVariant "InvalidTokenTransferFeeConfig" 321;
        mkErrorVariant "InvalidTransferFeeBps" 322;
        mkErrorVariant "InvalidAllowListRequest" 323;
        mkErrorVariant "InvalidFeeCalculation" 801;
        mkErrorVariant "InvalidFeeTokenConversion" 802;
        mkErrorVariant "ZeroFeeAggregatorNotAllowed" 803; mkErrorVariant "ExceedsMaxCCVs" 804;
        mkErrorVariant "CCVNotAllowed" 805; mkErrorVariant "PolicyEngineDetachReverted" 806;
        mkErrorVariant "UnsupportedSelector" 807; mkErrorVariant "ZeroAddressNotAllowed" 808]]
    [mkGenEvent "RoleGrantedEvent" ["auth_RoleGranted"]
       [mkEventField (mkField "role" "soroban_sdk::Symbol") false;
        mkEventField (mkField "account" "soroban_sdk::Address") false;
        mkEventField (mkField "sender" "soroban_sdk::Address") false];
     mkGenEvent "RoleRevokedEvent" ["auth_RoleRevoked"]
       [mkEventField (mkField "role" "soroban_sdk::Symbol") false;
        mkEventField (mkField "account" "soroban_sdk::Address") false;
        mkEventField (mkField "sender" "soroban_sdk::Address") false];
     mkGenEvent "AuthorizedCallerAddedEvent" ["auth_CallerAdded"]
       [mkEventField (mkField "caller" "soroban_sdk::Address") false];
     mkGenEvent "AuthorizedCallerRemovedEvent" ["auth_CallerRemoved"]
       [mkEventField (mkField "caller" "soroban_sdk::Address") false];
     mkGenEvent "OwnershipTransferStartedEvent" ["auth_OwnerTransferStart"]
       [mkEventField (mkField "previous_owner" "soroban_sdk::Address") false;
        mkEventField (mkField "new_owner" "soroban_sdk::Address") false];
     mkGenEvent "PoolSetEvent" ["tar_PoolSet"]
       [mkEventField (mkField "token" "soroban_sdk::Address") false;
        mkEventField (mkField "previous_pool" "Option<soroban_sdk::Address>") false;
        mkEventField (mkField "new_pool" "Option<soroban_sdk::Address>") false];
     mkGenEvent "RegistryModuleAddedEvent" ["tar_ModuleAdded"]
       [mkEventField (mkField "module" "soroban_sdk::Address") false];
     mkGenEvent "RegistryModuleRemovedEvent" ["tar_ModuleRemoved"]
       [mkEventField (mkField "module" "soroban_sdk::Address") false];
     mkGenEvent "AdminTransferRequestedEvent" ["tar_AdminTransferReq"]
       [mkEventField (mkField "token" "soroban_sdk::Address") false;
        mkEventField (mkField "current_admin" "Option<soroban_sdk::Address>") false;
        mkEventField (mkField "new_admin" "Option<soroban_sdk::Address>") false];
     mkGenEvent "AdministratorTransferredEvent" ["tar_AdminTransferred"]
       [mkEventField (mkField "token" "soroban_sdk::Address") false;
        mkEventField (mkField "new_admin" "soroban_sdk::Address") false]]
    [].

Definition lock_release_pool_interface : Contract :=
  mkGenContract ""
    [mkStruct "ChainUpdate" [mkField "inbound_rate_limiter_config" "RateLimitConfig";
       mkField "outbound_rate_limiter_config" "RateLimitConfig";
       mkField "remote_chain_selector" "u64";
       mkField "remote_pool_addresses" "soroban_sdk::Vec<soroban_sdk::Bytes>";
       mkField "remote_token_address" "soroban_sdk::Bytes"];
     mkStruct "TokenBucket" [mkField "capacity" "u128"; mkField "is_enabled" "bool"; mkField "last_updated"
       "u64";
       mkField "rate" "u128"; mkField "tokens" "u128"];
     mkStruct "LockOrBurnIn" [mkField "amount" "i128"; mkField "local_token" "soroban_sdk::Address";
       mkField "original_sender" "soroban_sdk::Address";
       mkField "receiver" "soroban_sdk::Bytes"; mkField "remote_chain_selector" "u64"];
     mkStruct "LockOrBurnOut" [mkField "dest_pool_data" "soroban_sdk::Bytes";
       mkField "dest_token_address" "soroban_sdk::Bytes"; mkField "dest_token_amount" "i128"];
     mkStruct "PoolFeeResult" [mkField "dest_bytes_overhead" "u32"; mkField "dest_gas_overhead" "u32";
       mkField "fee_usd_cents" "u32"; mkField "is_enabled" "bool";
       mkField "token_fee_bps" "u32"];
     mkStruct "RateLimitConfig" [mkField "capacity" "u128"; mkField "is_enabled" "bool"; mkField "rate" "u128"];
     mkStruct "ReleaseOrMintIn" [mkField "amount" "i128"; mkField "local_token" "soroban_sdk::Address";
       mkField "original_sender" "soroban_sdk::Bytes";
       mkField "receiver" "soroban_sdk::Address"; mkField "remote_chain_selector" "u64";
       mkField "source_pool_address" "soroban_sdk::Bytes";
       mkField "source_pool_data" "soroban_sdk::Bytes"];
     mkStruct "PoolRequiredCCVs" [mkField "ccvs" "soroban_sdk::Vec<soroban_sdk::Address>";
       mkField "include_defaults" "bool"];
     mkStruct "RateLimiterState" [mkField "inbound" "TokenBucket"; mkField "outbound" "TokenBucket"];
     mkStruct "ReleaseOrMintOut" [mkField "destination_amount" "i128"];
     mkStruct "TokenTransferFeeConfig" [mkField "dest_bytes_overhead" "u32"; mkField "dest_gas_overhead" "u32";
       mkField "fast_finality_fee_usd_cents" "u32";
       mkField "fast_finality_transfer_fee_bps" "u32"; mkField "finality_fee_usd_cents" "u32";
       mkField "finality_transfer_fee_bps" "u32"; mkField "is_enabled" "bool"];
     mkStruct "TokenTransferFeeConfigArgs"
       [mkField "config" "TokenTransferFeeConfig"; mkField "dest_chain_selector" "u64"]]
    [mkFunction "owner" [] "Option<soroban_sdk::Address>" false;
     mkFunction "get_fee" [mkField "dest_chain_selector" "u64"; mkField "amount" "i128"; mkField
       "requested_finality" "u32"; mkField "token_args" "soroban_sdk::Bytes"]
         "Result<PoolFeeResult, CCIPError>" false;
     mkFunction "upgrade" [mkField "new_wasm_hash" "soroban_sdk::BytesN<32>"] "Result<(), CCIPError>" false;
     mkFunction "is_owner" [mkField "addr" "soroban_sdk::Address"] "bool" false;
     mkFunction "get_token" [] "Result<soroban_sdk::Address, CCIPError>" false;
     mkFunction "get_router" [] "Option<soroban_sdk::Address>" false;
     mkFunction "init_owner" [mkField "owner" "soroban_sdk::Address"] "Result<(), CCIPError>" false;
     mkFunction "initialize" [mkField "owner" "soroban_sdk::Address"; mkField "token" "soroban_sdk::Address";
       mkField "token_decimals" "u32"; mkField "router" "soroban_sdk::Address"; mkField "ramp_registry"
         "soroban_sdk::Address"; mkField "rmn_proxy" "soroban_sdk::Address"; mkField "lock_box"
           "soroban_sdk::Address"] "Result<(), CCIPError>" false;
     mkFunction "set_router" [mkField "router" "soroban_sdk::Address"] "Result<(), CCIPError>" false;
     mkFunction "get_lock_box" [] "Result<soroban_sdk::Address, CCIPError>" false;
     mkFunction "lock_or_burn" [mkField "caller" "soroban_sdk::Address"; mkField "input" "LockOrBurnIn";
       mkField "requested_finality" "u32"; mkField "token_args" "soroban_sdk::Bytes"]
         "Result<LockOrBurnOut, CCIPError>" false;
     mkFunction "get_fee_admin" [] "Option<soroban_sdk::Address>" false;
     mkFunction "get_rmn_proxy" [] "Option<soroban_sdk::Address>" false;
     mkFunction "require_owner" [] "Result<soroban_sdk::Address, CCIPError>" false;
     mkFunction "set_fee_admin" [mkField "fee_admin" "soroban_sdk::Address"] "Result<(), CCIPError>" false;
     mkFunction "add_remote_pool" [mkField "remote_chain_selector" "u64"; mkField "remote_pool_address"
       "soroban_sdk::Bytes"] "Result<(), CCIPError>" false;
     mkFunction "release_or_mint" [mkField "caller" "soroban_sdk::Address"; mkField "input" "ReleaseOrMintIn";
       mkField "requested_finality" "u32"] "Result<ReleaseOrMintOut, CCIPError>" false;
     mkFunction "accept_ownership" [] "Result<(), CCIPError>" false;
     mkFunction "get_remote_pools" [mkField "remote_chain_selector" "u64"]
       "Result<soroban_sdk::Vec<soroban_sdk::Bytes>, CCIPError>" false;
     mkFunction "get_remote_token" [mkField "remote_chain_selector" "u64"]
       "Result<soroban_sdk::Bytes, CCIPError>" false;
     mkFunction "type_and_version" [] "soroban_sdk::String" false;
     mkFunction "get_pending_owner" [] "Option<soroban_sdk::Address>" false;
     mkFunction "get_ramp_registry" [] "Option<soroban_sdk::Address>" false;
     mkFunction "get_required_ccvs" [mkField "local_token" "soroban_sdk::Address"; mkField
       "remote_chain_selector" "u64"; mkField "amount" "i128"; mkField "requested_finality" "u32"; mkField
         "extra_data" "soroban_sdk::Bytes"; mkField "direction" "MessageDirection"]
           "Result<PoolRequiredCCVs, CCIPError>" false;
     mkFunction "set_ramp_registry" [mkField "ramp_registry" "soroban_sdk::Address"] "Result<(), CCIPError>"
       false;
     mkFunction "get_token_decimals" [] "Result<u32, CCIPError>" false;
     mkFunction "is_supported_chain" [mkField "remote_chain_selector" "u64"] "Result<bool, CCIPError>" false;
     mkFunction "is_supported_token" [mkField "token" "soroban_sdk::Address"] "Result<bool, CCIPError>" false;
     mkFunction "remove_remote_pool"
       [mkField "remote_chain_selector" "u64"; mkField "remote_pool_address" "soroban_sdk::Bytes"]
         "Result<(), CCIPError>" false;
     mkFunction "transfer_ownership" [mkField "new_owner" "soroban_sdk::Address"] "Result<(), CCIPError>" false;
     mkFunction "apply_chain_updates"
       [mkField "adds" "soroban_sdk::Vec<ChainUpdate>"; mkField "removes" "soroban_sdk::Vec<u64>"]
         "Result<(), CCIPError>" false;
     mkFunction "withdraw_fee_tokens"
       [mkField "caller" "soroban_sdk::Address"; mkField "fee_tokens" "soroban_sdk::Vec<soroban_sdk::Address>";
         mkField "recipient" "soroban_sdk::Address"] "Result<(), CCIPError>" false;
     mkFunction "get_rate_limit_admin" [] "Option<soroban_sdk::Address>" false;
     mkFunction "set_rate_limit_admin" [mkField "admin" "soroban_sdk::Address"] "Result<(), CCIPError>" false;
     mkFunction "set_rate_limit_config"
       [mkField "caller" "soroban_sdk::Address"; mkField "remote_chain_selector" "u64"; mkField
         "outbound_config" "RateLimitConfig"; mkField "inbound_config" "RateLimitConfig"; mkField
           "fast_finality" "bool"] "Result<(), CCIPError>" false;
     mkFunction "get_advanced_pool_hooks" [] "Option<soroban_sdk::Address>" false;
     mkFunction "set_advanced_pool_hooks" [mkField "hooks" "soroban_sdk::Address"] "Result<(), CCIPError>"
       false;
     mkFunction "cancel_ownership_transfer" [] "Result<(), CCIPError>" false;
     mkFunction "remove_advanced_pool_hooks" [] "Result<(), CCIPError>" false;
     mkFunction "get_allowed_finality_config" [] "u32" false;
     mkFunction "set_allowed_finality_config" [mkField "allowed_finality" "u32"] "Result<(), CCIPError>" false;
     mkFunction "get_token_transfer_fee_config" [mkField "dest_chain_selector" "u64"]
       "Result<TokenTransferFeeConfig, CCIPError>" false;
     mkFunction "apply_token_fee_config_updates"
       [mkField "adds" "soroban_sdk::Vec<TokenTransferFeeConfigArgs>"; mkField "disables"
         "soroban_sdk::Vec<u64>"] "Result<(), CCIPError>" false;
     mkFunction "get_current_rate_limiter_state"
       [mkField "remote_chain_selector" "u64"; mkField "fast_finality" "bool"] "RateLimiterState" false]
    [mkErrorEnum "CCIPError"
       [mkErrorVariant "NotInitialized" 1; mkErrorVariant "AlreadyInitialized" 2;
        mkErrorVariant "Unauthorized" 3; mkErrorVariant "NotOwner" 4;
        mkErrorVariant "NoPendingOwner" 5; mkErrorVariant "CallerNotAuthorized" 6;
        mkErrorVariant "CallerAlreadyAuthorized" 7; mkErrorVariant "CallerNotFound" 8;
        mkErrorVariant "RoleNotGranted" 9; mkErrorVariant "FeatureNotEnabled" 10;
        mkErrorVariant "RoleAlreadyGranted" 11; mkErrorVariant "CannotRenounceRole" 12;
        mkErrorVariant "InvalidVersionTag" 13; mkErrorVariant "InvalidSignatureLength" 14;
        mkErrorVariant "InvalidSignature" 15; mkErrorVariant "InvalidSignatureCount" 16;
        mkErrorVariant "InvalidSignatureThreshold" 17;
        mkErrorVariant "InvalidSignaturePubkey" 18;
        mkErrorVariant "SourceSignersNotConfigured" 19;
        mkErrorVariant "InvalidVerifierResults" 20; mkErrorVariant "ReentrantCall" 21;
        mkErrorVariant "TokenNotSupported" 22; mkErrorVariant "FeeTokenNotSupported" 23;
        mkErrorVariant "NoGasPriceAvailable" 24; mkErrorVariant "DestinationChainNotEnabled" 25;
        mkErrorVariant "InvalidExtraArgsTag" 26; mkErrorVariant "InvalidExtraArgsData" 27;
        mkErrorVariant "MessageGasLimitTooHigh" 28; mkErrorVariant "MessageTooLarge" 29;
        mkErrorVariant "UnsupportedNumberOfTokens" 30;
        mkErrorVariant "InvalidDestChainConfig" 31; mkErrorVariant "MessageFeeTooHigh" 32;
        mkErrorVariant "InvalidStaticConfig" 33; mkErrorVariant "InvalidTokenReceiver" 34;
        mkErrorVariant "SourceTokenDataTooLarge" 35;
        mkErrorVariant "InvalidDestBytesOverhead" 36;
        mkErrorVariant "DestinationChainNotSupported" 37;
        mkErrorVariant "MustBeCalledByRouter" 38;
        mkErrorVariant "RouterMustSetOriginalSender" 39;
        mkErrorVariant "CannotSendZeroTokens" 40;
        mkErrorVariant "CanOnlySendOneTokenPerMessage" 41; mkErrorVariant "UnsupportedToken" 42;
        mkErrorVariant "InvalidDestChainAddress" 43; mkErrorVariant "FeeExceedsMaxAllowed" 44;
        mkErrorVariant "InsufficientFeeTokenAmount" 45;
        mkErrorVariant "TokenReceiverNotAllowed" 46; mkErrorVariant "CursedByRMN" 47;
        mkErrorVariant "RemoteChainNotSupported" 48; mkErrorVariant "SenderNotAllowed" 49;
        mkErrorVariant "InvalidTokenAmount" 50; mkErrorVariant "InvalidReceiverAddress" 51;
        mkErrorVariant "InvalidConfig" 52; mkErrorVariant "InvalidVerifierResultsLength" 53;
        mkErrorVariant "InboundImplementationNotFound" 54;
        mkErrorVariant "OutboundImplementationNotFound" 55; mkErrorVariant "InvalidAddress" 56;
        mkErrorVariant "InvalidChainSelector" 57; mkErrorVariant "InvalidVersion" 58;
        mkErrorVariant "InvalidCCVVersion" 59; mkErrorVariant "OffRampAlreadyExists" 60;
        mkErrorVariant "OffRampMismatch" 61; mkErrorVariant "BadRMNSignal" 62;
        mkErrorVariant "UnsupportedDestinationChain" 63; mkErrorVariant "AlreadyCursed" 64;
        mkErrorVariant "ConfigNotSet" 65; mkErrorVariant "DuplicateOnchainPublicKey" 66;
        mkErrorVariant "InvalidSignerOrder" 67; mkErrorVariant "NotEnoughSigners" 68;
        mkErrorVariant "NotCursed" 69; mkErrorVariant "OutOfOrderSignatures" 70;
        mkErrorVariant "ThresholdNotMet" 71; mkErrorVariant "UnexpectedSigner" 72;
        mkErrorVariant "ZeroValueNotAllowed" 73; mkErrorVariant "SourceChainNotEnabled" 100;
        mkErrorVariant "InvalidSourceChainConfig" 101;
        mkErrorVariant "InvalidOnRampAddress" 102; mkErrorVariant "InvalidOffRampAddress" 103;
        mkErrorVariant "InvalidMessageDestination" 104;
        mkErrorVariant "MessageAlreadyExecuted" 105; mkErrorVariant "InvalidExecutionState" 106;
        mkErrorVariant "CCVLengthMismatch" 107; mkErrorVariant "CCVQuorumNotMet" 108;
        mkErrorVariant "ReceiverError" 109; mkErrorVariant "GasLimitOverrideTooLow" 110;
        mkErrorVariant "InvalidReceiverLength" 111; mkErrorVariant "TokenHandlingError" 112;
        mkErrorVariant "MessageDecodingError" 113; mkErrorVariant "ReceiverDoesNotExist" 114;
        mkErrorVariant "ReceiverNotWasmContract" 115; mkErrorVariant "RequiredCCVMissing" 116;
        mkErrorVariant "InvalidOptionalThreshold" 117;
        mkErrorVariant "OptionalCCVQuorumNotReached" 118;
        mkErrorVariant "NoStateProgressMade" 119;
        mkErrorVariant "OnlyRegistryModuleOrOwner" 201; mkErrorVariant "OnlyAdministrator" 202;
        mkErrorVariant "OnlyPendingAdministrator" 203;
        mkErrorVariant "TokenAlreadyRegistered" 204; mkErrorVariant "InvalidTokenPoolToken" 205;
        mkErrorVariant "PoolTokenMismatch" 301; mkErrorVariant "ChainNotSupported" 302;
        mkErrorVariant "CallerIsNotRamp" 303; mkErrorVariant "InsufficientPoolLiquidity" 304;
        mkErrorVariant "InvalidRemotePoolAddress" 305;
        mkErrorVariant "InvalidRemoteChainConfig" 306;
        mkErrorVariant "InvalidRemoteChainDecimals" 307;
        mkErrorVariant "DecimalAmountOverflow" 308;
        mkErrorVariant "InvalidPoolTokenDecimals" 309; mkErrorVariant "BucketOverfilled" 310;
        mkErrorVariant "TokenMaxCapacityExceeded" 311;
        mkErrorVariant "TokenRateLimitReached" 312; mkErrorVariant "InvalidRateLimitRate" 313;
        mkErrorVariant "DisabledNonZeroRateLimit" 314;
        mkErrorVariant "InvalidRequestedFinality" 315;
        mkErrorVariant "RequestedFinalityCanOnlyHaveOneMode" 316;
        mkErrorVariant "InvalidChainForClient" 317; mkErrorVariant "RouterNotConfigured" 318;
        mkErrorVariant "InvalidSourcePoolAddress" 319;
        mkErrorVariant "DuplicateCCVNotAllowed" 320;
        mkErrorVariant "InvalidTokenTransferFeeConfig" 321;
        mkErrorVariant "InvalidTransferFeeBps" 322;
        mkErrorVariant "InvalidAllowListRequest" 323;
        mkErrorVariant "InvalidFeeCalculation" 801;
        mkErrorVariant "InvalidFeeTokenConversion" 802;
        mkErrorVariant "ZeroFeeAggregatorNotAllowed" 803; mkErrorVariant "ExceedsMaxCCVs" 804;
        mkErrorVariant "CCVNotAllowed" 805; mkErrorVariant "PolicyEngineDetachReverted" 806;
        mkErrorVariant "UnsupportedSelector" 807; mkErrorVariant "ZeroAddressNotAllowed" 808]]
    [mkGenEvent "RoleGrantedEvent" ["auth_RoleGranted"]
       [mkEventField (mkField "role" "soroban_sdk::Symbol") false;
        mkEventField (mkField "account" "soroban_sdk::Address") false;
        mkEventField (mkField "sender" "soroban_sdk::Address") false];
     mkGenEvent "RoleRevokedEvent" ["auth_RoleRevoked"]
       [mkEventField (mkField "role" "soroban_sdk::Symbol") false;
        mkEventField (mkField "account" "soroban_sdk::Address") false;
        mkEventField (mkField "sender" "soroban_sdk::Address") false];
     mkGenEvent "AuthorizedCallerAddedEvent" ["auth_CallerAdded"]
       [mkEventField (mkField "caller" "soroban_sdk::Address") false];
     mkGenEvent "AuthorizedCallerRemovedEvent" ["auth_CallerRemoved"]
       [mkEventField (mkField "caller" "soroban_sdk::Address") false];
     mkGenEvent "OwnershipTransferStartedEvent" ["auth_OwnerTransferStart"]
       [mkEventField (mkField "previous_owner" "soroban_sdk::Address") false;
        mkEventField (mkField "new_owner" "soroban_sdk::Address") false];
     mkGenEvent "BurnedEvent" ["pool_Burned"]
       [mkEventField (mkField "sender" "soroban_sdk::Address") false;
        mkEventField (mkField "amount" "i128") false];
     mkGenEvent "LockedEvent" ["pool_Locked"]
       [mkEventField (mkField "sender" "soroban_sdk::Address") false;
        mkEventField (mkField "amount" "i128") false];
     mkGenEvent "MintedEvent" ["pool_Minted"]
       [mkEventField (mkField "sender" "soroban_sdk::Address") false;
        mkEventField (mkField "recipient" "soroban_sdk::Address") false;
        mkEventField (mkField "amount" "i128") false];
     mkGenEvent "ReleasedEvent" ["pool_Released"]
       [mkEventField (mkField "sender" "soroban_sdk::Address") false;
        mkEventField (mkField "recipient" "soroban_sdk::Address") false;
        mkEventField (mkField "amount" "i128") false];
     mkGenEvent "ChainRemovedEvent" ["pool_ChainRemoved"]
       [mkEventField (mkField "remote_chain_selector" "u64") false];
     mkGenEvent "ChainConfiguredEvent" ["pool_ChainConfigured"]
       [mkEventField (mkField "remote_chain_selector" "u64") false;
        mkEventField (mkField "remote_pool_addresses" "soroban_sdk::Vec<soroban_sdk::Bytes>") false;
        mkEventField (mkField "remote_token_address" "soroban_sdk::Bytes") false;
        mkEventField (mkField "outbound_rate_limiter_config" "RateLimitConfig") false;
        mkEventField (mkField "inbound_rate_limiter_config" "RateLimitConfig") false];
     mkGenEvent "RemotePoolAddedEvent" ["pool_RemotePoolAdded"]
       [mkEventField (mkField "remote_chain_selector" "u64") false;
        mkEventField (mkField "remote_pool_address" "soroban_sdk::Bytes") false];
     mkGenEvent "FinalityConfigSetEvent" ["pool_FinalityConfigSet"]
       [mkEventField (mkField "allowed_finality" "u32") false];
     mkGenEvent "LockBoxConfiguredEvent" ["pool_LockBoxConfigured"]
       [mkEventField (mkField "remote_chain_selector" "u64") false;
        mkEventField (mkField "lock_box" "soroban_sdk::Address") false];
     mkGenEvent "RemotePoolRemovedEvent" ["pool_RemotePoolRemoved"]
       [mkEventField (mkField "remote_chain_selector" "u64") false;
        mkEventField (mkField "remote_pool_address" "soroban_sdk::Bytes") false];
     mkGenEvent "FtfInboundConsumedEvent" ["pool_FtfInboundConsumed"]
       [mkEventField (mkField "remote_chain_selector" "u64") false;
        mkEventField (mkField "amount" "i128") false];
     mkGenEvent "TokenFeeCfgDeletedEvent" ["pool_TokenFeeCfgDeleted"]
       [mkEventField (mkField "remote_chain_selector" "u64") false];
     mkGenEvent "TokenFeeCfgUpdatedEvent" ["pool_TokenFeeCfgUpdated"]
       [mkEventField (mkField "remote_chain_selector" "u64") false;
        mkEventField (mkField "config" "TokenTransferFeeConfig") false];
     mkGenEvent "FtfOutboundConsumedEvent" ["pool_FtfOutboundConsumed"]
       [mkEventField (mkField "remote_chain_selector" "u64") false;
        mkEventField (mkField "amount" "i128") false];
     mkGenEvent "RateLimitConfiguredEvent" ["pool_RateLimitConfigured"]
       [mkEventField (mkField "remote_chain_selector" "u64") false;
        mkEventField (mkField "fast_finality" "bool") false;
        mkEventField (mkField "outbound_config" "RateLimitConfig") false;
        mkEventField (mkField "inbound_config" "RateLimitConfig") false];
     mkGenEvent "AdvancedPoolHooksUpdatedEvent" ["pool_HooksUpdated"]
       [mkEventField (mkField "old_hooks" "Option<soroban_sdk::Address>") false;
        mkEventField (mkField "new_hooks" "Option<soroban_sdk::Address>") false];
     mkGenEvent "InboundRateLimitConsumedEvent" ["pool_InboundRateLimitConsumed"]
       [mkEventField (mkField "remote_chain_selector" "u64") false;
        mkEventField (mkField "amount" "i128") false];
     mkGenEvent "OutboundRateLimitConsumedEvent" ["pool_OutboundRateLimitConsumed"]
       [mkEventField (mkField "remote_chain_selector" "u64") false;
        mkEventField (mkField "amount" "i128") false]]
    [mkEnum "MessageDirection" [mkEnumVariant "Outbound" EnumVariantUnit 0 false [];
       mkEnumVariant "Inbound" EnumVariantUnit 1 false []]].

Definition lock_release_pool_events : list Event :=
  [].

Definition burn_mint_pool_interface : Contract :=
  mkGenContract ""
    [mkStruct "ChainUpdate" [mkField "inbound_rate_limiter_config" "RateLimitConfig";
       mkField "outbound_rate_limiter_config" "RateLimitConfig";
       mkField "remote_chain_selector" "u64";
       mkField "remote_pool_addresses" "soroban_sdk::Vec<soroban_sdk::Bytes>";
       mkField "remote_token_address" "soroban_sdk::Bytes"];
     mkStruct "TokenBucket" [mkField "capacity" "u128"; mkField "is_enabled" "bool"; mkField "last_updated"
       "u64";
       mkField "rate" "u128"; mkField "tokens" "u128"];
     mkStruct "LockOrBurnIn" [mkField "amount" "i128"; mkField "local_token" "soroban_sdk::Address";
       mkField "original_sender" "soroban_sdk::Address";
       mkField "receiver" "soroban_sdk::Bytes"; mkField "remote_chain_selector" "u64"];
     mkStruct "LockOrBurnOut" [mkField "dest_pool_data" "soroban_sdk::Bytes";
       mkField "dest_token_address" "soroban_sdk::Bytes"; mkField "dest_token_amount" "i128"];
     mkStruct "PoolFeeResult" [mkField "dest_bytes_overhead" "u32"; mkField "dest_gas_overhead" "u32";
       mkField "fee_usd_cents" "u32"; mkField "is_enabled" "bool";
       mkField "token_fee_bps" "u32"];
     mkStruct "RateLimitConfig" [mkField "capacity" "u128"; mkField "is_enabled" "bool"; mkField "rate" "u128"];
     mkStruct "ReleaseOrMintIn" [mkField "amount" "i128"; mkField "local_token" "soroban_sdk::Address";
       mkField "original_sender" "soroban_sdk::Bytes";
       mkField "receiver" "soroban_sdk::Address"; mkField "remote_chain_selector" "u64";
       mkField "source_pool_address" "soroban_sdk::Bytes";
       mkField "source_pool_data" "soroban_sdk::Bytes"];
     mkStruct "PoolRequiredCCVs" [mkField "ccvs" "soroban_sdk::Vec<soroban_sdk::Address>";
       mkField "include_defaults" "bool"];
     mkStruct "RateLimiterState" [mkField "inbound" "TokenBucket"; mkField "outbound" "TokenBucket"];
     mkStruct "ReleaseOrMintOut" [mkField "destination_amount" "i128"];
     mkStruct "TokenTransferFeeConfig" [mkField "dest_bytes_overhead" "u32"; mkField "dest_gas_overhead" "u32";
       mkField "fast_finality_fee_usd_cents" "u32";
       mkField "fast_finality_transfer_fee_bps" "u32"; mkField "finality_fee_usd_cents" "u32";
       mkField "finality_transfer_fee_bps" "u32"; mkField "is_enabled" "bool"];
     mkStruct "TokenTransferFeeConfigArgs"
       [mkField "config" "TokenTransferFeeConfig"; mkField "dest_chain_selector" "u64"]]
    [mkFunction "owner" [] "Option<soroban_sdk::Address>" false;
     mkFunction "get_fee" [mkField "dest_chain_selector" "u64"; mkField "amount" "i128"; mkField
       "requested_finality" "u32"; mkField "token_args" "soroban_sdk::Bytes"]
         "Result<PoolFeeResult, CCIPError>" false;
     mkFunction "upgrade" [mkField "new_wasm_hash" "soroban_sdk::BytesN<32>"] "Result<(), CCIPError>" false;
     mkFunction "is_owner" [mkField "addr" "soroban_sdk::Address"] "bool" false;
     mkFunction "get_token" [] "Result<soroban_sdk::Address, CCIPError>" false;
     mkFunction "get_router" [] "Option<soroban_sdk::Address>" false;
     mkFunction "init_owner" [mkField "owner" "soroban_sdk::Address"] "Result<(), CCIPError>" false;
     mkFunction "initialize" [mkField "owner" "soroban_sdk::Address"; mkField "token" "soroban_sdk::Address";
       mkField "token_decimals" "u32"; mkField "router" "soroban_sdk::Address"; mkField "ramp_registry"
         "soroban_sdk::Address"; mkField "rmn_proxy" "soroban_sdk::Address"] "Result<(), CCIPError>" false;
     mkFunction "set_router" [mkField "router" "soroban_sdk::Address"] "Result<(), CCIPError>" false;
     mkFunction "lock_or_burn" [mkField "caller" "soroban_sdk::Address"; mkField "input" "LockOrBurnIn";
       mkField "requested_finality" "u32"; mkField "token_args" "soroban_sdk::Bytes"]
         "Result<LockOrBurnOut, CCIPError>" false;
     mkFunction "get_fee_admin" [] "Option<soroban_sdk::Address>" false;
     mkFunction "get_rmn_proxy" [] "Option<soroban_sdk::Address>" false;
     mkFunction "require_owner" [] "Result<soroban_sdk::Address, CCIPError>" false;
     mkFunction "set_fee_admin" [mkField "fee_admin" "soroban_sdk::Address"] "Result<(), CCIPError>" false;
     mkFunction "add_remote_pool" [mkField "remote_chain_selector" "u64"; mkField "remote_pool_address"
       "soroban_sdk::Bytes"] "Result<(), CCIPError>" false;
     mkFunction "release_or_mint" [mkField "caller" "soroban_sdk::Address"; mkField "input" "ReleaseOrMintIn";
       mkField "requested_finality" "u32"] "Result<ReleaseOrMintOut, CCIPError>" false;
     mkFunction "accept_ownership" [] "Result<(), CCIPError>" false;
     mkFunction "get_remote_pools" [mkField "remote_chain_selector" "u64"]
       "Result<soroban_sdk::Vec<soroban_sdk::Bytes>, CCIPError>" false;
     mkFunction "get_remote_token" [mkField "remote_chain_selector" "u64"]
       "Result<soroban_sdk::Bytes, CCIPError>" false;
     mkFunction "type_and_version" [] "soroban_sdk::String" false;
     mkFunction "get_pending_owner" [] "Option<soroban_sdk::Address>" false;
     mkFunction "get_ramp_registry" [] "Option<soroban_sdk::Address>" false;
     mkFunction "get_required_ccvs" [mkField "local_token" "soroban_sdk::Address"; mkField
       "remote_chain_selector" "u64"; mkField "amount" "i128"; mkField "requested_finality" "u32"; mkField
         "extra_data" "soroban_sdk::Bytes"; mkField "direction" "MessageDirection"]
           "Result<PoolRequiredCCVs, CCIPError>" false;
     mkFunction "set_ramp_registry" [mkField "ramp_registry" "soroban_sdk::Address"] "Result<(), CCIPError>"
       false;
     mkFunction "get_token_decimals" [] "Result<u32, CCIPError>" false;
     mkFunction "is_supported_chain" [mkField "remote_chain_selector" "u64"] "Result<bool, CCIPError>" false;
     mkFunction "is_supported_token" [mkField "token" "soroban_sdk::Address"] "Result<bool, CCIPError>" false;
     mkFunction "remove_remote_pool"
       [mkField "remote_chain_selector" "u64"; mkField "remote_pool_address" "soroban_sdk::Bytes"]
         "Result<(), CCIPError>" false;
     mkFunction "transfer_ownership" [mkField "new_owner" "soroban_sdk::Address"] "Result<(), CCIPError>" false;
     mkFunction "apply_chain_updates"
       [mkField "adds" "soroban_sdk::Vec<ChainUpdate>"; mkField "removes" "soroban_sdk::Vec<u64>"]
         "Result<(), CCIPError>" false;
     mkFunction "withdraw_fee_tokens"
       [mkField "caller" "soroban_sdk::Address"; mkField "fee_tokens" "soroban_sdk::Vec<soroban_sdk::Address>";
         mkField "recipient" "soroban_sdk::Address"] "Result<(), CCIPError>" false;
     mkFunction "get_rate_limit_admin" [] "Option<soroban_sdk::Address>" false;
     mkFunction "set_rate_limit_admin" [mkField "admin" "soroban_sdk::Address"] "Result<(), CCIPError>" false;
     mkFunction "set_rate_limit_config"
       [mkField "caller" "soroban_sdk::Address"; mkField "remote_chain_selector" "u64"; mkField
         "outbound_config" "RateLimitConfig"; mkField "inbound_config" "RateLimitConfig"; mkField
           "fast_finality" "bool"] "Result<(), CCIPError>" false;
     mkFunction "get_advanced_pool_hooks" [] "Option<soroban_sdk::Address>" false;
     mkFunction "set_advanced_pool_hooks" [mkField "hooks" "soroban_sdk::Address"] "Result<(), CCIPError>"
       false;
     mkFunction "cancel_ownership_transfer" [] "Result<(), CCIPError>" false;
     mkFunction "remove_advanced_pool_hooks" [] "Result<(), CCIPError>" false;
     mkFunction "get_allowed_finality_config" [] "u32" false;
     mkFunction "set_allowed_finality_config" [mkField "allowed_finality" "u32"] "Result<(), CCIPError>" false;
     mkFunction "get_token_transfer_fee_config" [mkField "dest_chain_selector" "u64"]
       "Result<TokenTransferFeeConfig, CCIPError>" false;
     mkFunction "apply_token_fee_config_updates"
       [mkField "adds" "soroban_sdk::Vec<TokenTransferFeeConfigArgs>"; mkField "disables"
         "soroban_sdk::Vec<u64>"] "Result<(), CCIPError>" false;
     mkFunction "get_current_rate_limiter_state"
       [mkField "remote_chain_selector" "u64"; mkField "fast_finality" "bool"] "RateLimiterState" false]
    [mkErrorEnum "CCIPError"
       [mkErrorVariant "NotInitialized" 1; mkErrorVariant "AlreadyInitialized" 2;
        mkErrorVariant "Unauthorized" 3; mkErrorVariant "NotOwner" 4;
        mkErrorVariant "NoPendingOwner" 5; mkErrorVariant "CallerNotAuthorized" 6;
        mkErrorVariant "CallerAlreadyAuthorized" 7; mkErrorVariant "CallerNotFound" 8;
        mkErrorVariant "RoleNotGranted" 9; mkErrorVariant "FeatureNotEnabled" 10;
        mkErrorVariant "RoleAlreadyGranted" 11; mkErrorVariant "CannotRenounceRole" 12;
        mkErrorVariant "InvalidVersionTag" 13; mkErrorVariant "InvalidSignatureLength" 14;
        mkErrorVariant "InvalidSignature" 15; mkErrorVariant "InvalidSignatureCount" 16;
        mkErrorVariant "InvalidSignatureThreshold" 17;
        mkErrorVariant "InvalidSignaturePubkey" 18;
        mkErrorVariant "SourceSignersNotConfigured" 19;
        mkErrorVariant "InvalidVerifierResults" 20; mkErrorVariant "ReentrantCall" 21;
        mkErrorVariant "TokenNotSupported" 22; mkErrorVariant "FeeTokenNotSupported" 23;
        mkErrorVariant "NoGasPriceAvailable" 24; mkErrorVariant "DestinationChainNotEnabled" 25;
        mkErrorVariant "InvalidExtraArgsTag" 26; mkErrorVariant "InvalidExtraArgsData" 27;
        mkErrorVariant "MessageGasLimitTooHigh" 28; mkErrorVariant "MessageTooLarge" 29;
        mkErrorVariant "UnsupportedNumberOfTokens" 30;
        mkErrorVariant "InvalidDestChainConfig" 31; mkErrorVariant "MessageFeeTooHigh" 32;
        mkErrorVariant "InvalidStaticConfig" 33; mkErrorVariant "InvalidTokenReceiver" 34;
        mkErrorVariant "SourceTokenDataTooLarge" 35;
        mkErrorVariant "InvalidDestBytesOverhead" 36;
        mkErrorVariant "DestinationChainNotSupported" 37;
        mkErrorVariant "MustBeCalledByRouter" 38;
        mkErrorVariant "RouterMustSetOriginalSender" 39;
        mkErrorVariant "CannotSendZeroTokens" 40;
        mkErrorVariant "CanOnlySendOneTokenPerMessage" 41; mkErrorVariant "UnsupportedToken" 42;
        mkErrorVariant "InvalidDestChainAddress" 43; mkErrorVariant "FeeExceedsMaxAllowed" 44;
        mkErrorVariant "InsufficientFeeTokenAmount" 45;
        mkErrorVariant "TokenReceiverNotAllowed" 46; mkErrorVariant "CursedByRMN" 47;
        mkErrorVariant "RemoteChainNotSupported" 48; mkErrorVariant "SenderNotAllowed" 49;
        mkErrorVariant "InvalidTokenAmount" 50; mkErrorVariant "InvalidReceiverAddress" 51;
        mkErrorVariant "InvalidConfig" 52; mkErrorVariant "InvalidVerifierResultsLength" 53;
        mkErrorVariant "InboundImplementationNotFound" 54;
        mkErrorVariant "OutboundImplementationNotFound" 55; mkErrorVariant "InvalidAddress" 56;
        mkErrorVariant "InvalidChainSelector" 57; mkErrorVariant "InvalidVersion" 58;
        mkErrorVariant "InvalidCCVVersion" 59; mkErrorVariant "OffRampAlreadyExists" 60;
        mkErrorVariant "OffRampMismatch" 61; mkErrorVariant "BadRMNSignal" 62;
        mkErrorVariant "UnsupportedDestinationChain" 63; mkErrorVariant "AlreadyCursed" 64;
        mkErrorVariant "ConfigNotSet" 65; mkErrorVariant "DuplicateOnchainPublicKey" 66;
        mkErrorVariant "InvalidSignerOrder" 67; mkErrorVariant "NotEnoughSigners" 68;
        mkErrorVariant "NotCursed" 69; mkErrorVariant "OutOfOrderSignatures" 70;
        mkErrorVariant "ThresholdNotMet" 71; mkErrorVariant "UnexpectedSigner" 72;
        mkErrorVariant "ZeroValueNotAllowed" 73; mkErrorVariant "SourceChainNotEnabled" 100;
        mkErrorVariant "InvalidSourceChainConfig" 101;
        mkErrorVariant "InvalidOnRampAddress" 102; mkErrorVariant "InvalidOffRampAddress" 103;
        mkErrorVariant "InvalidMessageDestination" 104;
        mkErrorVariant "MessageAlreadyExecuted" 105; mkErrorVariant "InvalidExecutionState" 106;
        mkErrorVariant "CCVLengthMismatch" 107; mkErrorVariant "CCVQuorumNotMet" 108;
        mkErrorVariant "ReceiverError" 109; mkErrorVariant "GasLimitOverrideTooLow" 110;
        mkErrorVariant "InvalidReceiverLength" 111; mkErrorVariant "TokenHandlingError" 112;
        mkErrorVariant "MessageDecodingError" 113; mkErrorVariant "ReceiverDoesNotExist" 114;
        mkErrorVariant "ReceiverNotWasmContract" 115; mkErrorVariant "RequiredCCVMissing" 116;
        mkErrorVariant "InvalidOptionalThreshold" 117;
        mkErrorVariant "OptionalCCVQuorumNotReached" 118;
        mkErrorVariant "NoStateProgressMade" 119;
        mkErrorVariant "OnlyRegistryModuleOrOwner" 201; mkErrorVariant "OnlyAdministrator" 202;
        mkErrorVariant "OnlyPendingAdministrator" 203;
        mkErrorVariant "TokenAlreadyRegistered" 204; mkErrorVariant "InvalidTokenPoolToken" 205;
        mkErrorVariant "PoolTokenMismatch" 301; mkErrorVariant "ChainNotSupported" 302;
        mkErrorVariant "CallerIsNotRamp" 303; mkErrorVariant "InsufficientPoolLiquidity" 304;
        mkErrorVariant "InvalidRemotePoolAddress" 305;
        mkErrorVariant "InvalidRemoteChainConfig" 306;
        mkErrorVariant "InvalidRemoteChainDecimals" 307;
        mkErrorVariant "DecimalAmountOverflow" 308;
        mkErrorVariant "InvalidPoolTokenDecimals" 309; mkErrorVariant "BucketOverfilled" 310;
        mkErrorVariant "TokenMaxCapacityExceeded" 311;
        mkErrorVariant "TokenRateLimitReached" 312; mkErrorVariant "InvalidRateLimitRate" 313;
        mkErrorVariant "DisabledNonZeroRateLimit" 314;
        mkErrorVariant "InvalidRequestedFinality" 315;
        mkErrorVariant "RequestedFinalityCanOnlyHaveOneMode" 316;
        mkErrorVariant "InvalidChainForClient" 317; mkErrorVariant "RouterNotConfigured" 318;
        mkErrorVariant "InvalidSourcePoolAddress" 319;
        mkErrorVariant "DuplicateCCVNotAllowed" 320;
        mkErrorVariant "InvalidTokenTransferFeeConfig" 321;
        mkErrorVariant "InvalidTransferFeeBps" 322;
        mkErrorVariant "InvalidAllowListRequest" 323;
        mkErrorVariant "InvalidFeeCalculation" 801;
        mkErrorVariant "InvalidFeeTokenConversion" 802;
        mkErrorVariant "ZeroFeeAggregatorNotAllowed" 803; mkErrorVariant "ExceedsMaxCCVs" 804;
        mkErrorVariant "CCVNotAllowed" 805; mkErrorVariant "PolicyEngineDetachReverted" 806;
        mkErrorVariant "UnsupportedSelector" 807; mkErrorVariant "ZeroAddressNotAllowed" 808]]
    [mkGenEvent "RoleGrantedEvent" ["auth_RoleGranted"]
       [mkEventField (mkField "role" "soroban_sdk::Symbol") false;
        mkEventField (mkField "account" "soroban_sdk::Address") false;
        mkEventField (mkField "sender" "soroban_sdk::Address") false];
     mkGenEvent "RoleRevokedEvent" ["auth_RoleRevoked"]
       [mkEventField (mkField "role" "soroban_sdk::Symbol") false;
        mkEventField (mkField "account" "soroban_sdk::Address") false;
        mkEventField (mkField "sender" "soroban_sdk::Address") false];
     mkGenEvent "AuthorizedCallerAddedEvent" ["auth_CallerAdded"]
       [mkEventField (mkField "caller" "soroban_sdk::Address") false];
     mkGenEvent "AuthorizedCallerRemovedEvent" ["auth_CallerRemoved"]
       [mkEventField (mkField "caller" "soroban_sdk::Address") false];
     mkGenEvent "OwnershipTransferStartedEvent" ["auth_OwnerTransferStart"]
       [mkEventField (mkField "previous_owner" "soroban_sdk::Address") false;
        mkEventField (mkField "new_owner" "soroban_sdk::Address") false];
     mkGenEvent "BurnedEvent" ["pool_Burned"]
       [mkEventField (mkField "sender" "soroban_sdk::Address") false;
        mkEventField (mkField "amount" "i128") false];
     mkGenEvent "LockedEvent" ["pool_Locked"]
       [mkEventField (mkField "sender" "soroban_sdk::Address") false;
        mkEventField (mkField "amount" "i128") false];
     mkGenEvent "MintedEvent" ["pool_Minted"]
       [mkEventField (mkField "sender" "soroban_sdk::Address") false;
        mkEventField (mkField "recipient" "soroban_sdk::Address") false;
        mkEventField (mkField "amount" "i128") false];
     mkGenEvent "ReleasedEvent" ["pool_Released"]
       [mkEventField (mkField "sender" "soroban_sdk::Address") false;
        mkEventField (mkField "recipient" "soroban_sdk::Address") false;
        mkEventField (mkField "amount" "i128") false];
     mkGenEvent "ChainRemovedEvent" ["pool_ChainRemoved"]
       [mkEventField (mkField "remote_chain_selector" "u64") false];
     mkGenEvent "ChainConfiguredEvent" ["pool_ChainConfigured"]
       [mkEventField (mkField "remote_chain_selector" "u64") false;
        mkEventField (mkField "remote_pool_addresses" "soroban_sdk::Vec<soroban_sdk::Bytes>") false;
        mkEventField (mkField "remote_token_address" "soroban_sdk::Bytes") false;
        mkEventField (mkField "outbound_rate_limiter_config" "RateLimitConfig") false;
        mkEventField (mkField "inbound_rate_limiter_config" "RateLimitConfig") false];
     mkGenEvent "RemotePoolAddedEvent" ["pool_RemotePoolAdded"]
       [mkEventField (mkField "remote_chain_selector" "u64") false;
        mkEventField (mkField "remote_pool_address" "soroban_sdk::Bytes") false];
     mkGenEvent "FinalityConfigSetEvent" ["pool_FinalityConfigSet"]
       [mkEventField (mkField "allowed_finality" "u32") false];
     mkGenEvent "LockBoxConfiguredEvent" ["pool_LockBoxConfigured"]
       [mkEventField (mkField "remote_chain_selector" "u64") false;
        mkEventField (mkField "lock_box" "soroban_sdk::Address") false];
     mkGenEvent "RemotePoolRemovedEvent" ["pool_RemotePoolRemoved"]
       [mkEventField (mkField "remote_chain_selector" "u64") false;
        mkEventField (mkField "remote_pool_address" "soroban_sdk::Bytes") false];
     mkGenEvent "FtfInboundConsumedEvent" ["pool_FtfInboundConsumed"]
       [mkEventField (mkField "remote_chain_selector" "u64") false;
        mkEventField (mkField "amount" "i128") false];
     mkGenEvent "TokenFeeCfgDeletedEvent" ["pool_TokenFeeCfgDeleted"]
       [mkEventField (mkField "remote_chain_selector" "u64") false];
     mkGenEvent "TokenFeeCfgUpdatedEvent" ["pool_TokenFeeCfgUpdated"]
       [mkEventField (mkField "remote_chain_selector" "u64") false;
        mkEventField (mkField "config" "TokenTransferFeeConfig") false];
     mkGenEvent "FtfOutboundConsumedEvent" ["pool_FtfOutboundConsumed"]
       [mkEventField (mkField "remote_chain_selector" "u64") false;
        mkEventField (mkField "amount" "i128") false];
     mkGenEvent "RateLimitConfiguredEvent" ["pool_RateLimitConfigured"]
       [mkEventField (mkField "remote_chain_selector" "u64") false;
        mkEventField (mkField "fast_finality" "bool") false;
        mkEventField (mkField "outbound_config" "RateLimitConfig") false;
        mkEventField (mkField "inbound_config" "RateLimitConfig") false];
     mkGenEvent "AdvancedPoolHooksUpdatedEvent" ["pool_HooksUpdated"]
       [mkEventField (mkField "old_hooks" "Option<soroban_sdk::Address>") false;
        mkEventField (mkField "new_hooks" "Option<soroban_sdk::Address>") false];
     mkGenEvent "InboundRateLimitConsumedEvent" ["pool_InboundRateLimitConsumed"]
       [mkEventField (mkField "remote_chain_selector" "u64") false;
        mkEventField (mkField "amount" "i128") false];
     mkGenEvent "OutboundRateLimitConsumedEvent" ["pool_OutboundRateLimitConsumed"]
       [mkEventField (mkField "remote_chain_selector" "u64") false;
        mkEventField (mkField "amount" "i128") false]]
    [mkEnum "MessageDirection" [mkEnumVariant "Outbound" EnumVariantUnit 0 false [];
       mkEnumVariant "Inbound" EnumVariantUnit 1 false []]].

Definition burn_mint_pool_events : list Event :=
  [].

Definition bnm_token_interface : Contract :=
  mkGenContract ""
    []
    [mkFunction "burn" [mkField "from" "soroban_sdk::Address"; mkField "amount" "i128"] "" false;
     mkFunction "drip" [mkField "to" "soroban_sdk::Address"] "" false;
     mkFunction "mint" [mkField "to" "soroban_sdk::Address"; mkField "amount" "i128"] "" false;
     mkFunction "name" [] "soroban_sdk::String" false;
     mkFunction "admin" [] "soroban_sdk::Address" false;
     mkFunction "owner" [] "Option<soroban_sdk::Address>" false;
     mkFunction "trust" [mkField "addr" "soroban_sdk::Address"] "" false;
     mkFunction "symbol" [] "soroban_sdk::String" false;
     mkFunction "approve" [mkField "from" "soroban_sdk::Address"; mkField "spender" "soroban_sdk::Address";
       mkField "amount" "i128"; mkField "expiration_ledger" "u32"] "" false;
     mkFunction "balance" [mkField "id" "soroban_sdk::Address"] "i128" false;
     mkFunction "mint_as" [mkField "caller" "soroban_sdk::Address"; mkField "to" "soroban_sdk::Address";
       mkField "amount" "i128"] "" false;
     mkFunction "clawback" [mkField "from" "soroban_sdk::Address"; mkField "amount" "i128"] "" false;
     mkFunction "decimals" [] "u32" false;
     mkFunction "is_owner" [mkField "addr" "soroban_sdk::Address"] "bool" false;
     mkFunction "transfer" [mkField "from" "soroban_sdk::Address"; mkField "to" "soroban_sdk::MuxedAddress";
       mkField "amount" "i128"] "" false;
     mkFunction "allowance" [mkField "from" "soroban_sdk::Address"; mkField "spender" "soroban_sdk::Address"]
       "i128" false;
     mkFunction "burn_from" [mkField "spender" "soroban_sdk::Address"; mkField "from" "soroban_sdk::Address";
       mkField "amount" "i128"] "" false;
     mkFunction "set_admin" [mkField "new_admin" "soroban_sdk::Address"] "" false;
     mkFunction "add_minter" [mkField "minter" "soroban_sdk::Address"] "Result<(), BnmError>" false;
     mkFunction "authorized" [mkField "id" "soroban_sdk::Address"] "bool" false;
     mkFunction "init_owner" [mkField "owner" "soroban_sdk::Address"] "Result<(), CCIPError>" false;
     mkFunction "initialize" [mkField "admin" "soroban_sdk::Address"; mkField "name" "soroban_sdk::String";
       mkField "symbol" "soroban_sdk::String"; mkField "decimals" "u32"] "Result<(), BnmError>" false;
     mkFunction "get_minters" [] "soroban_sdk::Vec<soroban_sdk::Address>" false;
     mkFunction "remove_minter" [mkField "minter" "soroban_sdk::Address"] "Result<(), BnmError>" false;
     mkFunction "require_owner" [] "Result<soroban_sdk::Address, CCIPError>" false;
     mkFunction "transfer_from" [mkField "spender" "soroban_sdk::Address"; mkField "from"
       "soroban_sdk::Address"; mkField "to" "soroban_sdk::Address"; mkField "amount" "i128"] "" false;
     mkFunction "set_authorized" [mkField "id" "soroban_sdk::Address"; mkField "authorize" "bool"] "" false;
     mkFunction "accept_ownership" [] "Result<(), CCIPError>" false;
     mkFunction "type_and_version" [] "soroban_sdk::String" false;
     mkFunction "get_pending_owner" [] "Option<soroban_sdk::Address>" false;
     mkFunction "transfer_ownership" [mkField "new_owner" "soroban_sdk::Address"] "Result<(), CCIPError>" false;
     mkFunction "cancel_ownership_transfer" [] "Result<(), CCIPError>" false]
    [mkErrorEnum "BnmError"
       [mkErrorVariant "AlreadyInitialized" 1; mkErrorVariant "NotAdmin" 2;
        mkErrorVariant "InsufficientBalance" 3; mkErrorVariant "InsufficientAllowance" 4;
        mkErrorVariant "NegativeAmount" 5; mkErrorVariant "NotInitialized" 6;
        mkErrorVariant "UnsupportedOperation" 7; mkErrorVariant "NotMinter" 8;
        mkErrorVariant "MinterAlreadyExists" 9; mkErrorVariant "MinterNotFound" 10;
        mkErrorVariant "CannotRemovePrimaryMinter" 11];
     mkErrorEnum "CCIPError"
       [mkErrorVariant "NotInitialized" 1; mkErrorVariant "AlreadyInitialized" 2;
        mkErrorVariant "Unauthorized" 3; mkErrorVariant "NotOwner" 4;
        mkErrorVariant "NoPendingOwner" 5; mkErrorVariant "CallerNotAuthorized" 6;
        mkErrorVariant "CallerAlreadyAuthorized" 7; mkErrorVariant "CallerNotFound" 8;
        mkErrorVariant "RoleNotGranted" 9; mkErrorVariant "FeatureNotEnabled" 10;
        mkErrorVariant "RoleAlreadyGranted" 11; mkErrorVariant "CannotRenounceRole" 12;
        mkErrorVariant "InvalidVersionTag" 13; mkErrorVariant "InvalidSignatureLength" 14;
        mkErrorVariant "InvalidSignature" 15; mkErrorVariant "InvalidSignatureCount" 16;
        mkErrorVariant "InvalidSignatureThreshold" 17;
        mkErrorVariant "InvalidSignaturePubkey" 18;
        mkErrorVariant "SourceSignersNotConfigured" 19;
        mkErrorVariant "InvalidVerifierResults" 20; mkErrorVariant "ReentrantCall" 21;
        mkErrorVariant "TokenNotSupported" 22; mkErrorVariant "FeeTokenNotSupported" 23;
        mkErrorVariant "NoGasPriceAvailable" 24; mkErrorVariant "DestinationChainNotEnabled" 25;
        mkErrorVariant "InvalidExtraArgsTag" 26; mkErrorVariant "InvalidExtraArgsData" 27;
        mkErrorVariant "MessageGasLimitTooHigh" 28; mkErrorVariant "MessageTooLarge" 29;
        mkErrorVariant "UnsupportedNumberOfTokens" 30;
        mkErrorVariant "InvalidDestChainConfig" 31; mkErrorVariant "MessageFeeTooHigh" 32;
        mkErrorVariant "InvalidStaticConfig" 33; mkErrorVariant "InvalidTokenReceiver" 34;
        mkErrorVariant "SourceTokenDataTooLarge" 35;
        mkErrorVariant "InvalidDestBytesOverhead" 36;
        mkErrorVariant "DestinationChainNotSupported" 37;
        mkErrorVariant "MustBeCalledByRouter" 38;
        mkErrorVariant "RouterMustSetOriginalSender" 39;
        mkErrorVariant "CannotSendZeroTokens" 40;
        mkErrorVariant "CanOnlySendOneTokenPerMessage" 41; mkErrorVariant "UnsupportedToken" 42;
        mkErrorVariant "InvalidDestChainAddress" 43; mkErrorVariant "FeeExceedsMaxAllowed" 44;
        mkErrorVariant "InsufficientFeeTokenAmount" 45;
        mkErrorVariant "TokenReceiverNotAllowed" 46; mkErrorVariant "CursedByRMN" 47;
        mkErrorVariant "RemoteChainNotSupported" 48; mkErrorVariant "SenderNotAllowed" 49;
        mkErrorVariant "InvalidTokenAmount" 50; mkErrorVariant "InvalidReceiverAddress" 51;
        mkErrorVariant "InvalidConfig" 52; mkErrorVariant "InvalidVerifierResultsLength" 53;
        mkErrorVariant "InboundImplementationNotFound" 54;
        mkErrorVariant "OutboundImplementationNotFound" 55; mkErrorVariant "InvalidAddress" 56;
        mkErrorVariant "InvalidChainSelector" 57; mkErrorVariant "InvalidVersion" 58;
        mkErrorVariant "InvalidCCVVersion" 59; mkErrorVariant "OffRampAlreadyExists" 60;
        mkErrorVariant "OffRampMismatch" 61; mkErrorVariant "BadRMNSignal" 62;
        mkErrorVariant "UnsupportedDestinationChain" 63; mkErrorVariant "AlreadyCursed" 64;
        mkErrorVariant "ConfigNotSet" 65; mkErrorVariant "DuplicateOnchainPublicKey" 66;
        mkErrorVariant "InvalidSignerOrder" 67; mkErrorVariant "NotEnoughSigners" 68;
        mkErrorVariant "NotCursed" 69; mkErrorVariant "OutOfOrderSignatures" 70;
        mkErrorVariant "ThresholdNotMet" 71; mkErrorVariant "UnexpectedSigner" 72;
        mkErrorVariant "ZeroValueNotAllowed" 73; mkErrorVariant "SourceChainNotEnabled" 100;
        mkErrorVariant "InvalidSourceChainConfig" 101;
        mkErrorVariant "InvalidOnRampAddress" 102; mkErrorVariant "InvalidOffRampAddress" 103;
        mkErrorVariant "InvalidMessageDestination" 104;
        mkErrorVariant "MessageAlreadyExecuted" 105; mkErrorVariant "InvalidExecutionState" 106;
        mkErrorVariant "CCVLengthMismatch" 107; mkErrorVariant "CCVQuorumNotMet" 108;
        mkErrorVariant "ReceiverError" 109; mkErrorVariant "GasLimitOverrideTooLow" 110;
        mkErrorVariant "InvalidReceiverLength" 111; mkErrorVariant "TokenHandlingError" 112;
        mkErrorVariant "MessageDecodingError" 113; mkErrorVariant "ReceiverDoesNotExist" 114;
        mkErrorVariant "ReceiverNotWasmContract" 115; mkErrorVariant "RequiredCCVMissing" 116;
        mkErrorVariant "InvalidOptionalThreshold" 117;
        mkErrorVariant "OptionalCCVQuorumNotReached" 118;
        mkErrorVariant "NoStateProgressMade" 119;
        mkErrorVariant "OnlyRegistryModuleOrOwner" 201; mkErrorVariant "OnlyAdministrator" 202;
        mkErrorVariant "OnlyPendingAdministrator" 203;
        mkErrorVariant "TokenAlreadyRegistered" 204; mkErrorVariant "InvalidTokenPoolToken" 205;
        mkErrorVariant "PoolTokenMismatch" 301; mkErrorVariant "ChainNotSupported" 302;
        mkErrorVariant "CallerIsNotRamp" 303; mkErrorVariant "InsufficientPoolLiquidity" 304;
        mkErrorVariant "InvalidRemotePoolAddress" 305;
        mkErrorVariant "InvalidRemoteChainConfig" 306;
        mkErrorVariant "InvalidRemoteChainDecimals" 307;
        mkErrorVariant "DecimalAmountOverflow" 308;
        mkErrorVariant "InvalidPoolTokenDecimals" 309; mkErrorVariant "BucketOverfilled" 310;
        mkErrorVariant "TokenMaxCapacityExceeded" 311;
        mkErrorVariant "TokenRateLimitReached" 312; mkErrorVariant "InvalidRateLimitRate" 313;
        mkErrorVariant "DisabledNonZeroRateLimit" 314;
        mkErrorVariant "InvalidRequestedFinality" 315;
        mkErrorVariant "RequestedFinalityCanOnlyHaveOneMode" 316;
        mkErrorVariant "InvalidChainForClient" 317; mkErrorVariant "RouterNotConfigured" 318;
        mkErrorVariant "InvalidSourcePoolAddress" 319;
        mkErrorVariant "DuplicateCCVNotAllowed" 320;
        mkErrorVariant "InvalidTokenTransferFeeConfig" 321;
        mkErrorVariant "InvalidTransferFeeBps" 322;
        mkErrorVariant "InvalidAllowListRequest" 323;
        mkErrorVariant "InvalidFeeCalculation" 801;
        mkErrorVariant "InvalidFeeTokenConversion" 802;
        mkErrorVariant "ZeroFeeAggregatorNotAllowed" 803; mkErrorVariant "ExceedsMaxCCVs" 804;
        mkErrorVariant "CCVNotAllowed" 805; mkErrorVariant "PolicyEngineDetachReverted" 806;
        mkErrorVariant "UnsupportedSelector" 807; mkErrorVariant "ZeroAddressNotAllowed" 808]]
    [mkGenEvent "BurnEvent" ["burn"]
       [mkEventField (mkField "from" "soroban_sdk::Address") false;
        mkEventField (mkField "amount" "i128") false];
     mkGenEvent "DripEvent" ["drip"]
       [mkEventField (mkField "to" "soroban_sdk::Address") false;
        mkEventField (mkField "amount" "i128") false];
     mkGenEvent "MintEvent" ["mint"]
       [mkEventField (mkField "to" "soroban_sdk::Address") false;
        mkEventField (mkField "amount" "i128") false];
     mkGenEvent "ApproveEvent" ["approve"]
       [mkEventField (mkField "from" "soroban_sdk::Address") false;
        mkEventField (mkField "spender" "soroban_sdk::Address") false;
        mkEventField (mkField "amount" "i128") false;
        mkEventField (mkField "expiration_ledger" "u32") false];
     mkGenEvent "SetAdminEvent" ["set_admin"]
       [mkEventField (mkField "admin" "soroban_sdk::Address") false;
        mkEventField (mkField "new_admin" "soroban_sdk::Address") false];
     mkGenEvent "TransferEvent" ["transfer"]
       [mkEventField (mkField "from" "soroban_sdk::Address") false;
        mkEventField (mkField "to" "soroban_sdk::Address") false;
        mkEventField (mkField "amount" "i128") false];
     mkGenEvent "SetAuthorizedEvent" ["set_authorized"]
       [mkEventField (mkField "id" "soroban_sdk::Address") false;
        mkEventField (mkField "authorize" "bool") false];
     mkGenEvent "Upgraded" ["Upgraded"]
       [mkEventField (mkField "new_wasm_hash" "soroban_sdk::BytesN<32>") false];
     mkGenEvent "RoleGrantedEvent" ["auth_RoleGranted"]
       [mkEventField (mkField "role" "soroban_sdk::Symbol") false;
        mkEventField (mkField "account" "soroban_sdk::Address") false;
        mkEventField (mkField "sender" "soroban_sdk::Address") false];
     mkGenEvent "RoleRevokedEvent" ["auth_RoleRevoked"]
       [mkEventField (mkField "role" "soroban_sdk::Symbol") false;
        mkEventField (mkField "account" "soroban_sdk::Address") false;
        mkEventField (mkField "sender" "soroban_sdk::Address") false];
     mkGenEvent "AuthorizedCallerAddedEvent" ["auth_CallerAdded"]
       [mkEventField (mkField "caller" "soroban_sdk::Address") false];
     mkGenEvent "AuthorizedCallerRemovedEvent" ["auth_CallerRemoved"]
       [mkEventField (mkField "caller" "soroban_sdk::Address") false];
     mkGenEvent "OwnershipTransferStartedEvent" ["auth_OwnerTransferStart"]
       [mkEventField (mkField "previous_owner" "soroban_sdk::Address") false;
        mkEventField (mkField "new_owner" "soroban_sdk::Address") false]]
    [].

Definition link_token_interface : Contract :=
  mkGenContract ""
    []
    [mkFunction "burn" [mkField "from" "soroban_sdk::Address"; mkField "amount" "i128"] "" false;
     mkFunction "mint" [mkField "to" "soroban_sdk::Address"; mkField "amount" "i128"] "" false;
     mkFunction "name" [] "soroban_sdk::String" false;
     mkFunction "admin" [] "soroban_sdk::Address" false;
     mkFunction "owner" [] "Option<soroban_sdk::Address>" false;
     mkFunction "trust" [mkField "addr" "soroban_sdk::Address"] "" false;
     mkFunction "symbol" [] "soroban_sdk::String" false;
     mkFunction "approve" [mkField "from" "soroban_sdk::Address"; mkField "spender" "soroban_sdk::Address";
       mkField "amount" "i128"; mkField "expiration_ledger" "u32"] "" false;
     mkFunction "balance" [mkField "id" "soroban_sdk::Address"] "i128" false;
     mkFunction "mint_as" [mkField "caller" "soroban_sdk::Address"; mkField "to" "soroban_sdk::Address";
       mkField "amount" "i128"] "" false;
     mkFunction "clawback" [mkField "from" "soroban_sdk::Address"; mkField "amount" "i128"] "" false;
     mkFunction "decimals" [] "u32" false;
     mkFunction "is_owner" [mkField "addr" "soroban_sdk::Address"] "bool" false;
     mkFunction "transfer" [mkField "from" "soroban_sdk::Address"; mkField "to" "soroban_sdk::MuxedAddress";
       mkField "amount" "i128"] "" false;
     mkFunction "allowance" [mkField "from" "soroban_sdk::Address"; mkField "spender" "soroban_sdk::Address"]
       "i128" false;
     mkFunction "burn_from" [mkField "spender" "soroban_sdk::Address"; mkField "from" "soroban_sdk::Address";
       mkField "amount" "i128"] "" false;
     mkFunction "set_admin" [mkField "new_admin" "soroban_sdk::Address"] "" false;
     mkFunction "add_minter" [mkField "minter" "soroban_sdk::Address"] "Result<(), LinkError>" false;
     mkFunction "authorized" [mkField "id" "soroban_sdk::Address"] "bool" false;
     mkFunction "init_owner" [mkField "owner" "soroban_sdk::Address"] "Result<(), CCIPError>" false;
     mkFunction "initialize" [mkField "admin" "soroban_sdk::Address"; mkField "name" "soroban_sdk::String";
       mkField "symbol" "soroban_sdk::String"; mkField "decimals" "u32"] "Result<(), LinkError>" false;
     mkFunction "get_minters" [] "soroban_sdk::Vec<soroban_sdk::Address>" false;
     mkFunction "remove_minter" [mkField "minter" "soroban_sdk::Address"] "Result<(), LinkError>" false;
     mkFunction "require_owner" [] "Result<soroban_sdk::Address, CCIPError>" false;
     mkFunction "transfer_from" [mkField "spender" "soroban_sdk::Address"; mkField "from"
       "soroban_sdk::Address"; mkField "to" "soroban_sdk::Address"; mkField "amount" "i128"] "" false;
     mkFunction "set_authorized" [mkField "id" "soroban_sdk::Address"; mkField "authorize" "bool"] "" false;
     mkFunction "accept_ownership" [] "Result<(), CCIPError>" false;
     mkFunction "type_and_version" [] "soroban_sdk::String" false;
     mkFunction "get_pending_owner" [] "Option<soroban_sdk::Address>" false;
     mkFunction "transfer_ownership" [mkField "new_owner" "soroban_sdk::Address"] "Result<(), CCIPError>" false;
     mkFunction "cancel_ownership_transfer" [] "Result<(), CCIPError>" false]
    [mkErrorEnum "CCIPError"
       [mkErrorVariant "NotInitialized" 1; mkErrorVariant "AlreadyInitialized" 2;
        mkErrorVariant "Unauthorized" 3; mkErrorVariant "NotOwner" 4;
        mkErrorVariant "NoPendingOwner" 5; mkErrorVariant "CallerNotAuthorized" 6;
        mkErrorVariant "CallerAlreadyAuthorized" 7; mkErrorVariant "CallerNotFound" 8;
        mkErrorVariant "RoleNotGranted" 9; mkErrorVariant "FeatureNotEnabled" 10;
        mkErrorVariant "RoleAlreadyGranted" 11; mkErrorVariant "CannotRenounceRole" 12;
        mkErrorVariant "InvalidVersionTag" 13; mkErrorVariant "InvalidSignatureLength" 14;
        mkErrorVariant "InvalidSignature" 15; mkErrorVariant "InvalidSignatureCount" 16;
        mkErrorVariant "InvalidSignatureThreshold" 17;
        mkErrorVariant "InvalidSignaturePubkey" 18;
        mkErrorVariant "SourceSignersNotConfigured" 19;
        mkErrorVariant "InvalidVerifierResults" 20; mkErrorVariant "ReentrantCall" 21;
        mkErrorVariant "TokenNotSupported" 22; mkErrorVariant "FeeTokenNotSupported" 23;
        mkErrorVariant "NoGasPriceAvailable" 24; mkErrorVariant "DestinationChainNotEnabled" 25;
        mkErrorVariant "InvalidExtraArgsTag" 26; mkErrorVariant "InvalidExtraArgsData" 27;
        mkErrorVariant "MessageGasLimitTooHigh" 28; mkErrorVariant "MessageTooLarge" 29;
        mkErrorVariant "UnsupportedNumberOfTokens" 30;
        mkErrorVariant "InvalidDestChainConfig" 31; mkErrorVariant "MessageFeeTooHigh" 32;
        mkErrorVariant "InvalidStaticConfig" 33; mkErrorVariant "InvalidTokenReceiver" 34;
        mkErrorVariant "SourceTokenDataTooLarge" 35;
        mkErrorVariant "InvalidDestBytesOverhead" 36;
        mkErrorVariant "DestinationChainNotSupported" 37;
        mkErrorVariant "MustBeCalledByRouter" 38;
        mkErrorVariant "RouterMustSetOriginalSender" 39;
        mkErrorVariant "CannotSendZeroTokens" 40;
        mkErrorVariant "CanOnlySendOneTokenPerMessage" 41; mkErrorVariant "UnsupportedToken" 42;
        mkErrorVariant "InvalidDestChainAddress" 43; mkErrorVariant "FeeExceedsMaxAllowed" 44;
        mkErrorVariant "InsufficientFeeTokenAmount" 45;
        mkErrorVariant "TokenReceiverNotAllowed" 46; mkErrorVariant "CursedByRMN" 47;
        mkErrorVariant "RemoteChainNotSupported" 48; mkErrorVariant "SenderNotAllowed" 49;
        mkErrorVariant "InvalidTokenAmount" 50; mkErrorVariant "InvalidReceiverAddress" 51;
        mkErrorVariant "InvalidConfig" 52; mkErrorVariant "InvalidVerifierResultsLength" 53;
        mkErrorVariant "InboundImplementationNotFound" 54;
        mkErrorVariant "OutboundImplementationNotFound" 55; mkErrorVariant "InvalidAddress" 56;
        mkErrorVariant "InvalidChainSelector" 57; mkErrorVariant "InvalidVersion" 58;
        mkErrorVariant "InvalidCCVVersion" 59; mkErrorVariant "OffRampAlreadyExists" 60;
        mkErrorVariant "OffRampMismatch" 61; mkErrorVariant "BadRMNSignal" 62;
        mkErrorVariant "UnsupportedDestinationChain" 63; mkErrorVariant "AlreadyCursed" 64;
        mkErrorVariant "ConfigNotSet" 65; mkErrorVariant "DuplicateOnchainPublicKey" 66;
        mkErrorVariant "InvalidSignerOrder" 67; mkErrorVariant "NotEnoughSigners" 68;
        mkErrorVariant "NotCursed" 69; mkErrorVariant "OutOfOrderSignatures" 70;
        mkErrorVariant "ThresholdNotMet" 71; mkErrorVariant "UnexpectedSigner" 72;
        mkErrorVariant "ZeroValueNotAllowed" 73; mkErrorVariant "SourceChainNotEnabled" 100;
        mkErrorVariant "InvalidSourceChainConfig" 101;
        mkErrorVariant "InvalidOnRampAddress" 102; mkErrorVariant "InvalidOffRampAddress" 103;
        mkErrorVariant "InvalidMessageDestination" 104;
        mkErrorVariant "MessageAlreadyExecuted" 105; mkErrorVariant "InvalidExecutionState" 106;
        mkErrorVariant "CCVLengthMismatch" 107; mkErrorVariant "CCVQuorumNotMet" 108;
        mkErrorVariant "ReceiverError" 109; mkErrorVariant "GasLimitOverrideTooLow" 110;
        mkErrorVariant "InvalidReceiverLength" 111; mkErrorVariant "TokenHandlingError" 112;
        mkErrorVariant "MessageDecodingError" 113; mkErrorVariant "ReceiverDoesNotExist" 114;
        mkErrorVariant "ReceiverNotWasmContract" 115; mkErrorVariant "RequiredCCVMissing" 116;
        mkErrorVariant "InvalidOptionalThreshold" 117;
        mkErrorVariant "OptionalCCVQuorumNotReached" 118;
        mkErrorVariant "NoStateProgressMade" 119;
        mkErrorVariant "OnlyRegistryModuleOrOwner" 201; mkErrorVariant "OnlyAdministrator" 202;
        mkErrorVariant "OnlyPendingAdministrator" 203;
        mkErrorVariant "TokenAlreadyRegistered" 204; mkErrorVariant "InvalidTokenPoolToken" 205;
        mkErrorVariant "PoolTokenMismatch" 301; mkErrorVariant "ChainNotSupported" 302;
        mkErrorVariant "CallerIsNotRamp" 303; mkErrorVariant "InsufficientPoolLiquidity" 304;
        mkErrorVariant "InvalidRemotePoolAddress" 305;
        mkErrorVariant "InvalidRemoteChainConfig" 306;
        mkErrorVariant "InvalidRemoteChainDecimals" 307;
        mkErrorVariant "DecimalAmountOverflow" 308;
        mkErrorVariant "InvalidPoolTokenDecimals" 309; mkErrorVariant "BucketOverfilled" 310;
        mkErrorVariant "TokenMaxCapacityExceeded" 311;
        mkErrorVariant "TokenRateLimitReached" 312; mkErrorVariant "InvalidRateLimitRate" 313;
        mkErrorVariant "DisabledNonZeroRateLimit" 314;
        mkErrorVariant "InvalidRequestedFinality" 315;
        mkErrorVariant "RequestedFinalityCanOnlyHaveOneMode" 316;
        mkErrorVariant "InvalidChainForClient" 317; mkErrorVariant "RouterNotConfigured" 318;
        mkErrorVariant "InvalidSourcePoolAddress" 319;
        mkErrorVariant "DuplicateCCVNotAllowed" 320;
        mkErrorVariant "InvalidTokenTransferFeeConfig" 321;
        mkErrorVariant "InvalidTransferFeeBps" 322;
        mkErrorVariant "InvalidAllowListRequest" 323;
        mkErrorVariant "InvalidFeeCalculation" 801;
        mkErrorVariant "InvalidFeeTokenConversion" 802;
        mkErrorVariant "ZeroFeeAggregatorNotAllowed" 803; mkErrorVariant "ExceedsMaxCCVs" 804;
        mkErrorVariant "CCVNotAllowed" 805; mkErrorVariant "PolicyEngineDetachReverted" 806;
        mkErrorVariant "UnsupportedSelector" 807; mkErrorVariant "ZeroAddressNotAllowed" 808];
     mkErrorEnum "LinkError"
       [mkErrorVariant "AlreadyInitialized" 1; mkErrorVariant "NotAdmin" 2;
        mkErrorVariant "InsufficientBalance" 3; mkErrorVariant "InsufficientAllowance" 4;
        mkErrorVariant "NegativeAmount" 5; mkErrorVariant "NotInitialized" 6;
        mkErrorVariant "UnsupportedOperation" 7; mkErrorVariant "NotMinter" 8;
        mkErrorVariant "MinterAlreadyExists" 9; mkErrorVariant "MinterNotFound" 10;
        mkErrorVariant "CannotRemovePrimaryMinter" 11]]
    [mkGenEvent "Upgraded" ["Upgraded"]
       [mkEventField (mkField "new_wasm_hash" "soroban_sdk::BytesN<32>") false];
     mkGenEvent "RoleGrantedEvent" ["auth_RoleGranted"]
       [mkEventField (mkField "role" "soroban_sdk::Symbol") false;
        mkEventField (mkField "account" "soroban_sdk::Address") false;
        mkEventField (mkField "sender" "soroban_sdk::Address") false];
     mkGenEvent "RoleRevokedEvent" ["auth_RoleRevoked"]
       [mkEventField (mkField "role" "soroban_sdk::Symbol") false;
        mkEventField (mkField "account" "soroban_sdk::Address") false;
        mkEventField (mkField "sender" "soroban_sdk::Address") false];
     mkGenEvent "AuthorizedCallerAddedEvent" ["auth_CallerAdded"]
       [mkEventField (mkField "caller" "soroban_sdk::Address") false];
     mkGenEvent "AuthorizedCallerRemovedEvent" ["auth_CallerRemoved"]
       [mkEventField (mkField "caller" "soroban_sdk::Address") false];
     mkGenEvent "OwnershipTransferStartedEvent" ["auth_OwnerTransferStart"]
       [mkEventField (mkField "previous_owner" "soroban_sdk::Address") false;
        mkEventField (mkField "new_owner" "soroban_sdk::Address") false];
     mkGenEvent "BurnEvent" ["burn"]
       [mkEventField (mkField "from" "soroban_sdk::Address") false;
        mkEventField (mkField "amount" "i128") false];
     mkGenEvent "MintEvent" ["mint"]
       [mkEventField (mkField "to" "soroban_sdk::Address") false;
        mkEventField (mkField "amount" "i128") false];
     mkGenEvent "ApproveEvent" ["approve"]
       [mkEventField (mkField "from" "soroban_sdk::Address") false;
        mkEventField (mkField "spender" "soroban_sdk::Address") false;
        mkEventField (mkField "amount" "i128") false;
        mkEventField (mkField "expiration_ledger" "u32") false];
     mkGenEvent "SetAdminEvent" ["set_admin"]
       [mkEventField (mkField "admin" "soroban_sdk::Address") false;
        mkEventField (mkField "new_admin" "soroban_sdk::Address") false];
     mkGenEvent "TransferEvent" ["transfer"]
       [mkEventField (mkField "from" "soroban_sdk::Address") false;
        mkEventField (mkField "to" "soroban_sdk::Address") false;
        mkEventField (mkField "amount" "i128") false];
     mkGenEvent "SetAuthorizedEvent" ["set_authorized"]
       [mkEventField (mkField "id" "soroban_sdk::Address") false;
        mkEventField (mkField "authorize" "bool") false]]
    [].

Definition token_pool_interface : Contract :=
  mkGenContract ""
    [mkStruct "PoolRequiredCCVs" [mkField "ccvs" "soroban_sdk::Vec<soroban_sdk::Address>";
       mkField "include_defaults" "bool"];
     mkStruct "PoolFeeResult" [mkField "fee_usd_cents" "u32"; mkField "dest_gas_overhead" "u32";
       mkField "dest_bytes_overhead" "u32"; mkField "token_fee_bps" "u32";
       mkField "is_enabled" "bool"];
     mkStruct "TokenTransferFeeConfig" [mkField "dest_gas_overhead" "u32"; mkField "dest_bytes_overhead" "u32";
       mkField "finality_fee_usd_cents" "u32"; mkField "fast_finality_fee_usd_cents" "u32";
       mkField "finality_transfer_fee_bps" "u32";
       mkField "fast_finality_transfer_fee_bps" "u32"; mkField "is_enabled" "bool"];
     mkStruct "TokenTransferFeeConfigArgs"
       [mkField "dest_chain_selector" "u64"; mkField "config" "TokenTransferFeeConfig"];
     mkStruct "LockOrBurnIn" [mkField "receiver" "soroban_sdk::Bytes"; mkField "remote_chain_selector" "u64";
       mkField "original_sender" "soroban_sdk::Address"; mkField "amount" "i128";
       mkField "local_token" "soroban_sdk::Address"];
     mkStruct "LockOrBurnOut" [mkField "dest_token_address" "soroban_sdk::Bytes"; mkField "dest_token_amount"
       "i128";
       mkField "dest_pool_data" "soroban_sdk::Bytes"];
     mkStruct "ReleaseOrMintIn" [mkField "original_sender" "soroban_sdk::Bytes"; mkField
       "remote_chain_selector" "u64";
       mkField "receiver" "soroban_sdk::Address"; mkField "amount" "i128";
       mkField "local_token" "soroban_sdk::Address";
       mkField "source_pool_address" "soroban_sdk::Bytes";
       mkField "source_pool_data" "soroban_sdk::Bytes"];
     mkStruct "ReleaseOrMintOut" [mkField "destination_amount" "i128"];
     mkStruct "RateLimitConfig" [mkField "is_enabled" "bool"; mkField "capacity" "u128"; mkField "rate" "u128"];
     mkStruct "TokenBucket" [mkField "tokens" "u128"; mkField "last_updated" "u64"; mkField "is_enabled" "bool";
       mkField "capacity" "u128"; mkField "rate" "u128"];
     mkStruct "RateLimiterState" [mkField "outbound" "TokenBucket"; mkField "inbound" "TokenBucket"];
     mkStruct "ChainUpdate" [mkField "remote_chain_selector" "u64";
       mkField "remote_pool_addresses" "soroban_sdk::Vec<soroban_sdk::Bytes>";
       mkField "remote_token_address" "soroban_sdk::Bytes";
       mkField "outbound_rate_limiter_config" "RateLimitConfig";
       mkField "inbound_rate_limiter_config" "RateLimitConfig"]]
    [mkFunction "initialize" [mkField "owner" "soroban_sdk::Address"; mkField "token" "soroban_sdk::Address";
      mkField "token_decimals" "u32"; mkField "router" "soroban_sdk::Address"; mkField "ramp_registry"
        "soroban_sdk::Address"; mkField "rmn_proxy" "soroban_sdk::Address"] "Result<(), CCIPError>" false;
     mkFunction "type_and_version" [] "soroban_sdk::String" false;
     mkFunction "lock_or_burn" [mkField "caller" "soroban_sdk::Address"; mkField "input" "LockOrBurnIn";
       mkField "requested_finality" "u32"; mkField "token_args" "soroban_sdk::Bytes"]
         "Result<LockOrBurnOut, CCIPError>" false;
     mkFunction "release_or_mint" [mkField "caller" "soroban_sdk::Address"; mkField "input" "ReleaseOrMintIn";
       mkField "requested_finality" "u32"] "Result<ReleaseOrMintOut, CCIPError>" false;
     mkFunction "get_fee" [mkField "dest_chain_selector" "u64"; mkField "amount" "i128"; mkField
       "requested_finality" "u32"; mkField "token_args" "soroban_sdk::Bytes"]
         "Result<PoolFeeResult, CCIPError>" false;
     mkFunction "get_token_transfer_fee_config" [mkField "dest_chain_selector" "u64"]
       "Result<TokenTransferFeeConfig, CCIPError>" false;
     mkFunction "apply_token_fee_config_updates"
       [mkField "adds" "soroban_sdk::Vec<TokenTransferFeeConfigArgs>"; mkField "disables"
         "soroban_sdk::Vec<u64>"] "Result<(), CCIPError>" false;
     mkFunction "withdraw_fee_tokens"
       [mkField "caller" "soroban_sdk::Address"; mkField "fee_tokens" "soroban_sdk::Vec<soroban_sdk::Address>";
         mkField "recipient" "soroban_sdk::Address"] "Result<(), CCIPError>" false;
     mkFunction "set_fee_admin" [mkField "fee_admin" "soroban_sdk::Address"] "Result<(), CCIPError>" false;
     mkFunction "get_fee_admin" [] "Option<soroban_sdk::Address>" false;
     mkFunction "is_supported_token" [mkField "token" "soroban_sdk::Address"] "Result<bool, CCIPError>" false;
     mkFunction "is_supported_chain" [mkField "remote_chain_selector" "u64"] "Result<bool, CCIPError>" false;
     mkFunction "get_token" [] "Result<soroban_sdk::Address, CCIPError>" false;
     mkFunction "get_token_decimals" [] "Result<u32, CCIPError>" false;
     mkFunction "add_remote_pool" [mkField "remote_chain_selector" "u64"; mkField "remote_pool_address"
       "soroban_sdk::Bytes"] "Result<(), CCIPError>" false;
     mkFunction "remove_remote_pool"
       [mkField "remote_chain_selector" "u64"; mkField "remote_pool_address" "soroban_sdk::Bytes"]
         "Result<(), CCIPError>" false;
     mkFunction "get_remote_pools" [mkField "remote_chain_selector" "u64"]
       "Result<soroban_sdk::Vec<soroban_sdk::Bytes>, CCIPError>" false;
     mkFunction "get_remote_token" [mkField "remote_chain_selector" "u64"]
       "Result<soroban_sdk::Bytes, CCIPError>" false;
     mkFunction "apply_chain_updates"
       [mkField "adds" "soroban_sdk::Vec<ChainUpdate>"; mkField "removes" "soroban_sdk::Vec<u64>"]
         "Result<(), CCIPError>" false;
     mkFunction "set_rate_limit_config"
       [mkField "caller" "soroban_sdk::Address"; mkField "remote_chain_selector" "u64"; mkField
         "outbound_config" "RateLimitConfig"; mkField "inbound_config" "RateLimitConfig"; mkField
           "fast_finality" "bool"] "Result<(), CCIPError>" false;
     mkFunction "set_rate_limit_admin" [mkField "admin" "soroban_sdk::Address"] "Result<(), CCIPError>" false;
     mkFunction "get_current_rate_limiter_state"
       [mkField "remote_chain_selector" "u64"; mkField "fast_finality" "bool"] "RateLimiterState" false;
     mkFunction "get_rate_limit_admin" [] "Option<soroban_sdk::Address>" false;
     mkFunction "set_allowed_finality_config" [mkField "allowed_finality" "u32"] "Result<(), CCIPError>" false;
     mkFunction "get_allowed_finality_config" [] "u32" false;
     mkFunction "get_advanced_pool_hooks" [] "Option<soroban_sdk::Address>" false;
     mkFunction "set_advanced_pool_hooks" [mkField "hooks" "soroban_sdk::Address"] "Result<(), CCIPError>"
       false;
     mkFunction "remove_advanced_pool_hooks" [] "Result<(), CCIPError>" false;
     mkFunction "get_required_ccvs" [mkField "local_token" "soroban_sdk::Address"; mkField
       "remote_chain_selector" "u64"; mkField "amount" "i128"; mkField "requested_finality" "u32"; mkField
         "extra_data" "soroban_sdk::Bytes"; mkField "direction" "MessageDirection"]
           "Result<PoolRequiredCCVs, CCIPError>" false;
     mkFunction "set_router" [mkField "router" "soroban_sdk::Address"] "Result<(), CCIPError>" false;
     mkFunction "get_router" [] "Option<soroban_sdk::Address>" false;
     mkFunction "set_ramp_registry" [mkField "ramp_registry" "soroban_sdk::Address"] "Result<(), CCIPError>"
       false;
     mkFunction "get_ramp_registry" [] "Option<soroban_sdk::Address>" false;
     mkFunction "get_rmn_proxy" [] "Option<soroban_sdk::Address>" false]
    [mkErrorEnum "CCIPError"
       [mkErrorVariant "NotInitialized" 1; mkErrorVariant "AlreadyInitialized" 2;
        mkErrorVariant "Unauthorized" 3; mkErrorVariant "NotOwner" 4;
        mkErrorVariant "NoPendingOwner" 5; mkErrorVariant "CallerNotAuthorized" 6;
        mkErrorVariant "CallerAlreadyAuthorized" 7; mkErrorVariant "CallerNotFound" 8;
        mkErrorVariant "RoleNotGranted" 9; mkErrorVariant "FeatureNotEnabled" 10;
        mkErrorVariant "RoleAlreadyGranted" 11; mkErrorVariant "CannotRenounceRole" 12;
        mkErrorVariant "InvalidVersionTag" 13; mkErrorVariant "InvalidSignatureLength" 14;
        mkErrorVariant "InvalidSignature" 15; mkErrorVariant "InvalidSignatureCount" 16;
        mkErrorVariant "InvalidSignatureThreshold" 17;
        mkErrorVariant "InvalidSignaturePubkey" 18;
        mkErrorVariant "SourceSignersNotConfigured" 19;
        mkErrorVariant "InvalidVerifierResults" 20; mkErrorVariant "ReentrantCall" 21;
        mkErrorVariant "TokenNotSupported" 22; mkErrorVariant "FeeTokenNotSupported" 23;
        mkErrorVariant "NoGasPriceAvailable" 24; mkErrorVariant "DestinationChainNotEnabled" 25;
        mkErrorVariant "InvalidExtraArgsTag" 26; mkErrorVariant "InvalidExtraArgsData" 27;
        mkErrorVariant "MessageGasLimitTooHigh" 28; mkErrorVariant "MessageTooLarge" 29;
        mkErrorVariant "UnsupportedNumberOfTokens" 30;
        mkErrorVariant "InvalidDestChainConfig" 31; mkErrorVariant "MessageFeeTooHigh" 32;
        mkErrorVariant "InvalidStaticConfig" 33; mkErrorVariant "InvalidTokenReceiver" 34;
        mkErrorVariant "SourceTokenDataTooLarge" 35;
        mkErrorVariant "InvalidDestBytesOverhead" 36;
        mkErrorVariant "DestinationChainNotSupported" 37;
        mkErrorVariant "MustBeCalledByRouter" 38;
        mkErrorVariant "RouterMustSetOriginalSender" 39;
        mkErrorVariant "CannotSendZeroTokens" 40;
        mkErrorVariant "CanOnlySendOneTokenPerMessage" 41; mkErrorVariant "UnsupportedToken" 42;
        mkErrorVariant "InvalidDestChainAddress" 43; mkErrorVariant "FeeExceedsMaxAllowed" 44;
        mkErrorVariant "InsufficientFeeTokenAmount" 45;
        mkErrorVariant "TokenReceiverNotAllowed" 46; mkErrorVariant "CursedByRMN" 47;
        mkErrorVariant "RemoteChainNotSupported" 48; mkErrorVariant "SenderNotAllowed" 49;
        mkErrorVariant "InvalidTokenAmount" 50; mkErrorVariant "InvalidReceiverAddress" 51;
        mkErrorVariant "InvalidConfig" 52; mkErrorVariant "InvalidVerifierResultsLength" 53;
        mkErrorVariant "InboundImplementationNotFound" 54;
        mkErrorVariant "OutboundImplementationNotFound" 55; mkErrorVariant "InvalidAddress" 56;
        mkErrorVariant "InvalidChainSelector" 57; mkErrorVariant "InvalidVersion" 58;
        mkErrorVariant "InvalidCCVVersion" 59; mkErrorVariant "OffRampAlreadyExists" 60;
        mkErrorVariant "OffRampMismatch" 61; mkErrorVariant "BadRMNSignal" 62;
        mkErrorVariant "UnsupportedDestinationChain" 63; mkErrorVariant "AlreadyCursed" 64;
        mkErrorVariant "ConfigNotSet" 65; mkErrorVariant "DuplicateOnchainPublicKey" 66;
        mkErrorVariant "InvalidSignerOrder" 67; mkErrorVariant "NotEnoughSigners" 68;
        mkErrorVariant "NotCursed" 69; mkErrorVariant "OutOfOrderSignatures" 70;
        mkErrorVariant "ThresholdNotMet" 71; mkErrorVariant "UnexpectedSigner" 72;
        mkErrorVariant "ZeroValueNotAllowed" 73; mkErrorVariant "SourceChainNotEnabled" 100;
        mkErrorVariant "InvalidSourceChainConfig" 101;
        mkErrorVariant "InvalidOnRampAddress" 102; mkErrorVariant "InvalidOffRampAddress" 103;
        mkErrorVariant "InvalidMessageDestination" 104;
        mkErrorVariant "MessageAlreadyExecuted" 105; mkErrorVariant "InvalidExecutionState" 106;
        mkErrorVariant "CCVLengthMismatch" 107; mkErrorVariant "CCVQuorumNotMet" 108;
        mkErrorVariant "ReceiverError" 109; mkErrorVariant "GasLimitOverrideTooLow" 110;
        mkErrorVariant "InvalidReceiverLength" 111; mkErrorVariant "TokenHandlingError" 112;
        mkErrorVariant "MessageDecodingError" 113; mkErrorVariant "ReceiverDoesNotExist" 114;
        mkErrorVariant "ReceiverNotWasmContract" 115;
        mkErrorVariant "OnlyRegistryModuleOrOwner" 201; mkErrorVariant "OnlyAdministrator" 202;
        mkErrorVariant "OnlyPendingAdministrator" 203;
        mkErrorVariant "TokenAlreadyRegistered" 204; mkErrorVariant "InvalidTokenPoolToken" 205;
        mkErrorVariant "PoolTokenMismatch" 301; mkErrorVariant "ChainNotSupported" 302;
        mkErrorVariant "CallerIsNotRamp" 303; mkErrorVariant "InsufficientPoolLiquidity" 304;
        mkErrorVariant "InvalidRemotePoolAddress" 305;
        mkErrorVariant "InvalidRemoteChainConfig" 306;
        mkErrorVariant "InvalidRemoteChainDecimals" 307;
        mkErrorVariant "DecimalAmountOverflow" 308;
        mkErrorVariant "InvalidPoolTokenDecimals" 309; mkErrorVariant "BucketOverfilled" 310;
        mkErrorVariant "TokenMaxCapacityExceeded" 311;
        mkErrorVariant "TokenRateLimitReached" 312; mkErrorVariant "InvalidRateLimitRate" 313;
        mkErrorVariant "DisabledNonZeroRateLimit" 314;
        mkErrorVariant "InvalidRequestedFinality" 315;
        mkErrorVariant "RequestedFinalityCanOnlyHaveOneMode" 316;
        mkErrorVariant "RouterNotConfigured" 318; mkErrorVariant "InvalidSourcePoolAddress" 319;
        mkErrorVariant "InvalidTokenTransferFeeConfig" 321;
        mkErrorVariant "InvalidTransferFeeBps" 322; mkErrorVariant "InvalidFeeCalculation" 801;
        mkErrorVariant "InvalidFeeTokenConversion" 802]]
    []
    [mkEnum "MessageDirection" [mkEnumVariant "Outbound" EnumVariantUnit 0 false [];
       mkEnumVariant "Inbound" EnumVariantUnit 1 false []]].

Definition token_lock_box_interface : Contract :=
  mkGenContract ""
    []
    [mkFunction "owner" [] "Option<soroban_sdk::Address>" false;
     mkFunction "deposit" [mkField "caller" "soroban_sdk::Address"; mkField "amount" "i128"]
       "Result<(), CCIPError>" false;
     mkFunction "upgrade" [mkField "new_wasm_hash" "soroban_sdk::BytesN<32>"] "Result<(), CCIPError>" false;
     mkFunction "is_owner" [mkField "addr" "soroban_sdk::Address"] "bool" false;
     mkFunction "withdraw" [mkField "caller" "soroban_sdk::Address"; mkField "amount" "i128"; mkField
       "recipient" "soroban_sdk::Address"] "Result<(), CCIPError>" false;
     mkFunction "get_token" [] "Result<soroban_sdk::Address, CCIPError>" false;
     mkFunction "init_owner" [mkField "owner" "soroban_sdk::Address"] "Result<(), CCIPError>" false;
     mkFunction "initialize" [mkField "owner" "soroban_sdk::Address"; mkField "token" "soroban_sdk::Address"]
       "Result<(), CCIPError>" false;
     mkFunction "require_owner" [] "Result<soroban_sdk::Address, CCIPError>" false;
     mkFunction "accept_ownership" [] "Result<(), CCIPError>" false;
     mkFunction "get_pending_owner" [] "Option<soroban_sdk::Address>" false;
     mkFunction "is_token_supported" [mkField "token" "soroban_sdk::Address"] "Result<bool, CCIPError>" false;
     mkFunction "transfer_ownership" [mkField "new_owner" "soroban_sdk::Address"] "Result<(), CCIPError>" false;
     mkFunction "add_allowed_callers" [mkField "callers" "soroban_sdk::Vec<soroban_sdk::Address>"]
       "Result<(), CCIPError>" false;
     mkFunction "get_allowed_callers" [] "soroban_sdk::Vec<soroban_sdk::Address>" false;
     mkFunction "remove_allowed_callers" [mkField "callers" "soroban_sdk::Vec<soroban_sdk::Address>"]
       "Result<(), CCIPError>" false;
     mkFunction "cancel_ownership_transfer" [] "Result<(), CCIPError>" false]
    [mkErrorEnum "CCIPError"
       [mkErrorVariant "NotInitialized" 1; mkErrorVariant "AlreadyInitialized" 2;
        mkErrorVariant "Unauthorized" 3; mkErrorVariant "NotOwner" 4;
        mkErrorVariant "NoPendingOwner" 5; mkErrorVariant "CallerNotAuthorized" 6;
        mkErrorVariant "CallerAlreadyAuthorized" 7; mkErrorVariant "CallerNotFound" 8;
        mkErrorVariant "RoleNotGranted" 9; mkErrorVariant "FeatureNotEnabled" 10;
        mkErrorVariant "RoleAlreadyGranted" 11; mkErrorVariant "CannotRenounceRole" 12;
        mkErrorVariant "InvalidVersionTag" 13; mkErrorVariant "InvalidSignatureLength" 14;
        mkErrorVariant "InvalidSignature" 15; mkErrorVariant "InvalidSignatureCount" 16;
        mkErrorVariant "InvalidSignatureThreshold" 17;
        mkErrorVariant "InvalidSignaturePubkey" 18;
        mkErrorVariant "SourceSignersNotConfigured" 19;
        mkErrorVariant "InvalidVerifierResults" 20; mkErrorVariant "ReentrantCall" 21;
        mkErrorVariant "TokenNotSupported" 22; mkErrorVariant "FeeTokenNotSupported" 23;
        mkErrorVariant "NoGasPriceAvailable" 24; mkErrorVariant "DestinationChainNotEnabled" 25;
        mkErrorVariant "InvalidExtraArgsTag" 26; mkErrorVariant "InvalidExtraArgsData" 27;
        mkErrorVariant "MessageGasLimitTooHigh" 28; mkErrorVariant "MessageTooLarge" 29;
        mkErrorVariant "UnsupportedNumberOfTokens" 30;
        mkErrorVariant "InvalidDestChainConfig" 31; mkErrorVariant "MessageFeeTooHigh" 32;
        mkErrorVariant "InvalidStaticConfig" 33; mkErrorVariant "InvalidTokenReceiver" 34;
        mkErrorVariant "SourceTokenDataTooLarge" 35;
        mkErrorVariant "InvalidDestBytesOverhead" 36;
        mkErrorVariant "DestinationChainNotSupported" 37;
        mkErrorVariant "MustBeCalledByRouter" 38;
        mkErrorVariant "RouterMustSetOriginalSender" 39;
        mkErrorVariant "CannotSendZeroTokens" 40;
        mkErrorVariant "CanOnlySendOneTokenPerMessage" 41; mkErrorVariant "UnsupportedToken" 42;
        mkErrorVariant "InvalidDestChainAddress" 43; mkErrorVariant "FeeExceedsMaxAllowed" 44;
        mkErrorVariant "InsufficientFeeTokenAmount" 45;
        mkErrorVariant "TokenReceiverNotAllowed" 46; mkErrorVariant "CursedByRMN" 47;
        mkErrorVariant "RemoteChainNotSupported" 48; mkErrorVariant "SenderNotAllowed" 49;
        mkErrorVariant "InvalidTokenAmount" 50; mkErrorVariant "InvalidReceiverAddress" 51;
        mkErrorVariant "InvalidConfig" 52; mkErrorVariant "InvalidVerifierResultsLength" 53;
        mkErrorVariant "InboundImplementationNotFound" 54;
        mkErrorVariant "OutboundImplementationNotFound" 55; mkErrorVariant "InvalidAddress" 56;
        mkErrorVariant "InvalidChainSelector" 57; mkErrorVariant "InvalidVersion" 58;
        mkErrorVariant "InvalidCCVVersion" 59; mkErrorVariant "OffRampAlreadyExists" 60;
        mkErrorVariant "OffRampMismatch" 61; mkErrorVariant "BadRMNSignal" 62;
        mkErrorVariant "UnsupportedDestinationChain" 63; mkErrorVariant "AlreadyCursed" 64;
        mkErrorVariant "ConfigNotSet" 65; mkErrorVariant "DuplicateOnchainPublicKey" 66;
        mkErrorVariant "InvalidSignerOrder" 67; mkErrorVariant "NotEnoughSigners" 68;
        mkErrorVariant "NotCursed" 69; mkErrorVariant "OutOfOrderSignatures" 70;
        mkErrorVariant "ThresholdNotMet" 71; mkErrorVariant "UnexpectedSigner" 72;
        mkErrorVariant "ZeroValueNotAllowed" 73; mkErrorVariant "SourceChainNotEnabled" 100;
        mkErrorVariant "InvalidSourceChainConfig" 101;
        mkErrorVariant "InvalidOnRampAddress" 102; mkErrorVariant "InvalidOffRampAddress" 103;
        mkErrorVariant "InvalidMessageDestination" 104;
        mkErrorVariant "MessageAlreadyExecuted" 105; mkErrorVariant "InvalidExecutionState" 106;
        mkErrorVariant "CCVLengthMismatch" 107; mkErrorVariant "CCVQuorumNotMet" 108;
        mkErrorVariant "ReceiverError" 109; mkErrorVariant "GasLimitOverrideTooLow" 110;
        mkErrorVariant "InvalidReceiverLength" 111; mkErrorVariant "TokenHandlingError" 112;
        mkErrorVariant "MessageDecodingError" 113; mkErrorVariant "ReceiverDoesNotExist" 114;
        mkErrorVariant "ReceiverNotWasmContract" 115; mkErrorVariant "RequiredCCVMissing" 116;
        mkErrorVariant "InvalidOptionalThreshold" 117;
        mkErrorVariant "OptionalCCVQuorumNotReached" 118;
        mkErrorVariant "NoStateProgressMade" 119;
        mkErrorVariant "OnlyRegistryModuleOrOwner" 201; mkErrorVariant "OnlyAdministrator" 202;
        mkErrorVariant "OnlyPendingAdministrator" 203;
        mkErrorVariant "TokenAlreadyRegistered" 204; mkErrorVariant "InvalidTokenPoolToken" 205;
        mkErrorVariant "PoolTokenMismatch" 301; mkErrorVariant "ChainNotSupported" 302;
        mkErrorVariant "CallerIsNotRamp" 303; mkErrorVariant "InsufficientPoolLiquidity" 304;
        mkErrorVariant "InvalidRemotePoolAddress" 305;
        mkErrorVariant "InvalidRemoteChainConfig" 306;
        mkErrorVariant "InvalidRemoteChainDecimals" 307;
        mkErrorVariant "DecimalAmountOverflow" 308;
        mkErrorVariant "InvalidPoolTokenDecimals" 309; mkErrorVariant "BucketOverfilled" 310;
        mkErrorVariant "TokenMaxCapacityExceeded" 311;
        mkErrorVariant "TokenRateLimitReached" 312; mkErrorVariant "InvalidRateLimitRate" 313;
        mkErrorVariant "DisabledNonZeroRateLimit" 314;
        mkErrorVariant "InvalidRequestedFinality" 315;
        mkErrorVariant "RequestedFinalityCanOnlyHaveOneMode" 316;
        mkErrorVariant "InvalidChainForClient" 317; mkErrorVariant "RouterNotConfigured" 318;
        mkErrorVariant "InvalidSourcePoolAddress" 319;
        mkErrorVariant "DuplicateCCVNotAllowed" 320;
        mkErrorVariant "InvalidTokenTransferFeeConfig" 321;
        mkErrorVariant "InvalidTransferFeeBps" 322;
        mkErrorVariant "InvalidAllowListRequest" 323;
        mkErrorVariant "InvalidFeeCalculation" 801;
        mkErrorVariant "InvalidFeeTokenConversion" 802;
        mkErrorVariant "ZeroFeeAggregatorNotAllowed" 803; mkErrorVariant "ExceedsMaxCCVs" 804;
        mkErrorVariant "CCVNotAllowed" 805; mkErrorVariant "PolicyEngineDetachReverted" 806;
        mkErrorVariant "UnsupportedSelector" 807; mkErrorVariant "ZeroAddressNotAllowed" 808]]
    [mkGenEvent "RoleGrantedEvent" ["auth_RoleGranted"]
       [mkEventField (mkField "role" "soroban_sdk::Symbol") false;
        mkEventField (mkField "account" "soroban_sdk::Address") false;
        mkEventField (mkField "sender" "soroban_sdk::Address") false];
     mkGenEvent "RoleRevokedEvent" ["auth_RoleRevoked"]
       [mkEventField (mkField "role" "soroban_sdk::Symbol") false;
        mkEventField (mkField "account" "soroban_sdk::Address") false;
        mkEventField (mkField "sender" "soroban_sdk::Address") false];
     mkGenEvent "AuthorizedCallerAddedEvent" ["auth_CallerAdded"]
       [mkEventField (mkField "caller" "soroban_sdk::Address") false];
     mkGenEvent "AuthorizedCallerRemovedEvent" ["auth_CallerRemoved"]
       [mkEventField (mkField "caller" "soroban_sdk::Address") false];
     mkGenEvent "OwnershipTransferStartedEvent" ["auth_OwnerTransferStart"]
       [mkEventField (mkField "previous_owner" "soroban_sdk::Address") false;
        mkEventField (mkField "new_owner" "soroban_sdk::Address") false];
     mkGenEvent "DepositEvent" ["lockbox_Deposit"]
       [mkEventField (mkField "token" "soroban_sdk::Address") false;
        mkEventField (mkField "depositor" "soroban_sdk::Address") false;
        mkEventField (mkField "amount" "i128") false];
     mkGenEvent "WithdrawalEvent" ["lockbox_Withdrawal"]
       [mkEventField (mkField "token" "soroban_sdk::Address") false;
        mkEventField (mkField "recipient" "soroban_sdk::Address") false;
        mkEventField (mkField "amount" "i128") false]]
    [].

Definition siloed_lock_release_pool_interface : Contract :=
  mkGenContract ""
    [mkStruct "ChainUpdate" [mkField "inbound_rate_limiter_config" "RateLimitConfig";
       mkField "outbound_rate_limiter_config" "RateLimitConfig";
       mkField "remote_chain_selector" "u64";
       mkField "remote_pool_addresses" "soroban_sdk::Vec<soroban_sdk::Bytes>";
       mkField "remote_token_address" "soroban_sdk::Bytes"];
     mkStruct "TokenBucket" [mkField "capacity" "u128"; mkField "is_enabled" "bool"; mkField "last_updated"
       "u64";
       mkField "rate" "u128"; mkField "tokens" "u128"];
     mkStruct "LockBoxEntry" [mkField "lock_box" "soroban_sdk::Address"; mkField "remote_chain_selector" "u64"];
     mkStruct "LockOrBurnIn" [mkField "amount" "i128"; mkField "local_token" "soroban_sdk::Address";
       mkField "original_sender" "soroban_sdk::Address";
       mkField "receiver" "soroban_sdk::Bytes"; mkField "remote_chain_selector" "u64"];
     mkStruct "LockOrBurnOut" [mkField "dest_pool_data" "soroban_sdk::Bytes";
       mkField "dest_token_address" "soroban_sdk::Bytes"; mkField "dest_token_amount" "i128"];
     mkStruct "PoolFeeResult" [mkField "dest_bytes_overhead" "u32"; mkField "dest_gas_overhead" "u32";
       mkField "fee_usd_cents" "u32"; mkField "is_enabled" "bool";
       mkField "token_fee_bps" "u32"];
     mkStruct "RateLimitConfig" [mkField "capacity" "u128"; mkField "is_enabled" "bool"; mkField "rate" "u128"];
     mkStruct "ReleaseOrMintIn" [mkField "amount" "i128"; mkField "local_token" "soroban_sdk::Address";
       mkField "original_sender" "soroban_sdk::Bytes";
       mkField "receiver" "soroban_sdk::Address"; mkField "remote_chain_selector" "u64";
       mkField "source_pool_address" "soroban_sdk::Bytes";
       mkField "source_pool_data" "soroban_sdk::Bytes"];
     mkStruct "PoolRequiredCCVs" [mkField "ccvs" "soroban_sdk::Vec<soroban_sdk::Address>";
       mkField "include_defaults" "bool"];
     mkStruct "RateLimiterState" [mkField "inbound" "TokenBucket"; mkField "outbound" "TokenBucket"];
     mkStruct "ReleaseOrMintOut" [mkField "destination_amount" "i128"];
     mkStruct "TokenTransferFeeConfig" [mkField "dest_bytes_overhead" "u32"; mkField "dest_gas_overhead" "u32";
       mkField "fast_finality_fee_usd_cents" "u32";
       mkField "fast_finality_transfer_fee_bps" "u32"; mkField "finality_fee_usd_cents" "u32";
       mkField "finality_transfer_fee_bps" "u32"; mkField "is_enabled" "bool"];
     mkStruct "TokenTransferFeeConfigArgs"
       [mkField "config" "TokenTransferFeeConfig"; mkField "dest_chain_selector" "u64"]]
    [mkFunction "owner" [] "Option<soroban_sdk::Address>" false;
     mkFunction "get_fee" [mkField "dest_chain_selector" "u64"; mkField "amount" "i128"; mkField
       "requested_finality" "u32"; mkField "token_args" "soroban_sdk::Bytes"]
         "Result<PoolFeeResult, CCIPError>" false;
     mkFunction "upgrade" [mkField "new_wasm_hash" "soroban_sdk::BytesN<32>"] "Result<(), CCIPError>" false;
     mkFunction "is_owner" [mkField "addr" "soroban_sdk::Address"] "bool" false;
     mkFunction "get_token" [] "Result<soroban_sdk::Address, CCIPError>" false;
     mkFunction "get_router" [] "Option<soroban_sdk::Address>" false;
     mkFunction "init_owner" [mkField "owner" "soroban_sdk::Address"] "Result<(), CCIPError>" false;
     mkFunction "initialize" [mkField "owner" "soroban_sdk::Address"; mkField "token" "soroban_sdk::Address";
       mkField "token_decimals" "u32"; mkField "router" "soroban_sdk::Address"; mkField "ramp_registry"
         "soroban_sdk::Address"; mkField "rmn_proxy" "soroban_sdk::Address"] "Result<(), CCIPError>" false;
     mkFunction "set_router" [mkField "router" "soroban_sdk::Address"] "Result<(), CCIPError>" false;
     mkFunction "get_lock_box" [mkField "remote_chain_selector" "u64"]
       "Result<soroban_sdk::Address, CCIPError>" false;
     mkFunction "lock_or_burn" [mkField "caller" "soroban_sdk::Address"; mkField "input" "LockOrBurnIn";
       mkField "requested_finality" "u32"; mkField "token_args" "soroban_sdk::Bytes"]
         "Result<LockOrBurnOut, CCIPError>" false;
     mkFunction "get_fee_admin" [] "Option<soroban_sdk::Address>" false;
     mkFunction "get_rmn_proxy" [] "Option<soroban_sdk::Address>" false;
     mkFunction "require_owner" [] "Result<soroban_sdk::Address, CCIPError>" false;
     mkFunction "set_fee_admin" [mkField "fee_admin" "soroban_sdk::Address"] "Result<(), CCIPError>" false;
     mkFunction "add_remote_pool" [mkField "remote_chain_selector" "u64"; mkField "remote_pool_address"
       "soroban_sdk::Bytes"] "Result<(), CCIPError>" false;
     mkFunction "release_or_mint" [mkField "caller" "soroban_sdk::Address"; mkField "input" "ReleaseOrMintIn";
       mkField "requested_finality" "u32"] "Result<ReleaseOrMintOut, CCIPError>" false;
     mkFunction "accept_ownership" [] "Result<(), CCIPError>" false;
     mkFunction "get_remote_pools" [mkField "remote_chain_selector" "u64"]
       "Result<soroban_sdk::Vec<soroban_sdk::Bytes>, CCIPError>" false;
     mkFunction "get_remote_token" [mkField "remote_chain_selector" "u64"]
       "Result<soroban_sdk::Bytes, CCIPError>" false;
     mkFunction "type_and_version" [] "soroban_sdk::String" false;
     mkFunction "get_pending_owner" [] "Option<soroban_sdk::Address>" false;
     mkFunction "get_ramp_registry" [] "Option<soroban_sdk::Address>" false;
     mkFunction "get_required_ccvs" [mkField "local_token" "soroban_sdk::Address"; mkField
       "remote_chain_selector" "u64"; mkField "amount" "i128"; mkField "requested_finality" "u32"; mkField
         "extra_data" "soroban_sdk::Bytes"; mkField "direction" "MessageDirection"]
           "Result<PoolRequiredCCVs, CCIPError>" false;
     mkFunction "set_ramp_registry" [mkField "ramp_registry" "soroban_sdk::Address"] "Result<(), CCIPError>"
       false;
     mkFunction "get_token_decimals" [] "Result<u32, CCIPError>" false;
     mkFunction "is_supported_chain" [mkField "remote_chain_selector" "u64"] "Result<bool, CCIPError>" false;
     mkFunction "is_supported_token" [mkField "token" "soroban_sdk::Address"] "Result<bool, CCIPError>" false;
     mkFunction "remove_remote_pool"
       [mkField "remote_chain_selector" "u64"; mkField "remote_pool_address" "soroban_sdk::Bytes"]
         "Result<(), CCIPError>" false;
     mkFunction "transfer_ownership" [mkField "new_owner" "soroban_sdk::Address"] "Result<(), CCIPError>" false;
     mkFunction "apply_chain_updates"
       [mkField "adds" "soroban_sdk::Vec<ChainUpdate>"; mkField "removes" "soroban_sdk::Vec<u64>"]
         "Result<(), CCIPError>" false;
     mkFunction "withdraw_fee_tokens"
       [mkField "caller" "soroban_sdk::Address"; mkField "fee_tokens" "soroban_sdk::Vec<soroban_sdk::Address>";
         mkField "recipient" "soroban_sdk::Address"] "Result<(), CCIPError>" false;
     mkFunction "configure_lock_boxes" [mkField "configs" "soroban_sdk::Vec<LockBoxEntry>"]
       "Result<(), CCIPError>" false;
     mkFunction "get_rate_limit_admin" [] "Option<soroban_sdk::Address>" false;
     mkFunction "set_rate_limit_admin" [mkField "admin" "soroban_sdk::Address"] "Result<(), CCIPError>" false;
     mkFunction "set_rate_limit_config"
       [mkField "caller" "soroban_sdk::Address"; mkField "remote_chain_selector" "u64"; mkField
         "outbound_config" "RateLimitConfig"; mkField "inbound_config" "RateLimitConfig"; mkField
           "fast_finality" "bool"] "Result<(), CCIPError>" false;
     mkFunction "get_advanced_pool_hooks" [] "Option<soroban_sdk::Address>" false;
     mkFunction "set_advanced_pool_hooks" [mkField "hooks" "soroban_sdk::Address"] "Result<(), CCIPError>"
       false;
     mkFunction "get_all_lock_box_configs" [] "Result<soroban_sdk::Vec<LockBoxEntry>, CCIPError>" false;
     mkFunction "cancel_ownership_transfer" [] "Result<(), CCIPError>" false;
     mkFunction "remove_advanced_pool_hooks" [] "Result<(), CCIPError>" false;
     mkFunction "get_allowed_finality_config" [] "u32" false;
     mkFunction "set_allowed_finality_config" [mkField "allowed_finality" "u32"] "Result<(), CCIPError>" false;
     mkFunction "get_token_transfer_fee_config" [mkField "dest_chain_selector" "u64"]
       "Result<TokenTransferFeeConfig, CCIPError>" false;
     mkFunction "apply_token_fee_config_updates"
       [mkField "adds" "soroban_sdk::Vec<TokenTransferFeeConfigArgs>"; mkField "disables"
         "soroban_sdk::Vec<u64>"] "Result<(), CCIPError>" false;
     mkFunction "get_current_rate_limiter_state"
       [mkField "remote_chain_selector" "u64"; mkField "fast_finality" "bool"] "RateLimiterState" false]
    [mkErrorEnum "CCIPError"
       [mkErrorVariant "NotInitialized" 1; mkErrorVariant "AlreadyInitialized" 2;
        mkErrorVariant "Unauthorized" 3; mkErrorVariant "NotOwner" 4;
        mkErrorVariant "NoPendingOwner" 5; mkErrorVariant "CallerNotAuthorized" 6;
        mkErrorVariant "CallerAlreadyAuthorized" 7; mkErrorVariant "CallerNotFound" 8;
        mkErrorVariant "RoleNotGranted" 9; mkErrorVariant "FeatureNotEnabled" 10;
        mkErrorVariant "RoleAlreadyGranted" 11; mkErrorVariant "CannotRenounceRole" 12;
        mkErrorVariant "InvalidVersionTag" 13; mkErrorVariant "InvalidSignatureLength" 14;
        mkErrorVariant "InvalidSignature" 15; mkErrorVariant "InvalidSignatureCount" 16;
        mkErrorVariant "InvalidSignatureThreshold" 17;
        mkErrorVariant "InvalidSignaturePubkey" 18;
        mkErrorVariant "SourceSignersNotConfigured" 19;
        mkErrorVariant "InvalidVerifierResults" 20; mkErrorVariant "ReentrantCall" 21;
        mkErrorVariant "TokenNotSupported" 22; mkErrorVariant "FeeTokenNotSupported" 23;
        mkErrorVariant "NoGasPriceAvailable" 24; mkErrorVariant "DestinationChainNotEnabled" 25;
        mkErrorVariant "InvalidExtraArgsTag" 26; mkErrorVariant "InvalidExtraArgsData" 27;
        mkErrorVariant "MessageGasLimitTooHigh" 28; mkErrorVariant "MessageTooLarge" 29;
        mkErrorVariant "UnsupportedNumberOfTokens" 30;
        mkErrorVariant "InvalidDestChainConfig" 31; mkErrorVariant "MessageFeeTooHigh" 32;
        mkErrorVariant "InvalidStaticConfig" 33; mkErrorVariant "InvalidTokenReceiver" 34;
        mkErrorVariant "SourceTokenDataTooLarge" 35;
        mkErrorVariant "InvalidDestBytesOverhead" 36;
        mkErrorVariant "DestinationChainNotSupported" 37;
        mkErrorVariant "MustBeCalledByRouter" 38;
        mkErrorVariant "RouterMustSetOriginalSender" 39;
        mkErrorVariant "CannotSendZeroTokens" 40;
        mkErrorVariant "CanOnlySendOneTokenPerMessage" 41; mkErrorVariant "UnsupportedToken" 42;
        mkErrorVariant "InvalidDestChainAddress" 43; mkErrorVariant "FeeExceedsMaxAllowed" 44;
        mkErrorVariant "InsufficientFeeTokenAmount" 45;
        mkErrorVariant "TokenReceiverNotAllowed" 46; mkErrorVariant "CursedByRMN" 47;
        mkErrorVariant "RemoteChainNotSupported" 48; mkErrorVariant "SenderNotAllowed" 49;
        mkErrorVariant "InvalidTokenAmount" 50; mkErrorVariant "InvalidReceiverAddress" 51;
        mkErrorVariant "InvalidConfig" 52; mkErrorVariant "InvalidVerifierResultsLength" 53;
        mkErrorVariant "InboundImplementationNotFound" 54;
        mkErrorVariant "OutboundImplementationNotFound" 55; mkErrorVariant "InvalidAddress" 56;
        mkErrorVariant "InvalidChainSelector" 57; mkErrorVariant "InvalidVersion" 58;
        mkErrorVariant "InvalidCCVVersion" 59; mkErrorVariant "OffRampAlreadyExists" 60;
        mkErrorVariant "OffRampMismatch" 61; mkErrorVariant "BadRMNSignal" 62;
        mkErrorVariant "UnsupportedDestinationChain" 63; mkErrorVariant "AlreadyCursed" 64;
        mkErrorVariant "ConfigNotSet" 65; mkErrorVariant "DuplicateOnchainPublicKey" 66;
        mkErrorVariant "InvalidSignerOrder" 67; mkErrorVariant "NotEnoughSigners" 68;
        mkErrorVariant "NotCursed" 69; mkErrorVariant "OutOfOrderSignatures" 70;
        mkErrorVariant "ThresholdNotMet" 71; mkErrorVariant "UnexpectedSigner" 72;
        mkErrorVariant "ZeroValueNotAllowed" 73; mkErrorVariant "SourceChainNotEnabled" 100;
        mkErrorVariant "InvalidSourceChainConfig" 101;
        mkErrorVariant "InvalidOnRampAddress" 102; mkErrorVariant "InvalidOffRampAddress" 103;
        mkErrorVariant "InvalidMessageDestination" 104;
        mkErrorVariant "MessageAlreadyExecuted" 105; mkErrorVariant "InvalidExecutionState" 106;
        mkErrorVariant "CCVLengthMismatch" 107; mkErrorVariant "CCVQuorumNotMet" 108;
        mkErrorVariant "ReceiverError" 109; mkErrorVariant "GasLimitOverrideTooLow" 110;
        mkErrorVariant "InvalidReceiverLength" 111; mkErrorVariant "TokenHandlingError" 112;
        mkErrorVariant "MessageDecodingError" 113; mkErrorVariant "ReceiverDoesNotExist" 114;
        mkErrorVariant "ReceiverNotWasmContract" 115; mkErrorVariant "RequiredCCVMissing" 116;
        mkErrorVariant "InvalidOptionalThreshold" 117;
        mkErrorVariant "OptionalCCVQuorumNotReached" 118;
        mkErrorVariant "NoStateProgressMade" 119;
        mkErrorVariant "OnlyRegistryModuleOrOwner" 201; mkErrorVariant "OnlyAdministrator" 202;
        mkErrorVariant "OnlyPendingAdministrator" 203;
        mkErrorVariant "TokenAlreadyRegistered" 204; mkErrorVariant "InvalidTokenPoolToken" 205;
        mkErrorVariant "PoolTokenMismatch" 301; mkErrorVariant "ChainNotSupported" 302;
        mkErrorVariant "CallerIsNotRamp" 303; mkErrorVariant "InsufficientPoolLiquidity" 304;
        mkErrorVariant "InvalidRemotePoolAddress" 305;
        mkErrorVariant "InvalidRemoteChainConfig" 306;
        mkErrorVariant "InvalidRemoteChainDecimals" 307;
        mkErrorVariant "DecimalAmountOverflow" 308;
        mkErrorVariant "InvalidPoolTokenDecimals" 309; mkErrorVariant "BucketOverfilled" 310;
        mkErrorVariant "TokenMaxCapacityExceeded" 311;
        mkErrorVariant "TokenRateLimitReached" 312; mkErrorVariant "InvalidRateLimitRate" 313;
        mkErrorVariant "DisabledNonZeroRateLimit" 314;
        mkErrorVariant "InvalidRequestedFinality" 315;
        mkErrorVariant "RequestedFinalityCanOnlyHaveOneMode" 316;
        mkErrorVariant "InvalidChainForClient" 317; mkErrorVariant "RouterNotConfigured" 318;
        mkErrorVariant "InvalidSourcePoolAddress" 319;
        mkErrorVariant "DuplicateCCVNotAllowed" 320;
        mkErrorVariant "InvalidTokenTransferFeeConfig" 321;
        mkErrorVariant "InvalidTransferFeeBps" 322;
        mkErrorVariant "InvalidAllowListRequest" 323;
        mkErrorVariant "InvalidFeeCalculation" 801;
        mkErrorVariant "InvalidFeeTokenConversion" 802;
        mkErrorVariant "ZeroFeeAggregatorNotAllowed" 803; mkErrorVariant "ExceedsMaxCCVs" 804;
        mkErrorVariant "CCVNotAllowed" 805; mkErrorVariant "PolicyEngineDetachReverted" 806;
        mkErrorVariant "UnsupportedSelector" 807; mkErrorVariant "ZeroAddressNotAllowed" 808]]
    [mkGenEvent "RoleGrantedEvent" ["auth_RoleGranted"]
       [mkEventField (mkField "role" "soroban_sdk::Symbol") false;
        mkEventField (mkField "account" "soroban_sdk::Address") false;
        mkEventField (mkField "sender" "soroban_sdk::Address") false];
     mkGenEvent "RoleRevokedEvent" ["auth_RoleRevoked"]
       [mkEventField (mkField "role" "soroban_sdk::Symbol") false;
        mkEventField (mkField "account" "soroban_sdk::Address") false;
        mkEventField (mkField "sender" "soroban_sdk::Address") false];
     mkGenEvent "AuthorizedCallerAddedEvent" ["auth_CallerAdded"]
       [mkEventField (mkField "caller" "soroban_sdk::Address") false];
     mkGenEvent "AuthorizedCallerRemovedEvent" ["auth_CallerRemoved"]
       [mkEventField (mkField "caller" "soroban_sdk::Address") false];
     mkGenEvent "OwnershipTransferStartedEvent" ["auth_OwnerTransferStart"]
       [mkEventField (mkField "previous_owner" "soroban_sdk::Address") false;
        mkEventField (mkField "new_owner" "soroban_sdk::Address") false];
     mkGenEvent "BurnedEvent" ["pool_Burned"]
       [mkEventField (mkField "sender" "soroban_sdk::Address") false;
        mkEventField (mkField "amount" "i128") false];
     mkGenEvent "LockedEvent" ["pool_Locked"]
       [mkEventField (mkField "sender" "soroban_sdk::Address") false;
        mkEventField (mkField "amount" "i128") false];
     mkGenEvent "MintedEvent" ["pool_Minted"]
       [mkEventField (mkField "sender" "soroban_sdk::Address") false;
        mkEventField (mkField "recipient" "soroban_sdk::Address") false;
        mkEventField (mkField "amount" "i128") false];
     mkGenEvent "ReleasedEvent" ["pool_Released"]
       [mkEventField (mkField "sender" "soroban_sdk::Address") false;
        mkEventField (mkField "recipient" "soroban_sdk::Address") false;
        mkEventField (mkField "amount" "i128") false];
     mkGenEvent "ChainRemovedEvent" ["pool_ChainRemoved"]
       [mkEventField (mkField "remote_chain_selector" "u64") false];
     mkGenEvent "ChainConfiguredEvent" ["pool_ChainConfigured"]
       [mkEventField (mkField "remote_chain_selector" "u64") false;
        mkEventField (mkField "remote_pool_addresses" "soroban_sdk::Vec<soroban_sdk::Bytes>") false;
        mkEventField (mkField "remote_token_address" "soroban_sdk::Bytes") false;
        mkEventField (mkField "outbound_rate_limiter_config" "RateLimitConfig") false;
        mkEventField (mkField "inbound_rate_limiter_config" "RateLimitConfig") false];
     mkGenEvent "RemotePoolAddedEvent" ["pool_RemotePoolAdded"]
       [mkEventField (mkField "remote_chain_selector" "u64") false;
        mkEventField (mkField "remote_pool_address" "soroban_sdk::Bytes") false];
     mkGenEvent "FinalityConfigSetEvent" ["pool_FinalityConfigSet"]
       [mkEventField (mkField "allowed_finality" "u32") false];
     mkGenEvent "LockBoxConfiguredEvent" ["pool_LockBoxConfigured"]
       [mkEventField (mkField "remote_chain_selector" "u64") false;
        mkEventField (mkField "lock_box" "soroban_sdk::Address") false];
     mkGenEvent "RemotePoolRemovedEvent" ["pool_RemotePoolRemoved"]
       [mkEventField (mkField "remote_chain_selector" "u64") false;
        mkEventField (mkField "remote_pool_address" "soroban_sdk::Bytes") false];
     mkGenEvent "FtfInboundConsumedEvent" ["pool_FtfInboundConsumed"]
       [mkEventField (mkField "remote_chain_selector" "u64") false;
        mkEventField (mkField "amount" "i128") false];
     mkGenEvent "TokenFeeCfgDeletedEvent" ["pool_TokenFeeCfgDeleted"]
       [mkEventField (mkField "remote_chain_selector" "u64") false];
     mkGenEvent "TokenFeeCfgUpdatedEvent" ["pool_TokenFeeCfgUpdated"]
       [mkEventField (mkField "remote_chain_selector" "u64") false;
        mkEventField (mkField "config" "TokenTransferFeeConfig") false];
     mkGenEvent "FtfOutboundConsumedEvent" ["pool_FtfOutboundConsumed"]
       [mkEventField (mkField "remote_chain_selector" "u64") false;
        mkEventField (mkField "amount" "i128") false];
     mkGenEvent "RateLimitConfiguredEvent" ["pool_RateLimitConfigured"]
       [mkEventField (mkField "remote_chain_selector" "u64") false;
        mkEventField (mkField "fast_finality" "bool") false;
        mkEventField (mkField "outbound_config" "RateLimitConfig") false;
        mkEventField (mkField "inbound_config" "RateLimitConfig") false];
     mkGenEvent "AdvancedPoolHooksUpdatedEvent" ["pool_HooksUpdated"]
       [mkEventField (mkField "old_hooks" "Option<soroban_sdk::Address>") false;
        mkEventField (mkField "new_hooks" "Option<soroban_sdk::Address>") false];
     mkGenEvent "InboundRateLimitConsumedEvent" ["pool_InboundRateLimitConsumed"]
       [mkEventField (mkField "remote_chain_selector" "u64") false;
        mkEventField (mkField "amount" "i128") false];
     mkGenEvent "OutboundRateLimitConsumedEvent" ["pool_OutboundRateLimitConsumed"]
       [mkEventField (mkField "remote_chain_selector" "u64") false;
        mkEventField (mkField "amount" "i128") false]]
    [mkEnum "MessageDirection" [mkEnumVariant "Outbound" EnumVariantUnit 0 false [];
       mkEnumVariant "Inbound" EnumVariantUnit 1 false []]].

Definition advanced_pool_hooks_interface : Contract :=
  mkGenContract ""
    [mkStruct "PoolRequiredCCVs" [mkField "ccvs" "soroban_sdk::Vec<soroban_sdk::Address>";
       mkField "include_defaults" "bool"];
     mkStruct "LockOrBurnIn" [mkField "receiver" "soroban_sdk::Bytes"; mkField "remote_chain_selector" "u64";
       mkField "original_sender" "soroban_sdk::Address"; mkField "amount" "i128";
       mkField "local_token" "soroban_sdk::Address"];
     mkStruct "ReleaseOrMintIn" [mkField "original_sender" "soroban_sdk::Bytes"; mkField
       "remote_chain_selector" "u64";
       mkField "receiver" "soroban_sdk::Address"; mkField "amount" "i128";
       mkField "local_token" "soroban_sdk::Address";
       mkField "source_pool_address" "soroban_sdk::Bytes";
       mkField "source_pool_data" "soroban_sdk::Bytes"];
     mkStruct "CCVConfig" [mkField "inbound_ccvs" "soroban_sdk::Vec<soroban_sdk::Address>";
       mkField "inbound_include_defaults" "bool";
       mkField "outbound_ccvs" "soroban_sdk::Vec<soroban_sdk::Address>";
       mkField "outbound_include_defaults" "bool";
       mkField "threshold_inbound_ccvs" "soroban_sdk::Vec<soroban_sdk::Address>";
       mkField "threshold_outbound_ccvs" "soroban_sdk::Vec<soroban_sdk::Address>"];
     mkStruct "CCVConfigArg" [mkField "inbound_ccvs" "soroban_sdk::Vec<soroban_sdk::Address>";
       mkField "inbound_include_defaults" "bool";
       mkField "outbound_ccvs" "soroban_sdk::Vec<soroban_sdk::Address>";
       mkField "outbound_include_defaults" "bool"; mkField "remote_chain_selector" "u64";
       mkField "threshold_inbound_ccvs" "soroban_sdk::Vec<soroban_sdk::Address>";
       mkField "threshold_outbound_ccvs" "soroban_sdk::Vec<soroban_sdk::Address>"]]
    [mkFunction "owner" [] "Option<soroban_sdk::Address>" false;
     mkFunction "upgrade" [mkField "new_wasm_hash" "soroban_sdk::BytesN<32>"] "Result<(), CCIPError>" false;
     mkFunction "is_owner" [mkField "addr" "soroban_sdk::Address"] "bool" false;
     mkFunction "init_owner" [mkField "owner" "soroban_sdk::Address"] "Result<(), CCIPError>" false;
     mkFunction "initialize" [mkField "owner" "soroban_sdk::Address"; mkField "allowlist"
       "soroban_sdk::Vec<soroban_sdk::Address>"; mkField "threshold_amount" "i128"; mkField
         "authorized_callers" "soroban_sdk::Vec<soroban_sdk::Address>"; mkField "policy_engine"
           "Option<soroban_sdk::Address>"] "Result<(), CCIPError>" false;
     mkFunction "get_allowlist" [] "soroban_sdk::Vec<soroban_sdk::Address>" false;
     mkFunction "require_owner" [] "Result<soroban_sdk::Address, CCIPError>" false;
     mkFunction "get_ccv_config" [mkField "remote_chain_selector" "u64"] "Option<CCVConfig>" false;
     mkFunction "preflight_check" [mkField "caller" "soroban_sdk::Address"; mkField "lock_or_burn_in"
       "LockOrBurnIn"; mkField "requested_finality" "u32"; mkField "token_args" "soroban_sdk::Bytes"; mkField
         "amount_post_fee" "i128"] "Result<(), CCIPError>" false;
     mkFunction "accept_ownership" [] "Result<(), CCIPError>" false;
     mkFunction "check_allow_list" [mkField "sender" "soroban_sdk::Address"] "Result<(), CCIPError>" false;
     mkFunction "postflight_check" [mkField "caller" "soroban_sdk::Address"; mkField "release_or_mint_in"
       "ReleaseOrMintIn"; mkField "local_amount" "i128"; mkField "requested_finality" "u32"]
         "Result<(), CCIPError>" false;
     mkFunction "type_and_version" [] "soroban_sdk::String" false;
     mkFunction "get_pending_owner" [] "Option<soroban_sdk::Address>" false;
     mkFunction "get_policy_engine" [] "Option<soroban_sdk::Address>" false;
     mkFunction "get_required_ccvs" [mkField "local_token" "soroban_sdk::Address"; mkField
       "remote_chain_selector" "u64"; mkField "amount" "i128"; mkField "requested_finality" "u32"; mkField
         "extra_data" "soroban_sdk::Bytes"; mkField "direction" "MessageDirection"] "PoolRequiredCCVs" false;
     mkFunction "set_policy_engine" [mkField "new_policy_engine" "Option<soroban_sdk::Address>"]
       "Result<(), CCIPError>" false;
     mkFunction "transfer_ownership" [mkField "new_owner" "soroban_sdk::Address"] "Result<(), CCIPError>" false;
     mkFunction "get_all_ccv_configs" [] "soroban_sdk::Vec<CCVConfigArg>" false;
     mkFunction "get_threshold_amount" [] "i128" false;
     mkFunction "set_threshold_amount" [mkField "threshold_amount" "i128"] "Result<(), CCIPError>" false;
     mkFunction "get_allowlist_enabled" [] "bool" false;
     mkFunction "apply_allowlist_updates"
       [mkField "removes" "soroban_sdk::Vec<soroban_sdk::Address>"; mkField "adds"
         "soroban_sdk::Vec<soroban_sdk::Address>"] "Result<(), CCIPError>" false;
     mkFunction "force_set_policy_engine" [mkField "new_policy_engine" "Option<soroban_sdk::Address>"]
       "Result<(), CCIPError>" false;
     mkFunction "apply_ccv_config_updates" [mkField "configs" "soroban_sdk::Vec<CCVConfigArg>"]
       "Result<(), CCIPError>" false;
     mkFunction "cancel_ownership_transfer" [] "Result<(), CCIPError>" false;
     mkFunction "get_all_authorized_callers" [] "soroban_sdk::Vec<soroban_sdk::Address>" false;
     mkFunction "apply_authorized_callers_updates"
       [mkField "removes" "soroban_sdk::Vec<soroban_sdk::Address>"; mkField "adds"
         "soroban_sdk::Vec<soroban_sdk::Address>"] "Result<(), CCIPError>" false]
    [mkErrorEnum "CCIPError"
       [mkErrorVariant "NotInitialized" 1; mkErrorVariant "AlreadyInitialized" 2;
        mkErrorVariant "Unauthorized" 3; mkErrorVariant "NotOwner" 4;
        mkErrorVariant "NoPendingOwner" 5; mkErrorVariant "CallerNotAuthorized" 6;
        mkErrorVariant "CallerAlreadyAuthorized" 7; mkErrorVariant "CallerNotFound" 8;
        mkErrorVariant "RoleNotGranted" 9; mkErrorVariant "FeatureNotEnabled" 10;
        mkErrorVariant "RoleAlreadyGranted" 11; mkErrorVariant "CannotRenounceRole" 12;
        mkErrorVariant "InvalidVersionTag" 13; mkErrorVariant "InvalidSignatureLength" 14;
        mkErrorVariant "InvalidSignature" 15; mkErrorVariant "InvalidSignatureCount" 16;
        mkErrorVariant "InvalidSignatureThreshold" 17;
        mkErrorVariant "InvalidSignaturePubkey" 18;
        mkErrorVariant "SourceSignersNotConfigured" 19;
        mkErrorVariant "InvalidVerifierResults" 20; mkErrorVariant "ReentrantCall" 21;
        mkErrorVariant "TokenNotSupported" 22; mkErrorVariant "FeeTokenNotSupported" 23;
        mkErrorVariant "NoGasPriceAvailable" 24; mkErrorVariant "DestinationChainNotEnabled" 25;
        mkErrorVariant "InvalidExtraArgsTag" 26; mkErrorVariant "InvalidExtraArgsData" 27;
        mkErrorVariant "MessageGasLimitTooHigh" 28; mkErrorVariant "MessageTooLarge" 29;
        mkErrorVariant "UnsupportedNumberOfTokens" 30;
        mkErrorVariant "InvalidDestChainConfig" 31; mkErrorVariant "MessageFeeTooHigh" 32;
        mkErrorVariant "InvalidStaticConfig" 33; mkErrorVariant "InvalidTokenReceiver" 34;
        mkErrorVariant "SourceTokenDataTooLarge" 35;
        mkErrorVariant "InvalidDestBytesOverhead" 36;
        mkErrorVariant "DestinationChainNotSupported" 37;
        mkErrorVariant "MustBeCalledByRouter" 38;
        mkErrorVariant "RouterMustSetOriginalSender" 39;
        mkErrorVariant "CannotSendZeroTokens" 40;
        mkErrorVariant "CanOnlySendOneTokenPerMessage" 41; mkErrorVariant "UnsupportedToken" 42;
        mkErrorVariant "InvalidDestChainAddress" 43; mkErrorVariant "FeeExceedsMaxAllowed" 44;
        mkErrorVariant "InsufficientFeeTokenAmount" 45;
        mkErrorVariant "TokenReceiverNotAllowed" 46; mkErrorVariant "CursedByRMN" 47;
        mkErrorVariant "RemoteChainNotSupported" 48; mkErrorVariant "SenderNotAllowed" 49;
        mkErrorVariant "InvalidTokenAmount" 50; mkErrorVariant "InvalidReceiverAddress" 51;
        mkErrorVariant "InvalidConfig" 52; mkErrorVariant "InvalidVerifierResultsLength" 53;
        mkErrorVariant "InboundImplementationNotFound" 54;
        mkErrorVariant "OutboundImplementationNotFound" 55; mkErrorVariant "InvalidAddress" 56;
        mkErrorVariant "InvalidChainSelector" 57; mkErrorVariant "InvalidVersion" 58;
        mkErrorVariant "InvalidCCVVersion" 59; mkErrorVariant "OffRampAlreadyExists" 60;
        mkErrorVariant "OffRampMismatch" 61; mkErrorVariant "BadRMNSignal" 62;
        mkErrorVariant "UnsupportedDestinationChain" 63; mkErrorVariant "AlreadyCursed" 64;
        mkErrorVariant "ConfigNotSet" 65; mkErrorVariant "DuplicateOnchainPublicKey" 66;
        mkErrorVariant "InvalidSignerOrder" 67; mkErrorVariant "NotEnoughSigners" 68;
        mkErrorVariant "NotCursed" 69; mkErrorVariant "OutOfOrderSignatures" 70;
        mkErrorVariant "ThresholdNotMet" 71; mkErrorVariant "UnexpectedSigner" 72;
        mkErrorVariant "ZeroValueNotAllowed" 73; mkErrorVariant "SourceChainNotEnabled" 100;
        mkErrorVariant "InvalidSourceChainConfig" 101;
        mkErrorVariant "InvalidOnRampAddress" 102; mkErrorVariant "InvalidOffRampAddress" 103;
        mkErrorVariant "InvalidMessageDestination" 104;
        mkErrorVariant "MessageAlreadyExecuted" 105; mkErrorVariant "InvalidExecutionState" 106;
        mkErrorVariant "CCVLengthMismatch" 107; mkErrorVariant "CCVQuorumNotMet" 108;
        mkErrorVariant "ReceiverError" 109; mkErrorVariant "GasLimitOverrideTooLow" 110;
        mkErrorVariant "InvalidReceiverLength" 111; mkErrorVariant "TokenHandlingError" 112;
        mkErrorVariant "MessageDecodingError" 113; mkErrorVariant "ReceiverDoesNotExist" 114;
        mkErrorVariant "ReceiverNotWasmContract" 115; mkErrorVariant "RequiredCCVMissing" 116;
        mkErrorVariant "InvalidOptionalThreshold" 117;
        mkErrorVariant "OptionalCCVQuorumNotReached" 118;
        mkErrorVariant "NoStateProgressMade" 119;
        mkErrorVariant "OnlyRegistryModuleOrOwner" 201; mkErrorVariant "OnlyAdministrator" 202;
        mkErrorVariant "OnlyPendingAdministrator" 203;
        mkErrorVariant "TokenAlreadyRegistered" 204; mkErrorVariant "InvalidTokenPoolToken" 205;
        mkErrorVariant "PoolTokenMismatch" 301; mkErrorVariant "ChainNotSupported" 302;
        mkErrorVariant "CallerIsNotRamp" 303; mkErrorVariant "InsufficientPoolLiquidity" 304;
        mkErrorVariant "InvalidRemotePoolAddress" 305;
        mkErrorVariant "InvalidRemoteChainConfig" 306;
        mkErrorVariant "InvalidRemoteChainDecimals" 307;
        mkErrorVariant "DecimalAmountOverflow" 308;
        mkErrorVariant "InvalidPoolTokenDecimals" 309; mkErrorVariant "BucketOverfilled" 310;
        mkErrorVariant "TokenMaxCapacityExceeded" 311;
        mkErrorVariant "TokenRateLimitReached" 312; mkErrorVariant "InvalidRateLimitRate" 313;
        mkErrorVariant "DisabledNonZeroRateLimit" 314;
        mkErrorVariant "InvalidRequestedFinality" 315;
        mkErrorVariant "RequestedFinalityCanOnlyHaveOneMode" 316;
        mkErrorVariant "InvalidChainForClient" 317; mkErrorVariant "RouterNotConfigured" 318;
        mkErrorVariant "InvalidSourcePoolAddress" 319;
        mkErrorVariant "DuplicateCCVNotAllowed" 320;
        mkErrorVariant "InvalidTokenTransferFeeConfig" 321;
        mkErrorVariant "InvalidTransferFeeBps" 322;
        mkErrorVariant "InvalidAllowListRequest" 323;
        mkErrorVariant "InvalidFeeCalculation" 801;
        mkErrorVariant "InvalidFeeTokenConversion" 802;
        mkErrorVariant "ZeroFeeAggregatorNotAllowed" 803; mkErrorVariant "ExceedsMaxCCVs" 804;
        mkErrorVariant "CCVNotAllowed" 805; mkErrorVariant "PolicyEngineDetachReverted" 806;
        mkErrorVariant "UnsupportedSelector" 807; mkErrorVariant "ZeroAddressNotAllowed" 808]]
    [mkGenEvent "RoleGrantedEvent" ["auth_RoleGranted"]
       [mkEventField (mkField "role" "soroban_sdk::Symbol") false;
        mkEventField (mkField "account" "soroban_sdk::Address") false;
        mkEventField (mkField "sender" "soroban_sdk::Address") false];
     mkGenEvent "RoleRevokedEvent" ["auth_RoleRevoked"]
       [mkEventField (mkField "role" "soroban_sdk::Symbol") false;
        mkEventField (mkField "account" "soroban_sdk::Address") false;
        mkEventField (mkField "sender" "soroban_sdk::Address") false];
     mkGenEvent "AuthorizedCallerAddedEvent" ["auth_CallerAdded"]
       [mkEventField (mkField "caller" "soroban_sdk::Address") false];
     mkGenEvent "AuthorizedCallerRemovedEvent" ["auth_CallerRemoved"]
       [mkEventField (mkField "caller" "soroban_sdk::Address") false];
     mkGenEvent "OwnershipTransferStartedEvent" ["auth_OwnerTransferStart"]
       [mkEventField (mkField "previous_owner" "soroban_sdk::Address") false;
        mkEventField (mkField "new_owner" "soroban_sdk::Address") false];
     mkGenEvent "AllowListAddEvent" ["aph_AllowListAdd"]
       [mkEventField (mkField "sender" "soroban_sdk::Address") false];
     mkGenEvent "AllowListRemoveEvent" ["aph_AllowListRemove"]
       [mkEventField (mkField "sender" "soroban_sdk::Address") false];
     mkGenEvent "CCVConfigUpdatedEvent" ["aph_CCVConfigUpdated"]
       [mkEventField (mkField "remote_chain_selector" "u64") false;
        mkEventField (mkField "config" "CCVConfig") false];
     mkGenEvent "ThresholdAmountSetEvent" ["aph_ThresholdAmountSet"]
       [mkEventField (mkField "threshold_amount" "i128") false];
     mkGenEvent "PolicyEngineAttachedEvent" ["aph_PolicyEngineAttached"]
       [mkEventField (mkField "policy_engine" "Option<soroban_sdk::Address>") false];
     mkGenEvent "PolicyEngineDetachFailedEvent" ["aph_PolicyEngineDetachFailed"]
       [mkEventField (mkField "policy_engine" "soroban_sdk::Address") false]]
    [mkEnum "MessageDirection" [mkEnumVariant "Outbound" EnumVariantUnit 0 false [];
       mkEnumVariant "Inbound" EnumVariantUnit 1 false []]].

Definition advanced_pool_hooks_extractor_interface : Contract :=
  mkGenContract ""
    [mkStruct "LockOrBurnIn" [mkField "receiver" "soroban_sdk::Bytes"; mkField "remote_chain_selector" "u64";
       mkField "original_sender" "soroban_sdk::Address"; mkField "amount" "i128";
       mkField "local_token" "soroban_sdk::Address"];
     mkStruct "ReleaseOrMintIn" [mkField "original_sender" "soroban_sdk::Bytes"; mkField
       "remote_chain_selector" "u64";
       mkField "receiver" "soroban_sdk::Address"; mkField "amount" "i128";
       mkField "local_token" "soroban_sdk::Address";
       mkField "source_pool_address" "soroban_sdk::Bytes";
       mkField "source_pool_data" "soroban_sdk::Bytes"];
     mkStruct "PreflightPayload" [mkField "lock_or_burn_in" "LockOrBurnIn"; mkField "requested_finality" "u32";
       mkField "amount_post_fee" "i128"];
     mkStruct "PostflightPayload" [mkField "release_or_mint_in" "ReleaseOrMintIn"; mkField "local_amount"
       "i128";
       mkField "requested_finality" "u32"];
     mkStruct "Payload" [mkField "selector" "soroban_sdk::Symbol"; mkField "sender" "soroban_sdk::Address";
       mkField "data" "PolicyData"; mkField "context" "soroban_sdk::Bytes"];
     mkStruct "Parameter" [mkField "name" "soroban_sdk::Symbol"; mkField "value" "PolicyValue"]]
    [mkFunction "extract" [mkField "payload" "Payload"] "Result<soroban_sdk::Vec<Parameter>, CCIPError>" false;
     mkFunction "type_and_version" [] "soroban_sdk::String" false]
    [mkErrorEnum "CCIPError"
       [mkErrorVariant "NotInitialized" 1; mkErrorVariant "AlreadyInitialized" 2;
        mkErrorVariant "Unauthorized" 3; mkErrorVariant "NotOwner" 4;
        mkErrorVariant "NoPendingOwner" 5; mkErrorVariant "CallerNotAuthorized" 6;
        mkErrorVariant "CallerAlreadyAuthorized" 7; mkErrorVariant "CallerNotFound" 8;
        mkErrorVariant "RoleNotGranted" 9; mkErrorVariant "FeatureNotEnabled" 10;
        mkErrorVariant "RoleAlreadyGranted" 11; mkErrorVariant "CannotRenounceRole" 12;
        mkErrorVariant "InvalidVersionTag" 13; mkErrorVariant "InvalidSignatureLength" 14;
        mkErrorVariant "InvalidSignature" 15; mkErrorVariant "InvalidSignatureCount" 16;
        mkErrorVariant "InvalidSignatureThreshold" 17;
        mkErrorVariant "InvalidSignaturePubkey" 18;
        mkErrorVariant "SourceSignersNotConfigured" 19;
        mkErrorVariant "InvalidVerifierResults" 20; mkErrorVariant "ReentrantCall" 21;
        mkErrorVariant "TokenNotSupported" 22; mkErrorVariant "FeeTokenNotSupported" 23;
        mkErrorVariant "NoGasPriceAvailable" 24; mkErrorVariant "DestinationChainNotEnabled" 25;
        mkErrorVariant "InvalidExtraArgsTag" 26; mkErrorVariant "InvalidExtraArgsData" 27;
        mkErrorVariant "MessageGasLimitTooHigh" 28; mkErrorVariant "MessageTooLarge" 29;
        mkErrorVariant "UnsupportedNumberOfTokens" 30;
        mkErrorVariant "InvalidDestChainConfig" 31; mkErrorVariant "MessageFeeTooHigh" 32;
        mkErrorVariant "InvalidStaticConfig" 33; mkErrorVariant "InvalidTokenReceiver" 34;
        mkErrorVariant "SourceTokenDataTooLarge" 35;
        mkErrorVariant "InvalidDestBytesOverhead" 36;
        mkErrorVariant "DestinationChainNotSupported" 37;
        mkErrorVariant "MustBeCalledByRouter" 38;
        mkErrorVariant "RouterMustSetOriginalSender" 39;
        mkErrorVariant "CannotSendZeroTokens" 40;
        mkErrorVariant "CanOnlySendOneTokenPerMessage" 41; mkErrorVariant "UnsupportedToken" 42;
        mkErrorVariant "InvalidDestChainAddress" 43; mkErrorVariant "FeeExceedsMaxAllowed" 44;
        mkErrorVariant "InsufficientFeeTokenAmount" 45;
        mkErrorVariant "TokenReceiverNotAllowed" 46; mkErrorVariant "CursedByRMN" 47;
        mkErrorVariant "RemoteChainNotSupported" 48; mkErrorVariant "SenderNotAllowed" 49;
        mkErrorVariant "InvalidTokenAmount" 50; mkErrorVariant "InvalidReceiverAddress" 51;
        mkErrorVariant "InvalidConfig" 52; mkErrorVariant "InvalidVerifierResultsLength" 53;
        mkErrorVariant "InboundImplementationNotFound" 54;
        mkErrorVariant "OutboundImplementationNotFound" 55; mkErrorVariant "InvalidAddress" 56;
        mkErrorVariant "InvalidChainSelector" 57; mkErrorVariant "InvalidVersion" 58;
        mkErrorVariant "InvalidCCVVersion" 59; mkErrorVariant "OffRampAlreadyExists" 60;
        mkErrorVariant "OffRampMismatch" 61; mkErrorVariant "BadRMNSignal" 62;
        mkErrorVariant "UnsupportedDestinationChain" 63; mkErrorVariant "AlreadyCursed" 64;
        mkErrorVariant "ConfigNotSet" 65; mkErrorVariant "DuplicateOnchainPublicKey" 66;
        mkErrorVariant "InvalidSignerOrder" 67; mkErrorVariant "NotEnoughSigners" 68;
        mkErrorVariant "NotCursed" 69; mkErrorVariant "OutOfOrderSignatures" 70;
        mkErrorVariant "ThresholdNotMet" 71; mkErrorVariant "UnexpectedSigner" 72;
        mkErrorVariant "ZeroValueNotAllowed" 73; mkErrorVariant "SourceChainNotEnabled" 100;
        mkErrorVariant "InvalidSourceChainConfig" 101;
        mkErrorVariant "InvalidOnRampAddress" 102; mkErrorVariant "InvalidOffRampAddress" 103;
        mkErrorVariant "InvalidMessageDestination" 104;
        mkErrorVariant "MessageAlreadyExecuted" 105; mkErrorVariant "InvalidExecutionState" 106;
        mkErrorVariant "CCVLengthMismatch" 107; mkErrorVariant "CCVQuorumNotMet" 108;
        mkErrorVariant "ReceiverError" 109; mkErrorVariant "GasLimitOverrideTooLow" 110;
        mkErrorVariant "InvalidReceiverLength" 111; mkErrorVariant "TokenHandlingError" 112;
        mkErrorVariant "MessageDecodingError" 113; mkErrorVariant "ReceiverDoesNotExist" 114;
        mkErrorVariant "ReceiverNotWasmContract" 115; mkErrorVariant "RequiredCCVMissing" 116;
        mkErrorVariant "InvalidOptionalThreshold" 117;
        mkErrorVariant "OptionalCCVQuorumNotReached" 118;
        mkErrorVariant "NoStateProgressMade" 119;
        mkErrorVariant "OnlyRegistryModuleOrOwner" 201; mkErrorVariant "OnlyAdministrator" 202;
        mkErrorVariant "OnlyPendingAdministrator" 203;
        mkErrorVariant "TokenAlreadyRegistered" 204; mkErrorVariant "InvalidTokenPoolToken" 205;
        mkErrorVariant "PoolTokenMismatch" 301; mkErrorVariant "ChainNotSupported" 302;
        mkErrorVariant "CallerIsNotRamp" 303; mkErrorVariant "InsufficientPoolLiquidity" 304;
        mkErrorVariant "InvalidRemotePoolAddress" 305;
        mkErrorVariant "InvalidRemoteChainConfig" 306;
        mkErrorVariant "InvalidRemoteChainDecimals" 307;
        mkErrorVariant "DecimalAmountOverflow" 308;
        mkErrorVariant "InvalidPoolTokenDecimals" 309; mkErrorVariant "BucketOverfilled" 310;
        mkErrorVariant "TokenMaxCapacityExceeded" 311;
        mkErrorVariant "TokenRateLimitReached" 312; mkErrorVariant "InvalidRateLimitRate" 313;
        mkErrorVariant "DisabledNonZeroRateLimit" 314;
        mkErrorVariant "InvalidRequestedFinality" 315;
        mkErrorVariant "RequestedFinalityCanOnlyHaveOneMode" 316;
        mkErrorVariant "InvalidChainForClient" 317; mkErrorVariant "RouterNotConfigured" 318;
        mkErrorVariant "InvalidSourcePoolAddress" 319;
        mkErrorVariant "DuplicateCCVNotAllowed" 320;
        mkErrorVariant "InvalidTokenTransferFeeConfig" 321;
        mkErrorVariant "InvalidTransferFeeBps" 322;
        mkErrorVariant "InvalidAllowListRequest" 323;
        mkErrorVariant "InvalidFeeCalculation" 801;
        mkErrorVariant "InvalidFeeTokenConversion" 802;
        mkErrorVariant "ZeroFeeAggregatorNotAllowed" 803; mkErrorVariant "ExceedsMaxCCVs" 804;
        mkErrorVariant "CCVNotAllowed" 805; mkErrorVariant "PolicyEngineDetachReverted" 806;
        mkErrorVariant "UnsupportedSelector" 807; mkErrorVariant "ZeroAddressNotAllowed" 808]]
    []
    [mkEnum "PoolHooksPayloadData" [mkEnumVariant "Preflight" EnumVariantTuple 0 false
      [mkField "" "PreflightPayload"];
       mkEnumVariant "Postflight" EnumVariantTuple 0 false [mkField "" "PostflightPayload"]];
     mkEnum "PolicyData" [mkEnumVariant "PoolHooks" EnumVariantTuple 0 false
       [mkField "" "PoolHooksPayloadData"]];
     mkEnum "PolicyValue" [mkEnumVariant "Address" EnumVariantTuple 0 false [mkField "" "soroban_sdk::Address"];
       mkEnumVariant "I128" EnumVariantTuple 0 false [mkField "" "i128"];
       mkEnumVariant "U64" EnumVariantTuple 0 false [mkField "" "u64"];
       mkEnumVariant "U32" EnumVariantTuple 0 false [mkField "" "u32"];
       mkEnumVariant "Bytes" EnumVariantTuple 0 false [mkField "" "soroban_sdk::Bytes"]]].

Definition mcms_interface : Contract :=
  mkGenContract ""
    [mkStruct "Config" [mkField "group_parents" "soroban_sdk::BytesN<32>";
       mkField "group_quorums" "soroban_sdk::BytesN<32>";
       mkField "signers" "soroban_sdk::Vec<Signer>"];
     mkStruct "Signer" [mkField "addr" "soroban_sdk::BytesN<32>"; mkField "group" "u32"; mkField "index" "u32"];
     mkStruct "Signature" [mkField "r" "soroban_sdk::BytesN<32>"; mkField "s" "soroban_sdk::BytesN<32>";
       mkField "v" "u32"];
     mkStruct "StellarOp" [mkField "args_xdr" "soroban_sdk::Bytes"; mkField "encoding_version" "u32";
       mkField "function" "soroban_sdk::Symbol"; mkField "multisig" "soroban_sdk::Address";
       mkField "network_id" "soroban_sdk::BytesN<32>"; mkField "nonce" "u64";
       mkField "target" "soroban_sdk::Address"];
     mkStruct "MerkleProof" [mkField "inner" "soroban_sdk::Vec<soroban_sdk::BytesN<32>>"];
     mkStruct "SignatureVec" [mkField "inner" "soroban_sdk::Vec<Signature>"];
     mkStruct "SignerGroups" [mkField "inner" "soroban_sdk::Vec<u32>"];
     mkStruct "SignerAddresses" [mkField "inner" "soroban_sdk::Vec<soroban_sdk::BytesN<32>>"];
     mkStruct "StellarRootMetadata" [mkField "config_version" "u64"; mkField "encoding_version" "u32";
       mkField "multisig" "soroban_sdk::Address";
       mkField "network_id" "soroban_sdk::BytesN<32>"; mkField "override_previous_root" "bool";
       mkField "post_op_count" "u64"; mkField "pre_op_count" "u64"]]
    [mkFunction "owner" [] "Option<soroban_sdk::Address>" false;
     mkFunction "execute" [mkField "op" "StellarOp"; mkField "proof" "MerkleProof"] "Result<(), McmsError>"
       false;
     mkFunction "upgrade" [mkField "new_wasm_hash" "soroban_sdk::BytesN<32>"] "Result<(), CCIPError>" false;
     mkFunction "get_root" [] "Result<(soroban_sdk::BytesN<32>, u32), McmsError>" false;
     mkFunction "is_owner" [mkField "addr" "soroban_sdk::Address"] "bool" false;
     mkFunction "set_root" [mkField "root" "soroban_sdk::BytesN<32>"; mkField "valid_until" "u32"; mkField
       "metadata" "StellarRootMetadata"; mkField "metadata_proof" "MerkleProof"; mkField "signatures"
         "SignatureVec"] "Result<(), McmsError>" false;
     mkFunction "get_config" [] "Result<Config, McmsError>" false;
     mkFunction "init_owner" [mkField "owner" "soroban_sdk::Address"] "Result<(), CCIPError>" false;
     mkFunction "initialize" [mkField "owner" "soroban_sdk::Address"; mkField "chain_network_id"
       "soroban_sdk::BytesN<32>"; mkField "signer_addresses" "SignerAddresses"; mkField "signer_groups"
         "SignerGroups"; mkField "group_quorums" "soroban_sdk::BytesN<32>"; mkField "group_parents"
           "soroban_sdk::BytesN<32>"; mkField "instance_label" "soroban_sdk::Symbol"] "Result<(), McmsError>"
             false;
     mkFunction "set_config" [mkField "signer_addresses" "SignerAddresses"; mkField "signer_groups"
       "SignerGroups"; mkField "group_quorums" "soroban_sdk::BytesN<32>"; mkField "group_parents"
         "soroban_sdk::BytesN<32>"; mkField "clear_root" "bool"] "Result<(), McmsError>" false;
     mkFunction "get_op_count" [] "Result<u64, McmsError>" false;
     mkFunction "require_owner" [] "Result<soroban_sdk::Address, CCIPError>" false;
     mkFunction "extend_all_ttls" [] "Result<(), McmsError>" false;
     mkFunction "accept_ownership" [] "Result<(), CCIPError>" false;
     mkFunction "chain_network_id" [] "Result<soroban_sdk::BytesN<32>, McmsError>" false;
     mkFunction "get_pending_owner" [] "Option<soroban_sdk::Address>" false;
     mkFunction "get_root_metadata" [] "Result<StellarRootMetadata, McmsError>" false;
     mkFunction "get_config_version" [] "Result<u64, McmsError>" false;
     mkFunction "get_instance_label" [] "Result<soroban_sdk::Symbol, McmsError>" false;
     mkFunction "transfer_ownership" [mkField "new_owner" "soroban_sdk::Address"] "Result<(), CCIPError>" false;
     mkFunction "extend_contract_ttls"
       [mkField "contracts" "soroban_sdk::Vec<soroban_sdk::Address>"; mkField "extend_to" "u32"]
         "Result<(), McmsError>" false;
     mkFunction "cancel_ownership_transfer" [] "Result<(), CCIPError>" false]
    [mkErrorEnum "CCIPError"
       [mkErrorVariant "NotInitialized" 1; mkErrorVariant "AlreadyInitialized" 2;
        mkErrorVariant "Unauthorized" 3; mkErrorVariant "NotOwner" 4;
        mkErrorVariant "NoPendingOwner" 5; mkErrorVariant "CallerNotAuthorized" 6;
        mkErrorVariant "CallerAlreadyAuthorized" 7; mkErrorVariant "CallerNotFound" 8;
        mkErrorVariant "RoleNotGranted" 9; mkErrorVariant "FeatureNotEnabled" 10;
        mkErrorVariant "RoleAlreadyGranted" 11; mkErrorVariant "CannotRenounceRole" 12;
        mkErrorVariant "InvalidVersionTag" 13; mkErrorVariant "InvalidSignatureLength" 14;
        mkErrorVariant "InvalidSignature" 15; mkErrorVariant "InvalidSignatureCount" 16;
        mkErrorVariant "InvalidSignatureThreshold" 17;
        mkErrorVariant "InvalidSignaturePubkey" 18;
        mkErrorVariant "SourceSignersNotConfigured" 19;
        mkErrorVariant "InvalidVerifierResults" 20; mkErrorVariant "ReentrantCall" 21;
        mkErrorVariant "TokenNotSupported" 22; mkErrorVariant "FeeTokenNotSupported" 23;
        mkErrorVariant "NoGasPriceAvailable" 24; mkErrorVariant "DestinationChainNotEnabled" 25;
        mkErrorVariant "InvalidExtraArgsTag" 26; mkErrorVariant "InvalidExtraArgsData" 27;
        mkErrorVariant "MessageGasLimitTooHigh" 28; mkErrorVariant "MessageTooLarge" 29;
        mkErrorVariant "UnsupportedNumberOfTokens" 30;
        mkErrorVariant "InvalidDestChainConfig" 31; mkErrorVariant "MessageFeeTooHigh" 32;
        mkErrorVariant "InvalidStaticConfig" 33; mkErrorVariant "InvalidTokenReceiver" 34;
        mkErrorVariant "SourceTokenDataTooLarge" 35;
        mkErrorVariant "InvalidDestBytesOverhead" 36;
        mkErrorVariant "DestinationChainNotSupported" 37;
        mkErrorVariant "MustBeCalledByRouter" 38;
        mkErrorVariant "RouterMustSetOriginalSender" 39;
        mkErrorVariant "CannotSendZeroTokens" 40;
        mkErrorVariant "CanOnlySendOneTokenPerMessage" 41; mkErrorVariant "UnsupportedToken" 42;
        mkErrorVariant "InvalidDestChainAddress" 43; mkErrorVariant "FeeExceedsMaxAllowed" 44;
        mkErrorVariant "InsufficientFeeTokenAmount" 45;
        mkErrorVariant "TokenReceiverNotAllowed" 46; mkErrorVariant "CursedByRMN" 47;
        mkErrorVariant "RemoteChainNotSupported" 48; mkErrorVariant "SenderNotAllowed" 49;
        mkErrorVariant "InvalidTokenAmount" 50; mkErrorVariant "InvalidReceiverAddress" 51;
        mkErrorVariant "InvalidConfig" 52; mkErrorVariant "InvalidVerifierResultsLength" 53;
        mkErrorVariant "InboundImplementationNotFound" 54;
        mkErrorVariant "OutboundImplementationNotFound" 55; mkErrorVariant "InvalidAddress" 56;
        mkErrorVariant "InvalidChainSelector" 57; mkErrorVariant "InvalidVersion" 58;
        mkErrorVariant "InvalidCCVVersion" 59; mkErrorVariant "OffRampAlreadyExists" 60;
        mkErrorVariant "OffRampMismatch" 61; mkErrorVariant "BadRMNSignal" 62;
        mkErrorVariant "UnsupportedDestinationChain" 63; mkErrorVariant "AlreadyCursed" 64;
        mkErrorVariant "ConfigNotSet" 65; mkErrorVariant "DuplicateOnchainPublicKey" 66;
        mkErrorVariant "InvalidSignerOrder" 67; mkErrorVariant "NotEnoughSigners" 68;
        mkErrorVariant "NotCursed" 69; mkErrorVariant "OutOfOrderSignatures" 70;
        mkErrorVariant "ThresholdNotMet" 71; mkErrorVariant "UnexpectedSigner" 72;
        mkErrorVariant "ZeroValueNotAllowed" 73; mkErrorVariant "SourceChainNotEnabled" 100;
        mkErrorVariant "InvalidSourceChainConfig" 101;
        mkErrorVariant "InvalidOnRampAddress" 102; mkErrorVariant "InvalidOffRampAddress" 103;
        mkErrorVariant "InvalidMessageDestination" 104;
        mkErrorVariant "MessageAlreadyExecuted" 105; mkErrorVariant "InvalidExecutionState" 106;
        mkErrorVariant "CCVLengthMismatch" 107; mkErrorVariant "CCVQuorumNotMet" 108;
        mkErrorVariant "ReceiverError" 109; mkErrorVariant "GasLimitOverrideTooLow" 110;
        mkErrorVariant "InvalidReceiverLength" 111; mkErrorVariant "TokenHandlingError" 112;
        mkErrorVariant "MessageDecodingError" 113; mkErrorVariant "ReceiverDoesNotExist" 114;
        mkErrorVariant "ReceiverNotWasmContract" 115; mkErrorVariant "RequiredCCVMissing" 116;
        mkErrorVariant "InvalidOptionalThreshold" 117;
        mkErrorVariant "OptionalCCVQuorumNotReached" 118;
        mkErrorVariant "NoStateProgressMade" 119;
        mkErrorVariant "OnlyRegistryModuleOrOwner" 201; mkErrorVariant "OnlyAdministrator" 202;
        mkErrorVariant "OnlyPendingAdministrator" 203;
        mkErrorVariant "TokenAlreadyRegistered" 204; mkErrorVariant "InvalidTokenPoolToken" 205;
        mkErrorVariant "PoolTokenMismatch" 301; mkErrorVariant "ChainNotSupported" 302;
        mkErrorVariant "CallerIsNotRamp" 303; mkErrorVariant "InsufficientPoolLiquidity" 304;
        mkErrorVariant "InvalidRemotePoolAddress" 305;
        mkErrorVariant "InvalidRemoteChainConfig" 306;
        mkErrorVariant "InvalidRemoteChainDecimals" 307;
        mkErrorVariant "DecimalAmountOverflow" 308;
        mkErrorVariant "InvalidPoolTokenDecimals" 309; mkErrorVariant "BucketOverfilled" 310;
        mkErrorVariant "TokenMaxCapacityExceeded" 311;
        mkErrorVariant "TokenRateLimitReached" 312; mkErrorVariant "InvalidRateLimitRate" 313;
        mkErrorVariant "DisabledNonZeroRateLimit" 314;
        mkErrorVariant "InvalidRequestedFinality" 315;
        mkErrorVariant "RequestedFinalityCanOnlyHaveOneMode" 316;
        mkErrorVariant "InvalidChainForClient" 317; mkErrorVariant "RouterNotConfigured" 318;
        mkErrorVariant "InvalidSourcePoolAddress" 319;
        mkErrorVariant "DuplicateCCVNotAllowed" 320;
        mkErrorVariant "InvalidTokenTransferFeeConfig" 321;
        mkErrorVariant "InvalidTransferFeeBps" 322;
        mkErrorVariant "InvalidAllowListRequest" 323;
        mkErrorVariant "InvalidFeeCalculation" 801;
        mkErrorVariant "InvalidFeeTokenConversion" 802;
        mkErrorVariant "ZeroFeeAggregatorNotAllowed" 803; mkErrorVariant "ExceedsMaxCCVs" 804;
        mkErrorVariant "CCVNotAllowed" 805; mkErrorVariant "PolicyEngineDetachReverted" 806;
        mkErrorVariant "UnsupportedSelector" 807; mkErrorVariant "ZeroAddressNotAllowed" 808];
     mkErrorEnum "McmsError"
       [mkErrorVariant "NotInitialized" 1; mkErrorVariant "AlreadyInitialized" 2;
        mkErrorVariant "NotOwner" 3; mkErrorVariant "OutOfBoundsNumOfSigners" 10;
        mkErrorVariant "SignerGroupsLengthMismatch" 11; mkErrorVariant "OutOfBoundsGroup" 12;
        mkErrorVariant "GroupTreeNotWellFormed" 13; mkErrorVariant "OutOfBoundsGroupQuorum" 14;
        mkErrorVariant "SignerInDisabledGroup" 15;
        mkErrorVariant "SignersAddressesMustBeStrictlyIncreasing" 16;
        mkErrorVariant "SignedHashAlreadySeen" 20;
        mkErrorVariant "SignersAddressesMustBeStrictlyIncreasingSigs" 21;
        mkErrorVariant "InvalidSigner" 22; mkErrorVariant "MissingConfig" 23;
        mkErrorVariant "InsufficientSigners" 24; mkErrorVariant "ValidUntilHasAlreadyPassed" 25;
        mkErrorVariant "ProofCannotBeVerified" 26; mkErrorVariant "WrongChainIdMeta" 27;
        mkErrorVariant "WrongMultiSigMeta" 28; mkErrorVariant "PendingOps" 29;
        mkErrorVariant "WrongPreOpCount" 30; mkErrorVariant "WrongPostOpCount" 31;
        mkErrorVariant "PostOpCountReached" 40; mkErrorVariant "WrongChainIdOp" 41;
        mkErrorVariant "WrongMultiSigOp" 42; mkErrorVariant "RootExpired" 43;
        mkErrorVariant "WrongNonce" 44; mkErrorVariant "CallReverted" 45;
        mkErrorVariant "InvalidSignature" 46; mkErrorVariant "InvalidSignatureEncoding" 47;
        mkErrorVariant "NonceOverflow" 48; mkErrorVariant "InvalidUint40" 49;
        mkErrorVariant "InvalidInvokeData" 50; mkErrorVariant "NonZeroValue" 51;
        mkErrorVariant "MissingRootMetadata" 52; mkErrorVariant "ValidUntilExceedsMaximum" 53;
        mkErrorVariant "InvalidMinSecsPerLedger" 54; mkErrorVariant "CallAborted" 55;
        mkErrorVariant "UnsupportedEncodingVersion" 56;
        mkErrorVariant "ConfigVersionMismatch" 57; mkErrorVariant "InvalidTarget" 58;
        mkErrorVariant "InvalidMultisig" 59; mkErrorVariant "InvalidArgsXdr" 60;
        mkErrorVariant "ConfigVersionOverflow" 61]]
    [mkGenEvent "RoleGrantedEvent" ["auth_RoleGranted"]
       [mkEventField (mkField "role" "soroban_sdk::Symbol") false;
        mkEventField (mkField "account" "soroban_sdk::Address") false;
        mkEventField (mkField "sender" "soroban_sdk::Address") false];
     mkGenEvent "RoleRevokedEvent" ["auth_RoleRevoked"]
       [mkEventField (mkField "role" "soroban_sdk::Symbol") false;
        mkEventField (mkField "account" "soroban_sdk::Address") false;
        mkEventField (mkField "sender" "soroban_sdk::Address") false];
     mkGenEvent "AuthorizedCallerAddedEvent" ["auth_CallerAdded"]
       [mkEventField (mkField "caller" "soroban_sdk::Address") false];
     mkGenEvent "AuthorizedCallerRemovedEvent" ["auth_CallerRemoved"]
       [mkEventField (mkField "caller" "soroban_sdk::Address") false];
     mkGenEvent "OwnershipTransferStartedEvent" ["auth_OwnerTransferStart"]
       [mkEventField (mkField "previous_owner" "soroban_sdk::Address") false;
        mkEventField (mkField "new_owner" "soroban_sdk::Address") false];
     mkGenEvent "NewRootEvent" ["mcms_NewRoot"]
       [mkEventField (mkField "root" "soroban_sdk::BytesN<32>") false;
        mkEventField (mkField "valid_until" "u32") false;
        mkEventField (mkField "metadata" "StellarRootMetadata") false];
     mkGenEvent "ConfigSetEvent" ["mcms_ConfigSet"]
       [mkEventField (mkField "config" "Config") false;
        mkEventField (mkField "config_version" "u64") false;
        mkEventField (mkField "is_root_cleared" "bool") false];
     mkGenEvent "OpExecutedEvent" ["mcms_OpExecuted"]
       [mkEventField (mkField "nonce" "u64") false;
        mkEventField (mkField "target" "soroban_sdk::Address") false;
        mkEventField (mkField "function" "soroban_sdk::Symbol") false;
        mkEventField (mkField "args_hash" "soroban_sdk::BytesN<32>") false]]
    [].

Definition timelock_interface : Contract :=
  mkGenContract ""
    [mkStruct "Call" [mkField "args_xdr" "soroban_sdk::Bytes"; mkField "function" "soroban_sdk::Symbol";
       mkField "target" "soroban_sdk::Address"];
     mkStruct "Calls" [mkField "inner" "soroban_sdk::Vec<Call>"];
     mkStruct "BlockedFunction" [mkField "function" "soroban_sdk::Symbol"; mkField "target"
       "soroban_sdk::Address"]]
    [mkFunction "cancel" [mkField "caller" "soroban_sdk::Address"; mkField "id" "soroban_sdk::BytesN<32>"]
      "Result<(), TimelockError>" false;
     mkFunction "upgrade" [mkField "caller" "soroban_sdk::Address"; mkField "new_wasm_hash"
       "soroban_sdk::BytesN<32>"] "Result<(), TimelockError>" false;
     mkFunction "has_role" [mkField "role" "soroban_sdk::Symbol"; mkField "account" "soroban_sdk::Address"]
       "Result<bool, TimelockError>" false;
     mkFunction "grant_role" [mkField "caller" "soroban_sdk::Address"; mkField "role" "soroban_sdk::Symbol";
       mkField "account" "soroban_sdk::Address"] "Result<(), TimelockError>" false;
     mkFunction "initialize" [mkField "min_delay" "u64"; mkField "proposers"
       "soroban_sdk::Vec<soroban_sdk::Address>"; mkField "cancellers" "soroban_sdk::Vec<soroban_sdk::Address>";
         mkField "bypassers" "soroban_sdk::Vec<soroban_sdk::Address>"] "Result<(), TimelockError>" false;
     mkFunction "revoke_role" [mkField "caller" "soroban_sdk::Address"; mkField "role" "soroban_sdk::Symbol";
       mkField "account" "soroban_sdk::Address"] "Result<(), TimelockError>" false;
     mkFunction "is_operation" [mkField "id" "soroban_sdk::BytesN<32>"] "bool" false;
     mkFunction "update_delay" [mkField "caller" "soroban_sdk::Address"; mkField "new_delay" "u64"]
       "Result<(), TimelockError>" false;
     mkFunction "execute_batch" [mkField "calls" "Calls"; mkField "predecessor" "soroban_sdk::BytesN<32>";
       mkField "salt" "soroban_sdk::BytesN<32>"] "Result<(), TimelockError>" false;
     mkFunction "get_min_delay" [] "u64" false;
     mkFunction "get_timestamp" [mkField "id" "soroban_sdk::BytesN<32>"] "u64" false;
     mkFunction "renounce_role" [mkField "account" "soroban_sdk::Address"; mkField "role"
       "soroban_sdk::Symbol"] "Result<(), TimelockError>" false;
     mkFunction "block_function" [mkField "caller" "soroban_sdk::Address"; mkField "target"
       "soroban_sdk::Address"; mkField "function" "soroban_sdk::Symbol"] "Result<(), TimelockError>" false;
     mkFunction "schedule_batch" [mkField "caller" "soroban_sdk::Address"; mkField "calls" "Calls"; mkField
       "predecessor" "soroban_sdk::BytesN<32>"; mkField "salt" "soroban_sdk::BytesN<32>"; mkField "delay"
         "u64"] "Result<(), TimelockError>" false;
     mkFunction "extend_all_ttls" [] "Result<(), TimelockError>" false;
     mkFunction "get_role_member" [mkField "role" "soroban_sdk::Symbol"; mkField "index" "u32"]
       "Result<soroban_sdk::Address, TimelockError>" false;
     mkFunction "unblock_function" [mkField "caller" "soroban_sdk::Address"; mkField "target"
       "soroban_sdk::Address"; mkField "function" "soroban_sdk::Symbol"] "Result<(), TimelockError>" false;
     mkFunction "is_operation_done" [mkField "id" "soroban_sdk::BytesN<32>"] "bool" false;
     mkFunction "extend_op_time_ttl" [mkField "id" "soroban_sdk::BytesN<32>"] "Result<(), TimelockError>" false;
     mkFunction "is_operation_ready" [mkField "id" "soroban_sdk::BytesN<32>"] "bool" false;
     mkFunction "is_function_blocked"
       [mkField "target" "soroban_sdk::Address"; mkField "function" "soroban_sdk::Symbol"]
         "Result<bool, TimelockError>" false;
     mkFunction "hash_operation_batch"
       [mkField "calls" "Calls"; mkField "predecessor" "soroban_sdk::BytesN<32>"; mkField "salt"
         "soroban_sdk::BytesN<32>"] "Result<soroban_sdk::BytesN<32>, TimelockError>" false;
     mkFunction "is_operation_pending" [mkField "id" "soroban_sdk::BytesN<32>"] "bool" false;
     mkFunction "get_role_member_count" [mkField "role" "soroban_sdk::Symbol"] "Result<u32, TimelockError>"
       false;
     mkFunction "bypasser_execute_batch" [mkField "caller" "soroban_sdk::Address"; mkField "calls" "Calls"]
       "Result<(), TimelockError>" false;
     mkFunction "get_blocked_function_at" [mkField "index" "u32"] "Result<BlockedFunction, TimelockError>"
       false;
     mkFunction "get_blocked_function_count" [] "u32" false]
    [mkErrorEnum "TimelockError"
       [mkErrorVariant "NotInitialized" 1; mkErrorVariant "AlreadyInitialized" 2;
        mkErrorVariant "NotAuthorized" 3; mkErrorVariant "OperationAlreadyScheduled" 20;
        mkErrorVariant "InsufficientDelay" 21; mkErrorVariant "FunctionIsBlocked" 22;
        mkErrorVariant "OperationNotReady" 30; mkErrorVariant "MissingPredecessor" 31;
        mkErrorVariant "CallReverted" 32; mkErrorVariant "CallAborted" 33;
        mkErrorVariant "OperationCannotBeCancelled" 40; mkErrorVariant "InvalidInvokeData" 50;
        mkErrorVariant "IndexOutOfBounds" 51; mkErrorVariant "UnknownRole" 52;
        mkErrorVariant "InvalidTarget" 53; mkErrorVariant "InvalidArgsXdr" 54;
        mkErrorVariant "EmptyBatch" 55; mkErrorVariant "UnsupportedSelfCall" 56]]
    [mkGenEvent "UpgradedEvent" ["tl_Upgraded"]
       [mkEventField (mkField "new_wasm_hash" "soroban_sdk::BytesN<32>") false];
     mkGenEvent "CancelledEvent" ["tl_Cancelled"]
       [mkEventField (mkField "id" "soroban_sdk::BytesN<32>") false];
     mkGenEvent "RoleGrantedEvent" ["tl_RoleGranted"]
       [mkEventField (mkField "role" "soroban_sdk::Symbol") false;
        mkEventField (mkField "account" "soroban_sdk::Address") false;
        mkEventField (mkField "sender" "soroban_sdk::Address") false];
     mkGenEvent "RoleRevokedEvent" ["tl_RoleRevoked"]
       [mkEventField (mkField "role" "soroban_sdk::Symbol") false;
        mkEventField (mkField "account" "soroban_sdk::Address") false;
        mkEventField (mkField "sender" "soroban_sdk::Address") false];
     mkGenEvent "CallExecutedEvent" ["tl_CallExecuted"]
       [mkEventField (mkField "id" "soroban_sdk::BytesN<32>") false;
        mkEventField (mkField "index" "u32") false;
        mkEventField (mkField "target" "soroban_sdk::Address") false;
        mkEventField (mkField "function" "soroban_sdk::Symbol") false;
        mkEventField (mkField "args_hash" "soroban_sdk::BytesN<32>") false];
     mkGenEvent "CallScheduledEvent" ["tl_CallScheduled"]
       [mkEventField (mkField "id" "soroban_sdk::BytesN<32>") false;
        mkEventField (mkField "index" "u32") false;
        mkEventField (mkField "target" "soroban_sdk::Address") false;
        mkEventField (mkField "function" "soroban_sdk::Symbol") false;
        mkEventField (mkField "args_hash" "soroban_sdk::BytesN<32>") false;
        mkEventField (mkField "predecessor" "soroban_sdk::BytesN<32>") false;
        mkEventField (mkField "salt" "soroban_sdk::BytesN<32>") false;
        mkEventField (mkField "delay" "u64") false];
     mkGenEvent "MinDelayChangeEvent" ["tl_MinDelay"]
       [mkEventField (mkField "old_duration" "u64") false;
        mkEventField (mkField "new_duration" "u64") false];
     mkGenEvent "FunctionBlockedEvent" ["tl_FnBlocked"]
       [mkEventField (mkField "target" "soroban_sdk::Address") false;
        mkEventField (mkField "function" "soroban_sdk::Symbol") false];
     mkGenEvent "FunctionUnblockedEvent" ["tl_FnUnblocked"]
       [mkEventField (mkField "target" "soroban_sdk::Address") false;
        mkEventField (mkField "function" "soroban_sdk::Symbol") false];
     mkGenEvent "BypasserCallExecutedEvent" ["tl_BypCallExec"]
       [mkEventField (mkField "index" "u32") false;
        mkEventField (mkField "target" "soroban_sdk::Address") false;
        mkEventField (mkField "function" "soroban_sdk::Symbol") false;
        mkEventField (mkField "args_hash" "soroban_sdk::BytesN<32>") false]]
    [].

Definition cre_interface : Contract :=
  mkGenContract ""
    [mkStruct "Ed25519Signature" [mkField "public_key" "soroban_sdk::BytesN<32>";
       mkField "signature" "soroban_sdk::BytesN<64>"];
     mkStruct "TransmissionInfo" [mkField "state" "TransmissionState";
       mkField "transmitter" "Option<soroban_sdk::Address>"]]
    [mkFunction "owner" [] "Option<soroban_sdk::Address>" false;
     mkFunction "relay" [mkField "transmitter" "soroban_sdk::Address"; mkField "receiver"
       "soroban_sdk::Address"; mkField "execution_id" "soroban_sdk::BytesN<32>"; mkField "payload"
         "soroban_sdk::Bytes"] "Result<bool, ForwarderError>" false;
     mkFunction "report" [mkField "transmitter" "soroban_sdk::Address"; mkField "receiver"
       "soroban_sdk::Address"; mkField "raw_report" "soroban_sdk::Bytes"; mkField "report_context"
         "soroban_sdk::Bytes"; mkField "signatures" "soroban_sdk::Vec<Ed25519Signature>"]
           "Result<(), ForwarderError>" false;
     mkFunction "is_owner" [mkField "addr" "soroban_sdk::Address"] "bool" false;
     mkFunction "init_owner" [mkField "owner" "soroban_sdk::Address"] "Result<(), CCIPError>" false;
     mkFunction "initialize" [mkField "owner" "soroban_sdk::Address"] "Result<(), ForwarderError>" false;
     mkFunction "set_config" [mkField "don_id" "u32"; mkField "config_version" "u32"; mkField "f" "u32";
       mkField "signers" "soroban_sdk::Vec<soroban_sdk::BytesN<32>>"] "Result<(), ForwarderError>" false;
     mkFunction "add_relayer" [mkField "relayer" "soroban_sdk::Address"] "Result<(), ForwarderError>" false;
     mkFunction "clear_config" [mkField "don_id" "u32"; mkField "config_version" "u32"]
       "Result<(), ForwarderError>" false;
     mkFunction "add_forwarder" [mkField "forwarder" "soroban_sdk::Address"] "Result<(), ForwarderError>" false;
     mkFunction "require_owner" [] "Result<soroban_sdk::Address, CCIPError>" false;
     mkFunction "get_relay_info" [mkField "receiver" "soroban_sdk::Address"; mkField "execution_id"
       "soroban_sdk::BytesN<32>"; mkField "payload_hash" "soroban_sdk::BytesN<32>"]
         "Result<TransmissionInfo, ForwarderError>" false;
     mkFunction "remove_relayer" [mkField "relayer" "soroban_sdk::Address"] "Result<(), ForwarderError>" false;
     mkFunction "accept_ownership" [] "Result<(), CCIPError>" false;
     mkFunction "remove_forwarder" [mkField "forwarder" "soroban_sdk::Address"] "Result<(), ForwarderError>"
       false;
     mkFunction "type_and_version" [] "soroban_sdk::String" false;
     mkFunction "get_pending_owner" [] "Option<soroban_sdk::Address>" false;
     mkFunction "transfer_ownership" [mkField "new_owner" "soroban_sdk::Address"] "Result<(), CCIPError>" false;
     mkFunction "get_transmission_info"
       [mkField "receiver" "soroban_sdk::Address"; mkField "workflow_execution_id" "soroban_sdk::BytesN<32>";
         mkField "report_id" "soroban_sdk::BytesN<2>"] "Result<TransmissionInfo, ForwarderError>" false;
     mkFunction "cancel_ownership_transfer" [] "Result<(), CCIPError>" false]
    [mkErrorEnum "CCIPError"
       [mkErrorVariant "NotInitialized" 1; mkErrorVariant "AlreadyInitialized" 2;
        mkErrorVariant "Unauthorized" 3; mkErrorVariant "NotOwner" 4;
        mkErrorVariant "NoPendingOwner" 5; mkErrorVariant "CallerNotAuthorized" 6;
        mkErrorVariant "CallerAlreadyAuthorized" 7; mkErrorVariant "CallerNotFound" 8;
        mkErrorVariant "RoleNotGranted" 9; mkErrorVariant "FeatureNotEnabled" 10;
        mkErrorVariant "RoleAlreadyGranted" 11; mkErrorVariant "CannotRenounceRole" 12;
        mkErrorVariant "InvalidVersionTag" 13; mkErrorVariant "InvalidSignatureLength" 14;
        mkErrorVariant "InvalidSignature" 15; mkErrorVariant "InvalidSignatureCount" 16;
        mkErrorVariant "InvalidSignatureThreshold" 17;
        mkErrorVariant "InvalidSignaturePubkey" 18;
        mkErrorVariant "SourceSignersNotConfigured" 19;
        mkErrorVariant "InvalidVerifierResults" 20; mkErrorVariant "ReentrantCall" 21;
        mkErrorVariant "TokenNotSupported" 22; mkErrorVariant "FeeTokenNotSupported" 23;
        mkErrorVariant "NoGasPriceAvailable" 24; mkErrorVariant "DestinationChainNotEnabled" 25;
        mkErrorVariant "InvalidExtraArgsTag" 26; mkErrorVariant "InvalidExtraArgsData" 27;
        mkErrorVariant "MessageGasLimitTooHigh" 28; mkErrorVariant "MessageTooLarge" 29;
        mkErrorVariant "UnsupportedNumberOfTokens" 30;
        mkErrorVariant "InvalidDestChainConfig" 31; mkErrorVariant "MessageFeeTooHigh" 32;
        mkErrorVariant "InvalidStaticConfig" 33; mkErrorVariant "InvalidTokenReceiver" 34;
        mkErrorVariant "SourceTokenDataTooLarge" 35;
        mkErrorVariant "InvalidDestBytesOverhead" 36;
        mkErrorVariant "DestinationChainNotSupported" 37;
        mkErrorVariant "MustBeCalledByRouter" 38;
        mkErrorVariant "RouterMustSetOriginalSender" 39;
        mkErrorVariant "CannotSendZeroTokens" 40;
        mkErrorVariant "CanOnlySendOneTokenPerMessage" 41; mkErrorVariant "UnsupportedToken" 42;
        mkErrorVariant "InvalidDestChainAddress" 43; mkErrorVariant "FeeExceedsMaxAllowed" 44;
        mkErrorVariant "InsufficientFeeTokenAmount" 45;
        mkErrorVariant "TokenReceiverNotAllowed" 46; mkErrorVariant "CursedByRMN" 47;
        mkErrorVariant "RemoteChainNotSupported" 48; mkErrorVariant "SenderNotAllowed" 49;
        mkErrorVariant "InvalidTokenAmount" 50; mkErrorVariant "InvalidReceiverAddress" 51;
        mkErrorVariant "InvalidConfig" 52; mkErrorVariant "InvalidVerifierResultsLength" 53;
        mkErrorVariant "InboundImplementationNotFound" 54;
        mkErrorVariant "OutboundImplementationNotFound" 55; mkErrorVariant "InvalidAddress" 56;
        mkErrorVariant "InvalidChainSelector" 57; mkErrorVariant "InvalidVersion" 58;
        mkErrorVariant "InvalidCCVVersion" 59; mkErrorVariant "OffRampAlreadyExists" 60;
        mkErrorVariant "OffRampMismatch" 61; mkErrorVariant "BadRMNSignal" 62;
        mkErrorVariant "UnsupportedDestinationChain" 63; mkErrorVariant "AlreadyCursed" 64;
        mkErrorVariant "ConfigNotSet" 65; mkErrorVariant "DuplicateOnchainPublicKey" 66;
        mkErrorVariant "InvalidSignerOrder" 67; mkErrorVariant "NotEnoughSigners" 68;
        mkErrorVariant "NotCursed" 69; mkErrorVariant "OutOfOrderSignatures" 70;
        mkErrorVariant "ThresholdNotMet" 71; mkErrorVariant "UnexpectedSigner" 72;
        mkErrorVariant "ZeroValueNotAllowed" 73; mkErrorVariant "SourceChainNotEnabled" 100;
        mkErrorVariant "InvalidSourceChainConfig" 101;
        mkErrorVariant "InvalidOnRampAddress" 102; mkErrorVariant "InvalidOffRampAddress" 103;
        mkErrorVariant "InvalidMessageDestination" 104;
        mkErrorVariant "MessageAlreadyExecuted" 105; mkErrorVariant "InvalidExecutionState" 106;
        mkErrorVariant "CCVLengthMismatch" 107; mkErrorVariant "CCVQuorumNotMet" 108;
        mkErrorVariant "ReceiverError" 109; mkErrorVariant "GasLimitOverrideTooLow" 110;
        mkErrorVariant "InvalidReceiverLength" 111; mkErrorVariant "TokenHandlingError" 112;
        mkErrorVariant "MessageDecodingError" 113; mkErrorVariant "ReceiverDoesNotExist" 114;
        mkErrorVariant "ReceiverNotWasmContract" 115; mkErrorVariant "RequiredCCVMissing" 116;
        mkErrorVariant "InvalidOptionalThreshold" 117;
        mkErrorVariant "OptionalCCVQuorumNotReached" 118;
        mkErrorVariant "NoStateProgressMade" 119;
        mkErrorVariant "OnlyRegistryModuleOrOwner" 201; mkErrorVariant "OnlyAdministrator" 202;
        mkErrorVariant "OnlyPendingAdministrator" 203;
        mkErrorVariant "TokenAlreadyRegistered" 204; mkErrorVariant "InvalidTokenPoolToken" 205;
        mkErrorVariant "PoolTokenMismatch" 301; mkErrorVariant "ChainNotSupported" 302;
        mkErrorVariant "CallerIsNotRamp" 303; mkErrorVariant "InsufficientPoolLiquidity" 304;
        mkErrorVariant "InvalidRemotePoolAddress" 305;
        mkErrorVariant "InvalidRemoteChainConfig" 306;
        mkErrorVariant "InvalidRemoteChainDecimals" 307;
        mkErrorVariant "DecimalAmountOverflow" 308;
        mkErrorVariant "InvalidPoolTokenDecimals" 309; mkErrorVariant "BucketOverfilled" 310;
        mkErrorVariant "TokenMaxCapacityExceeded" 311;
        mkErrorVariant "TokenRateLimitReached" 312; mkErrorVariant "InvalidRateLimitRate" 313;
        mkErrorVariant "DisabledNonZeroRateLimit" 314;
        mkErrorVariant "InvalidRequestedFinality" 315;
        mkErrorVariant "RequestedFinalityCanOnlyHaveOneMode" 316;
        mkErrorVariant "InvalidChainForClient" 317; mkErrorVariant "RouterNotConfigured" 318;
        mkErrorVariant "InvalidSourcePoolAddress" 319;
        mkErrorVariant "DuplicateCCVNotAllowed" 320;
        mkErrorVariant "InvalidTokenTransferFeeConfig" 321;
        mkErrorVariant "InvalidTransferFeeBps" 322;
        mkErrorVariant "InvalidAllowListRequest" 323;
        mkErrorVariant "InvalidFeeCalculation" 801;
        mkErrorVariant "InvalidFeeTokenConversion" 802;
        mkErrorVariant "ZeroFeeAggregatorNotAllowed" 803; mkErrorVariant "ExceedsMaxCCVs" 804;
        mkErrorVariant "CCVNotAllowed" 805; mkErrorVariant "PolicyEngineDetachReverted" 806;
        mkErrorVariant "UnsupportedSelector" 807; mkErrorVariant "ZeroAddressNotAllowed" 808];
     mkErrorEnum "ForwarderError"
       [mkErrorVariant "AlreadyInitialized" 1; mkErrorVariant "InvalidReport" 2;
        mkErrorVariant "InvalidReportContext" 3; mkErrorVariant "InvalidReportVersion" 4;
        mkErrorVariant "FaultToleranceMustBePositive" 5; mkErrorVariant "ExcessSigners" 6;
        mkErrorVariant "InsufficientSigners" 7; mkErrorVariant "InvalidConfig" 8;
        mkErrorVariant "InvalidSignatureCount" 9; mkErrorVariant "DuplicateSigner" 10;
        mkErrorVariant "InvalidSignature" 11; mkErrorVariant "InvalidSignerOrder" 12;
        mkErrorVariant "AlreadyProcessed" 13; mkErrorVariant "NotOwner" 14;
        mkErrorVariant "NotProposedOwner" 15; mkErrorVariant "Uninitialized" 16;
        mkErrorVariant "UnauthorizedForwarder" 17; mkErrorVariant "InvalidReceiver" 18;
        mkErrorVariant "InvalidSigner" 19; mkErrorVariant "CannotRemoveSelf" 20;
        mkErrorVariant "UnauthorizedRelayer" 21]]
    [mkGenEvent "RoleGrantedEvent" ["auth_RoleGranted"]
       [mkEventField (mkField "role" "soroban_sdk::Symbol") false;
        mkEventField (mkField "account" "soroban_sdk::Address") false;
        mkEventField (mkField "sender" "soroban_sdk::Address") false];
     mkGenEvent "RoleRevokedEvent" ["auth_RoleRevoked"]
       [mkEventField (mkField "role" "soroban_sdk::Symbol") false;
        mkEventField (mkField "account" "soroban_sdk::Address") false;
        mkEventField (mkField "sender" "soroban_sdk::Address") false];
     mkGenEvent "AuthorizedCallerAddedEvent" ["auth_CallerAdded"]
       [mkEventField (mkField "caller" "soroban_sdk::Address") false];
     mkGenEvent "AuthorizedCallerRemovedEvent" ["auth_CallerRemoved"]
       [mkEventField (mkField "caller" "soroban_sdk::Address") false];
     mkGenEvent "OwnershipTransferStartedEvent" ["auth_OwnerTransferStart"]
       [mkEventField (mkField "previous_owner" "soroban_sdk::Address") false;
        mkEventField (mkField "new_owner" "soroban_sdk::Address") false];
     mkGenEvent "ConfigSetEvent" ["forwarder_ConfigSet"]
       [mkEventField (mkField "don_id" "u32") true;
        mkEventField (mkField "config_version" "u32") true;
        mkEventField (mkField "f" "u32") false;
        mkEventField (mkField "signers" "soroban_sdk::Vec<soroban_sdk::BytesN<32>>") false];
     mkGenEvent "RelayerAddedEvent" ["forwarder_RelayerAdded"]
       [mkEventField (mkField "relayer" "soroban_sdk::Address") false];
     mkGenEvent "ForwarderAddedEvent" ["forwarder_ForwarderAdded"]
       [mkEventField (mkField "forwarder" "soroban_sdk::Address") false];
     mkGenEvent "RelayerRemovedEvent" ["forwarder_RelayerRemoved"]
       [mkEventField (mkField "relayer" "soroban_sdk::Address") false];
     mkGenEvent "RelayProcessedEvent" ["forwarder_RelayProcessed"]
       [mkEventField (mkField "receiver" "soroban_sdk::Address") true;
        mkEventField (mkField "execution_id" "soroban_sdk::BytesN<32>") true;
        mkEventField (mkField "payload_hash" "soroban_sdk::BytesN<32>") true;
        mkEventField (mkField "state" "TransmissionState") false];
     mkGenEvent "ReportProcessedEvent" ["forwarder_ReportProcessed"]
       [mkEventField (mkField "receiver" "soroban_sdk::Address") true;
        mkEventField (mkField "workflow_execution_id" "soroban_sdk::BytesN<32>") true;
        mkEventField (mkField "report_id" "soroban_sdk::BytesN<2>") true;
        mkEventField (mkField "success" "bool") false];
     mkGenEvent "ForwarderRemovedEvent" ["forwarder_ForwarderRemoved"]
       [mkEventField (mkField "forwarder" "soroban_sdk::Address") false]]
    [mkEnum "TransmissionState" [mkEnumVariant "NotAttempted" EnumVariantUnit 0 true [];
       mkEnumVariant "Succeeded" EnumVariantUnit 1 true [];
       mkEnumVariant "InvalidReceiver" EnumVariantUnit 2 true [];
       mkEnumVariant "Failed" EnumVariantUnit 3 true []]].

Definition cre_mock_forwarder_interface : Contract :=
  mkGenContract ""
    [mkStruct "Ed25519Signature" [mkField "public_key" "soroban_sdk::BytesN<32>";
       mkField "signature" "soroban_sdk::BytesN<64>"];
     mkStruct "TransmissionInfo" [mkField "state" "TransmissionState";
       mkField "transmitter" "Option<soroban_sdk::Address>"]]
    [mkFunction "report" [mkField "transmitter" "soroban_sdk::Address"; mkField "receiver"
      "soroban_sdk::Address"; mkField "raw_report" "soroban_sdk::Bytes"; mkField "report_context"
        "soroban_sdk::Bytes"; mkField "signatures" "soroban_sdk::Vec<Ed25519Signature>"]
          "Result<(), MockForwarderError>" false;
     mkFunction "type_and_version" [] "soroban_sdk::String" false;
     mkFunction "get_transmission_info"
       [mkField "receiver" "soroban_sdk::Address"; mkField "workflow_execution_id" "soroban_sdk::BytesN<32>";
         mkField "report_id" "soroban_sdk::BytesN<2>"] "TransmissionInfo" false]
    [mkErrorEnum "MockForwarderError"
       [mkErrorVariant "InvalidReport" 2; mkErrorVariant "InvalidReportContext" 3;
        mkErrorVariant "InvalidReportVersion" 4; mkErrorVariant "AlreadyProcessed" 13;
        mkErrorVariant "InvalidReceiver" 18]]
    [mkGenEvent "ReportProcessedEvent" ["forwarder_ReportProcessed"]
       [mkEventField (mkField "receiver" "soroban_sdk::Address") true;
        mkEventField (mkField "workflow_execution_id" "soroban_sdk::BytesN<32>") true;
        mkEventField (mkField "report_id" "soroban_sdk::BytesN<2>") true;
        mkEventField (mkField "success" "bool") false]]
    [mkEnum "TransmissionState" [mkEnumVariant "NotAttempted" EnumVariantUnit 0 true [];
       mkEnumVariant "Succeeded" EnumVariantUnit 1 true [];
       mkEnumVariant "InvalidReceiver" EnumVariantUnit 2 true [];
       mkEnumVariant "Failed" EnumVariantUnit 3 true []]].

Definition data_feeds_cache_interface : Contract :=
  mkGenContract ""
    [mkStruct "RoundData" [mkField "answer" "soroban_sdk::I256"; mkField "ledger_seq" "u32";
       mkField "primary" "bool"; mkField "round_id" "u64"; mkField "timestamp" "u64"];
     mkStruct "FeedConfig" [mkField "description" "soroban_sdk::String";
       mkField "workflow_permissions" "soroban_sdk::Vec<WorkflowPermission>"];
     mkStruct "FeedConfigEntry" [mkField "config" "FeedConfig"; mkField "data_id" "soroban_sdk::BytesN<32>"];
     mkStruct "WorkflowPermission" [mkField "allowed_sender" "soroban_sdk::Address";
       mkField "allowed_workflow_name" "soroban_sdk::BytesN<10>";
       mkField "allowed_workflow_owner" "soroban_sdk::BytesN<20>"]]
    [mkFunction "upgrade" [mkField "new_wasm_hash" "soroban_sdk::BytesN<32>"] "" false;
     mkFunction "version" [] "u32" false;
     mkFunction "decimals" [mkField "data_ids" "soroban_sdk::Vec<soroban_sdk::BytesN<32>>"]
       "Result<soroban_sdk::Vec<Option<u32>>, CacheError>" false;
     mkFunction "get_owner" [] "Option<soroban_sdk::Address>" false;
     mkFunction "get_round" [mkField "data_id" "soroban_sdk::BytesN<32>"; mkField "round_id" "u64"]
       "Result<Option<RoundData>, CacheError>" false;
     mkFunction "is_frozen" [mkField "data_ids" "soroban_sdk::Vec<soroban_sdk::BytesN<32>>"]
       "soroban_sdk::Vec<bool>" false;
     mkFunction "on_report" [mkField "sender" "soroban_sdk::Address"; mkField "metadata" "soroban_sdk::Bytes";
       mkField "report" "soroban_sdk::Bytes"] "Result<(), CacheError>" false;
     mkFunction "find_round" [mkField "data_id" "soroban_sdk::BytesN<32>"; mkField "timestamp" "u64"; mkField
       "bound" "Bound"] "Result<Option<RoundData>, CacheError>" false;
     mkFunction "description" [mkField "data_ids" "soroban_sdk::Vec<soroban_sdk::BytesN<32>>"]
       "Result<soroban_sdk::Vec<Option<soroban_sdk::String>>, CacheError>" false;
     mkFunction "round_range" [mkField "data_id" "soroban_sdk::BytesN<32>"; mkField "from" "u64"; mkField "to"
       "u64"] "Result<soroban_sdk::Vec<RoundData>, CacheError>" false;
     mkFunction "latest_round" [mkField "data_ids" "soroban_sdk::Vec<soroban_sdk::BytesN<32>>"]
       "Result<soroban_sdk::Vec<Option<RoundData>>, CacheError>" false;
     mkFunction "is_configured" [mkField "data_ids" "soroban_sdk::Vec<soroban_sdk::BytesN<32>>"]
       "Result<soroban_sdk::Vec<bool>, CacheError>" false;
     mkFunction "is_feed_admin" [mkField "admin" "soroban_sdk::Address"] "bool" false;
     mkFunction "add_feed_admin" [mkField "new_admin" "soroban_sdk::Address"] "Result<(), CacheError>" false;
     mkFunction "has_permission" [mkField "data_id" "soroban_sdk::BytesN<32>"; mkField "sender"
       "soroban_sdk::Address"; mkField "workflow_owner" "soroban_sdk::BytesN<20>"; mkField "workflow_name"
         "soroban_sdk::BytesN<10>"] "bool" false;
     mkFunction "recover_tokens" [mkField "token" "soroban_sdk::Address"; mkField "to" "soroban_sdk::Address";
       mkField "amount" "i128"] "" false;
     mkFunction "set_feed_frozen" [mkField "admin" "soroban_sdk::Address"; mkField "data_ids"
       "soroban_sdk::Vec<soroban_sdk::BytesN<32>>"; mkField "frozen" "bool"] "Result<(), CacheError>" false;
     mkFunction "accept_ownership" [] "" false;
     mkFunction "set_feed_configs" [mkField "admin" "soroban_sdk::Address"; mkField "entries"
       "soroban_sdk::Vec<FeedConfigEntry>"] "Result<(), CacheError>" false;
     mkFunction "type_and_version" [] "soroban_sdk::String" false;
     mkFunction "remove_feed_admin" [mkField "admin" "soroban_sdk::Address"] "Result<(), CacheError>" false;
     mkFunction "renounce_ownership" [] "" false;
     mkFunction "transfer_ownership"
       [mkField "new_owner" "soroban_sdk::Address"; mkField "live_until_ledger" "u32"] "" false;
     mkFunction "remove_feed_configs"
       [mkField "admin" "soroban_sdk::Address"; mkField "data_ids" "soroban_sdk::Vec<soroban_sdk::BytesN<32>>"]
         "Result<(), CacheError>" false;
     mkFunction "get_feed_permissions" [mkField "data_id" "soroban_sdk::BytesN<32>"]
       "soroban_sdk::Vec<WorkflowPermission>" false]
    [mkErrorEnum "CacheError"
       [mkErrorVariant "MalformedReport" 100; mkErrorVariant "UnauthorizedCaller" 101;
        mkErrorVariant "FeedNotConfigured" 102; mkErrorVariant "EmptyConfig" 103;
        mkErrorVariant "InvalidAddress" 104; mkErrorVariant "InvalidWorkflowName" 105;
        mkErrorVariant "DuplicatePermission" 106; mkErrorVariant "InvalidDataId" 107;
        mkErrorVariant "DuplicateFeedConfig" 108; mkErrorVariant "FeedFrozen" 109;
        mkErrorVariant "NoFeedState" 110]]
    [mkGenEvent "FeedUpdated" ["FeedUpdated"]
       [mkEventField (mkField "data_id" "soroban_sdk::BytesN<32>") true;
        mkEventField (mkField "round_id" "u64") false;
        mkEventField (mkField "timestamp" "u64") false;
        mkEventField (mkField "answer" "soroban_sdk::I256") false;
        mkEventField (mkField "ledger_seq" "u32") false;
        mkEventField (mkField "primary" "bool") false];
     mkGenEvent "StaleReport" ["StaleReport"]
       [mkEventField (mkField "data_id" "soroban_sdk::BytesN<32>") true;
        mkEventField (mkField "report_ts" "u64") false;
        mkEventField (mkField "stored_ts" "u64") false];
     mkGenEvent "FeedConfigSet" ["FeedConfigSet"]
       [mkEventField (mkField "data_id" "soroban_sdk::BytesN<32>") true;
        mkEventField (mkField "decimals" "u32") false;
        mkEventField (mkField "description" "soroban_sdk::String") false;
        mkEventField (mkField "workflow_permissions" "soroban_sdk::Vec<WorkflowPermission>") false];
     mkGenEvent "FeedFrozenSet" ["FeedFrozenSet"]
       [mkEventField (mkField "data_id" "soroban_sdk::BytesN<32>") true;
        mkEventField (mkField "frozen" "bool") false];
     mkGenEvent "FeedAdminAdded" ["FeedAdminAdded"]
       [mkEventField (mkField "admin" "soroban_sdk::Address") true];
     mkGenEvent "FeedAdminRemoved" ["FeedAdminRemoved"]
       [mkEventField (mkField "admin" "soroban_sdk::Address") true];
     mkGenEvent "FeedConfigRemoved" ["FeedConfigRemoved"]
       [mkEventField (mkField "data_id" "soroban_sdk::BytesN<32>") true];
     mkGenEvent "InvalidUpdatePermission" ["InvalidUpdatePermission"]
       [mkEventField (mkField "data_id" "soroban_sdk::BytesN<32>") true;
        mkEventField (mkField "sender" "soroban_sdk::Address") false;
        mkEventField (mkField "workflow_owner" "soroban_sdk::BytesN<20>") false;
        mkEventField (mkField "workflow_name" "soroban_sdk::BytesN<10>") false];
     mkGenEvent "Upgraded" ["Upgraded"]
       [mkEventField (mkField "new_wasm_hash" "soroban_sdk::BytesN<32>") false];
     mkGenEvent "TokenRecovered" ["TokenRecovered"]
       [mkEventField (mkField "token" "soroban_sdk::Address") false;
        mkEventField (mkField "to" "soroban_sdk::Address") false;
        mkEventField (mkField "amount" "i128") false];
     mkGenEvent "OwnershipTransfer" ["ownership_transfer"]
       [mkEventField (mkField "old_owner" "soroban_sdk::Address") false;
        mkEventField (mkField "new_owner" "soroban_sdk::Address") false;
        mkEventField (mkField "live_until_ledger" "u32") false];
     mkGenEvent "OwnershipRenounced" ["ownership_renounced"]
       [mkEventField (mkField "old_owner" "soroban_sdk::Address") false];
     mkGenEvent "OwnershipTransferCompleted" ["ownership_transfer_completed"]
       [mkEventField (mkField "new_owner" "soroban_sdk::Address") false]]
    [mkEnum "Bound" [mkEnumVariant "AtOrBefore" EnumVariantUnit 0 true [];
       mkEnumVariant "AtOrAfter" EnumVariantUnit 1 true []]].

Definition data_feeds_proxy_interface : Contract :=
  mkGenContract ""
    [mkStruct "Round" [mkField "answer" "soroban_sdk::I256"; mkField "round_id" "u64";
       mkField "timestamp" "u64"]]
    [mkFunction "upgrade" [mkField "new_wasm_hash" "soroban_sdk::BytesN<32>"] "" false;
     mkFunction "version" [] "u32" false;
     mkFunction "decimals" [mkField "data_id" "soroban_sdk::BytesN<32>"] "Result<u32, ProxyReadError>" false;
     mkFunction "get_cache" [] "soroban_sdk::Address" false;
     mkFunction "get_owner" [] "Option<soroban_sdk::Address>" false;
     mkFunction "get_round" [mkField "data_id" "soroban_sdk::BytesN<32>"; mkField "round_id" "u64"; mkField
       "decimals" "u32"] "Result<Round, ProxyReadError>" false;
     mkFunction "set_cache" [mkField "cache" "soroban_sdk::Address"] "" false;
     mkFunction "description" [mkField "data_id" "soroban_sdk::BytesN<32>"]
       "Result<soroban_sdk::String, ProxyReadError>" false;
     mkFunction "latest_round" [mkField "data_id" "soroban_sdk::BytesN<32>"; mkField "decimals" "u32"]
       "Result<Round, ProxyReadError>" false;
     mkFunction "recover_tokens" [mkField "token" "soroban_sdk::Address"; mkField "to" "soroban_sdk::Address";
       mkField "amount" "i128"] "" false;
     mkFunction "accept_ownership" [] "" false;
     mkFunction "get_min_decimals" [mkField "data_id" "soroban_sdk::BytesN<32>"] "u32" false;
     mkFunction "set_min_decimals" [mkField "data_id" "soroban_sdk::BytesN<32>"; mkField "min" "u32"]
       "Result<(), ProxyReadError>" false;
     mkFunction "type_and_version" [] "soroban_sdk::String" false;
     mkFunction "renounce_ownership" [] "" false;
     mkFunction "transfer_ownership"
       [mkField "new_owner" "soroban_sdk::Address"; mkField "live_until_ledger" "u32"] "" false]
    [mkErrorEnum "ProxyReadError"
       [mkErrorVariant "NoDataPresent" 50; mkErrorVariant "InvalidDecimals" 51;
        mkErrorVariant "RoundsToZero" 52]]
    [mkGenEvent "CacheSet" ["CacheSet"]
       [mkEventField (mkField "old_cache" "soroban_sdk::Address") false;
        mkEventField (mkField "new_cache" "soroban_sdk::Address") false];
     mkGenEvent "MinDecimalsSet" ["MinDecimalsSet"]
       [mkEventField (mkField "data_id" "soroban_sdk::BytesN<32>") true;
        mkEventField (mkField "min" "u32") false];
     mkGenEvent "Upgraded" ["Upgraded"]
       [mkEventField (mkField "new_wasm_hash" "soroban_sdk::BytesN<32>") false];
     mkGenEvent "TokenRecovered" ["TokenRecovered"]
       [mkEventField (mkField "token" "soroban_sdk::Address") false;
        mkEventField (mkField "to" "soroban_sdk::Address") false;
        mkEventField (mkField "amount" "i128") false];
     mkGenEvent "OwnershipTransfer" ["ownership_transfer"]
       [mkEventField (mkField "old_owner" "soroban_sdk::Address") false;
        mkEventField (mkField "new_owner" "soroban_sdk::Address") false;
        mkEventField (mkField "live_until_ledger" "u32") false];
     mkGenEvent "OwnershipRenounced" ["ownership_renounced"]
       [mkEventField (mkField "old_owner" "soroban_sdk::Address") false];
     mkGenEvent "OwnershipTransferCompleted" ["ownership_transfer_completed"]
       [mkEventField (mkField "new_owner" "soroban_sdk::Address") false]]
    [].
