(* ===== verification/BindingsRamps.v ===== *)
(** * Bindings of the ramps

    The checked-in types.go and client.go of the on- and off-ramp, the router, the
    registry of ramps, the fee quoter, the executor and the example receiver.

    Each declaration and each method as the abstract syntax that Bindgen.v gives the
    emitted code and BindgenSem.v runs: a member with its key, its name and type and
    its two conversions; a method with its parameters, results, call and arguments. *)

From S2P Require Import Prelude Bindgen.

(** ** bindings/contracts/onramp *)

Definition onramp_TokenAmount : StructDecl :=
  mkStructDecl "TokenAmount"
    [mkMember "amount" "Amount" TBig (ECall "I128ToScVal") (DCall "I128FromScVal");
     mkMember "token" "Token" TString (ECall "AddressToScVal") (DCall "AddressFromScVal")].

Definition onramp_StellarToAnyMessage : StructDecl :=
  mkStructDecl "StellarToAnyMessage"
    [mkMember "data" "Data" TBytes (ECall "BytesToScVal") (DGet "GetBytes");
     mkMember "extra_args" "ExtraArgs" TBytes (ECall "BytesToScVal") (DGet "GetBytes");
     mkMember "fee_token" "FeeToken" TString (ECall "AddressToScVal") (DCall "AddressFromScVal");
     mkMember "receiver" "Receiver" TBytes (ECall "BytesToScVal") (DGet "GetBytes");
     mkMember "token_amounts" "TokenAmounts" (TSlice (TNamed "TokenAmount")) (ECall "StructSliceToScVal")
       (DVec (TNamed "TokenAmount") (DStruct "TokenAmount"))].

Definition onramp_StaticConfig : StructDecl :=
  mkStructDecl "StaticConfig"
    [mkMember "chain_selector" "ChainSelector" TUint64 (ECall "Uint64ToScVal") (DCall "Uint64FromScVal");
     mkMember "max_usd_cents_per_message" "MaxUsdCentsPerMessage" TUint32 (ECall "Uint32ToScVal")
       (DGet "GetU32");
     mkMember "rmn_proxy" "RmnProxy" TString (ECall "AddressToScVal") (DCall "AddressFromScVal");
     mkMember "token_admin_registry" "TokenAdminRegistry" TString (ECall "AddressToScVal")
       (DCall "AddressFromScVal")].

Definition onramp_DynamicConfig : StructDecl :=
  mkStructDecl "DynamicConfig"
    [mkMember "fee_aggregator" "FeeAggregator" TString (ECall "AddressToScVal") (DCall "AddressFromScVal");
     mkMember "fee_quoter" "FeeQuoter" TString (ECall "AddressToScVal") (DCall "AddressFromScVal")].

Definition onramp_DestChainConfig : StructDecl :=
  mkStructDecl "DestChainConfig"
    [mkMember "address_bytes_length" "AddressBytesLength" TUint32 (ECall "Uint32ToScVal") (DGet "GetU32");
     mkMember "base_execution_gas_cost" "BaseExecutionGasCost" TUint32 (ECall "Uint32ToScVal") (DGet "GetU32");
     mkMember "default_ccvs" "DefaultCcvs" (TSlice TString) (ECall "AddressSliceToScVal")
       (DVec TString (DCall "AddressFromScVal"));
     mkMember "default_executor" "DefaultExecutor" TString (ECall "AddressToScVal") (DCall "AddressFromScVal");
     mkMember "execution_fee_usd_cents" "ExecutionFeeUsdCents" TUint32 (ECall "Uint32ToScVal") (DGet "GetU32");
     mkMember "lane_mandated_ccvs" "LaneMandatedCcvs" (TSlice TString) (ECall "AddressSliceToScVal")
       (DVec TString (DCall "AddressFromScVal"));
     mkMember "message_network_fee_usd_cents" "MessageNetworkFeeUsdCents" TUint32 (ECall "Uint32ToScVal")
       (DGet "GetU32");
     mkMember "message_number" "MessageNumber" TUint64 (ECall "Uint64ToScVal") (DCall "Uint64FromScVal");
     mkMember "off_ramp" "OffRamp" TBytes (ECall "BytesToScVal") (DGet "GetBytes");
     mkMember "router" "Router" TString (ECall "AddressToScVal") (DCall "AddressFromScVal");
     mkMember "token_network_fee_usd_cents" "TokenNetworkFeeUsdCents" TUint32 (ECall "Uint32ToScVal")
       (DGet "GetU32");
     mkMember "token_receiver_allowed" "TokenReceiverAllowed" TBool (ECall "BoolToScVal") (DGet "GetB")].

Definition onramp_DestChainConfigArgs : StructDecl :=
  mkStructDecl "DestChainConfigArgs"
    [mkMember "address_bytes_length" "AddressBytesLength" TUint32 (ECall "Uint32ToScVal") (DGet "GetU32");
     mkMember "base_execution_gas_cost" "BaseExecutionGasCost" TUint32 (ECall "Uint32ToScVal") (DGet "GetU32");
     mkMember "default_ccvs" "DefaultCcvs" (TSlice TString) (ECall "AddressSliceToScVal")
       (DVec TString (DCall "AddressFromScVal"));
     mkMember "default_executor" "DefaultExecutor" TString (ECall "AddressToScVal") (DCall "AddressFromScVal");
     mkMember "dest_chain_selector" "DestChainSelector" TUint64 (ECall "Uint64ToScVal")
       (DCall "Uint64FromScVal");
     mkMember "execution_fee_usd_cents" "ExecutionFeeUsdCents" TUint32 (ECall "Uint32ToScVal") (DGet "GetU32");
     mkMember "lane_mandated_ccvs" "LaneMandatedCcvs" (TSlice TString) (ECall "AddressSliceToScVal")
       (DVec TString (DCall "AddressFromScVal"));
     mkMember "message_network_fee_usd_cents" "MessageNetworkFeeUsdCents" TUint32 (ECall "Uint32ToScVal")
       (DGet "GetU32");
     mkMember "off_ramp" "OffRamp" TBytes (ECall "BytesToScVal") (DGet "GetBytes");
     mkMember "router" "Router" TString (ECall "AddressToScVal") (DCall "AddressFromScVal");
     mkMember "token_network_fee_usd_cents" "TokenNetworkFeeUsdCents" TUint32 (ECall "Uint32ToScVal")
       (DGet "GetU32");
     mkMember "token_receiver_allowed" "TokenReceiverAllowed" TBool (ECall "BoolToScVal") (DGet "GetB")].

Definition onramp_CCIPError : ErrorDecl :=
  mkErrorDecl "CCIPError"
    [("CCIPErrorNotInitialized", 1); ("CCIPErrorAlreadyInitialized", 2);
     ("CCIPErrorUnauthorized", 3); ("CCIPErrorNotOwner", 4); ("CCIPErrorNoPendingOwner", 5);
     ("CCIPErrorCallerNotAuthorized", 6); ("CCIPErrorCallerAlreadyAuthorized", 7);
     ("CCIPErrorCallerNotFound", 8); ("CCIPErrorRoleNotGranted", 9);
     ("CCIPErrorFeatureNotEnabled", 10); ("CCIPErrorRoleAlreadyGranted", 11);
     ("CCIPErrorCannotRenounceRole", 12); ("CCIPErrorInvalidVersionTag", 13);
     ("CCIPErrorInvalidSignatureLength", 14); ("CCIPErrorInvalidSignature", 15);
     ("CCIPErrorInvalidSignatureCount", 16); ("CCIPErrorInvalidSignatureThreshold", 17);
     ("CCIPErrorInvalidSignaturePubkey", 18); ("CCIPErrorSourceSignersNotConfigured", 19);
     ("CCIPErrorInvalidVerifierResults", 20); ("CCIPErrorReentrantCall", 21);
     ("CCIPErrorTokenNotSupported", 22); ("CCIPErrorFeeTokenNotSupported", 23);
     ("CCIPErrorNoGasPriceAvailable", 24); ("CCIPErrorDestinationChainNotEnabled", 25);
     ("CCIPErrorInvalidExtraArgsTag", 26); ("CCIPErrorInvalidExtraArgsData", 27);
     ("CCIPErrorMessageGasLimitTooHigh", 28); ("CCIPErrorMessageTooLarge", 29);
     ("CCIPErrorUnsupportedNumberOfTokens", 30); ("CCIPErrorInvalidDestChainConfig", 31);
     ("CCIPErrorMessageFeeTooHigh", 32); ("CCIPErrorInvalidStaticConfig", 33);
     ("CCIPErrorInvalidTokenReceiver", 34); ("CCIPErrorSourceTokenDataTooLarge", 35);
     ("CCIPErrorInvalidDestBytesOverhead", 36); ("CCIPErrorDestinationChainNotSupported", 37);
     ("CCIPErrorMustBeCalledByRouter", 38); ("CCIPErrorRouterMustSetOriginalSender", 39);
     ("CCIPErrorCannotSendZeroTokens", 40); ("CCIPErrorCanOnlySendOneTokenPerMessage", 41);
     ("CCIPErrorUnsupportedToken", 42); ("CCIPErrorInvalidDestChainAddress", 43);
     ("CCIPErrorFeeExceedsMaxAllowed", 44); ("CCIPErrorInsufficientFeeTokenAmount", 45);
     ("CCIPErrorTokenReceiverNotAllowed", 46); ("CCIPErrorCursedByRMN", 47);
     ("CCIPErrorRemoteChainNotSupported", 48); ("CCIPErrorSenderNotAllowed", 49);
     ("CCIPErrorInvalidTokenAmount", 50); ("CCIPErrorInvalidReceiverAddress", 51);
     ("CCIPErrorInvalidConfig", 52); ("CCIPErrorInvalidVerifierResultsLength", 53);
     ("CCIPErrorInboundImplementationNotFound", 54);
     ("CCIPErrorOutboundImplementationNotFound", 55); ("CCIPErrorInvalidAddress", 56);
     ("CCIPErrorInvalidChainSelector", 57); ("CCIPErrorInvalidVersion", 58);
     ("CCIPErrorInvalidCCVVersion", 59); ("CCIPErrorOffRampAlreadyExists", 60);
     ("CCIPErrorOffRampMismatch", 61); ("CCIPErrorBadRMNSignal", 62);
     ("CCIPErrorUnsupportedDestinationChain", 63); ("CCIPErrorAlreadyCursed", 64);
     ("CCIPErrorConfigNotSet", 65); ("CCIPErrorDuplicateOnchainPublicKey", 66);
     ("CCIPErrorInvalidSignerOrder", 67); ("CCIPErrorNotEnoughSigners", 68);
     ("CCIPErrorNotCursed", 69); ("CCIPErrorOutOfOrderSignatures", 70);
     ("CCIPErrorThresholdNotMet", 71); ("CCIPErrorUnexpectedSigner", 72);
     ("CCIPErrorZeroValueNotAllowed", 73); ("CCIPErrorSourceChainNotEnabled", 100);
     ("CCIPErrorInvalidSourceChainConfig", 101); ("CCIPErrorInvalidOnRampAddress", 102);
     ("CCIPErrorInvalidOffRampAddress", 103); ("CCIPErrorInvalidMessageDestination", 104);
     ("CCIPErrorMessageAlreadyExecuted", 105); ("CCIPErrorInvalidExecutionState", 106);
     ("CCIPErrorCCVLengthMismatch", 107); ("CCIPErrorCCVQuorumNotMet", 108);
     ("CCIPErrorReceiverError", 109); ("CCIPErrorGasLimitOverrideTooLow", 110);
     ("CCIPErrorInvalidReceiverLength", 111); ("CCIPErrorTokenHandlingError", 112);
     ("CCIPErrorMessageDecodingError", 113); ("CCIPErrorReceiverDoesNotExist", 114);
     ("CCIPErrorReceiverNotWasmContract", 115); ("CCIPErrorRequiredCCVMissing", 116);
     ("CCIPErrorInvalidOptionalThreshold", 117); ("CCIPErrorOptionalCCVQuorumNotReached", 118);
     ("CCIPErrorNoStateProgressMade", 119); ("CCIPErrorOnlyRegistryModuleOrOwner", 201);
     ("CCIPErrorOnlyAdministrator", 202); ("CCIPErrorOnlyPendingAdministrator", 203);
     ("CCIPErrorTokenAlreadyRegistered", 204); ("CCIPErrorInvalidTokenPoolToken", 205);
     ("CCIPErrorPoolTokenMismatch", 301); ("CCIPErrorChainNotSupported", 302);
     ("CCIPErrorCallerIsNotRamp", 303); ("CCIPErrorInsufficientPoolLiquidity", 304);
     ("CCIPErrorInvalidRemotePoolAddress", 305); ("CCIPErrorInvalidRemoteChainConfig", 306);
     ("CCIPErrorInvalidRemoteChainDecimals", 307); ("CCIPErrorDecimalAmountOverflow", 308);
     ("CCIPErrorInvalidPoolTokenDecimals", 309); ("CCIPErrorBucketOverfilled", 310);
     ("CCIPErrorTokenMaxCapacityExceeded", 311); ("CCIPErrorTokenRateLimitReached", 312);
     ("CCIPErrorInvalidRateLimitRate", 313); ("CCIPErrorDisabledNonZeroRateLimit", 314);
     ("CCIPErrorInvalidRequestedFinality", 315);
     ("CCIPErrorRequestedFinalityCanOnlyHaveOneMode", 316);
     ("CCIPErrorInvalidChainForClient", 317); ("CCIPErrorRouterNotConfigured", 318);
     ("CCIPErrorInvalidSourcePoolAddress", 319); ("CCIPErrorDuplicateCCVNotAllowed", 320);
     ("CCIPErrorInvalidTokenTransferFeeConfig", 321); ("CCIPErrorInvalidTransferFeeBps", 322);
     ("CCIPErrorInvalidAllowListRequest", 323); ("CCIPErrorInvalidFeeCalculation", 801);
     ("CCIPErrorInvalidFeeTokenConversion", 802); ("CCIPErrorZeroFeeAggregatorNotAllowed", 803);
     ("CCIPErrorExceedsMaxCCVs", 804); ("CCIPErrorCCVNotAllowed", 805);
     ("CCIPErrorPolicyEngineDetachReverted", 806); ("CCIPErrorUnsupportedSelector", 807);
     ("CCIPErrorZeroAddressNotAllowed", 808)]
    [(1, "not initialized"); (2, "already initialized"); (3, "unauthorized"); (4, "not owner");
     (5, "no pending owner"); (6, "caller not authorized"); (7, "caller already authorized");
     (8, "caller not found"); (9, "role not granted"); (10, "feature not enabled");
     (11, "role already granted"); (12, "cannot renounce role"); (13, "invalid version tag");
     (14, "invalid signature length"); (15, "invalid signature");
     (16, "invalid signature count"); (17, "invalid signature threshold");
     (18, "invalid signature pubkey"); (19, "source signers not configured");
     (20, "invalid verifier results"); (21, "reentrant call"); (22, "token not supported");
     (23, "fee token not supported"); (24, "no gas price available");
     (25, "destination chain not enabled"); (26, "invalid extra args tag");
     (27, "invalid extra args data"); (28, "message gas limit too high");
     (29, "message too large"); (30, "unsupported number of tokens");
     (31, "invalid dest chain config"); (32, "message fee too high");
     (33, "invalid static config"); (34, "invalid token receiver");
     (35, "source token data too large"); (36, "invalid dest bytes overhead");
     (37, "destination chain not supported"); (38, "must be called by router");
     (39, "router must set original sender"); (40, "cannot send zero tokens");
     (41, "can only send one token per message"); (42, "unsupported token");
     (43, "invalid dest chain address"); (44, "fee exceeds max allowed");
     (45, "insufficient fee token amount"); (46, "token receiver not allowed");
     (47, "cursed by r m n"); (48, "remote chain not supported"); (49, "sender not allowed");
     (50, "invalid token amount"); (51, "invalid receiver address"); (52, "invalid config");
     (53, "invalid verifier results length"); (54, "inbound implementation not found");
     (55, "outbound implementation not found"); (56, "invalid address");
     (57, "invalid chain selector"); (58, "invalid version"); (59, "invalid c c v version");
     (60, "off ramp already exists"); (61, "off ramp mismatch"); (62, "bad r m n signal");
     (63, "unsupported destination chain"); (64, "already cursed"); (65, "config not set");
     (66, "duplicate onchain public key"); (67, "invalid signer order");
     (68, "not enough signers"); (69, "not cursed"); (70, "out of order signatures");
     (71, "threshold not met"); (72, "unexpected signer"); (73, "zero value not allowed");
     (100, "source chain not enabled"); (101, "invalid source chain config");
     (102, "invalid on ramp address"); (103, "invalid off ramp address");
     (104, "invalid message destination"); (105, "message already executed");
     (106, "invalid execution state"); (107, "c c v length mismatch");
     (108, "c c v quorum not met"); (109, "receiver error");
     (110, "gas limit override too low"); (111, "invalid receiver length");
     (112, "token handling error"); (113, "message decoding error");
     (114, "receiver does not exist"); (115, "receiver not wasm contract");
     (116, "required c c v missing"); (117, "invalid optional threshold");
     (118, "optional c c v quorum not reached"); (119, "no state progress made");
     (201, "only registry module or owner"); (202, "only administrator");
     (203, "only pending administrator"); (204, "token already registered");
     (205, "invalid token pool token"); (301, "pool token mismatch");
     (302, "chain not supported"); (303, "caller is not ramp");
     (304, "insufficient pool liquidity"); (305, "invalid remote pool address");
     (306, "invalid remote chain config"); (307, "invalid remote chain decimals");
     (308, "decimal amount overflow"); (309, "invalid pool token decimals");
     (310, "bucket overfilled"); (311, "token max capacity exceeded");
     (312, "token rate limit reached"); (313, "invalid rate limit rate");
     (314, "disabled non zero rate limit"); (315, "invalid requested finality");
     (316, "requested finality can only have one mode"); (317, "invalid chain for client");
     (318, "router not configured"); (319, "invalid source pool address");
     (320, "duplicate c c v not allowed"); (321, "invalid token transfer fee config");
     (322, "invalid transfer fee bps"); (323, "invalid allow list request");
     (801, "invalid fee calculation"); (802, "invalid fee token conversion");
     (803, "zero fee aggregator not allowed"); (804, "exceeds max c c vs");
     (805, "c c v not allowed"); (806, "policy engine detach reverted");
     (807, "unsupported selector"); (808, "zero address not allowed")].

Definition onramp_RoleGrantedEvent : EventDecl :=
  mkEventDecl "RoleGrantedEvent"
    [("Role", TString); ("Account", TString); ("Sender", TString); ("Ledger", TUint32);
     ("TxHash", TString)]
    (Some "auth_RoleGranted").

Definition onramp_RoleRevokedEvent : EventDecl :=
  mkEventDecl "RoleRevokedEvent"
    [("Role", TString); ("Account", TString); ("Sender", TString); ("Ledger", TUint32);
     ("TxHash", TString)]
    (Some "auth_RoleRevoked").

Definition onramp_AuthorizedCallerAddedEvent : EventDecl :=
  mkEventDecl "AuthorizedCallerAddedEvent"
    [("Caller", TString); ("Ledger", TUint32); ("TxHash", TString)]
    (Some "auth_CallerAdded").

Definition onramp_AuthorizedCallerRemovedEvent : EventDecl :=
  mkEventDecl "AuthorizedCallerRemovedEvent"
    [("Caller", TString); ("Ledger", TUint32); ("TxHash", TString)]
    (Some "auth_CallerRemoved").

Definition onramp_OwnershipTransferStartedEvent : EventDecl :=
  mkEventDecl "OwnershipTransferStartedEvent"
    [("PreviousOwner", TString); ("NewOwner", TString); ("Ledger", TUint32);
     ("TxHash", TString)]
    (Some "auth_OwnerTransferStart").

Definition onramp_types : TypesFile :=
  mkTypesFile "onramp" (mkImports true true true true)
    [onramp_TokenAmount; onramp_StellarToAnyMessage; onramp_StaticConfig; onramp_DynamicConfig;
     onramp_DestChainConfig; onramp_DestChainConfigArgs]
    [onramp_CCIPError]
    [onramp_RoleGrantedEvent; onramp_RoleRevokedEvent; onramp_AuthorizedCallerAddedEvent;
     onramp_AuthorizedCallerRemovedEvent; onramp_OwnershipTransferStartedEvent]
    [].

Definition onramp_Init : Method :=
  mkMethod "Init" [("rmnProxy", TString)] [] ""
    false "init" [ECall "AddressToScVal"] RVoid.

Definition onramp_Owner : Method :=
  mkMethod "Owner" [] [TPtr TString] "nil"
    true "owner" [] (RVal (DCall "OptionalAddressFromScVal")).

Definition onramp_GetFee : Method :=
  mkMethod "GetFee" [("destChainSelector", TUint64); ("message", TNamed "StellarToAnyMessage")] [TBig] "nil"
    true "get_fee" [ECall "Uint64ToScVal"; EMethodOf] (RVal (DCall "I128FromScVal")).

Definition onramp_Upgrade : Method :=
  mkMethod "Upgrade" [("newWasmHash", TArray "32")] [] ""
    false "upgrade" [ECall "Bytes32ToScVal"] RVoid.

Definition onramp_IsOwner : Method :=
  mkMethod "IsOwner" [("addr", TString)] [TBool] "false"
    true "is_owner" [ECall "AddressToScVal"] (RVal (DGet "GetB")).

Definition onramp_IsCursed : Method :=
  mkMethod "IsCursed" [] [TBool] "false"
    true "is_cursed" [] (RVal (DGet "GetB")).

Definition onramp_InitOwner : Method :=
  mkMethod "InitOwner" [("owner", TString)] [] ""
    false "init_owner" [ECall "AddressToScVal"] RVoid.

Definition onramp_Initialize : Method :=
  mkMethod "Initialize" [("owner", TString); ("staticConfig", TNamed "StaticConfig");
     ("dynamicConfig", TNamed "DynamicConfig")] [] ""
    false "initialize" [ECall "AddressToScVal"; EMethodOf; EMethodOf] RVoid.

Definition onramp_RequireOwner : Method :=
  mkMethod "RequireOwner" [] [TString] empty_literal
    false "require_owner" [] (RVal (DCall "AddressFromScVal")).

Definition onramp_AcceptOwnership : Method :=
  mkMethod "AcceptOwnership" [] [] ""
    false "accept_ownership" [] RVoid.

Definition onramp_TypeAndVersion : Method :=
  mkMethod "TypeAndVersion" [] [TString] empty_literal
    false "type_and_version" [] (RVal (DCall "StringFromScVal")).

Definition onramp_GetPendingOwner : Method :=
  mkMethod "GetPendingOwner" [] [TPtr TString] "nil"
    true "get_pending_owner" [] (RVal (DCall "OptionalAddressFromScVal")).

Definition onramp_GetStaticConfig : Method :=
  mkMethod "GetStaticConfig" [] [TPtr (TNamed "StaticConfig")] "nil"
    true "get_static_config" [] (RVal (DStruct "StaticConfig")).

Definition onramp_IsSubjectCursed : Method :=
  mkMethod "IsSubjectCursed" [("subject", TArray "16")] [TBool] "false"
    true "is_subject_cursed" [ECall "Bytes16ToScVal"] (RVal (DGet "GetB")).

Definition onramp_GetDynamicConfig : Method :=
  mkMethod "GetDynamicConfig" [] [TPtr (TNamed "DynamicConfig")] "nil"
    true "get_dynamic_config" [] (RVal (DStruct "DynamicConfig")).

Definition onramp_RequireNotCursed : Method :=
  mkMethod "RequireNotCursed" [] [] ""
    false "require_not_cursed" [] RVoid.

Definition onramp_SetDynamicConfig : Method :=
  mkMethod "SetDynamicConfig" [("dynamicConfig", TNamed "DynamicConfig")] [] ""
    false "set_dynamic_config" [EMethodOf] RVoid.

Definition onramp_TransferOwnership : Method :=
  mkMethod "TransferOwnership" [("newOwner", TString)] [] ""
    false "transfer_ownership" [ECall "AddressToScVal"] RVoid.

Definition onramp_ForwardFromRouter : Method :=
  mkMethod "ForwardFromRouter" [("destChainSelector", TUint64); ("message", TNamed "StellarToAnyMessage");
     ("feeTokenAmount", TBig); ("originalSender", TString)] [TArray "32"] "[32]byte{}"
    false "forward_from_router" [ECall "Uint64ToScVal"; EMethodOf; ECall "I128ToScVal"; ECall "AddressToScVal"]
      (RVal (DCall "Bytes32FromScVal")).

Definition onramp_WithdrawFeeTokens : Method :=
  mkMethod "WithdrawFeeTokens" [("feeTokens", TSlice TString)] [] ""
    false "withdraw_fee_tokens" [ECall "AddressSliceToScVal"] RVoid.

Definition onramp_GetDestChainConfig : Method :=
  mkMethod "GetDestChainConfig" [("destChainSelector", TUint64)] [TPtr (TNamed "DestChainConfig")] "nil"
    true "get_dest_chain_config" [ECall "Uint64ToScVal"] (RVal (DStruct "DestChainConfig")).

Definition onramp_GetPoolBySourceToken : Method :=
  mkMethod "GetPoolBySourceToken" [("sourceToken", TString)] [TString] empty_literal
    true "get_pool_by_source_token" [ECall "AddressToScVal"] (RVal (DCall "AddressFromScVal")).

Definition onramp_RequireChainNotCursed : Method :=
  mkMethod "RequireChainNotCursed" [("chainSelector", TUint64)] [] ""
    false "require_chain_not_cursed" [ECall "Uint64ToScVal"] RVoid.

Definition onramp_CancelOwnershipTransfer : Method :=
  mkMethod "CancelOwnershipTransfer" [] [] ""
    false "cancel_ownership_transfer" [] RVoid.

Definition onramp_GetAllDestChainConfigs : Method :=
  mkMethod "GetAllDestChainConfigs" [] [TSlice TUint64; TSlice (TNamed "DestChainConfig")] "nil, nil"
    true "get_all_dest_chain_configs" []
      (RTuple [DVec TUint64 (DCall "Uint64FromScVal"); DVec (TNamed "DestChainConfig")
        (DStruct "DestChainConfig")]).

Definition onramp_RequireSubjectNotCursed : Method :=
  mkMethod "RequireSubjectNotCursed" [("subject", TArray "16")] [] ""
    false "require_subject_not_cursed" [ECall "Bytes16ToScVal"] RVoid.

Definition onramp_ApplyDestChainConfigUpdates : Method :=
  mkMethod "ApplyDestChainConfigUpdates" [("destChainConfigArgs", TSlice (TNamed "DestChainConfigArgs"))] [] ""
    false "apply_dest_chain_config_updates" [ECall "StructSliceToScVal"] RVoid.

Definition onramp_GetExpectedNextMessageNumber : Method :=
  mkMethod "GetExpectedNextMessageNumber" [("destChainSelector", TUint64)] [TUint64] "0"
    true "get_expected_next_message_number" [ECall "Uint64ToScVal"] (RVal (DCall "Uint64FromScVal")).

Definition onramp_WaitForRoleGrantedEvent : EventHelper :=
  mkEventHelper "RoleGrantedEvent" (mkEventParser
    []
    [("role", "Role", EvField (DCall "SymbolFromScVal"));
     ("account", "Account", EvField (DCall "AddressFromScVal"));
     ("sender", "Sender", EvField (DCall "AddressFromScVal"))]).

Definition onramp_WaitForRoleRevokedEvent : EventHelper :=
  mkEventHelper "RoleRevokedEvent" (mkEventParser
    []
    [("role", "Role", EvField (DCall "SymbolFromScVal"));
     ("account", "Account", EvField (DCall "AddressFromScVal"));
     ("sender", "Sender", EvField (DCall "AddressFromScVal"))]).

Definition onramp_WaitForAuthorizedCallerAddedEvent : EventHelper :=
  mkEventHelper "AuthorizedCallerAddedEvent" (mkEventParser
    []
    [("caller", "Caller", EvField (DCall "AddressFromScVal"))]).

Definition onramp_WaitForAuthorizedCallerRemovedEvent : EventHelper :=
  mkEventHelper "AuthorizedCallerRemovedEvent" (mkEventParser
    []
    [("caller", "Caller", EvField (DCall "AddressFromScVal"))]).

Definition onramp_WaitForOwnershipTransferStartedEvent : EventHelper :=
  mkEventHelper "OwnershipTransferStartedEvent" (mkEventParser
    []
    [("previous_owner", "PreviousOwner", EvField (DCall "AddressFromScVal"));
     ("new_owner", "NewOwner", EvField (DCall "AddressFromScVal"))]).

Definition onramp_client : ClientFile :=
  mkClientFile "onramp" "OnRamp" true true
    [onramp_Init; onramp_Owner; onramp_GetFee; onramp_Upgrade; onramp_IsOwner; onramp_IsCursed;
     onramp_InitOwner; onramp_Initialize; onramp_RequireOwner; onramp_AcceptOwnership;
     onramp_TypeAndVersion; onramp_GetPendingOwner; onramp_GetStaticConfig;
     onramp_IsSubjectCursed; onramp_GetDynamicConfig; onramp_RequireNotCursed;
     onramp_SetDynamicConfig; onramp_TransferOwnership; onramp_ForwardFromRouter;
     onramp_WithdrawFeeTokens; onramp_GetDestChainConfig; onramp_GetPoolBySourceToken;
     onramp_RequireChainNotCursed; onramp_CancelOwnershipTransfer;
     onramp_GetAllDestChainConfigs; onramp_RequireSubjectNotCursed;
     onramp_ApplyDestChainConfigUpdates; onramp_GetExpectedNextMessageNumber]
    [onramp_WaitForRoleGrantedEvent; onramp_WaitForRoleRevokedEvent;
     onramp_WaitForAuthorizedCallerAddedEvent; onramp_WaitForAuthorizedCallerRemovedEvent;
     onramp_WaitForOwnershipTransferStartedEvent].

(** ** bindings/contracts/offramp *)

Definition offramp_StaticConfig : StructDecl :=
  mkStructDecl "StaticConfig"
    [mkMember "chain_selector" "ChainSelector" TUint64 (ECall "Uint64ToScVal") (DCall "Uint64FromScVal");
     mkMember "rmn_proxy" "RmnProxy" TString (ECall "AddressToScVal") (DCall "AddressFromScVal");
     mkMember "token_admin_registry" "TokenAdminRegistry" TString (ECall "AddressToScVal")
       (DCall "AddressFromScVal")].

Definition offramp_SourceChainConfig : StructDecl :=
  mkStructDecl "SourceChainConfig"
    [mkMember "default_ccvs" "DefaultCcvs" (TSlice TString) (ECall "AddressSliceToScVal")
      (DVec TString (DCall "AddressFromScVal"));
     mkMember "is_enabled" "IsEnabled" TBool (ECall "BoolToScVal") (DGet "GetB");
     mkMember "lane_mandated_ccvs" "LaneMandatedCcvs" (TSlice TString) (ECall "AddressSliceToScVal")
       (DVec TString (DCall "AddressFromScVal"));
     mkMember "on_ramps" "OnRamps" (TSlice TBytes) (ECall "BytesSliceToScVal") (DVec TBytes (DGet "GetBytes"));
     mkMember "router" "Router" TString (ECall "AddressToScVal") (DCall "AddressFromScVal")].

Definition offramp_SourceChainConfigArgs : StructDecl :=
  mkStructDecl "SourceChainConfigArgs"
    [mkMember "default_ccvs" "DefaultCcvs" (TSlice TString) (ECall "AddressSliceToScVal")
      (DVec TString (DCall "AddressFromScVal"));
     mkMember "is_enabled" "IsEnabled" TBool (ECall "BoolToScVal") (DGet "GetB");
     mkMember "lane_mandated_ccvs" "LaneMandatedCcvs" (TSlice TString) (ECall "AddressSliceToScVal")
       (DVec TString (DCall "AddressFromScVal"));
     mkMember "on_ramps" "OnRamps" (TSlice TBytes) (ECall "BytesSliceToScVal") (DVec TBytes (DGet "GetBytes"));
     mkMember "router" "Router" TString (ECall "AddressToScVal") (DCall "AddressFromScVal");
     mkMember "source_chain_selector" "SourceChainSelector" TUint64 (ECall "Uint64ToScVal")
       (DCall "Uint64FromScVal")].

Definition offramp_CCIPError : ErrorDecl :=
  mkErrorDecl "CCIPError"
    [("CCIPErrorNotInitialized", 1); ("CCIPErrorAlreadyInitialized", 2);
     ("CCIPErrorUnauthorized", 3); ("CCIPErrorNotOwner", 4); ("CCIPErrorNoPendingOwner", 5);
     ("CCIPErrorCallerNotAuthorized", 6); ("CCIPErrorCallerAlreadyAuthorized", 7);
     ("CCIPErrorCallerNotFound", 8); ("CCIPErrorRoleNotGranted", 9);
     ("CCIPErrorFeatureNotEnabled", 10); ("CCIPErrorRoleAlreadyGranted", 11);
     ("CCIPErrorCannotRenounceRole", 12); ("CCIPErrorInvalidVersionTag", 13);
     ("CCIPErrorInvalidSignatureLength", 14); ("CCIPErrorInvalidSignature", 15);
     ("CCIPErrorInvalidSignatureCount", 16); ("CCIPErrorInvalidSignatureThreshold", 17);
     ("CCIPErrorInvalidSignaturePubkey", 18); ("CCIPErrorSourceSignersNotConfigured", 19);
     ("CCIPErrorInvalidVerifierResults", 20); ("CCIPErrorReentrantCall", 21);
     ("CCIPErrorTokenNotSupported", 22); ("CCIPErrorFeeTokenNotSupported", 23);
     ("CCIPErrorNoGasPriceAvailable", 24); ("CCIPErrorDestinationChainNotEnabled", 25);
     ("CCIPErrorInvalidExtraArgsTag", 26); ("CCIPErrorInvalidExtraArgsData", 27);
     ("CCIPErrorMessageGasLimitTooHigh", 28); ("CCIPErrorMessageTooLarge", 29);
     ("CCIPErrorUnsupportedNumberOfTokens", 30); ("CCIPErrorInvalidDestChainConfig", 31);
     ("CCIPErrorMessageFeeTooHigh", 32); ("CCIPErrorInvalidStaticConfig", 33);
     ("CCIPErrorInvalidTokenReceiver", 34); ("CCIPErrorSourceTokenDataTooLarge", 35);
     ("CCIPErrorInvalidDestBytesOverhead", 36); ("CCIPErrorDestinationChainNotSupported", 37);
     ("CCIPErrorMustBeCalledByRouter", 38); ("CCIPErrorRouterMustSetOriginalSender", 39);
     ("CCIPErrorCannotSendZeroTokens", 40); ("CCIPErrorCanOnlySendOneTokenPerMessage", 41);
     ("CCIPErrorUnsupportedToken", 42); ("CCIPErrorInvalidDestChainAddress", 43);
     ("CCIPErrorFeeExceedsMaxAllowed", 44); ("CCIPErrorInsufficientFeeTokenAmount", 45);
     ("CCIPErrorTokenReceiverNotAllowed", 46); ("CCIPErrorCursedByRMN", 47);
     ("CCIPErrorRemoteChainNotSupported", 48); ("CCIPErrorSenderNotAllowed", 49);
     ("CCIPErrorInvalidTokenAmount", 50); ("CCIPErrorInvalidReceiverAddress", 51);
     ("CCIPErrorInvalidConfig", 52); ("CCIPErrorInvalidVerifierResultsLength", 53);
     ("CCIPErrorInboundImplementationNotFound", 54);
     ("CCIPErrorOutboundImplementationNotFound", 55); ("CCIPErrorInvalidAddress", 56);
     ("CCIPErrorInvalidChainSelector", 57); ("CCIPErrorInvalidVersion", 58);
     ("CCIPErrorInvalidCCVVersion", 59); ("CCIPErrorOffRampAlreadyExists", 60);
     ("CCIPErrorOffRampMismatch", 61); ("CCIPErrorBadRMNSignal", 62);
     ("CCIPErrorUnsupportedDestinationChain", 63); ("CCIPErrorAlreadyCursed", 64);
     ("CCIPErrorConfigNotSet", 65); ("CCIPErrorDuplicateOnchainPublicKey", 66);
     ("CCIPErrorInvalidSignerOrder", 67); ("CCIPErrorNotEnoughSigners", 68);
     ("CCIPErrorNotCursed", 69); ("CCIPErrorOutOfOrderSignatures", 70);
     ("CCIPErrorThresholdNotMet", 71); ("CCIPErrorUnexpectedSigner", 72);
     ("CCIPErrorZeroValueNotAllowed", 73); ("CCIPErrorSourceChainNotEnabled", 100);
     ("CCIPErrorInvalidSourceChainConfig", 101); ("CCIPErrorInvalidOnRampAddress", 102);
     ("CCIPErrorInvalidOffRampAddress", 103); ("CCIPErrorInvalidMessageDestination", 104);
     ("CCIPErrorMessageAlreadyExecuted", 105); ("CCIPErrorInvalidExecutionState", 106);
     ("CCIPErrorCCVLengthMismatch", 107); ("CCIPErrorCCVQuorumNotMet", 108);
     ("CCIPErrorReceiverError", 109); ("CCIPErrorGasLimitOverrideTooLow", 110);
     ("CCIPErrorInvalidReceiverLength", 111); ("CCIPErrorTokenHandlingError", 112);
     ("CCIPErrorMessageDecodingError", 113); ("CCIPErrorReceiverDoesNotExist", 114);
     ("CCIPErrorReceiverNotWasmContract", 115); ("CCIPErrorRequiredCCVMissing", 116);
     ("CCIPErrorInvalidOptionalThreshold", 117); ("CCIPErrorOptionalCCVQuorumNotReached", 118);
     ("CCIPErrorNoStateProgressMade", 119); ("CCIPErrorOnlyRegistryModuleOrOwner", 201);
     ("CCIPErrorOnlyAdministrator", 202); ("CCIPErrorOnlyPendingAdministrator", 203);
     ("CCIPErrorTokenAlreadyRegistered", 204); ("CCIPErrorInvalidTokenPoolToken", 205);
     ("CCIPErrorPoolTokenMismatch", 301); ("CCIPErrorChainNotSupported", 302);
     ("CCIPErrorCallerIsNotRamp", 303); ("CCIPErrorInsufficientPoolLiquidity", 304);
     ("CCIPErrorInvalidRemotePoolAddress", 305); ("CCIPErrorInvalidRemoteChainConfig", 306);
     ("CCIPErrorInvalidRemoteChainDecimals", 307); ("CCIPErrorDecimalAmountOverflow", 308);
     ("CCIPErrorInvalidPoolTokenDecimals", 309); ("CCIPErrorBucketOverfilled", 310);
     ("CCIPErrorTokenMaxCapacityExceeded", 311); ("CCIPErrorTokenRateLimitReached", 312);
     ("CCIPErrorInvalidRateLimitRate", 313); ("CCIPErrorDisabledNonZeroRateLimit", 314);
     ("CCIPErrorInvalidRequestedFinality", 315);
     ("CCIPErrorRequestedFinalityCanOnlyHaveOneMode", 316);
     ("CCIPErrorInvalidChainForClient", 317); ("CCIPErrorRouterNotConfigured", 318);
     ("CCIPErrorInvalidSourcePoolAddress", 319); ("CCIPErrorDuplicateCCVNotAllowed", 320);
     ("CCIPErrorInvalidTokenTransferFeeConfig", 321); ("CCIPErrorInvalidTransferFeeBps", 322);
     ("CCIPErrorInvalidAllowListRequest", 323); ("CCIPErrorInvalidFeeCalculation", 801);
     ("CCIPErrorInvalidFeeTokenConversion", 802); ("CCIPErrorZeroFeeAggregatorNotAllowed", 803);
     ("CCIPErrorExceedsMaxCCVs", 804); ("CCIPErrorCCVNotAllowed", 805);
     ("CCIPErrorPolicyEngineDetachReverted", 806); ("CCIPErrorUnsupportedSelector", 807);
     ("CCIPErrorZeroAddressNotAllowed", 808)]
    [(1, "not initialized"); (2, "already initialized"); (3, "unauthorized"); (4, "not owner");
     (5, "no pending owner"); (6, "caller not authorized"); (7, "caller already authorized");
     (8, "caller not found"); (9, "role not granted"); (10, "feature not enabled");
     (11, "role already granted"); (12, "cannot renounce role"); (13, "invalid version tag");
     (14, "invalid signature length"); (15, "invalid signature");
     (16, "invalid signature count"); (17, "invalid signature threshold");
     (18, "invalid signature pubkey"); (19, "source signers not configured");
     (20, "invalid verifier results"); (21, "reentrant call"); (22, "token not supported");
     (23, "fee token not supported"); (24, "no gas price available");
     (25, "destination chain not enabled"); (26, "invalid extra args tag");
     (27, "invalid extra args data"); (28, "message gas limit too high");
     (29, "message too large"); (30, "unsupported number of tokens");
     (31, "invalid dest chain config"); (32, "message fee too high");
     (33, "invalid static config"); (34, "invalid token receiver");
     (35, "source token data too large"); (36, "invalid dest bytes overhead");
     (37, "destination chain not supported"); (38, "must be called by router");
     (39, "router must set original sender"); (40, "cannot send zero tokens");
     (41, "can only send one token per message"); (42, "unsupported token");
     (43, "invalid dest chain address"); (44, "fee exceeds max allowed");
     (45, "insufficient fee token amount"); (46, "token receiver not allowed");
     (47, "cursed by r m n"); (48, "remote chain not supported"); (49, "sender not allowed");
     (50, "invalid token amount"); (51, "invalid receiver address"); (52, "invalid config");
     (53, "invalid verifier results length"); (54, "inbound implementation not found");
     (55, "outbound implementation not found"); (56, "invalid address");
     (57, "invalid chain selector"); (58, "invalid version"); (59, "invalid c c v version");
     (60, "off ramp already exists"); (61, "off ramp mismatch"); (62, "bad r m n signal");
     (63, "unsupported destination chain"); (64, "already cursed"); (65, "config not set");
     (66, "duplicate onchain public key"); (67, "invalid signer order");
     (68, "not enough signers"); (69, "not cursed"); (70, "out of order signatures");
     (71, "threshold not met"); (72, "unexpected signer"); (73, "zero value not allowed");
     (100, "source chain not enabled"); (101, "invalid source chain config");
     (102, "invalid on ramp address"); (103, "invalid off ramp address");
     (104, "invalid message destination"); (105, "message already executed");
     (106, "invalid execution state"); (107, "c c v length mismatch");
     (108, "c c v quorum not met"); (109, "receiver error");
     (110, "gas limit override too low"); (111, "invalid receiver length");
     (112, "token handling error"); (113, "message decoding error");
     (114, "receiver does not exist"); (115, "receiver not wasm contract");
     (116, "required c c v missing"); (117, "invalid optional threshold");
     (118, "optional c c v quorum not reached"); (119, "no state progress made");
     (201, "only registry module or owner"); (202, "only administrator");
     (203, "only pending administrator"); (204, "token already registered");
     (205, "invalid token pool token"); (301, "pool token mismatch");
     (302, "chain not supported"); (303, "caller is not ramp");
     (304, "insufficient pool liquidity"); (305, "invalid remote pool address");
     (306, "invalid remote chain config"); (307, "invalid remote chain decimals");
     (308, "decimal amount overflow"); (309, "invalid pool token decimals");
     (310, "bucket overfilled"); (311, "token max capacity exceeded");
     (312, "token rate limit reached"); (313, "invalid rate limit rate");
     (314, "disabled non zero rate limit"); (315, "invalid requested finality");
     (316, "requested finality can only have one mode"); (317, "invalid chain for client");
     (318, "router not configured"); (319, "invalid source pool address");
     (320, "duplicate c c v not allowed"); (321, "invalid token transfer fee config");
     (322, "invalid transfer fee bps"); (323, "invalid allow list request");
     (801, "invalid fee calculation"); (802, "invalid fee token conversion");
     (803, "zero fee aggregator not allowed"); (804, "exceeds max c c vs");
     (805, "c c v not allowed"); (806, "policy engine detach reverted");
     (807, "unsupported selector"); (808, "zero address not allowed")].

Definition offramp_RoleGrantedEvent : EventDecl :=
  mkEventDecl "RoleGrantedEvent"
    [("Role", TString); ("Account", TString); ("Sender", TString); ("Ledger", TUint32);
     ("TxHash", TString)]
    (Some "auth_RoleGranted").

Definition offramp_RoleRevokedEvent : EventDecl :=
  mkEventDecl "RoleRevokedEvent"
    [("Role", TString); ("Account", TString); ("Sender", TString); ("Ledger", TUint32);
     ("TxHash", TString)]
    (Some "auth_RoleRevoked").

Definition offramp_AuthorizedCallerAddedEvent : EventDecl :=
  mkEventDecl "AuthorizedCallerAddedEvent"
    [("Caller", TString); ("Ledger", TUint32); ("TxHash", TString)]
    (Some "auth_CallerAdded").

Definition offramp_AuthorizedCallerRemovedEvent : EventDecl :=
  mkEventDecl "AuthorizedCallerRemovedEvent"
    [("Caller", TString); ("Ledger", TUint32); ("TxHash", TString)]
    (Some "auth_CallerRemoved").

Definition offramp_OwnershipTransferStartedEvent : EventDecl :=
  mkEventDecl "OwnershipTransferStartedEvent"
    [("PreviousOwner", TString); ("NewOwner", TString); ("Ledger", TUint32);
     ("TxHash", TString)]
    (Some "auth_OwnerTransferStart").

Definition offramp_ExecutionStateChangedEvent : EventDecl :=
  mkEventDecl "ExecutionStateChangedEvent"
    [("SourceChainSelector", TUint64); ("SequenceNumber", TUint64); ("MessageId", TArray "32");
     ("State", TNamed "MessageExecutionState"); ("ReturnData", TBytes); ("Ledger", TUint32);
     ("TxHash", TString)]
    (Some "offramp_2_0_ExecStateChanged").

Definition offramp_SourceChainConfigSetEvent : EventDecl :=
  mkEventDecl "SourceChainConfigSetEvent"
    [("SourceChainSelector", TUint64); ("SourceConfig", TNamed "SourceChainConfig");
     ("Ledger", TUint32); ("TxHash", TString)]
    (Some "offramp_2_0_SrcChainCfgSet").

Definition offramp_StaticConfigSetEvent : EventDecl :=
  mkEventDecl "StaticConfigSetEvent"
    [("StaticConfig", TNamed "StaticConfig"); ("Ledger", TUint32); ("TxHash", TString)]
    (Some "offramp_2_0_StaticConfigSet").

Definition offramp_MessageExecutionState : EnumDecl :=
  UnitEnum "MessageExecutionState"
    [("MessageExecutionStateUntouched", 0); ("MessageExecutionStateInProgress", 1);
     ("MessageExecutionStateSuccess", 2); ("MessageExecutionStateFailure", 3)].

Definition offramp_types : TypesFile :=
  mkTypesFile "offramp" (mkImports true true true false)
    [offramp_StaticConfig; offramp_SourceChainConfig; offramp_SourceChainConfigArgs]
    [offramp_CCIPError]
    [offramp_RoleGrantedEvent; offramp_RoleRevokedEvent; offramp_AuthorizedCallerAddedEvent;
     offramp_AuthorizedCallerRemovedEvent; offramp_OwnershipTransferStartedEvent;
     offramp_ExecutionStateChangedEvent; offramp_SourceChainConfigSetEvent;
     offramp_StaticConfigSetEvent]
    [offramp_MessageExecutionState].

Definition offramp_Init : Method :=
  mkMethod "Init" [("rmnProxy", TString)] [] ""
    false "init" [ECall "AddressToScVal"] RVoid.

Definition offramp_Owner : Method :=
  mkMethod "Owner" [] [TPtr TString] "nil"
    true "owner" [] (RVal (DCall "OptionalAddressFromScVal")).

Definition offramp_Execute : Method :=
  mkMethod "Execute" [("encodedMessage", TBytes); ("ccvs", TSlice TString); ("verifierResults", TSlice TBytes);
     ("gasLimitOverride", TUint32)] [] ""
    false "execute" [ECall "BytesToScVal"; ECall "AddressSliceToScVal"; ECall "BytesSliceToScVal"; ECall
      "Uint32ToScVal"] RVoid.

Definition offramp_Upgrade : Method :=
  mkMethod "Upgrade" [("newWasmHash", TArray "32")] [] ""
    false "upgrade" [ECall "Bytes32ToScVal"] RVoid.

Definition offramp_IsOwner : Method :=
  mkMethod "IsOwner" [("addr", TString)] [TBool] "false"
    true "is_owner" [ECall "AddressToScVal"] (RVal (DGet "GetB")).

Definition offramp_IsCursed : Method :=
  mkMethod "IsCursed" [] [TBool] "false"
    true "is_cursed" [] (RVal (DGet "GetB")).

Definition offramp_InitOwner : Method :=
  mkMethod "InitOwner" [("owner", TString)] [] ""
    false "init_owner" [ECall "AddressToScVal"] RVoid.

Definition offramp_Initialize : Method :=
  mkMethod "Initialize" [("owner", TString); ("staticConfig", TNamed "StaticConfig")] [] ""
    false "initialize" [ECall "AddressToScVal"; EMethodOf] RVoid.

Definition offramp_RequireOwner : Method :=
  mkMethod "RequireOwner" [] [TString] empty_literal
    false "require_owner" [] (RVal (DCall "AddressFromScVal")).

Definition offramp_AcceptOwnership : Method :=
  mkMethod "AcceptOwnership" [] [] ""
    false "accept_ownership" [] RVoid.

Definition offramp_TypeAndVersion : Method :=
  mkMethod "TypeAndVersion" [] [TString] empty_literal
    false "type_and_version" [] (RVal (DCall "StringFromScVal")).

Definition offramp_GetPendingOwner : Method :=
  mkMethod "GetPendingOwner" [] [TPtr TString] "nil"
    true "get_pending_owner" [] (RVal (DCall "OptionalAddressFromScVal")).

Definition offramp_GetStaticConfig : Method :=
  mkMethod "GetStaticConfig" [] [TPtr (TNamed "StaticConfig")] "nil"
    true "get_static_config" [] (RVal (DStruct "StaticConfig")).

Definition offramp_IsSubjectCursed : Method :=
  mkMethod "IsSubjectCursed" [("subject", TArray "16")] [TBool] "false"
    true "is_subject_cursed" [ECall "Bytes16ToScVal"] (RVal (DGet "GetB")).

Definition offramp_RequireNotCursed : Method :=
  mkMethod "RequireNotCursed" [] [] ""
    false "require_not_cursed" [] RVoid.

Definition offramp_TransferOwnership : Method :=
  mkMethod "TransferOwnership" [("newOwner", TString)] [] ""
    false "transfer_ownership" [ECall "AddressToScVal"] RVoid.

Definition offramp_GetExecutionState : Method :=
  mkMethod "GetExecutionState" [("messageId", TArray "32")] [TNamed "MessageExecutionState"] "0"
    true "get_execution_state" [ECall "Bytes32ToScVal"] (RVal (DEnum "MessageExecutionState")).

Definition offramp_GetCcvsForMessage : Method :=
  mkMethod "GetCcvsForMessage" [("encodedMessage", TBytes)] [TSlice TString; TSlice TString; TUint32]
    "nil, nil, 0"
    true "get_ccvs_for_message" [ECall "BytesToScVal"]
      (RTuple [DVec TString (DCall "AddressFromScVal"); DVec TString (DCall "AddressFromScVal"); DGet
        "GetU32"]).

Definition offramp_GetSourceChainConfig : Method :=
  mkMethod "GetSourceChainConfig" [("sourceChainSelector", TUint64)] [TPtr (TNamed "SourceChainConfig")] "nil"
    true "get_source_chain_config" [ECall "Uint64ToScVal"] (RVal (DStruct "SourceChainConfig")).

Definition offramp_RequireChainNotCursed : Method :=
  mkMethod "RequireChainNotCursed" [("chainSelector", TUint64)] [] ""
    false "require_chain_not_cursed" [ECall "Uint64ToScVal"] RVoid.

Definition offramp_CancelOwnershipTransfer : Method :=
  mkMethod "CancelOwnershipTransfer" [] [] ""
    false "cancel_ownership_transfer" [] RVoid.

Definition offramp_ExtendExecutionStateTtl : Method :=
  mkMethod "ExtendExecutionStateTtl" [("messageId", TArray "32")] [] ""
    false "extend_execution_state_ttl" [ECall "Bytes32ToScVal"] RVoid.

Definition offramp_RequireSubjectNotCursed : Method :=
  mkMethod "RequireSubjectNotCursed" [("subject", TArray "16")] [] ""
    false "require_subject_not_cursed" [ECall "Bytes16ToScVal"] RVoid.

Definition offramp_GetAllSourceChainConfigs : Method :=
  mkMethod "GetAllSourceChainConfigs" [] [TSlice TUint64; TSlice (TNamed "SourceChainConfig")] "nil, nil"
    true "get_all_source_chain_configs" []
      (RTuple [DVec TUint64 (DCall "Uint64FromScVal"); DVec (TNamed "SourceChainConfig")
        (DStruct "SourceChainConfig")]).

Definition offramp_ApplySourceChainCfgUpdates : Method :=
  mkMethod "ApplySourceChainCfgUpdates" [("sourceChainConfigArgs", TSlice (TNamed "SourceChainConfigArgs"))] []
    ""
    false "apply_source_chain_cfg_updates" [ECall "StructSliceToScVal"] RVoid.

Definition offramp_WaitForRoleGrantedEvent : EventHelper :=
  mkEventHelper "RoleGrantedEvent" (mkEventParser
    []
    [("role", "Role", EvField (DCall "SymbolFromScVal"));
     ("account", "Account", EvField (DCall "AddressFromScVal"));
     ("sender", "Sender", EvField (DCall "AddressFromScVal"))]).

Definition offramp_WaitForRoleRevokedEvent : EventHelper :=
  mkEventHelper "RoleRevokedEvent" (mkEventParser
    []
    [("role", "Role", EvField (DCall "SymbolFromScVal"));
     ("account", "Account", EvField (DCall "AddressFromScVal"));
     ("sender", "Sender", EvField (DCall "AddressFromScVal"))]).

Definition offramp_WaitForAuthorizedCallerAddedEvent : EventHelper :=
  mkEventHelper "AuthorizedCallerAddedEvent" (mkEventParser
    []
    [("caller", "Caller", EvField (DCall "AddressFromScVal"))]).

Definition offramp_WaitForAuthorizedCallerRemovedEvent : EventHelper :=
  mkEventHelper "AuthorizedCallerRemovedEvent" (mkEventParser
    []
    [("caller", "Caller", EvField (DCall "AddressFromScVal"))]).

Definition offramp_WaitForOwnershipTransferStartedEvent : EventHelper :=
  mkEventHelper "OwnershipTransferStartedEvent" (mkEventParser
    []
    [("previous_owner", "PreviousOwner", EvField (DCall "AddressFromScVal"));
     ("new_owner", "NewOwner", EvField (DCall "AddressFromScVal"))]).

Definition offramp_WaitForExecutionStateChangedEvent : EventHelper :=
  mkEventHelper "ExecutionStateChangedEvent" (mkEventParser
    []
    [("source_chain_selector", "SourceChainSelector", EvField (DCall "Uint64FromScVal"));
     ("sequence_number", "SequenceNumber", EvField (DCall "Uint64FromScVal"));
     ("message_id", "MessageId", EvField (DCall "Bytes32FromScVal"));
     ("state", "State", EvField (DEnum "MessageExecutionState"));
     ("return_data", "ReturnData", EvField (DGet "GetBytes"))]).

Definition offramp_WaitForSourceChainConfigSetEvent : EventHelper :=
  mkEventHelper "SourceChainConfigSetEvent" (mkEventParser
    []
    [("source_chain_selector", "SourceChainSelector", EvField (DCall "Uint64FromScVal"));
     ("source_config", "SourceConfig", EvField (DStruct "SourceChainConfig"))]).

Definition offramp_WaitForStaticConfigSetEvent : EventHelper :=
  mkEventHelper "StaticConfigSetEvent" (mkEventParser
    []
    [("static_config", "StaticConfig", EvField (DStruct "StaticConfig"))]).

Definition offramp_client : ClientFile :=
  mkClientFile "offramp" "OffRamp" false true
    [offramp_Init; offramp_Owner; offramp_Execute; offramp_Upgrade; offramp_IsOwner;
     offramp_IsCursed; offramp_InitOwner; offramp_Initialize; offramp_RequireOwner;
     offramp_AcceptOwnership; offramp_TypeAndVersion; offramp_GetPendingOwner;
     offramp_GetStaticConfig; offramp_IsSubjectCursed; offramp_RequireNotCursed;
     offramp_TransferOwnership; offramp_GetExecutionState; offramp_GetCcvsForMessage;
     offramp_GetSourceChainConfig; offramp_RequireChainNotCursed;
     offramp_CancelOwnershipTransfer; offramp_ExtendExecutionStateTtl;
     offramp_RequireSubjectNotCursed; offramp_GetAllSourceChainConfigs;
     offramp_ApplySourceChainCfgUpdates]
    [offramp_WaitForRoleGrantedEvent; offramp_WaitForRoleRevokedEvent;
     offramp_WaitForAuthorizedCallerAddedEvent; offramp_WaitForAuthorizedCallerRemovedEvent;
     offramp_WaitForOwnershipTransferStartedEvent; offramp_WaitForExecutionStateChangedEvent;
     offramp_WaitForSourceChainConfigSetEvent; offramp_WaitForStaticConfigSetEvent].

(** ** bindings/contracts/router *)

Definition router_TokenAmount : StructDecl :=
  mkStructDecl "TokenAmount"
    [mkMember "amount" "Amount" TBig (ECall "I128ToScVal") (DCall "I128FromScVal");
     mkMember "token" "Token" TString (ECall "AddressToScVal") (DCall "AddressFromScVal")].

Definition router_AnyToStellarMessage : StructDecl :=
  mkStructDecl "AnyToStellarMessage"
    [mkMember "data" "Data" TBytes (ECall "BytesToScVal") (DGet "GetBytes");
     mkMember "dest_token_amounts" "DestTokenAmounts" (TSlice (TNamed "TokenAmount"))
       (ECall "StructSliceToScVal") (DVec (TNamed "TokenAmount") (DStruct "TokenAmount"));
     mkMember "message_id" "MessageId" (TArray "32") (ECall "Bytes32ToScVal") (DCall "Bytes32FromScVal");
     mkMember "sender" "Sender" TBytes (ECall "BytesToScVal") (DGet "GetBytes");
     mkMember "source_chain_selector" "SourceChainSelector" TUint64 (ECall "Uint64ToScVal")
       (DCall "Uint64FromScVal")].

Definition router_StellarToAnyMessage : StructDecl :=
  mkStructDecl "StellarToAnyMessage"
    [mkMember "data" "Data" TBytes (ECall "BytesToScVal") (DGet "GetBytes");
     mkMember "extra_args" "ExtraArgs" TBytes (ECall "BytesToScVal") (DGet "GetBytes");
     mkMember "fee_token" "FeeToken" TString (ECall "AddressToScVal") (DCall "AddressFromScVal");
     mkMember "receiver" "Receiver" TBytes (ECall "BytesToScVal") (DGet "GetBytes");
     mkMember "token_amounts" "TokenAmounts" (TSlice (TNamed "TokenAmount")) (ECall "StructSliceToScVal")
       (DVec (TNamed "TokenAmount") (DStruct "TokenAmount"))].

Definition router_OnRampEntry : StructDecl :=
  mkStructDecl "OnRampEntry"
    [mkMember "dest_chain_selector" "DestChainSelector" TUint64 (ECall "Uint64ToScVal")
      (DCall "Uint64FromScVal");
     mkMember "onramp" "Onramp" TString (ECall "AddressToScVal") (DCall "AddressFromScVal")].

Definition router_OffRampEntry : StructDecl :=
  mkStructDecl "OffRampEntry"
    [mkMember "offramp" "Offramp" TString (ECall "AddressToScVal") (DCall "AddressFromScVal");
     mkMember "source_chain_selector" "SourceChainSelector" TUint64 (ECall "Uint64ToScVal")
       (DCall "Uint64FromScVal")].

Definition router_RouterConfig : StructDecl :=
  mkStructDecl "RouterConfig"
    [mkMember "rmn_proxy" "RmnProxy" TString (ECall "AddressToScVal") (DCall "AddressFromScVal")].

Definition router_CCIPError : ErrorDecl :=
  mkErrorDecl "CCIPError"
    [("CCIPErrorNotInitialized", 1); ("CCIPErrorAlreadyInitialized", 2);
     ("CCIPErrorUnauthorized", 3); ("CCIPErrorNotOwner", 4); ("CCIPErrorNoPendingOwner", 5);
     ("CCIPErrorCallerNotAuthorized", 6); ("CCIPErrorCallerAlreadyAuthorized", 7);
     ("CCIPErrorCallerNotFound", 8); ("CCIPErrorRoleNotGranted", 9);
     ("CCIPErrorFeatureNotEnabled", 10); ("CCIPErrorRoleAlreadyGranted", 11);
     ("CCIPErrorCannotRenounceRole", 12); ("CCIPErrorInvalidVersionTag", 13);
     ("CCIPErrorInvalidSignatureLength", 14); ("CCIPErrorInvalidSignature", 15);
     ("CCIPErrorInvalidSignatureCount", 16); ("CCIPErrorInvalidSignatureThreshold", 17);
     ("CCIPErrorInvalidSignaturePubkey", 18); ("CCIPErrorSourceSignersNotConfigured", 19);
     ("CCIPErrorInvalidVerifierResults", 20); ("CCIPErrorReentrantCall", 21);
     ("CCIPErrorTokenNotSupported", 22); ("CCIPErrorFeeTokenNotSupported", 23);
     ("CCIPErrorNoGasPriceAvailable", 24); ("CCIPErrorDestinationChainNotEnabled", 25);
     ("CCIPErrorInvalidExtraArgsTag", 26); ("CCIPErrorInvalidExtraArgsData", 27);
     ("CCIPErrorMessageGasLimitTooHigh", 28); ("CCIPErrorMessageTooLarge", 29);
     ("CCIPErrorUnsupportedNumberOfTokens", 30); ("CCIPErrorInvalidDestChainConfig", 31);
     ("CCIPErrorMessageFeeTooHigh", 32); ("CCIPErrorInvalidStaticConfig", 33);
     ("CCIPErrorInvalidTokenReceiver", 34); ("CCIPErrorSourceTokenDataTooLarge", 35);
     ("CCIPErrorInvalidDestBytesOverhead", 36); ("CCIPErrorDestinationChainNotSupported", 37);
     ("CCIPErrorMustBeCalledByRouter", 38); ("CCIPErrorRouterMustSetOriginalSender", 39);
     ("CCIPErrorCannotSendZeroTokens", 40); ("CCIPErrorCanOnlySendOneTokenPerMessage", 41);
     ("CCIPErrorUnsupportedToken", 42); ("CCIPErrorInvalidDestChainAddress", 43);
     ("CCIPErrorFeeExceedsMaxAllowed", 44); ("CCIPErrorInsufficientFeeTokenAmount", 45);
     ("CCIPErrorTokenReceiverNotAllowed", 46); ("CCIPErrorCursedByRMN", 47);
     ("CCIPErrorRemoteChainNotSupported", 48); ("CCIPErrorSenderNotAllowed", 49);
     ("CCIPErrorInvalidTokenAmount", 50); ("CCIPErrorInvalidReceiverAddress", 51);
     ("CCIPErrorInvalidConfig", 52); ("CCIPErrorInvalidVerifierResultsLength", 53);
     ("CCIPErrorInboundImplementationNotFound", 54);
     ("CCIPErrorOutboundImplementationNotFound", 55); ("CCIPErrorInvalidAddress", 56);
     ("CCIPErrorInvalidChainSelector", 57); ("CCIPErrorInvalidVersion", 58);
     ("CCIPErrorInvalidCCVVersion", 59); ("CCIPErrorOffRampAlreadyExists", 60);
     ("CCIPErrorOffRampMismatch", 61); ("CCIPErrorBadRMNSignal", 62);
     ("CCIPErrorUnsupportedDestinationChain", 63); ("CCIPErrorAlreadyCursed", 64);
     ("CCIPErrorConfigNotSet", 65); ("CCIPErrorDuplicateOnchainPublicKey", 66);
     ("CCIPErrorInvalidSignerOrder", 67); ("CCIPErrorNotEnoughSigners", 68);
     ("CCIPErrorNotCursed", 69); ("CCIPErrorOutOfOrderSignatures", 70);
     ("CCIPErrorThresholdNotMet", 71); ("CCIPErrorUnexpectedSigner", 72);
     ("CCIPErrorZeroValueNotAllowed", 73); ("CCIPErrorSourceChainNotEnabled", 100);
     ("CCIPErrorInvalidSourceChainConfig", 101); ("CCIPErrorInvalidOnRampAddress", 102);
     ("CCIPErrorInvalidOffRampAddress", 103); ("CCIPErrorInvalidMessageDestination", 104);
     ("CCIPErrorMessageAlreadyExecuted", 105); ("CCIPErrorInvalidExecutionState", 106);
     ("CCIPErrorCCVLengthMismatch", 107); ("CCIPErrorCCVQuorumNotMet", 108);
     ("CCIPErrorReceiverError", 109); ("CCIPErrorGasLimitOverrideTooLow", 110);
     ("CCIPErrorInvalidReceiverLength", 111); ("CCIPErrorTokenHandlingError", 112);
     ("CCIPErrorMessageDecodingError", 113); ("CCIPErrorReceiverDoesNotExist", 114);
     ("CCIPErrorReceiverNotWasmContract", 115); ("CCIPErrorRequiredCCVMissing", 116);
     ("CCIPErrorInvalidOptionalThreshold", 117); ("CCIPErrorOptionalCCVQuorumNotReached", 118);
     ("CCIPErrorNoStateProgressMade", 119); ("CCIPErrorOnlyRegistryModuleOrOwner", 201);
     ("CCIPErrorOnlyAdministrator", 202); ("CCIPErrorOnlyPendingAdministrator", 203);
     ("CCIPErrorTokenAlreadyRegistered", 204); ("CCIPErrorInvalidTokenPoolToken", 205);
     ("CCIPErrorPoolTokenMismatch", 301); ("CCIPErrorChainNotSupported", 302);
     ("CCIPErrorCallerIsNotRamp", 303); ("CCIPErrorInsufficientPoolLiquidity", 304);
     ("CCIPErrorInvalidRemotePoolAddress", 305); ("CCIPErrorInvalidRemoteChainConfig", 306);
     ("CCIPErrorInvalidRemoteChainDecimals", 307); ("CCIPErrorDecimalAmountOverflow", 308);
     ("CCIPErrorInvalidPoolTokenDecimals", 309); ("CCIPErrorBucketOverfilled", 310);
     ("CCIPErrorTokenMaxCapacityExceeded", 311); ("CCIPErrorTokenRateLimitReached", 312);
     ("CCIPErrorInvalidRateLimitRate", 313); ("CCIPErrorDisabledNonZeroRateLimit", 314);
     ("CCIPErrorInvalidRequestedFinality", 315);
     ("CCIPErrorRequestedFinalityCanOnlyHaveOneMode", 316);
     ("CCIPErrorInvalidChainForClient", 317); ("CCIPErrorRouterNotConfigured", 318);
     ("CCIPErrorInvalidSourcePoolAddress", 319); ("CCIPErrorDuplicateCCVNotAllowed", 320);
     ("CCIPErrorInvalidTokenTransferFeeConfig", 321); ("CCIPErrorInvalidTransferFeeBps", 322);
     ("CCIPErrorInvalidAllowListRequest", 323); ("CCIPErrorInvalidFeeCalculation", 801);
     ("CCIPErrorInvalidFeeTokenConversion", 802); ("CCIPErrorZeroFeeAggregatorNotAllowed", 803);
     ("CCIPErrorExceedsMaxCCVs", 804); ("CCIPErrorCCVNotAllowed", 805);
     ("CCIPErrorPolicyEngineDetachReverted", 806); ("CCIPErrorUnsupportedSelector", 807);
     ("CCIPErrorZeroAddressNotAllowed", 808)]
    [(1, "not initialized"); (2, "already initialized"); (3, "unauthorized"); (4, "not owner");
     (5, "no pending owner"); (6, "caller not authorized"); (7, "caller already authorized");
     (8, "caller not found"); (9, "role not granted"); (10, "feature not enabled");
     (11, "role already granted"); (12, "cannot renounce role"); (13, "invalid version tag");
     (14, "invalid signature length"); (15, "invalid signature");
     (16, "invalid signature count"); (17, "invalid signature threshold");
     (18, "invalid signature pubkey"); (19, "source signers not configured");
     (20, "invalid verifier results"); (21, "reentrant call"); (22, "token not supported");
     (23, "fee token not supported"); (24, "no gas price available");
     (25, "destination chain not enabled"); (26, "invalid extra args tag");
     (27, "invalid extra args data"); (28, "message gas limit too high");
     (29, "message too large"); (30, "unsupported number of tokens");
     (31, "invalid dest chain config"); (32, "message fee too high");
     (33, "invalid static config"); (34, "invalid token receiver");
     (35, "source token data too large"); (36, "invalid dest bytes overhead");
     (37, "destination chain not supported"); (38, "must be called by router");
     (39, "router must set original sender"); (40, "cannot send zero tokens");
     (41, "can only send one token per message"); (42, "unsupported token");
     (43, "invalid dest chain address"); (44, "fee exceeds max allowed");
     (45, "insufficient fee token amount"); (46, "token receiver not allowed");
     (47, "cursed by r m n"); (48, "remote chain not supported"); (49, "sender not allowed");
     (50, "invalid token amount"); (51, "invalid receiver address"); (52, "invalid config");
     (53, "invalid verifier results length"); (54, "inbound implementation not found");
     (55, "outbound implementation not found"); (56, "invalid address");
     (57, "invalid chain selector"); (58, "invalid version"); (59, "invalid c c v version");
     (60, "off ramp already exists"); (61, "off ramp mismatch"); (62, "bad r m n signal");
     (63, "unsupported destination chain"); (64, "already cursed"); (65, "config not set");
     (66, "duplicate onchain public key"); (67, "invalid signer order");
     (68, "not enough signers"); (69, "not cursed"); (70, "out of order signatures");
     (71, "threshold not met"); (72, "unexpected signer"); (73, "zero value not allowed");
     (100, "source chain not enabled"); (101, "invalid source chain config");
     (102, "invalid on ramp address"); (103, "invalid off ramp address");
     (104, "invalid message destination"); (105, "message already executed");
     (106, "invalid execution state"); (107, "c c v length mismatch");
     (108, "c c v quorum not met"); (109, "receiver error");
     (110, "gas limit override too low"); (111, "invalid receiver length");
     (112, "token handling error"); (113, "message decoding error");
     (114, "receiver does not exist"); (115, "receiver not wasm contract");
     (116, "required c c v missing"); (117, "invalid optional threshold");
     (118, "optional c c v quorum not reached"); (119, "no state progress made");
     (201, "only registry module or owner"); (202, "only administrator");
     (203, "only pending administrator"); (204, "token already registered");
     (205, "invalid token pool token"); (301, "pool token mismatch");
     (302, "chain not supported"); (303, "caller is not ramp");
     (304, "insufficient pool liquidity"); (305, "invalid remote pool address");
     (306, "invalid remote chain config"); (307, "invalid remote chain decimals");
     (308, "decimal amount overflow"); (309, "invalid pool token decimals");
     (310, "bucket overfilled"); (311, "token max capacity exceeded");
     (312, "token rate limit reached"); (313, "invalid rate limit rate");
     (314, "disabled non zero rate limit"); (315, "invalid requested finality");
     (316, "requested finality can only have one mode"); (317, "invalid chain for client");
     (318, "router not configured"); (319, "invalid source pool address");
     (320, "duplicate c c v not allowed"); (321, "invalid token transfer fee config");
     (322, "invalid transfer fee bps"); (323, "invalid allow list request");
     (801, "invalid fee calculation"); (802, "invalid fee token conversion");
     (803, "zero fee aggregator not allowed"); (804, "exceeds max c c vs");
     (805, "c c v not allowed"); (806, "policy engine detach reverted");
     (807, "unsupported selector"); (808, "zero address not allowed")].

Definition router_RoleGrantedEvent : EventDecl :=
  mkEventDecl "RoleGrantedEvent"
    [("Role", TString); ("Account", TString); ("Sender", TString); ("Ledger", TUint32);
     ("TxHash", TString)]
    (Some "auth_RoleGranted").

Definition router_RoleRevokedEvent : EventDecl :=
  mkEventDecl "RoleRevokedEvent"
    [("Role", TString); ("Account", TString); ("Sender", TString); ("Ledger", TUint32);
     ("TxHash", TString)]
    (Some "auth_RoleRevoked").

Definition router_AuthorizedCallerAddedEvent : EventDecl :=
  mkEventDecl "AuthorizedCallerAddedEvent"
    [("Caller", TString); ("Ledger", TUint32); ("TxHash", TString)]
    (Some "auth_CallerAdded").

Definition router_AuthorizedCallerRemovedEvent : EventDecl :=
  mkEventDecl "AuthorizedCallerRemovedEvent"
    [("Caller", TString); ("Ledger", TUint32); ("TxHash", TString)]
    (Some "auth_CallerRemoved").

Definition router_OwnershipTransferStartedEvent : EventDecl :=
  mkEventDecl "OwnershipTransferStartedEvent"
    [("PreviousOwner", TString); ("NewOwner", TString); ("Ledger", TUint32);
     ("TxHash", TString)]
    (Some "auth_OwnerTransferStart").

Definition router_OnRampSetEvent : EventDecl :=
  mkEventDecl "OnRampSetEvent"
    [("DestChainSelector", TUint64); ("Onramp", TString); ("Ledger", TUint32);
     ("TxHash", TString)]
    (Some "router_OnRampSet").

Definition router_OffRampAddedEvent : EventDecl :=
  mkEventDecl "OffRampAddedEvent"
    [("SourceChainSelector", TUint64); ("Offramp", TString); ("Ledger", TUint32);
     ("TxHash", TString)]
    (Some "router_OffRampAdded").

Definition router_OnRampRemovedEvent : EventDecl :=
  mkEventDecl "OnRampRemovedEvent"
    [("DestChainSelector", TUint64); ("Onramp", TString); ("Ledger", TUint32);
     ("TxHash", TString)]
    (Some "router_OnRampRemoved").

Definition router_OffRampRemovedEvent : EventDecl :=
  mkEventDecl "OffRampRemovedEvent"
    [("SourceChainSelector", TUint64); ("Offramp", TString); ("Ledger", TUint32);
     ("TxHash", TString)]
    (Some "router_OffRampRemoved").

Definition router_MessageExecutedEvent : EventDecl :=
  mkEventDecl "MessageExecutedEvent"
    [("MessageId", TArray "32"); ("SourceChainSelector", TUint64); ("Offramp", TString);
     ("Ledger", TUint32); ("TxHash", TString)]
    (Some "router_MessageExecuted").

Definition router_CCIPSendRequestedEvent : EventDecl :=
  mkEventDecl "CCIPSendRequestedEvent"
    [("MessageId", TArray "32"); ("DestChainSelector", TUint64); ("Sender", TString);
     ("Ledger", TUint32); ("TxHash", TString)]
    (Some "router_CCIPSendRequested").

Definition router_types : TypesFile :=
  mkTypesFile "router" (mkImports true true true true)
    [router_TokenAmount; router_AnyToStellarMessage; router_StellarToAnyMessage;
     router_OnRampEntry; router_OffRampEntry; router_RouterConfig]
    [router_CCIPError]
    [router_RoleGrantedEvent; router_RoleRevokedEvent; router_AuthorizedCallerAddedEvent;
     router_AuthorizedCallerRemovedEvent; router_OwnershipTransferStartedEvent;
     router_OnRampSetEvent; router_OffRampAddedEvent; router_OnRampRemovedEvent;
     router_OffRampRemovedEvent; router_MessageExecutedEvent; router_CCIPSendRequestedEvent]
    [].

Definition router_Owner : Method :=
  mkMethod "Owner" [] [TPtr TString] "nil"
    true "owner" [] (RVal (DCall "OptionalAddressFromScVal")).

Definition router_GetFee : Method :=
  mkMethod "GetFee" [("destChainSelector", TUint64); ("message", TNamed "StellarToAnyMessage")] [TBig] "nil"
    true "get_fee" [ECall "Uint64ToScVal"; EMethodOf] (RVal (DCall "I128FromScVal")).

Definition router_Upgrade : Method :=
  mkMethod "Upgrade" [("newWasmHash", TArray "32")] [] ""
    false "upgrade" [ECall "Bytes32ToScVal"] RVoid.

Definition router_IsOwner : Method :=
  mkMethod "IsOwner" [("addr", TString)] [TBool] "false"
    true "is_owner" [ECall "AddressToScVal"] (RVal (DGet "GetB")).

Definition router_CcipSend : Method :=
  mkMethod "CcipSend" [("sender", TString); ("destChainSelector", TUint64);
     ("message", TNamed "StellarToAnyMessage")] [TArray "32"] "[32]byte{}"
    false "ccip_send" [ECall "AddressToScVal"; ECall "Uint64ToScVal"; EMethodOf]
      (RVal (DCall "Bytes32FromScVal")).

Definition router_GetConfig : Method :=
  mkMethod "GetConfig" [] [TPtr (TNamed "RouterConfig")] "nil"
    true "get_config" [] (RVal (DStruct "RouterConfig")).

Definition router_GetOnramp : Method :=
  mkMethod "GetOnramp" [("destChainSelector", TUint64)] [TString] empty_literal
    true "get_onramp" [ECall "Uint64ToScVal"] (RVal (DCall "AddressFromScVal")).

Definition router_InitOwner : Method :=
  mkMethod "InitOwner" [("owner", TString)] [] ""
    false "init_owner" [ECall "AddressToScVal"] RVoid.

Definition router_Initialize : Method :=
  mkMethod "Initialize" [("owner", TString); ("rmnProxy", TString)] [] ""
    false "initialize" [ECall "AddressToScVal"; ECall "AddressToScVal"] RVoid.

Definition router_IsOfframp : Method :=
  mkMethod "IsOfframp" [("sourceChainSelector", TUint64); ("offramp", TString)] [TBool] "false"
    true "is_offramp" [ECall "Uint64ToScVal"; ECall "AddressToScVal"] (RVal (DGet "GetB")).

Definition router_SetOnramp : Method :=
  mkMethod "SetOnramp" [("destChainSelector", TUint64); ("onramp", TString)] [] ""
    false "set_onramp" [ECall "Uint64ToScVal"; ECall "AddressToScVal"] RVoid.

Definition router_AddOfframp : Method :=
  mkMethod "AddOfframp" [("sourceChainSelector", TUint64); ("offramp", TString)] [] ""
    false "add_offramp" [ECall "Uint64ToScVal"; ECall "AddressToScVal"] RVoid.

Definition router_GetOnramps : Method :=
  mkMethod "GetOnramps" [] [TSlice (TNamed "OnRampEntry")] "nil"
    true "get_onramps" [] (RVal (DVec (TNamed "OnRampEntry") (DStruct "OnRampEntry"))).

Definition router_GetOfframps : Method :=
  mkMethod "GetOfframps" [] [TSlice (TNamed "OffRampEntry")] "nil"
    true "get_offramps" [] (RVal (DVec (TNamed "OffRampEntry") (DStruct "OffRampEntry"))).

Definition router_RemoveOnramp : Method :=
  mkMethod "RemoveOnramp" [("destChainSelector", TUint64)] [] ""
    false "remove_onramp" [ECall "Uint64ToScVal"] RVoid.

Definition router_RequireOwner : Method :=
  mkMethod "RequireOwner" [] [TString] empty_literal
    false "require_owner" [] (RVal (DCall "AddressFromScVal")).

Definition router_RouteMessage : Method :=
  mkMethod "RouteMessage" [("offramp", TString); ("sourceChainSelector", TUint64); ("receiver", TString);
     ("message", TNamed "AnyToStellarMessage")] [] ""
    false "route_message" [ECall "AddressToScVal"; ECall "Uint64ToScVal"; ECall "AddressToScVal"; EMethodOf]
      RVoid.

Definition router_RemoveOfframp : Method :=
  mkMethod "RemoveOfframp" [("sourceChainSelector", TUint64); ("offramp", TString)] [] ""
    false "remove_offramp" [ECall "Uint64ToScVal"; ECall "AddressToScVal"] RVoid.

Definition router_AcceptOwnership : Method :=
  mkMethod "AcceptOwnership" [] [] ""
    false "accept_ownership" [] RVoid.

Definition router_TypeAndVersion : Method :=
  mkMethod "TypeAndVersion" [] [TString] empty_literal
    false "type_and_version" [] (RVal (DCall "StringFromScVal")).

Definition router_GetPendingOwner : Method :=
  mkMethod "GetPendingOwner" [] [TPtr TString] "nil"
    true "get_pending_owner" [] (RVal (DCall "OptionalAddressFromScVal")).

Definition router_ApplyRampUpdates : Method :=
  mkMethod "ApplyRampUpdates" [("onrampUpdates", TSlice (TNamed "OnRampEntry"));
     ("offrampRemoves", TSlice (TNamed "OffRampEntry"));
     ("offrampAdds", TSlice (TNamed "OffRampEntry"))] [] ""
    false "apply_ramp_updates" [ECall "StructSliceToScVal"; ECall "StructSliceToScVal"; ECall
      "StructSliceToScVal"] RVoid.

Definition router_IsChainSupported : Method :=
  mkMethod "IsChainSupported" [("destChainSelector", TUint64)] [TBool] "false"
    true "is_chain_supported" [ECall "Uint64ToScVal"] (RVal (DGet "GetB")).

Definition router_TransferOwnership : Method :=
  mkMethod "TransferOwnership" [("newOwner", TString)] [] ""
    false "transfer_ownership" [ECall "AddressToScVal"] RVoid.

Definition router_CancelOwnershipTransfer : Method :=
  mkMethod "CancelOwnershipTransfer" [] [] ""
    false "cancel_ownership_transfer" [] RVoid.

Definition router_WaitForRoleGrantedEvent : EventHelper :=
  mkEventHelper "RoleGrantedEvent" (mkEventParser
    []
    [("role", "Role", EvField (DCall "SymbolFromScVal"));
     ("account", "Account", EvField (DCall "AddressFromScVal"));
     ("sender", "Sender", EvField (DCall "AddressFromScVal"))]).

Definition router_WaitForRoleRevokedEvent : EventHelper :=
  mkEventHelper "RoleRevokedEvent" (mkEventParser
    []
    [("role", "Role", EvField (DCall "SymbolFromScVal"));
     ("account", "Account", EvField (DCall "AddressFromScVal"));
     ("sender", "Sender", EvField (DCall "AddressFromScVal"))]).

Definition router_WaitForAuthorizedCallerAddedEvent : EventHelper :=
  mkEventHelper "AuthorizedCallerAddedEvent" (mkEventParser
    []
    [("caller", "Caller", EvField (DCall "AddressFromScVal"))]).

Definition router_WaitForAuthorizedCallerRemovedEvent : EventHelper :=
  mkEventHelper "AuthorizedCallerRemovedEvent" (mkEventParser
    []
    [("caller", "Caller", EvField (DCall "AddressFromScVal"))]).

Definition router_WaitForOwnershipTransferStartedEvent : EventHelper :=
  mkEventHelper "OwnershipTransferStartedEvent" (mkEventParser
    []
    [("previous_owner", "PreviousOwner", EvField (DCall "AddressFromScVal"));
     ("new_owner", "NewOwner", EvField (DCall "AddressFromScVal"))]).

Definition router_WaitForOnRampSetEvent : EventHelper :=
  mkEventHelper "OnRampSetEvent" (mkEventParser
    []
    [("dest_chain_selector", "DestChainSelector", EvField (DCall "Uint64FromScVal"));
     ("onramp", "Onramp", EvField (DCall "AddressFromScVal"))]).

Definition router_WaitForOffRampAddedEvent : EventHelper :=
  mkEventHelper "OffRampAddedEvent" (mkEventParser
    []
    [("source_chain_selector", "SourceChainSelector", EvField (DCall "Uint64FromScVal"));
     ("offramp", "Offramp", EvField (DCall "AddressFromScVal"))]).

Definition router_WaitForOnRampRemovedEvent : EventHelper :=
  mkEventHelper "OnRampRemovedEvent" (mkEventParser
    []
    [("dest_chain_selector", "DestChainSelector", EvField (DCall "Uint64FromScVal"));
     ("onramp", "Onramp", EvField (DCall "AddressFromScVal"))]).

Definition router_WaitForOffRampRemovedEvent : EventHelper :=
  mkEventHelper "OffRampRemovedEvent" (mkEventParser
    []
    [("source_chain_selector", "SourceChainSelector", EvField (DCall "Uint64FromScVal"));
     ("offramp", "Offramp", EvField (DCall "AddressFromScVal"))]).

Definition router_WaitForMessageExecutedEvent : EventHelper :=
  mkEventHelper "MessageExecutedEvent" (mkEventParser
    []
    [("message_id", "MessageId", EvField (DCall "Bytes32FromScVal"));
     ("source_chain_selector", "SourceChainSelector", EvField (DCall "Uint64FromScVal"));
     ("offramp", "Offramp", EvField (DCall "AddressFromScVal"))]).

Definition router_WaitForCCIPSendRequestedEvent : EventHelper :=
  mkEventHelper "CCIPSendRequestedEvent" (mkEventParser
    []
    [("message_id", "MessageId", EvField (DCall "Bytes32FromScVal"));
     ("dest_chain_selector", "DestChainSelector", EvField (DCall "Uint64FromScVal"));
     ("sender", "Sender", EvField (DCall "AddressFromScVal"))]).

Definition router_client : ClientFile :=
  mkClientFile "router" "Router" true true
    [router_Owner; router_GetFee; router_Upgrade; router_IsOwner; router_CcipSend;
     router_GetConfig; router_GetOnramp; router_InitOwner; router_Initialize; router_IsOfframp;
     router_SetOnramp; router_AddOfframp; router_GetOnramps; router_GetOfframps;
     router_RemoveOnramp; router_RequireOwner; router_RouteMessage; router_RemoveOfframp;
     router_AcceptOwnership; router_TypeAndVersion; router_GetPendingOwner;
     router_ApplyRampUpdates; router_IsChainSupported; router_TransferOwnership;
     router_CancelOwnershipTransfer]
    [router_WaitForRoleGrantedEvent; router_WaitForRoleRevokedEvent;
     router_WaitForAuthorizedCallerAddedEvent; router_WaitForAuthorizedCallerRemovedEvent;
     router_WaitForOwnershipTransferStartedEvent; router_WaitForOnRampSetEvent;
     router_WaitForOffRampAddedEvent; router_WaitForOnRampRemovedEvent;
     router_WaitForOffRampRemovedEvent; router_WaitForMessageExecutedEvent;
     router_WaitForCCIPSendRequestedEvent].

(** ** bindings/contracts/ramp_registry *)

Definition ramp_registry_OnRampEntry : StructDecl :=
  mkStructDecl "OnRampEntry"
    [mkMember "dest_chain_selector" "DestChainSelector" TUint64 (ECall "Uint64ToScVal")
      (DCall "Uint64FromScVal");
     mkMember "onramp" "Onramp" TString (ECall "AddressToScVal") (DCall "AddressFromScVal")].

Definition ramp_registry_OffRampEntry : StructDecl :=
  mkStructDecl "OffRampEntry"
    [mkMember "offramp" "Offramp" TString (ECall "AddressToScVal") (DCall "AddressFromScVal");
     mkMember "source_chain_selector" "SourceChainSelector" TUint64 (ECall "Uint64ToScVal")
       (DCall "Uint64FromScVal")].

Definition ramp_registry_OnRampUpdate : StructDecl :=
  mkStructDecl "OnRampUpdate"
    [mkMember "dest_chain_selector" "DestChainSelector" TUint64 (ECall "Uint64ToScVal")
      (DCall "Uint64FromScVal");
     mkMember "onramp" "Onramp" (TPtr TString) (ECall "OptionalAddressToScVal")
       (DCall "OptionalAddressFromScVal")].

Definition ramp_registry_OffRampUpdate : StructDecl :=
  mkStructDecl "OffRampUpdate"
    [mkMember "enabled" "Enabled" TBool (ECall "BoolToScVal") (DGet "GetB");
     mkMember "offramp" "Offramp" TString (ECall "AddressToScVal") (DCall "AddressFromScVal");
     mkMember "source_chain_selector" "SourceChainSelector" TUint64 (ECall "Uint64ToScVal")
       (DCall "Uint64FromScVal")].

Definition ramp_registry_RoleGrantedEvent : EventDecl :=
  mkEventDecl "RoleGrantedEvent"
    [("Role", TString); ("Account", TString); ("Sender", TString); ("Ledger", TUint32);
     ("TxHash", TString)]
    (Some "auth_RoleGranted").

Definition ramp_registry_RoleRevokedEvent : EventDecl :=
  mkEventDecl "RoleRevokedEvent"
    [("Role", TString); ("Account", TString); ("Sender", TString); ("Ledger", TUint32);
     ("TxHash", TString)]
    (Some "auth_RoleRevoked").

Definition ramp_registry_AuthorizedCallerAddedEvent : EventDecl :=
  mkEventDecl "AuthorizedCallerAddedEvent"
    [("Caller", TString); ("Ledger", TUint32); ("TxHash", TString)]
    (Some "auth_CallerAdded").

Definition ramp_registry_AuthorizedCallerRemovedEvent : EventDecl :=
  mkEventDecl "AuthorizedCallerRemovedEvent"
    [("Caller", TString); ("Ledger", TUint32); ("TxHash", TString)]
    (Some "auth_CallerRemoved").

Definition ramp_registry_OwnershipTransferStartedEvent : EventDecl :=
  mkEventDecl "OwnershipTransferStartedEvent"
    [("PreviousOwner", TString); ("NewOwner", TString); ("Ledger", TUint32);
     ("TxHash", TString)]
    (Some "auth_OwnerTransferStart").

Definition ramp_registry_types : TypesFile :=
  mkTypesFile "ramp_registry" (mkImports true true true false)
    [ramp_registry_OnRampEntry; ramp_registry_OffRampEntry; ramp_registry_OnRampUpdate;
     ramp_registry_OffRampUpdate]
    []
    [ramp_registry_RoleGrantedEvent; ramp_registry_RoleRevokedEvent;
     ramp_registry_AuthorizedCallerAddedEvent; ramp_registry_AuthorizedCallerRemovedEvent;
     ramp_registry_OwnershipTransferStartedEvent]
    [].

Definition ramp_registry_Owner : Method :=
  mkMethod "Owner" [] [TPtr TString] "nil"
    true "owner" [] (RVal (DCall "OptionalAddressFromScVal")).

Definition ramp_registry_Upgrade : Method :=
  mkMethod "Upgrade" [("newWasmHash", TArray "32")] [] ""
    false "upgrade" [ECall "Bytes32ToScVal"] RVoid.

Definition ramp_registry_IsOwner : Method :=
  mkMethod "IsOwner" [("addr", TString)] [TBool] "false"
    true "is_owner" [ECall "AddressToScVal"] (RVal (DGet "GetB")).

Definition ramp_registry_GetOnramp : Method :=
  mkMethod "GetOnramp" [("destChainSelector", TUint64)] [TString] empty_literal
    true "get_onramp" [ECall "Uint64ToScVal"] (RVal (DCall "AddressFromScVal")).

Definition ramp_registry_InitOwner : Method :=
  mkMethod "InitOwner" [("owner", TString)] [] ""
    false "init_owner" [ECall "AddressToScVal"] RVoid.

Definition ramp_registry_Initialize : Method :=
  mkMethod "Initialize" [("owner", TString)] [] ""
    false "initialize" [ECall "AddressToScVal"] RVoid.

Definition ramp_registry_IsOfframp : Method :=
  mkMethod "IsOfframp" [("sourceChainSelector", TUint64); ("offramp", TString)] [TBool] "false"
    true "is_offramp" [ECall "Uint64ToScVal"; ECall "AddressToScVal"] (RVal (DGet "GetB")).

Definition ramp_registry_GetOnramps : Method :=
  mkMethod "GetOnramps" [] [TSlice (TNamed "OnRampEntry")] "nil"
    true "get_onramps" [] (RVal (DVec (TNamed "OnRampEntry") (DStruct "OnRampEntry"))).

Definition ramp_registry_GetOfframps : Method :=
  mkMethod "GetOfframps" [] [TSlice (TNamed "OffRampEntry")] "nil"
    true "get_offramps" [] (RVal (DVec (TNamed "OffRampEntry") (DStruct "OffRampEntry"))).

Definition ramp_registry_RequireOwner : Method :=
  mkMethod "RequireOwner" [] [TString] empty_literal
    false "require_owner" [] (RVal (DCall "AddressFromScVal")).

Definition ramp_registry_AcceptOwnership : Method :=
  mkMethod "AcceptOwnership" [] [] ""
    false "accept_ownership" [] RVoid.

Definition ramp_registry_TypeAndVersion : Method :=
  mkMethod "TypeAndVersion" [] [TString] empty_literal
    false "type_and_version" [] (RVal (DCall "StringFromScVal")).

Definition ramp_registry_GetPendingOwner : Method :=
  mkMethod "GetPendingOwner" [] [TPtr TString] "nil"
    true "get_pending_owner" [] (RVal (DCall "OptionalAddressFromScVal")).

Definition ramp_registry_TransferOwnership : Method :=
  mkMethod "TransferOwnership" [("newOwner", TString)] [] ""
    false "transfer_ownership" [ECall "AddressToScVal"] RVoid.

Definition ramp_registry_ApplyOnrampUpdates : Method :=
  mkMethod "ApplyOnrampUpdates" [("updates", TSlice (TNamed "OnRampUpdate"))] [] ""
    false "apply_onramp_updates" [ECall "StructSliceToScVal"] RVoid.

Definition ramp_registry_ApplyOfframpUpdates : Method :=
  mkMethod "ApplyOfframpUpdates" [("updates", TSlice (TNamed "OffRampUpdate"))] [] ""
    false "apply_offramp_updates" [ECall "StructSliceToScVal"] RVoid.

Definition ramp_registry_CancelOwnershipTransfer : Method :=
  mkMethod "CancelOwnershipTransfer" [] [] ""
    false "cancel_ownership_transfer" [] RVoid.

Definition ramp_registry_WaitForRoleGrantedEvent : EventHelper :=
  mkEventHelper "RoleGrantedEvent" (mkEventParser
    []
    [("role", "Role", EvField (DCall "SymbolFromScVal"));
     ("account", "Account", EvField (DCall "AddressFromScVal"));
     ("sender", "Sender", EvField (DCall "AddressFromScVal"))]).

Definition ramp_registry_WaitForRoleRevokedEvent : EventHelper :=
  mkEventHelper "RoleRevokedEvent" (mkEventParser
    []
    [("role", "Role", EvField (DCall "SymbolFromScVal"));
     ("account", "Account", EvField (DCall "AddressFromScVal"));
     ("sender", "Sender", EvField (DCall "AddressFromScVal"))]).

Definition ramp_registry_WaitForAuthorizedCallerAddedEvent : EventHelper :=
  mkEventHelper "AuthorizedCallerAddedEvent" (mkEventParser
    []
    [("caller", "Caller", EvField (DCall "AddressFromScVal"))]).

Definition ramp_registry_WaitForAuthorizedCallerRemovedEvent : EventHelper :=
  mkEventHelper "AuthorizedCallerRemovedEvent" (mkEventParser
    []
    [("caller", "Caller", EvField (DCall "AddressFromScVal"))]).

Definition ramp_registry_WaitForOwnershipTransferStartedEvent : EventHelper :=
  mkEventHelper "OwnershipTransferStartedEvent" (mkEventParser
    []
    [("previous_owner", "PreviousOwner", EvField (DCall "AddressFromScVal"));
     ("new_owner", "NewOwner", EvField (DCall "AddressFromScVal"))]).

Definition ramp_registry_client : ClientFile :=
  mkClientFile "ramp_registry" "RampRegistry" false true
    [ramp_registry_Owner; ramp_registry_Upgrade; ramp_registry_IsOwner; ramp_registry_GetOnramp;
     ramp_registry_InitOwner; ramp_registry_Initialize; ramp_registry_IsOfframp;
     ramp_registry_GetOnramps; ramp_registry_GetOfframps; ramp_registry_RequireOwner;
     ramp_registry_AcceptOwnership; ramp_registry_TypeAndVersion; ramp_registry_GetPendingOwner;
     ramp_registry_TransferOwnership; ramp_registry_ApplyOnrampUpdates;
     ramp_registry_ApplyOfframpUpdates; ramp_registry_CancelOwnershipTransfer]
    [ramp_registry_WaitForRoleGrantedEvent; ramp_registry_WaitForRoleRevokedEvent;
     ramp_registry_WaitForAuthorizedCallerAddedEvent;
     ramp_registry_WaitForAuthorizedCallerRemovedEvent;
     ramp_registry_WaitForOwnershipTransferStartedEvent].

(** ** bindings/contracts/fee_quoter *)

Definition fee_quoter_TokenAmount : StructDecl :=
  mkStructDecl "TokenAmount"
    [mkMember "amount" "Amount" TBig (ECall "I128ToScVal") (DCall "I128FromScVal");
     mkMember "token" "Token" TString (ECall "AddressToScVal") (DCall "AddressFromScVal")].

Definition fee_quoter_StellarToAnyMessage : StructDecl :=
  mkStructDecl "StellarToAnyMessage"
    [mkMember "data" "Data" TBytes (ECall "BytesToScVal") (DGet "GetBytes");
     mkMember "extra_args" "ExtraArgs" TBytes (ECall "BytesToScVal") (DGet "GetBytes");
     mkMember "fee_token" "FeeToken" TString (ECall "AddressToScVal") (DCall "AddressFromScVal");
     mkMember "receiver" "Receiver" TBytes (ECall "BytesToScVal") (DGet "GetBytes");
     mkMember "token_amounts" "TokenAmounts" (TSlice (TNamed "TokenAmount")) (ECall "StructSliceToScVal")
       (DVec (TNamed "TokenAmount") (DStruct "TokenAmount"))].

Definition fee_quoter_PriceUpdates : StructDecl :=
  mkStructDecl "PriceUpdates"
    [mkMember "gas_price_updates" "GasPriceUpdates" (TSlice (TNamed "GasPriceUpdate"))
      (ECall "StructSliceToScVal") (DVec (TNamed "GasPriceUpdate") (DStruct "GasPriceUpdate"));
     mkMember "token_price_updates" "TokenPriceUpdates" (TSlice (TNamed "TokenPriceUpdate"))
       (ECall "StructSliceToScVal") (DVec (TNamed "TokenPriceUpdate") (DStruct "TokenPriceUpdate"))].

Definition fee_quoter_StaticConfig : StructDecl :=
  mkStructDecl "StaticConfig"
    [mkMember "link_token" "LinkToken" TString (ECall "AddressToScVal") (DCall "AddressFromScVal");
     mkMember "max_fee_juels_per_msg" "MaxFeeJuelsPerMsg" TBig (ECall "I128ToScVal") (DCall "I128FromScVal")].

Definition fee_quoter_GasPriceUpdate : StructDecl :=
  mkStructDecl "GasPriceUpdate"
    [mkMember "dest_chain_selector" "DestChainSelector" TUint64 (ECall "Uint64ToScVal")
      (DCall "Uint64FromScVal");
     mkMember "usd_per_unit_gas" "UsdPerUnitGas" TU128 EMethod (DCall "U128FromScVal")].

Definition fee_quoter_GasQuoteResult : StructDecl :=
  mkStructDecl "GasQuoteResult"
    [mkMember "fee_token_price" "FeeTokenPrice" TU128 EMethod (DCall "U128FromScVal");
     mkMember "gas_cost_usd_cents" "GasCostUsdCents" TU128 EMethod (DCall "U128FromScVal");
     mkMember "premium_multiplier" "PremiumMultiplier" TUint32 (ECall "Uint32ToScVal") (DGet "GetU32");
     mkMember "total_gas" "TotalGas" TUint32 (ECall "Uint32ToScVal") (DGet "GetU32")].

Definition fee_quoter_DestChainConfig : StructDecl :=
  mkStructDecl "DestChainConfig"
    [mkMember "default_token_dest_gas" "DefaultTokenDestGas" TUint32 (ECall "Uint32ToScVal") (DGet "GetU32");
     mkMember "default_token_fee_usd" "DefaultTokenFeeUsd" TUint32 (ECall "Uint32ToScVal") (DGet "GetU32");
     mkMember "default_tx_gas_limit" "DefaultTxGasLimit" TUint32 (ECall "Uint32ToScVal") (DGet "GetU32");
     mkMember "dest_gas_overhead" "DestGasOverhead" TUint32 (ECall "Uint32ToScVal") (DGet "GetU32");
     mkMember "dest_gas_per_payload_byte" "DestGasPerPayloadByte" TUint32 (ECall "Uint32ToScVal")
       (DGet "GetU32");
     mkMember "is_enabled" "IsEnabled" TBool (ECall "BoolToScVal") (DGet "GetB");
     mkMember "link_premium_percent" "LinkPremiumPercent" TUint32 (ECall "Uint32ToScVal") (DGet "GetU32");
     mkMember "max_data_bytes" "MaxDataBytes" TUint32 (ECall "Uint32ToScVal") (DGet "GetU32");
     mkMember "max_per_msg_gas_limit" "MaxPerMsgGasLimit" TUint32 (ECall "Uint32ToScVal") (DGet "GetU32");
     mkMember "network_fee_usd_cents" "NetworkFeeUsdCents" TUint32 (ECall "Uint32ToScVal") (DGet "GetU32")].

Definition fee_quoter_MessageFeeResult : StructDecl :=
  mkStructDecl "MessageFeeResult"
    [mkMember "fee_token_amount" "FeeTokenAmount" TBig (ECall "I128ToScVal") (DCall "I128FromScVal");
     mkMember "fee_token_price" "FeeTokenPrice" TU128 EMethod (DCall "U128FromScVal");
     mkMember "fee_usd_cents" "FeeUsdCents" TU128 EMethod (DCall "U128FromScVal")].

Definition fee_quoter_TimestampedPrice : StructDecl :=
  mkStructDecl "TimestampedPrice"
    [mkMember "timestamp" "Timestamp" TUint64 (ECall "Uint64ToScVal") (DCall "Uint64FromScVal");
     mkMember "value" "Value" TU128 EMethod (DCall "U128FromScVal")].

Definition fee_quoter_TokenPriceUpdate : StructDecl :=
  mkStructDecl "TokenPriceUpdate"
    [mkMember "token" "Token" TString (ECall "AddressToScVal") (DCall "AddressFromScVal");
     mkMember "usd_per_token" "UsdPerToken" TU128 EMethod (DCall "U128FromScVal")].

Definition fee_quoter_TokenFeeConfigArgs : StructDecl :=
  mkStructDecl "TokenFeeConfigArgs"
    [mkMember "config" "Config" (TNamed "TokenTransferFeeConfig") EMethod (DStruct "TokenTransferFeeConfig");
     mkMember "dest_chain_selector" "DestChainSelector" TUint64 (ECall "Uint64ToScVal")
       (DCall "Uint64FromScVal");
     mkMember "token" "Token" TString (ECall "AddressToScVal") (DCall "AddressFromScVal")].

Definition fee_quoter_DestChainConfigArgs : StructDecl :=
  mkStructDecl "DestChainConfigArgs"
    [mkMember "config" "Config" (TNamed "DestChainConfig") EMethod (DStruct "DestChainConfig");
     mkMember "dest_chain_selector" "DestChainSelector" TUint64 (ECall "Uint64ToScVal")
       (DCall "Uint64FromScVal")].

Definition fee_quoter_TokenTransferFeeConfig : StructDecl :=
  mkStructDecl "TokenTransferFeeConfig"
    [mkMember "dest_bytes_overhead" "DestBytesOverhead" TUint32 (ECall "Uint32ToScVal") (DGet "GetU32");
     mkMember "dest_gas_overhead" "DestGasOverhead" TUint32 (ECall "Uint32ToScVal") (DGet "GetU32");
     mkMember "fee_usd_cents" "FeeUsdCents" TUint32 (ECall "Uint32ToScVal") (DGet "GetU32");
     mkMember "is_enabled" "IsEnabled" TBool (ECall "BoolToScVal") (DGet "GetB")].

Definition fee_quoter_TokenTransferFeeResult : StructDecl :=
  mkStructDecl "TokenTransferFeeResult"
    [mkMember "dest_bytes_overhead" "DestBytesOverhead" TUint32 (ECall "Uint32ToScVal") (DGet "GetU32");
     mkMember "dest_gas_overhead" "DestGasOverhead" TUint32 (ECall "Uint32ToScVal") (DGet "GetU32");
     mkMember "fee_usd_cents" "FeeUsdCents" TUint32 (ECall "Uint32ToScVal") (DGet "GetU32")].

Definition fee_quoter_TokenFeeConfigRemoveArgs : StructDecl :=
  mkStructDecl "TokenFeeConfigRemoveArgs"
    [mkMember "dest_chain_selector" "DestChainSelector" TUint64 (ECall "Uint64ToScVal")
      (DCall "Uint64FromScVal");
     mkMember "token" "Token" TString (ECall "AddressToScVal") (DCall "AddressFromScVal")].

Definition fee_quoter_CCIPError : ErrorDecl :=
  mkErrorDecl "CCIPError"
    [("CCIPErrorNotInitialized", 1); ("CCIPErrorAlreadyInitialized", 2);
     ("CCIPErrorUnauthorized", 3); ("CCIPErrorNotOwner", 4); ("CCIPErrorNoPendingOwner", 5);
     ("CCIPErrorCallerNotAuthorized", 6); ("CCIPErrorCallerAlreadyAuthorized", 7);
     ("CCIPErrorCallerNotFound", 8); ("CCIPErrorRoleNotGranted", 9);
     ("CCIPErrorFeatureNotEnabled", 10); ("CCIPErrorRoleAlreadyGranted", 11);
     ("CCIPErrorCannotRenounceRole", 12); ("CCIPErrorInvalidVersionTag", 13);
     ("CCIPErrorInvalidSignatureLength", 14); ("CCIPErrorInvalidSignature", 15);
     ("CCIPErrorInvalidSignatureCount", 16); ("CCIPErrorInvalidSignatureThreshold", 17);
     ("CCIPErrorInvalidSignaturePubkey", 18); ("CCIPErrorSourceSignersNotConfigured", 19);
     ("CCIPErrorInvalidVerifierResults", 20); ("CCIPErrorReentrantCall", 21);
     ("CCIPErrorTokenNotSupported", 22); ("CCIPErrorFeeTokenNotSupported", 23);
     ("CCIPErrorNoGasPriceAvailable", 24); ("CCIPErrorDestinationChainNotEnabled", 25);
     ("CCIPErrorInvalidExtraArgsTag", 26); ("CCIPErrorInvalidExtraArgsData", 27);
     ("CCIPErrorMessageGasLimitTooHigh", 28); ("CCIPErrorMessageTooLarge", 29);
     ("CCIPErrorUnsupportedNumberOfTokens", 30); ("CCIPErrorInvalidDestChainConfig", 31);
     ("CCIPErrorMessageFeeTooHigh", 32); ("CCIPErrorInvalidStaticConfig", 33);
     ("CCIPErrorInvalidTokenReceiver", 34); ("CCIPErrorSourceTokenDataTooLarge", 35);
     ("CCIPErrorInvalidDestBytesOverhead", 36); ("CCIPErrorDestinationChainNotSupported", 37);
     ("CCIPErrorMustBeCalledByRouter", 38); ("CCIPErrorRouterMustSetOriginalSender", 39);
     ("CCIPErrorCannotSendZeroTokens", 40); ("CCIPErrorCanOnlySendOneTokenPerMessage", 41);
     ("CCIPErrorUnsupportedToken", 42); ("CCIPErrorInvalidDestChainAddress", 43);
     ("CCIPErrorFeeExceedsMaxAllowed", 44); ("CCIPErrorInsufficientFeeTokenAmount", 45);
     ("CCIPErrorTokenReceiverNotAllowed", 46); ("CCIPErrorCursedByRMN", 47);
     ("CCIPErrorRemoteChainNotSupported", 48); ("CCIPErrorSenderNotAllowed", 49);
     ("CCIPErrorInvalidTokenAmount", 50); ("CCIPErrorInvalidReceiverAddress", 51);
     ("CCIPErrorInvalidConfig", 52); ("CCIPErrorInvalidVerifierResultsLength", 53);
     ("CCIPErrorInboundImplementationNotFound", 54);
     ("CCIPErrorOutboundImplementationNotFound", 55); ("CCIPErrorInvalidAddress", 56);
     ("CCIPErrorInvalidChainSelector", 57); ("CCIPErrorInvalidVersion", 58);
     ("CCIPErrorInvalidCCVVersion", 59); ("CCIPErrorOffRampAlreadyExists", 60);
     ("CCIPErrorOffRampMismatch", 61); ("CCIPErrorBadRMNSignal", 62);
     ("CCIPErrorUnsupportedDestinationChain", 63); ("CCIPErrorAlreadyCursed", 64);
     ("CCIPErrorConfigNotSet", 65); ("CCIPErrorDuplicateOnchainPublicKey", 66);
     ("CCIPErrorInvalidSignerOrder", 67); ("CCIPErrorNotEnoughSigners", 68);
     ("CCIPErrorNotCursed", 69); ("CCIPErrorOutOfOrderSignatures", 70);
     ("CCIPErrorThresholdNotMet", 71); ("CCIPErrorUnexpectedSigner", 72);
     ("CCIPErrorZeroValueNotAllowed", 73); ("CCIPErrorSourceChainNotEnabled", 100);
     ("CCIPErrorInvalidSourceChainConfig", 101); ("CCIPErrorInvalidOnRampAddress", 102);
     ("CCIPErrorInvalidOffRampAddress", 103); ("CCIPErrorInvalidMessageDestination", 104);
     ("CCIPErrorMessageAlreadyExecuted", 105); ("CCIPErrorInvalidExecutionState", 106);
     ("CCIPErrorCCVLengthMismatch", 107); ("CCIPErrorCCVQuorumNotMet", 108);
     ("CCIPErrorReceiverError", 109); ("CCIPErrorGasLimitOverrideTooLow", 110);
     ("CCIPErrorInvalidReceiverLength", 111); ("CCIPErrorTokenHandlingError", 112);
     ("CCIPErrorMessageDecodingError", 113); ("CCIPErrorReceiverDoesNotExist", 114);
     ("CCIPErrorReceiverNotWasmContract", 115); ("CCIPErrorRequiredCCVMissing", 116);
     ("CCIPErrorInvalidOptionalThreshold", 117); ("CCIPErrorOptionalCCVQuorumNotReached", 118);
     ("CCIPErrorNoStateProgressMade", 119); ("CCIPErrorOnlyRegistryModuleOrOwner", 201);
     ("CCIPErrorOnlyAdministrator", 202); ("CCIPErrorOnlyPendingAdministrator", 203);
     ("CCIPErrorTokenAlreadyRegistered", 204); ("CCIPErrorInvalidTokenPoolToken", 205);
     ("CCIPErrorPoolTokenMismatch", 301); ("CCIPErrorChainNotSupported", 302);
     ("CCIPErrorCallerIsNotRamp", 303); ("CCIPErrorInsufficientPoolLiquidity", 304);
     ("CCIPErrorInvalidRemotePoolAddress", 305); ("CCIPErrorInvalidRemoteChainConfig", 306);
     ("CCIPErrorInvalidRemoteChainDecimals", 307); ("CCIPErrorDecimalAmountOverflow", 308);
     ("CCIPErrorInvalidPoolTokenDecimals", 309); ("CCIPErrorBucketOverfilled", 310);
     ("CCIPErrorTokenMaxCapacityExceeded", 311); ("CCIPErrorTokenRateLimitReached", 312);
     ("CCIPErrorInvalidRateLimitRate", 313); ("CCIPErrorDisabledNonZeroRateLimit", 314);
     ("CCIPErrorInvalidRequestedFinality", 315);
     ("CCIPErrorRequestedFinalityCanOnlyHaveOneMode", 316);
     ("CCIPErrorInvalidChainForClient", 317); ("CCIPErrorRouterNotConfigured", 318);
     ("CCIPErrorInvalidSourcePoolAddress", 319); ("CCIPErrorDuplicateCCVNotAllowed", 320);
     ("CCIPErrorInvalidTokenTransferFeeConfig", 321); ("CCIPErrorInvalidTransferFeeBps", 322);
     ("CCIPErrorInvalidAllowListRequest", 323); ("CCIPErrorInvalidFeeCalculation", 801);
     ("CCIPErrorInvalidFeeTokenConversion", 802); ("CCIPErrorZeroFeeAggregatorNotAllowed", 803);
     ("CCIPErrorExceedsMaxCCVs", 804); ("CCIPErrorCCVNotAllowed", 805);
     ("CCIPErrorPolicyEngineDetachReverted", 806); ("CCIPErrorUnsupportedSelector", 807);
     ("CCIPErrorZeroAddressNotAllowed", 808)]
    [(1, "not initialized"); (2, "already initialized"); (3, "unauthorized"); (4, "not owner");
     (5, "no pending owner"); (6, "caller not authorized"); (7, "caller already authorized");
     (8, "caller not found"); (9, "role not granted"); (10, "feature not enabled");
     (11, "role already granted"); (12, "cannot renounce role"); (13, "invalid version tag");
     (14, "invalid signature length"); (15, "invalid signature");
     (16, "invalid signature count"); (17, "invalid signature threshold");
     (18, "invalid signature pubkey"); (19, "source signers not configured");
     (20, "invalid verifier results"); (21, "reentrant call"); (22, "token not supported");
     (23, "fee token not supported"); (24, "no gas price available");
     (25, "destination chain not enabled"); (26, "invalid extra args tag");
     (27, "invalid extra args data"); (28, "message gas limit too high");
     (29, "message too large"); (30, "unsupported number of tokens");
     (31, "invalid dest chain config"); (32, "message fee too high");
     (33, "invalid static config"); (34, "invalid token receiver");
     (35, "source token data too large"); (36, "invalid dest bytes overhead");
     (37, "destination chain not supported"); (38, "must be called by router");
     (39, "router must set original sender"); (40, "cannot send zero tokens");
     (41, "can only send one token per message"); (42, "unsupported token");
     (43, "invalid dest chain address"); (44, "fee exceeds max allowed");
     (45, "insufficient fee token amount"); (46, "token receiver not allowed");
     (47, "cursed by r m n"); (48, "remote chain not supported"); (49, "sender not allowed");
     (50, "invalid token amount"); (51, "invalid receiver address"); (52, "invalid config");
     (53, "invalid verifier results length"); (54, "inbound implementation not found");
     (55, "outbound implementation not found"); (56, "invalid address");
     (57, "invalid chain selector"); (58, "invalid version"); (59, "invalid c c v version");
     (60, "off ramp already exists"); (61, "off ramp mismatch"); (62, "bad r m n signal");
     (63, "unsupported destination chain"); (64, "already cursed"); (65, "config not set");
     (66, "duplicate onchain public key"); (67, "invalid signer order");
     (68, "not enough signers"); (69, "not cursed"); (70, "out of order signatures");
     (71, "threshold not met"); (72, "unexpected signer"); (73, "zero value not allowed");
     (100, "source chain not enabled"); (101, "invalid source chain config");
     (102, "invalid on ramp address"); (103, "invalid off ramp address");
     (104, "invalid message destination"); (105, "message already executed");
     (106, "invalid execution state"); (107, "c c v length mismatch");
     (108, "c c v quorum not met"); (109, "receiver error");
     (110, "gas limit override too low"); (111, "invalid receiver length");
     (112, "token handling error"); (113, "message decoding error");
     (114, "receiver does not exist"); (115, "receiver not wasm contract");
     (116, "required c c v missing"); (117, "invalid optional threshold");
     (118, "optional c c v quorum not reached"); (119, "no state progress made");
     (201, "only registry module or owner"); (202, "only administrator");
     (203, "only pending administrator"); (204, "token already registered");
     (205, "invalid token pool token"); (301, "pool token mismatch");
     (302, "chain not supported"); (303, "caller is not ramp");
     (304, "insufficient pool liquidity"); (305, "invalid remote pool address");
     (306, "invalid remote chain config"); (307, "invalid remote chain decimals");
     (308, "decimal amount overflow"); (309, "invalid pool token decimals");
     (310, "bucket overfilled"); (311, "token max capacity exceeded");
     (312, "token rate limit reached"); (313, "invalid rate limit rate");
     (314, "disabled non zero rate limit"); (315, "invalid requested finality");
     (316, "requested finality can only have one mode"); (317, "invalid chain for client");
     (318, "router not configured"); (319, "invalid source pool address");
     (320, "duplicate c c v not allowed"); (321, "invalid token transfer fee config");
     (322, "invalid transfer fee bps"); (323, "invalid allow list request");
     (801, "invalid fee calculation"); (802, "invalid fee token conversion");
     (803, "zero fee aggregator not allowed"); (804, "exceeds max c c vs");
     (805, "c c v not allowed"); (806, "policy engine detach reverted");
     (807, "unsupported selector"); (808, "zero address not allowed")].

Definition fee_quoter_RoleGrantedEvent : EventDecl :=
  mkEventDecl "RoleGrantedEvent"
    [("Role", TString); ("Account", TString); ("Sender", TString); ("Ledger", TUint32);
     ("TxHash", TString)]
    (Some "auth_RoleGranted").

Definition fee_quoter_RoleRevokedEvent : EventDecl :=
  mkEventDecl "RoleRevokedEvent"
    [("Role", TString); ("Account", TString); ("Sender", TString); ("Ledger", TUint32);
     ("TxHash", TString)]
    (Some "auth_RoleRevoked").

Definition fee_quoter_AuthorizedCallerAddedEvent : EventDecl :=
  mkEventDecl "AuthorizedCallerAddedEvent"
    [("Caller", TString); ("Ledger", TUint32); ("TxHash", TString)]
    (Some "auth_CallerAdded").

Definition fee_quoter_AuthorizedCallerRemovedEvent : EventDecl :=
  mkEventDecl "AuthorizedCallerRemovedEvent"
    [("Caller", TString); ("Ledger", TUint32); ("TxHash", TString)]
    (Some "auth_CallerRemoved").

Definition fee_quoter_OwnershipTransferStartedEvent : EventDecl :=
  mkEventDecl "OwnershipTransferStartedEvent"
    [("PreviousOwner", TString); ("NewOwner", TString); ("Ledger", TUint32);
     ("TxHash", TString)]
    (Some "auth_OwnerTransferStart").

Definition fee_quoter_FeeTokenAddedEvent : EventDecl :=
  mkEventDecl "FeeTokenAddedEvent"
    [("FeeToken", TString); ("Ledger", TUint32); ("TxHash", TString)]
    (Some "fq_FeeTokenAdded").

Definition fee_quoter_DestChainAddedEvent : EventDecl :=
  mkEventDecl "DestChainAddedEvent"
    [("DestChainSelector", TUint64); ("IsEnabled", TBool); ("MaxDataBytes", TUint32);
     ("Ledger", TUint32); ("TxHash", TString)]
    (Some "fq_DestChainAdded").

Definition fee_quoter_FeeTokenRemovedEvent : EventDecl :=
  mkEventDecl "FeeTokenRemovedEvent"
    [("FeeToken", TString); ("Ledger", TUint32); ("TxHash", TString)]
    (Some "fq_FeeTokenRemoved").

Definition fee_quoter_UsdPerTokenUpdatedEvent : EventDecl :=
  mkEventDecl "UsdPerTokenUpdatedEvent"
    [("Token", TString); ("Value", TU128); ("Timestamp", TUint64); ("Ledger", TUint32);
     ("TxHash", TString)]
    (Some "fq_UsdPerTokenUpdated").

Definition fee_quoter_UsdPerUnitGasUpdatedEvent : EventDecl :=
  mkEventDecl "UsdPerUnitGasUpdatedEvent"
    [("DestChainSelector", TUint64); ("Value", TU128); ("Timestamp", TUint64);
     ("Ledger", TUint32); ("TxHash", TString)]
    (Some "fq_UsdPerUnitGasUpdated").

Definition fee_quoter_TokenFeeConfigDeletedEvent : EventDecl :=
  mkEventDecl "TokenFeeConfigDeletedEvent"
    [("DestChainSelector", TUint64); ("Token", TString); ("Ledger", TUint32);
     ("TxHash", TString)]
    (Some "fq_TknTransferFeeDeleted").

Definition fee_quoter_TokenFeeConfigUpdatedEvent : EventDecl :=
  mkEventDecl "TokenFeeConfigUpdatedEvent"
    [("DestChainSelector", TUint64); ("Token", TString); ("FeeUsdCents", TUint32);
     ("DestGasOverhead", TUint32); ("DestBytesOverhead", TUint32); ("Ledger", TUint32);
     ("TxHash", TString)]
    (Some "fq_TknTransferFeeUpdated").

Definition fee_quoter_DestChainConfigUpdatedEvent : EventDecl :=
  mkEventDecl "DestChainConfigUpdatedEvent"
    [("DestChainSelector", TUint64); ("IsEnabled", TBool); ("MaxDataBytes", TUint32);
     ("Ledger", TUint32); ("TxHash", TString)]
    (Some "fq_DestChainConfigUpdated").

Definition fee_quoter_types : TypesFile :=
  mkTypesFile "fee_quoter" (mkImports true true true true)
    [fee_quoter_TokenAmount; fee_quoter_StellarToAnyMessage; fee_quoter_PriceUpdates;
     fee_quoter_StaticConfig; fee_quoter_GasPriceUpdate; fee_quoter_GasQuoteResult;
     fee_quoter_DestChainConfig; fee_quoter_MessageFeeResult; fee_quoter_TimestampedPrice;
     fee_quoter_TokenPriceUpdate; fee_quoter_TokenFeeConfigArgs; fee_quoter_DestChainConfigArgs;
     fee_quoter_TokenTransferFeeConfig; fee_quoter_TokenTransferFeeResult;
     fee_quoter_TokenFeeConfigRemoveArgs]
    [fee_quoter_CCIPError]
    [fee_quoter_RoleGrantedEvent; fee_quoter_RoleRevokedEvent;
     fee_quoter_AuthorizedCallerAddedEvent; fee_quoter_AuthorizedCallerRemovedEvent;
     fee_quoter_OwnershipTransferStartedEvent; fee_quoter_FeeTokenAddedEvent;
     fee_quoter_DestChainAddedEvent; fee_quoter_FeeTokenRemovedEvent;
     fee_quoter_UsdPerTokenUpdatedEvent; fee_quoter_UsdPerUnitGasUpdatedEvent;
     fee_quoter_TokenFeeConfigDeletedEvent; fee_quoter_TokenFeeConfigUpdatedEvent;
     fee_quoter_DestChainConfigUpdatedEvent]
    [].

Definition fee_quoter_Owner : Method :=
  mkMethod "Owner" [] [TPtr TString] "nil"
    true "owner" [] (RVal (DCall "OptionalAddressFromScVal")).

Definition fee_quoter_Upgrade : Method :=
  mkMethod "Upgrade" [("newWasmHash", TArray "32")] [] ""
    false "upgrade" [ECall "Bytes32ToScVal"] RVoid.

Definition fee_quoter_IsOwner : Method :=
  mkMethod "IsOwner" [("addr", TString)] [TBool] "false"
    true "is_owner" [ECall "AddressToScVal"] (RVal (DGet "GetB")).

Definition fee_quoter_InitOwner : Method :=
  mkMethod "InitOwner" [("owner", TString)] [] ""
    false "init_owner" [ECall "AddressToScVal"] RVoid.

Definition fee_quoter_Initialize : Method :=
  mkMethod "Initialize" [("owner", TString); ("staticConfig", TNamed "StaticConfig");
     ("authorizedCallers", TSlice TString)] [] ""
    false "initialize" [ECall "AddressToScVal"; EMethodOf; ECall "AddressSliceToScVal"] RVoid.

Definition fee_quoter_RequireOwner : Method :=
  mkMethod "RequireOwner" [] [TString] empty_literal
    false "require_owner" [] (RVal (DCall "AddressFromScVal")).

Definition fee_quoter_UpdatePrices : Method :=
  mkMethod "UpdatePrices" [("updater", TString); ("priceUpdates", TNamed "PriceUpdates")] [] ""
    false "update_prices" [ECall "AddressToScVal"; EMethodOf] RVoid.

Definition fee_quoter_GetFeeTokens : Method :=
  mkMethod "GetFeeTokens" [] [TSlice TString] "nil"
    true "get_fee_tokens" [] (RVal (DVec TString (DCall "AddressFromScVal"))).

Definition fee_quoter_GetMessageFee : Method :=
  mkMethod "GetMessageFee" [("destChainSelector", TUint64); ("message", TNamed "StellarToAnyMessage")]
    [TPtr (TNamed "MessageFeeResult")] "nil"
    true "get_message_fee" [ECall "Uint64ToScVal"; EMethodOf] (RVal (DStruct "MessageFeeResult")).

Definition fee_quoter_GetTokenPrice : Method :=
  mkMethod "GetTokenPrice" [("token", TString)] [TPtr (TNamed "TimestampedPrice")] "nil"
    true "get_token_price" [ECall "AddressToScVal"] (RVal (DStruct "TimestampedPrice")).

Definition fee_quoter_AcceptOwnership : Method :=
  mkMethod "AcceptOwnership" [] [] ""
    false "accept_ownership" [] RVoid.

Definition fee_quoter_GetTokenPrices : Method :=
  mkMethod "GetTokenPrices" [("tokens", TSlice TString)] [TSlice (TNamed "TimestampedPrice")] "nil"
    true "get_token_prices" [ECall "AddressSliceToScVal"]
      (RVal (DVec (TNamed "TimestampedPrice") (DStruct "TimestampedPrice"))).

Definition fee_quoter_TypeAndVersion : Method :=
  mkMethod "TypeAndVersion" [] [TString] empty_literal
    false "type_and_version" [] (RVal (DCall "StringFromScVal")).

Definition fee_quoter_GetPendingOwner : Method :=
  mkMethod "GetPendingOwner" [] [TPtr TString] "nil"
    true "get_pending_owner" [] (RVal (DCall "OptionalAddressFromScVal")).

Definition fee_quoter_GetStaticConfig : Method :=
  mkMethod "GetStaticConfig" [] [TPtr (TNamed "StaticConfig")] "nil"
    true "get_static_config" [] (RVal (DStruct "StaticConfig")).

Definition fee_quoter_RemoveFeeTokens : Method :=
  mkMethod "RemoveFeeTokens" [("tokens", TSlice TString)] [] ""
    false "remove_fee_tokens" [ECall "AddressSliceToScVal"] RVoid.

Definition fee_quoter_QuoteGasForExec : Method :=
  mkMethod "QuoteGasForExec" [("destChainSelector", TUint64); ("nonCalldataGas", TUint32);
    ("calldataSize", TUint32);
     ("feeToken", TString)] [TPtr (TNamed "GasQuoteResult")] "nil"
    false "quote_gas_for_exec" [ECall "Uint64ToScVal"; ECall "Uint32ToScVal"; ECall "Uint32ToScVal"; ECall
      "AddressToScVal"] (RVal (DStruct "GasQuoteResult")).

Definition fee_quoter_TransferOwnership : Method :=
  mkMethod "TransferOwnership" [("newOwner", TString)] [] ""
    false "transfer_ownership" [ECall "AddressToScVal"] RVoid.

Definition fee_quoter_ConvertTokenAmount : Method :=
  mkMethod "ConvertTokenAmount" [("fromToken", TString); ("fromTokenAmount", TBig); ("toToken", TString)]
    [TBig] "nil"
    false "convert_token_amount" [ECall "AddressToScVal"; ECall "I128ToScVal"; ECall "AddressToScVal"]
      (RVal (DCall "I128FromScVal")).

Definition fee_quoter_GetAllDestConfigs : Method :=
  mkMethod "GetAllDestConfigs" [] [TSlice TUint64; TSlice (TNamed "DestChainConfig")] "nil, nil"
    true "get_all_dest_configs" [] (RTuple
      [DVec TUint64 (DCall "Uint64FromScVal"); DVec (TNamed "DestChainConfig") (DStruct "DestChainConfig")]).

Definition fee_quoter_GetTokenFeeConfig : Method :=
  mkMethod "GetTokenFeeConfig" [("destChainSelector", TUint64); ("token", TString)]
    [TPtr (TNamed "TokenTransferFeeConfig")] "nil"
    true "get_token_fee_config" [ECall "Uint64ToScVal"; ECall "AddressToScVal"]
      (RVal (DStruct "TokenTransferFeeConfig")).

Definition fee_quoter_GetDestChainConfig : Method :=
  mkMethod "GetDestChainConfig" [("destChainSelector", TUint64)] [TPtr (TNamed "DestChainConfig")] "nil"
    true "get_dest_chain_config" [ECall "Uint64ToScVal"] (RVal (DStruct "DestChainConfig")).

Definition fee_quoter_GetTokenTransferFee : Method :=
  mkMethod "GetTokenTransferFee" [("destChainSelector", TUint64); ("token", TString)]
    [TPtr (TNamed "TokenTransferFeeResult")] "nil"
    true "get_token_transfer_fee" [ECall "Uint64ToScVal"; ECall "AddressToScVal"]
      (RVal (DStruct "TokenTransferFeeResult")).

Definition fee_quoter_ApplyTokenFeeConfigs : Method :=
  mkMethod "ApplyTokenFeeConfigs" [("configArgs", TSlice (TNamed "TokenFeeConfigArgs"));
     ("removeArgs", TSlice (TNamed "TokenFeeConfigRemoveArgs"))] [] ""
    false "apply_token_fee_configs" [ECall "StructSliceToScVal"; ECall "StructSliceToScVal"] RVoid.

Definition fee_quoter_ApplyDestChainConfigs : Method :=
  mkMethod "ApplyDestChainConfigs" [("configArgs", TSlice (TNamed "DestChainConfigArgs"))] [] ""
    false "apply_dest_chain_configs" [ECall "StructSliceToScVal"] RVoid.

Definition fee_quoter_GetDestChainGasPrice : Method :=
  mkMethod "GetDestChainGasPrice" [("destChainSelector", TUint64)] [TPtr (TNamed "TimestampedPrice")] "nil"
    true "get_dest_chain_gas_price" [ECall "Uint64ToScVal"] (RVal (DStruct "TimestampedPrice")).

Definition fee_quoter_CancelOwnershipTransfer : Method :=
  mkMethod "CancelOwnershipTransfer" [] [] ""
    false "cancel_ownership_transfer" [] RVoid.

Definition fee_quoter_GetValidatedTokenPrice : Method :=
  mkMethod "GetValidatedTokenPrice" [("token", TString)] [TU128] "scval.U128{}"
    true "get_validated_token_price" [ECall "AddressToScVal"] (RVal (DCall "U128FromScVal")).

Definition fee_quoter_WaitForRoleGrantedEvent : EventHelper :=
  mkEventHelper "RoleGrantedEvent" (mkEventParser
    []
    [("role", "Role", EvField (DCall "SymbolFromScVal"));
     ("account", "Account", EvField (DCall "AddressFromScVal"));
     ("sender", "Sender", EvField (DCall "AddressFromScVal"))]).

Definition fee_quoter_WaitForRoleRevokedEvent : EventHelper :=
  mkEventHelper "RoleRevokedEvent" (mkEventParser
    []
    [("role", "Role", EvField (DCall "SymbolFromScVal"));
     ("account", "Account", EvField (DCall "AddressFromScVal"));
     ("sender", "Sender", EvField (DCall "AddressFromScVal"))]).

Definition fee_quoter_WaitForAuthorizedCallerAddedEvent : EventHelper :=
  mkEventHelper "AuthorizedCallerAddedEvent" (mkEventParser
    []
    [("caller", "Caller", EvField (DCall "AddressFromScVal"))]).

Definition fee_quoter_WaitForAuthorizedCallerRemovedEvent : EventHelper :=
  mkEventHelper "AuthorizedCallerRemovedEvent" (mkEventParser
    []
    [("caller", "Caller", EvField (DCall "AddressFromScVal"))]).

Definition fee_quoter_WaitForOwnershipTransferStartedEvent : EventHelper :=
  mkEventHelper "OwnershipTransferStartedEvent" (mkEventParser
    []
    [("previous_owner", "PreviousOwner", EvField (DCall "AddressFromScVal"));
     ("new_owner", "NewOwner", EvField (DCall "AddressFromScVal"))]).

Definition fee_quoter_WaitForFeeTokenAddedEvent : EventHelper :=
  mkEventHelper "FeeTokenAddedEvent" (mkEventParser
    []
    [("fee_token", "FeeToken", EvField (DCall "AddressFromScVal"))]).

Definition fee_quoter_WaitForDestChainAddedEvent : EventHelper :=
  mkEventHelper "DestChainAddedEvent" (mkEventParser
    []
    [("dest_chain_selector", "DestChainSelector", EvField (DCall "Uint64FromScVal"));
     ("is_enabled", "IsEnabled", EvField (DGet "GetB"));
     ("max_data_bytes", "MaxDataBytes", EvField (DGet "GetU32"))]).

Definition fee_quoter_WaitForFeeTokenRemovedEvent : EventHelper :=
  mkEventHelper "FeeTokenRemovedEvent" (mkEventParser
    []
    [("fee_token", "FeeToken", EvField (DCall "AddressFromScVal"))]).

Definition fee_quoter_WaitForUsdPerTokenUpdatedEvent : EventHelper :=
  mkEventHelper "UsdPerTokenUpdatedEvent" (mkEventParser
    []
    [("token", "Token", EvField (DCall "AddressFromScVal"));
     ("value", "Value", EvField (DCall "U128FromScVal"));
     ("timestamp", "Timestamp", EvField (DCall "Uint64FromScVal"))]).

Definition fee_quoter_WaitForUsdPerUnitGasUpdatedEvent : EventHelper :=
  mkEventHelper "UsdPerUnitGasUpdatedEvent" (mkEventParser
    []
    [("dest_chain_selector", "DestChainSelector", EvField (DCall "Uint64FromScVal"));
     ("value", "Value", EvField (DCall "U128FromScVal"));
     ("timestamp", "Timestamp", EvField (DCall "Uint64FromScVal"))]).

Definition fee_quoter_WaitForTokenFeeConfigDeletedEvent : EventHelper :=
  mkEventHelper "TokenFeeConfigDeletedEvent" (mkEventParser
    []
    [("dest_chain_selector", "DestChainSelector", EvField (DCall "Uint64FromScVal"));
     ("token", "Token", EvField (DCall "AddressFromScVal"))]).

Definition fee_quoter_WaitForTokenFeeConfigUpdatedEvent : EventHelper :=
  mkEventHelper "TokenFeeConfigUpdatedEvent" (mkEventParser
    []
    [("dest_chain_selector", "DestChainSelector", EvField (DCall "Uint64FromScVal"));
     ("token", "Token", EvField (DCall "AddressFromScVal"));
     ("fee_usd_cents", "FeeUsdCents", EvField (DGet "GetU32"));
     ("dest_gas_overhead", "DestGasOverhead", EvField (DGet "GetU32"));
     ("dest_bytes_overhead", "DestBytesOverhead", EvField (DGet "GetU32"))]).

Definition fee_quoter_WaitForDestChainConfigUpdatedEvent : EventHelper :=
  mkEventHelper "DestChainConfigUpdatedEvent" (mkEventParser
    []
    [("dest_chain_selector", "DestChainSelector", EvField (DCall "Uint64FromScVal"));
     ("is_enabled", "IsEnabled", EvField (DGet "GetB"));
     ("max_data_bytes", "MaxDataBytes", EvField (DGet "GetU32"))]).

Definition fee_quoter_client : ClientFile :=
  mkClientFile "fee_quoter" "FeeQuoter" true true
    [fee_quoter_Owner; fee_quoter_Upgrade; fee_quoter_IsOwner; fee_quoter_InitOwner;
     fee_quoter_Initialize; fee_quoter_RequireOwner; fee_quoter_UpdatePrices;
     fee_quoter_GetFeeTokens; fee_quoter_GetMessageFee; fee_quoter_GetTokenPrice;
     fee_quoter_AcceptOwnership; fee_quoter_GetTokenPrices; fee_quoter_TypeAndVersion;
     fee_quoter_GetPendingOwner; fee_quoter_GetStaticConfig; fee_quoter_RemoveFeeTokens;
     fee_quoter_QuoteGasForExec; fee_quoter_TransferOwnership; fee_quoter_ConvertTokenAmount;
     fee_quoter_GetAllDestConfigs; fee_quoter_GetTokenFeeConfig; fee_quoter_GetDestChainConfig;
     fee_quoter_GetTokenTransferFee; fee_quoter_ApplyTokenFeeConfigs;
     fee_quoter_ApplyDestChainConfigs; fee_quoter_GetDestChainGasPrice;
     fee_quoter_CancelOwnershipTransfer; fee_quoter_GetValidatedTokenPrice]
    [fee_quoter_WaitForRoleGrantedEvent; fee_quoter_WaitForRoleRevokedEvent;
     fee_quoter_WaitForAuthorizedCallerAddedEvent;
     fee_quoter_WaitForAuthorizedCallerRemovedEvent;
     fee_quoter_WaitForOwnershipTransferStartedEvent; fee_quoter_WaitForFeeTokenAddedEvent;
     fee_quoter_WaitForDestChainAddedEvent; fee_quoter_WaitForFeeTokenRemovedEvent;
     fee_quoter_WaitForUsdPerTokenUpdatedEvent; fee_quoter_WaitForUsdPerUnitGasUpdatedEvent;
     fee_quoter_WaitForTokenFeeConfigDeletedEvent; fee_quoter_WaitForTokenFeeConfigUpdatedEvent;
     fee_quoter_WaitForDestChainConfigUpdatedEvent].

(** ** bindings/contracts/executor *)

Definition executor_DynamicConfig : StructDecl :=
  mkStructDecl "DynamicConfig"
    [mkMember "allowed_finality_config" "AllowedFinalityConfig" TUint32 (ECall "Uint32ToScVal") (DGet "GetU32");
     mkMember "ccv_allowlist_enabled" "CcvAllowlistEnabled" TBool (ECall "BoolToScVal") (DGet "GetB");
     mkMember "fee_aggregator" "FeeAggregator" (TPtr TString) (ECall "OptionalAddressToScVal")
       (DCall "OptionalAddressFromScVal")].

Definition executor_RemoteChainConfig : StructDecl :=
  mkStructDecl "RemoteChainConfig"
    [mkMember "enabled" "Enabled" TBool (ECall "BoolToScVal") (DGet "GetB");
     mkMember "usd_cents_fee" "UsdCentsFee" TUint32 (ECall "Uint32ToScVal") (DGet "GetU32")].

Definition executor_RemoteChainConfigArgs : StructDecl :=
  mkStructDecl "RemoteChainConfigArgs"
    [mkMember "config" "Config" (TNamed "RemoteChainConfig") EMethod (DStruct "RemoteChainConfig");
     mkMember "dest_chain_selector" "DestChainSelector" TUint64 (ECall "Uint64ToScVal")
       (DCall "Uint64FromScVal")].

Definition executor_CCIPError : ErrorDecl :=
  mkErrorDecl "CCIPError"
    [("CCIPErrorNotInitialized", 1); ("CCIPErrorAlreadyInitialized", 2);
     ("CCIPErrorUnauthorized", 3); ("CCIPErrorNotOwner", 4); ("CCIPErrorNoPendingOwner", 5);
     ("CCIPErrorCallerNotAuthorized", 6); ("CCIPErrorCallerAlreadyAuthorized", 7);
     ("CCIPErrorCallerNotFound", 8); ("CCIPErrorRoleNotGranted", 9);
     ("CCIPErrorFeatureNotEnabled", 10); ("CCIPErrorRoleAlreadyGranted", 11);
     ("CCIPErrorCannotRenounceRole", 12); ("CCIPErrorInvalidVersionTag", 13);
     ("CCIPErrorInvalidSignatureLength", 14); ("CCIPErrorInvalidSignature", 15);
     ("CCIPErrorInvalidSignatureCount", 16); ("CCIPErrorInvalidSignatureThreshold", 17);
     ("CCIPErrorInvalidSignaturePubkey", 18); ("CCIPErrorSourceSignersNotConfigured", 19);
     ("CCIPErrorInvalidVerifierResults", 20); ("CCIPErrorReentrantCall", 21);
     ("CCIPErrorTokenNotSupported", 22); ("CCIPErrorFeeTokenNotSupported", 23);
     ("CCIPErrorNoGasPriceAvailable", 24); ("CCIPErrorDestinationChainNotEnabled", 25);
     ("CCIPErrorInvalidExtraArgsTag", 26); ("CCIPErrorInvalidExtraArgsData", 27);
     ("CCIPErrorMessageGasLimitTooHigh", 28); ("CCIPErrorMessageTooLarge", 29);
     ("CCIPErrorUnsupportedNumberOfTokens", 30); ("CCIPErrorInvalidDestChainConfig", 31);
     ("CCIPErrorMessageFeeTooHigh", 32); ("CCIPErrorInvalidStaticConfig", 33);
     ("CCIPErrorInvalidTokenReceiver", 34); ("CCIPErrorSourceTokenDataTooLarge", 35);
     ("CCIPErrorInvalidDestBytesOverhead", 36); ("CCIPErrorDestinationChainNotSupported", 37);
     ("CCIPErrorMustBeCalledByRouter", 38); ("CCIPErrorRouterMustSetOriginalSender", 39);
     ("CCIPErrorCannotSendZeroTokens", 40); ("CCIPErrorCanOnlySendOneTokenPerMessage", 41);
     ("CCIPErrorUnsupportedToken", 42); ("CCIPErrorInvalidDestChainAddress", 43);
     ("CCIPErrorFeeExceedsMaxAllowed", 44); ("CCIPErrorInsufficientFeeTokenAmount", 45);
     ("CCIPErrorTokenReceiverNotAllowed", 46); ("CCIPErrorCursedByRMN", 47);
     ("CCIPErrorRemoteChainNotSupported", 48); ("CCIPErrorSenderNotAllowed", 49);
     ("CCIPErrorInvalidTokenAmount", 50); ("CCIPErrorInvalidReceiverAddress", 51);
     ("CCIPErrorInvalidConfig", 52); ("CCIPErrorInvalidVerifierResultsLength", 53);
     ("CCIPErrorInboundImplementationNotFound", 54);
     ("CCIPErrorOutboundImplementationNotFound", 55); ("CCIPErrorInvalidAddress", 56);
     ("CCIPErrorInvalidChainSelector", 57); ("CCIPErrorInvalidVersion", 58);
     ("CCIPErrorInvalidCCVVersion", 59); ("CCIPErrorOffRampAlreadyExists", 60);
     ("CCIPErrorOffRampMismatch", 61); ("CCIPErrorBadRMNSignal", 62);
     ("CCIPErrorUnsupportedDestinationChain", 63); ("CCIPErrorAlreadyCursed", 64);
     ("CCIPErrorConfigNotSet", 65); ("CCIPErrorDuplicateOnchainPublicKey", 66);
     ("CCIPErrorInvalidSignerOrder", 67); ("CCIPErrorNotEnoughSigners", 68);
     ("CCIPErrorNotCursed", 69); ("CCIPErrorOutOfOrderSignatures", 70);
     ("CCIPErrorThresholdNotMet", 71); ("CCIPErrorUnexpectedSigner", 72);
     ("CCIPErrorZeroValueNotAllowed", 73); ("CCIPErrorSourceChainNotEnabled", 100);
     ("CCIPErrorInvalidSourceChainConfig", 101); ("CCIPErrorInvalidOnRampAddress", 102);
     ("CCIPErrorInvalidOffRampAddress", 103); ("CCIPErrorInvalidMessageDestination", 104);
     ("CCIPErrorMessageAlreadyExecuted", 105); ("CCIPErrorInvalidExecutionState", 106);
     ("CCIPErrorCCVLengthMismatch", 107); ("CCIPErrorCCVQuorumNotMet", 108);
     ("CCIPErrorReceiverError", 109); ("CCIPErrorGasLimitOverrideTooLow", 110);
     ("CCIPErrorInvalidReceiverLength", 111); ("CCIPErrorTokenHandlingError", 112);
     ("CCIPErrorMessageDecodingError", 113); ("CCIPErrorReceiverDoesNotExist", 114);
     ("CCIPErrorReceiverNotWasmContract", 115); ("CCIPErrorRequiredCCVMissing", 116);
     ("CCIPErrorInvalidOptionalThreshold", 117); ("CCIPErrorOptionalCCVQuorumNotReached", 118);
     ("CCIPErrorNoStateProgressMade", 119); ("CCIPErrorOnlyRegistryModuleOrOwner", 201);
     ("CCIPErrorOnlyAdministrator", 202); ("CCIPErrorOnlyPendingAdministrator", 203);
     ("CCIPErrorTokenAlreadyRegistered", 204); ("CCIPErrorInvalidTokenPoolToken", 205);
     ("CCIPErrorPoolTokenMismatch", 301); ("CCIPErrorChainNotSupported", 302);
     ("CCIPErrorCallerIsNotRamp", 303); ("CCIPErrorInsufficientPoolLiquidity", 304);
     ("CCIPErrorInvalidRemotePoolAddress", 305); ("CCIPErrorInvalidRemoteChainConfig", 306);
     ("CCIPErrorInvalidRemoteChainDecimals", 307); ("CCIPErrorDecimalAmountOverflow", 308);
     ("CCIPErrorInvalidPoolTokenDecimals", 309); ("CCIPErrorBucketOverfilled", 310);
     ("CCIPErrorTokenMaxCapacityExceeded", 311); ("CCIPErrorTokenRateLimitReached", 312);
     ("CCIPErrorInvalidRateLimitRate", 313); ("CCIPErrorDisabledNonZeroRateLimit", 314);
     ("CCIPErrorInvalidRequestedFinality", 315);
     ("CCIPErrorRequestedFinalityCanOnlyHaveOneMode", 316);
     ("CCIPErrorInvalidChainForClient", 317); ("CCIPErrorRouterNotConfigured", 318);
     ("CCIPErrorInvalidSourcePoolAddress", 319); ("CCIPErrorDuplicateCCVNotAllowed", 320);
     ("CCIPErrorInvalidTokenTransferFeeConfig", 321); ("CCIPErrorInvalidTransferFeeBps", 322);
     ("CCIPErrorInvalidAllowListRequest", 323); ("CCIPErrorInvalidFeeCalculation", 801);
     ("CCIPErrorInvalidFeeTokenConversion", 802); ("CCIPErrorZeroFeeAggregatorNotAllowed", 803);
     ("CCIPErrorExceedsMaxCCVs", 804); ("CCIPErrorCCVNotAllowed", 805);
     ("CCIPErrorPolicyEngineDetachReverted", 806); ("CCIPErrorUnsupportedSelector", 807);
     ("CCIPErrorZeroAddressNotAllowed", 808)]
    [(1, "not initialized"); (2, "already initialized"); (3, "unauthorized"); (4, "not owner");
     (5, "no pending owner"); (6, "caller not authorized"); (7, "caller already authorized");
     (8, "caller not found"); (9, "role not granted"); (10, "feature not enabled");
     (11, "role already granted"); (12, "cannot renounce role"); (13, "invalid version tag");
     (14, "invalid signature length"); (15, "invalid signature");
     (16, "invalid signature count"); (17, "invalid signature threshold");
     (18, "invalid signature pubkey"); (19, "source signers not configured");
     (20, "invalid verifier results"); (21, "reentrant call"); (22, "token not supported");
     (23, "fee token not supported"); (24, "no gas price available");
     (25, "destination chain not enabled"); (26, "invalid extra args tag");
     (27, "invalid extra args data"); (28, "message gas limit too high");
     (29, "message too large"); (30, "unsupported number of tokens");
     (31, "invalid dest chain config"); (32, "message fee too high");
     (33, "invalid static config"); (34, "invalid token receiver");
     (35, "source token data too large"); (36, "invalid dest bytes overhead");
     (37, "destination chain not supported"); (38, "must be called by router");
     (39, "router must set original sender"); (40, "cannot send zero tokens");
     (41, "can only send one token per message"); (42, "unsupported token");
     (43, "invalid dest chain address"); (44, "fee exceeds max allowed");
     (45, "insufficient fee token amount"); (46, "token receiver not allowed");
     (47, "cursed by r m n"); (48, "remote chain not supported"); (49, "sender not allowed");
     (50, "invalid token amount"); (51, "invalid receiver address"); (52, "invalid config");
     (53, "invalid verifier results length"); (54, "inbound implementation not found");
     (55, "outbound implementation not found"); (56, "invalid address");
     (57, "invalid chain selector"); (58, "invalid version"); (59, "invalid c c v version");
     (60, "off ramp already exists"); (61, "off ramp mismatch"); (62, "bad r m n signal");
     (63, "unsupported destination chain"); (64, "already cursed"); (65, "config not set");
     (66, "duplicate onchain public key"); (67, "invalid signer order");
     (68, "not enough signers"); (69, "not cursed"); (70, "out of order signatures");
     (71, "threshold not met"); (72, "unexpected signer"); (73, "zero value not allowed");
     (100, "source chain not enabled"); (101, "invalid source chain config");
     (102, "invalid on ramp address"); (103, "invalid off ramp address");
     (104, "invalid message destination"); (105, "message already executed");
     (106, "invalid execution state"); (107, "c c v length mismatch");
     (108, "c c v quorum not met"); (109, "receiver error");
     (110, "gas limit override too low"); (111, "invalid receiver length");
     (112, "token handling error"); (113, "message decoding error");
     (114, "receiver does not exist"); (115, "receiver not wasm contract");
     (116, "required c c v missing"); (117, "invalid optional threshold");
     (118, "optional c c v quorum not reached"); (119, "no state progress made");
     (201, "only registry module or owner"); (202, "only administrator");
     (203, "only pending administrator"); (204, "token already registered");
     (205, "invalid token pool token"); (301, "pool token mismatch");
     (302, "chain not supported"); (303, "caller is not ramp");
     (304, "insufficient pool liquidity"); (305, "invalid remote pool address");
     (306, "invalid remote chain config"); (307, "invalid remote chain decimals");
     (308, "decimal amount overflow"); (309, "invalid pool token decimals");
     (310, "bucket overfilled"); (311, "token max capacity exceeded");
     (312, "token rate limit reached"); (313, "invalid rate limit rate");
     (314, "disabled non zero rate limit"); (315, "invalid requested finality");
     (316, "requested finality can only have one mode"); (317, "invalid chain for client");
     (318, "router not configured"); (319, "invalid source pool address");
     (320, "duplicate c c v not allowed"); (321, "invalid token transfer fee config");
     (322, "invalid transfer fee bps"); (323, "invalid allow list request");
     (801, "invalid fee calculation"); (802, "invalid fee token conversion");
     (803, "zero fee aggregator not allowed"); (804, "exceeds max c c vs");
     (805, "c c v not allowed"); (806, "policy engine detach reverted");
     (807, "unsupported selector"); (808, "zero address not allowed")].

Definition executor_RoleGrantedEvent : EventDecl :=
  mkEventDecl "RoleGrantedEvent"
    [("Role", TString); ("Account", TString); ("Sender", TString); ("Ledger", TUint32);
     ("TxHash", TString)]
    (Some "auth_RoleGranted").

Definition executor_RoleRevokedEvent : EventDecl :=
  mkEventDecl "RoleRevokedEvent"
    [("Role", TString); ("Account", TString); ("Sender", TString); ("Ledger", TUint32);
     ("TxHash", TString)]
    (Some "auth_RoleRevoked").

Definition executor_AuthorizedCallerAddedEvent : EventDecl :=
  mkEventDecl "AuthorizedCallerAddedEvent"
    [("Caller", TString); ("Ledger", TUint32); ("TxHash", TString)]
    (Some "auth_CallerAdded").

Definition executor_AuthorizedCallerRemovedEvent : EventDecl :=
  mkEventDecl "AuthorizedCallerRemovedEvent"
    [("Caller", TString); ("Ledger", TUint32); ("TxHash", TString)]
    (Some "auth_CallerRemoved").

Definition executor_OwnershipTransferStartedEvent : EventDecl :=
  mkEventDecl "OwnershipTransferStartedEvent"
    [("PreviousOwner", TString); ("NewOwner", TString); ("Ledger", TUint32);
     ("TxHash", TString)]
    (Some "auth_OwnerTransferStart").

Definition executor_CCVAddedEvent : EventDecl :=
  mkEventDecl "CCVAddedEvent"
    [("Ccv", TString); ("Ledger", TUint32); ("TxHash", TString)]
    (Some "exec_CCVAdded").

Definition executor_ConfigSetEvent : EventDecl :=
  mkEventDecl "ConfigSetEvent"
    [("DynamicConfig", TNamed "DynamicConfig"); ("Ledger", TUint32); ("TxHash", TString)]
    (Some "exec_ConfigSet").

Definition executor_CCVRemovedEvent : EventDecl :=
  mkEventDecl "CCVRemovedEvent"
    [("Ccv", TString); ("Ledger", TUint32); ("TxHash", TString)]
    (Some "exec_CCVRemoved").

Definition executor_DestChainAddedEvent : EventDecl :=
  mkEventDecl "DestChainAddedEvent"
    [("DestChainSelector", TUint64); ("Config", TNamed "RemoteChainConfig");
     ("Ledger", TUint32); ("TxHash", TString)]
    (Some "exec_DestChainAdded").

Definition executor_DestChainRemovedEvent : EventDecl :=
  mkEventDecl "DestChainRemovedEvent"
    [("DestChainSelector", TUint64); ("Ledger", TUint32); ("TxHash", TString)]
    (Some "exec_DestChainRemoved").

Definition executor_FeeTokenWithdrawnEvent : EventDecl :=
  mkEventDecl "FeeTokenWithdrawnEvent"
    [("Receiver", TString); ("FeeToken", TString); ("Amount", TBig); ("Ledger", TUint32);
     ("TxHash", TString)]
    (Some "exec_FeeTokenWithdrawn").

Definition executor_CCVAllowlistUpdatedEvent : EventDecl :=
  mkEventDecl "CCVAllowlistUpdatedEvent"
    [("Enabled", TBool); ("Ledger", TUint32); ("TxHash", TString)]
    (Some "exec_CCVAllowlistUpdated").

Definition executor_types : TypesFile :=
  mkTypesFile "executor" (mkImports true true true true)
    [executor_DynamicConfig; executor_RemoteChainConfig; executor_RemoteChainConfigArgs]
    [executor_CCIPError]
    [executor_RoleGrantedEvent; executor_RoleRevokedEvent; executor_AuthorizedCallerAddedEvent;
     executor_AuthorizedCallerRemovedEvent; executor_OwnershipTransferStartedEvent;
     executor_CCVAddedEvent; executor_ConfigSetEvent; executor_CCVRemovedEvent;
     executor_DestChainAddedEvent; executor_DestChainRemovedEvent;
     executor_FeeTokenWithdrawnEvent; executor_CCVAllowlistUpdatedEvent]
    [].

Definition executor_Owner : Method :=
  mkMethod "Owner" [] [TPtr TString] "nil"
    true "owner" [] (RVal (DCall "OptionalAddressFromScVal")).

Definition executor_GetFee : Method :=
  mkMethod "GetFee" [("destChainSelector", TUint64); ("requestedFinalityConfig", TUint32);
     ("ccvAddresses", TSlice TString); ("extraArgs", TBytes); ("feeToken", TString)] [TUint32] "0"
    true "get_fee" [ECall "Uint64ToScVal"; ECall "Uint32ToScVal"; ECall "AddressSliceToScVal"; ECall
      "BytesToScVal"; ECall "AddressToScVal"] (RVal (DGet "GetU32")).

Definition executor_Upgrade : Method :=
  mkMethod "Upgrade" [("newWasmHash", TArray "32")] [] ""
    false "upgrade" [ECall "Bytes32ToScVal"] RVoid.

Definition executor_IsOwner : Method :=
  mkMethod "IsOwner" [("addr", TString)] [TBool] "false"
    true "is_owner" [ECall "AddressToScVal"] (RVal (DGet "GetB")).

Definition executor_InitOwner : Method :=
  mkMethod "InitOwner" [("owner", TString)] [] ""
    false "init_owner" [ECall "AddressToScVal"] RVoid.

Definition executor_Initialize : Method :=
  mkMethod "Initialize" [("owner", TString); ("maxCcvsPerMsg", TUint32);
    ("dynamicConfig", TNamed "DynamicConfig")] [] ""
    false "initialize" [ECall "AddressToScVal"; ECall "Uint32ToScVal"; EMethodOf] RVoid.

Definition executor_RequireOwner : Method :=
  mkMethod "RequireOwner" [] [TString] empty_literal
    false "require_owner" [] (RVal (DCall "AddressFromScVal")).

Definition executor_GetDestChains : Method :=
  mkMethod "GetDestChains" [] [TSlice (TNamed "RemoteChainConfigArgs")] "nil"
    true "get_dest_chains" [] (RVal (DVec (TNamed "RemoteChainConfigArgs") (DStruct "RemoteChainConfigArgs"))).

Definition executor_AcceptOwnership : Method :=
  mkMethod "AcceptOwnership" [] [] ""
    false "accept_ownership" [] RVoid.

Definition executor_GetAllowedCcvs : Method :=
  mkMethod "GetAllowedCcvs" [] [TSlice TString] "nil"
    true "get_allowed_ccvs" [] (RVal (DVec TString (DCall "AddressFromScVal"))).

Definition executor_TypeAndVersion : Method :=
  mkMethod "TypeAndVersion" [] [TString] empty_literal
    false "type_and_version" [] (RVal (DCall "StringFromScVal")).

Definition executor_GetPendingOwner : Method :=
  mkMethod "GetPendingOwner" [] [TPtr TString] "nil"
    true "get_pending_owner" [] (RVal (DCall "OptionalAddressFromScVal")).

Definition executor_GetDynamicConfig : Method :=
  mkMethod "GetDynamicConfig" [] [TPtr (TNamed "DynamicConfig")] "nil"
    true "get_dynamic_config" [] (RVal (DStruct "DynamicConfig")).

Definition executor_SetDynamicConfig : Method :=
  mkMethod "SetDynamicConfig" [("dynamicConfig", TNamed "DynamicConfig")] [] ""
    false "set_dynamic_config" [EMethodOf] RVoid.

Definition executor_TransferOwnership : Method :=
  mkMethod "TransferOwnership" [("newOwner", TString)] [] ""
    false "transfer_ownership" [ECall "AddressToScVal"] RVoid.

Definition executor_WithdrawFeeTokens : Method :=
  mkMethod "WithdrawFeeTokens" [("feeTokens", TSlice TString)] [] ""
    false "withdraw_fee_tokens" [ECall "AddressSliceToScVal"] RVoid.

Definition executor_GetDestChainConfig : Method :=
  mkMethod "GetDestChainConfig" [("destChainSelector", TUint64)] [TPtr (TNamed "RemoteChainConfig")] "nil"
    true "get_dest_chain_config" [ECall "Uint64ToScVal"] (RVal (DStruct "RemoteChainConfig")).

Definition executor_ApplyDestChainUpdates : Method :=
  mkMethod "ApplyDestChainUpdates" [("destChainSelectorsToRemove", TSlice TUint64);
     ("destChainSelectorsToAdd", TSlice (TNamed "RemoteChainConfigArgs"))] [] ""
    false "apply_dest_chain_updates" [ECall "Uint64SliceToScVal"; ECall "StructSliceToScVal"] RVoid.

Definition executor_GetMaxCcvsPerMessage : Method :=
  mkMethod "GetMaxCcvsPerMessage" [] [TUint32] "0"
    true "get_max_ccvs_per_message" [] (RVal (DGet "GetU32")).

Definition executor_ApplyAllowedCcvUpdates : Method :=
  mkMethod "ApplyAllowedCcvUpdates" [("ccvsToRemove", TSlice TString); ("ccvsToAdd", TSlice TString);
     ("ccvAllowlistEnabled", TBool)] [] ""
    false "apply_allowed_ccv_updates"
      [ECall "AddressSliceToScVal"; ECall "AddressSliceToScVal"; ECall "BoolToScVal"] RVoid.

Definition executor_CancelOwnershipTransfer : Method :=
  mkMethod "CancelOwnershipTransfer" [] [] ""
    false "cancel_ownership_transfer" [] RVoid.

Definition executor_GetAllowedFinalityConfig : Method :=
  mkMethod "GetAllowedFinalityConfig" [] [TUint32] "0"
    true "get_allowed_finality_config" [] (RVal (DGet "GetU32")).

Definition executor_WaitForRoleGrantedEvent : EventHelper :=
  mkEventHelper "RoleGrantedEvent" (mkEventParser
    []
    [("role", "Role", EvField (DCall "SymbolFromScVal"));
     ("account", "Account", EvField (DCall "AddressFromScVal"));
     ("sender", "Sender", EvField (DCall "AddressFromScVal"))]).

Definition executor_WaitForRoleRevokedEvent : EventHelper :=
  mkEventHelper "RoleRevokedEvent" (mkEventParser
    []
    [("role", "Role", EvField (DCall "SymbolFromScVal"));
     ("account", "Account", EvField (DCall "AddressFromScVal"));
     ("sender", "Sender", EvField (DCall "AddressFromScVal"))]).

Definition executor_WaitForAuthorizedCallerAddedEvent : EventHelper :=
  mkEventHelper "AuthorizedCallerAddedEvent" (mkEventParser
    []
    [("caller", "Caller", EvField (DCall "AddressFromScVal"))]).

Definition executor_WaitForAuthorizedCallerRemovedEvent : EventHelper :=
  mkEventHelper "AuthorizedCallerRemovedEvent" (mkEventParser
    []
    [("caller", "Caller", EvField (DCall "AddressFromScVal"))]).

Definition executor_WaitForOwnershipTransferStartedEvent : EventHelper :=
  mkEventHelper "OwnershipTransferStartedEvent" (mkEventParser
    []
    [("previous_owner", "PreviousOwner", EvField (DCall "AddressFromScVal"));
     ("new_owner", "NewOwner", EvField (DCall "AddressFromScVal"))]).

Definition executor_WaitForCCVAddedEvent : EventHelper :=
  mkEventHelper "CCVAddedEvent" (mkEventParser
    []
    [("ccv", "Ccv", EvField (DCall "AddressFromScVal"))]).

Definition executor_WaitForConfigSetEvent : EventHelper :=
  mkEventHelper "ConfigSetEvent" (mkEventParser
    []
    [("dynamic_config", "DynamicConfig", EvField (DStruct "DynamicConfig"))]).

Definition executor_WaitForCCVRemovedEvent : EventHelper :=
  mkEventHelper "CCVRemovedEvent" (mkEventParser
    []
    [("ccv", "Ccv", EvField (DCall "AddressFromScVal"))]).

Definition executor_WaitForDestChainAddedEvent : EventHelper :=
  mkEventHelper "DestChainAddedEvent" (mkEventParser
    []
    [("dest_chain_selector", "DestChainSelector", EvField (DCall "Uint64FromScVal"));
     ("config", "Config", EvField (DStruct "RemoteChainConfig"))]).

Definition executor_WaitForDestChainRemovedEvent : EventHelper :=
  mkEventHelper "DestChainRemovedEvent" (mkEventParser
    []
    [("dest_chain_selector", "DestChainSelector", EvField (DCall "Uint64FromScVal"))]).

Definition executor_WaitForFeeTokenWithdrawnEvent : EventHelper :=
  mkEventHelper "FeeTokenWithdrawnEvent" (mkEventParser
    []
    [("receiver", "Receiver", EvField (DCall "AddressFromScVal"));
     ("fee_token", "FeeToken", EvField (DCall "AddressFromScVal"));
     ("amount", "Amount", EvField (DCall "I128FromScVal"))]).

Definition executor_WaitForCCVAllowlistUpdatedEvent : EventHelper :=
  mkEventHelper "CCVAllowlistUpdatedEvent" (mkEventParser
    []
    [("enabled", "Enabled", EvField (DGet "GetB"))]).

Definition executor_client : ClientFile :=
  mkClientFile "executor" "Executor" false true
    [executor_Owner; executor_GetFee; executor_Upgrade; executor_IsOwner; executor_InitOwner;
     executor_Initialize; executor_RequireOwner; executor_GetDestChains;
     executor_AcceptOwnership; executor_GetAllowedCcvs; executor_TypeAndVersion;
     executor_GetPendingOwner; executor_GetDynamicConfig; executor_SetDynamicConfig;
     executor_TransferOwnership; executor_WithdrawFeeTokens; executor_GetDestChainConfig;
     executor_ApplyDestChainUpdates; executor_GetMaxCcvsPerMessage;
     executor_ApplyAllowedCcvUpdates; executor_CancelOwnershipTransfer;
     executor_GetAllowedFinalityConfig]
    [executor_WaitForRoleGrantedEvent; executor_WaitForRoleRevokedEvent;
     executor_WaitForAuthorizedCallerAddedEvent; executor_WaitForAuthorizedCallerRemovedEvent;
     executor_WaitForOwnershipTransferStartedEvent; executor_WaitForCCVAddedEvent;
     executor_WaitForConfigSetEvent; executor_WaitForCCVRemovedEvent;
     executor_WaitForDestChainAddedEvent; executor_WaitForDestChainRemovedEvent;
     executor_WaitForFeeTokenWithdrawnEvent; executor_WaitForCCVAllowlistUpdatedEvent].

(** ** bindings/contracts/ccip_receiver *)

Definition ccip_receiver_CcvChainConfig : StructDecl :=
  mkStructDecl "CcvChainConfig"
    [mkMember "optional_ccvs" "OptionalCcvs" (TSlice TString) (ECall "AddressSliceToScVal")
      (DVec TString (DCall "AddressFromScVal"));
     mkMember "optional_threshold" "OptionalThreshold" TUint32 (ECall "Uint32ToScVal") (DGet "GetU32");
     mkMember "required_ccvs" "RequiredCcvs" (TSlice TString) (ECall "AddressSliceToScVal")
       (DVec TString (DCall "AddressFromScVal"))].

Definition ccip_receiver_CcvConfigUpdate : StructDecl :=
  mkStructDecl "CcvConfigUpdate"
    [mkMember "optional_ccvs" "OptionalCcvs" (TSlice TString) (ECall "AddressSliceToScVal")
      (DVec TString (DCall "AddressFromScVal"));
     mkMember "optional_threshold" "OptionalThreshold" TUint32 (ECall "Uint32ToScVal") (DGet "GetU32");
     mkMember "required_ccvs" "RequiredCcvs" (TSlice TString) (ECall "AddressSliceToScVal")
       (DVec TString (DCall "AddressFromScVal"));
     mkMember "source_chain_selector" "SourceChainSelector" TUint64 (ECall "Uint64ToScVal")
       (DCall "Uint64FromScVal")].

Definition ccip_receiver_RemoteChainConfig : StructDecl :=
  mkStructDecl "RemoteChainConfig"
    [mkMember "allowed_finality_config" "AllowedFinalityConfig" TUint32 (ECall "Uint32ToScVal") (DGet "GetU32");
     mkMember "extra_args" "ExtraArgs" TBytes (ECall "BytesToScVal") (DGet "GetBytes")].

Definition ccip_receiver_CcvsAndFinalityConfig : StructDecl :=
  mkStructDecl "CcvsAndFinalityConfig"
    [mkMember "allowed_finality_config" "AllowedFinalityConfig" TUint32 (ECall "Uint32ToScVal") (DGet "GetU32");
     mkMember "optional_ccvs" "OptionalCcvs" (TSlice TString) (ECall "AddressSliceToScVal")
       (DVec TString (DCall "AddressFromScVal"));
     mkMember "optional_threshold" "OptionalThreshold" TUint32 (ECall "Uint32ToScVal") (DGet "GetU32");
     mkMember "required_ccvs" "RequiredCcvs" (TSlice TString) (ECall "AddressSliceToScVal")
       (DVec TString (DCall "AddressFromScVal"))].

Definition ccip_receiver_TokenAmount : StructDecl :=
  mkStructDecl "TokenAmount"
    [mkMember "amount" "Amount" TBig (ECall "I128ToScVal") (DCall "I128FromScVal");
     mkMember "token" "Token" TString (ECall "AddressToScVal") (DCall "AddressFromScVal")].

Definition ccip_receiver_AnyToStellarMessage : StructDecl :=
  mkStructDecl "AnyToStellarMessage"
    [mkMember "data" "Data" TBytes (ECall "BytesToScVal") (DGet "GetBytes");
     mkMember "dest_token_amounts" "DestTokenAmounts" (TSlice (TNamed "TokenAmount"))
       (ECall "StructSliceToScVal") (DVec (TNamed "TokenAmount") (DStruct "TokenAmount"));
     mkMember "message_id" "MessageId" (TArray "32") (ECall "Bytes32ToScVal") (DCall "Bytes32FromScVal");
     mkMember "sender" "Sender" TBytes (ECall "BytesToScVal") (DGet "GetBytes");
     mkMember "source_chain_selector" "SourceChainSelector" TUint64 (ECall "Uint64ToScVal")
       (DCall "Uint64FromScVal")].

Definition ccip_receiver_CCIPError : ErrorDecl :=
  mkErrorDecl "CCIPError"
    [("CCIPErrorNotInitialized", 1); ("CCIPErrorAlreadyInitialized", 2);
     ("CCIPErrorUnauthorized", 3); ("CCIPErrorNotOwner", 4); ("CCIPErrorNoPendingOwner", 5);
     ("CCIPErrorCallerNotAuthorized", 6); ("CCIPErrorCallerAlreadyAuthorized", 7);
     ("CCIPErrorCallerNotFound", 8); ("CCIPErrorRoleNotGranted", 9);
     ("CCIPErrorFeatureNotEnabled", 10); ("CCIPErrorRoleAlreadyGranted", 11);
     ("CCIPErrorCannotRenounceRole", 12); ("CCIPErrorInvalidVersionTag", 13);
     ("CCIPErrorInvalidSignatureLength", 14); ("CCIPErrorInvalidSignature", 15);
     ("CCIPErrorInvalidSignatureCount", 16); ("CCIPErrorInvalidSignatureThreshold", 17);
     ("CCIPErrorInvalidSignaturePubkey", 18); ("CCIPErrorSourceSignersNotConfigured", 19);
     ("CCIPErrorInvalidVerifierResults", 20); ("CCIPErrorReentrantCall", 21);
     ("CCIPErrorTokenNotSupported", 22); ("CCIPErrorFeeTokenNotSupported", 23);
     ("CCIPErrorNoGasPriceAvailable", 24); ("CCIPErrorDestinationChainNotEnabled", 25);
     ("CCIPErrorInvalidExtraArgsTag", 26); ("CCIPErrorInvalidExtraArgsData", 27);
     ("CCIPErrorMessageGasLimitTooHigh", 28); ("CCIPErrorMessageTooLarge", 29);
     ("CCIPErrorUnsupportedNumberOfTokens", 30); ("CCIPErrorInvalidDestChainConfig", 31);
     ("CCIPErrorMessageFeeTooHigh", 32); ("CCIPErrorInvalidStaticConfig", 33);
     ("CCIPErrorInvalidTokenReceiver", 34); ("CCIPErrorSourceTokenDataTooLarge", 35);
     ("CCIPErrorInvalidDestBytesOverhead", 36); ("CCIPErrorDestinationChainNotSupported", 37);
     ("CCIPErrorMustBeCalledByRouter", 38); ("CCIPErrorRouterMustSetOriginalSender", 39);
     ("CCIPErrorCannotSendZeroTokens", 40); ("CCIPErrorCanOnlySendOneTokenPerMessage", 41);
     ("CCIPErrorUnsupportedToken", 42); ("CCIPErrorInvalidDestChainAddress", 43);
     ("CCIPErrorFeeExceedsMaxAllowed", 44); ("CCIPErrorInsufficientFeeTokenAmount", 45);
     ("CCIPErrorTokenReceiverNotAllowed", 46); ("CCIPErrorCursedByRMN", 47);
     ("CCIPErrorRemoteChainNotSupported", 48); ("CCIPErrorSenderNotAllowed", 49);
     ("CCIPErrorInvalidTokenAmount", 50); ("CCIPErrorInvalidReceiverAddress", 51);
     ("CCIPErrorInvalidConfig", 52); ("CCIPErrorInvalidVerifierResultsLength", 53);
     ("CCIPErrorInboundImplementationNotFound", 54);
     ("CCIPErrorOutboundImplementationNotFound", 55); ("CCIPErrorInvalidAddress", 56);
     ("CCIPErrorInvalidChainSelector", 57); ("CCIPErrorInvalidVersion", 58);
     ("CCIPErrorInvalidCCVVersion", 59); ("CCIPErrorOffRampAlreadyExists", 60);
     ("CCIPErrorOffRampMismatch", 61); ("CCIPErrorBadRMNSignal", 62);
     ("CCIPErrorUnsupportedDestinationChain", 63); ("CCIPErrorAlreadyCursed", 64);
     ("CCIPErrorConfigNotSet", 65); ("CCIPErrorDuplicateOnchainPublicKey", 66);
     ("CCIPErrorInvalidSignerOrder", 67); ("CCIPErrorNotEnoughSigners", 68);
     ("CCIPErrorNotCursed", 69); ("CCIPErrorOutOfOrderSignatures", 70);
     ("CCIPErrorThresholdNotMet", 71); ("CCIPErrorUnexpectedSigner", 72);
     ("CCIPErrorZeroValueNotAllowed", 73); ("CCIPErrorSourceChainNotEnabled", 100);
     ("CCIPErrorInvalidSourceChainConfig", 101); ("CCIPErrorInvalidOnRampAddress", 102);
     ("CCIPErrorInvalidOffRampAddress", 103); ("CCIPErrorInvalidMessageDestination", 104);
     ("CCIPErrorMessageAlreadyExecuted", 105); ("CCIPErrorInvalidExecutionState", 106);
     ("CCIPErrorCCVLengthMismatch", 107); ("CCIPErrorCCVQuorumNotMet", 108);
     ("CCIPErrorReceiverError", 109); ("CCIPErrorGasLimitOverrideTooLow", 110);
     ("CCIPErrorInvalidReceiverLength", 111); ("CCIPErrorTokenHandlingError", 112);
     ("CCIPErrorMessageDecodingError", 113); ("CCIPErrorReceiverDoesNotExist", 114);
     ("CCIPErrorReceiverNotWasmContract", 115); ("CCIPErrorRequiredCCVMissing", 116);
     ("CCIPErrorInvalidOptionalThreshold", 117); ("CCIPErrorOptionalCCVQuorumNotReached", 118);
     ("CCIPErrorNoStateProgressMade", 119); ("CCIPErrorOnlyRegistryModuleOrOwner", 201);
     ("CCIPErrorOnlyAdministrator", 202); ("CCIPErrorOnlyPendingAdministrator", 203);
     ("CCIPErrorTokenAlreadyRegistered", 204); ("CCIPErrorInvalidTokenPoolToken", 205);
     ("CCIPErrorPoolTokenMismatch", 301); ("CCIPErrorChainNotSupported", 302);
     ("CCIPErrorCallerIsNotRamp", 303); ("CCIPErrorInsufficientPoolLiquidity", 304);
     ("CCIPErrorInvalidRemotePoolAddress", 305); ("CCIPErrorInvalidRemoteChainConfig", 306);
     ("CCIPErrorInvalidRemoteChainDecimals", 307); ("CCIPErrorDecimalAmountOverflow", 308);
     ("CCIPErrorInvalidPoolTokenDecimals", 309); ("CCIPErrorBucketOverfilled", 310);
     ("CCIPErrorTokenMaxCapacityExceeded", 311); ("CCIPErrorTokenRateLimitReached", 312);
     ("CCIPErrorInvalidRateLimitRate", 313); ("CCIPErrorDisabledNonZeroRateLimit", 314);
     ("CCIPErrorInvalidRequestedFinality", 315);
     ("CCIPErrorRequestedFinalityCanOnlyHaveOneMode", 316);
     ("CCIPErrorInvalidChainForClient", 317); ("CCIPErrorRouterNotConfigured", 318);
     ("CCIPErrorInvalidSourcePoolAddress", 319); ("CCIPErrorDuplicateCCVNotAllowed", 320);
     ("CCIPErrorInvalidTokenTransferFeeConfig", 321); ("CCIPErrorInvalidTransferFeeBps", 322);
     ("CCIPErrorInvalidAllowListRequest", 323); ("CCIPErrorInvalidFeeCalculation", 801);
     ("CCIPErrorInvalidFeeTokenConversion", 802); ("CCIPErrorZeroFeeAggregatorNotAllowed", 803);
     ("CCIPErrorExceedsMaxCCVs", 804); ("CCIPErrorCCVNotAllowed", 805);
     ("CCIPErrorPolicyEngineDetachReverted", 806); ("CCIPErrorUnsupportedSelector", 807);
     ("CCIPErrorZeroAddressNotAllowed", 808)]
    [(1, "not initialized"); (2, "already initialized"); (3, "unauthorized"); (4, "not owner");
     (5, "no pending owner"); (6, "caller not authorized"); (7, "caller already authorized");
     (8, "caller not found"); (9, "role not granted"); (10, "feature not enabled");
     (11, "role already granted"); (12, "cannot renounce role"); (13, "invalid version tag");
     (14, "invalid signature length"); (15, "invalid signature");
     (16, "invalid signature count"); (17, "invalid signature threshold");
     (18, "invalid signature pubkey"); (19, "source signers not configured");
     (20, "invalid verifier results"); (21, "reentrant call"); (22, "token not supported");
     (23, "fee token not supported"); (24, "no gas price available");
     (25, "destination chain not enabled"); (26, "invalid extra args tag");
     (27, "invalid extra args data"); (28, "message gas limit too high");
     (29, "message too large"); (30, "unsupported number of tokens");
     (31, "invalid dest chain config"); (32, "message fee too high");
     (33, "invalid static config"); (34, "invalid token receiver");
     (35, "source token data too large"); (36, "invalid dest bytes overhead");
     (37, "destination chain not supported"); (38, "must be called by router");
     (39, "router must set original sender"); (40, "cannot send zero tokens");
     (41, "can only send one token per message"); (42, "unsupported token");
     (43, "invalid dest chain address"); (44, "fee exceeds max allowed");
     (45, "insufficient fee token amount"); (46, "token receiver not allowed");
     (47, "cursed by r m n"); (48, "remote chain not supported"); (49, "sender not allowed");
     (50, "invalid token amount"); (51, "invalid receiver address"); (52, "invalid config");
     (53, "invalid verifier results length"); (54, "inbound implementation not found");
     (55, "outbound implementation not found"); (56, "invalid address");
     (57, "invalid chain selector"); (58, "invalid version"); (59, "invalid c c v version");
     (60, "off ramp already exists"); (61, "off ramp mismatch"); (62, "bad r m n signal");
     (63, "unsupported destination chain"); (64, "already cursed"); (65, "config not set");
     (66, "duplicate onchain public key"); (67, "invalid signer order");
     (68, "not enough signers"); (69, "not cursed"); (70, "out of order signatures");
     (71, "threshold not met"); (72, "unexpected signer"); (73, "zero value not allowed");
     (100, "source chain not enabled"); (101, "invalid source chain config");
     (102, "invalid on ramp address"); (103, "invalid off ramp address");
     (104, "invalid message destination"); (105, "message already executed");
     (106, "invalid execution state"); (107, "c c v length mismatch");
     (108, "c c v quorum not met"); (109, "receiver error");
     (110, "gas limit override too low"); (111, "invalid receiver length");
     (112, "token handling error"); (113, "message decoding error");
     (114, "receiver does not exist"); (115, "receiver not wasm contract");
     (116, "required c c v missing"); (117, "invalid optional threshold");
     (118, "optional c c v quorum not reached"); (119, "no state progress made");
     (201, "only registry module or owner"); (202, "only administrator");
     (203, "only pending administrator"); (204, "token already registered");
     (205, "invalid token pool token"); (301, "pool token mismatch");
     (302, "chain not supported"); (303, "caller is not ramp");
     (304, "insufficient pool liquidity"); (305, "invalid remote pool address");
     (306, "invalid remote chain config"); (307, "invalid remote chain decimals");
     (308, "decimal amount overflow"); (309, "invalid pool token decimals");
     (310, "bucket overfilled"); (311, "token max capacity exceeded");
     (312, "token rate limit reached"); (313, "invalid rate limit rate");
     (314, "disabled non zero rate limit"); (315, "invalid requested finality");
     (316, "requested finality can only have one mode"); (317, "invalid chain for client");
     (318, "router not configured"); (319, "invalid source pool address");
     (320, "duplicate c c v not allowed"); (321, "invalid token transfer fee config");
     (322, "invalid transfer fee bps"); (323, "invalid allow list request");
     (801, "invalid fee calculation"); (802, "invalid fee token conversion");
     (803, "zero fee aggregator not allowed"); (804, "exceeds max c c vs");
     (805, "c c v not allowed"); (806, "policy engine detach reverted");
     (807, "unsupported selector"); (808, "zero address not allowed")].

Definition ccip_receiver_CcipCcvConfigSetEvent : EventDecl :=
  mkEventDecl "CcipCcvConfigSetEvent"
    [("SourceChainSelector", TUint64); ("RequiredLen", TUint32); ("OptionalLen", TUint32);
     ("OptionalThreshold", TUint32); ("Ledger", TUint32); ("TxHash", TString)]
    (Some "example_CcvCfg").

Definition ccip_receiver_CcipMessageReceivedEvent : EventDecl :=
  mkEventDecl "CcipMessageReceivedEvent"
    [("MessageId", TArray "32"); ("SourceChainSelector", TUint64); ("DataLen", TUint32);
     ("SenderLen", TUint32); ("DestTokenTransfers", TUint32); ("Ledger", TUint32);
     ("TxHash", TString)]
    (Some "example_CcipMessageReceived").

Definition ccip_receiver_CcipRemoteChainConfiguredEvent : EventDecl :=
  mkEventDecl "CcipRemoteChainConfiguredEvent"
    [("DestChainSelector", TUint64); ("ExtraArgsLen", TUint32);
     ("AllowedFinalityConfig", TUint32); ("Ledger", TUint32); ("TxHash", TString)]
    (Some "example_RemChCfg").

Definition ccip_receiver_RoleGrantedEvent : EventDecl :=
  mkEventDecl "RoleGrantedEvent"
    [("Role", TString); ("Account", TString); ("Sender", TString); ("Ledger", TUint32);
     ("TxHash", TString)]
    (Some "auth_RoleGranted").

Definition ccip_receiver_RoleRevokedEvent : EventDecl :=
  mkEventDecl "RoleRevokedEvent"
    [("Role", TString); ("Account", TString); ("Sender", TString); ("Ledger", TUint32);
     ("TxHash", TString)]
    (Some "auth_RoleRevoked").

Definition ccip_receiver_AuthorizedCallerAddedEvent : EventDecl :=
  mkEventDecl "AuthorizedCallerAddedEvent"
    [("Caller", TString); ("Ledger", TUint32); ("TxHash", TString)]
    (Some "auth_CallerAdded").

Definition ccip_receiver_AuthorizedCallerRemovedEvent : EventDecl :=
  mkEventDecl "AuthorizedCallerRemovedEvent"
    [("Caller", TString); ("Ledger", TUint32); ("TxHash", TString)]
    (Some "auth_CallerRemoved").

Definition ccip_receiver_OwnershipTransferStartedEvent : EventDecl :=
  mkEventDecl "OwnershipTransferStartedEvent"
    [("PreviousOwner", TString); ("NewOwner", TString); ("Ledger", TUint32);
     ("TxHash", TString)]
    (Some "auth_OwnerTransferStart").

Definition ccip_receiver_types : TypesFile :=
  mkTypesFile "ccip_receiver" (mkImports true true true true)
    [ccip_receiver_CcvChainConfig; ccip_receiver_CcvConfigUpdate;
     ccip_receiver_RemoteChainConfig; ccip_receiver_CcvsAndFinalityConfig;
     ccip_receiver_TokenAmount; ccip_receiver_AnyToStellarMessage]
    [ccip_receiver_CCIPError]
    [ccip_receiver_CcipCcvConfigSetEvent; ccip_receiver_CcipMessageReceivedEvent;
     ccip_receiver_CcipRemoteChainConfiguredEvent; ccip_receiver_RoleGrantedEvent;
     ccip_receiver_RoleRevokedEvent; ccip_receiver_AuthorizedCallerAddedEvent;
     ccip_receiver_AuthorizedCallerRemovedEvent; ccip_receiver_OwnershipTransferStartedEvent]
    [].

Definition ccip_receiver_Owner : Method :=
  mkMethod "Owner" [] [TPtr TString] "nil"
    true "owner" [] (RVal (DCall "OptionalAddressFromScVal")).

Definition ccip_receiver_Upgrade : Method :=
  mkMethod "Upgrade" [("newWasmHash", TArray "32")] [] ""
    false "upgrade" [ECall "Bytes32ToScVal"] RVoid.

Definition ccip_receiver_IsOwner : Method :=
  mkMethod "IsOwner" [("addr", TString)] [TBool] "false"
    true "is_owner" [ECall "AddressToScVal"] (RVal (DGet "GetB")).

Definition ccip_receiver_GetRouter : Method :=
  mkMethod "GetRouter" [] [TString] empty_literal
    true "get_router" [] (RVal (DCall "AddressFromScVal")).

Definition ccip_receiver_InitOwner : Method :=
  mkMethod "InitOwner" [("owner", TString)] [] ""
    false "init_owner" [ECall "AddressToScVal"] RVoid.

Definition ccip_receiver_Initialize : Method :=
  mkMethod "Initialize" [("owner", TString); ("router", TString)] [] ""
    false "initialize" [ECall "AddressToScVal"; ECall "AddressToScVal"] RVoid.

Definition ccip_receiver_CcipReceive : Method :=
  mkMethod "CcipReceive" [("message", TNamed "AnyToStellarMessage")] [] ""
    false "ccip_receive" [EMethodOf] RVoid.

Definition ccip_receiver_RequireOwner : Method :=
  mkMethod "RequireOwner" [] [TString] empty_literal
    false "require_owner" [] (RVal (DCall "AddressFromScVal")).

Definition ccip_receiver_GetCcvConfig : Method :=
  mkMethod "GetCcvConfig" [("sourceChainSelector", TUint64)] [TPtr (TNamed "CcvChainConfig")] "nil"
    true "get_ccv_config" [ECall "Uint64ToScVal"] (RVal (DStruct "CcvChainConfig")).

Definition ccip_receiver_LastMessageId : Method :=
  mkMethod "LastMessageId" [] [TArray "32"] "[32]byte{}"
    false "last_message_id" [] (RVal (DCall "Bytes32FromScVal")).

Definition ccip_receiver_AcceptOwnership : Method :=
  mkMethod "AcceptOwnership" [] [] ""
    false "accept_ownership" [] RVoid.

Definition ccip_receiver_TypeAndVersion : Method :=
  mkMethod "TypeAndVersion" [] [TString] empty_literal
    false "type_and_version" [] (RVal (DCall "StringFromScVal")).

Definition ccip_receiver_ExtendConfigTtl : Method :=
  mkMethod "ExtendConfigTtl" [("remoteChainSelectors", TSlice TUint64);
    ("ccvSourceChainSelectors", TSlice TUint64);
     ("thresholdLedgers", TUint32); ("extendToLedgers", TUint32)] [] ""
    false "extend_config_ttl" [ECall "Uint64SliceToScVal"; ECall "Uint64SliceToScVal"; ECall "Uint32ToScVal";
      ECall "Uint32ToScVal"] RVoid.

Definition ccip_receiver_GetPendingOwner : Method :=
  mkMethod "GetPendingOwner" [] [TPtr TString] "nil"
    true "get_pending_owner" [] (RVal (DCall "OptionalAddressFromScVal")).

Definition ccip_receiver_TransferOwnership : Method :=
  mkMethod "TransferOwnership" [("newOwner", TString)] [] ""
    false "transfer_ownership" [ECall "AddressToScVal"] RVoid.

Definition ccip_receiver_EnableRemoteChain : Method :=
  mkMethod "EnableRemoteChain" [("caller", TString); ("destChainSelector", TUint64); ("extraArgs", TBytes);
     ("allowedFinalityConfig", TUint32)] [] ""
    false "enable_remote_chain" [ECall "AddressToScVal"; ECall "Uint64ToScVal"; ECall "BytesToScVal"; ECall
      "Uint32ToScVal"] RVoid.

Definition ccip_receiver_DisableRemoteChain : Method :=
  mkMethod "DisableRemoteChain" [("caller", TString); ("destChainSelector", TUint64)] [] ""
    false "disable_remote_chain" [ECall "AddressToScVal"; ECall "Uint64ToScVal"] RVoid.

Definition ccip_receiver_GetRemoteChainConfig : Method :=
  mkMethod "GetRemoteChainConfig" [("chainSelector", TUint64)] [TPtr (TNamed "RemoteChainConfig")] "nil"
    true "get_remote_chain_config" [ECall "Uint64ToScVal"] (RVal (DStruct "RemoteChainConfig")).

Definition ccip_receiver_SendDataPayFeeToken : Method :=
  mkMethod "SendDataPayFeeToken" [("caller", TString); ("destChainSelector", TUint64); ("receiver", TBytes);
     ("data", TBytes); ("feeToken", TString)] [TArray "32"] "[32]byte{}"
    false "send_data_pay_fee_token"
      [ECall "AddressToScVal"; ECall "Uint64ToScVal"; ECall "BytesToScVal"; ECall "BytesToScVal"; ECall
        "AddressToScVal"] (RVal (DCall "Bytes32FromScVal")).

Definition ccip_receiver_ApplyCcvConfigUpdates : Method :=
  mkMethod "ApplyCcvConfigUpdates" [("caller", TString); ("updates", TSlice (TNamed "CcvConfigUpdate"))] [] ""
    false "apply_ccv_config_updates" [ECall "AddressToScVal"; ECall "StructSliceToScVal"] RVoid.

Definition ccip_receiver_CancelOwnershipTransfer : Method :=
  mkMethod "CancelOwnershipTransfer" [] [] ""
    false "cancel_ownership_transfer" [] RVoid.

Definition ccip_receiver_GetRemoteChainSelectors : Method :=
  mkMethod "GetRemoteChainSelectors" [] [TSlice TUint64] "nil"
    true "get_remote_chain_selectors" [] (RVal (DVec TUint64 (DCall "Uint64FromScVal"))).

Definition ccip_receiver_GetRemoteChainExtraArgs : Method :=
  mkMethod "GetRemoteChainExtraArgs" [("destChainSelector", TUint64)] [TBytes] "nil"
    true "get_remote_chain_extra_args" [ECall "Uint64ToScVal"] (RVal (DGet "GetBytes")).

Definition ccip_receiver_GetCcvsAndFinalityConfig : Method :=
  mkMethod "GetCcvsAndFinalityConfig" [("sourceChainSelector", TUint64); ("sender", TBytes)]
    [TPtr (TNamed "CcvsAndFinalityConfig")] "nil"
    true "get_ccvs_and_finality_config" [ECall "Uint64ToScVal"; ECall "BytesToScVal"]
      (RVal (DStruct "CcvsAndFinalityConfig")).

Definition ccip_receiver_WaitForCcipCcvConfigSetEvent : EventHelper :=
  mkEventHelper "CcipCcvConfigSetEvent" (mkEventParser
    []
    [("source_chain_selector", "SourceChainSelector", EvField (DCall "Uint64FromScVal"));
     ("required_len", "RequiredLen", EvField (DGet "GetU32"));
     ("optional_len", "OptionalLen", EvField (DGet "GetU32"));
     ("optional_threshold", "OptionalThreshold", EvField (DGet "GetU32"))]).

Definition ccip_receiver_WaitForCcipMessageReceivedEvent : EventHelper :=
  mkEventHelper "CcipMessageReceivedEvent" (mkEventParser
    []
    [("message_id", "MessageId", EvField (DCall "Bytes32FromScVal"));
     ("source_chain_selector", "SourceChainSelector", EvField (DCall "Uint64FromScVal"));
     ("data_len", "DataLen", EvField (DGet "GetU32"));
     ("sender_len", "SenderLen", EvField (DGet "GetU32"));
     ("dest_token_transfers", "DestTokenTransfers", EvField (DGet "GetU32"))]).

Definition ccip_receiver_WaitForCcipRemoteChainConfiguredEvent : EventHelper :=
  mkEventHelper "CcipRemoteChainConfiguredEvent" (mkEventParser
    []
    [("dest_chain_selector", "DestChainSelector", EvField (DCall "Uint64FromScVal"));
     ("extra_args_len", "ExtraArgsLen", EvField (DGet "GetU32"));
     ("allowed_finality_config", "AllowedFinalityConfig", EvField (DGet "GetU32"))]).

Definition ccip_receiver_WaitForRoleGrantedEvent : EventHelper :=
  mkEventHelper "RoleGrantedEvent" (mkEventParser
    []
    [("role", "Role", EvField (DCall "SymbolFromScVal"));
     ("account", "Account", EvField (DCall "AddressFromScVal"));
     ("sender", "Sender", EvField (DCall "AddressFromScVal"))]).

Definition ccip_receiver_WaitForRoleRevokedEvent : EventHelper :=
  mkEventHelper "RoleRevokedEvent" (mkEventParser
    []
    [("role", "Role", EvField (DCall "SymbolFromScVal"));
     ("account", "Account", EvField (DCall "AddressFromScVal"));
     ("sender", "Sender", EvField (DCall "AddressFromScVal"))]).

Definition ccip_receiver_WaitForAuthorizedCallerAddedEvent : EventHelper :=
  mkEventHelper "AuthorizedCallerAddedEvent" (mkEventParser
    []
    [("caller", "Caller", EvField (DCall "AddressFromScVal"))]).

Definition ccip_receiver_WaitForAuthorizedCallerRemovedEvent : EventHelper :=
  mkEventHelper "AuthorizedCallerRemovedEvent" (mkEventParser
    []
    [("caller", "Caller", EvField (DCall "AddressFromScVal"))]).

Definition ccip_receiver_WaitForOwnershipTransferStartedEvent : EventHelper :=
  mkEventHelper "OwnershipTransferStartedEvent" (mkEventParser
    []
    [("previous_owner", "PreviousOwner", EvField (DCall "AddressFromScVal"));
     ("new_owner", "NewOwner", EvField (DCall "AddressFromScVal"))]).

Definition ccip_receiver_client : ClientFile :=
  mkClientFile "ccip_receiver" "ExampleCcipReceiver" false true
    [ccip_receiver_Owner; ccip_receiver_Upgrade; ccip_receiver_IsOwner; ccip_receiver_GetRouter;
     ccip_receiver_InitOwner; ccip_receiver_Initialize; ccip_receiver_CcipReceive;
     ccip_receiver_RequireOwner; ccip_receiver_GetCcvConfig; ccip_receiver_LastMessageId;
     ccip_receiver_AcceptOwnership; ccip_receiver_TypeAndVersion; ccip_receiver_ExtendConfigTtl;
     ccip_receiver_GetPendingOwner; ccip_receiver_TransferOwnership;
     ccip_receiver_EnableRemoteChain; ccip_receiver_DisableRemoteChain;
     ccip_receiver_GetRemoteChainConfig; ccip_receiver_SendDataPayFeeToken;
     ccip_receiver_ApplyCcvConfigUpdates; ccip_receiver_CancelOwnershipTransfer;
     ccip_receiver_GetRemoteChainSelectors; ccip_receiver_GetRemoteChainExtraArgs;
     ccip_receiver_GetCcvsAndFinalityConfig]
    [ccip_receiver_WaitForCcipCcvConfigSetEvent; ccip_receiver_WaitForCcipMessageReceivedEvent;
     ccip_receiver_WaitForCcipRemoteChainConfiguredEvent; ccip_receiver_WaitForRoleGrantedEvent;
     ccip_receiver_WaitForRoleRevokedEvent; ccip_receiver_WaitForAuthorizedCallerAddedEvent;
     ccip_receiver_WaitForAuthorizedCallerRemovedEvent;
     ccip_receiver_WaitForOwnershipTransferStartedEvent].
