(* ===== verification/BindingsPools.v ===== *)
(** * Bindings of the token pools

    The checked-in types.go and client.go of the token pools, their interface, the
    lock box and the token admin registry.

    Each declaration and each method as the abstract syntax that Bindgen.v gives the
    emitted code and BindgenSem.v runs: a member with its key, its name and type and
    its two conversions; a method with its parameters, results, call and arguments. *)

From S2P Require Import Prelude Bindgen.

(** ** bindings/contracts/burn_mint_pool *)

Definition burn_mint_pool_ChainUpdate : StructDecl :=
  mkStructDecl "ChainUpdate"
    [mkMember "inbound_rate_limiter_config" "InboundRateLimiterConfig" (TNamed "RateLimitConfig") EMethod
      (DStruct "RateLimitConfig");
     mkMember "outbound_rate_limiter_config" "OutboundRateLimiterConfig" (TNamed "RateLimitConfig") EMethod
       (DStruct "RateLimitConfig");
     mkMember "remote_chain_selector" "RemoteChainSelector" TUint64 (ECall "Uint64ToScVal")
       (DCall "Uint64FromScVal");
     mkMember "remote_pool_addresses" "RemotePoolAddresses" (TSlice TBytes) (ECall "BytesSliceToScVal")
       (DVec TBytes (DGet "GetBytes"));
     mkMember "remote_token_address" "RemoteTokenAddress" TBytes (ECall "BytesToScVal") (DGet "GetBytes")].

Definition burn_mint_pool_TokenBucket : StructDecl :=
  mkStructDecl "TokenBucket"
    [mkMember "capacity" "Capacity" TU128 EMethod (DCall "U128FromScVal");
     mkMember "is_enabled" "IsEnabled" TBool (ECall "BoolToScVal") (DGet "GetB");
     mkMember "last_updated" "LastUpdated" TUint64 (ECall "Uint64ToScVal") (DCall "Uint64FromScVal");
     mkMember "rate" "Rate" TU128 EMethod (DCall "U128FromScVal");
     mkMember "tokens" "Tokens" TU128 EMethod (DCall "U128FromScVal")].

Definition burn_mint_pool_LockOrBurnIn : StructDecl :=
  mkStructDecl "LockOrBurnIn"
    [mkMember "amount" "Amount" TBig (ECall "I128ToScVal") (DCall "I128FromScVal");
     mkMember "local_token" "LocalToken" TString (ECall "AddressToScVal") (DCall "AddressFromScVal");
     mkMember "original_sender" "OriginalSender" TString (ECall "AddressToScVal") (DCall "AddressFromScVal");
     mkMember "receiver" "Receiver" TBytes (ECall "BytesToScVal") (DGet "GetBytes");
     mkMember "remote_chain_selector" "RemoteChainSelector" TUint64 (ECall "Uint64ToScVal")
       (DCall "Uint64FromScVal")].

Definition burn_mint_pool_LockOrBurnOut : StructDecl :=
  mkStructDecl "LockOrBurnOut"
    [mkMember "dest_pool_data" "DestPoolData" TBytes (ECall "BytesToScVal") (DGet "GetBytes");
     mkMember "dest_token_address" "DestTokenAddress" TBytes (ECall "BytesToScVal") (DGet "GetBytes");
     mkMember "dest_token_amount" "DestTokenAmount" TBig (ECall "I128ToScVal") (DCall "I128FromScVal")].

Definition burn_mint_pool_PoolFeeResult : StructDecl :=
  mkStructDecl "PoolFeeResult"
    [mkMember "dest_bytes_overhead" "DestBytesOverhead" TUint32 (ECall "Uint32ToScVal") (DGet "GetU32");
     mkMember "dest_gas_overhead" "DestGasOverhead" TUint32 (ECall "Uint32ToScVal") (DGet "GetU32");
     mkMember "fee_usd_cents" "FeeUsdCents" TUint32 (ECall "Uint32ToScVal") (DGet "GetU32");
     mkMember "is_enabled" "IsEnabled" TBool (ECall "BoolToScVal") (DGet "GetB");
     mkMember "token_fee_bps" "TokenFeeBps" TUint32 (ECall "Uint32ToScVal") (DGet "GetU32")].

Definition burn_mint_pool_RateLimitConfig : StructDecl :=
  mkStructDecl "RateLimitConfig"
    [mkMember "capacity" "Capacity" TU128 EMethod (DCall "U128FromScVal");
     mkMember "is_enabled" "IsEnabled" TBool (ECall "BoolToScVal") (DGet "GetB");
     mkMember "rate" "Rate" TU128 EMethod (DCall "U128FromScVal")].

Definition burn_mint_pool_ReleaseOrMintIn : StructDecl :=
  mkStructDecl "ReleaseOrMintIn"
    [mkMember "amount" "Amount" TBig (ECall "I128ToScVal") (DCall "I128FromScVal");
     mkMember "local_token" "LocalToken" TString (ECall "AddressToScVal") (DCall "AddressFromScVal");
     mkMember "original_sender" "OriginalSender" TBytes (ECall "BytesToScVal") (DGet "GetBytes");
     mkMember "receiver" "Receiver" TString (ECall "AddressToScVal") (DCall "AddressFromScVal");
     mkMember "remote_chain_selector" "RemoteChainSelector" TUint64 (ECall "Uint64ToScVal")
       (DCall "Uint64FromScVal");
     mkMember "source_pool_address" "SourcePoolAddress" TBytes (ECall "BytesToScVal") (DGet "GetBytes");
     mkMember "source_pool_data" "SourcePoolData" TBytes (ECall "BytesToScVal") (DGet "GetBytes")].

Definition burn_mint_pool_PoolRequiredCCVs : StructDecl :=
  mkStructDecl "PoolRequiredCCVs"
    [mkMember "ccvs" "Ccvs" (TSlice TString) (ECall "AddressSliceToScVal")
      (DVec TString (DCall "AddressFromScVal"));
     mkMember "include_defaults" "IncludeDefaults" TBool (ECall "BoolToScVal") (DGet "GetB")].

Definition burn_mint_pool_RateLimiterState : StructDecl :=
  mkStructDecl "RateLimiterState"
    [mkMember "inbound" "Inbound" (TNamed "TokenBucket") EMethod (DStruct "TokenBucket");
     mkMember "outbound" "Outbound" (TNamed "TokenBucket") EMethod (DStruct "TokenBucket")].

Definition burn_mint_pool_ReleaseOrMintOut : StructDecl :=
  mkStructDecl "ReleaseOrMintOut"
    [mkMember "destination_amount" "DestinationAmount" TBig (ECall "I128ToScVal") (DCall "I128FromScVal")].

Definition burn_mint_pool_TokenTransferFeeConfig : StructDecl :=
  mkStructDecl "TokenTransferFeeConfig"
    [mkMember "dest_bytes_overhead" "DestBytesOverhead" TUint32 (ECall "Uint32ToScVal") (DGet "GetU32");
     mkMember "dest_gas_overhead" "DestGasOverhead" TUint32 (ECall "Uint32ToScVal") (DGet "GetU32");
     mkMember "fast_finality_fee_usd_cents" "FastFinalityFeeUsdCents" TUint32 (ECall "Uint32ToScVal")
       (DGet "GetU32");
     mkMember "fast_finality_transfer_fee_bps" "FastFinalityTransferFeeBps" TUint32 (ECall "Uint32ToScVal")
       (DGet "GetU32");
     mkMember "finality_fee_usd_cents" "FinalityFeeUsdCents" TUint32 (ECall "Uint32ToScVal") (DGet "GetU32");
     mkMember "finality_transfer_fee_bps" "FinalityTransferFeeBps" TUint32 (ECall "Uint32ToScVal")
       (DGet "GetU32");
     mkMember "is_enabled" "IsEnabled" TBool (ECall "BoolToScVal") (DGet "GetB")].

Definition burn_mint_pool_TokenTransferFeeConfigArgs : StructDecl :=
  mkStructDecl "TokenTransferFeeConfigArgs"
    [mkMember "config" "Config" (TNamed "TokenTransferFeeConfig") EMethod (DStruct "TokenTransferFeeConfig");
     mkMember "dest_chain_selector" "DestChainSelector" TUint64 (ECall "Uint64ToScVal")
       (DCall "Uint64FromScVal")].

Definition burn_mint_pool_CCIPError : ErrorDecl :=
  mkErrorDecl "CCIPError"
    [("CCIPErrorNotInitialized", 1); ("CCIPErrorAlreadyInitialized", 2);
     ("CCIPErrorUnauthorized", 3); ("CCIPErrorNotOwner", 4); ("CCIPErrorNoPendingOwner", 5);
     ("CCIPErrorCallerNotAuthorized", 6); ("CCIPErrorCallerAlreadyAuthorized", 7);
     ("CCIPErrorCallerNotFound", 8); ("CCIPErrorRoleNotGranted", 9);
     ("CCIPErrorFeatureNotEnabled", 10); ("CCIPErrorRoleAlreadyGranted", 11);
     ("CCIPErrorCannotRenounceRole", 12); ("CCIPErrorInvalidVersionTag", 13);
     ("CCIPErrorInvalidSignatureLength", 14); ("CCIPErrorInvalidSignature", 15);
     ("CCIPErrorInvalidSignatureCount", 16); ("CCIPErrorInvalidSignatureThreshold", 17);
     ("CCIPErrorInvalidSignaturePubkey", 18); ("CCIPErrorSourceSignersNotConfigured", 19);
     ("CCIPErrorInvalidVerifierResults", 20); ("CCIPErrorReentrantCall", 21);
     ("CCIPErrorTokenNotSupported", 22); ("CCIPErrorFeeTokenNotSupported", 23);
     ("CCIPErrorNoGasPriceAvailable", 24); ("CCIPErrorDestinationChainNotEnabled", 25);
     ("CCIPErrorInvalidExtraArgsTag", 26); ("CCIPErrorInvalidExtraArgsData", 27);
     ("CCIPErrorMessageGasLimitTooHigh", 28); ("CCIPErrorMessageTooLarge", 29);
     ("CCIPErrorUnsupportedNumberOfTokens", 30); ("CCIPErrorInvalidDestChainConfig", 31);
     ("CCIPErrorMessageFeeTooHigh", 32); ("CCIPErrorInvalidStaticConfig", 33);
     ("CCIPErrorInvalidTokenReceiver", 34); ("CCIPErrorSourceTokenDataTooLarge", 35);
     ("CCIPErrorInvalidDestBytesOverhead", 36); ("CCIPErrorDestinationChainNotSupported", 37);
     ("CCIPErrorMustBeCalledByRouter", 38); ("CCIPErrorRouterMustSetOriginalSender", 39);
     ("CCIPErrorCannotSendZeroTokens", 40); ("CCIPErrorCanOnlySendOneTokenPerMessage", 41);
     ("CCIPErrorUnsupportedToken", 42); ("CCIPErrorInvalidDestChainAddress", 43);
     ("CCIPErrorFeeExceedsMaxAllowed", 44); ("CCIPErrorInsufficientFeeTokenAmount", 45);
     ("CCIPErrorTokenReceiverNotAllowed", 46); ("CCIPErrorCursedByRMN", 47);
     ("CCIPErrorRemoteChainNotSupported", 48); ("CCIPErrorSenderNotAllowed", 49);
     ("CCIPErrorInvalidTokenAmount", 50); ("CCIPErrorInvalidReceiverAddress", 51);
     ("CCIPErrorInvalidConfig", 52); ("CCIPErrorInvalidVerifierResultsLength", 53);
     ("CCIPErrorInboundImplementationNotFound", 54);
     ("CCIPErrorOutboundImplementationNotFound", 55); ("CCIPErrorInvalidAddress", 56);
     ("CCIPErrorInvalidChainSelector", 57); ("CCIPErrorInvalidVersion", 58);
     ("CCIPErrorInvalidCCVVersion", 59); ("CCIPErrorOffRampAlreadyExists", 60);
     ("CCIPErrorOffRampMismatch", 61); ("CCIPErrorBadRMNSignal", 62);
     ("CCIPErrorUnsupportedDestinationChain", 63); ("CCIPErrorAlreadyCursed", 64);
     ("CCIPErrorConfigNotSet", 65); ("CCIPErrorDuplicateOnchainPublicKey", 66);
     ("CCIPErrorInvalidSignerOrder", 67); ("CCIPErrorNotEnoughSigners", 68);
     ("CCIPErrorNotCursed", 69); ("CCIPErrorOutOfOrderSignatures", 70);
     ("CCIPErrorThresholdNotMet", 71); ("CCIPErrorUnexpectedSigner", 72);
     ("CCIPErrorZeroValueNotAllowed", 73); ("CCIPErrorSourceChainNotEnabled", 100);
     ("CCIPErrorInvalidSourceChainConfig", 101); ("CCIPErrorInvalidOnRampAddress", 102);
     ("CCIPErrorInvalidOffRampAddress", 103); ("CCIPErrorInvalidMessageDestination", 104);
     ("CCIPErrorMessageAlreadyExecuted", 105); ("CCIPErrorInvalidExecutionState", 106);
     ("CCIPErrorCCVLengthMismatch", 107); ("CCIPErrorCCVQuorumNotMet", 108);
     ("CCIPErrorReceiverError", 109); ("CCIPErrorGasLimitOverrideTooLow", 110);
     ("CCIPErrorInvalidReceiverLength", 111); ("CCIPErrorTokenHandlingError", 112);
     ("CCIPErrorMessageDecodingError", 113); ("CCIPErrorReceiverDoesNotExist", 114);
     ("CCIPErrorReceiverNotWasmContract", 115); ("CCIPErrorRequiredCCVMissing", 116);
     ("CCIPErrorInvalidOptionalThreshold", 117); ("CCIPErrorOptionalCCVQuorumNotReached", 118);
     ("CCIPErrorNoStateProgressMade", 119); ("CCIPErrorOnlyRegistryModuleOrOwner", 201);
     ("CCIPErrorOnlyAdministrator", 202); ("CCIPErrorOnlyPendingAdministrator", 203);
     ("CCIPErrorTokenAlreadyRegistered", 204); ("CCIPErrorInvalidTokenPoolToken", 205);
     ("CCIPErrorPoolTokenMismatch", 301); ("CCIPErrorChainNotSupported", 302);
     ("CCIPErrorCallerIsNotRamp", 303); ("CCIPErrorInsufficientPoolLiquidity", 304);
     ("CCIPErrorInvalidRemotePoolAddress", 305); ("CCIPErrorInvalidRemoteChainConfig", 306);
     ("CCIPErrorInvalidRemoteChainDecimals", 307); ("CCIPErrorDecimalAmountOverflow", 308);
     ("CCIPErrorInvalidPoolTokenDecimals", 309); ("CCIPErrorBucketOverfilled", 310);
     ("CCIPErrorTokenMaxCapacityExceeded", 311); ("CCIPErrorTokenRateLimitReached", 312);
     ("CCIPErrorInvalidRateLimitRate", 313); ("CCIPErrorDisabledNonZeroRateLimit", 314);
     ("CCIPErrorInvalidRequestedFinality", 315);
     ("CCIPErrorRequestedFinalityCanOnlyHaveOneMode", 316);
     ("CCIPErrorInvalidChainForClient", 317); ("CCIPErrorRouterNotConfigured", 318);
     ("CCIPErrorInvalidSourcePoolAddress", 319); ("CCIPErrorDuplicateCCVNotAllowed", 320);
     ("CCIPErrorInvalidTokenTransferFeeConfig", 321); ("CCIPErrorInvalidTransferFeeBps", 322);
     ("CCIPErrorInvalidAllowListRequest", 323); ("CCIPErrorInvalidFeeCalculation", 801);
     ("CCIPErrorInvalidFeeTokenConversion", 802); ("CCIPErrorZeroFeeAggregatorNotAllowed", 803);
     ("CCIPErrorExceedsMaxCCVs", 804); ("CCIPErrorCCVNotAllowed", 805);
     ("CCIPErrorPolicyEngineDetachReverted", 806); ("CCIPErrorUnsupportedSelector", 807);
     ("CCIPErrorZeroAddressNotAllowed", 808)]
    [(1, "not initialized"); (2, "already initialized"); (3, "unauthorized"); (4, "not owner");
     (5, "no pending owner"); (6, "caller not authorized"); (7, "caller already authorized");
     (8, "caller not found"); (9, "role not granted"); (10, "feature not enabled");
     (11, "role already granted"); (12, "cannot renounce role"); (13, "invalid version tag");
     (14, "invalid signature length"); (15, "invalid signature");
     (16, "invalid signature count"); (17, "invalid signature threshold");
     (18, "invalid signature pubkey"); (19, "source signers not configured");
     (20, "invalid verifier results"); (21, "reentrant call"); (22, "token not supported");
     (23, "fee token not supported"); (24, "no gas price available");
     (25, "destination chain not enabled"); (26, "invalid extra args tag");
     (27, "invalid extra args data"); (28, "message gas limit too high");
     (29, "message too large"); (30, "unsupported number of tokens");
     (31, "invalid dest chain config"); (32, "message fee too high");
     (33, "invalid static config"); (34, "invalid token receiver");
     (35, "source token data too large"); (36, "invalid dest bytes overhead");
     (37, "destination chain not supported"); (38, "must be called by router");
     (39, "router must set original sender"); (40, "cannot send zero tokens");
     (41, "can only send one token per message"); (42, "unsupported token");
     (43, "invalid dest chain address"); (44, "fee exceeds max allowed");
     (45, "insufficient fee token amount"); (46, "token receiver not allowed");
     (47, "cursed by r m n"); (48, "remote chain not supported"); (49, "sender not allowed");
     (50, "invalid token amount"); (51, "invalid receiver address"); (52, "invalid config");
     (53, "invalid verifier results length"); (54, "inbound implementation not found");
     (55, "outbound implementation not found"); (56, "invalid address");
     (57, "invalid chain selector"); (58, "invalid version"); (59, "invalid c c v version");
     (60, "off ramp already exists"); (61, "off ramp mismatch"); (62, "bad r m n signal");
     (63, "unsupported destination chain"); (64, "already cursed"); (65, "config not set");
     (66, "duplicate onchain public key"); (67, "invalid signer order");
     (68, "not enough signers"); (69, "not cursed"); (70, "out of order signatures");
     (71, "threshold not met"); (72, "unexpected signer"); (73, "zero value not allowed");
     (100, "source chain not enabled"); (101, "invalid source chain config");
     (102, "invalid on ramp address"); (103, "invalid off ramp address");
     (104, "invalid message destination"); (105, "message already executed");
     (106, "invalid execution state"); (107, "c c v length mismatch");
     (108, "c c v quorum not met"); (109, "receiver error");
     (110, "gas limit override too low"); (111, "invalid receiver length");
     (112, "token handling error"); (113, "message decoding error");
     (114, "receiver does not exist"); (115, "receiver not wasm contract");
     (116, "required c c v missing"); (117, "invalid optional threshold");
     (118, "optional c c v quorum not reached"); (119, "no state progress made");
     (201, "only registry module or owner"); (202, "only administrator");
     (203, "only pending administrator"); (204, "token already registered");
     (205, "invalid token pool token"); (301, "pool token mismatch");
     (302, "chain not supported"); (303, "caller is not ramp");
     (304, "insufficient pool liquidity"); (305, "invalid remote pool address");
     (306, "invalid remote chain config"); (307, "invalid remote chain decimals");
     (308, "decimal amount overflow"); (309, "invalid pool token decimals");
     (310, "bucket overfilled"); (311, "token max capacity exceeded");
     (312, "token rate limit reached"); (313, "invalid rate limit rate");
     (314, "disabled non zero rate limit"); (315, "invalid requested finality");
     (316, "requested finality can only have one mode"); (317, "invalid chain for client");
     (318, "router not configured"); (319, "invalid source pool address");
     (320, "duplicate c c v not allowed"); (321, "invalid token transfer fee config");
     (322, "invalid transfer fee bps"); (323, "invalid allow list request");
     (801, "invalid fee calculation"); (802, "invalid fee token conversion");
     (803, "zero fee aggregator not allowed"); (804, "exceeds max c c vs");
     (805, "c c v not allowed"); (806, "policy engine detach reverted");
     (807, "unsupported selector"); (808, "zero address not allowed")].

Definition burn_mint_pool_RoleGrantedEvent : EventDecl :=
  mkEventDecl "RoleGrantedEvent"
    [("Role", TString); ("Account", TString); ("Sender", TString); ("Ledger", TUint32);
     ("TxHash", TString)]
    (Some "auth_RoleGranted").

Definition burn_mint_pool_RoleRevokedEvent : EventDecl :=
  mkEventDecl "RoleRevokedEvent"
    [("Role", TString); ("Account", TString); ("Sender", TString); ("Ledger", TUint32);
     ("TxHash", TString)]
    (Some "auth_RoleRevoked").

Definition burn_mint_pool_AuthorizedCallerAddedEvent : EventDecl :=
  mkEventDecl "AuthorizedCallerAddedEvent"
    [("Caller", TString); ("Ledger", TUint32); ("TxHash", TString)]
    (Some "auth_CallerAdded").

Definition burn_mint_pool_AuthorizedCallerRemovedEvent : EventDecl :=
  mkEventDecl "AuthorizedCallerRemovedEvent"
    [("Caller", TString); ("Ledger", TUint32); ("TxHash", TString)]
    (Some "auth_CallerRemoved").

Definition burn_mint_pool_OwnershipTransferStartedEvent : EventDecl :=
  mkEventDecl "OwnershipTransferStartedEvent"
    [("PreviousOwner", TString); ("NewOwner", TString); ("Ledger", TUint32);
     ("TxHash", TString)]
    (Some "auth_OwnerTransferStart").

Definition burn_mint_pool_BurnedEvent : EventDecl :=
  mkEventDecl "BurnedEvent"
    [("Sender", TString); ("Amount", TBig); ("Ledger", TUint32); ("TxHash", TString)]
    (Some "pool_Burned").

Definition burn_mint_pool_LockedEvent : EventDecl :=
  mkEventDecl "LockedEvent"
    [("Sender", TString); ("Amount", TBig); ("Ledger", TUint32); ("TxHash", TString)]
    (Some "pool_Locked").

Definition burn_mint_pool_MintedEvent : EventDecl :=
  mkEventDecl "MintedEvent"
    [("Sender", TString); ("Recipient", TString); ("Amount", TBig); ("Ledger", TUint32);
     ("TxHash", TString)]
    (Some "pool_Minted").

Definition burn_mint_pool_ReleasedEvent : EventDecl :=
  mkEventDecl "ReleasedEvent"
    [("Sender", TString); ("Recipient", TString); ("Amount", TBig); ("Ledger", TUint32);
     ("TxHash", TString)]
    (Some "pool_Released").

Definition burn_mint_pool_ChainRemovedEvent : EventDecl :=
  mkEventDecl "ChainRemovedEvent"
    [("RemoteChainSelector", TUint64); ("Ledger", TUint32); ("TxHash", TString)]
    (Some "pool_ChainRemoved").

Definition burn_mint_pool_ChainConfiguredEvent : EventDecl :=
  mkEventDecl "ChainConfiguredEvent"
    [("RemoteChainSelector", TUint64); ("RemotePoolAddresses", TSlice TBytes);
     ("RemoteTokenAddress", TBytes); ("OutboundRateLimiterConfig", TNamed "RateLimitConfig");
     ("InboundRateLimiterConfig", TNamed "RateLimitConfig"); ("Ledger", TUint32);
     ("TxHash", TString)]
    (Some "pool_ChainConfigured").

Definition burn_mint_pool_RemotePoolAddedEvent : EventDecl :=
  mkEventDecl "RemotePoolAddedEvent"
    [("RemoteChainSelector", TUint64); ("RemotePoolAddress", TBytes); ("Ledger", TUint32);
     ("TxHash", TString)]
    (Some "pool_RemotePoolAdded").

Definition burn_mint_pool_FinalityConfigSetEvent : EventDecl :=
  mkEventDecl "FinalityConfigSetEvent"
    [("AllowedFinality", TUint32); ("Ledger", TUint32); ("TxHash", TString)]
    (Some "pool_FinalityConfigSet").

Definition burn_mint_pool_LockBoxConfiguredEvent : EventDecl :=
  mkEventDecl "LockBoxConfiguredEvent"
    [("RemoteChainSelector", TUint64); ("LockBox", TString); ("Ledger", TUint32);
     ("TxHash", TString)]
    (Some "pool_LockBoxConfigured").

Definition burn_mint_pool_RemotePoolRemovedEvent : EventDecl :=
  mkEventDecl "RemotePoolRemovedEvent"
    [("RemoteChainSelector", TUint64); ("RemotePoolAddress", TBytes); ("Ledger", TUint32);
     ("TxHash", TString)]
    (Some "pool_RemotePoolRemoved").

Definition burn_mint_pool_FtfInboundConsumedEvent : EventDecl :=
  mkEventDecl "FtfInboundConsumedEvent"
    [("RemoteChainSelector", TUint64); ("Amount", TBig); ("Ledger", TUint32);
     ("TxHash", TString)]
    (Some "pool_FtfInboundConsumed").

Definition burn_mint_pool_TokenFeeCfgDeletedEvent : EventDecl :=
  mkEventDecl "TokenFeeCfgDeletedEvent"
    [("RemoteChainSelector", TUint64); ("Ledger", TUint32); ("TxHash", TString)]
    (Some "pool_TokenFeeCfgDeleted").

Definition burn_mint_pool_TokenFeeCfgUpdatedEvent : EventDecl :=
  mkEventDecl "TokenFeeCfgUpdatedEvent"
    [("RemoteChainSelector", TUint64); ("Config", TNamed "TokenTransferFeeConfig");
     ("Ledger", TUint32); ("TxHash", TString)]
    (Some "pool_TokenFeeCfgUpdated").

Definition burn_mint_pool_FtfOutboundConsumedEvent : EventDecl :=
  mkEventDecl "FtfOutboundConsumedEvent"
    [("RemoteChainSelector", TUint64); ("Amount", TBig); ("Ledger", TUint32);
     ("TxHash", TString)]
    (Some "pool_FtfOutboundConsumed").

Definition burn_mint_pool_RateLimitConfiguredEvent : EventDecl :=
  mkEventDecl "RateLimitConfiguredEvent"
    [("RemoteChainSelector", TUint64); ("FastFinality", TBool);
     ("OutboundConfig", TNamed "RateLimitConfig"); ("InboundConfig", TNamed "RateLimitConfig");
     ("Ledger", TUint32); ("TxHash", TString)]
    (Some "pool_RateLimitConfigured").

Definition burn_mint_pool_AdvancedPoolHooksUpdatedEvent : EventDecl :=
  mkEventDecl "AdvancedPoolHooksUpdatedEvent"
    [("OldHooks", TPtr TString); ("NewHooks", TPtr TString); ("Ledger", TUint32);
     ("TxHash", TString)]
    (Some "pool_HooksUpdated").

Definition burn_mint_pool_InboundRateLimitConsumedEvent : EventDecl :=
  mkEventDecl "InboundRateLimitConsumedEvent"
    [("RemoteChainSelector", TUint64); ("Amount", TBig); ("Ledger", TUint32);
     ("TxHash", TString)]
    (Some "pool_InboundRateLimitConsumed").

Definition burn_mint_pool_OutboundRateLimitConsumedEvent : EventDecl :=
  mkEventDecl "OutboundRateLimitConsumedEvent"
    [("RemoteChainSelector", TUint64); ("Amount", TBig); ("Ledger", TUint32);
     ("TxHash", TString)]
    (Some "pool_OutboundRateLimitConsumed").

Definition burn_mint_pool_MessageDirection : EnumDecl :=
  UnionEnum "MessageDirection"
    [mkVariantDecl "Outbound" [];
     mkVariantDecl "Inbound" []].

Definition burn_mint_pool_types : TypesFile :=
  mkTypesFile "burn_mint_pool" (mkImports true true true true)
    [burn_mint_pool_ChainUpdate; burn_mint_pool_TokenBucket; burn_mint_pool_LockOrBurnIn;
     burn_mint_pool_LockOrBurnOut; burn_mint_pool_PoolFeeResult; burn_mint_pool_RateLimitConfig;
     burn_mint_pool_ReleaseOrMintIn; burn_mint_pool_PoolRequiredCCVs;
     burn_mint_pool_RateLimiterState; burn_mint_pool_ReleaseOrMintOut;
     burn_mint_pool_TokenTransferFeeConfig; burn_mint_pool_TokenTransferFeeConfigArgs]
    [burn_mint_pool_CCIPError]
    [burn_mint_pool_RoleGrantedEvent; burn_mint_pool_RoleRevokedEvent;
     burn_mint_pool_AuthorizedCallerAddedEvent; burn_mint_pool_AuthorizedCallerRemovedEvent;
     burn_mint_pool_OwnershipTransferStartedEvent; burn_mint_pool_BurnedEvent;
     burn_mint_pool_LockedEvent; burn_mint_pool_MintedEvent; burn_mint_pool_ReleasedEvent;
     burn_mint_pool_ChainRemovedEvent; burn_mint_pool_ChainConfiguredEvent;
     burn_mint_pool_RemotePoolAddedEvent; burn_mint_pool_FinalityConfigSetEvent;
     burn_mint_pool_LockBoxConfiguredEvent; burn_mint_pool_RemotePoolRemovedEvent;
     burn_mint_pool_FtfInboundConsumedEvent; burn_mint_pool_TokenFeeCfgDeletedEvent;
     burn_mint_pool_TokenFeeCfgUpdatedEvent; burn_mint_pool_FtfOutboundConsumedEvent;
     burn_mint_pool_RateLimitConfiguredEvent; burn_mint_pool_AdvancedPoolHooksUpdatedEvent;
     burn_mint_pool_InboundRateLimitConsumedEvent;
     burn_mint_pool_OutboundRateLimitConsumedEvent]
    [burn_mint_pool_MessageDirection].

Definition burn_mint_pool_Owner : Method :=
  mkMethod "Owner" [] [TPtr TString] "nil"
    true "owner" [] (RVal (DCall "OptionalAddressFromScVal")).

Definition burn_mint_pool_GetFee : Method :=
  mkMethod "GetFee" [("destChainSelector", TUint64); ("amount", TBig); ("requestedFinality", TUint32);
     ("tokenArgs", TBytes)] [TPtr (TNamed "PoolFeeResult")] "nil"
    true "get_fee" [ECall "Uint64ToScVal"; ECall "I128ToScVal"; ECall "Uint32ToScVal"; ECall "BytesToScVal"]
      (RVal (DStruct "PoolFeeResult")).

Definition burn_mint_pool_Upgrade : Method :=
  mkMethod "Upgrade" [("newWasmHash", TArray "32")] [] ""
    false "upgrade" [ECall "Bytes32ToScVal"] RVoid.

Definition burn_mint_pool_IsOwner : Method :=
  mkMethod "IsOwner" [("addr", TString)] [TBool] "false"
    true "is_owner" [ECall "AddressToScVal"] (RVal (DGet "GetB")).

Definition burn_mint_pool_GetToken : Method :=
  mkMethod "GetToken" [] [TString] empty_literal
    true "get_token" [] (RVal (DCall "AddressFromScVal")).

Definition burn_mint_pool_GetRouter : Method :=
  mkMethod "GetRouter" [] [TPtr TString] "nil"
    true "get_router" [] (RVal (DCall "OptionalAddressFromScVal")).

Definition burn_mint_pool_InitOwner : Method :=
  mkMethod "InitOwner" [("owner", TString)] [] ""
    false "init_owner" [ECall "AddressToScVal"] RVoid.

Definition burn_mint_pool_Initialize : Method :=
  mkMethod "Initialize" [("owner", TString); ("token", TString); ("tokenDecimals", TUint32);
    ("router", TString);
     ("rampRegistry", TString); ("rmnProxy", TString)] [] ""
    false "initialize" [ECall "AddressToScVal"; ECall "AddressToScVal"; ECall "Uint32ToScVal"; ECall
      "AddressToScVal"; ECall "AddressToScVal"; ECall "AddressToScVal"] RVoid.

Definition burn_mint_pool_SetRouter : Method :=
  mkMethod "SetRouter" [("router", TString)] [] ""
    false "set_router" [ECall "AddressToScVal"] RVoid.

Definition burn_mint_pool_LockOrBurn : Method :=
  mkMethod "LockOrBurn" [("caller", TString); ("input", TNamed "LockOrBurnIn"); ("requestedFinality", TUint32);
     ("tokenArgs", TBytes)] [TPtr (TNamed "LockOrBurnOut")] "nil"
    false "lock_or_burn" [ECall "AddressToScVal"; EMethodOf; ECall "Uint32ToScVal"; ECall "BytesToScVal"]
      (RVal (DStruct "LockOrBurnOut")).

Definition burn_mint_pool_GetFeeAdmin : Method :=
  mkMethod "GetFeeAdmin" [] [TPtr TString] "nil"
    true "get_fee_admin" [] (RVal (DCall "OptionalAddressFromScVal")).

Definition burn_mint_pool_GetRmnProxy : Method :=
  mkMethod "GetRmnProxy" [] [TPtr TString] "nil"
    true "get_rmn_proxy" [] (RVal (DCall "OptionalAddressFromScVal")).

Definition burn_mint_pool_RequireOwner : Method :=
  mkMethod "RequireOwner" [] [TString] empty_literal
    false "require_owner" [] (RVal (DCall "AddressFromScVal")).

Definition burn_mint_pool_SetFeeAdmin : Method :=
  mkMethod "SetFeeAdmin" [("feeAdmin", TString)] [] ""
    false "set_fee_admin" [ECall "AddressToScVal"] RVoid.

Definition burn_mint_pool_AddRemotePool : Method :=
  mkMethod "AddRemotePool" [("remoteChainSelector", TUint64); ("remotePoolAddress", TBytes)] [] ""
    false "add_remote_pool" [ECall "Uint64ToScVal"; ECall "BytesToScVal"] RVoid.

Definition burn_mint_pool_ReleaseOrMint : Method :=
  mkMethod "ReleaseOrMint" [("caller", TString); ("input", TNamed "ReleaseOrMintIn");
    ("requestedFinality", TUint32)] [TPtr (TNamed "ReleaseOrMintOut")] "nil"
    false "release_or_mint" [ECall "AddressToScVal"; EMethodOf; ECall "Uint32ToScVal"]
      (RVal (DStruct "ReleaseOrMintOut")).

Definition burn_mint_pool_AcceptOwnership : Method :=
  mkMethod "AcceptOwnership" [] [] ""
    false "accept_ownership" [] RVoid.

Definition burn_mint_pool_GetRemotePools : Method :=
  mkMethod "GetRemotePools" [("remoteChainSelector", TUint64)] [TSlice TBytes] "nil"
    true "get_remote_pools" [ECall "Uint64ToScVal"] (RVal (DVec TBytes (DGet "GetBytes"))).

Definition burn_mint_pool_GetRemoteToken : Method :=
  mkMethod "GetRemoteToken" [("remoteChainSelector", TUint64)] [TBytes] "nil"
    true "get_remote_token" [ECall "Uint64ToScVal"] (RVal (DGet "GetBytes")).

Definition burn_mint_pool_TypeAndVersion : Method :=
  mkMethod "TypeAndVersion" [] [TString] empty_literal
    false "type_and_version" [] (RVal (DCall "StringFromScVal")).

Definition burn_mint_pool_GetPendingOwner : Method :=
  mkMethod "GetPendingOwner" [] [TPtr TString] "nil"
    true "get_pending_owner" [] (RVal (DCall "OptionalAddressFromScVal")).

Definition burn_mint_pool_GetRampRegistry : Method :=
  mkMethod "GetRampRegistry" [] [TPtr TString] "nil"
    true "get_ramp_registry" [] (RVal (DCall "OptionalAddressFromScVal")).

Definition burn_mint_pool_GetRequiredCcvs : Method :=
  mkMethod "GetRequiredCcvs" [("localToken", TString); ("remoteChainSelector", TUint64); ("amount", TBig);
     ("requestedFinality", TUint32); ("extraData", TBytes);
     ("direction", TNamed "MessageDirection")] [TPtr (TNamed "PoolRequiredCCVs")] "nil"
    true "get_required_ccvs" [ECall "AddressToScVal"; ECall "Uint64ToScVal"; ECall "I128ToScVal"; ECall
      "Uint32ToScVal"; ECall "BytesToScVal"; EMethodOf] (RVal (DStruct "PoolRequiredCCVs")).

Definition burn_mint_pool_SetRampRegistry : Method :=
  mkMethod "SetRampRegistry" [("rampRegistry", TString)] [] ""
    false "set_ramp_registry" [ECall "AddressToScVal"] RVoid.

Definition burn_mint_pool_GetTokenDecimals : Method :=
  mkMethod "GetTokenDecimals" [] [TUint32] "0"
    true "get_token_decimals" [] (RVal (DGet "GetU32")).

Definition burn_mint_pool_IsSupportedChain : Method :=
  mkMethod "IsSupportedChain" [("remoteChainSelector", TUint64)] [TBool] "false"
    true "is_supported_chain" [ECall "Uint64ToScVal"] (RVal (DGet "GetB")).

Definition burn_mint_pool_IsSupportedToken : Method :=
  mkMethod "IsSupportedToken" [("token", TString)] [TBool] "false"
    true "is_supported_token" [ECall "AddressToScVal"] (RVal (DGet "GetB")).

Definition burn_mint_pool_RemoveRemotePool : Method :=
  mkMethod "RemoveRemotePool" [("remoteChainSelector", TUint64); ("remotePoolAddress", TBytes)] [] ""
    false "remove_remote_pool" [ECall "Uint64ToScVal"; ECall "BytesToScVal"] RVoid.

Definition burn_mint_pool_TransferOwnership : Method :=
  mkMethod "TransferOwnership" [("newOwner", TString)] [] ""
    false "transfer_ownership" [ECall "AddressToScVal"] RVoid.

Definition burn_mint_pool_ApplyChainUpdates : Method :=
  mkMethod "ApplyChainUpdates" [("adds", TSlice (TNamed "ChainUpdate")); ("removes", TSlice TUint64)] [] ""
    false "apply_chain_updates" [ECall "StructSliceToScVal"; ECall "Uint64SliceToScVal"] RVoid.

Definition burn_mint_pool_WithdrawFeeTokens : Method :=
  mkMethod "WithdrawFeeTokens" [("caller", TString); ("feeTokens", TSlice TString); ("recipient", TString)] []
    ""
    false "withdraw_fee_tokens" [ECall "AddressToScVal"; ECall "AddressSliceToScVal"; ECall "AddressToScVal"]
      RVoid.

Definition burn_mint_pool_GetRateLimitAdmin : Method :=
  mkMethod "GetRateLimitAdmin" [] [TPtr TString] "nil"
    true "get_rate_limit_admin" [] (RVal (DCall "OptionalAddressFromScVal")).

Definition burn_mint_pool_SetRateLimitAdmin : Method :=
  mkMethod "SetRateLimitAdmin" [("admin", TString)] [] ""
    false "set_rate_limit_admin" [ECall "AddressToScVal"] RVoid.

Definition burn_mint_pool_SetRateLimitConfig : Method :=
  mkMethod "SetRateLimitConfig" [("caller", TString); ("remoteChainSelector", TUint64);
     ("outboundConfig", TNamed "RateLimitConfig"); ("inboundConfig", TNamed "RateLimitConfig");
     ("fastFinality", TBool)] [] ""
    false "set_rate_limit_config" [ECall "AddressToScVal"; ECall "Uint64ToScVal"; EMethodOf; EMethodOf; ECall
      "BoolToScVal"] RVoid.

Definition burn_mint_pool_GetAdvancedPoolHooks : Method :=
  mkMethod "GetAdvancedPoolHooks" [] [TPtr TString] "nil"
    true "get_advanced_pool_hooks" [] (RVal (DCall "OptionalAddressFromScVal")).

Definition burn_mint_pool_SetAdvancedPoolHooks : Method :=
  mkMethod "SetAdvancedPoolHooks" [("hooks", TString)] [] ""
    false "set_advanced_pool_hooks" [ECall "AddressToScVal"] RVoid.

Definition burn_mint_pool_CancelOwnershipTransfer : Method :=
  mkMethod "CancelOwnershipTransfer" [] [] ""
    false "cancel_ownership_transfer" [] RVoid.

Definition burn_mint_pool_RemoveAdvancedPoolHooks : Method :=
  mkMethod "RemoveAdvancedPoolHooks" [] [] ""
    false "remove_advanced_pool_hooks" [] RVoid.

Definition burn_mint_pool_GetAllowedFinalityConfig : Method :=
  mkMethod "GetAllowedFinalityConfig" [] [TUint32] "0"
    true "get_allowed_finality_config" [] (RVal (DGet "GetU32")).

Definition burn_mint_pool_SetAllowedFinalityConfig : Method :=
  mkMethod "SetAllowedFinalityConfig" [("allowedFinality", TUint32)] [] ""
    false "set_allowed_finality_config" [ECall "Uint32ToScVal"] RVoid.

Definition burn_mint_pool_GetTokenTransferFeeConfig : Method :=
  mkMethod "GetTokenTransferFeeConfig" [("destChainSelector", TUint64)]
    [TPtr (TNamed "TokenTransferFeeConfig")] "nil"
    true "get_token_transfer_fee_config" [ECall "Uint64ToScVal"] (RVal (DStruct "TokenTransferFeeConfig")).

Definition burn_mint_pool_ApplyTokenFeeConfigUpdates : Method :=
  mkMethod "ApplyTokenFeeConfigUpdates"
    [("adds", TSlice (TNamed "TokenTransferFeeConfigArgs")); ("disables", TSlice TUint64)] [] ""
    false "apply_token_fee_config_updates" [ECall "StructSliceToScVal"; ECall "Uint64SliceToScVal"] RVoid.

Definition burn_mint_pool_GetCurrentRateLimiterState : Method :=
  mkMethod "GetCurrentRateLimiterState" [("remoteChainSelector", TUint64); ("fastFinality", TBool)]
    [TPtr (TNamed "RateLimiterState")] "nil"
    true "get_current_rate_limiter_state" [ECall "Uint64ToScVal"; ECall "BoolToScVal"]
      (RVal (DStruct "RateLimiterState")).

Definition burn_mint_pool_WaitForRoleGrantedEvent : EventHelper :=
  mkEventHelper "RoleGrantedEvent" (mkEventParser
    []
    [("role", "Role", EvField (DCall "SymbolFromScVal"));
     ("account", "Account", EvField (DCall "AddressFromScVal"));
     ("sender", "Sender", EvField (DCall "AddressFromScVal"))]).

Definition burn_mint_pool_WaitForRoleRevokedEvent : EventHelper :=
  mkEventHelper "RoleRevokedEvent" (mkEventParser
    []
    [("role", "Role", EvField (DCall "SymbolFromScVal"));
     ("account", "Account", EvField (DCall "AddressFromScVal"));
     ("sender", "Sender", EvField (DCall "AddressFromScVal"))]).

Definition burn_mint_pool_WaitForAuthorizedCallerAddedEvent : EventHelper :=
  mkEventHelper "AuthorizedCallerAddedEvent" (mkEventParser
    []
    [("caller", "Caller", EvField (DCall "AddressFromScVal"))]).

Definition burn_mint_pool_WaitForAuthorizedCallerRemovedEvent : EventHelper :=
  mkEventHelper "AuthorizedCallerRemovedEvent" (mkEventParser
    []
    [("caller", "Caller", EvField (DCall "AddressFromScVal"))]).

Definition burn_mint_pool_WaitForOwnershipTransferStartedEvent : EventHelper :=
  mkEventHelper "OwnershipTransferStartedEvent" (mkEventParser
    []
    [("previous_owner", "PreviousOwner", EvField (DCall "AddressFromScVal"));
     ("new_owner", "NewOwner", EvField (DCall "AddressFromScVal"))]).

Definition burn_mint_pool_WaitForBurnedEvent : EventHelper :=
  mkEventHelper "BurnedEvent" (mkEventParser
    []
    [("sender", "Sender", EvField (DCall "AddressFromScVal"));
     ("amount", "Amount", EvField (DCall "I128FromScVal"))]).

Definition burn_mint_pool_WaitForLockedEvent : EventHelper :=
  mkEventHelper "LockedEvent" (mkEventParser
    []
    [("sender", "Sender", EvField (DCall "AddressFromScVal"));
     ("amount", "Amount", EvField (DCall "I128FromScVal"))]).

Definition burn_mint_pool_WaitForMintedEvent : EventHelper :=
  mkEventHelper "MintedEvent" (mkEventParser
    []
    [("sender", "Sender", EvField (DCall "AddressFromScVal"));
     ("recipient", "Recipient", EvField (DCall "AddressFromScVal"));
     ("amount", "Amount", EvField (DCall "I128FromScVal"))]).

Definition burn_mint_pool_WaitForReleasedEvent : EventHelper :=
  mkEventHelper "ReleasedEvent" (mkEventParser
    []
    [("sender", "Sender", EvField (DCall "AddressFromScVal"));
     ("recipient", "Recipient", EvField (DCall "AddressFromScVal"));
     ("amount", "Amount", EvField (DCall "I128FromScVal"))]).

Definition burn_mint_pool_WaitForChainRemovedEvent : EventHelper :=
  mkEventHelper "ChainRemovedEvent" (mkEventParser
    []
    [("remote_chain_selector", "RemoteChainSelector", EvField (DCall "Uint64FromScVal"))]).

Definition burn_mint_pool_WaitForChainConfiguredEvent : EventHelper :=
  mkEventHelper "ChainConfiguredEvent" (mkEventParser
    []
    [("remote_chain_selector", "RemoteChainSelector", EvField (DCall "Uint64FromScVal"));
     ("remote_pool_addresses", "RemotePoolAddresses", EvVec TBytes (DGet "GetBytes") false);
     ("remote_token_address", "RemoteTokenAddress", EvField (DGet "GetBytes"));
     ("outbound_rate_limiter_config", "OutboundRateLimiterConfig", EvField (DStruct "RateLimitConfig"));
     ("inbound_rate_limiter_config", "InboundRateLimiterConfig", EvField (DStruct "RateLimitConfig"))]).

Definition burn_mint_pool_WaitForRemotePoolAddedEvent : EventHelper :=
  mkEventHelper "RemotePoolAddedEvent" (mkEventParser
    []
    [("remote_chain_selector", "RemoteChainSelector", EvField (DCall "Uint64FromScVal"));
     ("remote_pool_address", "RemotePoolAddress", EvField (DGet "GetBytes"))]).

Definition burn_mint_pool_WaitForFinalityConfigSetEvent : EventHelper :=
  mkEventHelper "FinalityConfigSetEvent" (mkEventParser
    []
    [("allowed_finality", "AllowedFinality", EvField (DGet "GetU32"))]).

Definition burn_mint_pool_WaitForLockBoxConfiguredEvent : EventHelper :=
  mkEventHelper "LockBoxConfiguredEvent" (mkEventParser
    []
    [("remote_chain_selector", "RemoteChainSelector", EvField (DCall "Uint64FromScVal"));
     ("lock_box", "LockBox", EvField (DCall "AddressFromScVal"))]).

Definition burn_mint_pool_WaitForRemotePoolRemovedEvent : EventHelper :=
  mkEventHelper "RemotePoolRemovedEvent" (mkEventParser
    []
    [("remote_chain_selector", "RemoteChainSelector", EvField (DCall "Uint64FromScVal"));
     ("remote_pool_address", "RemotePoolAddress", EvField (DGet "GetBytes"))]).

Definition burn_mint_pool_WaitForFtfInboundConsumedEvent : EventHelper :=
  mkEventHelper "FtfInboundConsumedEvent" (mkEventParser
    []
    [("remote_chain_selector", "RemoteChainSelector", EvField (DCall "Uint64FromScVal"));
     ("amount", "Amount", EvField (DCall "I128FromScVal"))]).

Definition burn_mint_pool_WaitForTokenFeeCfgDeletedEvent : EventHelper :=
  mkEventHelper "TokenFeeCfgDeletedEvent" (mkEventParser
    []
    [("remote_chain_selector", "RemoteChainSelector", EvField (DCall "Uint64FromScVal"))]).

Definition burn_mint_pool_WaitForTokenFeeCfgUpdatedEvent : EventHelper :=
  mkEventHelper "TokenFeeCfgUpdatedEvent" (mkEventParser
    []
    [("remote_chain_selector", "RemoteChainSelector", EvField (DCall "Uint64FromScVal"));
     ("config", "Config", EvField (DStruct "TokenTransferFeeConfig"))]).

Definition burn_mint_pool_WaitForFtfOutboundConsumedEvent : EventHelper :=
  mkEventHelper "FtfOutboundConsumedEvent" (mkEventParser
    []
    [("remote_chain_selector", "RemoteChainSelector", EvField (DCall "Uint64FromScVal"));
     ("amount", "Amount", EvField (DCall "I128FromScVal"))]).

Definition burn_mint_pool_WaitForRateLimitConfiguredEvent : EventHelper :=
  mkEventHelper "RateLimitConfiguredEvent" (mkEventParser
    []
    [("remote_chain_selector", "RemoteChainSelector", EvField (DCall "Uint64FromScVal"));
     ("fast_finality", "FastFinality", EvField (DGet "GetB"));
     ("outbound_config", "OutboundConfig", EvField (DStruct "RateLimitConfig"));
     ("inbound_config", "InboundConfig", EvField (DStruct "RateLimitConfig"))]).

Definition burn_mint_pool_WaitForAdvancedPoolHooksUpdatedEvent : EventHelper :=
  mkEventHelper "AdvancedPoolHooksUpdatedEvent" (mkEventParser
    []
    [("old_hooks", "OldHooks", EvField (DCall "OptionalAddressFromScVal"));
     ("new_hooks", "NewHooks", EvField (DCall "OptionalAddressFromScVal"))]).

Definition burn_mint_pool_WaitForInboundRateLimitConsumedEvent : EventHelper :=
  mkEventHelper "InboundRateLimitConsumedEvent" (mkEventParser
    []
    [("remote_chain_selector", "RemoteChainSelector", EvField (DCall "Uint64FromScVal"));
     ("amount", "Amount", EvField (DCall "I128FromScVal"))]).

Definition burn_mint_pool_WaitForOutboundRateLimitConsumedEvent : EventHelper :=
  mkEventHelper "OutboundRateLimitConsumedEvent" (mkEventParser
    []
    [("remote_chain_selector", "RemoteChainSelector", EvField (DCall "Uint64FromScVal"));
     ("amount", "Amount", EvField (DCall "I128FromScVal"))]).

Definition burn_mint_pool_client : ClientFile :=
  mkClientFile "burn_mint_pool" "BurnMintPool" true true
    [burn_mint_pool_Owner; burn_mint_pool_GetFee; burn_mint_pool_Upgrade;
     burn_mint_pool_IsOwner; burn_mint_pool_GetToken; burn_mint_pool_GetRouter;
     burn_mint_pool_InitOwner; burn_mint_pool_Initialize; burn_mint_pool_SetRouter;
     burn_mint_pool_LockOrBurn; burn_mint_pool_GetFeeAdmin; burn_mint_pool_GetRmnProxy;
     burn_mint_pool_RequireOwner; burn_mint_pool_SetFeeAdmin; burn_mint_pool_AddRemotePool;
     burn_mint_pool_ReleaseOrMint; burn_mint_pool_AcceptOwnership;
     burn_mint_pool_GetRemotePools; burn_mint_pool_GetRemoteToken;
     burn_mint_pool_TypeAndVersion; burn_mint_pool_GetPendingOwner;
     burn_mint_pool_GetRampRegistry; burn_mint_pool_GetRequiredCcvs;
     burn_mint_pool_SetRampRegistry; burn_mint_pool_GetTokenDecimals;
     burn_mint_pool_IsSupportedChain; burn_mint_pool_IsSupportedToken;
     burn_mint_pool_RemoveRemotePool; burn_mint_pool_TransferOwnership;
     burn_mint_pool_ApplyChainUpdates; burn_mint_pool_WithdrawFeeTokens;
     burn_mint_pool_GetRateLimitAdmin; burn_mint_pool_SetRateLimitAdmin;
     burn_mint_pool_SetRateLimitConfig; burn_mint_pool_GetAdvancedPoolHooks;
     burn_mint_pool_SetAdvancedPoolHooks; burn_mint_pool_CancelOwnershipTransfer;
     burn_mint_pool_RemoveAdvancedPoolHooks; burn_mint_pool_GetAllowedFinalityConfig;
     burn_mint_pool_SetAllowedFinalityConfig; burn_mint_pool_GetTokenTransferFeeConfig;
     burn_mint_pool_ApplyTokenFeeConfigUpdates; burn_mint_pool_GetCurrentRateLimiterState]
    [burn_mint_pool_WaitForRoleGrantedEvent; burn_mint_pool_WaitForRoleRevokedEvent;
     burn_mint_pool_WaitForAuthorizedCallerAddedEvent;
     burn_mint_pool_WaitForAuthorizedCallerRemovedEvent;
     burn_mint_pool_WaitForOwnershipTransferStartedEvent; burn_mint_pool_WaitForBurnedEvent;
     burn_mint_pool_WaitForLockedEvent; burn_mint_pool_WaitForMintedEvent;
     burn_mint_pool_WaitForReleasedEvent; burn_mint_pool_WaitForChainRemovedEvent;
     burn_mint_pool_WaitForChainConfiguredEvent; burn_mint_pool_WaitForRemotePoolAddedEvent;
     burn_mint_pool_WaitForFinalityConfigSetEvent; burn_mint_pool_WaitForLockBoxConfiguredEvent;
     burn_mint_pool_WaitForRemotePoolRemovedEvent;
     burn_mint_pool_WaitForFtfInboundConsumedEvent;
     burn_mint_pool_WaitForTokenFeeCfgDeletedEvent;
     burn_mint_pool_WaitForTokenFeeCfgUpdatedEvent;
     burn_mint_pool_WaitForFtfOutboundConsumedEvent;
     burn_mint_pool_WaitForRateLimitConfiguredEvent;
     burn_mint_pool_WaitForAdvancedPoolHooksUpdatedEvent;
     burn_mint_pool_WaitForInboundRateLimitConsumedEvent;
     burn_mint_pool_WaitForOutboundRateLimitConsumedEvent].

(** ** bindings/contracts/lock_release_pool *)

Definition lock_release_pool_ChainUpdate : StructDecl :=
  mkStructDecl "ChainUpdate"
    [mkMember "inbound_rate_limiter_config" "InboundRateLimiterConfig" (TNamed "RateLimitConfig") EMethod
      (DStruct "RateLimitConfig");
     mkMember "outbound_rate_limiter_config" "OutboundRateLimiterConfig" (TNamed "RateLimitConfig") EMethod
       (DStruct "RateLimitConfig");
     mkMember "remote_chain_selector" "RemoteChainSelector" TUint64 (ECall "Uint64ToScVal")
       (DCall "Uint64FromScVal");
     mkMember "remote_pool_addresses" "RemotePoolAddresses" (TSlice TBytes) (ECall "BytesSliceToScVal")
       (DVec TBytes (DGet "GetBytes"));
     mkMember "remote_token_address" "RemoteTokenAddress" TBytes (ECall "BytesToScVal") (DGet "GetBytes")].

Definition lock_release_pool_TokenBucket : StructDecl :=
  mkStructDecl "TokenBucket"
    [mkMember "capacity" "Capacity" TU128 EMethod (DCall "U128FromScVal");
     mkMember "is_enabled" "IsEnabled" TBool (ECall "BoolToScVal") (DGet "GetB");
     mkMember "last_updated" "LastUpdated" TUint64 (ECall "Uint64ToScVal") (DCall "Uint64FromScVal");
     mkMember "rate" "Rate" TU128 EMethod (DCall "U128FromScVal");
     mkMember "tokens" "Tokens" TU128 EMethod (DCall "U128FromScVal")].

Definition lock_release_pool_LockOrBurnIn : StructDecl :=
  mkStructDecl "LockOrBurnIn"
    [mkMember "amount" "Amount" TBig (ECall "I128ToScVal") (DCall "I128FromScVal");
     mkMember "local_token" "LocalToken" TString (ECall "AddressToScVal") (DCall "AddressFromScVal");
     mkMember "original_sender" "OriginalSender" TString (ECall "AddressToScVal") (DCall "AddressFromScVal");
     mkMember "receiver" "Receiver" TBytes (ECall "BytesToScVal") (DGet "GetBytes");
     mkMember "remote_chain_selector" "RemoteChainSelector" TUint64 (ECall "Uint64ToScVal")
       (DCall "Uint64FromScVal")].

Definition lock_release_pool_LockOrBurnOut : StructDecl :=
  mkStructDecl "LockOrBurnOut"
    [mkMember "dest_pool_data" "DestPoolData" TBytes (ECall "BytesToScVal") (DGet "GetBytes");
     mkMember "dest_token_address" "DestTokenAddress" TBytes (ECall "BytesToScVal") (DGet "GetBytes");
     mkMember "dest_token_amount" "DestTokenAmount" TBig (ECall "I128ToScVal") (DCall "I128FromScVal")].

Definition lock_release_pool_PoolFeeResult : StructDecl :=
  mkStructDecl "PoolFeeResult"
    [mkMember "dest_bytes_overhead" "DestBytesOverhead" TUint32 (ECall "Uint32ToScVal") (DGet "GetU32");
     mkMember "dest_gas_overhead" "DestGasOverhead" TUint32 (ECall "Uint32ToScVal") (DGet "GetU32");
     mkMember "fee_usd_cents" "FeeUsdCents" TUint32 (ECall "Uint32ToScVal") (DGet "GetU32");
     mkMember "is_enabled" "IsEnabled" TBool (ECall "BoolToScVal") (DGet "GetB");
     mkMember "token_fee_bps" "TokenFeeBps" TUint32 (ECall "Uint32ToScVal") (DGet "GetU32")].

Definition lock_release_pool_RateLimitConfig : StructDecl :=
  mkStructDecl "RateLimitConfig"
    [mkMember "capacity" "Capacity" TU128 EMethod (DCall "U128FromScVal");
     mkMember "is_enabled" "IsEnabled" TBool (ECall "BoolToScVal") (DGet "GetB");
     mkMember "rate" "Rate" TU128 EMethod (DCall "U128FromScVal")].

Definition lock_release_pool_ReleaseOrMintIn : StructDecl :=
  mkStructDecl "ReleaseOrMintIn"
    [mkMember "amount" "Amount" TBig (ECall "I128ToScVal") (DCall "I128FromScVal");
     mkMember "local_token" "LocalToken" TString (ECall "AddressToScVal") (DCall "AddressFromScVal");
     mkMember "original_sender" "OriginalSender" TBytes (ECall "BytesToScVal") (DGet "GetBytes");
     mkMember "receiver" "Receiver" TString (ECall "AddressToScVal") (DCall "AddressFromScVal");
     mkMember "remote_chain_selector" "RemoteChainSelector" TUint64 (ECall "Uint64ToScVal")
       (DCall "Uint64FromScVal");
     mkMember "source_pool_address" "SourcePoolAddress" TBytes (ECall "BytesToScVal") (DGet "GetBytes");
     mkMember "source_pool_data" "SourcePoolData" TBytes (ECall "BytesToScVal") (DGet "GetBytes")].

Definition lock_release_pool_PoolRequiredCCVs : StructDecl :=
  mkStructDecl "PoolRequiredCCVs"
    [mkMember "ccvs" "Ccvs" (TSlice TString) (ECall "AddressSliceToScVal")
      (DVec TString (DCall "AddressFromScVal"));
     mkMember "include_defaults" "IncludeDefaults" TBool (ECall "BoolToScVal") (DGet "GetB")].

Definition lock_release_pool_RateLimiterState : StructDecl :=
  mkStructDecl "RateLimiterState"
    [mkMember "inbound" "Inbound" (TNamed "TokenBucket") EMethod (DStruct "TokenBucket");
     mkMember "outbound" "Outbound" (TNamed "TokenBucket") EMethod (DStruct "TokenBucket")].

Definition lock_release_pool_ReleaseOrMintOut : StructDecl :=
  mkStructDecl "ReleaseOrMintOut"
    [mkMember "destination_amount" "DestinationAmount" TBig (ECall "I128ToScVal") (DCall "I128FromScVal")].

Definition lock_release_pool_TokenTransferFeeConfig : StructDecl :=
  mkStructDecl "TokenTransferFeeConfig"
    [mkMember "dest_bytes_overhead" "DestBytesOverhead" TUint32 (ECall "Uint32ToScVal") (DGet "GetU32");
     mkMember "dest_gas_overhead" "DestGasOverhead" TUint32 (ECall "Uint32ToScVal") (DGet "GetU32");
     mkMember "fast_finality_fee_usd_cents" "FastFinalityFeeUsdCents" TUint32 (ECall "Uint32ToScVal")
       (DGet "GetU32");
     mkMember "fast_finality_transfer_fee_bps" "FastFinalityTransferFeeBps" TUint32 (ECall "Uint32ToScVal")
       (DGet "GetU32");
     mkMember "finality_fee_usd_cents" "FinalityFeeUsdCents" TUint32 (ECall "Uint32ToScVal") (DGet "GetU32");
     mkMember "finality_transfer_fee_bps" "FinalityTransferFeeBps" TUint32 (ECall "Uint32ToScVal")
       (DGet "GetU32");
     mkMember "is_enabled" "IsEnabled" TBool (ECall "BoolToScVal") (DGet "GetB")].

Definition lock_release_pool_TokenTransferFeeConfigArgs : StructDecl :=
  mkStructDecl "TokenTransferFeeConfigArgs"
    [mkMember "config" "Config" (TNamed "TokenTransferFeeConfig") EMethod (DStruct "TokenTransferFeeConfig");
     mkMember "dest_chain_selector" "DestChainSelector" TUint64 (ECall "Uint64ToScVal")
       (DCall "Uint64FromScVal")].

Definition lock_release_pool_CCIPError : ErrorDecl :=
  mkErrorDecl "CCIPError"
    [("CCIPErrorNotInitialized", 1); ("CCIPErrorAlreadyInitialized", 2);
     ("CCIPErrorUnauthorized", 3); ("CCIPErrorNotOwner", 4); ("CCIPErrorNoPendingOwner", 5);
     ("CCIPErrorCallerNotAuthorized", 6); ("CCIPErrorCallerAlreadyAuthorized", 7);
     ("CCIPErrorCallerNotFound", 8); ("CCIPErrorRoleNotGranted", 9);
     ("CCIPErrorFeatureNotEnabled", 10); ("CCIPErrorRoleAlreadyGranted", 11);
     ("CCIPErrorCannotRenounceRole", 12); ("CCIPErrorInvalidVersionTag", 13);
     ("CCIPErrorInvalidSignatureLength", 14); ("CCIPErrorInvalidSignature", 15);
     ("CCIPErrorInvalidSignatureCount", 16); ("CCIPErrorInvalidSignatureThreshold", 17);
     ("CCIPErrorInvalidSignaturePubkey", 18); ("CCIPErrorSourceSignersNotConfigured", 19);
     ("CCIPErrorInvalidVerifierResults", 20); ("CCIPErrorReentrantCall", 21);
     ("CCIPErrorTokenNotSupported", 22); ("CCIPErrorFeeTokenNotSupported", 23);
     ("CCIPErrorNoGasPriceAvailable", 24); ("CCIPErrorDestinationChainNotEnabled", 25);
     ("CCIPErrorInvalidExtraArgsTag", 26); ("CCIPErrorInvalidExtraArgsData", 27);
     ("CCIPErrorMessageGasLimitTooHigh", 28); ("CCIPErrorMessageTooLarge", 29);
     ("CCIPErrorUnsupportedNumberOfTokens", 30); ("CCIPErrorInvalidDestChainConfig", 31);
     ("CCIPErrorMessageFeeTooHigh", 32); ("CCIPErrorInvalidStaticConfig", 33);
     ("CCIPErrorInvalidTokenReceiver", 34); ("CCIPErrorSourceTokenDataTooLarge", 35);
     ("CCIPErrorInvalidDestBytesOverhead", 36); ("CCIPErrorDestinationChainNotSupported", 37);
     ("CCIPErrorMustBeCalledByRouter", 38); ("CCIPErrorRouterMustSetOriginalSender", 39);
     ("CCIPErrorCannotSendZeroTokens", 40); ("CCIPErrorCanOnlySendOneTokenPerMessage", 41);
     ("CCIPErrorUnsupportedToken", 42); ("CCIPErrorInvalidDestChainAddress", 43);
     ("CCIPErrorFeeExceedsMaxAllowed", 44); ("CCIPErrorInsufficientFeeTokenAmount", 45);
     ("CCIPErrorTokenReceiverNotAllowed", 46); ("CCIPErrorCursedByRMN", 47);
     ("CCIPErrorRemoteChainNotSupported", 48); ("CCIPErrorSenderNotAllowed", 49);
     ("CCIPErrorInvalidTokenAmount", 50); ("CCIPErrorInvalidReceiverAddress", 51);
     ("CCIPErrorInvalidConfig", 52); ("CCIPErrorInvalidVerifierResultsLength", 53);
     ("CCIPErrorInboundImplementationNotFound", 54);
     ("CCIPErrorOutboundImplementationNotFound", 55); ("CCIPErrorInvalidAddress", 56);
     ("CCIPErrorInvalidChainSelector", 57); ("CCIPErrorInvalidVersion", 58);
     ("CCIPErrorInvalidCCVVersion", 59); ("CCIPErrorOffRampAlreadyExists", 60);
     ("CCIPErrorOffRampMismatch", 61); ("CCIPErrorBadRMNSignal", 62);
     ("CCIPErrorUnsupportedDestinationChain", 63); ("CCIPErrorAlreadyCursed", 64);
     ("CCIPErrorConfigNotSet", 65); ("CCIPErrorDuplicateOnchainPublicKey", 66);
     ("CCIPErrorInvalidSignerOrder", 67); ("CCIPErrorNotEnoughSigners", 68);
     ("CCIPErrorNotCursed", 69); ("CCIPErrorOutOfOrderSignatures", 70);
     ("CCIPErrorThresholdNotMet", 71); ("CCIPErrorUnexpectedSigner", 72);
     ("CCIPErrorZeroValueNotAllowed", 73); ("CCIPErrorSourceChainNotEnabled", 100);
     ("CCIPErrorInvalidSourceChainConfig", 101); ("CCIPErrorInvalidOnRampAddress", 102);
     ("CCIPErrorInvalidOffRampAddress", 103); ("CCIPErrorInvalidMessageDestination", 104);
     ("CCIPErrorMessageAlreadyExecuted", 105); ("CCIPErrorInvalidExecutionState", 106);
     ("CCIPErrorCCVLengthMismatch", 107); ("CCIPErrorCCVQuorumNotMet", 108);
     ("CCIPErrorReceiverError", 109); ("CCIPErrorGasLimitOverrideTooLow", 110);
     ("CCIPErrorInvalidReceiverLength", 111); ("CCIPErrorTokenHandlingError", 112);
     ("CCIPErrorMessageDecodingError", 113); ("CCIPErrorReceiverDoesNotExist", 114);
     ("CCIPErrorReceiverNotWasmContract", 115); ("CCIPErrorRequiredCCVMissing", 116);
     ("CCIPErrorInvalidOptionalThreshold", 117); ("CCIPErrorOptionalCCVQuorumNotReached", 118);
     ("CCIPErrorNoStateProgressMade", 119); ("CCIPErrorOnlyRegistryModuleOrOwner", 201);
     ("CCIPErrorOnlyAdministrator", 202); ("CCIPErrorOnlyPendingAdministrator", 203);
     ("CCIPErrorTokenAlreadyRegistered", 204); ("CCIPErrorInvalidTokenPoolToken", 205);
     ("CCIPErrorPoolTokenMismatch", 301); ("CCIPErrorChainNotSupported", 302);
     ("CCIPErrorCallerIsNotRamp", 303); ("CCIPErrorInsufficientPoolLiquidity", 304);
     ("CCIPErrorInvalidRemotePoolAddress", 305); ("CCIPErrorInvalidRemoteChainConfig", 306);
     ("CCIPErrorInvalidRemoteChainDecimals", 307); ("CCIPErrorDecimalAmountOverflow", 308);
     ("CCIPErrorInvalidPoolTokenDecimals", 309); ("CCIPErrorBucketOverfilled", 310);
     ("CCIPErrorTokenMaxCapacityExceeded", 311); ("CCIPErrorTokenRateLimitReached", 312);
     ("CCIPErrorInvalidRateLimitRate", 313); ("CCIPErrorDisabledNonZeroRateLimit", 314);
     ("CCIPErrorInvalidRequestedFinality", 315);
     ("CCIPErrorRequestedFinalityCanOnlyHaveOneMode", 316);
     ("CCIPErrorInvalidChainForClient", 317); ("CCIPErrorRouterNotConfigured", 318);
     ("CCIPErrorInvalidSourcePoolAddress", 319); ("CCIPErrorDuplicateCCVNotAllowed", 320);
     ("CCIPErrorInvalidTokenTransferFeeConfig", 321); ("CCIPErrorInvalidTransferFeeBps", 322);
     ("CCIPErrorInvalidAllowListRequest", 323); ("CCIPErrorInvalidFeeCalculation", 801);
     ("CCIPErrorInvalidFeeTokenConversion", 802); ("CCIPErrorZeroFeeAggregatorNotAllowed", 803);
     ("CCIPErrorExceedsMaxCCVs", 804); ("CCIPErrorCCVNotAllowed", 805);
     ("CCIPErrorPolicyEngineDetachReverted", 806); ("CCIPErrorUnsupportedSelector", 807);
     ("CCIPErrorZeroAddressNotAllowed", 808)]
    [(1, "not initialized"); (2, "already initialized"); (3, "unauthorized"); (4, "not owner");
     (5, "no pending owner"); (6, "caller not authorized"); (7, "caller already authorized");
     (8, "caller not found"); (9, "role not granted"); (10, "feature not enabled");
     (11, "role already granted"); (12, "cannot renounce role"); (13, "invalid version tag");
     (14, "invalid signature length"); (15, "invalid signature");
     (16, "invalid signature count"); (17, "invalid signature threshold");
     (18, "invalid signature pubkey"); (19, "source signers not configured");
     (20, "invalid verifier results"); (21, "reentrant call"); (22, "token not supported");
     (23, "fee token not supported"); (24, "no gas price available");
     (25, "destination chain not enabled"); (26, "invalid extra args tag");
     (27, "invalid extra args data"); (28, "message gas limit too high");
     (29, "message too large"); (30, "unsupported number of tokens");
     (31, "invalid dest chain config"); (32, "message fee too high");
     (33, "invalid static config"); (34, "invalid token receiver");
     (35, "source token data too large"); (36, "invalid dest bytes overhead");
     (37, "destination chain not supported"); (38, "must be called by router");
     (39, "router must set original sender"); (40, "cannot send zero tokens");
     (41, "can only send one token per message"); (42, "unsupported token");
     (43, "invalid dest chain address"); (44, "fee exceeds max allowed");
     (45, "insufficient fee token amount"); (46, "token receiver not allowed");
     (47, "cursed by r m n"); (48, "remote chain not supported"); (49, "sender not allowed");
     (50, "invalid token amount"); (51, "invalid receiver address"); (52, "invalid config");
     (53, "invalid verifier results length"); (54, "inbound implementation not found");
     (55, "outbound implementation not found"); (56, "invalid address");
     (57, "invalid chain selector"); (58, "invalid version"); (59, "invalid c c v version");
     (60, "off ramp already exists"); (61, "off ramp mismatch"); (62, "bad r m n signal");
     (63, "unsupported destination chain"); (64, "already cursed"); (65, "config not set");
     (66, "duplicate onchain public key"); (67, "invalid signer order");
     (68, "not enough signers"); (69, "not cursed"); (70, "out of order signatures");
     (71, "threshold not met"); (72, "unexpected signer"); (73, "zero value not allowed");
     (100, "source chain not enabled"); (101, "invalid source chain config");
     (102, "invalid on ramp address"); (103, "invalid off ramp address");
     (104, "invalid message destination"); (105, "message already executed");
     (106, "invalid execution state"); (107, "c c v length mismatch");
     (108, "c c v quorum not met"); (109, "receiver error");
     (110, "gas limit override too low"); (111, "invalid receiver length");
     (112, "token handling error"); (113, "message decoding error");
     (114, "receiver does not exist"); (115, "receiver not wasm contract");
     (116, "required c c v missing"); (117, "invalid optional threshold");
     (118, "optional c c v quorum not reached"); (119, "no state progress made");
     (201, "only registry module or owner"); (202, "only administrator");
     (203, "only pending administrator"); (204, "token already registered");
     (205, "invalid token pool token"); (301, "pool token mismatch");
     (302, "chain not supported"); (303, "caller is not ramp");
     (304, "insufficient pool liquidity"); (305, "invalid remote pool address");
     (306, "invalid remote chain config"); (307, "invalid remote chain decimals");
     (308, "decimal amount overflow"); (309, "invalid pool token decimals");
     (310, "bucket overfilled"); (311, "token max capacity exceeded");
     (312, "token rate limit reached"); (313, "invalid rate limit rate");
     (314, "disabled non zero rate limit"); (315, "invalid requested finality");
     (316, "requested finality can only have one mode"); (317, "invalid chain for client");
     (318, "router not configured"); (319, "invalid source pool address");
     (320, "duplicate c c v not allowed"); (321, "invalid token transfer fee config");
     (322, "invalid transfer fee bps"); (323, "invalid allow list request");
     (801, "invalid fee calculation"); (802, "invalid fee token conversion");
     (803, "zero fee aggregator not allowed"); (804, "exceeds max c c vs");
     (805, "c c v not allowed"); (806, "policy engine detach reverted");
     (807, "unsupported selector"); (808, "zero address not allowed")].

Definition lock_release_pool_RoleGrantedEvent : EventDecl :=
  mkEventDecl "RoleGrantedEvent"
    [("Role", TString); ("Account", TString); ("Sender", TString); ("Ledger", TUint32);
     ("TxHash", TString)]
    (Some "auth_RoleGranted").

Definition lock_release_pool_RoleRevokedEvent : EventDecl :=
  mkEventDecl "RoleRevokedEvent"
    [("Role", TString); ("Account", TString); ("Sender", TString); ("Ledger", TUint32);
     ("TxHash", TString)]
    (Some "auth_RoleRevoked").

Definition lock_release_pool_AuthorizedCallerAddedEvent : EventDecl :=
  mkEventDecl "AuthorizedCallerAddedEvent"
    [("Caller", TString); ("Ledger", TUint32); ("TxHash", TString)]
    (Some "auth_CallerAdded").

Definition lock_release_pool_AuthorizedCallerRemovedEvent : EventDecl :=
  mkEventDecl "AuthorizedCallerRemovedEvent"
    [("Caller", TString); ("Ledger", TUint32); ("TxHash", TString)]
    (Some "auth_CallerRemoved").

Definition lock_release_pool_OwnershipTransferStartedEvent : EventDecl :=
  mkEventDecl "OwnershipTransferStartedEvent"
    [("PreviousOwner", TString); ("NewOwner", TString); ("Ledger", TUint32);
     ("TxHash", TString)]
    (Some "auth_OwnerTransferStart").

Definition lock_release_pool_BurnedEvent : EventDecl :=
  mkEventDecl "BurnedEvent"
    [("Sender", TString); ("Amount", TBig); ("Ledger", TUint32); ("TxHash", TString)]
    (Some "pool_Burned").

Definition lock_release_pool_LockedEvent : EventDecl :=
  mkEventDecl "LockedEvent"
    [("Sender", TString); ("Amount", TBig); ("Ledger", TUint32); ("TxHash", TString)]
    (Some "pool_Locked").

Definition lock_release_pool_MintedEvent : EventDecl :=
  mkEventDecl "MintedEvent"
    [("Sender", TString); ("Recipient", TString); ("Amount", TBig); ("Ledger", TUint32);
     ("TxHash", TString)]
    (Some "pool_Minted").

Definition lock_release_pool_ReleasedEvent : EventDecl :=
  mkEventDecl "ReleasedEvent"
    [("Sender", TString); ("Recipient", TString); ("Amount", TBig); ("Ledger", TUint32);
     ("TxHash", TString)]
    (Some "pool_Released").

Definition lock_release_pool_ChainRemovedEvent : EventDecl :=
  mkEventDecl "ChainRemovedEvent"
    [("RemoteChainSelector", TUint64); ("Ledger", TUint32); ("TxHash", TString)]
    (Some "pool_ChainRemoved").

Definition lock_release_pool_ChainConfiguredEvent : EventDecl :=
  mkEventDecl "ChainConfiguredEvent"
    [("RemoteChainSelector", TUint64); ("RemotePoolAddresses", TSlice TBytes);
     ("RemoteTokenAddress", TBytes); ("OutboundRateLimiterConfig", TNamed "RateLimitConfig");
     ("InboundRateLimiterConfig", TNamed "RateLimitConfig"); ("Ledger", TUint32);
     ("TxHash", TString)]
    (Some "pool_ChainConfigured").

Definition lock_release_pool_RemotePoolAddedEvent : EventDecl :=
  mkEventDecl "RemotePoolAddedEvent"
    [("RemoteChainSelector", TUint64); ("RemotePoolAddress", TBytes); ("Ledger", TUint32);
     ("TxHash", TString)]
    (Some "pool_RemotePoolAdded").

Definition lock_release_pool_FinalityConfigSetEvent : EventDecl :=
  mkEventDecl "FinalityConfigSetEvent"
    [("AllowedFinality", TUint32); ("Ledger", TUint32); ("TxHash", TString)]
    (Some "pool_FinalityConfigSet").

Definition lock_release_pool_LockBoxConfiguredEvent : EventDecl :=
  mkEventDecl "LockBoxConfiguredEvent"
    [("RemoteChainSelector", TUint64); ("LockBox", TString); ("Ledger", TUint32);
     ("TxHash", TString)]
    (Some "pool_LockBoxConfigured").

Definition lock_release_pool_RemotePoolRemovedEvent : EventDecl :=
  mkEventDecl "RemotePoolRemovedEvent"
    [("RemoteChainSelector", TUint64); ("RemotePoolAddress", TBytes); ("Ledger", TUint32);
     ("TxHash", TString)]
    (Some "pool_RemotePoolRemoved").

Definition lock_release_pool_FtfInboundConsumedEvent : EventDecl :=
  mkEventDecl "FtfInboundConsumedEvent"
    [("RemoteChainSelector", TUint64); ("Amount", TBig); ("Ledger", TUint32);
     ("TxHash", TString)]
    (Some "pool_FtfInboundConsumed").

Definition lock_release_pool_TokenFeeCfgDeletedEvent : EventDecl :=
  mkEventDecl "TokenFeeCfgDeletedEvent"
    [("RemoteChainSelector", TUint64); ("Ledger", TUint32); ("TxHash", TString)]
    (Some "pool_TokenFeeCfgDeleted").

Definition lock_release_pool_TokenFeeCfgUpdatedEvent : EventDecl :=
  mkEventDecl "TokenFeeCfgUpdatedEvent"
    [("RemoteChainSelector", TUint64); ("Config", TNamed "TokenTransferFeeConfig");
     ("Ledger", TUint32); ("TxHash", TString)]
    (Some "pool_TokenFeeCfgUpdated").

Definition lock_release_pool_FtfOutboundConsumedEvent : EventDecl :=
  mkEventDecl "FtfOutboundConsumedEvent"
    [("RemoteChainSelector", TUint64); ("Amount", TBig); ("Ledger", TUint32);
     ("TxHash", TString)]
    (Some "pool_FtfOutboundConsumed").

Definition lock_release_pool_RateLimitConfiguredEvent : EventDecl :=
  mkEventDecl "RateLimitConfiguredEvent"
    [("RemoteChainSelector", TUint64); ("FastFinality", TBool);
     ("OutboundConfig", TNamed "RateLimitConfig"); ("InboundConfig", TNamed "RateLimitConfig");
     ("Ledger", TUint32); ("TxHash", TString)]
    (Some "pool_RateLimitConfigured").

Definition lock_release_pool_AdvancedPoolHooksUpdatedEvent : EventDecl :=
  mkEventDecl "AdvancedPoolHooksUpdatedEvent"
    [("OldHooks", TPtr TString); ("NewHooks", TPtr TString); ("Ledger", TUint32);
     ("TxHash", TString)]
    (Some "pool_HooksUpdated").

Definition lock_release_pool_InboundRateLimitConsumedEvent : EventDecl :=
  mkEventDecl "InboundRateLimitConsumedEvent"
    [("RemoteChainSelector", TUint64); ("Amount", TBig); ("Ledger", TUint32);
     ("TxHash", TString)]
    (Some "pool_InboundRateLimitConsumed").

Definition lock_release_pool_OutboundRateLimitConsumedEvent : EventDecl :=
  mkEventDecl "OutboundRateLimitConsumedEvent"
    [("RemoteChainSelector", TUint64); ("Amount", TBig); ("Ledger", TUint32);
     ("TxHash", TString)]
    (Some "pool_OutboundRateLimitConsumed").

Definition lock_release_pool_MessageDirection : EnumDecl :=
  UnionEnum "MessageDirection"
    [mkVariantDecl "Outbound" [];
     mkVariantDecl "Inbound" []].

Definition lock_release_pool_types : TypesFile :=
  mkTypesFile "lock_release_pool" (mkImports true true true true)
    [lock_release_pool_ChainUpdate; lock_release_pool_TokenBucket;
     lock_release_pool_LockOrBurnIn; lock_release_pool_LockOrBurnOut;
     lock_release_pool_PoolFeeResult; lock_release_pool_RateLimitConfig;
     lock_release_pool_ReleaseOrMintIn; lock_release_pool_PoolRequiredCCVs;
     lock_release_pool_RateLimiterState; lock_release_pool_ReleaseOrMintOut;
     lock_release_pool_TokenTransferFeeConfig; lock_release_pool_TokenTransferFeeConfigArgs]
    [lock_release_pool_CCIPError]
    [lock_release_pool_RoleGrantedEvent; lock_release_pool_RoleRevokedEvent;
     lock_release_pool_AuthorizedCallerAddedEvent;
     lock_release_pool_AuthorizedCallerRemovedEvent;
     lock_release_pool_OwnershipTransferStartedEvent; lock_release_pool_BurnedEvent;
     lock_release_pool_LockedEvent; lock_release_pool_MintedEvent;
     lock_release_pool_ReleasedEvent; lock_release_pool_ChainRemovedEvent;
     lock_release_pool_ChainConfiguredEvent; lock_release_pool_RemotePoolAddedEvent;
     lock_release_pool_FinalityConfigSetEvent; lock_release_pool_LockBoxConfiguredEvent;
     lock_release_pool_RemotePoolRemovedEvent; lock_release_pool_FtfInboundConsumedEvent;
     lock_release_pool_TokenFeeCfgDeletedEvent; lock_release_pool_TokenFeeCfgUpdatedEvent;
     lock_release_pool_FtfOutboundConsumedEvent; lock_release_pool_RateLimitConfiguredEvent;
     lock_release_pool_AdvancedPoolHooksUpdatedEvent;
     lock_release_pool_InboundRateLimitConsumedEvent;
     lock_release_pool_OutboundRateLimitConsumedEvent]
    [lock_release_pool_MessageDirection].

Definition lock_release_pool_Owner : Method :=
  mkMethod "Owner" [] [TPtr TString] "nil"
    true "owner" [] (RVal (DCall "OptionalAddressFromScVal")).

Definition lock_release_pool_GetFee : Method :=
  mkMethod "GetFee" [("destChainSelector", TUint64); ("amount", TBig); ("requestedFinality", TUint32);
     ("tokenArgs", TBytes)] [TPtr (TNamed "PoolFeeResult")] "nil"
    true "get_fee" [ECall "Uint64ToScVal"; ECall "I128ToScVal"; ECall "Uint32ToScVal"; ECall "BytesToScVal"]
      (RVal (DStruct "PoolFeeResult")).

Definition lock_release_pool_Upgrade : Method :=
  mkMethod "Upgrade" [("newWasmHash", TArray "32")] [] ""
    false "upgrade" [ECall "Bytes32ToScVal"] RVoid.

Definition lock_release_pool_IsOwner : Method :=
  mkMethod "IsOwner" [("addr", TString)] [TBool] "false"
    true "is_owner" [ECall "AddressToScVal"] (RVal (DGet "GetB")).

Definition lock_release_pool_GetToken : Method :=
  mkMethod "GetToken" [] [TString] empty_literal
    true "get_token" [] (RVal (DCall "AddressFromScVal")).

Definition lock_release_pool_GetRouter : Method :=
  mkMethod "GetRouter" [] [TPtr TString] "nil"
    true "get_router" [] (RVal (DCall "OptionalAddressFromScVal")).

Definition lock_release_pool_InitOwner : Method :=
  mkMethod "InitOwner" [("owner", TString)] [] ""
    false "init_owner" [ECall "AddressToScVal"] RVoid.

Definition lock_release_pool_Initialize : Method :=
  mkMethod "Initialize" [("owner", TString); ("token", TString); ("tokenDecimals", TUint32);
    ("router", TString);
     ("rampRegistry", TString); ("rmnProxy", TString); ("lockBox", TString)] [] ""
    false "initialize" [ECall "AddressToScVal"; ECall "AddressToScVal"; ECall "Uint32ToScVal"; ECall
      "AddressToScVal"; ECall "AddressToScVal"; ECall "AddressToScVal"; ECall "AddressToScVal"] RVoid.

Definition lock_release_pool_SetRouter : Method :=
  mkMethod "SetRouter" [("router", TString)] [] ""
    false "set_router" [ECall "AddressToScVal"] RVoid.

Definition lock_release_pool_GetLockBox : Method :=
  mkMethod "GetLockBox" [] [TString] empty_literal
    true "get_lock_box" [] (RVal (DCall "AddressFromScVal")).

Definition lock_release_pool_LockOrBurn : Method :=
  mkMethod "LockOrBurn" [("caller", TString); ("input", TNamed "LockOrBurnIn"); ("requestedFinality", TUint32);
     ("tokenArgs", TBytes)] [TPtr (TNamed "LockOrBurnOut")] "nil"
    false "lock_or_burn" [ECall "AddressToScVal"; EMethodOf; ECall "Uint32ToScVal"; ECall "BytesToScVal"]
      (RVal (DStruct "LockOrBurnOut")).

Definition lock_release_pool_GetFeeAdmin : Method :=
  mkMethod "GetFeeAdmin" [] [TPtr TString] "nil"
    true "get_fee_admin" [] (RVal (DCall "OptionalAddressFromScVal")).

Definition lock_release_pool_GetRmnProxy : Method :=
  mkMethod "GetRmnProxy" [] [TPtr TString] "nil"
    true "get_rmn_proxy" [] (RVal (DCall "OptionalAddressFromScVal")).

Definition lock_release_pool_RequireOwner : Method :=
  mkMethod "RequireOwner" [] [TString] empty_literal
    false "require_owner" [] (RVal (DCall "AddressFromScVal")).

Definition lock_release_pool_SetFeeAdmin : Method :=
  mkMethod "SetFeeAdmin" [("feeAdmin", TString)] [] ""
    false "set_fee_admin" [ECall "AddressToScVal"] RVoid.

Definition lock_release_pool_AddRemotePool : Method :=
  mkMethod "AddRemotePool" [("remoteChainSelector", TUint64); ("remotePoolAddress", TBytes)] [] ""
    false "add_remote_pool" [ECall "Uint64ToScVal"; ECall "BytesToScVal"] RVoid.

Definition lock_release_pool_ReleaseOrMint : Method :=
  mkMethod "ReleaseOrMint" [("caller", TString); ("input", TNamed "ReleaseOrMintIn");
    ("requestedFinality", TUint32)] [TPtr (TNamed "ReleaseOrMintOut")] "nil"
    false "release_or_mint" [ECall "AddressToScVal"; EMethodOf; ECall "Uint32ToScVal"]
      (RVal (DStruct "ReleaseOrMintOut")).

Definition lock_release_pool_AcceptOwnership : Method :=
  mkMethod "AcceptOwnership" [] [] ""
    false "accept_ownership" [] RVoid.

Definition lock_release_pool_GetRemotePools : Method :=
  mkMethod "GetRemotePools" [("remoteChainSelector", TUint64)] [TSlice TBytes] "nil"
    true "get_remote_pools" [ECall "Uint64ToScVal"] (RVal (DVec TBytes (DGet "GetBytes"))).

Definition lock_release_pool_GetRemoteToken : Method :=
  mkMethod "GetRemoteToken" [("remoteChainSelector", TUint64)] [TBytes] "nil"
    true "get_remote_token" [ECall "Uint64ToScVal"] (RVal (DGet "GetBytes")).

Definition lock_release_pool_TypeAndVersion : Method :=
  mkMethod "TypeAndVersion" [] [TString] empty_literal
    false "type_and_version" [] (RVal (DCall "StringFromScVal")).

Definition lock_release_pool_GetPendingOwner : Method :=
  mkMethod "GetPendingOwner" [] [TPtr TString] "nil"
    true "get_pending_owner" [] (RVal (DCall "OptionalAddressFromScVal")).

Definition lock_release_pool_GetRampRegistry : Method :=
  mkMethod "GetRampRegistry" [] [TPtr TString] "nil"
    true "get_ramp_registry" [] (RVal (DCall "OptionalAddressFromScVal")).

Definition lock_release_pool_GetRequiredCcvs : Method :=
  mkMethod "GetRequiredCcvs" [("localToken", TString); ("remoteChainSelector", TUint64); ("amount", TBig);
     ("requestedFinality", TUint32); ("extraData", TBytes);
     ("direction", TNamed "MessageDirection")] [TPtr (TNamed "PoolRequiredCCVs")] "nil"
    true "get_required_ccvs" [ECall "AddressToScVal"; ECall "Uint64ToScVal"; ECall "I128ToScVal"; ECall
      "Uint32ToScVal"; ECall "BytesToScVal"; EMethodOf] (RVal (DStruct "PoolRequiredCCVs")).

Definition lock_release_pool_SetRampRegistry : Method :=
  mkMethod "SetRampRegistry" [("rampRegistry", TString)] [] ""
    false "set_ramp_registry" [ECall "AddressToScVal"] RVoid.

Definition lock_release_pool_GetTokenDecimals : Method :=
  mkMethod "GetTokenDecimals" [] [TUint32] "0"
    true "get_token_decimals" [] (RVal (DGet "GetU32")).

Definition lock_release_pool_IsSupportedChain : Method :=
  mkMethod "IsSupportedChain" [("remoteChainSelector", TUint64)] [TBool] "false"
    true "is_supported_chain" [ECall "Uint64ToScVal"] (RVal (DGet "GetB")).

Definition lock_release_pool_IsSupportedToken : Method :=
  mkMethod "IsSupportedToken" [("token", TString)] [TBool] "false"
    true "is_supported_token" [ECall "AddressToScVal"] (RVal (DGet "GetB")).

Definition lock_release_pool_RemoveRemotePool : Method :=
  mkMethod "RemoveRemotePool" [("remoteChainSelector", TUint64); ("remotePoolAddress", TBytes)] [] ""
    false "remove_remote_pool" [ECall "Uint64ToScVal"; ECall "BytesToScVal"] RVoid.

Definition lock_release_pool_TransferOwnership : Method :=
  mkMethod "TransferOwnership" [("newOwner", TString)] [] ""
    false "transfer_ownership" [ECall "AddressToScVal"] RVoid.

Definition lock_release_pool_ApplyChainUpdates : Method :=
  mkMethod "ApplyChainUpdates" [("adds", TSlice (TNamed "ChainUpdate")); ("removes", TSlice TUint64)] [] ""
    false "apply_chain_updates" [ECall "StructSliceToScVal"; ECall "Uint64SliceToScVal"] RVoid.

Definition lock_release_pool_WithdrawFeeTokens : Method :=
  mkMethod "WithdrawFeeTokens" [("caller", TString); ("feeTokens", TSlice TString); ("recipient", TString)] []
    ""
    false "withdraw_fee_tokens" [ECall "AddressToScVal"; ECall "AddressSliceToScVal"; ECall "AddressToScVal"]
      RVoid.

Definition lock_release_pool_GetRateLimitAdmin : Method :=
  mkMethod "GetRateLimitAdmin" [] [TPtr TString] "nil"
    true "get_rate_limit_admin" [] (RVal (DCall "OptionalAddressFromScVal")).

Definition lock_release_pool_SetRateLimitAdmin : Method :=
  mkMethod "SetRateLimitAdmin" [("admin", TString)] [] ""
    false "set_rate_limit_admin" [ECall "AddressToScVal"] RVoid.

Definition lock_release_pool_SetRateLimitConfig : Method :=
  mkMethod "SetRateLimitConfig" [("caller", TString); ("remoteChainSelector", TUint64);
     ("outboundConfig", TNamed "RateLimitConfig"); ("inboundConfig", TNamed "RateLimitConfig");
     ("fastFinality", TBool)] [] ""
    false "set_rate_limit_config" [ECall "AddressToScVal"; ECall "Uint64ToScVal"; EMethodOf; EMethodOf; ECall
      "BoolToScVal"] RVoid.

Definition lock_release_pool_GetAdvancedPoolHooks : Method :=
  mkMethod "GetAdvancedPoolHooks" [] [TPtr TString] "nil"
    true "get_advanced_pool_hooks" [] (RVal (DCall "OptionalAddressFromScVal")).

Definition lock_release_pool_SetAdvancedPoolHooks : Method :=
  mkMethod "SetAdvancedPoolHooks" [("hooks", TString)] [] ""
    false "set_advanced_pool_hooks" [ECall "AddressToScVal"] RVoid.

Definition lock_release_pool_CancelOwnershipTransfer : Method :=
  mkMethod "CancelOwnershipTransfer" [] [] ""
    false "cancel_ownership_transfer" [] RVoid.

Definition lock_release_pool_RemoveAdvancedPoolHooks : Method :=
  mkMethod "RemoveAdvancedPoolHooks" [] [] ""
    false "remove_advanced_pool_hooks" [] RVoid.

Definition lock_release_pool_GetAllowedFinalityConfig : Method :=
  mkMethod "GetAllowedFinalityConfig" [] [TUint32] "0"
    true "get_allowed_finality_config" [] (RVal (DGet "GetU32")).

Definition lock_release_pool_SetAllowedFinalityConfig : Method :=
  mkMethod "SetAllowedFinalityConfig" [("allowedFinality", TUint32)] [] ""
    false "set_allowed_finality_config" [ECall "Uint32ToScVal"] RVoid.

Definition lock_release_pool_GetTokenTransferFeeConfig : Method :=
  mkMethod "GetTokenTransferFeeConfig" [("destChainSelector", TUint64)]
    [TPtr (TNamed "TokenTransferFeeConfig")] "nil"
    true "get_token_transfer_fee_config" [ECall "Uint64ToScVal"] (RVal (DStruct "TokenTransferFeeConfig")).

Definition lock_release_pool_ApplyTokenFeeConfigUpdates : Method :=
  mkMethod "ApplyTokenFeeConfigUpdates"
    [("adds", TSlice (TNamed "TokenTransferFeeConfigArgs")); ("disables", TSlice TUint64)] [] ""
    false "apply_token_fee_config_updates" [ECall "StructSliceToScVal"; ECall "Uint64SliceToScVal"] RVoid.

Definition lock_release_pool_GetCurrentRateLimiterState : Method :=
  mkMethod "GetCurrentRateLimiterState" [("remoteChainSelector", TUint64); ("fastFinality", TBool)]
    [TPtr (TNamed "RateLimiterState")] "nil"
    true "get_current_rate_limiter_state" [ECall "Uint64ToScVal"; ECall "BoolToScVal"]
      (RVal (DStruct "RateLimiterState")).

Definition lock_release_pool_WaitForRoleGrantedEvent : EventHelper :=
  mkEventHelper "RoleGrantedEvent" (mkEventParser
    []
    [("role", "Role", EvField (DCall "SymbolFromScVal"));
     ("account", "Account", EvField (DCall "AddressFromScVal"));
     ("sender", "Sender", EvField (DCall "AddressFromScVal"))]).

Definition lock_release_pool_WaitForRoleRevokedEvent : EventHelper :=
  mkEventHelper "RoleRevokedEvent" (mkEventParser
    []
    [("role", "Role", EvField (DCall "SymbolFromScVal"));
     ("account", "Account", EvField (DCall "AddressFromScVal"));
     ("sender", "Sender", EvField (DCall "AddressFromScVal"))]).

Definition lock_release_pool_WaitForAuthorizedCallerAddedEvent : EventHelper :=
  mkEventHelper "AuthorizedCallerAddedEvent" (mkEventParser
    []
    [("caller", "Caller", EvField (DCall "AddressFromScVal"))]).

Definition lock_release_pool_WaitForAuthorizedCallerRemovedEvent : EventHelper :=
  mkEventHelper "AuthorizedCallerRemovedEvent" (mkEventParser
    []
    [("caller", "Caller", EvField (DCall "AddressFromScVal"))]).

Definition lock_release_pool_WaitForOwnershipTransferStartedEvent : EventHelper :=
  mkEventHelper "OwnershipTransferStartedEvent" (mkEventParser
    []
    [("previous_owner", "PreviousOwner", EvField (DCall "AddressFromScVal"));
     ("new_owner", "NewOwner", EvField (DCall "AddressFromScVal"))]).

Definition lock_release_pool_WaitForBurnedEvent : EventHelper :=
  mkEventHelper "BurnedEvent" (mkEventParser
    []
    [("sender", "Sender", EvField (DCall "AddressFromScVal"));
     ("amount", "Amount", EvField (DCall "I128FromScVal"))]).

Definition lock_release_pool_WaitForLockedEvent : EventHelper :=
  mkEventHelper "LockedEvent" (mkEventParser
    []
    [("sender", "Sender", EvField (DCall "AddressFromScVal"));
     ("amount", "Amount", EvField (DCall "I128FromScVal"))]).

Definition lock_release_pool_WaitForMintedEvent : EventHelper :=
  mkEventHelper "MintedEvent" (mkEventParser
    []
    [("sender", "Sender", EvField (DCall "AddressFromScVal"));
     ("recipient", "Recipient", EvField (DCall "AddressFromScVal"));
     ("amount", "Amount", EvField (DCall "I128FromScVal"))]).

Definition lock_release_pool_WaitForReleasedEvent : EventHelper :=
  mkEventHelper "ReleasedEvent" (mkEventParser
    []
    [("sender", "Sender", EvField (DCall "AddressFromScVal"));
     ("recipient", "Recipient", EvField (DCall "AddressFromScVal"));
     ("amount", "Amount", EvField (DCall "I128FromScVal"))]).

Definition lock_release_pool_WaitForChainRemovedEvent : EventHelper :=
  mkEventHelper "ChainRemovedEvent" (mkEventParser
    []
    [("remote_chain_selector", "RemoteChainSelector", EvField (DCall "Uint64FromScVal"))]).

Definition lock_release_pool_WaitForChainConfiguredEvent : EventHelper :=
  mkEventHelper "ChainConfiguredEvent" (mkEventParser
    []
    [("remote_chain_selector", "RemoteChainSelector", EvField (DCall "Uint64FromScVal"));
     ("remote_pool_addresses", "RemotePoolAddresses", EvVec TBytes (DGet "GetBytes") false);
     ("remote_token_address", "RemoteTokenAddress", EvField (DGet "GetBytes"));
     ("outbound_rate_limiter_config", "OutboundRateLimiterConfig", EvField (DStruct "RateLimitConfig"));
     ("inbound_rate_limiter_config", "InboundRateLimiterConfig", EvField (DStruct "RateLimitConfig"))]).

Definition lock_release_pool_WaitForRemotePoolAddedEvent : EventHelper :=
  mkEventHelper "RemotePoolAddedEvent" (mkEventParser
    []
    [("remote_chain_selector", "RemoteChainSelector", EvField (DCall "Uint64FromScVal"));
     ("remote_pool_address", "RemotePoolAddress", EvField (DGet "GetBytes"))]).

Definition lock_release_pool_WaitForFinalityConfigSetEvent : EventHelper :=
  mkEventHelper "FinalityConfigSetEvent" (mkEventParser
    []
    [("allowed_finality", "AllowedFinality", EvField (DGet "GetU32"))]).

Definition lock_release_pool_WaitForLockBoxConfiguredEvent : EventHelper :=
  mkEventHelper "LockBoxConfiguredEvent" (mkEventParser
    []
    [("remote_chain_selector", "RemoteChainSelector", EvField (DCall "Uint64FromScVal"));
     ("lock_box", "LockBox", EvField (DCall "AddressFromScVal"))]).

Definition lock_release_pool_WaitForRemotePoolRemovedEvent : EventHelper :=
  mkEventHelper "RemotePoolRemovedEvent" (mkEventParser
    []
    [("remote_chain_selector", "RemoteChainSelector", EvField (DCall "Uint64FromScVal"));
     ("remote_pool_address", "RemotePoolAddress", EvField (DGet "GetBytes"))]).

Definition lock_release_pool_WaitForFtfInboundConsumedEvent : EventHelper :=
  mkEventHelper "FtfInboundConsumedEvent" (mkEventParser
    []
    [("remote_chain_selector", "RemoteChainSelector", EvField (DCall "Uint64FromScVal"));
     ("amount", "Amount", EvField (DCall "I128FromScVal"))]).

Definition lock_release_pool_WaitForTokenFeeCfgDeletedEvent : EventHelper :=
  mkEventHelper "TokenFeeCfgDeletedEvent" (mkEventParser
    []
    [("remote_chain_selector", "RemoteChainSelector", EvField (DCall "Uint64FromScVal"))]).

Definition lock_release_pool_WaitForTokenFeeCfgUpdatedEvent : EventHelper :=
  mkEventHelper "TokenFeeCfgUpdatedEvent" (mkEventParser
    []
    [("remote_chain_selector", "RemoteChainSelector", EvField (DCall "Uint64FromScVal"));
     ("config", "Config", EvField (DStruct "TokenTransferFeeConfig"))]).

Definition lock_release_pool_WaitForFtfOutboundConsumedEvent : EventHelper :=
  mkEventHelper "FtfOutboundConsumedEvent" (mkEventParser
    []
    [("remote_chain_selector", "RemoteChainSelector", EvField (DCall "Uint64FromScVal"));
     ("amount", "Amount", EvField (DCall "I128FromScVal"))]).

Definition lock_release_pool_WaitForRateLimitConfiguredEvent : EventHelper :=
  mkEventHelper "RateLimitConfiguredEvent" (mkEventParser
    []
    [("remote_chain_selector", "RemoteChainSelector", EvField (DCall "Uint64FromScVal"));
     ("fast_finality", "FastFinality", EvField (DGet "GetB"));
     ("outbound_config", "OutboundConfig", EvField (DStruct "RateLimitConfig"));
     ("inbound_config", "InboundConfig", EvField (DStruct "RateLimitConfig"))]).

Definition lock_release_pool_WaitForAdvancedPoolHooksUpdatedEvent : EventHelper :=
  mkEventHelper "AdvancedPoolHooksUpdatedEvent" (mkEventParser
    []
    [("old_hooks", "OldHooks", EvField (DCall "OptionalAddressFromScVal"));
     ("new_hooks", "NewHooks", EvField (DCall "OptionalAddressFromScVal"))]).

Definition lock_release_pool_WaitForInboundRateLimitConsumedEvent : EventHelper :=
  mkEventHelper "InboundRateLimitConsumedEvent" (mkEventParser
    []
    [("remote_chain_selector", "RemoteChainSelector", EvField (DCall "Uint64FromScVal"));
     ("amount", "Amount", EvField (DCall "I128FromScVal"))]).

Definition lock_release_pool_WaitForOutboundRateLimitConsumedEvent : EventHelper :=
  mkEventHelper "OutboundRateLimitConsumedEvent" (mkEventParser
    []
    [("remote_chain_selector", "RemoteChainSelector", EvField (DCall "Uint64FromScVal"));
     ("amount", "Amount", EvField (DCall "I128FromScVal"))]).

Definition lock_release_pool_client : ClientFile :=
  mkClientFile "lock_release_pool" "LockReleasePool" true true
    [lock_release_pool_Owner; lock_release_pool_GetFee; lock_release_pool_Upgrade;
     lock_release_pool_IsOwner; lock_release_pool_GetToken; lock_release_pool_GetRouter;
     lock_release_pool_InitOwner; lock_release_pool_Initialize; lock_release_pool_SetRouter;
     lock_release_pool_GetLockBox; lock_release_pool_LockOrBurn; lock_release_pool_GetFeeAdmin;
     lock_release_pool_GetRmnProxy; lock_release_pool_RequireOwner;
     lock_release_pool_SetFeeAdmin; lock_release_pool_AddRemotePool;
     lock_release_pool_ReleaseOrMint; lock_release_pool_AcceptOwnership;
     lock_release_pool_GetRemotePools; lock_release_pool_GetRemoteToken;
     lock_release_pool_TypeAndVersion; lock_release_pool_GetPendingOwner;
     lock_release_pool_GetRampRegistry; lock_release_pool_GetRequiredCcvs;
     lock_release_pool_SetRampRegistry; lock_release_pool_GetTokenDecimals;
     lock_release_pool_IsSupportedChain; lock_release_pool_IsSupportedToken;
     lock_release_pool_RemoveRemotePool; lock_release_pool_TransferOwnership;
     lock_release_pool_ApplyChainUpdates; lock_release_pool_WithdrawFeeTokens;
     lock_release_pool_GetRateLimitAdmin; lock_release_pool_SetRateLimitAdmin;
     lock_release_pool_SetRateLimitConfig; lock_release_pool_GetAdvancedPoolHooks;
     lock_release_pool_SetAdvancedPoolHooks; lock_release_pool_CancelOwnershipTransfer;
     lock_release_pool_RemoveAdvancedPoolHooks; lock_release_pool_GetAllowedFinalityConfig;
     lock_release_pool_SetAllowedFinalityConfig; lock_release_pool_GetTokenTransferFeeConfig;
     lock_release_pool_ApplyTokenFeeConfigUpdates; lock_release_pool_GetCurrentRateLimiterState]
    [lock_release_pool_WaitForRoleGrantedEvent; lock_release_pool_WaitForRoleRevokedEvent;
     lock_release_pool_WaitForAuthorizedCallerAddedEvent;
     lock_release_pool_WaitForAuthorizedCallerRemovedEvent;
     lock_release_pool_WaitForOwnershipTransferStartedEvent;
     lock_release_pool_WaitForBurnedEvent; lock_release_pool_WaitForLockedEvent;
     lock_release_pool_WaitForMintedEvent; lock_release_pool_WaitForReleasedEvent;
     lock_release_pool_WaitForChainRemovedEvent; lock_release_pool_WaitForChainConfiguredEvent;
     lock_release_pool_WaitForRemotePoolAddedEvent;
     lock_release_pool_WaitForFinalityConfigSetEvent;
     lock_release_pool_WaitForLockBoxConfiguredEvent;
     lock_release_pool_WaitForRemotePoolRemovedEvent;
     lock_release_pool_WaitForFtfInboundConsumedEvent;
     lock_release_pool_WaitForTokenFeeCfgDeletedEvent;
     lock_release_pool_WaitForTokenFeeCfgUpdatedEvent;
     lock_release_pool_WaitForFtfOutboundConsumedEvent;
     lock_release_pool_WaitForRateLimitConfiguredEvent;
     lock_release_pool_WaitForAdvancedPoolHooksUpdatedEvent;
     lock_release_pool_WaitForInboundRateLimitConsumedEvent;
     lock_release_pool_WaitForOutboundRateLimitConsumedEvent].

(** ** bindings/contracts/siloed_lock_release_pool *)

Definition siloed_lock_release_pool_ChainUpdate : StructDecl :=
  mkStructDecl "ChainUpdate"
    [mkMember "inbound_rate_limiter_config" "InboundRateLimiterConfig" (TNamed "RateLimitConfig") EMethod
      (DStruct "RateLimitConfig");
     mkMember "outbound_rate_limiter_config" "OutboundRateLimiterConfig" (TNamed "RateLimitConfig") EMethod
       (DStruct "RateLimitConfig");
     mkMember "remote_chain_selector" "RemoteChainSelector" TUint64 (ECall "Uint64ToScVal")
       (DCall "Uint64FromScVal");
     mkMember "remote_pool_addresses" "RemotePoolAddresses" (TSlice TBytes) (ECall "BytesSliceToScVal")
       (DVec TBytes (DGet "GetBytes"));
     mkMember "remote_token_address" "RemoteTokenAddress" TBytes (ECall "BytesToScVal") (DGet "GetBytes")].

Definition siloed_lock_release_pool_TokenBucket : StructDecl :=
  mkStructDecl "TokenBucket"
    [mkMember "capacity" "Capacity" TU128 EMethod (DCall "U128FromScVal");
     mkMember "is_enabled" "IsEnabled" TBool (ECall "BoolToScVal") (DGet "GetB");
     mkMember "last_updated" "LastUpdated" TUint64 (ECall "Uint64ToScVal") (DCall "Uint64FromScVal");
     mkMember "rate" "Rate" TU128 EMethod (DCall "U128FromScVal");
     mkMember "tokens" "Tokens" TU128 EMethod (DCall "U128FromScVal")].

Definition siloed_lock_release_pool_LockBoxEntry : StructDecl :=
  mkStructDecl "LockBoxEntry"
    [mkMember "lock_box" "LockBox" TString (ECall "AddressToScVal") (DCall "AddressFromScVal");
     mkMember "remote_chain_selector" "RemoteChainSelector" TUint64 (ECall "Uint64ToScVal")
       (DCall "Uint64FromScVal")].

Definition siloed_lock_release_pool_LockOrBurnIn : StructDecl :=
  mkStructDecl "LockOrBurnIn"
    [mkMember "amount" "Amount" TBig (ECall "I128ToScVal") (DCall "I128FromScVal");
     mkMember "local_token" "LocalToken" TString (ECall "AddressToScVal") (DCall "AddressFromScVal");
     mkMember "original_sender" "OriginalSender" TString (ECall "AddressToScVal") (DCall "AddressFromScVal");
     mkMember "receiver" "Receiver" TBytes (ECall "BytesToScVal") (DGet "GetBytes");
     mkMember "remote_chain_selector" "RemoteChainSelector" TUint64 (ECall "Uint64ToScVal")
       (DCall "Uint64FromScVal")].

Definition siloed_lock_release_pool_LockOrBurnOut : StructDecl :=
  mkStructDecl "LockOrBurnOut"
    [mkMember "dest_pool_data" "DestPoolData" TBytes (ECall "BytesToScVal") (DGet "GetBytes");
     mkMember "dest_token_address" "DestTokenAddress" TBytes (ECall "BytesToScVal") (DGet "GetBytes");
     mkMember "dest_token_amount" "DestTokenAmount" TBig (ECall "I128ToScVal") (DCall "I128FromScVal")].

Definition siloed_lock_release_pool_PoolFeeResult : StructDecl :=
  mkStructDecl "PoolFeeResult"
    [mkMember "dest_bytes_overhead" "DestBytesOverhead" TUint32 (ECall "Uint32ToScVal") (DGet "GetU32");
     mkMember "dest_gas_overhead" "DestGasOverhead" TUint32 (ECall "Uint32ToScVal") (DGet "GetU32");
     mkMember "fee_usd_cents" "FeeUsdCents" TUint32 (ECall "Uint32ToScVal") (DGet "GetU32");
     mkMember "is_enabled" "IsEnabled" TBool (ECall "BoolToScVal") (DGet "GetB");
     mkMember "token_fee_bps" "TokenFeeBps" TUint32 (ECall "Uint32ToScVal") (DGet "GetU32")].

Definition siloed_lock_release_pool_RateLimitConfig : StructDecl :=
  mkStructDecl "RateLimitConfig"
    [mkMember "capacity" "Capacity" TU128 EMethod (DCall "U128FromScVal");
     mkMember "is_enabled" "IsEnabled" TBool (ECall "BoolToScVal") (DGet "GetB");
     mkMember "rate" "Rate" TU128 EMethod (DCall "U128FromScVal")].

Definition siloed_lock_release_pool_ReleaseOrMintIn : StructDecl :=
  mkStructDecl "ReleaseOrMintIn"
    [mkMember "amount" "Amount" TBig (ECall "I128ToScVal") (DCall "I128FromScVal");
     mkMember "local_token" "LocalToken" TString (ECall "AddressToScVal") (DCall "AddressFromScVal");
     mkMember "original_sender" "OriginalSender" TBytes (ECall "BytesToScVal") (DGet "GetBytes");
     mkMember "receiver" "Receiver" TString (ECall "AddressToScVal") (DCall "AddressFromScVal");
     mkMember "remote_chain_selector" "RemoteChainSelector" TUint64 (ECall "Uint64ToScVal")
       (DCall "Uint64FromScVal");
     mkMember "source_pool_address" "SourcePoolAddress" TBytes (ECall "BytesToScVal") (DGet "GetBytes");
     mkMember "source_pool_data" "SourcePoolData" TBytes (ECall "BytesToScVal") (DGet "GetBytes")].

Definition siloed_lock_release_pool_PoolRequiredCCVs : StructDecl :=
  mkStructDecl "PoolRequiredCCVs"
    [mkMember "ccvs" "Ccvs" (TSlice TString) (ECall "AddressSliceToScVal")
      (DVec TString (DCall "AddressFromScVal"));
     mkMember "include_defaults" "IncludeDefaults" TBool (ECall "BoolToScVal") (DGet "GetB")].

Definition siloed_lock_release_pool_RateLimiterState : StructDecl :=
  mkStructDecl "RateLimiterState"
    [mkMember "inbound" "Inbound" (TNamed "TokenBucket") EMethod (DStruct "TokenBucket");
     mkMember "outbound" "Outbound" (TNamed "TokenBucket") EMethod (DStruct "TokenBucket")].

Definition siloed_lock_release_pool_ReleaseOrMintOut : StructDecl :=
  mkStructDecl "ReleaseOrMintOut"
    [mkMember "destination_amount" "DestinationAmount" TBig (ECall "I128ToScVal") (DCall "I128FromScVal")].

Definition siloed_lock_release_pool_TokenTransferFeeConfig : StructDecl :=
  mkStructDecl "TokenTransferFeeConfig"
    [mkMember "dest_bytes_overhead" "DestBytesOverhead" TUint32 (ECall "Uint32ToScVal") (DGet "GetU32");
     mkMember "dest_gas_overhead" "DestGasOverhead" TUint32 (ECall "Uint32ToScVal") (DGet "GetU32");
     mkMember "fast_finality_fee_usd_cents" "FastFinalityFeeUsdCents" TUint32 (ECall "Uint32ToScVal")
       (DGet "GetU32");
     mkMember "fast_finality_transfer_fee_bps" "FastFinalityTransferFeeBps" TUint32 (ECall "Uint32ToScVal")
       (DGet "GetU32");
     mkMember "finality_fee_usd_cents" "FinalityFeeUsdCents" TUint32 (ECall "Uint32ToScVal") (DGet "GetU32");
     mkMember "finality_transfer_fee_bps" "FinalityTransferFeeBps" TUint32 (ECall "Uint32ToScVal")
       (DGet "GetU32");
     mkMember "is_enabled" "IsEnabled" TBool (ECall "BoolToScVal") (DGet "GetB")].

Definition siloed_lock_release_pool_TokenTransferFeeConfigArgs : StructDecl :=
  mkStructDecl "TokenTransferFeeConfigArgs"
    [mkMember "config" "Config" (TNamed "TokenTransferFeeConfig") EMethod (DStruct "TokenTransferFeeConfig");
     mkMember "dest_chain_selector" "DestChainSelector" TUint64 (ECall "Uint64ToScVal")
       (DCall "Uint64FromScVal")].

Definition siloed_lock_release_pool_CCIPError : ErrorDecl :=
  mkErrorDecl "CCIPError"
    [("CCIPErrorNotInitialized", 1); ("CCIPErrorAlreadyInitialized", 2);
     ("CCIPErrorUnauthorized", 3); ("CCIPErrorNotOwner", 4); ("CCIPErrorNoPendingOwner", 5);
     ("CCIPErrorCallerNotAuthorized", 6); ("CCIPErrorCallerAlreadyAuthorized", 7);
     ("CCIPErrorCallerNotFound", 8); ("CCIPErrorRoleNotGranted", 9);
     ("CCIPErrorFeatureNotEnabled", 10); ("CCIPErrorRoleAlreadyGranted", 11);
     ("CCIPErrorCannotRenounceRole", 12); ("CCIPErrorInvalidVersionTag", 13);
     ("CCIPErrorInvalidSignatureLength", 14); ("CCIPErrorInvalidSignature", 15);
     ("CCIPErrorInvalidSignatureCount", 16); ("CCIPErrorInvalidSignatureThreshold", 17);
     ("CCIPErrorInvalidSignaturePubkey", 18); ("CCIPErrorSourceSignersNotConfigured", 19);
     ("CCIPErrorInvalidVerifierResults", 20); ("CCIPErrorReentrantCall", 21);
     ("CCIPErrorTokenNotSupported", 22); ("CCIPErrorFeeTokenNotSupported", 23);
     ("CCIPErrorNoGasPriceAvailable", 24); ("CCIPErrorDestinationChainNotEnabled", 25);
     ("CCIPErrorInvalidExtraArgsTag", 26); ("CCIPErrorInvalidExtraArgsData", 27);
     ("CCIPErrorMessageGasLimitTooHigh", 28); ("CCIPErrorMessageTooLarge", 29);
     ("CCIPErrorUnsupportedNumberOfTokens", 30); ("CCIPErrorInvalidDestChainConfig", 31);
     ("CCIPErrorMessageFeeTooHigh", 32); ("CCIPErrorInvalidStaticConfig", 33);
     ("CCIPErrorInvalidTokenReceiver", 34); ("CCIPErrorSourceTokenDataTooLarge", 35);
     ("CCIPErrorInvalidDestBytesOverhead", 36); ("CCIPErrorDestinationChainNotSupported", 37);
     ("CCIPErrorMustBeCalledByRouter", 38); ("CCIPErrorRouterMustSetOriginalSender", 39);
     ("CCIPErrorCannotSendZeroTokens", 40); ("CCIPErrorCanOnlySendOneTokenPerMessage", 41);
     ("CCIPErrorUnsupportedToken", 42); ("CCIPErrorInvalidDestChainAddress", 43);
     ("CCIPErrorFeeExceedsMaxAllowed", 44); ("CCIPErrorInsufficientFeeTokenAmount", 45);
     ("CCIPErrorTokenReceiverNotAllowed", 46); ("CCIPErrorCursedByRMN", 47);
     ("CCIPErrorRemoteChainNotSupported", 48); ("CCIPErrorSenderNotAllowed", 49);
     ("CCIPErrorInvalidTokenAmount", 50); ("CCIPErrorInvalidReceiverAddress", 51);
     ("CCIPErrorInvalidConfig", 52); ("CCIPErrorInvalidVerifierResultsLength", 53);
     ("CCIPErrorInboundImplementationNotFound", 54);
     ("CCIPErrorOutboundImplementationNotFound", 55); ("CCIPErrorInvalidAddress", 56);
     ("CCIPErrorInvalidChainSelector", 57); ("CCIPErrorInvalidVersion", 58);
     ("CCIPErrorInvalidCCVVersion", 59); ("CCIPErrorOffRampAlreadyExists", 60);
     ("CCIPErrorOffRampMismatch", 61); ("CCIPErrorBadRMNSignal", 62);
     ("CCIPErrorUnsupportedDestinationChain", 63); ("CCIPErrorAlreadyCursed", 64);
     ("CCIPErrorConfigNotSet", 65); ("CCIPErrorDuplicateOnchainPublicKey", 66);
     ("CCIPErrorInvalidSignerOrder", 67); ("CCIPErrorNotEnoughSigners", 68);
     ("CCIPErrorNotCursed", 69); ("CCIPErrorOutOfOrderSignatures", 70);
     ("CCIPErrorThresholdNotMet", 71); ("CCIPErrorUnexpectedSigner", 72);
     ("CCIPErrorZeroValueNotAllowed", 73); ("CCIPErrorSourceChainNotEnabled", 100);
     ("CCIPErrorInvalidSourceChainConfig", 101); ("CCIPErrorInvalidOnRampAddress", 102);
     ("CCIPErrorInvalidOffRampAddress", 103); ("CCIPErrorInvalidMessageDestination", 104);
     ("CCIPErrorMessageAlreadyExecuted", 105); ("CCIPErrorInvalidExecutionState", 106);
     ("CCIPErrorCCVLengthMismatch", 107); ("CCIPErrorCCVQuorumNotMet", 108);
     ("CCIPErrorReceiverError", 109); ("CCIPErrorGasLimitOverrideTooLow", 110);
     ("CCIPErrorInvalidReceiverLength", 111); ("CCIPErrorTokenHandlingError", 112);
     ("CCIPErrorMessageDecodingError", 113); ("CCIPErrorReceiverDoesNotExist", 114);
     ("CCIPErrorReceiverNotWasmContract", 115); ("CCIPErrorRequiredCCVMissing", 116);
     ("CCIPErrorInvalidOptionalThreshold", 117); ("CCIPErrorOptionalCCVQuorumNotReached", 118);
     ("CCIPErrorNoStateProgressMade", 119); ("CCIPErrorOnlyRegistryModuleOrOwner", 201);
     ("CCIPErrorOnlyAdministrator", 202); ("CCIPErrorOnlyPendingAdministrator", 203);
     ("CCIPErrorTokenAlreadyRegistered", 204); ("CCIPErrorInvalidTokenPoolToken", 205);
     ("CCIPErrorPoolTokenMismatch", 301); ("CCIPErrorChainNotSupported", 302);
     ("CCIPErrorCallerIsNotRamp", 303); ("CCIPErrorInsufficientPoolLiquidity", 304);
     ("CCIPErrorInvalidRemotePoolAddress", 305); ("CCIPErrorInvalidRemoteChainConfig", 306);
     ("CCIPErrorInvalidRemoteChainDecimals", 307); ("CCIPErrorDecimalAmountOverflow", 308);
     ("CCIPErrorInvalidPoolTokenDecimals", 309); ("CCIPErrorBucketOverfilled", 310);
     ("CCIPErrorTokenMaxCapacityExceeded", 311); ("CCIPErrorTokenRateLimitReached", 312);
     ("CCIPErrorInvalidRateLimitRate", 313); ("CCIPErrorDisabledNonZeroRateLimit", 314);
     ("CCIPErrorInvalidRequestedFinality", 315);
     ("CCIPErrorRequestedFinalityCanOnlyHaveOneMode", 316);
     ("CCIPErrorInvalidChainForClient", 317); ("CCIPErrorRouterNotConfigured", 318);
     ("CCIPErrorInvalidSourcePoolAddress", 319); ("CCIPErrorDuplicateCCVNotAllowed", 320);
     ("CCIPErrorInvalidTokenTransferFeeConfig", 321); ("CCIPErrorInvalidTransferFeeBps", 322);
     ("CCIPErrorInvalidAllowListRequest", 323); ("CCIPErrorInvalidFeeCalculation", 801);
     ("CCIPErrorInvalidFeeTokenConversion", 802); ("CCIPErrorZeroFeeAggregatorNotAllowed", 803);
     ("CCIPErrorExceedsMaxCCVs", 804); ("CCIPErrorCCVNotAllowed", 805);
     ("CCIPErrorPolicyEngineDetachReverted", 806); ("CCIPErrorUnsupportedSelector", 807);
     ("CCIPErrorZeroAddressNotAllowed", 808)]
    [(1, "not initialized"); (2, "already initialized"); (3, "unauthorized"); (4, "not owner");
     (5, "no pending owner"); (6, "caller not authorized"); (7, "caller already authorized");
     (8, "caller not found"); (9, "role not granted"); (10, "feature not enabled");
     (11, "role already granted"); (12, "cannot renounce role"); (13, "invalid version tag");
     (14, "invalid signature length"); (15, "invalid signature");
     (16, "invalid signature count"); (17, "invalid signature threshold");
     (18, "invalid signature pubkey"); (19, "source signers not configured");
     (20, "invalid verifier results"); (21, "reentrant call"); (22, "token not supported");
     (23, "fee token not supported"); (24, "no gas price available");
     (25, "destination chain not enabled"); (26, "invalid extra args tag");
     (27, "invalid extra args data"); (28, "message gas limit too high");
     (29, "message too large"); (30, "unsupported number of tokens");
     (31, "invalid dest chain config"); (32, "message fee too high");
     (33, "invalid static config"); (34, "invalid token receiver");
     (35, "source token data too large"); (36, "invalid dest bytes overhead");
     (37, "destination chain not supported"); (38, "must be called by router");
     (39, "router must set original sender"); (40, "cannot send zero tokens");
     (41, "can only send one token per message"); (42, "unsupported token");
     (43, "invalid dest chain address"); (44, "fee exceeds max allowed");
     (45, "insufficient fee token amount"); (46, "token receiver not allowed");
     (47, "cursed by r m n"); (48, "remote chain not supported"); (49, "sender not allowed");
     (50, "invalid token amount"); (51, "invalid receiver address"); (52, "invalid config");
     (53, "invalid verifier results length"); (54, "inbound implementation not found");
     (55, "outbound implementation not found"); (56, "invalid address");
     (57, "invalid chain selector"); (58, "invalid version"); (59, "invalid c c v version");
     (60, "off ramp already exists"); (61, "off ramp mismatch"); (62, "bad r m n signal");
     (63, "unsupported destination chain"); (64, "already cursed"); (65, "config not set");
     (66, "duplicate onchain public key"); (67, "invalid signer order");
     (68, "not enough signers"); (69, "not cursed"); (70, "out of order signatures");
     (71, "threshold not met"); (72, "unexpected signer"); (73, "zero value not allowed");
     (100, "source chain not enabled"); (101, "invalid source chain config");
     (102, "invalid on ramp address"); (103, "invalid off ramp address");
     (104, "invalid message destination"); (105, "message already executed");
     (106, "invalid execution state"); (107, "c c v length mismatch");
     (108, "c c v quorum not met"); (109, "receiver error");
     (110, "gas limit override too low"); (111, "invalid receiver length");
     (112, "token handling error"); (113, "message decoding error");
     (114, "receiver does not exist"); (115, "receiver not wasm contract");
     (116, "required c c v missing"); (117, "invalid optional threshold");
     (118, "optional c c v quorum not reached"); (119, "no state progress made");
     (201, "only registry module or owner"); (202, "only administrator");
     (203, "only pending administrator"); (204, "token already registered");
     (205, "invalid token pool token"); (301, "pool token mismatch");
     (302, "chain not supported"); (303, "caller is not ramp");
     (304, "insufficient pool liquidity"); (305, "invalid remote pool address");
     (306, "invalid remote chain config"); (307, "invalid remote chain decimals");
     (308, "decimal amount overflow"); (309, "invalid pool token decimals");
     (310, "bucket overfilled"); (311, "token max capacity exceeded");
     (312, "token rate limit reached"); (313, "invalid rate limit rate");
     (314, "disabled non zero rate limit"); (315, "invalid requested finality");
     (316, "requested finality can only have one mode"); (317, "invalid chain for client");
     (318, "router not configured"); (319, "invalid source pool address");
     (320, "duplicate c c v not allowed"); (321, "invalid token transfer fee config");
     (322, "invalid transfer fee bps"); (323, "invalid allow list request");
     (801, "invalid fee calculation"); (802, "invalid fee token conversion");
     (803, "zero fee aggregator not allowed"); (804, "exceeds max c c vs");
     (805, "c c v not allowed"); (806, "policy engine detach reverted");
     (807, "unsupported selector"); (808, "zero address not allowed")].

Definition siloed_lock_release_pool_RoleGrantedEvent : EventDecl :=
  mkEventDecl "RoleGrantedEvent"
    [("Role", TString); ("Account", TString); ("Sender", TString); ("Ledger", TUint32);
     ("TxHash", TString)]
    (Some "auth_RoleGranted").

Definition siloed_lock_release_pool_RoleRevokedEvent : EventDecl :=
  mkEventDecl "RoleRevokedEvent"
    [("Role", TString); ("Account", TString); ("Sender", TString); ("Ledger", TUint32);
     ("TxHash", TString)]
    (Some "auth_RoleRevoked").

Definition siloed_lock_release_pool_AuthorizedCallerAddedEvent : EventDecl :=
  mkEventDecl "AuthorizedCallerAddedEvent"
    [("Caller", TString); ("Ledger", TUint32); ("TxHash", TString)]
    (Some "auth_CallerAdded").

Definition siloed_lock_release_pool_AuthorizedCallerRemovedEvent : EventDecl :=
  mkEventDecl "AuthorizedCallerRemovedEvent"
    [("Caller", TString); ("Ledger", TUint32); ("TxHash", TString)]
    (Some "auth_CallerRemoved").

Definition siloed_lock_release_pool_OwnershipTransferStartedEvent : EventDecl :=
  mkEventDecl "OwnershipTransferStartedEvent"
    [("PreviousOwner", TString); ("NewOwner", TString); ("Ledger", TUint32);
     ("TxHash", TString)]
    (Some "auth_OwnerTransferStart").

Definition siloed_lock_release_pool_BurnedEvent : EventDecl :=
  mkEventDecl "BurnedEvent"
    [("Sender", TString); ("Amount", TBig); ("Ledger", TUint32); ("TxHash", TString)]
    (Some "pool_Burned").

Definition siloed_lock_release_pool_LockedEvent : EventDecl :=
  mkEventDecl "LockedEvent"
    [("Sender", TString); ("Amount", TBig); ("Ledger", TUint32); ("TxHash", TString)]
    (Some "pool_Locked").

Definition siloed_lock_release_pool_MintedEvent : EventDecl :=
  mkEventDecl "MintedEvent"
    [("Sender", TString); ("Recipient", TString); ("Amount", TBig); ("Ledger", TUint32);
     ("TxHash", TString)]
    (Some "pool_Minted").

Definition siloed_lock_release_pool_ReleasedEvent : EventDecl :=
  mkEventDecl "ReleasedEvent"
    [("Sender", TString); ("Recipient", TString); ("Amount", TBig); ("Ledger", TUint32);
     ("TxHash", TString)]
    (Some "pool_Released").

Definition siloed_lock_release_pool_ChainRemovedEvent : EventDecl :=
  mkEventDecl "ChainRemovedEvent"
    [("RemoteChainSelector", TUint64); ("Ledger", TUint32); ("TxHash", TString)]
    (Some "pool_ChainRemoved").

Definition siloed_lock_release_pool_ChainConfiguredEvent : EventDecl :=
  mkEventDecl "ChainConfiguredEvent"
    [("RemoteChainSelector", TUint64); ("RemotePoolAddresses", TSlice TBytes);
     ("RemoteTokenAddress", TBytes); ("OutboundRateLimiterConfig", TNamed "RateLimitConfig");
     ("InboundRateLimiterConfig", TNamed "RateLimitConfig"); ("Ledger", TUint32);
     ("TxHash", TString)]
    (Some "pool_ChainConfigured").

Definition siloed_lock_release_pool_RemotePoolAddedEvent : EventDecl :=
  mkEventDecl "RemotePoolAddedEvent"
    [("RemoteChainSelector", TUint64); ("RemotePoolAddress", TBytes); ("Ledger", TUint32);
     ("TxHash", TString)]
    (Some "pool_RemotePoolAdded").

Definition siloed_lock_release_pool_FinalityConfigSetEvent : EventDecl :=
  mkEventDecl "FinalityConfigSetEvent"
    [("AllowedFinality", TUint32); ("Ledger", TUint32); ("TxHash", TString)]
    (Some "pool_FinalityConfigSet").

Definition siloed_lock_release_pool_LockBoxConfiguredEvent : EventDecl :=
  mkEventDecl "LockBoxConfiguredEvent"
    [("RemoteChainSelector", TUint64); ("LockBox", TString); ("Ledger", TUint32);
     ("TxHash", TString)]
    (Some "pool_LockBoxConfigured").

Definition siloed_lock_release_pool_RemotePoolRemovedEvent : EventDecl :=
  mkEventDecl "RemotePoolRemovedEvent"
    [("RemoteChainSelector", TUint64); ("RemotePoolAddress", TBytes); ("Ledger", TUint32);
     ("TxHash", TString)]
    (Some "pool_RemotePoolRemoved").

Definition siloed_lock_release_pool_FtfInboundConsumedEvent : EventDecl :=
  mkEventDecl "FtfInboundConsumedEvent"
    [("RemoteChainSelector", TUint64); ("Amount", TBig); ("Ledger", TUint32);
     ("TxHash", TString)]
    (Some "pool_FtfInboundConsumed").

Definition siloed_lock_release_pool_TokenFeeCfgDeletedEvent : EventDecl :=
  mkEventDecl "TokenFeeCfgDeletedEvent"
    [("RemoteChainSelector", TUint64); ("Ledger", TUint32); ("TxHash", TString)]
    (Some "pool_TokenFeeCfgDeleted").

Definition siloed_lock_release_pool_TokenFeeCfgUpdatedEvent : EventDecl :=
  mkEventDecl "TokenFeeCfgUpdatedEvent"
    [("RemoteChainSelector", TUint64); ("Config", TNamed "TokenTransferFeeConfig");
     ("Ledger", TUint32); ("TxHash", TString)]
    (Some "pool_TokenFeeCfgUpdated").

Definition siloed_lock_release_pool_FtfOutboundConsumedEvent : EventDecl :=
  mkEventDecl "FtfOutboundConsumedEvent"
    [("RemoteChainSelector", TUint64); ("Amount", TBig); ("Ledger", TUint32);
     ("TxHash", TString)]
    (Some "pool_FtfOutboundConsumed").

Definition siloed_lock_release_pool_RateLimitConfiguredEvent : EventDecl :=
  mkEventDecl "RateLimitConfiguredEvent"
    [("RemoteChainSelector", TUint64); ("FastFinality", TBool);
     ("OutboundConfig", TNamed "RateLimitConfig"); ("InboundConfig", TNamed "RateLimitConfig");
     ("Ledger", TUint32); ("TxHash", TString)]
    (Some "pool_RateLimitConfigured").

Definition siloed_lock_release_pool_AdvancedPoolHooksUpdatedEvent : EventDecl :=
  mkEventDecl "AdvancedPoolHooksUpdatedEvent"
    [("OldHooks", TPtr TString); ("NewHooks", TPtr TString); ("Ledger", TUint32);
     ("TxHash", TString)]
    (Some "pool_HooksUpdated").

Definition siloed_lock_release_pool_InboundRateLimitConsumedEvent : EventDecl :=
  mkEventDecl "InboundRateLimitConsumedEvent"
    [("RemoteChainSelector", TUint64); ("Amount", TBig); ("Ledger", TUint32);
     ("TxHash", TString)]
    (Some "pool_InboundRateLimitConsumed").

Definition siloed_lock_release_pool_OutboundRateLimitConsumedEvent : EventDecl :=
  mkEventDecl "OutboundRateLimitConsumedEvent"
    [("RemoteChainSelector", TUint64); ("Amount", TBig); ("Ledger", TUint32);
     ("TxHash", TString)]
    (Some "pool_OutboundRateLimitConsumed").

Definition siloed_lock_release_pool_MessageDirection : EnumDecl :=
  UnionEnum "MessageDirection"
    [mkVariantDecl "Outbound" [];
     mkVariantDecl "Inbound" []].

Definition siloed_lock_release_pool_types : TypesFile :=
  mkTypesFile "siloed_lock_release_pool" (mkImports true true true true)
    [siloed_lock_release_pool_ChainUpdate; siloed_lock_release_pool_TokenBucket;
     siloed_lock_release_pool_LockBoxEntry; siloed_lock_release_pool_LockOrBurnIn;
     siloed_lock_release_pool_LockOrBurnOut; siloed_lock_release_pool_PoolFeeResult;
     siloed_lock_release_pool_RateLimitConfig; siloed_lock_release_pool_ReleaseOrMintIn;
     siloed_lock_release_pool_PoolRequiredCCVs; siloed_lock_release_pool_RateLimiterState;
     siloed_lock_release_pool_ReleaseOrMintOut; siloed_lock_release_pool_TokenTransferFeeConfig;
     siloed_lock_release_pool_TokenTransferFeeConfigArgs]
    [siloed_lock_release_pool_CCIPError]
    [siloed_lock_release_pool_RoleGrantedEvent; siloed_lock_release_pool_RoleRevokedEvent;
     siloed_lock_release_pool_AuthorizedCallerAddedEvent;
     siloed_lock_release_pool_AuthorizedCallerRemovedEvent;
     siloed_lock_release_pool_OwnershipTransferStartedEvent;
     siloed_lock_release_pool_BurnedEvent; siloed_lock_release_pool_LockedEvent;
     siloed_lock_release_pool_MintedEvent; siloed_lock_release_pool_ReleasedEvent;
     siloed_lock_release_pool_ChainRemovedEvent; siloed_lock_release_pool_ChainConfiguredEvent;
     siloed_lock_release_pool_RemotePoolAddedEvent;
     siloed_lock_release_pool_FinalityConfigSetEvent;
     siloed_lock_release_pool_LockBoxConfiguredEvent;
     siloed_lock_release_pool_RemotePoolRemovedEvent;
     siloed_lock_release_pool_FtfInboundConsumedEvent;
     siloed_lock_release_pool_TokenFeeCfgDeletedEvent;
     siloed_lock_release_pool_TokenFeeCfgUpdatedEvent;
     siloed_lock_release_pool_FtfOutboundConsumedEvent;
     siloed_lock_release_pool_RateLimitConfiguredEvent;
     siloed_lock_release_pool_AdvancedPoolHooksUpdatedEvent;
     siloed_lock_release_pool_InboundRateLimitConsumedEvent;
     siloed_lock_release_pool_OutboundRateLimitConsumedEvent]
    [siloed_lock_release_pool_MessageDirection].

Definition siloed_lock_release_pool_Owner : Method :=
  mkMethod "Owner" [] [TPtr TString] "nil"
    true "owner" [] (RVal (DCall "OptionalAddressFromScVal")).

Definition siloed_lock_release_pool_GetFee : Method :=
  mkMethod "GetFee" [("destChainSelector", TUint64); ("amount", TBig); ("requestedFinality", TUint32);
     ("tokenArgs", TBytes)] [TPtr (TNamed "PoolFeeResult")] "nil"
    true "get_fee" [ECall "Uint64ToScVal"; ECall "I128ToScVal"; ECall "Uint32ToScVal"; ECall "BytesToScVal"]
      (RVal (DStruct "PoolFeeResult")).

Definition siloed_lock_release_pool_Upgrade : Method :=
  mkMethod "Upgrade" [("newWasmHash", TArray "32")] [] ""
    false "upgrade" [ECall "Bytes32ToScVal"] RVoid.

Definition siloed_lock_release_pool_IsOwner : Method :=
  mkMethod "IsOwner" [("addr", TString)] [TBool] "false"
    true "is_owner" [ECall "AddressToScVal"] (RVal (DGet "GetB")).

Definition siloed_lock_release_pool_GetToken : Method :=
  mkMethod "GetToken" [] [TString] empty_literal
    true "get_token" [] (RVal (DCall "AddressFromScVal")).

Definition siloed_lock_release_pool_GetRouter : Method :=
  mkMethod "GetRouter" [] [TPtr TString] "nil"
    true "get_router" [] (RVal (DCall "OptionalAddressFromScVal")).

Definition siloed_lock_release_pool_InitOwner : Method :=
  mkMethod "InitOwner" [("owner", TString)] [] ""
    false "init_owner" [ECall "AddressToScVal"] RVoid.

Definition siloed_lock_release_pool_Initialize : Method :=
  mkMethod "Initialize" [("owner", TString); ("token", TString); ("tokenDecimals", TUint32);
    ("router", TString);
     ("rampRegistry", TString); ("rmnProxy", TString)] [] ""
    false "initialize" [ECall "AddressToScVal"; ECall "AddressToScVal"; ECall "Uint32ToScVal"; ECall
      "AddressToScVal"; ECall "AddressToScVal"; ECall "AddressToScVal"] RVoid.

Definition siloed_lock_release_pool_SetRouter : Method :=
  mkMethod "SetRouter" [("router", TString)] [] ""
    false "set_router" [ECall "AddressToScVal"] RVoid.

Definition siloed_lock_release_pool_GetLockBox : Method :=
  mkMethod "GetLockBox" [("remoteChainSelector", TUint64)] [TString] empty_literal
    true "get_lock_box" [ECall "Uint64ToScVal"] (RVal (DCall "AddressFromScVal")).

Definition siloed_lock_release_pool_LockOrBurn : Method :=
  mkMethod "LockOrBurn" [("caller", TString); ("input", TNamed "LockOrBurnIn"); ("requestedFinality", TUint32);
     ("tokenArgs", TBytes)] [TPtr (TNamed "LockOrBurnOut")] "nil"
    false "lock_or_burn" [ECall "AddressToScVal"; EMethodOf; ECall "Uint32ToScVal"; ECall "BytesToScVal"]
      (RVal (DStruct "LockOrBurnOut")).

Definition siloed_lock_release_pool_GetFeeAdmin : Method :=
  mkMethod "GetFeeAdmin" [] [TPtr TString] "nil"
    true "get_fee_admin" [] (RVal (DCall "OptionalAddressFromScVal")).

Definition siloed_lock_release_pool_GetRmnProxy : Method :=
  mkMethod "GetRmnProxy" [] [TPtr TString] "nil"
    true "get_rmn_proxy" [] (RVal (DCall "OptionalAddressFromScVal")).

Definition siloed_lock_release_pool_RequireOwner : Method :=
  mkMethod "RequireOwner" [] [TString] empty_literal
    false "require_owner" [] (RVal (DCall "AddressFromScVal")).

Definition siloed_lock_release_pool_SetFeeAdmin : Method :=
  mkMethod "SetFeeAdmin" [("feeAdmin", TString)] [] ""
    false "set_fee_admin" [ECall "AddressToScVal"] RVoid.

Definition siloed_lock_release_pool_AddRemotePool : Method :=
  mkMethod "AddRemotePool" [("remoteChainSelector", TUint64); ("remotePoolAddress", TBytes)] [] ""
    false "add_remote_pool" [ECall "Uint64ToScVal"; ECall "BytesToScVal"] RVoid.

Definition siloed_lock_release_pool_ReleaseOrMint : Method :=
  mkMethod "ReleaseOrMint" [("caller", TString); ("input", TNamed "ReleaseOrMintIn");
    ("requestedFinality", TUint32)] [TPtr (TNamed "ReleaseOrMintOut")] "nil"
    false "release_or_mint" [ECall "AddressToScVal"; EMethodOf; ECall "Uint32ToScVal"]
      (RVal (DStruct "ReleaseOrMintOut")).

Definition siloed_lock_release_pool_AcceptOwnership : Method :=
  mkMethod "AcceptOwnership" [] [] ""
    false "accept_ownership" [] RVoid.

Definition siloed_lock_release_pool_GetRemotePools : Method :=
  mkMethod "GetRemotePools" [("remoteChainSelector", TUint64)] [TSlice TBytes] "nil"
    true "get_remote_pools" [ECall "Uint64ToScVal"] (RVal (DVec TBytes (DGet "GetBytes"))).

Definition siloed_lock_release_pool_GetRemoteToken : Method :=
  mkMethod "GetRemoteToken" [("remoteChainSelector", TUint64)] [TBytes] "nil"
    true "get_remote_token" [ECall "Uint64ToScVal"] (RVal (DGet "GetBytes")).

Definition siloed_lock_release_pool_TypeAndVersion : Method :=
  mkMethod "TypeAndVersion" [] [TString] empty_literal
    false "type_and_version" [] (RVal (DCall "StringFromScVal")).

Definition siloed_lock_release_pool_GetPendingOwner : Method :=
  mkMethod "GetPendingOwner" [] [TPtr TString] "nil"
    true "get_pending_owner" [] (RVal (DCall "OptionalAddressFromScVal")).

Definition siloed_lock_release_pool_GetRampRegistry : Method :=
  mkMethod "GetRampRegistry" [] [TPtr TString] "nil"
    true "get_ramp_registry" [] (RVal (DCall "OptionalAddressFromScVal")).

Definition siloed_lock_release_pool_GetRequiredCcvs : Method :=
  mkMethod "GetRequiredCcvs" [("localToken", TString); ("remoteChainSelector", TUint64); ("amount", TBig);
     ("requestedFinality", TUint32); ("extraData", TBytes);
     ("direction", TNamed "MessageDirection")] [TPtr (TNamed "PoolRequiredCCVs")] "nil"
    true "get_required_ccvs" [ECall "AddressToScVal"; ECall "Uint64ToScVal"; ECall "I128ToScVal"; ECall
      "Uint32ToScVal"; ECall "BytesToScVal"; EMethodOf] (RVal (DStruct "PoolRequiredCCVs")).

Definition siloed_lock_release_pool_SetRampRegistry : Method :=
  mkMethod "SetRampRegistry" [("rampRegistry", TString)] [] ""
    false "set_ramp_registry" [ECall "AddressToScVal"] RVoid.

Definition siloed_lock_release_pool_GetTokenDecimals : Method :=
  mkMethod "GetTokenDecimals" [] [TUint32] "0"
    true "get_token_decimals" [] (RVal (DGet "GetU32")).

Definition siloed_lock_release_pool_IsSupportedChain : Method :=
  mkMethod "IsSupportedChain" [("remoteChainSelector", TUint64)] [TBool] "false"
    true "is_supported_chain" [ECall "Uint64ToScVal"] (RVal (DGet "GetB")).

Definition siloed_lock_release_pool_IsSupportedToken : Method :=
  mkMethod "IsSupportedToken" [("token", TString)] [TBool] "false"
    true "is_supported_token" [ECall "AddressToScVal"] (RVal (DGet "GetB")).

Definition siloed_lock_release_pool_RemoveRemotePool : Method :=
  mkMethod "RemoveRemotePool" [("remoteChainSelector", TUint64); ("remotePoolAddress", TBytes)] [] ""
    false "remove_remote_pool" [ECall "Uint64ToScVal"; ECall "BytesToScVal"] RVoid.

Definition siloed_lock_release_pool_TransferOwnership : Method :=
  mkMethod "TransferOwnership" [("newOwner", TString)] [] ""
    false "transfer_ownership" [ECall "AddressToScVal"] RVoid.

Definition siloed_lock_release_pool_ApplyChainUpdates : Method :=
  mkMethod "ApplyChainUpdates" [("adds", TSlice (TNamed "ChainUpdate")); ("removes", TSlice TUint64)] [] ""
    false "apply_chain_updates" [ECall "StructSliceToScVal"; ECall "Uint64SliceToScVal"] RVoid.

Definition siloed_lock_release_pool_WithdrawFeeTokens : Method :=
  mkMethod "WithdrawFeeTokens" [("caller", TString); ("feeTokens", TSlice TString); ("recipient", TString)] []
    ""
    false "withdraw_fee_tokens" [ECall "AddressToScVal"; ECall "AddressSliceToScVal"; ECall "AddressToScVal"]
      RVoid.

Definition siloed_lock_release_pool_ConfigureLockBoxes : Method :=
  mkMethod "ConfigureLockBoxes" [("configs", TSlice (TNamed "LockBoxEntry"))] [] ""
    false "configure_lock_boxes" [ECall "StructSliceToScVal"] RVoid.

Definition siloed_lock_release_pool_GetRateLimitAdmin : Method :=
  mkMethod "GetRateLimitAdmin" [] [TPtr TString] "nil"
    true "get_rate_limit_admin" [] (RVal (DCall "OptionalAddressFromScVal")).

Definition siloed_lock_release_pool_SetRateLimitAdmin : Method :=
  mkMethod "SetRateLimitAdmin" [("admin", TString)] [] ""
    false "set_rate_limit_admin" [ECall "AddressToScVal"] RVoid.

Definition siloed_lock_release_pool_SetRateLimitConfig : Method :=
  mkMethod "SetRateLimitConfig" [("caller", TString); ("remoteChainSelector", TUint64);
     ("outboundConfig", TNamed "RateLimitConfig"); ("inboundConfig", TNamed "RateLimitConfig");
     ("fastFinality", TBool)] [] ""
    false "set_rate_limit_config" [ECall "AddressToScVal"; ECall "Uint64ToScVal"; EMethodOf; EMethodOf; ECall
      "BoolToScVal"] RVoid.

Definition siloed_lock_release_pool_GetAdvancedPoolHooks : Method :=
  mkMethod "GetAdvancedPoolHooks" [] [TPtr TString] "nil"
    true "get_advanced_pool_hooks" [] (RVal (DCall "OptionalAddressFromScVal")).

Definition siloed_lock_release_pool_SetAdvancedPoolHooks : Method :=
  mkMethod "SetAdvancedPoolHooks" [("hooks", TString)] [] ""
    false "set_advanced_pool_hooks" [ECall "AddressToScVal"] RVoid.

Definition siloed_lock_release_pool_GetAllLockBoxConfigs : Method :=
  mkMethod "GetAllLockBoxConfigs" [] [TSlice (TNamed "LockBoxEntry")] "nil"
    true "get_all_lock_box_configs" [] (RVal (DVec (TNamed "LockBoxEntry") (DStruct "LockBoxEntry"))).

Definition siloed_lock_release_pool_CancelOwnershipTransfer : Method :=
  mkMethod "CancelOwnershipTransfer" [] [] ""
    false "cancel_ownership_transfer" [] RVoid.

Definition siloed_lock_release_pool_RemoveAdvancedPoolHooks : Method :=
  mkMethod "RemoveAdvancedPoolHooks" [] [] ""
    false "remove_advanced_pool_hooks" [] RVoid.

Definition siloed_lock_release_pool_GetAllowedFinalityConfig : Method :=
  mkMethod "GetAllowedFinalityConfig" [] [TUint32] "0"
    true "get_allowed_finality_config" [] (RVal (DGet "GetU32")).

Definition siloed_lock_release_pool_SetAllowedFinalityConfig : Method :=
  mkMethod "SetAllowedFinalityConfig" [("allowedFinality", TUint32)] [] ""
    false "set_allowed_finality_config" [ECall "Uint32ToScVal"] RVoid.

Definition siloed_lock_release_pool_GetTokenTransferFeeConfig : Method :=
  mkMethod "GetTokenTransferFeeConfig" [("destChainSelector", TUint64)]
    [TPtr (TNamed "TokenTransferFeeConfig")] "nil"
    true "get_token_transfer_fee_config" [ECall "Uint64ToScVal"] (RVal (DStruct "TokenTransferFeeConfig")).

Definition siloed_lock_release_pool_ApplyTokenFeeConfigUpdates : Method :=
  mkMethod "ApplyTokenFeeConfigUpdates"
    [("adds", TSlice (TNamed "TokenTransferFeeConfigArgs")); ("disables", TSlice TUint64)] [] ""
    false "apply_token_fee_config_updates" [ECall "StructSliceToScVal"; ECall "Uint64SliceToScVal"] RVoid.

Definition siloed_lock_release_pool_GetCurrentRateLimiterState : Method :=
  mkMethod "GetCurrentRateLimiterState" [("remoteChainSelector", TUint64); ("fastFinality", TBool)]
    [TPtr (TNamed "RateLimiterState")] "nil"
    true "get_current_rate_limiter_state" [ECall "Uint64ToScVal"; ECall "BoolToScVal"]
      (RVal (DStruct "RateLimiterState")).

Definition siloed_lock_release_pool_WaitForRoleGrantedEvent : EventHelper :=
  mkEventHelper "RoleGrantedEvent" (mkEventParser
    []
    [("role", "Role", EvField (DCall "SymbolFromScVal"));
     ("account", "Account", EvField (DCall "AddressFromScVal"));
     ("sender", "Sender", EvField (DCall "AddressFromScVal"))]).

Definition siloed_lock_release_pool_WaitForRoleRevokedEvent : EventHelper :=
  mkEventHelper "RoleRevokedEvent" (mkEventParser
    []
    [("role", "Role", EvField (DCall "SymbolFromScVal"));
     ("account", "Account", EvField (DCall "AddressFromScVal"));
     ("sender", "Sender", EvField (DCall "AddressFromScVal"))]).

Definition siloed_lock_release_pool_WaitForAuthorizedCallerAddedEvent : EventHelper :=
  mkEventHelper "AuthorizedCallerAddedEvent" (mkEventParser
    []
    [("caller", "Caller", EvField (DCall "AddressFromScVal"))]).

Definition siloed_lock_release_pool_WaitForAuthorizedCallerRemovedEvent : EventHelper :=
  mkEventHelper "AuthorizedCallerRemovedEvent" (mkEventParser
    []
    [("caller", "Caller", EvField (DCall "AddressFromScVal"))]).

Definition siloed_lock_release_pool_WaitForOwnershipTransferStartedEvent : EventHelper :=
  mkEventHelper "OwnershipTransferStartedEvent" (mkEventParser
    []
    [("previous_owner", "PreviousOwner", EvField (DCall "AddressFromScVal"));
     ("new_owner", "NewOwner", EvField (DCall "AddressFromScVal"))]).

Definition siloed_lock_release_pool_WaitForBurnedEvent : EventHelper :=
  mkEventHelper "BurnedEvent" (mkEventParser
    []
    [("sender", "Sender", EvField (DCall "AddressFromScVal"));
     ("amount", "Amount", EvField (DCall "I128FromScVal"))]).

Definition siloed_lock_release_pool_WaitForLockedEvent : EventHelper :=
  mkEventHelper "LockedEvent" (mkEventParser
    []
    [("sender", "Sender", EvField (DCall "AddressFromScVal"));
     ("amount", "Amount", EvField (DCall "I128FromScVal"))]).

Definition siloed_lock_release_pool_WaitForMintedEvent : EventHelper :=
  mkEventHelper "MintedEvent" (mkEventParser
    []
    [("sender", "Sender", EvField (DCall "AddressFromScVal"));
     ("recipient", "Recipient", EvField (DCall "AddressFromScVal"));
     ("amount", "Amount", EvField (DCall "I128FromScVal"))]).

Definition siloed_lock_release_pool_WaitForReleasedEvent : EventHelper :=
  mkEventHelper "ReleasedEvent" (mkEventParser
    []
    [("sender", "Sender", EvField (DCall "AddressFromScVal"));
     ("recipient", "Recipient", EvField (DCall "AddressFromScVal"));
     ("amount", "Amount", EvField (DCall "I128FromScVal"))]).

Definition siloed_lock_release_pool_WaitForChainRemovedEvent : EventHelper :=
  mkEventHelper "ChainRemovedEvent" (mkEventParser
    []
    [("remote_chain_selector", "RemoteChainSelector", EvField (DCall "Uint64FromScVal"))]).

Definition siloed_lock_release_pool_WaitForChainConfiguredEvent : EventHelper :=
  mkEventHelper "ChainConfiguredEvent" (mkEventParser
    []
    [("remote_chain_selector", "RemoteChainSelector", EvField (DCall "Uint64FromScVal"));
     ("remote_pool_addresses", "RemotePoolAddresses", EvVec TBytes (DGet "GetBytes") false);
     ("remote_token_address", "RemoteTokenAddress", EvField (DGet "GetBytes"));
     ("outbound_rate_limiter_config", "OutboundRateLimiterConfig", EvField (DStruct "RateLimitConfig"));
     ("inbound_rate_limiter_config", "InboundRateLimiterConfig", EvField (DStruct "RateLimitConfig"))]).

Definition siloed_lock_release_pool_WaitForRemotePoolAddedEvent : EventHelper :=
  mkEventHelper "RemotePoolAddedEvent" (mkEventParser
    []
    [("remote_chain_selector", "RemoteChainSelector", EvField (DCall "Uint64FromScVal"));
     ("remote_pool_address", "RemotePoolAddress", EvField (DGet "GetBytes"))]).

Definition siloed_lock_release_pool_WaitForFinalityConfigSetEvent : EventHelper :=
  mkEventHelper "FinalityConfigSetEvent" (mkEventParser
    []
    [("allowed_finality", "AllowedFinality", EvField (DGet "GetU32"))]).

Definition siloed_lock_release_pool_WaitForLockBoxConfiguredEvent : EventHelper :=
  mkEventHelper "LockBoxConfiguredEvent" (mkEventParser
    []
    [("remote_chain_selector", "RemoteChainSelector", EvField (DCall "Uint64FromScVal"));
     ("lock_box", "LockBox", EvField (DCall "AddressFromScVal"))]).

Definition siloed_lock_release_pool_WaitForRemotePoolRemovedEvent : EventHelper :=
  mkEventHelper "RemotePoolRemovedEvent" (mkEventParser
    []
    [("remote_chain_selector", "RemoteChainSelector", EvField (DCall "Uint64FromScVal"));
     ("remote_pool_address", "RemotePoolAddress", EvField (DGet "GetBytes"))]).

Definition siloed_lock_release_pool_WaitForFtfInboundConsumedEvent : EventHelper :=
  mkEventHelper "FtfInboundConsumedEvent" (mkEventParser
    []
    [("remote_chain_selector", "RemoteChainSelector", EvField (DCall "Uint64FromScVal"));
     ("amount", "Amount", EvField (DCall "I128FromScVal"))]).

Definition siloed_lock_release_pool_WaitForTokenFeeCfgDeletedEvent : EventHelper :=
  mkEventHelper "TokenFeeCfgDeletedEvent" (mkEventParser
    []
    [("remote_chain_selector", "RemoteChainSelector", EvField (DCall "Uint64FromScVal"))]).

Definition siloed_lock_release_pool_WaitForTokenFeeCfgUpdatedEvent : EventHelper :=
  mkEventHelper "TokenFeeCfgUpdatedEvent" (mkEventParser
    []
    [("remote_chain_selector", "RemoteChainSelector", EvField (DCall "Uint64FromScVal"));
     ("config", "Config", EvField (DStruct "TokenTransferFeeConfig"))]).

Definition siloed_lock_release_pool_WaitForFtfOutboundConsumedEvent : EventHelper :=
  mkEventHelper "FtfOutboundConsumedEvent" (mkEventParser
    []
    [("remote_chain_selector", "RemoteChainSelector", EvField (DCall "Uint64FromScVal"));
     ("amount", "Amount", EvField (DCall "I128FromScVal"))]).

Definition siloed_lock_release_pool_WaitForRateLimitConfiguredEvent : EventHelper :=
  mkEventHelper "RateLimitConfiguredEvent" (mkEventParser
    []
    [("remote_chain_selector", "RemoteChainSelector", EvField (DCall "Uint64FromScVal"));
     ("fast_finality", "FastFinality", EvField (DGet "GetB"));
     ("outbound_config", "OutboundConfig", EvField (DStruct "RateLimitConfig"));
     ("inbound_config", "InboundConfig", EvField (DStruct "RateLimitConfig"))]).

Definition siloed_lock_release_pool_WaitForAdvancedPoolHooksUpdatedEvent : EventHelper :=
  mkEventHelper "AdvancedPoolHooksUpdatedEvent" (mkEventParser
    []
    [("old_hooks", "OldHooks", EvField (DCall "OptionalAddressFromScVal"));
     ("new_hooks", "NewHooks", EvField (DCall "OptionalAddressFromScVal"))]).

Definition siloed_lock_release_pool_WaitForInboundRateLimitConsumedEvent : EventHelper :=
  mkEventHelper "InboundRateLimitConsumedEvent" (mkEventParser
    []
    [("remote_chain_selector", "RemoteChainSelector", EvField (DCall "Uint64FromScVal"));
     ("amount", "Amount", EvField (DCall "I128FromScVal"))]).

Definition siloed_lock_release_pool_WaitForOutboundRateLimitConsumedEvent : EventHelper :=
  mkEventHelper "OutboundRateLimitConsumedEvent" (mkEventParser
    []
    [("remote_chain_selector", "RemoteChainSelector", EvField (DCall "Uint64FromScVal"));
     ("amount", "Amount", EvField (DCall "I128FromScVal"))]).

Definition siloed_lock_release_pool_client : ClientFile :=
  mkClientFile "siloed_lock_release_pool" "SiloedLockReleasePool" true true
    [siloed_lock_release_pool_Owner; siloed_lock_release_pool_GetFee;
     siloed_lock_release_pool_Upgrade; siloed_lock_release_pool_IsOwner;
     siloed_lock_release_pool_GetToken; siloed_lock_release_pool_GetRouter;
     siloed_lock_release_pool_InitOwner; siloed_lock_release_pool_Initialize;
     siloed_lock_release_pool_SetRouter; siloed_lock_release_pool_GetLockBox;
     siloed_lock_release_pool_LockOrBurn; siloed_lock_release_pool_GetFeeAdmin;
     siloed_lock_release_pool_GetRmnProxy; siloed_lock_release_pool_RequireOwner;
     siloed_lock_release_pool_SetFeeAdmin; siloed_lock_release_pool_AddRemotePool;
     siloed_lock_release_pool_ReleaseOrMint; siloed_lock_release_pool_AcceptOwnership;
     siloed_lock_release_pool_GetRemotePools; siloed_lock_release_pool_GetRemoteToken;
     siloed_lock_release_pool_TypeAndVersion; siloed_lock_release_pool_GetPendingOwner;
     siloed_lock_release_pool_GetRampRegistry; siloed_lock_release_pool_GetRequiredCcvs;
     siloed_lock_release_pool_SetRampRegistry; siloed_lock_release_pool_GetTokenDecimals;
     siloed_lock_release_pool_IsSupportedChain; siloed_lock_release_pool_IsSupportedToken;
     siloed_lock_release_pool_RemoveRemotePool; siloed_lock_release_pool_TransferOwnership;
     siloed_lock_release_pool_ApplyChainUpdates; siloed_lock_release_pool_WithdrawFeeTokens;
     siloed_lock_release_pool_ConfigureLockBoxes; siloed_lock_release_pool_GetRateLimitAdmin;
     siloed_lock_release_pool_SetRateLimitAdmin; siloed_lock_release_pool_SetRateLimitConfig;
     siloed_lock_release_pool_GetAdvancedPoolHooks;
     siloed_lock_release_pool_SetAdvancedPoolHooks;
     siloed_lock_release_pool_GetAllLockBoxConfigs;
     siloed_lock_release_pool_CancelOwnershipTransfer;
     siloed_lock_release_pool_RemoveAdvancedPoolHooks;
     siloed_lock_release_pool_GetAllowedFinalityConfig;
     siloed_lock_release_pool_SetAllowedFinalityConfig;
     siloed_lock_release_pool_GetTokenTransferFeeConfig;
     siloed_lock_release_pool_ApplyTokenFeeConfigUpdates;
     siloed_lock_release_pool_GetCurrentRateLimiterState]
    [siloed_lock_release_pool_WaitForRoleGrantedEvent;
     siloed_lock_release_pool_WaitForRoleRevokedEvent;
     siloed_lock_release_pool_WaitForAuthorizedCallerAddedEvent;
     siloed_lock_release_pool_WaitForAuthorizedCallerRemovedEvent;
     siloed_lock_release_pool_WaitForOwnershipTransferStartedEvent;
     siloed_lock_release_pool_WaitForBurnedEvent; siloed_lock_release_pool_WaitForLockedEvent;
     siloed_lock_release_pool_WaitForMintedEvent; siloed_lock_release_pool_WaitForReleasedEvent;
     siloed_lock_release_pool_WaitForChainRemovedEvent;
     siloed_lock_release_pool_WaitForChainConfiguredEvent;
     siloed_lock_release_pool_WaitForRemotePoolAddedEvent;
     siloed_lock_release_pool_WaitForFinalityConfigSetEvent;
     siloed_lock_release_pool_WaitForLockBoxConfiguredEvent;
     siloed_lock_release_pool_WaitForRemotePoolRemovedEvent;
     siloed_lock_release_pool_WaitForFtfInboundConsumedEvent;
     siloed_lock_release_pool_WaitForTokenFeeCfgDeletedEvent;
     siloed_lock_release_pool_WaitForTokenFeeCfgUpdatedEvent;
     siloed_lock_release_pool_WaitForFtfOutboundConsumedEvent;
     siloed_lock_release_pool_WaitForRateLimitConfiguredEvent;
     siloed_lock_release_pool_WaitForAdvancedPoolHooksUpdatedEvent;
     siloed_lock_release_pool_WaitForInboundRateLimitConsumedEvent;
     siloed_lock_release_pool_WaitForOutboundRateLimitConsumedEvent].

(** ** bindings/contracts/token_pool *)

Definition token_pool_PoolRequiredCCVs : StructDecl :=
  mkStructDecl "PoolRequiredCCVs"
    [mkMember "ccvs" "Ccvs" (TSlice TString) (ECall "AddressSliceToScVal")
      (DVec TString (DCall "AddressFromScVal"));
     mkMember "include_defaults" "IncludeDefaults" TBool (ECall "BoolToScVal") (DGet "GetB")].

Definition token_pool_PoolFeeResult : StructDecl :=
  mkStructDecl "PoolFeeResult"
    [mkMember "fee_usd_cents" "FeeUsdCents" TUint32 (ECall "Uint32ToScVal") (DGet "GetU32");
     mkMember "dest_gas_overhead" "DestGasOverhead" TUint32 (ECall "Uint32ToScVal") (DGet "GetU32");
     mkMember "dest_bytes_overhead" "DestBytesOverhead" TUint32 (ECall "Uint32ToScVal") (DGet "GetU32");
     mkMember "token_fee_bps" "TokenFeeBps" TUint32 (ECall "Uint32ToScVal") (DGet "GetU32");
     mkMember "is_enabled" "IsEnabled" TBool (ECall "BoolToScVal") (DGet "GetB")].

Definition token_pool_TokenTransferFeeConfig : StructDecl :=
  mkStructDecl "TokenTransferFeeConfig"
    [mkMember "dest_gas_overhead" "DestGasOverhead" TUint32 (ECall "Uint32ToScVal") (DGet "GetU32");
     mkMember "dest_bytes_overhead" "DestBytesOverhead" TUint32 (ECall "Uint32ToScVal") (DGet "GetU32");
     mkMember "finality_fee_usd_cents" "FinalityFeeUsdCents" TUint32 (ECall "Uint32ToScVal") (DGet "GetU32");
     mkMember "fast_finality_fee_usd_cents" "FastFinalityFeeUsdCents" TUint32 (ECall "Uint32ToScVal")
       (DGet "GetU32");
     mkMember "finality_transfer_fee_bps" "FinalityTransferFeeBps" TUint32 (ECall "Uint32ToScVal")
       (DGet "GetU32");
     mkMember "fast_finality_transfer_fee_bps" "FastFinalityTransferFeeBps" TUint32 (ECall "Uint32ToScVal")
       (DGet "GetU32");
     mkMember "is_enabled" "IsEnabled" TBool (ECall "BoolToScVal") (DGet "GetB")].

Definition token_pool_TokenTransferFeeConfigArgs : StructDecl :=
  mkStructDecl "TokenTransferFeeConfigArgs"
    [mkMember "dest_chain_selector" "DestChainSelector" TUint64 (ECall "Uint64ToScVal")
      (DCall "Uint64FromScVal");
     mkMember "config" "Config" (TNamed "TokenTransferFeeConfig") EMethod (DStruct "TokenTransferFeeConfig")].

Definition token_pool_LockOrBurnIn : StructDecl :=
  mkStructDecl "LockOrBurnIn"
    [mkMember "receiver" "Receiver" TBytes (ECall "BytesToScVal") (DGet "GetBytes");
     mkMember "remote_chain_selector" "RemoteChainSelector" TUint64 (ECall "Uint64ToScVal")
       (DCall "Uint64FromScVal");
     mkMember "original_sender" "OriginalSender" TString (ECall "AddressToScVal") (DCall "AddressFromScVal");
     mkMember "amount" "Amount" TBig (ECall "I128ToScVal") (DCall "I128FromScVal");
     mkMember "local_token" "LocalToken" TString (ECall "AddressToScVal") (DCall "AddressFromScVal")].

Definition token_pool_LockOrBurnOut : StructDecl :=
  mkStructDecl "LockOrBurnOut"
    [mkMember "dest_token_address" "DestTokenAddress" TBytes (ECall "BytesToScVal") (DGet "GetBytes");
     mkMember "dest_token_amount" "DestTokenAmount" TBig (ECall "I128ToScVal") (DCall "I128FromScVal");
     mkMember "dest_pool_data" "DestPoolData" TBytes (ECall "BytesToScVal") (DGet "GetBytes")].

Definition token_pool_ReleaseOrMintIn : StructDecl :=
  mkStructDecl "ReleaseOrMintIn"
    [mkMember "original_sender" "OriginalSender" TBytes (ECall "BytesToScVal") (DGet "GetBytes");
     mkMember "remote_chain_selector" "RemoteChainSelector" TUint64 (ECall "Uint64ToScVal")
       (DCall "Uint64FromScVal");
     mkMember "receiver" "Receiver" TString (ECall "AddressToScVal") (DCall "AddressFromScVal");
     mkMember "amount" "Amount" TBig (ECall "I128ToScVal") (DCall "I128FromScVal");
     mkMember "local_token" "LocalToken" TString (ECall "AddressToScVal") (DCall "AddressFromScVal");
     mkMember "source_pool_address" "SourcePoolAddress" TBytes (ECall "BytesToScVal") (DGet "GetBytes");
     mkMember "source_pool_data" "SourcePoolData" TBytes (ECall "BytesToScVal") (DGet "GetBytes")].

Definition token_pool_ReleaseOrMintOut : StructDecl :=
  mkStructDecl "ReleaseOrMintOut"
    [mkMember "destination_amount" "DestinationAmount" TBig (ECall "I128ToScVal") (DCall "I128FromScVal")].

Definition token_pool_RateLimitConfig : StructDecl :=
  mkStructDecl "RateLimitConfig"
    [mkMember "is_enabled" "IsEnabled" TBool (ECall "BoolToScVal") (DGet "GetB");
     mkMember "capacity" "Capacity" TU128 EMethod (DCall "U128FromScVal");
     mkMember "rate" "Rate" TU128 EMethod (DCall "U128FromScVal")].

Definition token_pool_TokenBucket : StructDecl :=
  mkStructDecl "TokenBucket"
    [mkMember "tokens" "Tokens" TU128 EMethod (DCall "U128FromScVal");
     mkMember "last_updated" "LastUpdated" TUint64 (ECall "Uint64ToScVal") (DCall "Uint64FromScVal");
     mkMember "is_enabled" "IsEnabled" TBool (ECall "BoolToScVal") (DGet "GetB");
     mkMember "capacity" "Capacity" TU128 EMethod (DCall "U128FromScVal");
     mkMember "rate" "Rate" TU128 EMethod (DCall "U128FromScVal")].

Definition token_pool_RateLimiterState : StructDecl :=
  mkStructDecl "RateLimiterState"
    [mkMember "outbound" "Outbound" (TNamed "TokenBucket") EMethod (DStruct "TokenBucket");
     mkMember "inbound" "Inbound" (TNamed "TokenBucket") EMethod (DStruct "TokenBucket")].

Definition token_pool_ChainUpdate : StructDecl :=
  mkStructDecl "ChainUpdate"
    [mkMember "remote_chain_selector" "RemoteChainSelector" TUint64 (ECall "Uint64ToScVal")
      (DCall "Uint64FromScVal");
     mkMember "remote_pool_addresses" "RemotePoolAddresses" (TSlice TBytes) (ECall "BytesSliceToScVal")
       (DVec TBytes (DGet "GetBytes"));
     mkMember "remote_token_address" "RemoteTokenAddress" TBytes (ECall "BytesToScVal") (DGet "GetBytes");
     mkMember "outbound_rate_limiter_config" "OutboundRateLimiterConfig" (TNamed "RateLimitConfig") EMethod
       (DStruct "RateLimitConfig");
     mkMember "inbound_rate_limiter_config" "InboundRateLimiterConfig" (TNamed "RateLimitConfig") EMethod
       (DStruct "RateLimitConfig")].

Definition token_pool_CCIPError : ErrorDecl :=
  mkErrorDecl "CCIPError"
    [("CCIPErrorNotInitialized", 1); ("CCIPErrorAlreadyInitialized", 2);
     ("CCIPErrorUnauthorized", 3); ("CCIPErrorNotOwner", 4); ("CCIPErrorNoPendingOwner", 5);
     ("CCIPErrorCallerNotAuthorized", 6); ("CCIPErrorCallerAlreadyAuthorized", 7);
     ("CCIPErrorCallerNotFound", 8); ("CCIPErrorRoleNotGranted", 9);
     ("CCIPErrorFeatureNotEnabled", 10); ("CCIPErrorRoleAlreadyGranted", 11);
     ("CCIPErrorCannotRenounceRole", 12); ("CCIPErrorInvalidVersionTag", 13);
     ("CCIPErrorInvalidSignatureLength", 14); ("CCIPErrorInvalidSignature", 15);
     ("CCIPErrorInvalidSignatureCount", 16); ("CCIPErrorInvalidSignatureThreshold", 17);
     ("CCIPErrorInvalidSignaturePubkey", 18); ("CCIPErrorSourceSignersNotConfigured", 19);
     ("CCIPErrorInvalidVerifierResults", 20); ("CCIPErrorReentrantCall", 21);
     ("CCIPErrorTokenNotSupported", 22); ("CCIPErrorFeeTokenNotSupported", 23);
     ("CCIPErrorNoGasPriceAvailable", 24); ("CCIPErrorDestinationChainNotEnabled", 25);
     ("CCIPErrorInvalidExtraArgsTag", 26); ("CCIPErrorInvalidExtraArgsData", 27);
     ("CCIPErrorMessageGasLimitTooHigh", 28); ("CCIPErrorMessageTooLarge", 29);
     ("CCIPErrorUnsupportedNumberOfTokens", 30); ("CCIPErrorInvalidDestChainConfig", 31);
     ("CCIPErrorMessageFeeTooHigh", 32); ("CCIPErrorInvalidStaticConfig", 33);
     ("CCIPErrorInvalidTokenReceiver", 34); ("CCIPErrorSourceTokenDataTooLarge", 35);
     ("CCIPErrorInvalidDestBytesOverhead", 36); ("CCIPErrorDestinationChainNotSupported", 37);
     ("CCIPErrorMustBeCalledByRouter", 38); ("CCIPErrorRouterMustSetOriginalSender", 39);
     ("CCIPErrorCannotSendZeroTokens", 40); ("CCIPErrorCanOnlySendOneTokenPerMessage", 41);
     ("CCIPErrorUnsupportedToken", 42); ("CCIPErrorInvalidDestChainAddress", 43);
     ("CCIPErrorFeeExceedsMaxAllowed", 44); ("CCIPErrorInsufficientFeeTokenAmount", 45);
     ("CCIPErrorTokenReceiverNotAllowed", 46); ("CCIPErrorCursedByRMN", 47);
     ("CCIPErrorRemoteChainNotSupported", 48); ("CCIPErrorSenderNotAllowed", 49);
     ("CCIPErrorInvalidTokenAmount", 50); ("CCIPErrorInvalidReceiverAddress", 51);
     ("CCIPErrorInvalidConfig", 52); ("CCIPErrorInvalidVerifierResultsLength", 53);
     ("CCIPErrorInboundImplementationNotFound", 54);
     ("CCIPErrorOutboundImplementationNotFound", 55); ("CCIPErrorInvalidAddress", 56);
     ("CCIPErrorInvalidChainSelector", 57); ("CCIPErrorInvalidVersion", 58);
     ("CCIPErrorInvalidCCVVersion", 59); ("CCIPErrorOffRampAlreadyExists", 60);
     ("CCIPErrorOffRampMismatch", 61); ("CCIPErrorBadRMNSignal", 62);
     ("CCIPErrorUnsupportedDestinationChain", 63); ("CCIPErrorAlreadyCursed", 64);
     ("CCIPErrorConfigNotSet", 65); ("CCIPErrorDuplicateOnchainPublicKey", 66);
     ("CCIPErrorInvalidSignerOrder", 67); ("CCIPErrorNotEnoughSigners", 68);
     ("CCIPErrorNotCursed", 69); ("CCIPErrorOutOfOrderSignatures", 70);
     ("CCIPErrorThresholdNotMet", 71); ("CCIPErrorUnexpectedSigner", 72);
     ("CCIPErrorZeroValueNotAllowed", 73); ("CCIPErrorSourceChainNotEnabled", 100);
     ("CCIPErrorInvalidSourceChainConfig", 101); ("CCIPErrorInvalidOnRampAddress", 102);
     ("CCIPErrorInvalidOffRampAddress", 103); ("CCIPErrorInvalidMessageDestination", 104);
     ("CCIPErrorMessageAlreadyExecuted", 105); ("CCIPErrorInvalidExecutionState", 106);
     ("CCIPErrorCCVLengthMismatch", 107); ("CCIPErrorCCVQuorumNotMet", 108);
     ("CCIPErrorReceiverError", 109); ("CCIPErrorGasLimitOverrideTooLow", 110);
     ("CCIPErrorInvalidReceiverLength", 111); ("CCIPErrorTokenHandlingError", 112);
     ("CCIPErrorMessageDecodingError", 113); ("CCIPErrorReceiverDoesNotExist", 114);
     ("CCIPErrorReceiverNotWasmContract", 115); ("CCIPErrorOnlyRegistryModuleOrOwner", 201);
     ("CCIPErrorOnlyAdministrator", 202); ("CCIPErrorOnlyPendingAdministrator", 203);
     ("CCIPErrorTokenAlreadyRegistered", 204); ("CCIPErrorInvalidTokenPoolToken", 205);
     ("CCIPErrorPoolTokenMismatch", 301); ("CCIPErrorChainNotSupported", 302);
     ("CCIPErrorCallerIsNotRamp", 303); ("CCIPErrorInsufficientPoolLiquidity", 304);
     ("CCIPErrorInvalidRemotePoolAddress", 305); ("CCIPErrorInvalidRemoteChainConfig", 306);
     ("CCIPErrorInvalidRemoteChainDecimals", 307); ("CCIPErrorDecimalAmountOverflow", 308);
     ("CCIPErrorInvalidPoolTokenDecimals", 309); ("CCIPErrorBucketOverfilled", 310);
     ("CCIPErrorTokenMaxCapacityExceeded", 311); ("CCIPErrorTokenRateLimitReached", 312);
     ("CCIPErrorInvalidRateLimitRate", 313); ("CCIPErrorDisabledNonZeroRateLimit", 314);
     ("CCIPErrorInvalidRequestedFinality", 315);
     ("CCIPErrorRequestedFinalityCanOnlyHaveOneMode", 316);
     ("CCIPErrorRouterNotConfigured", 318); ("CCIPErrorInvalidSourcePoolAddress", 319);
     ("CCIPErrorInvalidTokenTransferFeeConfig", 321); ("CCIPErrorInvalidTransferFeeBps", 322);
     ("CCIPErrorInvalidFeeCalculation", 801); ("CCIPErrorInvalidFeeTokenConversion", 802)]
    [(1, "not initialized"); (2, "already initialized"); (3, "unauthorized"); (4, "not owner");
     (5, "no pending owner"); (6, "caller not authorized"); (7, "caller already authorized");
     (8, "caller not found"); (9, "role not granted"); (10, "feature not enabled");
     (11, "role already granted"); (12, "cannot renounce role"); (13, "invalid version tag");
     (14, "invalid signature length"); (15, "invalid signature");
     (16, "invalid signature count"); (17, "invalid signature threshold");
     (18, "invalid signature pubkey"); (19, "source signers not configured");
     (20, "invalid verifier results"); (21, "reentrant call"); (22, "token not supported");
     (23, "fee token not supported"); (24, "no gas price available");
     (25, "destination chain not enabled"); (26, "invalid extra args tag");
     (27, "invalid extra args data"); (28, "message gas limit too high");
     (29, "message too large"); (30, "unsupported number of tokens");
     (31, "invalid dest chain config"); (32, "message fee too high");
     (33, "invalid static config"); (34, "invalid token receiver");
     (35, "source token data too large"); (36, "invalid dest bytes overhead");
     (37, "destination chain not supported"); (38, "must be called by router");
     (39, "router must set original sender"); (40, "cannot send zero tokens");
     (41, "can only send one token per message"); (42, "unsupported token");
     (43, "invalid dest chain address"); (44, "fee exceeds max allowed");
     (45, "insufficient fee token amount"); (46, "token receiver not allowed");
     (47, "cursed by r m n"); (48, "remote chain not supported"); (49, "sender not allowed");
     (50, "invalid token amount"); (51, "invalid receiver address"); (52, "invalid config");
     (53, "invalid verifier results length"); (54, "inbound implementation not found");
     (55, "outbound implementation not found"); (56, "invalid address");
     (57, "invalid chain selector"); (58, "invalid version"); (59, "invalid c c v version");
     (60, "off ramp already exists"); (61, "off ramp mismatch"); (62, "bad r m n signal");
     (63, "unsupported destination chain"); (64, "already cursed"); (65, "config not set");
     (66, "duplicate onchain public key"); (67, "invalid signer order");
     (68, "not enough signers"); (69, "not cursed"); (70, "out of order signatures");
     (71, "threshold not met"); (72, "unexpected signer"); (73, "zero value not allowed");
     (100, "source chain not enabled"); (101, "invalid source chain config");
     (102, "invalid on ramp address"); (103, "invalid off ramp address");
     (104, "invalid message destination"); (105, "message already executed");
     (106, "invalid execution state"); (107, "c c v length mismatch");
     (108, "c c v quorum not met"); (109, "receiver error");
     (110, "gas limit override too low"); (111, "invalid receiver length");
     (112, "token handling error"); (113, "message decoding error");
     (114, "receiver does not exist"); (115, "receiver not wasm contract");
     (201, "only registry module or owner"); (202, "only administrator");
     (203, "only pending administrator"); (204, "token already registered");
     (205, "invalid token pool token"); (301, "pool token mismatch");
     (302, "chain not supported"); (303, "caller is not ramp");
     (304, "insufficient pool liquidity"); (305, "invalid remote pool address");
     (306, "invalid remote chain config"); (307, "invalid remote chain decimals");
     (308, "decimal amount overflow"); (309, "invalid pool token decimals");
     (310, "bucket overfilled"); (311, "token max capacity exceeded");
     (312, "token rate limit reached"); (313, "invalid rate limit rate");
     (314, "disabled non zero rate limit"); (315, "invalid requested finality");
     (316, "requested finality can only have one mode"); (318, "router not configured");
     (319, "invalid source pool address"); (321, "invalid token transfer fee config");
     (322, "invalid transfer fee bps"); (801, "invalid fee calculation");
     (802, "invalid fee token conversion")].

Definition token_pool_MessageDirection : EnumDecl :=
  UnionEnum "MessageDirection"
    [mkVariantDecl "Outbound" [];
     mkVariantDecl "Inbound" []].

Definition token_pool_types : TypesFile :=
  mkTypesFile "token_pool" (mkImports true true true true)
    [token_pool_PoolRequiredCCVs; token_pool_PoolFeeResult; token_pool_TokenTransferFeeConfig;
     token_pool_TokenTransferFeeConfigArgs; token_pool_LockOrBurnIn; token_pool_LockOrBurnOut;
     token_pool_ReleaseOrMintIn; token_pool_ReleaseOrMintOut; token_pool_RateLimitConfig;
     token_pool_TokenBucket; token_pool_RateLimiterState; token_pool_ChainUpdate]
    [token_pool_CCIPError]
    []
    [token_pool_MessageDirection].

Definition token_pool_Initialize : Method :=
  mkMethod "Initialize" [("owner", TString); ("token", TString); ("tokenDecimals", TUint32);
    ("router", TString);
     ("rampRegistry", TString); ("rmnProxy", TString)] [] ""
    false "initialize" [ECall "AddressToScVal"; ECall "AddressToScVal"; ECall "Uint32ToScVal"; ECall
      "AddressToScVal"; ECall "AddressToScVal"; ECall "AddressToScVal"] RVoid.

Definition token_pool_TypeAndVersion : Method :=
  mkMethod "TypeAndVersion" [] [TString] empty_literal
    false "type_and_version" [] (RVal (DCall "StringFromScVal")).

Definition token_pool_LockOrBurn : Method :=
  mkMethod "LockOrBurn" [("caller", TString); ("input", TNamed "LockOrBurnIn"); ("requestedFinality", TUint32);
     ("tokenArgs", TBytes)] [TPtr (TNamed "LockOrBurnOut")] "nil"
    false "lock_or_burn" [ECall "AddressToScVal"; EMethodOf; ECall "Uint32ToScVal"; ECall "BytesToScVal"]
      (RVal (DStruct "LockOrBurnOut")).

Definition token_pool_ReleaseOrMint : Method :=
  mkMethod "ReleaseOrMint" [("caller", TString); ("input", TNamed "ReleaseOrMintIn");
    ("requestedFinality", TUint32)] [TPtr (TNamed "ReleaseOrMintOut")] "nil"
    false "release_or_mint" [ECall "AddressToScVal"; EMethodOf; ECall "Uint32ToScVal"]
      (RVal (DStruct "ReleaseOrMintOut")).

Definition token_pool_GetFee : Method :=
  mkMethod "GetFee" [("destChainSelector", TUint64); ("amount", TBig); ("requestedFinality", TUint32);
     ("tokenArgs", TBytes)] [TPtr (TNamed "PoolFeeResult")] "nil"
    true "get_fee" [ECall "Uint64ToScVal"; ECall "I128ToScVal"; ECall "Uint32ToScVal"; ECall "BytesToScVal"]
      (RVal (DStruct "PoolFeeResult")).

Definition token_pool_GetTokenTransferFeeConfig : Method :=
  mkMethod "GetTokenTransferFeeConfig" [("destChainSelector", TUint64)]
    [TPtr (TNamed "TokenTransferFeeConfig")] "nil"
    true "get_token_transfer_fee_config" [ECall "Uint64ToScVal"] (RVal (DStruct "TokenTransferFeeConfig")).

Definition token_pool_ApplyTokenFeeConfigUpdates : Method :=
  mkMethod "ApplyTokenFeeConfigUpdates"
    [("adds", TSlice (TNamed "TokenTransferFeeConfigArgs")); ("disables", TSlice TUint64)] [] ""
    false "apply_token_fee_config_updates" [ECall "StructSliceToScVal"; ECall "Uint64SliceToScVal"] RVoid.

Definition token_pool_WithdrawFeeTokens : Method :=
  mkMethod "WithdrawFeeTokens" [("caller", TString); ("feeTokens", TSlice TString); ("recipient", TString)] []
    ""
    false "withdraw_fee_tokens" [ECall "AddressToScVal"; ECall "AddressSliceToScVal"; ECall "AddressToScVal"]
      RVoid.

Definition token_pool_SetFeeAdmin : Method :=
  mkMethod "SetFeeAdmin" [("feeAdmin", TString)] [] ""
    false "set_fee_admin" [ECall "AddressToScVal"] RVoid.

Definition token_pool_GetFeeAdmin : Method :=
  mkMethod "GetFeeAdmin" [] [TPtr TString] "nil"
    true "get_fee_admin" [] (RVal (DCall "OptionalAddressFromScVal")).

Definition token_pool_IsSupportedToken : Method :=
  mkMethod "IsSupportedToken" [("token", TString)] [TBool] "false"
    true "is_supported_token" [ECall "AddressToScVal"] (RVal (DGet "GetB")).

Definition token_pool_IsSupportedChain : Method :=
  mkMethod "IsSupportedChain" [("remoteChainSelector", TUint64)] [TBool] "false"
    true "is_supported_chain" [ECall "Uint64ToScVal"] (RVal (DGet "GetB")).

Definition token_pool_GetToken : Method :=
  mkMethod "GetToken" [] [TString] empty_literal
    true "get_token" [] (RVal (DCall "AddressFromScVal")).

Definition token_pool_GetTokenDecimals : Method :=
  mkMethod "GetTokenDecimals" [] [TUint32] "0"
    true "get_token_decimals" [] (RVal (DGet "GetU32")).

Definition token_pool_AddRemotePool : Method :=
  mkMethod "AddRemotePool" [("remoteChainSelector", TUint64); ("remotePoolAddress", TBytes)] [] ""
    false "add_remote_pool" [ECall "Uint64ToScVal"; ECall "BytesToScVal"] RVoid.

Definition token_pool_RemoveRemotePool : Method :=
  mkMethod "RemoveRemotePool" [("remoteChainSelector", TUint64); ("remotePoolAddress", TBytes)] [] ""
    false "remove_remote_pool" [ECall "Uint64ToScVal"; ECall "BytesToScVal"] RVoid.

Definition token_pool_GetRemotePools : Method :=
  mkMethod "GetRemotePools" [("remoteChainSelector", TUint64)] [TSlice TBytes] "nil"
    true "get_remote_pools" [ECall "Uint64ToScVal"] (RVal (DVec TBytes (DGet "GetBytes"))).

Definition token_pool_GetRemoteToken : Method :=
  mkMethod "GetRemoteToken" [("remoteChainSelector", TUint64)] [TBytes] "nil"
    true "get_remote_token" [ECall "Uint64ToScVal"] (RVal (DGet "GetBytes")).

Definition token_pool_ApplyChainUpdates : Method :=
  mkMethod "ApplyChainUpdates" [("adds", TSlice (TNamed "ChainUpdate")); ("removes", TSlice TUint64)] [] ""
    false "apply_chain_updates" [ECall "StructSliceToScVal"; ECall "Uint64SliceToScVal"] RVoid.

Definition token_pool_SetRateLimitConfig : Method :=
  mkMethod "SetRateLimitConfig" [("caller", TString); ("remoteChainSelector", TUint64);
     ("outboundConfig", TNamed "RateLimitConfig"); ("inboundConfig", TNamed "RateLimitConfig");
     ("fastFinality", TBool)] [] ""
    false "set_rate_limit_config" [ECall "AddressToScVal"; ECall "Uint64ToScVal"; EMethodOf; EMethodOf; ECall
      "BoolToScVal"] RVoid.

Definition token_pool_SetRateLimitAdmin : Method :=
  mkMethod "SetRateLimitAdmin" [("admin", TString)] [] ""
    false "set_rate_limit_admin" [ECall "AddressToScVal"] RVoid.

Definition token_pool_GetCurrentRateLimiterState : Method :=
  mkMethod "GetCurrentRateLimiterState" [("remoteChainSelector", TUint64); ("fastFinality", TBool)]
    [TPtr (TNamed "RateLimiterState")] "nil"
    true "get_current_rate_limiter_state" [ECall "Uint64ToScVal"; ECall "BoolToScVal"]
      (RVal (DStruct "RateLimiterState")).

Definition token_pool_GetRateLimitAdmin : Method :=
  mkMethod "GetRateLimitAdmin" [] [TPtr TString] "nil"
    true "get_rate_limit_admin" [] (RVal (DCall "OptionalAddressFromScVal")).

Definition token_pool_SetAllowedFinalityConfig : Method :=
  mkMethod "SetAllowedFinalityConfig" [("allowedFinality", TUint32)] [] ""
    false "set_allowed_finality_config" [ECall "Uint32ToScVal"] RVoid.

Definition token_pool_GetAllowedFinalityConfig : Method :=
  mkMethod "GetAllowedFinalityConfig" [] [TUint32] "0"
    true "get_allowed_finality_config" [] (RVal (DGet "GetU32")).

Definition token_pool_GetAdvancedPoolHooks : Method :=
  mkMethod "GetAdvancedPoolHooks" [] [TPtr TString] "nil"
    true "get_advanced_pool_hooks" [] (RVal (DCall "OptionalAddressFromScVal")).

Definition token_pool_SetAdvancedPoolHooks : Method :=
  mkMethod "SetAdvancedPoolHooks" [("hooks", TString)] [] ""
    false "set_advanced_pool_hooks" [ECall "AddressToScVal"] RVoid.

Definition token_pool_RemoveAdvancedPoolHooks : Method :=
  mkMethod "RemoveAdvancedPoolHooks" [] [] ""
    false "remove_advanced_pool_hooks" [] RVoid.

Definition token_pool_GetRequiredCcvs : Method :=
  mkMethod "GetRequiredCcvs" [("localToken", TString); ("remoteChainSelector", TUint64); ("amount", TBig);
     ("requestedFinality", TUint32); ("extraData", TBytes);
     ("direction", TNamed "MessageDirection")] [TPtr (TNamed "PoolRequiredCCVs")] "nil"
    true "get_required_ccvs" [ECall "AddressToScVal"; ECall "Uint64ToScVal"; ECall "I128ToScVal"; ECall
      "Uint32ToScVal"; ECall "BytesToScVal"; EMethodOf] (RVal (DStruct "PoolRequiredCCVs")).

Definition token_pool_SetRouter : Method :=
  mkMethod "SetRouter" [("router", TString)] [] ""
    false "set_router" [ECall "AddressToScVal"] RVoid.

Definition token_pool_GetRouter : Method :=
  mkMethod "GetRouter" [] [TPtr TString] "nil"
    true "get_router" [] (RVal (DCall "OptionalAddressFromScVal")).

Definition token_pool_SetRampRegistry : Method :=
  mkMethod "SetRampRegistry" [("rampRegistry", TString)] [] ""
    false "set_ramp_registry" [ECall "AddressToScVal"] RVoid.

Definition token_pool_GetRampRegistry : Method :=
  mkMethod "GetRampRegistry" [] [TPtr TString] "nil"
    true "get_ramp_registry" [] (RVal (DCall "OptionalAddressFromScVal")).

Definition token_pool_GetRmnProxy : Method :=
  mkMethod "GetRmnProxy" [] [TPtr TString] "nil"
    true "get_rmn_proxy" [] (RVal (DCall "OptionalAddressFromScVal")).

Definition token_pool_client : ClientFile :=
  mkClientFile "token_pool" "TokenPool" true false
    [token_pool_Initialize; token_pool_TypeAndVersion; token_pool_LockOrBurn;
     token_pool_ReleaseOrMint; token_pool_GetFee; token_pool_GetTokenTransferFeeConfig;
     token_pool_ApplyTokenFeeConfigUpdates; token_pool_WithdrawFeeTokens;
     token_pool_SetFeeAdmin; token_pool_GetFeeAdmin; token_pool_IsSupportedToken;
     token_pool_IsSupportedChain; token_pool_GetToken; token_pool_GetTokenDecimals;
     token_pool_AddRemotePool; token_pool_RemoveRemotePool; token_pool_GetRemotePools;
     token_pool_GetRemoteToken; token_pool_ApplyChainUpdates; token_pool_SetRateLimitConfig;
     token_pool_SetRateLimitAdmin; token_pool_GetCurrentRateLimiterState;
     token_pool_GetRateLimitAdmin; token_pool_SetAllowedFinalityConfig;
     token_pool_GetAllowedFinalityConfig; token_pool_GetAdvancedPoolHooks;
     token_pool_SetAdvancedPoolHooks; token_pool_RemoveAdvancedPoolHooks;
     token_pool_GetRequiredCcvs; token_pool_SetRouter; token_pool_GetRouter;
     token_pool_SetRampRegistry; token_pool_GetRampRegistry; token_pool_GetRmnProxy]
    [].

(** ** bindings/contracts/token_lock_box *)

Definition token_lock_box_CCIPError : ErrorDecl :=
  mkErrorDecl "CCIPError"
    [("CCIPErrorNotInitialized", 1); ("CCIPErrorAlreadyInitialized", 2);
     ("CCIPErrorUnauthorized", 3); ("CCIPErrorNotOwner", 4); ("CCIPErrorNoPendingOwner", 5);
     ("CCIPErrorCallerNotAuthorized", 6); ("CCIPErrorCallerAlreadyAuthorized", 7);
     ("CCIPErrorCallerNotFound", 8); ("CCIPErrorRoleNotGranted", 9);
     ("CCIPErrorFeatureNotEnabled", 10); ("CCIPErrorRoleAlreadyGranted", 11);
     ("CCIPErrorCannotRenounceRole", 12); ("CCIPErrorInvalidVersionTag", 13);
     ("CCIPErrorInvalidSignatureLength", 14); ("CCIPErrorInvalidSignature", 15);
     ("CCIPErrorInvalidSignatureCount", 16); ("CCIPErrorInvalidSignatureThreshold", 17);
     ("CCIPErrorInvalidSignaturePubkey", 18); ("CCIPErrorSourceSignersNotConfigured", 19);
     ("CCIPErrorInvalidVerifierResults", 20); ("CCIPErrorReentrantCall", 21);
     ("CCIPErrorTokenNotSupported", 22); ("CCIPErrorFeeTokenNotSupported", 23);
     ("CCIPErrorNoGasPriceAvailable", 24); ("CCIPErrorDestinationChainNotEnabled", 25);
     ("CCIPErrorInvalidExtraArgsTag", 26); ("CCIPErrorInvalidExtraArgsData", 27);
     ("CCIPErrorMessageGasLimitTooHigh", 28); ("CCIPErrorMessageTooLarge", 29);
     ("CCIPErrorUnsupportedNumberOfTokens", 30); ("CCIPErrorInvalidDestChainConfig", 31);
     ("CCIPErrorMessageFeeTooHigh", 32); ("CCIPErrorInvalidStaticConfig", 33);
     ("CCIPErrorInvalidTokenReceiver", 34); ("CCIPErrorSourceTokenDataTooLarge", 35);
     ("CCIPErrorInvalidDestBytesOverhead", 36); ("CCIPErrorDestinationChainNotSupported", 37);
     ("CCIPErrorMustBeCalledByRouter", 38); ("CCIPErrorRouterMustSetOriginalSender", 39);
     ("CCIPErrorCannotSendZeroTokens", 40); ("CCIPErrorCanOnlySendOneTokenPerMessage", 41);
     ("CCIPErrorUnsupportedToken", 42); ("CCIPErrorInvalidDestChainAddress", 43);
     ("CCIPErrorFeeExceedsMaxAllowed", 44); ("CCIPErrorInsufficientFeeTokenAmount", 45);
     ("CCIPErrorTokenReceiverNotAllowed", 46); ("CCIPErrorCursedByRMN", 47);
     ("CCIPErrorRemoteChainNotSupported", 48); ("CCIPErrorSenderNotAllowed", 49);
     ("CCIPErrorInvalidTokenAmount", 50); ("CCIPErrorInvalidReceiverAddress", 51);
     ("CCIPErrorInvalidConfig", 52); ("CCIPErrorInvalidVerifierResultsLength", 53);
     ("CCIPErrorInboundImplementationNotFound", 54);
     ("CCIPErrorOutboundImplementationNotFound", 55); ("CCIPErrorInvalidAddress", 56);
     ("CCIPErrorInvalidChainSelector", 57); ("CCIPErrorInvalidVersion", 58);
     ("CCIPErrorInvalidCCVVersion", 59); ("CCIPErrorOffRampAlreadyExists", 60);
     ("CCIPErrorOffRampMismatch", 61); ("CCIPErrorBadRMNSignal", 62);
     ("CCIPErrorUnsupportedDestinationChain", 63); ("CCIPErrorAlreadyCursed", 64);
     ("CCIPErrorConfigNotSet", 65); ("CCIPErrorDuplicateOnchainPublicKey", 66);
     ("CCIPErrorInvalidSignerOrder", 67); ("CCIPErrorNotEnoughSigners", 68);
     ("CCIPErrorNotCursed", 69); ("CCIPErrorOutOfOrderSignatures", 70);
     ("CCIPErrorThresholdNotMet", 71); ("CCIPErrorUnexpectedSigner", 72);
     ("CCIPErrorZeroValueNotAllowed", 73); ("CCIPErrorSourceChainNotEnabled", 100);
     ("CCIPErrorInvalidSourceChainConfig", 101); ("CCIPErrorInvalidOnRampAddress", 102);
     ("CCIPErrorInvalidOffRampAddress", 103); ("CCIPErrorInvalidMessageDestination", 104);
     ("CCIPErrorMessageAlreadyExecuted", 105); ("CCIPErrorInvalidExecutionState", 106);
     ("CCIPErrorCCVLengthMismatch", 107); ("CCIPErrorCCVQuorumNotMet", 108);
     ("CCIPErrorReceiverError", 109); ("CCIPErrorGasLimitOverrideTooLow", 110);
     ("CCIPErrorInvalidReceiverLength", 111); ("CCIPErrorTokenHandlingError", 112);
     ("CCIPErrorMessageDecodingError", 113); ("CCIPErrorReceiverDoesNotExist", 114);
     ("CCIPErrorReceiverNotWasmContract", 115); ("CCIPErrorRequiredCCVMissing", 116);
     ("CCIPErrorInvalidOptionalThreshold", 117); ("CCIPErrorOptionalCCVQuorumNotReached", 118);
     ("CCIPErrorNoStateProgressMade", 119); ("CCIPErrorOnlyRegistryModuleOrOwner", 201);
     ("CCIPErrorOnlyAdministrator", 202); ("CCIPErrorOnlyPendingAdministrator", 203);
     ("CCIPErrorTokenAlreadyRegistered", 204); ("CCIPErrorInvalidTokenPoolToken", 205);
     ("CCIPErrorPoolTokenMismatch", 301); ("CCIPErrorChainNotSupported", 302);
     ("CCIPErrorCallerIsNotRamp", 303); ("CCIPErrorInsufficientPoolLiquidity", 304);
     ("CCIPErrorInvalidRemotePoolAddress", 305); ("CCIPErrorInvalidRemoteChainConfig", 306);
     ("CCIPErrorInvalidRemoteChainDecimals", 307); ("CCIPErrorDecimalAmountOverflow", 308);
     ("CCIPErrorInvalidPoolTokenDecimals", 309); ("CCIPErrorBucketOverfilled", 310);
     ("CCIPErrorTokenMaxCapacityExceeded", 311); ("CCIPErrorTokenRateLimitReached", 312);
     ("CCIPErrorInvalidRateLimitRate", 313); ("CCIPErrorDisabledNonZeroRateLimit", 314);
     ("CCIPErrorInvalidRequestedFinality", 315);
     ("CCIPErrorRequestedFinalityCanOnlyHaveOneMode", 316);
     ("CCIPErrorInvalidChainForClient", 317); ("CCIPErrorRouterNotConfigured", 318);
     ("CCIPErrorInvalidSourcePoolAddress", 319); ("CCIPErrorDuplicateCCVNotAllowed", 320);
     ("CCIPErrorInvalidTokenTransferFeeConfig", 321); ("CCIPErrorInvalidTransferFeeBps", 322);
     ("CCIPErrorInvalidAllowListRequest", 323); ("CCIPErrorInvalidFeeCalculation", 801);
     ("CCIPErrorInvalidFeeTokenConversion", 802); ("CCIPErrorZeroFeeAggregatorNotAllowed", 803);
     ("CCIPErrorExceedsMaxCCVs", 804); ("CCIPErrorCCVNotAllowed", 805);
     ("CCIPErrorPolicyEngineDetachReverted", 806); ("CCIPErrorUnsupportedSelector", 807);
     ("CCIPErrorZeroAddressNotAllowed", 808)]
    [(1, "not initialized"); (2, "already initialized"); (3, "unauthorized"); (4, "not owner");
     (5, "no pending owner"); (6, "caller not authorized"); (7, "caller already authorized");
     (8, "caller not found"); (9, "role not granted"); (10, "feature not enabled");
     (11, "role already granted"); (12, "cannot renounce role"); (13, "invalid version tag");
     (14, "invalid signature length"); (15, "invalid signature");
     (16, "invalid signature count"); (17, "invalid signature threshold");
     (18, "invalid signature pubkey"); (19, "source signers not configured");
     (20, "invalid verifier results"); (21, "reentrant call"); (22, "token not supported");
     (23, "fee token not supported"); (24, "no gas price available");
     (25, "destination chain not enabled"); (26, "invalid extra args tag");
     (27, "invalid extra args data"); (28, "message gas limit too high");
     (29, "message too large"); (30, "unsupported number of tokens");
     (31, "invalid dest chain config"); (32, "message fee too high");
     (33, "invalid static config"); (34, "invalid token receiver");
     (35, "source token data too large"); (36, "invalid dest bytes overhead");
     (37, "destination chain not supported"); (38, "must be called by router");
     (39, "router must set original sender"); (40, "cannot send zero tokens");
     (41, "can only send one token per message"); (42, "unsupported token");
     (43, "invalid dest chain address"); (44, "fee exceeds max allowed");
     (45, "insufficient fee token amount"); (46, "token receiver not allowed");
     (47, "cursed by r m n"); (48, "remote chain not supported"); (49, "sender not allowed");
     (50, "invalid token amount"); (51, "invalid receiver address"); (52, "invalid config");
     (53, "invalid verifier results length"); (54, "inbound implementation not found");
     (55, "outbound implementation not found"); (56, "invalid address");
     (57, "invalid chain selector"); (58, "invalid version"); (59, "invalid c c v version");
     (60, "off ramp already exists"); (61, "off ramp mismatch"); (62, "bad r m n signal");
     (63, "unsupported destination chain"); (64, "already cursed"); (65, "config not set");
     (66, "duplicate onchain public key"); (67, "invalid signer order");
     (68, "not enough signers"); (69, "not cursed"); (70, "out of order signatures");
     (71, "threshold not met"); (72, "unexpected signer"); (73, "zero value not allowed");
     (100, "source chain not enabled"); (101, "invalid source chain config");
     (102, "invalid on ramp address"); (103, "invalid off ramp address");
     (104, "invalid message destination"); (105, "message already executed");
     (106, "invalid execution state"); (107, "c c v length mismatch");
     (108, "c c v quorum not met"); (109, "receiver error");
     (110, "gas limit override too low"); (111, "invalid receiver length");
     (112, "token handling error"); (113, "message decoding error");
     (114, "receiver does not exist"); (115, "receiver not wasm contract");
     (116, "required c c v missing"); (117, "invalid optional threshold");
     (118, "optional c c v quorum not reached"); (119, "no state progress made");
     (201, "only registry module or owner"); (202, "only administrator");
     (203, "only pending administrator"); (204, "token already registered");
     (205, "invalid token pool token"); (301, "pool token mismatch");
     (302, "chain not supported"); (303, "caller is not ramp");
     (304, "insufficient pool liquidity"); (305, "invalid remote pool address");
     (306, "invalid remote chain config"); (307, "invalid remote chain decimals");
     (308, "decimal amount overflow"); (309, "invalid pool token decimals");
     (310, "bucket overfilled"); (311, "token max capacity exceeded");
     (312, "token rate limit reached"); (313, "invalid rate limit rate");
     (314, "disabled non zero rate limit"); (315, "invalid requested finality");
     (316, "requested finality can only have one mode"); (317, "invalid chain for client");
     (318, "router not configured"); (319, "invalid source pool address");
     (320, "duplicate c c v not allowed"); (321, "invalid token transfer fee config");
     (322, "invalid transfer fee bps"); (323, "invalid allow list request");
     (801, "invalid fee calculation"); (802, "invalid fee token conversion");
     (803, "zero fee aggregator not allowed"); (804, "exceeds max c c vs");
     (805, "c c v not allowed"); (806, "policy engine detach reverted");
     (807, "unsupported selector"); (808, "zero address not allowed")].

Definition token_lock_box_RoleGrantedEvent : EventDecl :=
  mkEventDecl "RoleGrantedEvent"
    [("Role", TString); ("Account", TString); ("Sender", TString); ("Ledger", TUint32);
     ("TxHash", TString)]
    (Some "auth_RoleGranted").

Definition token_lock_box_RoleRevokedEvent : EventDecl :=
  mkEventDecl "RoleRevokedEvent"
    [("Role", TString); ("Account", TString); ("Sender", TString); ("Ledger", TUint32);
     ("TxHash", TString)]
    (Some "auth_RoleRevoked").

Definition token_lock_box_AuthorizedCallerAddedEvent : EventDecl :=
  mkEventDecl "AuthorizedCallerAddedEvent"
    [("Caller", TString); ("Ledger", TUint32); ("TxHash", TString)]
    (Some "auth_CallerAdded").

Definition token_lock_box_AuthorizedCallerRemovedEvent : EventDecl :=
  mkEventDecl "AuthorizedCallerRemovedEvent"
    [("Caller", TString); ("Ledger", TUint32); ("TxHash", TString)]
    (Some "auth_CallerRemoved").

Definition token_lock_box_OwnershipTransferStartedEvent : EventDecl :=
  mkEventDecl "OwnershipTransferStartedEvent"
    [("PreviousOwner", TString); ("NewOwner", TString); ("Ledger", TUint32);
     ("TxHash", TString)]
    (Some "auth_OwnerTransferStart").

Definition token_lock_box_DepositEvent : EventDecl :=
  mkEventDecl "DepositEvent"
    [("Token", TString); ("Depositor", TString); ("Amount", TBig); ("Ledger", TUint32);
     ("TxHash", TString)]
    (Some "lockbox_Deposit").

Definition token_lock_box_WithdrawalEvent : EventDecl :=
  mkEventDecl "WithdrawalEvent"
    [("Token", TString); ("Recipient", TString); ("Amount", TBig); ("Ledger", TUint32);
     ("TxHash", TString)]
    (Some "lockbox_Withdrawal").

Definition token_lock_box_types : TypesFile :=
  mkTypesFile "token_lock_box" (mkImports false false false true)
    []
    [token_lock_box_CCIPError]
    [token_lock_box_RoleGrantedEvent; token_lock_box_RoleRevokedEvent;
     token_lock_box_AuthorizedCallerAddedEvent; token_lock_box_AuthorizedCallerRemovedEvent;
     token_lock_box_OwnershipTransferStartedEvent; token_lock_box_DepositEvent;
     token_lock_box_WithdrawalEvent]
    [].

Definition token_lock_box_Owner : Method :=
  mkMethod "Owner" [] [TPtr TString] "nil"
    true "owner" [] (RVal (DCall "OptionalAddressFromScVal")).

Definition token_lock_box_Deposit : Method :=
  mkMethod "Deposit" [("caller", TString); ("amount", TBig)] [] ""
    false "deposit" [ECall "AddressToScVal"; ECall "I128ToScVal"] RVoid.

Definition token_lock_box_Upgrade : Method :=
  mkMethod "Upgrade" [("newWasmHash", TArray "32")] [] ""
    false "upgrade" [ECall "Bytes32ToScVal"] RVoid.

Definition token_lock_box_IsOwner : Method :=
  mkMethod "IsOwner" [("addr", TString)] [TBool] "false"
    true "is_owner" [ECall "AddressToScVal"] (RVal (DGet "GetB")).

Definition token_lock_box_Withdraw : Method :=
  mkMethod "Withdraw" [("caller", TString); ("amount", TBig); ("recipient", TString)] [] ""
    false "withdraw" [ECall "AddressToScVal"; ECall "I128ToScVal"; ECall "AddressToScVal"] RVoid.

Definition token_lock_box_GetToken : Method :=
  mkMethod "GetToken" [] [TString] empty_literal
    true "get_token" [] (RVal (DCall "AddressFromScVal")).

Definition token_lock_box_InitOwner : Method :=
  mkMethod "InitOwner" [("owner", TString)] [] ""
    false "init_owner" [ECall "AddressToScVal"] RVoid.

Definition token_lock_box_Initialize : Method :=
  mkMethod "Initialize" [("owner", TString); ("token", TString)] [] ""
    false "initialize" [ECall "AddressToScVal"; ECall "AddressToScVal"] RVoid.

Definition token_lock_box_RequireOwner : Method :=
  mkMethod "RequireOwner" [] [TString] empty_literal
    false "require_owner" [] (RVal (DCall "AddressFromScVal")).

Definition token_lock_box_AcceptOwnership : Method :=
  mkMethod "AcceptOwnership" [] [] ""
    false "accept_ownership" [] RVoid.

Definition token_lock_box_GetPendingOwner : Method :=
  mkMethod "GetPendingOwner" [] [TPtr TString] "nil"
    true "get_pending_owner" [] (RVal (DCall "OptionalAddressFromScVal")).

Definition token_lock_box_IsTokenSupported : Method :=
  mkMethod "IsTokenSupported" [("token", TString)] [TBool] "false"
    true "is_token_supported" [ECall "AddressToScVal"] (RVal (DGet "GetB")).

Definition token_lock_box_TransferOwnership : Method :=
  mkMethod "TransferOwnership" [("newOwner", TString)] [] ""
    false "transfer_ownership" [ECall "AddressToScVal"] RVoid.

Definition token_lock_box_AddAllowedCallers : Method :=
  mkMethod "AddAllowedCallers" [("callers", TSlice TString)] [] ""
    false "add_allowed_callers" [ECall "AddressSliceToScVal"] RVoid.

Definition token_lock_box_GetAllowedCallers : Method :=
  mkMethod "GetAllowedCallers" [] [TSlice TString] "nil"
    true "get_allowed_callers" [] (RVal (DVec TString (DCall "AddressFromScVal"))).

Definition token_lock_box_RemoveAllowedCallers : Method :=
  mkMethod "RemoveAllowedCallers" [("callers", TSlice TString)] [] ""
    false "remove_allowed_callers" [ECall "AddressSliceToScVal"] RVoid.

Definition token_lock_box_CancelOwnershipTransfer : Method :=
  mkMethod "CancelOwnershipTransfer" [] [] ""
    false "cancel_ownership_transfer" [] RVoid.

Definition token_lock_box_WaitForRoleGrantedEvent : EventHelper :=
  mkEventHelper "RoleGrantedEvent" (mkEventParser
    []
    [("role", "Role", EvField (DCall "SymbolFromScVal"));
     ("account", "Account", EvField (DCall "AddressFromScVal"));
     ("sender", "Sender", EvField (DCall "AddressFromScVal"))]).

Definition token_lock_box_WaitForRoleRevokedEvent : EventHelper :=
  mkEventHelper "RoleRevokedEvent" (mkEventParser
    []
    [("role", "Role", EvField (DCall "SymbolFromScVal"));
     ("account", "Account", EvField (DCall "AddressFromScVal"));
     ("sender", "Sender", EvField (DCall "AddressFromScVal"))]).

Definition token_lock_box_WaitForAuthorizedCallerAddedEvent : EventHelper :=
  mkEventHelper "AuthorizedCallerAddedEvent" (mkEventParser
    []
    [("caller", "Caller", EvField (DCall "AddressFromScVal"))]).

Definition token_lock_box_WaitForAuthorizedCallerRemovedEvent : EventHelper :=
  mkEventHelper "AuthorizedCallerRemovedEvent" (mkEventParser
    []
    [("caller", "Caller", EvField (DCall "AddressFromScVal"))]).

Definition token_lock_box_WaitForOwnershipTransferStartedEvent : EventHelper :=
  mkEventHelper "OwnershipTransferStartedEvent" (mkEventParser
    []
    [("previous_owner", "PreviousOwner", EvField (DCall "AddressFromScVal"));
     ("new_owner", "NewOwner", EvField (DCall "AddressFromScVal"))]).

Definition token_lock_box_WaitForDepositEvent : EventHelper :=
  mkEventHelper "DepositEvent" (mkEventParser
    []
    [("token", "Token", EvField (DCall "AddressFromScVal"));
     ("depositor", "Depositor", EvField (DCall "AddressFromScVal"));
     ("amount", "Amount", EvField (DCall "I128FromScVal"))]).

Definition token_lock_box_WaitForWithdrawalEvent : EventHelper :=
  mkEventHelper "WithdrawalEvent" (mkEventParser
    []
    [("token", "Token", EvField (DCall "AddressFromScVal"));
     ("recipient", "Recipient", EvField (DCall "AddressFromScVal"));
     ("amount", "Amount", EvField (DCall "I128FromScVal"))]).

Definition token_lock_box_client : ClientFile :=
  mkClientFile "token_lock_box" "TokenLockBox" true true
    [token_lock_box_Owner; token_lock_box_Deposit; token_lock_box_Upgrade;
     token_lock_box_IsOwner; token_lock_box_Withdraw; token_lock_box_GetToken;
     token_lock_box_InitOwner; token_lock_box_Initialize; token_lock_box_RequireOwner;
     token_lock_box_AcceptOwnership; token_lock_box_GetPendingOwner;
     token_lock_box_IsTokenSupported; token_lock_box_TransferOwnership;
     token_lock_box_AddAllowedCallers; token_lock_box_GetAllowedCallers;
     token_lock_box_RemoveAllowedCallers; token_lock_box_CancelOwnershipTransfer]
    [token_lock_box_WaitForRoleGrantedEvent; token_lock_box_WaitForRoleRevokedEvent;
     token_lock_box_WaitForAuthorizedCallerAddedEvent;
     token_lock_box_WaitForAuthorizedCallerRemovedEvent;
     token_lock_box_WaitForOwnershipTransferStartedEvent; token_lock_box_WaitForDepositEvent;
     token_lock_box_WaitForWithdrawalEvent].

(** ** bindings/contracts/token_admin_registry *)

Definition token_admin_registry_TokenConfig : StructDecl :=
  mkStructDecl "TokenConfig"
    [mkMember "administrator" "Administrator" (TPtr TString) (ECall "OptionalAddressToScVal")
      (DCall "OptionalAddressFromScVal");
     mkMember "pending_administrator" "PendingAdministrator" (TPtr TString) (ECall "OptionalAddressToScVal")
       (DCall "OptionalAddressFromScVal");
     mkMember "token_pool" "TokenPool" (TPtr TString) (ECall "OptionalAddressToScVal")
       (DCall "OptionalAddressFromScVal")].

Definition token_admin_registry_CCIPError : ErrorDecl :=
  mkErrorDecl "CCIPError"
    [("CCIPErrorNotInitialized", 1); ("CCIPErrorAlreadyInitialized", 2);
     ("CCIPErrorUnauthorized", 3); ("CCIPErrorNotOwner", 4); ("CCIPErrorNoPendingOwner", 5);
     ("CCIPErrorCallerNotAuthorized", 6); ("CCIPErrorCallerAlreadyAuthorized", 7);
     ("CCIPErrorCallerNotFound", 8); ("CCIPErrorRoleNotGranted", 9);
     ("CCIPErrorFeatureNotEnabled", 10); ("CCIPErrorRoleAlreadyGranted", 11);
     ("CCIPErrorCannotRenounceRole", 12); ("CCIPErrorInvalidVersionTag", 13);
     ("CCIPErrorInvalidSignatureLength", 14); ("CCIPErrorInvalidSignature", 15);
     ("CCIPErrorInvalidSignatureCount", 16); ("CCIPErrorInvalidSignatureThreshold", 17);
     ("CCIPErrorInvalidSignaturePubkey", 18); ("CCIPErrorSourceSignersNotConfigured", 19);
     ("CCIPErrorInvalidVerifierResults", 20); ("CCIPErrorReentrantCall", 21);
     ("CCIPErrorTokenNotSupported", 22); ("CCIPErrorFeeTokenNotSupported", 23);
     ("CCIPErrorNoGasPriceAvailable", 24); ("CCIPErrorDestinationChainNotEnabled", 25);
     ("CCIPErrorInvalidExtraArgsTag", 26); ("CCIPErrorInvalidExtraArgsData", 27);
     ("CCIPErrorMessageGasLimitTooHigh", 28); ("CCIPErrorMessageTooLarge", 29);
     ("CCIPErrorUnsupportedNumberOfTokens", 30); ("CCIPErrorInvalidDestChainConfig", 31);
     ("CCIPErrorMessageFeeTooHigh", 32); ("CCIPErrorInvalidStaticConfig", 33);
     ("CCIPErrorInvalidTokenReceiver", 34); ("CCIPErrorSourceTokenDataTooLarge", 35);
     ("CCIPErrorInvalidDestBytesOverhead", 36); ("CCIPErrorDestinationChainNotSupported", 37);
     ("CCIPErrorMustBeCalledByRouter", 38); ("CCIPErrorRouterMustSetOriginalSender", 39);
     ("CCIPErrorCannotSendZeroTokens", 40); ("CCIPErrorCanOnlySendOneTokenPerMessage", 41);
     ("CCIPErrorUnsupportedToken", 42); ("CCIPErrorInvalidDestChainAddress", 43);
     ("CCIPErrorFeeExceedsMaxAllowed", 44); ("CCIPErrorInsufficientFeeTokenAmount", 45);
     ("CCIPErrorTokenReceiverNotAllowed", 46); ("CCIPErrorCursedByRMN", 47);
     ("CCIPErrorRemoteChainNotSupported", 48); ("CCIPErrorSenderNotAllowed", 49);
     ("CCIPErrorInvalidTokenAmount", 50); ("CCIPErrorInvalidReceiverAddress", 51);
     ("CCIPErrorInvalidConfig", 52); ("CCIPErrorInvalidVerifierResultsLength", 53);
     ("CCIPErrorInboundImplementationNotFound", 54);
     ("CCIPErrorOutboundImplementationNotFound", 55); ("CCIPErrorInvalidAddress", 56);
     ("CCIPErrorInvalidChainSelector", 57); ("CCIPErrorInvalidVersion", 58);
     ("CCIPErrorInvalidCCVVersion", 59); ("CCIPErrorOffRampAlreadyExists", 60);
     ("CCIPErrorOffRampMismatch", 61); ("CCIPErrorBadRMNSignal", 62);
     ("CCIPErrorUnsupportedDestinationChain", 63); ("CCIPErrorAlreadyCursed", 64);
     ("CCIPErrorConfigNotSet", 65); ("CCIPErrorDuplicateOnchainPublicKey", 66);
     ("CCIPErrorInvalidSignerOrder", 67); ("CCIPErrorNotEnoughSigners", 68);
     ("CCIPErrorNotCursed", 69); ("CCIPErrorOutOfOrderSignatures", 70);
     ("CCIPErrorThresholdNotMet", 71); ("CCIPErrorUnexpectedSigner", 72);
     ("CCIPErrorZeroValueNotAllowed", 73); ("CCIPErrorSourceChainNotEnabled", 100);
     ("CCIPErrorInvalidSourceChainConfig", 101); ("CCIPErrorInvalidOnRampAddress", 102);
     ("CCIPErrorInvalidOffRampAddress", 103); ("CCIPErrorInvalidMessageDestination", 104);
     ("CCIPErrorMessageAlreadyExecuted", 105); ("CCIPErrorInvalidExecutionState", 106);
     ("CCIPErrorCCVLengthMismatch", 107); ("CCIPErrorCCVQuorumNotMet", 108);
     ("CCIPErrorReceiverError", 109); ("CCIPErrorGasLimitOverrideTooLow", 110);
     ("CCIPErrorInvalidReceiverLength", 111); ("CCIPErrorTokenHandlingError", 112);
     ("CCIPErrorMessageDecodingError", 113); ("CCIPErrorReceiverDoesNotExist", 114);
     ("CCIPErrorReceiverNotWasmContract", 115); ("CCIPErrorRequiredCCVMissing", 116);
     ("CCIPErrorInvalidOptionalThreshold", 117); ("CCIPErrorOptionalCCVQuorumNotReached", 118);
     ("CCIPErrorNoStateProgressMade", 119); ("CCIPErrorOnlyRegistryModuleOrOwner", 201);
     ("CCIPErrorOnlyAdministrator", 202); ("CCIPErrorOnlyPendingAdministrator", 203);
     ("CCIPErrorTokenAlreadyRegistered", 204); ("CCIPErrorInvalidTokenPoolToken", 205);
     ("CCIPErrorPoolTokenMismatch", 301); ("CCIPErrorChainNotSupported", 302);
     ("CCIPErrorCallerIsNotRamp", 303); ("CCIPErrorInsufficientPoolLiquidity", 304);
     ("CCIPErrorInvalidRemotePoolAddress", 305); ("CCIPErrorInvalidRemoteChainConfig", 306);
     ("CCIPErrorInvalidRemoteChainDecimals", 307); ("CCIPErrorDecimalAmountOverflow", 308);
     ("CCIPErrorInvalidPoolTokenDecimals", 309); ("CCIPErrorBucketOverfilled", 310);
     ("CCIPErrorTokenMaxCapacityExceeded", 311); ("CCIPErrorTokenRateLimitReached", 312);
     ("CCIPErrorInvalidRateLimitRate", 313); ("CCIPErrorDisabledNonZeroRateLimit", 314);
     ("CCIPErrorInvalidRequestedFinality", 315);
     ("CCIPErrorRequestedFinalityCanOnlyHaveOneMode", 316);
     ("CCIPErrorInvalidChainForClient", 317); ("CCIPErrorRouterNotConfigured", 318);
     ("CCIPErrorInvalidSourcePoolAddress", 319); ("CCIPErrorDuplicateCCVNotAllowed", 320);
     ("CCIPErrorInvalidTokenTransferFeeConfig", 321); ("CCIPErrorInvalidTransferFeeBps", 322);
     ("CCIPErrorInvalidAllowListRequest", 323); ("CCIPErrorInvalidFeeCalculation", 801);
     ("CCIPErrorInvalidFeeTokenConversion", 802); ("CCIPErrorZeroFeeAggregatorNotAllowed", 803);
     ("CCIPErrorExceedsMaxCCVs", 804); ("CCIPErrorCCVNotAllowed", 805);
     ("CCIPErrorPolicyEngineDetachReverted", 806); ("CCIPErrorUnsupportedSelector", 807);
     ("CCIPErrorZeroAddressNotAllowed", 808)]
    [(1, "not initialized"); (2, "already initialized"); (3, "unauthorized"); (4, "not owner");
     (5, "no pending owner"); (6, "caller not authorized"); (7, "caller already authorized");
     (8, "caller not found"); (9, "role not granted"); (10, "feature not enabled");
     (11, "role already granted"); (12, "cannot renounce role"); (13, "invalid version tag");
     (14, "invalid signature length"); (15, "invalid signature");
     (16, "invalid signature count"); (17, "invalid signature threshold");
     (18, "invalid signature pubkey"); (19, "source signers not configured");
     (20, "invalid verifier results"); (21, "reentrant call"); (22, "token not supported");
     (23, "fee token not supported"); (24, "no gas price available");
     (25, "destination chain not enabled"); (26, "invalid extra args tag");
     (27, "invalid extra args data"); (28, "message gas limit too high");
     (29, "message too large"); (30, "unsupported number of tokens");
     (31, "invalid dest chain config"); (32, "message fee too high");
     (33, "invalid static config"); (34, "invalid token receiver");
     (35, "source token data too large"); (36, "invalid dest bytes overhead");
     (37, "destination chain not supported"); (38, "must be called by router");
     (39, "router must set original sender"); (40, "cannot send zero tokens");
     (41, "can only send one token per message"); (42, "unsupported token");
     (43, "invalid dest chain address"); (44, "fee exceeds max allowed");
     (45, "insufficient fee token amount"); (46, "token receiver not allowed");
     (47, "cursed by r m n"); (48, "remote chain not supported"); (49, "sender not allowed");
     (50, "invalid token amount"); (51, "invalid receiver address"); (52, "invalid config");
     (53, "invalid verifier results length"); (54, "inbound implementation not found");
     (55, "outbound implementation not found"); (56, "invalid address");
     (57, "invalid chain selector"); (58, "invalid version"); (59, "invalid c c v version");
     (60, "off ramp already exists"); (61, "off ramp mismatch"); (62, "bad r m n signal");
     (63, "unsupported destination chain"); (64, "already cursed"); (65, "config not set");
     (66, "duplicate onchain public key"); (67, "invalid signer order");
     (68, "not enough signers"); (69, "not cursed"); (70, "out of order signatures");
     (71, "threshold not met"); (72, "unexpected signer"); (73, "zero value not allowed");
     (100, "source chain not enabled"); (101, "invalid source chain config");
     (102, "invalid on ramp address"); (103, "invalid off ramp address");
     (104, "invalid message destination"); (105, "message already executed");
     (106, "invalid execution state"); (107, "c c v length mismatch");
     (108, "c c v quorum not met"); (109, "receiver error");
     (110, "gas limit override too low"); (111, "invalid receiver length");
     (112, "token handling error"); (113, "message decoding error");
     (114, "receiver does not exist"); (115, "receiver not wasm contract");
     (116, "required c c v missing"); (117, "invalid optional threshold");
     (118, "optional c c v quorum not reached"); (119, "no state progress made");
     (201, "only registry module or owner"); (202, "only administrator");
     (203, "only pending administrator"); (204, "token already registered");
     (205, "invalid token pool token"); (301, "pool token mismatch");
     (302, "chain not supported"); (303, "caller is not ramp");
     (304, "insufficient pool liquidity"); (305, "invalid remote pool address");
     (306, "invalid remote chain config"); (307, "invalid remote chain decimals");
     (308, "decimal amount overflow"); (309, "invalid pool token decimals");
     (310, "bucket overfilled"); (311, "token max capacity exceeded");
     (312, "token rate limit reached"); (313, "invalid rate limit rate");
     (314, "disabled non zero rate limit"); (315, "invalid requested finality");
     (316, "requested finality can only have one mode"); (317, "invalid chain for client");
     (318, "router not configured"); (319, "invalid source pool address");
     (320, "duplicate c c v not allowed"); (321, "invalid token transfer fee config");
     (322, "invalid transfer fee bps"); (323, "invalid allow list request");
     (801, "invalid fee calculation"); (802, "invalid fee token conversion");
     (803, "zero fee aggregator not allowed"); (804, "exceeds max c c vs");
     (805, "c c v not allowed"); (806, "policy engine detach reverted");
     (807, "unsupported selector"); (808, "zero address not allowed")].

Definition token_admin_registry_RoleGrantedEvent : EventDecl :=
  mkEventDecl "RoleGrantedEvent"
    [("Role", TString); ("Account", TString); ("Sender", TString); ("Ledger", TUint32);
     ("TxHash", TString)]
    (Some "auth_RoleGranted").

Definition token_admin_registry_RoleRevokedEvent : EventDecl :=
  mkEventDecl "RoleRevokedEvent"
    [("Role", TString); ("Account", TString); ("Sender", TString); ("Ledger", TUint32);
     ("TxHash", TString)]
    (Some "auth_RoleRevoked").

Definition token_admin_registry_AuthorizedCallerAddedEvent : EventDecl :=
  mkEventDecl "AuthorizedCallerAddedEvent"
    [("Caller", TString); ("Ledger", TUint32); ("TxHash", TString)]
    (Some "auth_CallerAdded").

Definition token_admin_registry_AuthorizedCallerRemovedEvent : EventDecl :=
  mkEventDecl "AuthorizedCallerRemovedEvent"
    [("Caller", TString); ("Ledger", TUint32); ("TxHash", TString)]
    (Some "auth_CallerRemoved").

Definition token_admin_registry_OwnershipTransferStartedEvent : EventDecl :=
  mkEventDecl "OwnershipTransferStartedEvent"
    [("PreviousOwner", TString); ("NewOwner", TString); ("Ledger", TUint32);
     ("TxHash", TString)]
    (Some "auth_OwnerTransferStart").

Definition token_admin_registry_PoolSetEvent : EventDecl :=
  mkEventDecl "PoolSetEvent"
    [("Token", TString); ("PreviousPool", TPtr TString); ("NewPool", TPtr TString);
     ("Ledger", TUint32); ("TxHash", TString)]
    (Some "tar_PoolSet").

Definition token_admin_registry_RegistryModuleAddedEvent : EventDecl :=
  mkEventDecl "RegistryModuleAddedEvent"
    [("Module", TString); ("Ledger", TUint32); ("TxHash", TString)]
    (Some "tar_ModuleAdded").

Definition token_admin_registry_RegistryModuleRemovedEvent : EventDecl :=
  mkEventDecl "RegistryModuleRemovedEvent"
    [("Module", TString); ("Ledger", TUint32); ("TxHash", TString)]
    (Some "tar_ModuleRemoved").

Definition token_admin_registry_AdminTransferRequestedEvent : EventDecl :=
  mkEventDecl "AdminTransferRequestedEvent"
    [("Token", TString); ("CurrentAdmin", TPtr TString); ("NewAdmin", TPtr TString);
     ("Ledger", TUint32); ("TxHash", TString)]
    (Some "tar_AdminTransferReq").

Definition token_admin_registry_AdministratorTransferredEvent : EventDecl :=
  mkEventDecl "AdministratorTransferredEvent"
    [("Token", TString); ("NewAdmin", TString); ("Ledger", TUint32); ("TxHash", TString)]
    (Some "tar_AdminTransferred").

Definition token_admin_registry_types : TypesFile :=
  mkTypesFile "token_admin_registry" (mkImports true true true false)
    [token_admin_registry_TokenConfig]
    [token_admin_registry_CCIPError]
    [token_admin_registry_RoleGrantedEvent; token_admin_registry_RoleRevokedEvent;
     token_admin_registry_AuthorizedCallerAddedEvent;
     token_admin_registry_AuthorizedCallerRemovedEvent;
     token_admin_registry_OwnershipTransferStartedEvent; token_admin_registry_PoolSetEvent;
     token_admin_registry_RegistryModuleAddedEvent;
     token_admin_registry_RegistryModuleRemovedEvent;
     token_admin_registry_AdminTransferRequestedEvent;
     token_admin_registry_AdministratorTransferredEvent]
    [].

Definition token_admin_registry_Owner : Method :=
  mkMethod "Owner" [] [TPtr TString] "nil"
    true "owner" [] (RVal (DCall "OptionalAddressFromScVal")).

Definition token_admin_registry_Upgrade : Method :=
  mkMethod "Upgrade" [("newWasmHash", TArray "32")] [] ""
    false "upgrade" [ECall "Bytes32ToScVal"] RVoid.

Definition token_admin_registry_GetPool : Method :=
  mkMethod "GetPool" [("token", TString)] [TPtr TString] "nil"
    true "get_pool" [ECall "AddressToScVal"] (RVal (DCall "OptionalAddressFromScVal")).

Definition token_admin_registry_IsOwner : Method :=
  mkMethod "IsOwner" [("addr", TString)] [TBool] "false"
    true "is_owner" [ECall "AddressToScVal"] (RVal (DGet "GetB")).

Definition token_admin_registry_SetPool : Method :=
  mkMethod "SetPool" [("localToken", TString); ("pool", TPtr TString)] [] ""
    false "set_pool" [ECall "AddressToScVal"; ECall "OptionalAddressToScVal"] RVoid.

Definition token_admin_registry_GetPools : Method :=
  mkMethod "GetPools" [("tokens", TSlice TString)] [TSlice (TPtr TString)] "nil"
    true "get_pools" [ECall "AddressSliceToScVal"]
      (RVal (DVec (TPtr TString) (DCall "OptionalAddressFromScVal"))).

Definition token_admin_registry_InitOwner : Method :=
  mkMethod "InitOwner" [("owner", TString)] [] ""
    false "init_owner" [ECall "AddressToScVal"] RVoid.

Definition token_admin_registry_Initialize : Method :=
  mkMethod "Initialize" [("owner", TString)] [] ""
    false "initialize" [ECall "AddressToScVal"] RVoid.

Definition token_admin_registry_RequireOwner : Method :=
  mkMethod "RequireOwner" [] [TString] empty_literal
    false "require_owner" [] (RVal (DCall "AddressFromScVal")).

Definition token_admin_registry_AcceptOwnership : Method :=
  mkMethod "AcceptOwnership" [] [] ""
    false "accept_ownership" [] RVoid.

Definition token_admin_registry_GetTokenConfig : Method :=
  mkMethod "GetTokenConfig" [("token", TString)] [TPtr (TNamed "TokenConfig")] "nil"
    true "get_token_config" [ECall "AddressToScVal"] (RVal (DStruct "TokenConfig")).

Definition token_admin_registry_IsAdministrator : Method :=
  mkMethod "IsAdministrator" [("localToken", TString); ("administrator", TString)] [TBool] "false"
    true "is_administrator" [ECall "AddressToScVal"; ECall "AddressToScVal"] (RVal (DGet "GetB")).

Definition token_admin_registry_TypeAndVersion : Method :=
  mkMethod "TypeAndVersion" [] [TString] empty_literal
    false "type_and_version" [] (RVal (DCall "StringFromScVal")).

Definition token_admin_registry_AcceptAdminRole : Method :=
  mkMethod "AcceptAdminRole" [("localToken", TString)] [] ""
    false "accept_admin_role" [ECall "AddressToScVal"] RVoid.

Definition token_admin_registry_GetPendingOwner : Method :=
  mkMethod "GetPendingOwner" [] [TPtr TString] "nil"
    true "get_pending_owner" [] (RVal (DCall "OptionalAddressFromScVal")).

Definition token_admin_registry_IsRegistryModule : Method :=
  mkMethod "IsRegistryModule" [("module", TString)] [TBool] "false"
    true "is_registry_module" [ECall "AddressToScVal"] (RVal (DGet "GetB")).

Definition token_admin_registry_TransferOwnership : Method :=
  mkMethod "TransferOwnership" [("newOwner", TString)] [] ""
    false "transfer_ownership" [ECall "AddressToScVal"] RVoid.

Definition token_admin_registry_AddRegistryModule : Method :=
  mkMethod "AddRegistryModule" [("module", TString)] [] ""
    false "add_registry_module" [ECall "AddressToScVal"] RVoid.

Definition token_admin_registry_TransferAdminRole : Method :=
  mkMethod "TransferAdminRole" [("localToken", TString); ("newAdmin", TPtr TString)] [] ""
    false "transfer_admin_role" [ECall "AddressToScVal"; ECall "OptionalAddressToScVal"] RVoid.

Definition token_admin_registry_ProposeAdministrator : Method :=
  mkMethod "ProposeAdministrator" [("caller", TString); ("localToken", TString); ("administrator", TString)] []
    ""
    false "propose_administrator" [ECall "AddressToScVal"; ECall "AddressToScVal"; ECall "AddressToScVal"]
      RVoid.

Definition token_admin_registry_RemoveRegistryModule : Method :=
  mkMethod "RemoveRegistryModule" [("module", TString)] [] ""
    false "remove_registry_module" [ECall "AddressToScVal"] RVoid.

Definition token_admin_registry_CancelOwnershipTransfer : Method :=
  mkMethod "CancelOwnershipTransfer" [] [] ""
    false "cancel_ownership_transfer" [] RVoid.

Definition token_admin_registry_GetAllConfiguredTokens : Method :=
  mkMethod "GetAllConfiguredTokens" [("startIndex", TUint32); ("maxCount", TUint32)] [TSlice TString] "nil"
    true "get_all_configured_tokens" [ECall "Uint32ToScVal"; ECall "Uint32ToScVal"]
      (RVal (DVec TString (DCall "AddressFromScVal"))).

Definition token_admin_registry_WaitForRoleGrantedEvent : EventHelper :=
  mkEventHelper "RoleGrantedEvent" (mkEventParser
    []
    [("role", "Role", EvField (DCall "SymbolFromScVal"));
     ("account", "Account", EvField (DCall "AddressFromScVal"));
     ("sender", "Sender", EvField (DCall "AddressFromScVal"))]).

Definition token_admin_registry_WaitForRoleRevokedEvent : EventHelper :=
  mkEventHelper "RoleRevokedEvent" (mkEventParser
    []
    [("role", "Role", EvField (DCall "SymbolFromScVal"));
     ("account", "Account", EvField (DCall "AddressFromScVal"));
     ("sender", "Sender", EvField (DCall "AddressFromScVal"))]).

Definition token_admin_registry_WaitForAuthorizedCallerAddedEvent : EventHelper :=
  mkEventHelper "AuthorizedCallerAddedEvent" (mkEventParser
    []
    [("caller", "Caller", EvField (DCall "AddressFromScVal"))]).

Definition token_admin_registry_WaitForAuthorizedCallerRemovedEvent : EventHelper :=
  mkEventHelper "AuthorizedCallerRemovedEvent" (mkEventParser
    []
    [("caller", "Caller", EvField (DCall "AddressFromScVal"))]).

Definition token_admin_registry_WaitForOwnershipTransferStartedEvent : EventHelper :=
  mkEventHelper "OwnershipTransferStartedEvent" (mkEventParser
    []
    [("previous_owner", "PreviousOwner", EvField (DCall "AddressFromScVal"));
     ("new_owner", "NewOwner", EvField (DCall "AddressFromScVal"))]).

Definition token_admin_registry_WaitForPoolSetEvent : EventHelper :=
  mkEventHelper "PoolSetEvent" (mkEventParser
    []
    [("token", "Token", EvField (DCall "AddressFromScVal"));
     ("previous_pool", "PreviousPool", EvField (DCall "OptionalAddressFromScVal"));
     ("new_pool", "NewPool", EvField (DCall "OptionalAddressFromScVal"))]).

Definition token_admin_registry_WaitForRegistryModuleAddedEvent : EventHelper :=
  mkEventHelper "RegistryModuleAddedEvent" (mkEventParser
    []
    [("module", "Module", EvField (DCall "AddressFromScVal"))]).

Definition token_admin_registry_WaitForRegistryModuleRemovedEvent : EventHelper :=
  mkEventHelper "RegistryModuleRemovedEvent" (mkEventParser
    []
    [("module", "Module", EvField (DCall "AddressFromScVal"))]).

Definition token_admin_registry_WaitForAdminTransferRequestedEvent : EventHelper :=
  mkEventHelper "AdminTransferRequestedEvent" (mkEventParser
    []
    [("token", "Token", EvField (DCall "AddressFromScVal"));
     ("current_admin", "CurrentAdmin", EvField (DCall "OptionalAddressFromScVal"));
     ("new_admin", "NewAdmin", EvField (DCall "OptionalAddressFromScVal"))]).

Definition token_admin_registry_WaitForAdministratorTransferredEvent : EventHelper :=
  mkEventHelper "AdministratorTransferredEvent" (mkEventParser
    []
    [("token", "Token", EvField (DCall "AddressFromScVal"));
     ("new_admin", "NewAdmin", EvField (DCall "AddressFromScVal"))]).

Definition token_admin_registry_client : ClientFile :=
  mkClientFile "token_admin_registry" "TokenAdminRegistry" false true
    [token_admin_registry_Owner; token_admin_registry_Upgrade; token_admin_registry_GetPool;
     token_admin_registry_IsOwner; token_admin_registry_SetPool; token_admin_registry_GetPools;
     token_admin_registry_InitOwner; token_admin_registry_Initialize;
     token_admin_registry_RequireOwner; token_admin_registry_AcceptOwnership;
     token_admin_registry_GetTokenConfig; token_admin_registry_IsAdministrator;
     token_admin_registry_TypeAndVersion; token_admin_registry_AcceptAdminRole;
     token_admin_registry_GetPendingOwner; token_admin_registry_IsRegistryModule;
     token_admin_registry_TransferOwnership; token_admin_registry_AddRegistryModule;
     token_admin_registry_TransferAdminRole; token_admin_registry_ProposeAdministrator;
     token_admin_registry_RemoveRegistryModule; token_admin_registry_CancelOwnershipTransfer;
     token_admin_registry_GetAllConfiguredTokens]
    [token_admin_registry_WaitForRoleGrantedEvent; token_admin_registry_WaitForRoleRevokedEvent;
     token_admin_registry_WaitForAuthorizedCallerAddedEvent;
     token_admin_registry_WaitForAuthorizedCallerRemovedEvent;
     token_admin_registry_WaitForOwnershipTransferStartedEvent;
     token_admin_registry_WaitForPoolSetEvent;
     token_admin_registry_WaitForRegistryModuleAddedEvent;
     token_admin_registry_WaitForRegistryModuleRemovedEvent;
     token_admin_registry_WaitForAdminTransferRequestedEvent;
     token_admin_registry_WaitForAdministratorTransferredEvent].
