(* ===== verification/BindingsVerifiers.v ===== *)
(** * Bindings of the verifiers, RMN and the tokens

    The checked-in types.go and client.go of the verifiers and their hooks, of RMN and
    its proxy, and of the tokens.

    Each declaration and each method as the abstract syntax that Bindgen.v gives the
    emitted code and BindgenSem.v runs: a member with its key, its name and type and
    its two conversions; a method with its parameters, results, call and arguments. *)

From S2P Require Import Prelude Bindgen.

(** ** bindings/contracts/committee_verifier *)

Definition committee_verifier_FeeResponse : StructDecl :=
  mkStructDecl "FeeResponse"
    [mkMember "dest_bytes_overhead" "DestBytesOverhead" TUint32 (ECall "Uint32ToScVal") (DGet "GetU32");
     mkMember "dest_gas_limit" "DestGasLimit" TUint32 (ECall "Uint32ToScVal") (DGet "GetU32");
     mkMember "fee" "Fee" TUint32 (ECall "Uint32ToScVal") (DGet "GetU32")].

Definition committee_verifier_DynamicConfig : StructDecl :=
  mkStructDecl "DynamicConfig"
    [mkMember "allowlist_admin" "AllowlistAdmin" (TPtr TString) (ECall "OptionalAddressToScVal")
      (DCall "OptionalAddressFromScVal");
     mkMember "fee_aggregator" "FeeAggregator" (TPtr TString) (ECall "OptionalAddressToScVal")
       (DCall "OptionalAddressFromScVal")].

Definition committee_verifier_RemoteChainConfig : StructDecl :=
  mkStructDecl "RemoteChainConfig"
    [mkMember "allowlist_enabled" "AllowlistEnabled" TBool (ECall "BoolToScVal") (DGet "GetB");
     mkMember "fee_usd_cents" "FeeUsdCents" TUint32 (ECall "Uint32ToScVal") (DGet "GetU32");
     mkMember "gas_for_verification" "GasForVerification" TUint32 (ECall "Uint32ToScVal") (DGet "GetU32");
     mkMember "payload_size_bytes" "PayloadSizeBytes" TUint32 (ECall "Uint32ToScVal") (DGet "GetU32");
     mkMember "remote_chain_selector" "RemoteChainSelector" TUint64 (ECall "Uint64ToScVal")
       (DCall "Uint64FromScVal");
     mkMember "router" "Router" (TPtr TString) (ECall "OptionalAddressToScVal")
       (DCall "OptionalAddressFromScVal")].

Definition committee_verifier_SignatureQuorumConfig : StructDecl :=
  mkStructDecl "SignatureQuorumConfig"
    [mkMember "signers" "Signers" (TSlice (TArray "32")) (ECall "Bytes32SliceToScVal")
      (DVec (TArray "32") (DCall "Bytes32FromScVal"));
     mkMember "source_chain_selector" "SourceChainSelector" TUint64 (ECall "Uint64ToScVal")
       (DCall "Uint64FromScVal");
     mkMember "threshold" "Threshold" TUint32 (ECall "Uint32ToScVal") (DGet "GetU32")].

Definition committee_verifier_AllowListEntry : StructDecl :=
  mkStructDecl "AllowListEntry"
    [mkMember "allowlist" "Allowlist" (TSlice TString) (ECall "AddressSliceToScVal")
      (DVec TString (DCall "AddressFromScVal"));
     mkMember "allowlist_enabled" "AllowlistEnabled" TBool (ECall "BoolToScVal") (DGet "GetB")].

Definition committee_verifier_AllowListUpdate : StructDecl :=
  mkStructDecl "AllowListUpdate"
    [mkMember "added_allowlisted_senders" "AddedAllowlistedSenders" (TSlice TString)
      (ECall "AddressSliceToScVal") (DVec TString (DCall "AddressFromScVal"));
     mkMember "allowlist_enabled" "AllowlistEnabled" TBool (ECall "BoolToScVal") (DGet "GetB");
     mkMember "dest_chain_selector" "DestChainSelector" TUint64 (ECall "Uint64ToScVal")
       (DCall "Uint64FromScVal");
     mkMember "removed_allowlisted_senders" "RemovedAllowlistedSenders" (TSlice TString)
       (ECall "AddressSliceToScVal") (DVec TString (DCall "AddressFromScVal"))].

Definition committee_verifier_CCIPError : ErrorDecl :=
  mkErrorDecl "CCIPError"
    [("CCIPErrorNotInitialized", 1); ("CCIPErrorAlreadyInitialized", 2);
     ("CCIPErrorUnauthorized", 3); ("CCIPErrorNotOwner", 4); ("CCIPErrorNoPendingOwner", 5);
     ("CCIPErrorCallerNotAuthorized", 6); ("CCIPErrorCallerAlreadyAuthorized", 7);
     ("CCIPErrorCallerNotFound", 8); ("CCIPErrorRoleNotGranted", 9);
     ("CCIPErrorFeatureNotEnabled", 10); ("CCIPErrorRoleAlreadyGranted", 11);
     ("CCIPErrorCannotRenounceRole", 12); ("CCIPErrorInvalidVersionTag", 13);
     ("CCIPErrorInvalidSignatureLength", 14); ("CCIPErrorInvalidSignature", 15);
     ("CCIPErrorInvalidSignatureCount", 16); ("CCIPErrorInvalidSignatureThreshold", 17);
     ("CCIPErrorInvalidSignaturePubkey", 18); ("CCIPErrorSourceSignersNotConfigured", 19);
     ("CCIPErrorInvalidVerifierResults", 20); ("CCIPErrorReentrantCall", 21);
     ("CCIPErrorTokenNotSupported", 22); ("CCIPErrorFeeTokenNotSupported", 23);
     ("CCIPErrorNoGasPriceAvailable", 24); ("CCIPErrorDestinationChainNotEnabled", 25);
     ("CCIPErrorInvalidExtraArgsTag", 26); ("CCIPErrorInvalidExtraArgsData", 27);
     ("CCIPErrorMessageGasLimitTooHigh", 28); ("CCIPErrorMessageTooLarge", 29);
     ("CCIPErrorUnsupportedNumberOfTokens", 30); ("CCIPErrorInvalidDestChainConfig", 31);
     ("CCIPErrorMessageFeeTooHigh", 32); ("CCIPErrorInvalidStaticConfig", 33);
     ("CCIPErrorInvalidTokenReceiver", 34); ("CCIPErrorSourceTokenDataTooLarge", 35);
     ("CCIPErrorInvalidDestBytesOverhead", 36); ("CCIPErrorDestinationChainNotSupported", 37);
     ("CCIPErrorMustBeCalledByRouter", 38); ("CCIPErrorRouterMustSetOriginalSender", 39);
     ("CCIPErrorCannotSendZeroTokens", 40); ("CCIPErrorCanOnlySendOneTokenPerMessage", 41);
     ("CCIPErrorUnsupportedToken", 42); ("CCIPErrorInvalidDestChainAddress", 43);
     ("CCIPErrorFeeExceedsMaxAllowed", 44); ("CCIPErrorInsufficientFeeTokenAmount", 45);
     ("CCIPErrorTokenReceiverNotAllowed", 46); ("CCIPErrorCursedByRMN", 47);
     ("CCIPErrorRemoteChainNotSupported", 48); ("CCIPErrorSenderNotAllowed", 49);
     ("CCIPErrorInvalidTokenAmount", 50); ("CCIPErrorInvalidReceiverAddress", 51);
     ("CCIPErrorInvalidConfig", 52); ("CCIPErrorInvalidVerifierResultsLength", 53);
     ("CCIPErrorInboundImplementationNotFound", 54);
     ("CCIPErrorOutboundImplementationNotFound", 55); ("CCIPErrorInvalidAddress", 56);
     ("CCIPErrorInvalidChainSelector", 57); ("CCIPErrorInvalidVersion", 58);
     ("CCIPErrorInvalidCCVVersion", 59); ("CCIPErrorOffRampAlreadyExists", 60);
     ("CCIPErrorOffRampMismatch", 61); ("CCIPErrorBadRMNSignal", 62);
     ("CCIPErrorUnsupportedDestinationChain", 63); ("CCIPErrorAlreadyCursed", 64);
     ("CCIPErrorConfigNotSet", 65); ("CCIPErrorDuplicateOnchainPublicKey", 66);
     ("CCIPErrorInvalidSignerOrder", 67); ("CCIPErrorNotEnoughSigners", 68);
     ("CCIPErrorNotCursed", 69); ("CCIPErrorOutOfOrderSignatures", 70);
     ("CCIPErrorThresholdNotMet", 71); ("CCIPErrorUnexpectedSigner", 72);
     ("CCIPErrorZeroValueNotAllowed", 73); ("CCIPErrorSourceChainNotEnabled", 100);
     ("CCIPErrorInvalidSourceChainConfig", 101); ("CCIPErrorInvalidOnRampAddress", 102);
     ("CCIPErrorInvalidOffRampAddress", 103); ("CCIPErrorInvalidMessageDestination", 104);
     ("CCIPErrorMessageAlreadyExecuted", 105); ("CCIPErrorInvalidExecutionState", 106);
     ("CCIPErrorCCVLengthMismatch", 107); ("CCIPErrorCCVQuorumNotMet", 108);
     ("CCIPErrorReceiverError", 109); ("CCIPErrorGasLimitOverrideTooLow", 110);
     ("CCIPErrorInvalidReceiverLength", 111); ("CCIPErrorTokenHandlingError", 112);
     ("CCIPErrorMessageDecodingError", 113); ("CCIPErrorReceiverDoesNotExist", 114);
     ("CCIPErrorReceiverNotWasmContract", 115); ("CCIPErrorRequiredCCVMissing", 116);
     ("CCIPErrorInvalidOptionalThreshold", 117); ("CCIPErrorOptionalCCVQuorumNotReached", 118);
     ("CCIPErrorNoStateProgressMade", 119); ("CCIPErrorOnlyRegistryModuleOrOwner", 201);
     ("CCIPErrorOnlyAdministrator", 202); ("CCIPErrorOnlyPendingAdministrator", 203);
     ("CCIPErrorTokenAlreadyRegistered", 204); ("CCIPErrorInvalidTokenPoolToken", 205);
     ("CCIPErrorPoolTokenMismatch", 301); ("CCIPErrorChainNotSupported", 302);
     ("CCIPErrorCallerIsNotRamp", 303); ("CCIPErrorInsufficientPoolLiquidity", 304);
     ("CCIPErrorInvalidRemotePoolAddress", 305); ("CCIPErrorInvalidRemoteChainConfig", 306);
     ("CCIPErrorInvalidRemoteChainDecimals", 307); ("CCIPErrorDecimalAmountOverflow", 308);
     ("CCIPErrorInvalidPoolTokenDecimals", 309); ("CCIPErrorBucketOverfilled", 310);
     ("CCIPErrorTokenMaxCapacityExceeded", 311); ("CCIPErrorTokenRateLimitReached", 312);
     ("CCIPErrorInvalidRateLimitRate", 313); ("CCIPErrorDisabledNonZeroRateLimit", 314);
     ("CCIPErrorInvalidRequestedFinality", 315);
     ("CCIPErrorRequestedFinalityCanOnlyHaveOneMode", 316);
     ("CCIPErrorInvalidChainForClient", 317); ("CCIPErrorRouterNotConfigured", 318);
     ("CCIPErrorInvalidSourcePoolAddress", 319); ("CCIPErrorDuplicateCCVNotAllowed", 320);
     ("CCIPErrorInvalidTokenTransferFeeConfig", 321); ("CCIPErrorInvalidTransferFeeBps", 322);
     ("CCIPErrorInvalidAllowListRequest", 323); ("CCIPErrorInvalidFeeCalculation", 801);
     ("CCIPErrorInvalidFeeTokenConversion", 802); ("CCIPErrorZeroFeeAggregatorNotAllowed", 803);
     ("CCIPErrorExceedsMaxCCVs", 804); ("CCIPErrorCCVNotAllowed", 805);
     ("CCIPErrorPolicyEngineDetachReverted", 806); ("CCIPErrorUnsupportedSelector", 807);
     ("CCIPErrorZeroAddressNotAllowed", 808)]
    [(1, "not initialized"); (2, "already initialized"); (3, "unauthorized"); (4, "not owner");
     (5, "no pending owner"); (6, "caller not authorized"); (7, "caller already authorized");
     (8, "caller not found"); (9, "role not granted"); (10, "feature not enabled");
     (11, "role already granted"); (12, "cannot renounce role"); (13, "invalid version tag");
     (14, "invalid signature length"); (15, "invalid signature");
     (16, "invalid signature count"); (17, "invalid signature threshold");
     (18, "invalid signature pubkey"); (19, "source signers not configured");
     (20, "invalid verifier results"); (21, "reentrant call"); (22, "token not supported");
     (23, "fee token not supported"); (24, "no gas price available");
     (25, "destination chain not enabled"); (26, "invalid extra args tag");
     (27, "invalid extra args data"); (28, "message gas limit too high");
     (29, "message too large"); (30, "unsupported number of tokens");
     (31, "invalid dest chain config"); (32, "message fee too high");
     (33, "invalid static config"); (34, "invalid token receiver");
     (35, "source token data too large"); (36, "invalid dest bytes overhead");
     (37, "destination chain not supported"); (38, "must be called by router");
     (39, "router must set original sender"); (40, "cannot send zero tokens");
     (41, "can only send one token per message"); (42, "unsupported token");
     (43, "invalid dest chain address"); (44, "fee exceeds max allowed");
     (45, "insufficient fee token amount"); (46, "token receiver not allowed");
     (47, "cursed by r m n"); (48, "remote chain not supported"); (49, "sender not allowed");
     (50, "invalid token amount"); (51, "invalid receiver address"); (52, "invalid config");
     (53, "invalid verifier results length"); (54, "inbound implementation not found");
     (55, "outbound implementation not found"); (56, "invalid address");
     (57, "invalid chain selector"); (58, "invalid version"); (59, "invalid c c v version");
     (60, "off ramp already exists"); (61, "off ramp mismatch"); (62, "bad r m n signal");
     (63, "unsupported destination chain"); (64, "already cursed"); (65, "config not set");
     (66, "duplicate onchain public key"); (67, "invalid signer order");
     (68, "not enough signers"); (69, "not cursed"); (70, "out of order signatures");
     (71, "threshold not met"); (72, "unexpected signer"); (73, "zero value not allowed");
     (100, "source chain not enabled"); (101, "invalid source chain config");
     (102, "invalid on ramp address"); (103, "invalid off ramp address");
     (104, "invalid message destination"); (105, "message already executed");
     (106, "invalid execution state"); (107, "c c v length mismatch");
     (108, "c c v quorum not met"); (109, "receiver error");
     (110, "gas limit override too low"); (111, "invalid receiver length");
     (112, "token handling error"); (113, "message decoding error");
     (114, "receiver does not exist"); (115, "receiver not wasm contract");
     (116, "required c c v missing"); (117, "invalid optional threshold");
     (118, "optional c c v quorum not reached"); (119, "no state progress made");
     (201, "only registry module or owner"); (202, "only administrator");
     (203, "only pending administrator"); (204, "token already registered");
     (205, "invalid token pool token"); (301, "pool token mismatch");
     (302, "chain not supported"); (303, "caller is not ramp");
     (304, "insufficient pool liquidity"); (305, "invalid remote pool address");
     (306, "invalid remote chain config"); (307, "invalid remote chain decimals");
     (308, "decimal amount overflow"); (309, "invalid pool token decimals");
     (310, "bucket overfilled"); (311, "token max capacity exceeded");
     (312, "token rate limit reached"); (313, "invalid rate limit rate");
     (314, "disabled non zero rate limit"); (315, "invalid requested finality");
     (316, "requested finality can only have one mode"); (317, "invalid chain for client");
     (318, "router not configured"); (319, "invalid source pool address");
     (320, "duplicate c c v not allowed"); (321, "invalid token transfer fee config");
     (322, "invalid transfer fee bps"); (323, "invalid allow list request");
     (801, "invalid fee calculation"); (802, "invalid fee token conversion");
     (803, "zero fee aggregator not allowed"); (804, "exceeds max c c vs");
     (805, "c c v not allowed"); (806, "policy engine detach reverted");
     (807, "unsupported selector"); (808, "zero address not allowed")].

Definition committee_verifier_ConfigSetEvent : EventDecl :=
  mkEventDecl "ConfigSetEvent"
    [("DynamicConfig", TNamed "DynamicConfig"); ("Ledger", TUint32); ("TxHash", TString)]
    (Some "ccv_ConfigSet").

Definition committee_verifier_FinalityConfigSetEvent : EventDecl :=
  mkEventDecl "FinalityConfigSetEvent"
    [("AllowedFinality", TUint32); ("Ledger", TUint32); ("TxHash", TString)]
    (Some "ccv_FinalityConfigSet").

Definition committee_verifier_SignatureConfigSetEvent : EventDecl :=
  mkEventDecl "SignatureConfigSetEvent"
    [("SourceChainSelector", TUint64); ("Signers", TSlice (TArray "32"));
     ("Threshold", TUint32); ("Ledger", TUint32); ("TxHash", TString)]
    (Some "ccv_SignatureConfigSet").

Definition committee_verifier_RemoteChainConfigSetEvent : EventDecl :=
  mkEventDecl "RemoteChainConfigSetEvent"
    [("RemoteChainSelector", TUint64); ("Router", TPtr TString); ("AllowlistEnabled", TBool);
     ("Ledger", TUint32); ("TxHash", TString)]
    (Some "ccv_RemoteChainConfigSet").

Definition committee_verifier_AllowListSendersAddedEvent : EventDecl :=
  mkEventDecl "AllowListSendersAddedEvent"
    [("DestChainSelector", TUint64); ("Sender", TString); ("Ledger", TUint32);
     ("TxHash", TString)]
    (Some "ccv_AllowListSendersAdded").

Definition committee_verifier_AllowListStateChangedEvent : EventDecl :=
  mkEventDecl "AllowListStateChangedEvent"
    [("DestChainSelector", TUint64); ("AllowlistEnabled", TBool); ("Ledger", TUint32);
     ("TxHash", TString)]
    (Some "ccv_AllowListStateChanged").

Definition committee_verifier_AllowListSendersRemovedEvent : EventDecl :=
  mkEventDecl "AllowListSendersRemovedEvent"
    [("DestChainSelector", TUint64); ("Sender", TString); ("Ledger", TUint32);
     ("TxHash", TString)]
    (Some "ccv_AllowListSendersRemoved").

Definition committee_verifier_StorageAdminTransferredEvent : EventDecl :=
  mkEventDecl "StorageAdminTransferredEvent"
    [("From", TString); ("To", TString); ("Ledger", TUint32); ("TxHash", TString)]
    (Some "ccv_StorageAdminTransferred").

Definition committee_verifier_StorageAdminTransferReqEvent : EventDecl :=
  mkEventDecl "StorageAdminTransferReqEvent"
    [("From", TString); ("To", TString); ("Ledger", TUint32); ("TxHash", TString)]
    (Some "ccv_StorageAdminTransferReq").

Definition committee_verifier_StorageLocationsUpdatedEvent : EventDecl :=
  mkEventDecl "StorageLocationsUpdatedEvent"
    [("OldLocations", TSlice TBytes); ("NewLocations", TSlice TBytes); ("Ledger", TUint32);
     ("TxHash", TString)]
    (Some "ccv_StorageLocationsUpdated").

Definition committee_verifier_RoleGrantedEvent : EventDecl :=
  mkEventDecl "RoleGrantedEvent"
    [("Role", TString); ("Account", TString); ("Sender", TString); ("Ledger", TUint32);
     ("TxHash", TString)]
    (Some "auth_RoleGranted").

Definition committee_verifier_RoleRevokedEvent : EventDecl :=
  mkEventDecl "RoleRevokedEvent"
    [("Role", TString); ("Account", TString); ("Sender", TString); ("Ledger", TUint32);
     ("TxHash", TString)]
    (Some "auth_RoleRevoked").

Definition committee_verifier_AuthorizedCallerAddedEvent : EventDecl :=
  mkEventDecl "AuthorizedCallerAddedEvent"
    [("Caller", TString); ("Ledger", TUint32); ("TxHash", TString)]
    (Some "auth_CallerAdded").

Definition committee_verifier_AuthorizedCallerRemovedEvent : EventDecl :=
  mkEventDecl "AuthorizedCallerRemovedEvent"
    [("Caller", TString); ("Ledger", TUint32); ("TxHash", TString)]
    (Some "auth_CallerRemoved").

Definition committee_verifier_OwnershipTransferStartedEvent : EventDecl :=
  mkEventDecl "OwnershipTransferStartedEvent"
    [("PreviousOwner", TString); ("NewOwner", TString); ("Ledger", TUint32);
     ("TxHash", TString)]
    (Some "auth_OwnerTransferStart").

Definition committee_verifier_types : TypesFile :=
  mkTypesFile "committee_verifier" (mkImports true true true false)
    [committee_verifier_FeeResponse; committee_verifier_DynamicConfig;
     committee_verifier_RemoteChainConfig; committee_verifier_SignatureQuorumConfig;
     committee_verifier_AllowListEntry; committee_verifier_AllowListUpdate]
    [committee_verifier_CCIPError]
    [committee_verifier_ConfigSetEvent; committee_verifier_FinalityConfigSetEvent;
     committee_verifier_SignatureConfigSetEvent; committee_verifier_RemoteChainConfigSetEvent;
     committee_verifier_AllowListSendersAddedEvent;
     committee_verifier_AllowListStateChangedEvent;
     committee_verifier_AllowListSendersRemovedEvent;
     committee_verifier_StorageAdminTransferredEvent;
     committee_verifier_StorageAdminTransferReqEvent;
     committee_verifier_StorageLocationsUpdatedEvent; committee_verifier_RoleGrantedEvent;
     committee_verifier_RoleRevokedEvent; committee_verifier_AuthorizedCallerAddedEvent;
     committee_verifier_AuthorizedCallerRemovedEvent;
     committee_verifier_OwnershipTransferStartedEvent]
    [].

Definition committee_verifier_Owner : Method :=
  mkMethod "Owner" [] [TPtr TString] "nil"
    true "owner" [] (RVal (DCall "OptionalAddressFromScVal")).

Definition committee_verifier_GetFee : Method :=
  mkMethod "GetFee" [("destChainSelector", TUint64); ("message", TBytes); ("extraArgs", TBytes);
     ("requestedFinality", TUint32); ("feeToken", TString)] [TPtr (TNamed "FeeResponse")] "nil"
    true "get_fee" [ECall "Uint64ToScVal"; ECall "BytesToScVal"; ECall "BytesToScVal"; ECall "Uint32ToScVal";
      ECall "AddressToScVal"] (RVal (DStruct "FeeResponse")).

Definition committee_verifier_Upgrade : Method :=
  mkMethod "Upgrade" [("newWasmHash", TArray "32")] [] ""
    false "upgrade" [ECall "Bytes32ToScVal"] RVoid.

Definition committee_verifier_IsOwner : Method :=
  mkMethod "IsOwner" [("addr", TString)] [TBool] "false"
    true "is_owner" [ECall "AddressToScVal"] (RVal (DGet "GetB")).

Definition committee_verifier_InitOwner : Method :=
  mkMethod "InitOwner" [("owner", TString)] [] ""
    false "init_owner" [ECall "AddressToScVal"] RVoid.

Definition committee_verifier_Initialize : Method :=
  mkMethod "Initialize" [("owner", TString); ("dynamicConfig", TNamed "DynamicConfig");
     ("storageLocations", TSlice TBytes); ("rmnProxy", TString); ("versionTag", TArray "4")] [] ""
    false "initialize" [ECall "AddressToScVal"; EMethodOf; ECall "BytesSliceToScVal"; ECall "AddressToScVal";
      ECall "Bytes4ToScVal"] RVoid.

Definition committee_verifier_VersionTag : Method :=
  mkMethod "VersionTag" [] [TArray "4"] "[4]byte{}"
    false "version_tag" [] (RVal (DCall "Bytes4FromScVal")).

Definition committee_verifier_RequireOwner : Method :=
  mkMethod "RequireOwner" [] [TString] empty_literal
    false "require_owner" [] (RVal (DCall "AddressFromScVal")).

Definition committee_verifier_VerifyMessage : Method :=
  mkMethod "VerifyMessage" [("sourceChainSelector", TUint64); ("messageHash", TArray "32");
     ("verifierResults", TBytes)] [] ""
    false "verify_message" [ECall "Uint64ToScVal"; ECall "Bytes32ToScVal"; ECall "BytesToScVal"] RVoid.

Definition committee_verifier_IsInAllowlist : Method :=
  mkMethod "IsInAllowlist" [("key", TUint64); ("addr", TString)] [TBool] "false"
    true "is_in_allowlist" [ECall "Uint64ToScVal"; ECall "AddressToScVal"] (RVal (DGet "GetB")).

Definition committee_verifier_AcceptOwnership : Method :=
  mkMethod "AcceptOwnership" [] [] ""
    false "accept_ownership" [] RVoid.

Definition committee_verifier_TypeAndVersion : Method :=
  mkMethod "TypeAndVersion" [] [TString] empty_literal
    false "type_and_version" [] (RVal (DCall "StringFromScVal")).

Definition committee_verifier_GetPendingOwner : Method :=
  mkMethod "GetPendingOwner" [] [TPtr TString] "nil"
    true "get_pending_owner" [] (RVal (DCall "OptionalAddressFromScVal")).

Definition committee_verifier_GetDynamicConfig : Method :=
  mkMethod "GetDynamicConfig" [] [TPtr (TNamed "DynamicConfig")] "nil"
    true "get_dynamic_config" [] (RVal (DStruct "DynamicConfig")).

Definition committee_verifier_SetDynamicConfig : Method :=
  mkMethod "SetDynamicConfig" [("dynamicConfig", TNamed "DynamicConfig")] [] ""
    false "set_dynamic_config" [EMethodOf] RVoid.

Definition committee_verifier_TransferOwnership : Method :=
  mkMethod "TransferOwnership" [("newOwner", TString)] [] ""
    false "transfer_ownership" [ECall "AddressToScVal"] RVoid.

Definition committee_verifier_ForwardToVerifier : Method :=
  mkMethod "ForwardToVerifier" [("destChainSelector", TUint64); ("sender", TString); ("messageId", TArray "32");
     ("feeToken", TString); ("feeTokenAmount", TBig); ("verifierArgs", TBytes)] [TBytes] "nil"
    false "forward_to_verifier" [ECall "Uint64ToScVal"; ECall "AddressToScVal"; ECall "Bytes32ToScVal"; ECall
      "AddressToScVal"; ECall "I128ToScVal"; ECall "BytesToScVal"] (RVal (DGet "GetBytes")).

Definition committee_verifier_GetAllowlistEntry : Method :=
  mkMethod "GetAllowlistEntry" [("key", TUint64)] [TPtr (TNamed "AllowListEntry")] "nil"
    true "get_allowlist_entry" [ECall "Uint64ToScVal"] (RVal (DNullable "AllowListEntry")).

Definition committee_verifier_WithdrawFeeTokens : Method :=
  mkMethod "WithdrawFeeTokens" [("feeTokens", TSlice TString)] [] ""
    false "withdraw_fee_tokens" [ECall "AddressSliceToScVal"] RVoid.

Definition committee_verifier_GetSignatureConfig : Method :=
  mkMethod "GetSignatureConfig" [("sourceChainSelector", TUint64)] [TPtr (TNamed "SignatureQuorumConfig")] "nil"
    true "get_signature_config" [ECall "Uint64ToScVal"] (RVal (DStruct "SignatureQuorumConfig")).

Definition committee_verifier_IsAllowlistEnabled : Method :=
  mkMethod "IsAllowlistEnabled" [("key", TUint64)] [TBool] "false"
    true "is_allowlist_enabled" [ECall "Uint64ToScVal"] (RVal (DGet "GetB")).

Definition committee_verifier_RequireInAllowlist : Method :=
  mkMethod "RequireInAllowlist" [("key", TUint64); ("address", TString)] [] ""
    false "require_in_allowlist" [ECall "Uint64ToScVal"; ECall "AddressToScVal"] RVoid.

Definition committee_verifier_GetStorageLocations : Method :=
  mkMethod "GetStorageLocations" [] [TSlice TBytes] "nil"
    true "get_storage_locations" [] (RVal (DVec TBytes (DGet "GetBytes"))).

Definition committee_verifier_ApplyAllowlistUpdates : Method :=
  mkMethod "ApplyAllowlistUpdates" [("caller", TString); ("updates", TSlice (TNamed "AllowListUpdate"))] [] ""
    false "apply_allowlist_updates" [ECall "AddressToScVal"; ECall "StructSliceToScVal"] RVoid.

Definition committee_verifier_ApplySignatureConfigs : Method :=
  mkMethod "ApplySignatureConfigs" [("sourceChainsToRemove", TSlice TUint64);
     ("signatureConfigs", TSlice (TNamed "SignatureQuorumConfig"))] [] ""
    false "apply_signature_configs" [ECall "Uint64SliceToScVal"; ECall "StructSliceToScVal"] RVoid.

Definition committee_verifier_GetRemoteChainConfig : Method :=
  mkMethod "GetRemoteChainConfig" [("remoteChainSelector", TUint64)] [TPtr (TNamed "RemoteChainConfig")] "nil"
    true "get_remote_chain_config" [ECall "Uint64ToScVal"] (RVal (DStruct "RemoteChainConfig")).

Definition committee_verifier_UpdateStorageLocations : Method :=
  mkMethod "UpdateStorageLocations" [("newLocations", TSlice TBytes)] [] ""
    false "update_storage_locations" [ECall "BytesSliceToScVal"] RVoid.

Definition committee_verifier_CancelOwnershipTransfer : Method :=
  mkMethod "CancelOwnershipTransfer" [] [] ""
    false "cancel_ownership_transfer" [] RVoid.

Definition committee_verifier_GetAllowedFinalityConfig : Method :=
  mkMethod "GetAllowedFinalityConfig" [] [TUint32] "0"
    true "get_allowed_finality_config" [] (RVal (DGet "GetU32")).

Definition committee_verifier_GetStorageLocationsAdmin : Method :=
  mkMethod "GetStorageLocationsAdmin" [] [TString] empty_literal
    true "get_storage_locations_admin" [] (RVal (DCall "AddressFromScVal")).

Definition committee_verifier_SetAllowedFinalityConfig : Method :=
  mkMethod "SetAllowedFinalityConfig" [("allowedFinality", TUint32)] [] ""
    false "set_allowed_finality_config" [ECall "Uint32ToScVal"] RVoid.

Definition committee_verifier_GetPendingStorageLocAdmin : Method :=
  mkMethod "GetPendingStorageLocAdmin" [] [TPtr TString] "nil"
    true "get_pending_storage_loc_admin" [] (RVal (DCall "OptionalAddressFromScVal")).

Definition committee_verifier_AcceptStorageLocationsAdmin : Method :=
  mkMethod "AcceptStorageLocationsAdmin" [] [] ""
    false "accept_storage_locations_admin" [] RVoid.

Definition committee_verifier_ApplyRemoteChainCfgUpdates : Method :=
  mkMethod "ApplyRemoteChainCfgUpdates" [("remoteChainConfigArgs", TSlice (TNamed "RemoteChainConfig"))] [] ""
    false "apply_remote_chain_cfg_updates" [ECall "StructSliceToScVal"] RVoid.

Definition committee_verifier_TransferStorageLocationsAdmin : Method :=
  mkMethod "TransferStorageLocationsAdmin" [("to", TString)] [] ""
    false "transfer_storage_locations_admin" [ECall "AddressToScVal"] RVoid.

Definition committee_verifier_WaitForConfigSetEvent : EventHelper :=
  mkEventHelper "ConfigSetEvent" (mkEventParser
    []
    [("dynamic_config", "DynamicConfig", EvField (DStruct "DynamicConfig"))]).

Definition committee_verifier_WaitForFinalityConfigSetEvent : EventHelper :=
  mkEventHelper "FinalityConfigSetEvent" (mkEventParser
    []
    [("allowed_finality", "AllowedFinality", EvField (DGet "GetU32"))]).

Definition committee_verifier_WaitForSignatureConfigSetEvent : EventHelper :=
  mkEventHelper "SignatureConfigSetEvent" (mkEventParser
    []
    [("source_chain_selector", "SourceChainSelector", EvField (DCall "Uint64FromScVal"));
     ("signers", "Signers", EvVec (TArray "32") (DCall "Bytes32FromScVal") false);
     ("threshold", "Threshold", EvField (DGet "GetU32"))]).

Definition committee_verifier_WaitForRemoteChainConfigSetEvent : EventHelper :=
  mkEventHelper "RemoteChainConfigSetEvent" (mkEventParser
    []
    [("remote_chain_selector", "RemoteChainSelector", EvField (DCall "Uint64FromScVal"));
     ("router", "Router", EvField (DCall "OptionalAddressFromScVal"));
     ("allowlist_enabled", "AllowlistEnabled", EvField (DGet "GetB"))]).

Definition committee_verifier_WaitForAllowListSendersAddedEvent : EventHelper :=
  mkEventHelper "AllowListSendersAddedEvent" (mkEventParser
    []
    [("dest_chain_selector", "DestChainSelector", EvField (DCall "Uint64FromScVal"));
     ("sender", "Sender", EvField (DCall "AddressFromScVal"))]).

Definition committee_verifier_WaitForAllowListStateChangedEvent : EventHelper :=
  mkEventHelper "AllowListStateChangedEvent" (mkEventParser
    []
    [("dest_chain_selector", "DestChainSelector", EvField (DCall "Uint64FromScVal"));
     ("allowlist_enabled", "AllowlistEnabled", EvField (DGet "GetB"))]).

Definition committee_verifier_WaitForAllowListSendersRemovedEvent : EventHelper :=
  mkEventHelper "AllowListSendersRemovedEvent" (mkEventParser
    []
    [("dest_chain_selector", "DestChainSelector", EvField (DCall "Uint64FromScVal"));
     ("sender", "Sender", EvField (DCall "AddressFromScVal"))]).

Definition committee_verifier_WaitForStorageAdminTransferredEvent : EventHelper :=
  mkEventHelper "StorageAdminTransferredEvent" (mkEventParser
    []
    [("from", "From", EvField (DCall "AddressFromScVal"));
     ("to", "To", EvField (DCall "AddressFromScVal"))]).

Definition committee_verifier_WaitForStorageAdminTransferReqEvent : EventHelper :=
  mkEventHelper "StorageAdminTransferReqEvent" (mkEventParser
    []
    [("from", "From", EvField (DCall "AddressFromScVal"));
     ("to", "To", EvField (DCall "AddressFromScVal"))]).

Definition committee_verifier_WaitForStorageLocationsUpdatedEvent : EventHelper :=
  mkEventHelper "StorageLocationsUpdatedEvent" (mkEventParser
    []
    [("old_locations", "OldLocations", EvVec TBytes (DGet "GetBytes") false);
     ("new_locations", "NewLocations", EvVec TBytes (DGet "GetBytes") false)]).

Definition committee_verifier_WaitForRoleGrantedEvent : EventHelper :=
  mkEventHelper "RoleGrantedEvent" (mkEventParser
    []
    [("role", "Role", EvField (DCall "SymbolFromScVal"));
     ("account", "Account", EvField (DCall "AddressFromScVal"));
     ("sender", "Sender", EvField (DCall "AddressFromScVal"))]).

Definition committee_verifier_WaitForRoleRevokedEvent : EventHelper :=
  mkEventHelper "RoleRevokedEvent" (mkEventParser
    []
    [("role", "Role", EvField (DCall "SymbolFromScVal"));
     ("account", "Account", EvField (DCall "AddressFromScVal"));
     ("sender", "Sender", EvField (DCall "AddressFromScVal"))]).

Definition committee_verifier_WaitForAuthorizedCallerAddedEvent : EventHelper :=
  mkEventHelper "AuthorizedCallerAddedEvent" (mkEventParser
    []
    [("caller", "Caller", EvField (DCall "AddressFromScVal"))]).

Definition committee_verifier_WaitForAuthorizedCallerRemovedEvent : EventHelper :=
  mkEventHelper "AuthorizedCallerRemovedEvent" (mkEventParser
    []
    [("caller", "Caller", EvField (DCall "AddressFromScVal"))]).

Definition committee_verifier_WaitForOwnershipTransferStartedEvent : EventHelper :=
  mkEventHelper "OwnershipTransferStartedEvent" (mkEventParser
    []
    [("previous_owner", "PreviousOwner", EvField (DCall "AddressFromScVal"));
     ("new_owner", "NewOwner", EvField (DCall "AddressFromScVal"))]).

Definition committee_verifier_client : ClientFile :=
  mkClientFile "committee_verifier" "CommitteeVerifier" true true
    [committee_verifier_Owner; committee_verifier_GetFee; committee_verifier_Upgrade;
     committee_verifier_IsOwner; committee_verifier_InitOwner; committee_verifier_Initialize;
     committee_verifier_VersionTag; committee_verifier_RequireOwner;
     committee_verifier_VerifyMessage; committee_verifier_IsInAllowlist;
     committee_verifier_AcceptOwnership; committee_verifier_TypeAndVersion;
     committee_verifier_GetPendingOwner; committee_verifier_GetDynamicConfig;
     committee_verifier_SetDynamicConfig; committee_verifier_TransferOwnership;
     committee_verifier_ForwardToVerifier; committee_verifier_GetAllowlistEntry;
     committee_verifier_WithdrawFeeTokens; committee_verifier_GetSignatureConfig;
     committee_verifier_IsAllowlistEnabled; committee_verifier_RequireInAllowlist;
     committee_verifier_GetStorageLocations; committee_verifier_ApplyAllowlistUpdates;
     committee_verifier_ApplySignatureConfigs; committee_verifier_GetRemoteChainConfig;
     committee_verifier_UpdateStorageLocations; committee_verifier_CancelOwnershipTransfer;
     committee_verifier_GetAllowedFinalityConfig; committee_verifier_GetStorageLocationsAdmin;
     committee_verifier_SetAllowedFinalityConfig; committee_verifier_GetPendingStorageLocAdmin;
     committee_verifier_AcceptStorageLocationsAdmin;
     committee_verifier_ApplyRemoteChainCfgUpdates;
     committee_verifier_TransferStorageLocationsAdmin]
    [committee_verifier_WaitForConfigSetEvent; committee_verifier_WaitForFinalityConfigSetEvent;
     committee_verifier_WaitForSignatureConfigSetEvent;
     committee_verifier_WaitForRemoteChainConfigSetEvent;
     committee_verifier_WaitForAllowListSendersAddedEvent;
     committee_verifier_WaitForAllowListStateChangedEvent;
     committee_verifier_WaitForAllowListSendersRemovedEvent;
     committee_verifier_WaitForStorageAdminTransferredEvent;
     committee_verifier_WaitForStorageAdminTransferReqEvent;
     committee_verifier_WaitForStorageLocationsUpdatedEvent;
     committee_verifier_WaitForRoleGrantedEvent; committee_verifier_WaitForRoleRevokedEvent;
     committee_verifier_WaitForAuthorizedCallerAddedEvent;
     committee_verifier_WaitForAuthorizedCallerRemovedEvent;
     committee_verifier_WaitForOwnershipTransferStartedEvent].

(** ** bindings/contracts/versioned_verifier_resolver *)

Definition versioned_verifier_resolver_InboundImplementationArgs : StructDecl :=
  mkStructDecl "InboundImplementationArgs"
    [mkMember "verifier" "Verifier" TString (ECall "AddressToScVal") (DCall "AddressFromScVal");
     mkMember "version" "Version" (TArray "4") (ECall "Bytes4ToScVal") (DCall "Bytes4FromScVal")].

Definition versioned_verifier_resolver_OutboundImplementationArgs : StructDecl :=
  mkStructDecl "OutboundImplementationArgs"
    [mkMember "dest_chain_selector" "DestChainSelector" TUint64 (ECall "Uint64ToScVal")
      (DCall "Uint64FromScVal");
     mkMember "verifier" "Verifier" TString (ECall "AddressToScVal") (DCall "AddressFromScVal")].

Definition versioned_verifier_resolver_InboundImplementationUpdate : StructDecl :=
  mkStructDecl "InboundImplementationUpdate"
    [mkMember "verifier" "Verifier" (TPtr TString) (ECall "OptionalAddressToScVal")
      (DCall "OptionalAddressFromScVal");
     mkMember "version" "Version" (TArray "4") (ECall "Bytes4ToScVal") (DCall "Bytes4FromScVal")].

Definition versioned_verifier_resolver_OutboundImplementationUpdate : StructDecl :=
  mkStructDecl "OutboundImplementationUpdate"
    [mkMember "dest_chain_selector" "DestChainSelector" TUint64 (ECall "Uint64ToScVal")
      (DCall "Uint64FromScVal");
     mkMember "verifier" "Verifier" (TPtr TString) (ECall "OptionalAddressToScVal")
       (DCall "OptionalAddressFromScVal")].

Definition versioned_verifier_resolver_CCIPError : ErrorDecl :=
  mkErrorDecl "CCIPError"
    [("CCIPErrorNotInitialized", 1); ("CCIPErrorAlreadyInitialized", 2);
     ("CCIPErrorUnauthorized", 3); ("CCIPErrorNotOwner", 4); ("CCIPErrorNoPendingOwner", 5);
     ("CCIPErrorCallerNotAuthorized", 6); ("CCIPErrorCallerAlreadyAuthorized", 7);
     ("CCIPErrorCallerNotFound", 8); ("CCIPErrorRoleNotGranted", 9);
     ("CCIPErrorFeatureNotEnabled", 10); ("CCIPErrorRoleAlreadyGranted", 11);
     ("CCIPErrorCannotRenounceRole", 12); ("CCIPErrorInvalidVersionTag", 13);
     ("CCIPErrorInvalidSignatureLength", 14); ("CCIPErrorInvalidSignature", 15);
     ("CCIPErrorInvalidSignatureCount", 16); ("CCIPErrorInvalidSignatureThreshold", 17);
     ("CCIPErrorInvalidSignaturePubkey", 18); ("CCIPErrorSourceSignersNotConfigured", 19);
     ("CCIPErrorInvalidVerifierResults", 20); ("CCIPErrorReentrantCall", 21);
     ("CCIPErrorTokenNotSupported", 22); ("CCIPErrorFeeTokenNotSupported", 23);
     ("CCIPErrorNoGasPriceAvailable", 24); ("CCIPErrorDestinationChainNotEnabled", 25);
     ("CCIPErrorInvalidExtraArgsTag", 26); ("CCIPErrorInvalidExtraArgsData", 27);
     ("CCIPErrorMessageGasLimitTooHigh", 28); ("CCIPErrorMessageTooLarge", 29);
     ("CCIPErrorUnsupportedNumberOfTokens", 30); ("CCIPErrorInvalidDestChainConfig", 31);
     ("CCIPErrorMessageFeeTooHigh", 32); ("CCIPErrorInvalidStaticConfig", 33);
     ("CCIPErrorInvalidTokenReceiver", 34); ("CCIPErrorSourceTokenDataTooLarge", 35);
     ("CCIPErrorInvalidDestBytesOverhead", 36); ("CCIPErrorDestinationChainNotSupported", 37);
     ("CCIPErrorMustBeCalledByRouter", 38); ("CCIPErrorRouterMustSetOriginalSender", 39);
     ("CCIPErrorCannotSendZeroTokens", 40); ("CCIPErrorCanOnlySendOneTokenPerMessage", 41);
     ("CCIPErrorUnsupportedToken", 42); ("CCIPErrorInvalidDestChainAddress", 43);
     ("CCIPErrorFeeExceedsMaxAllowed", 44); ("CCIPErrorInsufficientFeeTokenAmount", 45);
     ("CCIPErrorTokenReceiverNotAllowed", 46); ("CCIPErrorCursedByRMN", 47);
     ("CCIPErrorRemoteChainNotSupported", 48); ("CCIPErrorSenderNotAllowed", 49);
     ("CCIPErrorInvalidTokenAmount", 50); ("CCIPErrorInvalidReceiverAddress", 51);
     ("CCIPErrorInvalidConfig", 52); ("CCIPErrorInvalidVerifierResultsLength", 53);
     ("CCIPErrorInboundImplementationNotFound", 54);
     ("CCIPErrorOutboundImplementationNotFound", 55); ("CCIPErrorInvalidAddress", 56);
     ("CCIPErrorInvalidChainSelector", 57); ("CCIPErrorInvalidVersion", 58);
     ("CCIPErrorInvalidCCVVersion", 59); ("CCIPErrorOffRampAlreadyExists", 60);
     ("CCIPErrorOffRampMismatch", 61); ("CCIPErrorBadRMNSignal", 62);
     ("CCIPErrorUnsupportedDestinationChain", 63); ("CCIPErrorAlreadyCursed", 64);
     ("CCIPErrorConfigNotSet", 65); ("CCIPErrorDuplicateOnchainPublicKey", 66);
     ("CCIPErrorInvalidSignerOrder", 67); ("CCIPErrorNotEnoughSigners", 68);
     ("CCIPErrorNotCursed", 69); ("CCIPErrorOutOfOrderSignatures", 70);
     ("CCIPErrorThresholdNotMet", 71); ("CCIPErrorUnexpectedSigner", 72);
     ("CCIPErrorZeroValueNotAllowed", 73); ("CCIPErrorSourceChainNotEnabled", 100);
     ("CCIPErrorInvalidSourceChainConfig", 101); ("CCIPErrorInvalidOnRampAddress", 102);
     ("CCIPErrorInvalidOffRampAddress", 103); ("CCIPErrorInvalidMessageDestination", 104);
     ("CCIPErrorMessageAlreadyExecuted", 105); ("CCIPErrorInvalidExecutionState", 106);
     ("CCIPErrorCCVLengthMismatch", 107); ("CCIPErrorCCVQuorumNotMet", 108);
     ("CCIPErrorReceiverError", 109); ("CCIPErrorGasLimitOverrideTooLow", 110);
     ("CCIPErrorInvalidReceiverLength", 111); ("CCIPErrorTokenHandlingError", 112);
     ("CCIPErrorMessageDecodingError", 113); ("CCIPErrorReceiverDoesNotExist", 114);
     ("CCIPErrorReceiverNotWasmContract", 115); ("CCIPErrorRequiredCCVMissing", 116);
     ("CCIPErrorInvalidOptionalThreshold", 117); ("CCIPErrorOptionalCCVQuorumNotReached", 118);
     ("CCIPErrorNoStateProgressMade", 119); ("CCIPErrorOnlyRegistryModuleOrOwner", 201);
     ("CCIPErrorOnlyAdministrator", 202); ("CCIPErrorOnlyPendingAdministrator", 203);
     ("CCIPErrorTokenAlreadyRegistered", 204); ("CCIPErrorInvalidTokenPoolToken", 205);
     ("CCIPErrorPoolTokenMismatch", 301); ("CCIPErrorChainNotSupported", 302);
     ("CCIPErrorCallerIsNotRamp", 303); ("CCIPErrorInsufficientPoolLiquidity", 304);
     ("CCIPErrorInvalidRemotePoolAddress", 305); ("CCIPErrorInvalidRemoteChainConfig", 306);
     ("CCIPErrorInvalidRemoteChainDecimals", 307); ("CCIPErrorDecimalAmountOverflow", 308);
     ("CCIPErrorInvalidPoolTokenDecimals", 309); ("CCIPErrorBucketOverfilled", 310);
     ("CCIPErrorTokenMaxCapacityExceeded", 311); ("CCIPErrorTokenRateLimitReached", 312);
     ("CCIPErrorInvalidRateLimitRate", 313); ("CCIPErrorDisabledNonZeroRateLimit", 314);
     ("CCIPErrorInvalidRequestedFinality", 315);
     ("CCIPErrorRequestedFinalityCanOnlyHaveOneMode", 316);
     ("CCIPErrorInvalidChainForClient", 317); ("CCIPErrorRouterNotConfigured", 318);
     ("CCIPErrorInvalidSourcePoolAddress", 319); ("CCIPErrorDuplicateCCVNotAllowed", 320);
     ("CCIPErrorInvalidTokenTransferFeeConfig", 321); ("CCIPErrorInvalidTransferFeeBps", 322);
     ("CCIPErrorInvalidAllowListRequest", 323); ("CCIPErrorInvalidFeeCalculation", 801);
     ("CCIPErrorInvalidFeeTokenConversion", 802); ("CCIPErrorZeroFeeAggregatorNotAllowed", 803);
     ("CCIPErrorExceedsMaxCCVs", 804); ("CCIPErrorCCVNotAllowed", 805);
     ("CCIPErrorPolicyEngineDetachReverted", 806); ("CCIPErrorUnsupportedSelector", 807);
     ("CCIPErrorZeroAddressNotAllowed", 808)]
    [(1, "not initialized"); (2, "already initialized"); (3, "unauthorized"); (4, "not owner");
     (5, "no pending owner"); (6, "caller not authorized"); (7, "caller already authorized");
     (8, "caller not found"); (9, "role not granted"); (10, "feature not enabled");
     (11, "role already granted"); (12, "cannot renounce role"); (13, "invalid version tag");
     (14, "invalid signature length"); (15, "invalid signature");
     (16, "invalid signature count"); (17, "invalid signature threshold");
     (18, "invalid signature pubkey"); (19, "source signers not configured");
     (20, "invalid verifier results"); (21, "reentrant call"); (22, "token not supported");
     (23, "fee token not supported"); (24, "no gas price available");
     (25, "destination chain not enabled"); (26, "invalid extra args tag");
     (27, "invalid extra args data"); (28, "message gas limit too high");
     (29, "message too large"); (30, "unsupported number of tokens");
     (31, "invalid dest chain config"); (32, "message fee too high");
     (33, "invalid static config"); (34, "invalid token receiver");
     (35, "source token data too large"); (36, "invalid dest bytes overhead");
     (37, "destination chain not supported"); (38, "must be called by router");
     (39, "router must set original sender"); (40, "cannot send zero tokens");
     (41, "can only send one token per message"); (42, "unsupported token");
     (43, "invalid dest chain address"); (44, "fee exceeds max allowed");
     (45, "insufficient fee token amount"); (46, "token receiver not allowed");
     (47, "cursed by r m n"); (48, "remote chain not supported"); (49, "sender not allowed");
     (50, "invalid token amount"); (51, "invalid receiver address"); (52, "invalid config");
     (53, "invalid verifier results length"); (54, "inbound implementation not found");
     (55, "outbound implementation not found"); (56, "invalid address");
     (57, "invalid chain selector"); (58, "invalid version"); (59, "invalid c c v version");
     (60, "off ramp already exists"); (61, "off ramp mismatch"); (62, "bad r m n signal");
     (63, "unsupported destination chain"); (64, "already cursed"); (65, "config not set");
     (66, "duplicate onchain public key"); (67, "invalid signer order");
     (68, "not enough signers"); (69, "not cursed"); (70, "out of order signatures");
     (71, "threshold not met"); (72, "unexpected signer"); (73, "zero value not allowed");
     (100, "source chain not enabled"); (101, "invalid source chain config");
     (102, "invalid on ramp address"); (103, "invalid off ramp address");
     (104, "invalid message destination"); (105, "message already executed");
     (106, "invalid execution state"); (107, "c c v length mismatch");
     (108, "c c v quorum not met"); (109, "receiver error");
     (110, "gas limit override too low"); (111, "invalid receiver length");
     (112, "token handling error"); (113, "message decoding error");
     (114, "receiver does not exist"); (115, "receiver not wasm contract");
     (116, "required c c v missing"); (117, "invalid optional threshold");
     (118, "optional c c v quorum not reached"); (119, "no state progress made");
     (201, "only registry module or owner"); (202, "only administrator");
     (203, "only pending administrator"); (204, "token already registered");
     (205, "invalid token pool token"); (301, "pool token mismatch");
     (302, "chain not supported"); (303, "caller is not ramp");
     (304, "insufficient pool liquidity"); (305, "invalid remote pool address");
     (306, "invalid remote chain config"); (307, "invalid remote chain decimals");
     (308, "decimal amount overflow"); (309, "invalid pool token decimals");
     (310, "bucket overfilled"); (311, "token max capacity exceeded");
     (312, "token rate limit reached"); (313, "invalid rate limit rate");
     (314, "disabled non zero rate limit"); (315, "invalid requested finality");
     (316, "requested finality can only have one mode"); (317, "invalid chain for client");
     (318, "router not configured"); (319, "invalid source pool address");
     (320, "duplicate c c v not allowed"); (321, "invalid token transfer fee config");
     (322, "invalid transfer fee bps"); (323, "invalid allow list request");
     (801, "invalid fee calculation"); (802, "invalid fee token conversion");
     (803, "zero fee aggregator not allowed"); (804, "exceeds max c c vs");
     (805, "c c v not allowed"); (806, "policy engine detach reverted");
     (807, "unsupported selector"); (808, "zero address not allowed")].

Definition versioned_verifier_resolver_InboundImplSetEvent : EventDecl :=
  mkEventDecl "InboundImplSetEvent"
    [("Version", TArray "4"); ("Verifier", TString); ("Ledger", TUint32); ("TxHash", TString)]
    (Some "vvr_InboundImplSet").

Definition versioned_verifier_resolver_OutboundImplSetEvent : EventDecl :=
  mkEventDecl "OutboundImplSetEvent"
    [("DestChainSelector", TUint64); ("Verifier", TString); ("Ledger", TUint32);
     ("TxHash", TString)]
    (Some "vvr_OutboundImplSet").

Definition versioned_verifier_resolver_FeeAggregatorSetEvent : EventDecl :=
  mkEventDecl "FeeAggregatorSetEvent"
    [("FeeAggregator", TString); ("Ledger", TUint32); ("TxHash", TString)]
    (Some "vvr_FeeAggregatorSet").

Definition versioned_verifier_resolver_InboundImplRemovedEvent : EventDecl :=
  mkEventDecl "InboundImplRemovedEvent"
    [("Version", TArray "4"); ("Ledger", TUint32); ("TxHash", TString)]
    (Some "vvr_InboundImplRemoved").

Definition versioned_verifier_resolver_OutboundImplRemovedEvent : EventDecl :=
  mkEventDecl "OutboundImplRemovedEvent"
    [("DestChainSelector", TUint64); ("Ledger", TUint32); ("TxHash", TString)]
    (Some "vvr_OutboundImplRemoved").

Definition versioned_verifier_resolver_RoleGrantedEvent : EventDecl :=
  mkEventDecl "RoleGrantedEvent"
    [("Role", TString); ("Account", TString); ("Sender", TString); ("Ledger", TUint32);
     ("TxHash", TString)]
    (Some "auth_RoleGranted").

Definition versioned_verifier_resolver_RoleRevokedEvent : EventDecl :=
  mkEventDecl "RoleRevokedEvent"
    [("Role", TString); ("Account", TString); ("Sender", TString); ("Ledger", TUint32);
     ("TxHash", TString)]
    (Some "auth_RoleRevoked").

Definition versioned_verifier_resolver_AuthorizedCallerAddedEvent : EventDecl :=
  mkEventDecl "AuthorizedCallerAddedEvent"
    [("Caller", TString); ("Ledger", TUint32); ("TxHash", TString)]
    (Some "auth_CallerAdded").

Definition versioned_verifier_resolver_AuthorizedCallerRemovedEvent : EventDecl :=
  mkEventDecl "AuthorizedCallerRemovedEvent"
    [("Caller", TString); ("Ledger", TUint32); ("TxHash", TString)]
    (Some "auth_CallerRemoved").

Definition versioned_verifier_resolver_OwnershipTransferStartedEvent : EventDecl :=
  mkEventDecl "OwnershipTransferStartedEvent"
    [("PreviousOwner", TString); ("NewOwner", TString); ("Ledger", TUint32);
     ("TxHash", TString)]
    (Some "auth_OwnerTransferStart").

Definition versioned_verifier_resolver_types : TypesFile :=
  mkTypesFile "versioned_verifier_resolver" (mkImports true true true false)
    [versioned_verifier_resolver_InboundImplementationArgs;
     versioned_verifier_resolver_OutboundImplementationArgs;
     versioned_verifier_resolver_InboundImplementationUpdate;
     versioned_verifier_resolver_OutboundImplementationUpdate]
    [versioned_verifier_resolver_CCIPError]
    [versioned_verifier_resolver_InboundImplSetEvent;
     versioned_verifier_resolver_OutboundImplSetEvent;
     versioned_verifier_resolver_FeeAggregatorSetEvent;
     versioned_verifier_resolver_InboundImplRemovedEvent;
     versioned_verifier_resolver_OutboundImplRemovedEvent;
     versioned_verifier_resolver_RoleGrantedEvent; versioned_verifier_resolver_RoleRevokedEvent;
     versioned_verifier_resolver_AuthorizedCallerAddedEvent;
     versioned_verifier_resolver_AuthorizedCallerRemovedEvent;
     versioned_verifier_resolver_OwnershipTransferStartedEvent]
    [].

Definition versioned_verifier_resolver_Owner : Method :=
  mkMethod "Owner" [] [TPtr TString] "nil"
    true "owner" [] (RVal (DCall "OptionalAddressFromScVal")).

Definition versioned_verifier_resolver_Upgrade : Method :=
  mkMethod "Upgrade" [("newWasmHash", TArray "32")] [] ""
    false "upgrade" [ECall "Bytes32ToScVal"] RVoid.

Definition versioned_verifier_resolver_IsOwner : Method :=
  mkMethod "IsOwner" [("addr", TString)] [TBool] "false"
    true "is_owner" [ECall "AddressToScVal"] (RVal (DGet "GetB")).

Definition versioned_verifier_resolver_InitOwner : Method :=
  mkMethod "InitOwner" [("owner", TString)] [] ""
    false "init_owner" [ECall "AddressToScVal"] RVoid.

Definition versioned_verifier_resolver_Initialize : Method :=
  mkMethod "Initialize" [("owner", TString); ("feeAggregator", TString)] [] ""
    false "initialize" [ECall "AddressToScVal"; ECall "AddressToScVal"] RVoid.

Definition versioned_verifier_resolver_RequireOwner : Method :=
  mkMethod "RequireOwner" [] [TString] empty_literal
    false "require_owner" [] (RVal (DCall "AddressFromScVal")).

Definition versioned_verifier_resolver_AcceptOwnership : Method :=
  mkMethod "AcceptOwnership" [] [] ""
    false "accept_ownership" [] RVoid.

Definition versioned_verifier_resolver_TypeAndVersion : Method :=
  mkMethod "TypeAndVersion" [] [TString] empty_literal
    false "type_and_version" [] (RVal (DCall "StringFromScVal")).

Definition versioned_verifier_resolver_GetPendingOwner : Method :=
  mkMethod "GetPendingOwner" [] [TPtr TString] "nil"
    true "get_pending_owner" [] (RVal (DCall "OptionalAddressFromScVal")).

Definition versioned_verifier_resolver_GetFeeAggregator : Method :=
  mkMethod "GetFeeAggregator" [] [TString] empty_literal
    true "get_fee_aggregator" [] (RVal (DCall "AddressFromScVal")).

Definition versioned_verifier_resolver_SetFeeAggregator : Method :=
  mkMethod "SetFeeAggregator" [("feeAggregator", TString)] [] ""
    false "set_fee_aggregator" [ECall "AddressToScVal"] RVoid.

Definition versioned_verifier_resolver_TransferOwnership : Method :=
  mkMethod "TransferOwnership" [("newOwner", TString)] [] ""
    false "transfer_ownership" [ECall "AddressToScVal"] RVoid.

Definition versioned_verifier_resolver_WithdrawFeeTokens : Method :=
  mkMethod "WithdrawFeeTokens" [("feeTokens", TSlice TString)] [] ""
    false "withdraw_fee_tokens" [ECall "AddressSliceToScVal"] RVoid.

Definition versioned_verifier_resolver_CancelOwnershipTransfer : Method :=
  mkMethod "CancelOwnershipTransfer" [] [] ""
    false "cancel_ownership_transfer" [] RVoid.

Definition versioned_verifier_resolver_ApplyInboundImplUpdates : Method :=
  mkMethod "ApplyInboundImplUpdates" [("implementations", TSlice (TNamed "InboundImplementationUpdate"))] [] ""
    false "apply_inbound_impl_updates" [ECall "StructSliceToScVal"] RVoid.

Definition versioned_verifier_resolver_GetInboundImplementation : Method :=
  mkMethod "GetInboundImplementation" [("verifierResults", TBytes)] [TString] empty_literal
    true "get_inbound_implementation" [ECall "BytesToScVal"] (RVal (DCall "AddressFromScVal")).

Definition versioned_verifier_resolver_ApplyOutboundImplUpdates : Method :=
  mkMethod "ApplyOutboundImplUpdates" [("implementations", TSlice (TNamed "OutboundImplementationUpdate"))] []
    ""
    false "apply_outbound_impl_updates" [ECall "StructSliceToScVal"] RVoid.

Definition versioned_verifier_resolver_GetOutboundImplementation : Method :=
  mkMethod "GetOutboundImplementation" [("destChainSelector", TUint64); ("extraArgs", TBytes)] [TString]
    empty_literal
    true "get_outbound_implementation" [ECall "Uint64ToScVal"; ECall "BytesToScVal"]
      (RVal (DCall "AddressFromScVal")).

Definition versioned_verifier_resolver_GetAllInboundImplementations : Method :=
  mkMethod "GetAllInboundImplementations" [] [TSlice (TNamed "InboundImplementationArgs")] "nil"
    true "get_all_inbound_implementations" []
      (RVal (DVec (TNamed "InboundImplementationArgs") (DStruct "InboundImplementationArgs"))).

Definition versioned_verifier_resolver_GetAllOutboundImplementations : Method :=
  mkMethod "GetAllOutboundImplementations" [] [TSlice (TNamed "OutboundImplementationArgs")] "nil"
    true "get_all_outbound_implementations" []
      (RVal (DVec (TNamed "OutboundImplementationArgs") (DStruct "OutboundImplementationArgs"))).

Definition versioned_verifier_resolver_WaitForInboundImplSetEvent : EventHelper :=
  mkEventHelper "InboundImplSetEvent" (mkEventParser
    []
    [("version", "Version", EvField (DCall "Bytes4FromScVal"));
     ("verifier", "Verifier", EvField (DCall "AddressFromScVal"))]).

Definition versioned_verifier_resolver_WaitForOutboundImplSetEvent : EventHelper :=
  mkEventHelper "OutboundImplSetEvent" (mkEventParser
    []
    [("dest_chain_selector", "DestChainSelector", EvField (DCall "Uint64FromScVal"));
     ("verifier", "Verifier", EvField (DCall "AddressFromScVal"))]).

Definition versioned_verifier_resolver_WaitForFeeAggregatorSetEvent : EventHelper :=
  mkEventHelper "FeeAggregatorSetEvent" (mkEventParser
    []
    [("fee_aggregator", "FeeAggregator", EvField (DCall "AddressFromScVal"))]).

Definition versioned_verifier_resolver_WaitForInboundImplRemovedEvent : EventHelper :=
  mkEventHelper "InboundImplRemovedEvent" (mkEventParser
    []
    [("version", "Version", EvField (DCall "Bytes4FromScVal"))]).

Definition versioned_verifier_resolver_WaitForOutboundImplRemovedEvent : EventHelper :=
  mkEventHelper "OutboundImplRemovedEvent" (mkEventParser
    []
    [("dest_chain_selector", "DestChainSelector", EvField (DCall "Uint64FromScVal"))]).

Definition versioned_verifier_resolver_WaitForRoleGrantedEvent : EventHelper :=
  mkEventHelper "RoleGrantedEvent" (mkEventParser
    []
    [("role", "Role", EvField (DCall "SymbolFromScVal"));
     ("account", "Account", EvField (DCall "AddressFromScVal"));
     ("sender", "Sender", EvField (DCall "AddressFromScVal"))]).

Definition versioned_verifier_resolver_WaitForRoleRevokedEvent : EventHelper :=
  mkEventHelper "RoleRevokedEvent" (mkEventParser
    []
    [("role", "Role", EvField (DCall "SymbolFromScVal"));
     ("account", "Account", EvField (DCall "AddressFromScVal"));
     ("sender", "Sender", EvField (DCall "AddressFromScVal"))]).

Definition versioned_verifier_resolver_WaitForAuthorizedCallerAddedEvent : EventHelper :=
  mkEventHelper "AuthorizedCallerAddedEvent" (mkEventParser
    []
    [("caller", "Caller", EvField (DCall "AddressFromScVal"))]).

Definition versioned_verifier_resolver_WaitForAuthorizedCallerRemovedEvent : EventHelper :=
  mkEventHelper "AuthorizedCallerRemovedEvent" (mkEventParser
    []
    [("caller", "Caller", EvField (DCall "AddressFromScVal"))]).

Definition versioned_verifier_resolver_WaitForOwnershipTransferStartedEvent : EventHelper :=
  mkEventHelper "OwnershipTransferStartedEvent" (mkEventParser
    []
    [("previous_owner", "PreviousOwner", EvField (DCall "AddressFromScVal"));
     ("new_owner", "NewOwner", EvField (DCall "AddressFromScVal"))]).

Definition versioned_verifier_resolver_client : ClientFile :=
  mkClientFile "versioned_verifier_resolver" "VersionedVerifierResolver" false true
    [versioned_verifier_resolver_Owner; versioned_verifier_resolver_Upgrade;
     versioned_verifier_resolver_IsOwner; versioned_verifier_resolver_InitOwner;
     versioned_verifier_resolver_Initialize; versioned_verifier_resolver_RequireOwner;
     versioned_verifier_resolver_AcceptOwnership; versioned_verifier_resolver_TypeAndVersion;
     versioned_verifier_resolver_GetPendingOwner; versioned_verifier_resolver_GetFeeAggregator;
     versioned_verifier_resolver_SetFeeAggregator;
     versioned_verifier_resolver_TransferOwnership;
     versioned_verifier_resolver_WithdrawFeeTokens;
     versioned_verifier_resolver_CancelOwnershipTransfer;
     versioned_verifier_resolver_ApplyInboundImplUpdates;
     versioned_verifier_resolver_GetInboundImplementation;
     versioned_verifier_resolver_ApplyOutboundImplUpdates;
     versioned_verifier_resolver_GetOutboundImplementation;
     versioned_verifier_resolver_GetAllInboundImplementations;
     versioned_verifier_resolver_GetAllOutboundImplementations]
    [versioned_verifier_resolver_WaitForInboundImplSetEvent;
     versioned_verifier_resolver_WaitForOutboundImplSetEvent;
     versioned_verifier_resolver_WaitForFeeAggregatorSetEvent;
     versioned_verifier_resolver_WaitForInboundImplRemovedEvent;
     versioned_verifier_resolver_WaitForOutboundImplRemovedEvent;
     versioned_verifier_resolver_WaitForRoleGrantedEvent;
     versioned_verifier_resolver_WaitForRoleRevokedEvent;
     versioned_verifier_resolver_WaitForAuthorizedCallerAddedEvent;
     versioned_verifier_resolver_WaitForAuthorizedCallerRemovedEvent;
     versioned_verifier_resolver_WaitForOwnershipTransferStartedEvent].

(** ** bindings/contracts/advanced_pool_hooks *)

Definition advanced_pool_hooks_PoolRequiredCCVs : StructDecl :=
  mkStructDecl "PoolRequiredCCVs"
    [mkMember "ccvs" "Ccvs" (TSlice TString) (ECall "AddressSliceToScVal")
      (DVec TString (DCall "AddressFromScVal"));
     mkMember "include_defaults" "IncludeDefaults" TBool (ECall "BoolToScVal") (DGet "GetB")].

Definition advanced_pool_hooks_LockOrBurnIn : StructDecl :=
  mkStructDecl "LockOrBurnIn"
    [mkMember "receiver" "Receiver" TBytes (ECall "BytesToScVal") (DGet "GetBytes");
     mkMember "remote_chain_selector" "RemoteChainSelector" TUint64 (ECall "Uint64ToScVal")
       (DCall "Uint64FromScVal");
     mkMember "original_sender" "OriginalSender" TString (ECall "AddressToScVal") (DCall "AddressFromScVal");
     mkMember "amount" "Amount" TBig (ECall "I128ToScVal") (DCall "I128FromScVal");
     mkMember "local_token" "LocalToken" TString (ECall "AddressToScVal") (DCall "AddressFromScVal")].

Definition advanced_pool_hooks_ReleaseOrMintIn : StructDecl :=
  mkStructDecl "ReleaseOrMintIn"
    [mkMember "original_sender" "OriginalSender" TBytes (ECall "BytesToScVal") (DGet "GetBytes");
     mkMember "remote_chain_selector" "RemoteChainSelector" TUint64 (ECall "Uint64ToScVal")
       (DCall "Uint64FromScVal");
     mkMember "receiver" "Receiver" TString (ECall "AddressToScVal") (DCall "AddressFromScVal");
     mkMember "amount" "Amount" TBig (ECall "I128ToScVal") (DCall "I128FromScVal");
     mkMember "local_token" "LocalToken" TString (ECall "AddressToScVal") (DCall "AddressFromScVal");
     mkMember "source_pool_address" "SourcePoolAddress" TBytes (ECall "BytesToScVal") (DGet "GetBytes");
     mkMember "source_pool_data" "SourcePoolData" TBytes (ECall "BytesToScVal") (DGet "GetBytes")].

Definition advanced_pool_hooks_CCVConfig : StructDecl :=
  mkStructDecl "CCVConfig"
    [mkMember "inbound_ccvs" "InboundCcvs" (TSlice TString) (ECall "AddressSliceToScVal")
      (DVec TString (DCall "AddressFromScVal"));
     mkMember "inbound_include_defaults" "InboundIncludeDefaults" TBool (ECall "BoolToScVal") (DGet "GetB");
     mkMember "outbound_ccvs" "OutboundCcvs" (TSlice TString) (ECall "AddressSliceToScVal")
       (DVec TString (DCall "AddressFromScVal"));
     mkMember "outbound_include_defaults" "OutboundIncludeDefaults" TBool (ECall "BoolToScVal") (DGet "GetB");
     mkMember "threshold_inbound_ccvs" "ThresholdInboundCcvs" (TSlice TString) (ECall "AddressSliceToScVal")
       (DVec TString (DCall "AddressFromScVal"));
     mkMember "threshold_outbound_ccvs" "ThresholdOutboundCcvs" (TSlice TString) (ECall "AddressSliceToScVal")
       (DVec TString (DCall "AddressFromScVal"))].

Definition advanced_pool_hooks_CCVConfigArg : StructDecl :=
  mkStructDecl "CCVConfigArg"
    [mkMember "inbound_ccvs" "InboundCcvs" (TSlice TString) (ECall "AddressSliceToScVal")
      (DVec TString (DCall "AddressFromScVal"));
     mkMember "inbound_include_defaults" "InboundIncludeDefaults" TBool (ECall "BoolToScVal") (DGet "GetB");
     mkMember "outbound_ccvs" "OutboundCcvs" (TSlice TString) (ECall "AddressSliceToScVal")
       (DVec TString (DCall "AddressFromScVal"));
     mkMember "outbound_include_defaults" "OutboundIncludeDefaults" TBool (ECall "BoolToScVal") (DGet "GetB");
     mkMember "remote_chain_selector" "RemoteChainSelector" TUint64 (ECall "Uint64ToScVal")
       (DCall "Uint64FromScVal");
     mkMember "threshold_inbound_ccvs" "ThresholdInboundCcvs" (TSlice TString) (ECall "AddressSliceToScVal")
       (DVec TString (DCall "AddressFromScVal"));
     mkMember "threshold_outbound_ccvs" "ThresholdOutboundCcvs" (TSlice TString) (ECall "AddressSliceToScVal")
       (DVec TString (DCall "AddressFromScVal"))].

Definition advanced_pool_hooks_CCIPError : ErrorDecl :=
  mkErrorDecl "CCIPError"
    [("CCIPErrorNotInitialized", 1); ("CCIPErrorAlreadyInitialized", 2);
     ("CCIPErrorUnauthorized", 3); ("CCIPErrorNotOwner", 4); ("CCIPErrorNoPendingOwner", 5);
     ("CCIPErrorCallerNotAuthorized", 6); ("CCIPErrorCallerAlreadyAuthorized", 7);
     ("CCIPErrorCallerNotFound", 8); ("CCIPErrorRoleNotGranted", 9);
     ("CCIPErrorFeatureNotEnabled", 10); ("CCIPErrorRoleAlreadyGranted", 11);
     ("CCIPErrorCannotRenounceRole", 12); ("CCIPErrorInvalidVersionTag", 13);
     ("CCIPErrorInvalidSignatureLength", 14); ("CCIPErrorInvalidSignature", 15);
     ("CCIPErrorInvalidSignatureCount", 16); ("CCIPErrorInvalidSignatureThreshold", 17);
     ("CCIPErrorInvalidSignaturePubkey", 18); ("CCIPErrorSourceSignersNotConfigured", 19);
     ("CCIPErrorInvalidVerifierResults", 20); ("CCIPErrorReentrantCall", 21);
     ("CCIPErrorTokenNotSupported", 22); ("CCIPErrorFeeTokenNotSupported", 23);
     ("CCIPErrorNoGasPriceAvailable", 24); ("CCIPErrorDestinationChainNotEnabled", 25);
     ("CCIPErrorInvalidExtraArgsTag", 26); ("CCIPErrorInvalidExtraArgsData", 27);
     ("CCIPErrorMessageGasLimitTooHigh", 28); ("CCIPErrorMessageTooLarge", 29);
     ("CCIPErrorUnsupportedNumberOfTokens", 30); ("CCIPErrorInvalidDestChainConfig", 31);
     ("CCIPErrorMessageFeeTooHigh", 32); ("CCIPErrorInvalidStaticConfig", 33);
     ("CCIPErrorInvalidTokenReceiver", 34); ("CCIPErrorSourceTokenDataTooLarge", 35);
     ("CCIPErrorInvalidDestBytesOverhead", 36); ("CCIPErrorDestinationChainNotSupported", 37);
     ("CCIPErrorMustBeCalledByRouter", 38); ("CCIPErrorRouterMustSetOriginalSender", 39);
     ("CCIPErrorCannotSendZeroTokens", 40); ("CCIPErrorCanOnlySendOneTokenPerMessage", 41);
     ("CCIPErrorUnsupportedToken", 42); ("CCIPErrorInvalidDestChainAddress", 43);
     ("CCIPErrorFeeExceedsMaxAllowed", 44); ("CCIPErrorInsufficientFeeTokenAmount", 45);
     ("CCIPErrorTokenReceiverNotAllowed", 46); ("CCIPErrorCursedByRMN", 47);
     ("CCIPErrorRemoteChainNotSupported", 48); ("CCIPErrorSenderNotAllowed", 49);
     ("CCIPErrorInvalidTokenAmount", 50); ("CCIPErrorInvalidReceiverAddress", 51);
     ("CCIPErrorInvalidConfig", 52); ("CCIPErrorInvalidVerifierResultsLength", 53);
     ("CCIPErrorInboundImplementationNotFound", 54);
     ("CCIPErrorOutboundImplementationNotFound", 55); ("CCIPErrorInvalidAddress", 56);
     ("CCIPErrorInvalidChainSelector", 57); ("CCIPErrorInvalidVersion", 58);
     ("CCIPErrorInvalidCCVVersion", 59); ("CCIPErrorOffRampAlreadyExists", 60);
     ("CCIPErrorOffRampMismatch", 61); ("CCIPErrorBadRMNSignal", 62);
     ("CCIPErrorUnsupportedDestinationChain", 63); ("CCIPErrorAlreadyCursed", 64);
     ("CCIPErrorConfigNotSet", 65); ("CCIPErrorDuplicateOnchainPublicKey", 66);
     ("CCIPErrorInvalidSignerOrder", 67); ("CCIPErrorNotEnoughSigners", 68);
     ("CCIPErrorNotCursed", 69); ("CCIPErrorOutOfOrderSignatures", 70);
     ("CCIPErrorThresholdNotMet", 71); ("CCIPErrorUnexpectedSigner", 72);
     ("CCIPErrorZeroValueNotAllowed", 73); ("CCIPErrorSourceChainNotEnabled", 100);
     ("CCIPErrorInvalidSourceChainConfig", 101); ("CCIPErrorInvalidOnRampAddress", 102);
     ("CCIPErrorInvalidOffRampAddress", 103); ("CCIPErrorInvalidMessageDestination", 104);
     ("CCIPErrorMessageAlreadyExecuted", 105); ("CCIPErrorInvalidExecutionState", 106);
     ("CCIPErrorCCVLengthMismatch", 107); ("CCIPErrorCCVQuorumNotMet", 108);
     ("CCIPErrorReceiverError", 109); ("CCIPErrorGasLimitOverrideTooLow", 110);
     ("CCIPErrorInvalidReceiverLength", 111); ("CCIPErrorTokenHandlingError", 112);
     ("CCIPErrorMessageDecodingError", 113); ("CCIPErrorReceiverDoesNotExist", 114);
     ("CCIPErrorReceiverNotWasmContract", 115); ("CCIPErrorRequiredCCVMissing", 116);
     ("CCIPErrorInvalidOptionalThreshold", 117); ("CCIPErrorOptionalCCVQuorumNotReached", 118);
     ("CCIPErrorNoStateProgressMade", 119); ("CCIPErrorOnlyRegistryModuleOrOwner", 201);
     ("CCIPErrorOnlyAdministrator", 202); ("CCIPErrorOnlyPendingAdministrator", 203);
     ("CCIPErrorTokenAlreadyRegistered", 204); ("CCIPErrorInvalidTokenPoolToken", 205);
     ("CCIPErrorPoolTokenMismatch", 301); ("CCIPErrorChainNotSupported", 302);
     ("CCIPErrorCallerIsNotRamp", 303); ("CCIPErrorInsufficientPoolLiquidity", 304);
     ("CCIPErrorInvalidRemotePoolAddress", 305); ("CCIPErrorInvalidRemoteChainConfig", 306);
     ("CCIPErrorInvalidRemoteChainDecimals", 307); ("CCIPErrorDecimalAmountOverflow", 308);
     ("CCIPErrorInvalidPoolTokenDecimals", 309); ("CCIPErrorBucketOverfilled", 310);
     ("CCIPErrorTokenMaxCapacityExceeded", 311); ("CCIPErrorTokenRateLimitReached", 312);
     ("CCIPErrorInvalidRateLimitRate", 313); ("CCIPErrorDisabledNonZeroRateLimit", 314);
     ("CCIPErrorInvalidRequestedFinality", 315);
     ("CCIPErrorRequestedFinalityCanOnlyHaveOneMode", 316);
     ("CCIPErrorInvalidChainForClient", 317); ("CCIPErrorRouterNotConfigured", 318);
     ("CCIPErrorInvalidSourcePoolAddress", 319); ("CCIPErrorDuplicateCCVNotAllowed", 320);
     ("CCIPErrorInvalidTokenTransferFeeConfig", 321); ("CCIPErrorInvalidTransferFeeBps", 322);
     ("CCIPErrorInvalidAllowListRequest", 323); ("CCIPErrorInvalidFeeCalculation", 801);
     ("CCIPErrorInvalidFeeTokenConversion", 802); ("CCIPErrorZeroFeeAggregatorNotAllowed", 803);
     ("CCIPErrorExceedsMaxCCVs", 804); ("CCIPErrorCCVNotAllowed", 805);
     ("CCIPErrorPolicyEngineDetachReverted", 806); ("CCIPErrorUnsupportedSelector", 807);
     ("CCIPErrorZeroAddressNotAllowed", 808)]
    [(1, "not initialized"); (2, "already initialized"); (3, "unauthorized"); (4, "not owner");
     (5, "no pending owner"); (6, "caller not authorized"); (7, "caller already authorized");
     (8, "caller not found"); (9, "role not granted"); (10, "feature not enabled");
     (11, "role already granted"); (12, "cannot renounce role"); (13, "invalid version tag");
     (14, "invalid signature length"); (15, "invalid signature");
     (16, "invalid signature count"); (17, "invalid signature threshold");
     (18, "invalid signature pubkey"); (19, "source signers not configured");
     (20, "invalid verifier results"); (21, "reentrant call"); (22, "token not supported");
     (23, "fee token not supported"); (24, "no gas price available");
     (25, "destination chain not enabled"); (26, "invalid extra args tag");
     (27, "invalid extra args data"); (28, "message gas limit too high");
     (29, "message too large"); (30, "unsupported number of tokens");
     (31, "invalid dest chain config"); (32, "message fee too high");
     (33, "invalid static config"); (34, "invalid token receiver");
     (35, "source token data too large"); (36, "invalid dest bytes overhead");
     (37, "destination chain not supported"); (38, "must be called by router");
     (39, "router must set original sender"); (40, "cannot send zero tokens");
     (41, "can only send one token per message"); (42, "unsupported token");
     (43, "invalid dest chain address"); (44, "fee exceeds max allowed");
     (45, "insufficient fee token amount"); (46, "token receiver not allowed");
     (47, "cursed by r m n"); (48, "remote chain not supported"); (49, "sender not allowed");
     (50, "invalid token amount"); (51, "invalid receiver address"); (52, "invalid config");
     (53, "invalid verifier results length"); (54, "inbound implementation not found");
     (55, "outbound implementation not found"); (56, "invalid address");
     (57, "invalid chain selector"); (58, "invalid version"); (59, "invalid c c v version");
     (60, "off ramp already exists"); (61, "off ramp mismatch"); (62, "bad r m n signal");
     (63, "unsupported destination chain"); (64, "already cursed"); (65, "config not set");
     (66, "duplicate onchain public key"); (67, "invalid signer order");
     (68, "not enough signers"); (69, "not cursed"); (70, "out of order signatures");
     (71, "threshold not met"); (72, "unexpected signer"); (73, "zero value not allowed");
     (100, "source chain not enabled"); (101, "invalid source chain config");
     (102, "invalid on ramp address"); (103, "invalid off ramp address");
     (104, "invalid message destination"); (105, "message already executed");
     (106, "invalid execution state"); (107, "c c v length mismatch");
     (108, "c c v quorum not met"); (109, "receiver error");
     (110, "gas limit override too low"); (111, "invalid receiver length");
     (112, "token handling error"); (113, "message decoding error");
     (114, "receiver does not exist"); (115, "receiver not wasm contract");
     (116, "required c c v missing"); (117, "invalid optional threshold");
     (118, "optional c c v quorum not reached"); (119, "no state progress made");
     (201, "only registry module or owner"); (202, "only administrator");
     (203, "only pending administrator"); (204, "token already registered");
     (205, "invalid token pool token"); (301, "pool token mismatch");
     (302, "chain not supported"); (303, "caller is not ramp");
     (304, "insufficient pool liquidity"); (305, "invalid remote pool address");
     (306, "invalid remote chain config"); (307, "invalid remote chain decimals");
     (308, "decimal amount overflow"); (309, "invalid pool token decimals");
     (310, "bucket overfilled"); (311, "token max capacity exceeded");
     (312, "token rate limit reached"); (313, "invalid rate limit rate");
     (314, "disabled non zero rate limit"); (315, "invalid requested finality");
     (316, "requested finality can only have one mode"); (317, "invalid chain for client");
     (318, "router not configured"); (319, "invalid source pool address");
     (320, "duplicate c c v not allowed"); (321, "invalid token transfer fee config");
     (322, "invalid transfer fee bps"); (323, "invalid allow list request");
     (801, "invalid fee calculation"); (802, "invalid fee token conversion");
     (803, "zero fee aggregator not allowed"); (804, "exceeds max c c vs");
     (805, "c c v not allowed"); (806, "policy engine detach reverted");
     (807, "unsupported selector"); (808, "zero address not allowed")].

Definition advanced_pool_hooks_RoleGrantedEvent : EventDecl :=
  mkEventDecl "RoleGrantedEvent"
    [("Role", TString); ("Account", TString); ("Sender", TString); ("Ledger", TUint32);
     ("TxHash", TString)]
    (Some "auth_RoleGranted").

Definition advanced_pool_hooks_RoleRevokedEvent : EventDecl :=
  mkEventDecl "RoleRevokedEvent"
    [("Role", TString); ("Account", TString); ("Sender", TString); ("Ledger", TUint32);
     ("TxHash", TString)]
    (Some "auth_RoleRevoked").

Definition advanced_pool_hooks_AuthorizedCallerAddedEvent : EventDecl :=
  mkEventDecl "AuthorizedCallerAddedEvent"
    [("Caller", TString); ("Ledger", TUint32); ("TxHash", TString)]
    (Some "auth_CallerAdded").

Definition advanced_pool_hooks_AuthorizedCallerRemovedEvent : EventDecl :=
  mkEventDecl "AuthorizedCallerRemovedEvent"
    [("Caller", TString); ("Ledger", TUint32); ("TxHash", TString)]
    (Some "auth_CallerRemoved").

Definition advanced_pool_hooks_OwnershipTransferStartedEvent : EventDecl :=
  mkEventDecl "OwnershipTransferStartedEvent"
    [("PreviousOwner", TString); ("NewOwner", TString); ("Ledger", TUint32);
     ("TxHash", TString)]
    (Some "auth_OwnerTransferStart").

Definition advanced_pool_hooks_AllowListAddEvent : EventDecl :=
  mkEventDecl "AllowListAddEvent"
    [("Sender", TString); ("Ledger", TUint32); ("TxHash", TString)]
    (Some "aph_AllowListAdd").

Definition advanced_pool_hooks_AllowListRemoveEvent : EventDecl :=
  mkEventDecl "AllowListRemoveEvent"
    [("Sender", TString); ("Ledger", TUint32); ("TxHash", TString)]
    (Some "aph_AllowListRemove").

Definition advanced_pool_hooks_CCVConfigUpdatedEvent : EventDecl :=
  mkEventDecl "CCVConfigUpdatedEvent"
    [("RemoteChainSelector", TUint64); ("Config", TNamed "CCVConfig"); ("Ledger", TUint32);
     ("TxHash", TString)]
    (Some "aph_CCVConfigUpdated").

Definition advanced_pool_hooks_ThresholdAmountSetEvent : EventDecl :=
  mkEventDecl "ThresholdAmountSetEvent"
    [("ThresholdAmount", TBig); ("Ledger", TUint32); ("TxHash", TString)]
    (Some "aph_ThresholdAmountSet").

Definition advanced_pool_hooks_PolicyEngineAttachedEvent : EventDecl :=
  mkEventDecl "PolicyEngineAttachedEvent"
    [("PolicyEngine", TPtr TString); ("Ledger", TUint32); ("TxHash", TString)]
    (Some "aph_PolicyEngineAttached").

Definition advanced_pool_hooks_PolicyEngineDetachFailedEvent : EventDecl :=
  mkEventDecl "PolicyEngineDetachFailedEvent"
    [("PolicyEngine", TString); ("Ledger", TUint32); ("TxHash", TString)]
    (Some "aph_PolicyEngineDetachFailed").

Definition advanced_pool_hooks_MessageDirection : EnumDecl :=
  UnionEnum "MessageDirection"
    [mkVariantDecl "Outbound" [];
     mkVariantDecl "Inbound" []].

Definition advanced_pool_hooks_types : TypesFile :=
  mkTypesFile "advanced_pool_hooks" (mkImports true true true true)
    [advanced_pool_hooks_PoolRequiredCCVs; advanced_pool_hooks_LockOrBurnIn;
     advanced_pool_hooks_ReleaseOrMintIn; advanced_pool_hooks_CCVConfig;
     advanced_pool_hooks_CCVConfigArg]
    [advanced_pool_hooks_CCIPError]
    [advanced_pool_hooks_RoleGrantedEvent; advanced_pool_hooks_RoleRevokedEvent;
     advanced_pool_hooks_AuthorizedCallerAddedEvent;
     advanced_pool_hooks_AuthorizedCallerRemovedEvent;
     advanced_pool_hooks_OwnershipTransferStartedEvent; advanced_pool_hooks_AllowListAddEvent;
     advanced_pool_hooks_AllowListRemoveEvent; advanced_pool_hooks_CCVConfigUpdatedEvent;
     advanced_pool_hooks_ThresholdAmountSetEvent; advanced_pool_hooks_PolicyEngineAttachedEvent;
     advanced_pool_hooks_PolicyEngineDetachFailedEvent]
    [advanced_pool_hooks_MessageDirection].

Definition advanced_pool_hooks_Owner : Method :=
  mkMethod "Owner" [] [TPtr TString] "nil"
    true "owner" [] (RVal (DCall "OptionalAddressFromScVal")).

Definition advanced_pool_hooks_Upgrade : Method :=
  mkMethod "Upgrade" [("newWasmHash", TArray "32")] [] ""
    false "upgrade" [ECall "Bytes32ToScVal"] RVoid.

Definition advanced_pool_hooks_IsOwner : Method :=
  mkMethod "IsOwner" [("addr", TString)] [TBool] "false"
    true "is_owner" [ECall "AddressToScVal"] (RVal (DGet "GetB")).

Definition advanced_pool_hooks_InitOwner : Method :=
  mkMethod "InitOwner" [("owner", TString)] [] ""
    false "init_owner" [ECall "AddressToScVal"] RVoid.

Definition advanced_pool_hooks_Initialize : Method :=
  mkMethod "Initialize" [("owner", TString); ("allowlist", TSlice TString); ("thresholdAmount", TBig);
     ("authorizedCallers", TSlice TString); ("policyEngine", TPtr TString)] [] ""
    false "initialize" [ECall "AddressToScVal"; ECall "AddressSliceToScVal"; ECall "I128ToScVal"; ECall
      "AddressSliceToScVal"; ECall "OptionalAddressToScVal"] RVoid.

Definition advanced_pool_hooks_GetAllowlist : Method :=
  mkMethod "GetAllowlist" [] [TSlice TString] "nil"
    true "get_allowlist" [] (RVal (DVec TString (DCall "AddressFromScVal"))).

Definition advanced_pool_hooks_RequireOwner : Method :=
  mkMethod "RequireOwner" [] [TString] empty_literal
    false "require_owner" [] (RVal (DCall "AddressFromScVal")).

Definition advanced_pool_hooks_GetCcvConfig : Method :=
  mkMethod "GetCcvConfig" [("remoteChainSelector", TUint64)] [TPtr (TNamed "CCVConfig")] "nil"
    true "get_ccv_config" [ECall "Uint64ToScVal"] (RVal (DNullable "CCVConfig")).

Definition advanced_pool_hooks_PreflightCheck : Method :=
  mkMethod "PreflightCheck" [("caller", TString); ("lockOrBurnIn", TNamed "LockOrBurnIn");
     ("requestedFinality", TUint32); ("tokenArgs", TBytes); ("amountPostFee", TBig)] [] ""
    false "preflight_check" [ECall "AddressToScVal"; EMethodOf; ECall "Uint32ToScVal"; ECall "BytesToScVal";
      ECall "I128ToScVal"] RVoid.

Definition advanced_pool_hooks_AcceptOwnership : Method :=
  mkMethod "AcceptOwnership" [] [] ""
    false "accept_ownership" [] RVoid.

Definition advanced_pool_hooks_CheckAllowList : Method :=
  mkMethod "CheckAllowList" [("sender", TString)] [] ""
    false "check_allow_list" [ECall "AddressToScVal"] RVoid.

Definition advanced_pool_hooks_PostflightCheck : Method :=
  mkMethod "PostflightCheck" [("caller", TString); ("releaseOrMintIn", TNamed "ReleaseOrMintIn");
    ("localAmount", TBig);
     ("requestedFinality", TUint32)] [] ""
    false "postflight_check" [ECall "AddressToScVal"; EMethodOf; ECall "I128ToScVal"; ECall "Uint32ToScVal"]
      RVoid.

Definition advanced_pool_hooks_TypeAndVersion : Method :=
  mkMethod "TypeAndVersion" [] [TString] empty_literal
    false "type_and_version" [] (RVal (DCall "StringFromScVal")).

Definition advanced_pool_hooks_GetPendingOwner : Method :=
  mkMethod "GetPendingOwner" [] [TPtr TString] "nil"
    true "get_pending_owner" [] (RVal (DCall "OptionalAddressFromScVal")).

Definition advanced_pool_hooks_GetPolicyEngine : Method :=
  mkMethod "GetPolicyEngine" [] [TPtr TString] "nil"
    true "get_policy_engine" [] (RVal (DCall "OptionalAddressFromScVal")).

Definition advanced_pool_hooks_GetRequiredCcvs : Method :=
  mkMethod "GetRequiredCcvs" [("localToken", TString); ("remoteChainSelector", TUint64); ("amount", TBig);
     ("requestedFinality", TUint32); ("extraData", TBytes);
     ("direction", TNamed "MessageDirection")] [TPtr (TNamed "PoolRequiredCCVs")] "nil"
    true "get_required_ccvs" [ECall "AddressToScVal"; ECall "Uint64ToScVal"; ECall "I128ToScVal"; ECall
      "Uint32ToScVal"; ECall "BytesToScVal"; EMethodOf] (RVal (DStruct "PoolRequiredCCVs")).

Definition advanced_pool_hooks_SetPolicyEngine : Method :=
  mkMethod "SetPolicyEngine" [("newPolicyEngine", TPtr TString)] [] ""
    false "set_policy_engine" [ECall "OptionalAddressToScVal"] RVoid.

Definition advanced_pool_hooks_TransferOwnership : Method :=
  mkMethod "TransferOwnership" [("newOwner", TString)] [] ""
    false "transfer_ownership" [ECall "AddressToScVal"] RVoid.

Definition advanced_pool_hooks_GetAllCcvConfigs : Method :=
  mkMethod "GetAllCcvConfigs" [] [TSlice (TNamed "CCVConfigArg")] "nil"
    true "get_all_ccv_configs" [] (RVal (DVec (TNamed "CCVConfigArg") (DStruct "CCVConfigArg"))).

Definition advanced_pool_hooks_GetThresholdAmount : Method :=
  mkMethod "GetThresholdAmount" [] [TBig] "nil"
    true "get_threshold_amount" [] (RVal (DCall "I128FromScVal")).

Definition advanced_pool_hooks_SetThresholdAmount : Method :=
  mkMethod "SetThresholdAmount" [("thresholdAmount", TBig)] [] ""
    false "set_threshold_amount" [ECall "I128ToScVal"] RVoid.

Definition advanced_pool_hooks_GetAllowlistEnabled : Method :=
  mkMethod "GetAllowlistEnabled" [] [TBool] "false"
    true "get_allowlist_enabled" [] (RVal (DGet "GetB")).

Definition advanced_pool_hooks_ApplyAllowlistUpdates : Method :=
  mkMethod "ApplyAllowlistUpdates" [("removes", TSlice TString); ("adds", TSlice TString)] [] ""
    false "apply_allowlist_updates" [ECall "AddressSliceToScVal"; ECall "AddressSliceToScVal"] RVoid.

Definition advanced_pool_hooks_ForceSetPolicyEngine : Method :=
  mkMethod "ForceSetPolicyEngine" [("newPolicyEngine", TPtr TString)] [] ""
    false "force_set_policy_engine" [ECall "OptionalAddressToScVal"] RVoid.

Definition advanced_pool_hooks_ApplyCcvConfigUpdates : Method :=
  mkMethod "ApplyCcvConfigUpdates" [("configs", TSlice (TNamed "CCVConfigArg"))] [] ""
    false "apply_ccv_config_updates" [ECall "StructSliceToScVal"] RVoid.

Definition advanced_pool_hooks_CancelOwnershipTransfer : Method :=
  mkMethod "CancelOwnershipTransfer" [] [] ""
    false "cancel_ownership_transfer" [] RVoid.

Definition advanced_pool_hooks_GetAllAuthorizedCallers : Method :=
  mkMethod "GetAllAuthorizedCallers" [] [TSlice TString] "nil"
    true "get_all_authorized_callers" [] (RVal (DVec TString (DCall "AddressFromScVal"))).

Definition advanced_pool_hooks_ApplyAuthorizedCallersUpdates : Method :=
  mkMethod "ApplyAuthorizedCallersUpdates" [("removes", TSlice TString); ("adds", TSlice TString)] [] ""
    false "apply_authorized_callers_updates" [ECall "AddressSliceToScVal"; ECall "AddressSliceToScVal"] RVoid.

Definition advanced_pool_hooks_WaitForRoleGrantedEvent : EventHelper :=
  mkEventHelper "RoleGrantedEvent" (mkEventParser
    []
    [("role", "Role", EvField (DCall "SymbolFromScVal"));
     ("account", "Account", EvField (DCall "AddressFromScVal"));
     ("sender", "Sender", EvField (DCall "AddressFromScVal"))]).

Definition advanced_pool_hooks_WaitForRoleRevokedEvent : EventHelper :=
  mkEventHelper "RoleRevokedEvent" (mkEventParser
    []
    [("role", "Role", EvField (DCall "SymbolFromScVal"));
     ("account", "Account", EvField (DCall "AddressFromScVal"));
     ("sender", "Sender", EvField (DCall "AddressFromScVal"))]).

Definition advanced_pool_hooks_WaitForAuthorizedCallerAddedEvent : EventHelper :=
  mkEventHelper "AuthorizedCallerAddedEvent" (mkEventParser
    []
    [("caller", "Caller", EvField (DCall "AddressFromScVal"))]).

Definition advanced_pool_hooks_WaitForAuthorizedCallerRemovedEvent : EventHelper :=
  mkEventHelper "AuthorizedCallerRemovedEvent" (mkEventParser
    []
    [("caller", "Caller", EvField (DCall "AddressFromScVal"))]).

Definition advanced_pool_hooks_WaitForOwnershipTransferStartedEvent : EventHelper :=
  mkEventHelper "OwnershipTransferStartedEvent" (mkEventParser
    []
    [("previous_owner", "PreviousOwner", EvField (DCall "AddressFromScVal"));
     ("new_owner", "NewOwner", EvField (DCall "AddressFromScVal"))]).

Definition advanced_pool_hooks_WaitForAllowListAddEvent : EventHelper :=
  mkEventHelper "AllowListAddEvent" (mkEventParser
    []
    [("sender", "Sender", EvField (DCall "AddressFromScVal"))]).

Definition advanced_pool_hooks_WaitForAllowListRemoveEvent : EventHelper :=
  mkEventHelper "AllowListRemoveEvent" (mkEventParser
    []
    [("sender", "Sender", EvField (DCall "AddressFromScVal"))]).

Definition advanced_pool_hooks_WaitForCCVConfigUpdatedEvent : EventHelper :=
  mkEventHelper "CCVConfigUpdatedEvent" (mkEventParser
    []
    [("remote_chain_selector", "RemoteChainSelector", EvField (DCall "Uint64FromScVal"));
     ("config", "Config", EvField (DStruct "CCVConfig"))]).

Definition advanced_pool_hooks_WaitForThresholdAmountSetEvent : EventHelper :=
  mkEventHelper "ThresholdAmountSetEvent" (mkEventParser
    []
    [("threshold_amount", "ThresholdAmount", EvField (DCall "I128FromScVal"))]).

Definition advanced_pool_hooks_WaitForPolicyEngineAttachedEvent : EventHelper :=
  mkEventHelper "PolicyEngineAttachedEvent" (mkEventParser
    []
    [("policy_engine", "PolicyEngine", EvField (DCall "OptionalAddressFromScVal"))]).

Definition advanced_pool_hooks_WaitForPolicyEngineDetachFailedEvent : EventHelper :=
  mkEventHelper "PolicyEngineDetachFailedEvent" (mkEventParser
    []
    [("policy_engine", "PolicyEngine", EvField (DCall "AddressFromScVal"))]).

Definition advanced_pool_hooks_client : ClientFile :=
  mkClientFile "advanced_pool_hooks" "AdvancedPoolHooks" true true
    [advanced_pool_hooks_Owner; advanced_pool_hooks_Upgrade; advanced_pool_hooks_IsOwner;
     advanced_pool_hooks_InitOwner; advanced_pool_hooks_Initialize;
     advanced_pool_hooks_GetAllowlist; advanced_pool_hooks_RequireOwner;
     advanced_pool_hooks_GetCcvConfig; advanced_pool_hooks_PreflightCheck;
     advanced_pool_hooks_AcceptOwnership; advanced_pool_hooks_CheckAllowList;
     advanced_pool_hooks_PostflightCheck; advanced_pool_hooks_TypeAndVersion;
     advanced_pool_hooks_GetPendingOwner; advanced_pool_hooks_GetPolicyEngine;
     advanced_pool_hooks_GetRequiredCcvs; advanced_pool_hooks_SetPolicyEngine;
     advanced_pool_hooks_TransferOwnership; advanced_pool_hooks_GetAllCcvConfigs;
     advanced_pool_hooks_GetThresholdAmount; advanced_pool_hooks_SetThresholdAmount;
     advanced_pool_hooks_GetAllowlistEnabled; advanced_pool_hooks_ApplyAllowlistUpdates;
     advanced_pool_hooks_ForceSetPolicyEngine; advanced_pool_hooks_ApplyCcvConfigUpdates;
     advanced_pool_hooks_CancelOwnershipTransfer; advanced_pool_hooks_GetAllAuthorizedCallers;
     advanced_pool_hooks_ApplyAuthorizedCallersUpdates]
    [advanced_pool_hooks_WaitForRoleGrantedEvent; advanced_pool_hooks_WaitForRoleRevokedEvent;
     advanced_pool_hooks_WaitForAuthorizedCallerAddedEvent;
     advanced_pool_hooks_WaitForAuthorizedCallerRemovedEvent;
     advanced_pool_hooks_WaitForOwnershipTransferStartedEvent;
     advanced_pool_hooks_WaitForAllowListAddEvent;
     advanced_pool_hooks_WaitForAllowListRemoveEvent;
     advanced_pool_hooks_WaitForCCVConfigUpdatedEvent;
     advanced_pool_hooks_WaitForThresholdAmountSetEvent;
     advanced_pool_hooks_WaitForPolicyEngineAttachedEvent;
     advanced_pool_hooks_WaitForPolicyEngineDetachFailedEvent].

(** ** bindings/contracts/advanced_pool_hooks_extractor *)

Definition advanced_pool_hooks_extractor_LockOrBurnIn : StructDecl :=
  mkStructDecl "LockOrBurnIn"
    [mkMember "receiver" "Receiver" TBytes (ECall "BytesToScVal") (DGet "GetBytes");
     mkMember "remote_chain_selector" "RemoteChainSelector" TUint64 (ECall "Uint64ToScVal")
       (DCall "Uint64FromScVal");
     mkMember "original_sender" "OriginalSender" TString (ECall "AddressToScVal") (DCall "AddressFromScVal");
     mkMember "amount" "Amount" TBig (ECall "I128ToScVal") (DCall "I128FromScVal");
     mkMember "local_token" "LocalToken" TString (ECall "AddressToScVal") (DCall "AddressFromScVal")].

Definition advanced_pool_hooks_extractor_ReleaseOrMintIn : StructDecl :=
  mkStructDecl "ReleaseOrMintIn"
    [mkMember "original_sender" "OriginalSender" TBytes (ECall "BytesToScVal") (DGet "GetBytes");
     mkMember "remote_chain_selector" "RemoteChainSelector" TUint64 (ECall "Uint64ToScVal")
       (DCall "Uint64FromScVal");
     mkMember "receiver" "Receiver" TString (ECall "AddressToScVal") (DCall "AddressFromScVal");
     mkMember "amount" "Amount" TBig (ECall "I128ToScVal") (DCall "I128FromScVal");
     mkMember "local_token" "LocalToken" TString (ECall "AddressToScVal") (DCall "AddressFromScVal");
     mkMember "source_pool_address" "SourcePoolAddress" TBytes (ECall "BytesToScVal") (DGet "GetBytes");
     mkMember "source_pool_data" "SourcePoolData" TBytes (ECall "BytesToScVal") (DGet "GetBytes")].

Definition advanced_pool_hooks_extractor_PreflightPayload : StructDecl :=
  mkStructDecl "PreflightPayload"
    [mkMember "lock_or_burn_in" "LockOrBurnIn" (TNamed "LockOrBurnIn") EMethod (DStruct "LockOrBurnIn");
     mkMember "requested_finality" "RequestedFinality" TUint32 (ECall "Uint32ToScVal") (DGet "GetU32");
     mkMember "amount_post_fee" "AmountPostFee" TBig (ECall "I128ToScVal") (DCall "I128FromScVal")].

Definition advanced_pool_hooks_extractor_PostflightPayload : StructDecl :=
  mkStructDecl "PostflightPayload"
    [mkMember "release_or_mint_in" "ReleaseOrMintIn" (TNamed "ReleaseOrMintIn") EMethod
      (DStruct "ReleaseOrMintIn");
     mkMember "local_amount" "LocalAmount" TBig (ECall "I128ToScVal") (DCall "I128FromScVal");
     mkMember "requested_finality" "RequestedFinality" TUint32 (ECall "Uint32ToScVal") (DGet "GetU32")].

Definition advanced_pool_hooks_extractor_Payload : StructDecl :=
  mkStructDecl "Payload"
    [mkMember "selector" "Selector" TString (ECall "SymbolToScVal") (DCall "SymbolFromScVal");
     mkMember "sender" "Sender" TString (ECall "AddressToScVal") (DCall "AddressFromScVal");
     mkMember "data" "Data" (TNamed "PolicyData") EMethod (DEnum "PolicyData");
     mkMember "context" "Context" TBytes (ECall "BytesToScVal") (DGet "GetBytes")].

Definition advanced_pool_hooks_extractor_Parameter : StructDecl :=
  mkStructDecl "Parameter"
    [mkMember "name" "Name" TString (ECall "SymbolToScVal") (DCall "SymbolFromScVal");
     mkMember "value" "Value" (TNamed "PolicyValue") EMethod (DEnum "PolicyValue")].

Definition advanced_pool_hooks_extractor_CCIPError : ErrorDecl :=
  mkErrorDecl "CCIPError"
    [("CCIPErrorNotInitialized", 1); ("CCIPErrorAlreadyInitialized", 2);
     ("CCIPErrorUnauthorized", 3); ("CCIPErrorNotOwner", 4); ("CCIPErrorNoPendingOwner", 5);
     ("CCIPErrorCallerNotAuthorized", 6); ("CCIPErrorCallerAlreadyAuthorized", 7);
     ("CCIPErrorCallerNotFound", 8); ("CCIPErrorRoleNotGranted", 9);
     ("CCIPErrorFeatureNotEnabled", 10); ("CCIPErrorRoleAlreadyGranted", 11);
     ("CCIPErrorCannotRenounceRole", 12); ("CCIPErrorInvalidVersionTag", 13);
     ("CCIPErrorInvalidSignatureLength", 14); ("CCIPErrorInvalidSignature", 15);
     ("CCIPErrorInvalidSignatureCount", 16); ("CCIPErrorInvalidSignatureThreshold", 17);
     ("CCIPErrorInvalidSignaturePubkey", 18); ("CCIPErrorSourceSignersNotConfigured", 19);
     ("CCIPErrorInvalidVerifierResults", 20); ("CCIPErrorReentrantCall", 21);
     ("CCIPErrorTokenNotSupported", 22); ("CCIPErrorFeeTokenNotSupported", 23);
     ("CCIPErrorNoGasPriceAvailable", 24); ("CCIPErrorDestinationChainNotEnabled", 25);
     ("CCIPErrorInvalidExtraArgsTag", 26); ("CCIPErrorInvalidExtraArgsData", 27);
     ("CCIPErrorMessageGasLimitTooHigh", 28); ("CCIPErrorMessageTooLarge", 29);
     ("CCIPErrorUnsupportedNumberOfTokens", 30); ("CCIPErrorInvalidDestChainConfig", 31);
     ("CCIPErrorMessageFeeTooHigh", 32); ("CCIPErrorInvalidStaticConfig", 33);
     ("CCIPErrorInvalidTokenReceiver", 34); ("CCIPErrorSourceTokenDataTooLarge", 35);
     ("CCIPErrorInvalidDestBytesOverhead", 36); ("CCIPErrorDestinationChainNotSupported", 37);
     ("CCIPErrorMustBeCalledByRouter", 38); ("CCIPErrorRouterMustSetOriginalSender", 39);
     ("CCIPErrorCannotSendZeroTokens", 40); ("CCIPErrorCanOnlySendOneTokenPerMessage", 41);
     ("CCIPErrorUnsupportedToken", 42); ("CCIPErrorInvalidDestChainAddress", 43);
     ("CCIPErrorFeeExceedsMaxAllowed", 44); ("CCIPErrorInsufficientFeeTokenAmount", 45);
     ("CCIPErrorTokenReceiverNotAllowed", 46); ("CCIPErrorCursedByRMN", 47);
     ("CCIPErrorRemoteChainNotSupported", 48); ("CCIPErrorSenderNotAllowed", 49);
     ("CCIPErrorInvalidTokenAmount", 50); ("CCIPErrorInvalidReceiverAddress", 51);
     ("CCIPErrorInvalidConfig", 52); ("CCIPErrorInvalidVerifierResultsLength", 53);
     ("CCIPErrorInboundImplementationNotFound", 54);
     ("CCIPErrorOutboundImplementationNotFound", 55); ("CCIPErrorInvalidAddress", 56);
     ("CCIPErrorInvalidChainSelector", 57); ("CCIPErrorInvalidVersion", 58);
     ("CCIPErrorInvalidCCVVersion", 59); ("CCIPErrorOffRampAlreadyExists", 60);
     ("CCIPErrorOffRampMismatch", 61); ("CCIPErrorBadRMNSignal", 62);
     ("CCIPErrorUnsupportedDestinationChain", 63); ("CCIPErrorAlreadyCursed", 64);
     ("CCIPErrorConfigNotSet", 65); ("CCIPErrorDuplicateOnchainPublicKey", 66);
     ("CCIPErrorInvalidSignerOrder", 67); ("CCIPErrorNotEnoughSigners", 68);
     ("CCIPErrorNotCursed", 69); ("CCIPErrorOutOfOrderSignatures", 70);
     ("CCIPErrorThresholdNotMet", 71); ("CCIPErrorUnexpectedSigner", 72);
     ("CCIPErrorZeroValueNotAllowed", 73); ("CCIPErrorSourceChainNotEnabled", 100);
     ("CCIPErrorInvalidSourceChainConfig", 101); ("CCIPErrorInvalidOnRampAddress", 102);
     ("CCIPErrorInvalidOffRampAddress", 103); ("CCIPErrorInvalidMessageDestination", 104);
     ("CCIPErrorMessageAlreadyExecuted", 105); ("CCIPErrorInvalidExecutionState", 106);
     ("CCIPErrorCCVLengthMismatch", 107); ("CCIPErrorCCVQuorumNotMet", 108);
     ("CCIPErrorReceiverError", 109); ("CCIPErrorGasLimitOverrideTooLow", 110);
     ("CCIPErrorInvalidReceiverLength", 111); ("CCIPErrorTokenHandlingError", 112);
     ("CCIPErrorMessageDecodingError", 113); ("CCIPErrorReceiverDoesNotExist", 114);
     ("CCIPErrorReceiverNotWasmContract", 115); ("CCIPErrorRequiredCCVMissing", 116);
     ("CCIPErrorInvalidOptionalThreshold", 117); ("CCIPErrorOptionalCCVQuorumNotReached", 118);
     ("CCIPErrorNoStateProgressMade", 119); ("CCIPErrorOnlyRegistryModuleOrOwner", 201);
     ("CCIPErrorOnlyAdministrator", 202); ("CCIPErrorOnlyPendingAdministrator", 203);
     ("CCIPErrorTokenAlreadyRegistered", 204); ("CCIPErrorInvalidTokenPoolToken", 205);
     ("CCIPErrorPoolTokenMismatch", 301); ("CCIPErrorChainNotSupported", 302);
     ("CCIPErrorCallerIsNotRamp", 303); ("CCIPErrorInsufficientPoolLiquidity", 304);
     ("CCIPErrorInvalidRemotePoolAddress", 305); ("CCIPErrorInvalidRemoteChainConfig", 306);
     ("CCIPErrorInvalidRemoteChainDecimals", 307); ("CCIPErrorDecimalAmountOverflow", 308);
     ("CCIPErrorInvalidPoolTokenDecimals", 309); ("CCIPErrorBucketOverfilled", 310);
     ("CCIPErrorTokenMaxCapacityExceeded", 311); ("CCIPErrorTokenRateLimitReached", 312);
     ("CCIPErrorInvalidRateLimitRate", 313); ("CCIPErrorDisabledNonZeroRateLimit", 314);
     ("CCIPErrorInvalidRequestedFinality", 315);
     ("CCIPErrorRequestedFinalityCanOnlyHaveOneMode", 316);
     ("CCIPErrorInvalidChainForClient", 317); ("CCIPErrorRouterNotConfigured", 318);
     ("CCIPErrorInvalidSourcePoolAddress", 319); ("CCIPErrorDuplicateCCVNotAllowed", 320);
     ("CCIPErrorInvalidTokenTransferFeeConfig", 321); ("CCIPErrorInvalidTransferFeeBps", 322);
     ("CCIPErrorInvalidAllowListRequest", 323); ("CCIPErrorInvalidFeeCalculation", 801);
     ("CCIPErrorInvalidFeeTokenConversion", 802); ("CCIPErrorZeroFeeAggregatorNotAllowed", 803);
     ("CCIPErrorExceedsMaxCCVs", 804); ("CCIPErrorCCVNotAllowed", 805);
     ("CCIPErrorPolicyEngineDetachReverted", 806); ("CCIPErrorUnsupportedSelector", 807);
     ("CCIPErrorZeroAddressNotAllowed", 808)]
    [(1, "not initialized"); (2, "already initialized"); (3, "unauthorized"); (4, "not owner");
     (5, "no pending owner"); (6, "caller not authorized"); (7, "caller already authorized");
     (8, "caller not found"); (9, "role not granted"); (10, "feature not enabled");
     (11, "role already granted"); (12, "cannot renounce role"); (13, "invalid version tag");
     (14, "invalid signature length"); (15, "invalid signature");
     (16, "invalid signature count"); (17, "invalid signature threshold");
     (18, "invalid signature pubkey"); (19, "source signers not configured");
     (20, "invalid verifier results"); (21, "reentrant call"); (22, "token not supported");
     (23, "fee token not supported"); (24, "no gas price available");
     (25, "destination chain not enabled"); (26, "invalid extra args tag");
     (27, "invalid extra args data"); (28, "message gas limit too high");
     (29, "message too large"); (30, "unsupported number of tokens");
     (31, "invalid dest chain config"); (32, "message fee too high");
     (33, "invalid static config"); (34, "invalid token receiver");
     (35, "source token data too large"); (36, "invalid dest bytes overhead");
     (37, "destination chain not supported"); (38, "must be called by router");
     (39, "router must set original sender"); (40, "cannot send zero tokens");
     (41, "can only send one token per message"); (42, "unsupported token");
     (43, "invalid dest chain address"); (44, "fee exceeds max allowed");
     (45, "insufficient fee token amount"); (46, "token receiver not allowed");
     (47, "cursed by r m n"); (48, "remote chain not supported"); (49, "sender not allowed");
     (50, "invalid token amount"); (51, "invalid receiver address"); (52, "invalid config");
     (53, "invalid verifier results length"); (54, "inbound implementation not found");
     (55, "outbound implementation not found"); (56, "invalid address");
     (57, "invalid chain selector"); (58, "invalid version"); (59, "invalid c c v version");
     (60, "off ramp already exists"); (61, "off ramp mismatch"); (62, "bad r m n signal");
     (63, "unsupported destination chain"); (64, "already cursed"); (65, "config not set");
     (66, "duplicate onchain public key"); (67, "invalid signer order");
     (68, "not enough signers"); (69, "not cursed"); (70, "out of order signatures");
     (71, "threshold not met"); (72, "unexpected signer"); (73, "zero value not allowed");
     (100, "source chain not enabled"); (101, "invalid source chain config");
     (102, "invalid on ramp address"); (103, "invalid off ramp address");
     (104, "invalid message destination"); (105, "message already executed");
     (106, "invalid execution state"); (107, "c c v length mismatch");
     (108, "c c v quorum not met"); (109, "receiver error");
     (110, "gas limit override too low"); (111, "invalid receiver length");
     (112, "token handling error"); (113, "message decoding error");
     (114, "receiver does not exist"); (115, "receiver not wasm contract");
     (116, "required c c v missing"); (117, "invalid optional threshold");
     (118, "optional c c v quorum not reached"); (119, "no state progress made");
     (201, "only registry module or owner"); (202, "only administrator");
     (203, "only pending administrator"); (204, "token already registered");
     (205, "invalid token pool token"); (301, "pool token mismatch");
     (302, "chain not supported"); (303, "caller is not ramp");
     (304, "insufficient pool liquidity"); (305, "invalid remote pool address");
     (306, "invalid remote chain config"); (307, "invalid remote chain decimals");
     (308, "decimal amount overflow"); (309, "invalid pool token decimals");
     (310, "bucket overfilled"); (311, "token max capacity exceeded");
     (312, "token rate limit reached"); (313, "invalid rate limit rate");
     (314, "disabled non zero rate limit"); (315, "invalid requested finality");
     (316, "requested finality can only have one mode"); (317, "invalid chain for client");
     (318, "router not configured"); (319, "invalid source pool address");
     (320, "duplicate c c v not allowed"); (321, "invalid token transfer fee config");
     (322, "invalid transfer fee bps"); (323, "invalid allow list request");
     (801, "invalid fee calculation"); (802, "invalid fee token conversion");
     (803, "zero fee aggregator not allowed"); (804, "exceeds max c c vs");
     (805, "c c v not allowed"); (806, "policy engine detach reverted");
     (807, "unsupported selector"); (808, "zero address not allowed")].

Definition advanced_pool_hooks_extractor_PoolHooksPayloadData : EnumDecl :=
  UnionEnum "PoolHooksPayloadData"
    [mkVariantDecl "Preflight" [mkMember "" "Field0" (TNamed "PreflightPayload") EMethod
      (DStruct "PreflightPayload")];
     mkVariantDecl "Postflight" [mkMember "" "Field0" (TNamed "PostflightPayload") EMethod
       (DStruct "PostflightPayload")]].

Definition advanced_pool_hooks_extractor_PolicyData : EnumDecl :=
  UnionEnum "PolicyData"
    [mkVariantDecl "PoolHooks" [mkMember "" "Field0" (TNamed "PoolHooksPayloadData") EMethod
      (DEnum "PoolHooksPayloadData")]].

Definition advanced_pool_hooks_extractor_PolicyValue : EnumDecl :=
  UnionEnum "PolicyValue"
    [mkVariantDecl "Address" [mkMember "" "Field0" TString (ECall "AddressToScVal") (DCall "AddressFromScVal")];
     mkVariantDecl "I128" [mkMember "" "Field0" TBig (ECall "I128ToScVal") (DCall "I128FromScVal")];
     mkVariantDecl "U64" [mkMember "" "Field0" TUint64 (ECall "Uint64ToScVal") (DCall "Uint64FromScVal")];
     mkVariantDecl "U32" [mkMember "" "Field0" TUint32 (ECall "Uint32ToScVal") (DGet "GetU32")];
     mkVariantDecl "Bytes" [mkMember "" "Field0" TBytes (ECall "BytesToScVal") (DGet "GetBytes")]].

Definition advanced_pool_hooks_extractor_types : TypesFile :=
  mkTypesFile "advanced_pool_hooks_extractor" (mkImports true true true true)
    [advanced_pool_hooks_extractor_LockOrBurnIn; advanced_pool_hooks_extractor_ReleaseOrMintIn;
     advanced_pool_hooks_extractor_PreflightPayload;
     advanced_pool_hooks_extractor_PostflightPayload; advanced_pool_hooks_extractor_Payload;
     advanced_pool_hooks_extractor_Parameter]
    [advanced_pool_hooks_extractor_CCIPError]
    []
    [advanced_pool_hooks_extractor_PoolHooksPayloadData;
     advanced_pool_hooks_extractor_PolicyData; advanced_pool_hooks_extractor_PolicyValue].

Definition advanced_pool_hooks_extractor_Extract : Method :=
  mkMethod "Extract" [("payload", TNamed "Payload")] [TSlice (TNamed "Parameter")] "nil"
    true "extract" [EMethodOf] (RVal (DVec (TNamed "Parameter") (DStruct "Parameter"))).

Definition advanced_pool_hooks_extractor_TypeAndVersion : Method :=
  mkMethod "TypeAndVersion" [] [TString] empty_literal
    true "type_and_version" [] (RVal (DCall "StringFromScVal")).

Definition advanced_pool_hooks_extractor_client : ClientFile :=
  mkClientFile "advanced_pool_hooks_extractor" "AdvancedPoolHooksExtractor" false false
    [advanced_pool_hooks_extractor_Extract; advanced_pool_hooks_extractor_TypeAndVersion]
    [].

(** ** bindings/contracts/rmn_proxy *)

Definition rmn_proxy_CCIPError : ErrorDecl :=
  mkErrorDecl "CCIPError"
    [("CCIPErrorNotInitialized", 1); ("CCIPErrorAlreadyInitialized", 2);
     ("CCIPErrorUnauthorized", 3); ("CCIPErrorNotOwner", 4); ("CCIPErrorNoPendingOwner", 5);
     ("CCIPErrorCallerNotAuthorized", 6); ("CCIPErrorCallerAlreadyAuthorized", 7);
     ("CCIPErrorCallerNotFound", 8); ("CCIPErrorRoleNotGranted", 9);
     ("CCIPErrorFeatureNotEnabled", 10); ("CCIPErrorRoleAlreadyGranted", 11);
     ("CCIPErrorCannotRenounceRole", 12); ("CCIPErrorInvalidVersionTag", 13);
     ("CCIPErrorInvalidSignatureLength", 14); ("CCIPErrorInvalidSignature", 15);
     ("CCIPErrorInvalidSignatureCount", 16); ("CCIPErrorInvalidSignatureThreshold", 17);
     ("CCIPErrorInvalidSignaturePubkey", 18); ("CCIPErrorSourceSignersNotConfigured", 19);
     ("CCIPErrorInvalidVerifierResults", 20); ("CCIPErrorReentrantCall", 21);
     ("CCIPErrorTokenNotSupported", 22); ("CCIPErrorFeeTokenNotSupported", 23);
     ("CCIPErrorNoGasPriceAvailable", 24); ("CCIPErrorDestinationChainNotEnabled", 25);
     ("CCIPErrorInvalidExtraArgsTag", 26); ("CCIPErrorInvalidExtraArgsData", 27);
     ("CCIPErrorMessageGasLimitTooHigh", 28); ("CCIPErrorMessageTooLarge", 29);
     ("CCIPErrorUnsupportedNumberOfTokens", 30); ("CCIPErrorInvalidDestChainConfig", 31);
     ("CCIPErrorMessageFeeTooHigh", 32); ("CCIPErrorInvalidStaticConfig", 33);
     ("CCIPErrorInvalidTokenReceiver", 34); ("CCIPErrorSourceTokenDataTooLarge", 35);
     ("CCIPErrorInvalidDestBytesOverhead", 36); ("CCIPErrorDestinationChainNotSupported", 37);
     ("CCIPErrorMustBeCalledByRouter", 38); ("CCIPErrorRouterMustSetOriginalSender", 39);
     ("CCIPErrorCannotSendZeroTokens", 40); ("CCIPErrorCanOnlySendOneTokenPerMessage", 41);
     ("CCIPErrorUnsupportedToken", 42); ("CCIPErrorInvalidDestChainAddress", 43);
     ("CCIPErrorFeeExceedsMaxAllowed", 44); ("CCIPErrorInsufficientFeeTokenAmount", 45);
     ("CCIPErrorTokenReceiverNotAllowed", 46); ("CCIPErrorCursedByRMN", 47);
     ("CCIPErrorRemoteChainNotSupported", 48); ("CCIPErrorSenderNotAllowed", 49);
     ("CCIPErrorInvalidTokenAmount", 50); ("CCIPErrorInvalidReceiverAddress", 51);
     ("CCIPErrorInvalidConfig", 52); ("CCIPErrorInvalidVerifierResultsLength", 53);
     ("CCIPErrorInboundImplementationNotFound", 54);
     ("CCIPErrorOutboundImplementationNotFound", 55); ("CCIPErrorInvalidAddress", 56);
     ("CCIPErrorInvalidChainSelector", 57); ("CCIPErrorInvalidVersion", 58);
     ("CCIPErrorInvalidCCVVersion", 59); ("CCIPErrorOffRampAlreadyExists", 60);
     ("CCIPErrorOffRampMismatch", 61); ("CCIPErrorBadRMNSignal", 62);
     ("CCIPErrorUnsupportedDestinationChain", 63); ("CCIPErrorAlreadyCursed", 64);
     ("CCIPErrorConfigNotSet", 65); ("CCIPErrorDuplicateOnchainPublicKey", 66);
     ("CCIPErrorInvalidSignerOrder", 67); ("CCIPErrorNotEnoughSigners", 68);
     ("CCIPErrorNotCursed", 69); ("CCIPErrorOutOfOrderSignatures", 70);
     ("CCIPErrorThresholdNotMet", 71); ("CCIPErrorUnexpectedSigner", 72);
     ("CCIPErrorZeroValueNotAllowed", 73); ("CCIPErrorSourceChainNotEnabled", 100);
     ("CCIPErrorInvalidSourceChainConfig", 101); ("CCIPErrorInvalidOnRampAddress", 102);
     ("CCIPErrorInvalidOffRampAddress", 103); ("CCIPErrorInvalidMessageDestination", 104);
     ("CCIPErrorMessageAlreadyExecuted", 105); ("CCIPErrorInvalidExecutionState", 106);
     ("CCIPErrorCCVLengthMismatch", 107); ("CCIPErrorCCVQuorumNotMet", 108);
     ("CCIPErrorReceiverError", 109); ("CCIPErrorGasLimitOverrideTooLow", 110);
     ("CCIPErrorInvalidReceiverLength", 111); ("CCIPErrorTokenHandlingError", 112);
     ("CCIPErrorMessageDecodingError", 113); ("CCIPErrorReceiverDoesNotExist", 114);
     ("CCIPErrorReceiverNotWasmContract", 115); ("CCIPErrorRequiredCCVMissing", 116);
     ("CCIPErrorInvalidOptionalThreshold", 117); ("CCIPErrorOptionalCCVQuorumNotReached", 118);
     ("CCIPErrorNoStateProgressMade", 119); ("CCIPErrorOnlyRegistryModuleOrOwner", 201);
     ("CCIPErrorOnlyAdministrator", 202); ("CCIPErrorOnlyPendingAdministrator", 203);
     ("CCIPErrorTokenAlreadyRegistered", 204); ("CCIPErrorInvalidTokenPoolToken", 205);
     ("CCIPErrorPoolTokenMismatch", 301); ("CCIPErrorChainNotSupported", 302);
     ("CCIPErrorCallerIsNotRamp", 303); ("CCIPErrorInsufficientPoolLiquidity", 304);
     ("CCIPErrorInvalidRemotePoolAddress", 305); ("CCIPErrorInvalidRemoteChainConfig", 306);
     ("CCIPErrorInvalidRemoteChainDecimals", 307); ("CCIPErrorDecimalAmountOverflow", 308);
     ("CCIPErrorInvalidPoolTokenDecimals", 309); ("CCIPErrorBucketOverfilled", 310);
     ("CCIPErrorTokenMaxCapacityExceeded", 311); ("CCIPErrorTokenRateLimitReached", 312);
     ("CCIPErrorInvalidRateLimitRate", 313); ("CCIPErrorDisabledNonZeroRateLimit", 314);
     ("CCIPErrorInvalidRequestedFinality", 315);
     ("CCIPErrorRequestedFinalityCanOnlyHaveOneMode", 316);
     ("CCIPErrorInvalidChainForClient", 317); ("CCIPErrorRouterNotConfigured", 318);
     ("CCIPErrorInvalidSourcePoolAddress", 319); ("CCIPErrorDuplicateCCVNotAllowed", 320);
     ("CCIPErrorInvalidTokenTransferFeeConfig", 321); ("CCIPErrorInvalidTransferFeeBps", 322);
     ("CCIPErrorInvalidAllowListRequest", 323); ("CCIPErrorInvalidFeeCalculation", 801);
     ("CCIPErrorInvalidFeeTokenConversion", 802); ("CCIPErrorZeroFeeAggregatorNotAllowed", 803);
     ("CCIPErrorExceedsMaxCCVs", 804); ("CCIPErrorCCVNotAllowed", 805);
     ("CCIPErrorPolicyEngineDetachReverted", 806); ("CCIPErrorUnsupportedSelector", 807);
     ("CCIPErrorZeroAddressNotAllowed", 808)]
    [(1, "not initialized"); (2, "already initialized"); (3, "unauthorized"); (4, "not owner");
     (5, "no pending owner"); (6, "caller not authorized"); (7, "caller already authorized");
     (8, "caller not found"); (9, "role not granted"); (10, "feature not enabled");
     (11, "role already granted"); (12, "cannot renounce role"); (13, "invalid version tag");
     (14, "invalid signature length"); (15, "invalid signature");
     (16, "invalid signature count"); (17, "invalid signature threshold");
     (18, "invalid signature pubkey"); (19, "source signers not configured");
     (20, "invalid verifier results"); (21, "reentrant call"); (22, "token not supported");
     (23, "fee token not supported"); (24, "no gas price available");
     (25, "destination chain not enabled"); (26, "invalid extra args tag");
     (27, "invalid extra args data"); (28, "message gas limit too high");
     (29, "message too large"); (30, "unsupported number of tokens");
     (31, "invalid dest chain config"); (32, "message fee too high");
     (33, "invalid static config"); (34, "invalid token receiver");
     (35, "source token data too large"); (36, "invalid dest bytes overhead");
     (37, "destination chain not supported"); (38, "must be called by router");
     (39, "router must set original sender"); (40, "cannot send zero tokens");
     (41, "can only send one token per message"); (42, "unsupported token");
     (43, "invalid dest chain address"); (44, "fee exceeds max allowed");
     (45, "insufficient fee token amount"); (46, "token receiver not allowed");
     (47, "cursed by r m n"); (48, "remote chain not supported"); (49, "sender not allowed");
     (50, "invalid token amount"); (51, "invalid receiver address"); (52, "invalid config");
     (53, "invalid verifier results length"); (54, "inbound implementation not found");
     (55, "outbound implementation not found"); (56, "invalid address");
     (57, "invalid chain selector"); (58, "invalid version"); (59, "invalid c c v version");
     (60, "off ramp already exists"); (61, "off ramp mismatch"); (62, "bad r m n signal");
     (63, "unsupported destination chain"); (64, "already cursed"); (65, "config not set");
     (66, "duplicate onchain public key"); (67, "invalid signer order");
     (68, "not enough signers"); (69, "not cursed"); (70, "out of order signatures");
     (71, "threshold not met"); (72, "unexpected signer"); (73, "zero value not allowed");
     (100, "source chain not enabled"); (101, "invalid source chain config");
     (102, "invalid on ramp address"); (103, "invalid off ramp address");
     (104, "invalid message destination"); (105, "message already executed");
     (106, "invalid execution state"); (107, "c c v length mismatch");
     (108, "c c v quorum not met"); (109, "receiver error");
     (110, "gas limit override too low"); (111, "invalid receiver length");
     (112, "token handling error"); (113, "message decoding error");
     (114, "receiver does not exist"); (115, "receiver not wasm contract");
     (116, "required c c v missing"); (117, "invalid optional threshold");
     (118, "optional c c v quorum not reached"); (119, "no state progress made");
     (201, "only registry module or owner"); (202, "only administrator");
     (203, "only pending administrator"); (204, "token already registered");
     (205, "invalid token pool token"); (301, "pool token mismatch");
     (302, "chain not supported"); (303, "caller is not ramp");
     (304, "insufficient pool liquidity"); (305, "invalid remote pool address");
     (306, "invalid remote chain config"); (307, "invalid remote chain decimals");
     (308, "decimal amount overflow"); (309, "invalid pool token decimals");
     (310, "bucket overfilled"); (311, "token max capacity exceeded");
     (312, "token rate limit reached"); (313, "invalid rate limit rate");
     (314, "disabled non zero rate limit"); (315, "invalid requested finality");
     (316, "requested finality can only have one mode"); (317, "invalid chain for client");
     (318, "router not configured"); (319, "invalid source pool address");
     (320, "duplicate c c v not allowed"); (321, "invalid token transfer fee config");
     (322, "invalid transfer fee bps"); (323, "invalid allow list request");
     (801, "invalid fee calculation"); (802, "invalid fee token conversion");
     (803, "zero fee aggregator not allowed"); (804, "exceeds max c c vs");
     (805, "c c v not allowed"); (806, "policy engine detach reverted");
     (807, "unsupported selector"); (808, "zero address not allowed")].

Definition rmn_proxy_RoleGrantedEvent : EventDecl :=
  mkEventDecl "RoleGrantedEvent"
    [("Role", TString); ("Account", TString); ("Sender", TString); ("Ledger", TUint32);
     ("TxHash", TString)]
    (Some "auth_RoleGranted").

Definition rmn_proxy_RoleRevokedEvent : EventDecl :=
  mkEventDecl "RoleRevokedEvent"
    [("Role", TString); ("Account", TString); ("Sender", TString); ("Ledger", TUint32);
     ("TxHash", TString)]
    (Some "auth_RoleRevoked").

Definition rmn_proxy_AuthorizedCallerAddedEvent : EventDecl :=
  mkEventDecl "AuthorizedCallerAddedEvent"
    [("Caller", TString); ("Ledger", TUint32); ("TxHash", TString)]
    (Some "auth_CallerAdded").

Definition rmn_proxy_AuthorizedCallerRemovedEvent : EventDecl :=
  mkEventDecl "AuthorizedCallerRemovedEvent"
    [("Caller", TString); ("Ledger", TUint32); ("TxHash", TString)]
    (Some "auth_CallerRemoved").

Definition rmn_proxy_OwnershipTransferStartedEvent : EventDecl :=
  mkEventDecl "OwnershipTransferStartedEvent"
    [("PreviousOwner", TString); ("NewOwner", TString); ("Ledger", TUint32);
     ("TxHash", TString)]
    (Some "auth_OwnerTransferStart").

Definition rmn_proxy_RmnSetEvent : EventDecl :=
  mkEventDecl "RmnSetEvent"
    [("Rmn", TString); ("Ledger", TUint32); ("TxHash", TString)]
    (Some "rmn_proxy_RmnSet").

Definition rmn_proxy_types : TypesFile :=
  mkTypesFile "rmn_proxy" (mkImports false false false false)
    []
    [rmn_proxy_CCIPError]
    [rmn_proxy_RoleGrantedEvent; rmn_proxy_RoleRevokedEvent;
     rmn_proxy_AuthorizedCallerAddedEvent; rmn_proxy_AuthorizedCallerRemovedEvent;
     rmn_proxy_OwnershipTransferStartedEvent; rmn_proxy_RmnSetEvent]
    [].

Definition rmn_proxy_Owner : Method :=
  mkMethod "Owner" [] [TPtr TString] "nil"
    true "owner" [] (RVal (DCall "OptionalAddressFromScVal")).

Definition rmn_proxy_GetRmn : Method :=
  mkMethod "GetRmn" [] [TString] empty_literal
    true "get_rmn" [] (RVal (DCall "AddressFromScVal")).

Definition rmn_proxy_SetRmn : Method :=
  mkMethod "SetRmn" [("rmn", TString)] [] ""
    false "set_rmn" [ECall "AddressToScVal"] RVoid.

Definition rmn_proxy_Upgrade : Method :=
  mkMethod "Upgrade" [("newWasmHash", TArray "32")] [] ""
    false "upgrade" [ECall "Bytes32ToScVal"] RVoid.

Definition rmn_proxy_IsOwner : Method :=
  mkMethod "IsOwner" [("addr", TString)] [TBool] "false"
    true "is_owner" [ECall "AddressToScVal"] (RVal (DGet "GetB")).

Definition rmn_proxy_IsCursed : Method :=
  mkMethod "IsCursed" [] [TBool] "false"
    true "is_cursed" [] (RVal (DGet "GetB")).

Definition rmn_proxy_InitOwner : Method :=
  mkMethod "InitOwner" [("owner", TString)] [] ""
    false "init_owner" [ECall "AddressToScVal"] RVoid.

Definition rmn_proxy_Initialize : Method :=
  mkMethod "Initialize" [("owner", TString); ("rmn", TString)] [] ""
    false "initialize" [ECall "AddressToScVal"; ECall "AddressToScVal"] RVoid.

Definition rmn_proxy_RequireOwner : Method :=
  mkMethod "RequireOwner" [] [TString] empty_literal
    false "require_owner" [] (RVal (DCall "AddressFromScVal")).

Definition rmn_proxy_AcceptOwnership : Method :=
  mkMethod "AcceptOwnership" [] [] ""
    false "accept_ownership" [] RVoid.

Definition rmn_proxy_TypeAndVersion : Method :=
  mkMethod "TypeAndVersion" [] [TString] empty_literal
    false "type_and_version" [] (RVal (DCall "StringFromScVal")).

Definition rmn_proxy_GetPendingOwner : Method :=
  mkMethod "GetPendingOwner" [] [TPtr TString] "nil"
    true "get_pending_owner" [] (RVal (DCall "OptionalAddressFromScVal")).

Definition rmn_proxy_TransferOwnership : Method :=
  mkMethod "TransferOwnership" [("newOwner", TString)] [] ""
    false "transfer_ownership" [ECall "AddressToScVal"] RVoid.

Definition rmn_proxy_CancelOwnershipTransfer : Method :=
  mkMethod "CancelOwnershipTransfer" [] [] ""
    false "cancel_ownership_transfer" [] RVoid.

Definition rmn_proxy_WaitForRoleGrantedEvent : EventHelper :=
  mkEventHelper "RoleGrantedEvent" (mkEventParser
    []
    [("role", "Role", EvField (DCall "SymbolFromScVal"));
     ("account", "Account", EvField (DCall "AddressFromScVal"));
     ("sender", "Sender", EvField (DCall "AddressFromScVal"))]).

Definition rmn_proxy_WaitForRoleRevokedEvent : EventHelper :=
  mkEventHelper "RoleRevokedEvent" (mkEventParser
    []
    [("role", "Role", EvField (DCall "SymbolFromScVal"));
     ("account", "Account", EvField (DCall "AddressFromScVal"));
     ("sender", "Sender", EvField (DCall "AddressFromScVal"))]).

Definition rmn_proxy_WaitForAuthorizedCallerAddedEvent : EventHelper :=
  mkEventHelper "AuthorizedCallerAddedEvent" (mkEventParser
    []
    [("caller", "Caller", EvField (DCall "AddressFromScVal"))]).

Definition rmn_proxy_WaitForAuthorizedCallerRemovedEvent : EventHelper :=
  mkEventHelper "AuthorizedCallerRemovedEvent" (mkEventParser
    []
    [("caller", "Caller", EvField (DCall "AddressFromScVal"))]).

Definition rmn_proxy_WaitForOwnershipTransferStartedEvent : EventHelper :=
  mkEventHelper "OwnershipTransferStartedEvent" (mkEventParser
    []
    [("previous_owner", "PreviousOwner", EvField (DCall "AddressFromScVal"));
     ("new_owner", "NewOwner", EvField (DCall "AddressFromScVal"))]).

Definition rmn_proxy_WaitForRmnSetEvent : EventHelper :=
  mkEventHelper "RmnSetEvent" (mkEventParser
    []
    [("rmn", "Rmn", EvField (DCall "AddressFromScVal"))]).

Definition rmn_proxy_client : ClientFile :=
  mkClientFile "rmn_proxy" "RmnProxy" false true
    [rmn_proxy_Owner; rmn_proxy_GetRmn; rmn_proxy_SetRmn; rmn_proxy_Upgrade; rmn_proxy_IsOwner;
     rmn_proxy_IsCursed; rmn_proxy_InitOwner; rmn_proxy_Initialize; rmn_proxy_RequireOwner;
     rmn_proxy_AcceptOwnership; rmn_proxy_TypeAndVersion; rmn_proxy_GetPendingOwner;
     rmn_proxy_TransferOwnership; rmn_proxy_CancelOwnershipTransfer]
    [rmn_proxy_WaitForRoleGrantedEvent; rmn_proxy_WaitForRoleRevokedEvent;
     rmn_proxy_WaitForAuthorizedCallerAddedEvent; rmn_proxy_WaitForAuthorizedCallerRemovedEvent;
     rmn_proxy_WaitForOwnershipTransferStartedEvent; rmn_proxy_WaitForRmnSetEvent].

(** ** bindings/contracts/rmn_remote *)

Definition rmn_remote_RoleGrantedEvent : EventDecl :=
  mkEventDecl "RoleGrantedEvent"
    [("Role", TString); ("Account", TString); ("Sender", TString); ("Ledger", TUint32);
     ("TxHash", TString)]
    (Some "auth_RoleGranted").

Definition rmn_remote_RoleRevokedEvent : EventDecl :=
  mkEventDecl "RoleRevokedEvent"
    [("Role", TString); ("Account", TString); ("Sender", TString); ("Ledger", TUint32);
     ("TxHash", TString)]
    (Some "auth_RoleRevoked").

Definition rmn_remote_AuthorizedCallerAddedEvent : EventDecl :=
  mkEventDecl "AuthorizedCallerAddedEvent"
    [("Caller", TString); ("Ledger", TUint32); ("TxHash", TString)]
    (Some "auth_CallerAdded").

Definition rmn_remote_AuthorizedCallerRemovedEvent : EventDecl :=
  mkEventDecl "AuthorizedCallerRemovedEvent"
    [("Caller", TString); ("Ledger", TUint32); ("TxHash", TString)]
    (Some "auth_CallerRemoved").

Definition rmn_remote_OwnershipTransferStartedEvent : EventDecl :=
  mkEventDecl "OwnershipTransferStartedEvent"
    [("PreviousOwner", TString); ("NewOwner", TString); ("Ledger", TUint32);
     ("TxHash", TString)]
    (Some "auth_OwnerTransferStart").

Definition rmn_remote_CursedEvent : EventDecl :=
  mkEventDecl "CursedEvent"
    [("Subjects", TSlice (TArray "16")); ("Ledger", TUint32); ("TxHash", TString)]
    (Some "rmn_Cursed").

Definition rmn_remote_UncursedEvent : EventDecl :=
  mkEventDecl "UncursedEvent"
    [("Subjects", TSlice (TArray "16")); ("Ledger", TUint32); ("TxHash", TString)]
    (Some "rmn_Uncursed").

Definition rmn_remote_types : TypesFile :=
  mkTypesFile "rmn_remote" (mkImports false false false false)
    []
    []
    [rmn_remote_RoleGrantedEvent; rmn_remote_RoleRevokedEvent;
     rmn_remote_AuthorizedCallerAddedEvent; rmn_remote_AuthorizedCallerRemovedEvent;
     rmn_remote_OwnershipTransferStartedEvent; rmn_remote_CursedEvent; rmn_remote_UncursedEvent]
    [].

Definition rmn_remote_Curse : Method :=
  mkMethod "Curse" [("caller", TString); ("subjects", TSlice (TArray "16"))] [] ""
    false "curse" [ECall "AddressToScVal"; ECall "Bytes16SliceToScVal"] RVoid.

Definition rmn_remote_Owner : Method :=
  mkMethod "Owner" [] [TPtr TString] "nil"
    true "owner" [] (RVal (DCall "OptionalAddressFromScVal")).

Definition rmn_remote_Uncurse : Method :=
  mkMethod "Uncurse" [("subjects", TSlice (TArray "16"))] [] ""
    false "uncurse" [ECall "Bytes16SliceToScVal"] RVoid.

Definition rmn_remote_Upgrade : Method :=
  mkMethod "Upgrade" [("newWasmHash", TArray "32")] [] ""
    false "upgrade" [ECall "Bytes32ToScVal"] RVoid.

Definition rmn_remote_IsOwner : Method :=
  mkMethod "IsOwner" [("addr", TString)] [TBool] "false"
    true "is_owner" [ECall "AddressToScVal"] (RVal (DGet "GetB")).

Definition rmn_remote_IsCursed : Method :=
  mkMethod "IsCursed" [] [TBool] "false"
    true "is_cursed" [] (RVal (DGet "GetB")).

Definition rmn_remote_InitOwner : Method :=
  mkMethod "InitOwner" [("owner", TString)] [] ""
    false "init_owner" [ECall "AddressToScVal"] RVoid.

Definition rmn_remote_Initialize : Method :=
  mkMethod "Initialize" [("owner", TString); ("curseAdmins", TSlice TString)] [] ""
    false "initialize" [ECall "AddressToScVal"; ECall "AddressSliceToScVal"] RVoid.

Definition rmn_remote_RequireOwner : Method :=
  mkMethod "RequireOwner" [] [TString] empty_literal
    false "require_owner" [] (RVal (DCall "AddressFromScVal")).

Definition rmn_remote_AcceptOwnership : Method :=
  mkMethod "AcceptOwnership" [] [] ""
    false "accept_ownership" [] RVoid.

Definition rmn_remote_GetCurseAdmins : Method :=
  mkMethod "GetCurseAdmins" [] [TSlice TString] "nil"
    true "get_curse_admins" [] (RVal (DVec TString (DCall "AddressFromScVal"))).

Definition rmn_remote_TypeAndVersion : Method :=
  mkMethod "TypeAndVersion" [] [TString] empty_literal
    false "type_and_version" [] (RVal (DCall "StringFromScVal")).

Definition rmn_remote_GetPendingOwner : Method :=
  mkMethod "GetPendingOwner" [] [TPtr TString] "nil"
    true "get_pending_owner" [] (RVal (DCall "OptionalAddressFromScVal")).

Definition rmn_remote_TransferOwnership : Method :=
  mkMethod "TransferOwnership" [("newOwner", TString)] [] ""
    false "transfer_ownership" [ECall "AddressToScVal"] RVoid.

Definition rmn_remote_GetCursedSubjects : Method :=
  mkMethod "GetCursedSubjects" [] [TSlice (TArray "16")] "nil"
    true "get_cursed_subjects" [] (RVal (DVec (TArray "16") (DCall "Bytes16FromScVal"))).

Definition rmn_remote_IsCursedBySubject : Method :=
  mkMethod "IsCursedBySubject" [("subject", TArray "16")] [TBool] "false"
    true "is_cursed_by_subject" [ECall "Bytes16ToScVal"] (RVal (DGet "GetB")).

Definition rmn_remote_ApplyCurseAdminUpdates : Method :=
  mkMethod "ApplyCurseAdminUpdates" [("addedAdmins", TSlice TString); ("removedAdmins", TSlice TString)] [] ""
    false "apply_curse_admin_updates" [ECall "AddressSliceToScVal"; ECall "AddressSliceToScVal"] RVoid.

Definition rmn_remote_CancelOwnershipTransfer : Method :=
  mkMethod "CancelOwnershipTransfer" [] [] ""
    false "cancel_ownership_transfer" [] RVoid.

Definition rmn_remote_WaitForRoleGrantedEvent : EventHelper :=
  mkEventHelper "RoleGrantedEvent" (mkEventParser
    []
    [("role", "Role", EvField (DCall "SymbolFromScVal"));
     ("account", "Account", EvField (DCall "AddressFromScVal"));
     ("sender", "Sender", EvField (DCall "AddressFromScVal"))]).

Definition rmn_remote_WaitForRoleRevokedEvent : EventHelper :=
  mkEventHelper "RoleRevokedEvent" (mkEventParser
    []
    [("role", "Role", EvField (DCall "SymbolFromScVal"));
     ("account", "Account", EvField (DCall "AddressFromScVal"));
     ("sender", "Sender", EvField (DCall "AddressFromScVal"))]).

Definition rmn_remote_WaitForAuthorizedCallerAddedEvent : EventHelper :=
  mkEventHelper "AuthorizedCallerAddedEvent" (mkEventParser
    []
    [("caller", "Caller", EvField (DCall "AddressFromScVal"))]).

Definition rmn_remote_WaitForAuthorizedCallerRemovedEvent : EventHelper :=
  mkEventHelper "AuthorizedCallerRemovedEvent" (mkEventParser
    []
    [("caller", "Caller", EvField (DCall "AddressFromScVal"))]).

Definition rmn_remote_WaitForOwnershipTransferStartedEvent : EventHelper :=
  mkEventHelper "OwnershipTransferStartedEvent" (mkEventParser
    []
    [("previous_owner", "PreviousOwner", EvField (DCall "AddressFromScVal"));
     ("new_owner", "NewOwner", EvField (DCall "AddressFromScVal"))]).

Definition rmn_remote_WaitForCursedEvent : EventHelper :=
  mkEventHelper "CursedEvent" (mkEventParser
    []
    [("subjects", "Subjects", EvVec (TArray "16") (DCall "Bytes16FromScVal") false)]).

Definition rmn_remote_WaitForUncursedEvent : EventHelper :=
  mkEventHelper "UncursedEvent" (mkEventParser
    []
    [("subjects", "Subjects", EvVec (TArray "16") (DCall "Bytes16FromScVal") false)]).

Definition rmn_remote_client : ClientFile :=
  mkClientFile "rmn_remote" "RmnRemote" false true
    [rmn_remote_Curse; rmn_remote_Owner; rmn_remote_Uncurse; rmn_remote_Upgrade;
     rmn_remote_IsOwner; rmn_remote_IsCursed; rmn_remote_InitOwner; rmn_remote_Initialize;
     rmn_remote_RequireOwner; rmn_remote_AcceptOwnership; rmn_remote_GetCurseAdmins;
     rmn_remote_TypeAndVersion; rmn_remote_GetPendingOwner; rmn_remote_TransferOwnership;
     rmn_remote_GetCursedSubjects; rmn_remote_IsCursedBySubject;
     rmn_remote_ApplyCurseAdminUpdates; rmn_remote_CancelOwnershipTransfer]
    [rmn_remote_WaitForRoleGrantedEvent; rmn_remote_WaitForRoleRevokedEvent;
     rmn_remote_WaitForAuthorizedCallerAddedEvent;
     rmn_remote_WaitForAuthorizedCallerRemovedEvent;
     rmn_remote_WaitForOwnershipTransferStartedEvent; rmn_remote_WaitForCursedEvent;
     rmn_remote_WaitForUncursedEvent].

(** ** bindings/contracts/bnm_token *)

Definition bnm_token_BnmError : ErrorDecl :=
  mkErrorDecl "BnmError"
    [("BnmErrorAlreadyInitialized", 1); ("BnmErrorNotAdmin", 2);
     ("BnmErrorInsufficientBalance", 3); ("BnmErrorInsufficientAllowance", 4);
     ("BnmErrorNegativeAmount", 5); ("BnmErrorNotInitialized", 6);
     ("BnmErrorUnsupportedOperation", 7); ("BnmErrorNotMinter", 8);
     ("BnmErrorMinterAlreadyExists", 9); ("BnmErrorMinterNotFound", 10);
     ("BnmErrorCannotRemovePrimaryMinter", 11)]
    [(1, "already initialized"); (2, "not admin"); (3, "insufficient balance");
     (4, "insufficient allowance"); (5, "negative amount"); (6, "not initialized");
     (7, "unsupported operation"); (8, "not minter"); (9, "minter already exists");
     (10, "minter not found"); (11, "cannot remove primary minter")].

Definition bnm_token_CCIPError : ErrorDecl :=
  mkErrorDecl "CCIPError"
    [("CCIPErrorNotInitialized", 1); ("CCIPErrorAlreadyInitialized", 2);
     ("CCIPErrorUnauthorized", 3); ("CCIPErrorNotOwner", 4); ("CCIPErrorNoPendingOwner", 5);
     ("CCIPErrorCallerNotAuthorized", 6); ("CCIPErrorCallerAlreadyAuthorized", 7);
     ("CCIPErrorCallerNotFound", 8); ("CCIPErrorRoleNotGranted", 9);
     ("CCIPErrorFeatureNotEnabled", 10); ("CCIPErrorRoleAlreadyGranted", 11);
     ("CCIPErrorCannotRenounceRole", 12); ("CCIPErrorInvalidVersionTag", 13);
     ("CCIPErrorInvalidSignatureLength", 14); ("CCIPErrorInvalidSignature", 15);
     ("CCIPErrorInvalidSignatureCount", 16); ("CCIPErrorInvalidSignatureThreshold", 17);
     ("CCIPErrorInvalidSignaturePubkey", 18); ("CCIPErrorSourceSignersNotConfigured", 19);
     ("CCIPErrorInvalidVerifierResults", 20); ("CCIPErrorReentrantCall", 21);
     ("CCIPErrorTokenNotSupported", 22); ("CCIPErrorFeeTokenNotSupported", 23);
     ("CCIPErrorNoGasPriceAvailable", 24); ("CCIPErrorDestinationChainNotEnabled", 25);
     ("CCIPErrorInvalidExtraArgsTag", 26); ("CCIPErrorInvalidExtraArgsData", 27);
     ("CCIPErrorMessageGasLimitTooHigh", 28); ("CCIPErrorMessageTooLarge", 29);
     ("CCIPErrorUnsupportedNumberOfTokens", 30); ("CCIPErrorInvalidDestChainConfig", 31);
     ("CCIPErrorMessageFeeTooHigh", 32); ("CCIPErrorInvalidStaticConfig", 33);
     ("CCIPErrorInvalidTokenReceiver", 34); ("CCIPErrorSourceTokenDataTooLarge", 35);
     ("CCIPErrorInvalidDestBytesOverhead", 36); ("CCIPErrorDestinationChainNotSupported", 37);
     ("CCIPErrorMustBeCalledByRouter", 38); ("CCIPErrorRouterMustSetOriginalSender", 39);
     ("CCIPErrorCannotSendZeroTokens", 40); ("CCIPErrorCanOnlySendOneTokenPerMessage", 41);
     ("CCIPErrorUnsupportedToken", 42); ("CCIPErrorInvalidDestChainAddress", 43);
     ("CCIPErrorFeeExceedsMaxAllowed", 44); ("CCIPErrorInsufficientFeeTokenAmount", 45);
     ("CCIPErrorTokenReceiverNotAllowed", 46); ("CCIPErrorCursedByRMN", 47);
     ("CCIPErrorRemoteChainNotSupported", 48); ("CCIPErrorSenderNotAllowed", 49);
     ("CCIPErrorInvalidTokenAmount", 50); ("CCIPErrorInvalidReceiverAddress", 51);
     ("CCIPErrorInvalidConfig", 52); ("CCIPErrorInvalidVerifierResultsLength", 53);
     ("CCIPErrorInboundImplementationNotFound", 54);
     ("CCIPErrorOutboundImplementationNotFound", 55); ("CCIPErrorInvalidAddress", 56);
     ("CCIPErrorInvalidChainSelector", 57); ("CCIPErrorInvalidVersion", 58);
     ("CCIPErrorInvalidCCVVersion", 59); ("CCIPErrorOffRampAlreadyExists", 60);
     ("CCIPErrorOffRampMismatch", 61); ("CCIPErrorBadRMNSignal", 62);
     ("CCIPErrorUnsupportedDestinationChain", 63); ("CCIPErrorAlreadyCursed", 64);
     ("CCIPErrorConfigNotSet", 65); ("CCIPErrorDuplicateOnchainPublicKey", 66);
     ("CCIPErrorInvalidSignerOrder", 67); ("CCIPErrorNotEnoughSigners", 68);
     ("CCIPErrorNotCursed", 69); ("CCIPErrorOutOfOrderSignatures", 70);
     ("CCIPErrorThresholdNotMet", 71); ("CCIPErrorUnexpectedSigner", 72);
     ("CCIPErrorZeroValueNotAllowed", 73); ("CCIPErrorSourceChainNotEnabled", 100);
     ("CCIPErrorInvalidSourceChainConfig", 101); ("CCIPErrorInvalidOnRampAddress", 102);
     ("CCIPErrorInvalidOffRampAddress", 103); ("CCIPErrorInvalidMessageDestination", 104);
     ("CCIPErrorMessageAlreadyExecuted", 105); ("CCIPErrorInvalidExecutionState", 106);
     ("CCIPErrorCCVLengthMismatch", 107); ("CCIPErrorCCVQuorumNotMet", 108);
     ("CCIPErrorReceiverError", 109); ("CCIPErrorGasLimitOverrideTooLow", 110);
     ("CCIPErrorInvalidReceiverLength", 111); ("CCIPErrorTokenHandlingError", 112);
     ("CCIPErrorMessageDecodingError", 113); ("CCIPErrorReceiverDoesNotExist", 114);
     ("CCIPErrorReceiverNotWasmContract", 115); ("CCIPErrorRequiredCCVMissing", 116);
     ("CCIPErrorInvalidOptionalThreshold", 117); ("CCIPErrorOptionalCCVQuorumNotReached", 118);
     ("CCIPErrorNoStateProgressMade", 119); ("CCIPErrorOnlyRegistryModuleOrOwner", 201);
     ("CCIPErrorOnlyAdministrator", 202); ("CCIPErrorOnlyPendingAdministrator", 203);
     ("CCIPErrorTokenAlreadyRegistered", 204); ("CCIPErrorInvalidTokenPoolToken", 205);
     ("CCIPErrorPoolTokenMismatch", 301); ("CCIPErrorChainNotSupported", 302);
     ("CCIPErrorCallerIsNotRamp", 303); ("CCIPErrorInsufficientPoolLiquidity", 304);
     ("CCIPErrorInvalidRemotePoolAddress", 305); ("CCIPErrorInvalidRemoteChainConfig", 306);
     ("CCIPErrorInvalidRemoteChainDecimals", 307); ("CCIPErrorDecimalAmountOverflow", 308);
     ("CCIPErrorInvalidPoolTokenDecimals", 309); ("CCIPErrorBucketOverfilled", 310);
     ("CCIPErrorTokenMaxCapacityExceeded", 311); ("CCIPErrorTokenRateLimitReached", 312);
     ("CCIPErrorInvalidRateLimitRate", 313); ("CCIPErrorDisabledNonZeroRateLimit", 314);
     ("CCIPErrorInvalidRequestedFinality", 315);
     ("CCIPErrorRequestedFinalityCanOnlyHaveOneMode", 316);
     ("CCIPErrorInvalidChainForClient", 317); ("CCIPErrorRouterNotConfigured", 318);
     ("CCIPErrorInvalidSourcePoolAddress", 319); ("CCIPErrorDuplicateCCVNotAllowed", 320);
     ("CCIPErrorInvalidTokenTransferFeeConfig", 321); ("CCIPErrorInvalidTransferFeeBps", 322);
     ("CCIPErrorInvalidAllowListRequest", 323); ("CCIPErrorInvalidFeeCalculation", 801);
     ("CCIPErrorInvalidFeeTokenConversion", 802); ("CCIPErrorZeroFeeAggregatorNotAllowed", 803);
     ("CCIPErrorExceedsMaxCCVs", 804); ("CCIPErrorCCVNotAllowed", 805);
     ("CCIPErrorPolicyEngineDetachReverted", 806); ("CCIPErrorUnsupportedSelector", 807);
     ("CCIPErrorZeroAddressNotAllowed", 808)]
    [(1, "not initialized"); (2, "already initialized"); (3, "unauthorized"); (4, "not owner");
     (5, "no pending owner"); (6, "caller not authorized"); (7, "caller already authorized");
     (8, "caller not found"); (9, "role not granted"); (10, "feature not enabled");
     (11, "role already granted"); (12, "cannot renounce role"); (13, "invalid version tag");
     (14, "invalid signature length"); (15, "invalid signature");
     (16, "invalid signature count"); (17, "invalid signature threshold");
     (18, "invalid signature pubkey"); (19, "source signers not configured");
     (20, "invalid verifier results"); (21, "reentrant call"); (22, "token not supported");
     (23, "fee token not supported"); (24, "no gas price available");
     (25, "destination chain not enabled"); (26, "invalid extra args tag");
     (27, "invalid extra args data"); (28, "message gas limit too high");
     (29, "message too large"); (30, "unsupported number of tokens");
     (31, "invalid dest chain config"); (32, "message fee too high");
     (33, "invalid static config"); (34, "invalid token receiver");
     (35, "source token data too large"); (36, "invalid dest bytes overhead");
     (37, "destination chain not supported"); (38, "must be called by router");
     (39, "router must set original sender"); (40, "cannot send zero tokens");
     (41, "can only send one token per message"); (42, "unsupported token");
     (43, "invalid dest chain address"); (44, "fee exceeds max allowed");
     (45, "insufficient fee token amount"); (46, "token receiver not allowed");
     (47, "cursed by r m n"); (48, "remote chain not supported"); (49, "sender not allowed");
     (50, "invalid token amount"); (51, "invalid receiver address"); (52, "invalid config");
     (53, "invalid verifier results length"); (54, "inbound implementation not found");
     (55, "outbound implementation not found"); (56, "invalid address");
     (57, "invalid chain selector"); (58, "invalid version"); (59, "invalid c c v version");
     (60, "off ramp already exists"); (61, "off ramp mismatch"); (62, "bad r m n signal");
     (63, "unsupported destination chain"); (64, "already cursed"); (65, "config not set");
     (66, "duplicate onchain public key"); (67, "invalid signer order");
     (68, "not enough signers"); (69, "not cursed"); (70, "out of order signatures");
     (71, "threshold not met"); (72, "unexpected signer"); (73, "zero value not allowed");
     (100, "source chain not enabled"); (101, "invalid source chain config");
     (102, "invalid on ramp address"); (103, "invalid off ramp address");
     (104, "invalid message destination"); (105, "message already executed");
     (106, "invalid execution state"); (107, "c c v length mismatch");
     (108, "c c v quorum not met"); (109, "receiver error");
     (110, "gas limit override too low"); (111, "invalid receiver length");
     (112, "token handling error"); (113, "message decoding error");
     (114, "receiver does not exist"); (115, "receiver not wasm contract");
     (116, "required c c v missing"); (117, "invalid optional threshold");
     (118, "optional c c v quorum not reached"); (119, "no state progress made");
     (201, "only registry module or owner"); (202, "only administrator");
     (203, "only pending administrator"); (204, "token already registered");
     (205, "invalid token pool token"); (301, "pool token mismatch");
     (302, "chain not supported"); (303, "caller is not ramp");
     (304, "insufficient pool liquidity"); (305, "invalid remote pool address");
     (306, "invalid remote chain config"); (307, "invalid remote chain decimals");
     (308, "decimal amount overflow"); (309, "invalid pool token decimals");
     (310, "bucket overfilled"); (311, "token max capacity exceeded");
     (312, "token rate limit reached"); (313, "invalid rate limit rate");
     (314, "disabled non zero rate limit"); (315, "invalid requested finality");
     (316, "requested finality can only have one mode"); (317, "invalid chain for client");
     (318, "router not configured"); (319, "invalid source pool address");
     (320, "duplicate c c v not allowed"); (321, "invalid token transfer fee config");
     (322, "invalid transfer fee bps"); (323, "invalid allow list request");
     (801, "invalid fee calculation"); (802, "invalid fee token conversion");
     (803, "zero fee aggregator not allowed"); (804, "exceeds max c c vs");
     (805, "c c v not allowed"); (806, "policy engine detach reverted");
     (807, "unsupported selector"); (808, "zero address not allowed")].

Definition bnm_token_BurnEvent : EventDecl :=
  mkEventDecl "BurnEvent"
    [("From", TString); ("Amount", TBig); ("Ledger", TUint32); ("TxHash", TString)]
    (Some "burn").

Definition bnm_token_DripEvent : EventDecl :=
  mkEventDecl "DripEvent"
    [("To", TString); ("Amount", TBig); ("Ledger", TUint32); ("TxHash", TString)]
    (Some "drip").

Definition bnm_token_MintEvent : EventDecl :=
  mkEventDecl "MintEvent"
    [("To", TString); ("Amount", TBig); ("Ledger", TUint32); ("TxHash", TString)]
    (Some "mint").

Definition bnm_token_ApproveEvent : EventDecl :=
  mkEventDecl "ApproveEvent"
    [("From", TString); ("Spender", TString); ("Amount", TBig); ("ExpirationLedger", TUint32);
     ("Ledger", TUint32); ("TxHash", TString)]
    (Some "approve").

Definition bnm_token_SetAdminEvent : EventDecl :=
  mkEventDecl "SetAdminEvent"
    [("Admin", TString); ("NewAdmin", TString); ("Ledger", TUint32); ("TxHash", TString)]
    (Some "set_admin").

Definition bnm_token_TransferEvent : EventDecl :=
  mkEventDecl "TransferEvent"
    [("From", TString); ("To", TString); ("Amount", TBig); ("Ledger", TUint32);
     ("TxHash", TString)]
    (Some "transfer").

Definition bnm_token_SetAuthorizedEvent : EventDecl :=
  mkEventDecl "SetAuthorizedEvent"
    [("Id", TString); ("Authorize", TBool); ("Ledger", TUint32); ("TxHash", TString)]
    (Some "set_authorized").

Definition bnm_token_Upgraded : EventDecl :=
  mkEventDecl "Upgraded"
    [("NewWasmHash", TArray "32"); ("Ledger", TUint32); ("TxHash", TString)]
    (Some "Upgraded").

Definition bnm_token_RoleGrantedEvent : EventDecl :=
  mkEventDecl "RoleGrantedEvent"
    [("Role", TString); ("Account", TString); ("Sender", TString); ("Ledger", TUint32);
     ("TxHash", TString)]
    (Some "auth_RoleGranted").

Definition bnm_token_RoleRevokedEvent : EventDecl :=
  mkEventDecl "RoleRevokedEvent"
    [("Role", TString); ("Account", TString); ("Sender", TString); ("Ledger", TUint32);
     ("TxHash", TString)]
    (Some "auth_RoleRevoked").

Definition bnm_token_AuthorizedCallerAddedEvent : EventDecl :=
  mkEventDecl "AuthorizedCallerAddedEvent"
    [("Caller", TString); ("Ledger", TUint32); ("TxHash", TString)]
    (Some "auth_CallerAdded").

Definition bnm_token_AuthorizedCallerRemovedEvent : EventDecl :=
  mkEventDecl "AuthorizedCallerRemovedEvent"
    [("Caller", TString); ("Ledger", TUint32); ("TxHash", TString)]
    (Some "auth_CallerRemoved").

Definition bnm_token_OwnershipTransferStartedEvent : EventDecl :=
  mkEventDecl "OwnershipTransferStartedEvent"
    [("PreviousOwner", TString); ("NewOwner", TString); ("Ledger", TUint32);
     ("TxHash", TString)]
    (Some "auth_OwnerTransferStart").

Definition bnm_token_types : TypesFile :=
  mkTypesFile "bnm_token" (mkImports false false false true)
    []
    [bnm_token_BnmError; bnm_token_CCIPError]
    [bnm_token_BurnEvent; bnm_token_DripEvent; bnm_token_MintEvent; bnm_token_ApproveEvent;
     bnm_token_SetAdminEvent; bnm_token_TransferEvent; bnm_token_SetAuthorizedEvent;
     bnm_token_Upgraded; bnm_token_RoleGrantedEvent; bnm_token_RoleRevokedEvent;
     bnm_token_AuthorizedCallerAddedEvent; bnm_token_AuthorizedCallerRemovedEvent;
     bnm_token_OwnershipTransferStartedEvent]
    [].

Definition bnm_token_Burn : Method :=
  mkMethod "Burn" [("from", TString); ("amount", TBig)] [] ""
    false "burn" [ECall "AddressToScVal"; ECall "I128ToScVal"] RVoid.

Definition bnm_token_Drip : Method :=
  mkMethod "Drip" [("to", TString)] [] ""
    false "drip" [ECall "AddressToScVal"] RVoid.

Definition bnm_token_Mint : Method :=
  mkMethod "Mint" [("to", TString); ("amount", TBig)] [] ""
    false "mint" [ECall "AddressToScVal"; ECall "I128ToScVal"] RVoid.

Definition bnm_token_Name : Method :=
  mkMethod "Name" [] [TString] empty_literal
    true "name" [] (RVal (DCall "StringFromScVal")).

Definition bnm_token_Admin : Method :=
  mkMethod "Admin" [] [TString] empty_literal
    true "admin" [] (RVal (DCall "AddressFromScVal")).

Definition bnm_token_Owner : Method :=
  mkMethod "Owner" [] [TPtr TString] "nil"
    true "owner" [] (RVal (DCall "OptionalAddressFromScVal")).

Definition bnm_token_Trust : Method :=
  mkMethod "Trust" [("addr", TString)] [] ""
    false "trust" [ECall "AddressToScVal"] RVoid.

Definition bnm_token_Symbol : Method :=
  mkMethod "Symbol" [] [TString] empty_literal
    true "symbol" [] (RVal (DCall "StringFromScVal")).

Definition bnm_token_Approve : Method :=
  mkMethod "Approve" [("from", TString); ("spender", TString); ("amount", TBig); ("expirationLedger", TUint32)]
    [] ""
    false "approve" [ECall "AddressToScVal"; ECall "AddressToScVal"; ECall "I128ToScVal"; ECall
      "Uint32ToScVal"] RVoid.

Definition bnm_token_Balance : Method :=
  mkMethod "Balance" [("id", TString)] [TBig] "nil"
    true "balance" [ECall "AddressToScVal"] (RVal (DCall "I128FromScVal")).

Definition bnm_token_MintAs : Method :=
  mkMethod "MintAs" [("caller", TString); ("to", TString); ("amount", TBig)] [] ""
    false "mint_as" [ECall "AddressToScVal"; ECall "AddressToScVal"; ECall "I128ToScVal"] RVoid.

Definition bnm_token_Clawback : Method :=
  mkMethod "Clawback" [("from", TString); ("amount", TBig)] [] ""
    false "clawback" [ECall "AddressToScVal"; ECall "I128ToScVal"] RVoid.

Definition bnm_token_Decimals : Method :=
  mkMethod "Decimals" [] [TUint32] "0"
    true "decimals" [] (RVal (DGet "GetU32")).

Definition bnm_token_IsOwner : Method :=
  mkMethod "IsOwner" [("addr", TString)] [TBool] "false"
    true "is_owner" [ECall "AddressToScVal"] (RVal (DGet "GetB")).

Definition bnm_token_Transfer : Method :=
  mkMethod "Transfer" [("from", TString); ("to", TString); ("amount", TBig)] [] ""
    false "transfer" [ECall "AddressToScVal"; ECall "AddressToScVal"; ECall "I128ToScVal"] RVoid.

Definition bnm_token_Allowance : Method :=
  mkMethod "Allowance" [("from", TString); ("spender", TString)] [TBig] "nil"
    true "allowance" [ECall "AddressToScVal"; ECall "AddressToScVal"] (RVal (DCall "I128FromScVal")).

Definition bnm_token_BurnFrom : Method :=
  mkMethod "BurnFrom" [("spender", TString); ("from", TString); ("amount", TBig)] [] ""
    false "burn_from" [ECall "AddressToScVal"; ECall "AddressToScVal"; ECall "I128ToScVal"] RVoid.

Definition bnm_token_SetAdmin : Method :=
  mkMethod "SetAdmin" [("newAdmin", TString)] [] ""
    false "set_admin" [ECall "AddressToScVal"] RVoid.

Definition bnm_token_AddMinter : Method :=
  mkMethod "AddMinter" [("minter", TString)] [] ""
    false "add_minter" [ECall "AddressToScVal"] RVoid.

Definition bnm_token_Authorized : Method :=
  mkMethod "Authorized" [("id", TString)] [TBool] "false"
    true "authorized" [ECall "AddressToScVal"] (RVal (DGet "GetB")).

Definition bnm_token_InitOwner : Method :=
  mkMethod "InitOwner" [("owner", TString)] [] ""
    false "init_owner" [ECall "AddressToScVal"] RVoid.

Definition bnm_token_Initialize : Method :=
  mkMethod "Initialize" [("admin", TString); ("name", TString); ("symbol", TString); ("decimals", TUint32)] []
    ""
    false "initialize" [ECall "AddressToScVal"; ECall "StringToScVal"; ECall "StringToScVal"; ECall
      "Uint32ToScVal"] RVoid.

Definition bnm_token_GetMinters : Method :=
  mkMethod "GetMinters" [] [TSlice TString] "nil"
    true "get_minters" [] (RVal (DVec TString (DCall "AddressFromScVal"))).

Definition bnm_token_RemoveMinter : Method :=
  mkMethod "RemoveMinter" [("minter", TString)] [] ""
    false "remove_minter" [ECall "AddressToScVal"] RVoid.

Definition bnm_token_RequireOwner : Method :=
  mkMethod "RequireOwner" [] [TString] empty_literal
    false "require_owner" [] (RVal (DCall "AddressFromScVal")).

Definition bnm_token_TransferFrom : Method :=
  mkMethod "TransferFrom" [("spender", TString); ("from", TString); ("to", TString); ("amount", TBig)] [] ""
    false "transfer_from" [ECall "AddressToScVal"; ECall "AddressToScVal"; ECall "AddressToScVal"; ECall
      "I128ToScVal"] RVoid.

Definition bnm_token_SetAuthorized : Method :=
  mkMethod "SetAuthorized" [("id", TString); ("authorize", TBool)] [] ""
    false "set_authorized" [ECall "AddressToScVal"; ECall "BoolToScVal"] RVoid.

Definition bnm_token_AcceptOwnership : Method :=
  mkMethod "AcceptOwnership" [] [] ""
    false "accept_ownership" [] RVoid.

Definition bnm_token_TypeAndVersion : Method :=
  mkMethod "TypeAndVersion" [] [TString] empty_literal
    true "type_and_version" [] (RVal (DCall "StringFromScVal")).

Definition bnm_token_GetPendingOwner : Method :=
  mkMethod "GetPendingOwner" [] [TPtr TString] "nil"
    true "get_pending_owner" [] (RVal (DCall "OptionalAddressFromScVal")).

Definition bnm_token_TransferOwnership : Method :=
  mkMethod "TransferOwnership" [("newOwner", TString)] [] ""
    false "transfer_ownership" [ECall "AddressToScVal"] RVoid.

Definition bnm_token_CancelOwnershipTransfer : Method :=
  mkMethod "CancelOwnershipTransfer" [] [] ""
    false "cancel_ownership_transfer" [] RVoid.

Definition bnm_token_WaitForBurnEvent : EventHelper :=
  mkEventHelper "BurnEvent" (mkEventParser
    []
    [("from", "From", EvField (DCall "AddressFromScVal"));
     ("amount", "Amount", EvField (DCall "I128FromScVal"))]).

Definition bnm_token_WaitForDripEvent : EventHelper :=
  mkEventHelper "DripEvent" (mkEventParser
    []
    [("to", "To", EvField (DCall "AddressFromScVal"));
     ("amount", "Amount", EvField (DCall "I128FromScVal"))]).

Definition bnm_token_WaitForMintEvent : EventHelper :=
  mkEventHelper "MintEvent" (mkEventParser
    []
    [("to", "To", EvField (DCall "AddressFromScVal"));
     ("amount", "Amount", EvField (DCall "I128FromScVal"))]).

Definition bnm_token_WaitForApproveEvent : EventHelper :=
  mkEventHelper "ApproveEvent" (mkEventParser
    []
    [("from", "From", EvField (DCall "AddressFromScVal"));
     ("spender", "Spender", EvField (DCall "AddressFromScVal"));
     ("amount", "Amount", EvField (DCall "I128FromScVal"));
     ("expiration_ledger", "ExpirationLedger", EvField (DGet "GetU32"))]).

Definition bnm_token_WaitForSetAdminEvent : EventHelper :=
  mkEventHelper "SetAdminEvent" (mkEventParser
    []
    [("admin", "Admin", EvField (DCall "AddressFromScVal"));
     ("new_admin", "NewAdmin", EvField (DCall "AddressFromScVal"))]).

Definition bnm_token_WaitForTransferEvent : EventHelper :=
  mkEventHelper "TransferEvent" (mkEventParser
    []
    [("from", "From", EvField (DCall "AddressFromScVal"));
     ("to", "To", EvField (DCall "AddressFromScVal"));
     ("amount", "Amount", EvField (DCall "I128FromScVal"))]).

Definition bnm_token_WaitForSetAuthorizedEvent : EventHelper :=
  mkEventHelper "SetAuthorizedEvent" (mkEventParser
    []
    [("id", "Id", EvField (DCall "AddressFromScVal"));
     ("authorize", "Authorize", EvField (DGet "GetB"))]).

Definition bnm_token_WaitForUpgraded : EventHelper :=
  mkEventHelper "Upgraded" (mkEventParser
    []
    [("new_wasm_hash", "NewWasmHash", EvField (DCall "Bytes32FromScVal"))]).

Definition bnm_token_WaitForRoleGrantedEvent : EventHelper :=
  mkEventHelper "RoleGrantedEvent" (mkEventParser
    []
    [("role", "Role", EvField (DCall "SymbolFromScVal"));
     ("account", "Account", EvField (DCall "AddressFromScVal"));
     ("sender", "Sender", EvField (DCall "AddressFromScVal"))]).

Definition bnm_token_WaitForRoleRevokedEvent : EventHelper :=
  mkEventHelper "RoleRevokedEvent" (mkEventParser
    []
    [("role", "Role", EvField (DCall "SymbolFromScVal"));
     ("account", "Account", EvField (DCall "AddressFromScVal"));
     ("sender", "Sender", EvField (DCall "AddressFromScVal"))]).

Definition bnm_token_WaitForAuthorizedCallerAddedEvent : EventHelper :=
  mkEventHelper "AuthorizedCallerAddedEvent" (mkEventParser
    []
    [("caller", "Caller", EvField (DCall "AddressFromScVal"))]).

Definition bnm_token_WaitForAuthorizedCallerRemovedEvent : EventHelper :=
  mkEventHelper "AuthorizedCallerRemovedEvent" (mkEventParser
    []
    [("caller", "Caller", EvField (DCall "AddressFromScVal"))]).

Definition bnm_token_WaitForOwnershipTransferStartedEvent : EventHelper :=
  mkEventHelper "OwnershipTransferStartedEvent" (mkEventParser
    []
    [("previous_owner", "PreviousOwner", EvField (DCall "AddressFromScVal"));
     ("new_owner", "NewOwner", EvField (DCall "AddressFromScVal"))]).

Definition bnm_token_client : ClientFile :=
  mkClientFile "bnm_token" "BnmToken" true true
    [bnm_token_Burn; bnm_token_Drip; bnm_token_Mint; bnm_token_Name; bnm_token_Admin;
     bnm_token_Owner; bnm_token_Trust; bnm_token_Symbol; bnm_token_Approve; bnm_token_Balance;
     bnm_token_MintAs; bnm_token_Clawback; bnm_token_Decimals; bnm_token_IsOwner;
     bnm_token_Transfer; bnm_token_Allowance; bnm_token_BurnFrom; bnm_token_SetAdmin;
     bnm_token_AddMinter; bnm_token_Authorized; bnm_token_InitOwner; bnm_token_Initialize;
     bnm_token_GetMinters; bnm_token_RemoveMinter; bnm_token_RequireOwner;
     bnm_token_TransferFrom; bnm_token_SetAuthorized; bnm_token_AcceptOwnership;
     bnm_token_TypeAndVersion; bnm_token_GetPendingOwner; bnm_token_TransferOwnership;
     bnm_token_CancelOwnershipTransfer]
    [bnm_token_WaitForBurnEvent; bnm_token_WaitForDripEvent; bnm_token_WaitForMintEvent;
     bnm_token_WaitForApproveEvent; bnm_token_WaitForSetAdminEvent;
     bnm_token_WaitForTransferEvent; bnm_token_WaitForSetAuthorizedEvent;
     bnm_token_WaitForUpgraded; bnm_token_WaitForRoleGrantedEvent;
     bnm_token_WaitForRoleRevokedEvent; bnm_token_WaitForAuthorizedCallerAddedEvent;
     bnm_token_WaitForAuthorizedCallerRemovedEvent;
     bnm_token_WaitForOwnershipTransferStartedEvent].

(** ** bindings/contracts/link_token *)

Definition link_token_CCIPError : ErrorDecl :=
  mkErrorDecl "CCIPError"
    [("CCIPErrorNotInitialized", 1); ("CCIPErrorAlreadyInitialized", 2);
     ("CCIPErrorUnauthorized", 3); ("CCIPErrorNotOwner", 4); ("CCIPErrorNoPendingOwner", 5);
     ("CCIPErrorCallerNotAuthorized", 6); ("CCIPErrorCallerAlreadyAuthorized", 7);
     ("CCIPErrorCallerNotFound", 8); ("CCIPErrorRoleNotGranted", 9);
     ("CCIPErrorFeatureNotEnabled", 10); ("CCIPErrorRoleAlreadyGranted", 11);
     ("CCIPErrorCannotRenounceRole", 12); ("CCIPErrorInvalidVersionTag", 13);
     ("CCIPErrorInvalidSignatureLength", 14); ("CCIPErrorInvalidSignature", 15);
     ("CCIPErrorInvalidSignatureCount", 16); ("CCIPErrorInvalidSignatureThreshold", 17);
     ("CCIPErrorInvalidSignaturePubkey", 18); ("CCIPErrorSourceSignersNotConfigured", 19);
     ("CCIPErrorInvalidVerifierResults", 20); ("CCIPErrorReentrantCall", 21);
     ("CCIPErrorTokenNotSupported", 22); ("CCIPErrorFeeTokenNotSupported", 23);
     ("CCIPErrorNoGasPriceAvailable", 24); ("CCIPErrorDestinationChainNotEnabled", 25);
     ("CCIPErrorInvalidExtraArgsTag", 26); ("CCIPErrorInvalidExtraArgsData", 27);
     ("CCIPErrorMessageGasLimitTooHigh", 28); ("CCIPErrorMessageTooLarge", 29);
     ("CCIPErrorUnsupportedNumberOfTokens", 30); ("CCIPErrorInvalidDestChainConfig", 31);
     ("CCIPErrorMessageFeeTooHigh", 32); ("CCIPErrorInvalidStaticConfig", 33);
     ("CCIPErrorInvalidTokenReceiver", 34); ("CCIPErrorSourceTokenDataTooLarge", 35);
     ("CCIPErrorInvalidDestBytesOverhead", 36); ("CCIPErrorDestinationChainNotSupported", 37);
     ("CCIPErrorMustBeCalledByRouter", 38); ("CCIPErrorRouterMustSetOriginalSender", 39);
     ("CCIPErrorCannotSendZeroTokens", 40); ("CCIPErrorCanOnlySendOneTokenPerMessage", 41);
     ("CCIPErrorUnsupportedToken", 42); ("CCIPErrorInvalidDestChainAddress", 43);
     ("CCIPErrorFeeExceedsMaxAllowed", 44); ("CCIPErrorInsufficientFeeTokenAmount", 45);
     ("CCIPErrorTokenReceiverNotAllowed", 46); ("CCIPErrorCursedByRMN", 47);
     ("CCIPErrorRemoteChainNotSupported", 48); ("CCIPErrorSenderNotAllowed", 49);
     ("CCIPErrorInvalidTokenAmount", 50); ("CCIPErrorInvalidReceiverAddress", 51);
     ("CCIPErrorInvalidConfig", 52); ("CCIPErrorInvalidVerifierResultsLength", 53);
     ("CCIPErrorInboundImplementationNotFound", 54);
     ("CCIPErrorOutboundImplementationNotFound", 55); ("CCIPErrorInvalidAddress", 56);
     ("CCIPErrorInvalidChainSelector", 57); ("CCIPErrorInvalidVersion", 58);
     ("CCIPErrorInvalidCCVVersion", 59); ("CCIPErrorOffRampAlreadyExists", 60);
     ("CCIPErrorOffRampMismatch", 61); ("CCIPErrorBadRMNSignal", 62);
     ("CCIPErrorUnsupportedDestinationChain", 63); ("CCIPErrorAlreadyCursed", 64);
     ("CCIPErrorConfigNotSet", 65); ("CCIPErrorDuplicateOnchainPublicKey", 66);
     ("CCIPErrorInvalidSignerOrder", 67); ("CCIPErrorNotEnoughSigners", 68);
     ("CCIPErrorNotCursed", 69); ("CCIPErrorOutOfOrderSignatures", 70);
     ("CCIPErrorThresholdNotMet", 71); ("CCIPErrorUnexpectedSigner", 72);
     ("CCIPErrorZeroValueNotAllowed", 73); ("CCIPErrorSourceChainNotEnabled", 100);
     ("CCIPErrorInvalidSourceChainConfig", 101); ("CCIPErrorInvalidOnRampAddress", 102);
     ("CCIPErrorInvalidOffRampAddress", 103); ("CCIPErrorInvalidMessageDestination", 104);
     ("CCIPErrorMessageAlreadyExecuted", 105); ("CCIPErrorInvalidExecutionState", 106);
     ("CCIPErrorCCVLengthMismatch", 107); ("CCIPErrorCCVQuorumNotMet", 108);
     ("CCIPErrorReceiverError", 109); ("CCIPErrorGasLimitOverrideTooLow", 110);
     ("CCIPErrorInvalidReceiverLength", 111); ("CCIPErrorTokenHandlingError", 112);
     ("CCIPErrorMessageDecodingError", 113); ("CCIPErrorReceiverDoesNotExist", 114);
     ("CCIPErrorReceiverNotWasmContract", 115); ("CCIPErrorRequiredCCVMissing", 116);
     ("CCIPErrorInvalidOptionalThreshold", 117); ("CCIPErrorOptionalCCVQuorumNotReached", 118);
     ("CCIPErrorNoStateProgressMade", 119); ("CCIPErrorOnlyRegistryModuleOrOwner", 201);
     ("CCIPErrorOnlyAdministrator", 202); ("CCIPErrorOnlyPendingAdministrator", 203);
     ("CCIPErrorTokenAlreadyRegistered", 204); ("CCIPErrorInvalidTokenPoolToken", 205);
     ("CCIPErrorPoolTokenMismatch", 301); ("CCIPErrorChainNotSupported", 302);
     ("CCIPErrorCallerIsNotRamp", 303); ("CCIPErrorInsufficientPoolLiquidity", 304);
     ("CCIPErrorInvalidRemotePoolAddress", 305); ("CCIPErrorInvalidRemoteChainConfig", 306);
     ("CCIPErrorInvalidRemoteChainDecimals", 307); ("CCIPErrorDecimalAmountOverflow", 308);
     ("CCIPErrorInvalidPoolTokenDecimals", 309); ("CCIPErrorBucketOverfilled", 310);
     ("CCIPErrorTokenMaxCapacityExceeded", 311); ("CCIPErrorTokenRateLimitReached", 312);
     ("CCIPErrorInvalidRateLimitRate", 313); ("CCIPErrorDisabledNonZeroRateLimit", 314);
     ("CCIPErrorInvalidRequestedFinality", 315);
     ("CCIPErrorRequestedFinalityCanOnlyHaveOneMode", 316);
     ("CCIPErrorInvalidChainForClient", 317); ("CCIPErrorRouterNotConfigured", 318);
     ("CCIPErrorInvalidSourcePoolAddress", 319); ("CCIPErrorDuplicateCCVNotAllowed", 320);
     ("CCIPErrorInvalidTokenTransferFeeConfig", 321); ("CCIPErrorInvalidTransferFeeBps", 322);
     ("CCIPErrorInvalidAllowListRequest", 323); ("CCIPErrorInvalidFeeCalculation", 801);
     ("CCIPErrorInvalidFeeTokenConversion", 802); ("CCIPErrorZeroFeeAggregatorNotAllowed", 803);
     ("CCIPErrorExceedsMaxCCVs", 804); ("CCIPErrorCCVNotAllowed", 805);
     ("CCIPErrorPolicyEngineDetachReverted", 806); ("CCIPErrorUnsupportedSelector", 807);
     ("CCIPErrorZeroAddressNotAllowed", 808)]
    [(1, "not initialized"); (2, "already initialized"); (3, "unauthorized"); (4, "not owner");
     (5, "no pending owner"); (6, "caller not authorized"); (7, "caller already authorized");
     (8, "caller not found"); (9, "role not granted"); (10, "feature not enabled");
     (11, "role already granted"); (12, "cannot renounce role"); (13, "invalid version tag");
     (14, "invalid signature length"); (15, "invalid signature");
     (16, "invalid signature count"); (17, "invalid signature threshold");
     (18, "invalid signature pubkey"); (19, "source signers not configured");
     (20, "invalid verifier results"); (21, "reentrant call"); (22, "token not supported");
     (23, "fee token not supported"); (24, "no gas price available");
     (25, "destination chain not enabled"); (26, "invalid extra args tag");
     (27, "invalid extra args data"); (28, "message gas limit too high");
     (29, "message too large"); (30, "unsupported number of tokens");
     (31, "invalid dest chain config"); (32, "message fee too high");
     (33, "invalid static config"); (34, "invalid token receiver");
     (35, "source token data too large"); (36, "invalid dest bytes overhead");
     (37, "destination chain not supported"); (38, "must be called by router");
     (39, "router must set original sender"); (40, "cannot send zero tokens");
     (41, "can only send one token per message"); (42, "unsupported token");
     (43, "invalid dest chain address"); (44, "fee exceeds max allowed");
     (45, "insufficient fee token amount"); (46, "token receiver not allowed");
     (47, "cursed by r m n"); (48, "remote chain not supported"); (49, "sender not allowed");
     (50, "invalid token amount"); (51, "invalid receiver address"); (52, "invalid config");
     (53, "invalid verifier results length"); (54, "inbound implementation not found");
     (55, "outbound implementation not found"); (56, "invalid address");
     (57, "invalid chain selector"); (58, "invalid version"); (59, "invalid c c v version");
     (60, "off ramp already exists"); (61, "off ramp mismatch"); (62, "bad r m n signal");
     (63, "unsupported destination chain"); (64, "already cursed"); (65, "config not set");
     (66, "duplicate onchain public key"); (67, "invalid signer order");
     (68, "not enough signers"); (69, "not cursed"); (70, "out of order signatures");
     (71, "threshold not met"); (72, "unexpected signer"); (73, "zero value not allowed");
     (100, "source chain not enabled"); (101, "invalid source chain config");
     (102, "invalid on ramp address"); (103, "invalid off ramp address");
     (104, "invalid message destination"); (105, "message already executed");
     (106, "invalid execution state"); (107, "c c v length mismatch");
     (108, "c c v quorum not met"); (109, "receiver error");
     (110, "gas limit override too low"); (111, "invalid receiver length");
     (112, "token handling error"); (113, "message decoding error");
     (114, "receiver does not exist"); (115, "receiver not wasm contract");
     (116, "required c c v missing"); (117, "invalid optional threshold");
     (118, "optional c c v quorum not reached"); (119, "no state progress made");
     (201, "only registry module or owner"); (202, "only administrator");
     (203, "only pending administrator"); (204, "token already registered");
     (205, "invalid token pool token"); (301, "pool token mismatch");
     (302, "chain not supported"); (303, "caller is not ramp");
     (304, "insufficient pool liquidity"); (305, "invalid remote pool address");
     (306, "invalid remote chain config"); (307, "invalid remote chain decimals");
     (308, "decimal amount overflow"); (309, "invalid pool token decimals");
     (310, "bucket overfilled"); (311, "token max capacity exceeded");
     (312, "token rate limit reached"); (313, "invalid rate limit rate");
     (314, "disabled non zero rate limit"); (315, "invalid requested finality");
     (316, "requested finality can only have one mode"); (317, "invalid chain for client");
     (318, "router not configured"); (319, "invalid source pool address");
     (320, "duplicate c c v not allowed"); (321, "invalid token transfer fee config");
     (322, "invalid transfer fee bps"); (323, "invalid allow list request");
     (801, "invalid fee calculation"); (802, "invalid fee token conversion");
     (803, "zero fee aggregator not allowed"); (804, "exceeds max c c vs");
     (805, "c c v not allowed"); (806, "policy engine detach reverted");
     (807, "unsupported selector"); (808, "zero address not allowed")].

Definition link_token_LinkError : ErrorDecl :=
  mkErrorDecl "LinkError"
    [("LinkErrorAlreadyInitialized", 1); ("LinkErrorNotAdmin", 2);
     ("LinkErrorInsufficientBalance", 3); ("LinkErrorInsufficientAllowance", 4);
     ("LinkErrorNegativeAmount", 5); ("LinkErrorNotInitialized", 6);
     ("LinkErrorUnsupportedOperation", 7); ("LinkErrorNotMinter", 8);
     ("LinkErrorMinterAlreadyExists", 9); ("LinkErrorMinterNotFound", 10);
     ("LinkErrorCannotRemovePrimaryMinter", 11)]
    [(1, "already initialized"); (2, "not admin"); (3, "insufficient balance");
     (4, "insufficient allowance"); (5, "negative amount"); (6, "not initialized");
     (7, "unsupported operation"); (8, "not minter"); (9, "minter already exists");
     (10, "minter not found"); (11, "cannot remove primary minter")].

Definition link_token_Upgraded : EventDecl :=
  mkEventDecl "Upgraded"
    [("NewWasmHash", TArray "32"); ("Ledger", TUint32); ("TxHash", TString)]
    (Some "Upgraded").

Definition link_token_RoleGrantedEvent : EventDecl :=
  mkEventDecl "RoleGrantedEvent"
    [("Role", TString); ("Account", TString); ("Sender", TString); ("Ledger", TUint32);
     ("TxHash", TString)]
    (Some "auth_RoleGranted").

Definition link_token_RoleRevokedEvent : EventDecl :=
  mkEventDecl "RoleRevokedEvent"
    [("Role", TString); ("Account", TString); ("Sender", TString); ("Ledger", TUint32);
     ("TxHash", TString)]
    (Some "auth_RoleRevoked").

Definition link_token_AuthorizedCallerAddedEvent : EventDecl :=
  mkEventDecl "AuthorizedCallerAddedEvent"
    [("Caller", TString); ("Ledger", TUint32); ("TxHash", TString)]
    (Some "auth_CallerAdded").

Definition link_token_AuthorizedCallerRemovedEvent : EventDecl :=
  mkEventDecl "AuthorizedCallerRemovedEvent"
    [("Caller", TString); ("Ledger", TUint32); ("TxHash", TString)]
    (Some "auth_CallerRemoved").

Definition link_token_OwnershipTransferStartedEvent : EventDecl :=
  mkEventDecl "OwnershipTransferStartedEvent"
    [("PreviousOwner", TString); ("NewOwner", TString); ("Ledger", TUint32);
     ("TxHash", TString)]
    (Some "auth_OwnerTransferStart").

Definition link_token_BurnEvent : EventDecl :=
  mkEventDecl "BurnEvent"
    [("From", TString); ("Amount", TBig); ("Ledger", TUint32); ("TxHash", TString)]
    (Some "burn").

Definition link_token_MintEvent : EventDecl :=
  mkEventDecl "MintEvent"
    [("To", TString); ("Amount", TBig); ("Ledger", TUint32); ("TxHash", TString)]
    (Some "mint").

Definition link_token_ApproveEvent : EventDecl :=
  mkEventDecl "ApproveEvent"
    [("From", TString); ("Spender", TString); ("Amount", TBig); ("ExpirationLedger", TUint32);
     ("Ledger", TUint32); ("TxHash", TString)]
    (Some "approve").

Definition link_token_SetAdminEvent : EventDecl :=
  mkEventDecl "SetAdminEvent"
    [("Admin", TString); ("NewAdmin", TString); ("Ledger", TUint32); ("TxHash", TString)]
    (Some "set_admin").

Definition link_token_TransferEvent : EventDecl :=
  mkEventDecl "TransferEvent"
    [("From", TString); ("To", TString); ("Amount", TBig); ("Ledger", TUint32);
     ("TxHash", TString)]
    (Some "transfer").

Definition link_token_SetAuthorizedEvent : EventDecl :=
  mkEventDecl "SetAuthorizedEvent"
    [("Id", TString); ("Authorize", TBool); ("Ledger", TUint32); ("TxHash", TString)]
    (Some "set_authorized").

Definition link_token_types : TypesFile :=
  mkTypesFile "link_token" (mkImports false false false true)
    []
    [link_token_CCIPError; link_token_LinkError]
    [link_token_Upgraded; link_token_RoleGrantedEvent; link_token_RoleRevokedEvent;
     link_token_AuthorizedCallerAddedEvent; link_token_AuthorizedCallerRemovedEvent;
     link_token_OwnershipTransferStartedEvent; link_token_BurnEvent; link_token_MintEvent;
     link_token_ApproveEvent; link_token_SetAdminEvent; link_token_TransferEvent;
     link_token_SetAuthorizedEvent]
    [].

Definition link_token_Burn : Method :=
  mkMethod "Burn" [("from", TString); ("amount", TBig)] [] ""
    false "burn" [ECall "AddressToScVal"; ECall "I128ToScVal"] RVoid.

Definition link_token_Mint : Method :=
  mkMethod "Mint" [("to", TString); ("amount", TBig)] [] ""
    false "mint" [ECall "AddressToScVal"; ECall "I128ToScVal"] RVoid.

Definition link_token_Name : Method :=
  mkMethod "Name" [] [TString] empty_literal
    true "name" [] (RVal (DCall "StringFromScVal")).

Definition link_token_Admin : Method :=
  mkMethod "Admin" [] [TString] empty_literal
    true "admin" [] (RVal (DCall "AddressFromScVal")).

Definition link_token_Owner : Method :=
  mkMethod "Owner" [] [TPtr TString] "nil"
    true "owner" [] (RVal (DCall "OptionalAddressFromScVal")).

Definition link_token_Trust : Method :=
  mkMethod "Trust" [("addr", TString)] [] ""
    false "trust" [ECall "AddressToScVal"] RVoid.

Definition link_token_Symbol : Method :=
  mkMethod "Symbol" [] [TString] empty_literal
    true "symbol" [] (RVal (DCall "StringFromScVal")).

Definition link_token_Approve : Method :=
  mkMethod "Approve" [("from", TString); ("spender", TString); ("amount", TBig); ("expirationLedger", TUint32)]
    [] ""
    false "approve" [ECall "AddressToScVal"; ECall "AddressToScVal"; ECall "I128ToScVal"; ECall
      "Uint32ToScVal"] RVoid.

Definition link_token_Balance : Method :=
  mkMethod "Balance" [("id", TString)] [TBig] "nil"
    true "balance" [ECall "AddressToScVal"] (RVal (DCall "I128FromScVal")).

Definition link_token_MintAs : Method :=
  mkMethod "MintAs" [("caller", TString); ("to", TString); ("amount", TBig)] [] ""
    false "mint_as" [ECall "AddressToScVal"; ECall "AddressToScVal"; ECall "I128ToScVal"] RVoid.

Definition link_token_Clawback : Method :=
  mkMethod "Clawback" [("from", TString); ("amount", TBig)] [] ""
    false "clawback" [ECall "AddressToScVal"; ECall "I128ToScVal"] RVoid.

Definition link_token_Decimals : Method :=
  mkMethod "Decimals" [] [TUint32] "0"
    true "decimals" [] (RVal (DGet "GetU32")).

Definition link_token_IsOwner : Method :=
  mkMethod "IsOwner" [("addr", TString)] [TBool] "false"
    true "is_owner" [ECall "AddressToScVal"] (RVal (DGet "GetB")).

Definition link_token_Transfer : Method :=
  mkMethod "Transfer" [("from", TString); ("to", TString); ("amount", TBig)] [] ""
    false "transfer" [ECall "AddressToScVal"; ECall "AddressToScVal"; ECall "I128ToScVal"] RVoid.

Definition link_token_Allowance : Method :=
  mkMethod "Allowance" [("from", TString); ("spender", TString)] [TBig] "nil"
    true "allowance" [ECall "AddressToScVal"; ECall "AddressToScVal"] (RVal (DCall "I128FromScVal")).

Definition link_token_BurnFrom : Method :=
  mkMethod "BurnFrom" [("spender", TString); ("from", TString); ("amount", TBig)] [] ""
    false "burn_from" [ECall "AddressToScVal"; ECall "AddressToScVal"; ECall "I128ToScVal"] RVoid.

Definition link_token_SetAdmin : Method :=
  mkMethod "SetAdmin" [("newAdmin", TString)] [] ""
    false "set_admin" [ECall "AddressToScVal"] RVoid.

Definition link_token_AddMinter : Method :=
  mkMethod "AddMinter" [("minter", TString)] [] ""
    false "add_minter" [ECall "AddressToScVal"] RVoid.

Definition link_token_Authorized : Method :=
  mkMethod "Authorized" [("id", TString)] [TBool] "false"
    true "authorized" [ECall "AddressToScVal"] (RVal (DGet "GetB")).

Definition link_token_InitOwner : Method :=
  mkMethod "InitOwner" [("owner", TString)] [] ""
    false "init_owner" [ECall "AddressToScVal"] RVoid.

Definition link_token_Initialize : Method :=
  mkMethod "Initialize" [("admin", TString); ("name", TString); ("symbol", TString); ("decimals", TUint32)] []
    ""
    false "initialize" [ECall "AddressToScVal"; ECall "StringToScVal"; ECall "StringToScVal"; ECall
      "Uint32ToScVal"] RVoid.

Definition link_token_GetMinters : Method :=
  mkMethod "GetMinters" [] [TSlice TString] "nil"
    true "get_minters" [] (RVal (DVec TString (DCall "AddressFromScVal"))).

Definition link_token_RemoveMinter : Method :=
  mkMethod "RemoveMinter" [("minter", TString)] [] ""
    false "remove_minter" [ECall "AddressToScVal"] RVoid.

Definition link_token_RequireOwner : Method :=
  mkMethod "RequireOwner" [] [TString] empty_literal
    false "require_owner" [] (RVal (DCall "AddressFromScVal")).

Definition link_token_TransferFrom : Method :=
  mkMethod "TransferFrom" [("spender", TString); ("from", TString); ("to", TString); ("amount", TBig)] [] ""
    false "transfer_from" [ECall "AddressToScVal"; ECall "AddressToScVal"; ECall "AddressToScVal"; ECall
      "I128ToScVal"] RVoid.

Definition link_token_SetAuthorized : Method :=
  mkMethod "SetAuthorized" [("id", TString); ("authorize", TBool)] [] ""
    false "set_authorized" [ECall "AddressToScVal"; ECall "BoolToScVal"] RVoid.

Definition link_token_AcceptOwnership : Method :=
  mkMethod "AcceptOwnership" [] [] ""
    false "accept_ownership" [] RVoid.

Definition link_token_TypeAndVersion : Method :=
  mkMethod "TypeAndVersion" [] [TString] empty_literal
    true "type_and_version" [] (RVal (DCall "StringFromScVal")).

Definition link_token_GetPendingOwner : Method :=
  mkMethod "GetPendingOwner" [] [TPtr TString] "nil"
    true "get_pending_owner" [] (RVal (DCall "OptionalAddressFromScVal")).

Definition link_token_TransferOwnership : Method :=
  mkMethod "TransferOwnership" [("newOwner", TString)] [] ""
    false "transfer_ownership" [ECall "AddressToScVal"] RVoid.

Definition link_token_CancelOwnershipTransfer : Method :=
  mkMethod "CancelOwnershipTransfer" [] [] ""
    false "cancel_ownership_transfer" [] RVoid.

Definition link_token_WaitForUpgraded : EventHelper :=
  mkEventHelper "Upgraded" (mkEventParser
    []
    [("new_wasm_hash", "NewWasmHash", EvField (DCall "Bytes32FromScVal"))]).

Definition link_token_WaitForRoleGrantedEvent : EventHelper :=
  mkEventHelper "RoleGrantedEvent" (mkEventParser
    []
    [("role", "Role", EvField (DCall "SymbolFromScVal"));
     ("account", "Account", EvField (DCall "AddressFromScVal"));
     ("sender", "Sender", EvField (DCall "AddressFromScVal"))]).

Definition link_token_WaitForRoleRevokedEvent : EventHelper :=
  mkEventHelper "RoleRevokedEvent" (mkEventParser
    []
    [("role", "Role", EvField (DCall "SymbolFromScVal"));
     ("account", "Account", EvField (DCall "AddressFromScVal"));
     ("sender", "Sender", EvField (DCall "AddressFromScVal"))]).

Definition link_token_WaitForAuthorizedCallerAddedEvent : EventHelper :=
  mkEventHelper "AuthorizedCallerAddedEvent" (mkEventParser
    []
    [("caller", "Caller", EvField (DCall "AddressFromScVal"))]).

Definition link_token_WaitForAuthorizedCallerRemovedEvent : EventHelper :=
  mkEventHelper "AuthorizedCallerRemovedEvent" (mkEventParser
    []
    [("caller", "Caller", EvField (DCall "AddressFromScVal"))]).

Definition link_token_WaitForOwnershipTransferStartedEvent : EventHelper :=
  mkEventHelper "OwnershipTransferStartedEvent" (mkEventParser
    []
    [("previous_owner", "PreviousOwner", EvField (DCall "AddressFromScVal"));
     ("new_owner", "NewOwner", EvField (DCall "AddressFromScVal"))]).

Definition link_token_WaitForBurnEvent : EventHelper :=
  mkEventHelper "BurnEvent" (mkEventParser
    []
    [("from", "From", EvField (DCall "AddressFromScVal"));
     ("amount", "Amount", EvField (DCall "I128FromScVal"))]).

Definition link_token_WaitForMintEvent : EventHelper :=
  mkEventHelper "MintEvent" (mkEventParser
    []
    [("to", "To", EvField (DCall "AddressFromScVal"));
     ("amount", "Amount", EvField (DCall "I128FromScVal"))]).

Definition link_token_WaitForApproveEvent : EventHelper :=
  mkEventHelper "ApproveEvent" (mkEventParser
    []
    [("from", "From", EvField (DCall "AddressFromScVal"));
     ("spender", "Spender", EvField (DCall "AddressFromScVal"));
     ("amount", "Amount", EvField (DCall "I128FromScVal"));
     ("expiration_ledger", "ExpirationLedger", EvField (DGet "GetU32"))]).

Definition link_token_WaitForSetAdminEvent : EventHelper :=
  mkEventHelper "SetAdminEvent" (mkEventParser
    []
    [("admin", "Admin", EvField (DCall "AddressFromScVal"));
     ("new_admin", "NewAdmin", EvField (DCall "AddressFromScVal"))]).

Definition link_token_WaitForTransferEvent : EventHelper :=
  mkEventHelper "TransferEvent" (mkEventParser
    []
    [("from", "From", EvField (DCall "AddressFromScVal"));
     ("to", "To", EvField (DCall "AddressFromScVal"));
     ("amount", "Amount", EvField (DCall "I128FromScVal"))]).

Definition link_token_WaitForSetAuthorizedEvent : EventHelper :=
  mkEventHelper "SetAuthorizedEvent" (mkEventParser
    []
    [("id", "Id", EvField (DCall "AddressFromScVal"));
     ("authorize", "Authorize", EvField (DGet "GetB"))]).

Definition link_token_client : ClientFile :=
  mkClientFile "link_token" "LinkToken" true true
    [link_token_Burn; link_token_Mint; link_token_Name; link_token_Admin; link_token_Owner;
     link_token_Trust; link_token_Symbol; link_token_Approve; link_token_Balance;
     link_token_MintAs; link_token_Clawback; link_token_Decimals; link_token_IsOwner;
     link_token_Transfer; link_token_Allowance; link_token_BurnFrom; link_token_SetAdmin;
     link_token_AddMinter; link_token_Authorized; link_token_InitOwner; link_token_Initialize;
     link_token_GetMinters; link_token_RemoveMinter; link_token_RequireOwner;
     link_token_TransferFrom; link_token_SetAuthorized; link_token_AcceptOwnership;
     link_token_TypeAndVersion; link_token_GetPendingOwner; link_token_TransferOwnership;
     link_token_CancelOwnershipTransfer]
    [link_token_WaitForUpgraded; link_token_WaitForRoleGrantedEvent;
     link_token_WaitForRoleRevokedEvent; link_token_WaitForAuthorizedCallerAddedEvent;
     link_token_WaitForAuthorizedCallerRemovedEvent;
     link_token_WaitForOwnershipTransferStartedEvent; link_token_WaitForBurnEvent;
     link_token_WaitForMintEvent; link_token_WaitForApproveEvent;
     link_token_WaitForSetAdminEvent; link_token_WaitForTransferEvent;
     link_token_WaitForSetAuthorizedEvent].
