(* ===== verification/BindingsGovernance.v ===== *)
(** * Bindings of governance and of the CRE contracts

    The checked-in types.go and client.go of the multisig and the timelock, of the
    forwarders and of the data feeds.

    Each declaration and each method as the abstract syntax that Bindgen.v gives the
    emitted code and BindgenSem.v runs: a member with its key, its name and type and
    its two conversions; a method with its parameters, results, call and arguments. *)

From S2P Require Import Prelude Bindgen.

(** ** bindings/contracts/mcms *)

Definition mcms_Config : StructDecl :=
  mkStructDecl "Config"
    [mkMember "group_parents" "GroupParents" (TArray "32") (ECall "Bytes32ToScVal") (DCall "Bytes32FromScVal");
     mkMember "group_quorums" "GroupQuorums" (TArray "32") (ECall "Bytes32ToScVal") (DCall "Bytes32FromScVal");
     mkMember "signers" "Signers" (TSlice (TNamed "Signer")) (ECall "StructSliceToScVal")
       (DVec (TNamed "Signer") (DStruct "Signer"))].

Definition mcms_Signer : StructDecl :=
  mkStructDecl "Signer"
    [mkMember "addr" "Addr" (TArray "32") (ECall "Bytes32ToScVal") (DCall "Bytes32FromScVal");
     mkMember "group" "Group" TUint32 (ECall "Uint32ToScVal") (DGet "GetU32");
     mkMember "index" "Index" TUint32 (ECall "Uint32ToScVal") (DGet "GetU32")].

Definition mcms_Signature : StructDecl :=
  mkStructDecl "Signature"
    [mkMember "r" "R" (TArray "32") (ECall "Bytes32ToScVal") (DCall "Bytes32FromScVal");
     mkMember "s" "S" (TArray "32") (ECall "Bytes32ToScVal") (DCall "Bytes32FromScVal");
     mkMember "v" "V" TUint32 (ECall "Uint32ToScVal") (DGet "GetU32")].

Definition mcms_StellarOp : StructDecl :=
  mkStructDecl "StellarOp"
    [mkMember "args_xdr" "ArgsXdr" TBytes (ECall "BytesToScVal") (DGet "GetBytes");
     mkMember "encoding_version" "EncodingVersion" TUint32 (ECall "Uint32ToScVal") (DGet "GetU32");
     mkMember "function" "Function" TString (ECall "SymbolToScVal") (DCall "SymbolFromScVal");
     mkMember "multisig" "Multisig" TString (ECall "AddressToScVal") (DCall "AddressFromScVal");
     mkMember "network_id" "NetworkId" (TArray "32") (ECall "Bytes32ToScVal") (DCall "Bytes32FromScVal");
     mkMember "nonce" "Nonce" TUint64 (ECall "Uint64ToScVal") (DCall "Uint64FromScVal");
     mkMember "target" "Target" TString (ECall "AddressToScVal") (DCall "AddressFromScVal")].

Definition mcms_MerkleProof : StructDecl :=
  mkStructDecl "MerkleProof"
    [mkMember "inner" "Inner" (TSlice (TArray "32")) (ECall "Bytes32SliceToScVal")
      (DVec (TArray "32") (DCall "Bytes32FromScVal"))].

Definition mcms_SignatureVec : StructDecl :=
  mkStructDecl "SignatureVec"
    [mkMember "inner" "Inner" (TSlice (TNamed "Signature")) (ECall "StructSliceToScVal")
      (DVec (TNamed "Signature") (DStruct "Signature"))].

Definition mcms_SignerGroups : StructDecl :=
  mkStructDecl "SignerGroups"
    [mkMember "inner" "Inner" (TSlice TUint32) (ECall "Uint32SliceToScVal")
      (DVec TUint32 (DCall "Uint32FromScVal"))].

Definition mcms_SignerAddresses : StructDecl :=
  mkStructDecl "SignerAddresses"
    [mkMember "inner" "Inner" (TSlice (TArray "32")) (ECall "Bytes32SliceToScVal")
      (DVec (TArray "32") (DCall "Bytes32FromScVal"))].

Definition mcms_StellarRootMetadata : StructDecl :=
  mkStructDecl "StellarRootMetadata"
    [mkMember "config_version" "ConfigVersion" TUint64 (ECall "Uint64ToScVal") (DCall "Uint64FromScVal");
     mkMember "encoding_version" "EncodingVersion" TUint32 (ECall "Uint32ToScVal") (DGet "GetU32");
     mkMember "multisig" "Multisig" TString (ECall "AddressToScVal") (DCall "AddressFromScVal");
     mkMember "network_id" "NetworkId" (TArray "32") (ECall "Bytes32ToScVal") (DCall "Bytes32FromScVal");
     mkMember "override_previous_root" "OverridePreviousRoot" TBool (ECall "BoolToScVal") (DGet "GetB");
     mkMember "post_op_count" "PostOpCount" TUint64 (ECall "Uint64ToScVal") (DCall "Uint64FromScVal");
     mkMember "pre_op_count" "PreOpCount" TUint64 (ECall "Uint64ToScVal") (DCall "Uint64FromScVal")].

Definition mcms_CCIPError : ErrorDecl :=
  mkErrorDecl "CCIPError"
    [("CCIPErrorNotInitialized", 1); ("CCIPErrorAlreadyInitialized", 2);
     ("CCIPErrorUnauthorized", 3); ("CCIPErrorNotOwner", 4); ("CCIPErrorNoPendingOwner", 5);
     ("CCIPErrorCallerNotAuthorized", 6); ("CCIPErrorCallerAlreadyAuthorized", 7);
     ("CCIPErrorCallerNotFound", 8); ("CCIPErrorRoleNotGranted", 9);
     ("CCIPErrorFeatureNotEnabled", 10); ("CCIPErrorRoleAlreadyGranted", 11);
     ("CCIPErrorCannotRenounceRole", 12); ("CCIPErrorInvalidVersionTag", 13);
     ("CCIPErrorInvalidSignatureLength", 14); ("CCIPErrorInvalidSignature", 15);
     ("CCIPErrorInvalidSignatureCount", 16); ("CCIPErrorInvalidSignatureThreshold", 17);
     ("CCIPErrorInvalidSignaturePubkey", 18); ("CCIPErrorSourceSignersNotConfigured", 19);
     ("CCIPErrorInvalidVerifierResults", 20); ("CCIPErrorReentrantCall", 21);
     ("CCIPErrorTokenNotSupported", 22); ("CCIPErrorFeeTokenNotSupported", 23);
     ("CCIPErrorNoGasPriceAvailable", 24); ("CCIPErrorDestinationChainNotEnabled", 25);
     ("CCIPErrorInvalidExtraArgsTag", 26); ("CCIPErrorInvalidExtraArgsData", 27);
     ("CCIPErrorMessageGasLimitTooHigh", 28); ("CCIPErrorMessageTooLarge", 29);
     ("CCIPErrorUnsupportedNumberOfTokens", 30); ("CCIPErrorInvalidDestChainConfig", 31);
     ("CCIPErrorMessageFeeTooHigh", 32); ("CCIPErrorInvalidStaticConfig", 33);
     ("CCIPErrorInvalidTokenReceiver", 34); ("CCIPErrorSourceTokenDataTooLarge", 35);
     ("CCIPErrorInvalidDestBytesOverhead", 36); ("CCIPErrorDestinationChainNotSupported", 37);
     ("CCIPErrorMustBeCalledByRouter", 38); ("CCIPErrorRouterMustSetOriginalSender", 39);
     ("CCIPErrorCannotSendZeroTokens", 40); ("CCIPErrorCanOnlySendOneTokenPerMessage", 41);
     ("CCIPErrorUnsupportedToken", 42); ("CCIPErrorInvalidDestChainAddress", 43);
     ("CCIPErrorFeeExceedsMaxAllowed", 44); ("CCIPErrorInsufficientFeeTokenAmount", 45);
     ("CCIPErrorTokenReceiverNotAllowed", 46); ("CCIPErrorCursedByRMN", 47);
     ("CCIPErrorRemoteChainNotSupported", 48); ("CCIPErrorSenderNotAllowed", 49);
     ("CCIPErrorInvalidTokenAmount", 50); ("CCIPErrorInvalidReceiverAddress", 51);
     ("CCIPErrorInvalidConfig", 52); ("CCIPErrorInvalidVerifierResultsLength", 53);
     ("CCIPErrorInboundImplementationNotFound", 54);
     ("CCIPErrorOutboundImplementationNotFound", 55); ("CCIPErrorInvalidAddress", 56);
     ("CCIPErrorInvalidChainSelector", 57); ("CCIPErrorInvalidVersion", 58);
     ("CCIPErrorInvalidCCVVersion", 59); ("CCIPErrorOffRampAlreadyExists", 60);
     ("CCIPErrorOffRampMismatch", 61); ("CCIPErrorBadRMNSignal", 62);
     ("CCIPErrorUnsupportedDestinationChain", 63); ("CCIPErrorAlreadyCursed", 64);
     ("CCIPErrorConfigNotSet", 65); ("CCIPErrorDuplicateOnchainPublicKey", 66);
     ("CCIPErrorInvalidSignerOrder", 67); ("CCIPErrorNotEnoughSigners", 68);
     ("CCIPErrorNotCursed", 69); ("CCIPErrorOutOfOrderSignatures", 70);
     ("CCIPErrorThresholdNotMet", 71); ("CCIPErrorUnexpectedSigner", 72);
     ("CCIPErrorZeroValueNotAllowed", 73); ("CCIPErrorSourceChainNotEnabled", 100);
     ("CCIPErrorInvalidSourceChainConfig", 101); ("CCIPErrorInvalidOnRampAddress", 102);
     ("CCIPErrorInvalidOffRampAddress", 103); ("CCIPErrorInvalidMessageDestination", 104);
     ("CCIPErrorMessageAlreadyExecuted", 105); ("CCIPErrorInvalidExecutionState", 106);
     ("CCIPErrorCCVLengthMismatch", 107); ("CCIPErrorCCVQuorumNotMet", 108);
     ("CCIPErrorReceiverError", 109); ("CCIPErrorGasLimitOverrideTooLow", 110);
     ("CCIPErrorInvalidReceiverLength", 111); ("CCIPErrorTokenHandlingError", 112);
     ("CCIPErrorMessageDecodingError", 113); ("CCIPErrorReceiverDoesNotExist", 114);
     ("CCIPErrorReceiverNotWasmContract", 115); ("CCIPErrorRequiredCCVMissing", 116);
     ("CCIPErrorInvalidOptionalThreshold", 117); ("CCIPErrorOptionalCCVQuorumNotReached", 118);
     ("CCIPErrorNoStateProgressMade", 119); ("CCIPErrorOnlyRegistryModuleOrOwner", 201);
     ("CCIPErrorOnlyAdministrator", 202); ("CCIPErrorOnlyPendingAdministrator", 203);
     ("CCIPErrorTokenAlreadyRegistered", 204); ("CCIPErrorInvalidTokenPoolToken", 205);
     ("CCIPErrorPoolTokenMismatch", 301); ("CCIPErrorChainNotSupported", 302);
     ("CCIPErrorCallerIsNotRamp", 303); ("CCIPErrorInsufficientPoolLiquidity", 304);
     ("CCIPErrorInvalidRemotePoolAddress", 305); ("CCIPErrorInvalidRemoteChainConfig", 306);
     ("CCIPErrorInvalidRemoteChainDecimals", 307); ("CCIPErrorDecimalAmountOverflow", 308);
     ("CCIPErrorInvalidPoolTokenDecimals", 309); ("CCIPErrorBucketOverfilled", 310);
     ("CCIPErrorTokenMaxCapacityExceeded", 311); ("CCIPErrorTokenRateLimitReached", 312);
     ("CCIPErrorInvalidRateLimitRate", 313); ("CCIPErrorDisabledNonZeroRateLimit", 314);
     ("CCIPErrorInvalidRequestedFinality", 315);
     ("CCIPErrorRequestedFinalityCanOnlyHaveOneMode", 316);
     ("CCIPErrorInvalidChainForClient", 317); ("CCIPErrorRouterNotConfigured", 318);
     ("CCIPErrorInvalidSourcePoolAddress", 319); ("CCIPErrorDuplicateCCVNotAllowed", 320);
     ("CCIPErrorInvalidTokenTransferFeeConfig", 321); ("CCIPErrorInvalidTransferFeeBps", 322);
     ("CCIPErrorInvalidAllowListRequest", 323); ("CCIPErrorInvalidFeeCalculation", 801);
     ("CCIPErrorInvalidFeeTokenConversion", 802); ("CCIPErrorZeroFeeAggregatorNotAllowed", 803);
     ("CCIPErrorExceedsMaxCCVs", 804); ("CCIPErrorCCVNotAllowed", 805);
     ("CCIPErrorPolicyEngineDetachReverted", 806); ("CCIPErrorUnsupportedSelector", 807);
     ("CCIPErrorZeroAddressNotAllowed", 808)]
    [(1, "not initialized"); (2, "already initialized"); (3, "unauthorized"); (4, "not owner");
     (5, "no pending owner"); (6, "caller not authorized"); (7, "caller already authorized");
     (8, "caller not found"); (9, "role not granted"); (10, "feature not enabled");
     (11, "role already granted"); (12, "cannot renounce role"); (13, "invalid version tag");
     (14, "invalid signature length"); (15, "invalid signature");
     (16, "invalid signature count"); (17, "invalid signature threshold");
     (18, "invalid signature pubkey"); (19, "source signers not configured");
     (20, "invalid verifier results"); (21, "reentrant call"); (22, "token not supported");
     (23, "fee token not supported"); (24, "no gas price available");
     (25, "destination chain not enabled"); (26, "invalid extra args tag");
     (27, "invalid extra args data"); (28, "message gas limit too high");
     (29, "message too large"); (30, "unsupported number of tokens");
     (31, "invalid dest chain config"); (32, "message fee too high");
     (33, "invalid static config"); (34, "invalid token receiver");
     (35, "source token data too large"); (36, "invalid dest bytes overhead");
     (37, "destination chain not supported"); (38, "must be called by router");
     (39, "router must set original sender"); (40, "cannot send zero tokens");
     (41, "can only send one token per message"); (42, "unsupported token");
     (43, "invalid dest chain address"); (44, "fee exceeds max allowed");
     (45, "insufficient fee token amount"); (46, "token receiver not allowed");
     (47, "cursed by r m n"); (48, "remote chain not supported"); (49, "sender not allowed");
     (50, "invalid token amount"); (51, "invalid receiver address"); (52, "invalid config");
     (53, "invalid verifier results length"); (54, "inbound implementation not found");
     (55, "outbound implementation not found"); (56, "invalid address");
     (57, "invalid chain selector"); (58, "invalid version"); (59, "invalid c c v version");
     (60, "off ramp already exists"); (61, "off ramp mismatch"); (62, "bad r m n signal");
     (63, "unsupported destination chain"); (64, "already cursed"); (65, "config not set");
     (66, "duplicate onchain public key"); (67, "invalid signer order");
     (68, "not enough signers"); (69, "not cursed"); (70, "out of order signatures");
     (71, "threshold not met"); (72, "unexpected signer"); (73, "zero value not allowed");
     (100, "source chain not enabled"); (101, "invalid source chain config");
     (102, "invalid on ramp address"); (103, "invalid off ramp address");
     (104, "invalid message destination"); (105, "message already executed");
     (106, "invalid execution state"); (107, "c c v length mismatch");
     (108, "c c v quorum not met"); (109, "receiver error");
     (110, "gas limit override too low"); (111, "invalid receiver length");
     (112, "token handling error"); (113, "message decoding error");
     (114, "receiver does not exist"); (115, "receiver not wasm contract");
     (116, "required c c v missing"); (117, "invalid optional threshold");
     (118, "optional c c v quorum not reached"); (119, "no state progress made");
     (201, "only registry module or owner"); (202, "only administrator");
     (203, "only pending administrator"); (204, "token already registered");
     (205, "invalid token pool token"); (301, "pool token mismatch");
     (302, "chain not supported"); (303, "caller is not ramp");
     (304, "insufficient pool liquidity"); (305, "invalid remote pool address");
     (306, "invalid remote chain config"); (307, "invalid remote chain decimals");
     (308, "decimal amount overflow"); (309, "invalid pool token decimals");
     (310, "bucket overfilled"); (311, "token max capacity exceeded");
     (312, "token rate limit reached"); (313, "invalid rate limit rate");
     (314, "disabled non zero rate limit"); (315, "invalid requested finality");
     (316, "requested finality can only have one mode"); (317, "invalid chain for client");
     (318, "router not configured"); (319, "invalid source pool address");
     (320, "duplicate c c v not allowed"); (321, "invalid token transfer fee config");
     (322, "invalid transfer fee bps"); (323, "invalid allow list request");
     (801, "invalid fee calculation"); (802, "invalid fee token conversion");
     (803, "zero fee aggregator not allowed"); (804, "exceeds max c c vs");
     (805, "c c v not allowed"); (806, "policy engine detach reverted");
     (807, "unsupported selector"); (808, "zero address not allowed")].

Definition mcms_McmsError : ErrorDecl :=
  mkErrorDecl "McmsError"
    [("McmsErrorNotInitialized", 1); ("McmsErrorAlreadyInitialized", 2);
     ("McmsErrorNotOwner", 3); ("McmsErrorOutOfBoundsNumOfSigners", 10);
     ("McmsErrorSignerGroupsLengthMismatch", 11); ("McmsErrorOutOfBoundsGroup", 12);
     ("McmsErrorGroupTreeNotWellFormed", 13); ("McmsErrorOutOfBoundsGroupQuorum", 14);
     ("McmsErrorSignerInDisabledGroup", 15);
     ("McmsErrorSignersAddressesMustBeStrictlyIncreasing", 16);
     ("McmsErrorSignedHashAlreadySeen", 20);
     ("McmsErrorSignersAddressesMustBeStrictlyIncreasingSigs", 21);
     ("McmsErrorInvalidSigner", 22); ("McmsErrorMissingConfig", 23);
     ("McmsErrorInsufficientSigners", 24); ("McmsErrorValidUntilHasAlreadyPassed", 25);
     ("McmsErrorProofCannotBeVerified", 26); ("McmsErrorWrongChainIdMeta", 27);
     ("McmsErrorWrongMultiSigMeta", 28); ("McmsErrorPendingOps", 29);
     ("McmsErrorWrongPreOpCount", 30); ("McmsErrorWrongPostOpCount", 31);
     ("McmsErrorPostOpCountReached", 40); ("McmsErrorWrongChainIdOp", 41);
     ("McmsErrorWrongMultiSigOp", 42); ("McmsErrorRootExpired", 43);
     ("McmsErrorWrongNonce", 44); ("McmsErrorCallReverted", 45);
     ("McmsErrorInvalidSignature", 46); ("McmsErrorInvalidSignatureEncoding", 47);
     ("McmsErrorNonceOverflow", 48); ("McmsErrorInvalidUint40", 49);
     ("McmsErrorInvalidInvokeData", 50); ("McmsErrorNonZeroValue", 51);
     ("McmsErrorMissingRootMetadata", 52); ("McmsErrorValidUntilExceedsMaximum", 53);
     ("McmsErrorInvalidMinSecsPerLedger", 54); ("McmsErrorCallAborted", 55);
     ("McmsErrorUnsupportedEncodingVersion", 56); ("McmsErrorConfigVersionMismatch", 57);
     ("McmsErrorInvalidTarget", 58); ("McmsErrorInvalidMultisig", 59);
     ("McmsErrorInvalidArgsXdr", 60); ("McmsErrorConfigVersionOverflow", 61)]
    [(1, "not initialized"); (2, "already initialized"); (3, "not owner");
     (10, "out of bounds num of signers"); (11, "signer groups length mismatch");
     (12, "out of bounds group"); (13, "group tree not well formed");
     (14, "out of bounds group quorum"); (15, "signer in disabled group");
     (16, "signers addresses must be strictly increasing"); (20, "signed hash already seen");
     (21, "signers addresses must be strictly increasing sigs"); (22, "invalid signer");
     (23, "missing config"); (24, "insufficient signers");
     (25, "valid until has already passed"); (26, "proof cannot be verified");
     (27, "wrong chain id meta"); (28, "wrong multi sig meta"); (29, "pending ops");
     (30, "wrong pre op count"); (31, "wrong post op count"); (40, "post op count reached");
     (41, "wrong chain id op"); (42, "wrong multi sig op"); (43, "root expired");
     (44, "wrong nonce"); (45, "call reverted"); (46, "invalid signature");
     (47, "invalid signature encoding"); (48, "nonce overflow"); (49, "invalid uint40");
     (50, "invalid invoke data"); (51, "non zero value"); (52, "missing root metadata");
     (53, "valid until exceeds maximum"); (54, "invalid min secs per ledger");
     (55, "call aborted"); (56, "unsupported encoding version");
     (57, "config version mismatch"); (58, "invalid target"); (59, "invalid multisig");
     (60, "invalid args xdr"); (61, "config version overflow")].

Definition mcms_RoleGrantedEvent : EventDecl :=
  mkEventDecl "RoleGrantedEvent"
    [("Role", TString); ("Account", TString); ("Sender", TString); ("Ledger", TUint32);
     ("TxHash", TString)]
    (Some "auth_RoleGranted").

Definition mcms_RoleRevokedEvent : EventDecl :=
  mkEventDecl "RoleRevokedEvent"
    [("Role", TString); ("Account", TString); ("Sender", TString); ("Ledger", TUint32);
     ("TxHash", TString)]
    (Some "auth_RoleRevoked").

Definition mcms_AuthorizedCallerAddedEvent : EventDecl :=
  mkEventDecl "AuthorizedCallerAddedEvent"
    [("Caller", TString); ("Ledger", TUint32); ("TxHash", TString)]
    (Some "auth_CallerAdded").

Definition mcms_AuthorizedCallerRemovedEvent : EventDecl :=
  mkEventDecl "AuthorizedCallerRemovedEvent"
    [("Caller", TString); ("Ledger", TUint32); ("TxHash", TString)]
    (Some "auth_CallerRemoved").

Definition mcms_OwnershipTransferStartedEvent : EventDecl :=
  mkEventDecl "OwnershipTransferStartedEvent"
    [("PreviousOwner", TString); ("NewOwner", TString); ("Ledger", TUint32);
     ("TxHash", TString)]
    (Some "auth_OwnerTransferStart").

Definition mcms_NewRootEvent : EventDecl :=
  mkEventDecl "NewRootEvent"
    [("Root", TArray "32"); ("ValidUntil", TUint32); ("Metadata", TNamed "StellarRootMetadata");
     ("Ledger", TUint32); ("TxHash", TString)]
    (Some "mcms_NewRoot").

Definition mcms_ConfigSetEvent : EventDecl :=
  mkEventDecl "ConfigSetEvent"
    [("Config", TNamed "Config"); ("ConfigVersion", TUint64); ("IsRootCleared", TBool);
     ("Ledger", TUint32); ("TxHash", TString)]
    (Some "mcms_ConfigSet").

Definition mcms_OpExecutedEvent : EventDecl :=
  mkEventDecl "OpExecutedEvent"
    [("Nonce", TUint64); ("Target", TString); ("Function", TString); ("ArgsHash", TArray "32");
     ("Ledger", TUint32); ("TxHash", TString)]
    (Some "mcms_OpExecuted").

Definition mcms_types : TypesFile :=
  mkTypesFile "mcms" (mkImports true true true false)
    [mcms_Config; mcms_Signer; mcms_Signature; mcms_StellarOp; mcms_MerkleProof;
     mcms_SignatureVec; mcms_SignerGroups; mcms_SignerAddresses; mcms_StellarRootMetadata]
    [mcms_CCIPError; mcms_McmsError]
    [mcms_RoleGrantedEvent; mcms_RoleRevokedEvent; mcms_AuthorizedCallerAddedEvent;
     mcms_AuthorizedCallerRemovedEvent; mcms_OwnershipTransferStartedEvent; mcms_NewRootEvent;
     mcms_ConfigSetEvent; mcms_OpExecutedEvent]
    [].

Definition mcms_Owner : Method :=
  mkMethod "Owner" [] [TPtr TString] "nil"
    true "owner" [] (RVal (DCall "OptionalAddressFromScVal")).

Definition mcms_Execute : Method :=
  mkMethod "Execute" [("op", TNamed "StellarOp"); ("proof", TNamed "MerkleProof")] [] ""
    false "execute" [EMethodOf; EMethodOf] RVoid.

Definition mcms_Upgrade : Method :=
  mkMethod "Upgrade" [("newWasmHash", TArray "32")] [] ""
    false "upgrade" [ECall "Bytes32ToScVal"] RVoid.

Definition mcms_GetRoot : Method :=
  mkMethod "GetRoot" [] [TArray "32"; TUint32] "[32]byte{}, 0"
    true "get_root" [] (RTuple [DCall "Bytes32FromScVal"; DGet "GetU32"]).

Definition mcms_IsOwner : Method :=
  mkMethod "IsOwner" [("addr", TString)] [TBool] "false"
    true "is_owner" [ECall "AddressToScVal"] (RVal (DGet "GetB")).

Definition mcms_SetRoot : Method :=
  mkMethod "SetRoot" [("root", TArray "32"); ("validUntil", TUint32);
    ("metadata", TNamed "StellarRootMetadata");
     ("metadataProof", TNamed "MerkleProof"); ("signatures", TNamed "SignatureVec")] [] ""
    false "set_root" [ECall "Bytes32ToScVal"; ECall "Uint32ToScVal"; EMethodOf; EMethodOf; EMethodOf] RVoid.

Definition mcms_GetConfig : Method :=
  mkMethod "GetConfig" [] [TPtr (TNamed "Config")] "nil"
    true "get_config" [] (RVal (DStruct "Config")).

Definition mcms_InitOwner : Method :=
  mkMethod "InitOwner" [("owner", TString)] [] ""
    false "init_owner" [ECall "AddressToScVal"] RVoid.

Definition mcms_Initialize : Method :=
  mkMethod "Initialize" [("owner", TString); ("chainNetworkId", TArray "32");
     ("signerAddresses", TNamed "SignerAddresses"); ("signerGroups", TNamed "SignerGroups");
     ("groupQuorums", TArray "32"); ("groupParents", TArray "32"); ("instanceLabel", TString)] [] ""
    false "initialize" [ECall "AddressToScVal"; ECall "Bytes32ToScVal"; EMethodOf; EMethodOf; ECall
      "Bytes32ToScVal"; ECall "Bytes32ToScVal"; ECall "SymbolToScVal"] RVoid.

Definition mcms_SetConfig : Method :=
  mkMethod "SetConfig" [("signerAddresses", TNamed "SignerAddresses"); ("signerGroups", TNamed "SignerGroups");
     ("groupQuorums", TArray "32"); ("groupParents", TArray "32"); ("clearRoot", TBool)] [] ""
    false "set_config" [EMethodOf; EMethodOf; ECall "Bytes32ToScVal"; ECall "Bytes32ToScVal"; ECall
      "BoolToScVal"] RVoid.

Definition mcms_GetOpCount : Method :=
  mkMethod "GetOpCount" [] [TUint64] "0"
    true "get_op_count" [] (RVal (DCall "Uint64FromScVal")).

Definition mcms_RequireOwner : Method :=
  mkMethod "RequireOwner" [] [TString] empty_literal
    false "require_owner" [] (RVal (DCall "AddressFromScVal")).

Definition mcms_ExtendAllTtls : Method :=
  mkMethod "ExtendAllTtls" [] [] ""
    false "extend_all_ttls" [] RVoid.

Definition mcms_AcceptOwnership : Method :=
  mkMethod "AcceptOwnership" [] [] ""
    false "accept_ownership" [] RVoid.

Definition mcms_ChainNetworkId : Method :=
  mkMethod "ChainNetworkId" [] [TArray "32"] "[32]byte{}"
    false "chain_network_id" [] (RVal (DCall "Bytes32FromScVal")).

Definition mcms_GetPendingOwner : Method :=
  mkMethod "GetPendingOwner" [] [TPtr TString] "nil"
    true "get_pending_owner" [] (RVal (DCall "OptionalAddressFromScVal")).

Definition mcms_GetRootMetadata : Method :=
  mkMethod "GetRootMetadata" [] [TPtr (TNamed "StellarRootMetadata")] "nil"
    true "get_root_metadata" [] (RVal (DStruct "StellarRootMetadata")).

Definition mcms_GetConfigVersion : Method :=
  mkMethod "GetConfigVersion" [] [TUint64] "0"
    true "get_config_version" [] (RVal (DCall "Uint64FromScVal")).

Definition mcms_GetInstanceLabel : Method :=
  mkMethod "GetInstanceLabel" [] [TString] empty_literal
    true "get_instance_label" [] (RVal (DCall "SymbolFromScVal")).

Definition mcms_TransferOwnership : Method :=
  mkMethod "TransferOwnership" [("newOwner", TString)] [] ""
    false "transfer_ownership" [ECall "AddressToScVal"] RVoid.

Definition mcms_ExtendContractTtls : Method :=
  mkMethod "ExtendContractTtls" [("contracts", TSlice TString); ("extendTo", TUint32)] [] ""
    false "extend_contract_ttls" [ECall "AddressSliceToScVal"; ECall "Uint32ToScVal"] RVoid.

Definition mcms_CancelOwnershipTransfer : Method :=
  mkMethod "CancelOwnershipTransfer" [] [] ""
    false "cancel_ownership_transfer" [] RVoid.

Definition mcms_WaitForRoleGrantedEvent : EventHelper :=
  mkEventHelper "RoleGrantedEvent" (mkEventParser
    []
    [("role", "Role", EvField (DCall "SymbolFromScVal"));
     ("account", "Account", EvField (DCall "AddressFromScVal"));
     ("sender", "Sender", EvField (DCall "AddressFromScVal"))]).

Definition mcms_WaitForRoleRevokedEvent : EventHelper :=
  mkEventHelper "RoleRevokedEvent" (mkEventParser
    []
    [("role", "Role", EvField (DCall "SymbolFromScVal"));
     ("account", "Account", EvField (DCall "AddressFromScVal"));
     ("sender", "Sender", EvField (DCall "AddressFromScVal"))]).

Definition mcms_WaitForAuthorizedCallerAddedEvent : EventHelper :=
  mkEventHelper "AuthorizedCallerAddedEvent" (mkEventParser
    []
    [("caller", "Caller", EvField (DCall "AddressFromScVal"))]).

Definition mcms_WaitForAuthorizedCallerRemovedEvent : EventHelper :=
  mkEventHelper "AuthorizedCallerRemovedEvent" (mkEventParser
    []
    [("caller", "Caller", EvField (DCall "AddressFromScVal"))]).

Definition mcms_WaitForOwnershipTransferStartedEvent : EventHelper :=
  mkEventHelper "OwnershipTransferStartedEvent" (mkEventParser
    []
    [("previous_owner", "PreviousOwner", EvField (DCall "AddressFromScVal"));
     ("new_owner", "NewOwner", EvField (DCall "AddressFromScVal"))]).

Definition mcms_WaitForNewRootEvent : EventHelper :=
  mkEventHelper "NewRootEvent" (mkEventParser
    []
    [("root", "Root", EvField (DCall "Bytes32FromScVal"));
     ("valid_until", "ValidUntil", EvField (DGet "GetU32"));
     ("metadata", "Metadata", EvField (DStruct "StellarRootMetadata"))]).

Definition mcms_WaitForConfigSetEvent : EventHelper :=
  mkEventHelper "ConfigSetEvent" (mkEventParser
    []
    [("config", "Config", EvField (DStruct "Config"));
     ("config_version", "ConfigVersion", EvField (DCall "Uint64FromScVal"));
     ("is_root_cleared", "IsRootCleared", EvField (DGet "GetB"))]).

Definition mcms_WaitForOpExecutedEvent : EventHelper :=
  mkEventHelper "OpExecutedEvent" (mkEventParser
    []
    [("nonce", "Nonce", EvField (DCall "Uint64FromScVal"));
     ("target", "Target", EvField (DCall "AddressFromScVal"));
     ("function", "Function", EvField (DCall "SymbolFromScVal"));
     ("args_hash", "ArgsHash", EvField (DCall "Bytes32FromScVal"))]).

Definition mcms_client : ClientFile :=
  mkClientFile "mcms" "Mcms" false true
    [mcms_Owner; mcms_Execute; mcms_Upgrade; mcms_GetRoot; mcms_IsOwner; mcms_SetRoot;
     mcms_GetConfig; mcms_InitOwner; mcms_Initialize; mcms_SetConfig; mcms_GetOpCount;
     mcms_RequireOwner; mcms_ExtendAllTtls; mcms_AcceptOwnership; mcms_ChainNetworkId;
     mcms_GetPendingOwner; mcms_GetRootMetadata; mcms_GetConfigVersion; mcms_GetInstanceLabel;
     mcms_TransferOwnership; mcms_ExtendContractTtls; mcms_CancelOwnershipTransfer]
    [mcms_WaitForRoleGrantedEvent; mcms_WaitForRoleRevokedEvent;
     mcms_WaitForAuthorizedCallerAddedEvent; mcms_WaitForAuthorizedCallerRemovedEvent;
     mcms_WaitForOwnershipTransferStartedEvent; mcms_WaitForNewRootEvent;
     mcms_WaitForConfigSetEvent; mcms_WaitForOpExecutedEvent].

(** ** bindings/contracts/timelock *)

Definition timelock_Call : StructDecl :=
  mkStructDecl "Call"
    [mkMember "args_xdr" "ArgsXdr" TBytes (ECall "BytesToScVal") (DGet "GetBytes");
     mkMember "function" "Function" TString (ECall "SymbolToScVal") (DCall "SymbolFromScVal");
     mkMember "target" "Target" TString (ECall "AddressToScVal") (DCall "AddressFromScVal")].

Definition timelock_Calls : StructDecl :=
  mkStructDecl "Calls"
    [mkMember "inner" "Inner" (TSlice (TNamed "Call")) (ECall "StructSliceToScVal")
      (DVec (TNamed "Call") (DStruct "Call"))].

Definition timelock_BlockedFunction : StructDecl :=
  mkStructDecl "BlockedFunction"
    [mkMember "function" "Function" TString (ECall "SymbolToScVal") (DCall "SymbolFromScVal");
     mkMember "target" "Target" TString (ECall "AddressToScVal") (DCall "AddressFromScVal")].

Definition timelock_TimelockError : ErrorDecl :=
  mkErrorDecl "TimelockError"
    [("TimelockErrorNotInitialized", 1); ("TimelockErrorAlreadyInitialized", 2);
     ("TimelockErrorNotAuthorized", 3); ("TimelockErrorOperationAlreadyScheduled", 20);
     ("TimelockErrorInsufficientDelay", 21); ("TimelockErrorFunctionIsBlocked", 22);
     ("TimelockErrorOperationNotReady", 30); ("TimelockErrorMissingPredecessor", 31);
     ("TimelockErrorCallReverted", 32); ("TimelockErrorCallAborted", 33);
     ("TimelockErrorOperationCannotBeCancelled", 40); ("TimelockErrorInvalidInvokeData", 50);
     ("TimelockErrorIndexOutOfBounds", 51); ("TimelockErrorUnknownRole", 52);
     ("TimelockErrorInvalidTarget", 53); ("TimelockErrorInvalidArgsXdr", 54);
     ("TimelockErrorEmptyBatch", 55); ("TimelockErrorUnsupportedSelfCall", 56)]
    [(1, "not initialized"); (2, "already initialized"); (3, "not authorized");
     (20, "operation already scheduled"); (21, "insufficient delay");
     (22, "function is blocked"); (30, "operation not ready"); (31, "missing predecessor");
     (32, "call reverted"); (33, "call aborted"); (40, "operation cannot be cancelled");
     (50, "invalid invoke data"); (51, "index out of bounds"); (52, "unknown role");
     (53, "invalid target"); (54, "invalid args xdr"); (55, "empty batch");
     (56, "unsupported self call")].

Definition timelock_UpgradedEvent : EventDecl :=
  mkEventDecl "UpgradedEvent"
    [("NewWasmHash", TArray "32"); ("Ledger", TUint32); ("TxHash", TString)]
    (Some "tl_Upgraded").

Definition timelock_CancelledEvent : EventDecl :=
  mkEventDecl "CancelledEvent"
    [("Id", TArray "32"); ("Ledger", TUint32); ("TxHash", TString)]
    (Some "tl_Cancelled").

Definition timelock_RoleGrantedEvent : EventDecl :=
  mkEventDecl "RoleGrantedEvent"
    [("Role", TString); ("Account", TString); ("Sender", TString); ("Ledger", TUint32);
     ("TxHash", TString)]
    (Some "tl_RoleGranted").

Definition timelock_RoleRevokedEvent : EventDecl :=
  mkEventDecl "RoleRevokedEvent"
    [("Role", TString); ("Account", TString); ("Sender", TString); ("Ledger", TUint32);
     ("TxHash", TString)]
    (Some "tl_RoleRevoked").

Definition timelock_CallExecutedEvent : EventDecl :=
  mkEventDecl "CallExecutedEvent"
    [("Id", TArray "32"); ("Index", TUint32); ("Target", TString); ("Function", TString);
     ("ArgsHash", TArray "32"); ("Ledger", TUint32); ("TxHash", TString)]
    (Some "tl_CallExecuted").

Definition timelock_CallScheduledEvent : EventDecl :=
  mkEventDecl "CallScheduledEvent"
    [("Id", TArray "32"); ("Index", TUint32); ("Target", TString); ("Function", TString);
     ("ArgsHash", TArray "32"); ("Predecessor", TArray "32"); ("Salt", TArray "32");
     ("Delay", TUint64); ("Ledger", TUint32); ("TxHash", TString)]
    (Some "tl_CallScheduled").

Definition timelock_MinDelayChangeEvent : EventDecl :=
  mkEventDecl "MinDelayChangeEvent"
    [("OldDuration", TUint64); ("NewDuration", TUint64); ("Ledger", TUint32);
     ("TxHash", TString)]
    (Some "tl_MinDelay").

Definition timelock_FunctionBlockedEvent : EventDecl :=
  mkEventDecl "FunctionBlockedEvent"
    [("Target", TString); ("Function", TString); ("Ledger", TUint32); ("TxHash", TString)]
    (Some "tl_FnBlocked").

Definition timelock_FunctionUnblockedEvent : EventDecl :=
  mkEventDecl "FunctionUnblockedEvent"
    [("Target", TString); ("Function", TString); ("Ledger", TUint32); ("TxHash", TString)]
    (Some "tl_FnUnblocked").

Definition timelock_BypasserCallExecutedEvent : EventDecl :=
  mkEventDecl "BypasserCallExecutedEvent"
    [("Index", TUint32); ("Target", TString); ("Function", TString); ("ArgsHash", TArray "32");
     ("Ledger", TUint32); ("TxHash", TString)]
    (Some "tl_BypCallExec").

Definition timelock_types : TypesFile :=
  mkTypesFile "timelock" (mkImports true true true false)
    [timelock_Call; timelock_Calls; timelock_BlockedFunction]
    [timelock_TimelockError]
    [timelock_UpgradedEvent; timelock_CancelledEvent; timelock_RoleGrantedEvent;
     timelock_RoleRevokedEvent; timelock_CallExecutedEvent; timelock_CallScheduledEvent;
     timelock_MinDelayChangeEvent; timelock_FunctionBlockedEvent;
     timelock_FunctionUnblockedEvent; timelock_BypasserCallExecutedEvent]
    [].

Definition timelock_Cancel : Method :=
  mkMethod "Cancel" [("caller", TString); ("id", TArray "32")] [] ""
    false "cancel" [ECall "AddressToScVal"; ECall "Bytes32ToScVal"] RVoid.

Definition timelock_Upgrade : Method :=
  mkMethod "Upgrade" [("caller", TString); ("newWasmHash", TArray "32")] [] ""
    false "upgrade" [ECall "AddressToScVal"; ECall "Bytes32ToScVal"] RVoid.

Definition timelock_HasRole : Method :=
  mkMethod "HasRole" [("role", TString); ("account", TString)] [TBool] "false"
    false "has_role" [ECall "SymbolToScVal"; ECall "AddressToScVal"] (RVal (DGet "GetB")).

Definition timelock_GrantRole : Method :=
  mkMethod "GrantRole" [("caller", TString); ("role", TString); ("account", TString)] [] ""
    false "grant_role" [ECall "AddressToScVal"; ECall "SymbolToScVal"; ECall "AddressToScVal"] RVoid.

Definition timelock_Initialize : Method :=
  mkMethod "Initialize" [("minDelay", TUint64); ("proposers", TSlice TString); ("cancellers", TSlice TString);
     ("bypassers", TSlice TString)] [] ""
    false "initialize" [ECall "Uint64ToScVal"; ECall "AddressSliceToScVal"; ECall "AddressSliceToScVal"; ECall
      "AddressSliceToScVal"] RVoid.

Definition timelock_RevokeRole : Method :=
  mkMethod "RevokeRole" [("caller", TString); ("role", TString); ("account", TString)] [] ""
    false "revoke_role" [ECall "AddressToScVal"; ECall "SymbolToScVal"; ECall "AddressToScVal"] RVoid.

Definition timelock_IsOperation : Method :=
  mkMethod "IsOperation" [("id", TArray "32")] [TBool] "false"
    true "is_operation" [ECall "Bytes32ToScVal"] (RVal (DGet "GetB")).

Definition timelock_UpdateDelay : Method :=
  mkMethod "UpdateDelay" [("caller", TString); ("newDelay", TUint64)] [] ""
    false "update_delay" [ECall "AddressToScVal"; ECall "Uint64ToScVal"] RVoid.

Definition timelock_ExecuteBatch : Method :=
  mkMethod "ExecuteBatch" [("calls", TNamed "Calls"); ("predecessor", TArray "32"); ("salt", TArray "32")] [] ""
    false "execute_batch" [EMethodOf; ECall "Bytes32ToScVal"; ECall "Bytes32ToScVal"] RVoid.

Definition timelock_GetMinDelay : Method :=
  mkMethod "GetMinDelay" [] [TUint64] "0"
    true "get_min_delay" [] (RVal (DCall "Uint64FromScVal")).

Definition timelock_GetTimestamp : Method :=
  mkMethod "GetTimestamp" [("id", TArray "32")] [TUint64] "0"
    true "get_timestamp" [ECall "Bytes32ToScVal"] (RVal (DCall "Uint64FromScVal")).

Definition timelock_RenounceRole : Method :=
  mkMethod "RenounceRole" [("account", TString); ("role", TString)] [] ""
    false "renounce_role" [ECall "AddressToScVal"; ECall "SymbolToScVal"] RVoid.

Definition timelock_BlockFunction : Method :=
  mkMethod "BlockFunction" [("caller", TString); ("target", TString); ("function", TString)] [] ""
    false "block_function" [ECall "AddressToScVal"; ECall "AddressToScVal"; ECall "SymbolToScVal"] RVoid.

Definition timelock_ScheduleBatch : Method :=
  mkMethod "ScheduleBatch" [("caller", TString); ("calls", TNamed "Calls"); ("predecessor", TArray "32");
     ("salt", TArray "32"); ("delay", TUint64)] [] ""
    false "schedule_batch" [ECall "AddressToScVal"; EMethodOf; ECall "Bytes32ToScVal"; ECall "Bytes32ToScVal";
      ECall "Uint64ToScVal"] RVoid.

Definition timelock_ExtendAllTtls : Method :=
  mkMethod "ExtendAllTtls" [] [] ""
    false "extend_all_ttls" [] RVoid.

Definition timelock_GetRoleMember : Method :=
  mkMethod "GetRoleMember" [("role", TString); ("index", TUint32)] [TString] empty_literal
    true "get_role_member" [ECall "SymbolToScVal"; ECall "Uint32ToScVal"] (RVal (DCall "AddressFromScVal")).

Definition timelock_UnblockFunction : Method :=
  mkMethod "UnblockFunction" [("caller", TString); ("target", TString); ("function", TString)] [] ""
    false "unblock_function" [ECall "AddressToScVal"; ECall "AddressToScVal"; ECall "SymbolToScVal"] RVoid.

Definition timelock_IsOperationDone : Method :=
  mkMethod "IsOperationDone" [("id", TArray "32")] [TBool] "false"
    true "is_operation_done" [ECall "Bytes32ToScVal"] (RVal (DGet "GetB")).

Definition timelock_ExtendOpTimeTtl : Method :=
  mkMethod "ExtendOpTimeTtl" [("id", TArray "32")] [] ""
    false "extend_op_time_ttl" [ECall "Bytes32ToScVal"] RVoid.

Definition timelock_IsOperationReady : Method :=
  mkMethod "IsOperationReady" [("id", TArray "32")] [TBool] "false"
    true "is_operation_ready" [ECall "Bytes32ToScVal"] (RVal (DGet "GetB")).

Definition timelock_IsFunctionBlocked : Method :=
  mkMethod "IsFunctionBlocked" [("target", TString); ("function", TString)] [TBool] "false"
    true "is_function_blocked" [ECall "AddressToScVal"; ECall "SymbolToScVal"] (RVal (DGet "GetB")).

Definition timelock_HashOperationBatch : Method :=
  mkMethod "HashOperationBatch" [("calls", TNamed "Calls"); ("predecessor", TArray "32");
    ("salt", TArray "32")] [TArray "32"] "[32]byte{}"
    false "hash_operation_batch" [EMethodOf; ECall "Bytes32ToScVal"; ECall "Bytes32ToScVal"]
      (RVal (DCall "Bytes32FromScVal")).

Definition timelock_IsOperationPending : Method :=
  mkMethod "IsOperationPending" [("id", TArray "32")] [TBool] "false"
    true "is_operation_pending" [ECall "Bytes32ToScVal"] (RVal (DGet "GetB")).

Definition timelock_GetRoleMemberCount : Method :=
  mkMethod "GetRoleMemberCount" [("role", TString)] [TUint32] "0"
    true "get_role_member_count" [ECall "SymbolToScVal"] (RVal (DGet "GetU32")).

Definition timelock_BypasserExecuteBatch : Method :=
  mkMethod "BypasserExecuteBatch" [("caller", TString); ("calls", TNamed "Calls")] [] ""
    false "bypasser_execute_batch" [ECall "AddressToScVal"; EMethodOf] RVoid.

Definition timelock_GetBlockedFunctionAt : Method :=
  mkMethod "GetBlockedFunctionAt" [("index", TUint32)] [TPtr (TNamed "BlockedFunction")] "nil"
    true "get_blocked_function_at" [ECall "Uint32ToScVal"] (RVal (DStruct "BlockedFunction")).

Definition timelock_GetBlockedFunctionCount : Method :=
  mkMethod "GetBlockedFunctionCount" [] [TUint32] "0"
    true "get_blocked_function_count" [] (RVal (DGet "GetU32")).

Definition timelock_WaitForUpgradedEvent : EventHelper :=
  mkEventHelper "UpgradedEvent" (mkEventParser
    []
    [("new_wasm_hash", "NewWasmHash", EvField (DCall "Bytes32FromScVal"))]).

Definition timelock_WaitForCancelledEvent : EventHelper :=
  mkEventHelper "CancelledEvent" (mkEventParser
    []
    [("id", "Id", EvField (DCall "Bytes32FromScVal"))]).

Definition timelock_WaitForRoleGrantedEvent : EventHelper :=
  mkEventHelper "RoleGrantedEvent" (mkEventParser
    []
    [("role", "Role", EvField (DCall "SymbolFromScVal"));
     ("account", "Account", EvField (DCall "AddressFromScVal"));
     ("sender", "Sender", EvField (DCall "AddressFromScVal"))]).

Definition timelock_WaitForRoleRevokedEvent : EventHelper :=
  mkEventHelper "RoleRevokedEvent" (mkEventParser
    []
    [("role", "Role", EvField (DCall "SymbolFromScVal"));
     ("account", "Account", EvField (DCall "AddressFromScVal"));
     ("sender", "Sender", EvField (DCall "AddressFromScVal"))]).

Definition timelock_WaitForCallExecutedEvent : EventHelper :=
  mkEventHelper "CallExecutedEvent" (mkEventParser
    []
    [("id", "Id", EvField (DCall "Bytes32FromScVal"));
     ("index", "Index", EvField (DGet "GetU32"));
     ("target", "Target", EvField (DCall "AddressFromScVal"));
     ("function", "Function", EvField (DCall "SymbolFromScVal"));
     ("args_hash", "ArgsHash", EvField (DCall "Bytes32FromScVal"))]).

Definition timelock_WaitForCallScheduledEvent : EventHelper :=
  mkEventHelper "CallScheduledEvent" (mkEventParser
    []
    [("id", "Id", EvField (DCall "Bytes32FromScVal"));
     ("index", "Index", EvField (DGet "GetU32"));
     ("target", "Target", EvField (DCall "AddressFromScVal"));
     ("function", "Function", EvField (DCall "SymbolFromScVal"));
     ("args_hash", "ArgsHash", EvField (DCall "Bytes32FromScVal"));
     ("predecessor", "Predecessor", EvField (DCall "Bytes32FromScVal"));
     ("salt", "Salt", EvField (DCall "Bytes32FromScVal"));
     ("delay", "Delay", EvField (DCall "Uint64FromScVal"))]).

Definition timelock_WaitForMinDelayChangeEvent : EventHelper :=
  mkEventHelper "MinDelayChangeEvent" (mkEventParser
    []
    [("old_duration", "OldDuration", EvField (DCall "Uint64FromScVal"));
     ("new_duration", "NewDuration", EvField (DCall "Uint64FromScVal"))]).

Definition timelock_WaitForFunctionBlockedEvent : EventHelper :=
  mkEventHelper "FunctionBlockedEvent" (mkEventParser
    []
    [("target", "Target", EvField (DCall "AddressFromScVal"));
     ("function", "Function", EvField (DCall "SymbolFromScVal"))]).

Definition timelock_WaitForFunctionUnblockedEvent : EventHelper :=
  mkEventHelper "FunctionUnblockedEvent" (mkEventParser
    []
    [("target", "Target", EvField (DCall "AddressFromScVal"));
     ("function", "Function", EvField (DCall "SymbolFromScVal"))]).

Definition timelock_WaitForBypasserCallExecutedEvent : EventHelper :=
  mkEventHelper "BypasserCallExecutedEvent" (mkEventParser
    []
    [("index", "Index", EvField (DGet "GetU32"));
     ("target", "Target", EvField (DCall "AddressFromScVal"));
     ("function", "Function", EvField (DCall "SymbolFromScVal"));
     ("args_hash", "ArgsHash", EvField (DCall "Bytes32FromScVal"))]).

Definition timelock_client : ClientFile :=
  mkClientFile "timelock" "Timelock" false true
    [timelock_Cancel; timelock_Upgrade; timelock_HasRole; timelock_GrantRole;
     timelock_Initialize; timelock_RevokeRole; timelock_IsOperation; timelock_UpdateDelay;
     timelock_ExecuteBatch; timelock_GetMinDelay; timelock_GetTimestamp; timelock_RenounceRole;
     timelock_BlockFunction; timelock_ScheduleBatch; timelock_ExtendAllTtls;
     timelock_GetRoleMember; timelock_UnblockFunction; timelock_IsOperationDone;
     timelock_ExtendOpTimeTtl; timelock_IsOperationReady; timelock_IsFunctionBlocked;
     timelock_HashOperationBatch; timelock_IsOperationPending; timelock_GetRoleMemberCount;
     timelock_BypasserExecuteBatch; timelock_GetBlockedFunctionAt;
     timelock_GetBlockedFunctionCount]
    [timelock_WaitForUpgradedEvent; timelock_WaitForCancelledEvent;
     timelock_WaitForRoleGrantedEvent; timelock_WaitForRoleRevokedEvent;
     timelock_WaitForCallExecutedEvent; timelock_WaitForCallScheduledEvent;
     timelock_WaitForMinDelayChangeEvent; timelock_WaitForFunctionBlockedEvent;
     timelock_WaitForFunctionUnblockedEvent; timelock_WaitForBypasserCallExecutedEvent].

(** ** bindings/contracts/cre *)

Definition cre_Ed25519Signature : StructDecl :=
  mkStructDecl "Ed25519Signature"
    [mkMember "public_key" "PublicKey" (TArray "32") (ECall "Bytes32ToScVal") (DCall "Bytes32FromScVal");
     mkMember "signature" "Signature" (TArray "64") (ECall "Bytes64ToScVal") (DCall "Bytes64FromScVal")].

Definition cre_TransmissionInfo : StructDecl :=
  mkStructDecl "TransmissionInfo"
    [mkMember "state" "State" (TNamed "TransmissionState") EMethod (DEnum "TransmissionState");
     mkMember "transmitter" "Transmitter" (TPtr TString) (ECall "OptionalAddressToScVal")
       (DCall "OptionalAddressFromScVal")].

Definition cre_CCIPError : ErrorDecl :=
  mkErrorDecl "CCIPError"
    [("CCIPErrorNotInitialized", 1); ("CCIPErrorAlreadyInitialized", 2);
     ("CCIPErrorUnauthorized", 3); ("CCIPErrorNotOwner", 4); ("CCIPErrorNoPendingOwner", 5);
     ("CCIPErrorCallerNotAuthorized", 6); ("CCIPErrorCallerAlreadyAuthorized", 7);
     ("CCIPErrorCallerNotFound", 8); ("CCIPErrorRoleNotGranted", 9);
     ("CCIPErrorFeatureNotEnabled", 10); ("CCIPErrorRoleAlreadyGranted", 11);
     ("CCIPErrorCannotRenounceRole", 12); ("CCIPErrorInvalidVersionTag", 13);
     ("CCIPErrorInvalidSignatureLength", 14); ("CCIPErrorInvalidSignature", 15);
     ("CCIPErrorInvalidSignatureCount", 16); ("CCIPErrorInvalidSignatureThreshold", 17);
     ("CCIPErrorInvalidSignaturePubkey", 18); ("CCIPErrorSourceSignersNotConfigured", 19);
     ("CCIPErrorInvalidVerifierResults", 20); ("CCIPErrorReentrantCall", 21);
     ("CCIPErrorTokenNotSupported", 22); ("CCIPErrorFeeTokenNotSupported", 23);
     ("CCIPErrorNoGasPriceAvailable", 24); ("CCIPErrorDestinationChainNotEnabled", 25);
     ("CCIPErrorInvalidExtraArgsTag", 26); ("CCIPErrorInvalidExtraArgsData", 27);
     ("CCIPErrorMessageGasLimitTooHigh", 28); ("CCIPErrorMessageTooLarge", 29);
     ("CCIPErrorUnsupportedNumberOfTokens", 30); ("CCIPErrorInvalidDestChainConfig", 31);
     ("CCIPErrorMessageFeeTooHigh", 32); ("CCIPErrorInvalidStaticConfig", 33);
     ("CCIPErrorInvalidTokenReceiver", 34); ("CCIPErrorSourceTokenDataTooLarge", 35);
     ("CCIPErrorInvalidDestBytesOverhead", 36); ("CCIPErrorDestinationChainNotSupported", 37);
     ("CCIPErrorMustBeCalledByRouter", 38); ("CCIPErrorRouterMustSetOriginalSender", 39);
     ("CCIPErrorCannotSendZeroTokens", 40); ("CCIPErrorCanOnlySendOneTokenPerMessage", 41);
     ("CCIPErrorUnsupportedToken", 42); ("CCIPErrorInvalidDestChainAddress", 43);
     ("CCIPErrorFeeExceedsMaxAllowed", 44); ("CCIPErrorInsufficientFeeTokenAmount", 45);
     ("CCIPErrorTokenReceiverNotAllowed", 46); ("CCIPErrorCursedByRMN", 47);
     ("CCIPErrorRemoteChainNotSupported", 48); ("CCIPErrorSenderNotAllowed", 49);
     ("CCIPErrorInvalidTokenAmount", 50); ("CCIPErrorInvalidReceiverAddress", 51);
     ("CCIPErrorInvalidConfig", 52); ("CCIPErrorInvalidVerifierResultsLength", 53);
     ("CCIPErrorInboundImplementationNotFound", 54);
     ("CCIPErrorOutboundImplementationNotFound", 55); ("CCIPErrorInvalidAddress", 56);
     ("CCIPErrorInvalidChainSelector", 57); ("CCIPErrorInvalidVersion", 58);
     ("CCIPErrorInvalidCCVVersion", 59); ("CCIPErrorOffRampAlreadyExists", 60);
     ("CCIPErrorOffRampMismatch", 61); ("CCIPErrorBadRMNSignal", 62);
     ("CCIPErrorUnsupportedDestinationChain", 63); ("CCIPErrorAlreadyCursed", 64);
     ("CCIPErrorConfigNotSet", 65); ("CCIPErrorDuplicateOnchainPublicKey", 66);
     ("CCIPErrorInvalidSignerOrder", 67); ("CCIPErrorNotEnoughSigners", 68);
     ("CCIPErrorNotCursed", 69); ("CCIPErrorOutOfOrderSignatures", 70);
     ("CCIPErrorThresholdNotMet", 71); ("CCIPErrorUnexpectedSigner", 72);
     ("CCIPErrorZeroValueNotAllowed", 73); ("CCIPErrorSourceChainNotEnabled", 100);
     ("CCIPErrorInvalidSourceChainConfig", 101); ("CCIPErrorInvalidOnRampAddress", 102);
     ("CCIPErrorInvalidOffRampAddress", 103); ("CCIPErrorInvalidMessageDestination", 104);
     ("CCIPErrorMessageAlreadyExecuted", 105); ("CCIPErrorInvalidExecutionState", 106);
     ("CCIPErrorCCVLengthMismatch", 107); ("CCIPErrorCCVQuorumNotMet", 108);
     ("CCIPErrorReceiverError", 109); ("CCIPErrorGasLimitOverrideTooLow", 110);
     ("CCIPErrorInvalidReceiverLength", 111); ("CCIPErrorTokenHandlingError", 112);
     ("CCIPErrorMessageDecodingError", 113); ("CCIPErrorReceiverDoesNotExist", 114);
     ("CCIPErrorReceiverNotWasmContract", 115); ("CCIPErrorRequiredCCVMissing", 116);
     ("CCIPErrorInvalidOptionalThreshold", 117); ("CCIPErrorOptionalCCVQuorumNotReached", 118);
     ("CCIPErrorNoStateProgressMade", 119); ("CCIPErrorOnlyRegistryModuleOrOwner", 201);
     ("CCIPErrorOnlyAdministrator", 202); ("CCIPErrorOnlyPendingAdministrator", 203);
     ("CCIPErrorTokenAlreadyRegistered", 204); ("CCIPErrorInvalidTokenPoolToken", 205);
     ("CCIPErrorPoolTokenMismatch", 301); ("CCIPErrorChainNotSupported", 302);
     ("CCIPErrorCallerIsNotRamp", 303); ("CCIPErrorInsufficientPoolLiquidity", 304);
     ("CCIPErrorInvalidRemotePoolAddress", 305); ("CCIPErrorInvalidRemoteChainConfig", 306);
     ("CCIPErrorInvalidRemoteChainDecimals", 307); ("CCIPErrorDecimalAmountOverflow", 308);
     ("CCIPErrorInvalidPoolTokenDecimals", 309); ("CCIPErrorBucketOverfilled", 310);
     ("CCIPErrorTokenMaxCapacityExceeded", 311); ("CCIPErrorTokenRateLimitReached", 312);
     ("CCIPErrorInvalidRateLimitRate", 313); ("CCIPErrorDisabledNonZeroRateLimit", 314);
     ("CCIPErrorInvalidRequestedFinality", 315);
     ("CCIPErrorRequestedFinalityCanOnlyHaveOneMode", 316);
     ("CCIPErrorInvalidChainForClient", 317); ("CCIPErrorRouterNotConfigured", 318);
     ("CCIPErrorInvalidSourcePoolAddress", 319); ("CCIPErrorDuplicateCCVNotAllowed", 320);
     ("CCIPErrorInvalidTokenTransferFeeConfig", 321); ("CCIPErrorInvalidTransferFeeBps", 322);
     ("CCIPErrorInvalidAllowListRequest", 323); ("CCIPErrorInvalidFeeCalculation", 801);
     ("CCIPErrorInvalidFeeTokenConversion", 802); ("CCIPErrorZeroFeeAggregatorNotAllowed", 803);
     ("CCIPErrorExceedsMaxCCVs", 804); ("CCIPErrorCCVNotAllowed", 805);
     ("CCIPErrorPolicyEngineDetachReverted", 806); ("CCIPErrorUnsupportedSelector", 807);
     ("CCIPErrorZeroAddressNotAllowed", 808)]
    [(1, "not initialized"); (2, "already initialized"); (3, "unauthorized"); (4, "not owner");
     (5, "no pending owner"); (6, "caller not authorized"); (7, "caller already authorized");
     (8, "caller not found"); (9, "role not granted"); (10, "feature not enabled");
     (11, "role already granted"); (12, "cannot renounce role"); (13, "invalid version tag");
     (14, "invalid signature length"); (15, "invalid signature");
     (16, "invalid signature count"); (17, "invalid signature threshold");
     (18, "invalid signature pubkey"); (19, "source signers not configured");
     (20, "invalid verifier results"); (21, "reentrant call"); (22, "token not supported");
     (23, "fee token not supported"); (24, "no gas price available");
     (25, "destination chain not enabled"); (26, "invalid extra args tag");
     (27, "invalid extra args data"); (28, "message gas limit too high");
     (29, "message too large"); (30, "unsupported number of tokens");
     (31, "invalid dest chain config"); (32, "message fee too high");
     (33, "invalid static config"); (34, "invalid token receiver");
     (35, "source token data too large"); (36, "invalid dest bytes overhead");
     (37, "destination chain not supported"); (38, "must be called by router");
     (39, "router must set original sender"); (40, "cannot send zero tokens");
     (41, "can only send one token per message"); (42, "unsupported token");
     (43, "invalid dest chain address"); (44, "fee exceeds max allowed");
     (45, "insufficient fee token amount"); (46, "token receiver not allowed");
     (47, "cursed by r m n"); (48, "remote chain not supported"); (49, "sender not allowed");
     (50, "invalid token amount"); (51, "invalid receiver address"); (52, "invalid config");
     (53, "invalid verifier results length"); (54, "inbound implementation not found");
     (55, "outbound implementation not found"); (56, "invalid address");
     (57, "invalid chain selector"); (58, "invalid version"); (59, "invalid c c v version");
     (60, "off ramp already exists"); (61, "off ramp mismatch"); (62, "bad r m n signal");
     (63, "unsupported destination chain"); (64, "already cursed"); (65, "config not set");
     (66, "duplicate onchain public key"); (67, "invalid signer order");
     (68, "not enough signers"); (69, "not cursed"); (70, "out of order signatures");
     (71, "threshold not met"); (72, "unexpected signer"); (73, "zero value not allowed");
     (100, "source chain not enabled"); (101, "invalid source chain config");
     (102, "invalid on ramp address"); (103, "invalid off ramp address");
     (104, "invalid message destination"); (105, "message already executed");
     (106, "invalid execution state"); (107, "c c v length mismatch");
     (108, "c c v quorum not met"); (109, "receiver error");
     (110, "gas limit override too low"); (111, "invalid receiver length");
     (112, "token handling error"); (113, "message decoding error");
     (114, "receiver does not exist"); (115, "receiver not wasm contract");
     (116, "required c c v missing"); (117, "invalid optional threshold");
     (118, "optional c c v quorum not reached"); (119, "no state progress made");
     (201, "only registry module or owner"); (202, "only administrator");
     (203, "only pending administrator"); (204, "token already registered");
     (205, "invalid token pool token"); (301, "pool token mismatch");
     (302, "chain not supported"); (303, "caller is not ramp");
     (304, "insufficient pool liquidity"); (305, "invalid remote pool address");
     (306, "invalid remote chain config"); (307, "invalid remote chain decimals");
     (308, "decimal amount overflow"); (309, "invalid pool token decimals");
     (310, "bucket overfilled"); (311, "token max capacity exceeded");
     (312, "token rate limit reached"); (313, "invalid rate limit rate");
     (314, "disabled non zero rate limit"); (315, "invalid requested finality");
     (316, "requested finality can only have one mode"); (317, "invalid chain for client");
     (318, "router not configured"); (319, "invalid source pool address");
     (320, "duplicate c c v not allowed"); (321, "invalid token transfer fee config");
     (322, "invalid transfer fee bps"); (323, "invalid allow list request");
     (801, "invalid fee calculation"); (802, "invalid fee token conversion");
     (803, "zero fee aggregator not allowed"); (804, "exceeds max c c vs");
     (805, "c c v not allowed"); (806, "policy engine detach reverted");
     (807, "unsupported selector"); (808, "zero address not allowed")].

Definition cre_ForwarderError : ErrorDecl :=
  mkErrorDecl "ForwarderError"
    [("ForwarderErrorAlreadyInitialized", 1); ("ForwarderErrorInvalidReport", 2);
     ("ForwarderErrorInvalidReportContext", 3); ("ForwarderErrorInvalidReportVersion", 4);
     ("ForwarderErrorFaultToleranceMustBePositive", 5); ("ForwarderErrorExcessSigners", 6);
     ("ForwarderErrorInsufficientSigners", 7); ("ForwarderErrorInvalidConfig", 8);
     ("ForwarderErrorInvalidSignatureCount", 9); ("ForwarderErrorDuplicateSigner", 10);
     ("ForwarderErrorInvalidSignature", 11); ("ForwarderErrorInvalidSignerOrder", 12);
     ("ForwarderErrorAlreadyProcessed", 13); ("ForwarderErrorNotOwner", 14);
     ("ForwarderErrorNotProposedOwner", 15); ("ForwarderErrorUninitialized", 16);
     ("ForwarderErrorUnauthorizedForwarder", 17); ("ForwarderErrorInvalidReceiver", 18);
     ("ForwarderErrorInvalidSigner", 19); ("ForwarderErrorCannotRemoveSelf", 20);
     ("ForwarderErrorUnauthorizedRelayer", 21)]
    [(1, "already initialized"); (2, "invalid report"); (3, "invalid report context");
     (4, "invalid report version"); (5, "fault tolerance must be positive");
     (6, "excess signers"); (7, "insufficient signers"); (8, "invalid config");
     (9, "invalid signature count"); (10, "duplicate signer"); (11, "invalid signature");
     (12, "invalid signer order"); (13, "already processed"); (14, "not owner");
     (15, "not proposed owner"); (16, "uninitialized"); (17, "unauthorized forwarder");
     (18, "invalid receiver"); (19, "invalid signer"); (20, "cannot remove self");
     (21, "unauthorized relayer")].

Definition cre_RoleGrantedEvent : EventDecl :=
  mkEventDecl "RoleGrantedEvent"
    [("Role", TString); ("Account", TString); ("Sender", TString); ("Ledger", TUint32);
     ("TxHash", TString)]
    (Some "auth_RoleGranted").

Definition cre_RoleRevokedEvent : EventDecl :=
  mkEventDecl "RoleRevokedEvent"
    [("Role", TString); ("Account", TString); ("Sender", TString); ("Ledger", TUint32);
     ("TxHash", TString)]
    (Some "auth_RoleRevoked").

Definition cre_AuthorizedCallerAddedEvent : EventDecl :=
  mkEventDecl "AuthorizedCallerAddedEvent"
    [("Caller", TString); ("Ledger", TUint32); ("TxHash", TString)]
    (Some "auth_CallerAdded").

Definition cre_AuthorizedCallerRemovedEvent : EventDecl :=
  mkEventDecl "AuthorizedCallerRemovedEvent"
    [("Caller", TString); ("Ledger", TUint32); ("TxHash", TString)]
    (Some "auth_CallerRemoved").

Definition cre_OwnershipTransferStartedEvent : EventDecl :=
  mkEventDecl "OwnershipTransferStartedEvent"
    [("PreviousOwner", TString); ("NewOwner", TString); ("Ledger", TUint32);
     ("TxHash", TString)]
    (Some "auth_OwnerTransferStart").

Definition cre_ConfigSetEvent : EventDecl :=
  mkEventDecl "ConfigSetEvent"
    [("DonId", TUint32); ("ConfigVersion", TUint32); ("F", TUint32);
     ("Signers", TSlice (TArray "32")); ("Ledger", TUint32); ("TxHash", TString)]
    (Some "forwarder_ConfigSet").

Definition cre_RelayerAddedEvent : EventDecl :=
  mkEventDecl "RelayerAddedEvent"
    [("Relayer", TString); ("Ledger", TUint32); ("TxHash", TString)]
    (Some "forwarder_RelayerAdded").

Definition cre_ForwarderAddedEvent : EventDecl :=
  mkEventDecl "ForwarderAddedEvent"
    [("Forwarder", TString); ("Ledger", TUint32); ("TxHash", TString)]
    (Some "forwarder_ForwarderAdded").

Definition cre_RelayerRemovedEvent : EventDecl :=
  mkEventDecl "RelayerRemovedEvent"
    [("Relayer", TString); ("Ledger", TUint32); ("TxHash", TString)]
    (Some "forwarder_RelayerRemoved").

Definition cre_RelayProcessedEvent : EventDecl :=
  mkEventDecl "RelayProcessedEvent"
    [("Receiver", TString); ("ExecutionId", TArray "32"); ("PayloadHash", TArray "32");
     ("State", TNamed "TransmissionState"); ("Ledger", TUint32); ("TxHash", TString)]
    (Some "forwarder_RelayProcessed").

Definition cre_ReportProcessedEvent : EventDecl :=
  mkEventDecl "ReportProcessedEvent"
    [("Receiver", TString); ("WorkflowExecutionId", TArray "32"); ("ReportId", TArray "2");
     ("Success", TBool); ("Ledger", TUint32); ("TxHash", TString)]
    (Some "forwarder_ReportProcessed").

Definition cre_ForwarderRemovedEvent : EventDecl :=
  mkEventDecl "ForwarderRemovedEvent"
    [("Forwarder", TString); ("Ledger", TUint32); ("TxHash", TString)]
    (Some "forwarder_ForwarderRemoved").

Definition cre_TransmissionState : EnumDecl :=
  UnitEnum "TransmissionState" [("TransmissionStateNotAttempted", 0); ("TransmissionStateSucceeded", 1);
     ("TransmissionStateInvalidReceiver", 2); ("TransmissionStateFailed", 3)].

Definition cre_types : TypesFile :=
  mkTypesFile "cre" (mkImports true true true false)
    [cre_Ed25519Signature; cre_TransmissionInfo]
    [cre_CCIPError; cre_ForwarderError]
    [cre_RoleGrantedEvent; cre_RoleRevokedEvent; cre_AuthorizedCallerAddedEvent;
     cre_AuthorizedCallerRemovedEvent; cre_OwnershipTransferStartedEvent; cre_ConfigSetEvent;
     cre_RelayerAddedEvent; cre_ForwarderAddedEvent; cre_RelayerRemovedEvent;
     cre_RelayProcessedEvent; cre_ReportProcessedEvent; cre_ForwarderRemovedEvent]
    [cre_TransmissionState].

Definition cre_Owner : Method :=
  mkMethod "Owner" [] [TPtr TString] "nil"
    true "owner" [] (RVal (DCall "OptionalAddressFromScVal")).

Definition cre_Relay : Method :=
  mkMethod "Relay" [("transmitter", TString); ("receiver", TString); ("executionId", TArray "32");
     ("payload", TBytes)] [TBool] "false"
    false "relay" [ECall "AddressToScVal"; ECall "AddressToScVal"; ECall "Bytes32ToScVal"; ECall
      "BytesToScVal"] (RVal (DGet "GetB")).

Definition cre_Report : Method :=
  mkMethod "Report" [("transmitter", TString); ("receiver", TString); ("rawReport", TBytes);
     ("reportContext", TBytes); ("signatures", TSlice (TNamed "Ed25519Signature"))] [] ""
    false "report" [ECall "AddressToScVal"; ECall "AddressToScVal"; ECall "BytesToScVal"; ECall "BytesToScVal";
      ECall "StructSliceToScVal"] RVoid.

Definition cre_IsOwner : Method :=
  mkMethod "IsOwner" [("addr", TString)] [TBool] "false"
    true "is_owner" [ECall "AddressToScVal"] (RVal (DGet "GetB")).

Definition cre_InitOwner : Method :=
  mkMethod "InitOwner" [("owner", TString)] [] ""
    false "init_owner" [ECall "AddressToScVal"] RVoid.

Definition cre_Initialize : Method :=
  mkMethod "Initialize" [("owner", TString)] [] ""
    false "initialize" [ECall "AddressToScVal"] RVoid.

Definition cre_SetConfig : Method :=
  mkMethod "SetConfig" [("donId", TUint32); ("configVersion", TUint32); ("f", TUint32);
     ("signers", TSlice (TArray "32"))] [] ""
    false "set_config" [ECall "Uint32ToScVal"; ECall "Uint32ToScVal"; ECall "Uint32ToScVal"; ECall
      "Bytes32SliceToScVal"] RVoid.

Definition cre_AddRelayer : Method :=
  mkMethod "AddRelayer" [("relayer", TString)] [] ""
    false "add_relayer" [ECall "AddressToScVal"] RVoid.

Definition cre_ClearConfig : Method :=
  mkMethod "ClearConfig" [("donId", TUint32); ("configVersion", TUint32)] [] ""
    false "clear_config" [ECall "Uint32ToScVal"; ECall "Uint32ToScVal"] RVoid.

Definition cre_AddForwarder : Method :=
  mkMethod "AddForwarder" [("forwarder", TString)] [] ""
    false "add_forwarder" [ECall "AddressToScVal"] RVoid.

Definition cre_RequireOwner : Method :=
  mkMethod "RequireOwner" [] [TString] empty_literal
    false "require_owner" [] (RVal (DCall "AddressFromScVal")).

Definition cre_GetRelayInfo : Method :=
  mkMethod "GetRelayInfo" [("receiver", TString); ("executionId", TArray "32"); ("payloadHash", TArray "32")]
    [TPtr (TNamed "TransmissionInfo")] "nil"
    true "get_relay_info" [ECall "AddressToScVal"; ECall "Bytes32ToScVal"; ECall "Bytes32ToScVal"]
      (RVal (DStruct "TransmissionInfo")).

Definition cre_RemoveRelayer : Method :=
  mkMethod "RemoveRelayer" [("relayer", TString)] [] ""
    false "remove_relayer" [ECall "AddressToScVal"] RVoid.

Definition cre_AcceptOwnership : Method :=
  mkMethod "AcceptOwnership" [] [] ""
    false "accept_ownership" [] RVoid.

Definition cre_RemoveForwarder : Method :=
  mkMethod "RemoveForwarder" [("forwarder", TString)] [] ""
    false "remove_forwarder" [ECall "AddressToScVal"] RVoid.

Definition cre_TypeAndVersion : Method :=
  mkMethod "TypeAndVersion" [] [TString] empty_literal
    false "type_and_version" [] (RVal (DCall "StringFromScVal")).

Definition cre_GetPendingOwner : Method :=
  mkMethod "GetPendingOwner" [] [TPtr TString] "nil"
    true "get_pending_owner" [] (RVal (DCall "OptionalAddressFromScVal")).

Definition cre_TransferOwnership : Method :=
  mkMethod "TransferOwnership" [("newOwner", TString)] [] ""
    false "transfer_ownership" [ECall "AddressToScVal"] RVoid.

Definition cre_GetTransmissionInfo : Method :=
  mkMethod "GetTransmissionInfo" [("receiver", TString); ("workflowExecutionId", TArray "32");
    ("reportId", TArray "2")] [TPtr (TNamed "TransmissionInfo")] "nil"
    true "get_transmission_info" [ECall "AddressToScVal"; ECall "Bytes32ToScVal"; ECall "Bytes2ToScVal"]
      (RVal (DStruct "TransmissionInfo")).

Definition cre_CancelOwnershipTransfer : Method :=
  mkMethod "CancelOwnershipTransfer" [] [] ""
    false "cancel_ownership_transfer" [] RVoid.

Definition cre_WaitForRoleGrantedEvent : EventHelper :=
  mkEventHelper "RoleGrantedEvent" (mkEventParser
    []
    [("role", "Role", EvField (DCall "SymbolFromScVal"));
     ("account", "Account", EvField (DCall "AddressFromScVal"));
     ("sender", "Sender", EvField (DCall "AddressFromScVal"))]).

Definition cre_WaitForRoleRevokedEvent : EventHelper :=
  mkEventHelper "RoleRevokedEvent" (mkEventParser
    []
    [("role", "Role", EvField (DCall "SymbolFromScVal"));
     ("account", "Account", EvField (DCall "AddressFromScVal"));
     ("sender", "Sender", EvField (DCall "AddressFromScVal"))]).

Definition cre_WaitForAuthorizedCallerAddedEvent : EventHelper :=
  mkEventHelper "AuthorizedCallerAddedEvent" (mkEventParser
    []
    [("caller", "Caller", EvField (DCall "AddressFromScVal"))]).

Definition cre_WaitForAuthorizedCallerRemovedEvent : EventHelper :=
  mkEventHelper "AuthorizedCallerRemovedEvent" (mkEventParser
    []
    [("caller", "Caller", EvField (DCall "AddressFromScVal"))]).

Definition cre_WaitForOwnershipTransferStartedEvent : EventHelper :=
  mkEventHelper "OwnershipTransferStartedEvent" (mkEventParser
    []
    [("previous_owner", "PreviousOwner", EvField (DCall "AddressFromScVal"));
     ("new_owner", "NewOwner", EvField (DCall "AddressFromScVal"))]).

Definition cre_WaitForConfigSetEvent : EventHelper :=
  mkEventHelper "ConfigSetEvent" (mkEventParser
    [(1%nat, "DonId", DCall "Uint32FromScVal");
     (2%nat, "ConfigVersion", DCall "Uint32FromScVal")]
    [("f", "F", EvField (DGet "GetU32"));
     ("signers", "Signers", EvVec (TArray "32") (DCall "Bytes32FromScVal") false)]).

Definition cre_WaitForRelayerAddedEvent : EventHelper :=
  mkEventHelper "RelayerAddedEvent" (mkEventParser
    []
    [("relayer", "Relayer", EvField (DCall "AddressFromScVal"))]).

Definition cre_WaitForForwarderAddedEvent : EventHelper :=
  mkEventHelper "ForwarderAddedEvent" (mkEventParser
    []
    [("forwarder", "Forwarder", EvField (DCall "AddressFromScVal"))]).

Definition cre_WaitForRelayerRemovedEvent : EventHelper :=
  mkEventHelper "RelayerRemovedEvent" (mkEventParser
    []
    [("relayer", "Relayer", EvField (DCall "AddressFromScVal"))]).

Definition cre_WaitForRelayProcessedEvent : EventHelper :=
  mkEventHelper "RelayProcessedEvent" (mkEventParser
    [(1%nat, "Receiver", DCall "AddressFromScVal");
     (2%nat, "ExecutionId", DCall "Bytes32FromScVal");
     (3%nat, "PayloadHash", DCall "Bytes32FromScVal")]
    [("state", "State", EvField (DEnum "TransmissionState"))]).

Definition cre_WaitForReportProcessedEvent : EventHelper :=
  mkEventHelper "ReportProcessedEvent" (mkEventParser
    [(1%nat, "Receiver", DCall "AddressFromScVal");
     (2%nat, "WorkflowExecutionId", DCall "Bytes32FromScVal");
     (3%nat, "ReportId", DCall "Bytes2FromScVal")]
    [("success", "Success", EvField (DGet "GetB"))]).

Definition cre_WaitForForwarderRemovedEvent : EventHelper :=
  mkEventHelper "ForwarderRemovedEvent" (mkEventParser
    []
    [("forwarder", "Forwarder", EvField (DCall "AddressFromScVal"))]).

Definition cre_client : ClientFile :=
  mkClientFile "cre" "Forwarder" false true
    [cre_Owner; cre_Relay; cre_Report; cre_IsOwner; cre_InitOwner; cre_Initialize;
     cre_SetConfig; cre_AddRelayer; cre_ClearConfig; cre_AddForwarder; cre_RequireOwner;
     cre_GetRelayInfo; cre_RemoveRelayer; cre_AcceptOwnership; cre_RemoveForwarder;
     cre_TypeAndVersion; cre_GetPendingOwner; cre_TransferOwnership; cre_GetTransmissionInfo;
     cre_CancelOwnershipTransfer]
    [cre_WaitForRoleGrantedEvent; cre_WaitForRoleRevokedEvent;
     cre_WaitForAuthorizedCallerAddedEvent; cre_WaitForAuthorizedCallerRemovedEvent;
     cre_WaitForOwnershipTransferStartedEvent; cre_WaitForConfigSetEvent;
     cre_WaitForRelayerAddedEvent; cre_WaitForForwarderAddedEvent;
     cre_WaitForRelayerRemovedEvent; cre_WaitForRelayProcessedEvent;
     cre_WaitForReportProcessedEvent; cre_WaitForForwarderRemovedEvent].

(** ** bindings/contracts/cre_mock_forwarder *)

Definition cre_mock_forwarder_Ed25519Signature : StructDecl :=
  mkStructDecl "Ed25519Signature"
    [mkMember "public_key" "PublicKey" (TArray "32") (ECall "Bytes32ToScVal") (DCall "Bytes32FromScVal");
     mkMember "signature" "Signature" (TArray "64") (ECall "Bytes64ToScVal") (DCall "Bytes64FromScVal")].

Definition cre_mock_forwarder_TransmissionInfo : StructDecl :=
  mkStructDecl "TransmissionInfo"
    [mkMember "state" "State" (TNamed "TransmissionState") EMethod (DEnum "TransmissionState");
     mkMember "transmitter" "Transmitter" (TPtr TString) (ECall "OptionalAddressToScVal")
       (DCall "OptionalAddressFromScVal")].

Definition cre_mock_forwarder_MockForwarderError : ErrorDecl :=
  mkErrorDecl "MockForwarderError"
    [("MockForwarderErrorInvalidReport", 2); ("MockForwarderErrorInvalidReportContext", 3);
     ("MockForwarderErrorInvalidReportVersion", 4); ("MockForwarderErrorAlreadyProcessed", 13);
     ("MockForwarderErrorInvalidReceiver", 18)]
    [(2, "invalid report"); (3, "invalid report context"); (4, "invalid report version");
     (13, "already processed"); (18, "invalid receiver")].

Definition cre_mock_forwarder_ReportProcessedEvent : EventDecl :=
  mkEventDecl "ReportProcessedEvent"
    [("Receiver", TString); ("WorkflowExecutionId", TArray "32"); ("ReportId", TArray "2");
     ("Success", TBool); ("Ledger", TUint32); ("TxHash", TString)]
    (Some "forwarder_ReportProcessed").

Definition cre_mock_forwarder_TransmissionState : EnumDecl :=
  UnitEnum "TransmissionState" [("TransmissionStateNotAttempted", 0); ("TransmissionStateSucceeded", 1);
     ("TransmissionStateInvalidReceiver", 2); ("TransmissionStateFailed", 3)].

Definition cre_mock_forwarder_types : TypesFile :=
  mkTypesFile "cre_mock_forwarder" (mkImports true true true false)
    [cre_mock_forwarder_Ed25519Signature; cre_mock_forwarder_TransmissionInfo]
    [cre_mock_forwarder_MockForwarderError]
    [cre_mock_forwarder_ReportProcessedEvent]
    [cre_mock_forwarder_TransmissionState].

Definition cre_mock_forwarder_Report : Method :=
  mkMethod "Report" [("transmitter", TString); ("receiver", TString); ("rawReport", TBytes);
     ("reportContext", TBytes); ("signatures", TSlice (TNamed "Ed25519Signature"))] [] ""
    false "report" [ECall "AddressToScVal"; ECall "AddressToScVal"; ECall "BytesToScVal"; ECall "BytesToScVal";
      ECall "StructSliceToScVal"] RVoid.

Definition cre_mock_forwarder_TypeAndVersion : Method :=
  mkMethod "TypeAndVersion" [] [TString] empty_literal
    true "type_and_version" [] (RVal (DCall "StringFromScVal")).

Definition cre_mock_forwarder_GetTransmissionInfo : Method :=
  mkMethod "GetTransmissionInfo" [("receiver", TString); ("workflowExecutionId", TArray "32");
    ("reportId", TArray "2")] [TPtr (TNamed "TransmissionInfo")] "nil"
    true "get_transmission_info" [ECall "AddressToScVal"; ECall "Bytes32ToScVal"; ECall "Bytes2ToScVal"]
      (RVal (DStruct "TransmissionInfo")).

Definition cre_mock_forwarder_WaitForReportProcessedEvent : EventHelper :=
  mkEventHelper "ReportProcessedEvent" (mkEventParser
    [(1%nat, "Receiver", DCall "AddressFromScVal");
     (2%nat, "WorkflowExecutionId", DCall "Bytes32FromScVal");
     (3%nat, "ReportId", DCall "Bytes2FromScVal")]
    [("success", "Success", EvField (DGet "GetB"))]).

Definition cre_mock_forwarder_client : ClientFile :=
  mkClientFile "cre_mock_forwarder" "MockForwarder" false true
    [cre_mock_forwarder_Report; cre_mock_forwarder_TypeAndVersion;
     cre_mock_forwarder_GetTransmissionInfo]
    [cre_mock_forwarder_WaitForReportProcessedEvent].

(** ** bindings/contracts/data_feeds_cache *)

Definition data_feeds_cache_RoundData : StructDecl :=
  mkStructDecl "RoundData"
    [mkMember "answer" "Answer" TBig (EMust "I256ToScVal") (DCall "I256FromScVal");
     mkMember "ledger_seq" "LedgerSeq" TUint32 (ECall "Uint32ToScVal") (DGet "GetU32");
     mkMember "primary" "Primary" TBool (ECall "BoolToScVal") (DGet "GetB");
     mkMember "round_id" "RoundId" TUint64 (ECall "Uint64ToScVal") (DCall "Uint64FromScVal");
     mkMember "timestamp" "Timestamp" TUint64 (ECall "Uint64ToScVal") (DCall "Uint64FromScVal")].

Definition data_feeds_cache_FeedConfig : StructDecl :=
  mkStructDecl "FeedConfig"
    [mkMember "description" "Description" TString (ECall "StringToScVal") (DCall "StringFromScVal");
     mkMember "workflow_permissions" "WorkflowPermissions" (TSlice (TNamed "WorkflowPermission"))
       (ECall "StructSliceToScVal") (DVec (TNamed "WorkflowPermission") (DStruct "WorkflowPermission"))].

Definition data_feeds_cache_FeedConfigEntry : StructDecl :=
  mkStructDecl "FeedConfigEntry"
    [mkMember "config" "Config" (TNamed "FeedConfig") EMethod (DStruct "FeedConfig");
     mkMember "data_id" "DataId" (TArray "32") (ECall "Bytes32ToScVal") (DCall "Bytes32FromScVal")].

Definition data_feeds_cache_WorkflowPermission : StructDecl :=
  mkStructDecl "WorkflowPermission"
    [mkMember "allowed_sender" "AllowedSender" TString (ECall "AddressToScVal") (DCall "AddressFromScVal");
     mkMember "allowed_workflow_name" "AllowedWorkflowName" (TArray "10") (ECall "Bytes10ToScVal")
       (DCall "Bytes10FromScVal");
     mkMember "allowed_workflow_owner" "AllowedWorkflowOwner" (TArray "20") (ECall "Bytes20ToScVal")
       (DCall "Bytes20FromScVal")].

Definition data_feeds_cache_CacheError : ErrorDecl :=
  mkErrorDecl "CacheError"
    [("CacheErrorMalformedReport", 100); ("CacheErrorUnauthorizedCaller", 101);
     ("CacheErrorFeedNotConfigured", 102); ("CacheErrorEmptyConfig", 103);
     ("CacheErrorInvalidAddress", 104); ("CacheErrorInvalidWorkflowName", 105);
     ("CacheErrorDuplicatePermission", 106); ("CacheErrorInvalidDataId", 107);
     ("CacheErrorDuplicateFeedConfig", 108); ("CacheErrorFeedFrozen", 109);
     ("CacheErrorNoFeedState", 110)]
    [(100, "malformed report"); (101, "unauthorized caller"); (102, "feed not configured");
     (103, "empty config"); (104, "invalid address"); (105, "invalid workflow name");
     (106, "duplicate permission"); (107, "invalid data id"); (108, "duplicate feed config");
     (109, "feed frozen"); (110, "no feed state")].

Definition data_feeds_cache_FeedUpdated : EventDecl :=
  mkEventDecl "FeedUpdated"
    [("DataId", TArray "32"); ("RoundId", TUint64); ("Timestamp", TUint64); ("Answer", TBig);
     ("LedgerSeq", TUint32); ("Primary", TBool); ("Ledger", TUint32); ("TxHash", TString)]
    (Some "FeedUpdated").

Definition data_feeds_cache_StaleReport : EventDecl :=
  mkEventDecl "StaleReport"
    [("DataId", TArray "32"); ("ReportTs", TUint64); ("StoredTs", TUint64); ("Ledger", TUint32);
     ("TxHash", TString)]
    (Some "StaleReport").

Definition data_feeds_cache_FeedConfigSet : EventDecl :=
  mkEventDecl "FeedConfigSet"
    [("DataId", TArray "32"); ("Decimals", TUint32); ("Description", TString);
     ("WorkflowPermissions", TSlice (TNamed "WorkflowPermission")); ("Ledger", TUint32);
     ("TxHash", TString)]
    (Some "FeedConfigSet").

Definition data_feeds_cache_FeedFrozenSet : EventDecl :=
  mkEventDecl "FeedFrozenSet"
    [("DataId", TArray "32"); ("Frozen", TBool); ("Ledger", TUint32); ("TxHash", TString)]
    (Some "FeedFrozenSet").

Definition data_feeds_cache_FeedAdminAdded : EventDecl :=
  mkEventDecl "FeedAdminAdded"
    [("Admin", TString); ("Ledger", TUint32); ("TxHash", TString)]
    (Some "FeedAdminAdded").

Definition data_feeds_cache_FeedAdminRemoved : EventDecl :=
  mkEventDecl "FeedAdminRemoved"
    [("Admin", TString); ("Ledger", TUint32); ("TxHash", TString)]
    (Some "FeedAdminRemoved").

Definition data_feeds_cache_FeedConfigRemoved : EventDecl :=
  mkEventDecl "FeedConfigRemoved"
    [("DataId", TArray "32"); ("Ledger", TUint32); ("TxHash", TString)]
    (Some "FeedConfigRemoved").

Definition data_feeds_cache_InvalidUpdatePermission : EventDecl :=
  mkEventDecl "InvalidUpdatePermission"
    [("DataId", TArray "32"); ("Sender", TString); ("WorkflowOwner", TArray "20");
     ("WorkflowName", TArray "10"); ("Ledger", TUint32); ("TxHash", TString)]
    (Some "InvalidUpdatePermission").

Definition data_feeds_cache_Upgraded : EventDecl :=
  mkEventDecl "Upgraded"
    [("NewWasmHash", TArray "32"); ("Ledger", TUint32); ("TxHash", TString)]
    (Some "Upgraded").

Definition data_feeds_cache_TokenRecovered : EventDecl :=
  mkEventDecl "TokenRecovered"
    [("Token", TString); ("To", TString); ("Amount", TBig); ("Ledger", TUint32);
     ("TxHash", TString)]
    (Some "TokenRecovered").

Definition data_feeds_cache_OwnershipTransfer : EventDecl :=
  mkEventDecl "OwnershipTransfer"
    [("OldOwner", TString); ("NewOwner", TString); ("LiveUntilLedger", TUint32);
     ("Ledger", TUint32); ("TxHash", TString)]
    (Some "ownership_transfer").

Definition data_feeds_cache_OwnershipRenounced : EventDecl :=
  mkEventDecl "OwnershipRenounced"
    [("OldOwner", TString); ("Ledger", TUint32); ("TxHash", TString)]
    (Some "ownership_renounced").

Definition data_feeds_cache_OwnershipTransferCompleted : EventDecl :=
  mkEventDecl "OwnershipTransferCompleted"
    [("NewOwner", TString); ("Ledger", TUint32); ("TxHash", TString)]
    (Some "ownership_transfer_completed").

Definition data_feeds_cache_Bound : EnumDecl :=
  UnitEnum "Bound" [("BoundAtOrBefore", 0); ("BoundAtOrAfter", 1)].

Definition data_feeds_cache_types : TypesFile :=
  mkTypesFile "data_feeds_cache" (mkImports true true true true)
    [data_feeds_cache_RoundData; data_feeds_cache_FeedConfig; data_feeds_cache_FeedConfigEntry;
     data_feeds_cache_WorkflowPermission]
    [data_feeds_cache_CacheError]
    [data_feeds_cache_FeedUpdated; data_feeds_cache_StaleReport; data_feeds_cache_FeedConfigSet;
     data_feeds_cache_FeedFrozenSet; data_feeds_cache_FeedAdminAdded;
     data_feeds_cache_FeedAdminRemoved; data_feeds_cache_FeedConfigRemoved;
     data_feeds_cache_InvalidUpdatePermission; data_feeds_cache_Upgraded;
     data_feeds_cache_TokenRecovered; data_feeds_cache_OwnershipTransfer;
     data_feeds_cache_OwnershipRenounced; data_feeds_cache_OwnershipTransferCompleted]
    [data_feeds_cache_Bound].

Definition data_feeds_cache_Upgrade : Method :=
  mkMethod "Upgrade" [("newWasmHash", TArray "32")] [] ""
    false "upgrade" [ECall "Bytes32ToScVal"] RVoid.

Definition data_feeds_cache_Version : Method :=
  mkMethod "Version" [] [TUint32] "0"
    true "version" [] (RVal (DGet "GetU32")).

Definition data_feeds_cache_Decimals : Method :=
  mkMethod "Decimals" [("dataIds", TSlice (TArray "32"))] [TSlice (TPtr TUint32)] "nil"
    true "decimals" [ECall "Bytes32SliceToScVal"]
      (RVal (DVec (TPtr TUint32) (DCall "OptionalUint32FromScVal"))).

Definition data_feeds_cache_GetOwner : Method :=
  mkMethod "GetOwner" [] [TPtr TString] "nil"
    true "get_owner" [] (RVal (DCall "OptionalAddressFromScVal")).

Definition data_feeds_cache_GetRound : Method :=
  mkMethod "GetRound" [("dataId", TArray "32"); ("roundId", TUint64)] [TPtr (TNamed "RoundData")] "nil"
    true "get_round" [ECall "Bytes32ToScVal"; ECall "Uint64ToScVal"] (RVal (DNullable "RoundData")).

Definition data_feeds_cache_IsFrozen : Method :=
  mkMethod "IsFrozen" [("dataIds", TSlice (TArray "32"))] [TSlice TBool] "nil"
    true "is_frozen" [ECall "Bytes32SliceToScVal"] (RVal (DVec TBool (DGet "GetB"))).

Definition data_feeds_cache_OnReport : Method :=
  mkMethod "OnReport" [("sender", TString); ("metadata", TBytes); ("report", TBytes)] [] ""
    false "on_report" [ECall "AddressToScVal"; ECall "BytesToScVal"; ECall "BytesToScVal"] RVoid.

Definition data_feeds_cache_FindRound : Method :=
  mkMethod "FindRound" [("dataId", TArray "32"); ("timestamp", TUint64); ("bound", TNamed "Bound")]
    [TPtr (TNamed "RoundData")] "nil"
    true "find_round" [ECall "Bytes32ToScVal"; ECall "Uint64ToScVal"; EMethodOf] (RVal (DNullable "RoundData")).

Definition data_feeds_cache_Description : Method :=
  mkMethod "Description" [("dataIds", TSlice (TArray "32"))] [TSlice (TPtr TString)] "nil"
    true "description" [ECall "Bytes32SliceToScVal"]
      (RVal (DVec (TPtr TString) (DCall "OptionalStringFromScVal"))).

Definition data_feeds_cache_RoundRange : Method :=
  mkMethod "RoundRange" [("dataId", TArray "32"); ("from", TUint64); ("to", TUint64)]
    [TSlice (TNamed "RoundData")] "nil"
    true "round_range" [ECall "Bytes32ToScVal"; ECall "Uint64ToScVal"; ECall "Uint64ToScVal"]
      (RVal (DVec (TNamed "RoundData") (DStruct "RoundData"))).

Definition data_feeds_cache_LatestRound : Method :=
  mkMethod "LatestRound" [("dataIds", TSlice (TArray "32"))] [TSlice (TPtr (TNamed "RoundData"))] "nil"
    true "latest_round" [ECall "Bytes32SliceToScVal"]
      (RVal (DVec (TPtr (TNamed "RoundData")) (DNullable "RoundData"))).

Definition data_feeds_cache_IsConfigured : Method :=
  mkMethod "IsConfigured" [("dataIds", TSlice (TArray "32"))] [TSlice TBool] "nil"
    true "is_configured" [ECall "Bytes32SliceToScVal"] (RVal (DVec TBool (DGet "GetB"))).

Definition data_feeds_cache_IsFeedAdmin : Method :=
  mkMethod "IsFeedAdmin" [("admin", TString)] [TBool] "false"
    true "is_feed_admin" [ECall "AddressToScVal"] (RVal (DGet "GetB")).

Definition data_feeds_cache_AddFeedAdmin : Method :=
  mkMethod "AddFeedAdmin" [("newAdmin", TString)] [] ""
    false "add_feed_admin" [ECall "AddressToScVal"] RVoid.

Definition data_feeds_cache_HasPermission : Method :=
  mkMethod "HasPermission" [("dataId", TArray "32"); ("sender", TString); ("workflowOwner", TArray "20");
     ("workflowName", TArray "10")] [TBool] "false"
    true "has_permission" [ECall "Bytes32ToScVal"; ECall "AddressToScVal"; ECall "Bytes20ToScVal"; ECall
      "Bytes10ToScVal"] (RVal (DGet "GetB")).

Definition data_feeds_cache_RecoverTokens : Method :=
  mkMethod "RecoverTokens" [("token", TString); ("to", TString); ("amount", TBig)] [] ""
    false "recover_tokens" [ECall "AddressToScVal"; ECall "AddressToScVal"; ECall "I128ToScVal"] RVoid.

Definition data_feeds_cache_SetFeedFrozen : Method :=
  mkMethod "SetFeedFrozen" [("admin", TString); ("dataIds", TSlice (TArray "32")); ("frozen", TBool)] [] ""
    false "set_feed_frozen" [ECall "AddressToScVal"; ECall "Bytes32SliceToScVal"; ECall "BoolToScVal"] RVoid.

Definition data_feeds_cache_AcceptOwnership : Method :=
  mkMethod "AcceptOwnership" [] [] ""
    false "accept_ownership" [] RVoid.

Definition data_feeds_cache_SetFeedConfigs : Method :=
  mkMethod "SetFeedConfigs" [("admin", TString); ("entries", TSlice (TNamed "FeedConfigEntry"))] [] ""
    false "set_feed_configs" [ECall "AddressToScVal"; ECall "StructSliceToScVal"] RVoid.

Definition data_feeds_cache_TypeAndVersion : Method :=
  mkMethod "TypeAndVersion" [] [TString] empty_literal
    true "type_and_version" [] (RVal (DCall "StringFromScVal")).

Definition data_feeds_cache_RemoveFeedAdmin : Method :=
  mkMethod "RemoveFeedAdmin" [("admin", TString)] [] ""
    false "remove_feed_admin" [ECall "AddressToScVal"] RVoid.

Definition data_feeds_cache_RenounceOwnership : Method :=
  mkMethod "RenounceOwnership" [] [] ""
    false "renounce_ownership" [] RVoid.

Definition data_feeds_cache_TransferOwnership : Method :=
  mkMethod "TransferOwnership" [("newOwner", TString); ("liveUntilLedger", TUint32)] [] ""
    false "transfer_ownership" [ECall "AddressToScVal"; ECall "Uint32ToScVal"] RVoid.

Definition data_feeds_cache_RemoveFeedConfigs : Method :=
  mkMethod "RemoveFeedConfigs" [("admin", TString); ("dataIds", TSlice (TArray "32"))] [] ""
    false "remove_feed_configs" [ECall "AddressToScVal"; ECall "Bytes32SliceToScVal"] RVoid.

Definition data_feeds_cache_GetFeedPermissions : Method :=
  mkMethod "GetFeedPermissions" [("dataId", TArray "32")] [TSlice (TNamed "WorkflowPermission")] "nil"
    true "get_feed_permissions" [ECall "Bytes32ToScVal"]
      (RVal (DVec (TNamed "WorkflowPermission") (DStruct "WorkflowPermission"))).

Definition data_feeds_cache_WaitForFeedUpdated : EventHelper :=
  mkEventHelper "FeedUpdated" (mkEventParser
    [(1%nat, "DataId", DCall "Bytes32FromScVal")]
    [("round_id", "RoundId", EvField (DCall "Uint64FromScVal"));
     ("timestamp", "Timestamp", EvField (DCall "Uint64FromScVal"));
     ("answer", "Answer", EvField (DCall "I256FromScVal"));
     ("ledger_seq", "LedgerSeq", EvField (DGet "GetU32"));
     ("primary", "Primary", EvField (DGet "GetB"))]).

Definition data_feeds_cache_WaitForStaleReport : EventHelper :=
  mkEventHelper "StaleReport" (mkEventParser
    [(1%nat, "DataId", DCall "Bytes32FromScVal")]
    [("report_ts", "ReportTs", EvField (DCall "Uint64FromScVal"));
     ("stored_ts", "StoredTs", EvField (DCall "Uint64FromScVal"))]).

Definition data_feeds_cache_WaitForFeedConfigSet : EventHelper :=
  mkEventHelper "FeedConfigSet" (mkEventParser
    [(1%nat, "DataId", DCall "Bytes32FromScVal")]
    [("decimals", "Decimals", EvField (DGet "GetU32"));
     ("description", "Description", EvField (DCall "StringFromScVal"));
     ("workflow_permissions", "WorkflowPermissions", EvVec (TNamed "WorkflowPermission")
       (DStruct "WorkflowPermission") true)]).

Definition data_feeds_cache_WaitForFeedFrozenSet : EventHelper :=
  mkEventHelper "FeedFrozenSet" (mkEventParser
    [(1%nat, "DataId", DCall "Bytes32FromScVal")]
    [("frozen", "Frozen", EvField (DGet "GetB"))]).

Definition data_feeds_cache_WaitForFeedAdminAdded : EventHelper :=
  mkEventHelper "FeedAdminAdded" (mkEventParser
    [(1%nat, "Admin", DCall "AddressFromScVal")]
    []).

Definition data_feeds_cache_WaitForFeedAdminRemoved : EventHelper :=
  mkEventHelper "FeedAdminRemoved" (mkEventParser
    [(1%nat, "Admin", DCall "AddressFromScVal")]
    []).

Definition data_feeds_cache_WaitForFeedConfigRemoved : EventHelper :=
  mkEventHelper "FeedConfigRemoved" (mkEventParser
    [(1%nat, "DataId", DCall "Bytes32FromScVal")]
    []).

Definition data_feeds_cache_WaitForInvalidUpdatePermission : EventHelper :=
  mkEventHelper "InvalidUpdatePermission" (mkEventParser
    [(1%nat, "DataId", DCall "Bytes32FromScVal")]
    [("sender", "Sender", EvField (DCall "AddressFromScVal"));
     ("workflow_owner", "WorkflowOwner", EvField (DCall "Bytes20FromScVal"));
     ("workflow_name", "WorkflowName", EvField (DCall "Bytes10FromScVal"))]).

Definition data_feeds_cache_WaitForUpgraded : EventHelper :=
  mkEventHelper "Upgraded" (mkEventParser
    []
    [("new_wasm_hash", "NewWasmHash", EvField (DCall "Bytes32FromScVal"))]).

Definition data_feeds_cache_WaitForTokenRecovered : EventHelper :=
  mkEventHelper "TokenRecovered" (mkEventParser
    []
    [("token", "Token", EvField (DCall "AddressFromScVal"));
     ("to", "To", EvField (DCall "AddressFromScVal"));
     ("amount", "Amount", EvField (DCall "I128FromScVal"))]).

Definition data_feeds_cache_WaitForOwnershipTransfer : EventHelper :=
  mkEventHelper "OwnershipTransfer" (mkEventParser
    []
    [("old_owner", "OldOwner", EvField (DCall "AddressFromScVal"));
     ("new_owner", "NewOwner", EvField (DCall "AddressFromScVal"));
     ("live_until_ledger", "LiveUntilLedger", EvField (DGet "GetU32"))]).

Definition data_feeds_cache_WaitForOwnershipRenounced : EventHelper :=
  mkEventHelper "OwnershipRenounced" (mkEventParser
    []
    [("old_owner", "OldOwner", EvField (DCall "AddressFromScVal"))]).

Definition data_feeds_cache_WaitForOwnershipTransferCompleted : EventHelper :=
  mkEventHelper "OwnershipTransferCompleted" (mkEventParser
    []
    [("new_owner", "NewOwner", EvField (DCall "AddressFromScVal"))]).

Definition data_feeds_cache_client : ClientFile :=
  mkClientFile "data_feeds_cache" "DataFeedsCache" true true
    [data_feeds_cache_Upgrade; data_feeds_cache_Version; data_feeds_cache_Decimals;
     data_feeds_cache_GetOwner; data_feeds_cache_GetRound; data_feeds_cache_IsFrozen;
     data_feeds_cache_OnReport; data_feeds_cache_FindRound; data_feeds_cache_Description;
     data_feeds_cache_RoundRange; data_feeds_cache_LatestRound; data_feeds_cache_IsConfigured;
     data_feeds_cache_IsFeedAdmin; data_feeds_cache_AddFeedAdmin;
     data_feeds_cache_HasPermission; data_feeds_cache_RecoverTokens;
     data_feeds_cache_SetFeedFrozen; data_feeds_cache_AcceptOwnership;
     data_feeds_cache_SetFeedConfigs; data_feeds_cache_TypeAndVersion;
     data_feeds_cache_RemoveFeedAdmin; data_feeds_cache_RenounceOwnership;
     data_feeds_cache_TransferOwnership; data_feeds_cache_RemoveFeedConfigs;
     data_feeds_cache_GetFeedPermissions]
    [data_feeds_cache_WaitForFeedUpdated; data_feeds_cache_WaitForStaleReport;
     data_feeds_cache_WaitForFeedConfigSet; data_feeds_cache_WaitForFeedFrozenSet;
     data_feeds_cache_WaitForFeedAdminAdded; data_feeds_cache_WaitForFeedAdminRemoved;
     data_feeds_cache_WaitForFeedConfigRemoved; data_feeds_cache_WaitForInvalidUpdatePermission;
     data_feeds_cache_WaitForUpgraded; data_feeds_cache_WaitForTokenRecovered;
     data_feeds_cache_WaitForOwnershipTransfer; data_feeds_cache_WaitForOwnershipRenounced;
     data_feeds_cache_WaitForOwnershipTransferCompleted].

(** ** bindings/contracts/data_feeds_proxy *)

Definition data_feeds_proxy_Round : StructDecl :=
  mkStructDecl "Round"
    [mkMember "answer" "Answer" TBig (EMust "I256ToScVal") (DCall "I256FromScVal");
     mkMember "round_id" "RoundId" TUint64 (ECall "Uint64ToScVal") (DCall "Uint64FromScVal");
     mkMember "timestamp" "Timestamp" TUint64 (ECall "Uint64ToScVal") (DCall "Uint64FromScVal")].

Definition data_feeds_proxy_ProxyReadError : ErrorDecl :=
  mkErrorDecl "ProxyReadError"
    [("ProxyReadErrorNoDataPresent", 50); ("ProxyReadErrorInvalidDecimals", 51);
     ("ProxyReadErrorRoundsToZero", 52)]
    [(50, "no data present"); (51, "invalid decimals"); (52, "rounds to zero")].

Definition data_feeds_proxy_CacheSet : EventDecl :=
  mkEventDecl "CacheSet"
    [("OldCache", TString); ("NewCache", TString); ("Ledger", TUint32); ("TxHash", TString)]
    (Some "CacheSet").

Definition data_feeds_proxy_MinDecimalsSet : EventDecl :=
  mkEventDecl "MinDecimalsSet"
    [("DataId", TArray "32"); ("Min", TUint32); ("Ledger", TUint32); ("TxHash", TString)]
    (Some "MinDecimalsSet").

Definition data_feeds_proxy_Upgraded : EventDecl :=
  mkEventDecl "Upgraded"
    [("NewWasmHash", TArray "32"); ("Ledger", TUint32); ("TxHash", TString)]
    (Some "Upgraded").

Definition data_feeds_proxy_TokenRecovered : EventDecl :=
  mkEventDecl "TokenRecovered"
    [("Token", TString); ("To", TString); ("Amount", TBig); ("Ledger", TUint32);
     ("TxHash", TString)]
    (Some "TokenRecovered").

Definition data_feeds_proxy_OwnershipTransfer : EventDecl :=
  mkEventDecl "OwnershipTransfer"
    [("OldOwner", TString); ("NewOwner", TString); ("LiveUntilLedger", TUint32);
     ("Ledger", TUint32); ("TxHash", TString)]
    (Some "ownership_transfer").

Definition data_feeds_proxy_OwnershipRenounced : EventDecl :=
  mkEventDecl "OwnershipRenounced"
    [("OldOwner", TString); ("Ledger", TUint32); ("TxHash", TString)]
    (Some "ownership_renounced").

Definition data_feeds_proxy_OwnershipTransferCompleted : EventDecl :=
  mkEventDecl "OwnershipTransferCompleted"
    [("NewOwner", TString); ("Ledger", TUint32); ("TxHash", TString)]
    (Some "ownership_transfer_completed").

Definition data_feeds_proxy_types : TypesFile :=
  mkTypesFile "data_feeds_proxy" (mkImports true true true true)
    [data_feeds_proxy_Round]
    [data_feeds_proxy_ProxyReadError]
    [data_feeds_proxy_CacheSet; data_feeds_proxy_MinDecimalsSet; data_feeds_proxy_Upgraded;
     data_feeds_proxy_TokenRecovered; data_feeds_proxy_OwnershipTransfer;
     data_feeds_proxy_OwnershipRenounced; data_feeds_proxy_OwnershipTransferCompleted]
    [].

Definition data_feeds_proxy_Upgrade : Method :=
  mkMethod "Upgrade" [("newWasmHash", TArray "32")] [] ""
    false "upgrade" [ECall "Bytes32ToScVal"] RVoid.

Definition data_feeds_proxy_Version : Method :=
  mkMethod "Version" [] [TUint32] "0"
    true "version" [] (RVal (DGet "GetU32")).

Definition data_feeds_proxy_Decimals : Method :=
  mkMethod "Decimals" [("dataId", TArray "32")] [TUint32] "0"
    true "decimals" [ECall "Bytes32ToScVal"] (RVal (DGet "GetU32")).

Definition data_feeds_proxy_GetCache : Method :=
  mkMethod "GetCache" [] [TString] empty_literal
    true "get_cache" [] (RVal (DCall "AddressFromScVal")).

Definition data_feeds_proxy_GetOwner : Method :=
  mkMethod "GetOwner" [] [TPtr TString] "nil"
    true "get_owner" [] (RVal (DCall "OptionalAddressFromScVal")).

Definition data_feeds_proxy_GetRound : Method :=
  mkMethod "GetRound" [("dataId", TArray "32"); ("roundId", TUint64); ("decimals", TUint32)]
    [TPtr (TNamed "Round")] "nil"
    true "get_round" [ECall "Bytes32ToScVal"; ECall "Uint64ToScVal"; ECall "Uint32ToScVal"]
      (RVal (DStruct "Round")).

Definition data_feeds_proxy_SetCache : Method :=
  mkMethod "SetCache" [("cache", TString)] [] ""
    false "set_cache" [ECall "AddressToScVal"] RVoid.

Definition data_feeds_proxy_Description : Method :=
  mkMethod "Description" [("dataId", TArray "32")] [TString] empty_literal
    true "description" [ECall "Bytes32ToScVal"] (RVal (DCall "StringFromScVal")).

Definition data_feeds_proxy_LatestRound : Method :=
  mkMethod "LatestRound" [("dataId", TArray "32"); ("decimals", TUint32)] [TPtr (TNamed "Round")] "nil"
    true "latest_round" [ECall "Bytes32ToScVal"; ECall "Uint32ToScVal"] (RVal (DStruct "Round")).

Definition data_feeds_proxy_RecoverTokens : Method :=
  mkMethod "RecoverTokens" [("token", TString); ("to", TString); ("amount", TBig)] [] ""
    false "recover_tokens" [ECall "AddressToScVal"; ECall "AddressToScVal"; ECall "I128ToScVal"] RVoid.

Definition data_feeds_proxy_AcceptOwnership : Method :=
  mkMethod "AcceptOwnership" [] [] ""
    false "accept_ownership" [] RVoid.

Definition data_feeds_proxy_GetMinDecimals : Method :=
  mkMethod "GetMinDecimals" [("dataId", TArray "32")] [TUint32] "0"
    true "get_min_decimals" [ECall "Bytes32ToScVal"] (RVal (DGet "GetU32")).

Definition data_feeds_proxy_SetMinDecimals : Method :=
  mkMethod "SetMinDecimals" [("dataId", TArray "32"); ("min", TUint32)] [] ""
    false "set_min_decimals" [ECall "Bytes32ToScVal"; ECall "Uint32ToScVal"] RVoid.

Definition data_feeds_proxy_TypeAndVersion : Method :=
  mkMethod "TypeAndVersion" [] [TString] empty_literal
    true "type_and_version" [] (RVal (DCall "StringFromScVal")).

Definition data_feeds_proxy_RenounceOwnership : Method :=
  mkMethod "RenounceOwnership" [] [] ""
    false "renounce_ownership" [] RVoid.

Definition data_feeds_proxy_TransferOwnership : Method :=
  mkMethod "TransferOwnership" [("newOwner", TString); ("liveUntilLedger", TUint32)] [] ""
    false "transfer_ownership" [ECall "AddressToScVal"; ECall "Uint32ToScVal"] RVoid.

Definition data_feeds_proxy_WaitForCacheSet : EventHelper :=
  mkEventHelper "CacheSet" (mkEventParser
    []
    [("old_cache", "OldCache", EvField (DCall "AddressFromScVal"));
     ("new_cache", "NewCache", EvField (DCall "AddressFromScVal"))]).

Definition data_feeds_proxy_WaitForMinDecimalsSet : EventHelper :=
  mkEventHelper "MinDecimalsSet" (mkEventParser
    [(1%nat, "DataId", DCall "Bytes32FromScVal")]
    [("min", "Min", EvField (DGet "GetU32"))]).

Definition data_feeds_proxy_WaitForUpgraded : EventHelper :=
  mkEventHelper "Upgraded" (mkEventParser
    []
    [("new_wasm_hash", "NewWasmHash", EvField (DCall "Bytes32FromScVal"))]).

Definition data_feeds_proxy_WaitForTokenRecovered : EventHelper :=
  mkEventHelper "TokenRecovered" (mkEventParser
    []
    [("token", "Token", EvField (DCall "AddressFromScVal"));
     ("to", "To", EvField (DCall "AddressFromScVal"));
     ("amount", "Amount", EvField (DCall "I128FromScVal"))]).

Definition data_feeds_proxy_WaitForOwnershipTransfer : EventHelper :=
  mkEventHelper "OwnershipTransfer" (mkEventParser
    []
    [("old_owner", "OldOwner", EvField (DCall "AddressFromScVal"));
     ("new_owner", "NewOwner", EvField (DCall "AddressFromScVal"));
     ("live_until_ledger", "LiveUntilLedger", EvField (DGet "GetU32"))]).

Definition data_feeds_proxy_WaitForOwnershipRenounced : EventHelper :=
  mkEventHelper "OwnershipRenounced" (mkEventParser
    []
    [("old_owner", "OldOwner", EvField (DCall "AddressFromScVal"))]).

Definition data_feeds_proxy_WaitForOwnershipTransferCompleted : EventHelper :=
  mkEventHelper "OwnershipTransferCompleted" (mkEventParser
    []
    [("new_owner", "NewOwner", EvField (DCall "AddressFromScVal"))]).

Definition data_feeds_proxy_client : ClientFile :=
  mkClientFile "data_feeds_proxy" "DataFeedsProxy" true true
    [data_feeds_proxy_Upgrade; data_feeds_proxy_Version; data_feeds_proxy_Decimals;
     data_feeds_proxy_GetCache; data_feeds_proxy_GetOwner; data_feeds_proxy_GetRound;
     data_feeds_proxy_SetCache; data_feeds_proxy_Description; data_feeds_proxy_LatestRound;
     data_feeds_proxy_RecoverTokens; data_feeds_proxy_AcceptOwnership;
     data_feeds_proxy_GetMinDecimals; data_feeds_proxy_SetMinDecimals;
     data_feeds_proxy_TypeAndVersion; data_feeds_proxy_RenounceOwnership;
     data_feeds_proxy_TransferOwnership]
    [data_feeds_proxy_WaitForCacheSet; data_feeds_proxy_WaitForMinDecimalsSet;
     data_feeds_proxy_WaitForUpgraded; data_feeds_proxy_WaitForTokenRecovered;
     data_feeds_proxy_WaitForOwnershipTransfer; data_feeds_proxy_WaitForOwnershipRenounced;
     data_feeds_proxy_WaitForOwnershipTransferCompleted].
