(* ===== verification/RmnRemote.v ===== *)
(** * Governance of a chain: the contracts

    What the governance code relies on of the contracts it calls: the two-step
    ownership of contracts/common/authorization (every contract has it) and the
    curse surface of contracts/rmn_remote, as functions of the decoded arguments
    and of who authorized the invocation.  An error and a trap alike undo the
    invocation: they are [None].

    A [World] is the contracts by their id.  [ground_step] is how it answers the
    requests of Ownership.v, of which each may also fail for reasons of its own
    (an invocation that is reported to fail may have been executed);
    [exec_txs] is the execution of a proposal's transactions by a timelock. *)

From stdpp Require Import list_numbers.
From S2P Require Import Prelude Sdk GoBytes Xdr Scval Interaction GovRefs Ownership.

#[export] Instance AccountId_eq_dec : EqDecision AccountId.
Proof. solve_decision. Defined.
#[export] Instance ClaimableBalanceId_eq_dec : EqDecision ClaimableBalanceId.
Proof. solve_decision. Defined.
#[export] Instance MuxedEd25519Account_eq_dec : EqDecision MuxedEd25519Account.
Proof. solve_decision. Defined.
#[export] Instance MuxedContract_eq_dec : EqDecision MuxedContract.
Proof. solve_decision. Defined.
#[export] Instance ScAddress_eq_dec : EqDecision ScAddress.
Proof. solve_decision. Defined.

(** ** State *)

(** The curse admins and the cursed subjects are those of an RMN Remote. *)
Record Contract := mkContract {
  c_initialized : bool;
  c_owner : option ScAddress;
  c_pending : option ScAddress;
  c_rmn : bool;
  c_curse_admins : list ScAddress;
  c_cursed : option (gmap bytes bool)
}.

Definition set_owner o p (c : Contract) : Contract :=
  mkContract (c_initialized c) o p (c_rmn c) (c_curse_admins c) (c_cursed c).
Definition set_curse_admins l (c : Contract) : Contract :=
  mkContract (c_initialized c) (c_owner c) (c_pending c) (c_rmn c) l (c_cursed c).
Definition set_cursed m (c : Contract) : Contract :=
  mkContract (c_initialized c) (c_owner c) (c_pending c) (c_rmn c) (c_curse_admins c) (Some m).

(** ** Arguments *)

Definition key_ok (k : bytes) : bool :=
  Nat.eqb (length k) 32 && forallb (fun b => (0 <=? b) && (b <? 256)) k.

(** The addresses a contract can hold: accounts and contracts. *)
Definition address_ok (a : ScAddress) : bool :=
  match a with
  | ScAddressTypeAccount (Some (mkAccountId t (Some k))) => (t =? 0) && key_ok k
  | ScAddressTypeContract (Some k) => key_ok k
  | _ => false
  end.

Definition address_arg (v : ScVal) : option ScAddress :=
  match v with ScvAddress (Some a) => if address_ok a then Some a else None | _ => None end.
Definition bytes16_arg (v : ScVal) : option bytes :=
  match v with ScvBytes (Some b) => if Nat.eqb (length b) 16 then Some b else None | _ => None end.
Definition vec_arg {A} (f : ScVal -> option A) (v : ScVal) : option (list A) :=
  match v with ScvVec (Some (Some l)) => mapM f l | _ => None end.

(** ** Entry points *)

Definition address_value (o : option ScAddress) : ScVal :=
  match o with Some a => ScvAddress (Some a) | None => ScvVoid end.

Section Entries.
Variable auth : ScAddress -> bool.

(** [require_owner]. *)
Definition require_owner (c : Contract) : option ScAddress :=
  match c_owner c with Some o => if auth o then Some o else None | None => None end.

Definition transfer_ownership (new_owner : ScAddress) (c : Contract) : option Contract :=
  _ ← require_owner c; Some (set_owner (c_owner c) (Some new_owner) c).

Definition accept_ownership (c : Contract) : option Contract :=
  pending ← c_pending c;
  if auth pending then Some (set_owner (Some pending) None c) else None.

Definition require_can_curse (caller : ScAddress) (c : Contract) : option unit :=
  if decide (c_owner c = Some caller \/ caller ∈ c_curse_admins c)
  then if auth caller then Some tt else None
  else None.

Definition curse_one (m : gmap bytes bool) (subject : bytes) : gmap bytes bool :=
  if default false (m !! subject) then m else <[subject := true]> m.

Definition curse (caller : ScAddress) (subjects : list bytes) (c : Contract) : option Contract :=
  if negb (c_initialized c) then None else
  _ ← require_can_curse caller c;
  m ← c_cursed c;
  Some (set_cursed (foldl curse_one m subjects) c).

Fixpoint uncurse_all (m : gmap bytes bool) (subjects : list bytes) : option (gmap bytes bool) :=
  match subjects with
  | [] => Some m
  | s :: rest => if default false (m !! s) then uncurse_all (delete s m) rest else None
  end.

Definition uncurse (subjects : list bytes) (c : Contract) : option Contract :=
  if negb (c_initialized c) then None else
  _ ← require_owner c;
  m ← c_cursed c;
  m' ← uncurse_all m subjects;
  Some (set_cursed m' c).

Definition remove_admin (admins : list ScAddress) (a : ScAddress) : list ScAddress :=
  filter (fun x => x ≠ a) admins.
Definition add_admin (admins : list ScAddress) (a : ScAddress) : list ScAddress :=
  if decide (a ∈ admins) then admins else admins ++ [a].

Definition apply_curse_admin_updates (added removed : list ScAddress) (c : Contract)
    : option Contract :=
  if negb (c_initialized c) then None else
  _ ← require_owner c;
  Some (set_curse_admins (foldl add_admin (foldl remove_admin (c_curse_admins c) removed) added) c).

Definition get_curse_admins (c : Contract) : option ScVal :=
  if negb (c_initialized c) then None
  else Some (VecToScVal ((fun a => ScvAddress (Some a)) <$> c_curse_admins c)).

(** [is_cursed_by_subject]: the subject or the global one. *)
Definition GLOBAL_CURSE_SUBJECT : bytes := 1 :: replicate 14 0 ++ [1].
Definition is_cursed_by_subject (subject : bytes) (c : Contract) : bool :=
  match c_cursed c with
  | None => false
  | Some m => default false (m !! subject) || default false (m !! GLOBAL_CURSE_SUBJECT)
  end.

Definition void (o : option Contract) : option (ScVal * Contract) := c ← o; Some (ScvVoid, c).

(** The functions of this model; the rest of a contract's interface is not. *)
Definition entry_points : list string :=
  ["owner"; "transfer_ownership"; "accept_ownership"; "curse"; "uncurse";
   "apply_curse_admin_updates"; "get_curse_admins"; "is_cursed_by_subject"].

(** The dispatch, with the conversion of the arguments. *)
Definition rmn_entry (function : string) (args : list ScVal) (c : Contract)
    : option (ScVal * Contract) :=
  if decide (function = "curse") then
    match args with
    | [a; ss] => caller ← address_arg a; subjects ← vec_arg bytes16_arg ss;
                 void (curse caller subjects c)
    | _ => None
    end
  else if decide (function = "uncurse") then
    match args with
    | [ss] => subjects ← vec_arg bytes16_arg ss; void (uncurse subjects c)
    | _ => None
    end
  else if decide (function = "apply_curse_admin_updates") then
    match args with
    | [a; r] => added ← vec_arg address_arg a; removed ← vec_arg address_arg r;
                void (apply_curse_admin_updates added removed c)
    | _ => None
    end
  else if decide (function = "get_curse_admins") then
    match args with [] => v ← get_curse_admins c; Some (v, c) | _ => None end
  else if decide (function = "is_cursed_by_subject") then
    match args with
    | [s] => subject ← bytes16_arg s; Some (ScvBool (Some (is_cursed_by_subject subject c)), c)
    | _ => None
    end
  else None.

Definition entry (function : string) (args : list ScVal) (c : Contract)
    : option (ScVal * Contract) :=
  if decide (function = "owner") then
    match args with [] => Some (address_value (c_owner c), c) | _ => None end
  else if decide (function = "transfer_ownership") then
    match args with
    | [a] => new_owner ← address_arg a; void (transfer_ownership new_owner c)
    | _ => None
    end
  else if decide (function = "accept_ownership") then
    match args with [] => void (accept_ownership c) | _ => None end
  else if c_rmn c then rmn_entry function args c
  else None.

End Entries.

(** ** Answers

    How a state that contracts live in answers: a simulation changes nothing; an
    invocation that is reported to fail may have been executed.  [known] are the
    functions whose simulations the model decides. *)

Definition only (a : ScAddress) : ScAddress -> bool := fun x => bool_decide (x = a).

Definition answers {W} (call : (ScAddress -> bool) -> string -> string -> list ScVal -> W -> option (ScVal * W))
    (known : list string) (signer : ScAddress) (w : W) (r : greq) (w' : W) : gans r -> Prop :=
  match r return gans r -> Prop with
  | SimulateContract cid fn args => fun x => w' = w /\
      match x with
      | Returns v => fn ∈ known ->
          exists r, call (fun _ => true) cid fn args w = Some r /\ v = Some r.1
      | _ => True
      end
  | InvokeContract cid fn args => fun x =>
      (exists v, call (only signer) cid fn args w = Some (v, w') /\ forall o, x = Returns o -> o = Some v) \/
      (is_done x = false /\ w' = w)
  end.

(** ** The contracts of a chain *)

Abbreviation World := (@gmap (list Z) _ (@list_countable Z Z.eq_dec Z_countable) Contract).

Section World.
Context `{Codec}.

Definition call_contract (auth : ScAddress -> bool) (contractID function : string)
    (args : list ScVal) (w : World) : option (ScVal * World) :=
  match strkey_Decode VersionByteContract contractID with
  | Err _ => None
  | Ok id =>
      c ← w !! id;
      r ← entry auth function args c;
      Some (r.1, <[id := r.2]> w)
  end.

Definition ground_step (signer : ScAddress) : World -> forall r : greq, World -> gans r -> Prop :=
  answers call_contract entry_points signer.

(** ** Proposals *)

Definition exec_tx (timelock : ScAddress) (w : World) (tx : Transaction) : option World :=
  match DecodeSorobanMCMSInvokePayload (tx_Data tx) with
  | Returns (fn, args) => snd <$> call_contract (only timelock) (tx_To tx) fn args w
  | _ => None
  end.

Fixpoint exec_txs (timelock : ScAddress) (w : World) (txs : list Transaction) : option World :=
  match txs with
  | [] => Some w
  | tx :: rest => w' ← exec_tx timelock w tx; exec_txs timelock w' rest
  end.

End World.

Abbreviation gtrace := (list (event gans)).
Abbreviation gwp signer := (swp (ground_step signer)).
Definition no_invoke (tr : gtrace) : Prop := Forall (fun e => greq_invokes (ev_req e) = false) tr.
(** Some request of the trace failed. *)
Definition gfailed (tr : gtrace) : Prop :=
  Exists (fun e : event gans => is_done (ev_ans e : outcome (option ScVal)) = false) tr.
