(* ===== verification/RmnLogic.v ===== *)
(** * Governance of a chain: reasoning about calls

    What each call of Ownership.v does on the contracts of RmnRemote.v, in the
    shape the sequences' proofs use, and the names the code knows addresses by. *)

From S2P Require Import Prelude Sdk GoBytes Xdr Scval ScvalProofs Interaction GovRefs Ownership RmnRemote.

(** ** Names *)

Section Names.
Context `{CodecLaws}.

(** The strkey an address is written as, which reads back as the address. *)
Definition names (s : string) (a : ScAddress) : Prop :=
  address_ok a = true /\ ParseAddress s = Some a /\ AddressFromScVal (ScvAddress (Some a)) = Returns s.

Lemma key_ok_is_key k : key_ok k = true -> is_key k.
Proof.
  unfold key_ok, is_key. rewrite andb_true_iff, Nat.eqb_eq, forallb_forall. intros [L F].
  split; [done|]. apply list.Forall_forall. intros b Hb%list_elem_of_In%F. unfold is_byte. lia.
Qed.

Lemma names_exist a : address_ok a = true -> exists s, names s a.
Proof.
  intros Hok. unfold names, address_ok in *.
  assert (P : forall s v, AddressToScVal s = ScvAddress (Some v) -> ParseAddress s = Some v)
    by (unfold AddressToScVal; intros s v [= ->]; done).
  destruct a as [[[t [k|]]|]|[k|]| | | | |]; try done.
  - apply andb_true_iff in Hok as [->%Z.eqb_eq Hk]. apply key_ok_is_key in Hk as Hk'.
    destruct (account_strkey k Hk') as (s & E & A). exists s. split_and!; [by rewrite Hk|by apply P|].
    cbn. by rewrite E.
  - apply key_ok_is_key in Hok as Hk'. destruct (contract_strkey k Hk') as (s & E & A).
    exists s. split_and!; [done|by apply P|]. cbn. by rewrite E.
Qed.

Lemma names_inj s s' a : names s a -> names s' a -> s = s'.
Proof. intros (_ & _ & E) (_ & _ & E'). congruence. Qed.

Lemma names_fun s a a' : names s a -> names s a' -> a = a'.
Proof. intros (_ & E & _) (_ & E' & _). congruence. Qed.

Lemma names_arg s a : names s a -> address_arg (AddressToScVal s) = Some a.
Proof. intros (Hok & P & _). unfold AddressToScVal. rewrite P. simpl. by rewrite Hok. Qed.

Lemma names_ok s a : names s a -> address_ok a = true.
Proof. by intros (? & _). Qed.

Lemma names_args l as_ : Forall2 names l as_ -> vec_arg address_arg (AddressSliceToScVal l) = Some as_.
Proof.
  intros Hl. cbn. apply mapM_Some. apply Forall2_fmap_l. induction Hl as [|s a l as_ Hn _ IH];
    [constructor|]. constructor; [by apply names_arg|done].
Qed.

Lemma bytes16_args l :
  Forall (fun b : bytes => length b = 16%nat) l -> vec_arg bytes16_arg (Bytes16SliceToScVal l) = Some l.
Proof.
  intros Hl. cbn. apply mapM_Some. apply Forall2_fmap_l. induction Hl as [|s l Hn _ IH]; [constructor|].
  constructor; [|done]. cbn. by rewrite Hn.
Qed.

Lemma names_exist_list as_ :
  Forall (fun a => address_ok a = true) as_ -> exists l, Forall2 names l as_.
Proof.
  induction 1 as [|a as_ Ha _ [l Hl]]; [by exists []|].
  destruct (names_exist a Ha) as [s Hs]. exists (s :: l). by constructor.
Qed.

Lemma names_read l as_ :
  Forall2 names l as_ -> mapM_out AddressFromScVal ((fun a => ScvAddress (Some a)) <$> as_) = Returns l.
Proof.
  intros Hl. apply mapM_out_Forall2, Forall2_fmap_l, Forall2_flip.
  eapply Forall2_impl; [|exact Hl]. by intros s a (_ & _ & E).
Qed.

End Names.

(** ** Well-formed contracts *)

Record contract_wf (c : Contract) : Prop := {
  wf_owner : forall a, c_owner c = Some a -> address_ok a = true;
  wf_pending : forall a, c_pending c = Some a -> address_ok a = true;
  wf_admins : Forall (fun a => address_ok a = true) (c_curse_admins c)
}.

Definition world_wf (w : World) : Prop := map_Forall (fun _ => contract_wf) w.

Lemma address_arg_ok v a : address_arg v = Some a -> address_ok a = true.
Proof.
  unfold address_arg. destruct v as [| | | | | | | | | | | | | | | | | |[x|]| | | |]; try done.
  destruct (address_ok x) eqn:E; [|done]. by intros [= ->].
Qed.

Lemma vec_arg_ok v l : vec_arg address_arg v = Some l -> Forall (fun a => address_ok a = true) l.
Proof.
  unfold vec_arg. destruct v as [| | | | | | | | | | | | | | | |[[x|]|]| | | | | |]; try done.
  intros Hm%mapM_Some. apply list.Forall_forall. intros a Ha.
  apply list_elem_of_lookup in Ha as [n Hn].
  destruct (Forall2_lookup_r _ _ _ _ _ Hm Hn) as (y & _ & Hy). by eapply address_arg_ok.
Qed.

Lemma remove_admins_sub admins removed a :
  a ∈ foldl remove_admin admins removed <-> a ∈ admins /\ a ∉ removed.
Proof.
  revert admins. induction removed as [|r removed IH]; intros admins; simpl; [set_solver|].
  rewrite IH. unfold remove_admin. rewrite list_elem_of_filter. set_solver.
Qed.

Lemma add_admins_elem admins added a :
  a ∈ foldl add_admin admins added <-> a ∈ admins \/ a ∈ added.
Proof.
  revert admins. induction added as [|x added IH]; intros admins; simpl; [set_solver|].
  rewrite IH. unfold add_admin. destruct (decide (x ∈ admins)); set_solver.
Qed.

Lemma admins_updated_wf c added removed :
  contract_wf c -> Forall (fun a => address_ok a = true) added ->
  contract_wf (set_curse_admins (foldl add_admin (foldl remove_admin (c_curse_admins c) removed) added) c).
Proof.
  intros [Ho Hp Ha] Hadd. split; simpl; [done..|]. rewrite list.Forall_forall in *.
  intros a [[Hin _]%remove_admins_sub|Hin]%add_admins_elem; auto.
Qed.

(** ** Calls *)

#[local] Arguments AddressToScVal {_} _ : simpl never.
#[local] Arguments AddressSliceToScVal {_} _ : simpl never.
#[local] Arguments Bytes16SliceToScVal _ : simpl never.
#[local] Arguments address_arg _ : simpl never.
#[local] Arguments vec_arg {_} _ _ : simpl never.

Section Calls.
Context `{CodecLaws}.

(** [cid] is the strkey of the contract [c], with the id [id]. *)
Definition located (cid : string) (id : bytes) (c : Contract) (w : World) : Prop :=
  strkey_Decode VersionByteContract cid = Ok id /\ w !! id = Some c.

Lemma call_located auth cid id c w fn args :
  located cid id c w ->
  call_contract auth cid fn args w = (r ← entry auth fn args c; Some (r.1, <[id := r.2]> w)).
Proof. intros [D L]. unfold call_contract. by rewrite D, L. Qed.

Lemma located_insert cid id c c' w : located cid id c w -> located cid id c' (<[id := c']> w).
Proof. intros [D L]. split; [done|]. by rewrite lookup_insert_eq. Qed.

(** An RMN Remote in use. *)
Record rmn_ready (c : Contract) (m : gmap bytes bool) : Prop := {
  ready_rmn : c_rmn c = true;
  ready_init : c_initialized c = true;
  ready_cursed : c_cursed c = Some m
}.

Definition may_curse (a : ScAddress) (c : Contract) : Prop :=
  c_owner c = Some a \/ a ∈ c_curse_admins c.

Definition cursed_with (ss : list bytes) (m : gmap bytes bool) (c : Contract) : Contract :=
  set_cursed (foldl curse_one m ss) c.

Lemma ready_cursed_with ss c m : rmn_ready c m -> rmn_ready (cursed_with ss m c) (foldl curse_one m ss).
Proof. by intros [Hr Hi _]. Qed.

Lemma ready_admins l c m : rmn_ready c m -> rmn_ready (set_curse_admins l c) m.
Proof. by intros [Hr Hi Hm]. Qed.

Lemma ready_owner o p c m : rmn_ready c m -> rmn_ready (set_owner o p c) m.
Proof. by intros [Hr Hi Hm]. Qed.

Lemma only_self a : only a a = true.
Proof. unfold only. by rewrite bool_decide_true. Qed.

Lemma only_true a b : only a b = true -> b = a.
Proof. unfold only. by intros ?%bool_decide_eq_true_1. Qed.

Lemma call_owner auth cid id c w :
  located cid id c w ->
  call_contract auth cid "owner" [] w = Some (address_value (c_owner c), w).
Proof. intros L. rewrite (call_located _ _ _ _ _ _ _ L). simpl. by rewrite insert_id by apply L. Qed.

Lemma call_get_curse_admins auth cid id c m w :
  located cid id c w -> rmn_ready c m ->
  call_contract auth cid "get_curse_admins" [] w
  = Some (VecToScVal ((fun a => ScvAddress (Some a)) <$> c_curse_admins c), w).
Proof.
  intros L [Hr Hi _]. rewrite (call_located _ _ _ _ _ _ _ L). unfold entry, rmn_entry, get_curse_admins.
  simpl. rewrite Hr, Hi. simpl. by rewrite insert_id by apply L.
Qed.

Lemma call_curse cid id c m w s a ss :
  located cid id c w -> rmn_ready c m -> names s a -> may_curse a c ->
  Forall (fun b : bytes => length b = 16%nat) ss ->
  call_contract (only a) cid "curse" [AddressToScVal s; Bytes16SliceToScVal ss] w
  = Some (ScvVoid, <[id := cursed_with ss m c]> w).
Proof.
  intros L [Hr Hi Hm] Hn Hc Hss. rewrite (call_located _ _ _ _ _ _ _ L).
  unfold entry, rmn_entry, curse, require_can_curse. simpl.
  rewrite Hr, (names_arg _ _ Hn), (bytes16_args _ Hss). simpl.
  rewrite Hi, decide_True, only_self, Hm by done. done.
Qed.

Lemma call_uncurse cid id c m w a ss :
  located cid id c w -> rmn_ready c m -> c_owner c = Some a ->
  Forall (fun b : bytes => length b = 16%nat) ss ->
  call_contract (only a) cid "uncurse" [Bytes16SliceToScVal ss] w
  = (m' ← uncurse_all m ss; Some (ScvVoid, <[id := set_cursed m' c]> w)).
Proof.
  intros L [Hr Hi Hm] Ho Hss. rewrite (call_located _ _ _ _ _ _ _ L).
  unfold entry, rmn_entry, uncurse, require_owner. simpl.
  rewrite Hr, (bytes16_args _ Hss). simpl. rewrite Hi, Ho. simpl. rewrite only_self. simpl.
  rewrite Hm. simpl. by destruct (uncurse_all m ss).
Qed.

Lemma call_updates cid id c m w a added added' :
  located cid id c w -> rmn_ready c m -> c_owner c = Some a -> Forall2 names added added' ->
  call_contract (only a) cid "apply_curse_admin_updates"
    [AddressSliceToScVal added; AddressSliceToScVal []] w
  = Some (ScvVoid, <[id := set_curse_admins (foldl add_admin (c_curse_admins c) added') c]> w).
Proof.
  intros L [Hr Hi Hm] Ho Ha. rewrite (call_located _ _ _ _ _ _ _ L).
  unfold entry, rmn_entry, apply_curse_admin_updates, require_owner. simpl.
  rewrite Hr, (names_args _ _ Ha). simpl.
  rewrite Hi, Ho. simpl. by rewrite only_self.
Qed.

Lemma call_transfer cid id c w a s b :
  located cid id c w -> c_owner c = Some a -> names s b ->
  call_contract (only a) cid "transfer_ownership" [AddressToScVal s] w
  = Some (ScvVoid, <[id := set_owner (Some a) (Some b) c]> w).
Proof.
  intros L Ho Hn. rewrite (call_located _ _ _ _ _ _ _ L).
  unfold entry, transfer_ownership, require_owner. simpl.
  rewrite (names_arg _ _ Hn), Ho. simpl. by rewrite only_self.
Qed.

Lemma call_accept cid id c w a :
  located cid id c w -> c_pending c = Some a ->
  call_contract (only a) cid "accept_ownership" [] w
  = Some (ScvVoid, <[id := set_owner (Some a) None c]> w).
Proof.
  intros L Hp. rewrite (call_located _ _ _ _ _ _ _ L). unfold entry, accept_ownership. simpl.
  rewrite Hp. simpl. by rewrite only_self.
Qed.

End Calls.

#[export] Hint Resolve ready_cursed_with ready_admins ready_owner : core.

(** ** Rules *)

(** Between the two traces only simulations happened. *)
Definition quiet_since (tr tr' : gtrace) : Prop := exists ext, tr' = ext ++ tr /\ no_invoke ext.

Lemma quiet_since_refl tr : quiet_since tr tr.
Proof. by exists []; split; [|constructor]. Qed.

Lemma quiet_since_trans tr1 tr2 tr3 :
  quiet_since tr1 tr2 -> quiet_since tr2 tr3 -> quiet_since tr1 tr3.
Proof.
  intros (e1 & -> & H1) (e2 & -> & H2). exists (e2 ++ e1). split; [by rewrite app_assoc|].
  by apply Forall_app_2.
Qed.

Lemma quiet_since_no_invoke tr tr' : quiet_since tr tr' -> no_invoke tr -> no_invoke tr'.
Proof. intros (e & -> & He) Ht. by apply Forall_app_2. Qed.

Lemma quiet_nil tr : quiet_since [] tr -> no_invoke tr.
Proof. intros Hq. eapply quiet_since_no_invoke; [exact Hq|constructor]. Qed.

Lemma quiet_simulate tr c fn args x : quiet_since tr (mkEvent (SimulateContract c fn args) x :: tr).
Proof. exists [mkEvent (SimulateContract c fn args) x]. split; [done|]. by constructor. Qed.

Section Answers.
Context {W : Type} (call : (ScAddress -> bool) -> string -> string -> list ScVal -> W -> option (ScVal * W)).
Context (known : list string) (signer : ScAddress).

Lemma gwp_simulate (cid fn : string) (args : list ScVal) (v : ScVal) (w1 : W) (R : ScVal -> gtrace -> W -> Prop) (E : gtrace -> W -> Prop) (tr : gtrace) (w : W) :
  fn ∈ known -> call (fun _ => true) cid fn args w = Some (v, w1) ->
  (forall tr', quiet_since tr tr' -> R v tr' w) ->
  (forall tr', quiet_since tr tr' -> gfailed tr' -> E tr' w) ->
  swp (answers call known signer) (simulate cid fn args) (post R E) tr w.
Proof.
  intros Hfn Hc HR HE. apply swp_bind. intros x w' [-> Hx]. pose proof (quiet_simulate tr cid fn args x) as Q.
  destruct x as [o|e|]; simpl.
  - destruct (Hx Hfn) as ([v' w''] & Ec & ->). rewrite Hc in Ec. injection Ec as <- <-. simpl. by apply HR.
  - apply HE; [done|by left].
  - apply HE; [done|by left].
Qed.

Lemma gwp_invoke (cid fn : string) (args : list ScVal) (v : ScVal) (w1 : W) (R : unit -> gtrace -> W -> Prop) (E : gtrace -> W -> Prop) (tr : gtrace) (w : W) :
  call (only signer) cid fn args w = Some (v, w1) ->
  (forall tr', R tt tr' w1) ->
  (forall tr' w', gfailed tr' -> w' = w \/ w' = w1 -> E tr' w') ->
  swp (answers call known signer) (invoke cid fn args) (post R E) tr w.
Proof.
  intros Hc HR HE. apply swp_bind. intros x w' Hx.
  assert (Hw : w' = w1 \/ is_done x = false /\ w' = w).
  { destruct Hx as [(v' & Ev & _)|Hx]; [left|by right]. rewrite Hc in Ev. by injection Ev. }
  destruct x as [o|e|]; simpl.
  - destruct Hw as [->|[? _]]; [apply HR|done].
  - apply HE; [by left|]. naive_solver.
  - apply HE; [by left|]. naive_solver.
Qed.

Lemma gwp_invoke_refused (cid fn : string) (args : list ScVal) (R : unit -> gtrace -> W -> Prop) (E : gtrace -> W -> Prop) (tr : gtrace) (w : W) :
  call (only signer) cid fn args w = None ->
  (forall tr', gfailed tr' -> E tr' w) ->
  swp (answers call known signer) (invoke cid fn args) (post R E) tr w.
Proof.
  intros Hc HE. apply swp_bind. intros x w' [(v & Ev & _)|[Hx ->]]; [by rewrite Hc in Ev|].
  destruct x; simpl; [done|apply HE; by left..].
Qed.

End Answers.

Section Rules.
Context `{CodecLaws} `{GovSdk} (signer : ScAddress).

(** A reference to the contract [c]. *)
Record refers (ref : AddressRef) (cid : string) (id : bytes) (c : Contract) (w : World) : Prop := {
  ref_cid : NormalizeContractAddress (ref_Address ref) = Ok cid;
  ref_at : located cid id c w
}.

Lemma gwp_dispatch {A} pre types ref (call : string -> G A) cid id c R E tr w :
  refers ref cid id c w -> ref_Type ref ∈ types ->
  gwp signer (call cid) (post R E) tr w -> gwp signer (dispatch pre types ref call) (post R E) tr w.
Proof.
  intros [Hn _] Ht Hc. apply swp_bind. rewrite Hn. simpl. by rewrite decide_True.
Qed.

Lemma gwp_ContractOwner ref cid id c o s (R : string -> gtrace -> World -> Prop) (E : gtrace -> World -> Prop) (tr : gtrace) (w : World) :
  refers ref cid id c w -> ref_Type ref ∈ ownable_types -> c_owner c = Some o -> names s o ->
  (forall tr', quiet_since tr tr' -> R s tr' w) ->
  (forall tr', quiet_since tr tr' -> gfailed tr' -> E tr' w) ->
  gwp signer (ContractOwner ref) (post R E) tr w.
Proof.
  intros Hr Ht Ho (_ & _ & Hs) HR HE. eapply gwp_dispatch; [done..|].
  apply swp_bind, swp_bind.
  eapply gwp_simulate; [unfold entry_points; set_solver|by eapply call_owner, Hr| |done].
  intros tr' Hq. rewrite Ho. cbn [address_value]. unfold OptionalAddressFromScVal, optional.
  rewrite Hs. simpl. by apply HR.
Qed.

Lemma gwp_CurseAdmins ref cid id c m l (R : list string -> gtrace -> World -> Prop) (E : gtrace -> World -> Prop) (tr : gtrace) (w : World) :
  refers ref cid id c w -> ref_Type ref = rmn_remote_ContractType -> rmn_ready c m ->
  Forall2 names l (c_curse_admins c) ->
  (forall tr', quiet_since tr tr' -> R l tr' w) ->
  (forall tr', quiet_since tr tr' -> gfailed tr' -> E tr' w) ->
  gwp signer (CurseAdmins ref) (post R E) tr w.
Proof.
  intros Hr Ht Hc Hl HR HE. eapply gwp_dispatch; [done|rewrite Ht; set_solver|].
  apply swp_bind. eapply gwp_simulate;
    [unfold entry_points; set_solver|eapply call_get_curse_admins; [apply Hr|done]| |done].
  intros tr' Hq. simpl. rewrite (names_read _ _ Hl). simpl. by apply HR.
Qed.

End Rules.
