(* ===== verification/BindgenProofs.v ===== *)
(** * Generated bindings: what is encoded is decoded

    The Rust types as syntax ([rty]) with the text the parser reads ([print]), the
    interfaces whose types the emitted code handles ([covered]), the values of a
    type ([fits_of]), and the round trip of every declared type
    ([named_roundtrip]).  Then the event parsers: an event whose map and topics carry
    values of the types of its fields is read as exactly those values
    ([event_parses]); and waiting for an event ([wait_for_from]). *)

From stdpp Require Import pretty.
From S2P Require Import Prelude Sdk GoBytes Xdr Scval ScvalProofs TypeConverters EventFields Interaction GovRefs Ownership Bindgen BindgenSem RmnLogic.

(** ** Texts *)

Definition word_char (c : Ascii.ascii) : bool :=
  let n := Ascii.N_of_ascii c in
  ((48 <=? n) && (n <=? 57) || (65 <=? n) && (n <=? 90) || (97 <=? n) && (n <=? 122) || (n =? 95))%N.

Fixpoint all_chars (p : Ascii.ascii -> bool) (s : string) : bool :=
  match s with EmptyString => true | String c r => p c && all_chars p r end.

Definition word : string -> bool := all_chars word_char.
Definition spaceless : string -> bool := all_chars (fun c => negb (is_space c)).

(** A name that a declaration can have. *)
Definition ident (N : string) : bool :=
  word N && negb (bool_decide (N ∈ [""; "u64"; "u32"; "u128"; "i128"; "bool"; "String"]%string)).

Lemma word_char_not_space c : word_char c = true -> is_space c = false.
Proof. destruct c as [[] [] [] [] [] [] [] []]; by vm_compute. Qed.

Lemma word_spaceless s : word s = true -> spaceless s = true.
Proof.
  induction s as [|c r IH]; [done|]. change (word (String c r)) with (word_char c && word r).
  change (spaceless (String c r)) with (negb (is_space c) && spaceless r).
  intros [Hc Hr]%andb_true_iff. by rewrite (word_char_not_space c Hc), IH.
Qed.

Lemma TrimSuffix_app s : TrimSuffix (s +:+ ">") ">" = s.
Proof.
  induction s as [|c r IH]; [done|]. change (String c r +:+ ">") with (String c (r +:+ ">")).
  cbn [TrimSuffix]. rewrite decide_False; [by rewrite IH|]. intros [= _ E]. by destruct r.
Qed.

Lemma spaceless_cons c r : spaceless (String c r) = true -> is_space c = false /\ spaceless r = true.
Proof.
  change (spaceless (String c r)) with (negb (is_space c) && spaceless r).
  rewrite andb_true_iff, negb_true_iff. done.
Qed.

Lemma trim_right_spaceless s : spaceless s = true -> trim_right s = s.
Proof.
  induction s as [|c r IH]; [done|]. intros [Hc Hr]%spaceless_cons. cbn [trim_right]. rewrite (IH Hr), Hc.
  by destruct r.
Qed.

Lemma TrimSpace_spaceless s : spaceless s = true -> TrimSpace s = s.
Proof.
  intros Hs. unfold TrimSpace. replace (trim_left s) with s; [by apply trim_right_spaceless|].
  destruct s as [|c r]; [done|]. apply spaceless_cons in Hs as [Hc _]. cbn [trim_left]. by rewrite Hc.
Qed.

Lemma prefix_word p s : String.prefix p s = true -> word s = true -> word p = true.
Proof.
  revert s. induction p as [|c p IH]; [done|]. intros [|c' s]; simpl; [done|].
  destruct (Ascii.ascii_dec c c') as [->|]; [|done]. intros Hp [Hc Hs]%andb_true_iff.
  apply andb_true_iff. split; [done|]. by apply (IH s).
Qed.

Lemma HasPrefix_word s p : word s = true -> word p = false -> HasPrefix s p = false.
Proof.
  intros Hs Hp. unfold HasPrefix. destruct (String.prefix p s) eqn:E; [|done].
  by rewrite (prefix_word p s E Hs) in Hp.
Qed.

Lemma Contains_word s p : word s = true -> word p = false -> Contains s p = false.
Proof.
  intros Hs Hp. induction s as [|c r IH]; cbn [Contains].
  - fold (HasPrefix "" p). by rewrite HasPrefix_word.
  - change (String.prefix p (String c r)) with (HasPrefix (String c r) p).
    rewrite HasPrefix_word by done. apply IH. by apply andb_true_iff in Hs as [_ ?].
Qed.

(** ** Types *)

Inductive rty :=
| RU64 | RU32 | RU128 | RI128 | RI256 | RBool | RAddress | RBytes | RString | RSymbol
| ROptionAddress
| RBytesN (n : nat)
| RVec (t : rty)
| RNamed (N : string).

Fixpoint print (t : rty) : string :=
  match t with
  | RU64 => "u64" | RU32 => "u32" | RU128 => "u128" | RI128 => "i128" | RI256 => "soroban_sdk::I256"
  | RBool => "bool" | RAddress => "soroban_sdk::Address" | RBytes => "soroban_sdk::Bytes"
  | RString => "soroban_sdk::String" | RSymbol => "soroban_sdk::Symbol"
  | ROptionAddress => "Option<soroban_sdk::Address>"
  | RBytesN n => "soroban_sdk::BytesN<" +:+ pretty (Z.of_nat n) +:+ ">"
  | RVec t => "soroban_sdk::Vec<" +:+ print t +:+ ">"
  | RNamed N => N
  end.

(** ** Interfaces *)

Inductive REnum :=
| RInt (consts : list (string * Z))
| RUnion (variants : list (string * EnumVariantKind * list (string * rty))).

Record Interface := mkInterface {
  r_structs : list (string * list (string * rty));
  r_enums : list (string * REnum)
}.

Definition field_of (f : string * rty) : Field := mkField f.1 (print f.2).
Definition enum_of (e : string * REnum) : Enum :=
  mkEnum e.1
    match e.2 with
    | RInt consts => (fun c => mkEnumVariant c.1 EnumVariantUnit c.2 true []) <$> consts
    | RUnion vs => (fun v => mkEnumVariant v.1.1 v.1.2 0 false (field_of <$> v.2)) <$> vs
    end.
Definition contract_of (i : Interface) : Contract :=
  mkGenContract "" ((fun s => mkStruct s.1 (field_of <$> s.2)) <$> r_structs i) [] [] [] (enum_of <$> r_enums i).

(** The types that the emitted code encodes and decodes, as an item of a vector, as
    the member of a structure, and in the payload of a variant. *)
Section Covered.
Variable names : list string.

Definition covered_item (t : rty) : bool :=
  match t with
  | RU64 | RU32 | RU128 | RI256 | RAddress | RBytes => true
  | RBytesN n => bool_decide (n ∈ slice_sizes)
  | RNamed N => bool_decide (N ∈ names)
  | _ => false
  end.
Definition covered_payload (t : rty) : bool :=
  match t with
  | RU32 | RU64 | RI128 | RU128 | RBool | RAddress | RBytes | RString | RSymbol => true
  | RBytesN n => bool_decide (n ∈ array_sizes)
  | RNamed N => bool_decide (N ∈ names)
  | _ => false
  end.
Definition covered_field (t : rty) : bool :=
  match t with
  | RI256 | ROptionAddress => true
  | RVec t => covered_item t
  | t => covered_payload t
  end.
End Covered.

Definition declared_names (i : Interface) : list string := (fst <$> r_structs i) ++ (fst <$> r_enums i).

Definition distinct (l : list string) : bool := bool_decide (NoDup l).

(** The payload of a variant by the names of its Go members. *)
Definition r_payload (k : EnumVariantKind) (fields : list (string * rty)) : list (string * rty) :=
  match k with
  | EnumVariantUnit => []
  | EnumVariantTuple => imap (fun i f => (tupleFieldName i, f.2)) fields
  | EnumVariantStruct => imap (fun _ f => (snakeToPascal f.1, f.2)) fields
  end.

Definition struct_covered (names : list string) (fields : list (string * rty)) : bool :=
  forallb (fun f => covered_field names f.2) fields &&
  distinct (fst <$> fields) && distinct ((fun f => snakeToPascal f.1) <$> fields).

Definition variant_covered (names : list string) (v : string * EnumVariantKind * list (string * rty)) : bool :=
  let payload := r_payload v.1.2 v.2 in
  forallb (fun f => covered_payload names f.2) payload && distinct (fst <$> payload).

Definition enum_covered (names : list string) (e : REnum) : bool :=
  match e with
  | RInt consts => negb (bool_decide (consts = []))
  | RUnion vs => forallb (variant_covered names) vs && distinct ((fun v => v.1.1) <$> vs)
  end.

Definition covered (i : Interface) : bool :=
  let names := declared_names i in
  forallb ident names &&
  forallb (fun s => struct_covered names s.2) (r_structs i) && forallb (fun e => enum_covered names e.2) (r_enums i).

(** ** Values

    The Go values of a type that a call of the contract can carry: integers in
    range, addresses that are addresses, arrays of their length, and structures with
    the members declared, nested at most [n] deep. *)

Definition lookup_decl {A} (N : string) (l : list (string * A)) : option A :=
  (fun p => p.2.2) <$> list_find (fun p => p.1 = N) l.

Section Fits.
Context `{Codec}.
Variable i : Interface.

Definition fits_address (s : string) : Prop := exists a, RmnLogic.names s a.

Section Of.
Variable named : string -> gval -> Prop.
Fixpoint fits_of (t : rty) (v : gval) : Prop :=
  match t, v with
  | RU64, GUint64 z => is_u64 z
  | RU32, GUint32 z => is_u32 z
  | RU128, GU128 _ => True
  | RI128, GBig (Some z) => - 2 ^ 127 < z < 2 ^ 127
  | RI256, GBig (Some z) => minI256 <= z <= maxI256
  | RBool, GBool _ => True
  | RAddress, GString s => fits_address s
  | ROptionAddress, GPtr None => True
  | ROptionAddress, GPtr (Some (GString s)) => fits_address s
  | RBytes, GBytes _ => True
  | RString, GString _ => True
  | RSymbol, GString _ => True
  | RBytesN n, GArray b => length b = n
  | RVec t, GSlice l => Forall (fits_of t) l
  | RNamed N, v => named N v
  | _, _ => False
  end.

(** A structure with these members. *)
Definition fits_members (rs : list (string * rty)) (fs : list (string * gval)) : Prop :=
  fs.*1 = rs.*1 /\ Forall2 (fun r f => fits_of r.2 f.2) rs fs.
End Of.

Fixpoint fits_named (n : nat) (N : string) (v : gval) : Prop :=
  match n with
  | O => False
  | S n =>
      match lookup_decl N (r_structs i), lookup_decl N (r_enums i) with
      | Some fields, _ =>
          exists fs, v = GStruct fs /\
            fits_members (fits_named n) ((fun f => (snakeToPascal f.1, f.2)) <$> fields) fs
      | None, Some (RInt _) => exists z, v = GUint32 z /\ is_u32 z
      | None, Some (RUnion vs) =>
          exists name k fields payload, (name, k, fields) ∈ vs /\
            fits_members (fits_named n) (r_payload k fields) payload /\
            v = GStruct ((fun d => (d.1.1, GPtr (if decide (d.1.1 = name) then Some (GStruct payload) else None))) <$> vs)
      | None, None => False
      end
  end.

End Fits.

(** ** What is emitted for a type *)

Lemma ident_ne N s : ident N = true -> ident s = false -> N <> s.
Proof. congruence. Qed.

Lemma ident_word N : ident N = true -> word N = true.
Proof. unfold ident. by intros [? _]%andb_true_iff. Qed.

(** The comparisons of a declared name with the texts of the other types. *)
Ltac skip_ident :=
  repeat first
    [ rewrite decide_False by (apply ident_ne; [assumption|reflexivity])
    | rewrite HasPrefix_word by (first [by apply ident_word | reflexivity])
    | rewrite Contains_word by (first [by apply ident_word | reflexivity]) ].

Section Named.
Variable N : string.
Context (HN : ident N = true).

Lemma extract_ident : extractStructName N = N.
Proof. unfold extractStructName. by rewrite Contains_word by (first [by apply ident_word | reflexivity]). Qed.

Lemma to_converter_ident : to_converter N = EMethod.
Proof. unfold to_converter, is_option_address. by skip_ident. Qed.

Lemma declared_ident known :
  declared known N = DEnum N \/ declared known N = DStruct N.
Proof. unfold declared. rewrite extract_ident. destruct (isEnumType known N); auto. Qed.

Lemma field_ident known : generateFromScValField known N = declared known N.
Proof. unfold generateFromScValField, is_option_address. by skip_ident. Qed.

Lemma payload_ident known : generatePayloadFromScVal known N = declared known N.
Proof. unfold generatePayloadFromScVal. by skip_ident. Qed.

Lemma size_ident : extractBytesNSize N = 0.
Proof. unfold extractBytesNSize. by rewrite HasPrefix_word by (first [by apply ident_word | reflexivity]). Qed.

Lemma vec_item_ident known : generateVecItemParse known N = declared known N.
Proof. unfold generateVecItemParse, is_option_address. skip_ident. by rewrite size_ident. Qed.

Lemma event_field_ident known : generateEventFieldParsing known N = EvField (declared known N).
Proof. unfold generateEventFieldParsing, is_option_address. by skip_ident. Qed.

Lemma vec_converter_ident : vec_converter N = ECall "StructSliceToScVal".
Proof. unfold vec_converter. skip_ident. by rewrite size_ident. Qed.

Lemma go_type_ident n : go_type (S n) N = TNamed N.
Proof. cbn [go_type]. unfold scalar_type. skip_ident. by rewrite extract_ident. Qed.

End Named.

Section Vec.
Variable X : string.
Context (HX : spaceless X = true).
Let T := "soroban_sdk::Vec<" +:+ X +:+ ">".

Lemma inner_of_vec : extractVecInnerType T = X.
Proof. unfold extractVecInnerType, T. rewrite TrimPrefix_app, TrimSuffix_app. by apply TrimSpace_spaceless. Qed.

Lemma HasPrefix_vec : HasPrefix T "soroban_sdk::Vec<" = true.
Proof. apply prefix_app. Qed.

(** The comparisons of a vector's text with the texts of the other types. *)
Ltac skip_vec :=
  repeat first
    [ rewrite decide_False by (unfold T; discriminate)
    | progress (change (HasPrefix T "Option<") with false; cbn [andb]); cbv beta iota
    | progress (change (HasPrefix T "soroban_sdk::BytesN<") with false; cbn [andb]); cbv beta iota
    | rewrite HasPrefix_vec ];
  rewrite inner_of_vec.

Lemma to_converter_vec : to_converter T = vec_converter X.
Proof. unfold to_converter, is_option_address. by skip_vec. Qed.

Lemma field_vec known :
  exists elem, generateFromScValField known T = DVec elem (generateVecItemParse known X).
Proof. unfold generateFromScValField, is_option_address. skip_vec. by eexists. Qed.

Lemma event_field_vec known : generateEventFieldParsing known T = event_vec known T X.
Proof. unfold generateEventFieldParsing, is_option_address. by skip_vec. Qed.

Lemma go_type_vec n : go_type (S n) T = TSlice (go_type n X).
Proof. cbn [go_type]. unfold scalar_type. by skip_vec. Qed.

End Vec.

(** ** Lists of values *)

Lemma mapM_may_Forall2 {A B} (f : A -> may B) l bs :
  Forall2 (fun a b => f a = Some (Returns b)) l bs -> mapM_may f l = Some (Returns bs).
Proof. induction 1 as [|a b l bs Ha _ IH]; [done|]. cbn. rewrite Ha. cbn. by rewrite IH. Qed.

Lemma mapM_may_ext {A B} (f g : A -> may B) l : (forall a, f a = g a) -> mapM_may f l = mapM_may g l.
Proof. intros Hfg. induction l as [|a l IH]; [done|]. cbn. by rewrite Hfg, IH. Qed.

Lemma mapM_may_total {A B C} (f : A -> may B) (g : B -> may C) (h : A -> C) l :
  Forall (fun a => exists b, f a = Some (Returns b) /\ g b = Some (Returns (h a))) l ->
  exists bs, mapM_may f l = Some (Returns bs) /\ Forall2 (fun b a => g b = Some (Returns (h a))) bs l.
Proof.
  induction 1 as [|a l (b & Hf & Hg) _ (bs & E & Hbs)]; [by exists []|].
  exists (b :: bs). split; [|by constructor]. cbn. rewrite Hf. cbn. by rewrite E.
Qed.

Lemma Forall_image {A B} (P : B -> Prop) (Q : A -> Prop) (f : A -> B) l :
  (forall b, P b -> exists a, b = f a /\ Q a) -> Forall P l -> exists l', l = f <$> l' /\ Forall Q l'.
Proof.
  intros HP. induction 1 as [|b l Hb _ (l' & -> & Hl')]; [by exists []|].
  destruct (HP b Hb) as (a & -> & Ha). exists (a :: l'). by split; [|constructor].
Qed.

Lemma mapM_fmap_Some {A B} (f : A -> B) (g : B -> option A) l :
  (forall a, g (f a) = Some a) -> mapM g (f <$> l) = Some l.
Proof. intros Hg. apply mapM_Some, Forall2_fmap_l, Forall_Forall2_diag. by apply Forall_true. Qed.

Lemma find_name {A} (name : A -> string) (l : list A) (a : A) :
  NoDup (name <$> l) -> a ∈ l -> exists j, list_find (fun b => name b = name a) l = Some (j, a).
Proof.
  intros Hn Ha. apply list_elem_of_lookup in Ha as [j Hj]. exists j. apply list_find_Some.
  split_and!; [done..|]. intros k b Hk Hlt E.
  assert (k = j); [|lia]. eapply (NoDup_lookup _ _ _ (name a) Hn); by rewrite list_lookup_fmap, ?Hk, ?Hj, ?E; cbn; f_equal.
Qed.

Lemma same_name {A} (name : A -> string) (l : list A) (a b : A) :
  NoDup (name <$> l) -> a ∈ l -> b ∈ l -> name a = name b -> a = b.
Proof.
  intros Hn Ha Hb E. destruct (find_name name l a Hn Ha) as [j Hj], (find_name name l b Hn Hb) as [k Hk].
  rewrite E in Hj. congruence.
Qed.

Lemma Forall2_imap {A B C} (R : B -> C -> Prop) (f : nat -> A -> B) (g : nat -> A -> C) l :
  (forall j a, a ∈ l -> R (f j a) (g j a)) -> Forall2 R (imap f l) (imap g l).
Proof.
  revert f g. induction l as [|a l IH]; intros f g Hr; [constructor|]. cbn. constructor.
  - apply Hr. left.
  - apply IH. intros j b Hb. apply Hr. by right.
Qed.

(** The variant that is set. *)
Lemma chosen_union vs vd payload :
  NoDup (vd_Name <$> vs) -> vd ∈ vs ->
  exists fs, union_value vs (vd_Name vd) payload = GStruct fs /\ chosen vs fs = [(vd, payload)].
Proof.
  intros Hn Hvd. eexists. split; [reflexivity|]. unfold chosen.
  set (g := fun d => (vd_Name d, GPtr (if decide (vd_Name d = vd_Name vd) then Some (GStruct payload) else None))).
  assert (Hg : NoDup (g <$> vs).*1) by (by rewrite <- list_fmap_compose).
  assert (L : forall d, d ∈ vs -> list_to_map (M := gmap string gval) (g <$> vs) !! vd_Name d = Some (g d).2)
    by (intros d Hd; apply elem_of_list_to_map_1; [done|]; exact (list_elem_of_fmap_2 g vs d Hd)).
  revert L. generalize (g <$> vs) as fs. clear Hg. subst g. cbn [snd]. intros fs L.
  induction vs as [|d vs IH]; [by apply not_elem_of_nil in Hvd|].
  rewrite fmap_cons in Hn. apply list.NoDup_cons in Hn as [Hd Hn]. cbn [omap list_omap].
  rewrite L by left. destruct (decide (vd_Name d = vd_Name vd)) as [E|E].
  - assert (d = vd) as -> by (apply (same_name vd_Name (d :: vs)); [by apply list.NoDup_cons|left|done|done]).
    f_equal. clear IH Hvd. assert (Ho : forall d, d ∈ vs -> vd_Name d <> vd_Name vd).
    { intros d Hd' E'. apply Hd. rewrite <- E'. by apply list_elem_of_fmap_2. }
    clear Hd Hn. induction vs as [|d vs IH]; [done|]. cbn [omap list_omap].
    rewrite L by (right; left). rewrite decide_False by (apply Ho; left). apply IH.
    + intros d' Hd'. apply L. set_solver.
    + intros d' Hd'. apply Ho. by right.
  - apply IH; [done| |]. 
    + by apply elem_of_cons in Hvd as [->|].
    + intros d' Hd'. apply L. by right.
Qed.

Section Values.
Context `{CodecLaws}.

Lemma loop_items item xs vs :
  Forall2 (fun x v => item x = Some (Returns v)) xs vs -> loop item (VecToScVal xs) = Some (Returns (GSlice vs)).
Proof. intros Hv%mapM_may_Forall2. cbn. by rewrite Hv. Qed.

(** The loop over a vector of encoded items. *)
Lemma loop_image {A} (Q : A -> Prop) (f : A -> gval) (enc : A -> ScVal) item l :
  (forall a, Q a -> item (enc a) = Some (Returns (f a))) -> Forall Q l ->
  loop item (VecToScVal (enc <$> l)) = Some (Returns (GSlice (f <$> l))).
Proof.
  intros Hi Hl. apply loop_items. apply Forall2_fmap_l, Forall2_fmap_r, Forall_Forall2_diag.
  eapply list.Forall_impl; [exact Hl|]. auto.
Qed.

Lemma I128_reads z :
  - 2 ^ 127 < z < 2 ^ 127 -> exists x, I128ToScVal (Some z) = Returns x /\ I128FromScVal x = Returns z.
Proof.
  intros Hz. eexists. split; [apply I128ToScVal_eq; lia|]. cbn. rewrite words_value by goint.
  f_equal. assert (Hhi : i64 (z / two64) = z / two64) by (apply i64_id; goint). rewrite Hhi. goint.
Qed.

Lemma I256_reads z :
  minI256 <= z <= maxI256 -> exists x, I256ToScVal (Some z) = Ok x /\ I256FromScVal x = Returns z.
Proof.
  intros Hz. eexists. split; [by apply I256ToScVal_eq|].
  rewrite I256FromScVal_parts256 by auto using put_be_bytes, put_be_length. by rewrite signed256_put.
Qed.

Lemma I256s_read zs :
  Forall (fun z => minI256 <= z <= maxI256) zs ->
  exists xs, I256SliceToScVal (Some <$> zs) = Ok (VecToScVal xs) /\
    Forall2 (fun x z => I256FromScVal x = Returns z) xs zs.
Proof.
  intros Hz. unfold I256SliceToScVal. generalize 0%nat as j. induction Hz as [|z zs Hz _ IH]; intros j.
  - by exists [].
  - destruct (I256_reads z Hz) as (x & E & R). destruct (IH (S j)) as (xs & Exs & F).
    exists (x :: xs). split; [|by constructor]. cbn. rewrite E. cbn in Exs |- *.
    destruct (mapM_res _ _ _) as [l|]; [|done]. by injection Exs as ->.
Qed.

Lemma address_reads s : fits_address s -> AddressFromScVal (AddressToScVal s) = Returns s.
Proof. intros (a & _ & P & E). unfold AddressToScVal. by rewrite P. Qed.

(** ** Conversions of the covered types

    For declared types that survive, the values of a covered type do. *)

Section Survive.
Variable to : string -> gval -> may ScVal.
Variable from : string -> ScVal -> may gval.
Variable named : string -> gval -> Prop.
Variable known : gmap string bool.
Variable names : list string.
Context (Hnames : Forall (fun N => ident N = true) names).
Context (Hnamed : forall N v, named N v -> exists x, to N v = Some (Returns x) /\ from N x = Some (Returns v)).

Definition survives (t : rty) (e : enc) (d : dec) : Prop :=
  forall v, fits_of named t v ->
  exists x, run_enc to (rustTypeToGo (print t)) e v = Some (Returns x) /\ run_dec from d x = Some (Returns v).

Lemma names_ident N : bool_decide (N ∈ names) = true -> ident N = true.
Proof. intros HN%bool_decide_eq_true. by eapply list.Forall_forall in Hnames. Qed.

Lemma run_declared N x : run_dec from (declared known N) x = from (extractStructName N) x.
Proof. unfold declared. by destruct (isEnumType known N). Qed.

Lemma named_survives N : ident N = true -> survives (RNamed N) EMethod (declared known N).
Proof.
  intros HN v Hv. destruct (Hnamed N v Hv) as (x & T & F). exists x.
  rewrite run_declared, extract_ident by done. split; [|done]. unfold rustTypeToGo.
  cbn [print]. rewrite go_type_ident by done. cbn. by rewrite T.
Qed.

Lemma u64_reads (z : Z) : is_u64 z -> Some (Returns (GUint64 (u64 z))) = Some (Returns (GUint64 z)).
Proof. intros. by rewrite u64_id. Qed.
Lemma u32_reads (z : Z) : is_u32 z -> Some (Returns (GUint32 (u32 z))) = Some (Returns (GUint32 z)).
Proof. intros. by rewrite u32_id. Qed.

Ltac scalar :=
  intros []; try done; intros Hv; eexists; (split; [reflexivity|]);
  first [reflexivity | exact (u64_reads _ Hv) | exact (u32_reads _ Hv)].

Lemma address_decoded s : fits_address s ->
  pkg_from "AddressFromScVal" (AddressToScVal s) = Some (Returns (GString s)).
Proof.
  intros Hs. transitivity (Some (GString <$> AddressFromScVal (AddressToScVal s))); [reflexivity|].
  by rewrite address_reads.
Qed.

Lemma address_survives : survives RAddress (ECall "AddressToScVal") (DCall "AddressFromScVal").
Proof. intros []; try done. intros Hv. eexists. split; [reflexivity|by apply address_decoded]. Qed.

Lemma sized_survives n :
  n ∈ array_sizes -> survives (RBytesN n) (ECall (bytesN_fn (Z.of_nat n) "ToScVal")) (DCall (bytesN_fn (Z.of_nat n) "FromScVal")).
Proof.
  intros Hn v. destruct v as [| | | | | | |b| | |]; try done. intros Hl. cbn in Hl. exists (BytesToScVal b).
  assert (E : Nat.eqb (length b) n = true) by (by apply Nat.eqb_eq).
  assert (F : Some (GArray <$> bytesNFromScVal (BytesToScVal b) n) = Some (Returns (GArray b)))
    by (cbn; by rewrite E).
  unfold array_sizes in Hn. set_unfold.
  destruct Hn as [->|[->|[->|[->|[->|[->|[->|[]]]]]]]];
    (split; [|exact F]; match type of E with ?c = _ => transitivity (total (if c then Some (BytesToScVal b) else None)) end;
       [reflexivity|by rewrite E]).
Qed.

Lemma sized_emitted n :
  n ∈ array_sizes ->
  let e := ECall (bytesN_fn (Z.of_nat n) "ToScVal") in
  let d := DCall (bytesN_fn (Z.of_nat n) "FromScVal") in
  to_converter (print (RBytesN n)) = e /\ generatePayloadFromScVal known (print (RBytesN n)) = d /\
  generateFromScValField known (print (RBytesN n)) = d /\ generateVecItemParse known (print (RBytesN n)) = d.
Proof.
  unfold array_sizes. intros Hn. set_unfold.
  destruct Hn as [->|[->|[->|[->|[->|[->|[->|[]]]]]]]]; by vm_compute.
Qed.

Lemma payload_survives t :
  covered_payload names t = true ->
  survives t (to_converter (print t)) (generatePayloadFromScVal known (print t)).
Proof.
  destruct t as [| | | | | | | | | | |n| |N]; try done; intros Hc.
  1-3, 5, 7-9: scalar.
  - intros v Hv. destruct v as [| | |[z|]| | | | | | |]; try done.
    destruct (I128_reads z Hv) as (x & E & R). exists x. split.
    + transitivity (Some (I128ToScVal (Some z))); [reflexivity|by rewrite E].
    + transitivity (Some ((fun z => GBig (Some z)) <$> I128FromScVal x)); [reflexivity|by rewrite R].
  - by apply address_survives.
  - apply bool_decide_eq_true in Hc.
    destruct (sized_emitted n Hc) as (-> & -> & _). by apply sized_survives.
  - apply names_ident in Hc. cbn [print]. rewrite to_converter_ident, payload_ident by done.
    by apply named_survives.
Qed.

(** A slice that the package converts item by item. *)
Lemma slice_survives {A} (Q : A -> Prop) (f : A -> gval) (conv : A -> ScVal) (unpack : list gval -> option (list A))
    (t : rty) (e : enc) (elem : gtype) (item : dec) :
  (forall v, fits_of named t v -> exists a, v = f a /\ Q a) ->
  (forall l T, run_enc to T e (GSlice l) = total ((fun xs => VecToScVal (conv <$> xs)) <$> unpack l)) ->
  (forall xs, Forall Q xs -> unpack (f <$> xs) = Some xs) ->
  (forall a, Q a -> run_dec from item (conv a) = Some (Returns (f a))) ->
  survives (RVec t) e (DVec elem item).
Proof.
  intros Ht He Hu Hi v. destruct v as [| | | | | | | | |l|]; try done. intros Hl.
  destruct (Forall_image _ Q f l Ht Hl) as (xs & -> & Hxs). exists (VecToScVal (conv <$> xs)).
  rewrite He, Hu by done. split; [done|]. exact (loop_image Q f conv (run_dec from item) xs Hi Hxs).
Qed.

(** A slice whose items convert themselves. *)
Lemma methods_survive (t : rty) (elem : gtype) (item : dec) (T : gtype) :
  rustTypeToGo (print (RVec t)) = TSlice T ->
  (forall v, fits_of named t v ->
     exists x, method to T v = Some (Returns x) /\ run_dec from item x = Some (Returns v)) ->
  survives (RVec t) (ECall "StructSliceToScVal") (DVec elem item).
Proof.
  intros HT Hm v Hl. rewrite HT. destruct v as [| | | | | | | | |l|]; try (exfalso; exact Hl).
  destruct (mapM_may_total (fun x => must (method to T x)) (run_dec from item) id l) as (xs & E & F).
  { eapply list.Forall_impl; [exact Hl|]. intros v Hv. destruct (Hm v Hv) as (x & Hx & Hd).
    exists x. split; [|exact Hd]. rewrite Hx. exact eq_refl. }
  exists (VecToScVal xs). split; [cbn; by rewrite E|]. by apply loop_items.
Qed.

Lemma I256s_survive (elem : gtype) :
  survives (RVec RI256) (EMust "I256SliceToScVal") (DVec elem (DCall "I256FromScVal")).
Proof.
  intros v Hl. destruct v as [| | | | | | | | |l|]; try (exfalso; exact Hl).
  destruct (Forall_image (fits_of named RI256) (fun z => minI256 <= z <= maxI256) (fun z => GBig (Some z)) l) with (2 := Hl)
    as (zs & -> & Hzs).
  { intros [| | |[z|]| | | | | | |] Hb; try done. by exists z. }
  destruct (I256s_read zs Hzs) as (xs & E & F). exists (VecToScVal xs). split.
  - transitivity (must (option_bind _ _ (fun zs' => Some (out_of_res (I256SliceToScVal zs')))
                          (bigs_of ((fun z => GBig (Some z)) <$> zs)))).
    + reflexivity.
    + replace (bigs_of _) with (Some (Some <$> zs)); [cbn; by rewrite E|]. symmetry.
      rewrite (list_fmap_compose Some GBig). by apply mapM_fmap_Some.
  - apply loop_items. apply Forall2_fmap_r. eapply Forall2_impl; [|exact F]. intros x z R.
    transitivity (Some ((fun z => GBig (Some z)) <$> I256FromScVal x)); [reflexivity|by rewrite R].
Qed.

Lemma item_spaceless t : covered_item names t = true -> spaceless (print t) = true.
Proof.
  destruct t as [| | | | | | | | | | |n| |N]; try done; intros Hc; cbn [covered_item] in Hc.
  - unfold slice_sizes in Hc. apply bool_decide_eq_true in Hc. set_unfold.
    by destruct Hc as [->|[->|[->|[]]]].
  - by apply word_spaceless, ident_word, names_ident.
Qed.

Lemma go_vec t : covered_item names t = true ->
  exists n, rustTypeToGo (print (RVec t)) = TSlice (go_type (S n) (print t)).
Proof.
  intros Hc%item_spaceless. unfold rustTypeToGo. cbn [print]. rewrite go_type_vec by done.
  by eexists.
Qed.

Lemma slice_array n : n ∈ slice_sizes -> n ∈ array_sizes.
Proof. unfold slice_sizes, array_sizes. set_unfold. intros [->|[->|[->|[]]]]; auto 10. Qed.

Lemma arrays_survive n (elem : gtype) :
  n ∈ slice_sizes ->
  survives (RVec (RBytesN n)) (ECall (bytesN_fn (Z.of_nat n) "SliceToScVal"))
    (DVec elem (DCall (bytesN_fn (Z.of_nat n) "FromScVal"))).
Proof.
  intros Hn. apply (slice_survives (fun b => length b = n) GArray BytesToScVal (arrays_of n)).
  - intros [] Hv; try (exfalso; exact Hv). by eexists.
  - unfold slice_sizes in Hn. set_unfold. by destruct Hn as [->|[->|[->|[]]]].
  - intros xs Hxs. apply mapM_Some, Forall2_fmap_l, Forall_Forall2_diag.
    eapply list.Forall_impl; [exact Hxs|]. intros b Hb. cbn. by rewrite Hb, Nat.eqb_refl.
  - intros b Hb. transitivity (Some (GArray <$> bytesNFromScVal (BytesToScVal b) n)).
    + unfold slice_sizes in Hn. set_unfold. by destruct Hn as [->|[->|[->|[]]]].
    + cbn. by rewrite Hb, Nat.eqb_refl.
Qed.

Ltac image := intros [] Hv; try (exfalso; exact Hv); by eexists.

Lemma vec_survives t :
  covered_item names t = true ->
  survives (RVec t) (to_converter (print (RVec t))) (generateFromScValField known (print (RVec t))).
Proof.
  intros Hc. pose proof (item_spaceless t Hc) as Hs. destruct (go_vec t Hc) as [n Hgo].
  destruct (field_vec (print t) Hs known) as [elem Hd].
  change (print (RVec t)) with ("soroban_sdk::Vec<" +:+ print t +:+ ">") at 1 2.
  rewrite to_converter_vec, Hd by done. clear Hd.
  destruct t as [| | | | | | | | | | |m| |N]; try (exfalso; exact (diff_false_true Hc)).
  - apply (slice_survives is_u64 GUint64 Uint64ToScVal uint64s_of); [image|done|..].
    + intros. by apply mapM_fmap_Some.
    + intros z Hz. exact (u64_reads z Hz).
  - apply (slice_survives is_u32 GUint32 Uint32ToScVal uint32s_of); [image|done|..].
    + intros. by apply mapM_fmap_Some.
    + intros z Hz. exact (u32_reads z Hz).
  - eapply methods_survive; [exact Hgo|]. image.
  - apply I256s_survive.
  - apply (slice_survives fits_address GString AddressToScVal strings_of); [image|done|..].
    + intros. by apply mapM_fmap_Some.
    + exact address_decoded.
  - apply (slice_survives (fun _ => True) GBytes BytesToScVal bytes_of); [image|done|..].
    + intros. by apply mapM_fmap_Some.
    + done.
  - cbn [covered_item] in Hc. apply bool_decide_eq_true in Hc.
    assert (Ha : m ∈ array_sizes) by (by apply slice_array).
    destruct (sized_emitted m Ha) as (_ & _ & _ & ->).
    replace (vec_converter _) with (ECall (bytesN_fn (Z.of_nat m) "SliceToScVal")); [by apply arrays_survive|].
    unfold slice_sizes in Hc. set_unfold. by destruct Hc as [->|[->|[->|[]]]].
  - cbn [covered_item] in Hc. apply names_ident in Hc. cbn [print].
    rewrite vec_converter_ident, vec_item_ident by done. eapply methods_survive.
    + rewrite Hgo. cbn [print]. by rewrite go_type_ident.
    + intros v Hv. destruct (Hnamed N v Hv) as (x & T & F). exists x. split; [done|].
      by rewrite run_declared, extract_ident.
Qed.

(** A member decodes as a payload does. *)
Lemma field_is_payload t :
  covered_payload names t = true ->
  generateFromScValField known (print t) = generatePayloadFromScVal known (print t).
Proof.
  destruct t as [| | | | | | | | | | |n| |N]; intros Hc;
    first [exfalso; exact (diff_false_true Hc) | reflexivity | idtac].
  apply names_ident in Hc. cbn [print]. by rewrite field_ident, payload_ident.
Qed.

Lemma I256_survives : survives RI256 (EMust "I256ToScVal") (DCall "I256FromScVal").
Proof.
  intros [| | |[z|]| | | | | | |] Hv; try (exfalso; exact Hv).
  destruct (I256_reads z Hv) as (x & E & R). exists x. split.
  - transitivity (must (Some (out_of_res (I256ToScVal (Some z))))); [reflexivity|by rewrite E].
  - transitivity (Some ((fun z => GBig (Some z)) <$> I256FromScVal x)); [reflexivity|by rewrite R].
Qed.

Lemma option_address_survives :
  survives ROptionAddress (ECall "OptionalAddressToScVal") (DCall "OptionalAddressFromScVal").
Proof.
  intros v Hv. destruct v as [| | | | | | | |[[| | | | |s| | | | |]|]| |]; try (exfalso; exact Hv).
  - exists (AddressToScVal s). split; [reflexivity|].
    transitivity (Some ((fun o => GPtr (GString <$> o)) <$>
      (a ← AddressFromScVal (AddressToScVal s); Returns (Some a) : outcome _))); [reflexivity|].
    by rewrite address_reads.
  - by exists ScvVoid.
Qed.

Lemma field_survives t :
  covered_field names t = true ->
  survives t (to_converter (print t)) (generateFromScValField known (print t)).
Proof.
  intros Hc. destruct t as [| | | | | | | | | | |n|t|N];
    try (rewrite field_is_payload by exact Hc; apply payload_survives; exact Hc).
  - exact I256_survives.
  - exact option_address_survives.
  - by apply vec_survives.
Qed.

(** *** Members *)

Definition members_match (ms : list Member) (rs : list (string * rty)) : Prop :=
  Forall2 (fun m r => m_Go m = r.1 /\ m_Type m = rustTypeToGo (print r.2) /\ survives r.2 (m_To m) (m_From m)) ms rs.

(** A member and the value it has. *)
Definition converts (m : Member) (f : string * gval) : Prop :=
  m_Go m = f.1 /\
  exists x, run_enc to (m_Type m) (m_To m) f.2 = Some (Returns x) /\ run_dec from (m_From m) x = Some (Returns f.2).

Lemma members_convert ms rs fs :
  members_match ms rs -> fits_members named rs fs -> Forall2 converts ms fs.
Proof.
  intros Hm [Hfst Hfs]. revert ms Hm Hfst. induction Hfs as [|r f rs fs Hf _ IH]; intros ms Hm Hfst.
  - inversion Hm. constructor.
  - inversion Hm as [|m ? ms' ? (Hgo & Hty & Hs) Hms]; subst. injection Hfst as E Hfst.
    constructor; [|by apply IH]. split; [congruence|]. rewrite Hty. by apply Hs.
Qed.

Lemma converts_go ms fs : Forall2 converts ms fs -> m_Go <$> ms = fs.*1.
Proof. induction 1 as [|m f ms fs [E _] _ IH]; [done|]. rewrite !fmap_cons. by rewrite E, IH. Qed.

Lemma encode_members all ms fs :
  (forall f, f ∈ fs -> get_field all f.1 = Some (Returns f.2)) -> Forall2 converts ms fs ->
  exists xs, mapM_may (member_to to all) ms = Some (Returns xs) /\ length xs = length ms /\
    Forall2 (fun p f => run_dec from (m_From p.1) p.2 = Some (Returns f.2)) (zip ms xs) fs.
Proof.
  intros Hall Hc. induction Hc as [|m f ms fs (Hgo & x & He & Hd) _ IH]; [by exists []|].
  destruct IH as (xs & E & L & F); [intros f' Hf'; apply Hall; by right|].
  exists (x :: xs). split; [|split].
  - assert (M : member_to to all m = Some (Returns x)).
    { unfold member_to. rewrite Hgo, Hall by left. exact He. }
    cbn. rewrite M. cbn. by rewrite E.
  - cbn. by rewrite L.
  - by constructor.
Qed.

Lemma get_field_elem fs f : NoDup fs.*1 -> f ∈ fs -> get_field fs f.1 = Some (Returns f.2).
Proof.
  intros Hn Hf. unfold get_field. destruct f as [g v]. by rewrite (elem_of_list_to_map_1 fs g v Hn Hf).
Qed.

Lemma variant_payload_roundtrip vs vd rs fs :
  members_match (vd_Members vd) rs -> NoDup rs.*1 -> fits_members named rs fs ->
  exists xs, mapM_may (member_to to fs) (vd_Members vd) = Some (Returns xs) /\
    variant_from from vs vd xs = Some (Returns (union_value vs (vd_Name vd) fs)).
Proof.
  intros Hm Hn Hf. pose proof (members_convert _ _ _ Hm Hf) as Hc.
  destruct (encode_members fs (vd_Members vd) fs) as (xs & E & L & F).
  - intros f. apply get_field_elem. by rewrite (proj1 Hf).
  - done.
  - exists xs. split; [done|]. unfold variant_from. rewrite L, Nat.eqb_refl. cbn [negb].
    rewrite (mapM_may_Forall2 _ _ fs.*2) by (by apply Forall2_fmap_r). cbn.
    rewrite (converts_go _ _ Hc). by rewrite zip_fst_snd.
Qed.

(** *** The loop over the entries of a map *)

Section Fill.
Variable ms : list Member.
Context (Hkeys : NoDup (m_Key <$> ms)) (Hgos : NoDup (m_Go <$> ms)).

Definition filled (tgt : Member -> gval) : list (string * gval) := (fun m => (m_Go m, tgt m)) <$> ms.

Lemma set_filled m x cur :
  m ∈ ms -> set_field (m_Go m) x (filled cur) = filled (fun m' => if decide (m_Key m' = m_Key m) then x else cur m').
Proof.
  intros Hm. unfold set_field, filled. rewrite <- list_fmap_compose. apply list_fmap_ext.
  intros j m' Hj. cbn. apply list_elem_of_lookup_2 in Hj. destruct (decide (m_Key m' = m_Key m)) as [E|E].
  - assert (m' = m) as -> by (by apply (same_name m_Key ms)). by rewrite decide_True.
  - rewrite decide_False; [done|]. intros G. apply E. f_equal. by apply (same_name m_Go ms).
Qed.

Lemma fill_keys F tgt ks cur :
  Forall (fun k => exists m x, m ∈ ms /\ m_Key m = k /\ F !! k = Some x /\
                      run_dec from (m_From m) x = Some (Returns (tgt m))) ks ->
  fill from ms (struct_entry F <$> ks) (filled cur)
  = Some (Returns (filled (fun m => if decide (m_Key m ∈ ks) then tgt m else cur m))).
Proof.
  intros Hks. revert cur. induction Hks as [|k ks (m & x & Hm & <- & Hx & Hd) _ IH]; intros cur.
  - cbn. by do 2 f_equal.
  - rewrite fmap_cons. unfold struct_entry at 1. rewrite Hx. cbn. unfold find_member.
    destruct (find_name m_Key ms m Hkeys Hm) as [j ->]. cbn. rewrite Hd. cbn.
    rewrite set_filled, IH by done. do 2 f_equal. apply list_fmap_ext. intros l m' Hl.
    apply list_elem_of_lookup_2 in Hl. f_equal.
    destruct (decide (m_Key m' ∈ ks)) as [Hin|Hin]; [by rewrite decide_True by (by right)|].
    destruct (decide (m_Key m' = m_Key m)) as [E|E].
    + rewrite decide_True by (rewrite E; left). f_equal. symmetry. by apply (same_name m_Key ms).
    + rewrite decide_False; [done|]. set_solver.
Qed.

Lemma struct_roundtrip zero N rs fs :
  members_match ms rs -> fits_members named rs fs ->
  exists x, struct_to to (mkStructDecl N ms) (GStruct fs) = Some (Returns x) /\
    struct_from from zero (mkStructDecl N ms) x = Some (Returns (GStruct fs)).
Proof.
  intros Hm Hf. pose proof (members_convert _ _ _ Hm Hf) as Hc. pose proof (converts_go _ _ Hc) as Hgo.
  assert (Hnf : NoDup fs.*1) by (by rewrite <- Hgo).
  destruct (encode_members fs ms fs) as (xs & E & L & F); [by intros f; apply get_field_elem|done|].
  set (fields := list_to_map (zip (m_Key <$> ms) xs) : gmap string ScVal).
  set (tgt := fun m => default (GStruct []) (list_to_map (M := gmap string gval) fs !! m_Go m)).
  assert (Ht : filled tgt = fs).
  { apply list_eq. intros j. unfold filled. rewrite list_lookup_fmap.
    destruct (fs !! j) as [[g v]|] eqn:Ej.
    - destruct (Forall2_lookup_r _ _ _ _ _ Hc Ej) as (m & Hj & G & _). rewrite Hj. cbn.
      unfold tgt. rewrite G. cbn. by rewrite (elem_of_list_to_map_1 fs g v) by eauto using list_elem_of_lookup_2.
    - rewrite lookup_ge_None_2; [done|]. apply Forall2_length in Hc. rewrite Hc. by apply lookup_ge_None. }
  exists (ScvMap (Some (Some (struct_entry fields <$> sort_Strings (m_Key <$> ms))))). split.
  { cbn. by rewrite E. }
  cbn. unfold sort_Strings. set (ks := merge_sort String.le (m_Key <$> ms)).
  assert (P : ks ≡ₚ m_Key <$> ms) by apply merge_sort_Permutation.
  change ((fun m => (m_Go m, zero (m_Type m))) <$> ms) with (filled (fun m => zero (m_Type m))).
  rewrite (fill_keys fields tgt).
  - assert (Hfs : filled (fun m => if decide (m_Key m ∈ ks) then tgt m else zero (m_Type m)) = fs); [|by rewrite Hfs].
    rewrite <- Ht. apply list_fmap_ext. intros j m Hj. rewrite decide_True; [done|]. rewrite P. apply list_elem_of_fmap_2. by eapply list_elem_of_lookup_2.
  - rewrite P. apply Forall_fmap, list.Forall_forall. intros m [j Hj]%list_elem_of_lookup.
    destruct (Forall2_lookup_l _ _ _ _ _ Hc Hj) as ([g v] & Ef & G & _).
    destruct (lookup_lt_is_Some_2 xs j) as [x Hx]; [rewrite L; by eapply lookup_lt_Some|].
    exists m, x. split_and!; [by eapply list_elem_of_lookup_2|done|..].
    + apply elem_of_list_to_map_1; [rewrite fst_zip; [done|by rewrite length_fmap, L]|].
      apply (list_elem_of_lookup_2 _ j). rewrite lookup_zip_with, list_lookup_fmap, Hj. cbn. by rewrite Hx.
    + assert (Hz : zip ms xs !! j = Some (m, x)) by (by rewrite lookup_zip_with, Hj, Hx).
      pose proof (Forall2_lookup_lr _ _ _ _ _ _ F Hz Ef) as D. cbn in D. rewrite D. unfold tgt.
      rewrite G. cbn. by rewrite (elem_of_list_to_map_1 fs g v) by eauto using list_elem_of_lookup_2.
Qed.

End Fill.

(** *** Declared types *)

Lemma struct_members_match fields :
  forallb (fun f => covered_field names f.2) fields = true ->
  members_match (struct_member known <$> (field_of <$> fields)) ((fun f => (snakeToPascal f.1, f.2)) <$> fields).
Proof.
  rewrite forallb_forall. intros Hc. unfold members_match. rewrite <- list_fmap_compose.
  apply Forall2_fmap_l, Forall2_fmap_r, Forall_Forall2_diag, list.Forall_forall.
  intros f Hf%list_elem_of_In%Hc. split_and!; [done..|]. by apply field_survives.
Qed.

Definition variant_of (v : string * EnumVariantKind * list (string * rty)) : EnumVariant :=
  mkEnumVariant v.1.1 v.1.2 0 false (field_of <$> v.2).

Lemma variant_members_match v :
  variant_covered names v = true -> members_match (variant_members known (variant_of v)) (r_payload v.1.2 v.2).
Proof.
  unfold variant_covered. rewrite andb_true_iff, forallb_forall. intros [Hc _].
  assert (G : forall k (name : nat -> string * rty -> string),
    (forall j f, m_Go (payload_member known k j (field_of f)) = name j f) ->
    (forall f, f ∈ v.2 -> covered_payload names f.2 = true) ->
    members_match (imap (payload_member known k) (field_of <$> v.2)) (imap (fun j f => (name j f, f.2)) v.2)).
  { intros k name Hn Hf. rewrite imap_fmap. apply Forall2_imap. intros j f Hin.
    split_and!; [apply Hn|done|]. exact (payload_survives f.2 (Hf f Hin)). }
  assert (M : forall (name : nat -> string * rty -> string) f, f ∈ v.2 ->
            (forall p, In p (imap (fun j f => (name j f, f.2)) v.2) -> covered_payload names p.2 = true) ->
            covered_payload names f.2 = true).
  { intros name f [j Hj]%list_elem_of_lookup Hall. apply (Hall (name j f, f.2)).
    apply list_elem_of_In, (list_elem_of_lookup_2 _ j). rewrite list_lookup_imap, Hj. done. }
  unfold variant_members, variant_of. cbn [Kind Payload]. unfold r_payload in *. destruct (v.1.2).
  - constructor.
  - apply (G _ (fun j _ => tupleFieldName j)); [done|]. intros f Hf.
    exact (M (fun j _ => tupleFieldName j) f Hf Hc).
  - apply (G _ (fun _ f => snakeToPascal f.1)); [done|]. intros f Hf.
    exact (M (fun _ f => snakeToPascal f.1) f Hf Hc).
Qed.

End Survive.
(** ** Declared types of an interface *)

Lemma find_decl {A B} (f : string * A -> B) (name : B -> string) N l :
  (forall p, name (f p) = p.1) ->
  snd <$> list_find (fun b => name b = N) (f <$> l) = (fun a => f (N, a)) <$> lookup_decl N l.
Proof.
  intros Hf. unfold lookup_decl. induction l as [|[M a] l IH]; [done|]. rewrite fmap_cons. cbn [list_find].
  rewrite Hf. cbn [fst]. destruct (decide (M = N)) as [->|]; [done|].
  destruct (list_find _ (f <$> l)) as [[j b]|]; destruct (list_find _ l) as [[k p]|]; by cbn in *.
Qed.

Lemma lookup_decl_elem {A} N (l : list (string * A)) a : lookup_decl N l = Some a -> (N, a) ∈ l.
Proof.
  unfold lookup_decl. destruct (list_find _ l) as [[j [M b]]|] eqn:E; [|done]. cbn. intros [= ->].
  apply list_find_Some in E as (Hj & <- & _). by eapply list_elem_of_lookup_2.
Qed.

(** Only the structures and the enums of a file matter to its conversions. *)
Section Ext.
Variables f g : TypesFile.
Context (Hs : tf_Structs f = tf_Structs g) (He : tf_Enums f = tf_Enums g).

Ltac same_file :=
  destruct f, g; cbn in Hs, He; subst;
  intros n; induction n as [|n IH]; [reflexivity|].

Lemma zero_ext n : zero_of f n = zero_of g n.
Proof. revert n. same_file. cbn [zero_of]. rewrite IH. reflexivity. Qed.

Lemma named_to_ext n : named_to f n = named_to g n.
Proof. revert n. same_file. cbn [named_to]. rewrite IH. reflexivity. Qed.

Lemma named_from_ext n : named_from f n = named_from g n.
Proof.
  pose proof zero_ext as Z. revert n Z. destruct f, g; cbn in Hs, He; subst. intros n Z.
  induction n as [|n IH]; [reflexivity|]. cbn [named_from]. rewrite IH, Z. reflexivity.
Qed.
End Ext.

Section Declared.
Variable i : Interface.
Context (Hi : covered i = true).
Let known := known_enums (contract_of i).
Let file := GenerateTypes "" (contract_of i).

Definition struct_decl (N : string) (fields : list (string * rty)) : StructDecl :=
  mkStructDecl N (struct_member known <$> (field_of <$> fields)).

Lemma find_struct_of N : find_struct file N = struct_decl N <$> lookup_decl N (r_structs i).
Proof.
  unfold find_struct, file, GenerateTypes. cbn [tf_Structs Structs contract_of].
  rewrite <- list_fmap_compose. by apply (find_decl (fun p => struct_decl p.1 p.2)).
Qed.

Lemma find_enum_of N :
  find_enum file N = (fun e => generateEnum known (enum_of (N, e))) <$> lookup_decl N (r_enums i).
Proof.
  unfold find_enum, file, GenerateTypes. cbn [tf_Enums Enums contract_of].
  rewrite <- list_fmap_compose. apply (find_decl (fun p => generateEnum known (enum_of p))).
  intros [M e]. unfold generateEnum. by destruct (IsIntRepr _).
Qed.

Lemma covered_names : Forall (fun N => ident N = true) (declared_names i).
Proof.
  unfold covered in Hi. apply andb_true_iff in Hi as [[Hn _]%andb_true_iff _].
  by apply list.Forall_forall; intros N HN%list_elem_of_In; eapply forallb_forall in Hn.
Qed.

Lemma covered_struct N fields :
  lookup_decl N (r_structs i) = Some fields -> struct_covered (declared_names i) fields = true.
Proof.
  intros Hl%lookup_decl_elem%list_elem_of_In. unfold covered in Hi.
  apply andb_true_iff in Hi as [[_ Hs]%andb_true_iff _]. rewrite forallb_forall in Hs. exact (Hs _ Hl).
Qed.

Lemma covered_enum N e :
  lookup_decl N (r_enums i) = Some e -> enum_covered (declared_names i) e = true.
Proof.
  intros Hl%lookup_decl_elem%list_elem_of_In. unfold covered in Hi.
  apply andb_true_iff in Hi as [_ He]. rewrite forallb_forall in He. exact (He _ Hl).
Qed.

Definition variant_decl (v : string * EnumVariantKind * list (string * rty)) : VariantDecl :=
  mkVariantDecl v.1.1 (variant_members known (variant_of v)).

Lemma generated_int N consts :
  consts <> [] -> generateEnum known (enum_of (N, RInt consts)) = UnitEnum N ((fun c => (N +:+ c.1, c.2)) <$> consts).
Proof.
  intros Hc. unfold generateEnum. replace (IsIntRepr _) with true.
  - unfold generateUnitEnum. cbn. by rewrite <- list_fmap_compose.
  - unfold IsIntRepr. cbn. destruct consts as [|c consts]; [done|]. cbn. symmetry.
    apply forallb_forall. intros x (y & -> & _)%list_elem_of_In%list_elem_of_fmap. done.
Qed.

Lemma generated_union N vs :
  generateEnum known (enum_of (N, RUnion vs))
  = UnionEnum N (variant_decl <$> vs).
Proof.
  unfold generateEnum. replace (IsIntRepr _) with false.
  - unfold generateUnionEnum. cbn. by rewrite <- list_fmap_compose.
  - unfold IsIntRepr. cbn. destruct vs as [|v vs]; [done|]. cbn. by rewrite andb_false_r.
Qed.

Section Level.
Variable to : string -> gval -> may ScVal.
Variable from : string -> ScVal -> may gval.
Variable named : string -> gval -> Prop.
Context (Hnamed : forall N v, named N v -> exists x, to N v = Some (Returns x) /\ from N x = Some (Returns v)).

Lemma declared_struct zero N fields fs :
  lookup_decl N (r_structs i) = Some fields ->
  fits_members named ((fun f => (snakeToPascal f.1, f.2)) <$> fields) fs ->
  exists x, struct_to to (struct_decl N fields) (GStruct fs) = Some (Returns x) /\
    struct_from from zero (struct_decl N fields) x = Some (Returns (GStruct fs)).
Proof.
  intros Hl%covered_struct Hf. unfold struct_covered in Hl.
  apply andb_true_iff in Hl as [[Hc Hk]%andb_true_iff Hg]. apply bool_decide_eq_true in Hk, Hg.
  set (ms := struct_member known <$> (field_of <$> fields)).
  assert (M : NoDup (m_Key <$> ms)) by (unfold ms; by rewrite <- !list_fmap_compose).
  assert (G : NoDup (m_Go <$> ms)) by (unfold ms; by rewrite <- !list_fmap_compose).
  pose proof (struct_members_match to from named known _ covered_names Hnamed fields Hc) as Hm.
  exact (struct_roundtrip to from named _ covered_names Hnamed ms M G zero N _ fs Hm Hf).
Qed.

Lemma declared_variant vs v payload :
  enum_covered (declared_names i) (RUnion vs) = true -> v ∈ vs ->
  fits_members named (r_payload v.1.2 v.2) payload ->
  let ds := variant_decl <$> vs in
  exists x, enum_to to (UnionEnum "" ds) (union_value ds v.1.1 payload) = Some (Returns x) /\
    enum_from from (UnionEnum "" ds) x = Some (Returns (union_value ds v.1.1 payload)).
Proof.
  intros [Hc Hn]%andb_true_iff Hv Hf ds. rewrite forallb_forall in Hc.
  apply bool_decide_eq_true in Hn. set (vd := variant_decl v).
  assert (Hvd : vd ∈ ds) by exact (list_elem_of_fmap_2 variant_decl vs v Hv).
  assert (Hds : NoDup (vd_Name <$> ds)) by (unfold ds; by rewrite <- list_fmap_compose).
  assert (Hcv : variant_covered (declared_names i) v = true) by (by apply Hc, list_elem_of_In).
  pose proof (variant_members_match to from named known _ covered_names Hnamed v Hcv) as Hm.
  unfold variant_covered in Hcv. apply andb_true_iff in Hcv as [_ Hnp]. apply bool_decide_eq_true in Hnp.
  destruct (variant_payload_roundtrip to from named ds vd _ payload Hm Hnp Hf) as (xs & E & D).
  destruct (chosen_union ds vd payload Hds Hvd) as (fs & U & C). change v.1.1 with (vd_Name vd).
  exists (VecToScVal (SymbolToScVal (vd_Name vd) :: xs)). split.
  - rewrite U. cbn. rewrite C. cbn in E |- *. by rewrite E.
  - destruct (find_name vd_Name ds vd Hds Hvd) as [j Hj].
    transitivity (match list_find (fun d => vd_Name d = vd_Name vd) ds with
                  | Some (_, vd) => variant_from from ds vd xs
                  | None => Some (Errs (ErrorString "unknown variant"))
                  end); [reflexivity|by rewrite Hj].
Qed.

End Level.

(** Every value of a declared type is encoded, and what it is encoded as is decoded
    to the value. *)
Lemma named_roundtrip n N v :
  fits_named i n N v ->
  exists x, named_to file n N v = Some (Returns x) /\ named_from file n N x = Some (Returns v).
Proof.
  revert N v. induction n as [|n IH]; intros N v Hf; [done|]. cbn [fits_named] in Hf.
  cbn [named_to named_from]. rewrite find_struct_of, find_enum_of.
  destruct (lookup_decl N (r_structs i)) as [fields|] eqn:Es.
  - destruct Hf as (fs & -> & Hf). by eapply declared_struct.
  - destruct (lookup_decl N (r_enums i)) as [e|] eqn:Ee; [|done]. cbn [fmap option_fmap option_map].
    pose proof (covered_enum _ _ Ee) as Hc. destruct e as [consts|vs].
    + destruct Hf as (z & -> & Hz). rewrite generated_int.
      * eexists. split; [reflexivity|]. exact (u32_reads z Hz).
      * cbn in Hc. by apply negb_true_iff, bool_decide_eq_false in Hc.
    + destruct Hf as (name & k & fields & payload & Hv & Hf & ->). rewrite generated_union.
      destruct (declared_variant (named_to file n) (named_from file n) (fits_named i n) IH
                  vs (name, k, fields) payload Hc Hv Hf) as (x & T & F).
      unfold union_value in T, F. rewrite <- list_fmap_compose in T, F. by exists x.
Qed.

End Declared.
End Values.

(** ** Structures as functions of their members *)

Definition record_of (ks : list string) (cur : string -> gval) : list (string * gval) := (fun k => (k, cur k)) <$> ks.

Lemma set_record g x ks cur :
  set_field g x (record_of ks cur) = record_of ks (fun k => if decide (k = g) then x else cur k).
Proof.
  unfold set_field, record_of. rewrite <- list_fmap_compose. apply list_fmap_ext. intros _ k _. cbn.
  destruct (decide (k = g)) as [->|]; done.
Qed.

Lemma as_record (l : list (string * gval)) : NoDup l.*1 -> exists cur, l = record_of l.*1 cur.
Proof.
  intros Hn. exists (fun k => default (GStruct []) (list_to_map (M := gmap string gval) l !! k)).
  unfold record_of. rewrite <- list_fmap_compose. rewrite <- (list_fmap_id l) at 1. apply list_fmap_ext.
  intros j [k v] Hj. cbn. by rewrite (elem_of_list_to_map_1 l k v Hn (list_elem_of_lookup_2 _ _ _ Hj)).
Qed.

Lemma record_ext ks cur cur' : (forall k, k ∈ ks -> cur k = cur' k) -> record_of ks cur = record_of ks cur'.
Proof. intros Hk. apply list_fmap_ext. intros j k Hj. by rewrite (Hk k (list_elem_of_lookup_2 _ _ _ Hj)). Qed.

(** ** The types an event parser reads *)

Section Covered.
Variable names : list string.

Definition covered_event (t : rty) : bool :=
  match t with
  | RI256 | ROptionAddress => true
  | RVec (RAddress | RBytes) => true
  | RVec (RBytesN n) => bool_decide (n ∈ slice_sizes)
  | RVec (RNamed N) => bool_decide (N ∈ names)
  | RVec _ => false
  | t => covered_payload names t
  end.
Definition covered_topic (t : rty) : bool :=
  match t with
  | RU64 | RU32 | RI128 | RI256 | RAddress | RString => true
  | RBytesN n => bool_decide (n ∈ array_sizes)
  | _ => false
  end.
End Covered.

Section Parsing.
Context `{CodecLaws}.
Variable to : string -> gval -> may ScVal.
Variable from : string -> ScVal -> may gval.
Variable named : string -> gval -> Prop.
Variable zero : gtype -> gval.
Variable known : gmap string bool.
Variable names : list string.
Context (Hnames : Forall (fun N => ident N = true) names).
Context (Hnamed : forall N v, named N v -> exists x, to N v = Some (Returns x) /\ from N x = Some (Returns v)).

(** [x] is what the value is converted to. *)
Definition carries (t : rty) (v : gval) (x : ScVal) : Prop :=
  fits_of named t v /\ run_enc to (rustTypeToGo (print t)) (to_converter (print t)) v = Some (Returns x).

Lemma parse_items_all z drops item items vs :
  mapM_may item items = Some (Returns vs) -> parse_items z drops item items = Some (Returns vs).
Proof.
  revert vs. induction items as [|i items IH]; intros vs E; [done|]. cbn in E |- *.
  destruct (item i) as [[v| |]|]; try done. cbn in E |- *.
  destruct (mapM_may item items) as [[vs'| |]|]; try done. cbn in E. injection E as <-.
  by rewrite (IH vs' eq_refl).
Qed.

Lemma vec_event elem item drops val vs :
  loop item val = Some (Returns (GSlice vs)) ->
  (vec ← attempt (Some (need (GetVec val) "not a vec"));
   match vec with
   | Some (Some items) => parsed ← parse_items (zero elem) drops item items; mret (Some (GSlice parsed))
   | _ => mret None
   end) = Some (Returns (Some (GSlice vs))).
Proof.
  unfold loop. destruct (need (GetVec val) "not a vec") as [[items|]| |]; try done. cbn. intros E.
  destruct (mapM_may item items) as [[vs'| |]|] eqn:M; try done. cbn in E. injection E as ->.
  by rewrite (parse_items_all _ _ _ _ _ M).
Qed.

Lemma covered_event_field t : covered_event names t = true -> covered_field names t = true.
Proof. by destruct t as [| | | | | | | | | | | |[]|]. Qed.

Lemma carries_decoded t v x :
  covered_field names t = true -> carries t v x ->
  run_dec from (generateFromScValField known (print t)) x = Some (Returns v).
Proof.
  intros Hc [Hf He]. destruct (field_survives to from named known names Hnames Hnamed t Hc v Hf) as (x' & E & D).
  rewrite He in E. by injection E as ->.
Qed.

Lemma vec_or_not t : (exists t', t = RVec t') \/ (forall t', t <> RVec t').
Proof. destruct t as [| | | | | | | | | | | |t'|]; [right; by intros t'..|left; by exists t'|right; by intros t']. Qed.

Lemma event_plain t :
  covered_event names t = true -> (forall t', t <> RVec t') ->
  generateEventFieldParsing known (print t) = EvField (generateFromScValField known (print t)).
Proof.
  intros Hc Ht. destruct t as [| | | | | | | | | | |n|t|N];
    first [exfalso; exact (Ht t eq_refl) | reflexivity | idtac].
  - cbn [covered_event covered_payload] in Hc. apply bool_decide_eq_true in Hc. unfold array_sizes in Hc. set_unfold.
    by destruct Hc as [->|[->|[->|[->|[->|[->|[->|[]]]]]]]].
  - cbn [covered_event covered_payload] in Hc. apply bool_decide_eq_true in Hc.
    assert (HN : ident N = true) by (by eapply list.Forall_forall in Hnames).
    cbn [print]. by rewrite event_field_ident, field_ident.
Qed.

Lemma event_vec_item t :
  covered_event names (RVec t) = true ->
  exists elem item drops, event_vec known (print (RVec t)) (print t) = EvVec elem item drops /\
    forall x, run_dec from item x = run_dec from (generateVecItemParse known (print t)) x.
Proof.
  intros Hc. destruct t as [| | | | | | | | | | |n|t|N]; try (exfalso; exact (diff_false_true Hc));
    cbn [covered_event] in Hc.
  - by do 3 eexists.
  - by do 3 eexists.
  - apply bool_decide_eq_true in Hc. unfold slice_sizes in Hc. set_unfold.
    by destruct Hc as [->|[->|[->|[]]]]; do 3 eexists.
  - apply bool_decide_eq_true in Hc.
    assert (HN : ident N = true) by (by eapply list.Forall_forall in Hnames).
    cbn [print]. rewrite vec_item_ident by done. unfold event_vec, is_option_address.
    rewrite !decide_False by (apply ident_ne; [assumption|reflexivity]).
    rewrite !HasPrefix_word, size_ident by (first [done | by apply ident_word | reflexivity]). cbn [andb Z.ltb Z.compare].
    unfold declared. destruct (isEnumType known N); by do 3 eexists.
Qed.

(** The value of a field of an event is read. *)
Lemma event_decoded t v x :
  covered_event names t = true -> carries t v x ->
  run_event_dec from zero (generateEventFieldParsing known (print t)) x = Some (Returns (Some v)).
Proof.
  intros Hc Hx. pose proof (carries_decoded t v x (covered_event_field t Hc) Hx) as D.
  destruct (vec_or_not t) as [[t' ->]|Ht].
  - destruct (event_vec_item t' Hc) as (elem & item & drops & E & R).
    pose proof (item_spaceless to from named names Hnames Hnamed t' (covered_event_field _ Hc)) as Hs.
    change (print (RVec t')) with ("soroban_sdk::Vec<" +:+ print t' +:+ ">") in D, E |- *.
    rewrite event_field_vec, E by done. destruct (field_vec (print t') Hs known) as [el Hd]. rewrite Hd in D.
    destruct v as [| | | | | | | | |l|]; try (exfalso; exact (proj1 Hx)). apply vec_event.
    rewrite <- D. cbn [run_dec]. unfold loop. destruct (need (GetVec x) "not a vec") as [[items|]| |]; try done.
    cbn. by rewrite (mapM_may_ext _ _ items R).
  - rewrite event_plain by done. cbn [run_event_dec]. by rewrite D.
Qed.


Lemma topic_decoded t v x :
  covered_topic t = true -> carries t v x ->
  exists d, generateTopicFieldParsing (print t) = Some d /\ run_dec from d x = Some (Returns v).
Proof.
  intros Ht Hx. pose proof (fun Hc => carries_decoded t v x Hc Hx) as D.
  destruct t as [| | | | | | | | | | |n| |]; try (exfalso; exact (diff_false_true Ht)).
  2: { destruct Hx as [Hf He]. destruct v; try (exfalso; exact Hf). cbn in He. injection He as <-.
       eexists. split; [reflexivity|]. exact (u32_reads _ Hf). }
  6: { specialize (D Ht). cbn [covered_topic] in Ht. apply bool_decide_eq_true in Ht. unfold array_sizes in Ht. set_unfold.
       by destruct Ht as [->|[->|[->|[->|[->|[->|[->|[]]]]]]]]; eexists. }
  all: eexists; split; [reflexivity|exact (D eq_refl)].
Qed.

(** ** The members of an event *)

Record RField := mkRField { rf_topic : bool; rf_name : string; rf_type : rty }.
Definition event_field_of (f : RField) : EventField := mkEventField (mkField (rf_name f) (print (rf_type f))) (rf_topic f).
Definition member_of (f : RField) : string := snakeToPascal (rf_name f).

Definition covered_member (f : RField) : bool :=
  if rf_topic f then covered_topic (rf_type f) else covered_event names (rf_type f).
Definition covered_members (fields : list RField) : bool :=
  forallb covered_member fields &&
  bool_decide (NoDup ((member_of <$> fields) ++ ["Ledger"; "TxHash"]%string)) &&
  bool_decide (NoDup (rf_name <$> filter (fun f => rf_topic f = false) fields)).

(** [val] gives the member of each name. *)
Variable val : string -> gval.

Definition carried (f : RField) (x : ScVal) : Prop := carries (rf_type f) (val (member_of f)) x.

(** The topics from [idx] on carry the topic fields. *)
Definition topics_carry (fields : list RField) (texts : list string) : Prop :=
  Forall2 (fun f text => exists x, ScVal_UnmarshalBase64 text = Ok x /\ carried f x)
    (filter (fun f => rf_topic f = true) fields) texts.

(** The entries of the map are the other fields, each with an entry, in any order. *)
Definition entry_carries (f : RField) (e : ScMapEntry ScVal) : Prop :=
  GetSym (Key e) = Returns (Some (rf_name f)) /\ carried f (Val e).
Definition entries_carry (fields : list RField) (entries : list (ScMapEntry ScVal)) : Prop :=
  let fs := filter (fun f => rf_topic f = false) fields in
  Forall (fun e => exists f, f ∈ fs /\ entry_carries f e) entries /\
  Forall (fun f => exists e, e ∈ entries /\ entry_carries f e) fs.

(** Reading gives some members their values, and keeps those that have them. *)
Definition reads (ks read : list string) (r : (string -> gval) -> may (list (string * gval))) : Prop :=
  forall cur, exists cur', r cur = Some (Returns (record_of ks cur')) /\
    forall k, (k ∈ read -> cur' k = val k) /\ (cur k = val k -> cur' k = val k).

Lemma topics_read ks fields idx texts :
  Forall (fun f => covered_member f = true) fields -> topics_carry fields (drop idx texts) ->
  reads ks (member_of <$> filter (fun f => rf_topic f = true) fields)
    (fun cur => read_topics from (topic_parsers idx (event_field_of <$> fields)) texts (record_of ks cur)).
Proof.
  revert idx. induction fields as [|f fields IH]; intros idx Hc Ht cur.
  - exists cur. split; [done|]. intros k. split; [|done]. cbn. set_solver.
  - apply List.Forall_cons_iff in Hc as [Hf Hc]. unfold topics_carry in Ht. rewrite fmap_cons. cbn [topic_parsers].
    unfold covered_member in Hf. rewrite filter_cons in Ht |- *. cbn [event_field_of Topic].
    destruct (rf_topic f) eqn:Et.
    + rewrite decide_True in Ht |- * by done.
      inversion Ht as [|? text ? rest (x & Hx & Hv) Hrest Ee Er]; subst.
      destruct (topic_decoded _ _ _ Hf Hv) as (d & Ed & D). cbn [event_field_of ef_Field f_Type f_Name]. rewrite Ed. cbn [app read_topics].
      assert (Hi : texts !! idx = Some text) by (rewrite <- (Nat.add_0_r idx), <- lookup_drop, <- Er; done).
      assert (Hd : drop (S idx) texts = rest) by (by rewrite <- Nat.add_1_r, <- drop_drop, <- Er).
      rewrite Hi, Hx. rewrite D. cbn [attempt mbind may_bind mret may_ret set_some]. rewrite set_record.
      destruct (IH (S idx) Hc ltac:(by rewrite Hd) (fun k => if decide (k = member_of f) then val (member_of f) else cur k))
        as (cur' & E & Hcur).
      exists cur'. split; [exact E|]. intros k. destruct (Hcur k) as [H1 H2]. split.
      * rewrite fmap_cons, elem_of_cons. intros [->|Hk]; [|by apply H1]. apply H2. by rewrite decide_True.
      * intros Hk. apply H2. by destruct (decide _) as [->|].
    + rewrite decide_False in Ht |- * by done. by apply IH.
Qed.

Definition reader_of (f : RField) : string * string * event_dec :=
  (rf_name f, member_of f, generateEventFieldParsing known (print (rf_type f))).

Lemma event_readers N topics fields :
  ep_Fields (generateEventParser known (mkGenEvent N topics (event_field_of <$> fields)))
  = reader_of <$> filter (fun f => rf_topic f = false) fields.
Proof.
  cbn. induction fields as [|f fields IH]; [done|]. rewrite fmap_cons, !filter_cons. cbn [event_field_of Topic].
  destruct (rf_topic f); [by rewrite !decide_False by done|]. rewrite !decide_True by done. cbn. by f_equal.
Qed.

Lemma reader_found fs f :
  NoDup (rf_name <$> fs) -> f ∈ fs ->
  snd <$> list_find (fun r : string * string * event_dec => r.1.1 = rf_name f) (reader_of <$> fs) = Some (reader_of f).
Proof.
  intros Hn Hf.
  destruct (find_name (fun r : string * string * event_dec => r.1.1) (reader_of <$> fs) (reader_of f)) as [j Hj].
  - by rewrite <- list_fmap_compose.
  - by apply list_elem_of_fmap_2.
  - change (rf_name f) with (reader_of f).1.1. by rewrite Hj.
Qed.

Lemma fields_read ks fs entries :
  Forall (fun f => covered_event names (rf_type f) = true) fs -> NoDup (rf_name <$> fs) ->
  Forall (fun e => exists f, f ∈ fs /\ entry_carries f e) entries ->
  forall cur, exists cur',
    read_fields from zero (reader_of <$> fs) entries (record_of ks cur) = Some (Returns (record_of ks cur')) /\
    forall k, ((exists f e, e ∈ entries /\ GetSym (Key e) = Returns (Some (rf_name f)) /\ k = member_of f) -> cur' k = val k) /\
              (cur k = val k -> cur' k = val k).
Proof.
  intros Hc Hn. induction entries as [|e entries IH]; intros He cur.
  - exists cur. split; [done|]. intros k. split; [|done]. intros (f & e & He' & _). by apply not_elem_of_nil in He'.
  - apply List.Forall_cons_iff in He as [(f & Hf & Hk & Hv) He]. cbn [read_fields]. rewrite Hk. cbn [mbind may_bind option_bind].
    rewrite (reader_found fs f Hn Hf). cbn [reader_of].
    rewrite (event_decoded _ _ _ (proj1 (list.Forall_forall _ _) Hc f Hf) Hv).
    cbn [mbind may_bind set_some]. rewrite set_record.
    destruct (IH He (fun k => if decide (k = member_of f) then val (member_of f) else cur k)) as (cur' & E & Hcur).
    exists cur'. split; [exact E|]. intros k. destruct (Hcur k) as [H1 H2]. split.
    + intros (g & e' & [->|Hin]%elem_of_cons & Hg & ->); [|by apply H1; exists g, e'].
      rewrite Hk in Hg. injection Hg as Hg. apply H2. unfold member_of. rewrite Hg. by rewrite decide_True.
    + intros Hk'. apply H2. by destruct (decide _) as [->|].
Qed.

(** The structure an event is parsed to. *)
Definition parsed (fields : list RField) : gval :=
  GStruct (record_of ((member_of <$> fields) ++ ["Ledger"; "TxHash"]%string) val).

(** [e] is an event whose topics and map carry the members. *)
Definition emits (fields : list RField) (e : protocol.EventInfo) : Prop :=
  topics_carry fields (drop 1 (protocol.ev_TopicXDR e)) /\
  (exists v entries, ScVal_UnmarshalBase64 (protocol.ev_ValueXDR e) = Ok v /\
     need_map v "event is not a map" = Returns entries /\ entries_carry fields entries) /\
  val "Ledger" = GUint32 (u32 (protocol.ev_Ledger e)) /\ val "TxHash" = GString (protocol.ev_TransactionHash e).

Lemma event_parses N topics fields e :
  covered_members fields = true -> emits fields e ->
  let ev := mkGenEvent N topics (event_field_of <$> fields) in
  parse_event from zero (generateEventStruct ev) (generateEventParser known ev) e = Some (Returns (parsed fields)).
Proof.
  intros [[Hc Hm]%andb_true_iff Hn]%andb_true_iff (Ht & (v & entries & Hx & Hv & He & Hall) & HL & HT) ev.
  apply bool_decide_eq_true in Hm, Hn. unfold parse_event. rewrite Hx, Hv. cbn [mbind may_bind].
  set (ks := (member_of <$> fields) ++ ["Ledger"; "TxHash"]%string) in *.
  assert (Hcm : Forall (fun f => covered_member f = true) fields)
    by (apply list.Forall_forall; intros f Hf; rewrite forallb_forall in Hc; by apply Hc, list_elem_of_In).
  assert (exists cur, (fun m : string * gtype => (m.1, zero m.2)) <$> ed_Members (generateEventStruct ev) = record_of ks cur)
    as [cur Ecur].
  { set (l := _ <$> ed_Members _). assert (Hl : l.*1 = ks).
    { unfold l, ks. cbn. rewrite <- !list_fmap_compose, fmap_app, <- !list_fmap_compose. done. }
    rewrite <- Hl. apply as_record. by rewrite Hl. }
  rewrite Ecur, !set_record.
  match goal with |- context [record_of ks ?c] => set (c0 := c) end.
  destruct (topics_read ks fields 1 _ Hcm Ht c0) as (c1 & E1 & H1).
  cbn [ep_Topics generateEventParser ev_Fields ev]. rewrite E1. cbn [mbind may_bind].
  unfold ev. rewrite event_readers.
  destruct (fields_read ks (filter (fun f => rf_topic f = false) fields) entries) with (cur := c1) as (c2 & E2 & H2); try done.
  { apply list.Forall_forall. intros f [Hf Hin]%list_elem_of_filter.
    pose proof (proj1 (list.Forall_forall _ _) Hcm f Hin) as Hcf. unfold covered_member in Hcf. by rewrite Hf in Hcf. }
  rewrite E2. cbn [mbind may_bind]. unfold parsed. fold ks. rewrite (record_ext ks c2 val); [done|]. intros k Hk.
  destruct (H2 k) as [HA HB], (H1 k) as [HC HD]. unfold ks in Hk. apply elem_of_app in Hk as [Hk|Hk].
  - apply list_elem_of_fmap in Hk as (f & -> & Hf). destruct (rf_topic f) eqn:Et.
    + apply HB, HC. apply list_elem_of_fmap. exists f. split; [done|]. by apply list_elem_of_filter.
    + apply HA. assert (Hff : f ∈ filter (fun f => rf_topic f = false) fields) by (by apply list_elem_of_filter).
      destruct (proj1 (list.Forall_forall _ _) Hall f Hff) as (en & Hin & Hk & _). by exists f, en.
  - apply HB, HD. unfold c0. set_unfold. destruct Hk as [->|[->|[]]]; cbn; by rewrite ?HL, ?HT.
Qed.

End Parsing.

(** ** Waiting for an event *)

Section Waiting.
Context `{Codec}.
Variable filter : option (gval -> bool).
Variable parse : protocol.EventInfo -> may gval.
Variable contractID topic : string.
Variable startLedger timeout : Z.

Definition passes (v : gval) : bool := match filter with None => true | Some f => f v end.

(** An event that does not parse or does not pass the filter. *)
Definition skipped (e : protocol.EventInfo) : Prop :=
  match parse e with
  | Some (Errs _) => True
  | Some (Returns v) => passes v = false
  | _ => False
  end.

(** The first event of a poll that is not skipped, and what it gives. *)
Definition decides (events : list protocol.EventInfo) (r : may gval) : Prop :=
  exists before e after, events = before ++ e :: after /\ Forall skipped before /\ ~ skipped e /\ parse e = r.

Lemma first_match_spec events :
  match first_match filter parse events with
  | Some (Returns None) => Forall skipped events
  | Some (Returns (Some v)) => decides events (Some (Returns v)) /\ passes v = true
  | Some (Errs _) => False
  | Some Panics => decides events (Some Panics)
  | None => decides events None
  end.
Proof.
  assert (Hhere : forall e l r, parse e = r -> ~ skipped e -> decides (e :: l) r)
    by (intros e l r Hr He; exists [], e, l; done).
  induction events as [|e l IH]; [by constructor|]. cbn [first_match].
  assert (Hlater : forall r, skipped e -> decides l r -> decides (e :: l) r).
  { intros r He (before & e' & after & -> & Hb & H'). exists (e :: before), e', after. split; [done|]. split; [by constructor|done]. }
  assert (Hskip : skipped e -> match first_match filter parse l with
      | Some (Returns None) => Forall skipped (e :: l)
      | Some (Returns (Some v)) => decides (e :: l) (Some (Returns v)) /\ passes v = true
      | Some (Errs _) => False
      | Some Panics => decides (e :: l) (Some Panics)
      | None => decides (e :: l) None
      end).
  { intros Hs. destruct (first_match filter parse l) as [[[w|]| |]|]; [|by constructor|done|by apply Hlater..].
    split; [apply Hlater; [done|apply IH]|apply IH]. }
  destruct (parse e) as [[v|err|]|] eqn:E; cbn [attempt mbind may_bind mret may_ret].
  - fold (passes v). destruct (passes v) eqn:P; [split; [|done]|].
    + apply Hhere; [done|]. unfold skipped. by rewrite E, P.
    + apply Hskip. unfold skipped. rewrite E. exact P.
  - apply Hskip. unfold skipped. by rewrite E.
  - apply Hhere; [done|]. unfold skipped. rewrite E. tauto.
  - apply Hhere; [done|]. unfold skipped. rewrite E. tauto.
Qed.

Notation wtrace := (list (Interaction.event wans)).

(** Polls after a tick within the timeout: of this topic of the contract, from the
    first ledger. *)
Definition polled (since : Z) (events : outcome (list protocol.EventInfo)) : wtrace :=
  [mkEvent (Ans := wans) (PollEvents contractID startLedger [topic]) events; mkEvent (Ans := wans) Elapsed since;
   mkEvent (Ans := wans) Await None].

(** [n] polls, the last first, that failed or whose events were all skipped. *)
Inductive fruitless : nat -> wtrace -> Prop :=
| fruitless_none : fruitless 0 []
| fruitless_poll n tr since events :
    since <= timeout -> match events with Errs _ => True | Returns l => Forall skipped l | Panics => False end ->
    fruitless n tr -> fruitless (S n) (polled since events ++ tr).

(** How the waiting ends. *)
Inductive ends : may gval -> wtrace -> Prop :=
| ends_done e : ends (Some (Errs e)) [mkEvent (Ans := wans) Await (Some e)]
| ends_timeout since :
    timeout < since -> ends (Some (Errs (ErrorString "timeout waiting for event")))
                         [mkEvent (Ans := wans) Elapsed since; mkEvent (Ans := wans) Await None]
| ends_panic since : since <= timeout -> ends (Some Panics) (polled since Panics)
| ends_decided since events r : since <= timeout -> decides events r -> ends r (polled since (Returns events)).

Definition waited (fuel : nat) (r : option (may gval)) (tr : wtrace) : Prop :=
  match r with
  | None => fruitless fuel tr
  | Some r => exists n before last, (n < fuel)%nat /\ fruitless n before /\ ends r last /\ tr = last ++ before
  end.

Lemma wait_for_from n fuel tr :
  fruitless n tr ->
  wp (wait_for filter parse contractID startLedger timeout topic fuel) (waited (n + fuel)) tr.
Proof.
  revert n tr. induction fuel as [|fuel IH]; intros n tr Hf; [by rewrite Nat.add_0_r|].
  assert (Hend : forall r last, ends r last -> waited (n + S fuel) (Some r) (last ++ tr)).
  { intros r last Hr. exists n, tr, last. split; [lia|done]. }
  assert (Hagain : forall tr', fruitless (S n) tr' ->
    wp (wait_for filter parse contractID startLedger timeout topic fuel) (waited (n + S fuel)) tr').
  { intros tr' Hf'. replace (n + S fuel)%nat with (S n + fuel)%nat by lia. by apply IH. }
  cbn [wait_for wp]. intros [e|]; cbn [wp]; [exact (Hend _ _ (ends_done e))|]. intros since.
  destruct (Z.ltb_spec timeout since) as [Hlt|Hle]; [exact (Hend _ _ (ends_timeout since Hlt))|].
  cbn [wp]. intros [events|err|].
  - pose proof (first_match_spec events) as Hm.
    destruct (first_match filter parse events) as [[[v|]|err|]|].
    + exact (Hend _ _ (ends_decided since events _ Hle (proj1 Hm))).
    + apply Hagain. exact (fruitless_poll n tr since (Returns events) Hle Hm Hf).
    + done.
    + exact (Hend _ _ (ends_decided since events _ Hle Hm)).
    + exact (Hend _ _ (ends_decided since events _ Hle Hm)).
  - apply Hagain. exact (fruitless_poll n tr since (Errs err) Hle I Hf).
  - exact (Hend _ _ (ends_panic since Hle)).
Qed.

End Waiting.
