(* ===== verification/Curse.v ===== *)
(** * Governance of a chain: cursing, ownership and activation

    Models deployment/sequences/curse.go: who may run a curse or an uncurse, and
    the sequences that run it directly or propose it to the timelock that may; and
    deployment/adapters/stellar_curse_adapter.go: the facts an adapter keeps of its
    chains, [Initialize] that gathers them, the sequences and queries that use them.
    A nil map of the adapter is an empty one, which [Initialize] makes before it
    writes.

    A chain of the environment is its signer ([NewDeployerFromChain] of
    deployment/deployer.go); the deployer's invocations are the requests of
    Ownership.v.  Parameters ([AdapterSdk]): the framework's search in a datastore,
    the families of chain selectors and the registered ones.

    Also both sequences of deployment/sequences/transfer_ownership.go and
    deployment/sequences/activate_rmn.go. *)

From S2P Require Import Prelude Sdk GoBytes Xdr Scval EventFields Interaction Lanes GovRefs Ownership.

(** ** The environment *)

(** [cldfstellar.Chain]: its signer, with the full key pair it may expose. *)
Record StellarSigner := mkStellarSigner { KeypairFull : option string; signer_Address : string }.
Record StellarChain := mkStellarChain { ch_Signer : option StellarSigner }.
Abbreviation BlockChains := (gmap Z StellarChain).

(** [NewDeployerFromChain], by the address that signs. *)
Definition NewDeployerFromChain (ch : StellarChain) : res string :=
  match ch_Signer ch with
  | None => Err (ErrorString "stellar chain Signer is nil")
  | Some s => Ok (default (signer_Address s) (KeypairFull s))
  end.

Definition deployer_on (chains : BlockChains) (sel : Z) : res string :=
  match chains !! sel with
  | None => Err (ErrorString "stellar chain not found")
  | Some ch => NewDeployerFromChain ch
  end.

Record OnChainOutput `{GovSdk} := mkOnChainOutput {
  o_Addresses : list AddressRef;
  o_BatchOps : list BatchOperation
}.
Arguments mkOnChainOutput {_} o_Addresses o_BatchOps.

(** ** Input *)

(** [api.CurseInput]. *)
Record CurseInput := mkCurseInput {
  ci_ChainSelector : Z;
  ci_Subjects : list bytes;
  ci_MCMSQualifier : string
}.

Record StellarCurseInput := mkStellarCurseInput {
  s_CurseInput : CurseInput;
  RMNContractID : string;
  s_Owner : string;
  s_CurseAdmins : list string;
  s_Timelocks : gmap string string
}.

Definition ChainSelector (i : StellarCurseInput) : Z := ci_ChainSelector (s_CurseInput i).
Definition Subjects (i : StellarCurseInput) : list bytes := ci_Subjects (s_CurseInput i).
Definition MCMSQualifier (i : StellarCurseInput) : string := ci_MCMSQualifier (s_CurseInput i).

Section Curse.
Context `{Codec} `{GovSdk} `{BatchSdk}.

(** ** The caller *)

Definition authorizeCurseCaller (i : StellarCurseInput) (deployerAddr : string)
    : res (string * string) :=
  if decide (MCMSQualifier i <> ""%string) then
    match s_Timelocks i !! MCMSQualifier i with
    | None => Err (ErrorString "no RBACTimelock deployed for qualifier; deploy the stack first")
    | Some tl =>
        if decide (tl <> s_Owner i /\ tl ∉ s_CurseAdmins i)
        then Err (ErrorString "curse via qualifier is not authorized")
        else Ok (tl, MCMSQualifier i)
    end
  else if decide (s_Owner i = deployerAddr \/ deployerAddr ∈ s_CurseAdmins i)
  then Ok (deployerAddr, ""%string)
  else
    let fast :=
      match s_Timelocks i !! UltraFastCurseMCMSQualifier with
      | Some tl => if decide (tl ∈ s_CurseAdmins i) then Ok (tl, UltraFastCurseMCMSQualifier)
                   else Err (ErrorString "no authorized curse caller")
      | None => Err (ErrorString "no authorized curse caller")
      end in
    match s_Timelocks i !! RMNTimelockQualifier with
    | Some tl => if decide (tl = s_Owner i) then Ok (tl, RMNTimelockQualifier) else fast
    | None => fast
    end.

(** ** The sequences *)

Definition directExecOutput (chainSelector : Z) (contractID marker : string) : res OnChainOutput :=
  op ← NewBatchOperationFromWrites
         (mkWriteOutput chainSelector (mkTransaction rmn_remote_ContractType contractID [] "")
            (Some marker));
  Ok (mkOnChainOutput [] [op]).

(** The proposal of both sequences: one batch of one transaction. *)
Definition propose (i : StellarCurseInput) (data : bytes) : OnChainOutput :=
  mkOnChainOutput []
    [mkBatchOperation (ChainSelector i)
       [mkTransaction rmn_remote_ContractType (RMNContractID i) data StellarMCMSTxAdditionalFields]].

Definition StellarCurse (chains : BlockChains) (i : StellarCurseInput) : G OnChainOutput :=
  deployerAddr ← plift_res (deployer_on chains (ChainSelector i));
  authorized ← plift_res (wrap_err "curse on chain: " (authorizeCurseCaller i deployerAddr));
  let '(caller, effectiveQualifier) := authorized in
  if decide (caller = deployerAddr) then
    _ ← pwrap "curse on chain: " (Curse (RMNContractID i) caller (Subjects i));
    plift_res (directExecOutput (ChainSelector i) (RMNContractID i) "stellar-direct-curse")
  else if decide (MCMSQualifier i = ""%string) then
    pfail (ErrorString "curse cannot run directly and no MCMS qualifier was supplied")
  else
    data ← plift (EncodeSorobanMCMSInvokePayload "curse"
                    [AddressToScVal caller; Bytes16SliceToScVal (Subjects i)]);
    mret (propose i data).

Definition StellarUncurse (chains : BlockChains) (i : StellarCurseInput) : G OnChainOutput :=
  deployerAddr ← plift_res (deployer_on chains (ChainSelector i));
  if decide (s_Owner i = ""%string) then
    pfail (ErrorString "RMN Remote owner is unknown and uncurse is owner-only")
  else if decide (deployerAddr = s_Owner i) then
    _ ← pwrap "uncurse on chain: " (Uncurse (RMNContractID i) (Subjects i));
    plift_res (directExecOutput (ChainSelector i) (RMNContractID i) "stellar-direct-uncurse")
  else
    authorized ← plift_res (wrap_err "uncurse on chain: " (authorizeCurseCaller i deployerAddr));
    let '(caller, effectiveQualifier) := authorized in
    if decide (caller <> s_Owner i) then
      pfail (ErrorString "uncurse is owner-only and fast-uncurse is not supported")
    else if decide (MCMSQualifier i = ""%string) then
      pfail (ErrorString "it must run as a proposal via the owner timelock")
    else
      data ← plift (EncodeSorobanMCMSInvokePayload "uncurse" [Bytes16SliceToScVal (Subjects i)]);
      mret (propose i data).

End Curse.

Class AdapterSdk `{GovSdk} := {
  FindRef : option (list AddressRef) -> AddressRef -> Z -> res AddressRef;
  GetSelectorFamily : Z -> res string;
  IsFamilyRegistered : string -> bool
}.

(** [cldf.Environment]: its chains and its datastore, which may be nil. *)
Record Environment `{GovSdk} := mkEnvironment {
  e_Chains : BlockChains;
  e_DataStore : option (list AddressRef)
}.
Arguments mkEnvironment {_} e_Chains e_DataStore.

Record StellarCurseAdapter := mkAdapter {
  rmnContractID : gmap Z string;
  routerContractID : gmap Z string;
  owners : gmap Z string;
  curseAdmins : gmap Z (list string);
  timelocks : gmap Z (gmap string string)
}.

Definition NewStellarCurseAdapter : StellarCurseAdapter := mkAdapter ∅ ∅ ∅ ∅ ∅.

Definition set_rmn x (a : StellarCurseAdapter) :=
  mkAdapter x (routerContractID a) (owners a) (curseAdmins a) (timelocks a).
Definition set_router x (a : StellarCurseAdapter) :=
  mkAdapter (rmnContractID a) x (owners a) (curseAdmins a) (timelocks a).
Definition set_owners x (a : StellarCurseAdapter) :=
  mkAdapter (rmnContractID a) (routerContractID a) x (curseAdmins a) (timelocks a).
Definition set_admins x (a : StellarCurseAdapter) :=
  mkAdapter (rmnContractID a) (routerContractID a) (owners a) x (timelocks a).
Definition set_timelocks x (a : StellarCurseAdapter) :=
  mkAdapter (rmnContractID a) (routerContractID a) (owners a) (curseAdmins a) x.

Section Adapter.
Context `{Codec} `{GovSdk} `{BatchSdk} `{!AdapterSdk}.

Definition datastoreRefs (e : Environment) : list AddressRef := default [] (e_DataStore e).

Definition stellarContractIDOnChain (e : Environment) (selector : Z)
    (ref : DatastoreSorobanContractRef) : res string :=
  r ← FindRef (e_DataStore e) (PartialAddressRef ref) selector;
  HexToContractStrkey (ref_Address r).

(** ** Initialize

    Each part leaves what it has stored, also when it fails. *)

(** A contract id is resolved once for a selector. *)
Definition cache_id (pre : string) (e : Environment) (selector : Z) (ref : DatastoreSorobanContractRef)
    (cache : gmap Z string) : res unit * gmap Z string :=
  match cache !! selector with
  | Some _ => (Ok tt, cache)
  | None =>
      match wrap_err pre (stellarContractIDOnChain e selector ref) with
      | Err x => (Err x, cache)
      | Ok addr => (Ok tt, <[selector := addr]> cache)
      end
  end.

(** The part before the reads: the ids and the timelocks. *)
Definition init_local (e : Environment) (selector : Z) (a : StellarCurseAdapter)
    : res unit * StellarCurseAdapter :=
  match e_Chains e !! selector with
  | None => (Err (ErrorString "stellar chain not found in environment"), a)
  | Some ch =>
      let '(r1, m1) := cache_id "resolve RMN Remote: " e selector RMNRemoteDatastoreRef (rmnContractID a) in
      let a1 := set_rmn m1 a in
      match r1 with
      | Err x => (Err x, a1)
      | Ok _ =>
          let '(r2, m2) := cache_id "resolve Router: " e selector RouterDatastoreRef (routerContractID a1) in
          let a2 := set_router m2 a1 in
          match r2 with
          | Err x => (Err x, a2)
          | Ok _ =>
              let a3 := set_timelocks
                (<[selector := StellarTimelocksByQualifier (datastoreRefs e) selector]> (timelocks a2)) a2 in
              (match wrap_err "build deployer: " (NewDeployerFromChain ch) with
               | Err x => Err x | Ok _ => Ok tt end, a3)
          end
      end
  end.

(** [readOwner] and [readAdmins] are [ownership.ContractOwner] and
    [ownership.CurseAdmins] outside the tests. *)
Definition Initialize (readOwner : AddressRef -> G string) (readAdmins : AddressRef -> G (list string))
    (e : Environment) (selector : Z) (a : StellarCurseAdapter)
    : prog gans (outcome unit * StellarCurseAdapter) :=
  let '(r, a3) := init_local e selector a in
  match r with
  | Err x => Done (Errs x, a3)
  | Ok _ =>
      let rmnRef := FullAddressRef RMNRemoteDatastoreRef selector
                      (default ""%string (rmnContractID a3 !! selector)) in
      prog_bind (fun r =>
        match wrap_out "read RMN Remote owner: " r with
        | Errs x => Done (Errs x, a3)
        | Panics => Done (Panics, a3)
        | Returns owner =>
            let a4 := set_owners (<[selector := owner]> (owners a3)) a3 in
            prog_bind (fun r =>
              match r with
              | Panics => Done (Panics, a4)
              | Errs _ => Done (Returns tt, set_admins (delete selector (curseAdmins a4)) a4)
              | Returns admins =>
                  Done (Returns tt, set_admins (<[selector := admins]> (curseAdmins a4)) a4)
              end) (readAdmins rmnRef)
        end) (readOwner rmnRef)
  end.

(** ** The sequences *)

(** A selector without an entry reads as the zero value of its map. *)
Definition curse_input (a : StellarCurseAdapter) (rmnID : string) (i : CurseInput) : StellarCurseInput :=
  let sel := ci_ChainSelector i in
  mkStellarCurseInput i rmnID (default ""%string (owners a !! sel)) (default [] (curseAdmins a !! sel))
    (default ∅ (timelocks a !! sel)).

Definition wrapCurseSequence (inner : BlockChains -> StellarCurseInput -> G OnChainOutput)
    (a : StellarCurseAdapter) (chains : BlockChains) (i : CurseInput) : G OnChainOutput :=
  match rmnContractID a !! ci_ChainSelector i with
  | None => pfail (ErrorString "no RMN Remote cached for chain")
  | Some rmnID => inner chains (curse_input a rmnID i)
  end.

Definition adapter_Curse := wrapCurseSequence StellarCurse.
Definition adapter_Uncurse := wrapCurseSequence StellarUncurse.

(** ** Queries *)

Definition with_deployer {A} (cache : gmap Z string) (what : string) (e : Environment) (selector : Z)
    (call : string -> G A) : G A :=
  match cache !! selector with
  | None => pfail (ErrorString ("no " +:+ what +:+ " cached for chain"))
  | Some contractID =>
      _ ← plift_res (deployer_on (e_Chains e) selector);
      call contractID
  end.

Definition IsSubjectCursedOnChain (a : StellarCurseAdapter) (e : Environment) (selector : Z)
    (subject : bytes) : G bool :=
  with_deployer (rmnContractID a) "RMN Remote" e selector
    (fun rmnID => IsCursedBySubject rmnID subject).

Definition IsChainConnectedToTargetChain (a : StellarCurseAdapter) (e : Environment)
    (selector targetSel : Z) : G bool :=
  with_deployer (routerContractID a) "Router" e selector
    (fun routerID => IsChainSupported routerID targetSel).

Definition IsCurseEnabledForChain (a : StellarCurseAdapter) (selector : Z) : bool :=
  match rmnContractID a !! selector with Some _ => true | None => false end.

(** [OffRampEntryFromScVal] and [GetOfframps] of the router's bindings. *)
Definition offramp_field (key : string) (v : ScVal) (r : RampEntry) : outcome RampEntry :=
  if decide (key = "offramp"%string) then
    x ← wrap_out "offramp: " (AddressFromScVal v);
    Returns (mkRampEntry (e_ChainSelector r) x)
  else if decide (key = "source_chain_selector"%string) then
    x ← wrap_out "source_chain_selector: " (Uint64FromScVal v);
    Returns (mkRampEntry x (e_Ramp r))
  else Returns r.

Definition OffRampEntryFromScVal (v : ScVal) : outcome RampEntry :=
  scMap ← need_map v "not a map type";
  fold_symbols offramp_field scMap (mkRampEntry 0 "").

Definition GetOfframps (contractID : string) : G (list RampEntry) :=
  v ← simulate contractID "get_offramps" [];
  vec ← plift (need (GetVec v) "expected vec return type");
  match vec with
  | None => pfail (ErrorString "expected vec return type")
  | Some items => plift (mapM_out OffRampEntryFromScVal items)
  end.

(** Whether an entry of the table counts. *)
Definition listed (entry : RampEntry) : bool :=
  negb (bool_decide (e_Ramp entry = ""%string)) &&
  match GetSelectorFamily (e_ChainSelector entry) with
  | Err _ => false
  | Ok family => IsFamilyRegistered family
  end.

Definition connected_chains (offRamps : list RampEntry) : list Z :=
  fold_left (fun connected entry =>
    if listed entry && negb (bool_decide (e_ChainSelector entry ∈ connected))
    then connected ++ [e_ChainSelector entry] else connected) offRamps [].

Definition ListConnectedChains (a : StellarCurseAdapter) (e : Environment) (selector : Z) : G (list Z) :=
  with_deployer (routerContractID a) "Router" e selector
    (fun routerID =>
       offRamps ← pwrap "get offramps: " (GetOfframps routerID);
       mret (connected_chains offRamps)).

End Adapter.

(** [StellarTransferOwnershipInput], with the fields of the shared input it reads. *)
Record StellarTransferOwnershipInput `{GovSdk} := mkTransferInput {
  t_ChainSelector : Z;
  ContractRefs : list AddressRef;
  ProposedOwner : string;
  GovernanceAddr : string
}.
Arguments mkTransferInput {_} t_ChainSelector ContractRefs ProposedOwner GovernanceAddr.

Record StellarActivateRMNInput `{GovSdk} := mkActivateInput {
  a_ChainSelector : Z;
  ExistingAddresses : list AddressRef;
  RMNRemoteRef : option AddressRef;
  GovernanceQualifier : string;
  FastCurseQualifier : string;
  ExtraCurseAdmins : list string;
  SubjectsToMigrate : list bytes
}.
Arguments mkActivateInput {_} a_ChainSelector ExistingAddresses RMNRemoteRef GovernanceQualifier
  FastCurseQualifier ExtraCurseAdmins SubjectsToMigrate.

Section Activate.
Context `{Codec} `{GovSdk} `{BatchSdk}.

(** ** Transfer and acceptance *)

(** The transaction a proposal makes of a call. *)
Definition ref_tx (ref : AddressRef) (data : bytes) : Transaction :=
  mkTransaction (ref_Type ref) (ref_Address ref) data StellarMCMSTxAdditionalFields.

Definition append_write (wo : WriteOutput) (ops : list BatchOperation) : G (list BatchOperation) :=
  batchOp ← plift_res (NewBatchOperationFromWrites wo);
  mret (ops ++ [batchOp]).

(** One contract of the transfer, its address normalized and its owner read. *)
Definition transfer_one (i : StellarTransferOwnershipInput) (deployerAddr : string)
    (ref0 : AddressRef) (ops : list BatchOperation) : G (list BatchOperation) :=
  cid ← plift_res (wrap_err "transfer ownership on chain: "
                     (NormalizeContractAddress (ref_Address ref0)));
  let ref := with_Address cid ref0 in
  owner ← pwrap "read owner: " (ContractOwner ref);
  if decide (owner = ProposedOwner i) then mret ops
  else if decide (owner = deployerAddr) then
    _ ← pwrap "transfer ownership: " (ExecuteTransferOwnership ref (ProposedOwner i));
    append_write (mkWriteOutput (t_ChainSelector i) Transaction_zero
                    (Some "stellar-direct-transfer"%string)) ops
  else if decide (owner = GovernanceAddr i) then
    data ← plift (EncodeSorobanMCMSInvokePayload "transfer_ownership"
                    [AddressToScVal (ProposedOwner i)]);
    append_write (mkWriteOutput (t_ChainSelector i) (ref_tx ref data) None) ops
  else pfail (ErrorString "contract owner is neither deployer nor governance").

Definition accept_one (i : StellarTransferOwnershipInput) (deployerAddr : string)
    (ref0 : AddressRef) (ops : list BatchOperation) : G (list BatchOperation) :=
  cid ← plift_res (wrap_err "accept ownership on chain: "
                     (NormalizeContractAddress (ref_Address ref0)));
  let ref := with_Address cid ref0 in
  owner ← pwrap "read owner: " (ContractOwner ref);
  if decide (owner = ProposedOwner i) then mret ops
  else if decide (ProposedOwner i = deployerAddr) then
    _ ← pwrap "accept ownership: " (ExecuteAcceptOwnership ref);
    append_write (mkWriteOutput (t_ChainSelector i) Transaction_zero
                    (Some "stellar-direct-accept"%string)) ops
  else if decide (ProposedOwner i = GovernanceAddr i) then
    data ← plift (EncodeSorobanMCMSInvokePayload "accept_ownership" []);
    append_write (mkWriteOutput (t_ChainSelector i) (ref_tx ref data) None) ops
  else pfail (ErrorString "accept routing: proposed owner must be deployer or governance").

Fixpoint each_ref (one : AddressRef -> list BatchOperation -> G (list BatchOperation))
    (refs : list AddressRef) (ops : list BatchOperation) : G (list BatchOperation) :=
  match refs with
  | [] => mret ops
  | ref :: rest => ops' ← one ref ops; each_ref one rest ops'
  end.

Definition StellarTransferOwnershipViaMCMS (chains : BlockChains)
    (i : StellarTransferOwnershipInput) : G OnChainOutput :=
  deployerAddr ← plift_res (deployer_on chains (t_ChainSelector i));
  ops ← each_ref (transfer_one i deployerAddr) (ContractRefs i) [];
  mret (mkOnChainOutput [] ops).

Definition StellarAcceptOwnership (chains : BlockChains)
    (i : StellarTransferOwnershipInput) : G OnChainOutput :=
  deployerAddr ← plift_res (deployer_on chains (t_ChainSelector i));
  ops ← each_ref (accept_one i deployerAddr) (ContractRefs i) [];
  mret (mkOnChainOutput [] ops).

(** ** Activation *)

(** [resolveRMNRemoteRefs]: the recorded form and the form the operations take. *)
Fixpoint find_rmn (sel : Z) (refs : list AddressRef) : res (AddressRef * AddressRef) :=
  match refs with
  | [] => Err (ErrorString "no RMN Remote ref found in ExistingAddresses")
  | r :: rest =>
      let want := PartialAddressRef RMNRemoteDatastoreRef in
      if negb (ref_ChainSelector r =? sel) || bool_decide (ref_Address r = ""%string)
      then find_rmn sel rest
      else if negb (bool_decide (ref_Type r = ref_Type want)) ||
              negb (bool_decide (ref_Qualifier r = ref_Qualifier want)) ||
              negb (Version_Equal (ref_Version r) (ref_Version want))
      then find_rmn sel rest
      else
        strkeyAddr ← wrap_err "convert RMN Remote ref to strkey: "
                       (HexToContractStrkey (ref_Address r));
        Ok (r, with_Address strkeyAddr r)
  end.

Definition resolveRMNRemoteRefs (i : StellarActivateRMNInput) : res (AddressRef * AddressRef) :=
  match RMNRemoteRef i with
  | Some ref =>
      if decide (ref_Address ref = ""%string)
      then Err (ErrorString "RMNRemoteRef set but Address is empty")
      else
        hexAddr ← wrap_err "convert RMNRemoteRef address to hex: " (StrkeyToHex (ref_Address ref));
        Ok (with_Address hexAddr ref, ref)
  | None => find_rmn (a_ChainSelector i) (ExistingAddresses i)
  end.

Definition dedupeStrkeys (l : list string) : list string :=
  fold_left (fun out s => if decide (s ∈ out) then out else out ++ [s]) l [].

Inductive curseAdminGrantRoute := curseAdminGrantDirect | curseAdminGrantPropose.

Definition routeCurseAdminGrant (owner deployerAddr govTL : string) : res curseAdminGrantRoute :=
  if decide (owner = deployerAddr) then Ok curseAdminGrantDirect
  else if decide (owner = govTL) then Ok curseAdminGrantPropose
  else Err (ErrorString "cannot grant curse admins").

(** The grant of the missing admins: the batches it adds. *)
Definition grant_admins (owner deployerAddr govTL : string) (opsRef : AddressRef)
    (toAdd : list string) : G (list BatchOperation) :=
  match toAdd with
  | [] => mret []
  | _ =>
      route ← plift_res (routeCurseAdminGrant owner deployerAddr govTL);
      match route with
      | curseAdminGrantDirect =>
          _ ← pwrap "apply curse admin updates: " (ExecuteApplyCurseAdminUpdates opsRef toAdd []);
          mret []
      | curseAdminGrantPropose =>
          data ← plift (EncodeSorobanMCMSInvokePayload "apply_curse_admin_updates"
                          [AddressSliceToScVal toAdd; AddressSliceToScVal []]);
          mret [MCMSInvokeTx opsRef data]
      end
  end.

(** The migration, one invocation for each subject. *)
Fixpoint migrate (rmn deployerAddr : string) (subjects : list bytes) : G unit :=
  match subjects with
  | [] => mret tt
  | s :: rest =>
      _ ← pwrap "migrate curse subject: " (Ownership.Curse rmn deployerAddr [s]);
      migrate rmn deployerAddr rest
  end.

Definition migrate_subjects (owner deployerAddr : string) (opsRef : AddressRef)
    (subjects : list bytes) : G unit :=
  match subjects with
  | [] => mret tt
  | _ => if decide (owner <> deployerAddr) then pfail (ErrorString "cannot migrate curse subjects")
         else migrate (ref_Address opsRef) deployerAddr subjects
  end.

Definition or_default (q d : string) : string := if decide (q = ""%string) then d else q.
Definition govQual (i : StellarActivateRMNInput) : string :=
  or_default (GovernanceQualifier i) RMNTimelockQualifier.
Definition fastQual (i : StellarActivateRMNInput) : string :=
  or_default (FastCurseQualifier i) UltraFastCurseMCMSQualifier.

Definition timelock_of (i : StellarActivateRMNInput) (qual : string) : res string :=
  res_of_option (ErrorString "no RBACTimelock deployed for qualifier")
    (FindExistingStellarTimelock (ExistingAddresses i) (a_ChainSelector i) qual).

Definition admins_wanted (i : StellarActivateRMNInput) (fastTL : string) : list string :=
  dedupeStrkeys (fastTL :: ExtraCurseAdmins i).

Definition StellarActivateRMN (chains : BlockChains) (i : StellarActivateRMNInput)
    : G OnChainOutput :=
  govTL ← plift_res (timelock_of i (govQual i));
  fastTL ← plift_res (timelock_of i (fastQual i));
  refs ← plift_res (resolveRMNRemoteRefs i);
  let '(rmnRecordedRef, opsRef) := refs in
  deployerAddr ← plift_res (deployer_on chains (a_ChainSelector i));
  owner ← pwrap "read RMN Remote owner: " (ContractOwner opsRef);
  currentAdmins ← pwrap "read RMN Remote curse admins: " (CurseAdmins opsRef);
  let toAdd := filter (fun a => a ∉ currentAdmins) (admins_wanted i fastTL) in
  grants ← grant_admins owner deployerAddr govTL opsRef toAdd;
  _ ← migrate_subjects owner deployerAddr opsRef (SubjectsToMigrate i);
  report ← pwrap "transfer RMN Remote ownership: "
             (StellarTransferOwnershipViaMCMS chains
                (mkTransferInput (a_ChainSelector i) [opsRef] govTL govTL));
  mret (mkOnChainOutput [rmnRecordedRef] (grants ++ o_BatchOps report)).

End Activate.
