(* ===== verification/Withdraw.v ===== *)
(** * Governance of a chain: withdrawal of fee tokens

    Models deployment/sequences/withdraw_fee_tokens.go with the lookup of
    deployment/ccip/lane_config.go and the references of
    deployment/ccip/datastore_contract_ref.go that it uses: the fee tokens that a
    chain's OnRamp, verifier resolver and committee verifier hold are swept to their
    fee aggregator, by the deployer where it owns the contract and by a proposal
    where it does not.

    Parameters ([FeeSdk]): the types and versions of chainlink-ccip, and the
    framework's datastore, which is asked for the record of a key. *)

From Stdlib Require Import Ascii.
From S2P Require Import Bindgen Prelude Sdk GoBytes Xdr Scval Interaction GovRefs Ownership Curse.

Class FeeSdk `{GovSdk} := {
  onramp_ContractType : string;
  onramp_Version : option Version;
  CommitteeVerifierResolverType : string;
  vvr_Version : option Version;
  committee_verifier_ContractType : string;
  committee_verifier_Version : option Version;
  Addresses_Get : list AddressRef -> Z -> DatastoreSorobanContractRef -> res AddressRef
}.

(** ** References *)

Section Refs.
Context `{GovSdk} `{!FeeSdk}.

Definition DefaultCommitteeVerifierQualifier : string := "default".

Definition OnRampDatastoreRef : DatastoreSorobanContractRef :=
  mkDatastoreRef onramp_ContractType onramp_Version "".
Definition VVRDatastoreRefWithQualifier (qualifier : string) : DatastoreSorobanContractRef :=
  mkDatastoreRef CommitteeVerifierResolverType vvr_Version
    (if decide (qualifier = ""%string) then DefaultCommitteeVerifierQualifier else qualifier).
Definition VVRDatastoreRef : DatastoreSorobanContractRef := VVRDatastoreRefWithQualifier "".
Definition CommitteeVerifierDatastoreRefWithQualifier (qualifier : string) : DatastoreSorobanContractRef :=
  mkDatastoreRef committee_verifier_ContractType committee_verifier_Version
    (if decide (qualifier = ""%string) then DefaultCommitteeVerifierQualifier else qualifier).
Definition CommitteeVerifierDatastoreRef : DatastoreSorobanContractRef :=
  CommitteeVerifierDatastoreRefWithQualifier "".

Context `{Codec}.

Definition LookupStellarContractStrkey (ds : list AddressRef) (selector : Z)
    (key : DatastoreSorobanContractRef) : res string :=
  ref ← Addresses_Get ds selector key;
  wrap_err "convert address to contract strkey: " (HexToContractStrkey (ref_Address ref)).

End Refs.

(** ** Input *)

(** [fees.WithdrawFeeTokensForChain]. *)
Record FeeToken := mkFeeToken { Token : string; Amount : option Z }.
Record WithdrawFeeTokensForChain `{GovSdk} := mkWithdraw {
  w_ChainSelector : Z;
  Contracts : list AddressRef;
  FeeTokens : list FeeToken
}.
Arguments mkWithdraw {_} w_ChainSelector Contracts FeeTokens.

Section Withdraw.
Context `{Codec} `{GovSdk} `{BatchSdk} `{!FeeSdk}.

Definition parseStellarFeeTokenAddress (s : string) : res string :=
  let s := TrimSpace s in
  match s with
  | EmptyString => Err (ErrorString "fee token address is empty")
  | String "G"%char _ =>
      _ ← wrap_err "decode account strkey: " (strkey_Decode VersionByteAccountID s); Ok s
  | String "C"%char _ =>
      _ ← wrap_err "decode contract strkey: " (strkey_Decode VersionByteContract s); Ok s
  | _ => Err (ErrorString "fee token must be a Stellar G/C strkey")
  end.

Fixpoint parse_tokens (l : list FeeToken) : res (list string) :=
  match l with
  | [] => Ok []
  | tok :: rest =>
      match Amount tok with
      | Some _ => Err (ErrorString "amount is not supported: omit amount")
      | None =>
          addr ← wrap_err "invalid fee token: " (parseStellarFeeTokenAddress (Token tok));
          addrs ← parse_tokens rest;
          Ok (addr :: addrs)
      end
  end.

(** ** One contract *)

Variable in_ : WithdrawFeeTokensForChain.

(** The references given, by their type. *)
Definition explicit : gmap string AddressRef :=
  fold_left (fun m ref => <[ref_Type ref := ref]> m) (Contracts in_) ∅.
Definition sweep : list string :=
  match Contracts in_ with
  | [] => [d_Type OnRampDatastoreRef; d_Type VVRDatastoreRef; d_Type CommitteeVerifierDatastoreRef]
  | refs => ref_Type <$> refs
  end.

Definition resolveSwept (ds : list AddressRef) (defaultRef : DatastoreSorobanContractRef) : res AddressRef :=
  match explicit !! d_Type defaultRef with
  | Some ref =>
      id ← wrap_err "resolve: " (LookupStellarContractStrkey ds (w_ChainSelector in_)
             (mkDatastoreRef (ref_Type ref) (ref_Version ref) (ref_Qualifier ref)));
      Ok (with_Address id ref)
  | None =>
      id ← wrap_err "resolve: " (LookupStellarContractStrkey ds (w_ChainSelector in_) defaultRef);
      Ok (with_Address id (PartialAddressRef defaultRef))
  end.

(** The client method of the three contracts. *)
Definition WithdrawFeeTokens (contractID : string) (feeTokens : list string) : G unit :=
  invoke contractID "withdraw_fee_tokens" [AddressSliceToScVal feeTokens].

Definition withdrawFeeTokensWrite (typ contractID : string) (feeTokens : list string) : outcome WriteOutput :=
  data ← wrap_out "encode withdraw_fee_tokens payload: "
           (EncodeSorobanMCMSInvokePayload "withdraw_fee_tokens" [AddressSliceToScVal feeTokens]);
  Returns (mkWriteOutput (w_ChainSelector in_)
             (mkTransaction typ contractID data StellarMCMSTxAdditionalFields) None).

Variable ds : list AddressRef.
Variable deployerAddr : string.
Variable feeTokens : list string.

Definition withdraw (defaultRef : DatastoreSorobanContractRef) (ops : list BatchOperation) : G (list BatchOperation) :=
  ref ← plift_res (resolveSwept ds defaultRef);
  owner ← pwrap "read owner: " (ContractOwner ref);
  if decide (owner = deployerAddr) then
    _ ← WithdrawFeeTokens (ref_Address ref) feeTokens;
    mret ops
  else
    wo ← plift (withdrawFeeTokensWrite (d_Type defaultRef) (ref_Address ref) feeTokens);
    append_write wo ops.

(** The contracts in their order; what was proposed stays when one fails. *)
Fixpoint withdraw_each (refs : list DatastoreSorobanContractRef) (ops : list BatchOperation)
    : prog gans (outcome unit * list BatchOperation) :=
  match refs with
  | [] => Done (Returns tt, ops)
  | ref :: rest =>
      if decide (d_Type ref ∈ sweep) then
        prog_bind (fun r => match r with
                            | Returns ops' => withdraw_each rest ops'
                            | Errs e => Done (Errs (Wrapf "withdraw fee tokens: " e), ops)
                            | Panics => Done (Panics, ops)
                            end) (withdraw ref ops)
      else withdraw_each rest ops
  end.

End Withdraw.

(** ** The sequence *)

Section Sequence.
Context `{Codec} `{GovSdk} `{BatchSdk} `{!FeeSdk}.

Definition fee_holders : list DatastoreSorobanContractRef :=
  [OnRampDatastoreRef; VVRDatastoreRef; CommitteeVerifierDatastoreRef].

(** What is checked before a contract is touched: the deployer and the tokens. *)
Definition withdrawal (chains : BlockChains) (ds : option (list AddressRef)) (i : WithdrawFeeTokensForChain)
    : res (list AddressRef * string * list string) :=
  match ds with
  | None => Err (ErrorString "environment DataStore is nil")
  | Some ds =>
      if decide (FeeTokens i = []) then Err (ErrorString "at least one fee token is required")
      else
        feeTokens ← parse_tokens (FeeTokens i);
        deployerAddr ← deployer_on chains (w_ChainSelector i);
        if forallb (fun typ => bool_decide (typ ∈ (d_Type <$> fee_holders))) (sweep i)
        then Ok (ds, deployerAddr, feeTokens)
        else Err (ErrorString "cannot withdraw fee tokens from contract type")
  end.

Definition ApplyStellarWithdrawFeeTokens (chains : BlockChains) (ds : option (list AddressRef))
    (i : WithdrawFeeTokensForChain) : prog gans (outcome unit * list BatchOperation) :=
  match withdrawal chains ds i with
  | Err e => Done (Errs e, [])
  | Ok (ds, deployerAddr, feeTokens) => withdraw_each i ds deployerAddr feeTokens fee_holders []
  end.

End Sequence.

(** ** What a withdrawal does *)

Abbreviation wtrace := (list (Interaction.event gans)).

Section Spec.
Context `{CodecLaws} `{GovSdk} `{!BatchSdk} `{!BatchLaws} `{!FeeSdk}.
Variable i : WithdrawFeeTokensForChain.
Variable ds : list AddressRef.
Variable deployerAddr : string.
Variable feeTokens : list string.

Definition owner_read (id : string) (r : outcome (option ScVal)) : Interaction.event gans :=
  mkEvent (Ans := gans) (SimulateContract id "owner" []) r.
Definition withdrawn (id : string) (r : outcome (option ScVal)) : Interaction.event gans :=
  mkEvent (Ans := gans) (InvokeContract id "withdraw_fee_tokens" [AddressSliceToScVal feeTokens]) r.

(** The answer to a read of the owner that names [a]. *)
Definition owned_by (r : outcome (option ScVal)) (a : string) : Prop :=
  exists v, r = Returns (Some v) /\ OptionalAddressFromScVal v = Returns (Some a).

(** The recorded contract and the contract whose owner is read: the address as it is
    normalized, which of a 32-byte address is itself. *)
Definition resolved (d : DatastoreSorobanContractRef) (ref : AddressRef) (cid : string) : Prop :=
  resolveSwept i ds d = Ok ref /\ NormalizeContractAddress (ref_Address ref) = Ok cid.

(** The contract of a reference: its owner is read once; it is called with all the
    tokens exactly when the deployer owns it, and else one batch proposes the call. *)
Inductive handled (d : DatastoreSorobanContractRef) : wtrace -> list BatchOperation -> Prop :=
| handled_directly ref cid r x :
    resolved d ref cid -> owned_by r deployerAddr ->
    handled d [withdrawn (ref_Address ref) (Returns x); owner_read cid r] []
| handled_by_proposal ref cid r owner data :
    resolved d ref cid -> owned_by r owner -> owner <> deployerAddr ->
    EncodeSorobanMCMSInvokePayload "withdraw_fee_tokens" [AddressSliceToScVal feeTokens] = Returns data ->
    handled d [owner_read cid r]
      [mkBatchOperation (w_ChainSelector i)
         [mkTransaction (d_Type d) (ref_Address ref) data StellarMCMSTxAdditionalFields]].

(** Where it stopped: before the read of the owner, after it, or at a call that
    failed, which only the deployer makes of its own contract. *)
Inductive stopped (d : DatastoreSorobanContractRef) : wtrace -> Prop :=
| stopped_before : stopped d []
| stopped_at_read ref cid r : resolved d ref cid -> stopped d [owner_read cid r]
| stopped_at_call ref cid r x :
    resolved d ref cid -> owned_by r deployerAddr -> is_done x = false ->
    stopped d [withdrawn (ref_Address ref) x; owner_read cid r].

(** The contracts handled, in order; the last request first. *)
Inductive swept : list DatastoreSorobanContractRef -> wtrace -> list BatchOperation -> Prop :=
| swept_none : swept [] [] []
| swept_next d refs tr seg ops new :
    swept refs tr ops -> handled d seg new -> swept (refs ++ [d]) (seg ++ tr) (ops ++ new).

Definition withdrawal_outcome (refs : list DatastoreSorobanContractRef)
    (r : outcome unit * list BatchOperation) (tr : wtrace) : Prop :=
  let '(r, ops) := r in
  match r with
  | Returns _ => swept refs tr ops
  | _ => exists done d rest before seg,
      refs = done ++ d :: rest /\ swept done before ops /\ stopped d seg /\ tr = seg ++ before
  end.

Lemma withdraw_handles d ops tr :
  wp (withdraw i ds deployerAddr feeTokens d ops)
    (fun r tr' => match r with
                  | Returns ops' => exists seg new, tr' = seg ++ tr /\ ops' = ops ++ new /\ handled d seg new
                  | _ => exists seg, tr' = seg ++ tr /\ stopped d seg
                  end) tr.
Proof.
  assert (Hno : exists seg, tr = seg ++ tr /\ stopped d seg) by (exists []; split; [done|constructor]).
  unfold withdraw. destruct (resolveSwept i ds d) as [ref|e] eqn:Er; [|exact Hno]. cbn -[ContractOwner].
  unfold ContractOwner, dispatch.
  destruct (NormalizeContractAddress (ref_Address ref)) as [cid|e] eqn:Ec; [|exact Hno]. cbn -[ownable_types].
  assert (Hr : resolved d ref cid) by done.
  destruct (decide (ref_Type ref ∈ ownable_types)) as [_|_]; [|exact Hno]. cbn. intros r.
  assert (Hread : exists seg, mkEvent (SimulateContract cid "owner" []) r :: tr = seg ++ tr /\ stopped d seg).
  { exists [owner_read cid r]. split; [done|]. by eapply stopped_at_read. }
  destruct r as [[v|]|e|]; cbn; try exact Hread.
  destruct (OptionalAddressFromScVal v) as [[owner|]|e|] eqn:Eo; cbn; try exact Hread.
  assert (Ho : owned_by (Returns (Some v)) owner) by (by exists v).
  destruct (decide (owner = deployerAddr)) as [->|Hne]; cbn.
  - intros x. destruct x as [x|e|]; cbn.
    + exists [withdrawn (ref_Address ref) (Returns x); owner_read cid (Returns (Some v))], [].
      split_and!; [done|by rewrite app_nil_r|by constructor].
    + exists [withdrawn (ref_Address ref) (Errs e); owner_read cid (Returns (Some v))]. split; [done|by econstructor].
    + exists [withdrawn (ref_Address ref) Panics; owner_read cid (Returns (Some v))]. split; [done|by econstructor].
  - unfold withdrawFeeTokensWrite.
    destruct (EncodeSorobanMCMSInvokePayload _ _) as [data|e|] eqn:Ed; cbn; try exact Hread.
    unfold append_write. rewrite batch_of_pending. cbn.
    exists [owner_read cid (Returns (Some v))]. eexists. split_and!; [done..|by econstructor].
Qed.

Lemma withdraw_each_outcome refs done tr ops :
  swept done tr ops ->
  wp (withdraw_each i ds deployerAddr feeTokens refs ops)
    (withdrawal_outcome (done ++ filter (fun d => d_Type d ∈ sweep i) refs)) tr.
Proof.
  revert done tr ops. induction refs as [|d refs IH]; intros done tr ops Hs; [by rewrite app_nil_r|].
  cbn [withdraw_each]. rewrite filter_cons. destruct (decide (d_Type d ∈ sweep i)) as [_|_]; [|by apply IH].
  apply wp_bind. eapply wp_mono; [apply withdraw_handles|]. cbn.
  assert (Hstop : forall seg, stopped d seg -> exists done' d' rest before seg',
    done ++ d :: filter (fun d => d_Type d ∈ sweep i) refs = done' ++ d' :: rest /\
    swept done' before ops /\ stopped d' seg' /\ seg ++ tr = seg' ++ before)
    by (intros seg Hseg; by exists done, d, (filter (fun d => d_Type d ∈ sweep i) refs), tr, seg).
  intros [ops'|e|] tr'; [|by intros (seg & -> & Hseg); apply Hstop..].
  intros (seg & new & -> & -> & Hh). rewrite cons_middle, app_assoc. by apply IH, swept_next.
Qed.

End Spec.

Section Theorems.
Context `{CodecLaws} `{GovSdk} `{!BatchSdk} `{!BatchLaws} `{!FeeSdk}.


End Theorems.
