(* ===== verification/CurseProofs.v ===== *)
(** * Governance of a chain: a curse lands

    Theorems on Curse.v against the contracts of RmnRemote.v: what the sequences
    run or propose is what the RMN Remote accepts from the address that runs it, and
    the adapter's facts are those of the chain it read. *)

From S2P Require Import Prelude Sdk GoBytes Xdr Scval ScvalProofs Interaction Lanes GovRefs Ownership RmnRemote RmnLogic Curse.

(** ** Effects *)

Definition subject_cursed (c : Contract) (s : bytes) : Prop :=
  exists m, c_cursed c = Some m /\ m !! s = Some true.

(** Everything but the cursed subjects is kept. *)
Definition same_governance (c c' : Contract) : Prop :=
  c_initialized c' = c_initialized c /\ c_owner c' = c_owner c /\ c_pending c' = c_pending c /\
  c_rmn c' = c_rmn c /\ c_curse_admins c' = c_curse_admins c.

Definition curses (ss : list bytes) (c c' : Contract) : Prop :=
  same_governance c c' /\ forall s, subject_cursed c' s <-> s ∈ ss \/ subject_cursed c s.

Definition uncurses (ss : list bytes) (c c' : Contract) : Prop :=
  same_governance c c' /\ forall s, subject_cursed c' s <-> subject_cursed c s /\ s ∉ ss.

(** What an uncurse requires of its subjects. *)
Definition liftable (ss : list bytes) (c : Contract) : Prop :=
  NoDup ss /\ forall s, s ∈ ss -> subject_cursed c s.

Lemma default_true (o : option bool) : default false o = true <-> o = Some true.
Proof. destruct o as [[]|]; simpl; split; congruence. Qed.

Lemma curse_one_lookup m x s : curse_one m x !! s = Some true <-> s = x \/ m !! s = Some true.
Proof.
  unfold curse_one. destruct (default false (m !! x)) eqn:E.
  - apply default_true in E. naive_solver.
  - destruct (decide (s = x)) as [->|Hn]; [rewrite lookup_insert_eq|rewrite lookup_insert_ne by done]; naive_solver.
Qed.

Lemma curse_all_lookup ss m s :
  foldl curse_one m ss !! s = Some true <-> s ∈ ss \/ m !! s = Some true.
Proof.
  revert m. induction ss as [|x ss IH]; intros m; simpl; [set_solver|].
  rewrite IH, curse_one_lookup. set_solver.
Qed.

Lemma cursed_with_curses ss m c : c_cursed c = Some m -> curses ss c (cursed_with ss m c).
Proof.
  intros Hm. split; [done|]. intros s. unfold subject_cursed. simpl. rewrite Hm. split.
  - intros (m' & [= <-] & [Hs|Hs]%curse_all_lookup); [by left|right; eauto].
  - intros Hs. eexists. split; [done|]. apply curse_all_lookup. naive_solver.
Qed.

Lemma uncurse_all_Some m ss m' :
  uncurse_all m ss = Some m' ->
  NoDup ss /\ (forall s, s ∈ ss -> m !! s = Some true) /\
  forall s, m' !! s = Some true <-> m !! s = Some true /\ s ∉ ss.
Proof.
  revert m. induction ss as [|x ss IH]; intros m; simpl.
  { intros [= <-]. split; [constructor|]. set_solver. }
  destruct (default false (m !! x)) eqn:E; [|done]. apply default_true in E.
  intros (Hn & Hin & Hm)%IH. assert (x ∉ ss) by (intros Hx%Hin; by rewrite lookup_delete_eq in Hx).
  split; [by constructor|]. split.
  - intros s [->|Hs]%elem_of_cons; [done|]. apply Hin in Hs. by apply lookup_delete_Some in Hs as [_ ?].
  - intros s. rewrite Hm, lookup_delete_Some. set_solver.
Qed.

Lemma uncurse_all_is_Some m ss :
  NoDup ss -> (forall s, s ∈ ss -> m !! s = Some true) -> is_Some (uncurse_all m ss).
Proof.
  revert m. induction ss as [|x ss IH]; intros m Hn Hin; simpl; [done|].
  apply list.NoDup_cons in Hn as [Hx Hn]. rewrite (Hin x) by set_solver. simpl. apply IH; [done|].
  intros s Hs. rewrite lookup_delete_ne by set_solver. apply Hin. set_solver.
Qed.

(** An uncurse either is refused or has its effect. *)
Lemma uncurse_effect ss m c :
  c_cursed c = Some m ->
  match uncurse_all m ss with
  | Some m' => liftable ss c /\ uncurses ss c (set_cursed m' c)
  | None => ~ liftable ss c
  end.
Proof.
  intros Hm. destruct (uncurse_all m ss) as [m'|] eqn:E.
  - apply uncurse_all_Some in E as (Hn & Hin & Hs). split; [split; [done|]|split; [done|]].
    + intros s ?%Hin. by exists m.
    + intros s. unfold subject_cursed. simpl. rewrite Hm. specialize (Hs s). naive_solver.
  - intros [Hn Hin]. destruct (uncurse_all_is_Some m ss) as [m' E']; [done| |by rewrite E in E'].
    intros s Hs. destruct (Hin s Hs) as (m1 & E1 & ?). by simplify_eq.
Qed.

(** ** Proposals *)

Section Curse.
Context `{CodecLaws} `{GovSdk} `{BatchLaws} (signer : ScAddress).

Definition txs_of (ops : list BatchOperation) : list Transaction := ops ≫= Transactions.
Definition transactions (out : OnChainOutput) : list Transaction := txs_of (o_BatchOps out).

(** A transaction executes the call its payload encodes. *)
Lemma exec_encoded tl fn args data to ct af w :
  EncodeSorobanMCMSInvokePayload fn args = Returns data ->
  exec_tx tl w (mkTransaction ct to data af) = snd <$> call_contract (only tl) to fn args w.
Proof.
  unfold EncodeSorobanMCMSInvokePayload, exec_tx, DecodeSorobanMCMSInvokePayload. simpl.
  destruct (ScVal_MarshalBinary _) as [b| |] eqn:E; simpl; [|done..]. intros [= <-].
  by rewrite (Unmarshal_Marshal _ _ E).
Qed.

(** ** The facts of the input *)

Record facts (i : StellarCurseInput) (c : Contract) : Prop := {
  fact_owner : exists o, c_owner c = Some o /\ names (s_Owner i) o;
  fact_admins : Forall (fun s => exists a, names s a /\ a ∈ c_curse_admins c) (s_CurseAdmins i)
}.

Definition authorized (i : StellarCurseInput) (s : string) : Prop :=
  s = s_Owner i \/ s ∈ s_CurseAdmins i.

Lemma authorized_may_curse i c s :
  facts i c -> authorized i s -> exists a, names s a /\ may_curse a c.
Proof.
  intros [(o & Ho & Hn) Ha] [->|Hs]; [exists o; split; [done|by left]|].
  rewrite list.Forall_forall in Ha. destruct (Ha s Hs) as (a & Hna & Hin). exists a.
  split; [done|by right].
Qed.

(** The callers the input can route to: the stack it names, else the deployer. *)
Definition routable (i : StellarCurseInput) (deployerAddr : string) : Prop :=
  if decide (MCMSQualifier i = ""%string) then authorized i deployerAddr
  else exists tl, s_Timelocks i !! MCMSQualifier i = Some tl /\ authorized i tl.

(** Whoever it picks is authorized; and when it is asked for a stack it picks that
    stack's timelock, however well the deployer could do it. *)
Lemma authorizeCurseCaller_spec i d :
  match authorizeCurseCaller i d with
  | Ok (caller, q) =>
      authorized i caller /\
      (MCMSQualifier i <> ""%string -> q = MCMSQualifier i /\ s_Timelocks i !! q = Some caller) /\
      (MCMSQualifier i = ""%string ->
         caller = d /\ authorized i d \/
         ~ authorized i d /\ s_Timelocks i !! q = Some caller /\
           (q = RMNTimelockQualifier /\ caller = s_Owner i \/
            q = UltraFastCurseMCMSQualifier /\ caller ∈ s_CurseAdmins i))
  | Err _ => ~ routable i d
  end.
Proof.
  unfold authorizeCurseCaller, routable, authorized.
  destruct (decide (MCMSQualifier i <> ""%string)) as [Hq|Hq].
  - rewrite decide_False by done. destruct (s_Timelocks i !! MCMSQualifier i) as [tl|] eqn:Et;
      [|by intros (? & ? & _)].
    destruct (decide (tl <> s_Owner i /\ tl ∉ s_CurseAdmins i)) as [[]|Hn];
      [intros (tl' & ? & Ha); simplify_eq; naive_solver|].
    split; [|naive_solver]. destruct (decide (tl = s_Owner i)); [by left|right].
    destruct (decide (tl ∈ s_CurseAdmins i)); naive_solver.
  - destruct (decide (MCMSQualifier i = ""%string)) as [He|He]; [|done].
    destruct (decide (s_Owner i = d \/ d ∈ s_CurseAdmins i)) as [Hd|Hd];
      [split; [naive_solver|naive_solver]|].
    assert (Hd' : ~ (d = s_Owner i \/ d ∈ s_CurseAdmins i)) by naive_solver.
    assert (Hfast : match s_Timelocks i !! UltraFastCurseMCMSQualifier with
                    | Some tl => tl ∈ s_CurseAdmins i | None => False end ->
                    exists tl, s_Timelocks i !! UltraFastCurseMCMSQualifier = Some tl /\ tl ∈ s_CurseAdmins i).
    { destruct (s_Timelocks i !! UltraFastCurseMCMSQualifier); naive_solver. }
    destruct (s_Timelocks i !! RMNTimelockQualifier) as [gov|] eqn:Eg;
      [destruct (decide (gov = s_Owner i)); [naive_solver|]|];
      (destruct (s_Timelocks i !! UltraFastCurseMCMSQualifier) as [fast|] eqn:Ef;
        [destruct (decide (fast ∈ s_CurseAdmins i))|]; naive_solver).
Qed.

(** ** The sequences *)

(** Each step of a sequence that makes no request. *)
Lemma gwp_refused {A} (r : outcome A) (R : A -> gtrace -> World -> Prop) (E : gtrace -> World -> Prop) tr w :
  is_done r = false -> E tr w -> gwp signer (Done r) (post R E) tr w.
Proof. by destruct r. Qed.

Definition chain_refuses (chains : BlockChains) (i : StellarCurseInput) : Prop :=
  match deployer_on chains (ChainSelector i) with Ok d => ~ routable i d | Err _ => True end.

Lemma directExecOutput_empty sel c mk :
  exists out, directExecOutput sel c mk = Ok out /\ transactions out = [].
Proof.
  unfold directExecOutput.
  destruct (batch_of_executed sel (mkTransaction rmn_remote_ContractType c [] "") mk) as (b & -> & Hb).
  eexists. split; [done|]. unfold transactions, txs_of. simpl. by rewrite Hb.
Qed.

Lemma exec_propose i fn args data a w :
  EncodeSorobanMCMSInvokePayload fn args = Returns data ->
  exec_txs a w (transactions (propose i data))
  = snd <$> call_contract (only a) (RMNContractID i) fn args w.
Proof.
  intros E. unfold transactions, txs_of, propose. simpl.
  rewrite (exec_encoded _ _ _ _ _ _ _ _ E). by destruct (call_contract _ _ _ _ _).
Qed.

(** The effect of the proposal [out] when the timelock [a] executes it. *)
Definition proposal_curses (i : StellarCurseInput) (id : bytes) (a : ScAddress) (out : OnChainOutput)
    : Prop :=
  forall w c m, located (RMNContractID i) id c w -> rmn_ready c m -> may_curse a c ->
    exists c', exec_txs a w (transactions out) = Some (<[id := c']> w) /\ curses (Subjects i) c c'.

(** What a curse that returns has done: it has cursed the subjects itself, without a
    proposal; or it has made no request and proposed to the timelock of the stack it
    was asked for, which may curse. *)
Definition landed (i : StellarCurseInput) (id : bytes) (c : Contract) (w : World)
    (out : OnChainOutput) (tr : gtrace) (w' : World) : Prop :=
  (transactions out = [] /\ may_curse signer c /\
   exists c', w' = <[id := c']> w /\ curses (Subjects i) c c') \/
  (tr = [] /\ w' = w /\ exists tl a, s_Timelocks i !! MCMSQualifier i = Some tl /\
     names tl a /\ may_curse a c /\ proposal_curses i id a out).

(** Why one that fails did: nothing was sent, for the chain is missing, no authorized
    caller was asked for or the payload has no encoding; or the invocation failed. *)
Definition not_landed (chains : BlockChains) (i : StellarCurseInput) (id : bytes) (c : Contract)
    (w : World) (tr : gtrace) (w' : World) : Prop :=
  (tr = [] /\ w' = w /\
   (chain_refuses chains i \/
    exists tl, is_done (EncodeSorobanMCMSInvokePayload "curse"
                  [AddressToScVal tl; Bytes16SliceToScVal (Subjects i)]) = false)) \/
  (gfailed tr /\
   (w' = w \/ may_curse signer c /\ exists c', w' = <[id := c']> w /\ curses (Subjects i) c c')).

Lemma curse_run chains i id c m w :
  located (RMNContractID i) id c w -> rmn_ready c m -> facts i c ->
  Forall (fun b : bytes => length b = 16%nat) (Subjects i) ->
  (forall d, deployer_on chains (ChainSelector i) = Ok d -> names d signer) ->
  gwp signer (StellarCurse chains i) (post (landed i id c w) (not_landed chains i id c w)) [] w.
Proof.
  intros Hl Hr Hf Hss Hd. unfold not_landed, chain_refuses.
  apply swp_bind, swp_plift_res; [|intros e E; rewrite E; left; eauto].
  intros d Ed. rewrite Ed. specialize (Hd d Ed).
  pose proof (authorizeCurseCaller_spec i d) as Ha. apply swp_bind.
  destruct (authorizeCurseCaller i d) as [[caller q]|e]; [|left; eauto].
  apply swp_plift_res; [intros ? [= <-]|done]. cbv beta iota.
  destruct Ha as (Hauth & Hq & Hnq).
  destruct (authorized_may_curse _ _ _ Hf Hauth) as (a & Hn & Hma).
  destruct (decide (caller = d)) as [->|Hcd]; [|destruct (decide (MCMSQualifier i = ""%string)) as [Eq|Nq]].
  - assert (a = signer) as -> by (by eapply names_fun).
    pose proof (cursed_with_curses (Subjects i) _ _ (ready_cursed _ _ Hr)) as Heff.
    apply swp_bind, swp_pwrap. eapply gwp_invoke.
    + by apply call_curse.
    + intros tr'. destruct (directExecOutput_empty (ChainSelector i) (RMNContractID i) "stellar-direct-curse")
        as (out & -> & Ho). left. split_and!; [done..|]. eauto.
    + intros tr' w' Hg [->| ->]; right; eauto 7.
  - left. split_and!; [done..|]. left. unfold routable. rewrite decide_True by done. naive_solver.
  - apply swp_bind, swp_plift; [|left; eauto]. intros data E. right. split_and!; [done..|].
    destruct (Hq Nq) as [-> Ht]. exists caller, a. split_and!; [done..|].
    intros w2 c2 m2 L2 R2 M2. rewrite (exec_propose _ _ _ _ _ _ E), (call_curse _ _ _ _ _ _ _ _ L2 R2 Hn M2 Hss).
    eexists. split; [done|]. eapply cursed_with_curses, R2.
Qed.

(** The effect of an uncurse proposal executed by the timelock [a]. *)
Definition proposal_uncurses (i : StellarCurseInput) (id : bytes) (a : ScAddress) (out : OnChainOutput)
    : Prop :=
  forall w c m, located (RMNContractID i) id c w -> rmn_ready c m -> c_owner c = Some a ->
    match exec_txs a w (transactions out) with
    | Some w' => liftable (Subjects i) c /\ exists c', w' = <[id := c']> w /\ uncurses (Subjects i) c c'
    | None => ~ liftable (Subjects i) c
    end.

Lemma call_uncurse_effect cid id c m w a ss :
  located cid id c w -> rmn_ready c m -> c_owner c = Some a ->
  Forall (fun b : bytes => length b = 16%nat) ss ->
  match call_contract (only a) cid "uncurse" [Bytes16SliceToScVal ss] w with
  | Some (_, w') => liftable ss c /\ exists c', w' = <[id := c']> w /\ uncurses ss c c'
  | None => ~ liftable ss c
  end.
Proof.
  intros Hl Hr Ho Hss. rewrite (call_uncurse _ _ _ _ _ _ _ Hl Hr Ho Hss).
  pose proof (uncurse_effect ss m c (ready_cursed _ _ Hr)) as He.
  destruct (uncurse_all m ss); simpl; naive_solver.
Qed.

(** What an uncurse that returns has done: it has lifted the curses itself, as the
    owner, or it has proposed to the owner's timelock; no other caller is used. *)
Definition lifted (i : StellarCurseInput) (id : bytes) (c : Contract) (w : World)
    (out : OnChainOutput) (tr : gtrace) (w' : World) : Prop :=
  (transactions out = [] /\ c_owner c = Some signer /\ liftable (Subjects i) c /\
   exists c', w' = <[id := c']> w /\ uncurses (Subjects i) c c') \/
  (tr = [] /\ w' = w /\ exists a, s_Timelocks i !! MCMSQualifier i = Some (s_Owner i) /\
     names (s_Owner i) a /\ c_owner c = Some a /\ a <> signer /\ proposal_uncurses i id a out).

Definition not_lifted (i : StellarCurseInput) (id : bytes) (c : Contract) (w : World)
    (tr : gtrace) (w' : World) : Prop :=
  (tr = [] \/ gfailed tr /\ c_owner c = Some signer) /\
  (w' = w \/ gfailed tr /\ liftable (Subjects i) c /\ exists c', w' = <[id := c']> w /\ uncurses (Subjects i) c c').

Lemma uncurse_run chains i id c m w :
  located (RMNContractID i) id c w -> rmn_ready c m -> facts i c ->
  Forall (fun b : bytes => length b = 16%nat) (Subjects i) ->
  (forall d, deployer_on chains (ChainSelector i) = Ok d -> names d signer) ->
  gwp signer (StellarUncurse chains i) (post (lifted i id c w) (not_lifted i id c w)) [] w.
Proof.
  intros Hl Hr Hf Hss Hd. unfold not_lifted. apply swp_bind, swp_plift_res; [|intros e _; simpl; eauto].
  intros d Ed. specialize (Hd d Ed). destruct Hf as [(o & Ho & Hno) Hadm].
  destruct (decide (s_Owner i = ""%string)); [simpl; eauto|].
  destruct (decide (d = s_Owner i)) as [->|Hdo].
  - assert (o = signer) as -> by (by eapply names_fun). apply swp_bind, swp_pwrap.
    pose proof (call_uncurse_effect _ _ _ _ _ _ _ Hl Hr Ho Hss) as He.
    destruct (call_contract (only signer) (RMNContractID i) "uncurse" _ w) as [[v w1]|] eqn:Ec.
    + eapply gwp_invoke; [exact Ec| |intros tr' w' Hg [->| ->]; naive_solver].
      intros tr'. destruct (directExecOutput_empty (ChainSelector i) (RMNContractID i) "stellar-direct-uncurse")
        as (out & -> & Hout). left. naive_solver.
    + eapply gwp_invoke_refused; [exact Ec|]. naive_solver.
  - pose proof (authorizeCurseCaller_spec i d) as Ha. apply swp_bind.
    destruct (authorizeCurseCaller i d) as [[caller q]|e]; [|simpl; eauto].
    apply swp_plift_res; [intros ? [= <-]|done]. cbv beta iota.
    destruct (decide (caller <> s_Owner i)) as [|Hc]; [simpl; eauto|].
    assert (caller = s_Owner i) as -> by (by destruct (decide (caller = s_Owner i))).
    destruct (decide (MCMSQualifier i = ""%string)) as [|Nq]; [simpl; eauto|].
    apply swp_bind, swp_plift; [|simpl; eauto]. intros data E. right. split_and!; [done..|].
    destruct Ha as (_ & Hq & _), (Hq Nq) as [-> Ht]. exists o. split_and!; [done..| |].
    { intros ->. apply Hdo. by eapply names_inj. }
    intros w2 c2 m2 L2 R2 O2. rewrite (exec_propose _ _ _ _ _ _ E).
    pose proof (call_uncurse_effect _ _ _ _ _ _ _ L2 R2 O2 Hss) as He.
    by destruct (call_contract _ _ _ _ _) as [[]|].
Qed.

End Curse.

Section Adapter.
Context `{CodecLaws} `{GovSdk} `{BatchLaws} `{!AdapterSdk} (signer : ScAddress).

(** The id an adapter uses: the cached one, else the one of the datastore. *)
Definition id_of (e : Environment) (sel : Z) (ref : DatastoreSorobanContractRef)
    (cache : gmap Z string) : res string :=
  match cache !! sel with Some x => Ok x | None => stellarContractIDOnChain e sel ref end.

Lemma cache_id_ok pre e sel ref cache x :
  id_of e sel ref cache = Ok x -> cache_id pre e sel ref cache = (Ok tt, <[sel := x]> cache).
Proof.
  unfold id_of, cache_id. destruct (cache !! sel) as [y|] eqn:E; [|by intros ->].
  intros [= ->]. by rewrite insert_id.
Qed.

(** The caches of the other selectors. *)
Definition others_kept (sel : Z) (a a' : StellarCurseAdapter) : Prop :=
  forall s, s <> sel ->
    rmnContractID a' !! s = rmnContractID a !! s /\ routerContractID a' !! s = routerContractID a !! s /\
    owners a' !! s = owners a !! s /\ curseAdmins a' !! s = curseAdmins a !! s /\
    timelocks a' !! s = timelocks a !! s.

(** What an adapter that has been initialized holds of a selector: its contracts,
    the datastore's timelocks, and the owner and the admins of [c]. *)
Definition fresh (e : Environment) (sel : Z) (rmn : string) (c : Contract) (a : StellarCurseAdapter) : Prop :=
  rmnContractID a !! sel = Some rmn /\
  timelocks a !! sel = Some (StellarTimelocksByQualifier (datastoreRefs e) sel) /\
  (exists s o, owners a !! sel = Some s /\ c_owner c = Some o /\ names s o) /\
  match curseAdmins a !! sel with
  | Some l => Forall2 names l (c_curse_admins c)
  | None => True
  end.

(** What the environment gives for a selector. *)
Record known (e : Environment) (sel : Z) (a : StellarCurseAdapter) (rmn d : string) : Prop := {
  known_deployer : deployer_on (e_Chains e) sel = Ok d;
  known_rmn : id_of e sel RMNRemoteDatastoreRef (rmnContractID a) = Ok rmn;
  known_router : is_ok (id_of e sel RouterDatastoreRef (routerContractID a)) = true;
  known_strkey : NormalizeContractAddress rmn = Ok rmn;
  known_signer : names d signer
}.

Lemma fresh_facts e sel rmn c a i :
  fresh e sel rmn c a -> ci_ChainSelector i = sel -> facts (curse_input a rmn i) c.
Proof.
  intros (_ & _ & (s & o & Es & Eo & Hn) & Ha) <-. split; simpl.
  - exists o. by rewrite Es.
  - destruct (curseAdmins a !! ci_ChainSelector i) as [l|]; [simpl|constructor].
    apply list.Forall_forall. intros x Hx. apply list_elem_of_lookup in Hx as [n Hx].
    destruct (Forall2_lookup_l _ _ _ _ _ Ha Hx) as (y & Hy & Hxy). exists y.
    split; [done|]. by eapply list_elem_of_lookup_2.
Qed.

Definition initialized (e : Environment) (sel : Z) (rmn : string) (c : Contract) (w : World)
    (a : StellarCurseAdapter) (x : outcome unit * StellarCurseAdapter) (tr : gtrace) (w' : World) : Prop :=
  w' = w /\ no_invoke tr /\ others_kept sel a x.2 /\
  (is_done x.1 = true -> fresh e sel rmn c x.2) /\ (is_done x.1 = false -> gfailed tr).

Ltac keep_others := intros ? ?; simpl; rewrite ?lookup_insert_ne, ?lookup_delete_ne by done; done.

Lemma initialize_run e sel a rmn d id c m w :
  known e sel a rmn d -> located rmn id c w -> rmn_ready c m -> contract_wf c -> is_Some (c_owner c) ->
  gwp signer (Initialize ContractOwner CurseAdmins e sel a) (initialized e sel rmn c w a) [] w.
Proof.
  intros [Hd Hi Hro Hk _] Hl Hr Hwf [o Ho].
  destruct (names_exist o (wf_owner _ Hwf _ Ho)) as [s Hs].
  destruct (names_exist_list _ (wf_admins _ Hwf)) as [admins Ha].
  destruct (id_of e sel RouterDatastoreRef (routerContractID a)) as [router|] eqn:Er; [|done].
  unfold Initialize, init_local. unfold deployer_on in Hd.
  destruct (e_Chains e !! sel) as [ch|]; [|done].
  rewrite (cache_id_ok _ _ _ _ _ _ Hi). cbn [routerContractID set_rmn].
  rewrite (cache_id_ok _ _ _ _ _ _ Er), Hd. cbn -[ContractOwner CurseAdmins FullAddressRef].
  rewrite lookup_insert_eq. cbn -[ContractOwner CurseAdmins FullAddressRef].
  assert (Href : refers (FullAddressRef RMNRemoteDatastoreRef sel rmn) rmn id c w) by (by split).
  apply swp_outcome. eapply gwp_ContractOwner; [exact Href|simpl; unfold ownable_types; set_solver|done..| |].
  2: { intros tr' Hq Hf. split; [intros x|]; (split_and!; [done|by apply quiet_nil|keep_others|done..]). }
  intros tr1 Hq1. apply swp_outcome. eapply gwp_CurseAdmins; [exact Href|done..| |].
  - intros tr2 Hq2. pose proof (quiet_since_trans _ _ _ Hq1 Hq2) as Hq.
    split_and!; [done|by apply quiet_nil|keep_others| |done].
    intros _. unfold fresh. simpl. rewrite !lookup_insert_eq. split_and!; [done..|by exists s, o|done].
  - intros tr2 Hq2 Hf. pose proof (quiet_since_trans _ _ _ Hq1 Hq2) as Hq. split; [intros x|].
    + split_and!; [done|by apply quiet_nil|keep_others| |done].
      intros _. unfold fresh. simpl. rewrite !lookup_insert_eq, lookup_delete_eq.
      split_and!; [done..|by exists s, o|done].
    + split_and!; [done|by apply quiet_nil|keep_others|done..].
Qed.

(** ** The sequences after an [Initialize] *)

Lemma deployed_signer e sel a rmn d :
  known e sel a rmn d -> forall d', deployer_on (e_Chains e) sel = Ok d' -> names d' signer.
Proof. intros K d' Hd'. pose proof (known_deployer _ _ _ _ _ K) as Hd. rewrite Hd in Hd'. injection Hd' as <-. apply K. Qed.

(** Property C31: A curse through the adapter lands.  Whatever an adapter held
    before, an [Initialize] that returns has read the chain without writing it, holds
    the owner of the RMN Remote, its admins (or none, if their read failed) and the
    timelocks of the datastore, and has left the other chains' entries alone; it
    fails only when a request failed.  A curse of the adapter then either curses the
    subjects itself, or proposes one transaction to the timelock of the stack it was
    asked for: that timelock may curse, and executing the proposal curses exactly the
    subjects in any later state in which it still may.  Otherwise nothing was sent,
    because no authorized caller was asked for or the payload has no encoding, or the
    invocation failed. *)
Theorem adapter_curse_lands e sel a rmn d id c m w i :
  known e sel a rmn d -> located rmn id c w -> rmn_ready c m -> contract_wf c -> is_Some (c_owner c) ->
  ci_ChainSelector i = sel -> Forall (fun b : bytes => length b = 16%nat) (ci_Subjects i) ->
  gwp signer (Initialize ContractOwner CurseAdmins e sel a)
    (fun x tr w' => initialized e sel rmn c w a x tr w' /\
       (is_done x.1 = true ->
        gwp signer (adapter_Curse x.2 (e_Chains e) i)
          (post (landed signer (curse_input x.2 rmn i) id c w)
                (not_landed signer (e_Chains e) (curse_input x.2 rmn i) id c w)) [] w)) [] w.
Proof.
  intros K Hl Hr Hwf Ho Hsel Hss. eapply swp_mono; [by eapply initialize_run|].
  intros [r a'] tr w' Hin. split; [done|]. intros Hd.
  pose proof (proj1 (proj2 (proj2 (proj2 Hin))) Hd) as Hf. simpl in *.
  unfold adapter_Curse, wrapCurseSequence. rewrite Hsel, (proj1 Hf).
  eapply curse_run; [done..|by eapply fresh_facts|done|].
  unfold ChainSelector. simpl. rewrite Hsel. by eapply deployed_signer.
Qed.

(** Property C32: an uncurse through the adapter is the owner's.  After an
    [Initialize] that returns, an uncurse of the adapter either lifts the curses
    itself, as the owner, or proposes one transaction to the owner's timelock, if that
    is the stack it was asked for: no curse admin ever lifts a curse.  The contract
    accepts it exactly when the subjects are distinct and all cursed, and then lifts
    exactly those.  An uncurse that fails has sent nothing, or had its invocation
    fail. *)
Theorem adapter_uncurse_by_owner e sel a rmn d id c m w i :
  known e sel a rmn d -> located rmn id c w -> rmn_ready c m -> contract_wf c -> is_Some (c_owner c) ->
  ci_ChainSelector i = sel -> Forall (fun b : bytes => length b = 16%nat) (ci_Subjects i) ->
  gwp signer (Initialize ContractOwner CurseAdmins e sel a)
    (fun x tr w' =>
       is_done x.1 = true ->
       gwp signer (adapter_Uncurse x.2 (e_Chains e) i)
         (post (lifted signer (curse_input x.2 rmn i) id c w)
               (not_lifted signer (curse_input x.2 rmn i) id c w)) [] w) [] w.
Proof.
  intros K Hl Hr Hwf Ho Hsel Hss. eapply swp_mono; [by eapply initialize_run|].
  intros [r a'] tr w' Hin Hd. pose proof (proj1 (proj2 (proj2 (proj2 Hin))) Hd) as Hf. simpl in *.
  unfold adapter_Uncurse, wrapCurseSequence. rewrite Hsel, (proj1 Hf).
  eapply uncurse_run; [done..|by eapply fresh_facts|done|].
  unfold ChainSelector. simpl. rewrite Hsel. by eapply deployed_signer.
Qed.

(** ** The chains a router is connected to *)

(** Each source chain once, and those alone that have an offramp and a registered
    family. *)
Lemma connected_chains_spec offRamps :
  NoDup (connected_chains offRamps) /\
  forall s, s ∈ connected_chains offRamps <->
    exists entry, entry ∈ offRamps /\ listed entry = true /\ e_ChainSelector entry = s.
Proof.
  unfold connected_chains.
  assert (G : forall acc, NoDup acc ->
    let l := fold_left (fun connected entry =>
               if listed entry && negb (bool_decide (e_ChainSelector entry ∈ connected))
               then connected ++ [e_ChainSelector entry] else connected) offRamps acc in
    NoDup l /\ forall s, s ∈ l <-> s ∈ acc \/
      exists entry, entry ∈ offRamps /\ listed entry = true /\ e_ChainSelector entry = s).
  { induction offRamps as [|x l IH]; intros acc Hacc; simpl; [split; [done|set_solver]|].
    destruct (listed x) eqn:Ex; simpl; [destruct (bool_decide _) eqn:Eb; simpl|].
    - apply bool_decide_eq_true_1 in Eb. destruct (IH acc Hacc) as [Hn Hs]. split; [done|].
      intros s. rewrite Hs. split; [set_solver|]. intros [?|(y & [->|Hy]%elem_of_cons & Hy1 & <-)]; eauto.
    - apply bool_decide_eq_false_1 in Eb. destruct (IH (acc ++ [e_ChainSelector x])) as [Hn Hs].
      { apply list.NoDup_app. split_and!; [done|set_solver|apply NoDup_singleton]. }
      split; [done|]. intros s. rewrite Hs. set_solver.
    - destruct (IH acc Hacc) as [Hn Hs]. split; [done|]. intros s. rewrite Hs. split; [set_solver|].
      intros [?|(y & [->|Hy]%elem_of_cons & Hy1 & <-)]; [eauto|congruence|eauto 6]. }
  destruct (G []) as [Hn Hs]; [constructor|]. split; [done|]. intros s. rewrite Hs. set_solver.
Qed.

End Adapter.
