(* ===== verification/ActivateProofs.v ===== *)
(** * Governance of a chain: handing an RMN Remote over

    Theorems on the sequences of Activate.v against the contracts of
    RmnRemote.v: what an activation does when it returns and what it may leave
    behind when it does not, and the whole way from the deployer's ownership to
    the governance timelock's. *)

From S2P Require Import Prelude Sdk GoBytes Xdr Scval ScvalProofs Interaction GovRefs Ownership RmnRemote RmnLogic Curse CurseProofs.

Lemma dedupeStrkeys_elem l s : s ∈ dedupeStrkeys l <-> s ∈ l.
Proof.
  unfold dedupeStrkeys. assert (G : forall out, s ∈ fold_left (fun out s => if decide (s ∈ out) then out else out ++ [s]) l out
    <-> s ∈ out \/ s ∈ l).
  { induction l as [|x l IH]; intros out; simpl; [set_solver|]. rewrite IH.
    destruct (decide (x ∈ out)); set_solver. }
  rewrite G. set_solver.
Qed.

Section Activate.
Context `{CodecLaws} `{GovSdk} `{BatchLaws}.

(** ** What an activation may do *)

Section Steps.
Context (gov : ScAddress) (wanted : list ScAddress) (subjects : list bytes).

(** [c'] is on the way from [c]: owned as before, nothing lost, nothing added that
    was not asked for. *)
Record between (c c' : Contract) : Prop := {
  bt_kept : c_initialized c' = c_initialized c /\ c_rmn c' = c_rmn c /\ c_owner c' = c_owner c;
  bt_pending : c_pending c' = c_pending c \/ c_pending c' = Some gov;
  bt_admins_kept : forall a, a ∈ c_curse_admins c -> a ∈ c_curse_admins c';
  bt_admins_new : forall a, a ∈ c_curse_admins c' -> a ∈ c_curse_admins c \/ a ∈ wanted;
  bt_cursed_kept : forall s, subject_cursed c s -> subject_cursed c' s;
  bt_cursed_new : forall s, subject_cursed c' s -> subject_cursed c s \/ s ∈ subjects
}.

(** [c'] has arrived: all that was asked for, and the transfer is pending. *)
Definition arrived (c c' : Contract) : Prop :=
  between c c' /\ c_pending c' = Some gov /\ (forall a, a ∈ wanted -> a ∈ c_curse_admins c') /\
  (forall s, s ∈ subjects -> subject_cursed c' s).

Lemma between_refl c : between c c.
Proof. by split; auto. Qed.

Lemma between_trans c1 c2 c3 : between c1 c2 -> between c2 c3 -> between c1 c3.
Proof.
  intros [(A1 & A2 & A3) P K1 N1 K2 N2] [(A1' & A2' & A3') P' K1' N1' K2' N2'].
  split; [split_and!; congruence|destruct P', P; [left|right|right|right]; congruence|auto..].
  - intros a [Ha|Ha]%N1'; auto.
  - intros s [Hs|Hs]%N2'; auto.
Qed.

Lemma between_admins c l :
  (forall a, a ∈ l -> a ∈ wanted) ->
  between c (set_curse_admins (foldl add_admin (c_curse_admins c) l) c).
Proof.
  intros Hl. split; simpl; auto.
  - intros a Ha. apply add_admins_elem. by left.
  - intros a [Ha|Ha]%add_admins_elem; auto.
Qed.

Lemma between_cursed c m s :
  c_cursed c = Some m -> s ∈ subjects -> between c (cursed_with [s] m c).
Proof.
  intros Hm Hs. destruct (cursed_with_curses [s] m c Hm) as [_ Hc]. split; auto.
  - intros x Hx. apply Hc. by right.
  - intros x [Hx|Hx]%Hc; [right; set_solver|by left].
Qed.

Lemma between_transfer c a : c_owner c = Some a -> between c (set_owner (Some a) (Some gov) c).
Proof. intros Ho. split; simpl; auto. Qed.

End Steps.

(** ** Setup *)

(** What the code resolves of its input, and the addresses that stand for it. *)
Record activation (chains : BlockChains) (i : StellarActivateRMNInput) (signer gov fast : ScAddress)
    (d govTL fastTL : string) (recorded ops : AddressRef) (extras : list ScAddress) : Prop := {
  act_deployer : deployer_on chains (a_ChainSelector i) = Ok d;
  act_gov : timelock_of i (govQual i) = Ok govTL;
  act_fast : timelock_of i (fastQual i) = Ok fastTL;
  act_refs : resolveRMNRemoteRefs i = Ok (recorded, ops);
  act_type : ref_Type ops = rmn_remote_ContractType;
  act_cid : NormalizeContractAddress (ref_Address ops) = Ok (ref_Address ops);
  act_signer : names d signer;
  act_gov_names : names govTL gov;
  act_fast_names : names fastTL fast;
  act_extras : Forall2 names (ExtraCurseAdmins i) extras;
  act_other : signer <> gov;
  act_subjects : Forall (fun b : bytes => length b = 16%nat) (SubjectsToMigrate i)
}.

Lemma wanted_names chains i signer gov fast d govTL fastTL recorded ops extras s :
  activation chains i signer gov fast d govTL fastTL recorded ops extras ->
  s ∈ admins_wanted i fastTL -> exists a, names s a /\ a ∈ fast :: extras.
Proof.
  intros A Hs. unfold admins_wanted in Hs. rewrite dedupeStrkeys_elem in Hs.
  apply elem_of_cons in Hs as [->|Hs]; [exists fast; split; [apply A|set_solver]|].
  apply list_elem_of_lookup in Hs as [n Hn].
  destruct (Forall2_lookup_l _ _ _ _ _ (act_extras _ _ _ _ _ _ _ _ _ _ _ A) Hn) as (a & Ha & Hna).
  exists a. split; [done|]. apply list_elem_of_further. by eapply list_elem_of_lookup_2.
Qed.

Lemma wanted_named chains i signer gov fast d govTL fastTL recorded ops extras a :
  activation chains i signer gov fast d govTL fastTL recorded ops extras ->
  a ∈ fast :: extras -> exists s, s ∈ admins_wanted i fastTL /\ names s a.
Proof.
  intros A [->|Ha]%elem_of_cons; unfold admins_wanted; setoid_rewrite dedupeStrkeys_elem.
  - exists fastTL. split; [set_solver|apply A].
  - apply list_elem_of_lookup in Ha as [n Hn].
    destruct (Forall2_lookup_r _ _ _ _ _ (act_extras _ _ _ _ _ _ _ _ _ _ _ A) Hn) as (s & Hs & Hna).
    exists s. split; [|done]. apply list_elem_of_further. by eapply list_elem_of_lookup_2.
Qed.

(** ** Runs *)

Section Run.
Context (chains : BlockChains) (i : StellarActivateRMNInput) (signer gov fast : ScAddress).
Context (d govTL fastTL : string) (recorded ops : AddressRef) (extras : list ScAddress) (id : bytes).
Context (A : activation chains i signer gov fast d govTL fastTL recorded ops extras).

Abbreviation cid := (ref_Address ops).
Abbreviation way := (between gov (fast :: extras) (SubjectsToMigrate i)).

Definition went (P : Contract -> Prop) (w : World) (c : Contract) (w' : World) : Prop :=
  exists c' m', w' = <[id := c']> w /\ way c c' /\ rmn_ready c' m' /\ P c'.

Definition stopped (w : World) (c : Contract) (tr : gtrace) (w' : World) : Prop :=
  gfailed tr /\ exists c', w' = <[id := c']> w /\ way c c'.

Lemma went_here P w c m : w !! id = Some c -> rmn_ready c m -> P c -> went P w c w.
Proof. intros Hl Hr HP. exists c, m. split_and!; [by rewrite insert_id|apply between_refl|done..]. Qed.

Lemma went_to (P : Contract -> Prop) w c c' m' : way c c' -> rmn_ready c' m' -> P c' -> went P w c (<[id := c']> w).
Proof. intros Hb Hr HP. by exists c', m'. Qed.

Lemma stopped_between w c c' w' tr :
  w !! id = Some c -> way c c' -> gfailed tr -> w' = w \/ w' = <[id := c']> w -> stopped w c tr w'.
Proof.
  intros Hl Hb Hg [->| ->]; (split; [done|]); [|by exists c'].
  exists c. split; [by rewrite insert_id|apply between_refl].
Qed.

Lemma stopped_further w c c1 tr w' :
  way c c1 -> stopped (<[id := c1]> w) c1 tr w' -> stopped w c tr w'.
Proof.
  intros Hb (Hg & c' & -> & Hb'). split; [done|]. exists c'. rewrite insert_insert_eq.
  split; [done|]. by eapply between_trans.
Qed.

Lemma went_further P w c c1 w' :
  way c c1 -> went P (<[id := c1]> w) c1 w' -> went P w c w'.
Proof.
  intros Hb (c' & m' & -> & Hb' & Hr & HP). exists c', m'. rewrite insert_insert_eq.
  split_and!; [done|by eapply between_trans|done..].
Qed.

Lemma ops_refer w c : located cid id c w -> refers ops cid id c w.
Proof. intros Hl. split; [apply A|done]. Qed.

(** The admins that are missing, by name and by address. *)
Lemma missing_names l : (forall s, s ∈ l -> s ∈ admins_wanted i fastTL) ->
  exists as_, Forall2 names l as_ /\ forall a, a ∈ as_ -> a ∈ fast :: extras.
Proof.
  induction l as [|s l IH]; intros Hl; [exists []; split; [done|set_solver]|].
  destruct IH as (as_ & Hn & Has); [set_solver|].
  destruct (wanted_names _ _ _ _ _ _ _ _ _ _ _ s A) as (a & Ha & Hin); [set_solver|].
  exists (a :: as_). split; [by constructor|]. set_solver.
Qed.

(** Whoever is wanted is an admin already, or among the missing. *)
Lemma wanted_covered (current : list string) admins as_ a :
  Forall2 names current admins ->
  Forall2 names (filter (fun s => s ∉ current) (admins_wanted i fastTL)) as_ ->
  a ∈ fast :: extras -> a ∈ admins \/ a ∈ as_.
Proof.
  intros Hc Hm Ha. destruct (wanted_named _ _ _ _ _ _ _ _ _ _ _ a A Ha) as (s & Hs & Hn).
  destruct (decide (s ∈ current)) as [Hin|Hout]; [left|right].
  - apply list_elem_of_lookup in Hin as [n Hn']. destruct (Forall2_lookup_l _ _ _ _ _ Hc Hn') as (a' & Ha' & Hna).
    assert (a' = a) as -> by (by eapply names_fun). by eapply list_elem_of_lookup_2.
  - assert (Hf : s ∈ filter (fun s => s ∉ current) (admins_wanted i fastTL)) by (by apply list_elem_of_filter).
    apply list_elem_of_lookup in Hf as [n Hn']. destruct (Forall2_lookup_l _ _ _ _ _ Hm Hn') as (a' & Ha' & Hna).
    assert (a' = a) as -> by (by eapply names_fun). by eapply list_elem_of_lookup_2.
Qed.

Lemma run_grant_direct current c m w tr :
  located cid id c w -> rmn_ready c m -> c_owner c = Some signer ->
  Forall2 names current (c_curse_admins c) ->
  gwp signer (grant_admins d d govTL ops (filter (fun s => s ∉ current) (admins_wanted i fastTL)))
    (post (fun grants tr' w' => grants = [] /\
             went (fun c' => forall a, a ∈ fast :: extras -> a ∈ c_curse_admins c') w c w')
          (stopped w c)) tr w.
Proof.
  intros Hl Hr Ho Hc. remember (filter _ (admins_wanted i fastTL)) as l eqn:El.
  destruct (missing_names l) as (as_ & Hn & Has); [intros s Hs; rewrite El, list_elem_of_filter in Hs; apply Hs|].
  assert (Hcov : forall a, a ∈ fast :: extras -> a ∈ c_curse_admins c \/ a ∈ as_)
    by (intros a; eapply wanted_covered; [exact Hc|by rewrite <- El]).
  unfold grant_admins. clear El. destruct l as [|s l].
  - split; [done|]. eapply went_here; [apply Hl|done|]. intros a Ha.
    inversion Hn; subst. by destruct (Hcov a Ha) as [|Hx%not_elem_of_nil].
  - apply swp_bind. unfold routeCurseAdminGrant. rewrite decide_True by done.
    apply swp_bind, swp_pwrap. eapply gwp_dispatch;
      [by apply ops_refer|rewrite (act_type _ _ _ _ _ _ _ _ _ _ _ A); set_solver|].
    pose proof (between_admins gov (fast :: extras) (SubjectsToMigrate i) c as_ Has) as Hb.
    eapply gwp_invoke; [by eapply call_updates| |].
    + intros tr'. split; [done|]. eapply went_to; [exact Hb|by apply ready_admins|].
      intros a Ha. simpl. apply add_admins_elem. by apply Hcov.
    + intros tr' w' Hg Hw. eapply stopped_between; [apply Hl|exact Hb|done..].
Qed.

Lemma run_migrate ss c m w tr :
  (forall s, s ∈ ss -> s ∈ SubjectsToMigrate i) ->
  located cid id c w -> rmn_ready c m -> c_owner c = Some signer ->
  gwp signer (migrate cid d ss)
    (post (fun _ tr' w' => went (fun c' => forall s, s ∈ ss -> subject_cursed c' s) w c w')
          (stopped w c)) tr w.
Proof.
  revert c m w tr. induction ss as [|s ss IH]; intros c m w tr Hss Hl Hr Ho.
  { eapply went_here; [apply Hl|done|set_solver]. }
  pose proof (between_cursed gov (fast :: extras) (SubjectsToMigrate i) c m s (ready_cursed _ _ Hr)) as Hb.
  specialize (Hb (Hss s ltac:(set_solver))). apply swp_bind, swp_pwrap. eapply gwp_invoke.
  - apply call_curse; [done..|apply A|by left|]. apply Forall_singleton.
    pose proof (act_subjects _ _ _ _ _ _ _ _ _ _ _ A) as Hf. rewrite list.Forall_forall in Hf. apply Hf. set_solver.
  - intros tr'. eapply swp_weaken.
    + eapply (IH _ (foldl curse_one m [s])); [set_solver|by eapply located_insert|by apply ready_cursed_with|done].
    + intros ? tr1 w1 Hw. eapply went_further; [exact Hb|].
      destruct Hw as (c' & m' & -> & Hb' & Hr' & Hc). exists c', m'. split_and!; [done..|].
      intros x [->|Hx]%elem_of_cons; [|auto]. eapply bt_cursed_kept; [exact Hb'|].
      apply (cursed_with_curses [s] m c (ready_cursed _ _ Hr)). left. set_solver.
    + intros tr1 w1 Hs. by eapply stopped_further.
  - intros tr' w' Hg Hw. eapply stopped_between; [apply Hl|exact Hb|done..].
Qed.

Lemma with_own_Address r : with_Address (ref_Address r) r = r.
Proof. by destruct r. Qed.

Abbreviation transfer_input := (mkTransferInput (a_ChainSelector i) [ops] govTL govTL).

Lemma gov_name_other : govTL <> d.
Proof.
  intros E. apply (act_other _ _ _ _ _ _ _ _ _ _ _ A). eapply names_fun; [apply A|].
  rewrite <- E. apply A.
Qed.

(** The transfer and the acceptance of the RMN Remote, up to its routing. *)
Lemma run_one_ref (one : string -> AddressRef -> list BatchOperation -> G (list BatchOperation))
    (R : OnChainOutput -> gtrace -> World -> Prop) E w tr :
  gwp signer (one d ops []) (post (fun l tr' w' => R (mkOnChainOutput [] l) tr' w') E) tr w ->
  gwp signer (deployerAddr ← plift_res (deployer_on chains (a_ChainSelector i));
              l ← each_ref (one deployerAddr) [ops] []; mret (mkOnChainOutput [] l)) (post R E) tr w.
Proof.
  intros Hw. apply swp_bind. rewrite (act_deployer _ _ _ _ _ _ _ _ _ _ _ A).
  apply swp_plift_res; [intros ? [= <-]|done]. apply swp_bind, swp_bind.
  eapply swp_weaken; [exact Hw| |done]. done.
Qed.

Lemma run_read_owner o s c w tr (R : string -> gtrace -> World -> Prop) (E : gtrace -> World -> Prop) :
  located cid id c w -> c_owner c = Some o -> names s o ->
  (forall tr', quiet_since tr tr' -> R s tr' w) ->
  (forall tr', quiet_since tr tr' -> gfailed tr' -> E tr' w) ->
  gwp signer (ContractOwner ops) (post R E) tr w.
Proof.
  intros Hl Ho Hn HR HE. eapply gwp_ContractOwner; [by apply ops_refer| |done..].
  rewrite (act_type _ _ _ _ _ _ _ _ _ _ _ A). unfold ownable_types. set_solver.
Qed.

Ltac routing :=
  apply swp_bind; rewrite (act_cid _ _ _ _ _ _ _ _ _ _ _ A); apply swp_plift_res; [intros ? [= <-]|done];
  cbv zeta; rewrite with_own_Address; apply swp_bind, swp_pwrap.

Lemma appended_executed sel tx mk (R : list BatchOperation -> gtrace -> World -> Prop) E tr w :
  (forall l, txs_of l = [] -> R l tr w) ->
  gwp signer (append_write (mkWriteOutput sel tx (Some mk)) []) (post R E) tr w.
Proof.
  intros HR. unfold append_write. destruct (batch_of_executed sel tx mk) as (b & -> & Hb).
  apply HR. unfold txs_of. simpl. by rewrite Hb.
Qed.

Lemma run_transfer_direct c m w tr :
  located cid id c w -> rmn_ready c m -> c_owner c = Some signer ->
  gwp signer (StellarTransferOwnershipViaMCMS chains transfer_input)
    (post (fun out tr' w' => transactions out = [] /\ went (fun c' => c_pending c' = Some gov) w c w')
          (stopped w c)) tr w.
Proof.
  intros Hl Hr Ho. apply (run_one_ref (transfer_one transfer_input)). routing. eapply run_read_owner; [done..|apply A| |].
  - intros tr' _. pose proof gov_name_other. simpl. rewrite decide_False, decide_True by done.
    apply swp_bind, swp_pwrap. eapply gwp_dispatch;
      [by apply ops_refer|rewrite (act_type _ _ _ _ _ _ _ _ _ _ _ A); unfold ownable_types; set_solver|].
    pose proof (between_transfer gov (fast :: extras) (SubjectsToMigrate i) c _ Ho) as Hb.
    eapply gwp_invoke; [eapply call_transfer; [done..|apply A]| |].
    + intros tr1. apply appended_executed. intros l Hx. split; [done|].
      eapply went_to; [exact Hb|by apply ready_owner|done].
    + intros tr1 w' Hg Hw. eapply stopped_between; [apply Hl|exact Hb|done..].
  - intros tr' _ Hg. split; [done|]. exists c. split; [by rewrite insert_id by apply Hl|apply between_refl].
Qed.

Lemma run_transfer_governed c w tr :
  located cid id c w -> c_owner c = Some gov ->
  gwp signer (StellarTransferOwnershipViaMCMS chains transfer_input)
    (post (fun out tr' w' => o_BatchOps out = [] /\ w' = w /\ quiet_since tr tr')
          (fun tr' w' => gfailed tr' /\ w' = w /\ quiet_since tr tr')) tr w.
Proof.
  intros Hl Ho. apply (run_one_ref (transfer_one transfer_input)). routing. eapply run_read_owner; [done..|apply A| |done].
  intros tr' Hq. simpl. by rewrite decide_True.
Qed.

Lemma run_transfer_other o s c w tr :
  located cid id c w -> c_owner c = Some o -> names s o -> o <> signer -> o <> gov ->
  gwp signer (StellarTransferOwnershipViaMCMS chains transfer_input)
    (post (fun _ _ _ => False) (fun tr' w' => w' = w /\ quiet_since tr tr')) tr w.
Proof.
  intros Hl Ho Hn N1 N2. apply (run_one_ref (transfer_one transfer_input)). routing. eapply run_read_owner; [done..| |done].
  intros tr' Hq. simpl.
  assert (s <> govTL) by (intros ->; apply N2; eapply names_fun; [done|apply A]).
  assert (s <> d) by (intros ->; apply N1; eapply names_fun; [done|apply A]).
  by rewrite !decide_False.
Qed.

(** *** The grant when governance owns the contract *)

Definition all_wanted (c : Contract) : Prop := forall a, a ∈ fast :: extras -> a ∈ c_curse_admins c.

Definition encoding_fails : Prop :=
  exists l, is_done (EncodeSorobanMCMSInvokePayload "apply_curse_admin_updates"
              [AddressSliceToScVal l; AddressSliceToScVal []]) = false.

(** What the proposal [txs] does when the governance timelock executes it. *)
Definition proposal_grants (w : World) (c : Contract) (txs : list Transaction) : Prop :=
  (all_wanted c -> txs = []) /\
  exists c', exec_txs gov w txs = Some (<[id := c']> w) /\ way c c' /\ all_wanted c'.

Lemma run_grant_governed current c m w tr :
  located cid id c w -> rmn_ready c m -> c_owner c = Some gov ->
  Forall2 names current (c_curse_admins c) ->
  gwp signer (grant_admins govTL d govTL ops (filter (fun s => s ∉ current) (admins_wanted i fastTL)))
    (post (fun grants tr' w' => tr' = tr /\ w' = w /\ proposal_grants w c (txs_of grants))
          (fun tr' w' => tr' = tr /\ w' = w /\ ~ all_wanted c /\ encoding_fails)) tr w.
Proof.
  intros Hl Hr Ho Hc. remember (filter _ (admins_wanted i fastTL)) as l eqn:El.
  destruct (missing_names l) as (as_ & Hn & Has); [intros s Hs; rewrite El, list_elem_of_filter in Hs; apply Hs|].
  assert (Hcov : forall a, a ∈ fast :: extras -> a ∈ c_curse_admins c \/ a ∈ as_)
    by (intros a; eapply wanted_covered; [exact Hc|by rewrite <- El]).
  assert (Hmiss : all_wanted c -> l = []).
  { intros Hall. destruct l as [|s l]; [done|]. exfalso.
    assert (Hs : s ∈ s :: l) by set_solver. rewrite El, list_elem_of_filter in Hs. destruct Hs as [Hout Hs].
    destruct (wanted_names _ _ _ _ _ _ _ _ _ _ _ s A Hs) as (a & Ha & Hin). apply Hout.
    apply Hall, list_elem_of_lookup in Hin as [n Hn'].
    destruct (Forall2_lookup_r _ _ _ _ _ Hc Hn') as (s' & Hs' & Hna).
    rewrite (names_inj _ _ _ Ha Hna). by eapply list_elem_of_lookup_2. }
  unfold grant_admins. clear El. destruct l as [|s l].
  - do 3 (split; [done|]). exists c. simpl. rewrite insert_id by apply Hl.
    split_and!; [done|apply between_refl|]. intros a Ha. inversion Hn; subst. by destruct (Hcov a Ha) as [|Hx%not_elem_of_nil].
  - apply swp_bind. unfold routeCurseAdminGrant.
    rewrite decide_False, decide_True by (done || apply gov_name_other).
    apply swp_bind, swp_plift; [|intros E; do 2 (split; [done|]); split; [by intros ?%Hmiss|by eexists]].
    intros data E. do 2 (split; [done|]). split; [intros Hall; by specialize (Hmiss Hall)|].
    exists (set_curse_admins (foldl add_admin (c_curse_admins c) as_) c). split; [|split].
    + simpl. unfold MCMSInvokeTx, txs_of. simpl. rewrite (exec_encoded _ _ _ _ _ _ _ _ E).
      by rewrite (call_updates _ _ _ _ _ _ _ _ Hl Hr Ho Hn).
    + by apply between_admins.
    + intros a Ha. simpl. apply add_admins_elem. by apply Hcov.
Qed.

(** *** The activation *)

Definition refuses (c : Contract) : Prop :=
  (c_owner c <> Some signer /\ c_owner c <> Some gov) \/
  (c_owner c = Some gov /\ (SubjectsToMigrate i <> [] \/ (~ all_wanted c /\ encoding_fails))).

Definition activated (c : Contract) (w : World) (out : OnChainOutput) (tr : gtrace) (w' : World) : Prop :=
  o_Addresses out = [recorded] /\
  ((c_owner c = Some signer /\ transactions out = [] /\
    went (arrived gov (fast :: extras) (SubjectsToMigrate i) c) w c w') \/
   (c_owner c = Some gov /\ SubjectsToMigrate i = [] /\ no_invoke tr /\ w' = w /\
    proposal_grants w c (transactions out))).

Definition not_activated (c : Contract) (w : World) (tr : gtrace) (w' : World) : Prop :=
  (gfailed tr \/ refuses c) /\
  ((no_invoke tr /\ w' = w) \/ (c_owner c = Some signer /\ stopped w c tr w')).

Lemma stopped_not_activated c w tr w' :
  c_owner c = Some signer -> stopped w c tr w' -> not_activated c w tr w'.
Proof. intros Ho Hs. split; [left; apply Hs|right; done]. Qed.

Lemma activate_from_deployer current c m w tr :
  located cid id c w -> rmn_ready c m -> c_owner c = Some signer ->
  Forall2 names current (c_curse_admins c) ->
  gwp signer
    (grants ← grant_admins d d govTL ops (filter (fun s => s ∉ current) (admins_wanted i fastTL));
     _ ← migrate_subjects d d ops (SubjectsToMigrate i);
     report ← pwrap "transfer RMN Remote ownership: "
                (StellarTransferOwnershipViaMCMS chains transfer_input);
     mret (mkOnChainOutput [recorded] (grants ++ o_BatchOps report)))
    (post (activated c w) (not_activated c w)) tr w.
Proof.
  intros Hl Hr Ho Hc. apply swp_bind. eapply swp_weaken; [by eapply run_grant_direct| |].
  2: { intros; by apply stopped_not_activated. }
  intros grants tr1 w1 (-> & c1 & m1 & -> & B1 & R1 & W1).
  assert (Ho1 : c_owner c1 = Some signer) by (rewrite <- Ho; apply B1).
  pose proof (located_insert _ _ _ c1 _ Hl) as L1. apply swp_bind.
  assert (Hmig : gwp signer (migrate_subjects d d ops (SubjectsToMigrate i))
    (post (fun _ _ w' => went (fun c' => forall s, s ∈ SubjectsToMigrate i -> subject_cursed c' s)
             (<[id := c1]> w) c1 w') (stopped (<[id := c1]> w) c1)) tr1 (<[id := c1]> w)).
  { unfold migrate_subjects. destruct (SubjectsToMigrate i) as [|s ss] eqn:Es.
    - eapply went_here; [apply L1|exact R1|]. set_solver.
    - rewrite <- Es, decide_False by (intros []; done). by eapply run_migrate. }
  eapply swp_weaken; [exact Hmig| |].
  2: { intros tr2 w2 Hs. apply stopped_not_activated; [done|]. by eapply stopped_further. }
  intros ? tr2 w2 (c2 & m2 & -> & B2 & R2 & S2). rewrite insert_insert_eq.
  pose proof (located_insert _ _ _ c2 _ Hl) as L2.
  assert (Ho2 : c_owner c2 = Some signer) by (rewrite <- Ho1; apply B2).
  assert (B12 : way c c2) by (by eapply between_trans).
  apply swp_bind, swp_pwrap. eapply swp_weaken; [by eapply run_transfer_direct| |].
  2: { intros tr3 w3 Hs. apply stopped_not_activated; [done|]. by eapply stopped_further. }
  intros out tr3 w3 (Ht & c3 & m3 & -> & B3 & R3 & P3). split; [done|]. left.
  split_and!; [done|unfold transactions in *; simpl; done|]. exists c3, m3.
  rewrite insert_insert_eq. assert (B : way c c3) by (by eapply between_trans).
  split_and!; [done..|]. split_and!; [done..| |].
  - intros x Hx. eapply bt_admins_kept; [exact B3|]. eapply bt_admins_kept; [exact B2|]. by apply W1.
  - intros s Hs. eapply bt_cursed_kept; [exact B3|]. by apply S2.
Qed.

Lemma quiet_not_activated c w tr' w' :
  (gfailed tr' \/ refuses c) -> quiet_since [] tr' -> w' = w -> not_activated c w tr' w'.
Proof. intros Hr Hq ->. split; [done|]. left. split; [by apply quiet_nil|done]. Qed.

Lemma activate_from_gov current c m w tr :
  quiet_since [] tr -> located cid id c w -> rmn_ready c m -> c_owner c = Some gov ->
  Forall2 names current (c_curse_admins c) ->
  gwp signer
    (grants ← grant_admins govTL d govTL ops (filter (fun s => s ∉ current) (admins_wanted i fastTL));
     _ ← migrate_subjects govTL d ops (SubjectsToMigrate i);
     report ← pwrap "transfer RMN Remote ownership: "
                (StellarTransferOwnershipViaMCMS chains transfer_input);
     mret (mkOnChainOutput [recorded] (grants ++ o_BatchOps report)))
    (post (activated c w) (not_activated c w)) tr w.
Proof.
  intros Hq Hl Hr Ho Hc. apply swp_bind. eapply swp_weaken; [by eapply run_grant_governed| |].
  2: { intros tr' w' (-> & -> & He). apply quiet_not_activated; [|done..]. right. right. auto. }
  intros grants tr1 w1 (-> & -> & Hg). apply swp_bind. unfold migrate_subjects.
  destruct (SubjectsToMigrate i) as [|s ss] eqn:Es.
  2: { rewrite decide_True by apply gov_name_other. apply quiet_not_activated; [|done..].
       right. right. split; [done|left]. by rewrite Es. }
  apply swp_bind, swp_pwrap. eapply swp_weaken; [by eapply run_transfer_governed| |].
  2: { intros tr2 w2 (Hf & -> & Hq2). apply quiet_not_activated; [by left|by eapply quiet_since_trans|done]. }
  intros out tr2 w2 (Hb & -> & Hq2). split; [done|]. right. do 2 (split; [done|]).
  split; [apply quiet_nil; by eapply quiet_since_trans|].
  split; [done|]. unfold transactions. simpl. by rewrite Hb, app_nil_r.
Qed.

Lemma activate_from_other o s (current : list string) c m w tr :
  quiet_since [] tr -> located cid id c w -> rmn_ready c m -> c_owner c = Some o -> names s o ->
  o <> signer -> o <> gov ->
  gwp signer
    (grants ← grant_admins s d govTL ops (filter (fun s => s ∉ current) (admins_wanted i fastTL));
     _ ← migrate_subjects s d ops (SubjectsToMigrate i);
     report ← pwrap "transfer RMN Remote ownership: "
                (StellarTransferOwnershipViaMCMS chains transfer_input);
     mret (mkOnChainOutput [recorded] (grants ++ o_BatchOps report)))
    (post (activated c w) (not_activated c w)) tr w.
Proof.
  intros Hq Hl Hr Ho Hn N1 N2.
  assert (Hs1 : s <> d) by (intros ->; apply N1; eapply names_fun; [done|apply A]).
  assert (Hs2 : s <> govTL) by (intros ->; apply N2; eapply names_fun; [done|apply A]).
  assert (Href : refuses c) by (left; rewrite Ho; naive_solver).
  apply swp_bind. unfold grant_admins, routeCurseAdminGrant.
  destruct (filter _ _) as [|x l]; [|rewrite !decide_False by done; by apply quiet_not_activated; [right|..]].
  apply swp_bind. unfold migrate_subjects. destruct (SubjectsToMigrate i) as [|x ss];
    [|rewrite decide_True by done; by apply quiet_not_activated; [right|..]].
  apply swp_bind, swp_pwrap. eapply swp_weaken; [by eapply run_transfer_other| |]; [done|].
  intros tr2 w2 (-> & Hq2). apply quiet_not_activated; [by right|by eapply quiet_since_trans|done].
Qed.

Lemma activate_run c m w :
  located cid id c w -> rmn_ready c m -> contract_wf c -> is_Some (c_owner c) ->
  gwp signer (StellarActivateRMN chains i) (post (activated c w) (not_activated c w)) [] w.
Proof.
  intros Hl Hr Hwf [o Ho]. destruct (names_exist o (wf_owner _ Hwf _ Ho)) as [s Hs].
  destruct (names_exist_list _ (wf_admins _ Hwf)) as [current Hc].
  apply swp_bind. rewrite (act_gov _ _ _ _ _ _ _ _ _ _ _ A). apply swp_plift_res; [intros ? [= <-]|done].
  apply swp_bind. rewrite (act_fast _ _ _ _ _ _ _ _ _ _ _ A). apply swp_plift_res; [intros ? [= <-]|done].
  apply swp_bind. rewrite (act_refs _ _ _ _ _ _ _ _ _ _ _ A). apply swp_plift_res; [intros ? [= <-]|done].
  cbv beta iota. apply swp_bind. rewrite (act_deployer _ _ _ _ _ _ _ _ _ _ _ A).
  apply swp_plift_res; [intros ? [= <-]|done]. apply swp_bind, swp_pwrap.
  eapply run_read_owner; [done..| |].
  2: { intros tr' Hq Hf. apply quiet_not_activated; [by left|done..]. }
  intros tr1 Hq1. apply swp_bind, swp_pwrap. eapply gwp_CurseAdmins; [by apply ops_refer|apply A|done..| |].
  2: { intros tr' Hq Hf. apply quiet_not_activated; [by left|by eapply quiet_since_trans|done]. }
  intros tr2 Hq2. cbv zeta. pose proof (quiet_since_trans _ _ _ Hq1 Hq2) as Hq.
  destruct (decide (o = signer)) as [->|N1]; [|destruct (decide (o = gov)) as [->|N2]].
  - assert (s = d) as -> by (eapply names_inj; [done|apply A]). by eapply activate_from_deployer.
  - assert (s = govTL) as -> by (eapply names_inj; [done|apply A]). by eapply activate_from_gov.
  - by eapply (activate_from_other o s current).
Qed.

(** *** The acceptance *)

Lemma run_accept c w tr :
  located cid id c w -> c_owner c = Some signer -> c_pending c = Some gov ->
  gwp signer (StellarAcceptOwnership chains transfer_input)
    (post (fun out tr' w' => quiet_since tr tr' /\ w' = w /\
             exec_txs gov w (transactions out) = Some (<[id := set_owner (Some gov) None c]> w))
          (fun tr' w' => w' = w /\
             (gfailed tr' \/ is_done (EncodeSorobanMCMSInvokePayload "accept_ownership" []) = false))) tr w.
Proof.
  intros Hl Ho Hp. apply (run_one_ref (accept_one transfer_input)). routing.
  eapply run_read_owner; [done..|apply A| |by eauto].
  intros tr' Hq. pose proof gov_name_other. simpl. rewrite !decide_False, decide_True by done.
  apply swp_bind, swp_plift; [|by auto]. intros data E. unfold append_write.
  rewrite batch_of_pending. do 2 (split; [done|]).
  unfold transactions, txs_of. simpl. unfold ref_tx. rewrite (exec_encoded _ _ _ _ _ _ _ _ E).
  by rewrite (call_accept _ _ _ _ _ Hl Hp).
Qed.

Lemma way_wf c c' : contract_wf c -> way c c' -> contract_wf c'.
Proof.
  intros [Wo Wp Wa] [(_ & _ & Ko) Kp _ Kn _ _]. split.
  - intros a. rewrite Ko. apply Wo.
  - intros a Ha. destruct Kp as [Kp|Kp]; rewrite Kp in Ha; [by apply Wp|].
    injection Ha as <-. eapply names_ok, A.
  - rewrite list.Forall_forall in *. intros a [Ha|Ha]%Kn; [auto|].
    destruct (wanted_named _ _ _ _ _ _ _ _ _ _ _ a A Ha) as (s & _ & Hn). by eapply names_ok.
Qed.

End Run.

Definition no_subjects (i : StellarActivateRMNInput) : StellarActivateRMNInput :=
  mkActivateInput (a_ChainSelector i) (ExistingAddresses i) (RMNRemoteRef i) (GovernanceQualifier i)
    (FastCurseQualifier i) (ExtraCurseAdmins i) [].

Lemma activation_no_subjects chains i signer gov fast d govTL fastTL recorded ops extras :
  activation chains i signer gov fast d govTL fastTL recorded ops extras ->
  activation chains (no_subjects i) signer gov fast d govTL fastTL recorded ops extras.
Proof. intros []. by split. Qed.

(** What the chain is left with once the timelock has accepted. *)
Definition governed (i : StellarActivateRMNInput) (gov fast : ScAddress) (c c' : Contract) : Prop :=
  c_owner c' = Some gov /\ may_curse gov c' /\ may_curse fast c' /\
  (forall a, a ∈ c_curse_admins c -> may_curse a c') /\
  (forall s, subject_cursed c s \/ s ∈ SubjectsToMigrate i -> subject_cursed c' s).

(** Property C30: an RMN Remote is handed over.  An activation that returns has,
    on a contract the deployer owns, granted what was asked for and nothing else,
    cursed the subjects and left the transfer to the governance timelock pending,
    without a proposal; on one that governance owns it has sent nothing, and its
    proposal is empty when nothing is missing and else grants the missing admins.
    One that fails had a request fail or was refused (a foreign owner, subjects to
    migrate from governance, an encoding that failed): it invoked nothing, or left
    a contract of the deployer's, with nothing lost and nothing foreign gained.
    After the first, the acceptance is a proposal; once the governance timelock
    has executed it, that timelock is the owner, both stacks may curse, every admin
    and every curse is kept, and activating again sends and proposes nothing. *)
Theorem handover chains i signer gov fast d govTL fastTL recorded ops extras id c m w :
  activation chains i signer gov fast d govTL fastTL recorded ops extras ->
  located (ref_Address ops) id c w -> rmn_ready c m -> contract_wf c -> is_Some (c_owner c) ->
  gwp signer (StellarActivateRMN chains i) (post
    (fun out tr w1 =>
       activated i signer gov fast recorded extras id c w out tr w1 /\
       (c_owner c = Some signer ->
        gwp signer (StellarAcceptOwnership chains
                      (mkTransferInput (a_ChainSelector i) [ops] govTL govTL)) (post
          (fun acc tr' w2 => no_invoke tr' /\ w2 = w1 /\ exists c3,
             exec_txs gov w1 (transactions acc) = Some (<[id := c3]> w) /\ governed i gov fast c c3 /\
             gwp signer (StellarActivateRMN chains (no_subjects i)) (post
               (fun again tr'' w4 => transactions again = [] /\ no_invoke tr'' /\ w4 = <[id := c3]> w)
               (fun tr'' w4 => gfailed tr'' /\ no_invoke tr'' /\ w4 = <[id := c3]> w)) [] (<[id := c3]> w))
          (fun tr' w2 => w2 = w1 /\
             (gfailed tr' \/ is_done (EncodeSorobanMCMSInvokePayload "accept_ownership" []) = false)))
          [] w1))
    (not_activated i signer gov fast extras id c w)) [] w.
Proof.
  intros A Hl Hr Hwf Hs. eapply swp_weaken; [by eapply activate_run| |done].
  intros out tr w1 Hact. split; [done|]. intros Ho.
  destruct Hact as [_ [(_ & _ & Hw)|(Hg & _)]].
  2: { exfalso. apply (act_other _ _ _ _ _ _ _ _ _ _ _ A). congruence. }
  destruct Hw as (c1 & m1 & -> & B1 & R1 & (_ & P1 & W1 & S1)).
  assert (Ho1 : c_owner c1 = Some signer) by (rewrite <- Ho; apply B1).
  pose proof (located_insert _ _ _ c1 _ Hl) as L1.
  eapply swp_weaken; [by eapply run_accept| |done].
  intros acc tr' w2 (Hq & -> & He).
  split; [by apply quiet_nil|]. split; [done|].
  exists (set_owner (Some gov) None c1). rewrite insert_insert_eq in He. split; [done|]. split.
  { split_and!; [done|by left|right; apply W1; set_solver| |].
    - intros a Ha. right. simpl. by eapply bt_admins_kept.
    - intros s [Hc|Hc]; [by apply (bt_cursed_kept _ _ _ _ _ B1 s Hc)|by apply (S1 s Hc)]. }
  eapply swp_weaken.
  - eapply (activate_run _ _ _ _ _ _ _ _ _ _ _ _ (activation_no_subjects _ _ _ _ _ _ _ _ _ _ _ A)).
    + by eapply located_insert.
    + by apply ready_owner.
    + destruct (way_wf _ _ _ _ _ _ _ _ _ _ _ A _ _ Hwf B1) as [_ _ Wa]. split; simpl; [|done..].
      intros a [= <-]. eapply names_ok, A.
    + done.
  - intros again tr2 w4 [_ [(Hx & _)|(_ & _ & Hn & -> & Hp & _)]]; [|by split_and!; [apply Hp; exact W1|done..]].
    exfalso. simpl in Hx. apply (act_other _ _ _ _ _ _ _ _ _ _ _ A). congruence.
  - intros tr2 w4 [Hf [[Hn ->]|[Hx _]]].
    + split_and!; [|done..]. destruct Hf as [Hf|[[_ []]|[_ [[]|[[] _]]]]]; done.
    + exfalso. simpl in Hx. apply (act_other _ _ _ _ _ _ _ _ _ _ _ A). congruence.
Qed.

End Activate.
