(* ===== verification/McmsVerify.v ===== *)
(** * Governance of a chain: verification of a stack

    Models deployment/sequences/mcms_verify.go: the stack a qualifier names in the
    datastore and the checks of its authority, over the reads of
    [governanceReader].  The order in which Go ranges over the map of the four
    addresses is an argument, any permutation of them.

    Then what its checks mean: it returns exactly on the stacks that have the
    authority it describes ([well_governed]), reads permitting. *)

From S2P Require Import Prelude Sdk GoBytes Xdr Scval Interaction GovRefs.

(** ** The reads *)

Inductive vreq `{GovSdk} :=
| mcmsInstanceLabel (addr : string)
| mcmsOwner (addr : string)
| mcmsChainNetworkID (addr : string)
| timelockHasRole (addr role account : string)
| timelockMinDelay (addr : string)
| contractOwner (ref : AddressRef).

Section Verify.
Context `{GovSdk}.

Definition vval (r : vreq) : Type :=
  match r with
  | mcmsInstanceLabel _ | mcmsOwner _ | contractOwner _ => string
  | mcmsChainNetworkID _ => bytes
  | timelockHasRole _ _ _ => bool
  | timelockMinDelay _ => Z
  end.
Definition vans (r : vreq) : Type := outcome (vval r).

Abbreviation V := (fprog vans).

Definition read (pre : string) (r : vreq) : V (vval r) :=
  Ask r (fun x => Done (wrap_out pre x)).

(** ** The stack *)

Definition timelockRoleAdmin : string := "ADMIN".
Definition timelockRoleProposer : string := "PROPOSER".
Definition timelockRoleCanceller : string := "CANCELLER".
Definition timelockRoleBypasser : string := "BYPASSER".

Record governanceTopology := mkTopology {
  Proposer : string;
  Canceller : string;
  Bypasser : string;
  Timelock : string;
  Deployer : string
}.

Record governanceExpectations := mkExpectations {
  MinDelay : option Z;
  GovernedContracts : list AddressRef
}.

Definition find_role (refs : list AddressRef) (chainSelector : Z) (qual : string) (role : MCMSRole)
    : res string :=
  found ← FindExistingStellarMCMSByRole refs chainSelector qual role;
  res_of_option (ErrorString "missing MCMS ref") found.

Definition resolveGovernanceTopology (refs : list AddressRef) (chainSelector : Z)
    (qual deployerAddr : string) : res governanceTopology :=
  proposer ← find_role refs chainSelector qual RoleProposer;
  canceller ← find_role refs chainSelector qual RoleCanceller;
  bypasser ← find_role refs chainSelector qual RoleBypasser;
  tlID ← res_of_option (ErrorString "missing RBACTimelock ref")
           (FindExistingStellarTimelock refs chainSelector qual);
  Ok (mkTopology proposer canceller bypasser tlID deployerAddr).

(** ** The checks *)

Fixpoint check_distinct (order : list (string * string)) (seen : gmap string string) : V unit :=
  match order with
  | [] => mret tt
  | (label, addr) :: rest =>
      if decide (addr = ""%string) then pfail (ErrorString "address is empty")
      else match seen !! addr with
           | Some _ => pfail (ErrorString "the four governance contracts must be distinct")
           | None => check_distinct rest (<[addr := label]> seen)
           end
  end.

Definition four_addresses (t : governanceTopology) : list (string * string) :=
  [("proposer", Proposer t); ("canceller", Canceller t); ("bypasser", Bypasser t);
   ("timelock", Timelock t)]%string.

(** The role instances, with the network id of the first. *)
Fixpoint check_instances (timelock : string) (l : list (string * string)) (netID : option bytes)
    : V unit :=
  match l with
  | [] => mret tt
  | (addr, want) :: rest =>
      label ← read "read instance label: " (mcmsInstanceLabel addr);
      if decide (label <> want) then pfail (ErrorString "wrong instance label") else
      owner ← read "read owner: " (mcmsOwner addr);
      if decide (owner <> timelock) then pfail (ErrorString "owner is not the timelock") else
      id ← read "read chain_network_id: " (mcmsChainNetworkID addr);
      match netID with
      | None => check_instances timelock rest (Some id)
      | Some n => if decide (n = id) then check_instances timelock rest netID
                  else pfail (ErrorString "chain_network_id differs from other instances")
      end
  end.

Definition instances (t : governanceTopology) : list (string * string) :=
  [(Proposer t, InstanceLabel RoleProposer); (Canceller t, InstanceLabel RoleCanceller);
   (Bypasser t, InstanceLabel RoleBypasser)].

Definition requireRole (tlAddr role account : string) (want : bool) : V unit :=
  has ← read "read role: " (timelockHasRole tlAddr role account);
  if eqb has want then mret tt else pfail (ErrorString "role mismatch").

Fixpoint requireRoles (tlAddr : string) (l : list (string * string * bool)) : V unit :=
  match l with
  | [] => mret tt
  | (role, account, want) :: rest =>
      _ ← requireRole tlAddr role account want; requireRoles tlAddr rest
  end.

(** The administrator, the matrix and the deployer. *)
Definition role_checks (t : governanceTopology) : list (string * string * bool) :=
  [(timelockRoleAdmin, Timelock t, true);
   (timelockRoleProposer, Proposer t, true);
   (timelockRoleCanceller, Proposer t, true);
   (timelockRoleCanceller, Canceller t, true);
   (timelockRoleBypasser, Bypasser t, true);
   (timelockRoleAdmin, Deployer t, false);
   (timelockRoleProposer, Deployer t, false);
   (timelockRoleCanceller, Deployer t, false);
   (timelockRoleBypasser, Deployer t, false)].

Definition check_delay (timelock : string) (want : option Z) : V unit :=
  match want with
  | None => mret tt
  | Some d =>
      got ← read "read min delay: " (timelockMinDelay timelock);
      if decide (got = d) then mret tt else pfail (ErrorString "wrong min delay")
  end.

Fixpoint check_governed (timelock : string) (refs : list AddressRef) : V unit :=
  match refs with
  | [] => mret tt
  | ref :: rest =>
      owner ← read "read owner of governed: " (contractOwner ref);
      if decide (owner <> timelock) then pfail (ErrorString "governed contract has another owner")
      else check_governed timelock rest
  end.

Definition verifyGovernance (order : list (string * string)) (t : governanceTopology)
    (exp : governanceExpectations) : V unit :=
  _ ← check_distinct order ∅;
  _ ← check_instances (Timelock t) (instances t) None;
  _ ← requireRoles (Timelock t) (role_checks t);
  _ ← check_delay (Timelock t) (MinDelay exp);
  check_governed (Timelock t) (GovernedContracts exp).

Definition VerifyStellarMCMSGovernanceWithExpectations
    (order_of : governanceTopology -> list (string * string)) (refs : list AddressRef)
    (chainSelector : Z) (qual deployerAddr : string) (exp : governanceExpectations) : V unit :=
  topo ← plift_res (resolveGovernanceTopology refs chainSelector qual deployerAddr);
  verifyGovernance (order_of topo) topo exp.

Definition VerifyStellarMCMSGovernance order_of refs chainSelector qual deployerAddr : V unit :=
  VerifyStellarMCMSGovernanceWithExpectations order_of refs chainSelector qual deployerAddr
    (mkExpectations None []).

(** ** What the contracts say *)

Record Chain := mkChain {
  label_of : string -> string;
  owner_of : string -> string;
  network_of : string -> bytes;
  has_role : string -> string -> string -> bool;
  delay_of : string -> Z;
  governed_owner : AddressRef -> string
}.

Definition truth (c : Chain) (r : vreq) : vval r :=
  match r return vval r with
  | mcmsInstanceLabel a => label_of c a
  | mcmsOwner a => owner_of c a
  | mcmsChainNetworkID a => network_of c a
  | timelockHasRole a role account => has_role c a role account
  | timelockMinDelay a => delay_of c a
  | contractOwner ref => governed_owner c ref
  end.

(** A read answers what the contracts say, or fails; it changes nothing. *)
Definition chain_step (c : Chain) (r : vreq) (c' : Chain) (x : vans r) : Prop :=
  c' = c /\ match x with Returns v => v = truth c r | _ => True end.

Definition some_read_failed (tr : list (event vans)) : Prop :=
  Exists (fun e : event vans => is_done (ev_ans e : outcome _) = false) tr.

(** ** The specification *)

(** The authority a verified stack has. *)
Record well_governed (c : Chain) (t : governanceTopology) (exp : governanceExpectations) : Prop := {
  wg_distinct : NoDup [Proposer t; Canceller t; Bypasser t; Timelock t];
  wg_present : ~ (""%string ∈ [Proposer t; Canceller t; Bypasser t; Timelock t]);
  wg_labels : label_of c (Proposer t) = "PROPOSER"%string /\
    label_of c (Canceller t) = "CANCELLER"%string /\ label_of c (Bypasser t) = "BYPASSER"%string;
  wg_owned : forall a, a ∈ [Proposer t; Canceller t; Bypasser t] -> owner_of c a = Timelock t;
  wg_network : network_of c (Proposer t) = network_of c (Canceller t) /\
    network_of c (Proposer t) = network_of c (Bypasser t);
  wg_admin : has_role c (Timelock t) "ADMIN" (Timelock t) = true;
  wg_proposer : has_role c (Timelock t) "PROPOSER" (Proposer t) = true;
  wg_cancellers : has_role c (Timelock t) "CANCELLER" (Proposer t) = true /\
    has_role c (Timelock t) "CANCELLER" (Canceller t) = true;
  wg_bypasser : has_role c (Timelock t) "BYPASSER" (Bypasser t) = true;
  wg_deployer : forall role, role ∈ ["ADMIN"; "PROPOSER"; "CANCELLER"; "BYPASSER"]%string ->
    has_role c (Timelock t) role (Deployer t) = false;
  wg_delay : forall d, MinDelay exp = Some d -> delay_of c (Timelock t) = d;
  wg_governed : forall ref, ref ∈ GovernedContracts exp -> governed_owner c ref = Timelock t
}.

End Verify.

(** ** The stack a qualifier names *)

Section Stack.
Context `{GovSdk}.

(** The first reference of the type is the instance. *)
Definition first_of (refs : list AddressRef) (p : AddressRef -> bool) (addr : string) : Prop :=
  exists n r, refs !! n = Some r /\ p r = true /\ ref_Address r = addr /\
    forall k r', (k < n)%nat -> refs !! k = Some r' -> p r' = false.

Lemma first_address_spec p refs addr : first_address p refs = Some addr <-> first_of refs p addr.
Proof.
  induction refs as [|r refs IH]; simpl.
  - split; [done|]. by intros (n & ? & ? & _).
  - destruct (p r) eqn:E.
    + split.
      * intros [= <-]. exists 0%nat, r. split_and!; [done..|]. intros; lia.
      * intros ([|n] & r' & Hr & Hp & Ha & Hn); [simpl in Hr; congruence|].
        by rewrite (Hn 0%nat r) in E by (done || lia).
    + rewrite IH. split; intros (n & r' & Hr & Hp & Ha & Hn).
      * exists (S n), r'. split_and!; [done..|]. intros [|k] x Hk Hx; simpl in Hx; [congruence|].
        apply (Hn k); [lia|done].
      * destruct n as [|n]; [simpl in Hr; congruence|]. exists n, r'. split_and!; [done..|].
        intros k x Hk Hx. apply (Hn (S k)); [lia|done].
Qed.

Record stack_of (refs : list AddressRef) (sel : Z) (qual deployer : string) (t : governanceTopology)
    : Prop := {
  so_proposer : first_of refs (stack_ref sel qual ProposerManyChainMultisig) (Proposer t);
  so_canceller : first_of refs (stack_ref sel qual CancellerManyChainMultisig) (Canceller t);
  so_bypasser : first_of refs (stack_ref sel qual BypasserManyChainMultisig) (Bypasser t);
  so_timelock : first_of refs (stack_ref sel qual RBACTimelock) (Timelock t);
  so_deployer : Deployer t = deployer
}.

Lemma resolve_stack refs sel qual deployer t :
  resolveGovernanceTopology refs sel qual deployer = Ok t <-> stack_of refs sel qual deployer t.
Proof.
  unfold resolveGovernanceTopology, find_role, FindExistingStellarMCMSByRole, FindExistingStellarTimelock.
  cbn [DatastoreType]. simpl.
  split.
  - intros E.
    destruct (first_address (stack_ref sel qual ProposerManyChainMultisig) refs) eqn:E1; [|done].
    destruct (first_address (stack_ref sel qual CancellerManyChainMultisig) refs) eqn:E2; [|done].
    destruct (first_address (stack_ref sel qual BypasserManyChainMultisig) refs) eqn:E3; [|done].
    destruct (first_address (stack_ref sel qual RBACTimelock) refs) eqn:E4; [|done].
    simpl in E. injection E as <-. by split; simpl; try apply first_address_spec.
  - intros [P C B T D]. apply first_address_spec in P, C, B, T. rewrite P, C, B, T. simpl.
    destruct t; simpl in *. by subst.
Qed.

Lemma stack_of_fun refs sel qual deployer t t' :
  stack_of refs sel qual deployer t -> stack_of refs sel qual deployer t' -> t = t'.
Proof. rewrite <- !resolve_stack. congruence. Qed.

End Stack.

Section Decides.
Context `{GovSdk} (c : Chain) (R : vreq -> Prop).

Definition reads_only (tr : list (event vans)) : Prop := Forall (fun e => R (ev_req e)) tr.

Definition decides (m : fprog vans unit) (P : Prop) : Prop :=
  forall tr, reads_only tr -> swp chain_step m
    (post (fun _ tr' c' => c' = c /\ reads_only tr' /\ P)
          (fun tr' c' => c' = c /\ reads_only tr' /\ (some_read_failed tr' \/ ~ P))) tr c.

Lemma decides_ext m P Q : decides m P -> (P <-> Q) -> decides m Q.
Proof.
  intros Hm PQ tr Hr. eapply swp_weaken; [by apply Hm|..].
  - intros _ ? ? (? & ? & ?%PQ). done.
  - intros ? ? (? & ? & ?). by rewrite <- PQ.
Qed.

#[export] Instance decides_proper m : Proper (iff ==> iff) (decides m).
Proof. intros P Q E. split; intros Hm; (eapply decides_ext; [exact Hm|]); tauto. Qed.

Lemma decides_ret (P : Prop) : P -> decides (mret tt) P.
Proof. by intros HP tr Hr. Qed.

Lemma decides_fail (P : Prop) e : ~ P -> decides (pfail e) P.
Proof. intros HP tr Hr. simpl. auto. Qed.

Lemma decides_seq m1 m2 P Q :
  decides m1 P -> decides m2 Q -> decides (_ ← m1; m2) (P /\ Q).
Proof.
  intros H1 H2 tr Hr. apply swp_bind. eapply swp_weaken; [by apply H1|..].
  - intros _ tr' ? (-> & Hr' & HP). eapply swp_weaken; [by apply H2|..]; [naive_solver|].
    intros ? ? (? & ? & [?|?]); tauto.
  - intros tr' ? (-> & Hr' & ?). tauto.
Qed.

Lemma decides_read pre r f P : R r -> decides (f (truth c r)) P -> decides (v ← read pre r; f v) P.
Proof.
  intros HR Hf tr Hr. apply swp_bind. intros x c' [-> Hx].
  assert (Hr' : reads_only (mkEvent r x :: tr)) by (by apply List.Forall_cons).
  destruct x as [v|e|]; simpl.
  - subst v. by apply Hf.
  - do 2 (split; [done|]). by left; left.
  - do 2 (split; [done|]). by left; left.
Qed.

(** A guard that stops the check. *)
Lemma decides_guard (D P : Prop) `{!Decision D} m e :
  (D -> ~ P) -> (~ D -> decides m P) -> decides (if decide D then pfail e else m) P.
Proof. intros HD HN. destruct (decide D); [apply decides_fail|]; auto. Qed.

(** ** The checks *)

Definition fresh_addresses (l : list string) (seen : gmap string string) : Prop :=
  NoDup l /\ ~ (""%string ∈ l) /\ forall a, a ∈ l -> seen !! a = None.

Lemma decides_distinct order seen :
  decides (check_distinct order seen) (fresh_addresses order.*2 seen).
Proof.
  revert seen. induction order as [|[label addr] rest IH]; intros seen; simpl.
  { apply decides_ret. unfold fresh_addresses. split; [constructor|set_solver]. }
  apply decides_guard; [intros -> (_ & Hn & _); set_solver|]. intros Hne.
  destruct (seen !! addr) eqn:E.
  { apply decides_fail. intros (_ & _ & Hs). rewrite Hs in E; set_solver. }
  eapply decides_ext; [apply IH|]. unfold fresh_addresses. simpl. rewrite list.NoDup_cons.
  split.
  - intros (Hd & Hn & Hs).
    assert (addr ∉ rest.*2) by (intros Hin; specialize (Hs _ Hin); by rewrite lookup_insert_eq in Hs).
    split_and!; [done..|set_solver|]. intros a [->|Ha]%elem_of_cons; [done|].
    specialize (Hs _ Ha). by rewrite lookup_insert_ne in Hs by set_solver.
  - intros ((Hni & Hd) & Hn & Hs). split_and!; [done|set_solver|].
    intros a Ha. rewrite lookup_insert_ne by set_solver. set_solver.
Qed.

Definition instance_ok (timelock : string) (i : string * string) : Prop :=
  label_of c i.1 = i.2 /\ owner_of c i.1 = timelock.

Definition reads_instance (addr : string) : Prop :=
  R (mcmsInstanceLabel addr) /\ R (mcmsOwner addr) /\ R (mcmsChainNetworkID addr).

Lemma decides_instances timelock l netID :
  Forall (fun i => reads_instance i.1) l -> decides (check_instances timelock l netID)
    (Forall (instance_ok timelock) l /\
     exists n, (netID <> None -> netID = Some n) /\ Forall (fun i => network_of c i.1 = n) l).
Proof.
  intros HR. revert netID. induction HR as [|[addr want] rest (R1 & R2 & R3) _ IH];
    intros netID; cbn [check_instances].
  { apply decides_ret. split; [constructor|]. exists (default [] netID). by destruct netID. }
  apply decides_read; [done|]. rewrite list.Forall_cons. unfold instance_ok at 1. simpl.
  apply decides_guard; [tauto|]. intros El%dec_stable.
  apply decides_read; [done|]. simpl. apply decides_guard; [tauto|]. intros Eo%dec_stable.
  apply decides_read; [done|]. simpl. destruct netID as [n|]; [case_decide as En|].
  - eapply decides_ext; [apply IH|]. setoid_rewrite list.Forall_cons. simpl. naive_solver.
  - apply decides_fail. intros (_ & n' & Hn & Hf). rewrite list.Forall_cons in Hf. naive_solver.
  - eapply decides_ext; [apply IH|]. setoid_rewrite list.Forall_cons. simpl. naive_solver.
Qed.

Lemma decides_role tlAddr role account want :
  R (timelockHasRole tlAddr role account) -> decides (requireRole tlAddr role account want) (has_role c tlAddr role account = want).
Proof.
  intros HR. apply decides_read; [done|]. simpl. destruct (eqb _ want) eqn:E.
  - apply decides_ret. by apply eqb_prop.
  - apply decides_fail. by apply eqb_false_iff.
Qed.

Lemma decides_roles tlAddr l :
  Forall (fun x => R (timelockHasRole tlAddr x.1.1 x.1.2)) l -> decides (requireRoles tlAddr l) (Forall (fun x => has_role c tlAddr x.1.1 x.1.2 = x.2) l).
Proof.
  induction 1 as [|[[role account] want] rest HR _ IH]; [by apply decides_ret|].
  rewrite list.Forall_cons. apply decides_seq; [by apply decides_role|apply IH].
Qed.

Lemma decides_delay timelock want :
  R (timelockMinDelay timelock) -> decides (check_delay timelock want) (forall d, want = Some d -> delay_of c timelock = d).
Proof.
  intros HR. destruct want as [d|]; simpl; [|by apply decides_ret]. apply decides_read; [done|]. simpl.
  case_decide; [apply decides_ret|apply decides_fail]; naive_solver.
Qed.

Lemma decides_governed timelock refs :
  Forall (fun ref => R (contractOwner ref)) refs -> decides (check_governed timelock refs) (forall ref, ref ∈ refs -> governed_owner c ref = timelock).
Proof.
  induction 1 as [|ref rest HR _ IH]; cbn [check_governed]; [apply decides_ret; set_solver|].
  apply decides_read; [done|]. simpl. apply decides_guard; [set_solver|]. intros E%dec_stable.
  eapply decides_ext; [apply IH|]. set_solver.
Qed.

Lemma distinct_order order t :
  order ≡ₚ four_addresses t ->
  fresh_addresses order.*2 ∅ <->
  NoDup [Proposer t; Canceller t; Bypasser t; Timelock t] /\
  ~ (""%string ∈ [Proposer t; Canceller t; Bypasser t; Timelock t]).
Proof.
  intros Ho. assert (E : order.*2 ≡ₚ [Proposer t; Canceller t; Bypasser t; Timelock t]) by (by rewrite Ho).
  unfold fresh_addresses. rewrite E. setoid_rewrite lookup_empty. tauto.
Qed.

(** The reads the verification of a stack makes. *)
Record reads_stack (t : governanceTopology) (exp : governanceExpectations) : Prop := {
  rs_instances : forall a, a ∈ [Proposer t; Canceller t; Bypasser t] -> reads_instance a;
  rs_roles : forall role account want, (role, account, want) ∈ role_checks t ->
    R (timelockHasRole (Timelock t) role account);
  rs_delay : R (timelockMinDelay (Timelock t));
  rs_governed : Forall (fun ref => R (contractOwner ref)) (GovernedContracts exp)
}.

Lemma decides_verify order t exp :
  reads_stack t exp -> order ≡ₚ four_addresses t -> decides (verifyGovernance order t exp) (well_governed c t exp).
Proof.
  intros [Ri Rr Rd Rg] Ho. eapply decides_ext.
  { apply decides_seq; [apply decides_distinct|]. apply decides_seq.
    { apply decides_instances. repeat (apply List.Forall_cons; [apply Ri; set_solver|]). constructor. }
    apply decides_seq.
    { apply decides_roles. apply list.Forall_forall. intros [[role account] want]. apply Rr. }
    apply decides_seq; [by apply decides_delay|]. by apply decides_governed. }
  rewrite (distinct_order _ _ Ho). unfold instances, role_checks, instance_ok.
  rewrite !list.Forall_cons, !list.Forall_nil. repeat setoid_rewrite list.Forall_cons. simpl.
  split.
  - intros ([Hd Hp] & [Hi (n & _ & Hn)] & Hr & Hdel & Hg). split; try done; try tauto.
    + intros a. rewrite !elem_of_cons, elem_of_nil. naive_solver.
    + split; naive_solver congruence.
    + intros role. rewrite !elem_of_cons, elem_of_nil. naive_solver.
  - intros [Hd Hp (L1 & L2 & L3) Ho' [N1 N2] Ha Hpr [C1 C2] Hb Hde Hdel Hg].
    split_and!; try done; try (apply Ho'; set_solver); try (apply Hde; set_solver).
    exists (network_of c (Proposer t)). naive_solver.
Qed.

End Decides.

(** Property C33: the verifier decides the authority of a stack, in whatever order
    the map of the four addresses is ranged over.  It returns only if the four
    contracts the datastore names for the qualifier are present and distinct, each
    instance has its role's label, the timelock for owner and the network of the
    others, the timelock administers itself, the roles are granted and the deployer
    has none of the four, and the delay and the owners expected are there.  It fails
    only if a read failed, a reference is missing, or one of these does not hold.
    It changes nothing on the chain. *)
Theorem verify_decides `{GovSdk} (c : Chain) order_of refs sel qual deployer exp tr :
  (forall t, order_of t ≡ₚ four_addresses t) ->
  swp chain_step (VerifyStellarMCMSGovernanceWithExpectations order_of refs sel qual deployer exp)
    (post (fun _ _ c' => c' = c /\ exists t, stack_of refs sel qual deployer t /\ well_governed c t exp)
          (fun tr' c' => c' = c /\ (some_read_failed tr' \/
             ~ exists t, stack_of refs sel qual deployer t /\ well_governed c t exp))) tr c.
Proof.
  intros Ho. apply swp_bind, swp_plift_res.
  - intros t Et. apply resolve_stack in Et. eapply swp_weaken.
    + apply (decides_verify c (fun _ => True)); [|by apply Ho|by apply Forall_true].
      split; [by intros|done|done|by apply Forall_true].
    + intros _ tr' c' (-> & _ & Hw). eauto.
    + intros tr' c' (-> & _ & [Hf|Hn]); split; [done|by left|done|right].
      intros (t' & Ht & Hw). by rewrite (stack_of_fun _ _ _ _ _ _ Ht Et) in Hw.
  - intros e Ee. split; [done|right]. intros (t & Ht%resolve_stack & _). congruence.
Qed.
