(* ===== verification/StellarCodec.v ===== *)
(** * A codec: strkeys and the XDR layout of values

    An instance of [Codec] that satisfies [CodecLaws]: the strkeys of Stellar (a
    version byte, the payload and a CRC-16, in base 32) and the XDR layout (RFC 4506)
    of the values that the governance code sends.  It is not the SDK's codec and no
    theorem on the program depends on it: the witnesses use it, and the strkeys of
    the repository's tests decode under it. *)

From S2P Require Import Prelude Sdk GoBytes Xdr.

(** ** Digits *)

Definition of_digits (b : Z) (l : list Z) : Z := fold_left (fun acc d => acc * b + d) l 0.

Fixpoint to_digits (b : Z) (n : nat) (z : Z) : list Z :=
  match n with
  | O => []
  | S n' => to_digits b n' (z / b) ++ [z mod b]
  end.

Section Digits.
Context (b : Z) (Hb : 0 < b).

Lemma of_digits_snoc l d : of_digits b (l ++ [d]) = of_digits b l * b + d.
Proof. unfold of_digits. by rewrite fold_left_app. Qed.

Lemma to_digits_length n z : length (to_digits b n z) = n.
Proof. revert z. induction n as [|n IH]; intros z; simpl; [done|]. rewrite length_app, IH. simpl. lia. Qed.

Lemma to_digits_range n z : Forall (fun d => 0 <= d < b) (to_digits b n z).
Proof using Hb.
  revert z. induction n as [|n IH]; intros z; simpl; [constructor|].
  apply Forall_app. split; [done|]. apply Forall_singleton. by apply Z.mod_pos_bound.
Qed.

Lemma of_to_digits n z : 0 <= z < b ^ Z.of_nat n -> of_digits b (to_digits b n z) = z.
Proof using Hb.
  revert z. induction n as [|n IH]; intros z Hz.
  - simpl in *. assert (z = 0) as -> by lia. done.
  - rewrite Nat2Z.inj_succ, Z.pow_succ_r in Hz by lia. cbn [to_digits]. rewrite of_digits_snoc, IH.
    + pose proof (Z.div_mod z b). lia.
    + split; [apply Z.div_pos; lia|apply Z.div_lt_upper_bound; lia].
Qed.

Lemma to_of_digits l : Forall (fun d => 0 <= d < b) l -> to_digits b (length l) (of_digits b l) = l.
Proof using Hb.
  induction l as [|d l IH] using rev_ind; intros H; [done|].
  apply Forall_app in H as [H Hd%Forall_inv].
  rewrite length_app, Nat.add_1_r, of_digits_snoc. cbn [to_digits].
  rewrite Z.div_add_l, Z.div_small, Z.add_0_r, IH by (done || lia).
  by rewrite Z.add_comm, Z.mod_add, Z.mod_small by lia.
Qed.

Lemma of_digits_range l :
  Forall (fun d => 0 <= d < b) l -> 0 <= of_digits b l < b ^ Z.of_nat (length l).
Proof using Hb.
  induction l as [|d l IH] using rev_ind; intros H; [unfold of_digits; simpl; lia|].
  apply Forall_app in H as [H Hd%Forall_inv]. specialize (IH H).
  rewrite of_digits_snoc, length_app, Nat.add_1_r, Nat2Z.inj_succ, Z.pow_succ_r by lia.
  set (a := of_digits b l) in *. set (p := b ^ Z.of_nat (length l)) in *. clearbody a p.
  assert (a * b <= (p - 1) * b) by (apply Z.mul_le_mono_nonneg_r; lia).
  split; [apply Z.add_nonneg_nonneg; [apply Z.mul_nonneg_nonneg|]|]; lia.
Qed.

Lemma of_digits_cons d l : of_digits b (d :: l) = d * b ^ Z.of_nat (length l) + of_digits b l.
Proof.
  induction l as [|x l IH] using rev_ind; [unfold of_digits; simpl; lia|].
  rewrite app_comm_cons, !of_digits_snoc, IH, length_app, Nat.add_1_r, Nat2Z.inj_succ, Z.pow_succ_r by lia.
  lia.
Qed.

Lemma to_digits_cons n z : to_digits b (S n) z = ((z / b ^ Z.of_nat n) mod b) :: to_digits b n z.
Proof using Hb.
  revert z. induction n as [|n IH]; intros z; [simpl; by rewrite Z.div_1_r|].
  change (to_digits b (S (S n)) z) with (to_digits b (S n) (z / b) ++ [z mod b]). rewrite IH.
  rewrite Z.div_div, <- Z.pow_succ_r, Nat2Z.inj_succ by lia. done.
Qed.

End Digits.

(** ** Strkeys *)

Definition base32_char (d : Z) : Ascii.ascii :=
  Ascii.ascii_of_N (Z.to_N (if d <? 26 then 65 + d else 24 + d)).
Definition base32_digit (c : Ascii.ascii) : option Z :=
  let n := Z.of_N (Ascii.N_of_ascii c) in
  if (65 <=? n) && (n <=? 90) then Some (n - 65)
  else if (50 <=? n) && (n <=? 55) then Some (n - 24) else None.

Fixpoint base32_string (l : list Z) : string :=
  match l with [] => "" | d :: l' => String (base32_char d) (base32_string l') end.
Fixpoint base32_digits (s : string) : option (list Z) :=
  match s with
  | EmptyString => Some []
  | String c s' => d ← base32_digit c; l ← base32_digits s'; Some (d :: l)
  end.

Lemma base32_roundtrip l : Forall (fun d => 0 <= d < 32) l -> base32_digits (base32_string l) = Some l.
Proof.
  assert (F : Forall (fun d => base32_digit (base32_char d) = Some d) (seqZ 0 32)).
  { refine (bool_decide_unpack _ _). by vm_compute. }
  rewrite list.Forall_forall in F.
  induction 1 as [|d l Hd _ IH]; simpl; [done|]. by rewrite F, IH by (apply elem_of_seqZ; lia).
Qed.

(** CRC-16/XMODEM, written little-endian. *)
Fixpoint crc_bits (n : nat) (crc : Z) : Z :=
  match n with
  | O => crc
  | S n' => crc_bits n' (Z.land (if Z.testbit crc 15 then Z.lxor (2 * crc) 4129 else 2 * crc) 65535)
  end.
Definition crc16 (l : bytes) : Z := fold_left (fun crc b => crc_bits 8 (Z.lxor crc (256 * b))) l 0.
Definition checksum (l : bytes) : bytes := [crc16 l mod 256; (crc16 l / 256) mod 256].

Definition version_byte (v : VersionByte) : Z :=
  match v with
  | VersionByteAccountID => 48
  | VersionByteContract => 16
  | VersionByteMuxedContract => 17
  end.

Definition raw_strkey (v : VersionByte) (b : bytes) : bytes :=
  let payload := version_byte v :: b in payload ++ checksum payload.

(** 35 bytes are 56 digits. *)
Definition encode_strkey (v : VersionByte) (b : bytes) : res string :=
  if decide (length b = 32%nat /\ Forall is_byte b)
  then Ok (base32_string (to_digits 32 56 (of_digits 256 (raw_strkey v b))))
  else Err (ErrorString "invalid payload").

Definition decode_strkey (v : VersionByte) (s : string) : res bytes :=
  match base32_digits s with
  | None => Err (ErrorString "base32 decode failed")
  | Some l =>
      if Nat.eqb (length l) 56 then
        let b := take 32 (drop 1 (to_digits 256 35 (of_digits 32 l))) in
        if decide (to_digits 256 35 (of_digits 32 l) = raw_strkey v b)
        then Ok b else Err (ErrorString "invalid version byte or checksum")
      else Err (ErrorString "invalid length")
  end.

#[export] Instance is_byte_dec b : Decision (is_byte b).
Proof. unfold is_byte. apply _. Defined.

Lemma raw_strkey_bytes v b : is_key b -> length (raw_strkey v b) = 35%nat /\ Forall is_byte (raw_strkey v b).
Proof.
  intros [L F]. unfold raw_strkey. split; [rewrite length_app; simpl; by rewrite L|].
  apply Forall_app. split; [constructor; [by destruct v|done]|].
  repeat (apply List.Forall_cons; [by apply Z.mod_pos_bound|]). constructor.
Qed.

Lemma encode_strkey_key v b :
  is_key b -> encode_strkey v b = Ok (base32_string (to_digits 32 56 (of_digits 256 (raw_strkey v b)))).
Proof. intros Hk. unfold encode_strkey. by rewrite decide_True. Qed.

Lemma decode_encode_strkey v b s : is_key b -> encode_strkey v b = Ok s -> decode_strkey v s = Ok b.
Proof.
  intros Hk. rewrite encode_strkey_key by done. intros E.
  assert (base32_string (to_digits 32 56 (of_digits 256 (raw_strkey v b))) = s) as <- by congruence.
  clear E. unfold decode_strkey.
  destruct (raw_strkey_bytes v b Hk) as [L F].
  rewrite base32_roundtrip by (by apply to_digits_range). rewrite to_digits_length. cbn [Nat.eqb].
  rewrite of_to_digits.
  2: done.
  2: { pose proof (of_digits_range 256 ltac:(lia) _ F) as R. rewrite L in R. exact R. }
  pose proof (to_of_digits 256 ltac:(lia) _ F) as E. rewrite L in E. rewrite E.
  assert (take 32 (drop 1 (raw_strkey v b)) = b) as ->.
  { change (drop 1 (raw_strkey v b)) with (b ++ checksum (version_byte v :: b)).
    by rewrite take_app_length' by (symmetry; apply Hk). }
  by rewrite decide_True.
Qed.

(** The letter is the version byte's first five bits. *)
Lemma encode_strkey_letter v b :
  is_key b -> exists s, encode_strkey v b = Ok (String (base32_char (version_byte v / 8)) s).
Proof.
  intros Hk. rewrite encode_strkey_key by done.
  destruct (raw_strkey_bytes v b Hk) as [L F]. unfold raw_strkey in *. cbv zeta in *.
  rewrite <- app_comm_cons in *. set (r := b ++ checksum (version_byte v :: b)) in *.
  rewrite to_digits_cons by lia. eexists. cbn [base32_string]. do 3 f_equal.
  apply Forall_cons_1 in F as [_ F]. injection L as L.
  pose proof (of_digits_range 256 ltac:(lia) _ F) as R.
  rewrite of_digits_cons, L in * by done. set (x := of_digits 256 r) in *.
  change (256 ^ Z.of_nat 34) with (2 ^ 272) in *. change (32 ^ Z.of_nat 55) with (2 ^ 272 * 8).
  rewrite <- Z.div_div, Z.div_add_l, (Z.div_small x), Z.add_0_r by lia.
  by destruct v.
Qed.

(** ** XDR

    The arms the governance code sends.  Lengths are four bytes; opaque data is
    padded to a multiple of four. *)

Definition word (z : Z) : bytes := put_be 4 z.
Definition u32_ok (z : Z) : bool := (0 <=? z) && (z <? 4294967296).
Definition padding (n : nat) : nat := ((4 - n mod 4) mod 4)%nat.

Definition xdr_opaque (l : bytes) : outcome bytes :=
  if decide (u32_ok (Z.of_nat (length l)) = true /\ Forall is_byte l)
  then Returns (word (Z.of_nat (length l)) ++ l ++ replicate (padding (length l)) 0)
  else Errs (ErrorString "data overflows").

Fixpoint codes (s : string) : bytes :=
  match s with
  | EmptyString => []
  | String c s' => Z.of_N (Ascii.N_of_ascii c) :: codes s'
  end.
Fixpoint uncodes (l : bytes) : string :=
  match l with
  | [] => ""
  | b :: l' => String (Ascii.ascii_of_N (Z.to_N b)) (uncodes l')
  end.

Definition xdr_address (a : ScAddress) : outcome bytes :=
  match a with
  | ScAddressTypeAccount (Some (mkAccountId 0 (Some k))) =>
      if decide (length k = 32%nat) then Returns (word 0 ++ word 0 ++ k)
      else Errs (ErrorString "not a key")
  | ScAddressTypeContract (Some k) =>
      if decide (length k = 32%nat) then Returns (word 1 ++ k) else Errs (ErrorString "not a key")
  | _ => Errs (ErrorString "unsupported address")
  end.

Fixpoint xdr_value (depth : nat) (v : ScVal) : outcome bytes :=
  match depth with
  | O => Errs (ErrorString "max depth")
  | S depth' =>
      match v with
      | ScvVoid => Returns (word 1)
      | ScvBool (Some b) => Returns (word 0 ++ word (if b then 1 else 0))
      | ScvU32 (Some n) =>
          if u32_ok n then Returns (word 3 ++ word n) else Errs (ErrorString "overflow")
      | ScvBytes (Some l) => x ← xdr_opaque l; Returns (word 13 ++ x)
      | ScvSymbol (Some s) => x ← xdr_opaque (codes s); Returns (word 15 ++ x)
      | ScvVec (Some (Some l)) =>
          if u32_ok (Z.of_nat (length l)) then
            xs ← mapM_out (xdr_value depth') l;
            Returns (word 16 ++ word 1 ++ word (Z.of_nat (length l)) ++ mjoin xs)
          else Errs (ErrorString "overflow")
      | ScvAddress (Some a) => x ← xdr_address a; Returns (word 18 ++ x)
      | ScvAddress None => Panics
      | _ => Errs (ErrorString "unsupported value")
      end
  end.

(** *** Reading *)

Definition read_n (n : nat) (l : bytes) : option (bytes * bytes) :=
  if Nat.leb n (length l) then Some (take n l, drop n l) else None.
Definition read_word (l : bytes) : option (Z * bytes) :=
  r ← read_n 4 l; Some (get_be r.1, r.2).
Definition read_opaque (l : bytes) : option (bytes * bytes) :=
  n ← read_word l;
  d ← read_n (Z.to_nat n.1) n.2;
  p ← read_n (padding (Z.to_nat n.1)) d.2;
  Some (d.1, p.2).
Definition read_address (l : bytes) : option (ScAddress * bytes) :=
  t ← read_word l;
  if t.1 =? 0 then
    u ← read_word t.2;
    k ← read_n 32 u.2;
    Some (ScAddressTypeAccount (Some (mkAccountId u.1 (Some k.1))), k.2)
  else if t.1 =? 1 then
    k ← read_n 32 t.2; Some (ScAddressTypeContract (Some k.1), k.2)
  else None.

Fixpoint read_many {A} (one : bytes -> option (A * bytes)) (n : nat) (l : bytes)
    : option (list A * bytes) :=
  match n with
  | O => Some ([], l)
  | S n' => x ← one l; xs ← read_many one n' x.2; Some (x.1 :: xs.1, xs.2)
  end.

Fixpoint read_value (depth : nat) (l : bytes) : option (ScVal * bytes) :=
  match depth with
  | O => None
  | S depth' =>
      t ← read_word l;
      if t.1 =? 1 then Some (ScvVoid, t.2)
      else if t.1 =? 0 then b ← read_word t.2; Some (ScvBool (Some (b.1 =? 1)), b.2)
      else if t.1 =? 3 then n ← read_word t.2; Some (ScvU32 (Some n.1), n.2)
      else if t.1 =? 13 then b ← read_opaque t.2; Some (ScvBytes (Some b.1), b.2)
      else if t.1 =? 15 then s ← read_opaque t.2; Some (ScvSymbol (Some (uncodes s.1)), s.2)
      else if t.1 =? 16 then
        p ← read_word t.2;
        if p.1 =? 1 then
          n ← read_word p.2;
          xs ← read_many (read_value depth') (Z.to_nat n.1) n.2;
          Some (ScvVec (Some (Some xs.1)), xs.2)
        else Some (ScvVec (Some None), p.2)
      else if t.1 =? 18 then a ← read_address t.2; Some (ScvAddress (Some a.1), a.2)
      else None
  end.

Definition max_depth : nat := 8.

Definition whole {A} (r : option (A * bytes)) : res A :=
  match r with
  | Some (a, []) => Ok a
  | _ => Err (ErrorString "unexpected data")
  end.

(** *** Round trip *)


Lemma Returns_inj {A} (a b : A) : Returns a = Returns b -> a = b.
Proof. by intros [= ->]. Qed.

Lemma read_n_app n l rest : length l = n -> read_n n (l ++ rest) = Some (l, rest).
Proof.
  intros <-. unfold read_n. rewrite (proj2 (Nat.leb_le _ _)) by (rewrite length_app; lia).
  by rewrite take_app_length, drop_app_length.
Qed.

(** The continuation of a read that has succeeded. *)
Ltac reading := cbv beta iota delta [mbind option_bind]; cbn [fst snd Z.eqb Pos.eqb].

Lemma read_word_app z rest : u32_ok z = true -> read_word (word z ++ rest) = Some (z, rest).
Proof.
  unfold u32_ok. intros Hz. unfold read_word, word. rewrite read_n_app by apply put_be_length.
  reading. rewrite get_put_be; [done|]. change (256 ^ Z.of_nat 4) with 4294967296. lia.
Qed.

Lemma read_opaque_app l x rest :
  xdr_opaque l = Returns x -> read_opaque (x ++ rest) = Some (l, rest).
Proof.
  unfold xdr_opaque. destruct (decide _) as [[Hl _]|]; [|done]. intros <-%Returns_inj.
  unfold read_opaque. rewrite <- !app_assoc, read_word_app by done. reading.
  rewrite Nat2Z.id, read_n_app by done. reading. by rewrite read_n_app by apply length_replicate.
Qed.

Lemma uncodes_codes s : uncodes (codes s) = s.
Proof. induction s as [|c s IH]; simpl; [done|]. by rewrite N2Z.id, Ascii.ascii_N_embedding, IH. Qed.

Lemma read_address_app a x rest :
  xdr_address a = Returns x -> read_address (x ++ rest) = Some (a, rest).
Proof.
  unfold xdr_address, read_address. intros H.
  destruct a as [[[[| |] [k|]]|]|[k|]| | | | |]; try done;
    (destruct (decide _) as [Hk|]; [|done]); apply Returns_inj in H as <-.
  - rewrite <- !app_assoc, read_word_app by done. reading. rewrite read_word_app by done. reading.
    by rewrite read_n_app.
  - rewrite <- !app_assoc, read_word_app by done. reading. by rewrite read_n_app.
Qed.

Lemma read_many_app {A} (one : bytes -> option (A * bytes)) l xs rest :
  Forall2 (fun v x => forall rest, one (x ++ rest) = Some (v, rest)) l xs ->
  read_many one (length l) (mjoin xs ++ rest) = Some (l, rest).
Proof.
  induction 1 as [|v x l xs Hv _ IH]; simpl; [done|]. rewrite <- app_assoc, Hv. reading. by rewrite IH.
Qed.

Lemma read_value_app depth v x rest :
  xdr_value depth v = Returns x -> read_value depth (x ++ rest) = Some (v, rest).
Proof.
  revert v x rest. induction depth as [|depth IH]; intros v x rest H; [done|].
  cbn [xdr_value] in H. cbn [read_value].
  destruct v as [[b|]| | |[n|]| | | | | | | | | |[l|]| |[s|]|[[l|]|]| |[a|]| | | |]; try done.
  - apply Returns_inj in H as <-. rewrite <- app_assoc, read_word_app by done. reading.
    rewrite read_word_app by (by destruct b). by destruct b.
  - apply Returns_inj in H as <-. by rewrite read_word_app by done.
  - destruct (u32_ok n) eqn:E; [|done]. apply Returns_inj in H as <-.
    rewrite <- app_assoc, read_word_app by done. reading. by rewrite read_word_app.
  - destruct (xdr_opaque l) as [o| |] eqn:E; [|done..]. apply Returns_inj in H as <-.
    rewrite <- app_assoc, read_word_app by done. reading. by rewrite (read_opaque_app _ _ _ E).
  - destruct (xdr_opaque (codes s)) as [o| |] eqn:E; [|done..]. apply Returns_inj in H as <-.
    rewrite <- app_assoc, read_word_app by done. reading. rewrite (read_opaque_app _ _ _ E). reading.
    by rewrite uncodes_codes.
  - destruct (u32_ok _) eqn:El; [|done].
    destruct (mapM_out (xdr_value depth) l) as [xs| |] eqn:E; [|done..]. apply Returns_inj in H as <-.
    rewrite <- !app_assoc, read_word_app by done. reading. rewrite read_word_app by done. reading.
    rewrite read_word_app by done. reading. rewrite Nat2Z.id, read_many_app; [done|].
    apply mapM_out_Forall2 in E. eapply list.Forall2_impl; [exact E|]. auto.
  - destruct (xdr_address a) as [o| |] eqn:E; [|done..]. apply Returns_inj in H as <-.
    rewrite <- app_assoc, read_word_app by done. reading. by rewrite (read_address_app _ _ _ E).
Qed.

(** ** The codec *)

#[export] Instance stellar_codec : Codec := {|
  strkey_Encode := encode_strkey;
  strkey_Decode := decode_strkey;
  xdr_AddressToAccountId s :=
    match decode_strkey VersionByteAccountID s with
    | Ok b => Ok (mkAccountId 0 (Some b))
    | Err e => Err e
    end;
  ScAddress_UnmarshalBinary l := whole (read_address l);
  ScVal_MarshalBinary := xdr_value max_depth;
  ScVal_UnmarshalBinary l := whole (read_value max_depth l);
  ScVal_UnmarshalBase64 s := Err (ErrorString "not used")
|}.

#[export] Instance stellar_codec_laws : CodecLaws.
Proof.
  split.
  - intros b Hb. destruct (encode_strkey_letter VersionByteAccountID b Hb) as [s E].
    pose proof (decode_encode_strkey _ _ _ Hb E) as D. exists s. split; [exact E|]. split; [exact D|].
    change (match decode_strkey VersionByteAccountID ("G" +:+ s) with
            | Ok b => Ok (mkAccountId 0 (Some b)) | Err e => Err e end = Ok (mkAccountId 0 (Some b))).
    change (String _ s) with ("G" +:+ s) in D. by rewrite D.
  - intros b Hb. destruct (encode_strkey_letter VersionByteContract b Hb) as [s E].
    exists s. split; [exact E|]. exact (decode_encode_strkey _ _ _ Hb E).
  - intros b [Hl _]. change (whole (read_address ([0; 0; 0; 1] ++ b)) = Ok (ScAddressTypeContract (Some b))).
    rewrite <- (app_nil_r ([0; 0; 0; 1] ++ b)), (read_address_app (ScAddressTypeContract (Some b))); [done|].
    simpl. by rewrite decide_True.
  - intros b [Hl _]. cbn. by rewrite decide_True.
  - intros v b H. change (whole (read_value max_depth b) = Ok v). rewrite <- (app_nil_r b).
    by rewrite (read_value_app _ _ _ _ H).
Qed.

(** ** Strkeys of the tests *)

Definition zero_account : string := "GAAAAAAAAAAAAAAAAAAAAAAAAAAAAAAAAAAAAAAAAAAAAAAAAAAAAWHF".
Definition native_asset : string := "CDLZFC3SYJYDZT7K67VZ75HPJVIEUVNIXF47ZG2FB2RMQQVU2HHGCYSC".

Example strkeys_of_tests :
  decode_strkey VersionByteAccountID zero_account = Ok (replicate 32 0) /\
  encode_strkey VersionByteAccountID (replicate 32 0) = Ok zero_account /\
  match decode_strkey VersionByteContract native_asset with
  | Ok b => encode_strkey VersionByteContract b = Ok native_asset
  | Err _ => False
  end /\
  decode_strkey VersionByteContract zero_account = Err (ErrorString "invalid version byte or checksum").
Proof. by vm_compute. Qed.
