(* ===== verification/Stack.v ===== *)
(** * Governance of a chain: the contracts of a stack

    The entry points of contracts/timelock and contracts/mcms that a deployment and
    its verification call, as functions of the decoded arguments and of who
    authorized the invocation ([None] for an error or a trap), and a chain on which
    they can be deployed: the requests [sreq] are the deployment of a wasm file
    under a salt and the calls of Ownership.v, answered as [stack_step] says.

    Of the multisig, the signer map, which [cfg_signers] determines, and the root's
    metadata, which only proposals read, are left out. *)

From S2P Require Import Prelude Sdk GoBytes Xdr Scval Interaction GovRefs Ownership RmnRemote.

(** ** The multisig *)

(** The signers with their groups, the quorums and the parents of the 32 groups. *)
Record McmsConfig := mkMcmsConfig {
  cfg_signers : list (bytes * Z);
  group_quorums : bytes;
  group_parents : bytes
}.

(** [ExpiringRootAndOpCount]. *)
Record ExpiringRoot := mkExpiringRoot { root : bytes; valid_until : Z; op_count : Z }.

Record Mcms := mkMcms {
  m_initialized : bool;
  m_owner : option ScAddress;
  m_network : bytes;
  m_label : string;
  m_config : option McmsConfig;
  m_config_version : Z;
  m_root : option ExpiringRoot
}.

Definition mcms_blank : Mcms := mkMcms false None [] "" None 0 None.

Definition NUM_GROUPS : nat := 32.
Definition MAX_NUM_SIGNERS : nat := 200.

Definition count_child (counts : list Z) (g : nat) : list Z :=
  <[g := default 0 (counts !! g) + 1]> counts.

(** The signers of each group. *)
Fixpoint count_signers (groups : list Z) (counts : list Z) : option (list Z) :=
  match groups with
  | [] => Some counts
  | g :: rest =>
      if g >=? 32 then None else count_signers rest (count_child counts (Z.to_nat g))
  end.

(** The groups from the last, each counted in its parent. *)
Fixpoint check_groups (idx : nat) (gq gp : bytes) (counts : list Z) : bool :=
  match idx with
  | O => true
  | S i =>
      let parent := default 0 (gp !! i) in
      if (negb (Nat.eqb i 0) && (Z.of_nat i <=? parent)) || (Nat.eqb i 0 && negb (parent =? 0))
      then false
      else if default 0 (gq !! i) =? 0 then
        if 0 <? default 0 (counts !! i) then false else check_groups i gq gp counts
      else if default 0 (counts !! i) <? default 0 (gq !! i) then false
      else check_groups i gq gp (count_child counts (Z.to_nat parent))
  end.

Definition validate_group_tree (groups : list Z) (gq gp : bytes) : bool :=
  match count_signers groups (replicate NUM_GROUPS 0) with
  | None => false
  | Some counts => check_groups NUM_GROUPS gq gp counts
  end.

(** [cmp_bytes32] is negative. *)
Fixpoint bytes_lt (a b : bytes) : bool :=
  match a, b with
  | x :: a', y :: b' => if x <? y then true else if x >? y then false else bytes_lt a' b'
  | _, _ => false
  end.

Fixpoint strictly_increasing (prev : option bytes) (l : list bytes) : bool :=
  match l with
  | [] => true
  | x :: rest =>
      match prev with Some p => bytes_lt p x | None => true end && strictly_increasing (Some x) rest
  end.

Definition config_valid (addrs : list bytes) (groups : list Z) (gq gp : bytes) : bool :=
  negb (Nat.eqb (length addrs) 0) && Nat.leb (length addrs) MAX_NUM_SIGNERS &&
  Nat.eqb (length addrs) (length groups) && validate_group_tree groups gq gp &&
  strictly_increasing None addrs.

Definition max_u64 : Z := 18446744073709551615.

(** The group of every signer is in range once the tree is valid. *)
Definition apply_config (addrs : list bytes) (groups : list Z) (gq gp : bytes) (clear_root : bool)
    (m : Mcms) : option Mcms :=
  if negb (config_valid addrs groups gq gp) then None
  else if m_config_version m =? max_u64 then None
  else
    let root' :=
      if clear_root
      then Some (mkExpiringRoot (replicate 32 0) 0 (match m_root m with Some r => op_count r | None => 0 end))
      else m_root m in
    Some (mkMcms (m_initialized m) (m_owner m) (m_network m) (m_label m)
            (Some (mkMcmsConfig (zip addrs groups) gq gp)) (m_config_version m + 1) root').

Definition mcms_initialize (owner : ScAddress) (network : bytes) (addrs : list bytes) (groups : list Z)
    (gq gp : bytes) (label : string) (m : Mcms) : option Mcms :=
  if m_initialized m then None
  else match m_owner m with
       | Some _ => None
       | None =>
           apply_config addrs groups gq gp false
             (mkMcms true (Some owner) network label (m_config m) (m_config_version m) (m_root m))
       end.

Definition set_config (auth : ScAddress -> bool) (addrs : list bytes) (groups : list Z) (gq gp : bytes)
    (clear_root : bool) (m : Mcms) : option Mcms :=
  if negb (m_initialized m) then None
  else match m_owner m with
       | Some o => if auth o then apply_config addrs groups gq gp clear_root m else None
       | None => None
       end.

(** *** Dispatch *)

Definition bytes32_arg (v : ScVal) : option bytes :=
  match v with ScvBytes (Some b) => if Nat.eqb (length b) 32 then Some b else None | _ => None end.
Definition u32_arg (v : ScVal) : option Z := match v with ScvU32 o => o | _ => None end.
Definition u64_arg (v : ScVal) : option Z := match v with ScvU64 o => o | _ => None end.
Definition bool_arg (v : ScVal) : option bool := match v with ScvBool o => o | _ => None end.
Definition symbol_arg (v : ScVal) : option string := match v with ScvSymbol o => o | _ => None end.

(** A structure of one field, [inner]. *)
Definition inner_arg {A} (f : ScVal -> option A) (v : ScVal) : option A :=
  match v with
  | ScvMap (Some (Some [e])) => if decide (symbol_arg (Key e) = Some "inner"%string) then f (Val e) else None
  | _ => None
  end.

Definition mcms_functions : list string :=
  ["initialize"; "set_config"; "owner"; "chain_network_id"; "get_instance_label"].

Definition mcms_entry (auth : ScAddress -> bool) (function : string) (args : list ScVal) (m : Mcms)
    : option (ScVal * Mcms) :=
  if decide (function = "initialize") then
    match args with
    | [o; n; a; g; q; p; l] =>
        owner ← address_arg o; network ← bytes32_arg n;
        addrs ← inner_arg (vec_arg bytes32_arg) a; groups ← inner_arg (vec_arg u32_arg) g;
        gq ← bytes32_arg q; gp ← bytes32_arg p; label ← symbol_arg l;
        m' ← mcms_initialize owner network addrs groups gq gp label m;
        Some (ScvVoid, m')
    | _ => None
    end
  else if decide (function = "set_config") then
    match args with
    | [a; g; q; p; c] =>
        addrs ← inner_arg (vec_arg bytes32_arg) a; groups ← inner_arg (vec_arg u32_arg) g;
        gq ← bytes32_arg q; gp ← bytes32_arg p; clear ← bool_arg c;
        m' ← set_config auth addrs groups gq gp clear m;
        Some (ScvVoid, m')
    | _ => None
    end
  else if decide (function = "owner") then
    match args with [] => Some (address_value (m_owner m), m) | _ => None end
  else if decide (function = "chain_network_id") then
    match args with
    | [] => if m_initialized m then Some (ScvBytes (Some (m_network m)), m) else None
    | _ => None
    end
  else if decide (function = "get_instance_label") then
    match args with
    | [] => if m_initialized m then Some (ScvSymbol (Some (m_label m)), m) else None
    | _ => None
    end
  else None.

(** ** The timelock *)

(** The roles with their members. *)
Record Timelock := mkTimelock {
  t_initialized : bool;
  t_roles : list (string * ScAddress);
  t_min_delay : Z
}.

Definition timelock_blank : Timelock := mkTimelock false [] 0.

Definition known_role (role : string) : bool :=
  bool_decide (role ∈ ["ADMIN"; "PROPOSER"; "CANCELLER"; "BYPASSER"]%string).

Definition grant_role_internal (role : string) (account : ScAddress) (roles : list (string * ScAddress))
    : list (string * ScAddress) :=
  if decide ((role, account) ∈ roles) then roles else roles ++ [(role, account)].

Definition grant_all (role : string) (accounts : list ScAddress) (roles : list (string * ScAddress))
    : list (string * ScAddress) :=
  foldl (fun rs a => grant_role_internal role a rs) roles accounts.

Definition timelock_initialize (self : ScAddress) (min_delay : Z)
    (proposers cancellers bypassers : list ScAddress) (t : Timelock) : option Timelock :=
  if t_initialized t then None
  else
    Some (mkTimelock true
      (grant_all "BYPASSER" bypassers
        (grant_all "CANCELLER" cancellers
          (grant_all "PROPOSER" proposers
            (grant_role_internal "ADMIN" self (t_roles t))))) min_delay).

Definition timelock_functions : list string := ["initialize"; "has_role"; "get_min_delay"].

Definition timelock_entry (self : ScAddress) (function : string) (args : list ScVal) (t : Timelock)
    : option (ScVal * Timelock) :=
  if decide (function = "initialize") then
    match args with
    | [d; p; c; b] =>
        min_delay ← u64_arg d; proposers ← vec_arg address_arg p;
        cancellers ← vec_arg address_arg c; bypassers ← vec_arg address_arg b;
        t' ← timelock_initialize self min_delay proposers cancellers bypassers t;
        Some (ScvVoid, t')
    | _ => None
    end
  else if decide (function = "has_role") then
    match args with
    | [r; a] =>
        role ← symbol_arg r; account ← address_arg a;
        if known_role role then Some (ScvBool (Some (bool_decide ((role, account) ∈ t_roles t))), t)
        else None
    | _ => None
    end
  else if decide (function = "get_min_delay") then
    match args with [] => Some (ScvU64 (Some (t_min_delay t)), t) | _ => None end
  else None.

(** ** The chain *)

Inductive Inst := IMcms (m : Mcms) | ITimelock (t : Timelock).

Abbreviation Stack := (@gmap (list Z) _ (@list_countable Z Z.eq_dec Z_countable) Inst).

Definition inst_entry (auth : ScAddress -> bool) (id : bytes) (function : string) (args : list ScVal)
    (i : Inst) : option (ScVal * Inst) :=
  match i with
  | IMcms m => r ← mcms_entry auth function args m; Some (r.1, IMcms r.2)
  | ITimelock t =>
      r ← timelock_entry (ScAddressTypeContract (Some id)) function args t; Some (r.1, ITimelock r.2)
  end.

Definition stack_functions : list string := mcms_functions ++ timelock_functions.

Inductive sreq :=
| DeployContract (wasmPath : string) (salt : bytes)
| Call (r : greq).

Definition sans (r : sreq) : Type :=
  match r with DeployContract _ _ => outcome string | Call r => gans r end.

Abbreviation St := (fprog sans).

(** The contract that a wasm file holds. *)
Class WasmFiles := {
  ResolveMCMSWasmPath : res string;
  ResolveTimelockWasmPath : res string;
  wasm_contract : string -> option Inst
}.

Class WasmLaws `{WasmFiles} : Prop := {
  mcms_file p : ResolveMCMSWasmPath = Ok p -> p <> ""%string /\ wasm_contract p = Some (IMcms mcms_blank);
  timelock_file p : ResolveTimelockWasmPath = Ok p -> wasm_contract p = Some (ITimelock timelock_blank)
}.

Section Chain.
Context `{Codec} `{WasmFiles}.

Definition call_inst (auth : ScAddress -> bool) (contractID function : string) (args : list ScVal)
    (w : Stack) : option (ScVal * Stack) :=
  match strkey_Decode VersionByteContract contractID with
  | Err _ => None
  | Ok id =>
      i ← w !! id;
      r ← inst_entry auth id function args i;
      Some (r.1, <[id := r.2]> w)
  end.

(** A deployment puts a contract where none was; one that is reported to fail may
    have done so. *)
Definition deployed (wasmPath : string) (cid : string) (w w' : Stack) : Prop :=
  exists id i, key_ok id = true /\ strkey_Encode VersionByteContract id = Ok cid /\
    strkey_Decode VersionByteContract cid = Ok id /\
    w !! id = None /\ wasm_contract wasmPath = Some i /\ w' = <[id := i]> w.

Definition stack_step (signer : ScAddress) (w : Stack) (r : sreq) (w' : Stack) : sans r -> Prop :=
  match r return sans r -> Prop with
  | DeployContract p salt => fun x =>
      match x with
      | Returns cid => deployed p cid w w'
      | _ => w' = w \/ exists cid, deployed p cid w w'
      end
  | Call r => answers call_inst stack_functions signer w r w'
  end.

End Chain.

(** Some request of the trace failed. *)
Definition sfailed (tr : list (event sans)) : Prop :=
  Exists (fun e : event sans =>
    match ev_req e as r return sans r -> Prop with
    | DeployContract _ _ => fun x => is_done x = false
    | Call _ => fun x => is_done x = false
    end (ev_ans e)) tr.

(** A call of Ownership.v on this chain. *)
Fixpoint on_stack {A} (p : prog gans A) : prog sans A :=
  match p with
  | Done a => Done a
  | Ask r k => Ask (Req := sreq) (Ans := sans) (Call r) (fun x => on_stack (k x))
  end.
