(* ===== verification/McmsDeploy.v ===== *)
(** * Governance of a chain: deployment of a stack

    Models deployment/sequences/mcms.go (deployment, finalization and signer
    configuration), the reader of mcms_verify.go over the bindings,
    deployment/mcmsutil/config.go, and the operations and client methods they
    execute (deployment/operations/mcms, deployment/operations/timelock,
    bindings/contracts/mcms, bindings/contracts/timelock).

    Parameters ([McmsSdk]): the configuration of mcms and its conversion to the
    arguments of set_config; [WasmFiles]: the paths of the wasm files, which come from
    the process environment. *)

From S2P Require Import Prelude Sdk GoBytes Xdr Scval Interaction GovRefs Ownership Curse McmsVerify Stack.

Class McmsSdk := {
  MCMSConfig : Type;
  (** Quorums, parents, signers (20 bytes each) and their groups. *)
  ExtractSetConfigInputs : MCMSConfig -> res (bytes * bytes * list bytes * list Z)
}.

(** [SetConfigInput] of the operation, and what [InitializeInput] shares with it. *)
Record SetConfigInput := mkSetConfigInput {
  SignerAddresses : list bytes;
  SignerGroups : list Z;
  GroupQuorums : bytes;
  GroupParents : bytes;
  ClearRoot : bool
}.

(** [MCMSDeploymentConfigPerChainWithAddress]. *)
Record MCMSDeployment `{McmsSdk} `{GovSdk} := mkMCMSDeployment {
  md_ChainSelector : Z;
  md_Qualifier : option string;
  md_Label : option string;
  md_Proposer : MCMSConfig;
  md_Canceller : MCMSConfig;
  md_Bypasser : MCMSConfig;
  TimelockMinDelay : option Z;
  md_ExistingAddresses : list AddressRef
}.
Arguments mkMCMSDeployment {_ _}.

(** [UpdateMCMSConfigInputPerChainWithSelector]. *)
Record UpdateMCMSConfig `{McmsSdk} `{GovSdk} := mkUpdateMCMSConfig {
  um_ChainSelector : Z;
  MCMConfig : MCMSConfig;
  MCMContracts : list AddressRef;
  um_ExistingAddresses : list AddressRef
}.
Arguments mkUpdateMCMSConfig {_ _}.

(** ** Client methods *)

Section Clients.
Context `{Codec}.

(** [ToScVal] of [SignerAddresses] and [SignerGroups]. *)
Definition inner_struct (v : ScVal) : res ScVal := BuildStructScVal ["inner"%string] {[ "inner"%string := v ]}.

Definition Mcms_Initialize (contractID owner : string) (chainNetworkId : bytes) (cfg : SetConfigInput)
    (instanceLabel : string) : G unit :=
  addrs ← plift (MustToScVal (inner_struct (Bytes32SliceToScVal (SignerAddresses cfg))));
  groups ← plift (MustToScVal (inner_struct (Uint32SliceToScVal (SignerGroups cfg))));
  invoke contractID "initialize"
    [AddressToScVal owner; Bytes32ToScVal chainNetworkId; addrs; groups;
     Bytes32ToScVal (GroupQuorums cfg); Bytes32ToScVal (GroupParents cfg); SymbolToScVal instanceLabel].

Definition Mcms_SetConfig (contractID : string) (cfg : SetConfigInput) : G unit :=
  addrs ← plift (MustToScVal (inner_struct (Bytes32SliceToScVal (SignerAddresses cfg))));
  groups ← plift (MustToScVal (inner_struct (Uint32SliceToScVal (SignerGroups cfg))));
  invoke contractID "set_config"
    [addrs; groups; Bytes32ToScVal (GroupQuorums cfg); Bytes32ToScVal (GroupParents cfg);
     BoolToScVal (ClearRoot cfg)].

Definition GetInstanceLabel (contractID : string) : G string :=
  v ← simulate contractID "get_instance_label" []; plift (SymbolFromScVal v).

(** An invocation whose value is read. *)
Definition invoke_for (contractID function : string) (args : list ScVal) : G ScVal :=
  result ← Ask (InvokeContract contractID function args)
             (fun r => Done (wrap_out ("failed to call " +:+ function +:+ ": ") r) : G _);
  match result with
  | None => pfail (ErrorString ("no return value from " +:+ function))
  | Some v => mret v
  end.

(** Both of these are sent to the chain as transactions. *)
Definition ChainNetworkId (contractID : string) : G bytes :=
  v ← invoke_for contractID "chain_network_id" []; plift (Bytes32FromScVal v).
Definition HasRole (contractID role account : string) : G bool :=
  v ← invoke_for contractID "has_role" [SymbolToScVal role; AddressToScVal account];
  plift (need (GetB v) "expected bool return type").

Definition GetMinDelay (contractID : string) : G Z :=
  v ← simulate contractID "get_min_delay" []; plift (Uint64FromScVal v).

Definition Timelock_Initialize (contractID : string) (minDelay : Z)
    (proposers cancellers bypassers : list string) : G unit :=
  invoke contractID "initialize"
    [Uint64ToScVal minDelay; AddressSliceToScVal proposers; AddressSliceToScVal cancellers;
     AddressSliceToScVal bypassers].

End Clients.

Section Deploy.
Context `{Codec} `{GovSdk} `{BatchSdk} `{McmsSdk} `{WasmFiles}.

(** ** The reader of the verifier *)

Definition bindingGovernanceReader (r : vreq) : G (vval r) :=
  match r return G (vval r) with
  | mcmsInstanceLabel addr => GetInstanceLabel addr
  | mcmsOwner addr =>
      o ← Owner addr;
      match o with
      | None => pfail (ErrorString "MCMS returned no owner")
      | Some s => mret s
      end
  | mcmsChainNetworkID addr => ChainNetworkId addr
  | timelockHasRole addr role account => HasRole addr role account
  | timelockMinDelay addr => GetMinDelay addr
  | contractOwner ref => ContractOwner ref
  end.

(** The verifier, each of its reads answered by the reader. *)
Fixpoint with_reader {A} (p : prog vans A) : prog sans A :=
  match p with
  | Done a => Done a
  | Ask r k => prog_bind (fun x => with_reader (k x)) (on_stack (bindingGovernanceReader r))
  end.

(** ** Configuration *)

Definition evmAddressToPadded32 (a : bytes) : bytes := replicate 12 0 ++ a.

Definition ConfigToStellarSetConfig (cfg : MCMSConfig) (clearRoot : bool) : res SetConfigInput :=
  inputs ← ExtractSetConfigInputs cfg;
  let '(gq, gp, addrs, groups) := inputs in
  Ok (mkSetConfigInput (evmAddressToPadded32 <$> addrs) (u32 <$> groups) gq gp clearRoot).

Definition timelockMinDelay_of (i : MCMSDeployment) : res Z :=
  match TimelockMinDelay i with
  | None => Ok 0
  | Some d => if (0 <=? d) && (d <? 18446744073709551616) then Ok d
              else Err (ErrorString "timelockMinDelay must fit uint64")
  end.

(** ** Deployment *)

Definition deploy_contract (wasmPath : string) (salt : bytes) : St string :=
  Ask (Req := sreq) (Ans := sans) (DeployContract wasmPath salt) (fun r => Done r : St string).

Definition role_config (i : MCMSDeployment) (role : string) : option MCMSConfig :=
  if decide (role = RoleProposer) then Some (md_Proposer i)
  else if decide (role = RoleCanceller) then Some (md_Canceller i)
  else if decide (role = RoleBypasser) then Some (md_Bypasser i)
  else None.

Definition address_of (addrs : gmap string string) (role : string) : string :=
  default ""%string (addrs !! role).

(** Each role instance is found or deployed; the path is resolved once. *)
Fixpoint deploy_roles (i : MCMSDeployment) (roles : list string) (mcmsWasm : string)
    (addrs : gmap string string) (fresh : list string) : St (gmap string string * list string) :=
  match roles with
  | [] => mret (addrs, fresh)
  | role :: rest =>
      existing ← plift_res (FindExistingStellarMCMSByRole (md_ExistingAddresses i) (md_ChainSelector i)
                              (QualifierStr (md_Qualifier i)) role);
      match existing with
      | Some a => deploy_roles i rest mcmsWasm (<[role := a]> addrs) fresh
      | None =>
          wasm ← (if decide (mcmsWasm = ""%string) then plift_res ResolveMCMSWasmPath
                  else mret mcmsWasm : St string);
          let salt := MCMSRoleDeploySalt (md_ChainSelector i) (QualifierStr (md_Qualifier i))
                        (QualifierStr (md_Label i)) role in
          cid ← pwrap ("mcms deploy (" +:+ role +:+ "): ") (deploy_contract wasm salt);
          deploy_roles i rest wasm (<[role := cid]> addrs) (fresh ++ [role])
      end
  end.

Definition deploy_timelock (i : MCMSDeployment) (addrs : gmap string string) : St string :=
  match FindExistingStellarTimelock (md_ExistingAddresses i) (md_ChainSelector i)
          (QualifierStr (md_Qualifier i)) with
  | Some tlID => mret tlID
  | None =>
      tlWasm ← plift_res ResolveTimelockWasmPath;
      let tlSalt := TimelockDeploySalt (md_ChainSelector i) (QualifierStr (md_Qualifier i))
                      (QualifierStr (md_Label i)) in
      tlID ← pwrap "timelock deploy: " (deploy_contract tlWasm tlSalt);
      minDelay ← plift_res (timelockMinDelay_of i);
      _ ← pwrap "timelock initialize: "
            (on_stack (Timelock_Initialize tlID minDelay
               [address_of addrs RoleProposer]
               [address_of addrs RoleProposer; address_of addrs RoleCanceller]
               [address_of addrs RoleBypasser]));
      mret tlID
  end.

(** The sequence calls it for the three roles only. *)
Definition initialize_role (i : MCMSDeployment) (addrs : gmap string string) (tlID : string)
    (chainNetID : bytes) (role : string) : St unit :=
  cfg ← plift_res (wrap_err ("mcms config (" +:+ role +:+ "): ")
          (match role_config i role with
           | Some c => ConfigToStellarSetConfig c true
           | None => Err (ErrorString "nil MCMS config")
           end));
  pwrap ("mcms initialize (" +:+ role +:+ "): ")
    (on_stack (Mcms_Initialize (address_of addrs role) tlID chainNetID cfg (InstanceLabel role))).

Fixpoint initialize_roles (i : MCMSDeployment) (addrs : gmap string string) (fresh : list string)
    (tlID : string) (chainNetID : bytes) (roles : list string) : St unit :=
  match roles with
  | [] => mret tt
  | role :: rest =>
      _ ← (if decide (role ∈ fresh) then initialize_role i addrs tlID chainNetID role
           else mret tt : St unit);
      initialize_roles i addrs fresh tlID chainNetID rest
  end.

Fixpoint role_refs (i : MCMSDeployment) (addrs : gmap string string) (roles : list string)
    : res (list AddressRef) :=
  match roles with
  | [] => Ok []
  | role :: rest =>
      ref ← StellarMCMSRoleDatastoreRef (md_ChainSelector i) (QualifierStr (md_Qualifier i)) role
              (address_of addrs role);
      refs ← role_refs i addrs rest;
      Ok (ref :: refs)
  end.

(** A chain, by its deployer, with the passphrase of its network. *)
Definition DeployStellarMCMS (chains : BlockChains) (passphrase : string) (i : MCMSDeployment)
    : St OnChainOutput :=
  _ ← plift_res (deployer_on chains (md_ChainSelector i));
  deployed ← deploy_roles i AllMCMSRoles "" ∅ [];
  let '(addrs, fresh) := deployed in
  tlID ← deploy_timelock i addrs;
  _ ← initialize_roles i addrs fresh tlID (ChainNetworkID passphrase) AllMCMSRoles;
  refs ← plift_res (role_refs i addrs AllMCMSRoles);
  mret (mkOnChainOutput
          (refs ++ [StellarTimelockDatastoreRef (md_ChainSelector i) (QualifierStr (md_Qualifier i)) tlID]) []).

(** [order_of] is the order in which the verifier ranges over its map. *)
Definition FinalizeStellarDeployMCMS order_of (chains : BlockChains) (i : MCMSDeployment)
    : St OnChainOutput :=
  deployerAddr ← plift_res (deployer_on chains (md_ChainSelector i));
  _ ← pwrap "mcms deployment finalize: "
        (with_reader (VerifyStellarMCMSGovernance order_of (md_ExistingAddresses i) (md_ChainSelector i)
                        (QualifierStr (md_Qualifier i)) deployerAddr) : St unit);
  mret (mkOnChainOutput [] []).

Definition GrantAdminRoleToTimelockStellar : OnChainOutput := mkOnChainOutput [] [].

(** ** Signer configuration *)

Definition mcms_ContractType : string := "MCMS".

Definition setStellarMCMSConfigForRef (deployerAddr governanceAddr : string) (chainSelector : Z)
    (ref : AddressRef) (cfg : SetConfigInput) : G WriteOutput :=
  cid ← plift_res (wrap_err "set_config on chain: " (NormalizeContractAddress (ref_Address ref)));
  owner ← pwrap "read owner: " (ContractOwner (mkAddressRef cid 0 [] "" mcms_ContractType None));
  if decide (owner = deployerAddr) then
    _ ← pwrap "set_config: " (Mcms_SetConfig cid cfg);
    mret (mkWriteOutput chainSelector Transaction_zero (Some "stellar-direct-set-config"%string))
  else if decide (governanceAddr <> ""%string /\ owner = governanceAddr) then
    signerAddrs ← plift_res (inner_struct (Bytes32SliceToScVal (SignerAddresses cfg)));
    signerGroups ← plift_res (inner_struct (Uint32SliceToScVal (SignerGroups cfg)));
    data ← plift (EncodeSorobanMCMSInvokePayload "set_config"
              [signerAddrs; signerGroups; Bytes32ToScVal (GroupQuorums cfg);
               Bytes32ToScVal (GroupParents cfg); BoolToScVal (ClearRoot cfg)]);
    mret (mkWriteOutput chainSelector (mkTransaction (ref_Type ref) cid data StellarMCMSTxAdditionalFields) None)
  else pfail (ErrorString "MCMS owner is neither the deployer nor its timelock").

(** [WriteOutput.Executed]. *)
Definition Executed (wo : WriteOutput) : bool :=
  match wo_ExecInfo wo with Some _ => true | None => false end.

Fixpoint update_each (i : UpdateMCMSConfig) (deployerAddr : string) (cfg : SetConfigInput)
    (refs : list AddressRef) (ops : list BatchOperation) : G (list BatchOperation) :=
  match refs with
  | [] => mret ops
  | ref :: rest =>
      if decide (ref_Address ref = ""%string) then update_each i deployerAddr cfg rest ops
      else
        let governanceAddr := default ""%string
          (FindExistingStellarTimelock (um_ExistingAddresses i) (um_ChainSelector i) (ref_Qualifier ref)) in
        wo ← setStellarMCMSConfigForRef deployerAddr governanceAddr (um_ChainSelector i) ref cfg;
        if Executed wo then update_each i deployerAddr cfg rest ops
        else
          ops' ← append_write wo ops;
          update_each i deployerAddr cfg rest ops'
  end.

Definition UpdateStellarMCMSConfig (chains : BlockChains) (i : UpdateMCMSConfig) : G OnChainOutput :=
  deployerAddr ← plift_res (deployer_on chains (um_ChainSelector i));
  cfg ← plift_res (ConfigToStellarSetConfig (MCMConfig i) true);
  ops ← update_each i deployerAddr cfg (MCMContracts i) [];
  mret (mkOnChainOutput [] ops).

End Deploy.
