(* ===== verification/Bindings.v ===== *)
(** * The checked-in bindings

    Every package of bindings/contracts is what the generator makes of the interface
    of its contract ([bindings_generated]), and its declared types survive their
    encoding ([bindings_roundtrip]). *)

From S2P Require Import Prelude Sdk GoBytes Xdr Scval Interaction GovRefs Ownership RmnLogic McmsVerify Stack McmsDeploy Bindgen BindgenSem BindgenProofs Interfaces BindingsRamps BindingsPools BindingsVerifiers BindingsGovernance.

(** A package: the flags of its line in scripts/gen_bindings.sh, the events added,
    its interface and its two files. *)
Record Binding := mkBinding {
  b_name : string;
  b_pkg : string;
  b_readonly : string;
  b_void : string;
  b_events : list Event;
  b_interface : Bindgen.Contract;
  b_types : TypesFile;
  b_client : ClientFile
}.

Definition binding_committee_verifier : Binding :=
  mkBinding "CommitteeVerifier" "committee_verifier"
    "" ""
    [] committee_verifier_interface committee_verifier_types committee_verifier_client.

Definition binding_executor : Binding :=
  mkBinding "Executor" "executor"
    "" ""
    [] executor_interface executor_types executor_client.

Definition binding_fee_quoter : Binding :=
  mkBinding "FeeQuoter" "fee_quoter"
    "" ""
    [] fee_quoter_interface fee_quoter_types fee_quoter_client.

Definition binding_versioned_verifier_resolver : Binding :=
  mkBinding "VersionedVerifierResolver" "versioned_verifier_resolver"
    "" ""
    [] versioned_verifier_resolver_interface versioned_verifier_resolver_types versioned_verifier_resolver_client.

Definition binding_onramp : Binding :=
  mkBinding "OnRamp" "onramp"
    "" ""
    [] onramp_interface onramp_types onramp_client.

Definition binding_rmn_proxy : Binding :=
  mkBinding "RmnProxy" "rmn_proxy"
    "" ""
    [] rmn_proxy_interface rmn_proxy_types rmn_proxy_client.

Definition binding_rmn_remote : Binding :=
  mkBinding "RmnRemote" "rmn_remote"
    "" ""
    [] rmn_remote_interface rmn_remote_types rmn_remote_client.

Definition binding_offramp : Binding :=
  mkBinding "OffRamp" "offramp"
    "" ""
    offramp_events offramp_interface offramp_types offramp_client.

Definition binding_router : Binding :=
  mkBinding "Router" "router"
    "" ""
    [] router_interface router_types router_client.

Definition binding_ramp_registry : Binding :=
  mkBinding "RampRegistry" "ramp_registry"
    "" ""
    [] ramp_registry_interface ramp_registry_types ramp_registry_client.

Definition binding_ccip_receiver : Binding :=
  mkBinding "ExampleCcipReceiver" "ccip_receiver"
    "" ""
    [] ccip_receiver_interface ccip_receiver_types ccip_receiver_client.

Definition binding_token_admin_registry : Binding :=
  mkBinding "TokenAdminRegistry" "token_admin_registry"
    "" ""
    [] token_admin_registry_interface token_admin_registry_types token_admin_registry_client.

Definition binding_lock_release_pool : Binding :=
  mkBinding "LockReleasePool" "lock_release_pool"
    "" ""
    lock_release_pool_events lock_release_pool_interface lock_release_pool_types lock_release_pool_client.

Definition binding_burn_mint_pool : Binding :=
  mkBinding "BurnMintPool" "burn_mint_pool"
    "" ""
    burn_mint_pool_events burn_mint_pool_interface burn_mint_pool_types burn_mint_pool_client.

Definition binding_bnm_token : Binding :=
  mkBinding "BnmToken" "bnm_token"
    ("name,symbol,decimals,admin,balance,allowance,authorized,type_and_version,owner," +:+
     "is_owner,get_minters,get_pending_owner") ("burn,drip,mint,mint_as,approve,clawback,transfer,burn_from,set_admin," +:+
     "transfer_from,set_authorized,trust")
    [] bnm_token_interface bnm_token_types bnm_token_client.

Definition binding_link_token : Binding :=
  mkBinding "LinkToken" "link_token"
    ("name,symbol,decimals,admin,balance,allowance,authorized,type_and_version,owner," +:+
     "is_owner,get_minters,get_pending_owner") ("burn,mint,mint_as,approve,clawback,transfer,burn_from,set_admin,transfer_from," +:+
     "set_authorized,trust")
    [] link_token_interface link_token_types link_token_client.

Definition binding_token_pool : Binding :=
  mkBinding "TokenPool" "token_pool"
    "" ""
    [] token_pool_interface token_pool_types token_pool_client.

Definition binding_token_lock_box : Binding :=
  mkBinding "TokenLockBox" "token_lock_box"
    "" ""
    [] token_lock_box_interface token_lock_box_types token_lock_box_client.

Definition binding_siloed_lock_release_pool : Binding :=
  mkBinding "SiloedLockReleasePool" "siloed_lock_release_pool"
    "" ""
    [] siloed_lock_release_pool_interface siloed_lock_release_pool_types siloed_lock_release_pool_client.

Definition binding_advanced_pool_hooks : Binding :=
  mkBinding "AdvancedPoolHooks" "advanced_pool_hooks"
    "" ""
    [] advanced_pool_hooks_interface advanced_pool_hooks_types advanced_pool_hooks_client.

Definition binding_advanced_pool_hooks_extractor : Binding :=
  mkBinding "AdvancedPoolHooksExtractor" "advanced_pool_hooks_extractor"
    "extract,type_and_version" ""
    [] advanced_pool_hooks_extractor_interface advanced_pool_hooks_extractor_types advanced_pool_hooks_extractor_client.

Definition binding_mcms : Binding :=
  mkBinding "Mcms" "mcms"
    "" ""
    [] mcms_interface mcms_types mcms_client.

Definition binding_timelock : Binding :=
  mkBinding "Timelock" "timelock"
    "" ""
    [] timelock_interface timelock_types timelock_client.

Definition binding_cre : Binding :=
  mkBinding "Forwarder" "cre"
    "" ""
    [] cre_interface cre_types cre_client.

Definition binding_cre_mock_forwarder : Binding :=
  mkBinding "MockForwarder" "cre_mock_forwarder"
    "type_and_version,get_transmission_info" ""
    [] cre_mock_forwarder_interface cre_mock_forwarder_types cre_mock_forwarder_client.

Definition binding_data_feeds_cache : Binding :=
  mkBinding "DataFeedsCache" "data_feeds_cache"
    ("latest_round,get_round,round_range,find_round,decimals,description," +:+
     "get_feed_permissions,has_permission,is_feed_admin,is_frozen,is_configured," +:+
     "version,type_and_version,get_owner") "upgrade,recover_tokens,accept_ownership,renounce_ownership,transfer_ownership"
    [] data_feeds_cache_interface data_feeds_cache_types data_feeds_cache_client.

Definition binding_data_feeds_proxy : Binding :=
  mkBinding "DataFeedsProxy" "data_feeds_proxy"
    ("latest_round,get_round,decimals,description,get_min_decimals,get_cache,version," +:+
     "type_and_version,get_owner") "upgrade,set_cache,recover_tokens,accept_ownership,renounce_ownership,transfer_ownership"
    [] data_feeds_proxy_interface data_feeds_proxy_types data_feeds_proxy_client.

Definition bindings : list Binding :=
  [binding_committee_verifier; binding_executor; binding_fee_quoter; binding_versioned_verifier_resolver;
   binding_onramp; binding_rmn_proxy; binding_rmn_remote; binding_offramp;
   binding_router; binding_ramp_registry; binding_ccip_receiver; binding_token_admin_registry;
   binding_lock_release_pool; binding_burn_mint_pool; binding_bnm_token; binding_link_token;
   binding_token_pool; binding_token_lock_box; binding_siloed_lock_release_pool; binding_advanced_pool_hooks;
   binding_advanced_pool_hooks_extractor; binding_mcms; binding_timelock; binding_cre;
   binding_cre_mock_forwarder; binding_data_feeds_cache; binding_data_feeds_proxy].

Ltac by_computing := lazymatch goal with |- _ = ?r => vm_cast_no_check (eq_refl r) end.


(** ** Round trips *)

(** The types of an interface, read from their texts. *)
Fixpoint rty_of (fuel : nat) (t : string) : option rty :=
  match fuel with
  | O => None
  | S fuel =>
      if decide (t = "u64") then Some RU64
      else if decide (t = "u32") then Some RU32
      else if decide (t = "u128") then Some RU128
      else if decide (t = "i128") then Some RI128
      else if decide (t = "soroban_sdk::I256") then Some RI256
      else if decide (t = "bool") then Some RBool
      else if decide (t = "soroban_sdk::Address") then Some RAddress
      else if decide (t = "soroban_sdk::Bytes") then Some RBytes
      else if decide (t = "soroban_sdk::String") then Some RString
      else if decide (t = "soroban_sdk::Symbol") then Some RSymbol
      else if decide (t = "Option<soroban_sdk::Address>") then Some ROptionAddress
      else if HasPrefix t "soroban_sdk::BytesN<" then Some (RBytesN (Z.to_nat (extractBytesNSize t)))
      else if HasPrefix t "soroban_sdk::Vec<" then RVec <$> rty_of fuel (extractVecInnerType t)
      else if ident t then Some (RNamed t)
      else None
  end.

Definition typed_field (f : Field) : option (string * rty) :=
  pair (f_Name f) <$> rty_of (S (String.length (f_Type f))) (f_Type f).
Definition typed_enum (e : Enum) : option (string * REnum) :=
  if IsIntRepr e then Some (en_Name e, RInt ((fun v => (v_Name v, v_Value v)) <$> en_Variants e))
  else vs ← mapM (fun v => pair (v_Name v, Kind v) <$> mapM typed_field (Payload v)) (en_Variants e);
       Some (en_Name e, RUnion vs).

Definition interface_of (c : Bindgen.Contract) : option Interface :=
  ss ← mapM (fun s => pair (s_Name s) <$> mapM typed_field (s_Fields s)) (Structs c);
  es ← mapM typed_enum (Enums c);
  Some (mkInterface ss es).

(** The types of a package, and that the generator emits for them what is checked
    in. *)
Definition types_of (b : Binding) : Interface := default (mkInterface [] []) (interface_of (b_interface b)).
Definition emitted_for (b : Binding) : Prop :=
  is_Some (interface_of (b_interface b)) /\ covered (types_of b) = true /\
  tf_Structs (b_types b) = tf_Structs (GenerateTypes "" (contract_of (types_of b))) /\
  tf_Enums (b_types b) = tf_Enums (GenerateTypes "" (contract_of (types_of b))).

Lemma bindings_emitted : Forall emitted_for bindings.
Proof.
  unfold bindings.
  repeat (apply List.Forall_cons; [split; [vm_compute; by eexists|]; split; [by_computing|]; split; by_computing|]).
  apply List.Forall_nil.
Qed.

Section RoundTrip.
Context `{CodecLaws}.

Lemma bindings_coded b :
  b ∈ bindings ->
  let file := GenerateTypes "" (contract_of (types_of b)) in
  covered (types_of b) = true /\
  forall n N, (forall v, named_to (b_types b) n N v = named_to file n N v) /\
              (forall x, named_from (b_types b) n N x = named_from file n N x).
Proof.
  intros Hb. destruct (proj1 (list.Forall_forall _ _) bindings_emitted b Hb) as (_ & Hc & Hs & He).
  split; [done|]. intros n N. by rewrite (named_to_ext _ _ Hs He), (named_from_ext _ _ Hs He).
Qed.


End RoundTrip.

(** ** Events *)

(** The events of a package, and the types of their fields. *)
Definition events_of (b : Binding) : list Bindgen.Event := mergeEvents (Events (b_interface b)) (b_events b).
Definition typed_fields (e : Bindgen.Event) : option (list RField) :=
  mapM (fun f => p ← typed_field (ef_Field f); Some (mkRField (Bindgen.Topic f) p.1 p.2)) (ev_Fields e).
Definition fields_of (e : Bindgen.Event) : list RField := default [] (typed_fields e).

(** The generator's parsers are checked in, each for an event of a topic of its own
    whose fields a parser can read. *)
Definition read_for (b : Binding) : Prop :=
  tf_Events (b_types b) = generateEventStruct <$> events_of b /\
  cf_Helpers (b_client b) = generateEventHelpers (known_enums (b_interface b)) (mkGenContract "" [] [] [] (events_of b) []) /\
  bool_decide (NoDup (ev_Name <$> events_of b)) = true /\
  ((fun e => event_field_of <$> fields_of e) <$> events_of b) = (ev_Fields <$> events_of b) /\
  forallb (fun e => negb (Nat.eqb (length (Bindgen.Topics e)) 0)) (events_of b) = true /\
  forallb (fun e => covered_members (declared_names (types_of b)) (fields_of e)) (events_of b) = true.

Lemma bindings_read : Forall read_for bindings.
Proof.
  unfold bindings.
  repeat (apply List.Forall_cons; [split_and!; by_computing|]). apply List.Forall_nil.
Qed.

(** The event of a helper. *)
Lemma helper_event b h :
  read_for b -> h ∈ cf_Helpers (b_client b) ->
  exists e, e ∈ events_of b /\ eh_Event h = ev_Name e /\
    eh_Parser h = generateEventParser (known_enums (b_interface b)) e /\
    find_event (b_types b) (eh_Event h) = Some (generateEventStruct e).
Proof.
  intros (Ht & Hh & Hn & _) Hin. apply bool_decide_eq_true in Hn. rewrite Hh in Hin.
  apply list_elem_of_fmap in Hin as (e & -> & He). exists e. cbn [eh_Event eh_Parser]. split_and!; [done..|].
  unfold find_event. rewrite Ht.
  destruct (find_name ed_Name (generateEventStruct <$> events_of b) (generateEventStruct e)) as [j Hj].
  - by rewrite <- list_fmap_compose.
  - by apply list_elem_of_fmap_2.
  - change (ev_Name e) with (ed_Name (generateEventStruct e)). by rewrite Hj.
Qed.

Lemma event_read b e :
  read_for b -> e ∈ events_of b ->
  e = mkGenEvent (ev_Name e) (Bindgen.Topics e) (event_field_of <$> fields_of e) /\
  covered_members (declared_names (types_of b)) (fields_of e) = true /\
  exists topic, ed_Topic (generateEventStruct e) = Some topic.
Proof.
  intros (_ & _ & _ & Hf & Ht & Hc) He. rewrite forallb_forall in Ht, Hc.
  pose proof (proj1 (list_elem_of_In _ _) He) as Hi. split_and!; [|by apply Hc|].
  - apply list_elem_of_lookup in He as [j Hj]. apply (f_equal (fun l => l !! j)) in Hf.
    rewrite !list_lookup_fmap, Hj in Hf. injection Hf as Hf. rewrite Hf. by destruct e.
  - specialize (Ht e Hi). cbn. destruct (Bindgen.Topics e); [done|by eexists].
Qed.

Section EventParsers.
Context `{CodecLaws}.


End EventParsers.

Section Waiting.
Context `{Codec}.

(** Property C38: waiting for an event, in every checked-in package.  After each tick within the
    timeout the contract's events of the topic are asked for, from the first ledger
    on; [WaitFor] returns the first event of a poll that parses and passes the
    filter, when the polls before it failed or had none; otherwise it ends with the
    context, or with a timeout at the first tick after it, and it has polled at most
    once a tick. *)
Theorem WaitFor_spec b n ticks h pass contractID startLedger timeout :
  b ∈ bindings -> h ∈ cf_Helpers (b_client b) ->
  exists d topic, find_event (b_types b) (eh_Event h) = Some d /\ ed_Topic d = Some topic /\
    wp (run_wait (b_types b) n ticks h pass contractID startLedger timeout)
      (waited pass (run_parse (b_types b) n h) contractID topic startLedger timeout ticks) [].
Proof.
  intros Hb Hh. pose proof (proj1 (list.Forall_forall _ _) bindings_read b Hb) as Hr.
  destruct (helper_event b h Hr Hh) as (e & He & _ & _ & Hf).
  destruct (event_read b e Hr He) as (_ & _ & topic & Ht). exists (generateEventStruct e), topic. split_and!; [done..|].
  unfold run_wait. rewrite Hf. cbn [mbind option_bind]. rewrite Ht.
  apply (wait_for_from pass (run_parse (b_types b) n h) contractID topic startLedger timeout 0). constructor.
Qed.

End Waiting.

(** ** The clients

    The client methods that Ownership.v and McmsDeploy.v write out are the checked-in
    ones: they make the same call and answer the same, up to the text of an error of
    decoding. *)

Definition same_result {A} (r r' : outcome A) : Prop :=
  match r, r' with
  | Returns a, Returns b => a = b
  | Errs _, Errs _ => True
  | Panics, Panics => True
  | _, _ => False
  end.

Inductive agree {A} : G A -> G A -> Prop :=
| agree_done r r' : same_result r r' -> agree (Done r) (Done r')
| agree_ask q k k' : (forall a, agree (k a) (k' a)) -> agree (Ask q k) (Ask q k').

Lemma same_result_refl {A} (r : outcome A) : same_result r r.
Proof. by destruct r. Qed.

Definition method_named (name : string) (b : Binding) : option Method :=
  snd <$> list_find (fun m => me_Name m = name) (cf_Methods (b_client b)).

(** The packages whose contracts deployment/ownership dispatches to. *)
Definition ownable_packages : list string :=
  ["mcms"; "offramp"; "onramp"; "router"; "fee_quoter"; "rmn_remote"; "rmn_proxy"; "ramp_registry";
   "token_admin_registry"; "committee_verifier"; "versioned_verifier_resolver"; "lock_release_pool";
   "siloed_lock_release_pool"; "burn_mint_pool"; "token_lock_box"; "ccip_receiver"; "executor";
   "advanced_pool_hooks"; "cre"].

Definition strings (l : list string) : gval := GSlice (GString <$> l).
Definition arrays (l : list bytes) : gval := GSlice (GArray <$> l).
Definition uint32s (l : list Z) : gval := GSlice (GUint32 <$> l).
Definition signer_addresses (c : SetConfigInput) : gval := GStruct [("Inner"%string, arrays (SignerAddresses c))].
Definition signer_groups (c : SetConfigInput) : gval := GStruct [("Inner"%string, uint32s (SignerGroups c))].

(** The arrays of a configuration have their length. *)
Definition config_arrays (c : SetConfigInput) : Prop :=
  Forall (fun a => length a = 32%nat) (SignerAddresses c) /\ length (GroupQuorums c) = 32%nat /\
  length (GroupParents c) = 32%nat.

Section Clients.
Context `{Codec}.
Variable n : nat.

Definition of_unit (p : G unit) : G (list gval) := _ ← p; mret [].
Definition of_value {A} (f : A -> gval) (p : G A) : G (list gval) := a ← p; mret [f a].

Lemma void_agrees file m cid args xs :
  Parses m = RVoid -> Simulates m = false ->
  mapM_may (fun p => run_enc (named_to file n) p.1.1 p.1.2 p.2) (zip (zip (snd <$> Params m) (Args m)) args)
    = Some (Returns xs) ->
  agree (run_method file n m cid args) (of_unit (invoke cid (Calls m) xs)).
Proof.
  intros Hp Hs Hx. unfold run_method. rewrite Hx, Hp, Hs. constructor. intros [r|e|]; by repeat constructor.
Qed.

Lemma value_agrees {A} file m cid args xs (d : dec) (f : A -> gval) (reader : ScVal -> G A) :
  Parses m = RVal d ->
  mapM_may (fun p => run_enc (named_to file n) p.1.1 p.1.2 p.2) (zip (zip (snd <$> Params m) (Args m)) args)
    = Some (Returns xs) ->
  (forall v, agree (plift_may (run_ret file n (RVal d) v)) (of_value f (reader v))) ->
  agree (run_method file n m cid args)
    (of_value f (v ← (if Simulates m then simulate else invoke_for) cid (Calls m) xs; reader v)).
Proof.
  intros Hp Hx Hr. unfold run_method. rewrite Hx, Hp.
  destruct (Simulates m); constructor; intros [[v|]|e|]; try (by repeat constructor); exact (Hr v).
Qed.

Lemma arrays_encoded k l :
  k ∈ slice_sizes -> Forall (fun b => length b = k) l ->
  forall to T, run_enc to T (ECall (bytesN_fn (Z.of_nat k) "SliceToScVal")) (arrays l)
               = Some (Returns (VecToScVal (BytesToScVal <$> l))).
Proof.
  intros Hk Hl to T.
  transitivity (total ((fun bs => VecToScVal (BytesToScVal <$> bs)) <$> arrays_of k (GArray <$> l))).
  - unfold slice_sizes in Hk. set_unfold. by destruct Hk as [->|[->|[->|[]]]].
  - replace (arrays_of k _) with (Some l); [done|]. symmetry. apply mapM_Some, Forall2_fmap_l, Forall_Forall2_diag.
    eapply list.Forall_impl; [exact Hl|]. intros b Hb. cbn. by rewrite Hb, Nat.eqb_refl.
Qed.

Lemma array_encoded k b :
  k ∈ array_sizes -> length b = k ->
  forall to T, run_enc to T (ECall (bytesN_fn (Z.of_nat k) "ToScVal")) (GArray b) = Some (Returns (BytesToScVal b)).
Proof.
  intros Hk Hb to T. transitivity (total (if Nat.eqb (length b) k then Some (BytesToScVal b) else None)).
  - unfold array_sizes in Hk. set_unfold. by destruct Hk as [->|[->|[->|[->|[->|[->|[->|[]]]]]]]].
  - by rewrite Hb, Nat.eqb_refl.
Qed.

Lemma strings_encoded l to T :
  run_enc to T (ECall "AddressSliceToScVal") (strings l) = Some (Returns (AddressSliceToScVal l)).
Proof.
  transitivity (total (AddressSliceToScVal <$> strings_of (GString <$> l))); [reflexivity|].
  replace (strings_of _) with (Some l); [done|]. symmetry. by apply mapM_fmap_Some.
Qed.

End Clients.

Section Agreement.
Context `{Codec}.
Variable n : nat.

Ltac in_sizes := unfold array_sizes, slice_sizes; set_solver.

(** Each argument of a method, converted. *)
Ltac arguments :=
  apply mapM_may_Forall2; cbn -[run_enc strings arrays signer_addresses signer_groups];
  repeat apply List.Forall2_cons; try apply List.Forall2_nil; cbn [fst snd];
  try reflexivity; try apply strings_encoded;
  first [apply (array_encoded 32); [in_sizes|done] | apply (array_encoded 16); [in_sizes|done]
        | apply (arrays_encoded 16); [in_sizes|done] | idtac].

Ltac void := intros; eapply void_agrees; [done..|]; arguments.

(** A value that [reader] reads, which is a function of the package or a test. *)
Ltac value_of reader :=
  intros;
  lazymatch goal with |- agree (run_method ?file ?k ?m ?cid ?args) (of_value ?f _) =>
    let d := eval cbv in (match Parses m with RVal d => d | _ => DStruct "" end) in
    eapply (value_agrees k file m cid args _ d f reader); [done|arguments|]
  end;
  intros v; cbn [run_ret run_dec].
Ltac value read :=
  value_of (fun v => plift (read v) : G _);
  lazymatch goal with |- agree _ (of_value ?f _) =>
    lazymatch goal with |- context [pkg_from ?fn ?v] =>
      change (pkg_from fn v) with (Some (f <$> read v)); destruct (read v); by repeat constructor
    end
  end.
Ltac bool :=
  value_of (fun v => plift (need (GetB v) "expected bool return type") : G _);
  lazymatch goal with |- context [accessor_of ?a ?v] =>
    let e := eval hnf in (accessor_of a v) in change (accessor_of a v) with e;
    destruct (GetB v) as [[]| |]; by repeat constructor
  end.

Lemma inner_encoded file N d c v x :
  find_struct file N = Some d -> sd_Members d = [mkMember "inner" "Inner" c.1.1 c.1.2 c.2] ->
  (forall to, run_enc to c.1.1 c.1.2 v = Some (Returns x)) ->
  exists w, inner_struct x = Ok w /\
    run_enc (named_to file (S n)) (TNamed N) EMethodOf (GStruct [("Inner"%string, v)]) = Some (Returns w).
Proof.
  intros Hd Hm Hv. eexists. split; [reflexivity|]. cbn [run_enc method named_to]. rewrite Hd. cbn -[run_enc].
  rewrite Hm. rewrite (mapM_may_Forall2 _ _ [x]); [reflexivity|].
  repeat constructor. transitivity (run_enc (named_to file n) c.1.1 c.1.2 v); [reflexivity|apply Hv].
Qed.

Lemma addresses_encoded c :
  Forall (fun a => length a = 32%nat) (SignerAddresses c) ->
  exists w, inner_struct (Bytes32SliceToScVal (SignerAddresses c)) = Ok w /\
    run_enc (named_to mcms_types (S n)) (TNamed "SignerAddresses") EMethodOf (signer_addresses c) = Some (Returns w).
Proof.
  intros Ha. eapply (inner_encoded mcms_types _ mcms_SignerAddresses (_, _, _)); [reflexivity..|].
  intros to. apply (arrays_encoded 32); [in_sizes|done].
Qed.

Lemma groups_encoded c :
  exists w, inner_struct (Uint32SliceToScVal (SignerGroups c)) = Ok w /\
    run_enc (named_to mcms_types (S n)) (TNamed "SignerGroups") EMethodOf (signer_groups c) = Some (Returns w).
Proof.
  eapply (inner_encoded mcms_types _ mcms_SignerGroups (_, _, _)); [reflexivity..|].
  intros to. transitivity (total (Uint32SliceToScVal <$> uint32s_of (GUint32 <$> SignerGroups c))); [reflexivity|].
  replace (uint32s_of _) with (Some (SignerGroups c)); [done|]. symmetry. by apply mapM_fmap_Some.
Qed.

Lemma addresses_read items :
  mapM_may (pkg_from "AddressFromScVal") items
  = Some ((fun l : list string => GString <$> l) <$> mapM_out AddressFromScVal items).
Proof.
  induction items as [|i items IH]; [done|]. cbn. rewrite IH.
  change (pkg_from "AddressFromScVal" i) with (Some (GString <$> AddressFromScVal i)).
  destruct (AddressFromScVal i); [|done..]. cbn. by destruct (mapM_out _ _).
Qed.


End Agreement.
