(* ===== verification/McmsDeployProofs.v ===== *)
(** * Governance of a chain: a deployed stack is governed

    Theorems on McmsDeploy.v against the contracts of Stack.v: what the verifier's
    reader reads of them ([snapshot]), and that a deployment leaves the authority
    that the verifier of McmsVerify.v checks. *)

From S2P Require Import Prelude Sdk GoBytes Xdr Scval ScvalProofs Interaction GovRefs Ownership RmnRemote RmnLogic Curse McmsVerify Stack McmsDeploy.

(** ** Calls on the chain of Stack.v *)

Definition stack_event (e : event gans) : event sans :=
  mkEvent (Req := sreq) (Ans := sans) (Call (ev_req e)) (ev_ans e).

Lemma sfailed_app ext tr : sfailed tr -> sfailed (ext ++ tr).
Proof. intros Hf. apply Exists_app. by right. Qed.

Lemma sfailed_events ext tr : gfailed ext -> sfailed ((stack_event <$> ext) ++ tr).
Proof.
  intros Hf. apply Exists_app. left. induction Hf as [e l He|e l _ IH]; [by left|by right].
Qed.

Section Calls.
Context `{CodecLaws} `{GovSdk} `{WasmFiles} (signer : ScAddress).

Abbreviation awp := (swp (answers call_inst stack_functions signer)).
Abbreviation kwp := (swp (stack_step signer)).

Lemma swp_on_stack {A} (p : prog gans A) Q tr w :
  awp p (fun a ext w' => Q a ((stack_event <$> ext) ++ tr) w') [] w -> kwp (on_stack p) Q tr w.
Proof.
  change tr with ((stack_event <$> []) ++ tr) at 2. generalize (@nil (event gans)) at 1 2 as ext.
  revert w. induction p as [a|r k IH]; intros w ext; simpl; [done|].
  intros Hp x w' Hx. apply (IH x w' (mkEvent r x :: ext)). by apply Hp.
Qed.

Lemma awp_simulate cid fn args tr w :
  fn ∈ stack_functions ->
  awp (simulate cid fn args)
    (post (fun v _ w' => w' = w /\ exists w1, call_inst (fun _ => true) cid fn args w = Some (v, w1))
          (fun tr' w' => w' = w /\ gfailed tr')) tr w.
Proof.
  intros Hfn. apply swp_bind. intros x w' [-> Hx]. destruct x as [o|e|]; simpl; [|by split; [|left]..].
  destruct (Hx Hfn) as ([v w1] & Ec & ->). simpl. eauto.
Qed.

Lemma awp_invoke_for cid fn args tr w :
  awp (invoke_for cid fn args)
    (post (fun v _ w' => call_inst (only signer) cid fn args w = Some (v, w'))
          (fun tr' w' => gfailed tr' /\ (w' = w \/ exists v, call_inst (only signer) cid fn args w = Some (v, w')))) tr w.
Proof.
  apply swp_bind. intros x w' Hx. destruct x as [o|e|]; simpl.
  - destruct Hx as [(v & Ec & Ho)|[? _]]; [|done]. by rewrite (Ho o eq_refl).
  - split; [by left|]. destruct Hx as [(v & Ec & _)|[_ ->]]; eauto.
  - split; [by left|]. destruct Hx as [(v & Ec & _)|[_ ->]]; eauto.
Qed.

Lemma awp_invoke cid fn args tr w :
  awp (invoke cid fn args)
    (post (fun _ _ w' => exists v, call_inst (only signer) cid fn args w = Some (v, w'))
          (fun tr' w' => gfailed tr' /\ (w' = w \/ exists v, call_inst (only signer) cid fn args w = Some (v, w')))) tr w.
Proof.
  apply swp_bind. intros x w' Hx. destruct x as [o|e|]; simpl.
  - destruct Hx as [(v & Ec & Ho)|[? _]]; [eauto|done].
  - split; [by left|]. destruct Hx as [(v & Ec & _)|[_ ->]]; eauto.
  - split; [by left|]. destruct Hx as [(v & Ec & _)|[_ ->]]; eauto.
Qed.

(** ** What the reader reads *)

Definition inst_at (w : Stack) (cid : string) : option Inst :=
  match strkey_Decode VersionByteContract cid with Ok id => w !! id | Err _ => None end.

Definition mcms_at {A} (w : Stack) (cid : string) (f : Mcms -> A) (d : A) : A :=
  match inst_at w cid with Some (IMcms m) => f m | _ => d end.
Definition timelock_at {A} (w : Stack) (cid : string) (f : Timelock -> A) (d : A) : A :=
  match inst_at w cid with Some (ITimelock t) => f t | _ => d end.

Definition name_of (o : option ScAddress) : string :=
  match o with
  | Some a => match AddressFromScVal (ScvAddress (Some a)) with Returns s => s | _ => "" end
  | None => ""
  end.

Definition snapshot (w : Stack) : Chain :=
  mkChain (fun a => mcms_at w a m_label "") (fun a => mcms_at w a (fun m => name_of (m_owner m)) "")
    (fun a => mcms_at w a m_network [])
    (fun tl role account =>
       match ParseAddress account with
       | Some x => timelock_at w tl (fun t => bool_decide ((role, x) ∈ t_roles t)) false
       | None => false
       end)
    (fun tl => timelock_at w tl t_min_delay 0)
    (fun ref => match NormalizeContractAddress (ref_Address ref) with
                | Ok cid => mcms_at w cid (fun m => name_of (m_owner m)) ""
                | Err _ => ""
                end).

(** A multisig that has been initialized has an owner with a name and the network of
    32 bytes. *)
Record mcms_wf (m : Mcms) : Prop := {
  mw_owner : forall o, m_owner m = Some o -> address_ok o = true;
  mw_network : m_initialized m = true -> length (m_network m) = 32%nat
}.
Definition stack_wf (w : Stack) : Prop :=
  forall id m, w !! id = Some (IMcms m) -> mcms_wf m.

(** The reads whose failure is that of a request: the multisig has an owner, and
    ownership knows the reference. *)
Definition has_owner (w : Stack) (cid : string) : Prop :=
  forall m, inst_at w cid = Some (IMcms m) -> is_Some (m_owner m).

Definition readable (w : Stack) (r : vreq) : Prop :=
  match r with
  | mcmsOwner a => has_owner w a
  | contractOwner ref => ref_Type ref ∈ ownable_types /\
      exists cid, NormalizeContractAddress (ref_Address ref) = Ok cid /\ has_owner w cid
  | _ => True
  end.

Lemma call_inst_at auth cid fn args w v w' :
  call_inst auth cid fn args w = Some (v, w') ->
  exists id i i', strkey_Decode VersionByteContract cid = Ok id /\ w !! id = Some i /\
    inst_entry auth id fn args i = Some (v, i') /\ w' = <[id := i']> w.
Proof.
  unfold call_inst. destruct (strkey_Decode _ cid) as [id|] eqn:D; [|done].
  destruct (w !! id) as [i|] eqn:L; simpl; [|done].
  destruct (inst_entry auth id fn args i) as [[v' i']|] eqn:En; simpl; [|done].
  intros [= -> <-]. by exists id, i, i'.
Qed.

(** ** The reads *)

#[local] Ltac unfold_entry := unfold inst_entry, mcms_entry, timelock_entry; simpl.

Lemma read_label auth id i v i' :
  inst_entry auth id "get_instance_label" [] i = Some (v, i') ->
  exists m, i = IMcms m /\ i' = i /\ v = ScvSymbol (Some (m_label m)).
Proof. destruct i as [m|t]; unfold_entry; [|done]. destruct (m_initialized m); simpl; [|done]. intros [= <- <-]. eauto. Qed.

Lemma read_owner auth id i v i' :
  inst_entry auth id "owner" [] i = Some (v, i') ->
  exists m, i = IMcms m /\ i' = i /\ v = address_value (m_owner m).
Proof. destruct i as [m|t]; unfold_entry; [|done]. intros [= <- <-]. eauto. Qed.

Lemma read_network auth id i v i' :
  inst_entry auth id "chain_network_id" [] i = Some (v, i') ->
  exists m, i = IMcms m /\ i' = i /\ v = ScvBytes (Some (m_network m)) /\ m_initialized m = true.
Proof. destruct i as [m|t]; unfold_entry; [|done]. destruct (m_initialized m) eqn:E; simpl; [|done]. intros [= <- <-]. eauto. Qed.

Lemma read_role auth id i v i' role a :
  inst_entry auth id "has_role" [SymbolToScVal role; a] i = Some (v, i') ->
  exists t x, i = ITimelock t /\ i' = i /\ address_arg a = Some x /\
    v = ScvBool (Some (bool_decide ((role, x) ∈ t_roles t))).
Proof.
  destruct i as [m|t]; unfold_entry; [done|]. destruct (address_arg a) as [x|]; simpl; [|done].
  destruct (known_role role); simpl; [|done]. intros [= <- <-]. eauto 6.
Qed.

Lemma read_delay auth id i v i' :
  inst_entry auth id "get_min_delay" [] i = Some (v, i') ->
  exists t, i = ITimelock t /\ i' = i /\ v = ScvU64 (Some (t_min_delay t)).
Proof. destruct i as [m|t]; unfold_entry; [done|]. intros [= <- <-]. eauto. Qed.

(** A read that finds its contract. *)
Lemma call_read auth cid fn args w v w' (P : Inst -> Prop) :
  (forall id i i', inst_entry auth id fn args i = Some (v, i') -> i' = i /\ P i) ->
  call_inst auth cid fn args w = Some (v, w') ->
  w' = w /\ exists i, inst_at w cid = Some i /\ P i.
Proof.
  intros HP (id & i & i' & D & L & [-> Hi]%HP & ->)%call_inst_at. rewrite insert_id by done.
  split; [done|]. exists i. unfold inst_at. by rewrite D.
Qed.

Definition truthful (w : Stack) (r : vreq) (x : outcome (vval r)) (tr : gtrace) (w' : Stack) : Prop :=
  w' = w /\ (forall v, x = Returns v -> v = truth (snapshot w) r) /\
  (is_done x = false -> gfailed tr \/ ~ readable w r).

Lemma truthful_post w r (m : G (vval r)) tr :
  awp m (post (fun v tr' w' => w' = w /\ v = truth (snapshot w) r)
              (fun tr' w' => w' = w /\ (gfailed tr' \/ ~ readable w r))) tr w ->
  awp m (truthful w r) tr w.
Proof.
  intros Hm. eapply swp_mono; [exact Hm|]. unfold truthful.
  intros [v|e|] tr' w'; simpl; intros [-> Ht]; (split; [done|]); (split; [|by intros]); naive_solver.
Qed.

Lemma need_inv {A} (r : outcome (option A)) msg a : need r msg = Returns a -> r = Returns (Some a).
Proof. unfold need. by destruct r as [[]| |]; simpl; [intros [= ->]|..]. Qed.

(** A simulation that finds its contract. *)
Lemma awp_read cid fn args w tr (P : ScVal -> Inst -> Prop) :
  fn ∈ stack_functions ->
  (forall auth id i v i', inst_entry auth id fn args i = Some (v, i') -> i' = i /\ P v i) ->
  awp (simulate cid fn args)
    (post (fun v _ w' => w' = w /\ exists i, inst_at w cid = Some i /\ P v i)
          (fun tr' w' => w' = w /\ gfailed tr')) tr w.
Proof.
  intros Hfn HP. eapply swp_weaken; [by apply awp_simulate| |done].
  intros v _ w' [-> (w1 & Ec)]. split; [done|].
  eapply (call_read _ _ _ _ _ _ _ (P v)) in Ec; [apply Ec|]. intros. by eapply HP.
Qed.

Lemma awp_send cid fn args w tr (P : ScVal -> Inst -> Prop) :
  (forall auth id i v i', inst_entry auth id fn args i = Some (v, i') -> i' = i /\ P v i) ->
  awp (invoke_for cid fn args)
    (post (fun v _ w' => w' = w /\ exists i, inst_at w cid = Some i /\ P v i)
          (fun tr' w' => w' = w /\ gfailed tr')) tr w.
Proof.
  intros HP.
  assert (Hc : forall v w', call_inst (only signer) cid fn args w = Some (v, w') ->
            w' = w /\ exists i, inst_at w cid = Some i /\ P v i).
  { intros v w' Ec. eapply call_read; [|exact Ec]. intros. by eapply HP. }
  eapply swp_weaken; [apply awp_invoke_for| |].
  - intros v _ w' [-> Hi]%Hc. eauto.
  - intros tr' w' [Hf [->|(v & [-> _]%Hc)]]; done.
Qed.

Lemma inst_at_wf w cid m : stack_wf w -> inst_at w cid = Some (IMcms m) -> mcms_wf m.
Proof. unfold inst_at. destruct (strkey_Decode _ cid); [|done]. intros Hwf. apply Hwf. Qed.

(** The owner of a multisig, by its name. *)
Lemma awp_owner {A} (cid : string) (f : option string -> G A) (v : A) w tr :
  stack_wf w ->
  (forall m s, inst_at w cid = Some (IMcms m) -> name_of (m_owner m) = s ->
     m_owner m <> None -> f (Some s) = mret v) ->
  (exists e, f None = pfail e) ->
  awp (o ← Owner cid; f o)
    (post (fun x _ w' => w' = w /\ x = v)
          (fun tr' w' => w' = w /\ (gfailed tr' \/ ~ has_owner w cid))) tr w.
Proof.
  intros Hwf Hs (e & Hn). apply swp_bind, swp_bind.
  eapply swp_weaken; [apply (awp_read _ _ _ _ _ (fun x i => exists m, i = IMcms m /\ x = address_value (m_owner m)))| |].
  - unfold stack_functions, mcms_functions. set_solver.
  - intros auth id i x i' (m & -> & -> & ->)%read_owner. eauto.
  - intros x tr' w' [-> (i & Hi & m & -> & ->)]. specialize (Hs m). rewrite Hi in Hs.
    pose proof (mw_owner _ (inst_at_wf _ _ _ Hwf Hi)) as Ho.
    destruct (m_owner m) as [o|] eqn:Eo; cbn [address_value name_of] in *.
    + destruct (names_exist o (Ho o eq_refl)) as (s & _ & _ & Es). rewrite Es in Hs.
      unfold OptionalAddressFromScVal. simpl. simpl in Es. rewrite Es. simpl. by rewrite (Hs s).
    + simpl. rewrite Hn. split; [done|]. right. intros Hh. destruct (Hh m Hi) as [? ?]. congruence.
  - intros tr' w' [-> Hf]. auto.
Qed.

(** Each read of the verifier's reader is the truth of the contracts, or a request
    failed. *)
Lemma reader_truthful w r tr : stack_wf w -> awp (bindingGovernanceReader r) (truthful w r) tr w.
Proof.
  intros Hwf. apply truthful_post.
  destruct r as [a|a|a|a role account|a|ref]; cbn [bindingGovernanceReader truth snapshot
    label_of owner_of network_of has_role delay_of governed_owner readable].
  - apply swp_bind. eapply swp_weaken;
      [apply (awp_read _ _ _ _ _ (fun x i => exists m, i = IMcms m /\ x = ScvSymbol (Some (m_label m))))| |].
    + unfold stack_functions, mcms_functions. set_solver.
    + intros auth id i x i' (m & -> & -> & ->)%read_label. eauto.
    + intros x tr' w' [-> (i & Hi & m & -> & ->)]. unfold mcms_at. by rewrite Hi.
    + intros tr' w' [-> Hf]. auto.
  - apply awp_owner; [done| |by eexists]. intros m s Hi <- _. unfold mcms_at. by rewrite Hi.
  - apply swp_bind. eapply swp_weaken;
      [apply (awp_send _ _ _ _ _ (fun x i => exists m, i = IMcms m /\ x = ScvBytes (Some (m_network m)) /\
                                     m_initialized m = true))| |].
    + intros auth id i x i' (m & -> & -> & -> & Hm)%read_network. eauto.
    + intros x tr' w' [-> (i & Hi & m & -> & -> & Hm)]. unfold mcms_at. rewrite Hi.
      pose proof (mw_network _ (inst_at_wf _ _ _ Hwf Hi) Hm) as Hl.
      unfold Bytes32FromScVal, bytesNFromScVal. simpl. by rewrite Hl.
    + intros tr' w' [-> Hf]. auto.
  - apply swp_bind. eapply swp_weaken;
      [apply (awp_send _ _ _ _ _ (fun x i => exists t a', i = ITimelock t /\ ParseAddress account = Some a' /\
                                     x = ScvBool (Some (bool_decide ((role, a') ∈ t_roles t)))))| |].
    + intros auth id i x i' (t & a' & -> & -> & Ha & ->)%read_role. unfold address_arg, AddressToScVal in Ha.
      destruct (ParseAddress account) as [b|]; [|done]. destruct (address_ok b); [|done].
      injection Ha as ->. eauto 6.
    + intros x tr' w' [-> (i & Hi & t & a' & -> & -> & ->)]. unfold timelock_at. by rewrite Hi.
    + intros tr' w' [-> Hf]. auto.
  - apply swp_bind. eapply swp_weaken;
      [apply (awp_read _ _ _ _ _ (fun x i => exists t, i = ITimelock t /\ x = ScvU64 (Some (t_min_delay t))))| |].
    + unfold stack_functions, timelock_functions. set_solver.
    + intros auth id i x i' (t & -> & -> & ->)%read_delay. eauto.
    + intros x tr' w' [-> (i & Hi & t & -> & ->)]. unfold timelock_at. by rewrite Hi.
    + intros tr' w' [-> Hf]. auto.
  - unfold ContractOwner, dispatch. apply swp_bind. destruct (NormalizeContractAddress _) as [cid|e]; simpl.
    + case_decide as Ht.
      * eapply swp_weaken; [apply (awp_owner _ _ (mcms_at w cid (fun m => name_of (m_owner m)) "")); [exact Hwf| |by eexists]|..].
        -- intros m s Hi <- _. unfold mcms_at. by rewrite Hi.
        -- intros x tr' w' [-> ->]. done.
        -- intros tr' w' [-> [Hf|Hn]]; [auto|]. split; [done|]. right. naive_solver.
      * split; [done|]. right. tauto.
    + split; [done|]. right. naive_solver.
Qed.

(** The verifier over the reader: as it is over the truth of the contracts. *)
Lemma swp_with_reader {A} (p : prog vans A) (Q : A -> list (event vans) -> Chain -> Prop) w tr :
  stack_wf w -> swp chain_step p Q [] (snapshot w) ->
  kwp (with_reader p)
    (fun a tr' w' => w' = w /\ exists ext, Q a ext (snapshot w) /\
       (some_read_failed ext -> sfailed tr' \/ Exists (fun e => ~ readable w (ev_req e)) ext)) tr w.
Proof.
  intros Hwf Hp.
  assert (Hg : forall ext, swp chain_step p Q ext (snapshot w) ->
    (some_read_failed ext -> sfailed tr \/ Exists (fun e => ~ readable w (ev_req e)) ext) ->
    kwp (with_reader p)
      (fun a tr' w' => w' = w /\ exists ext, Q a ext (snapshot w) /\
         (some_read_failed ext -> sfailed tr' \/ Exists (fun e => ~ readable w (ev_req e)) ext)) tr w).
  2: { apply (Hg []); [done|]. by intros ?%Exists_nil. }
  clear Hp. revert tr. induction p as [a|r k IH]; intros tr ext Hp Hext; simpl; [eauto|].
  apply swp_prog_bind, swp_on_stack. eapply swp_mono; [by apply reader_truthful|].
  intros x gtr w' (-> & Hv & Hf). eapply (IH x _ (mkEvent r x :: ext)).
  - apply Hp. split; [done|]. destruct x; auto.
  - intros [Hx|Hx]%Exists_cons.
    + destruct (Hf Hx) as [Hg|Hn]; [left; by apply sfailed_events|right; by left].
    + destruct (Hext Hx) as [?|?]; [left; by apply sfailed_app|right; by right].
Qed.

(** ** Deployments *)

(** [cid] is the strkey of the contract [id]. *)
Definition at_id (cid : string) (id : bytes) : Prop :=
  names cid (ScAddressTypeContract (Some id)) /\ strkey_Decode VersionByteContract cid = Ok id.

Lemma deployed_at p cid w w' i :
  deployed p cid w w' -> wasm_contract p = Some i ->
  exists id, w !! id = None /\ at_id cid id /\ w' = <[id := i]> w.
Proof.
  intros (id & i' & Hk & He & Hd & Hn & Hw & ->) Hi. rewrite Hw in Hi. injection Hi as ->.
  exists id. split_and!; [done| |done]. split; [|done].
  destruct (names_exist (ScAddressTypeContract (Some id)) Hk) as (s & Hok & Hp & Hs).
  assert (s = cid) as -> by (cbn in Hs; rewrite He in Hs; by injection Hs). done.
Qed.

Lemma deployed_kept p cid (w w' : Stack) : deployed p cid w w' -> w ⊆ w'.
Proof. intros (id & i & _ & _ & _ & Hn & _ & ->). by apply insert_subseteq. Qed.

Lemma kwp_deploy p salt i tr w :
  wasm_contract p = Some i ->
  kwp (deploy_contract p salt)
    (post (fun cid _ w' => exists id, w !! id = None /\ at_id cid id /\ w' = <[id := i]> w)
          (fun tr' w' => w ⊆ w' /\ sfailed tr')) tr w.
Proof.
  intros Hi x w' Hx. destruct x as [cid|e|]; simpl in *.
  - by eapply deployed_at.
  - split; [|by left]. destruct Hx as [->|(cid & Hd)]; [done|by eapply deployed_kept].
  - split; [|by left]. destruct Hx as [->|(cid & Hd)]; [done|by eapply deployed_kept].
Qed.

(** An invocation on a known contract. *)
Lemma kwp_invoke cid id fn args i tr (w : Stack) (P : Inst -> Prop) :
  strkey_Decode VersionByteContract cid = Ok id -> w !! id = Some i ->
  (forall v i', inst_entry (only signer) id fn args i = Some (v, i') -> P i') ->
  kwp (on_stack (invoke cid fn args))
    (post (fun _ _ w' => exists i', P i' /\ w' = <[id := i']> w)
          (fun tr' w' => sfailed tr' /\ exists i', w' = <[id := i']> w)) tr w.
Proof.
  intros D L HP. apply swp_on_stack.
  assert (Hc : forall v w', call_inst (only signer) cid fn args w = Some (v, w') ->
            exists i', P i' /\ w' = <[id := i']> w).
  { intros v w' (id' & j & i' & D' & L' & Hi & ->)%call_inst_at.
    rewrite D in D'. injection D' as <-. rewrite L in L'. injection L' as <-. eauto. }
  eapply swp_mono; [apply awp_invoke|]. intros [u|e|] gtr w'; simpl.
  - intros (v & ?%Hc). done.
  - intros [Hf Hw]. split; [by apply sfailed_events|].
    destruct Hw as [->|(v & (i' & _ & ->)%Hc)]; [exists i; by rewrite insert_id|eauto].
  - intros [Hf Hw]. split; [by apply sfailed_events|].
    destruct Hw as [->|(v & (i' & _ & ->)%Hc)]; [exists i; by rewrite insert_id|eauto].
Qed.

End Calls.

Section Deployment.
Context `{CodecLaws} `{GovSdk} `{BatchSdk} `{McmsSdk} `{WasmLaws} (signer : ScAddress).
Context (i : MCMSDeployment).

Abbreviation kwp := (swp (stack_step signer)).

(** The environment and the input of a deployment can be used. *)
Definition input_ok : bool :=
  is_ok ResolveMCMSWasmPath && is_ok ResolveTimelockWasmPath && is_ok (timelockMinDelay_of i) &&
  forallb (fun c => is_ok (ConfigToStellarSetConfig c true)) [md_Proposer i; md_Canceller i; md_Bypasser i].

(** What a deployment that fails leaves. *)
Definition given_up (w : Stack) (tr : list (event sans)) (w' : Stack) : Prop :=
  w ⊆ w' /\ (sfailed tr \/ input_ok = false).

Lemma given_up_kept w w1 tr w' : w ⊆ w1 -> given_up w1 tr w' -> given_up w tr w'.
Proof. intros Hw [Hk Hf]. split; [by etrans|done]. Qed.

Lemma bad_mcms e : ResolveMCMSWasmPath = Err e -> input_ok = false.
Proof. unfold input_ok. by intros ->. Qed.
Lemma bad_timelock e : ResolveTimelockWasmPath = Err e -> input_ok = false.
Proof. unfold input_ok. intros ->. by rewrite !andb_false_r. Qed.
Lemma bad_delay e : timelockMinDelay_of i = Err e -> input_ok = false.
Proof. unfold input_ok. intros ->. by rewrite !andb_false_r. Qed.

(** Blank instances for [roles], one after the other. *)
Inductive minted : list string -> Stack -> gmap string string -> Stack -> gmap string string -> Prop :=
| minted_nil w addrs : minted [] w addrs w addrs
| minted_cons role roles w addrs id cid w' addrs' :
    w !! id = None -> at_id cid id ->
    minted roles (<[id := IMcms mcms_blank]> w) (<[role := cid]> addrs) w' addrs' ->
    minted (role :: roles) w addrs w' addrs'.

Lemma kwp_deploy_roles roles wasm addrs fresh w tr :
  (forall role, role ∈ roles ->
     FindExistingStellarMCMSByRole (md_ExistingAddresses i) (md_ChainSelector i)
       (QualifierStr (md_Qualifier i)) role = Ok None) ->
  wasm = ""%string \/ ResolveMCMSWasmPath = Ok wasm ->
  kwp (deploy_roles i roles wasm addrs fresh)
    (post (fun out _ w' => minted roles w addrs w' out.1 /\ out.2 = fresh ++ roles) (given_up w)) tr w.
Proof.
  revert wasm addrs fresh w tr.
  induction roles as [|role roles IH]; intros wasm addrs fresh w tr Hm Hw; cbn [deploy_roles].
  { apply swp_ret. split; [constructor|]. simpl. by rewrite app_nil_r. }
  apply swp_bind, swp_plift_res; rewrite (Hm role) by set_solver; [|done]. intros _ [= <-].
  apply swp_bind.
  apply (swp_weaken _ _ (fun p _ w' => w' = w /\ ResolveMCMSWasmPath = Ok p) _ (given_up w)); [| |done].
  - case_decide as E.
    + apply swp_plift_res; [done|]. intros e He. split; [done|]. right. by eapply bad_mcms.
    + apply swp_ret. split; [done|]. by destruct Hw.
  - intros p tr' ? [-> Hp]. destruct (mcms_file p Hp) as [Hne Hi].
    apply swp_bind, swp_pwrap. eapply swp_weaken; [by apply kwp_deploy| |].
    + intros cid tr1 w1 (id & Hn & Hid & ->).
      eapply swp_weaken; [apply IH; [set_solver|by right]| |].
      * intros [addrs' fresh'] tr2 w2 [Hmint ->]. simpl in *. split; [by econstructor|].
        by rewrite <- app_assoc.
      * intros tr2 w2. apply given_up_kept. by apply insert_subseteq.
    + intros tr1 w1 [Hk Hf]. split; [done|by left].
Qed.

(** ** The timelock *)

Abbreviation contract_of id := (ScAddressTypeContract (Some id)) (only parsing).

Definition granted (p c b tl : bytes) : list (string * ScAddress) :=
  [("ADMIN", contract_of tl); ("PROPOSER", contract_of p); ("CANCELLER", contract_of p);
   ("CANCELLER", contract_of c); ("BYPASSER", contract_of b)]%string.

Lemma grant_new role a roles : (role, a) ∉ roles -> grant_role_internal role a roles = roles ++ [(role, a)].
Proof. intros Hn. unfold grant_role_internal. by rewrite decide_False. Qed.

Lemma grants p c b tl :
  p <> c ->
  grant_all "BYPASSER" [contract_of b]
    (grant_all "CANCELLER" [contract_of p; contract_of c]
      (grant_all "PROPOSER" [contract_of p] (grant_role_internal "ADMIN" (contract_of tl) [])))
  = granted p c b tl.
Proof.
  intros Hne. unfold granted. unfold grant_all. cbn [foldl].
  rewrite (grant_new "ADMIN"), (grant_new "PROPOSER"), (grant_new "CANCELLER" (contract_of p)),
    (grant_new "CANCELLER"), (grant_new "BYPASSER") by (cbn [app]; set_solver). done.
Qed.

Definition governed_timelock (p c b tl : bytes) (t : Timelock) : Prop :=
  t_initialized t = true /\ t_roles t = granted p c b tl /\ timelockMinDelay_of i = Ok (t_min_delay t).

Lemma timelock_initialized auth tl d ps cs bs ps' cs' bs' v i' :
  u64 d = d -> Forall2 names ps ps' -> Forall2 names cs cs' -> Forall2 names bs bs' ->
  inst_entry auth tl "initialize"
    [Uint64ToScVal d; AddressSliceToScVal ps; AddressSliceToScVal cs; AddressSliceToScVal bs]
    (ITimelock timelock_blank) = Some (v, i') ->
  i' = ITimelock (mkTimelock true (grant_all "BYPASSER" bs' (grant_all "CANCELLER" cs'
         (grant_all "PROPOSER" ps' (grant_role_internal "ADMIN" (contract_of tl) [])))) d).
Proof.
  intros Hd Hp%names_args Hc%names_args Hb%names_args.
  unfold inst_entry, timelock_entry. rewrite decide_True, Hp, Hc, Hb by done.
  unfold timelock_initialize. simpl. rewrite Hd. intros [= _ <-]. done.
Qed.

Lemma delay_width d : timelockMinDelay_of i = Ok d -> u64 d = d.
Proof.
  unfold timelockMinDelay_of. destruct (TimelockMinDelay i) as [x|]; [|by intros [= <-]].
  destruct (_ && _) eqn:E; [|done]. intros [= <-]. apply u64_id. goint.
Qed.

Lemma kwp_deploy_timelock addrs p c b w tr :
  FindExistingStellarTimelock (md_ExistingAddresses i) (md_ChainSelector i)
    (QualifierStr (md_Qualifier i)) = None ->
  at_id (address_of addrs RoleProposer) p -> at_id (address_of addrs RoleCanceller) c ->
  at_id (address_of addrs RoleBypasser) b -> p <> c ->
  kwp (deploy_timelock i addrs)
    (post (fun cid _ w' => exists tl t, w !! tl = None /\ at_id cid tl /\
             governed_timelock p c b tl t /\ w' = <[tl := ITimelock t]> w) (given_up w)) tr w.
Proof.
  intros Hnone [Np _] [Nc _] [Nb _] Hne. unfold deploy_timelock. rewrite Hnone.
  apply swp_bind, swp_plift_res; [|intros e He; split; [done|right; by eapply bad_timelock]].
  intros path Hpath%timelock_file. apply swp_bind, swp_pwrap.
  eapply swp_weaken; [by apply kwp_deploy| |intros tr1 w1 [Hk Hf]; split; [done|by left]].
  intros cid tr1 w1 (tl & Hfree & Htl & ->).
  apply swp_bind, swp_plift_res.
  2: { intros e He. split; [by apply insert_subseteq|right; by eapply bad_delay]. }
  intros d Hd. apply swp_bind, swp_pwrap. unfold Timelock_Initialize.
  eapply swp_weaken; [apply (kwp_invoke signer _ tl _ _ (ITimelock timelock_blank) _ _
    (fun i' => i' = ITimelock (mkTimelock true (granted p c b tl) d)))|..].
  - apply Htl.
  - by rewrite lookup_insert_eq.
  - intros v i' Hi. rewrite <- grants by done. eapply timelock_initialized; [by apply delay_width|..|exact Hi]; eauto.
  - intros _ tr2 w2 (i' & -> & ->). apply swp_ret.
    exists tl, (mkTimelock true (granted p c b tl) d). rewrite insert_insert_eq. by split_and!.
  - intros tr2 w2 [Hf (i' & ->)]. rewrite insert_insert_eq.
    split; [by apply insert_subseteq|by left].
Qed.

(** ** The multisigs *)

Definition config_of (cfg : SetConfigInput) : McmsConfig :=
  mkMcmsConfig (zip (SignerAddresses cfg) (SignerGroups cfg)) (GroupQuorums cfg) (GroupParents cfg).

(** An instance with the configuration of its role, owned by the timelock. *)
Record governed_mcms (net tl : bytes) (role : string) (m : Mcms) : Prop := {
  gm_initialized : m_initialized m = true;
  gm_owner : m_owner m = Some (contract_of tl);
  gm_network : m_network m = net /\ length net = 32%nat;
  gm_label : m_label m = InstanceLabel role;
  gm_config : exists c cfg, role_config i role = Some c /\ ConfigToStellarSetConfig c true = Ok cfg /\
    m_config m = Some (config_of cfg)
}.

Lemma inner_value v : exists x, inner_struct v = Ok x /\ forall A (f : ScVal -> option A), inner_arg f x = f v.
Proof. eexists. split; [reflexivity|]. by intros A f. Qed.

Lemma bytes32_args l l' : vec_arg bytes32_arg (Bytes32SliceToScVal l) = Some l' -> l' = l.
Proof.
  cbn. intros Hm%mapM_Some%Forall2_fmap_l. induction Hm as [|x y l l' Hx _ IH]; [done|]. f_equal; [|done].
  unfold bytes32_arg in Hx. simpl in Hx. destruct (Nat.eqb _ _); [|done]. by injection Hx.
Qed.

Lemma u32_args l : vec_arg u32_arg (Uint32SliceToScVal l) = Some (u32 <$> l).
Proof. cbn. apply mapM_Some, Forall2_fmap_l, Forall2_fmap_r, Forall_Forall2_diag. by apply Forall_true. Qed.

Lemma apply_config_inv addrs groups gq gp clear m m' :
  apply_config addrs groups gq gp clear m = Some m' ->
  m_initialized m' = m_initialized m /\ m_owner m' = m_owner m /\ m_network m' = m_network m /\
  m_label m' = m_label m /\ m_config m' = Some (mkMcmsConfig (zip addrs groups) gq gp).
Proof.
  unfold apply_config. destruct (config_valid _ _ _ _); [|done]. destruct (_ =? _); [done|].
  by intros [= <-].
Qed.

Lemma bytes32_self b x : bytes32_arg (Bytes32ToScVal b) = Some x -> x = b /\ length b = 32%nat.
Proof.
  unfold bytes32_arg. simpl. destruct (Nat.eqb _ _) eqn:E; [|done]. apply Nat.eqb_eq in E. by intros [= ->].
Qed.

Lemma mcms_initialized auth id owner o net a g cfg label v i' :
  names owner o -> u32 <$> SignerGroups cfg = SignerGroups cfg ->
  inner_struct (Bytes32SliceToScVal (SignerAddresses cfg)) = Ok a ->
  inner_struct (Uint32SliceToScVal (SignerGroups cfg)) = Ok g ->
  inst_entry auth id "initialize"
    [AddressToScVal owner; Bytes32ToScVal net; a; g; Bytes32ToScVal (GroupQuorums cfg);
     Bytes32ToScVal (GroupParents cfg); SymbolToScVal label] (IMcms mcms_blank) = Some (v, i') ->
  exists m, i' = IMcms m /\ m_initialized m = true /\ m_owner m = Some o /\
    m_network m = net /\ length net = 32%nat /\ m_label m = label /\ m_config m = Some (config_of cfg).
Proof.
  intros Ho%names_arg Hu Ha Hg. unfold inst_entry, mcms_entry. rewrite decide_True, Ho by done.
  destruct (inner_value (Bytes32SliceToScVal (SignerAddresses cfg))) as (a' & Ea & Ia).
  destruct (inner_value (Uint32SliceToScVal (SignerGroups cfg))) as (g' & Eg & Ig).
  rewrite Ha in Ea. injection Ea as <-. rewrite Hg in Eg. injection Eg as <-.
  rewrite Ia, Ig, u32_args, Hu. cbn [option_bind mbind symbol_arg SymbolToScVal].
  destruct (bytes32_arg (Bytes32ToScVal net)) as [n|] eqn:En; [|done].
  destruct (vec_arg _ _) as [l|] eqn:El; [|done]. apply bytes32_args in El as ->.
  destruct (bytes32_arg (Bytes32ToScVal (GroupQuorums cfg))) as [q|] eqn:Eq; [|done].
  destruct (bytes32_arg (Bytes32ToScVal (GroupParents cfg))) as [ps|] eqn:Ep; [|done].
  apply bytes32_self in En as [-> Hn], Eq as [-> _], Ep as [-> _].
  unfold mcms_initialize. simpl.
  destruct (apply_config _ _ _ _ _ _) as [m|] eqn:Em; [|done]. simpl. intros [= _ <-].
  apply apply_config_inv in Em as (E1 & E2 & E3 & E4 & E5). exists m. by split_and!.
Qed.

Lemma bad_config role c e :
  role_config i role = Some c -> ConfigToStellarSetConfig c true = Err e -> input_ok = false.
Proof.
  unfold role_config, input_ok. intros Hc He. apply andb_false_iff. right. simpl.
  repeat case_decide; simplify_eq; rewrite He; simpl; by rewrite ?andb_false_r.
Qed.

Lemma role_config_known role : role ∈ AllMCMSRoles -> exists c, role_config i role = Some c.
Proof.
  unfold AllMCMSRoles. rewrite !elem_of_cons, elem_of_nil.
  intros [->|[->|[->|[]]]]; by eexists.
Qed.

Lemma converted_groups c clear cfg :
  ConfigToStellarSetConfig c clear = Ok cfg -> u32 <$> SignerGroups cfg = SignerGroups cfg.
Proof.
  unfold ConfigToStellarSetConfig. destruct (ExtractSetConfigInputs c) as [[[[q p] a] g]|]; simpl; [|done].
  intros [= <-]. simpl. rewrite <- list_fmap_compose. apply list_fmap_ext. intros _ x _.
  apply u32_id, u32_range.
Qed.

Lemma kwp_initialize_role addrs tlID net role id tl (w : Stack) tr :
  role ∈ AllMCMSRoles -> at_id (address_of addrs role) id -> at_id tlID tl ->
  w !! id = Some (IMcms mcms_blank) ->
  kwp (initialize_role i addrs tlID net role)
    (post (fun _ _ w' => exists m, governed_mcms net tl role m /\ w' = <[id := IMcms m]> w)
          (fun tr' w' => (sfailed tr' \/ input_ok = false) /\ exists j, w' = <[id := j]> w)) tr w.
Proof.
  intros (c & Hc)%role_config_known [_ Hid] [Htl _] Hl. unfold initialize_role. rewrite Hc.
  apply swp_bind, swp_plift_res.
  2: { intros e He. split; [|exists (IMcms mcms_blank); by rewrite insert_id]. right.
       destruct (ConfigToStellarSetConfig c true) eqn:E; [done|]. by eapply bad_config. }
  intros cfg Hcfg. destruct (ConfigToStellarSetConfig c true) as [cfg'|] eqn:Ecfg; [|done].
  injection Hcfg as ->. apply swp_pwrap. unfold Mcms_Initialize.
  destruct (inner_value (Bytes32SliceToScVal (SignerAddresses cfg))) as (a & Ea & _).
  destruct (inner_value (Uint32SliceToScVal (SignerGroups cfg))) as (g & Eg & _).
  rewrite Ea, Eg. cbn [MustToScVal].
  eapply swp_weaken; [apply (kwp_invoke signer _ id _ _ (IMcms mcms_blank) _ _
    (fun i' => exists m, governed_mcms net tl role m /\ i' = IMcms m))|..].
  - exact Hid.
  - exact Hl.
  - intros v i' Hi. eapply mcms_initialized in Hi as (m & -> & H1' & H2' & H3' & H4' & H5' & H6');
      [|exact Htl|by eapply converted_groups|done..].
    exists m. split; [|done]. split; [done..|eauto].
  - intros _ tr' w' (j & (m & Hm & ->) & ->). eauto.
  - intros tr' w' [Hf Hj]. auto.
Qed.

(** ** The stack *)

(** The four contracts of a deployment, on a chain that is otherwise as it was. *)
Record stack_deployed (net : bytes) (w w' : Stack) (t : governanceTopology) (p c b tl : bytes) : Prop := {
  sd_proposer_at : at_id (Proposer t) p;
  sd_canceller_at : at_id (Canceller t) c;
  sd_bypasser_at : at_id (Bypasser t) b;
  sd_timelock_at : at_id (McmsVerify.Timelock t) tl;
  sd_distinct : NoDup [p; c; b; tl];
  sd_fresh : forall id, id ∈ [p; c; b; tl] -> w !! id = None;
  sd_kept : forall id, id ∉ [p; c; b; tl] -> w' !! id = w !! id;
  sd_proposer : exists m, w' !! p = Some (IMcms m) /\ governed_mcms net tl RoleProposer m;
  sd_canceller : exists m, w' !! c = Some (IMcms m) /\ governed_mcms net tl RoleCanceller m;
  sd_bypasser : exists m, w' !! b = Some (IMcms m) /\ governed_mcms net tl RoleBypasser m;
  sd_timelock : exists r, w' !! tl = Some (ITimelock r) /\ governed_timelock p c b tl r
}.

Lemma kwp_initialize_step addrs tlID net role id tl (w1 w2 : Stack) (f : St unit) R tr :
  role ∈ AllMCMSRoles -> at_id (address_of addrs role) id -> at_id tlID tl ->
  w2 !! id = Some (IMcms mcms_blank) -> w1 !! id = None -> w1 ⊆ w2 ->
  (forall m tr', governed_mcms net tl role m -> w1 ⊆ <[id := IMcms m]> w2 ->
     kwp f (post R (given_up w1)) tr' (<[id := IMcms m]> w2)) ->
  kwp (_ ← initialize_role i addrs tlID net role; f) (post R (given_up w1)) tr w2.
Proof.
  intros Hr Hid Htl Hb Hn Hk Hf. apply swp_bind.
  assert (Hins : forall j, w1 ⊆ <[id := j]> w2) by (intros j; by apply insert_subseteq_r).
  eapply swp_weaken; [by eapply kwp_initialize_role| |].
  - intros _ tr' w' (m & Hm & ->). by apply Hf.
  - intros tr' w' [Hbad (j & ->)]. by split.
Qed.

Lemma minted_three w w' addrs :
  minted AllMCMSRoles w ∅ w' addrs ->
  exists p c b, at_id (address_of addrs RoleProposer) p /\ at_id (address_of addrs RoleCanceller) c /\
    at_id (address_of addrs RoleBypasser) b /\ NoDup [p; c; b] /\
    (forall id, id ∈ [p; c; b] -> w !! id = None) /\
    w' = <[b := IMcms mcms_blank]> (<[c := IMcms mcms_blank]> (<[p := IMcms mcms_blank]> w)).
Proof.
  unfold AllMCMSRoles. intros Hm.
  inversion Hm as [|? ? ? ? p ? ? ? Hp Ip Hm1]; subst.
  inversion Hm1 as [|? ? ? ? c ? ? ? Hc Ic Hm2]; subst.
  inversion Hm2 as [|? ? ? ? b ? ? ? Hb Ib Hm3]; subst.
  inversion Hm3; subst. exists p, c, b.
  apply lookup_insert_None in Hc as [Hc Npc].
  apply lookup_insert_None in Hb as [Hb Ncb]. apply lookup_insert_None in Hb as [Hb Npb].
  unfold address_of. rewrite lookup_insert_eq, !(lookup_insert_ne _ RoleBypasser) by done.
  rewrite lookup_insert_eq, (lookup_insert_ne _ RoleCanceller), lookup_insert_eq by done. simpl.
  split_and!; [done..| | |done].
  - repeat (apply list.NoDup_cons; split); [set_solver..|constructor].
  - intros id. rewrite !elem_of_cons, elem_of_nil. naive_solver.
Qed.

(** The references a deployment records. *)
Definition recorded (t : governanceTopology) : list AddressRef :=
  let ref ct addr := mkAddressRef addr (md_ChainSelector i) [] (QualifierStr (md_Qualifier i)) ct MCMSVersion in
  [ref ProposerManyChainMultisig (Proposer t); ref CancellerManyChainMultisig (Canceller t);
   ref BypasserManyChainMultisig (Bypasser t); ref RBACTimelock (McmsVerify.Timelock t)].

(** No contract of the stack is recorded yet. *)
Definition unrecorded : Prop :=
  forall ct, ct ∈ [ProposerManyChainMultisig; CancellerManyChainMultisig; BypasserManyChainMultisig; RBACTimelock] ->
    first_address (stack_ref (md_ChainSelector i) (QualifierStr (md_Qualifier i)) ct) (md_ExistingAddresses i) = None.

Lemma deploy_lands chains pass deployer w tr :
  deployer_on chains (md_ChainSelector i) = Ok deployer -> unrecorded ->
  kwp (DeployStellarMCMS chains pass i)
    (post (fun out _ w' => exists t p c b tl,
             stack_deployed (ChainNetworkID pass) w w' t p c b tl /\ Deployer t = deployer /\
             out = mkOnChainOutput (recorded t) [])
          (given_up w)) tr w.
Proof.
  intros Hd Hnone. unfold DeployStellarMCMS. rewrite Hd. apply swp_bind, swp_plift_res; [|done]. intros _ _.
  apply swp_bind. eapply swp_weaken; [apply kwp_deploy_roles; [|by left]| |done].
  { intros role. unfold AllMCMSRoles, FindExistingStellarMCMSByRole. rewrite !elem_of_cons, elem_of_nil.
    intros [->|[->|[->|[]]]]; simpl; rewrite Hnone by set_solver; done. }
  intros [addrs fresh] tr1 w1 [Hmint Hfr]. simpl in Hmint, Hfr. subst fresh.
  apply minted_three in Hmint as (p & c & b & Ip & Ic & Ib & Hnd & Hfree & E1).
  rewrite !list.NoDup_cons in Hnd. destruct Hnd as (Hp & Hc & _).
  assert (Hk1 : w ⊆ w1).
  { rewrite E1. do 3 (apply insert_subseteq_r; [apply Hfree; set_solver|]). done. }
  apply swp_bind. eapply swp_weaken; [apply (kwp_deploy_timelock addrs p c b); try done|..].
  { apply Hnone. set_solver. }
  { set_solver. }
  2: { intros tr2 w2. by apply given_up_kept. }
  intros tlID tr2 w2 (tl & t & Hntl & Itl & Ht & ->).
  assert (Htl : tl ∉ [p; c; b] /\ w !! tl = None).
  { rewrite E1, !lookup_insert_None in Hntl. set_solver. }
  destruct Htl as [Htl Hwtl]. 
  assert (p <> c /\ p <> b /\ c <> b /\ tl <> p /\ tl <> c /\ tl <> b)
    as (Hpc & Hpb & Hcb & Htp & Htc & Htb) by set_solver.
  assert (Hk2 : w ⊆ <[tl := ITimelock t]> w1) by (by apply insert_subseteq_r).
  apply swp_bind. unfold initialize_roles, AllMCMSRoles. rewrite !decide_True by set_solver.
  eapply kwp_initialize_step; [by left|exact Ip|exact Itl| |apply Hfree; set_solver|done|].
  { subst w1. by simplify_map_eq. }
  intros mp tr3 Hmp Hk3.
  eapply kwp_initialize_step; [set_solver|exact Ic|exact Itl| |apply Hfree; set_solver|done|].
  { subst w1. by simplify_map_eq. }
  intros mc tr4 Hmc Hk4.
  eapply kwp_initialize_step; [set_solver|exact Ib|exact Itl| |apply Hfree; set_solver|done|].
  { subst w1. by simplify_map_eq. }
  intros mb tr5 Hmb Hk5. apply swp_ret, swp_bind, swp_plift_res; [|done].
  intros refs Erefs. apply swp_ret.
  exists (mkTopology (address_of addrs RoleProposer) (address_of addrs RoleCanceller)
            (address_of addrs RoleBypasser) tlID deployer), p, c, b, tl.
  split; [|split; [done|]].
  - subst w1. split; cbn [Proposer Canceller Bypasser McmsVerify.Timelock]; try done.
    + repeat (apply list.NoDup_cons; split); [set_solver..|constructor].
    + intros id. rewrite !elem_of_cons, elem_of_nil. intros [->|[->|[->|[->|[]]]]]; [apply Hfree; set_solver..|done].
    + intros id. rewrite !not_elem_of_cons. intros (? & ? & ? & ? & _). by simplify_map_eq.
    + exists mp. split; [by simplify_map_eq|done].
    + exists mc. split; [by simplify_map_eq|done].
    + exists mb. split; [by simplify_map_eq|done].
    + exists t. split; [by simplify_map_eq|done].
  - unfold role_refs, AllMCMSRoles in Erefs. simpl in Erefs. injection Erefs as <-. done.
Qed.

(** ** Its authority *)

Lemma at_id_inst w cid id x : at_id cid id -> w !! id = Some x -> inst_at w cid = Some x.
Proof. intros [_ D] L. unfold inst_at. by rewrite D. Qed.

Lemma at_id_inj cid id id' : at_id cid id -> at_id cid id' -> id = id'.
Proof. intros [_ D] [_ D']. congruence. Qed.

Lemma at_id_present id : ~ at_id "" id.
Proof. by intros [(_ & P & _) _]. Qed.

Lemma at_id_distinct cids ids : Forall2 at_id cids ids -> NoDup ids -> NoDup cids.
Proof.
  induction 1 as [|cid id cids ids Hid Hr IH]; rewrite ?list.NoDup_cons; [constructor|].
  intros [Hn Hnd]. split; [|auto]. intros Hin. apply Hn.
  apply list_elem_of_lookup in Hin as [k Hk].
  destruct (Forall2_lookup_l _ _ _ _ _ Hr Hk) as (id' & Hk' & Hid').
  rewrite (at_id_inj _ _ _ Hid Hid'). by eapply list_elem_of_lookup_2.
Qed.

(** What the verifier's reads say of a role instance. *)
Lemma governed_reads net tl tlID role cid id m (w : Stack) :
  at_id cid id -> at_id tlID tl -> w !! id = Some (IMcms m) -> governed_mcms net tl role m ->
  label_of (snapshot w) cid = InstanceLabel role /\ owner_of (snapshot w) cid = tlID /\
  network_of (snapshot w) cid = net.
Proof.
  intros Hid [(_ & _ & Ht) _] Hl [_ Ho [Hn _] Hlab _]. simpl. unfold mcms_at.
  rewrite (at_id_inst _ _ _ _ Hid Hl), Hlab, Ho, Hn. unfold name_of. by rewrite Ht.
Qed.

Lemma has_role_granted (w : Stack) tlID tl t role s a :
  at_id tlID tl -> w !! tl = Some (ITimelock t) -> names s a ->
  has_role (snapshot w) tlID role s = bool_decide ((role, a) ∈ t_roles t).
Proof.
  intros Ht Hl (_ & Hs & _). simpl. unfold timelock_at. by rewrite Hs, (at_id_inst _ _ _ _ Ht Hl).
Qed.

Lemma stack_governed net w w' t p c b tl k d :
  stack_deployed net w w' t p c b tl -> names (Deployer t) (ScAddressTypeAccount k) ->
  timelockMinDelay_of i = Ok d ->
  well_governed (snapshot w') t (mkExpectations (Some d) []).
Proof.
  intros [Ip Ic Ib It Hnd _ _ (mp & Lp & Gp) (mc & Lc & Gc) (mb & Lb & Gb) (r & Lt & _ & Hr & Hd)] Hdep Hdelay.
  destruct (governed_reads _ _ _ _ _ _ _ _ Ip It Lp Gp) as (Lp1 & Lp2 & Lp3).
  destruct (governed_reads _ _ _ _ _ _ _ _ Ic It Lc Gc) as (Lc1 & Lc2 & Lc3).
  destruct (governed_reads _ _ _ _ _ _ _ _ Ib It Lb Gb) as (Lb1 & Lb2 & Lb3).
  assert (Hall : Forall2 at_id [Proposer t; Canceller t; Bypasser t; McmsVerify.Timelock t] [p; c; b; tl])
    by (do 4 (apply List.Forall2_cons; [done|]); constructor).
  assert (Hg : forall role s a, names s a ->
    has_role (snapshot w') (McmsVerify.Timelock t) role s = bool_decide ((role, a) ∈ granted p c b tl))
    by (intros role s a Hs; rewrite <- Hr; by apply (has_role_granted _ _ tl)).
  split; try done; try (split; congruence).
  - by eapply at_id_distinct.
  - rewrite !elem_of_cons, elem_of_nil. intros [E|[E|[E|[E|[]]]]]; rewrite <- E in *; by eapply at_id_present.
  - intros a. rewrite !elem_of_cons, elem_of_nil. naive_solver.
  - rewrite (Hg _ _ (contract_of tl)) by apply It. apply bool_decide_true. set_solver.
  - rewrite (Hg _ _ (contract_of p)) by apply Ip. apply bool_decide_true. set_solver.
  - rewrite (Hg _ _ (contract_of p)), (Hg _ _ (contract_of c)) by (apply Ip || apply Ic).
    split; apply bool_decide_true; set_solver.
  - rewrite (Hg _ _ (contract_of b)) by apply Ib. apply bool_decide_true. set_solver.
  - intros role _. rewrite (Hg _ _ (ScAddressTypeAccount k)) by done. apply bool_decide_false.
    unfold granted. rewrite !elem_of_cons, elem_of_nil. naive_solver.
  - intros d' [= <-]. simpl. unfold timelock_at. rewrite (at_id_inst _ _ _ _ It Lt). congruence.
  - intros ref. simpl. set_solver.
Qed.

(** ** Its references *)

Class DistinctTypes : Prop := {
  types_distinct : NoDup [ProposerManyChainMultisig; CancellerManyChainMultisig;
                          BypasserManyChainMultisig; RBACTimelock];
  version_reflexive : Version_Equal MCMSVersion MCMSVersion = true
}.

Lemma first_address_app p l l' :
  first_address p l = None -> first_address p (l ++ l') = first_address p l'.
Proof. induction l as [|r l IH]; simpl; [done|]. by destruct (p r). Qed.

Lemma stack_recorded `{DistinctTypes} t :
  unrecorded -> ~ (""%string ∈ [Proposer t; Canceller t; Bypasser t; McmsVerify.Timelock t]) ->
  stack_of (md_ExistingAddresses i ++ recorded t) (md_ChainSelector i) (QualifierStr (md_Qualifier i))
    (Deployer t) t.
Proof.
  intros Hnone Hne. pose proof types_distinct as Hd. rewrite !list.NoDup_cons in Hd.
  destruct Hd as (D1 & D2 & D3 & _).
  repeat setoid_rewrite not_elem_of_cons in D1. repeat setoid_rewrite not_elem_of_cons in D2.
  rewrite not_elem_of_cons in D3. repeat setoid_rewrite not_elem_of_cons in Hne.
  destruct D1 as (? & ? & ? & _), D2 as (? & ? & _), D3 as [? _], Hne as (? & ? & ? & ? & _).
  split; [..|done]; apply first_address_spec; rewrite first_address_app by (apply Hnone; set_solver);
    unfold recorded, stack_ref; simpl; rewrite Z.eqb_refl, version_reflexive, bool_decide_true by done; simpl;
    repeat case_bool_decide; simpl; congruence.
Qed.

Lemma deployed_wf net w w' t p c b tl :
  stack_wf w -> stack_deployed net w w' t p c b tl -> stack_wf w'.
Proof.
  intros Hwf D id m Hm.
  assert (G : forall role x, governed_mcms net tl role x -> mcms_wf x).
  { intros role x [_ Ho [Hn Hl] _ _]. split; [|by rewrite Hn].
    intros o. rewrite Ho. intros [= <-]. apply (names_ok (McmsVerify.Timelock t)), (sd_timelock_at _ _ _ _ _ _ _ _ D). }
  destruct D as [_ _ _ _ _ _ Hk (mp & Lp & Gp) (mc & Lc & Gc) (mb & Lb & Gb) (r & Lt & _)].
  destruct (decide (id ∈ [p; c; b; tl])) as [Hin|Hout].
  - rewrite !elem_of_cons, elem_of_nil in Hin. destruct Hin as [->|[->|[->|[->|[]]]]]; simplify_eq; eauto.
  - rewrite (Hk id Hout) in Hm. eauto.
Qed.

Lemma deployed_has_owner net w w' t p c b tl a :
  stack_deployed net w w' t p c b tl -> a ∈ [Proposer t; Canceller t; Bypasser t] -> has_owner w' a.
Proof.
  intros [Ip Ic Ib _ _ _ _ (mp & Lp & Gp) (mc & Lc & Gc) (mb & Lb & Gb) _] Ha m Hm.
  rewrite !elem_of_cons, elem_of_nil in Ha.
  destruct Ha as [->|[->|[->|[]]]];
    [rewrite (at_id_inst _ _ _ _ Ip Lp) in Hm|rewrite (at_id_inst _ _ _ _ Ic Lc) in Hm
    |rewrite (at_id_inst _ _ _ _ Ib Lb) in Hm]; injection Hm as <-; eexists; by eapply gm_owner.
Qed.

End Deployment.

(** ** Verification of what was deployed *)

Section Verified.
Context `{CodecLaws} `{GovSdk} `{BatchSdk} `{McmsSdk} `{WasmLaws} `{!DistinctTypes} (signer : ScAddress).

Abbreviation kwp := (swp (stack_step signer)).

(** The input, over the references that a datastore holds. *)
Definition over (refs : list AddressRef) (i : MCMSDeployment) : MCMSDeployment :=
  mkMCMSDeployment (md_ChainSelector i) (md_Qualifier i) (md_Label i) (md_Proposer i) (md_Canceller i)
    (md_Bypasser i) (TimelockMinDelay i) refs.

(** Every read of the verification is answered, unless its request fails. *)
Lemma reads_readable w t :
  (forall a, a ∈ [Proposer t; Canceller t; Bypasser t] -> has_owner w a) ->
  reads_stack (readable w) t (mkExpectations None []).
Proof. intros Ho. split; [|done|done|constructor]. intros a Ha. split_and!; [done|by apply Ho|done]. Qed.

Lemma kwp_finalize order_of chains i deployer t w tr :
  (forall t', order_of t' ≡ₚ four_addresses t') -> stack_wf w ->
  deployer_on chains (md_ChainSelector i) = Ok deployer ->
  stack_of (md_ExistingAddresses i) (md_ChainSelector i) (QualifierStr (md_Qualifier i)) deployer t ->
  (forall a, a ∈ [Proposer t; Canceller t; Bypasser t] -> has_owner w a) ->
  kwp (FinalizeStellarDeployMCMS order_of chains i)
    (post (fun out _ w' => w' = w /\ out = mkOnChainOutput [] [] /\
             well_governed (snapshot w) t (mkExpectations None []))
          (fun tr' w' => w' = w /\
             (sfailed tr' \/ ~ well_governed (snapshot w) t (mkExpectations None [])))) tr w.
Proof.
  intros Ho Hwf Hd Hs%resolve_stack Hown. unfold FinalizeStellarDeployMCMS. rewrite Hd.
  apply swp_bind, swp_plift_res; [|done]. intros ? [= <-]. apply swp_bind, swp_pwrap.
  unfold VerifyStellarMCMSGovernance, VerifyStellarMCMSGovernanceWithExpectations. rewrite Hs.
  eapply swp_mono; [apply swp_with_reader; [done|]|].
  { apply swp_bind, swp_plift_res; [|done]. intros ? [= <-].
    apply (decides_verify _ (readable w)); [by apply reads_readable|by apply Ho|constructor]. }
  intros x tr' w' (-> & ext & Hx & Hf). destruct x as [[]|e|]; simpl in Hx.
  { by destruct Hx as (_ & _ & Hg). }
  all: destruct Hx as (_ & Hr & [Hn|Hn]); split; [done| |done|by right].
  all: left; destruct (Hf Hn) as [?|Hu]; [done|].
  all: apply list.Exists_exists in Hu as (ev & Hin & Hnr); unfold reads_only in Hr;
    rewrite list.Forall_forall in Hr; destruct Hnr; by apply Hr.
Qed.

(** A complete stack is found again: no request is made. *)
Lemma redeploy chains pass i deployer t :
  deployer_on chains (md_ChainSelector i) = Ok deployer ->
  stack_of (md_ExistingAddresses i) (md_ChainSelector i) (QualifierStr (md_Qualifier i)) deployer t ->
  DeployStellarMCMS chains pass i = mret (mkOnChainOutput (recorded i t) []).
Proof.
  intros Hd [P C B T _]. apply first_address_spec in P, C, B, T. unfold DeployStellarMCMS. rewrite Hd.
  cbn [deploy_roles AllMCMSRoles]. unfold FindExistingStellarMCMSByRole. simpl.
  rewrite P. simpl. rewrite C. simpl. rewrite B. simpl.
  unfold deploy_timelock, FindExistingStellarTimelock. rewrite T. simpl.
  done.
Qed.

Lemma well_governed_weaken c t exp :
  well_governed c t exp -> well_governed c t (mkExpectations None []).
Proof. intros []. split; try done. intros ref Hr. simpl in Hr. set_solver. Qed.

(** A deployment, with the verification over what it recorded. *)
Definition deploy_and_finalize order_of chains pass i : St OnChainOutput :=
  out ← DeployStellarMCMS chains pass i;
  _ ← FinalizeStellarDeployMCMS order_of chains (over (md_ExistingAddresses i ++ o_Addresses out) i);
  mret out.

End Verified.

(** Property C34: the deployment of an MCMS stack, followed by its verification over
    the references it recorded.  When no contract of the stack is recorded for the
    qualifier yet, either it returns, and there are four fresh contracts, named by
    the recorded references: three multisigs, each initialized with its role's label
    and configuration, the network's id and the timelock for owner, and a timelock
    with exactly the five roles and the delay asked; the authority the verifier
    checks holds; no other contract of the chain has changed; and a second deployment
    over the recorded references makes no request and records the same.  Or a request
    failed or the input or a path of a wasm file is bad, and every contract that was
    there is as it was. *)
Theorem deployment_governs `{CodecLaws} `{GovSdk} `{BatchSdk} `{McmsSdk} `{WasmLaws} `{!DistinctTypes}
    (signer : ScAddress) order_of chains pass i deployer k (w : Stack) tr :
  (forall t, order_of t ≡ₚ four_addresses t) -> stack_wf w ->
  deployer_on chains (md_ChainSelector i) = Ok deployer -> names deployer (ScAddressTypeAccount k) ->
  unrecorded i ->
  swp (stack_step signer) (deploy_and_finalize order_of chains pass i)
    (post (fun out _ w' => exists t p c b tl d,
             stack_deployed i (ChainNetworkID pass) w w' t p c b tl /\
             stack_of (md_ExistingAddresses i ++ o_Addresses out) (md_ChainSelector i)
               (QualifierStr (md_Qualifier i)) deployer t /\
             timelockMinDelay_of i = Ok d /\
             well_governed (snapshot w') t (mkExpectations (Some d) []) /\
             DeployStellarMCMS chains pass (over (md_ExistingAddresses i ++ o_Addresses out) i) = mret out)
          (given_up i w)) tr w.
Proof.
  intros Ho Hwf Hd Hk Hnone. apply swp_bind. eapply swp_weaken; [by apply deploy_lands| |done].
  intros out tr1 w1 (t & p & c & b & tl & D & <- & ->). cbn [o_Addresses].
  destruct (sd_timelock _ _ _ _ _ _ _ _ _ D) as (r & _ & _ & _ & Hdelay).
  pose proof (stack_governed _ _ _ _ _ _ _ _ _ _ _ D Hk Hdelay) as Hg.
  assert (Hs := stack_recorded i t Hnone (wg_present _ _ _ Hg)).
  apply swp_bind. eapply swp_weaken.
  - apply (kwp_finalize signer order_of chains (over (md_ExistingAddresses i ++ recorded i t) i) (Deployer t) t);
      [done|by eapply deployed_wf|done..|intros a; by eapply deployed_has_owner].
  - intros ? tr2 ? (-> & _ & _). apply swp_ret. exists t, p, c, b, tl, (t_min_delay r). split_and!; try done.
    by eapply (redeploy _ _ (over (md_ExistingAddresses i ++ recorded i t) i)).
  - intros tr2 ? [-> Hf]. split.
    + apply map_subseteq_spec. intros id x Hx. rewrite (sd_kept _ _ _ _ _ _ _ _ _ D); [done|].
      intros Hin%(sd_fresh _ _ _ _ _ _ _ _ _ D). congruence.
    + left. destruct Hf as [?|[]]; [done|]. by eapply well_governed_weaken.
Qed.
