(* ===== verification/DemoGovernance.v ===== *)
(** * A concrete governance

    An RMN Remote of a deployer, the stacks of the RMN and of the fast curse, and a
    chain that answers truthfully: runs of the governance sequences on them, the
    witnesses of their theorems, and the behaviours their comments do not state. *)

From S2P Require Import Prelude Sdk GoBytes Xdr Scval StellarCodec Withdraw TypeConverters Bindgen BindgenSem BindgenProofs Interfaces BindingsRamps BindingsPools BindingsVerifiers BindingsGovernance Bindings Interaction Lanes GovRefs Ownership RmnRemote RmnLogic Curse CurseProofs ActivateProofs Stack McmsDeploy McmsVerify McmsDeployProofs.

(** ** Parameters *)

#[export] Instance demo_gov_sdk : GovSdk := {|
  Version := string;
  Version_Equal a b := bool_decide (a = b);
  MCMSVersion := Some "1.0.0"%string;
  RMNRemoteContractVersion := Some "1.6.0"%string;
  router_Version := Some "1.2.0"%string;
  router_ContractType := "Router";
  ProposerManyChainMultisig := "ProposerManyChainMultiSig";
  CancellerManyChainMultisig := "CancellerManyChainMultiSig";
  BypasserManyChainMultisig := "BypasserManyChainMultiSig";
  RBACTimelock := "RBACTimelock";
  RMNTimelockQualifier := "RMNMCMS";
  UltraFastCurseMCMSQualifier := "UltraFastCurseMCMS";
  Sum256 l := l
|}.

#[export] Instance demo_batch_sdk : BatchSdk := {|
  NewBatchOperationFromWrites wo :=
    Ok (mkBatchOperation (wo_ChainSelector wo)
          (match wo_ExecInfo wo with Some _ => [] | None => [wo_Tx wo] end))
|}.

#[export] Instance demo_batch_laws : BatchLaws.
Proof. split; [intros; by eexists|done]. Qed.

#[export] Instance demo_adapter_sdk : AdapterSdk := {|
  FindRef refs want sel :=
    match filter (fun r => ref_ChainSelector r = sel /\ ref_Type r = ref_Type want /\
                           ref_Qualifier r = ref_Qualifier want) (default [] refs) with
    | r :: _ => Ok r
    | [] => Err (ErrorString "not found")
    end;
  GetSelectorFamily s := if decide (s = 0) then Err (ErrorString "unknown selector") else Ok "stellar"%string;
  IsFamilyRegistered f := bool_decide (f = "stellar"%string)
|}.

(** ** The parties *)

Definition key_of (n : Z) : bytes := replicate 31 0 ++ [n].
Definition strkey_of (v : VersionByte) (n : Z) : string :=
  match encode_strkey v (key_of n) with Ok s => s | Err _ => "" end.
Definition account (n : Z) : ScAddress := ScAddressTypeAccount (Some (mkAccountId 0 (Some (key_of n)))).
Definition contract (n : Z) : ScAddress := ScAddressTypeContract (Some (key_of n)).

Definition deployer : ScAddress := account 1.
Definition deployer_key : string := strkey_of VersionByteAccountID 1.
Definition gov_timelock : ScAddress := contract 2.
Definition gov_key : string := strkey_of VersionByteContract 2.
Definition fast_timelock : ScAddress := contract 3.
Definition fast_key : string := strkey_of VersionByteContract 3.
Definition rmn_key : string := strkey_of VersionByteContract 4.
Definition hex_of (n : Z) : string := "0x" +:+ hex_EncodeToString (key_of n).

Definition sel : Z := 7.
Definition demo_chains : BlockChains :=
  {[ sel := mkStellarChain (Some (mkStellarSigner (Some deployer_key) deployer_key)) ]}.

Definition demo_refs : list AddressRef :=
  [StellarTimelockDatastoreRef sel "RMNMCMS" gov_key;
   StellarTimelockDatastoreRef sel "UltraFastCurseMCMS" fast_key;
   FullAddressRef RMNRemoteDatastoreRef sel (hex_of 4);
   FullAddressRef RouterDatastoreRef sel (hex_of 5)].

Definition subject (n : Z) : bytes := replicate 15 0 ++ [n].

Definition demo_rmn : Contract :=
  mkContract true (Some deployer) None true [] (Some {[ subject 8 := true ]}).
Definition demo_world : World := {[ key_of 4 := demo_rmn ]}.

(** ** A truthful chain *)

Definition answer_of (o : option (ScVal * World)) (w : World) : outcome (option ScVal) * World :=
  match o with
  | Some (v, w') => (Returns (Some v), w')
  | None => (Errs (ErrorString "Error(WasmVm, InvalidAction)"), w)
  end.

Definition chain_of (signer : ScAddress) (r : greq) (w : World) : gans r * World :=
  match r with
  | SimulateContract cid fn args => ((answer_of (call_contract (fun _ => true) cid fn args w) w).1, w)
  | InvokeContract cid fn args => answer_of (call_contract (only signer) cid fn args w) w
  end.

Lemma chain_of_truthful signer r w :
  ground_step signer w r (chain_of signer r w).2 (chain_of signer r w).1.
Proof.
  destruct r as [cid fn args|cid fn args]; unfold chain_of, answer_of.
  - split; [done|]. destruct (call_contract _ cid fn args w) as [[v w']|]; simpl; [|done]. eauto.
  - destruct (call_contract _ cid fn args w) as [[v w']|] eqn:E; simpl; [left|by right].
    exists v. split; [done|]. by intros o [= <-].
Qed.

(** A run of a governance program by [signer]. *)
Definition on_chain {A} (signer : ScAddress) (p : prog gans A) (w : World) : A * World :=
  let '(a, _, w') := run (chain_of signer) p w [] in (a, w').

(** ** The references *)

Lemma timelock_lookups_agree_witness :
  (forall r r', r ∈ demo_refs -> r' ∈ demo_refs -> timelock_ref sel "RMNMCMS" r = true ->
     timelock_ref sel "RMNMCMS" r' = true -> ref_Address r = ref_Address r') /\
  StellarTimelocksByQualifier demo_refs sel !! "RMNMCMS" = FindExistingStellarTimelock demo_refs sel "RMNMCMS".
Proof.
  assert (Hu : forall r r', r ∈ demo_refs -> r' ∈ demo_refs -> timelock_ref sel "RMNMCMS" r = true ->
            timelock_ref sel "RMNMCMS" r' = true -> ref_Address r = ref_Address r').
  { intros r r' Hr Hr' Tr Tr'. unfold demo_refs in Hr, Hr'. rewrite !elem_of_cons, elem_of_nil in Hr, Hr'.
    destruct Hr as [->|[->|[->|[->|[]]]]], Hr' as [->|[->|[->|[->|[]]]]]; try done;
      vm_compute in Tr, Tr'; done. }
  split; [exact Hu|]. exact (timelock_lookups_agree sel demo_refs "RMNMCMS" Hu).
Defined.

(** Two records of one qualifier: the map keeps the last, the lookup the first. *)
Example lookups_of_duplicates :
  let refs := StellarTimelockDatastoreRef sel "RMNMCMS" fast_key :: demo_refs in
  StellarTimelocksByQualifier refs sel !! "RMNMCMS"%string = Some gov_key /\
  FindExistingStellarTimelock refs sel "RMNMCMS" = Some fast_key.
Proof. by vm_compute. Qed.

Lemma salts_separate_witness :
  no_colon "RMNMCMS" = true /\
  (MCMSRoleDeploySalt sel "RMNMCMS" "" RoleProposer = TimelockDeploySalt sel "RMNMCMS" "" ->
   collision (mcms_seed sel "RMNMCMS" "" RoleProposer) (timelock_seed sel "RMNMCMS" "")).
Proof.
  split; [done|]. refine (proj2 (proj2 (salts_separate sel sel "RMNMCMS" "RMNMCMS" "" "" RoleProposer RoleProposer
    eq_refl eq_refl _ _))); apply list_elem_of_here.
Defined.

(** ** Handing over *)

Definition demo_activation : StellarActivateRMNInput :=
  mkActivateInput sel demo_refs None "" "" [] [subject 9].

Definition rmn_ops : AddressRef := FullAddressRef RMNRemoteDatastoreRef sel rmn_key.
Definition rmn_recorded : AddressRef := FullAddressRef RMNRemoteDatastoreRef sel (hex_of 4).

Lemma deployer_names : names deployer_key deployer.
Proof. split_and!; by vm_compute. Qed.
Lemma gov_names : names gov_key gov_timelock.
Proof. split_and!; by vm_compute. Qed.
Lemma fast_names : names fast_key fast_timelock.
Proof. split_and!; by vm_compute. Qed.

Lemma demo_activation_ok :
  activation demo_chains demo_activation deployer gov_timelock fast_timelock deployer_key gov_key
    fast_key rmn_recorded rmn_ops [].
Proof.
  split; [by vm_compute..|apply deployer_names|apply gov_names|apply fast_names|constructor|done|].
  by repeat constructor.
Qed.

Lemma demo_located : located rmn_key (key_of 4) demo_rmn demo_world.
Proof. split; by vm_compute. Qed.

Lemma demo_ready : rmn_ready demo_rmn {[ subject 8 := true ]}.
Proof. done. Qed.

Lemma demo_wf : contract_wf demo_rmn.
Proof. split; simpl; [by intros a [= <-]|done|constructor]. Qed.

(** The deployer activates, the timelock executes the acceptance, and a second
    activation proposes nothing. *)
Definition accepted_world : option World :=
  let '(_, w1) := on_chain deployer (StellarActivateRMN demo_chains demo_activation) demo_world in
  let '(acc, w2) := on_chain deployer (StellarAcceptOwnership demo_chains
                      (mkTransferInput sel [rmn_ops] gov_key gov_key)) w1 in
  match acc with
  | Returns out => exec_txs gov_timelock w2 (transactions out)
  | _ => None
  end.

Definition rmn_of (w : World) : option (option ScAddress * list ScAddress * bool * bool) :=
  c ← w !! key_of 4;
  Some (c_owner c, c_curse_admins c, is_cursed_by_subject (subject 8) c, is_cursed_by_subject (subject 9) c).

Example handover_run :
  (w ← accepted_world; rmn_of w) = Some (Some gov_timelock, [fast_timelock], true, true) /\
  match accepted_world with
  | Some w => match on_chain deployer (StellarActivateRMN demo_chains (no_subjects demo_activation)) w with
              | (Returns out, w') => transactions out = [] /\ rmn_of w' = rmn_of w
              | _ => False
              end
  | None => False
  end.
Proof. by vm_compute. Qed.

Lemma handover_witness :
  activation demo_chains demo_activation deployer gov_timelock fast_timelock deployer_key gov_key
    fast_key rmn_recorded rmn_ops [] /\
  gwp deployer (StellarActivateRMN demo_chains demo_activation)
    (post (fun out tr w1 =>
             activated demo_activation deployer gov_timelock fast_timelock rmn_recorded []
               (key_of 4) demo_rmn demo_world out tr w1)
          (not_activated demo_activation deployer gov_timelock fast_timelock [] (key_of 4)
             demo_rmn demo_world)) [] demo_world.
Proof.
  split; [apply demo_activation_ok|].
  eapply swp_weaken; [eapply (handover demo_chains demo_activation deployer gov_timelock fast_timelock
    deployer_key gov_key fast_key rmn_recorded rmn_ops [] (key_of 4) demo_rmn _ demo_world)| |done].
  - apply demo_activation_ok.
  - apply demo_located.
  - apply demo_ready.
  - apply demo_wf.
  - by eexists.
  - by intros out tr w1 [Ha _].
Defined.

(** ** Cursing through the adapter *)

Definition demo_environment : Environment := mkEnvironment demo_chains (Some demo_refs).

(** Governance owns the contract and the fast timelock may curse. *)
Definition governed_rmn : Contract :=
  mkContract true (Some gov_timelock) None true [fast_timelock] (Some {[ subject 8 := true ]}).
Definition governed_world : World := {[ key_of 4 := governed_rmn ]}.

(** An adapter that has seen another owner before. *)
Definition stale_adapter : StellarCurseAdapter :=
  mkAdapter ∅ ∅ {[ sel := deployer_key ]} {[ sel := [deployer_key] ]} ∅.

Definition demo_curse (qual : string) (n : Z) : CurseInput := mkCurseInput sel [subject n] qual.

Definition adapter_after (w : World) : StellarCurseAdapter :=
  ((on_chain deployer (Initialize ContractOwner CurseAdmins demo_environment sel stale_adapter) w).1).2.

(** With the fast qualifier the curse is a proposal of the fast timelock; without
    one nobody asked for may send it.  Only the owner's stack lifts it. *)
Example adapter_routes :
  let a := adapter_after governed_world in
  match on_chain deployer (adapter_Curse a demo_chains (demo_curse "UltraFastCurseMCMS" 9)) governed_world with
  | (Returns out, w) => w = governed_world /\
      (w' ← exec_txs fast_timelock w (transactions out); rmn_of w')
      = Some (Some gov_timelock, [fast_timelock], true, true)
  | _ => False
  end /\
  is_done (on_chain deployer (adapter_Curse a demo_chains (demo_curse "" 9)) governed_world).1 = false /\
  is_done (on_chain deployer (adapter_Uncurse a demo_chains (demo_curse "UltraFastCurseMCMS" 8)) governed_world).1 = false /\
  match on_chain deployer (adapter_Uncurse a demo_chains (demo_curse "RMNMCMS" 8)) governed_world with
  | (Returns out, w) =>
      (w' ← exec_txs gov_timelock w (transactions out); rmn_of w')
      = Some (Some gov_timelock, [fast_timelock], false, false)
  | _ => False
  end.
Proof. by vm_compute. Qed.

(** The comment of [StellarUncurse] has every uncurse go through the governance
    stack; the owner's deployer runs it itself, whatever stack it is asked for. *)
Example uncurse_of_a_deployer :
  match on_chain deployer (adapter_Uncurse (adapter_after demo_world) demo_chains
                             (demo_curse "UltraFastCurseMCMS" 8)) demo_world with
  | (Returns out, w) => transactions out = [] /\ rmn_of w = Some (Some deployer, [], false, false)
  | _ => False
  end.
Proof. by vm_compute. Qed.

Lemma demo_known : known deployer demo_environment sel stale_adapter rmn_key deployer_key.
Proof. split; [by vm_compute..|apply deployer_names]. Qed.

Lemma governed_wf : contract_wf governed_rmn.
Proof.
  split; simpl; [by intros a [= <-]|done|]. by repeat constructor.
Qed.

Lemma adapter_curse_lands_witness :
  known deployer demo_environment sel stale_adapter rmn_key deployer_key /\
  gwp deployer (Initialize ContractOwner CurseAdmins demo_environment sel stale_adapter)
    (fun x tr w' => initialized demo_environment sel rmn_key governed_rmn governed_world stale_adapter x tr w' /\
       (is_done x.1 = true ->
        gwp deployer (adapter_Curse x.2 (e_Chains demo_environment) (demo_curse "UltraFastCurseMCMS" 9))
          (post (landed deployer (curse_input x.2 rmn_key (demo_curse "UltraFastCurseMCMS" 9))
                   (key_of 4) governed_rmn governed_world)
                (not_landed deployer (e_Chains demo_environment) (curse_input x.2 rmn_key (demo_curse "UltraFastCurseMCMS" 9))
                   (key_of 4) governed_rmn governed_world)) [] governed_world)) [] governed_world.
Proof.
  split; [apply demo_known|].
  apply (adapter_curse_lands deployer demo_environment sel stale_adapter rmn_key deployer_key (key_of 4)
           governed_rmn {[ subject 8 := true ]} governed_world (demo_curse "UltraFastCurseMCMS" 9)).
  - apply demo_known.
  - split; by vm_compute.
  - done.
  - apply governed_wf.
  - by eexists.
  - done.
  - by repeat constructor.
Defined.

Lemma adapter_uncurse_by_owner_witness :
  known deployer demo_environment sel stale_adapter rmn_key deployer_key /\
  gwp deployer (Initialize ContractOwner CurseAdmins demo_environment sel stale_adapter)
    (fun x tr w' => is_done x.1 = true ->
        gwp deployer (adapter_Uncurse x.2 (e_Chains demo_environment) (demo_curse "RMNMCMS" 8))
          (post (lifted deployer (curse_input x.2 rmn_key (demo_curse "RMNMCMS" 8))
                   (key_of 4) governed_rmn governed_world)
                (not_lifted deployer (curse_input x.2 rmn_key (demo_curse "RMNMCMS" 8))
                   (key_of 4) governed_rmn governed_world)) [] governed_world) [] governed_world.
Proof.
  split; [apply demo_known|].
  apply (adapter_uncurse_by_owner deployer demo_environment sel stale_adapter rmn_key deployer_key (key_of 4)
           governed_rmn {[ subject 8 := true ]} governed_world (demo_curse "RMNMCMS" 8)).
  - apply demo_known.
  - split; by vm_compute.
  - done.
  - apply governed_wf.
  - by eexists.
  - done.
  - by repeat constructor.
Defined.

(** ** Verifying a stack *)

Definition mcms_key (n : Z) : string := strkey_of VersionByteContract (20 + n).

Definition stack_refs : list AddressRef :=
  [mkAddressRef (mcms_key 1) sel [] "RMNMCMS" ProposerManyChainMultisig MCMSVersion;
   mkAddressRef (mcms_key 2) sel [] "RMNMCMS" CancellerManyChainMultisig MCMSVersion;
   mkAddressRef (mcms_key 3) sel [] "RMNMCMS" BypasserManyChainMultisig MCMSVersion;
   StellarTimelockDatastoreRef sel "RMNMCMS" gov_key].

(** The roles that a deployment grants, and those of [extra]. *)
Definition stack_chain (extra : list (string * string)) : Chain :=
  mkChain
    (fun a => if decide (a = mcms_key 1) then "PROPOSER" else if decide (a = mcms_key 2) then "CANCELLER"
              else "BYPASSER")%string
    (fun _ => gov_key) (fun _ => key_of 99)
    (fun _ role account => bool_decide ((role, account) ∈
       [("ADMIN", gov_key); ("PROPOSER", mcms_key 1); ("CANCELLER", mcms_key 1); ("CANCELLER", mcms_key 2);
        ("BYPASSER", mcms_key 3)]%string ++ extra))
    (fun _ => 3600) (fun _ => gov_key).

Definition reads_of (r : vreq) (c : Chain) : vans r * Chain := (Returns (truth c r), c).

Definition verified (c : Chain) : bool :=
  let '(r, _, _) := run reads_of
    (VerifyStellarMCMSGovernanceWithExpectations four_addresses stack_refs sel "RMNMCMS" deployer_key
       (mkExpectations (Some 3600) [rmn_ops])) c [] in is_done r.

(** The comment says the role matrix is checked exactly.  A grant to the deployer is
    found, but not one to another member of the stack, or to a stranger. *)
Example roles_beyond_the_matrix :
  verified (stack_chain []) = true /\
  verified (stack_chain [("BYPASSER", deployer_key)]%string) = false /\
  verified (stack_chain [("PROPOSER", mcms_key 2)]%string) = true /\
  verified (stack_chain [("ADMIN", fast_key)]%string) = true.
Proof. by vm_compute. Qed.

Lemma verify_decides_witness :
  (forall t, four_addresses t ≡ₚ four_addresses t) /\
  swp chain_step (VerifyStellarMCMSGovernanceWithExpectations four_addresses stack_refs sel "RMNMCMS"
                    deployer_key (mkExpectations (Some 3600) [rmn_ops]))
    (post (fun _ _ c' => c' = stack_chain [] /\ exists t,
             stack_of stack_refs sel "RMNMCMS" deployer_key t /\
             well_governed (stack_chain []) t (mkExpectations (Some 3600) [rmn_ops]))
          (fun tr' c' => c' = stack_chain [] /\ (some_read_failed tr' \/
             ~ exists t, stack_of stack_refs sel "RMNMCMS" deployer_key t /\
                 well_governed (stack_chain []) t (mkExpectations (Some 3600) [rmn_ops])))) [] (stack_chain []).
Proof.
  split; [done|].
  apply (verify_decides (stack_chain []) four_addresses stack_refs sel "RMNMCMS" deployer_key
           (mkExpectations (Some 3600) [rmn_ops]) []). done.
Defined.

(** ** Deploying a stack *)

#[export] Instance demo_mcms_sdk : McmsSdk := {|
  MCMSConfig := bytes * bytes * list bytes * list Z;
  ExtractSetConfigInputs c := Ok c
|}.

#[export] Instance demo_wasm_files : WasmFiles := {|
  ResolveMCMSWasmPath := Ok "mcms.wasm"%string;
  ResolveTimelockWasmPath := Ok "timelock.wasm"%string;
  wasm_contract p := if decide (p = "mcms.wasm"%string) then Some (IMcms mcms_blank)
                     else if decide (p = "timelock.wasm"%string) then Some (ITimelock timelock_blank) else None
|}.

#[export] Instance demo_wasm_laws : WasmLaws.
Proof. split; [intros p [= <-]|intros p [= <-]]; by vm_compute. Qed.

#[export] Instance demo_distinct_types : DistinctTypes.
Proof. split; [|by vm_compute]. apply (bool_decide_unpack _). by vm_compute. Qed.

(** One signer, who is a quorum of the root group. *)
Definition signer_config (n : Z) : MCMSConfig :=
  (1 :: replicate 31 0, replicate 32 0, [replicate 20 n], [0]).

Definition passphrase : string := "Test SDF Network; September 2015".

Definition demo_deployment (delay : Z) (refs : list AddressRef) : MCMSDeployment :=
  mkMCMSDeployment sel (Some "CLLCCIP"%string) None (signer_config 1) (signer_config 2) (signer_config 3)
    (Some delay) refs.

(** A chain that numbers the contracts as they are deployed. *)
Definition stack_chain_of (signer : ScAddress) (r : sreq) (w : Stack) : sans r * Stack :=
  match r with
  | DeployContract p _ =>
      let id := key_of (30 + Z.of_nat (size w)) in
      match wasm_contract p, encode_strkey VersionByteContract id with
      | Some i, Ok cid => (Returns cid, <[id := i]> w)
      | _, _ => (Errs (ErrorString "wasm"), w)
      end
  | Call (SimulateContract cid fn args) =>
      (match call_inst (fun _ => true) cid fn args w with
       | Some (v, _) => Returns (Some v)
       | None => Errs (ErrorString "Error(WasmVm, InvalidAction)")
       end, w)
  | Call (InvokeContract cid fn args) =>
      match call_inst (only signer) cid fn args w with
      | Some (v, w') => (Returns (Some v), w')
      | None => (Errs (ErrorString "Error(WasmVm, InvalidAction)"), w)
      end
  end.

Definition deploy_run (delay : Z) (refs : list AddressRef) :=
  run (stack_chain_of deployer)
    (deploy_and_finalize four_addresses demo_chains passphrase (demo_deployment delay refs)) ∅ [].

Definition sends (tr : list (event sans)) : nat :=
  length (List.filter (fun e => match ev_req e with Call r => greq_invokes r | _ => false end) tr).

(** Four contracts; the transactions sent are the four initializations and twelve
    reads of the verifier. *)
Example deploy_runs :
  match deploy_run 3600 demo_refs with
  | (Returns out, tr, w) => length (o_Addresses out) = 4%nat /\ size w = 4%nat /\ sends tr = 16%nat
  | _ => False
  end.
Proof. by vm_compute. Qed.

(** A delay that does not fit is found after the four contracts are there; the
    timelock is left for anyone to initialize. *)
Example bad_delay_found_late :
  match deploy_run (-1) demo_refs with
  | (Errs _, _, w) => w !! key_of 33 = Some (ITimelock timelock_blank) /\ size w = 4%nat
  | _ => False
  end.
Proof. by vm_compute. Qed.

Lemma deployment_governs_witness :
  unrecorded (demo_deployment 3600 demo_refs) /\
  swp (stack_step deployer)
    (deploy_and_finalize four_addresses demo_chains passphrase (demo_deployment 3600 demo_refs))
    (post (fun out _ w' => exists t p c b tl d,
             stack_deployed (demo_deployment 3600 demo_refs) (ChainNetworkID passphrase) ∅ w' t p c b tl /\
             stack_of (demo_refs ++ o_Addresses out) sel "CLLCCIP" deployer_key t /\
             timelockMinDelay_of (demo_deployment 3600 demo_refs) = Ok d /\
             well_governed (snapshot w') t (mkExpectations (Some d) []) /\
             DeployStellarMCMS demo_chains passphrase
               (over (demo_refs ++ o_Addresses out) (demo_deployment 3600 demo_refs)) = mret out)
          (given_up (demo_deployment 3600 demo_refs) ∅)) [] ∅.
Proof.
  assert (Hu : unrecorded (demo_deployment 3600 demo_refs)).
  { intros ct. rewrite !elem_of_cons, elem_of_nil. by intros [->|[->|[->|[->|[]]]]]; vm_compute. }
  split; [exact Hu|].
  apply (deployment_governs deployer four_addresses demo_chains passphrase (demo_deployment 3600 demo_refs)
           deployer_key (Some (mkAccountId 0 (Some (key_of 1)))) ∅ []).
  - done.
  - done.
  - by vm_compute.
  - apply deployer_names.
  - exact Hu.
Defined.

(** ** The bindings *)

Definition demo_call : gval :=
  GStruct [("ArgsXdr", GBytes [1; 2]); ("Function", GString "curse"); ("Target", GString rmn_key)]%string.
Definition demo_calls : gval := GStruct [("Inner"%string, GSlice [demo_call])].

Lemma rmn_key_fits : fits_address rmn_key.
Proof. exists (contract 4). repeat split; vm_compute; reflexivity. Defined.


(** *** An event of the forwarder *)

Definition report_member : string -> gval :=
  fun k =>
    if decide (k = "Receiver"%string) then GString rmn_key
    else if decide (k = "WorkflowExecutionId"%string) then GArray (key_of 9)
    else if decide (k = "ReportId"%string) then GArray [0; 1]
    else if decide (k = "Success"%string) then GBool true
    else if decide (k = "Ledger"%string) then GUint32 12
    else GString "t1".

Definition report_codec : Codec := {|
  strkey_Encode := strkey_Encode;
  strkey_Decode := strkey_Decode;
  xdr_AddressToAccountId := xdr_AddressToAccountId;
  ScAddress_UnmarshalBinary := ScAddress_UnmarshalBinary;
  ScVal_MarshalBinary := ScVal_MarshalBinary;
  ScVal_UnmarshalBinary := ScVal_UnmarshalBinary;
  ScVal_UnmarshalBase64 s :=
    if String.eqb s "T1" then Ok (AddressToScVal rmn_key)
    else if String.eqb s "T2" then Ok (BytesToScVal (key_of 9))
    else if String.eqb s "T3" then Ok (BytesToScVal [0; 1])
    else if String.eqb s "E1" then Ok (ScvMap (Some (Some [mkScMapEntry (ScvSymbol (Some "success")) (BoolToScVal true)])))
    else Err (ErrorString "not scripted")
|}.

Lemma report_laws : @CodecLaws report_codec.
Proof. destruct stellar_codec_laws. by split. Qed.

Definition report_event : protocol.EventInfo :=
  protocol.mkEventInfo "contract" 12 "" rmn_key "e1" 0 0 "t1" ["T0"; "T1"; "T2"; "T3"]%string "E1".

Definition report_processed : Bindgen.Event :=
  mkGenEvent "ReportProcessedEvent" ["forwarder_ReportProcessed"]
    [mkEventField (mkField "receiver" "soroban_sdk::Address") true;
     mkEventField (mkField "workflow_execution_id" "soroban_sdk::BytesN<32>") true;
     mkEventField (mkField "report_id" "soroban_sdk::BytesN<2>") true;
     mkEventField (mkField "success" "bool") false].


Lemma WaitFor_spec_witness :
  cre_WaitForReportProcessedEvent ∈ cf_Helpers (b_client binding_cre) /\
  exists d topic, find_event (b_types binding_cre) (eh_Event cre_WaitForReportProcessedEvent) = Some d /\ ed_Topic d = Some topic /\
    wp (run_wait (b_types binding_cre) 1 3 cre_WaitForReportProcessedEvent None rmn_key 12 60)
      (waited None (run_parse (b_types binding_cre) 1 cre_WaitForReportProcessedEvent) rmn_key topic 12 60 3) [].
Proof.
  assert (Hh : cre_WaitForReportProcessedEvent ∈ cf_Helpers (b_client binding_cre))
    by (vm_compute; repeat (first [left|right])).
  split; [exact Hh|]. apply WaitFor_spec; [|exact Hh]. unfold bindings. repeat (first [left|right]).
Defined.


(** ** Fee tokens *)

#[export] Instance demo_fee_sdk : FeeSdk := {|
  onramp_ContractType := "OnRamp";
  onramp_Version := Some "2.0.0"%string;
  CommitteeVerifierResolverType := "CommitteeVerifierResolver";
  vvr_Version := Some "2.0.0"%string;
  Withdraw.committee_verifier_ContractType := "CommitteeVerifier";
  committee_verifier_Version := Some "2.0.0"%string;
  Addresses_Get refs sel key :=
    match filter (fun r => ref_ChainSelector r = sel /\ ref_Type r = d_Type key /\
                           ref_Qualifier r = d_Qualifier key) refs with
    | r :: _ => Ok r
    | [] => Err (ErrorString "address ref not found")
    end
|}.

Definition first_verifier : AddressRef :=
  FullAddressRef (CommitteeVerifierDatastoreRefWithQualifier "") sel (hex_of 7).
Definition second_verifier : AddressRef :=
  FullAddressRef (CommitteeVerifierDatastoreRefWithQualifier "secondary") sel (hex_of 8).
Definition fee_refs : list AddressRef :=
  [FullAddressRef OnRampDatastoreRef sel (hex_of 6); first_verifier; second_verifier].

Definition demo_withdrawal (refs : list AddressRef) : WithdrawFeeTokensForChain :=
  mkWithdraw sel refs [mkFeeToken gov_key None].


(** A chain whose contracts all belong to the deployer. *)
Definition deployers_own (r : greq) (_ : unit) : gans r * unit :=
  match r with
  | SimulateContract _ _ _ => (Returns (Some (AddressToScVal deployer_key)), tt)
  | InvokeContract _ _ _ => (Returns None, tt)
  end.

Definition called (tr : list (Interaction.event gans)) : list string :=
  omap (fun e => match ev_req e with InvokeContract id _ _ => Some id | _ => None end) tr.

(** Two verifiers are given, and only the last of them is swept. *)
Example one_verifier_of_two :
  let '(r, tr, _) := run deployers_own
    (ApplyStellarWithdrawFeeTokens demo_chains (Some fee_refs) (demo_withdrawal [first_verifier; second_verifier])) tt [] in
  r = (Returns tt, []) /\ called tr = [strkey_of VersionByteContract 8].
Proof. by vm_compute. Qed.
